(* ===== verification/_CoqProject ===== *)
-Q . S2P
Prelude.v
Sdk.v
World.v
SdkRef.v
Wire.v
FeesTypes.v
Fees.v
OracleTypes.v
OracleAgg.v
OracleKeeper.v
OracleEndBlock.v
OracleSafety.v
OracleInv.v
OracleGenesis.v
RwaTypes.v
Codec.v
Foreign.v
WireMsg.v
FeesCodec.v
OracleCodec.v
RwaCodec.v
TwapCodec.v
Pulsar.v
Reflect.v
ApiFees.v
ApiOracle.v
ApiRwa.v
ApiFeesBase.v
ApiOracleBase.v
ApiLists.v
Interop.v
ApiRef.v
Grpc.v
GrpcFees.v
GrpcOracle.v
GrpcRwa.v
ApiGrpcFees.v
ApiGrpcOracle.v
ApiGrpcRwa.v
ApiGrpcBase.v
RwaKeeper.v
RwaMsg.v
RwaInv.v
RwaSpec.v
RwaSafety.v
RwaRefine.v
RwaRef.v
Sim.v
FeesSim.v
OracleSim.v
RwaSim.v
SimDecode.v
RwaGenesis.v
RwaRestart.v
FeederAgg.v
FeederConfig.v
FeederLoop.v
FeederSafety.v
FeederNode.v
TxFlood.v
App.v
GrpcServices.v
GrpcRef.v
MultiNode.v
Testnet.v
Chain.v
ChainRef.v
ChainLive.v
AppExport.v
ChainRestart.v
