(* ===== verification/Prelude.v ===== *)
(** * Vertix: a verification development

    Vertix is a Cosmos SDK chain. Its own logic is in three modules and in a
    sidecar process:

    - x/fees burns, at the end of every block, a governed share of the fees that
      x/auth collected, and keeps the burned total;
    - x/oracle lets bonded validators (or a feeder account they bind) submit
      prices; at every vote-window boundary it aggregates them into stake-weighted
      medians and time-weighted averages, slashes outliers and absent validators,
      and clears the feeds;
    - x/rwa registers real-world assets under a bonded issuer, attests, mints,
      transfers, restricts and settles them; its restrictions are enforced by a
      hook of x/bank, and an attestation reads a price of x/oracle;
    - vertix-feeder (feeder/) reads prices from several sources, takes their
      median and submits it to x/oracle once per vote window.

    app/ composes the modules with those of the SDK: account permissions, the
    orders in which the modules run, the delivery of messages. Clients reach the
    modules through the gRPC services and the HTTP gateway that are generated from
    the protobuf schemas, in two bindings: that of the node (x/*/types) and that of
    the client library (api/vertix).

    ** How the code is translated

    A Go call is a value of [M A] ([Prelude]: a function from a state to a result
    and a state), the result being a value, an [error] or a panic ([res]). A
    keeper's context is [World.world]: the byte stores of the three modules, the
    state of the SDK modules, the header, the events. [int64] and [uint64] are [Z]
    with the wrap-around of [Prelude] where the source computes on them; bytes
    are [list byte]; strings [string]; a [float64] is a [spec_float]. The keepers
    read and write bytes: every stored message goes through the generated
    encoding ([Wire] and the [*Types] files), and every iteration is one over an
    ordered byte range.

    Code outside the repository is a parameter: a class of operations with a
    class of laws that states its documented behaviour ([Sdk]; [Http],
    [CoinParser] and [NodeClient] for the feeder; [SdkImports], [ApiImports]
    and [DecWire] for the types of other packages that our messages contain;
    [SdkModules] for the modules of the SDK and IBC, whose laws let the end-blocker of
    x/gov execute the messages of passed proposals; [ClientConn] and
    [GatewayRuntime] for gRPC and its gateway; [NodeTools] and [TestnetKeepers] for
    the testnet commands). [SdkRef], [ApiRef], [GrpcRef], [FeederNode], [ChainRef]
    and [Testnet] hold concrete instances that satisfy the laws, on which the
    witnesses evaluate. The message router of the SDK, which finds the handler of a
    message by its type, is written out as [App.deliver].

    ** The files

    - [Prelude]: results and the state monad, machine integers, lists and sums,
      the tactics and the hint database [vtx].
    - [Sdk], [World], [SdkRef]: the interfaces of the SDK with their laws, the
      state and its operations with the frame and guarantee calculus
      ([guarantees], [framed]), the reference instances.
    - [Wire]: varints, length-delimited fields, the backwards-filled buffer and the
      decoding loop of x/*/types/*.pb.go. [Codec]: the encoding by fields that the
      protobuf schemas prescribe, and the termination of decoding. [Foreign]:
      fields the schema does not name, of every wire type, groups included. [WireMsg]: what every generated message
      promises (the class of its codec laws), with the shared decoding steps.
      [FeesCodec], [OracleCodec], [RwaCodec]: the remaining messages of
      types.pb.go, genesis.pb.go, tx.pb.go and query.pb.go of the three modules; [TwapCodec]: the one with a field of type
      [LegacyDec].
    - [Pulsar], [Reflect]: the generated client API, its wire methods and its
      reflection interface (Range, Has, Clear, Get, Set, Mutable, NewField,
      SetUnknown) with their laws. [ApiFees], [ApiOracle], [ApiRwa]: the 59
      messages of api/vertix/*/v1 and api/vertix/*/module; [ApiFeesBase],
      [ApiOracleBase]: the 12 of the unversioned packages api/vertix/fees and
      api/vertix/oracle, which nothing imports; [ApiLists]: the wrappers of repeated
      fields, with the contract of protoreflect.List. [Interop]: the two generated codecs
      against the schemas and against each other. [ApiRef]: concrete imported
      messages.
    - [Grpc]: the generated texts of a client stub, a method handler and a gateway
      function, and what a connection to a server does. [GrpcFees], [GrpcOracle],
      [GrpcRwa]: the services and the gateway of x/*/types; [ApiGrpcFees],
      [ApiGrpcOracle], [ApiGrpcRwa], [ApiGrpcBase]: the services of api/vertix.
      [GrpcServices]: the keepers behind the services; [GrpcRef]: a connection within
      one process.
    - [FeesTypes], [Fees]: x/fees (types/, keeper/).
    - [OracleTypes], [OracleAgg], [OracleKeeper], [OracleEndBlock],
      [OracleSafety], [OracleInv], [OracleGenesis]: x/oracle (types/;
      keeper/aggregate.go; keeper.go, feeder.go, twap.go, msg_server.go,
      grpc_query.go, genesis.go, invariants.go; abci.go; executions as a step
      relation; the invariant of the store; restart from an export).
    - [RwaTypes], [RwaKeeper], [RwaMsg], [RwaInv], [RwaSpec], [RwaSafety],
      [RwaRefine], [RwaRef], [RwaGenesis], [RwaRestart]: x/rwa (types/; keeper.go, denom.go, fee.go, bond.go,
      restriction.go, send_restriction.go, genesis.go, grpc_query.go,
      invariants.go; msg_server.go; the invariant, the behaviour of each message,
      executions, the abstract market that the module implements, a concrete life of
      an asset, the genesis round trip, restart from an export).
    - [Sim], [FeesSim], [OracleSim], [RwaSim]: x/*/simulation/operations.go and
      x/*/module/simulation.go, as functions of the values that the random source
      draws. [SimDecode]: x/*/simulation/decoder.go.
    - [FeederAgg], [FeederConfig], [FeederLoop], [FeederSafety], [FeederNode]:
      feeder/feeder (aggregate.go, cache.go; config.go and provider/; metrics.go,
      priceloop.go, submitloop.go, broadcaster.go, feeder.go; the interleaving of
      the two loops; batches and the account sequence).
    - [App], [Chain], [ChainRef]: app/ (app_config.go, app.go, the upgrade handler
      and the module wiring), the whole application as one transition system, a
      run of it. [ChainLive]: its end of block always succeeds. [AppExport]: export.go
      (the zero-height genesis, its jailing of validators) and genesis_account.go.
      [ChainRestart]: export and import of the whole application.
    - [Testnet], [MultiNode]: cmd/vertixd/cmd/testnet.go and testnet_multi_node.go, the
      testnet in place and the files of a testnet of several nodes.
    - [TxFlood]: infra/loadtest/clients/txflood/main.go, the goroutines of the load
      generator as interleaved actions on its counters and account sequences.

    ** What the theorems show

    - Encodings: for every message [Marshal] produces the bytes of the protobuf
      schema and [Unmarshal] reads them back; on any bytes whatever [Unmarshal]
      returns; fields of a newer schema are skipped by the chain and kept by the
      client, at every depth of nested messages. Chain and client code agree byte for byte and read each other's
      messages; the reflection methods of the client read back what they wrote and
      leave the other fields alone. The store operations rest on these.
    - x/fees: the end-blocker burns exactly the floor of the configured share of
      the collected fees and adds it to the total; the supply at genesis, the
      supply and the burned total stay reconciled over every execution whose only
      burner is the module; only the authority changes the parameters.
    - x/oracle: the median is a weighted median, and exactly which feeds can move it
      out of a band; a boundary block, on feeds below 2^255 units, publishes it for
      exactly the pairs with quorum and leaves all other prices alone, counts the misses, slashes, clears the feeds; the
      guards of a feed; TWAP, its pruning, the life of a price; a feeder serves at
      most one validator in every reachable state.
    - x/rwa: on every branch, what a message does to the record, the ledger and
      the restrictions; in every reachable state the module's balance covers the
      bonds, the supply of each factory denom is the minted notional, and an asset
      moves only along its life cycle; the transfer policy at the bank; settlement
      succeeds whenever its conditions hold; genesis round trip. Every message
      that succeeds is a step of an abstract market of assets, holdings and
      escrowed bonds, and one that fails leaves it unchanged.
    - Restarts: which states of x/oracle, of x/rwa and of the whole application can be
      exported and imported again, and that the import rebuilds them (that of x/oracle
      panics in all other cases).
    - Services: a query of a client, through both codecs, the dispatch and the
      generated handler, returns what the keeper answers; the handler of every message
      does what delivery does; the two registrations of the gateway answer alike.
    - vertix-feeder: the published median is within the honest sources when they
      are a majority; whatever the interleaving of its loops, at most one batch
      per window is accepted (of a node whose height does not decrease), and only fresh
      prices of pairs that are healthy at the poll are submitted; which validated
      configurations start, and that their pairs have sources; a batch is valid for
      the chain or refused as a whole; the account sequence is in step with the
      node.
    - app: each module was verified against an environment that keeps off its
      store and accounts; [Chain] shows that the other modules, composed as app/
      composes them, are such environments, so that the invariants hold of the
      application; [ChainLive] shows that no reachable state makes the end-blockers of
      the three modules fail, as long as no window closes on a feed of 2^255 units or
      more (x/oracle does not enforce this bound).
    - Testnets: the command in place leaves exactly the new validator, bonded and not
      jailed, and panics when it has accounts to fund; the nodes of one machine have distinct ports, and each
      gets the genesis transactions of all.
    - Simulation: the generated genesis states pass validation, and the randomised
      messages are accepted by the servers, but for one
      ([OracleSim.simulated_delegation_fails]); the decoders print every entry of two
      stores without a panic. Load generator: the counters add
      up under every interleaving.

    Theorems that show a defect or a gap between a comment and the code are named
    after the effect ([slashing_breaks_reconcile],
    [UpdateParams_breaks_prices_invariant], [WeightedMedian_odd_total],
    [EndBlocker_outlier_overflow], [twap_leading_not_clamped],
    [fees_account_receives], [gas_out_of_range_panics],
    [unknown_provider_passes_Validate], [removed_pair_blocks_restart],
    [removed_validator_blocks_restart],
    [raised_bond_blocks_restart], [slash_blocks_zero_height_export],
    [simulated_delegation_fails], [same_sequence_twice], [equal_bank_keys_loop],
    [min_gas_prices_ignored], [stake_amounts_shifted], and the second half of
    [in_place_testnet]).

    ** Bounds and fuel

    The varint decoder stops after ten bytes, as the source does (shift >= 64).
    The loops that consume a buffer, on both sides of the wire, recurse with fuel
    equal to its length; running out of it is a panic of the model, and
    [Interop.Unmarshal_returns] shows that no input reaches it, since each turn
    consumes at least one byte. Iterators return finite lists of entries; all other
    recursion is structural. The two loops of the feeder do not end by
    themselves: they are run over a list of ticks, and as a transition system.

    ** Not modelled

    Of the generated code: the descriptors, getters, registrations of types and
    the slow path of the protobuf runtime; dialing and
    the JSON form of answers in the gateway; metadata and options of gRPC calls; the
    cobra commands (flags, I/O, starting of servers); construction of SDK and IBC
    keepers and dependency injection in app/ (calls into the SDK); reading of the
    feeder's YAML file, HTTP and JSON transport, the metrics server and logging; the
    JSON form of an exported genesis; the weights of the simulation; signing,
    transport and the floating-point summary of the load generator; test
    fixtures. Gas is not metered. *)

From Stdlib Require Export ZArith Lia String Ascii.
From Stdlib Require Export Strings.Byte.
From stdpp Require Export base list gmap strings sorting.

Create HintDb vtx.

(** ** Go errors, and results of fallible calls *)

(** A Go [error] value. [Registered] is a sentinel of cosmossdk.io/errors
    ([errors.Register(codespace, code, _)]; [Wrap]/[Wrapf] keep the identity
    that [errors.Is] tests, so the wrapped message is dropped), [Status] a gRPC
    status error, [Errorf] any other error value ([fmt.Errorf], [errors.New]). *)
Inductive error : Type :=
| Registered (codespace : string) (code : Z)
| Status (code : Z)
| Errorf (msg : string).

#[global] Instance error_eq_dec : EqDecision error.
Proof. solve_decision. Defined.

(** The three ways a Go call ends: a value, a non-nil [error], a panic. *)
Inductive res (A : Type) : Type :=
| Ok (a : A)
| Err (e : error)
| Panic.
Arguments Ok {_} _.
Arguments Err {_} _.
Arguments Panic {_}.

#[global] Instance res_eq_dec `{EqDecision A} : EqDecision (res A).
Proof. solve_decision. Defined.

Definition is_ok {A} (r : res A) : bool := match r with Ok _ => true | _ => false end.

#[global] Instance res_ret : MRet res := fun A a => Ok a.
#[global] Instance res_bind : MBind res := fun A B f r =>
  match r with Ok a => f a | Err e => Err e | Panic => Panic end.

(** State passing with the three outcomes. The state is kept on an error: a
    handler that fails half-way has made its earlier writes (the rollback of a
    failed transaction is the caller's). *)
Definition M (S A : Type) : Type := S -> S * res A.

#[global] Instance M_ret {S} : MRet (M S) := fun A a s => (s, Ok a).
#[global] Instance M_bind {S} : MBind (M S) := fun A B f m s =>
  match m s with
  | (s', Ok a) => f a s'
  | (s', Err e) => (s', Err e)
  | (s', Panic) => (s', Panic)
  end.

(** A call that only reads the state. *)
Definition ask {S A} (f : S -> res A) : M S A := fun s => (s, f s).

(** A pure fallible call. *)
Definition lift {S A} (r : res A) : M S A := fun s => (s, r).

Definition throw {S A} (e : error) : M S A := fun s => (s, Err e).

(** [if cond { return err }]. *)
Definition guard_err {S} (cond : bool) (e : error) : M S unit :=
  fun s => if cond then (s, Err e) else (s, Ok tt).

Definition modify {S} (f : S -> S) : M S unit := fun s => (f s, Ok tt).

(** [for _, x := range l { if err := body(x); err != nil { return err } }]. *)
Fixpoint mfor {S A} (l : list A) (body : A -> M S unit) : M S unit :=
  match l with
  | [] => mret tt
  | x :: l => body x ≫= fun _ => mfor l body
  end.

(** The same with an accumulator threaded through the iterations. *)
Fixpoint mfold {S A B} (l : list A) (acc : B) (body : B -> A -> M S B) : M S B :=
  match l with
  | [] => mret acc
  | x :: l => body acc x ≫= fun acc => mfold l acc body
  end.

(** A fallible read-only loop with an accumulator. *)
Fixpoint rfold {A B} (l : list A) (acc : B) (body : B -> A -> res B) : res B :=
  match l with
  | [] => Ok acc
  | x :: l => body acc x ≫= fun acc => rfold l acc body
  end.

(** [if err != nil { return e }]: every error of [r] becomes [e]. *)
Definition wrap_err {A} (e : error) (r : res A) : res A :=
  match r with Err _ => Err e | r => r end.

Definition map_err {A} (f : error -> error) (r : res A) : res A :=
  match r with Err e => Err (f e) | r => r end.

(** google.golang.org/grpc/codes. *)
Definition InvalidArgument : error := Status 3.
Definition NotFound : error := Status 5.
Definition FailedPrecondition : error := Status 9.

(** [if err := m(); err != nil { log(err); return nil }], then [k]. *)
Definition or_return {S A} (m : M S A) (k : A -> M S unit) : M S unit := fun s =>
  match m s with
  | (s', Ok a) => k a s'
  | (s', Err _) => (s', Ok tt)
  | (s', Panic) => (s', Panic)
  end.

(** [if err := m(); err != nil { panic(err) }]. *)
Definition must {S A} (m : M S A) : M S A := fun s =>
  match m s with
  | (s', Err _) => (s', Panic)
  | r => r
  end.

Definition must_res {A} (r : res A) : res A :=
  match r with Err _ => Panic | r => r end.

(** ** Bytes *)

#[global] Instance byte_eq_dec : EqDecision byte := Byte.byte_eq_dec.
#[global] Program Instance byte_countable : Countable byte := {|
  encode b := encode (Byte.to_N b);
  decode p := decode p ≫= Byte.of_N
|}.
Next Obligation. intros b. cbn. rewrite decode_encode. apply Byte.of_to_N. Qed.

Abbreviation bytes := (list byte).

(** [[]byte(s)] and [string(b)]: a Go string is a byte sequence. *)
Definition bytes_of (s : string) : bytes := list_byte_of_string s.
Definition string_of (b : bytes) : string := string_of_list_byte b.

Definition Z_of_byte (b : byte) : Z := Z.of_N (Byte.to_N b).

(** The conversion [byte(z)]: the low 8 bits. *)
Definition byte_of_Z (z : Z) : byte := default x00 (Byte.of_N (Z.to_N (z mod 256))).

(** The order of [bytes.Compare], by which key-value stores iterate. *)
Fixpoint bytes_ltb (a b : bytes) : bool :=
  match a, b with
  | _, [] => false
  | [], _ :: _ => true
  | x :: a, y :: b =>
      if (Z_of_byte x <? Z_of_byte y)%Z then true
      else if (Z_of_byte y <? Z_of_byte x)%Z then false
      else bytes_ltb a b
  end.

Definition bytes_leb (a b : bytes) : bool := negb (bytes_ltb b a).

(** The comparison [f(a) < f(b)] of two strings, as a less function of [sort]. *)
Definition string_less {A} (f : A -> string) (a b : A) : bool :=
  bytes_ltb (bytes_of (f a)) (bytes_of (f b)).

(** [strconv.FormatBool]. *)
Definition FormatBool (b : bool) : string := if b then "true" else "false".

(** ** Machine integers *)

Open Scope Z_scope.

Definition two63 : Z := 9223372036854775808.
Definition two64 : Z := 18446744073709551616.

(** Two's complement wrap-around of an [int64] result, and the conversion
    [uint64(z)]. *)
Definition wrap64 (z : Z) : Z := (z + two63) mod two64 - two63.
Definition u64 (z : Z) : Z := z mod two64.

Definition is_int64 (z : Z) : bool := (- two63 <=? z) && (z <? two63).

(** [binary.BigEndian.PutUint64] into a fresh 8-byte buffer. *)
Definition be64 (v : Z) : bytes :=
  (fun k => byte_of_Z (Z.shiftr (u64 v) (8 * k))) <$> [7; 6; 5; 4; 3; 2; 1; 0].

Definition be_fold (b : bytes) : Z :=
  foldl (fun acc x => acc * 256 + Z_of_byte x) 0 b.

(** [binary.BigEndian.Uint64]: reads the first 8 bytes, panics on fewer. *)
Definition be64_read (b : bytes) : res Z :=
  if decide (length b < 8)%nat then Panic else Ok (be_fold (take 8 b)).

(** ** Time: [time.Time] as nanoseconds since the Unix epoch *)

Definition Second : Z := 1000000000.
Definition Hour : Z := 3600 * Second.

(** The zero [time.Time] (January 1, year 1, UTC). *)
Definition zero_time : Z := -62135596800 * Second.

(** [t.Sub(u)] saturates at the bounds of [time.Duration] (an [int64]). *)
Definition time_sub (t u : Z) : Z := Z.max (- two63) (Z.min (two63 - 1) (t - u)).

(** [time.Duration(n) * time.Second], in [int64] arithmetic. *)
Definition seconds (n : Z) : Z := wrap64 (n * Second).

(** ** Lemmas: bytes and their order *)

Lemma Z_of_byte_range b : 0 <= Z_of_byte b < 256.
Proof. unfold Z_of_byte. pose proof (Byte.to_N_bounded b). lia. Qed.

Lemma Z_of_byte_of_Z z : Z_of_byte (byte_of_Z z) = z mod 256.
Proof.
  unfold byte_of_Z, Z_of_byte.
  assert (0 <= z mod 256 < 256) by (apply Z.mod_pos_bound; lia).
  destruct (Byte.of_N (Z.to_N (z mod 256))) as [b|] eqn:E; cbn.
  - apply Byte.to_of_N in E. rewrite E. lia.
  - apply Byte.of_N_None_iff in E. lia.
Qed.

Lemma byte_of_Z_of_byte b : byte_of_Z (Z_of_byte b) = b.
Proof.
  unfold byte_of_Z, Z_of_byte. pose proof (Byte.to_N_bounded b).
  rewrite Z.mod_small by lia. rewrite N2Z.id, Byte.of_to_N. done.
Qed.

#[global] Instance Z_of_byte_inj : Inj (=) (=) Z_of_byte.
Proof. intros a b E. rewrite <- (byte_of_Z_of_byte a), E. apply byte_of_Z_of_byte. Qed.

Lemma string_of_bytes_of s : string_of (bytes_of s) = s.
Proof. apply string_of_list_byte_of_string. Qed.

Lemma bytes_of_string_of b : bytes_of (string_of b) = b.
Proof. apply list_byte_of_string_of_list_byte. Qed.

#[global] Instance bytes_of_inj : Inj (=) (=) bytes_of.
Proof. intros a b E. rewrite <- (string_of_bytes_of a), E. apply string_of_bytes_of. Qed.

Lemma bytes_of_app s t : bytes_of (s +:+ t) = bytes_of s ++ bytes_of t.
Proof.
  unfold bytes_of, list_byte_of_string. induction s as [|c s IH]; [done|].
  change (String c s +:+ t) with (String c (s +:+ t)). cbn. f_equal. exact IH.
Qed.

Lemma bytes_of_nil s : bytes_of s = [] <-> s = ""%string.
Proof. split; [|by intros ->]. destruct s; [done|by intros [=]]. Qed.

Lemma bytes_ltb_irrefl a : bytes_ltb a a = false.
Proof. induction a as [|x a IH]; cbn; [done|]. rewrite Z.ltb_irrefl. done. Qed.

Lemma bytes_ltb_trans a b c :
  bytes_ltb a b = true -> bytes_ltb b c = true -> bytes_ltb a c = true.
Proof.
  revert b c; induction a as [|x a IH]; intros [|y b] [|z c]; cbn; try done.
  repeat case_match; try done; rewrite ?Z.ltb_lt, ?Z.ltb_ge in *; try lia. eauto.
Qed.

Lemma bytes_ltb_total a b :
  bytes_ltb a b = false -> bytes_ltb b a = false -> a = b.
Proof.
  revert b; induction a as [|x a IH]; intros [|y b]; cbn; try done.
  repeat case_match; try done; rewrite ?Z.ltb_lt, ?Z.ltb_ge in *; try lia.
  intros H1 H2. f_equal; [apply Z_of_byte_inj; lia | auto].
Qed.

Lemma bytes_ltb_asym a b : bytes_ltb a b = true -> bytes_ltb b a = false.
Proof.
  intros H. destruct (bytes_ltb b a) eqn:E; [|done].
  rewrite <- (bytes_ltb_irrefl a). symmetry. by eapply bytes_ltb_trans.
Qed.

Lemma bytes_leb_refl a : bytes_leb a a = true.
Proof. unfold bytes_leb. by rewrite bytes_ltb_irrefl. Qed.

Lemma bytes_leb_lt_trans a b c :
  bytes_leb a b = true -> bytes_ltb b c = true -> bytes_ltb a c = true.
Proof.
  unfold bytes_leb. rewrite negb_true_iff. intros H1 H2.
  destruct (bytes_ltb a b) eqn:E; [by eapply bytes_ltb_trans|].
  by rewrite (bytes_ltb_total a b E H1).
Qed.

Lemma bytes_leb_trans a b c :
  bytes_leb a b = true -> bytes_leb b c = true -> bytes_leb a c = true.
Proof.
  unfold bytes_leb at 2 3. rewrite !negb_true_iff. intros H1 H2.
  destruct (bytes_ltb c a) eqn:E; [|done].
  unfold bytes_leb in H1. rewrite negb_true_iff in H1.
  destruct (bytes_ltb a b) eqn:E2.
  - by rewrite (bytes_ltb_trans _ _ _ E E2) in H2.
  - rewrite (bytes_ltb_total a b E2 H1) in E. congruence.
Qed.

Lemma bytes_leb_total a b : bytes_leb a b = true \/ bytes_leb b a = true.
Proof.
  unfold bytes_leb. rewrite !negb_true_iff.
  destruct (bytes_ltb b a) eqn:E; [right; by apply bytes_ltb_asym | by left].
Qed.

Lemma bytes_leb_antisym a b : bytes_leb a b = true -> bytes_leb b a = true -> a = b.
Proof. unfold bytes_leb. rewrite !negb_true_iff. auto using bytes_ltb_total. Qed.

Lemma bytes_ltb_app p a b : bytes_ltb (p ++ a) (p ++ b) = bytes_ltb a b.
Proof. induction p as [|x p IH]; cbn; [done|]. by rewrite Z.ltb_irrefl. Qed.

(** ** Lemmas: machine integers *)

Lemma be_fold_app a b : be_fold (a ++ b) = be_fold a * 256 ^ Z.of_nat (length b) + be_fold b.
Proof.
  unfold be_fold. induction b as [|x b IH] using rev_ind.
  - rewrite app_nil_r. cbn. lia.
  - rewrite app_assoc, !foldl_snoc, IH, length_app. cbn [length].
    replace (Z.of_nat (length b + 1)) with (Z.of_nat (length b) + 1) by lia.
    rewrite Z.pow_add_r by lia. lia.
Qed.

Lemma be_fold_range b : 0 <= be_fold b < 256 ^ Z.of_nat (length b).
Proof.
  induction b as [|x b IH]; [cbn; lia|].
  change (x :: b) with ([x] ++ b). rewrite be_fold_app, length_app. cbn [length].
  pose proof (Z_of_byte_range x). unfold be_fold at 1 3. cbn [foldl].
  replace (Z.of_nat (1 + length b)) with (1 + Z.of_nat (length b)) by lia.
  rewrite Z.pow_add_r by lia. nia.
Qed.

Lemma bytes_ltb_be_fold a b :
  length a = length b -> bytes_ltb a b = (be_fold a <? be_fold b).
Proof.
  revert b; induction a as [|x a IH]; intros [|y b] Hl; try discriminate Hl; [done|].
  injection Hl as Hl. cbn [bytes_ltb].
  change (x :: a) with ([x] ++ a). change (y :: b) with ([y] ++ b).
  rewrite !be_fold_app, Hl. unfold be_fold at 1 3. cbn [foldl].
  pose proof (be_fold_range a) as Ha. pose proof (be_fold_range b) as Hb. rewrite Hl in Ha.
  rewrite (IH b Hl).
  destruct (Z.ltb_spec (Z_of_byte x) (Z_of_byte y)).
  - symmetry. apply Z.ltb_lt. nia.
  - destruct (Z.ltb_spec (Z_of_byte y) (Z_of_byte x)).
    + symmetry. apply Z.ltb_ge. nia.
    + replace (Z_of_byte x) with (Z_of_byte y) by lia.
      destruct (Z.ltb_spec (be_fold a) (be_fold b)); symmetry;
        [apply Z.ltb_lt | apply Z.ltb_ge]; lia.
Qed.

Lemma be64_length v : length (be64 v) = 8%nat.
Proof. done. Qed.

Lemma u64_range v : 0 <= u64 v < two64.
Proof. apply Z.mod_pos_bound. unfold two64. lia. Qed.

Lemma be64_fold v : be_fold (be64 v) = u64 v.
Proof.
  pose proof (u64_range v) as Hr. unfold be64, be_fold. cbn [fmap list_fmap foldl].
  rewrite !Z_of_byte_of_Z, !Z.shiftr_div_pow2 by lia.
  set (x := u64 v) in *. clearbody x. unfold two64 in Hr.
  replace (2 ^ (8 * 0)) with 1 by lia. replace (2 ^ (8 * 1)) with 256 by lia.
  replace (2 ^ (8 * 2)) with (256 * 256) by lia.
  replace (2 ^ (8 * 3)) with (256 * 256 * 256) by lia.
  replace (2 ^ (8 * 4)) with (256 * 256 * 256 * 256) by lia.
  replace (2 ^ (8 * 5)) with (256 * 256 * 256 * 256 * 256) by lia.
  replace (2 ^ (8 * 6)) with (256 * 256 * 256 * 256 * 256 * 256) by lia.
  replace (2 ^ (8 * 7)) with (256 * 256 * 256 * 256 * 256 * 256 * 256) by lia.
  rewrite <- !Z.div_div by lia. rewrite Z.div_1_r.
  repeat match goal with |- context [?y / 256] =>
    lazymatch y with
    | context [_ / _] => fail
    | _ => let q := fresh "q" in let r := fresh "r" in
        pose proof (Z.div_mod y 256 ltac:(lia));
        pose proof (Z.mod_pos_bound y 256 ltac:(lia));
        set (q := y / 256) in *; set (r := y mod 256) in *; clearbody q r
    end end.
  rewrite (Z.mod_small q5 256) by lia. lia.
Qed.

Lemma be64_read_be64 v : be64_read (be64 v) = Ok (u64 v).
Proof.
  unfold be64_read. rewrite be64_length. rewrite decide_False by lia.
  rewrite take_ge by (rewrite be64_length; lia). by rewrite be64_fold.
Qed.

(** Big-endian encoding is monotone: the byte order of the keys built from
    timestamps is the order of the timestamps. *)
Lemma be64_ltb a b :
  0 <= a < two64 -> 0 <= b < two64 -> bytes_ltb (be64 a) (be64 b) = (a <? b).
Proof.
  intros Ha Hb. rewrite bytes_ltb_be_fold by done. rewrite !be64_fold.
  unfold u64. by rewrite !Z.mod_small.
Qed.

Lemma be64_inj a b : 0 <= a < two64 -> 0 <= b < two64 -> be64 a = be64 b -> a = b.
Proof.
  intros Ha Hb E. apply (f_equal be_fold) in E. rewrite !be64_fold in E.
  unfold u64 in E. by rewrite !Z.mod_small in E.
Qed.

Lemma is_int64_spec z : is_int64 z = true <-> - two63 <= z < two63.
Proof. unfold is_int64. rewrite andb_true_iff, Z.leb_le, Z.ltb_lt. done. Qed.

Lemma wrap64_id z : - two63 <= z < two63 -> wrap64 z = z.
Proof. unfold wrap64, two63, two64. intros. rewrite Z.mod_small by lia. lia. Qed.

Lemma wrap64_range z : - two63 <= wrap64 z < two63.
Proof.
  unfold wrap64. pose proof (Z.mod_pos_bound (z + two63) two64 ltac:(unfold two64; lia)).
  unfold two63, two64 in *. lia.
Qed.

Lemma wrap64_u64 z : wrap64 (u64 z) = wrap64 z.
Proof. unfold wrap64, u64. by rewrite Zplus_mod_idemp_l. Qed.

Lemma u64_wrap64 z : u64 (wrap64 z) = u64 z.
Proof.
  unfold wrap64, u64. rewrite Zminus_mod_idemp_l. f_equal. lia.
Qed.

Lemma time_sub_small t u : - two63 <= t - u < two63 -> time_sub t u = t - u.
Proof. unfold time_sub. lia. Qed.

(** ** Lemmas: the monads *)

Lemma M_bind_run {S A B} (m : M S A) (k : A -> M S B) s :
  (m ≫= k) s = match m s with
               | (s', Ok a) => k a s'
               | (s', Err e) => (s', Err e)
               | (s', Panic) => (s', Panic)
               end.
Proof. done. Qed.

Lemma M_bind_Ok {S A B} (m : M S A) (k : A -> M S B) s s' r :
  (m ≫= k) s = (s', Ok r) <->
  exists s1 a, m s = (s1, Ok a) /\ k a s1 = (s', Ok r).
Proof.
  rewrite M_bind_run. split.
  - destruct (m s) as [s1 [a|e|]]; try done. eauto.
  - by intros (s1 & a & -> & ?).
Qed.

Lemma res_bind_Ok {A B} (m : res A) (k : A -> res B) r :
  m ≫= k = Ok r <-> exists a, m = Ok a /\ k a = Ok r.
Proof. destruct m; cbn; naive_solver. Qed.

Lemma seq_unit_Ok {B} (m : res unit) (k : res B) r :
  m ≫= (fun _ => k) = Ok r <-> m = Ok tt /\ k = Ok r.
Proof. destruct m as [[]| |]; cbn; naive_solver. Qed.

Lemma ask_Ok {S A} (f : S -> res A) s s' r :
  ask f s = (s', Ok r) <-> s' = s /\ f s = Ok r.
Proof. unfold ask. split; [by intros [=]|by intros [-> ->]]. Qed.

Lemma lift_Ok {S A} (x : res A) (s s' : S) r :
  lift x s = (s', Ok r) <-> s' = s /\ x = Ok r.
Proof. unfold lift. split; [by intros [=]|by intros [-> ->]]. Qed.

Lemma guard_err_Ok {S} c e (s s' : S) r :
  guard_err c e s = (s', Ok r) <-> s' = s /\ c = false.
Proof. unfold guard_err. destruct c, r; naive_solver. Qed.

Lemma modify_Ok {S} (f : S -> S) s s' r :
  modify f s = (s', Ok r) <-> s' = f s.
Proof. unfold modify. destruct r; naive_solver. Qed.

Lemma mret_Ok {S A} (a : A) (s s' : S) r :
  mret (M := M S) a s = (s', Ok r) <-> s' = s /\ r = a.
Proof. cbv. naive_solver. Qed.

Lemma must_Ok {S A} (m : M S A) s s' r : must m s = (s', Ok r) <-> m s = (s', Ok r).
Proof. unfold must. destruct (m s) as [? []]; naive_solver. Qed.

Lemma wrap_err_Ok {A} e (r : res A) a : wrap_err e r = Ok a <-> r = Ok a.
Proof. destruct r; cbn; naive_solver. Qed.

Lemma throw_Ok {S A} e (s s' : S) (r : A) : throw e s = (s', Ok r) <-> False.
Proof. done. Qed.

(** Running a program forwards, one statement at a time. *)
Lemma bind_Ok_run {S A B} (m : M S A) (k : A -> M S B) s s' a :
  m s = (s', Ok a) -> (m ≫= k) s = k a s'.
Proof. intros E. by rewrite M_bind_run, E. Qed.

Lemma bind_Err_run {S A B} (m : M S A) (k : A -> M S B) s s' e :
  m s = (s', Err e) -> (m ≫= k) s = (s', Err e).
Proof. intros E. by rewrite M_bind_run, E. Qed.

Lemma bind_ask_run {S A B} (f : S -> res A) (k : A -> M S B) s a :
  f s = Ok a -> (ask f ≫= k) s = k a s.
Proof. intros E. by rewrite M_bind_run; unfold ask; rewrite E. Qed.

Lemma bind_lift_run {S A B} (x : res A) (k : A -> M S B) s a :
  x = Ok a -> (lift x ≫= k) s = k a s.
Proof. by intros ->. Qed.

Lemma bind_guard_run {S B} c e (k : unit -> M S B) s :
  c = false -> (guard_err c e ≫= k) s = k tt s.
Proof. by intros ->. Qed.

Lemma or_return_Ok_run {S A} (m : M S A) (k : A -> M S unit) s s' a :
  m s = (s', Ok a) -> or_return m k s = k a s'.
Proof. unfold or_return. by intros ->. Qed.

Lemma must_run {S A} (m : M S A) s s' a : m s = (s', Ok a) -> must m s = (s', Ok a).
Proof. unfold must. by intros ->. Qed.

Lemma run_result {S A} (m : M S A) s r : (m s).2 = r -> m s = ((m s).1, r).
Proof. intros <-. by destruct (m s). Qed.

(** Turns a hypothesis "this run succeeded" into the facts about its parts. *)
Ltac run_inv H :=
  lazymatch type of H with
  | (_ ≫= _) _ = (_, Ok _) =>
      let s := fresh "s" in let a := fresh "a" in let H1 := fresh "H" in
      apply M_bind_Ok in H as (s & a & H1 & H); run_inv H1; run_inv H
  | ask _ _ = (_, Ok _) =>
      let E := fresh "E" in apply ask_Ok in H as [E H]; subst
  | lift _ _ = (_, Ok _) =>
      let E := fresh "E" in apply lift_Ok in H as [E H]; subst
  | guard_err _ _ _ = (_, Ok _) =>
      let E := fresh "E" in apply guard_err_Ok in H as [E H]; subst
  | modify _ _ = (_, Ok _) => apply modify_Ok in H; subst
  | must _ _ = (_, Ok _) => apply must_Ok in H; run_inv H
  | mret _ _ = (_, Ok _) =>
      let E := fresh "E" in apply mret_Ok in H as [E H]; subst
  | throw _ _ = (_, Ok _) => apply throw_Ok in H; destruct H
  | (if ?c then _ else _) _ = (_, Ok _) =>
      let E := fresh "C" in destruct c eqn:E; run_inv H
  | _ => idtac
  end.

Lemma mfor_Ok_invariant {S A} (P : S -> Prop) (l : list A) (body : A -> M S unit) s s' r :
  (forall x s s' r, x ∈ l -> P s -> body x s = (s', r) -> P s') ->
  P s -> mfor l body s = (s', r) -> P s'.
Proof.
  revert s; induction l as [|x l IH]; cbn [mfor]; intros s Hb HP Hr.
  - cbv in Hr. by injection Hr as <- <-.
  - rewrite M_bind_run in Hr. destruct (body x s) as [s1 r1] eqn:E.
    assert (P s1) by (eapply Hb; eauto; left).
    destruct r1; try by injection Hr as <- <-.
    eapply IH; [|done|done]. intros. eapply Hb; eauto. by right.
Qed.

(** Total correctness of loops, by an invariant. *)
Lemma mfor_run {S A} (I : S -> Prop) (l : list A) (body : A -> M S unit) s :
  I s -> (forall x s, x ∈ l -> I s -> exists s', body x s = (s', Ok tt) /\ I s') ->
  exists s', mfor l body s = (s', Ok tt) /\ I s'.
Proof.
  revert s; induction l as [|x l IH]; intros s Hs Hb; cbn [mfor]; [by exists s|].
  destruct (Hb x s ltac:(left) Hs) as (s1 & E1 & H1). erewrite bind_Ok_run by exact E1.
  apply IH; [done|]. intros y s2 Hy. apply Hb. by right.
Qed.

(** The invariant may speak of the elements already visited. *)
Lemma mfor_run_prefix {S A} (I : list A -> S -> Prop) (l : list A) (body : A -> M S unit) s :
  I [] s ->
  (forall pre x post s, l = pre ++ x :: post -> I pre s -> exists s', body x s = (s', Ok tt) /\ I (pre ++ [x]) s') ->
  exists s', mfor l body s = (s', Ok tt) /\ I l s'.
Proof.
  intros Hs Hb.
  enough (forall pre post s, l = pre ++ post -> I pre s ->
    exists s', mfor post body s = (s', Ok tt) /\ I l s') as H by (by apply (H [])).
  intros pre post; revert pre; induction post as [|x post IH]; intros pre s1 El Hs1; cbn [mfor].
  - rewrite app_nil_r in El. subst. by exists s1.
  - destruct (Hb pre x post s1 El Hs1) as (s2 & E2 & H2). erewrite bind_Ok_run by exact E2.
    apply (IH (pre ++ [x])); [by rewrite <- app_assoc|done].
Qed.

Lemma mfold_run_prefix {S A B} (I : list A -> B -> S -> Prop) (l : list A) acc (body : B -> A -> M S B) s :
  I [] acc s ->
  (forall pre x post acc s, l = pre ++ x :: post -> I pre acc s ->
     exists s' acc', body acc x s = (s', Ok acc') /\ I (pre ++ [x]) acc' s') ->
  exists s' acc', mfold l acc body s = (s', Ok acc') /\ I l acc' s'.
Proof.
  intros Hs Hb.
  enough (forall pre post acc s, l = pre ++ post -> I pre acc s ->
    exists s' acc', mfold post acc body s = (s', Ok acc') /\ I l acc' s') as H by (by apply (H [])).
  intros pre post; revert pre; induction post as [|x post IH]; intros pre a1 s1 El Hs1; cbn [mfold].
  - rewrite app_nil_r in El. subst. by exists s1, a1.
  - destruct (Hb pre x post a1 s1 El Hs1) as (s2 & a2 & E2 & H2). erewrite bind_Ok_run by exact E2.
    apply (IH (pre ++ [x])); [by rewrite <- app_assoc|done].
Qed.

(** ** Partial correctness: what holds unless the code panics

    [wlp m Q E s]: run from [s], [m] panics, or returns a value with [Q] on it
    and the final state, or an error with [E]. *)
Definition wlp {S A} (m : M S A) (Q : A -> S -> Prop) (E : error -> S -> Prop) (s : S) : Prop :=
  match m s with
  | (s', Ok a) => Q a s'
  | (s', Err e) => E e s'
  | (_, Panic) => True
  end.

Lemma wlp_run {S A} (m : M S A) Q E s s' r :
  wlp m Q E s -> m s = (s', r) ->
  match r with Ok a => Q a s' | Err e => E e s' | Panic => True end.
Proof. unfold wlp. intros H Eq. by rewrite Eq in H. Qed.

Lemma wlp_mono {S A} (m : M S A) (Q Q' : A -> S -> Prop) (E E' : error -> S -> Prop) s :
  wlp m Q E s -> (forall a s, Q a s -> Q' a s) -> (forall e s, E e s -> E' e s) -> wlp m Q' E' s.
Proof. unfold wlp. destruct (m s) as [s' []]; auto. Qed.

Lemma wlp_bind {S A B} (m : M S A) (k : A -> M S B) Q E s :
  wlp m (fun a s' => wlp (k a) Q E s') E s -> wlp (m ≫= k) Q E s.
Proof. unfold wlp. rewrite M_bind_run. by destruct (m s) as [s' []]. Qed.

Lemma wlp_mret {S A} (a : A) Q E (s : S) : Q a s -> wlp (mret a) Q E s.
Proof. done. Qed.

Lemma wlp_ask {S A} (f : S -> res A) (Q : A -> S -> Prop) (E : error -> S -> Prop) s :
  (forall a, f s = Ok a -> Q a s) -> (forall e, f s = Err e -> E e s) -> wlp (ask f) Q E s.
Proof. unfold wlp, ask. destruct (f s); auto. Qed.

Lemma wlp_lift {S A} (x : res A) (Q : A -> S -> Prop) (E : error -> S -> Prop) s :
  (forall a, x = Ok a -> Q a s) -> (forall e, x = Err e -> E e s) -> wlp (lift x) Q E s.
Proof. unfold wlp, lift. destruct x; auto. Qed.

Lemma wlp_guard {S} c e (Q : unit -> S -> Prop) (E : error -> S -> Prop) s :
  (c = false -> Q tt s) -> (c = true -> E e s) -> wlp (guard_err c e) Q E s.
Proof. unfold wlp, guard_err. destruct c; auto. Qed.

Lemma wlp_throw {S A} e (Q : A -> S -> Prop) (E : error -> S -> Prop) s :
  E e s -> wlp (throw e) Q E s.
Proof. done. Qed.

Lemma wlp_modify {S} (f : S -> S) (Q : unit -> S -> Prop) E s : Q tt (f s) -> wlp (modify f) Q E s.
Proof. done. Qed.

Lemma wlp_or_return {S A} (m : M S A) (k : A -> M S unit) Q E s :
  wlp m (fun a s' => wlp (k a) Q E s') (fun _ s' => Q tt s') s -> wlp (or_return m k) Q E s.
Proof. unfold wlp, or_return. by destruct (m s) as [s' []]. Qed.

Lemma wlp_must {S A} (m : M S A) Q E s : wlp m Q (fun _ _ => True) s -> wlp (must m) Q E s.
Proof. unfold wlp, must. by destruct (m s) as [s' []]. Qed.

Lemma wlp_if {S A} (c : bool) (m1 m2 : M S A) Q E s :
  (c = true -> wlp m1 Q E s) -> (c = false -> wlp m2 Q E s) -> wlp (if c then m1 else m2) Q E s.
Proof. destruct c; auto. Qed.

Lemma wlp_mfor {S A} (I : S -> Prop) (l : list A) (body : A -> M S unit)
  (Q : unit -> S -> Prop) (E : error -> S -> Prop) s :
  I s -> (forall x s, x ∈ l -> I s -> wlp (body x) (fun _ s' => I s') E s) ->
  (forall s, I s -> Q tt s) -> wlp (mfor l body) Q E s.
Proof.
  intros Hs Hb HQ. revert s Hs. induction l as [|x l IH]; intros s Hs; cbn [mfor].
  - by apply wlp_mret, HQ.
  - apply wlp_bind. eapply wlp_mono; [apply Hb; [left|done]| |done].
    intros [] s' Hs'. apply IH; [|done]. intros y s1 Hy. apply Hb. by right.
Qed.

(** Splits a program under [wlp] into its statements. *)
Ltac wlp_step :=
  lazymatch goal with
  | |- wlp (_ ≫= _) _ _ _ => apply wlp_bind
  | |- wlp (mbind _ _) _ _ _ => apply wlp_bind
  | |- wlp (mret _) _ _ _ => apply wlp_mret
  | |- wlp (ask _) _ _ _ => apply wlp_ask; [intros ? ?|intros ? ?]
  | |- wlp (lift _) _ _ _ => apply wlp_lift; [intros ? ?|intros ? ?]
  | |- wlp (guard_err _ _) _ _ _ => apply wlp_guard; intros ?
  | |- wlp (throw _) _ _ _ => apply wlp_throw
  | |- wlp (modify _) _ _ _ => apply wlp_modify
  | |- wlp (or_return _ _) _ _ _ => apply wlp_or_return
  | |- wlp (must _) _ _ _ => apply wlp_must
  | |- wlp (if _ then _ else _) _ _ _ => apply wlp_if; intros ?
  | |- wlp (let _ := _ in _) _ _ _ => cbv zeta
  end.
Ltac wlp_steps := repeat (wlp_step; cbv beta).
