(* ===== verification/Sdk.v ===== *)
(** * The interfaces of the code that is not in the repository

    Vertix is written against the Cosmos SDK. Everything the modules call there
    is a parameter of this development: one type class of operations per
    package, and one class of laws that states the documented behaviour the
    modules rely on. The theorems of the component files are proved against
    these classes; [SdkRef] has a concrete instance of each, on which the
    witnesses evaluate.

    - [KVStore]: cosmossdk.io/core/store and [storetypes.PrefixEndBytes];
    - [SdkMath]: cosmossdk.io/math ([math.Int], [math.LegacyDec]);
    - [Coins]: the constructors of sdk.Coins;
    - [Bech32]: the address codecs;
    - [BankKeeper], [DistributionKeeper], [StakingKeeper], [SlashingKeeper]: the
      keepers of the SDK modules, acting on a state [X] of which nothing else is
      known;
    - [ProtoMsg]: a message that the binary codec stores. *)

From S2P Require Import Prelude.

Open Scope Z_scope.

(** ** Key-value stores *)

Definition key_le (p q : bytes * bytes) : Prop := bytes_leb p.1 q.1 = true.

#[global] Instance key_le_dec : RelDecision key_le.
Proof. intros p q. unfold key_le. apply _. Defined.

(** The half-open key range [[a, b)]; [None] is an open end. *)
Definition in_range (a : bytes) (b : option bytes) (k : bytes) : bool :=
  bytes_leb a k && match b with None => true | Some b => bytes_ltb k b end.

(** The entries of a store in ascending key order, and those of a range. *)
Definition kv_sorted (m : gmap bytes bytes) : list (bytes * bytes) :=
  merge_sort key_le (map_to_list m).

Definition kv_range (m : gmap bytes bytes) (a : bytes) (b : option bytes) : list (bytes * bytes) :=
  filter (fun p => in_range a b p.1 = true) (kv_sorted m).

(** The entries whose key starts with [p], in ascending key order. *)
Definition kv_prefix (m : gmap bytes bytes) (p : bytes) : list (bytes * bytes) :=
  filter (fun kv => p `prefix_of` kv.1) (kv_sorted m).

Class KVStore (St : Type) : Type := {
  kv_get : St -> bytes -> res (option bytes);
  kv_has : St -> bytes -> res bool;
  kv_set : St -> bytes -> bytes -> res St;
  kv_delete : St -> bytes -> res St;
  kv_iterator : St -> bytes -> option bytes -> res (list (bytes * bytes));
  kv_reverse_iterator : St -> bytes -> option bytes -> res (list (bytes * bytes));
  PrefixEndBytes : bytes -> option bytes;
  kv_view : St -> gmap bytes bytes
}.

(** "Get returns nil if key doesn't exist. Errors on nil key."; "Iterator
    iterates over a domain of keys in ascending order. End is exclusive.";
    "PrefixEndBytes returns the []byte that would end a range query for all
    []byte with a certain prefix". *)
Class KVStoreLaws (St : Type) {KV : KVStore St} : Prop := {
  kv_get_law (s : St) k : k <> [] -> kv_get s k = Ok (kv_view s !! k);
  kv_has_law (s : St) k : k <> [] -> kv_has s k = Ok (bool_decide (is_Some (kv_view s !! k)));
  kv_set_law (s : St) k v : k <> [] ->
    exists s', kv_set s k v = Ok s' /\ kv_view s' = <[k := v]> (kv_view s);
  kv_delete_law (s : St) k : k <> [] ->
    exists s', kv_delete s k = Ok s' /\ kv_view s' = delete k (kv_view s);
  kv_iterator_law (s : St) p : p <> [] ->
    kv_iterator s p (PrefixEndBytes p) = Ok (kv_range (kv_view s) p (PrefixEndBytes p));
  kv_reverse_iterator_law (s : St) p : p <> [] ->
    kv_reverse_iterator s p (PrefixEndBytes p)
    = Ok (reverse (kv_range (kv_view s) p (PrefixEndBytes p)));
  prefix_end_law p k : p <> [] ->
    in_range p (PrefixEndBytes p) k = bool_decide (p `prefix_of` k)
}.

(** ** cosmossdk.io/math

    A [math.Int] is a big integer of at most 256 bits. A [math.LegacyDec] is an
    integer number of units of 10^-18, of at most 315 bits. Results out of
    range panic. *)

Definition dec_one : Z := 1000000000000000000.
Definition int_limit : Z := 2 ^ 256.
Definition dec_limit : Z := 2 ^ 315.

Definition LegacyOneDec : Z := dec_one.
Definition LegacyZeroDec : Z := 0.
Definition LegacyNewDec (i : Z) : Z := i * dec_one.
Definition LegacyNewDecFromInt (i : Z) : Z := i * dec_one.
Definition LegacyNewDecWithPrec (i prec : Z) : Z := i * 10 ^ (18 - prec).

Definition digit (c : byte) : option Z :=
  let z := Z_of_byte c in if (48 <=? z) && (z <=? 57) then Some (z - 48) else None.

(** A non-empty sequence of decimal digits, most significant first. *)
Fixpoint digits (acc : Z) (b : bytes) : option Z :=
  match b with
  | [] => Some acc
  | c :: b => d ← digit c; digits (acc * 10 + d) b
  end.

Definition natural (b : bytes) : option Z :=
  match b with [] => None | _ => digits 0 b end.

Fixpoint split_at (c : byte) (b : bytes) : bytes * option bytes :=
  match b with
  | [] => ([], None)
  | x :: b => if decide (x = c) then ([], Some b)
              else let '(l, r) := split_at c b in (x :: l, r)
  end.

(** The documented form of a decimal string: "(-) whole integers (.) decimal
    integers", with at most 18 decimal places; its value in units of 10^-18. *)
Definition dec_literal_abs (b : bytes) : option Z :=
  match split_at "."%byte b with
  | (w, None) => w ← natural w; Some (w * dec_one)
  | (w, Some f) =>
      if decide (length f <= 18)%nat
      then w ← natural w; f' ← natural f; Some (w * dec_one + f' * 10 ^ (18 - Z.of_nat (length f)))
      else None
  end.

Definition dec_literal (s : string) : option Z :=
  match bytes_of s with
  | "-"%byte :: b => d ← dec_literal_abs b; Some (- d)
  | b => dec_literal_abs b
  end.

(** A decimal integer without leading zeros (with one, the string is read in
    another base). *)
Definition decimal_natural (b : bytes) : option Z :=
  match b with
  | "0"%byte :: _ :: _ => None
  | b => natural b
  end.

Definition int_literal (s : string) : option Z :=
  match bytes_of s with
  | "-"%byte :: b => d ← decimal_natural b; Some (- d)
  | b => decimal_natural b
  end.

Class SdkMath : Type := {
  NewIntFromString : string -> option Z;
  IntString : Z -> string;
  IntAdd : Z -> Z -> res Z;
  IntSub : Z -> Z -> res Z;
  IntMarshal : Z -> res bytes;
  IntUnmarshal : bytes -> res Z;
  LegacyNewDecFromStr : string -> res Z;
  DecString : Z -> string;
  DecAdd : Z -> Z -> res Z;
  DecSub : Z -> Z -> res Z;
  DecMul : Z -> Z -> res Z;
  DecQuo : Z -> Z -> res Z;
  DecQuoInt64 : Z -> Z -> res Z;
  DecTruncateInt : Z -> res Z
}.

(** [c] is a nearest integer to [a / b]. *)
Definition nearest (c a b : Z) : Prop := 2 * Z.abs (c * b - a) <= Z.abs b.

Class SdkMathLaws {SM : SdkMath} : Prop := {
  int_parse s z : int_literal s = Some z -> Z.abs z < int_limit -> NewIntFromString s = Some z;
  int_parse_range s z : NewIntFromString s = Some z -> Z.abs z < int_limit;
  int_print z : Z.abs z < int_limit -> NewIntFromString (IntString z) = Some z;
  int_print_short z : Z.abs z < int_limit -> (length (bytes_of (IntString z)) <= 300)%nat;
  int_add a b : IntAdd a b = if decide (Z.abs (a + b) < int_limit) then Ok (a + b) else Panic;
  int_sub a b : IntSub a b = if decide (Z.abs (a - b) < int_limit) then Ok (a - b) else Panic;
  int_marshal z : Z.abs z < int_limit ->
    exists b, IntMarshal z = Ok b /\ IntUnmarshal b = Ok z;
  dec_parse s d : dec_literal s = Some d -> Z.abs d < dec_limit -> LegacyNewDecFromStr s = Ok d;
  dec_parse_range s d : LegacyNewDecFromStr s = Ok d -> Z.abs d < dec_limit;
  dec_parse_total s : LegacyNewDecFromStr s <> Panic;
  dec_print d : Z.abs d < dec_limit -> LegacyNewDecFromStr (DecString d) = Ok d;
  (** The text of a decimal of at most 315 bits is short. *)
  dec_print_short d : Z.abs d < dec_limit -> (length (bytes_of (DecString d)) <= 400)%nat;
  dec_add a b : DecAdd a b = if decide (Z.abs (a + b) < dec_limit) then Ok (a + b) else Panic;
  dec_sub a b : DecSub a b = if decide (Z.abs (a - b) < dec_limit) then Ok (a - b) else Panic;
  (** Multiplication rounds the exact product to the nearest unit. *)
  dec_mul_nearest a b c : DecMul a b = Ok c -> nearest c (a * b) dec_one;
  dec_mul_total a b : Z.abs (a * b) <= (dec_limit - 1) * dec_one -> exists c, DecMul a b = Ok c;
  dec_mul_overflow a b : dec_limit * dec_one <= Z.abs (a * b) -> DecMul a b = Panic;
  (** Division truncates the quotient at 36 places and rounds it to 18. *)
  dec_quo_nearest a b c : DecQuo a b = Ok c ->
    b <> 0 /\ nearest c (Z.quot (a * dec_one * dec_one) b) dec_one;
  dec_quo_total a b : b <> 0 ->
    Z.abs (Z.quot (a * dec_one * dec_one) b) <= (dec_limit - 1) * dec_one ->
    exists c, DecQuo a b = Ok c;
  dec_quo_overflow a b : b <> 0 ->
    dec_limit * dec_one <= Z.abs (Z.quot (a * dec_one * dec_one) b) -> DecQuo a b = Panic;
  dec_quo_int64 a n : n <> 0 -> DecQuoInt64 a n = Ok (Z.quot a n);
  dec_truncate d : DecTruncateInt d =
    if decide (Z.abs (Z.quot d dec_one) < int_limit) then Ok (Z.quot d dec_one) else Panic
}.

(** ** sdk.Coins *)

Abbreviation coin := (string * Z)%type.
Abbreviation coins := (list coin).

Definition coin_amt (c : coins) (d : string) : Z :=
  foldr (fun p acc => if decide (p.1 = d) then p.2 + acc else acc) 0 c.

Lemma coin_amt_single d a d' : coin_amt [(d, a)] d' = if decide (d = d') then a else 0.
Proof. cbn. case_decide; lia. Qed.

Definition in_chars (cs : string) (b : byte) : bool := bool_decide (b ∈ bytes_of cs).

Definition is_upper (b : byte) : bool := (65 <=? Z_of_byte b) && (Z_of_byte b <=? 90).
Definition is_lower (b : byte) : bool := (97 <=? Z_of_byte b) && (Z_of_byte b <=? 122).
Definition is_digit (b : byte) : bool := (48 <=? Z_of_byte b) && (Z_of_byte b <=? 57).

(** The pattern [[A-Z0-9]+] of the symbols in a price pair. *)
Definition is_pair_char (b : byte) : bool := is_upper b || is_digit b.

Definition pair_part (l : bytes) : bool :=
  match l with [] => false | _ => forallb is_pair_char l end.

(** The documented denom format [[a-zA-Z][a-zA-Z0-9/:._-]{2,127}]. *)
Definition denom_ok (d : string) : bool :=
  match bytes_of d with
  | [] => false
  | c :: r => (is_upper c || is_lower c) &&
      bool_decide (2 <= length r <= 127)%nat &&
      forallb (fun x => is_upper x || is_lower x || is_digit x || in_chars "/:._-" x) r
  end.

Class Coins : Type := {
  NewCoin : string -> Z -> res coin;
  NewCoins : coin -> res coins;
  CoinsString : coins -> string;
  CoinString : coin -> string
}.

(** "NewCoin returns a new coin with a denomination and amount. It will panic if
    the amount is negative or if the denomination is invalid."; "NewCoins
    constructs a new coin set. The provided coins will be sanitized by removing
    zero coins". *)
Class CoinsLaws {CO : Coins} : Prop := {
  new_coin_ok d a : denom_ok d = true -> 0 <= a -> NewCoin d a = Ok (d, a);
  new_coin_neg d a : a < 0 -> NewCoin d a = Panic;
  new_coin_inv d a c : NewCoin d a = Ok c -> c = (d, a);
  new_coins_pos d a : denom_ok d = true -> 0 < a -> NewCoins (d, a) = Ok [(d, a)];
  new_coins_zero d : denom_ok d = true -> NewCoins (d, 0) = Ok [];
  new_coins_inv d a c : NewCoins (d, a) = Ok c -> 0 <= a /\ c = if decide (a = 0) then [] else [(d, a)]
}.

(** [sdk.NewCoins(sdk.NewCoin(d, a))]. *)
Definition one_coin {CO : Coins} (d : string) (a : Z) : res coins :=
  NewCoin d a ≫= NewCoins.

Lemma one_coin_pos {CO : Coins} {COL : CoinsLaws} d a :
  denom_ok d = true -> 0 < a -> one_coin d a = Ok [(d, a)].
Proof.
  intros Hd Ha. unfold one_coin. rewrite new_coin_ok by (done || lia). by apply new_coins_pos.
Qed.

Lemma one_coin_ok {CO : Coins} {COL : CoinsLaws} d a :
  denom_ok d = true -> 0 <= a -> one_coin d a = Ok (if decide (a = 0) then [] else [(d, a)]).
Proof.
  intros Hd Ha. case_decide; [|apply one_coin_pos; [done|lia]].
  subst. unfold one_coin. rewrite new_coin_ok by done. by apply new_coins_zero.
Qed.

Lemma one_coin_inv {CO : Coins} {COL : CoinsLaws} d a c :
  one_coin d a = Ok c -> 0 <= a /\ c = if decide (a = 0) then [] else [(d, a)].
Proof.
  unfold one_coin. intros H. apply res_bind_Ok in H as (k & H1 & H2).
  apply new_coin_inv in H1 as ->. by apply new_coins_inv.
Qed.

Lemma one_coin_length {CO : Coins} {COL : CoinsLaws} d a c :
  one_coin d a = Ok c -> (length c <= 1)%nat.
Proof. intros [_ ->]%one_coin_inv. case_decide; cbn; lia. Qed.

Lemma one_coin_amt {CO : Coins} {COL : CoinsLaws} d a c d' :
  one_coin d a = Ok c -> coin_amt c d' = if decide (d = d') then a else 0.
Proof. intros [_ ->]%one_coin_inv. repeat case_decide; cbn; rewrite ?decide_True, ?decide_False by done; lia. Qed.

(** ** Addresses *)

Class Bech32 : Type := {
  AccAddressFromBech32 : string -> res bytes;
  ValAddressFromBech32 : string -> res bytes;
  AccString : bytes -> string;
  ValString : bytes -> string;
  (** types/address *)
  MustLengthPrefix : bytes -> res bytes
}.

(** An address has 1 to 255 bytes; printing and parsing are inverse on them. *)
Definition addr_ok (a : bytes) : Prop := (1 <= length a <= 255)%nat.

Class Bech32Laws {BE : Bech32} : Prop := {
  acc_parse_ok s a : AccAddressFromBech32 s = Ok a -> addr_ok a;
  val_parse_ok s a : ValAddressFromBech32 s = Ok a -> addr_ok a;
  acc_parse_total s : AccAddressFromBech32 s <> Panic;
  val_parse_total s : ValAddressFromBech32 s <> Panic;
  acc_print a : addr_ok a -> AccAddressFromBech32 (AccString a) = Ok a;
  val_print a : addr_ok a -> ValAddressFromBech32 (ValString a) = Ok a;
  (** "LengthPrefix prefixes the address bytes with its length". *)
  length_prefix a : addr_ok a -> MustLengthPrefix a = Ok (byte_of_Z (Z.of_nat (length a)) :: a)
}.

(** ** Keepers of the SDK modules *)

(** A send restriction: from, to, amount; the recipient or an error. *)
Abbreviation restr := (bytes -> bytes -> coins -> res bytes).

(** The bank and account keepers. [X] is the state of the SDK's own modules; the
    send restriction in force is an argument of every operation that sends. *)
Class BankKeeper (X : Type) : Type := {
  GetModuleAddress : string -> bytes;
  BlockedAddr : bytes -> bool;
  GetBalance : X -> bytes -> string -> Z;
  GetSupply : X -> string -> Z;
  SendCoins : restr -> X -> bytes -> bytes -> coins -> X * res unit;
  SendCoinsFromModuleToModule : restr -> X -> string -> string -> coins -> X * res unit;
  SendCoinsFromAccountToModule : restr -> X -> bytes -> string -> coins -> X * res unit;
  SendCoinsFromModuleToAccount : restr -> X -> string -> bytes -> coins -> X * res unit;
  MintCoins : X -> string -> coins -> X * res unit;
  BurnCoins : X -> string -> coins -> X * res unit;
  FundCommunityPool : restr -> X -> coins -> bytes -> X * res unit
}.

Section BankSpec.
Context {X : Type} {BK : BankKeeper X}.

(** The same balances and supplies. *)
Definition same_ledger (x x' : X) : Prop :=
  (forall a d, GetBalance x' a d = GetBalance x a d) /\
  (forall d, GetSupply x' d = GetSupply x d).

(** [c] moved from [f] to [t]. *)
Definition transferred (x x' : X) (f t : bytes) (c : coins) : Prop :=
  (forall a d, GetBalance x' a d =
     GetBalance x a d + (if decide (a = t) then coin_amt c d else 0)
                      - (if decide (a = f) then coin_amt c d else 0)) /\
  (forall d, GetSupply x' d = GetSupply x d).

(** [sgn * c] created at [t]. *)
Definition created (sgn : Z) (x x' : X) (t : bytes) (c : coins) : Prop :=
  (forall a d, GetBalance x' a d =
     GetBalance x a d + (if decide (a = t) then sgn * coin_amt c d else 0)) /\
  (forall d, GetSupply x' d = GetSupply x d + sgn * coin_amt c d).

End BankSpec.

(** The documented behaviour of x/bank for the module accounts and permissions
    [perms] of the application. Operations on at most one coin are atomic. *)
Class BankLaws (X : Type) {BK : BankKeeper X} (perms : list (string * list string)) : Prop := {
  balance_nonneg (x : X) a d : 0 <= GetBalance x a d;
  send_ok r (x x' : X) f t c u : SendCoins r x f t c = (x', Ok u) ->
    exists t', r f t c = Ok t' /\ transferred x x' f t' c
               /\ (forall d, coin_amt c d <= GetBalance x f d);
  send_fail r (x x' : X) f t c e : (length c <= 1)%nat ->
    SendCoins r x f t c = (x', Err e) -> same_ledger x x';
  send_restricted r (x : X) f t c e : r f t c = Err e -> SendCoins r x f t c = (x, Err e);
  send_module_total r (x : X) m t t' d a ps : (m, ps) ∈ perms ->
    r (GetModuleAddress m) t [(d, a)] = Ok t' ->
    0 < a <= GetBalance x (GetModuleAddress m) d ->
    exists x', SendCoins r x (GetModuleAddress m) t [(d, a)] = (x', Ok tt);
  send_m2m r (x : X) m n c ps qs : (m, ps) ∈ perms -> (n, qs) ∈ perms ->
    SendCoinsFromModuleToModule r x m n c =
    SendCoins r x (GetModuleAddress m) (GetModuleAddress n) c;
  send_a2m r (x : X) f n c qs : (n, qs) ∈ perms ->
    SendCoinsFromAccountToModule r x f n c = SendCoins r x f (GetModuleAddress n) c;
  send_m2a r (x : X) m t c ps : (m, ps) ∈ perms -> BlockedAddr t = false ->
    SendCoinsFromModuleToAccount r x m t c = SendCoins r x (GetModuleAddress m) t c;
  send_m2a_blocked r (x : X) m t c ps : (m, ps) ∈ perms -> BlockedAddr t = true ->
    exists e, SendCoinsFromModuleToAccount r x m t c = (x, Err e);
  mint_ok (x x' : X) m c u : MintCoins x m c = (x', Ok u) ->
    created 1 x x' (GetModuleAddress m) c;
  mint_fail (x x' : X) m c e : (length c <= 1)%nat ->
    MintCoins x m c = (x', Err e) -> same_ledger x x';
  burn_ok (x x' : X) m c u : BurnCoins x m c = (x', Ok u) ->
    created (-1) x x' (GetModuleAddress m) c;
  burn_fail (x x' : X) m c e : (length c <= 1)%nat ->
    BurnCoins x m c = (x', Err e) -> same_ledger x x';
  burn_total (x : X) m ps d a : (m, ps) ∈ perms -> "burner"%string ∈ ps ->
    0 < a <= GetBalance x (GetModuleAddress m) d ->
    exists x', BurnCoins x m [(d, a)] = (x', Ok tt);
  fund_ok r (x x' : X) c f u : FundCommunityPool r x c f = (x', Ok u) ->
    exists t', r f (GetModuleAddress "distribution") c = Ok t' /\ transferred x x' f t' c;
  module_address_inj m n ps qs : (m, ps) ∈ perms -> (n, qs) ∈ perms ->
    GetModuleAddress m = GetModuleAddress n -> m = n
}.

(** [stakingtypes.Validator], the fields and the method the oracle reads. *)
Record Validator : Type := {
  OperatorAddress : string;
  VStatus : Z;
  GetConsAddr : res bytes
}.

(** [stakingtypes.Bonded]. *)
Definition Bonded : Z := 3.

Class StakingKeeper (X : Type) : Type := {
  GetValidator : X -> bytes -> res Validator;
  GetLastValidatorPower : X -> bytes -> res Z;
  GetBondedValidatorsByPower : X -> res (list Validator);
  GetLastTotalPower : X -> res Z
}.

Class SlashingKeeper (X : Type) : Type := {
  (** consAddr, fraction, power, distributionHeight *)
  Slash : X -> bytes -> Z -> Z -> Z -> X * res unit
}.

(** Last powers are [int64]s and only change at the end of a block, when the
    validator set is updated: slashing leaves them alone. *)
Class StakingLaws (X : Type) {SK : StakingKeeper X} {SL : SlashingKeeper X} : Prop := {
  last_power_range (x : X) v p : GetLastValidatorPower x v = Ok p -> 0 <= p < two63;
  last_power_total (x : X) v : GetLastValidatorPower x v <> Panic;
  slash_last_power (x x' : X) c f p h r v : Slash x c f p h = (x', r) ->
    GetLastValidatorPower x' v = GetLastValidatorPower x v;
  slash_no_panic (x x' : X) c f p h r : Slash x c f p h = (x', r) -> r <> Panic
}.

(** ** Messages under the binary codec *)

Class ProtoMsg (A : Type) : Type := {
  Marshal : A -> res bytes;
  Unmarshal : bytes -> res A;
  wf_msg : A -> Prop
}.

Class ProtoLaws (A : Type) {PM : ProtoMsg A} : Prop := {
  unmarshal_marshal (a : A) : wf_msg a ->
    exists b, Marshal a = Ok b /\ Unmarshal b = Ok a
}.

(** [cdc.MustUnmarshal]. *)
Definition MustUnmarshal {A} {PM : ProtoMsg A} (b : bytes) : res A :=
  match Unmarshal b with Ok a => Ok a | _ => Panic end.
