(* ===== verification/World.v ===== *)
(** * The chain state the modules run on

    [world] is what a keeper method reaches through its [context.Context]: the
    key-value stores of the three modules, the state [X] of the SDK modules, the
    block header and the event manager. The operations below are the calls the
    keepers make on it ([k.storeService.OpenKVStore(ctx)] followed by [Get],
    [Set], [Delete], [Has], [Iterator]; [EventManager().EmitEvent]; a call of
    another keeper), with the lemmas that compute them. *)

From S2P Require Import Prelude Sdk.

Open Scope Z_scope.

(** [sdk.NewEvent(type, attributes...)]. *)
Record event : Type := mkEvent { ev_type : string; ev_attrs : list (string * string) }.

Record world (St X : Type) : Type := mkWorld {
  w_fees : St;
  w_oracle : St;
  w_rwa : St;
  w_ext : X;
  w_height : Z;
  w_time : Z;
  w_events : list event
}.
Arguments mkWorld {St X}.
Arguments w_fees {St X}.
Arguments w_oracle {St X}.
Arguments w_rwa {St X}.
Arguments w_ext {St X}.
Arguments w_height {St X}.
Arguments w_time {St X}.
Arguments w_events {St X}.

(** The store keys of the three modules. *)
Inductive store_key : Type := FeesKey | OracleKey | RwaKey.

#[global] Instance store_key_eq_dec : EqDecision store_key.
Proof. solve_decision. Defined.

Section World.
Context {St X : Type} {KV : KVStore St}.
Local Abbreviation W := (world St X).

Definition get_store (sk : store_key) (w : W) : St :=
  match sk with FeesKey => w_fees w | OracleKey => w_oracle w | RwaKey => w_rwa w end.

Definition set_store (sk : store_key) (s : St) (w : W) : W :=
  match sk with
  | FeesKey => mkWorld s (w_oracle w) (w_rwa w) (w_ext w) (w_height w) (w_time w) (w_events w)
  | OracleKey => mkWorld (w_fees w) s (w_rwa w) (w_ext w) (w_height w) (w_time w) (w_events w)
  | RwaKey => mkWorld (w_fees w) (w_oracle w) s (w_ext w) (w_height w) (w_time w) (w_events w)
  end.

Definition set_ext (x : X) (w : W) : W :=
  mkWorld (w_fees w) (w_oracle w) (w_rwa w) x (w_height w) (w_time w) (w_events w).

(** The contents of a module's store. *)
Definition view (sk : store_key) (w : W) : gmap bytes bytes := kv_view (get_store sk w).

Definition st_get (sk : store_key) (k : bytes) (w : W) : res (option bytes) :=
  kv_get (get_store sk w) k.

Definition st_has (sk : store_key) (k : bytes) (w : W) : res bool :=
  kv_has (get_store sk w) k.

Definition st_write (sk : store_key) (r : res St) : M W unit := fun w =>
  match r with
  | Ok s => (set_store sk s w, Ok tt)
  | Err e => (w, Err e)
  | Panic => (w, Panic)
  end.

Definition st_set (sk : store_key) (k v : bytes) : M W unit := fun w =>
  st_write sk (kv_set (get_store sk w) k v) w.

Definition st_delete (sk : store_key) (k : bytes) : M W unit := fun w =>
  st_write sk (kv_delete (get_store sk w) k) w.

(** [store.Iterator(prefix, storetypes.PrefixEndBytes(prefix))], drained. *)
Definition st_iterator (sk : store_key) (p : bytes) (w : W) : res (list (bytes * bytes)) :=
  kv_iterator (get_store sk w) p (PrefixEndBytes p).

Definition st_reverse_iterator (sk : store_key) (p : bytes) (w : W) : res (list (bytes * bytes)) :=
  kv_reverse_iterator (get_store sk w) p (PrefixEndBytes p).

Definition add_event (ev : event) (w : W) : W :=
  mkWorld (w_fees w) (w_oracle w) (w_rwa w) (w_ext w) (w_height w) (w_time w) (w_events w ++ [ev]).

Definition emit (ty : string) (attrs : list (string * string)) : M W unit :=
  modify (add_event (mkEvent ty attrs)).

(** A call of another keeper, on the state of the SDK modules. *)
Definition ext {A} (f : X -> X * res A) : M W A := fun w =>
  let '(x, r) := f (w_ext w) in (set_ext x w, r).

(** A bank call, which consults the send restriction in force at the current
    state. *)
Definition ext_send {A} (R : W -> restr) (f : restr -> X -> X * res A) : M W A := fun w =>
  let '(x, r) := f (R w) (w_ext w) in (set_ext x w, r).

(** [w'] is [w] with the contents of the store [sk] replaced by [m]. *)
Definition store_upd (sk : store_key) (m : gmap bytes bytes) (w w' : W) : Prop :=
  view sk w' = m /\
  (forall sk', sk' <> sk -> get_store sk' w' = get_store sk' w) /\
  w_ext w' = w_ext w /\ w_height w' = w_height w /\ w_time w' = w_time w /\
  w_events w' = w_events w.

(** ** Lemmas *)

Context {KVL : KVStoreLaws St}.

Lemma st_get_run sk k (w : W) : k <> [] -> st_get sk k w = Ok (view sk w !! k).
Proof. apply kv_get_law. Qed.

Lemma st_has_run sk k (w : W) :
  k <> [] -> st_has sk k w = Ok (bool_decide (is_Some (view sk w !! k))).
Proof. apply kv_has_law. Qed.

Lemma get_set_store_eq sk s (w : W) : get_store sk (set_store sk s w) = s.
Proof. by destruct sk. Qed.

Lemma get_set_store_ne sk sk' s (w : W) :
  sk' <> sk -> get_store sk' (set_store sk s w) = get_store sk' w.
Proof. by destruct sk, sk'. Qed.

Lemma set_store_upd sk s (w : W) : store_upd sk (kv_view s) w (set_store sk s w).
Proof.
  split; [unfold view; by rewrite get_set_store_eq|].
  split; [intros; by apply get_set_store_ne|]. by destruct sk.
Qed.

Lemma st_set_run sk k v (w : W) : k <> [] ->
  exists w', st_set sk k v w = (w', Ok tt) /\ store_upd sk (<[k := v]> (view sk w)) w w'.
Proof.
  intros Hk. destruct (kv_set_law (get_store sk w) k v Hk) as (s' & E & V).
  exists (set_store sk s' w). unfold st_set. rewrite E. split; [done|].
  unfold view at 1. rewrite <- V. apply set_store_upd.
Qed.

Lemma st_delete_run sk k (w : W) : k <> [] ->
  exists w', st_delete sk k w = (w', Ok tt) /\ store_upd sk (delete k (view sk w)) w w'.
Proof.
  intros Hk. destruct (kv_delete_law (get_store sk w) k Hk) as (s' & E & V).
  exists (set_store sk s' w). unfold st_delete. rewrite E. split; [done|].
  unfold view at 1. rewrite <- V. apply set_store_upd.
Qed.

Lemma store_upd_refl sk (w : W) : store_upd sk (view sk w) w w.
Proof. done. Qed.

Lemma store_upd_trans sk m1 m2 (w w1 w2 : W) :
  store_upd sk m1 w w1 -> store_upd sk m2 w1 w2 -> store_upd sk m2 w w2.
Proof.
  intros (V1 & O1 & X1 & H1 & T1 & E1) (V2 & O2 & X2 & H2 & T2 & E2).
  split; [done|]. split; [intros sk' Hne; by rewrite O2, O1|]. repeat split; congruence.
Qed.

Lemma store_upd_view_other sk sk' m (w w' : W) :
  store_upd sk m w w' -> sk' <> sk -> view sk' w' = view sk' w.
Proof. intros (_ & O & _) Hne. unfold view. by rewrite O. Qed.

Lemma store_upd_ext sk m (w w' : W) : store_upd sk m w w' -> w_ext w' = w_ext w.
Proof. by intros (_ & _ & ? & _). Qed.

Lemma store_upd_get sk m k (w w' : W) : store_upd sk m w w' -> k <> [] ->
  st_get sk k w' = Ok (m !! k).
Proof. intros (V & _) Hk. by rewrite st_get_run, V. Qed.

Lemma store_upd_get_other sk sk' m k (w w' : W) : store_upd sk m w w' -> sk' <> sk ->
  st_get sk' k w' = st_get sk' k w.
Proof. intros (_ & O & _) Hne. unfold st_get. by rewrite O. Qed.

Lemma ext_Ok {A} (f : X -> X * res A) (w w' : W) r :
  ext f w = (w', r) -> exists x, f (w_ext w) = (x, r) /\ w' = set_ext x w.
Proof. unfold ext. destruct (f (w_ext w)) as [x r']. intros [= <- <-]. eauto. Qed.

Lemma ext_send_Ok {A} (R : W -> restr) (f : restr -> X -> X * res A) (w w' : W) r :
  ext_send R f w = (w', r) -> exists x, f (R w) (w_ext w) = (x, r) /\ w' = set_ext x w.
Proof. unfold ext_send. destruct (f (R w) (w_ext w)) as [x r']. intros [= <- <-]. eauto. Qed.

Lemma ext_run {A} (f : X -> X * res A) (w : W) x r :
  f (w_ext w) = (x, r) -> ext f w = (set_ext x w, r).
Proof. unfold ext. by intros ->. Qed.

Lemma ext_send_run {A} (R : W -> restr) (f : restr -> X -> X * res A) (w : W) x r :
  f (R w) (w_ext w) = (x, r) -> ext_send R f w = (set_ext x w, r).
Proof. unfold ext_send. by intros ->. Qed.

Lemma st_get_set_ext sk k x (w : W) : st_get sk k (set_ext x w) = st_get sk k w.
Proof. by destruct sk. Qed.

Lemma view_set_ext sk x (w : W) : view sk (set_ext x w) = view sk w.
Proof. by destruct sk. Qed.

Lemma wlp_emit ty attrs (Q : unit -> W -> Prop) E w :
  Q tt (add_event (mkEvent ty attrs) w) -> wlp (emit ty attrs) Q E w.
Proof. done. Qed.

Lemma view_add_event sk ev (w : W) : view sk (add_event ev w) = view sk w.
Proof. by destruct sk. Qed.

Lemma wlp_ext {A} (f : X -> X * res A) Q E (w : W) :
  (forall x r, f (w_ext w) = (x, r) ->
     match r with Ok a => Q a (set_ext x w) | Err e => E e (set_ext x w) | Panic => True end) ->
  wlp (ext f) Q E w.
Proof. unfold wlp, ext. destruct (f (w_ext w)) as [x r]. intros H. by specialize (H _ _ eq_refl). Qed.

Lemma wlp_ext_send {A} (R : W -> restr) (f : restr -> X -> X * res A) Q E (w : W) :
  (forall x r, f (R w) (w_ext w) = (x, r) ->
     match r with Ok a => Q a (set_ext x w) | Err e => E e (set_ext x w) | Panic => True end) ->
  wlp (ext_send R f) Q E w.
Proof. unfold wlp, ext_send. destruct (f (R w) (w_ext w)) as [x r]. intros H. by specialize (H _ _ eq_refl). Qed.

Lemma wlp_st_set sk k v Q E (w : W) : k <> [] ->
  (forall w', store_upd sk (<[k := v]> (view sk w)) w w' -> Q tt w') -> wlp (st_set sk k v) Q E w.
Proof.
  intros Hk H. destruct (st_set_run sk k v w Hk) as (w' & Eq & U). unfold wlp. rewrite Eq. auto.
Qed.

Lemma wlp_st_delete sk k Q E (w : W) : k <> [] ->
  (forall w', store_upd sk (delete k (view sk w)) w w' -> Q tt w') -> wlp (st_delete sk k) Q E w.
Proof.
  intros Hk H. destruct (st_delete_run sk k w Hk) as (w' & Eq & U). unfold wlp. rewrite Eq. auto.
Qed.

Lemma kv_range_prefix (m : gmap bytes bytes) p :
  p <> [] -> kv_range m p (PrefixEndBytes p) = kv_prefix m p.
Proof.
  intros Hp. unfold kv_range, kv_prefix. apply list_filter_iff. intros kv.
  rewrite prefix_end_law by done. apply bool_decide_eq_true.
Qed.

Lemma st_iterator_run sk p (w : W) :
  p <> [] -> st_iterator sk p w = Ok (kv_prefix (view sk w) p).
Proof.
  intros Hp. unfold st_iterator. rewrite kv_iterator_law by done. by rewrite kv_range_prefix.
Qed.

Lemma st_reverse_iterator_run sk p (w : W) :
  p <> [] -> st_reverse_iterator sk p w = Ok (reverse (kv_prefix (view sk w) p)).
Proof.
  intros Hp. unfold st_reverse_iterator. rewrite kv_reverse_iterator_law by done.
  by rewrite kv_range_prefix.
Qed.

End World.

(** [wlp_step] for the operations on the world. *)
Ltac world_step :=
  first [ wlp_step
        | lazymatch goal with
          | |- wlp (emit _ _) _ _ _ => apply wlp_emit
          | |- wlp (st_set _ _ _) _ _ _ => apply wlp_st_set; [done|intros ? ?]
          | |- wlp (st_delete _ _) _ _ _ => apply wlp_st_delete; [done|intros ? ?]
          end ].
Ltac world_steps := repeat (world_step; cbv beta).

(** *** Ordered contents *)

#[global] Instance key_le_trans : Transitive key_le.
Proof. intros a b c. apply bytes_leb_trans. Qed.

#[global] Instance key_le_total : Total key_le.
Proof. intros a b. apply bytes_leb_total. Qed.

Definition key_lt (p q : bytes * bytes) : Prop := bytes_ltb p.1 q.1 = true.

#[global] Instance key_lt_trans : Transitive key_lt.
Proof. intros a b c. apply bytes_ltb_trans. Qed.

Lemma kv_sorted_perm m : kv_sorted m ≡ₚ map_to_list m.
Proof. apply merge_sort_Permutation. Qed.

Lemma elem_of_kv_sorted m k v : (k, v) ∈ kv_sorted m <-> m !! k = Some v.
Proof. rewrite kv_sorted_perm. apply elem_of_map_to_list. Qed.

Lemma elem_of_kv_prefix m p k v :
  (k, v) ∈ kv_prefix m p <-> m !! k = Some v /\ p `prefix_of` k.
Proof. unfold kv_prefix. rewrite list_elem_of_filter, elem_of_kv_sorted. naive_solver. Qed.

Lemma kv_sorted_NoDup m : NoDup (kv_sorted m).*1.
Proof. rewrite kv_sorted_perm. apply NoDup_fst_map_to_list. Qed.

Lemma StronglySorted_key_lt l :
  StronglySorted key_le l -> NoDup l.*1 -> StronglySorted key_lt l.
Proof.
  induction 1 as [|x l HS IH HF]; intros ND; constructor.
  - apply IH. by inversion ND.
  - cbn in ND. apply NoDup_cons in ND as [Hnin _].
    rewrite Forall_forall in HF |- *. intros y Hy. specialize (HF y Hy).
    unfold key_le, key_lt in *. unfold bytes_leb in HF. rewrite negb_true_iff in HF.
    destruct (bytes_ltb x.1 y.1) eqn:E; [done|].
    exfalso. apply Hnin. rewrite (bytes_ltb_total _ _ E HF). by apply list_elem_of_fmap_2.
Qed.

Lemma kv_sorted_sorted m : StronglySorted key_lt (kv_sorted m).
Proof.
  apply StronglySorted_key_lt; [|apply kv_sorted_NoDup].
  apply StronglySorted_merge_sort; apply _.
Qed.

Lemma StronglySorted_filter {A} (R : relation A) (P : A -> Prop) `{!forall x, Decision (P x)} l :
  StronglySorted R l -> StronglySorted R (filter P l).
Proof.
  induction 1 as [|x l HS IH HF]; [constructor|].
  rewrite filter_cons. case_decide; [|done]. constructor; [done|].
  rewrite Forall_forall in HF |- *. intros y Hy. apply list_elem_of_filter in Hy as [_ Hy]. auto.
Qed.

Lemma kv_prefix_sorted m p : StronglySorted key_lt (kv_prefix m p).
Proof. apply StronglySorted_filter, kv_sorted_sorted. Qed.

Lemma StronglySorted_key_lt_unique l l' :
  StronglySorted key_lt l -> StronglySorted key_lt l' ->
  (forall kv, kv ∈ l <-> kv ∈ l') -> l = l'.
Proof.
  intros HS; revert l'; induction HS as [|x l HS IH HF]; intros l' HS' Hiff.
  - destruct l' as [|y l']; [done|]. destruct (not_elem_of_nil y). apply Hiff. left.
  - destruct HS' as [|y l' HS' HF']; [destruct (not_elem_of_nil x); apply Hiff; left|].
    rewrite Forall_forall in HF, HF'.
    assert (x = y) as ->.
    { assert (x ∈ y :: l') as Hx by (apply Hiff; left).
      assert (y ∈ x :: l) as Hy by (apply Hiff; left).
      apply elem_of_cons in Hx as [->|Hx]; [done|].
      apply elem_of_cons in Hy as [->|Hy]; [done|].
      specialize (HF _ Hy). specialize (HF' _ Hx). unfold key_lt in *.
      apply bytes_ltb_asym in HF. congruence. }
    f_equal. apply IH; [done|]. intros kv. specialize (Hiff kv).
    rewrite !elem_of_cons in Hiff.
    assert (forall z, key_lt y z -> z <> y) as Hne.
    { intros z Hz ->. unfold key_lt in Hz. by rewrite bytes_ltb_irrefl in Hz. }
    naive_solver.
Qed.

(** Two stores with the same entries under a prefix iterate alike there. *)
Lemma kv_prefix_ext m m' p :
  (forall k, p `prefix_of` k -> m !! k = m' !! k) -> kv_prefix m p = kv_prefix m' p.
Proof.
  intros H. apply StronglySorted_key_lt_unique; try apply kv_prefix_sorted.
  intros [k v]. rewrite !elem_of_kv_prefix. split; intros [E Hp]; (split; [|done]);
    [rewrite <- H | rewrite H]; done.
Qed.

Lemma kv_prefix_insert_other m p k v :
  ~ p `prefix_of` k -> kv_prefix (<[k := v]> m) p = kv_prefix m p.
Proof.
  intros Hn. apply kv_prefix_ext. intros k' Hp. rewrite lookup_insert_ne; [done|].
  by intros ->.
Qed.

Lemma kv_prefix_perm m p : kv_prefix m p ≡ₚ filter (fun kv => p `prefix_of` kv.1) (map_to_list m).
Proof. unfold kv_prefix. by rewrite kv_sorted_perm. Qed.

Lemma kv_prefix_insert m p k v : p `prefix_of` k ->
  kv_prefix (<[k := v]> m) p ≡ₚ (k, v) :: kv_prefix (delete k m) p.
Proof.
  intros Hp. rewrite !kv_prefix_perm, <- insert_delete_eq, map_to_list_insert by apply lookup_delete_eq.
  by rewrite filter_cons_True.
Qed.

Lemma kv_prefix_delete m p k v : m !! k = Some v -> p `prefix_of` k ->
  kv_prefix m p ≡ₚ (k, v) :: kv_prefix (delete k m) p.
Proof. intros Hk Hp. rewrite <- kv_prefix_insert by done. by rewrite insert_id. Qed.

(** The entries under a prefix as a list of values, when each of them can be read
    and has the key of what is read. *)
Lemma kv_decoded {A} m p (R : bytes -> A -> Prop) (key : A -> bytes) :
  (forall k v, m !! k = Some v -> p `prefix_of` k -> exists a, R v a /\ k = key a) ->
  exists l, Forall2 (fun kv a => R kv.2 a /\ kv.1 = key a) (kv_prefix m p) l.
Proof.
  intros H. assert (forall kv, kv ∈ kv_prefix m p -> exists a, R kv.2 a /\ kv.1 = key a) as Hkv.
  { intros [k v] [Hk Hp]%elem_of_kv_prefix. by apply H. }
  induction (kv_prefix m p) as [|kv kvs IH]; [exists []; constructor|].
  destruct (Hkv kv ltac:(left)) as [a Ha].
  destruct IH as [l Hl]; [intros kv' Hin; apply Hkv; by right|]. exists (a :: l). by constructor.
Qed.

Lemma kv_decoded_spec {A} m p (R : bytes -> A -> Prop) (key : A -> bytes) l :
  Forall2 (fun kv a => R kv.2 a /\ kv.1 = key a) (kv_prefix m p) l ->
  NoDup (key <$> l) /\
  (forall a, a ∈ l -> p `prefix_of` key a /\ exists v, m !! key a = Some v /\ R v a) /\
  (forall k v, m !! k = Some v -> p `prefix_of` k -> exists a, a ∈ l /\ k = key a /\ R v a).
Proof.
  intros HF. assert (key <$> l = (kv_prefix m p).*1) as Ek.
  { induction HF as [|kv a kvs l [_ Hk] HF IH]; [done|]. cbn. by rewrite IH, Hk. }
  split_and!.
  - rewrite Ek. eapply sublist_NoDup; [apply (kv_sorted_NoDup m)|]. apply fmap_sublist, sublist_filter.
  - intros a [i Hi]%list_elem_of_lookup. destruct (Forall2_lookup_r _ _ _ _ _ HF Hi) as ([k v] & Hkv & HR & Hk).
    cbn in HR, Hk. subst k. apply list_elem_of_lookup_2, elem_of_kv_prefix in Hkv as [Hv Hp]. eauto.
  - intros k v Hk Hp. assert ((k, v) ∈ kv_prefix m p) as [i Hi]%list_elem_of_lookup by (by apply elem_of_kv_prefix).
    destruct (Forall2_lookup_l _ _ _ _ _ HF Hi) as (a & Ha & HR & Hk'). exists a.
    split; [by eapply list_elem_of_lookup_2|done].
Qed.

(** A sum over the entries under a prefix. *)
Definition kv_sum (f : bytes -> Z) (m : gmap bytes bytes) (p : bytes) : Z :=
  foldr (fun kv acc => f kv.2 + acc) 0 (kv_prefix m p).

Lemma foldr_sum_perm {A} (f : A -> Z) l l' : l ≡ₚ l' ->
  foldr (fun x acc => f x + acc) 0 l = foldr (fun x acc => f x + acc) 0 l'.
Proof. induction 1; cbn; lia. Qed.

Lemma kv_sum_insert f m p k v : p `prefix_of` k ->
  kv_sum f (<[k := v]> m) p = kv_sum f m p - match m !! k with Some v0 => f v0 | None => 0 end + f v.
Proof.
  intros Hp. unfold kv_sum.
  rewrite (foldr_sum_perm (fun kv => f kv.2) _ _ (kv_prefix_insert m p k v Hp)). cbn [foldr snd].
  destruct (m !! k) as [v0|] eqn:Hk.
  - rewrite (foldr_sum_perm (fun kv => f kv.2) _ _ (kv_prefix_delete m p k v0 Hk Hp)). cbn [foldr snd]. lia.
  - rewrite delete_id by done. lia.
Qed.

Lemma kv_sum_ext f m m' p : (forall k, p `prefix_of` k -> m !! k = m' !! k) -> kv_sum f m p = kv_sum f m' p.
Proof. intros H. unfold kv_sum. by rewrite (kv_prefix_ext m m' p H). Qed.

Lemma kv_sum_elem f m p k v : (forall k v, m !! k = Some v -> p `prefix_of` k -> 0 <= f v) ->
  m !! k = Some v -> p `prefix_of` k -> f v <= kv_sum f m p.
Proof.
  intros Hf Hk Hp. unfold kv_sum.
  assert (forall l : list (bytes * bytes), (forall kv, kv ∈ l -> 0 <= f kv.2) ->
    0 <= foldr (fun kv acc => f kv.2 + acc) 0 l /\
    forall kv, kv ∈ l -> f kv.2 <= foldr (fun kv acc => f kv.2 + acc) 0 l) as H.
  { induction l as [|e l IH]; cbn [foldr]; intros Hl.
    - split; [lia|]. intros kv Hin. by apply not_elem_of_nil in Hin.
    - destruct IH as [I1 I2]; [intros kv Hkv; apply Hl; by right|]. pose proof (Hl e ltac:(left)).
      split; [lia|]. intros kv [->|Hin]%elem_of_cons; [lia|]. specialize (I2 kv Hin). lia. }
  destruct (H (kv_prefix m p)) as [_ H2].
  - intros [k' v'] [? ?]%elem_of_kv_prefix. by eapply Hf.
  - by apply (H2 (k, v)), elem_of_kv_prefix.
Qed.

(** Two one-byte prefixes do not overlap. *)
Lemma prefix_distinct (a b : byte) (k : bytes) : [a] `prefix_of` k -> [b] `prefix_of` k -> a = b.
Proof. intros [x ->] [y E]. by injection E. Qed.

Lemma kv_prefix_nil m p : kv_prefix m p = [] <-> forall k, p `prefix_of` k -> m !! k = None.
Proof.
  split.
  - intros E k Hp. destruct (m !! k) as [v|] eqn:Hk; [|done].
    assert ((k, v) ∈ kv_prefix m p) as Hin by (by apply elem_of_kv_prefix).
    rewrite E in Hin. by apply not_elem_of_nil in Hin.
  - intros H. apply elem_of_nil_inv. intros [k v] Hin.
    apply elem_of_kv_prefix in Hin as [E Hp]. by rewrite H in E.
Qed.

(** ** Deleting several keys *)

Section Deletes.
Context {St X : Type} {KV : KVStore St} {KVL : KVStoreLaws St}.
Local Abbreviation W := (world St X).

Lemma mfor_delete_run sk ks (w : W) : Forall (fun k => k <> []) ks ->
  exists w' m, mfor ks (st_delete sk) w = (w', Ok tt) /\ store_upd sk m w w' /\
    forall k, m !! k = if decide (k ∈ ks) then None else view sk w !! k.
Proof.
  intros HF. revert w. induction HF as [|k ks Hk HF IH]; intros w.
  - exists w, (view sk w). split_and!; [done|apply store_upd_refl|]. intros k.
    by rewrite decide_False by apply not_elem_of_nil.
  - destruct (st_delete_run sk k w Hk) as (w1 & E1 & U1).
    destruct (IH w1) as (w2 & m & E2 & U2 & Hm). exists w2, m. cbn [mfor].
    erewrite bind_Ok_run by exact E1. split_and!; [done|by eapply store_upd_trans|].
    intros k'. rewrite Hm. destruct U1 as (-> & _).
    destruct (decide (k' = k)) as [->|Hne].
    + rewrite lookup_delete_eq, (decide_True (P := k ∈ k :: ks)) by left. by case_decide.
    + rewrite lookup_delete_ne by done. case_decide; case_decide; set_solver.
Qed.

Lemma delete_prefix_run sk p (w : W) : p <> [] ->
  exists w' m, (ask (st_iterator sk p) ≫= fun kvs => mfor (kvs.*1) (st_delete sk)) w = (w', Ok tt) /\
    store_upd sk m w w' /\ forall k, m !! k = if decide (p `prefix_of` k) then None else view sk w !! k.
Proof.
  intros Hp. destruct (mfor_delete_run sk (kv_prefix (view sk w) p).*1 w) as (w' & m & E & U & Hm).
  { apply Forall_fmap, Forall_forall. intros [k v] [_ [s Hs]]%elem_of_kv_prefix. cbn. subst k.
    by destruct p. }
  exists w', m. erewrite bind_ask_run by (by apply st_iterator_run). split_and!; [done|done|].
  intros k. rewrite Hm. destruct (view sk w !! k) as [v|] eqn:Hk; [|by case_decide; case_decide].
  assert (k ∈ (kv_prefix (view sk w) p).*1 <-> p `prefix_of` k) as Hiff.
  { rewrite list_elem_of_fmap. split.
    - intros ([k' v'] & -> & [_ ?]%elem_of_kv_prefix). done.
    - intros Hpre. exists (k, v). split; [done|]. by apply elem_of_kv_prefix. }
  by case_decide; case_decide; try tauto.
Qed.

End Deletes.

(** ** Guarantees: relations between the states before and after

    [guarantees R E m]: unless it panics, [m] ends with a value in a state related
    by [R] to the one it started in, or with an error in one related by [E]. For a
    preorder [R] and an [E] that [R] composes with, this is compositional. *)

Class ErrRel {S : Type} (R E : S -> S -> Prop) : Prop := {
  err_of w w' : R w w' -> E w w';
  err_after w1 w2 w3 : R w1 w2 -> E w2 w3 -> E w1 w3
}.

(** The two uses: errors keep the guarantee, or end the run. *)
Definition any_state {S : Type} (_ _ : S) : Prop := True.

#[global] Instance err_same {S} (R : S -> S -> Prop) {PR : PreOrder R} : ErrRel R R.
Proof. split; [done|]. intros w1 w2 w3 H1 H2. by transitivity w2. Qed.

#[global] Instance err_any {S} (R : S -> S -> Prop) : ErrRel R any_state.
Proof. done. Qed.

Section Guarantees.
Context {S : Type} (R E : S -> S -> Prop) {PR : PreOrder R} {ER : ErrRel R E}.

Definition guarantees {A} (m : M S A) : Prop :=
  forall w, wlp m (fun _ w' => R w w') (fun _ w' => E w w') w.

Lemma guar_Ok {A} (m : M S A) w w' a : guarantees m -> m w = (w', Ok a) -> R w w'.
Proof. intros Hm Hr. exact (wlp_run _ _ _ _ _ _ (Hm w) Hr). Qed.

Lemma guar_bind {A B} (m : M S A) (f : A -> M S B) :
  guarantees m -> (forall a, guarantees (f a)) -> guarantees (m ≫= f).
Proof.
  intros Hm Hf w. apply wlp_bind. eapply wlp_mono; [apply Hm| |done].
  intros a w1 H1. eapply wlp_mono; [apply Hf| |]; cbn; intros ? w2 H2.
  - by transitivity w1.
  - exact (err_after _ _ _ H1 H2).
Qed.

Lemma guar_bind_lift {A B} (r : res A) (f : A -> M S B) :
  (forall a, r = Ok a -> guarantees (f a)) -> guarantees (lift r ≫= f).
Proof.
  intros Hf w. apply wlp_bind, wlp_lift; [|intros ? _; exact (err_of _ _ (reflexivity _))].
  intros a Ha. by apply Hf.
Qed.

Lemma guar_must {A} (m : M S A) : guarantees m -> guarantees (must m).
Proof. intros Hm w. apply wlp_must. eapply wlp_mono; [apply Hm|done|done]. Qed.

Lemma guar_mret {A} (a : A) : guarantees (mret a).
Proof. intros w. by apply wlp_mret. Qed.

Lemma guar_throw {A} e : guarantees (throw e : M S A).
Proof. intros w. apply wlp_throw. exact (err_of _ _ (reflexivity _)). Qed.

Lemma guar_ask {A} (f : S -> res A) : guarantees (ask f).
Proof. intros w. apply wlp_ask; intros ? _; [done|exact (err_of _ _ (reflexivity _))]. Qed.

Lemma guar_lift {A} (r : res A) : guarantees (lift r).
Proof. intros w. apply wlp_lift; intros ? _; [done|exact (err_of _ _ (reflexivity _))]. Qed.

Lemma guar_guard c e : guarantees (guard_err c e).
Proof. intros w. apply wlp_guard; intros _; [done|exact (err_of _ _ (reflexivity _))]. Qed.

Lemma guar_mfor {A} (l : list A) body : (forall x, x ∈ l -> guarantees (body x)) -> guarantees (mfor l body).
Proof.
  induction l as [|x l IH]; intros Hb; cbn [mfor]; [apply guar_mret|].
  apply guar_bind; [apply Hb; left|]. intros _. apply IH. intros y Hy. apply Hb. by right.
Qed.

Lemma guar_mfold {A B} (l : list A) (acc : B) body :
  (forall acc x, guarantees (body acc x)) -> guarantees (mfold l acc body).
Proof.
  intros Hb. revert acc. induction l as [|x l IH]; intros acc; cbn [mfold]; [apply guar_mret|].
  apply guar_bind; auto.
Qed.

End Guarantees.

Lemma guar_or_return {S A} (R E : S -> S -> Prop) {PR : PreOrder R} {ER : ErrRel R E}
  (m : M S A) (f : A -> M S unit) :
  guarantees R R m -> (forall a, guarantees R E (f a)) -> guarantees R E (or_return m f).
Proof.
  intros Hm Hf w. apply wlp_or_return. eapply wlp_mono; [apply Hm| |done].
  intros a w1 H1. eapply wlp_mono; [apply Hf| |]; cbn; intros ? w2 H2.
  - by transitivity w1.
  - exact (err_after _ _ _ H1 H2).
Qed.

(** ** Frames: the keys of a store that a program leaves alone *)

Section Frames.
Context {St X : Type} {KV : KVStore St} {KVL : KVStoreLaws St}.
Local Abbreviation W := (world St X).
Context (sk : store_key) (P : bytes -> Prop).

Definition agree (w w' : W) : Prop := forall k, P k -> view sk w' !! k = view sk w !! k.

#[global] Instance agree_preorder : PreOrder agree.
Proof. split; [done|]. intros w1 w2 w3 H1 H2 k Hk. by rewrite H2, H1. Qed.

(** Unless it panics, [m] leaves the entries whose key satisfies [P] as they are. *)
Definition framed {A} (m : M W A) : Prop := guarantees agree agree m.

Lemma framed_bind {A B} (m : M W A) (f : A -> M W B) :
  framed m -> (forall a, framed (f a)) -> framed (m ≫= f).
Proof. apply guar_bind; apply _. Qed.

Lemma framed_or_return {A} (m : M W A) (f : A -> M W unit) :
  framed m -> (forall a, framed (f a)) -> framed (or_return m f).
Proof. apply guar_or_return; apply _. Qed.

Lemma framed_mret {A} (a : A) : framed (mret a).
Proof. apply guar_mret; apply _. Qed.

Lemma framed_ask {A} (f : W -> res A) : framed (ask f).
Proof. apply guar_ask; apply _. Qed.

Lemma framed_lift {A} (r : res A) : framed (lift r).
Proof. apply guar_lift; apply _. Qed.

Lemma framed_guard c e : framed (guard_err c e).
Proof. apply guar_guard; apply _. Qed.

Lemma framed_emit ty attrs : framed (emit ty attrs).
Proof. intros w. apply wlp_emit. intros k _. by rewrite view_add_event. Qed.

Lemma framed_ext {A} (f : X -> X * res A) : framed (ext f).
Proof.
  intros w. apply wlp_ext. intros x r _. destruct r; try done; intros k _; by rewrite view_set_ext.
Qed.

Lemma framed_mfor {A} (l : list A) body : (forall x, x ∈ l -> framed (body x)) -> framed (mfor l body).
Proof. apply guar_mfor; apply _. Qed.

Lemma framed_mfold {A B} (l : list A) (acc : B) body : (forall acc x, framed (body acc x)) -> framed (mfold l acc body).
Proof. apply guar_mfold; apply _. Qed.

Lemma framed_set k v : k <> [] -> ~ P k -> framed (st_set sk k v).
Proof.
  intros Hk Hn w. apply wlp_st_set; [done|]. intros w' (V & _) k' Hk'.
  rewrite V, lookup_insert_ne; [done|]. by intros ->.
Qed.

Lemma framed_delete k : k <> [] -> ~ P k -> framed (st_delete sk k).
Proof.
  intros Hk Hn w. apply wlp_st_delete; [done|]. intros w' (V & _) k' Hk'.
  rewrite V, lookup_delete_ne; [done|]. by intros ->.
Qed.

Lemma framed_delete_prefix p : p <> [] -> (forall k, P k -> ~ p `prefix_of` k) ->
  framed (ask (st_iterator sk p) ≫= fun kvs => mfor (kvs.*1) (st_delete sk)).
Proof.
  intros Hp Hn w. destruct (delete_prefix_run sk p w Hp) as (w' & m & E & (V & _) & Hm).
  unfold wlp. rewrite E. intros k Hk. rewrite V, Hm, decide_False; [done|]. by apply Hn.
Qed.

End Frames.

(** Splits [framed] along the program. *)
Ltac frame_step :=
  lazymatch goal with
  | |- framed _ _ (mret _) => apply framed_mret
  | |- framed _ _ (ask _) => apply framed_ask
  | |- framed _ _ (lift _) => apply framed_lift
  | |- framed _ _ (guard_err _ _) => apply framed_guard
  | |- framed _ _ (emit _ _) => apply framed_emit
  | |- framed _ _ (ext _) => apply framed_ext
  | |- framed _ _ (or_return _ _) => apply framed_or_return; [|intros ?]
  | |- framed _ _ (mfor _ _) => apply framed_mfor; intros ? ?
  | |- framed _ _ (mfold _ _ _) => apply framed_mfold; intros ? ?
  | |- framed _ _ (let _ := _ in _) => cbv zeta
  | |- framed _ _ (match ?x with _ => _ end) => destruct x
  | |- framed _ _ (mbind _ _) => apply framed_bind; [|intros ?]
  end.
Ltac frame_steps := repeat (frame_step; cbv beta).
