(* ===== verification/SdkRef.v ===== *)
(** * Reference instances of the SDK interfaces

    One concrete instance of every class of [Sdk], with its laws proved: finite
    maps for the stores, decimal strings and banker's rounding for the numbers,
    a ledger for x/bank with the staking state beside it. They show that the
    laws the theorems assume can hold together, and the witnesses evaluate on
    them. *)

From S2P Require Import Prelude Sdk World.

Open Scope Z_scope.

(** ** Key-value store: a finite map *)

(** The end of the range of keys that start with [p]: [p] without its trailing
    0xff bytes, its last byte incremented; no end when [p] is all 0xff. *)
Fixpoint prefix_end (p : bytes) : option bytes :=
  match p with
  | [] => None
  | x :: p => match prefix_end p with
              | Some q => Some (x :: q)
              | None => if decide (x = xff) then None else Some [byte_of_Z (Z_of_byte x + 1)]
              end
  end.

Definition nonempty {A} (k : bytes) (r : res A) : res A :=
  match k with [] => Err (Errorf "key is nil") | _ => r end.

#[global] Instance KV_ref : KVStore (gmap bytes bytes) := {|
  kv_get m k := nonempty k (Ok (m !! k));
  kv_has m k := nonempty k (Ok (bool_decide (is_Some (m !! k))));
  kv_set m k v := nonempty k (Ok (<[k := v]> m));
  kv_delete m k := nonempty k (Ok (delete k m));
  kv_iterator m a b := Ok (kv_range m a b);
  kv_reverse_iterator m a b := Ok (reverse (kv_range m a b));
  PrefixEndBytes := prefix_end;
  kv_view m := m
|}.

(** ** Numbers *)

(** [a / b] rounded to the nearest integer, ties to even; [b > 0]. *)
Definition bankers (a b : Z) : Z :=
  let q := Z.quot a b in
  let r := Z.abs (Z.rem a b) in
  if 2 * r <? b then q
  else if b <? 2 * r then q + Z.sgn a
  else if Z.even q then q else q + Z.sgn a.

Definition ranged (limit z : Z) : res Z :=
  if decide (Z.abs z < limit) then Ok z else Panic.

Definition digit_char (d : Z) : byte := byte_of_Z (48 + d).

(** [k] decimal digits of [n]. *)
Fixpoint pad (k : nat) (n : Z) : bytes :=
  match k with
  | O => []
  | S k => pad k (n / 10) ++ [digit_char (n mod 10)]
  end.

Fixpoint ndigits (fuel : nat) (n : Z) : nat :=
  match fuel with
  | O => 1%nat
  | S fuel => if n <? 10 then 1%nat else S (ndigits fuel (n / 10))
  end.

Definition nat_digits (n : Z) : bytes := pad (ndigits (Z.to_nat (Z.log2 n)) n) n.

Definition int_bytes (z : Z) : bytes :=
  if z <? 0 then "-"%byte :: nat_digits (- z) else nat_digits z.

Definition dec_bytes_abs (d : Z) : bytes :=
  nat_digits (d / dec_one) ++ "."%byte :: pad 18 (d mod dec_one).

Definition dec_bytes (d : Z) : bytes :=
  if d <? 0 then "-"%byte :: dec_bytes_abs (- d) else dec_bytes_abs d.

Definition int_of_string (s : string) : option Z :=
  z ← int_literal s; if decide (Z.abs z < int_limit) then Some z else None.

Definition bad_dec : error := Registered "math" 2.

#[global] Instance SM_ref : SdkMath := {|
  NewIntFromString := int_of_string;
  IntString z := string_of (int_bytes z);
  IntAdd a b := ranged int_limit (a + b);
  IntSub a b := ranged int_limit (a - b);
  IntMarshal z := Ok (int_bytes z);
  IntUnmarshal b := match int_of_string (string_of b) with
                    | Some z => Ok z | None => Err (Errorf "invalid integer") end;
  LegacyNewDecFromStr s := match dec_literal s with
    | Some d => if decide (Z.abs d < dec_limit) then Ok d else Err bad_dec
    | None => Err bad_dec end;
  DecString d := string_of (dec_bytes d);
  DecAdd a b := ranged dec_limit (a + b);
  DecSub a b := ranged dec_limit (a - b);
  DecMul a b := ranged dec_limit (bankers (a * b) dec_one);
  DecQuo a b := if decide (b = 0) then Panic
                else ranged dec_limit (bankers (Z.quot (a * dec_one * dec_one) b) dec_one);
  DecQuoInt64 a n := if decide (n = 0) then Panic else Ok (Z.quot a n);
  DecTruncateInt d := ranged int_limit (Z.quot d dec_one)
|}.

(** ** Coins and addresses *)

#[global] Instance CO_ref : Coins := {|
  NewCoin d a := if (a <? 0) || negb (denom_ok d) then Panic else Ok (d, a);
  NewCoins c := if (c.2 <? 0) || negb (denom_ok c.1) then Panic
                else Ok (if decide (c.2 = 0) then [] else [c]);
  CoinsString c := String.concat "," ((fun p => (string_of (int_bytes p.2) +:+ p.1)%string) <$> c);
  CoinString p := (string_of (int_bytes p.2) +:+ p.1)%string
|}.

Definition addr_parse (hrp : string) (s : string) : res bytes :=
  match decide (bytes_of hrp `prefix_of` bytes_of s) with
  | left _ => let a := drop (length (bytes_of hrp)) (bytes_of s) in
              if decide (1 <= length a <= 255)%nat then Ok a else Err (Errorf "address length")
  | right _ => Err (Errorf "address prefix")
  end.

#[global] Instance BE_ref : Bech32 := {|
  AccAddressFromBech32 := addr_parse "vtx1";
  ValAddressFromBech32 := addr_parse "vtxvaloper1";
  AccString a := string_of (bytes_of "vtx1" ++ a);
  ValString a := string_of (bytes_of "vtxvaloper1" ++ a);
  MustLengthPrefix a := if decide (255 < length a)%nat then Panic else
                        if decide (a = []) then Ok [] else Ok (byte_of_Z (Z.of_nat (length a)) :: a)
|}.

(** ** The SDK modules: a ledger and a validator set *)

Record sdk_state : Type := mkSdk {
  bal : bytes -> string -> Z;
  sup : string -> Z;
  vals : list Validator;
  last_power : bytes -> Z;
  total_power : Z
}.

Definition set_bal (b : bytes -> string -> Z) (s : string -> Z) (x : sdk_state) : sdk_state :=
  mkSdk b s (vals x) (last_power x) (total_power x).

Definition get_bal (x : sdk_state) (a : bytes) (d : string) : Z := Z.max 0 (bal x a d).

Definition enough (x : sdk_state) (a : bytes) (c : coins) : bool :=
  forallb (fun p => (0 <=? p.2) && (coin_amt c p.1 <=? get_bal x a p.1)) c.

Definition err_funds : error := Registered "sdk" 5.

Definition send (r : restr) (x : sdk_state) (f t : bytes) (c : coins) : sdk_state * res unit :=
  match r f t c with
  | Ok t' =>
      if enough x f c then
        (set_bal (fun a d => get_bal x a d + (if decide (a = t') then coin_amt c d else 0)
                                          - (if decide (a = f) then coin_amt c d else 0))
                 (sup x) x, Ok tt)
      else (x, Err err_funds)
  | Err e => (x, Err e)
  | Panic => (x, Panic)
  end.

Definition create (sgn : Z) (x : sdk_state) (t : bytes) (c : coins) : sdk_state :=
  set_bal (fun a d => get_bal x a d + (if decide (a = t) then sgn * coin_amt c d else 0))
          (fun d => sup x d + sgn * coin_amt c d) x.

Definition has_perm (perms : list (string * list string)) (m p : string) : bool :=
  existsb (fun e => bool_decide (e.1 = m) && bool_decide (p ∈ e.2)) perms.

Definition BK_ref (perms : list (string * list string)) (blocked : list string) :
  BankKeeper sdk_state := {|
  GetModuleAddress m := bytes_of m;
  BlockedAddr a := bool_decide (a ∈ bytes_of <$> blocked);
  GetBalance := get_bal;
  GetSupply := sup;
  SendCoins := send;
  SendCoinsFromModuleToModule r x m n c := send r x (bytes_of m) (bytes_of n) c;
  SendCoinsFromAccountToModule r x f n c := send r x f (bytes_of n) c;
  SendCoinsFromModuleToAccount r x m t c :=
    if bool_decide (t ∈ bytes_of <$> blocked) then (x, Err (Registered "sdk" 4))
    else send r x (bytes_of m) t c;
  MintCoins x m c := if forallb (fun p => 0 <=? p.2) c && has_perm perms m "minter"
                     then (create 1 x (bytes_of m) c, Ok tt) else (x, Panic);
  BurnCoins x m c := if has_perm perms m "burner" then
                       if enough x (bytes_of m) c then (create (-1) x (bytes_of m) c, Ok tt)
                       else (x, Err err_funds)
                     else (x, Panic);
  FundCommunityPool r x c f := send r x f (bytes_of "distribution") c
|}.

#[global] Instance SK_ref : StakingKeeper sdk_state := {|
  GetValidator x v := match filter (fun e => ValAddressFromBech32 (OperatorAddress e) = Ok v) (vals x) with
                      | e :: _ => Ok e
                      | [] => Err (Registered "staking" 3) end;
  GetLastValidatorPower x v := Ok (Z.max 0 (Z.min (two63 - 1) (last_power x v)));
  GetBondedValidatorsByPower x := Ok (filter (fun e => VStatus e = Bonded) (vals x));
  GetLastTotalPower x := Ok (total_power x)
|}.

Definition bonded_pool : string := "bonded_tokens_pool".

(** Slashing burns a share of the tokens of the bonded pool: one unit of power is
    10^6 base tokens. *)
#[global] Instance SL_ref : SlashingKeeper sdk_state := {|
  Slash x _ fraction power _ :=
    let a := Z.quot (power * 1000000 * fraction) dec_one in
    if (0 <=? a) && (a <=? get_bal x (bytes_of bonded_pool) "uvtx")
    then (create (-1) x (bytes_of bonded_pool) [("uvtx"%string, a)], Ok tt)
    else (x, Err err_funds)
|}.

(** ** The laws *)

Lemma byte_eq_xff x : Z_of_byte x = 255 -> x = xff.
Proof. intros H. apply Z_of_byte_inj. by rewrite H. Qed.

Lemma prefix_end_range p k :
  in_range p (prefix_end p) k = bool_decide (p `prefix_of` k).
Proof.
  unfold in_range, bytes_leb. revert k; induction p as [|x p IH]; intros k.
  - cbn. rewrite bool_decide_eq_true_2 by apply prefix_nil. by destruct k.
  - destruct k as [|y k].
    { cbn. symmetry. apply bool_decide_eq_false_2. apply prefix_nil_not. }
    specialize (IH k). pose proof (Z_of_byte_range x). pose proof (Z_of_byte_range y).
    assert (bool_decide (x :: p `prefix_of` y :: k)
            = (Z_of_byte x =? Z_of_byte y) && bool_decide (p `prefix_of` k)) as ->.
    { destruct (Z.eqb_spec (Z_of_byte x) (Z_of_byte y)) as [E|E]; cbn.
      - apply Z_of_byte_inj in E as ->. apply bool_decide_ext. split.
        + apply prefix_cons_inv_2.
        + apply prefix_cons.
      - apply bool_decide_eq_false_2. intros Hp. apply E. f_equal.
        by apply prefix_cons_inv_1 in Hp. }
    rewrite <- IH. cbn. destruct (prefix_end p) as [q|]; cbn.
    + destruct (Z.ltb_spec (Z_of_byte y) (Z_of_byte x)),
               (Z.ltb_spec (Z_of_byte x) (Z_of_byte y)),
               (Z.eqb_spec (Z_of_byte x) (Z_of_byte y)); cbn; try lia; done.
    + destruct (decide (x = xff)) as [->|Ex].
      * change (Z_of_byte xff) with 255.
        destruct (Z.ltb_spec (Z_of_byte y) 255), (Z.ltb_spec 255 (Z_of_byte y)),
                 (Z.eqb_spec 255 (Z_of_byte y)); cbn; try lia; try done.
      * assert (Z_of_byte x <> 255) by (intros E; by apply Ex, byte_eq_xff).
        cbn. rewrite Z_of_byte_of_Z. rewrite Z.mod_small by lia.
        destruct (Z.ltb_spec (Z_of_byte y) (Z_of_byte x)),
                 (Z.ltb_spec (Z_of_byte x) (Z_of_byte y)),
                 (Z.eqb_spec (Z_of_byte x) (Z_of_byte y)),
                 (Z.ltb_spec (Z_of_byte y) (Z_of_byte x + 1)); cbn; try lia; try done.
        destruct (Z_of_byte x + 1 <? Z_of_byte y); destruct k; done.
Qed.

#[global] Instance KVL_ref : KVStoreLaws (gmap bytes bytes).
Proof.
  constructor; cbn; intros.
  - by destruct k.
  - by destruct k.
  - exists (<[k := v]> s). by destruct k.
  - exists (delete k s). by destruct k.
  - done.
  - done.
  - apply prefix_end_range.
Qed.

(** *** Numbers *)

Lemma bankers_nearest a b : 0 < b -> nearest (bankers a b) a b.
Proof.
  intros Hb. unfold nearest, bankers.
  pose proof (Z.quot_rem' a b) as E. pose proof (Z.rem_bound_abs a b ltac:(lia)) as B.
  pose proof (Z.rem_sign_nz a b) as Hs.
  set (q := Z.quot a b) in *. set (r := Z.rem a b) in *. clearbody q r.
  assert (a = b * q + r) as -> by lia. clear E.
  repeat case_match; rewrite ?Z.ltb_lt, ?Z.ltb_ge in *;
    try (replace (q * b - (b * q + r)) with (- r) by lia; lia).
  all: assert (Z.sgn (b * q + r) = Z.sgn r) as Hsg by (rewrite Hs; [done|lia|lia]).
  all: rewrite Hsg; replace ((q + Z.sgn r) * b - (b * q + r)) with (Z.sgn r * b - r) by lia.
  all: destruct (Z.sgn_spec r) as [[? ->]|[[? ->]|[? ->]]]; lia.
Qed.

Lemma nearest_abs c a b L : 0 < b -> nearest c a b -> Z.abs a <= L * b -> Z.abs c <= L.
Proof.
  unfold nearest. intros Hb Hn Ha. rewrite (Z.abs_eq b) in Hn by lia.
  destruct (Z.le_gt_cases (Z.abs c) L) as [|Hgt]; [done|].
  assert (Z.abs c * b <= Z.abs (c * b - a) + Z.abs a).
  { replace (Z.abs c * b) with (Z.abs (c * b)) by (rewrite Z.abs_mul; lia). lia. }
  nia.
Qed.

Lemma nearest_abs_ge c a b L : 0 < b -> nearest c a b -> L * b <= Z.abs a -> L <= Z.abs c.
Proof.
  unfold nearest. intros Hb Hn Ha. rewrite (Z.abs_eq b) in Hn by lia.
  destruct (Z.le_gt_cases L (Z.abs c)) as [|Hgt]; [done|].
  assert (Z.abs a <= Z.abs (c * b - a) + Z.abs c * b).
  { replace (Z.abs c * b) with (Z.abs (c * b)) by (rewrite Z.abs_mul; lia). lia. }
  nia.
Qed.

Lemma ranged_Ok L z c : ranged L z = Ok c -> c = z /\ Z.abs z < L.
Proof. unfold ranged. case_decide; naive_solver. Qed.

Lemma ranged_in L z : Z.abs z < L -> ranged L z = Ok z.
Proof. intros. unfold ranged. by rewrite decide_True. Qed.

Lemma ranged_out L z : L <= Z.abs z -> ranged L z = Panic.
Proof. intros. unfold ranged. rewrite decide_False; [done|lia]. Qed.

Lemma digit_digit_char d : 0 <= d < 10 -> digit (digit_char d) = Some d.
Proof.
  intros Hd. unfold digit, digit_char. rewrite Z_of_byte_of_Z, Z.mod_small by lia.
  replace ((48 <=? 48 + d) && (48 + d <=? 57)) with true by (symmetry; apply andb_true_iff; lia).
  f_equal. lia.
Qed.

Lemma digits_app acc a b : digits acc (a ++ b) = (z ← digits acc a; digits z b).
Proof.
  revert acc; induction a as [|x a IH]; intros acc; cbn; [done|].
  destruct (digit x); cbn; [apply IH|done].
Qed.

Lemma digits_pad k acc n : 0 <= n ->
  digits acc (pad k n) = Some (acc * 10 ^ Z.of_nat k + n mod 10 ^ Z.of_nat k).
Proof.
  revert acc n; induction k as [|k IH]; intros acc n Hn.
  - cbn. rewrite Z.mod_1_r. f_equal. lia.
  - cbn [pad]. rewrite digits_app, IH by (apply Z.div_pos; lia). cbn.
    rewrite digit_digit_char by (apply Z.mod_pos_bound; lia). cbn. f_equal.
    replace (Z.of_nat (S k)) with (1 + Z.of_nat k) by lia. rewrite Z.pow_add_r by lia.
    pose proof (Z.pow_pos_nonneg 10 (Z.of_nat k) ltac:(lia) ltac:(lia)).
    rewrite Z.pow_1_r, Z.rem_mul_r by lia. lia.
Qed.

Lemma length_pad k n : length (pad k n) = k.
Proof. revert n; induction k as [|k IH]; intros n; cbn; [done|]. rewrite length_app, IH. cbn. lia. Qed.

Lemma pad_head k n : 0 <= n -> 10 ^ Z.of_nat k <= n < 10 ^ Z.of_nat (S k) ->
  exists d r, pad (S k) n = digit_char d :: r /\ 1 <= d < 10.
Proof.
  revert n; induction k as [|k IH]; intros n H0 Hn.
  - change (10 ^ Z.of_nat 0) with 1 in Hn. change (10 ^ Z.of_nat 1) with 10 in Hn.
    exists n, []. cbn. rewrite Z.mod_small by lia. split; [done|lia].
  - destruct (IH (n / 10)) as (d & r & E & Hd).
    + apply Z.div_pos; lia.
    + replace (Z.of_nat (S (S k))) with (1 + Z.of_nat (S k)) in Hn by lia.
      replace (Z.of_nat (S k)) with (1 + Z.of_nat k) in Hn at 1 by lia.
      rewrite !Z.pow_add_r in Hn by lia.
      split; [apply Z.div_le_lower_bound|apply Z.div_lt_upper_bound]; lia.
    + exists d, (r ++ [digit_char (n mod 10)]). split; [|done].
      change (pad (S (S k)) n) with (pad (S k) (n / 10) ++ [digit_char (n mod 10)]). by rewrite E.
Qed.

Lemma ndigits_bound fuel n : 0 <= n -> n < 2 ^ (Z.of_nat fuel + 1) ->
  n < 10 ^ Z.of_nat (ndigits fuel n) /\
  (exists k, ndigits fuel n = S k /\ (k = O \/ 10 ^ Z.of_nat k <= n)).
Proof.
  revert n; induction fuel as [|fuel IH]; intros n H0 Hn; cbn [ndigits].
  - change (2 ^ (Z.of_nat 0 + 1)) with 2 in Hn. change (10 ^ Z.of_nat 1) with 10.
    split; [lia|]. exists O. auto.
  - destruct (Z.ltb_spec n 10); [split; [cbn; lia|exists O; auto]|].
    destruct (IH (n / 10)) as (H1 & k & H2 & H3).
    + apply Z.div_pos; lia.
    + replace (Z.of_nat (S fuel) + 1) with (1 + (Z.of_nat fuel + 1)) in Hn by lia.
      rewrite Z.pow_add_r in Hn by lia. apply Z.div_lt_upper_bound; lia.
    + assert (n = 10 * (n / 10) + n mod 10) by (apply Z.div_mod; lia).
      assert (0 <= n mod 10 < 10) by (apply Z.mod_pos_bound; lia).
      split.
      * replace (Z.of_nat (S (ndigits fuel (n / 10)))) with (1 + Z.of_nat (ndigits fuel (n / 10))) by lia.
        rewrite Z.pow_add_r by lia. lia.
      * exists (ndigits fuel (n / 10)). split; [done|]. right. rewrite H2.
        destruct H3 as [->|H3]; [cbn; lia|].
        replace (Z.of_nat (S k)) with (1 + Z.of_nat k) by lia. rewrite Z.pow_add_r by lia. lia.
Qed.

Lemma nat_digits_ndigits n : 0 <= n ->
  n < 10 ^ Z.of_nat (ndigits (Z.to_nat (Z.log2 n)) n) /\
  (exists k, ndigits (Z.to_nat (Z.log2 n)) n = S k /\ (k = O \/ 10 ^ Z.of_nat k <= n)).
Proof.
  intros Hn. apply ndigits_bound; [done|].
  rewrite Z2Nat.id by apply Z.log2_nonneg.
  destruct (Z.eq_dec n 0) as [->|]; [cbn; lia|]. apply Z.log2_spec. lia.
Qed.

Lemma nat_digits_parse n : 0 <= n -> decimal_natural (nat_digits n) = Some n.
Proof.
  intros Hn. destruct (nat_digits_ndigits n Hn) as (Hlt & k & Ek & Hk).
  assert (natural (nat_digits n) = Some n) as Hnat.
  { unfold natural. destruct (nat_digits n) as [|x l] eqn:E.
    - apply (f_equal length) in E. unfold nat_digits in E. rewrite length_pad, Ek in E. done.
    - rewrite <- E. unfold nat_digits. rewrite digits_pad by done. f_equal.
      rewrite Z.mod_small; lia. }
  unfold decimal_natural. unfold nat_digits in *. rewrite Ek in *.
  destruct Hk as [->|Hk]; [cbn [pad app] in *; destruct (digit_char (n mod 10)); exact Hnat|].
  destruct (pad_head k n Hn) as (d & r & E & Hd); [lia|].
  rewrite E in *. assert (digit_char d <> "0"%byte).
  { intros E0. apply (f_equal Z_of_byte) in E0. unfold digit_char in E0.
    rewrite Z_of_byte_of_Z, Z.mod_small in E0 by lia. cbn in E0. lia. }
  by destruct (digit_char d).
Qed.

Lemma nat_digits_natural n : 0 <= n -> natural (nat_digits n) = Some n.
Proof.
  intros Hn. pose proof (nat_digits_parse n Hn) as H. unfold decimal_natural in H.
  repeat case_match; try done.
Qed.

Definition is_digit_char (b : byte) : Prop := exists d, 0 <= d < 10 /\ b = digit_char d.

Lemma pad_digits k n : 0 <= n -> Forall is_digit_char (pad k n).
Proof.
  revert n; induction k as [|k IH]; intros n Hn; cbn; [constructor|].
  apply Forall_app. split; [apply IH, Z.div_pos; lia|].
  repeat constructor. exists (n mod 10). split; [apply Z.mod_pos_bound; lia|done].
Qed.

Lemma is_digit_char_range b : is_digit_char b -> 48 <= Z_of_byte b <= 57.
Proof.
  intros (d & Hd & ->). unfold digit_char. rewrite Z_of_byte_of_Z, Z.mod_small by lia. lia.
Qed.

Lemma not_minus b l : Forall is_digit_char (b :: l) -> b <> "-"%byte.
Proof. intros H ->. apply Forall_cons in H as [H _]. apply is_digit_char_range in H. cbn in H. lia. Qed.

Lemma nat_digits_cons n : 0 <= n -> exists c l, nat_digits n = c :: l /\ c <> "-"%byte.
Proof.
  intros Hn. assert (Forall is_digit_char (nat_digits n)) as HF by (by apply pad_digits).
  destruct (nat_digits_ndigits n Hn) as (_ & k & Ek & _).
  destruct (nat_digits n) as [|c l] eqn:E.
  - apply (f_equal length) in E. unfold nat_digits in E. by rewrite length_pad, Ek in E.
  - exists c, l. split; [done|]. by eapply not_minus.
Qed.

Lemma int_literal_print z : int_literal (string_of (int_bytes z)) = Some z.
Proof.
  unfold int_literal, int_bytes. rewrite bytes_of_string_of.
  destruct (Z.ltb_spec z 0).
  - rewrite nat_digits_parse by lia. cbn. f_equal. lia.
  - destruct (nat_digits_cons z) as (c & l & E & Hc); [lia|].
    rewrite E. destruct c; try done; rewrite <- E; by apply nat_digits_parse.
Qed.

Lemma split_at_digits a b : Forall is_digit_char a ->
  split_at "."%byte (a ++ "."%byte :: b) = (a, Some b).
Proof.
  induction 1 as [|x a Hx HF IH]; cbn; [done|].
  rewrite decide_False; [by rewrite IH|].
  intros ->. apply is_digit_char_range in Hx. cbn in Hx. lia.
Qed.

Lemma dec_literal_abs_print d : 0 <= d -> dec_literal_abs (dec_bytes_abs d) = Some d.
Proof.
  intros Hd. unfold dec_literal_abs, dec_bytes_abs.
  rewrite split_at_digits by (apply pad_digits, Z.div_pos; unfold dec_one; lia).
  rewrite length_pad, decide_True by lia.
  rewrite nat_digits_natural by (apply Z.div_pos; unfold dec_one; lia). cbn [mbind option_bind].
  assert (0 <= d mod dec_one < dec_one) by (apply Z.mod_pos_bound; unfold dec_one; lia).
  unfold natural. destruct (pad 18 (d mod dec_one)) as [|c l] eqn:E.
  { apply (f_equal length) in E. by rewrite length_pad in E. }
  rewrite <- E, digits_pad by lia. cbn [mbind option_bind]. f_equal.
  change (10 ^ Z.of_nat 18) with dec_one. rewrite Z.mod_small by done.
  change (10 ^ (18 - Z.of_nat 18)) with 1.
  pose proof (Z.div_mod d dec_one ltac:(unfold dec_one; lia)). lia.
Qed.

Lemma dec_literal_print d : dec_literal (string_of (dec_bytes d)) = Some d.
Proof.
  unfold dec_literal, dec_bytes. rewrite bytes_of_string_of.
  destruct (Z.ltb_spec d 0).
  - rewrite dec_literal_abs_print by lia. cbn. f_equal. lia.
  - destruct (nat_digits_cons (d / dec_one)) as (c & l & E & Hc).
    { apply Z.div_pos; unfold dec_one; lia. }
    pose proof (dec_literal_abs_print d H) as P.
    unfold dec_bytes_abs in *. rewrite E in *. cbn [app] in *.
    destruct c; try done.
Qed.

Lemma int_of_string_print z : Z.abs z < int_limit -> int_of_string (string_of (int_bytes z)) = Some z.
Proof.
  intros Hz. unfold int_of_string. rewrite int_literal_print. cbn [mbind option_bind].
  by rewrite decide_True.
Qed.

Lemma ndigits_le fuel n : (ndigits fuel n <= S fuel)%nat.
Proof. revert n; induction fuel as [|f IH]; intros n; cbn; [done|]. case_match; [lia|]. specialize (IH (n / 10)). lia. Qed.

Lemma nat_digits_short n k : 0 <= n < 2 ^ Z.of_nat k -> (length (nat_digits n) <= S k)%nat.
Proof.
  intros Hn. unfold nat_digits. rewrite length_pad. pose proof (ndigits_le (Z.to_nat (Z.log2 n)) n).
  assert (Z.log2 n <= Z.of_nat k); [|lia].
  destruct (Z.eq_dec n 0) as [->|]; [cbn; lia|].
  apply Z.lt_le_incl, Z.log2_lt_pow2; lia.
Qed.

Lemma int_bytes_short z k : Z.abs z < 2 ^ Z.of_nat k -> (length (int_bytes z) <= S (S k))%nat.
Proof.
  intros Hz. unfold int_bytes. destruct (Z.ltb_spec z 0).
  - cbn [length]. pose proof (nat_digits_short (- z) k ltac:(lia)). lia.
  - pose proof (nat_digits_short z k ltac:(lia)). lia.
Qed.

Lemma dec_bytes_short d : Z.abs d < dec_limit -> (length (dec_bytes d) <= 400)%nat.
Proof.
  assert (forall d, 0 <= d < dec_limit -> (length (dec_bytes_abs d) <= 350)%nat) as H.
  { clear d. intros d Hd. unfold dec_bytes_abs. rewrite length_app. cbn [length]. rewrite length_pad.
    assert (0 <= d / dec_one < 2 ^ Z.of_nat 315) as Hq.
    { change (2 ^ Z.of_nat 315) with dec_limit. split; [apply Z.div_pos; unfold dec_one; lia|].
      apply Z.div_lt_upper_bound; [unfold dec_one; lia|]. unfold dec_limit, dec_one in *. lia. }
    pose proof (nat_digits_short _ _ Hq). lia. }
  intros Hd. unfold dec_bytes. destruct (Z.ltb_spec d 0); cbn [length].
  - specialize (H (- d) ltac:(lia)). lia.
  - specialize (H d ltac:(lia)). lia.
Qed.

Lemma dec_mul_ref_total a L : Z.abs a <= (L - 1) * dec_one ->
  exists c, ranged L (bankers a dec_one) = Ok c.
Proof.
  intros H. pose proof (bankers_nearest a dec_one ltac:(unfold dec_one; lia)) as Hn.
  apply (nearest_abs _ _ _ (L - 1)) in Hn; [|unfold dec_one; lia|done].
  eexists. apply ranged_in. lia.
Qed.

Lemma dec_mul_ref_overflow a L : L * dec_one <= Z.abs a -> ranged L (bankers a dec_one) = Panic.
Proof.
  intros H. pose proof (bankers_nearest a dec_one ltac:(unfold dec_one; lia)) as Hn.
  apply (nearest_abs_ge _ _ _ L) in Hn; [|unfold dec_one; lia|done]. by apply ranged_out.
Qed.

Lemma ranged_nearest L a c : ranged L (bankers a dec_one) = Ok c -> nearest c a dec_one.
Proof.
  intros [-> _]%ranged_Ok. apply bankers_nearest. unfold dec_one. lia.
Qed.

#[global] Instance SML_ref : SdkMathLaws.
Proof.
  constructor.
  - intros s z E Hz. cbn -[int_limit]. unfold int_of_string. rewrite E. cbn [mbind option_bind].
    by rewrite decide_True.
  - intros s z E. cbn -[int_limit] in E. unfold int_of_string in E.
    destruct (int_literal s); [|done]. cbn [mbind option_bind] in E.
    case_decide; naive_solver.
  - apply int_of_string_print.
  - intros z Hz. change (length (bytes_of (string_of (int_bytes z))) <= 300)%nat.
    rewrite bytes_of_string_of. pose proof (int_bytes_short z 256 Hz). lia.
  - done.
  - done.
  - intros z Hz. eexists. split; [done|]. cbn -[int_limit]. by rewrite int_of_string_print.
  - intros s d E Hd. cbn -[dec_limit]. rewrite E. by rewrite decide_True.
  - intros s d E. cbn -[dec_limit] in E. destruct (dec_literal s); [|done]. case_decide; naive_solver.
  - intros s. cbn -[dec_limit]. repeat case_match; done.
  - intros d Hd. cbn -[dec_limit]. rewrite dec_literal_print. by rewrite decide_True.
  - intros d Hd. change (length (bytes_of (string_of (dec_bytes d))) <= 400)%nat.
    rewrite bytes_of_string_of. by apply dec_bytes_short.
  - done.
  - done.
  - intros a b c. apply ranged_nearest.
  - intros a b. apply dec_mul_ref_total.
  - intros a b. apply dec_mul_ref_overflow.
  - intros a b c E. cbn -[dec_limit dec_one] in E. case_decide; [done|].
    split; [done|]. by apply ranged_nearest in E.
  - intros a b Hb H. cbn -[dec_limit dec_one]. rewrite decide_False by done.
    by apply dec_mul_ref_total.
  - intros a b Hb H. cbn -[dec_limit dec_one]. rewrite decide_False by done.
    by apply dec_mul_ref_overflow.
  - intros a n Hn. cbn. by rewrite decide_False.
  - done.
Qed.

(** *** Coins and addresses *)

#[global] Instance COL_ref : CoinsLaws.
Proof.
  constructor; cbn; intros.
  - rewrite H. by replace (a <? 0) with false by lia.
  - by replace (a <? 0) with true by lia.
  - destruct (_ || _); naive_solver.
  - rewrite H. replace (a <? 0) with false by lia. cbn. by rewrite decide_False by lia.
  - by rewrite H.
  - destruct (Z.ltb_spec a 0), (denom_ok d); cbn in H; try done. split; [lia|]. by injection H.
Qed.

Lemma addr_parse_print hrp a : addr_ok a -> addr_parse hrp (string_of (bytes_of hrp ++ a)) = Ok a.
Proof.
  intros Ha. unfold addr_parse. rewrite bytes_of_string_of.
  destruct (decide _) as [_|Hn]; [|destruct Hn; by exists a].
  rewrite drop_app_length. by rewrite decide_True.
Qed.

Lemma addr_parse_ok hrp s a : addr_parse hrp s = Ok a -> addr_ok a.
Proof.
  unfold addr_parse. destruct (decide _) as [_|]; [|done].
  destruct (decide _) as [Ha|]; [|done]. by intros [= <-].
Qed.

Lemma addr_parse_total hrp s : addr_parse hrp s <> Panic.
Proof. unfold addr_parse. destruct (decide _); [|done]. by destruct (decide _). Qed.

#[global] Instance BEL_ref : Bech32Laws.
Proof.
  constructor.
  - intros s a. apply addr_parse_ok.
  - intros s a. apply addr_parse_ok.
  - intros s. apply addr_parse_total.
  - intros s. apply addr_parse_total.
  - intros a. apply addr_parse_print.
  - intros a. apply addr_parse_print.
  - intros a [H1 H2]. cbn. rewrite decide_False by lia.
    rewrite decide_False; [done|]. intros ->. cbn in H1. lia.
Qed.

(** *** The bank and staking state *)

Lemma enough_amt x a c d : enough x a c = true -> 0 <= coin_amt c d <= get_bal x a d.
Proof.
  unfold enough. rewrite forallb_forall. intros H.
  assert (0 <= coin_amt c d) as Hpos.
  { clear -H. assert (forall p, In p c -> 0 <= p.2) as Hp.
    { intros p Hp. specialize (H p Hp). apply andb_true_iff in H as [H _]. by apply Z.leb_le. }
    clear H. induction c as [|p c IH]; cbn; [lia|].
    assert (0 <= p.2) by (apply Hp; by left).
    assert (0 <= coin_amt c d) by (apply IH; intros; apply Hp; by right).
    case_decide; unfold coin_amt in *; lia. }
  split; [done|]. destruct (decide (d ∈ c.*1)) as [Hin|Hnin].
  - apply list_elem_of_fmap in Hin as (p & -> & Hin). apply list_elem_of_In in Hin.
    specialize (H p Hin). apply andb_true_iff in H as [_ H]. by apply Z.leb_le.
  - assert (coin_amt c d = 0) as ->; [|unfold get_bal; lia].
    clear -Hnin. induction c as [|p c IH]; cbn; [done|]. cbn in Hnin.
    apply not_elem_of_cons in Hnin as [Hne Hnin]. rewrite decide_False by done. by apply IH.
Qed.

Lemma enough_single x a d v : 0 < v <= get_bal x a d -> enough x a [(d, v)] = true.
Proof.
  intros H. unfold enough. cbn. rewrite decide_True by done. rewrite !andb_true_iff.
  repeat split; apply Z.leb_le; lia.
Qed.

Section BankRef.
Context (perms : list (string * list string)) (blocked : list string).
Local Existing Instance BK_ref.

Lemma send_ref_ok r x x' f t c u : send r x f t c = (x', Ok u) ->
  exists t', r f t c = Ok t' /\
    transferred (BK := BK_ref perms blocked) x x' f t' c /\
    (forall d, coin_amt c d <= get_bal x f d).
Proof.
  unfold send. destruct (r f t c) as [t'| |]; try done.
  destruct (enough x f c) eqn:E; [|done]. intros [= <-]. exists t'. split; [done|].
  split; [split; [|done]|].
  - intros a d. cbn. unfold get_bal at 1. cbn.
    pose proof (enough_amt _ _ _ d E). rewrite Z.max_r; [done|].
    assert (0 <= get_bal x a d) by (unfold get_bal; lia).
    repeat case_decide; subst; lia.
  - intros d. by apply enough_amt.
Qed.

Lemma has_perm_elem m ps p : (m, ps) ∈ perms -> p ∈ ps -> has_perm perms m p = true.
Proof.
  intros Hm Hp. apply existsb_exists. exists (m, ps). split; [by apply list_elem_of_In|].
  cbn. by rewrite !bool_decide_eq_true_2.
Qed.

Lemma create_neg_ref x m c : enough x (bytes_of m) c = true ->
  created (BK := BK_ref perms blocked) (-1) x (create (-1) x (bytes_of m) c) (bytes_of m) c.
Proof.
  intros E. split; [|done]. intros a d. cbn. unfold get_bal at 1. cbn.
  pose proof (enough_amt _ _ _ d E).
  assert (0 <= get_bal x a d) by (unfold get_bal; lia).
  case_decide; subst; rewrite Z.max_r; lia.
Qed.

Lemma create_pos_ref x m c : forallb (fun p => 0 <=? p.2) c = true ->
  created (BK := BK_ref perms blocked) 1 x (create 1 x (bytes_of m) c) (bytes_of m) c.
Proof.
  intros E. split; [|done]. intros a d. cbn. unfold get_bal at 1. cbn.
  assert (0 <= coin_amt c d).
  { rewrite forallb_forall in E. induction c as [|p c IH]; cbn; [lia|].
    assert (0 <= p.2) by (apply Z.leb_le, E; by left).
    assert (0 <= coin_amt c d) by (apply IH; intros; apply E; by right).
    case_decide; unfold coin_amt in *; lia. }
  assert (0 <= get_bal x a d) by (unfold get_bal; lia).
  case_decide; rewrite Z.max_r; lia.
Qed.

Lemma BKL_ref : BankLaws (BK := BK_ref perms blocked) sdk_state perms.
Proof.
  constructor; cbn -[create enough].
  - intros. unfold get_bal. lia.
  - apply send_ref_ok.
  - intros r x x' f t c e _ H. unfold send in H.
    destruct (r f t c); try done; [destruct (enough x f c); [done|]|]; by injection H as <- <-.
  - intros r x f t c e H. unfold send. by rewrite H.
  - intros r x m t t' d a ps _ Hr Ha. unfold send. rewrite Hr, enough_single by done. eauto.
  - done.
  - done.
  - intros r x m t c ps _ ->. done.
  - intros r x m t c ps _ ->. eauto.
  - intros x x' m c u. destruct (_ && _) eqn:E; [|done]. intros [= <-].
    apply andb_true_iff in E as [E _]. by apply create_pos_ref.
  - intros x x' m c e _. by destruct (_ && _).
  - intros x x' m c u. destruct (has_perm _ _ _); [|done].
    destruct (enough _ _ _) eqn:E; [|done]. intros [= <-]. by apply create_neg_ref.
  - intros x x' m c e _. destruct (has_perm _ _ _); [|done].
    destruct (enough _ _ _) eqn:E; [done|]. by intros [= <- _].
  - intros x m ps d a Hm Hp Ha. rewrite (has_perm_elem m ps) by done.
    rewrite enough_single by done. eauto.
  - intros r x x' c f u H. apply send_ref_ok in H as (t' & ? & ? & _). eauto.
  - intros m n ps qs _ _. apply bytes_of_inj.
Qed.

End BankRef.

#[global] Instance SLL_ref : StakingLaws sdk_state.
Proof.
  constructor.
  - intros x v p [= <-]. unfold two63. lia.
  - done.
  - intros x x' c f p h r v. cbn. by destruct (_ && _); intros [= <- _].
  - intros x x' c f p h r. cbn. by destruct (_ && _); intros [= _ <-].
Qed.
