(* ===== verification/Wire.v ===== *)
(** * The protobuf wire format of the generated message code

    The pieces from which the generated [Size], [MarshalToSizedBuffer] and
    [Unmarshal] methods (x/*/types/types.pb.go) are made: varints, length-
    delimited fields, skipping of unknown fields. [Marshal] allocates a buffer
    of [Size] bytes and fills it from the end; a write out of the buffer
    panics. [encode] functions give the bytes a message should have, and the
    lemmas show that filling the buffer backwards produces exactly them and that
    the decoding loop reads them back. *)

From S2P Require Import Prelude Sdk World SdkRef.

Open Scope Z_scope.

(** The error values of the generated code. *)
Definition ErrInvalidLength : error := Errorf "proto: negative length found during unmarshaling".
Definition ErrIntOverflow : error := Errorf "proto: integer overflow".
Definition ErrUnexpectedEndOfGroup : error := Errorf "proto: unexpected end of group".
Definition ErrUnexpectedEOF : error := Errorf "unexpected EOF".
Definition ErrWireType : error := Errorf "proto: wrong wireType".
Definition ErrIllegalTag : error := Errorf "proto: illegal tag".
Definition ErrEndGroup : error := Errorf "proto: wiretype end group for non-group".
Definition ErrIllegalWireType : error := Errorf "proto: illegal wireType".

(** ** Sizes and writing *)

(** [(math_bits.Len64(x|1) + 6) / 7]. *)
Definition sov (x : Z) : Z := (Z.log2 (Z.lor x 1) + 1 + 6) / 7.

Definition zlen {A} (l : list A) : Z := Z.of_nat (length l).

(** The state of a marshalling run: the buffer and the index [i]. *)
Abbreviation writer := (bytes * Z)%type.

(** [dAtA[i] = b]. *)
Definition put (buf : bytes) (i : Z) (b : byte) : res bytes :=
  if (0 <=? i) && (i <? zlen buf) then Ok (<[Z.to_nat i := b]> buf) else Panic.

(** [copy(dAtA[i:], s)]. *)
Definition copy_at (buf : bytes) (i : Z) (s : bytes) : res bytes :=
  if (0 <=? i) && (i <=? zlen buf)
  then Ok (take (Z.to_nat i) buf ++ take (length buf - Z.to_nat i)%nat s
           ++ drop (Z.to_nat i + length s)%nat buf)
  else Panic.

(** The loop of [encodeVarint]: at most 10 bytes for a [uint64]. *)
Fixpoint encodeVarint_loop (fuel : nat) (buf : bytes) (offset v : Z) : res bytes :=
  match fuel with
  | O => Panic
  | S fuel =>
      if 128 <=? v
      then buf ← put buf offset (byte_of_Z (Z.lor (Z.land v 127) 128));
           encodeVarint_loop fuel buf (offset + 1) (Z.shiftr v 7)
      else put buf offset (byte_of_Z v)
  end.

Definition encodeVarint (w : writer) (v : Z) : res writer :=
  let offset := w.2 - sov v in
  buf ← encodeVarint_loop 10 w.1 offset v;
  Ok (buf, offset).

(** [i--; dAtA[i] = tag]. *)
Definition wr_byte (b : byte) (w : writer) : res writer :=
  buf ← put w.1 (w.2 - 1) b; Ok (buf, w.2 - 1).

(** A length-delimited field: its bytes, their length, the tag. *)
Definition wr_bytes (tag : byte) (s : bytes) (w : writer) : res writer :=
  let i := w.2 - zlen s in
  buf ← copy_at w.1 i s;
  w ← encodeVarint (buf, i) (zlen s);
  wr_byte tag w.

(** [if len(s) > 0 { ... }]. *)
Definition wr_string (tag : byte) (s : string) (w : writer) : res writer :=
  if 0 <? zlen (bytes_of s) then wr_bytes tag (bytes_of s) w else Ok w.

(** [if v != 0 { ... }], for an integer field; the value is [uint64(v)]. *)
Definition wr_int (tag : byte) (v : Z) (w : writer) : res writer :=
  if negb (v =? 0) then w ← encodeVarint w (u64 v); wr_byte tag w else Ok w.

(** [if b { i--; dAtA[i] = 1; i--; dAtA[i] = tag }]. *)
Definition wr_bool (tag : byte) (b : bool) (w : writer) : res writer :=
  if b then w ← wr_byte x01 w; wr_byte tag w else Ok w.

(** [for iNdEx := len(l) - 1; iNdEx >= 0; iNdEx-- { ... }]. *)
Fixpoint wr_strings (tag : byte) (l : list string) (w : writer) : res writer :=
  match l with
  | [] => Ok w
  | s :: l => w ← wr_strings tag l w; wr_bytes tag (bytes_of s) w
  end.

Definition size_bytes (n : Z) : Z := 1 + n + sov n.
Definition size_string (s : string) : Z :=
  let l := zlen (bytes_of s) in if 0 <? l then size_bytes l else 0.
Definition size_int (v : Z) : Z := if negb (v =? 0) then 1 + sov (u64 v) else 0.
Definition size_bool (b : bool) : Z := if b then 2 else 0.
Definition size_strings (l : list string) : Z :=
  foldr (fun s n => n + size_bytes (zlen (bytes_of s))) 0 l.

(** [Marshal]: a buffer of [size] bytes, filled by [fill] from its end; the
    first [n] bytes of it are the result, [n] the number of bytes written. *)
Definition marshal_with (size : Z) (fill : writer -> res writer) : res bytes :=
  let dAtA := replicate (Z.to_nat size) x00 in
  w ← fill (dAtA, zlen dAtA);
  Ok (take (Z.to_nat (zlen dAtA - w.2)) w.1).

(** ** Reading *)

(** The decoding loop of a varint, [shift] advancing by 7. *)
Fixpoint varint_read (fuel : nat) (shift acc : Z) (b : bytes) : res (Z * bytes) :=
  match fuel with
  | O => Err ErrIntOverflow
  | S fuel =>
      match b with
      | [] => Err ErrUnexpectedEOF
      | x :: b =>
          let acc := Z.lor acc (u64 (Z.shiftl (Z.land (Z_of_byte x) 127) shift)) in
          if Z_of_byte x <? 128 then Ok (acc, b) else varint_read fuel (shift + 7) acc b
      end
  end.

Definition varint (b : bytes) : res (Z * bytes) := varint_read 10 0 0 b.

Definition wrap32 (z : Z) : Z := (z + 2 ^ 31) mod 2 ^ 32 - 2 ^ 31.

(** The slice of the next [n] bytes, and what follows; a Go slice expression out of
    range panics. *)
Definition slice (n : Z) (b : bytes) : res (bytes * bytes) :=
  if (0 <=? n) && (n <=? zlen b) then Ok (take (Z.to_nat n) b, drop (Z.to_nat n) b) else Panic.

(** A length-delimited field at the index [l - len(b)] of a message of [l]
    bytes: its contents ([dAtA[iNdEx:postIndex]]) and what follows. *)
Definition rd_bytes (l : Z) (wireType : Z) (b : bytes) : res (bytes * bytes) :=
  if negb (wireType =? 2) then Err ErrWireType else
  '(n, b) ← varint b;
  let len := wrap64 n in
  if len <? 0 then Err ErrInvalidLength else
  let iNdEx := l - zlen b in
  let postIndex := wrap64 (iNdEx + len) in
  if postIndex <? 0 then Err ErrInvalidLength else
  if l <? postIndex then Err ErrUnexpectedEOF else
  slice (postIndex - iNdEx) b.

Definition rd_string (l wireType : Z) (b : bytes) : res (string * bytes) :=
  '(s, b) ← rd_bytes l wireType b; Ok (string_of s, b).

Definition rd_int64 (wireType : Z) (b : bytes) : res (Z * bytes) :=
  if negb (wireType =? 0) then Err ErrWireType else
  '(n, b) ← varint b; Ok (wrap64 n, b).

Definition rd_int32 (wireType : Z) (b : bytes) : res (Z * bytes) :=
  if negb (wireType =? 0) then Err ErrWireType else
  '(n, b) ← varint b; Ok (wrap32 n, b).

Definition rd_bool (wireType : Z) (b : bytes) : res (bool * bytes) :=
  if negb (wireType =? 0) then Err ErrWireType else
  '(n, b) ← varint b; Ok (negb (wrap64 n =? 0), b).

(** [skipTypes]: the number of bytes of the field at the head of [dAtA]; groups
    nest. [iNdEx] is the index read so far; there is at most one iteration per byte,
    running out of fuel is a [Panic], which [Codec] shows is never reached. *)
Fixpoint skip_varint (fuel : nat) (shift iNdEx : Z) (dAtA : bytes) : res Z :=
  match fuel with
  | O => Err ErrIntOverflow
  | S fuel =>
      match dAtA !! Z.to_nat iNdEx with
      | None => Err ErrUnexpectedEOF
      | Some x => if Z_of_byte x <? 128 then Ok (iNdEx + 1)
                  else skip_varint fuel (shift + 7) (iNdEx + 1) dAtA
      end
  end.

(** The [switch] on the wire type: the index after the field that starts at [i0],
    and the depth of nested groups. *)
Definition skip_field (wireType i0 depth : Z) (dAtA : bytes) : res (Z * Z) :=
  if wireType =? 0 then (i ← skip_varint 10 0 i0 dAtA; Ok (i, depth))
  else if wireType =? 1 then Ok (wrap64 (i0 + 8), depth)
  else if wireType =? 2 then
    '(n, rest) ← varint (drop (Z.to_nat i0) dAtA);
    let length := wrap64 n in
    if length <? 0 then Err ErrInvalidLength
    else Ok (wrap64 (zlen dAtA - zlen rest + length), depth)
  else if wireType =? 3 then Ok (i0, depth + 1)
  else if wireType =? 4 then
    if depth =? 0 then Err ErrUnexpectedEndOfGroup else Ok (i0, depth - 1)
  else if wireType =? 5 then Ok (wrap64 (i0 + 4), depth)
  else Err ErrIllegalWireType.

Fixpoint skip_loop (fuel : nat) (iNdEx depth : Z) (dAtA : bytes) : res Z :=
  match fuel with
  | O => Panic
  | S fuel =>
      if zlen dAtA <=? iNdEx then Err ErrUnexpectedEOF else
      '(wire, rest) ← varint (drop (Z.to_nat iNdEx) dAtA);
      '(i1, depth1) ← skip_field (Z.land wire 7) (zlen dAtA - zlen rest) depth dAtA;
      if i1 <? 0 then Err ErrInvalidLength else
      if depth1 =? 0 then Ok i1 else skip_loop fuel i1 depth1 dAtA
  end.

Definition skip (dAtA : bytes) : res Z := skip_loop (S (length dAtA)) 0 0 dAtA.

(** [Unmarshal]: [switch_ l fieldNum wireType m b] is the [switch] on the field
    number; [None] is its default branch. *)
Section Unmarshal.
Context {A : Type}.
Context (switch_ : Z -> Z -> Z -> A -> bytes -> option (res (A * bytes))).

Fixpoint unmarshal_loop (fuel : nat) (l : Z) (m : A) (b : bytes) : res A :=
  match b with
  | [] => Ok m
  | _ :: _ =>
      match fuel with
      | O => Panic
      | S fuel =>
          '(wire, rest) ← varint b;
          let fieldNum := wrap32 (Z.shiftr wire 3) in
          let wireType := Z.land wire 7 in
          if wireType =? 4 then Err ErrEndGroup else
          if fieldNum <=? 0 then Err ErrIllegalTag else
          match switch_ l fieldNum wireType m rest with
          | Some r => '(m, b) ← r; unmarshal_loop fuel l m b
          | None =>
              skippy ← skip b;
              let iNdEx := l - zlen b in
              if (skippy <? 0) || (wrap64 (iNdEx + skippy) <? 0) then Err ErrInvalidLength else
              if l <? wrap64 (iNdEx + skippy) then Err ErrUnexpectedEOF else
              unmarshal_loop fuel l m (drop (Z.to_nat skippy) b)
          end
      end
  end.

(** Every iteration consumes at least one byte, so [length dAtA] iterations are
    enough. *)
Definition unmarshal (zero : A) (dAtA : bytes) : res A :=
  unmarshal_loop (length dAtA) (zlen dAtA) zero dAtA.

End Unmarshal.

(** ** gogoproto's encoding of [time.Time], not part of the repository *)

Definition time_ok (t : Z) : Prop := zero_time <= t < 253402300800 * Second.

Class StdTime : Type := {
  StdTimeMarshal : Z -> res bytes;
  SizeOfStdTime : Z -> Z;
  StdTimeUnmarshal : bytes -> res Z
}.

Class StdTimeLaws {T : StdTime} : Prop := {
  std_time t : time_ok t ->
    exists b, StdTimeMarshal t = Ok b /\ SizeOfStdTime t = zlen b /\ StdTimeUnmarshal b = Ok t /\
              zlen b <= 100
}.

(** [n, err := StdTimeMarshalTo(t, dAtA[i-SizeOfStdTime(t):])], then the length
    and the tag. *)
Definition wr_time {T : StdTime} (tag : byte) (t : Z) (w : writer) : res writer :=
  b ← StdTimeMarshal t; wr_bytes tag b w.

Definition size_time {T : StdTime} (t : Z) : Z := size_bytes (SizeOfStdTime t).

Definition rd_time {T : StdTime} (l wireType : Z) (b : bytes) : res (Z * bytes) :=
  '(s, b) ← rd_bytes l wireType b; t ← StdTimeUnmarshal s; Ok (t, b).

(** ** What the bytes should be *)

Fixpoint enc_varint_ (fuel : nat) (v : Z) : bytes :=
  match fuel with
  | O => []
  | S fuel => if 128 <=? v then byte_of_Z (Z.lor (Z.land v 127) 128) :: enc_varint_ fuel (Z.shiftr v 7)
              else [byte_of_Z v]
  end.

Definition enc_varint (v : Z) : bytes := enc_varint_ 10 v.
Definition enc_bytes (tag : byte) (s : bytes) : bytes := tag :: enc_varint (zlen s) ++ s.
Definition enc_string (tag : byte) (s : string) : bytes :=
  if 0 <? zlen (bytes_of s) then enc_bytes tag (bytes_of s) else [].
Definition enc_int (tag : byte) (v : Z) : bytes :=
  if negb (v =? 0) then tag :: enc_varint (u64 v) else [].
Definition enc_bool (tag : byte) (b : bool) : bytes := if b then [tag; x01] else [].
Definition enc_strings (tag : byte) (l : list string) : bytes :=
  l ≫= fun s => enc_bytes tag (bytes_of s).

(** ** Lemmas: writing *)

Lemma zlen_nonneg {A} (l : list A) : 0 <= zlen l.
Proof. unfold zlen. lia. Qed.

Lemma zlen_app {A} (a b : list A) : zlen (a ++ b) = zlen a + zlen b.
Proof. unfold zlen. rewrite length_app. lia. Qed.

Lemma zlen_cons {A} x (a : list A) : zlen (x :: a) = 1 + zlen a.
Proof. unfold zlen. cbn. lia. Qed.

Lemma sov_log2 v : 0 <= v -> sov v = (Z.log2 v + 7) / 7.
Proof.
  intros Hv. unfold sov. rewrite Z.log2_lor by lia. change (Z.log2 1) with 0.
  rewrite Z.max_l by apply Z.log2_nonneg. f_equal. lia.
Qed.

Lemma sov_pos v : 0 <= v -> 1 <= sov v.
Proof.
  intros Hv. rewrite sov_log2 by done. pose proof (Z.log2_nonneg v).
  apply Z.div_le_lower_bound; lia.
Qed.

Lemma shiftr7_range f v :
  0 <= v < 2 ^ (7 * Z.of_nat (S f)) -> 0 <= Z.shiftr v 7 < 2 ^ (7 * Z.of_nat f).
Proof.
  intros Hv. rewrite Z.shiftr_div_pow2 by lia.
  replace (7 * Z.of_nat (S f)) with (7 + 7 * Z.of_nat f) in Hv by lia.
  rewrite Z.pow_add_r in Hv by lia.
  split; [apply Z.div_pos; lia|apply Z.div_lt_upper_bound; lia].
Qed.

Lemma sov_small v : 0 <= v < 128 -> sov v = 1.
Proof.
  intros Hv. rewrite sov_log2 by lia. assert (0 <= Z.log2 v <= 6).
  { split; [apply Z.log2_nonneg|]. change 6 with (Z.log2 127). apply Z.log2_le_mono. lia. }
  symmetry. apply Z.div_unique with (Z.log2 v); lia.
Qed.

Lemma sov_step v : 128 <= v -> sov v = 1 + sov (Z.shiftr v 7).
Proof.
  intros Hv. assert (7 <= Z.log2 v) by (apply Z.log2_le_pow2; lia).
  rewrite !sov_log2 by (lia || by apply Z.shiftr_nonneg; lia).
  rewrite Z.log2_shiftr by lia. rewrite Z.max_r by lia.
  replace (Z.log2 v + 7) with (Z.log2 v - 7 + 7 + 1 * 7) by lia.
  rewrite Z.div_add by lia. lia.
Qed.

Lemma enc_varint_length f v :
  0 <= v < 2 ^ (7 * Z.of_nat (S f)) -> zlen (enc_varint_ (S f) v) = sov v.
Proof.
  revert v; induction f as [|f IH]; intros v Hv; cbn [enc_varint_];
    (destruct (Z.leb_spec 128 v) as [Hge|Hlt]; [|by rewrite sov_small by lia]).
  - change (2 ^ (7 * Z.of_nat 1)) with 128 in Hv. lia.
  - rewrite zlen_cons, (sov_step v) by done. f_equal. apply IH. by apply shiftr7_range.
Qed.

Lemma insert_middle {A} (a b : list A) x y : <[length a := x]> (a ++ y :: b) = a ++ x :: b.
Proof. rewrite insert_app_r_alt by lia. by rewrite Nat.sub_diag. Qed.

Lemma put_middle a x b y : put (a ++ x :: b) (zlen a) y = Ok (a ++ y :: b).
Proof.
  unfold put. rewrite zlen_app, zlen_cons. pose proof (zlen_nonneg a). pose proof (zlen_nonneg b).
  replace ((0 <=? zlen a) && (zlen a <? zlen a + (1 + zlen b))) with true
    by (symmetry; apply andb_true_iff; lia).
  unfold zlen. rewrite Nat2Z.id. by rewrite insert_middle.
Qed.

(** A varint overwrites as many bytes of the buffer as it has. *)
Lemma encodeVarint_loop_run f a m b v :
  0 <= v < 2 ^ (7 * Z.of_nat (S f)) -> zlen m = sov v ->
  encodeVarint_loop (S f) (a ++ m ++ b) (zlen a) v = Ok (a ++ enc_varint_ (S f) v ++ b).
Proof.
  revert a m v; induction f as [|f IH]; intros a m v Hv Hm;
    (destruct m as [|x m]; [pose proof (sov_pos v ltac:(lia)); unfold zlen in Hm; cbn in Hm; lia|]);
    rewrite zlen_cons in Hm; cbn [encodeVarint_loop enc_varint_ app];
    (destruct (Z.leb_spec 128 v) as [Hge|Hlt];
     [|rewrite put_middle; rewrite sov_small in Hm by lia;
       destruct m; [done|rewrite zlen_cons in Hm; pose proof (zlen_nonneg m); lia]]).
  - change (2 ^ (7 * Z.of_nat 1)) with 128 in Hv. lia.
  - rewrite put_middle. cbn [mbind res_bind].
    rewrite sov_step in Hm by done.
    pose proof (IH (a ++ [byte_of_Z (Z.lor (Z.land v 127) 128)]) m (Z.shiftr v 7)
                  ltac:(by apply shiftr7_range) ltac:(lia)) as E.
    rewrite <- !app_assoc in E. cbn [app] in E.
    rewrite zlen_app, zlen_cons in E. change (zlen (A:=byte) []) with 0 in E.
    rewrite Z.add_0_r in E. exact E.
Qed.

(** The buffer [w.1] of [n] bytes holds [suf] from the index [w.2] on. *)
Definition written (n : Z) (suf : bytes) (w : writer) : Prop :=
  exists pre, w.1 = pre ++ suf /\ w.2 = zlen pre /\ zlen pre + zlen suf = n.

Lemma u64_pow v : 0 <= v < two64 -> 0 <= v < 2 ^ (7 * Z.of_nat 10).
Proof. intros Hv. split; [lia|]. apply Z.lt_trans with two64; [lia|reflexivity]. Qed.

Lemma enc_varint_len v : 0 <= v < two64 -> zlen (enc_varint v) = sov v.
Proof. intros Hv. apply (enc_varint_length 9). by apply u64_pow. Qed.

Lemma split_end {A} (l : list A) k : 0 <= k <= zlen l ->
  exists a b, l = a ++ b /\ zlen b = k /\ zlen a = zlen l - k.
Proof.
  intros Hk. exists (take (Z.to_nat (zlen l - k)) l), (drop (Z.to_nat (zlen l - k)) l).
  rewrite take_drop. split; [done|]. unfold zlen in *. rewrite length_take, length_drop. lia.
Qed.

Lemma encodeVarint_run n suf w v : written n suf w -> 0 <= v < two64 ->
  sov v + zlen suf <= n ->
  exists w', encodeVarint w v = Ok w' /\ written n (enc_varint v ++ suf) w'.
Proof.
  intros (pre & E1 & E2 & E3) Hv Hn. pose proof (sov_pos v ltac:(lia)).
  destruct (split_end pre (sov v)) as (a & m & -> & Hm & Ha); [lia|].
  exists (a ++ enc_varint v ++ suf, zlen a).
  unfold encodeVarint. rewrite E1, E2. rewrite <- app_assoc.
  replace (zlen (a ++ m) - sov v) with (zlen a) by lia.
  rewrite (encodeVarint_loop_run 9) by (done || by apply u64_pow). split; [done|].
  exists a. split; [done|]. split; [done|].
  rewrite zlen_app, enc_varint_len by done. rewrite zlen_app in *. lia.
Qed.

Lemma wr_byte_run n suf w b : written n suf w -> 1 + zlen suf <= n ->
  exists w', wr_byte b w = Ok w' /\ written n (b :: suf) w'.
Proof.
  intros (pre & E1 & E2 & E3) Hn.
  destruct (split_end pre 1) as (a & m & -> & Hm & Ha); [lia|].
  destruct m as [|x [|y m]]; [by cbn in Hm| |rewrite !zlen_cons in Hm; pose proof (zlen_nonneg m); lia].
  exists (a ++ b :: suf, zlen a). unfold wr_byte. rewrite E1, E2, <- app_assoc.
  replace (zlen (a ++ [x]) - 1) with (zlen a) by lia. cbn [app]. rewrite put_middle.
  split; [done|]. exists a. split; [done|]. split; [done|]. rewrite zlen_cons. lia.
Qed.

Lemma copy_at_run pre suf s : zlen s <= zlen pre ->
  exists a, copy_at (pre ++ suf) (zlen pre - zlen s) s = Ok (a ++ s ++ suf) /\
            zlen a = zlen pre - zlen s.
Proof.
  intros Hs. destruct (split_end pre (zlen s)) as (a & m & -> & Hm & Ha);
    [split; [apply zlen_nonneg|done]|].
  exists a. split; [|done]. unfold copy_at. rewrite <- Ha.
  pose proof (zlen_nonneg a). rewrite !zlen_app. pose proof (zlen_nonneg m). pose proof (zlen_nonneg suf).
  replace ((0 <=? zlen a) && (zlen a <=? zlen a + zlen m + zlen suf)) with true
    by (symmetry; apply andb_true_iff; lia).
  unfold zlen at 1 2 3. rewrite Nat2Z.id, <- !app_assoc, take_app_length.
  assert (length m = length s) as El by (unfold zlen in Hm; lia).
  rewrite <- El, <- drop_drop, drop_app_length, drop_app_length.
  rewrite take_ge by (rewrite !length_app; lia). done.
Qed.

Lemma wr_bytes_run n suf w tag s : written n suf w -> zlen s < two64 ->
  size_bytes (zlen s) + zlen suf <= n ->
  exists w', wr_bytes tag s w = Ok w' /\ written n (enc_bytes tag s ++ suf) w'.
Proof.
  intros (pre & E1 & E2 & E3) Hs Hn. unfold size_bytes in Hn.
  pose proof (zlen_nonneg s). pose proof (sov_pos (zlen s) ltac:(lia)).
  destruct (copy_at_run pre suf s) as (a & Ec & Ea); [lia|].
  unfold wr_bytes. rewrite E1, E2, Ec. cbn [mbind res_bind].
  destruct (encodeVarint_run n (s ++ suf) (a ++ s ++ suf, zlen pre - zlen s) (zlen s))
    as (w1 & -> & Hw1); [|lia|rewrite zlen_app; lia|].
  { exists a. cbn. split; [done|]. split; [done|]. rewrite zlen_app. lia. }
  cbn [mbind res_bind].
  destruct (wr_byte_run n _ w1 tag Hw1) as (w2 & -> & Hw2).
  { rewrite !zlen_app, enc_varint_len by lia. lia. }
  exists w2. split; [done|]. unfold enc_bytes. cbn [app]. by rewrite <- app_assoc.
Qed.

Lemma enc_bytes_len tag s : zlen s < two64 -> zlen (enc_bytes tag s) = size_bytes (zlen s).
Proof.
  intros Hs. unfold enc_bytes, size_bytes. pose proof (zlen_nonneg s).
  rewrite zlen_cons, zlen_app, enc_varint_len by lia. lia.
Qed.

(** *** The fields

    [writes fill enc]: run on a buffer that has room for [enc] before [suf],
    [fill] writes exactly [enc] there. *)
Definition writes (fill : writer -> res writer) (enc : bytes) : Prop :=
  forall n suf w, written n suf w -> zlen enc + zlen suf <= n ->
    exists w', fill w = Ok w' /\ written n (enc ++ suf) w'.

Lemma writes_string tag s : zlen (bytes_of s) < two64 -> writes (wr_string tag s) (enc_string tag s).
Proof.
  intros Hs n suf w Hw Hn. unfold wr_string, enc_string in *.
  destruct (0 <? zlen (bytes_of s)) eqn:E; [|eauto].
  apply wr_bytes_run; [done|done|]. by rewrite <- (enc_bytes_len tag).
Qed.

Lemma writes_int tag v : writes (wr_int tag v) (enc_int tag v).
Proof.
  intros n suf w Hw Hn. unfold wr_int, enc_int in *.
  destruct (negb (v =? 0)) eqn:E; [|eauto]. pose proof (u64_range v).
  rewrite zlen_cons, enc_varint_len in Hn by done.
  destruct (encodeVarint_run n suf w (u64 v) Hw) as (w1 & -> & Hw1); [done|lia|].
  cbn [mbind res_bind app]. apply wr_byte_run; [done|]. rewrite zlen_app, enc_varint_len by done. lia.
Qed.

Lemma writes_bool tag b : writes (wr_bool tag b) (enc_bool tag b).
Proof.
  intros n suf w Hw Hn. unfold wr_bool, enc_bool in *. destruct b; [|eauto].
  rewrite !zlen_cons in Hn. change (zlen (A:=byte) []) with 0 in Hn.
  destruct (wr_byte_run n suf w x01 Hw) as (w1 & -> & Hw1); [lia|].
  cbn [mbind res_bind app]. apply wr_byte_run; [done|]. rewrite zlen_cons. lia.
Qed.

Lemma writes_bytes tag s : zlen s < two64 -> writes (wr_bytes tag s) (enc_bytes tag s).
Proof. intros Hs n suf w Hw Hn. rewrite enc_bytes_len in Hn by done. by apply wr_bytes_run. Qed.

Lemma writes_comp f g e1 e2 :
  writes f e1 -> writes g e2 -> writes (fun w => w ← f w; g w) (e2 ++ e1).
Proof.
  intros Hf Hg n suf w Hw Hn. rewrite zlen_app in Hn. pose proof (zlen_nonneg e2).
  destruct (Hf n suf w Hw) as (w1 & -> & Hw1); [lia|]. cbn [mbind res_bind].
  rewrite <- app_assoc. apply Hg; [done|]. rewrite zlen_app. lia.
Qed.

Lemma writes_strings tag l : Forall (fun s => zlen (bytes_of s) < two64) l ->
  writes (wr_strings tag l) (enc_strings tag l).
Proof.
  induction 1 as [|s l Hs HF IH]; [intros n suf w Hw Hn; cbn; eauto|].
  cbn [wr_strings enc_strings mbind list_bind].
  apply (writes_comp (wr_strings tag l) (wr_bytes tag (bytes_of s))); [done|].
  by apply writes_bytes.
Qed.

Lemma writes_time {T : StdTime} tag t b :
  StdTimeMarshal t = Ok b -> zlen b < two64 -> writes (wr_time tag t) (enc_bytes tag b).
Proof. intros E Hb n suf w Hw Hn. unfold wr_time. rewrite E. by apply writes_bytes. Qed.

(** Filling a buffer of exactly the right size from its end gives [enc]. *)
Lemma marshal_with_run size fill enc :
  writes fill enc -> size = zlen enc -> marshal_with size fill = Ok enc.
Proof.
  intros Hf ->. unfold marshal_with.
  set (dAtA := replicate _ _).
  assert (zlen dAtA = zlen enc) as Hd.
  { unfold dAtA, zlen. rewrite length_replicate. lia. }
  destruct (Hf (zlen enc) [] (dAtA, zlen dAtA)) as (w & -> & (pre & E1 & E2 & E3)).
  - exists dAtA. rewrite app_nil_r. change (zlen (A:=byte) []) with 0. split; [done|]. split; [done|lia].
  - change (zlen (A:=byte) []) with 0. lia.
  - cbn [mbind res_bind]. rewrite app_nil_r in *.
    assert (zlen pre = 0) as Hp by lia. destruct pre as [|]; [|rewrite zlen_cons in Hp; pose proof (zlen_nonneg pre); lia].
    rewrite E1, E2, Hd, Hp. cbn [app]. f_equal. apply take_ge. unfold zlen. lia.
Qed.

Lemma enc_string_len tag s : zlen (bytes_of s) < two64 -> zlen (enc_string tag s) = size_string s.
Proof.
  intros Hs. unfold enc_string, size_string. destruct (0 <? _); [|done]. by apply enc_bytes_len.
Qed.

Lemma enc_int_len tag v : zlen (enc_int tag v) = size_int v.
Proof.
  unfold enc_int, size_int. destruct (negb _); [|done].
  rewrite zlen_cons, enc_varint_len by apply u64_range. done.
Qed.

Lemma enc_bool_len tag b : zlen (enc_bool tag b) = size_bool b.
Proof. by destruct b. Qed.

Lemma enc_strings_len tag l : Forall (fun s => zlen (bytes_of s) < two64) l ->
  zlen (enc_strings tag l) = size_strings l.
Proof.
  induction 1 as [|s l Hs HF IH]; [done|].
  unfold enc_strings in *. cbn [mbind list_bind]. rewrite zlen_app, enc_bytes_len by done.
  unfold size_strings in *. cbn [foldr]. rewrite <- IH. cbn. lia.
Qed.

Lemma size_string_bound s : 0 <= size_string s /\ zlen (bytes_of s) <= size_string s.
Proof.
  unfold size_string, size_bytes. pose proof (zlen_nonneg (bytes_of s)).
  destruct (Z.ltb_spec 0 (zlen (bytes_of s))); [|lia].
  pose proof (sov_pos (zlen (bytes_of s)) ltac:(lia)). lia.
Qed.

Lemma size_bytes_bound n : 0 <= n -> n <= size_bytes n.
Proof. intros Hn. unfold size_bytes. pose proof (sov_pos n Hn). lia. Qed.

Lemma sov_le v : 0 <= v < two64 -> sov v <= 10.
Proof.
  intros Hv. rewrite sov_log2 by lia. destruct (Z.eq_dec v 0) as [->|]; [done|].
  assert (Z.log2 v < 64) by (apply Z.log2_lt_pow2; unfold two64 in *; lia).
  apply Z.div_le_upper_bound; lia.
Qed.

Lemma size_string_le s : zlen (bytes_of s) < two64 -> size_string s <= 11 + zlen (bytes_of s).
Proof.
  intros Hs. pose proof (zlen_nonneg (bytes_of s)). unfold size_string, size_bytes.
  destruct (0 <? _); [|lia]. pose proof (sov_le (zlen (bytes_of s)) ltac:(lia)). lia.
Qed.

Lemma size_int_le v : size_int v <= 11.
Proof.
  unfold size_int. destruct (negb _); [|lia]. pose proof (sov_le (u64 v) (u64_range v)). lia.
Qed.

Lemma size_time_le {T : StdTime} {TL : StdTimeLaws} t : time_ok t -> size_time t <= 111.
Proof.
  intros (b & _ & E & _ & Hb)%std_time. unfold size_time, size_bytes. rewrite E.
  pose proof (zlen_nonneg b). pose proof (sov_le (zlen b) ltac:(unfold two64; lia)). lia.
Qed.

Lemma size_strings_bound l :
  0 <= size_strings l /\ (size_strings l < two64 -> Forall (fun s => zlen (bytes_of s) < two64) l).
Proof.
  induction l as [|s l [IH1 IH2]]; [done|]. unfold size_strings in *. cbn [foldr].
  pose proof (size_bytes_bound (zlen (bytes_of s)) (zlen_nonneg _)). pose proof (zlen_nonneg (bytes_of s)).
  split; [lia|]. intros Hl. constructor; [lia|]. apply IH2. lia.
Qed.

(** *** Messages

    [encodes fill enc size]: [size] computes the length of [enc], and [fill] writes
    it, as long as the length is an [int]. *)
Definition encodes (fill : writer -> res writer) (enc : bytes) (size : Z) : Prop :=
  0 <= size /\ (size < two63 -> writes fill enc /\ zlen enc = size).

Lemma encodes_string tag s : encodes (wr_string tag s) (enc_string tag s) (size_string s).
Proof.
  destruct (size_string_bound s). split; [done|]. intros Hs. unfold two63 in Hs.
  split; [apply writes_string|apply enc_string_len]; unfold two64; lia.
Qed.

Lemma encodes_int tag v : encodes (wr_int tag v) (enc_int tag v) (size_int v).
Proof.
  split; [|intros _; split; [apply writes_int|apply enc_int_len]].
  rewrite <- (enc_int_len tag). apply zlen_nonneg.
Qed.

Lemma encodes_bool tag b : encodes (wr_bool tag b) (enc_bool tag b) (size_bool b).
Proof.
  split; [|intros _; split; [apply writes_bool|apply enc_bool_len]].
  rewrite <- (enc_bool_len tag). apply zlen_nonneg.
Qed.

Lemma encodes_strings tag l : encodes (wr_strings tag l) (enc_strings tag l) (size_strings l).
Proof.
  destruct (size_strings_bound l) as [H1 H2]. split; [done|]. intros Hs. unfold two63 in Hs.
  split; [apply writes_strings|apply enc_strings_len]; apply H2; unfold two64; lia.
Qed.

Lemma encodes_time {T : StdTime} tag t b :
  StdTimeMarshal t = Ok b -> SizeOfStdTime t = zlen b ->
  encodes (wr_time tag t) (enc_bytes tag b) (size_time t).
Proof.
  intros Em Es. unfold size_time. rewrite Es.
  pose proof (zlen_nonneg b). pose proof (size_bytes_bound (zlen b) ltac:(done)).
  split; [lia|]. intros Hs. unfold two63 in Hs.
  split; [apply writes_time|apply enc_bytes_len]; unfold two64; first [done|lia].
Qed.

Lemma encodes_comp f g e1 e2 s1 s2 :
  encodes f e1 s1 -> encodes g e2 s2 -> encodes (fun w => w ← f w; g w) (e2 ++ e1) (s2 + s1).
Proof.
  intros [P1 H1] [P2 H2]. split; [lia|]. intros Hs.
  destruct H1 as [W1 L1]; [lia|]. destruct H2 as [W2 L2]; [lia|].
  split; [by apply writes_comp|]. rewrite zlen_app. lia.
Qed.

Lemma encodes_marshal fill enc size : encodes fill enc size -> size < two63 ->
  marshal_with size fill = Ok enc /\ zlen enc < two63.
Proof.
  intros [_ H] Hs. destruct (H Hs) as [W L]. split; [|lia]. by apply marshal_with_run.
Qed.

(** ** Lemmas: reading *)

Lemma lor_add a b s : 0 <= s -> 0 <= a < 2 ^ s -> 0 <= b -> Z.lor a (b * 2 ^ s) = a + b * 2 ^ s.
Proof.
  intros Hs Ha Hb.
  assert (Z.land a (b * 2 ^ s) = 0) as HL.
  { apply Z.bits_inj'. intros n Hn. rewrite Z.land_spec, Z.bits_0.
    destruct (Z.lt_ge_cases n s).
    - rewrite Z.mul_pow2_bits_low by lia. apply andb_false_r.
    - destruct (Z.eq_dec a 0) as [->|]; [by rewrite Z.bits_0|].
      rewrite Z.bits_above_log2; [done|lia|]. apply Z.lt_le_trans with s; [|done].
      apply Z.log2_lt_pow2; lia. }
  pose proof (Z.add_nocarry_lxor a (b * 2 ^ s) HL) as E. rewrite E. symmetry.
  by apply Z.lxor_lor.
Qed.

Lemma land_127 v : Z.land v 127 = v mod 128.
Proof. change 127 with (Z.ones 7). rewrite Z.land_ones by lia. done. Qed.

Lemma cont_byte v : 0 <= v ->
  Z_of_byte (byte_of_Z (Z.lor (Z.land v 127) 128)) = v mod 128 + 128.
Proof.
  intros Hv. pose proof (Z.mod_pos_bound v 128 ltac:(lia)).
  rewrite land_127. change 128 with (1 * 2 ^ 7) at 2. rewrite lor_add by (change (2 ^ 7) with 128; lia).
  rewrite Z_of_byte_of_Z. change (1 * 2 ^ 7) with 128. apply Z.mod_small. lia.
Qed.

Lemma varint_read_step x shift acc : 0 <= shift -> 0 <= acc < 2 ^ shift -> 0 <= x < 128 ->
  x * 2 ^ shift < two64 ->
  Z.lor acc (u64 (Z.shiftl (Z.land x 127) shift)) = acc + x * 2 ^ shift.
Proof.
  intros Hs Ha Hx Hb. rewrite land_127, Z.mod_small by lia. rewrite Z.shiftl_mul_pow2 by done.
  unfold u64. rewrite Z.mod_small by nia. apply lor_add; lia.
Qed.

Lemma varint_read_cons f shift acc x b :
  varint_read (S f) shift acc (x :: b) =
  let acc := Z.lor acc (u64 (Z.shiftl (Z.land (Z_of_byte x) 127) shift)) in
  if Z_of_byte x <? 128 then Ok (acc, b) else varint_read f (shift + 7) acc b.
Proof. done. Qed.

Lemma varint_read_enc f v shift acc r :
  0 <= v < 2 ^ (7 * Z.of_nat (S f)) -> 0 <= shift -> 0 <= acc < 2 ^ shift ->
  v * 2 ^ shift < two64 ->
  varint_read (S f) shift acc (enc_varint_ (S f) v ++ r) = Ok (acc + v * 2 ^ shift, r).
Proof.
  revert v shift acc; induction f as [|f IH]; intros v shift acc Hv Hs Ha Hb;
    pose proof (Z.pow_pos_nonneg 2 shift ltac:(lia) Hs); cbn [enc_varint_];
    (destruct (Z.leb_spec 128 v) as [Hge|Hlt];
     [|cbn [app varint_read]; rewrite Z_of_byte_of_Z, Z.mod_small by lia;
       rewrite varint_read_step by lia; by replace (v <? 128) with true by lia]).
  - change (2 ^ (7 * Z.of_nat 1)) with 128 in Hv. lia.
  - pose proof (Z.mod_pos_bound v 128 ltac:(lia)). pose proof (Z.div_mod v 128 ltac:(lia)).
    pose proof (shiftr7_range (S f) v Hv) as Hr.
    rewrite Z.shiftr_div_pow2 in Hr |- * by lia. change (2 ^ 7) with 128 in *.
    cbn [app]. rewrite varint_read_cons. cbv zeta. rewrite cont_byte by lia.
    replace (v mod 128 + 128 <? 128) with false by lia.
    assert (Z.land (v mod 128 + 128) 127 = Z.land (v mod 128) 127) as ->.
    { rewrite !land_127. replace (v mod 128 + 128) with (v mod 128 + 1 * 128) by lia.
      by rewrite Z.mod_add by lia. }
    rewrite varint_read_step by (lia || nia).
    change (if 128 <=? v / 128 then _ else _) with (enc_varint_ (S f) (v / 128)).
    rewrite IH; [|done|lia| |].
    + f_equal. f_equal. rewrite Z.pow_add_r by lia. change (2 ^ 7) with 128. nia.
    + rewrite Z.pow_add_r by lia. change (2 ^ 7) with 128. nia.
    + rewrite Z.pow_add_r by lia. change (2 ^ 7) with 128. nia.
Qed.

Lemma varint_enc v r : 0 <= v < two64 -> varint (enc_varint v ++ r) = Ok (v, r).
Proof.
  intros Hv. unfold varint, enc_varint. rewrite (varint_read_enc 9);
    [|by apply u64_pow|lia|lia|lia]. do 2 f_equal. lia.
Qed.

Lemma varint_byte x r : Z_of_byte x < 128 -> varint (x :: r) = Ok (Z_of_byte x, r).
Proof.
  intros Hx. pose proof (Z_of_byte_range x).
  change (x :: r) with ([x] ++ r).
  replace [x] with (enc_varint (Z_of_byte x)).
  - apply varint_enc. unfold two64. lia.
  - unfold enc_varint, enc_varint_. replace (128 <=? Z_of_byte x) with false by lia.
    by rewrite byte_of_Z_of_byte.
Qed.

Lemma rd_bytes_enc l s b : zlen (enc_varint (zlen s) ++ s ++ b) <= l < two63 ->
  rd_bytes l 2 (enc_varint (zlen s) ++ s ++ b) = Ok (s, b).
Proof.
  rewrite !zlen_app. pose proof (zlen_nonneg s). pose proof (zlen_nonneg b).
  pose proof (zlen_nonneg (enc_varint (zlen s))). unfold two63 in *. intros Hl.
  unfold rd_bytes. cbn [Z.eqb Pos.eqb negb]. rewrite varint_enc by (unfold two64; lia).
  cbn [mbind res_bind]. rewrite zlen_app. rewrite !wrap64_id by (unfold two63; lia).
  replace (zlen s <? 0) with false by lia.
  replace (l - (zlen s + zlen b) + zlen s <? 0) with false by lia.
  replace (l <? l - (zlen s + zlen b) + zlen s) with false by lia.
  unfold slice. replace (l - (zlen s + zlen b) + zlen s - (l - (zlen s + zlen b))) with (zlen s) by lia.
  rewrite zlen_app. replace ((0 <=? zlen s) && (zlen s <=? zlen s + zlen b)) with true by lia.
  unfold zlen. by rewrite Nat2Z.id, take_app_length, drop_app_length.
Qed.

Section Reads.
Context {A : Type} (sw : Z -> Z -> Z -> A -> bytes -> option (res (A * bytes))).

(** The decoding loop, at the encoding [e] with the message [m], reads it and goes
    on with [m']. *)
Definition reads (e : bytes) (m m' : A) : Prop :=
  forall fuel l b, (length e + length b <= fuel)%nat -> zlen (e ++ b) <= l < two63 ->
    exists fuel', (length b <= fuel')%nat /\
      unmarshal_loop sw fuel l m (e ++ b) = unmarshal_loop sw fuel' l m' b.

Lemma reads_nil m : reads [] m m.
Proof. intros fuel l b Hf _. exists fuel. split; [cbn in Hf; lia|done]. Qed.

Lemma reads_app e1 e2 m m1 m2 : reads e1 m m1 -> reads e2 m1 m2 -> reads (e1 ++ e2) m m2.
Proof.
  intros H1 H2 fuel l b Hf Hl. rewrite <- app_assoc in *.
  destruct (H1 fuel l (e2 ++ b)) as (f1 & Hf1 & ->); [|done|].
  { rewrite !length_app in *. lia. }
  apply H2; [by rewrite <- length_app|]. rewrite zlen_app in Hl. pose proof (zlen_nonneg e1). lia.
Qed.

Lemma unmarshal_loop_tag fuel l m tag r :
  Z_of_byte tag < 128 -> Z.land (Z_of_byte tag) 7 <> 4 ->
  0 < wrap32 (Z.shiftr (Z_of_byte tag) 3) ->
  unmarshal_loop sw (S fuel) l m (tag :: r) =
  match sw l (wrap32 (Z.shiftr (Z_of_byte tag) 3)) (Z.land (Z_of_byte tag) 7) m r with
  | Some r => '(m, b) ← r; unmarshal_loop sw fuel l m b
  | None => skippy ← skip (tag :: r);
            let iNdEx := l - zlen (tag :: r) in
            if (skippy <? 0) || (wrap64 (iNdEx + skippy) <? 0) then Err ErrInvalidLength else
            if l <? wrap64 (iNdEx + skippy) then Err ErrUnexpectedEOF else
            unmarshal_loop sw fuel l m (drop (Z.to_nat skippy) (tag :: r))
  end.
Proof.
  intros Ht Hw Hf. cbn [unmarshal_loop]. rewrite varint_byte by done. cbn [mbind res_bind].
  replace (Z.land (Z_of_byte tag) 7 =? 4) with false by (symmetry; by apply Z.eqb_neq).
  by replace (wrap32 (Z.shiftr (Z_of_byte tag) 3) <=? 0) with false by lia.
Qed.

(** A one-byte tag of field [k] with wire type [wt]. *)
Definition tag_of (tag : byte) (k wt : Z) : Prop :=
  Z_of_byte tag < 128 /\ wrap32 (Z.shiftr (Z_of_byte tag) 3) = k /\
  Z.land (Z_of_byte tag) 7 = wt /\ 0 < k /\ wt <> 4.

Lemma reads_field tag k wt enc m m' :
  tag_of tag k wt ->
  (forall l b, zlen (enc ++ b) < l < two63 -> sw l k wt m (enc ++ b) = Some (Ok (m', b))) ->
  reads (tag :: enc) m m'.
Proof.
  intros (T1 & T2 & T3 & T4 & T5) Hsw fuel l b Hf Hl. cbn [app length] in *.
  destruct fuel as [|fuel]; [lia|]. exists fuel. split; [lia|].
  rewrite unmarshal_loop_tag by (congruence || lia). rewrite T2, T3, Hsw; [done|].
  rewrite zlen_cons in Hl. lia.
Qed.

Lemma unmarshal_reads zero m e : reads e zero m -> zlen e < two63 -> unmarshal sw zero e = Ok m.
Proof.
  intros Hr Hl. unfold unmarshal. destruct (Hr (length e) (zlen e) []) as (f & _ & E).
  - cbn. lia.
  - rewrite app_nil_r. lia.
  - rewrite app_nil_r in E. rewrite E. by destruct f.
Qed.

End Reads.

(** What the lemmas on fields need of a decoding loop over the [switch] [sw]. *)
Class FieldReader {A : Type} (sw : Z -> Z -> Z -> A -> bytes -> option (res (A * bytes)))
    (R : bytes -> A -> A -> Prop) : Prop := {
  rd_nil m : R [] m m;
  rd_app e1 e2 m m1 m2 : R e1 m m1 -> R e2 m1 m2 -> R (e1 ++ e2) m m2;
  rd_field tag k wt enc m m' : tag_of tag k wt ->
    (forall l b, zlen (enc ++ b) < l < two63 -> sw l k wt m (enc ++ b) = Some (Ok (m', b))) ->
    R (tag :: enc) m m'
}.
#[global] Hint Mode FieldReader + - ! : typeclass_instances.

#[global] Instance reads_reader {A} (sw : Z -> Z -> Z -> A -> bytes -> option (res (A * bytes))) :
  FieldReader sw (reads sw).
Proof. constructor; [apply reads_nil|apply reads_app|apply reads_field]. Qed.

Section ReadFields.
Context {A : Type} (R : bytes -> A -> A -> Prop) {sw : Z -> Z -> Z -> A -> bytes -> option (res (A * bytes))}
  {FR : FieldReader sw R}.

Lemma reads_string tag k m (upd : string -> A) s :
  tag_of tag k 2 ->
  (forall l b, sw l k 2 m b = Some ('(s, b) ← rd_string l 2 b; Ok (upd s, b))) ->
  upd ""%string = m -> R (enc_string tag s) m (upd s).
Proof.
  intros Ht Hsw H0. unfold enc_string. destruct (Z.ltb_spec 0 (zlen (bytes_of s))) as [Hl|Hl].
  - apply (rd_field tag k _ _ _ _ Ht). intros l b Hb. rewrite Hsw. unfold rd_string.
    rewrite <- app_assoc, rd_bytes_enc by (rewrite <- app_assoc in Hb; lia). cbn [mbind res_bind].
    by rewrite string_of_bytes_of.
  - replace s with ""%string; [rewrite H0; apply rd_nil|].
    symmetry. apply bytes_of_nil. destruct (bytes_of s) as [|x l]; [done|].
    rewrite zlen_cons in Hl. pose proof (zlen_nonneg l). lia.
Qed.

Lemma reads_int64 tag k m (upd : Z -> A) v :
  tag_of tag k 0 -> - two63 <= v < two63 ->
  (forall l b, sw l k 0 m b = Some ('(s, b) ← rd_int64 0 b; Ok (upd s, b))) ->
  upd 0 = m -> R (enc_int tag v) m (upd v).
Proof.
  intros Ht Hv Hsw H0. unfold enc_int. destruct (Z.eqb_spec v 0) as [->|Hne]; cbn [negb].
  - rewrite H0. apply rd_nil.
  - apply (rd_field tag k _ _ _ _ Ht). intros l b Hb. rewrite Hsw. unfold rd_int64.
    cbn [Z.eqb negb]. rewrite varint_enc by apply u64_range. cbn [mbind res_bind].
    by rewrite wrap64_u64, wrap64_id.
Qed.

Lemma wrap32_u64 v : - 2 ^ 31 <= v < 2 ^ 31 -> wrap32 (u64 v) = v.
Proof.
  intros Hv. unfold wrap32, u64, two64.
  assert (v mod 18446744073709551616 = v \/ v mod 18446744073709551616 = v + 2 ^ 64) as [->| ->].
  { destruct (Z.lt_ge_cases v 0); [right|left; apply Z.mod_small; lia].
    rewrite <- (Z.mod_add v 1) by lia. rewrite Z.mod_small by lia. lia. }
  - rewrite Z.mod_small by lia. lia.
  - replace (v + 2 ^ 64 + 2 ^ 31) with (v + 2 ^ 31 + 2 ^ 32 * 2 ^ 32) by lia.
    rewrite Z.mod_add by lia. rewrite Z.mod_small by lia. lia.
Qed.

Lemma reads_int32 tag k m (upd : Z -> A) v :
  tag_of tag k 0 -> - 2 ^ 31 <= v < 2 ^ 31 ->
  (forall l b, sw l k 0 m b = Some ('(s, b) ← rd_int32 0 b; Ok (upd s, b))) ->
  upd 0 = m -> R (enc_int tag v) m (upd v).
Proof.
  intros Ht Hv Hsw H0. unfold enc_int. destruct (Z.eqb_spec v 0) as [->|Hne]; cbn [negb].
  - rewrite H0. apply rd_nil.
  - apply (rd_field tag k _ _ _ _ Ht). intros l b Hb. rewrite Hsw. unfold rd_int32.
    cbn [Z.eqb negb]. rewrite varint_enc by apply u64_range. cbn [mbind res_bind].
    by rewrite wrap32_u64.
Qed.

Lemma reads_bool tag k m (upd : bool -> A) v :
  tag_of tag k 0 ->
  (forall l b, sw l k 0 m b = Some ('(s, b) ← rd_bool 0 b; Ok (upd s, b))) ->
  upd false = m -> R (enc_bool tag v) m (upd v).
Proof.
  intros Ht Hsw H0. unfold enc_bool. destruct v; [|rewrite H0; apply rd_nil].
  apply (rd_field tag k _ _ _ _ Ht). intros l b Hb. rewrite Hsw. unfold rd_bool.
  cbn [Z.eqb negb app]. rewrite varint_byte by done. done.
Qed.

Lemma reads_time {T : StdTime} tag k m (upd : Z -> A) t s :
  tag_of tag k 2 -> StdTimeUnmarshal s = Ok t ->
  (forall l b, sw l k 2 m b = Some ('(s, b) ← rd_time l 2 b; Ok (upd s, b))) ->
  R (enc_bytes tag s) m (upd t).
Proof.
  intros Ht Hs Hsw. apply (rd_field tag k _ _ _ _ Ht). intros l b Hb. rewrite Hsw. unfold rd_time.
  rewrite <- app_assoc, rd_bytes_enc by (rewrite <- app_assoc in Hb; lia). cbn [mbind res_bind].
  by rewrite Hs.
Qed.

Lemma reads_strings tag k (upd : list string -> A) l0 ss :
  tag_of tag k 2 ->
  (forall l ss b, sw l k 2 (upd ss) b = Some ('(s, b) ← rd_string l 2 b; Ok (upd (ss ++ [s]), b))) ->
  R (enc_strings tag ss) (upd l0) (upd (l0 ++ ss)).
Proof.
  intros Ht Hsw. revert l0; induction ss as [|s ss IH]; intros l0.
  - rewrite app_nil_r. apply rd_nil.
  - unfold enc_strings. cbn [mbind list_bind].
    apply rd_app with (upd (l0 ++ [s])).
    + apply (rd_field tag k _ _ _ _ Ht). intros l b Hb. rewrite Hsw. unfold rd_string.
      rewrite <- app_assoc, rd_bytes_enc by (rewrite <- app_assoc in Hb; lia). cbn [mbind res_bind].
      by rewrite string_of_bytes_of.
    + replace (l0 ++ s :: ss) with ((l0 ++ [s]) ++ ss) by (by rewrite <- app_assoc). apply IH.
Qed.

End ReadFields.


(** Solves [tag_of] at a concrete tag byte. *)
Ltac solve_tag := unfold tag_of; repeat split; try reflexivity; try lia; vm_compute; congruence.

(** Splits the encoding of a message into its fields; reads one field, the record
    update [u] given. *)
Ltac reads_split :=
  lazymatch goal with
  | |- reads _ (_ ++ _) _ _ => eapply reads_app; [reads_split|]
  | _ => idtac
  end.
Ltac read_string u := eapply (reads_string _ _ _ _ u); [solve_tag|reflexivity|reflexivity].
Ltac read_int u := eapply (reads_int64 _ _ _ _ u); [solve_tag|done|reflexivity|reflexivity].

(** ** A reference instance of [StdTime]: decimal text *)

#[global] Instance T_ref : StdTime := {|
  StdTimeMarshal t := if decide (zero_time <= t < 253402300800 * Second)
                      then Ok (int_bytes t) else Err (Errorf "timestamp out of range");
  SizeOfStdTime t := zlen (int_bytes t);
  StdTimeUnmarshal b := match int_literal (string_of b) with
                        | Some t => Ok t | None => Err (Errorf "bad timestamp") end
|}.

#[global] Instance TL_ref : StdTimeLaws.
Proof.
  constructor. intros t Ht. exists (int_bytes t). cbn -[Second zero_time].
  rewrite decide_True by exact Ht. rewrite int_literal_print. split_and!; try done.
  pose proof (int_bytes_short t 80) as H. unfold time_ok, zero_time, Second in Ht.
  specialize (H ltac:(lia)). unfold zlen. lia.
Qed.
