(* ===== verification/FeesTypes.v ===== *)
(** * x/fees: types

    The parameters and their validation (types/params.go, types/msgs.go,
    types/genesis.go), keys, errors and events (types/keys.go, types/errors.go,
    types/events.go), and the generated binary encoding of the parameters
    (types/types.pb.go). *)

From S2P Require Import Prelude Sdk World SdkRef Wire.

Open Scope Z_scope.

(** ** Keys, errors, events and messages *)

Definition ModuleName : string := "fees".
Definition FeeDenom : string := "uvtx".
Definition KeyParams : bytes := [x01].
Definition KeyGenesisSupply : bytes := [x02].
Definition KeyCumulativeBurned : bytes := [x03].

(** [authtypes.FeeCollectorName]. *)
Definition FeeCollectorName : string := "fee_collector".

Definition ErrUnauthorized : error := Registered ModuleName 2.
Definition ErrInvalidParams : error := Registered ModuleName 3.
Definition ErrInvalidRatioSum : error := Registered ModuleName 4.

(** [sdkerrors.ErrInvalidAddress]. *)
Definition ErrInvalidAddress : error := Registered "sdk" 7.

Definition EventTypeFeeBurned : string := "fee_burned".
Definition EventTypeFeeDistributed : string := "fee_distributed".
Definition EventTypeParamsUpdated : string := "fee_params_updated".
Definition AttributeKeyAmount : string := "amount".
Definition AttributeKeyBurnRatio : string := "burn_ratio".
Definition AttributeKeyDistributionRatio : string := "distribution_ratio".

Record FeesParams : Type := mkFeesParams { BurnRatio : string; DistributionRatio : string }.

#[global] Instance FeesParams_eq_dec : EqDecision FeesParams.
Proof. solve_decision. Defined.

Record GenesisState : Type := mkGenesisState { gs_Params : FeesParams }.

Record MsgUpdateParams : Type := mkMsgUpdateParams { Authority : string; Params : FeesParams }.

(** ** Validation *)

Section FeesTypes.
Context {SM : SdkMath} {BE : Bech32}.

Definition DefaultParams : FeesParams :=
  mkFeesParams (DecString (LegacyNewDecWithPrec 40 2)) (DecString (LegacyNewDecWithPrec 60 2)).

Definition BurnRatioDec (p : FeesParams) : res Z := LegacyNewDecFromStr (BurnRatio p).

Definition DistributionRatioDec (p : FeesParams) : res Z :=
  LegacyNewDecFromStr (DistributionRatio p).

Definition Validate (p : FeesParams) : res unit :=
  burn ← wrap_err ErrInvalidParams (LegacyNewDecFromStr (BurnRatio p));
  distr ← wrap_err ErrInvalidParams (LegacyNewDecFromStr (DistributionRatio p));
  if (burn <? 0) || (LegacyOneDec <? burn) then Err ErrInvalidParams else
  if (distr <? 0) || (LegacyOneDec <? distr) then Err ErrInvalidParams else
  sum ← DecAdd burn distr;
  if negb (sum =? LegacyOneDec) then Err ErrInvalidRatioSum else Ok tt.

Definition DefaultGenesis : GenesisState := mkGenesisState DefaultParams.

Definition GenesisState_Validate (gs : GenesisState) : res unit := Validate (gs_Params gs).

Definition ValidateBasic (m : MsgUpdateParams) : res unit :=
  _ ← wrap_err ErrInvalidAddress (AccAddressFromBech32 (Authority m));
  Validate (Params m).

End FeesTypes.

(** ** The binary encoding of [FeesParams] (types.pb.go) *)

Definition FeesParams_Size (m : FeesParams) : Z :=
  size_string (BurnRatio m) + size_string (DistributionRatio m).

Definition FeesParams_MarshalToSizedBuffer (m : FeesParams) (w : writer) : res writer :=
  w ← wr_string x12 (DistributionRatio m) w;
  wr_string x0a (BurnRatio m) w.

Definition FeesParams_Marshal (m : FeesParams) : res bytes :=
  marshal_with (FeesParams_Size m) (FeesParams_MarshalToSizedBuffer m).

Definition FeesParams_switch (l fieldNum wireType : Z) (m : FeesParams) (b : bytes) :
  option (res (FeesParams * bytes)) :=
  match fieldNum with
  | 1 => Some ('(s, b) ← rd_string l wireType b; Ok (mkFeesParams s (DistributionRatio m), b))
  | 2 => Some ('(s, b) ← rd_string l wireType b; Ok (mkFeesParams (BurnRatio m) s, b))
  | _ => None
  end.

Definition FeesParams_Unmarshal (dAtA : bytes) : res FeesParams :=
  unmarshal FeesParams_switch (mkFeesParams "" "") dAtA.

#[global] Instance FeesParams_proto : ProtoMsg FeesParams := {|
  Marshal := FeesParams_Marshal;
  Unmarshal := FeesParams_Unmarshal;
  wf_msg m := FeesParams_Size m < two63
|}.

Definition FeesParams_encode (m : FeesParams) : bytes :=
  enc_string x0a (BurnRatio m) ++ enc_string x12 (DistributionRatio m).

(** ** Lemmas *)

Lemma FeesParams_encodes m :
  encodes (FeesParams_MarshalToSizedBuffer m) (FeesParams_encode m) (FeesParams_Size m).
Proof. apply encodes_comp; apply encodes_string. Qed.

Lemma FeesParams_reads m : reads FeesParams_switch (FeesParams_encode m) (mkFeesParams "" "") m.
Proof.
  destruct m as [b d]. unfold FeesParams_encode. cbn [BurnRatio DistributionRatio].
  apply reads_app with (mkFeesParams b "").
  - by apply (reads_string _ x0a 1 (mkFeesParams "" "") (fun s => mkFeesParams s "") b);
      [solve_tag| |].
  - by apply (reads_string _ x12 2 (mkFeesParams b "") (fun s => mkFeesParams b s) d);
      [solve_tag| |].
Qed.

#[global] Instance FeesParams_proto_laws : ProtoLaws FeesParams.
Proof.
  constructor. intros m Hm. exists (FeesParams_encode m).
  destruct (encodes_marshal _ _ _ (FeesParams_encodes m) Hm) as [E L].
  split; [done|]. apply unmarshal_reads; [apply FeesParams_reads|done].
Qed.
