(* ===== verification/Fees.v ===== *)
(** * x/fees: burning a share of the collected fees

    The keeper: its store (keeper/keeper.go), the
    end-blocker (keeper/abci.go), the parameter update (keeper/msg_server.go),
    genesis (keeper/genesis.go), the query (keeper/grpc_query.go) and the two
    crisis invariants (keeper/invariants.go). *)

From S2P Require Import Prelude Sdk World SdkRef Wire FeesTypes.

Open Scope Z_scope.

Section Fees.
Context {St X : Type} {KV : KVStore St} {SM : SdkMath} {CO : Coins} {BE : Bech32}
        {BK : BankKeeper X} {PM : ProtoMsg FeesParams}.
Local Abbreviation W := (world St X).

(** The send restriction that the application installed in x/bank. *)
Context (R : W -> restr).

(** ** keeper/keeper.go *)

(** The fields of the keeper that its methods read: [authority]. *)
Record Keeper : Type := mkKeeper { authority : string }.

Definition GetAuthority (k : Keeper) : string := authority k.

Definition GetParams (w : W) : res FeesParams :=
  bz ← st_get FeesKey KeyParams w;
  match bz with
  | None => Ok DefaultParams
  | Some bz => MustUnmarshal bz
  end.

Definition SetParams (p : FeesParams) : M W unit :=
  _ ← lift (Validate p);
  bz ← lift (Marshal p);
  st_set FeesKey KeyParams bz.

Definition SetGenesisSupply (amt : Z) : M W unit :=
  bz ← lift (IntMarshal amt);
  st_set FeesKey KeyGenesisSupply bz.

Definition GetGenesisSupply (w : W) : res Z :=
  bz ← st_get FeesKey KeyGenesisSupply w;
  match bz with
  | None => Ok 0
  | Some bz => IntUnmarshal bz
  end.

Definition GetCumulativeBurned (w : W) : res Z :=
  bz ← st_get FeesKey KeyCumulativeBurned w;
  match bz with
  | None => Ok 0
  | Some bz => IntUnmarshal bz
  end.

Definition AddCumulativeBurned (amt : Z) : M W unit :=
  cur ← ask GetCumulativeBurned;
  sum ← lift (IntAdd cur amt);
  bz ← lift (IntMarshal sum);
  st_set FeesKey KeyCumulativeBurned bz.

(** ** keeper/abci.go *)

Definition EndBlocker : M W unit :=
  params ← ask GetParams;
  burnRatio ← lift (BurnRatioDec params);
  if burnRatio =? 0 then mret tt else
  let feeCollector := GetModuleAddress FeeCollectorName in
  balance ← ask (fun w => Ok (GetBalance (w_ext w) feeCollector FeeDenom));
  if balance =? 0 then mret tt else
  share ← lift (DecMul (LegacyNewDecFromInt balance) burnRatio);
  burnAmt ← lift (DecTruncateInt share);
  if burnAmt =? 0 then mret tt else
  burnCoins ← lift (one_coin FeeDenom burnAmt);
  or_return (ext_send R (fun r x =>
               SendCoinsFromModuleToModule r x FeeCollectorName ModuleName burnCoins)) (fun _ =>
  or_return (ext (fun x => BurnCoins x ModuleName burnCoins)) (fun _ =>
  or_return (AddCumulativeBurned burnAmt) (fun _ =>
  distributed ← lift (IntSub balance burnAmt);
  _ ← emit EventTypeFeeBurned [(AttributeKeyAmount, CoinsString burnCoins)];
  rest ← lift (NewCoin FeeDenom distributed);
  emit EventTypeFeeDistributed [(AttributeKeyAmount, CoinString rest)]))).

(** ** keeper/msg_server.go *)

Definition UpdateParams (k : Keeper) (msg : MsgUpdateParams) : M W unit :=
  _ ← lift (ValidateBasic msg);
  _ ← guard_err (negb (bool_decide (Authority msg = GetAuthority k))) ErrUnauthorized;
  _ ← SetParams (Params msg);
  emit EventTypeParamsUpdated
    [(AttributeKeyBurnRatio, BurnRatio (Params msg));
     (AttributeKeyDistributionRatio, DistributionRatio (Params msg))].

(** ** keeper/genesis.go *)

Definition InitGenesis (gs : GenesisState) : M W unit :=
  _ ← must (lift (GenesisState_Validate gs));
  _ ← must (SetParams (gs_Params gs));
  supply ← ask (fun w => Ok (GetSupply (w_ext w) FeeDenom));
  must (SetGenesisSupply supply).

Definition ExportGenesis (w : W) : res GenesisState :=
  params ← must_res (GetParams w);
  Ok (mkGenesisState params).

(** ** keeper/grpc_query.go: the request is a pointer, [None] when nil *)

Definition QueryParams (req : option unit) (w : W) : res FeesParams :=
  match req with
  | None => Err (Status 3)
  | Some _ => GetParams w
  end.

(** ** keeper/invariants.go: [true] when broken *)

Definition ReconcileInvariant (w : W) : res bool :=
  match GetGenesisSupply w with
  | Panic => Panic
  | Err _ => Ok true
  | Ok genSupply =>
      match GetCumulativeBurned w with
      | Panic => Panic
      | Err _ => Ok true
      | Ok burned =>
          let current := GetSupply (w_ext w) FeeDenom in
          diff ← IntSub genSupply current;
          Ok (negb (diff =? burned))
      end
  end.

Definition ModuleBalanceInvariant (w : W) : res bool :=
  let addr := GetModuleAddress ModuleName in
  let bal := GetBalance (w_ext w) addr FeeDenom in
  Ok (negb (bal =? 0)).

(** ** module/migrations/v2/migrate.go *)

Definition Migrate1to2 : M W unit := mret tt.

(** ** Lemmas *)

Context {KVL : KVStoreLaws St} {SML : SdkMathLaws} {COL : CoinsLaws} {BEL : Bech32Laws}
        {PML : ProtoLaws FeesParams}.
Context (perms : list (string * list string)) {BKL : BankLaws X perms}.

(** The module accounts of app_config.go that the module uses. *)
Context (pcol : list string) (Hcol : (FeeCollectorName, pcol) ∈ perms)
        (Hfees : (ModuleName, ["burner"%string]) ∈ perms).

Lemma FeesParams_Validate_spec p :
  Validate p = Ok tt <->
  exists b d, BurnRatioDec p = Ok b /\ DistributionRatioDec p = Ok d /\
              0 <= b /\ 0 <= d /\ b + d = dec_one.
Proof.
  unfold Validate, BurnRatioDec, DistributionRatioDec. split.
  - intros H. apply res_bind_Ok in H as (b & Hb%wrap_err_Ok & H).
    apply res_bind_Ok in H as (d & Hd%wrap_err_Ok & H). exists b, d.
    destruct ((b <? 0) || _) eqn:C1; [done|]. destruct ((d <? 0) || _) eqn:C2; [done|].
    apply orb_false_iff in C1 as [?%Z.ltb_ge _], C2 as [?%Z.ltb_ge _].
    rewrite dec_add in H. case_decide; [|done]. cbn in H.
    destruct (Z.eqb_spec (b + d) LegacyOneDec); [|done]. done.
  - intros (b & d & -> & -> & Hb & Hd & Hs). cbn.
    rewrite !(proj2 (orb_false_iff _ _)) by (unfold LegacyOneDec; lia).
    rewrite dec_add, decide_True by (unfold dec_limit, dec_one in *; lia). cbn.
    by rewrite Hs, Z.eqb_refl.
Qed.

Lemma FeesParams_Validate_no_panic p : Validate p <> Panic.
Proof.
  unfold Validate. pose proof (dec_parse_total (BurnRatio p)).
  pose proof (dec_parse_total (DistributionRatio p)).
  destruct (LegacyNewDecFromStr (BurnRatio p)) as [b| |]; try done. cbn.
  destruct (LegacyNewDecFromStr (DistributionRatio p)) as [d| |]; try done. cbn.
  destruct ((b <? 0) || _) eqn:C1; [done|]. destruct ((d <? 0) || _) eqn:C2; [done|].
  rewrite dec_add, decide_True; [cbn; by case_match|].
  unfold LegacyOneDec, dec_limit, dec_one in *. lia.
Qed.

Lemma fees_GetParams_view w : GetParams w =
  match view FeesKey w !! KeyParams with None => Ok DefaultParams | Some bz => MustUnmarshal bz end.
Proof. unfold GetParams. by rewrite st_get_run. Qed.

Lemma GetCumulativeBurned_view w : GetCumulativeBurned w =
  match view FeesKey w !! KeyCumulativeBurned with None => Ok 0 | Some bz => IntUnmarshal bz end.
Proof. unfold GetCumulativeBurned. by rewrite st_get_run. Qed.

Lemma GetGenesisSupply_view w : GetGenesisSupply w =
  match view FeesKey w !! KeyGenesisSupply with None => Ok 0 | Some bz => IntUnmarshal bz end.
Proof. unfold GetGenesisSupply. by rewrite st_get_run. Qed.

(** What the module's state depends on. *)
Lemma fees_state_ext w w' : view FeesKey w' = view FeesKey w ->
  GetParams w' = GetParams w /\ GetGenesisSupply w' = GetGenesisSupply w /\
  GetCumulativeBurned w' = GetCumulativeBurned w.
Proof.
  intros E. by rewrite !fees_GetParams_view, !GetGenesisSupply_view, !GetCumulativeBurned_view, E.
Qed.

Lemma fees_SetParams_run p w : Validate p = Ok tt -> wf_msg p ->
  exists w' bz, SetParams p w = (w', Ok tt) /\ MustUnmarshal bz = Ok p /\
    store_upd FeesKey (<[KeyParams := bz]> (view FeesKey w)) w w'.
Proof.
  intros Hv Hwf. destruct (unmarshal_marshal p Hwf) as (bz & Em & Eu).
  destruct (st_set_run FeesKey KeyParams bz w) as (w' & Es & U); [done|].
  exists w', bz. unfold SetParams, MustUnmarshal. rewrite Eu.
  erewrite bind_lift_run by exact Hv. by erewrite bind_lift_run by exact Em.
Qed.

Lemma AddCumulativeBurned_run amt b w :
  GetCumulativeBurned w = Ok b -> Z.abs (b + amt) < int_limit ->
  exists w' bz, AddCumulativeBurned amt w = (w', Ok tt) /\ IntUnmarshal bz = Ok (b + amt) /\
    store_upd FeesKey (<[KeyCumulativeBurned := bz]> (view FeesKey w)) w w'.
Proof.
  intros Hb Hr. destruct (int_marshal (b + amt) Hr) as (bz & Em & Eu).
  destruct (st_set_run FeesKey KeyCumulativeBurned bz w) as (w' & Es & U); [done|].
  exists w', bz. unfold AddCumulativeBurned. erewrite bind_ask_run by exact Hb.
  rewrite (bind_lift_run _ _ _ (b + amt)) by (by rewrite int_add, decide_True).
  by erewrite bind_lift_run by exact Em.
Qed.

(** The share that [LegacyNewDecFromInt(balance).Mul(ratio).TruncateInt()]
    computes: the product is exact, so rounding happens once, downwards. *)
Lemma burn_share balance ratio :
  0 <= balance < 2 ^ 255 -> 0 <= ratio <= dec_one ->
  exists share, DecMul (LegacyNewDecFromInt balance) ratio = Ok share /\
                DecTruncateInt share = Ok (balance * ratio / dec_one).
Proof.
  intros Hb Hr. unfold LegacyNewDecFromInt.
  destruct (dec_mul_total (balance * dec_one) ratio) as (c & Ec).
  { rewrite Z.abs_eq by (unfold dec_one in *; nia). unfold dec_limit, dec_one in *. nia. }
  exists c. split; [done|]. apply dec_mul_nearest in Ec.
  assert (c = balance * ratio) as ->.
  { unfold nearest, dec_one in *. lia. }
  rewrite dec_truncate, Z.quot_div_nonneg by (unfold dec_one in *; nia).
  rewrite decide_True; [done|].
  pose proof (Z.div_pos (balance * ratio) dec_one). rewrite Z.abs_eq by (unfold dec_one in *; nia).
  apply Z.le_lt_trans with balance; [|unfold int_limit; lia].
  apply Z.div_le_upper_bound; unfold dec_one in *; nia.
Qed.

(** Moving coins to the module account and burning them there. *)
Lemma move_and_burn w burn :
  let fc := GetModuleAddress FeeCollectorName in
  let fm := GetModuleAddress ModuleName in
  0 < burn <= GetBalance (w_ext w) fc FeeDenom ->
  (R w) fc fm [(FeeDenom, burn)] = Ok fm ->
  exists x1 x2,
    SendCoinsFromModuleToModule (R w) (w_ext w) FeeCollectorName ModuleName [(FeeDenom, burn)] = (x1, Ok tt) /\
    BurnCoins x1 ModuleName [(FeeDenom, burn)] = (x2, Ok tt) /\
    created (-1) (w_ext w) x2 fc [(FeeDenom, burn)].
Proof.
  cbn zeta. intros Hb HR. rewrite (send_m2m _ _ _ _ _ _ _ Hcol Hfees).
  destruct (send_module_total _ (w_ext w) _ _ _ _ _ _ Hcol HR Hb) as (x1 & E1).
  destruct (send_ok _ _ _ _ _ _ _ E1) as (t' & Ht & [T1 T2] & _).
  rewrite HR in Ht. injection Ht as <-.
  assert (GetModuleAddress FeeCollectorName <> GetModuleAddress ModuleName) as Hne.
  { intros E. by pose proof (module_address_inj _ _ _ _ Hcol Hfees E). }
  assert (coin_amt [(FeeDenom, burn)] FeeDenom = burn) as Hamt
    by (by rewrite coin_amt_single, decide_True).
  assert (0 < burn <= GetBalance x1 (GetModuleAddress ModuleName) FeeDenom) as Hx1.
  { rewrite T1, decide_True, decide_False, Hamt by done.
    pose proof (balance_nonneg (w_ext w) (GetModuleAddress ModuleName) FeeDenom). lia. }
  destruct (burn_total x1 _ _ _ _ Hfees ltac:(left) Hx1) as (x2 & E2).
  destruct (burn_ok _ _ _ _ _ E2) as [C1 C2].
  exists x1, x2. split_and!; [done|done|split].
  - intros a d. rewrite C1, T1. repeat (case_decide; try congruence); lia.
  - intros d. by rewrite C2, T2.
Qed.

(** The state after a successful burn, and what the block leaves otherwise. *)
Definition burned_state (burn : Z) (w w' : W) : Prop :=
  (forall a d, GetBalance (w_ext w') a d =
     GetBalance (w_ext w) a d
     - (if decide (a = GetModuleAddress FeeCollectorName /\ d = FeeDenom) then burn else 0)) /\
  (forall d, GetSupply (w_ext w') d = GetSupply (w_ext w) d - (if decide (d = FeeDenom) then burn else 0)) /\
  (forall c, GetCumulativeBurned w = Ok c -> GetCumulativeBurned w' = Ok (c + burn)) /\
  GetParams w' = GetParams w /\ GetGenesisSupply w' = GetGenesisSupply w.

Lemma burned_state_zero w : burned_state 0 w w.
Proof.
  unfold burned_state. split_and!; try done; intros; repeat case_decide; rewrite ?Z.sub_0_r, ?Z.add_0_r; done.
Qed.

Lemma fees_entries_insert k v w w' :
  store_upd FeesKey (<[k := v]> (view FeesKey w)) w w' ->
  (k <> KeyParams -> GetParams w' = GetParams w) /\
  (k <> KeyGenesisSupply -> GetGenesisSupply w' = GetGenesisSupply w) /\
  (k <> KeyCumulativeBurned -> GetCumulativeBurned w' = GetCumulativeBurned w).
Proof.
  intros (V & _). rewrite !fees_GetParams_view, !GetGenesisSupply_view, !GetCumulativeBurned_view, V.
  by split_and!; intros ?; rewrite lookup_insert_ne.
Qed.

(** The burn on the ledger, then the counter: together they give [burned_state]. *)
Lemma burned_state_intro w x cum burn bz w' :
  GetCumulativeBurned w = Ok cum ->
  created (-1) (w_ext w) x (GetModuleAddress FeeCollectorName) [(FeeDenom, burn)] ->
  IntUnmarshal bz = Ok (cum + burn) ->
  store_upd FeesKey (<[KeyCumulativeBurned := bz]> (view FeesKey w)) (set_ext x w) w' ->
  burned_state burn w w'.
Proof.
  intros Hcum [B1 B2] Hbz A3. destruct (fees_entries_insert KeyCumulativeBurned bz (set_ext x w) w' A3) as (K1 & K2 & _).
  pose proof (store_upd_ext _ _ _ _ A3) as Ex. cbn [w_ext set_ext] in Ex.
  split_and!; rewrite ?Ex.
  - intros a d'. rewrite B1, coin_amt_single. repeat (case_decide; subst); try naive_solver; lia.
  - intros d'. rewrite B2, coin_amt_single. repeat (case_decide; subst); try naive_solver; lia.
  - intros c Hc. rewrite Hcum in Hc. injection Hc as <-.
    destruct A3 as (V & _). by rewrite GetCumulativeBurned_view, V, lookup_insert_eq.
  - by apply K1.
  - by apply K2.
Qed.

Lemma fees_EndBlocker_run w p ratio cum :
  let bal := GetBalance (w_ext w) (GetModuleAddress FeeCollectorName) FeeDenom in
  let burn := bal * ratio / dec_one in
  GetParams w = Ok p -> Validate p = Ok tt -> BurnRatioDec p = Ok ratio ->
  bal < 2 ^ 255 ->
  GetCumulativeBurned w = Ok cum -> Z.abs (cum + burn) < int_limit ->
  (R w) (GetModuleAddress FeeCollectorName) (GetModuleAddress ModuleName) [(FeeDenom, burn)]
    = Ok (GetModuleAddress ModuleName) ->
  exists w', EndBlocker w = (w', Ok tt) /\ burned_state burn w w' /\
    w_events w' = w_events w ++
      (if decide (burn = 0) then [] else
       [mkEvent EventTypeFeeBurned [(AttributeKeyAmount, CoinsString [(FeeDenom, burn)])];
        mkEvent EventTypeFeeDistributed [(AttributeKeyAmount, CoinString (FeeDenom, bal - burn))]]).
Proof.
  intros bal burn Hp Hv Hr Hlim Hcum Hsum HR.
  apply FeesParams_Validate_spec in Hv as (r & d & Hr' & _ & Hr0 & Hd0 & Hs).
  rewrite Hr in Hr'. injection Hr' as <-.
  pose proof (balance_nonneg (w_ext w) (GetModuleAddress FeeCollectorName) FeeDenom) as Hb0.
  fold bal in Hb0.
  assert (0 <= burn <= bal) as Hburn.
  { split; [apply Z.div_pos; unfold dec_one; nia|].
    apply Z.div_le_upper_bound; unfold dec_one in *; nia. }
  assert (burn = 0 -> exists w', (w, Ok tt) = (w', Ok tt) /\ burned_state burn w w' /\
            w_events w' = w_events w ++ []) as Hnop.
  { intros ->. exists w. split_and!; [done|apply burned_state_zero|by rewrite app_nil_r]. }
  unfold EndBlocker. erewrite bind_ask_run by exact Hp. erewrite bind_lift_run by exact Hr.
  destruct (Z.eqb_spec ratio 0) as [E0|_].
  { assert (burn = 0) as Hz by (unfold burn; rewrite E0, Z.mul_0_r; done).
    rewrite decide_True by done. by apply Hnop. }
  cbn zeta. erewrite bind_ask_run by reflexivity. fold bal.
  destruct (Z.eqb_spec bal 0) as [E0|_].
  { assert (burn = 0) as Hz by (unfold burn; rewrite E0; done).
    rewrite decide_True by done. by apply Hnop. }
  destruct (burn_share bal ratio) as (share & E1 & E2); [lia|lia|].
  erewrite bind_lift_run by exact E1. erewrite bind_lift_run by exact E2. fold burn.
  destruct (Z.eqb_spec burn 0) as [E0|Hnz].
  { rewrite decide_True by done. by apply Hnop. }
  rewrite decide_False by done.
  erewrite bind_lift_run by (apply one_coin_pos; [done|lia]).
  destruct (move_and_burn w burn) as (x1 & x2 & S1 & S2 & B); [fold bal; lia|done|].
  erewrite or_return_Ok_run by (by apply ext_send_run).
  erewrite or_return_Ok_run by (by apply ext_run).
  destruct (AddCumulativeBurned_run burn cum (set_ext x2 (set_ext x1 w))) as (w' & bz & A1 & A2 & A3);
    [done|done|].
  erewrite or_return_Ok_run by exact A1.
  erewrite bind_lift_run by (rewrite int_sub, decide_True; [done|unfold int_limit; lia]).
  eexists. split; [|split].
  - erewrite bind_Ok_run by reflexivity.
    erewrite bind_lift_run by (apply new_coin_ok; [done|lia]). reflexivity.
  - by apply (burned_state_intro w x2 cum burn bz w').
  - cbn. destruct A3 as (_ & _ & _ & _ & _ & ->). cbn. by rewrite <- app_assoc.
Qed.

(** C1: the end-blocker burns exactly the floor of [BurnRatio] times the uvtx
    balance of the fee collector: it returns no error, only the collector's
    uvtx balance and the uvtx supply drop, both by that amount, the cumulative
    counter grows by it, and the two events report the burned amount and the
    rest (no event when the floor is zero). *)
Theorem fees_EndBlocker_burns w p ratio cum :
  let bal := GetBalance (w_ext w) (GetModuleAddress FeeCollectorName) FeeDenom in
  let burn := bal * ratio / dec_one in
  GetParams w = Ok p -> Validate p = Ok tt -> BurnRatioDec p = Ok ratio ->
  bal < 2 ^ 255 ->
  GetCumulativeBurned w = Ok cum -> Z.abs (cum + burn) < int_limit ->
  (R w) (GetModuleAddress FeeCollectorName) (GetModuleAddress ModuleName) [(FeeDenom, burn)]
    = Ok (GetModuleAddress ModuleName) ->
  exists w', EndBlocker w = (w', Ok tt) /\ burned_state burn w w' /\
    w_events w' = w_events w ++
      (if decide (burn = 0) then [] else
       [mkEvent EventTypeFeeBurned [(AttributeKeyAmount, CoinsString [(FeeDenom, burn)])];
        mkEvent EventTypeFeeDistributed [(AttributeKeyAmount, CoinString (FeeDenom, bal - burn))]]).
Proof. apply fees_EndBlocker_run. Qed.

(** The supply is the genesis supply less what the module burned and [δ], what
    vanished elsewhere; it reconciles when [δ] is 0. *)
Definition reconciled (δ : Z) (w : W) : Prop :=
  exists g b, GetGenesisSupply w = Ok g /\ GetCumulativeBurned w = Ok b /\
              g - GetSupply (w_ext w) FeeDenom = b + δ /\ Z.abs b < int_limit /\ Z.abs g < int_limit.

Lemma reconciled_invariant w : reconciled 0 w -> ReconcileInvariant w = Ok false.
Proof.
  intros (g & b & Hg & Hb & E & Hr & _). rewrite Z.add_0_r in E. unfold ReconcileInvariant. rewrite Hg, Hb. cbn.
  rewrite int_sub, E, decide_True by done. cbn. by rewrite Z.eqb_refl.
Qed.

(** What else changes the supply changes the gap. *)
Lemma reconciled_shift δ w w' :
  view FeesKey w' = view FeesKey w -> reconciled δ w ->
  reconciled (δ + (GetSupply (w_ext w) FeeDenom - GetSupply (w_ext w') FeeDenom)) w'.
Proof.
  intros V (g & b & H1 & H2 & H3 & H4 & H5). destruct (fees_state_ext w w' V) as (_ & E1 & E2).
  exists g, b. rewrite E1, E2. split_and!; [done|done|lia|done..].
Qed.

Lemma reconciled_ext δ w w' :
  view FeesKey w' = view FeesKey w ->
  GetSupply (w_ext w') FeeDenom = GetSupply (w_ext w) FeeDenom -> reconciled δ w -> reconciled δ w'.
Proof.
  intros V ES (g & b & H). destruct (fees_state_ext w w' V) as (_ & E1 & E2).
  exists g, b. by rewrite E1, E2, ES.
Qed.

Lemma AddCumulativeBurned_wlp amt b w (Q : unit -> W -> Prop) E :
  GetCumulativeBurned w = Ok b ->
  (forall w', Z.abs (b + amt) < int_limit -> GetCumulativeBurned w' = Ok (b + amt) ->
     GetGenesisSupply w' = GetGenesisSupply w -> w_ext w' = w_ext w -> Q tt w') ->
  wlp (AddCumulativeBurned amt) Q E w.
Proof.
  intros Hb H. destruct (decide (Z.abs (b + amt) < int_limit)) as [Hr|Hr].
  - destruct (AddCumulativeBurned_run amt b w Hb Hr) as (w1 & bz & E1 & E2 & U).
    unfold wlp. rewrite E1. apply H; [done| | |by eapply store_upd_ext].
    + destruct U as (V & _). by rewrite GetCumulativeBurned_view, V, lookup_insert_eq.
    + by apply (fees_entries_insert _ _ _ _ U).
  - unfold AddCumulativeBurned. apply wlp_bind, wlp_ask; rewrite Hb; [|done].
    intros ? [= <-]. apply wlp_bind, wlp_lift; rewrite int_add, decide_False; done.
Qed.

(** Every way the end-blocker can end without a panic keeps the books: the burn
    and the counter move together. *)
Lemma fees_EndBlocker_reconciled δ w :
  reconciled δ w -> wlp EndBlocker (fun _ => reconciled δ) (fun _ => reconciled δ) w.
Proof.
  intros Hrec. unfold EndBlocker. wlp_steps; try done.
  destruct Hrec as (g & b & Hg & Hb & Heq & Hr & Hgl).
  match goal with H : one_coin _ _ = Ok ?c |- _ =>
    pose proof (one_coin_length _ _ _ H) as Hlen;
    pose proof (one_coin_amt _ _ _ FeeDenom H) as Hamt end.
  rewrite decide_True in Hamt by done.
  apply wlp_ext_send. intros x1 r1 S1. rewrite (send_m2m _ _ _ _ _ _ _ Hcol Hfees) in S1.
  assert (r1 <> Panic -> GetSupply x1 FeeDenom = GetSupply (w_ext w) FeeDenom) as E1.
  { destruct r1; [|apply send_fail in S1; [|done]; intros; by apply S1|done].
    apply send_ok in S1 as (t' & _ & T & _). intros. by apply T. }
  assert (r1 <> Panic -> reconciled δ (set_ext x1 w)) as Hrec1.
  { intros Hp. apply (reconciled_ext δ w); [by rewrite view_set_ext|by apply E1|]. by exists g, b. }
  destruct r1; [|by apply Hrec1|done]. specialize (E1 ltac:(done)). specialize (Hrec1 ltac:(done)).
  apply wlp_or_return, wlp_ext. intros x2 r2 S2. cbn in S2.
  destruct r2; [| |done].
  2: { apply (reconciled_ext δ (set_ext x1 w)); [done| |done]. apply burn_fail in S2; [|done]. apply S2. }
  apply burn_ok in S2 as [_ S2].
  apply wlp_or_return, (AddCumulativeBurned_wlp _ b); [done|].
  intros w' Hlim Hc Hg' Hx.
  assert (reconciled δ w') as Hrec'.
  { exists g. eexists. split_and!; [by rewrite Hg'|exact Hc| |done|done].
    rewrite Hx. cbn. rewrite S2, E1, Hamt. lia. }
  world_steps; try done; apply (reconciled_ext δ w'); done.
Qed.

(** The end-blocker never touches the parameters. *)
Definition same_fees_params (w w' : W) : Prop := view FeesKey w' !! KeyParams = view FeesKey w !! KeyParams.

#[local] Instance same_fees_params_pre : PreOrder same_fees_params.
Proof. split; [done|]. intros w1 w2 w3 H1 H2. unfold same_fees_params in *. congruence. Qed.

Lemma fees_EndBlocker_params (w w' : W) r : EndBlocker w = (w', r) -> r <> Panic -> GetParams w' = GetParams w.
Proof.
  intros E Hr. assert (wlp EndBlocker (fun _ => same_fees_params w) (fun _ => same_fees_params w) w) as H.
  { unfold EndBlocker, AddCumulativeBurned. wlp_steps; try done.
    apply wlp_ext_send. intros x1 [u|e|] _; try done. apply wlp_or_return, wlp_ext. intros x2 [u2|e|] _; try done.
    world_steps; try done; (match goal with U : store_upd _ _ _ ?w2 |- _ => destruct U as (V & _);
      change (view FeesKey w2 !! KeyParams = view FeesKey w !! KeyParams) end); by rewrite V, lookup_insert_ne. }
  unfold wlp in H. rewrite E in H. rewrite !fees_GetParams_view. destruct r; [by rewrite H|by rewrite H|done].
Qed.

(** ** The module's transitions *)

(** One step of the chain as the module sees it: its end-blocker, a parameter
    message that succeeds, one that fails (the transaction is rolled back), or
    anything that touches neither its store nor the uvtx supply. *)
Inductive fees_step (k : Keeper) : W -> W -> Prop :=
| step_end_block w w' : EndBlocker w = (w', Ok tt) -> fees_step k w w'
| step_update_params msg w w' : UpdateParams k msg w = (w', Ok tt) -> fees_step k w w'
| step_rejected msg w w' e : UpdateParams k msg w = (w', Err e) -> fees_step k w w
| step_other w w' : view FeesKey w' = view FeesKey w ->
    GetSupply (w_ext w') FeeDenom = GetSupply (w_ext w) FeeDenom -> fees_step k w w'.

Lemma fees_SetParams_wlp p w (Q : unit -> W -> Prop) (E : error -> W -> Prop) :
  (forall w' bz, Validate p = Ok tt -> store_upd FeesKey (<[KeyParams := bz]> (view FeesKey w)) w w' -> Q tt w') ->
  (forall e, E e w) -> wlp (SetParams p) Q E w.
Proof. intros HQ HE. unfold SetParams. world_steps; auto. destruct a. eauto. Qed.

Lemma reconciled_params_write δ w w' bz :
  reconciled δ w -> store_upd FeesKey (<[KeyParams := bz]> (view FeesKey w)) w w' -> reconciled δ w'.
Proof.
  intros (g & b & Hg & Hb & H) U. destruct (fees_entries_insert _ _ _ _ U) as (_ & E1 & E2).
  exists g, b. by rewrite E1, E2, (store_upd_ext _ _ _ _ U).
Qed.

Lemma fees_UpdateParams_reconciled k δ msg w :
  reconciled δ w -> wlp (UpdateParams k msg) (fun _ => reconciled δ) (fun _ _ => True) w.
Proof.
  intros Hrec. unfold UpdateParams. world_steps; try done.
  apply fees_SetParams_wlp; [|done]. intros w' bz _ U. world_steps.
  apply (reconciled_ext δ w'); [done|done|]. by eapply reconciled_params_write.
Qed.

Lemma fees_step_reconciled k δ w w' : fees_step k w w' -> reconciled δ w -> reconciled δ w'.
Proof.
  intros Hs Hw. destruct Hs as [w w' E|msg w w' E|msg w w' e E|w w' V S].
  - by apply (wlp_run _ _ _ _ _ _ (fees_EndBlocker_reconciled δ w Hw) E).
  - by apply (wlp_run _ _ _ _ _ _ (fees_UpdateParams_reconciled k δ msg w Hw) E).
  - done.
  - by apply (reconciled_ext δ w).
Qed.

Lemma fees_InitGenesis_reconciled gs w :
  view FeesKey w !! KeyCumulativeBurned = None -> Z.abs (GetSupply (w_ext w) FeeDenom) < int_limit ->
  wlp (InitGenesis gs) (fun _ => reconciled 0) (fun _ _ => True) w.
Proof.
  intros Hn Hlim. unfold InitGenesis, SetGenesisSupply. world_steps; try done.
  apply fees_SetParams_wlp; [|done]. intros w1 bz _ (V1 & _ & X1 & _).
  destruct (int_marshal _ Hlim) as (b & Em & Eu).
  world_steps; try done. simplify_eq. rewrite X1, Em in *. simplify_eq.
  match goal with U : store_upd _ _ w1 ?w2 |- _ => destruct U as (V2 & _ & X2 & _) end.
  exists (GetSupply (w_ext w) FeeDenom), 0.
  rewrite GetGenesisSupply_view, GetCumulativeBurned_view, V2, lookup_insert_eq.
  rewrite lookup_insert_ne, V1, lookup_insert_ne, Hn by done.
  rewrite X2, X1. unfold int_limit in *. split_and!; [done|done|lia|lia|done].
Qed.

(** C2: the books always balance. From genesis on, whatever blocks end, whatever
    parameter messages are delivered and whatever else happens that leaves the
    module's store and the uvtx supply alone, the reconcile invariant holds:
    genesis supply minus current supply is the cumulative burn. *)
Theorem reconcile_always k gs w0 w1 w :
  view FeesKey w0 !! KeyCumulativeBurned = None ->
  Z.abs (GetSupply (w_ext w0) FeeDenom) < int_limit ->
  InitGenesis gs w0 = (w1, Ok tt) -> rtc (fees_step k) w1 w ->
  ReconcileInvariant w = Ok false.
Proof.
  intros Hn Hlim Hi Hs. apply reconciled_invariant.
  pose proof (wlp_run _ _ _ _ _ _ (fees_InitGenesis_reconciled gs w0 Hn Hlim) Hi) as H1. cbn in H1.
  clear Hi. induction Hs as [|w1 w2 w3 Hstep _ IH]; [done|]. eauto using fees_step_reconciled.
Qed.

(** C3: a parameter update is accepted exactly when the authority address parses,
    is the keeper's authority and the ratios are valid; it then stores exactly
    the given parameters and touches nothing else but the event log, and a
    rejected update changes nothing. *)
Theorem fees_UpdateParams_spec k msg w :
  wf_msg (Params msg) ->
  (is_ok (AccAddressFromBech32 (Authority msg)) = true /\ Authority msg = authority k /\
     Validate (Params msg) = Ok tt /\
     exists w', UpdateParams k msg w = (w', Ok tt) /\ GetParams w' = Ok (Params msg) /\
       GetGenesisSupply w' = GetGenesisSupply w /\ GetCumulativeBurned w' = GetCumulativeBurned w /\
       w_ext w' = w_ext w /\ w_oracle w' = w_oracle w /\ w_rwa w' = w_rwa w)
  \/ (~ (is_ok (AccAddressFromBech32 (Authority msg)) = true /\ Authority msg = authority k /\
         Validate (Params msg) = Ok tt) /\
      exists e, UpdateParams k msg w = (w, Err e)).
Proof.
  intros Hwf. unfold UpdateParams, ValidateBasic, GetAuthority.
  pose proof (acc_parse_total (Authority msg)) as Hp.
  destruct (AccAddressFromBech32 (Authority msg)) as [a|e|] eqn:Ea; [| |done].
  2: { right. split; [by intros []|]. by eexists. }
  pose proof (FeesParams_Validate_no_panic (Params msg)) as Hvp.
  destruct (Validate (Params msg)) as [[]|e|] eqn:Ev; [| |done].
  2: { right. split; [by intros (_ & _ & ?)|]. exists e. apply bind_Err_run. unfold lift. by f_equal. }
  cbn [wrap_err]. erewrite bind_lift_run by reflexivity.
  destruct (decide (Authority msg = authority k)) as [Hk|Hk].
  2: { right. split; [by intros (_ & ? & _)|]. rewrite bool_decide_eq_false_2 by done. by eexists. }
  left. split_and!; [done..|]. rewrite bool_decide_eq_true_2 by done.
  erewrite bind_guard_run by done.
  destruct (fees_SetParams_run (Params msg) w Ev Hwf) as (w' & bz & E1 & E2 & U).
  erewrite bind_Ok_run by exact E1. eexists. split; [done|].
  destruct (fees_entries_insert _ _ _ _ U) as (_ & G1 & G2).
  destruct U as (V & O & X1 & _). split_and!; cbn.
  - rewrite fees_GetParams_view. change (view FeesKey _) with (view FeesKey w').
    by rewrite V, lookup_insert_eq.
  - by apply G1.
  - by apply G2.
  - done.
  - by apply (O OracleKey).
  - by apply (O RwaKey).
Qed.

End Fees.

(** ** The theorems at concrete inputs *)

Definition ref_perms : list (string * list string) :=
  [(FeeCollectorName, []); (ModuleName, ["burner"%string])].
Definition ref_bank : BankKeeper sdk_state := BK_ref ref_perms [].
Definition ref_allow (w : world (gmap bytes bytes) sdk_state) : restr := fun _ t _ => Ok t.

(** A fresh chain: 21 million VTX, 101 uvtx of them in the fee collector. *)
Definition ref_genesis_world : world (gmap bytes bytes) sdk_state :=
  mkWorld ∅ ∅ ∅
    (mkSdk (fun a d => if decide (a = bytes_of FeeCollectorName /\ d = FeeDenom) then 101 else 0)
           (fun d => if decide (d = FeeDenom) then 21000000000000 else 0) [] (fun _ => 0) 0)
    1 0 [].

Definition ref_params : FeesParams := mkFeesParams "0.4" "0.6".

Definition ref_world : world (gmap bytes bytes) sdk_state :=
  (InitGenesis (BK := ref_bank) (mkGenesisState ref_params) ref_genesis_world).1.

Lemma fees_EndBlocker_burns_witness :
  exists w', EndBlocker (BK := ref_bank) ref_allow ref_world = (w', Ok tt) /\
             burned_state (BK := ref_bank) 40 ref_world w' /\ length (w_events w') = 2%nat.
Proof.
  destruct (fees_EndBlocker_burns (BK := ref_bank) ref_allow ref_perms (BKL := BKL_ref ref_perms [])
              [] ltac:(left) ltac:(right; left) ref_world ref_params (4 * 10 ^ 17) 0)
    as (w' & E & B & V).
  - vm_compute; reflexivity.
  - vm_compute; reflexivity.
  - vm_compute; reflexivity.
  - vm_compute; reflexivity.
  - vm_compute; reflexivity.
  - vm_compute; reflexivity.
  - vm_compute; reflexivity.
  - exists w'. split; [exact E|]. split; [exact B|]. rewrite V. vm_compute; reflexivity.
Defined.

Lemma reconcile_always_witness :
  exists w, EndBlocker (BK := ref_bank) ref_allow ref_world = (w, Ok tt) /\
            ReconcileInvariant (BK := ref_bank) w = Ok false.
Proof.
  exists (EndBlocker (BK := ref_bank) ref_allow ref_world).1.
  split; [apply run_result; vm_compute; reflexivity|].
  apply (reconcile_always (BK := ref_bank) ref_allow ref_perms (BKL := BKL_ref ref_perms [])
           [] ltac:(left) ltac:(right; left) (mkKeeper "") (mkGenesisState ref_params)
           ref_genesis_world ref_world).
  - reflexivity.
  - vm_compute; reflexivity.
  - apply run_result. vm_compute; reflexivity.
  - apply rtc_once, step_end_block, run_result. vm_compute; reflexivity.
Defined.

Lemma fees_UpdateParams_spec_witness :
  exists w', UpdateParams (mkKeeper "vtx1gov") (mkMsgUpdateParams "vtx1gov" (mkFeesParams "1" "0")) ref_world
    = (w', Ok tt) /\ GetParams w' = Ok (mkFeesParams "1" "0").
Proof.
  destruct (fees_UpdateParams_spec (mkKeeper "vtx1gov") (mkMsgUpdateParams "vtx1gov" (mkFeesParams "1" "0"))
              ref_world) as [(_ & _ & _ & w' & E & G & _)|[H _]].
  - vm_compute; reflexivity.
  - exists w'. split; [exact E|exact G].
  - exfalso. apply H. split_and!; vm_compute; reflexivity.
Defined.
