(* ===== verification/OracleTypes.v ===== *)
(** * x/oracle: types

    Parameters and their validation (types/params.go), store keys (types/keys.go),
    messages (types/msgs.go), genesis (types/genesis.go), errors and events, and
    the generated binary encodings of the four stored messages
    (types/types.pb.go). *)

From S2P Require Import Prelude Sdk World SdkRef Wire.

Open Scope Z_scope.

(** ** Errors and events *)

Definition ModuleName : string := "oracle".

Definition ErrInvalidSigner : error := Registered ModuleName 2.
Definition ErrUnauthorized : error := Registered ModuleName 3.
Definition ErrInvalidPrice : error := Registered ModuleName 4.
Definition ErrPairNotAccepted : error := Registered ModuleName 5.
Definition ErrNoPrice : error := Registered ModuleName 6.
Definition ErrStalePrice : error := Registered ModuleName 7.
Definition ErrNoTWAPData : error := Registered ModuleName 8.
Definition ErrNotBondedValidator : error := Registered ModuleName 9.
Definition ErrFeederNotAuthorized : error := Registered ModuleName 10.
Definition ErrFeederAlreadyBound : error := Registered ModuleName 11.
Definition ErrInvalidParams : error := Registered ModuleName 12.
Definition ErrInvalidPairFormat : error := Registered ModuleName 13.
Definition ErrInvalidAddress : error := Registered "sdk" 7.

Definition EventTypeFeederSet : string := "oracle_feeder_set".
Definition EventTypeFeedSubmitted : string := "oracle_feed_submitted".
Definition EventTypePriceAggregated : string := "oracle_price_aggregated".
Definition EventTypeSlash : string := "oracle_slash".
Definition EventTypeParamsUpdated : string := "oracle_params_updated".
Definition AttributeKeyValidator : string := "validator".
Definition AttributeKeyFeeder : string := "feeder".
Definition AttributeKeyPair : string := "pair".
Definition AttributeKeyPrice : string := "price".
Definition AttributeKeySlashReason : string := "slash_reason".
Definition AttributeKeySlashFraction : string := "slash_fraction".
Definition AttributeKeyAcceptListChanged : string := "accept_list_changed".

(** ** Messages *)

Record OracleFeed : Type := mkOracleFeed {
  of_Validator : string; of_Pair : string; of_Price : string; of_BlockHeight : Z
}.

Record AggregatedPrice : Type := mkAggregatedPrice {
  ap_Pair : string; ap_Price : string; ap_BlockHeight : Z; ap_BlockTime : Z
}.

Record TWAPEntry : Type := mkTWAPEntry { te_Pair : string; te_Price : string; te_BlockTime : Z }.

Record OracleParams : Type := mkOracleParams {
  VoteWindow : Z;
  MissThreshold : string;
  MissSlashRate : string;
  OutlierSlashRate : string;
  OutlierThreshold : string;
  MissWindowSize : Z;
  QuorumFraction : string;
  MaxPriceAge : Z;
  AcceptList : list string
}.

#[global] Instance AggregatedPrice_eq_dec : EqDecision AggregatedPrice.
Proof. solve_decision. Defined.
#[global] Instance OracleParams_eq_dec : EqDecision OracleParams.
Proof. solve_decision. Defined.

Record FeederDelegation : Type := mkFeederDelegation { fd_Validator : string; fd_Feeder : string }.

Record GenesisState : Type := mkGenesisState {
  gs_Params : OracleParams; gs_Prices : list AggregatedPrice; gs_Feeders : list FeederDelegation
}.

Record MsgSetFeeder : Type := mkMsgSetFeeder { sf_Validator : string; sf_Feeder : string }.

Record MsgSubmitFeed : Type := mkMsgSubmitFeed {
  ms_Feeder : string; ms_Validator : string; ms_Pair : string; ms_Price : string
}.

Record MsgUpdateParams : Type := mkMsgUpdateParams { Authority : string; Params : OracleParams }.

(** ** types/params.go *)

(** [pairRegex]: [^[A-Z0-9]+:[A-Z0-9]+$]. *)
Definition pairRegex (s : string) : bool :=
  match split_at ":"%byte (bytes_of s) with
  | (l, Some r) => pair_part l && pair_part r
  | (_, None) => false
  end.

Definition DefaultParams : OracleParams := {|
  VoteWindow := 10;
  MissThreshold := "0.05";
  MissSlashRate := "0.005";
  OutlierSlashRate := "0.01";
  OutlierThreshold := "0.05";
  MissWindowSize := 500;
  QuorumFraction := "0.667";
  MaxPriceAge := 300;
  AcceptList := ["VTX:USD"; "BTC:USD"; "ETH:USD"; "ATOM:USD"; "USDC:USD"]%string
|}.

Definition AcceptListChanged (p other : OracleParams) : bool :=
  negb (bool_decide (length (AcceptList p) = length (AcceptList other))) ||
  existsb (fun ab => negb (bool_decide (ab.1 = ab.2))) (zip (AcceptList p) (AcceptList other)).

Definition PairAccepted (p : OracleParams) (pair : string) : bool :=
  existsb (fun ap => bool_decide (ap = pair)) (AcceptList p).

Fixpoint validate_pairs (seen : gset string) (l : list string) : res unit :=
  match l with
  | [] => Ok tt
  | pr :: l =>
      if negb (pairRegex pr) then Err ErrInvalidPairFormat else
      if bool_decide (pr ∈ seen) then Err ErrInvalidParams else
      validate_pairs ({[pr]} ∪ seen) l
  end.

Section OracleTypes.
Context {SM : SdkMath} {BE : Bech32}.

Definition validateDecOpenClosed (s : string) : res unit :=
  d ← wrap_err ErrInvalidParams (LegacyNewDecFromStr s);
  if (d <=? LegacyZeroDec) || (LegacyOneDec <? d) then Err ErrInvalidParams else Ok tt.

Definition validateSlashRate (s : string) : res unit :=
  d ← wrap_err ErrInvalidParams (LegacyNewDecFromStr s);
  let ceiling := LegacyNewDecWithPrec 5 2 in
  if (d <? 0) || (ceiling <=? d) then Err ErrInvalidParams else Ok tt.

Definition Validate (p : OracleParams) : res unit :=
  if VoteWindow p <=? 0 then Err ErrInvalidParams else
  if MissWindowSize p <=? 0 then Err ErrInvalidParams else
  if MaxPriceAge p <=? 0 then Err ErrInvalidParams else
  _ ← validateDecOpenClosed (MissThreshold p);
  _ ← validateDecOpenClosed (OutlierThreshold p);
  _ ← validateDecOpenClosed (QuorumFraction p);
  _ ← validateSlashRate (MissSlashRate p);
  _ ← validateSlashRate (OutlierSlashRate p);
  match AcceptList p with
  | [] => Err ErrInvalidParams
  | l => validate_pairs ∅ l
  end.

(** ** types/keys.go *)

Definition KeyPrefixFeed : bytes := [x01].
Definition KeyPrefixAggregatedPrice : bytes := [x02].
Definition KeyPrefixTWAP : bytes := [x03].
Definition KeyPrefixMissCounter : bytes := [x04].
Definition KeyPrefixTotalWindows : bytes := [x05].
Definition KeyParams : bytes := [x06].
Definition KeyPrefixFeederToValoper : bytes := [x07].
Definition KeyPrefixValoperToFeeder : bytes := [x08].

Definition FeedKey (val : bytes) (pair : string) : res bytes :=
  prefixed ← MustLengthPrefix val;
  Ok ((KeyPrefixFeed ++ prefixed) ++ bytes_of ("/" +:+ pair)).

Definition ErrFeedKey : error := Errorf "invalid feed key".

Definition ParseFeedKey (key : bytes) : res (bytes * string) :=
  if bool_decide (length key < length KeyPrefixFeed + 2)%nat then Err ErrFeedKey else
  if bool_decide (head key <> head KeyPrefixFeed) then Err ErrFeedKey else
  match drop (length KeyPrefixFeed) key with
  | [] => Err ErrFeedKey
  | (b :: _) as rest =>
      let addrLen := Z.to_nat (Z_of_byte b) in
      if bool_decide (length rest < 1 + addrLen)%nat then Err ErrFeedKey else
      let valBytes := take addrLen (drop 1 rest) in
      match drop (1 + addrLen) rest with
      | c :: tl => if bool_decide (c = "/"%byte) then Ok (valBytes, string_of tl) else Err ErrFeedKey
      | [] => Err ErrFeedKey
      end
  end.

Definition AggregatedPriceKey (pair : string) : bytes := KeyPrefixAggregatedPrice ++ bytes_of pair.

(** [ts.UnixNano()] is an [int64]. *)
Definition TWAPKey (pair : string) (ts : Z) : bytes :=
  ((KeyPrefixTWAP ++ bytes_of pair) ++ ["/"%byte]) ++ be64 (wrap64 ts).

Definition TWAPPrefix (pair : string) : bytes := (KeyPrefixTWAP ++ bytes_of pair) ++ ["/"%byte].

Definition FeedKeyPrefix : bytes := KeyPrefixFeed.

Definition MissCounterKey (val : bytes) : bytes := KeyPrefixMissCounter ++ val.
Definition TotalWindowsKey (val : bytes) : bytes := KeyPrefixTotalWindows ++ val.
Definition FeederToValoperKey (feeder : bytes) : bytes := KeyPrefixFeederToValoper ++ feeder.
Definition ValoperToFeederKey (val : bytes) : bytes := KeyPrefixValoperToFeeder ++ val.

(** ** types/msgs.go *)

Definition MsgSetFeeder_ValidateBasic (m : MsgSetFeeder) : res unit :=
  _ ← wrap_err ErrInvalidAddress (ValAddressFromBech32 (sf_Validator m));
  _ ← wrap_err ErrInvalidAddress (AccAddressFromBech32 (sf_Feeder m));
  Ok tt.

Definition MsgSubmitFeed_ValidateBasic (m : MsgSubmitFeed) : res unit :=
  _ ← wrap_err ErrInvalidAddress (AccAddressFromBech32 (ms_Feeder m));
  _ ← wrap_err ErrInvalidAddress (ValAddressFromBech32 (ms_Validator m));
  if bool_decide (ms_Pair m = ""%string) then Err ErrInvalidPairFormat else
  price ← wrap_err ErrInvalidPrice (LegacyNewDecFromStr (ms_Price m));
  if negb (0 <? price) then Err ErrInvalidPrice else Ok tt.

Definition MsgUpdateParams_ValidateBasic (m : MsgUpdateParams) : res unit :=
  _ ← wrap_err ErrInvalidAddress (AccAddressFromBech32 (Authority m));
  Validate (Params m).

(** ** types/genesis.go *)

Definition DefaultGenesis : GenesisState := mkGenesisState DefaultParams [] [].

Definition ErrGenesis : error := Errorf "invalid oracle genesis".

Fixpoint validate_prices (p : OracleParams) (seenPairs : gset string) (l : list AggregatedPrice) : res unit :=
  match l with
  | [] => Ok tt
  | a :: l =>
      if negb (PairAccepted p (ap_Pair a)) then Err ErrGenesis else
      if bool_decide (ap_Pair a ∈ seenPairs) then Err ErrGenesis else
      price ← wrap_err ErrGenesis (LegacyNewDecFromStr (ap_Price a));
      if negb (0 <? price) then Err ErrGenesis else
      if ap_BlockTime a =? zero_time then Err ErrGenesis else
      validate_prices p ({[ap_Pair a]} ∪ seenPairs) l
  end.

Fixpoint validate_feeders (seenFeeders : gset string) (l : list FeederDelegation) : res unit :=
  match l with
  | [] => Ok tt
  | fd :: l =>
      _ ← wrap_err ErrGenesis (ValAddressFromBech32 (fd_Validator fd));
      _ ← wrap_err ErrGenesis (AccAddressFromBech32 (fd_Feeder fd));
      if bool_decide (fd_Feeder fd ∈ seenFeeders) then Err ErrGenesis else
      validate_feeders ({[fd_Feeder fd]} ∪ seenFeeders) l
  end.

Definition GenesisState_Validate (gs : GenesisState) : res unit :=
  _ ← Validate (gs_Params gs);
  _ ← validate_prices (gs_Params gs) ∅ (gs_Prices gs);
  validate_feeders ∅ (gs_Feeders gs).

Definition ValidatePriceBlockTime (blockTime chainTime : Z) : res unit :=
  if chainTime <? blockTime then Err (Errorf "aggregated price block_time is in the future") else Ok tt.

End OracleTypes.

(** ** The binary encodings (types.pb.go) *)

Definition OracleFeed_Size (m : OracleFeed) : Z :=
  size_string (of_Validator m) + size_string (of_Pair m) + size_string (of_Price m)
  + size_int (of_BlockHeight m).

Definition OracleFeed_MarshalToSizedBuffer (m : OracleFeed) (w : writer) : res writer :=
  w ← wr_int x20 (of_BlockHeight m) w;
  w ← wr_string x1a (of_Price m) w;
  w ← wr_string x12 (of_Pair m) w;
  wr_string x0a (of_Validator m) w.

Definition OracleFeed_Marshal (m : OracleFeed) : res bytes :=
  marshal_with (OracleFeed_Size m) (OracleFeed_MarshalToSizedBuffer m).

Definition OracleFeed_switch (l fieldNum wireType : Z) (m : OracleFeed) (b : bytes) :
  option (res (OracleFeed * bytes)) :=
  match fieldNum with
  | 1 => Some ('(s, b) ← rd_string l wireType b;
               Ok (mkOracleFeed s (of_Pair m) (of_Price m) (of_BlockHeight m), b))
  | 2 => Some ('(s, b) ← rd_string l wireType b;
               Ok (mkOracleFeed (of_Validator m) s (of_Price m) (of_BlockHeight m), b))
  | 3 => Some ('(s, b) ← rd_string l wireType b;
               Ok (mkOracleFeed (of_Validator m) (of_Pair m) s (of_BlockHeight m), b))
  | 4 => Some ('(v, b) ← rd_int64 wireType b;
               Ok (mkOracleFeed (of_Validator m) (of_Pair m) (of_Price m) v, b))
  | _ => None
  end.

Definition OracleFeed_Unmarshal (dAtA : bytes) : res OracleFeed :=
  unmarshal OracleFeed_switch (mkOracleFeed "" "" "" 0) dAtA.

#[global] Instance OracleFeed_proto : ProtoMsg OracleFeed := {|
  Marshal := OracleFeed_Marshal;
  Unmarshal := OracleFeed_Unmarshal;
  wf_msg m := OracleFeed_Size m < two63 /\ - two63 <= of_BlockHeight m < two63
|}.

Definition OracleParams_Size (m : OracleParams) : Z :=
  size_int (VoteWindow m) + size_string (MissThreshold m) + size_string (MissSlashRate m)
  + size_string (OutlierSlashRate m) + size_string (OutlierThreshold m)
  + size_int (MissWindowSize m) + size_string (QuorumFraction m) + size_int (MaxPriceAge m)
  + size_strings (AcceptList m).

Definition OracleParams_MarshalToSizedBuffer (m : OracleParams) (w : writer) : res writer :=
  w ← wr_strings x4a (AcceptList m) w;
  w ← wr_int x40 (MaxPriceAge m) w;
  w ← wr_string x3a (QuorumFraction m) w;
  w ← wr_int x30 (MissWindowSize m) w;
  w ← wr_string x2a (OutlierThreshold m) w;
  w ← wr_string x22 (OutlierSlashRate m) w;
  w ← wr_string x1a (MissSlashRate m) w;
  w ← wr_string x12 (MissThreshold m) w;
  wr_int x08 (VoteWindow m) w.

Definition OracleParams_Marshal (m : OracleParams) : res bytes :=
  marshal_with (OracleParams_Size m) (OracleParams_MarshalToSizedBuffer m).

Definition OracleParams_switch (l fieldNum wireType : Z) (m : OracleParams) (b : bytes) :
  option (res (OracleParams * bytes)) :=
  let 'mkOracleParams vw mt msr osr ot mws qf mpa al := m in
  match fieldNum with
  | 1 => Some ('(v, b) ← rd_int64 wireType b; Ok (mkOracleParams v mt msr osr ot mws qf mpa al, b))
  | 2 => Some ('(s, b) ← rd_string l wireType b; Ok (mkOracleParams vw s msr osr ot mws qf mpa al, b))
  | 3 => Some ('(s, b) ← rd_string l wireType b; Ok (mkOracleParams vw mt s osr ot mws qf mpa al, b))
  | 4 => Some ('(s, b) ← rd_string l wireType b; Ok (mkOracleParams vw mt msr s ot mws qf mpa al, b))
  | 5 => Some ('(s, b) ← rd_string l wireType b; Ok (mkOracleParams vw mt msr osr s mws qf mpa al, b))
  | 6 => Some ('(v, b) ← rd_int64 wireType b; Ok (mkOracleParams vw mt msr osr ot v qf mpa al, b))
  | 7 => Some ('(s, b) ← rd_string l wireType b; Ok (mkOracleParams vw mt msr osr ot mws s mpa al, b))
  | 8 => Some ('(v, b) ← rd_int64 wireType b; Ok (mkOracleParams vw mt msr osr ot mws qf v al, b))
  | 9 => Some ('(s, b) ← rd_string l wireType b;
               Ok (mkOracleParams vw mt msr osr ot mws qf mpa (al ++ [s]), b))
  | _ => None
  end.

Definition OracleParams_zero : OracleParams := mkOracleParams 0 "" "" "" "" 0 "" 0 [].

Definition OracleParams_Unmarshal (dAtA : bytes) : res OracleParams :=
  unmarshal OracleParams_switch OracleParams_zero dAtA.

#[global] Instance OracleParams_proto : ProtoMsg OracleParams := {|
  Marshal := OracleParams_Marshal;
  Unmarshal := OracleParams_Unmarshal;
  wf_msg m := OracleParams_Size m < two63 /\ - two63 <= VoteWindow m < two63 /\
              - two63 <= MissWindowSize m < two63 /\ - two63 <= MaxPriceAge m < two63
|}.

Section Timed.
Context {T : StdTime}.

Definition AggregatedPrice_Size (m : AggregatedPrice) : Z :=
  size_string (ap_Pair m) + size_string (ap_Price m) + size_int (ap_BlockHeight m)
  + size_time (ap_BlockTime m).

Definition AggregatedPrice_MarshalToSizedBuffer (m : AggregatedPrice) (w : writer) : res writer :=
  w ← wr_time x22 (ap_BlockTime m) w;
  w ← wr_int x18 (ap_BlockHeight m) w;
  w ← wr_string x12 (ap_Price m) w;
  wr_string x0a (ap_Pair m) w.

Definition AggregatedPrice_Marshal (m : AggregatedPrice) : res bytes :=
  marshal_with (AggregatedPrice_Size m) (AggregatedPrice_MarshalToSizedBuffer m).

Definition AggregatedPrice_switch (l fieldNum wireType : Z) (m : AggregatedPrice) (b : bytes) :
  option (res (AggregatedPrice * bytes)) :=
  let 'mkAggregatedPrice pr px bh bt := m in
  match fieldNum with
  | 1 => Some ('(s, b) ← rd_string l wireType b; Ok (mkAggregatedPrice s px bh bt, b))
  | 2 => Some ('(s, b) ← rd_string l wireType b; Ok (mkAggregatedPrice pr s bh bt, b))
  | 3 => Some ('(v, b) ← rd_int64 wireType b; Ok (mkAggregatedPrice pr px v bt, b))
  | 4 => Some ('(t, b) ← rd_time l wireType b; Ok (mkAggregatedPrice pr px bh t, b))
  | _ => None
  end.

Definition AggregatedPrice_Unmarshal (dAtA : bytes) : res AggregatedPrice :=
  unmarshal AggregatedPrice_switch (mkAggregatedPrice "" "" 0 zero_time) dAtA.

#[export] Instance AggregatedPrice_proto : ProtoMsg AggregatedPrice := {|
  Marshal := AggregatedPrice_Marshal;
  Unmarshal := AggregatedPrice_Unmarshal;
  wf_msg m := AggregatedPrice_Size m < two63 /\ - two63 <= ap_BlockHeight m < two63 /\
              time_ok (ap_BlockTime m)
|}.

Definition TWAPEntry_Size (m : TWAPEntry) : Z :=
  size_string (te_Pair m) + size_string (te_Price m) + size_time (te_BlockTime m).

Definition TWAPEntry_MarshalToSizedBuffer (m : TWAPEntry) (w : writer) : res writer :=
  w ← wr_time x1a (te_BlockTime m) w;
  w ← wr_string x12 (te_Price m) w;
  wr_string x0a (te_Pair m) w.

Definition TWAPEntry_Marshal (m : TWAPEntry) : res bytes :=
  marshal_with (TWAPEntry_Size m) (TWAPEntry_MarshalToSizedBuffer m).

Definition TWAPEntry_switch (l fieldNum wireType : Z) (m : TWAPEntry) (b : bytes) :
  option (res (TWAPEntry * bytes)) :=
  let 'mkTWAPEntry pr px bt := m in
  match fieldNum with
  | 1 => Some ('(s, b) ← rd_string l wireType b; Ok (mkTWAPEntry s px bt, b))
  | 2 => Some ('(s, b) ← rd_string l wireType b; Ok (mkTWAPEntry pr s bt, b))
  | 3 => Some ('(t, b) ← rd_time l wireType b; Ok (mkTWAPEntry pr px t, b))
  | _ => None
  end.

Definition TWAPEntry_Unmarshal (dAtA : bytes) : res TWAPEntry :=
  unmarshal TWAPEntry_switch (mkTWAPEntry "" "" zero_time) dAtA.

#[export] Instance TWAPEntry_proto : ProtoMsg TWAPEntry := {|
  Marshal := TWAPEntry_Marshal;
  Unmarshal := TWAPEntry_Unmarshal;
  wf_msg m := TWAPEntry_Size m < two63 /\ time_ok (te_BlockTime m)
|}.

End Timed.
#[export] Existing Instance AggregatedPrice_proto.
#[export] Existing Instance TWAPEntry_proto.

(** *** The encodings and their round trips *)

Definition OracleFeed_encode (m : OracleFeed) : bytes :=
  ((enc_string x0a (of_Validator m) ++ enc_string x12 (of_Pair m))
   ++ enc_string x1a (of_Price m)) ++ enc_int x20 (of_BlockHeight m).

Definition OracleParams_encode (m : OracleParams) : bytes :=
  (((((((enc_int x08 (VoteWindow m) ++ enc_string x12 (MissThreshold m))
   ++ enc_string x1a (MissSlashRate m)) ++ enc_string x22 (OutlierSlashRate m))
   ++ enc_string x2a (OutlierThreshold m)) ++ enc_int x30 (MissWindowSize m))
   ++ enc_string x3a (QuorumFraction m)) ++ enc_int x40 (MaxPriceAge m))
   ++ enc_strings x4a (AcceptList m).

(** [t] is the encoding of the time. *)
Definition AggregatedPrice_encode (m : AggregatedPrice) (t : bytes) : bytes :=
  ((enc_string x0a (ap_Pair m) ++ enc_string x12 (ap_Price m)) ++ enc_int x18 (ap_BlockHeight m))
  ++ enc_bytes x22 t.

Definition TWAPEntry_encode (m : TWAPEntry) (t : bytes) : bytes :=
  (enc_string x0a (te_Pair m) ++ enc_string x12 (te_Price m)) ++ enc_bytes x1a t.

Lemma OracleFeed_encodes m :
  encodes (OracleFeed_MarshalToSizedBuffer m) (OracleFeed_encode m) (OracleFeed_Size m).
Proof.
  apply encodes_comp; [apply encodes_int|].
  repeat (apply encodes_comp; [apply encodes_string|]). apply encodes_string.
Qed.

Lemma OracleFeed_reads m : - two63 <= of_BlockHeight m < two63 ->
  reads OracleFeed_switch (OracleFeed_encode m) (mkOracleFeed "" "" "" 0) m.
Proof.
  destruct m as [v p x h]. intros Hh. cbn in Hh. unfold OracleFeed_encode. cbn [of_Validator of_Pair of_Price of_BlockHeight].
  reads_split.
  - read_string (fun s => mkOracleFeed s "" "" 0).
  - read_string (fun s => mkOracleFeed v s "" 0).
  - read_string (fun s => mkOracleFeed v p s 0).
  - read_int (fun z => mkOracleFeed v p x z).
Qed.

#[global] Instance OracleFeed_proto_laws : ProtoLaws OracleFeed.
Proof.
  constructor. intros m [Hm Hh]. exists (OracleFeed_encode m).
  destruct (encodes_marshal _ _ _ (OracleFeed_encodes m) Hm) as [E L].
  split; [done|]. by apply unmarshal_reads; [apply OracleFeed_reads|].
Qed.

Lemma OracleParams_encodes m :
  encodes (OracleParams_MarshalToSizedBuffer m) (OracleParams_encode m) (OracleParams_Size m).
Proof.
  apply encodes_comp; [apply encodes_strings|].
  repeat (apply encodes_comp; [first [apply encodes_int|apply encodes_string]|]). apply encodes_int.
Qed.

Lemma OracleParams_reads m :
  - two63 <= VoteWindow m < two63 -> - two63 <= MissWindowSize m < two63 ->
  - two63 <= MaxPriceAge m < two63 ->
  reads OracleParams_switch (OracleParams_encode m) OracleParams_zero m.
Proof.
  destruct m as [vw mt msr osr ot mws qf mpa al]. unfold OracleParams_encode.
  cbn [VoteWindow MissThreshold MissSlashRate OutlierSlashRate OutlierThreshold MissWindowSize
       QuorumFraction MaxPriceAge AcceptList]. intros H1 H2 H3.
  reads_split.
  - read_int (fun z => mkOracleParams z "" "" "" "" 0 "" 0 []).
  - read_string (fun s => mkOracleParams vw s "" "" "" 0 "" 0 []).
  - read_string (fun s => mkOracleParams vw mt s "" "" 0 "" 0 []).
  - read_string (fun s => mkOracleParams vw mt msr s "" 0 "" 0 []).
  - read_string (fun s => mkOracleParams vw mt msr osr s 0 "" 0 []).
  - read_int (fun z => mkOracleParams vw mt msr osr ot z "" 0 []).
  - read_string (fun s => mkOracleParams vw mt msr osr ot mws s 0 []).
  - read_int (fun z => mkOracleParams vw mt msr osr ot mws qf z []).
  - eapply (reads_strings _ _ _ (mkOracleParams vw mt msr osr ot mws qf mpa) []); [solve_tag|reflexivity].
Qed.

#[global] Instance OracleParams_proto_laws : ProtoLaws OracleParams.
Proof.
  constructor. intros m (Hm & H1 & H2 & H3). exists (OracleParams_encode m).
  destruct (encodes_marshal _ _ _ (OracleParams_encodes m) Hm) as [E L].
  split; [done|]. by apply unmarshal_reads; [apply OracleParams_reads|].
Qed.

Section TimedLaws.
Context {T : StdTime} {TL : StdTimeLaws}.

Lemma AggregatedPrice_reads m t : - two63 <= ap_BlockHeight m < two63 ->
  StdTimeUnmarshal t = Ok (ap_BlockTime m) ->
  reads AggregatedPrice_switch (AggregatedPrice_encode m t) (mkAggregatedPrice "" "" 0 zero_time) m.
Proof.
  destruct m as [p x h bt]. unfold AggregatedPrice_encode.
  cbn [ap_Pair ap_Price ap_BlockHeight ap_BlockTime]. intros Hh Ht.
  reads_split.
  - read_string (fun s => mkAggregatedPrice s "" 0 zero_time).
  - read_string (fun s => mkAggregatedPrice p s 0 zero_time).
  - read_int (fun z => mkAggregatedPrice p x z zero_time).
  - eapply (reads_time _ _ _ _ (mkAggregatedPrice p x h)); [solve_tag|done|reflexivity].
Qed.

Lemma AggregatedPrice_encodes m t :
  StdTimeMarshal (ap_BlockTime m) = Ok t -> SizeOfStdTime (ap_BlockTime m) = zlen t ->
  encodes (AggregatedPrice_MarshalToSizedBuffer m) (AggregatedPrice_encode m t) (AggregatedPrice_Size m).
Proof.
  intros E1 E2. apply encodes_comp; [by apply encodes_time|]. apply encodes_comp; [apply encodes_int|].
  apply encodes_comp; apply encodes_string.
Qed.

#[global] Instance AggregatedPrice_proto_laws : ProtoLaws AggregatedPrice.
Proof.
  constructor. intros m (Hm & Hh & Ht). destruct (std_time _ Ht) as (t & E1 & E2 & E3 & _).
  exists (AggregatedPrice_encode m t).
  destruct (encodes_marshal _ _ _ (AggregatedPrice_encodes m t E1 E2) Hm) as [E L].
  split; [done|]. by apply unmarshal_reads; [apply AggregatedPrice_reads|].
Qed.

Lemma TWAPEntry_reads m t : StdTimeUnmarshal t = Ok (te_BlockTime m) ->
  reads TWAPEntry_switch (TWAPEntry_encode m t) (mkTWAPEntry "" "" zero_time) m.
Proof.
  destruct m as [p x bt]. unfold TWAPEntry_encode. cbn [te_Pair te_Price te_BlockTime]. intros Ht.
  reads_split.
  - read_string (fun s => mkTWAPEntry s "" zero_time).
  - read_string (fun s => mkTWAPEntry p s zero_time).
  - eapply (reads_time _ _ _ _ (mkTWAPEntry p x)); [solve_tag|done|reflexivity].
Qed.

Lemma TWAPEntry_encodes m t :
  StdTimeMarshal (te_BlockTime m) = Ok t -> SizeOfStdTime (te_BlockTime m) = zlen t ->
  encodes (TWAPEntry_MarshalToSizedBuffer m) (TWAPEntry_encode m t) (TWAPEntry_Size m).
Proof.
  intros E1 E2. apply encodes_comp; [by apply encodes_time|]. apply encodes_comp; apply encodes_string.
Qed.

#[global] Instance TWAPEntry_proto_laws : ProtoLaws TWAPEntry.
Proof.
  constructor. intros m (Hm & Ht). destruct (std_time _ Ht) as (t & E1 & E2 & E3 & _).
  exists (TWAPEntry_encode m t).
  destruct (encodes_marshal _ _ _ (TWAPEntry_encodes m t E1 E2) Hm) as [E L].
  split; [done|]. by apply unmarshal_reads; [apply TWAPEntry_reads|].
Qed.

End TimedLaws.

(** ** Lemmas: keys and pairs *)

Lemma sep_prefix (c : byte) (a b r : bytes) :
  c ∉ a -> c ∉ b -> (a ++ [c]) `prefix_of` (b ++ c :: r) -> a = b.
Proof.
  revert b; induction a as [|x a IH]; intros [|y b] Ha Hb [k Hk]; cbn in Hk.
  - done.
  - injection Hk as E _. set_solver.
  - injection Hk as E _. set_solver.
  - injection Hk as -> Hk. f_equal. apply IH; [set_solver|set_solver|by exists k].
Qed.

Lemma forallb_pair_char_sep l : forallb is_pair_char l = true -> "/"%byte ∉ l.
Proof.
  rewrite forallb_forall. intros H Hin. apply list_elem_of_In in Hin. by apply H in Hin.
Qed.

Lemma pair_part_chars l : pair_part l = true -> l <> [] /\ forallb is_pair_char l = true.
Proof. by destruct l. Qed.

Lemma split_at_app c b l r : split_at c b = (l, Some r) -> b = l ++ c :: r.
Proof.
  revert l; induction b as [|x b IH]; intros l; cbn; [done|].
  case_decide; [by intros [= <- <-]; subst|].
  destruct (split_at c b) as [l' r'] eqn:E. intros [= <- ->]. cbn. f_equal. by apply IH.
Qed.

(** An accepted pair is two non-empty symbols joined by a colon: in particular
    it has no slash. *)
Lemma pairRegex_spec s : pairRegex s = true ->
  exists l r, bytes_of s = l ++ ":"%byte :: r /\ l <> [] /\ r <> [] /\
              forallb is_pair_char l = true /\ forallb is_pair_char r = true.
Proof.
  unfold pairRegex. destruct (split_at _ _) as [l [r|]] eqn:E; [|done].
  intros [[Hl1 Hl2]%pair_part_chars [Hr1 Hr2]%pair_part_chars]%andb_true_iff.
  exists l, r. split_and!; try done. by apply split_at_app.
Qed.

Lemma pairRegex_no_slash s : pairRegex s = true -> "/"%byte ∉ bytes_of s.
Proof.
  intros (l & r & -> & _ & _ & Hl & Hr)%pairRegex_spec.
  apply forallb_pair_char_sep in Hl, Hr. set_solver.
Qed.

(** The samples of a pair are scanned under a prefix that no other accepted pair
    shares, although one pair can be a prefix of another. *)
Lemma TWAPPrefix_separates p q ts :
  pairRegex p = true -> pairRegex q = true ->
  TWAPPrefix p `prefix_of` TWAPKey q ts <-> p = q.
Proof.
  intros Hp%pairRegex_no_slash Hq%pairRegex_no_slash. unfold TWAPPrefix, TWAPKey. split.
  - rewrite <- !app_assoc. intros [k Hk]. apply (inj bytes_of).
    apply (sep_prefix "/"%byte _ _ (be64 (wrap64 ts))); [done|done|]. exists k.
    by injection Hk.
  - intros ->. by eexists.
Qed.

Section KeyLaws.
Context {BE : Bech32} {BEL : Bech32Laws}.

Lemma FeedKey_run val pair : addr_ok val ->
  FeedKey val pair = Ok (x01 :: byte_of_Z (Z.of_nat (length val)) :: val ++ "/"%byte :: bytes_of pair).
Proof.
  intros Hv. unfold FeedKey. rewrite length_prefix by done. cbn [mbind res_bind].
  by rewrite bytes_of_app.
Qed.

Lemma ParseFeedKey_FeedKey val pair k : addr_ok val ->
  FeedKey val pair = Ok k -> ParseFeedKey k = Ok (val, pair).
Proof.
  intros Hv. rewrite FeedKey_run by done. intros [= <-]. unfold ParseFeedKey.
  rewrite bool_decide_eq_false_2 by (cbn; rewrite ?length_app; cbn; destruct Hv; lia).
  rewrite bool_decide_eq_false_2 by (cbn; congruence). cbn [length KeyPrefixFeed drop].
  rewrite Z_of_byte_of_Z, Z.mod_small, Nat2Z.id by (destruct Hv; lia).
  rewrite bool_decide_eq_false_2 by (cbn; rewrite length_app; lia).
  replace (1 + length val)%nat with (S (length val)) by lia. cbn [drop].
  rewrite drop_app_length, drop_0, take_app_length, bool_decide_eq_true_2 by done.
  by rewrite string_of_bytes_of.
Qed.

Lemma FeedKey_inj v1 p1 v2 p2 : addr_ok v1 -> addr_ok v2 ->
  FeedKey v1 p1 = FeedKey v2 p2 -> v1 = v2 /\ p1 = p2.
Proof.
  intros H1 H2 E. pose proof (FeedKey_run v1 p1 H1) as E1. pose proof E1 as E2. rewrite E in E2.
  apply ParseFeedKey_FeedKey in E1, E2; [|done..]. rewrite E1 in E2. by injection E2.
Qed.

End KeyLaws.

Lemma PairAccepted_spec p pair : PairAccepted p pair = true <-> pair ∈ AcceptList p.
Proof.
  unfold PairAccepted. rewrite existsb_exists. split.
  - intros (x & Hx & E%bool_decide_eq_true). subst. by apply list_elem_of_In.
  - intros H. exists pair. split; [by apply list_elem_of_In|by apply bool_decide_eq_true].
Qed.

Lemma validate_pairs_spec seen l :
  validate_pairs seen l = Ok tt <->
  NoDup l /\ (forall p, p ∈ l -> p ∉ seen) /\ Forall (fun p => pairRegex p = true) l.
Proof.
  revert seen; induction l as [|p l IH]; intros seen; cbn [validate_pairs].
  - split; [intros _; split_and!; [constructor|set_solver|constructor]|done].
  - destruct (pairRegex p) eqn:E; cbn [negb].
    2: { split; [done|]. intros (_ & _ & H). inversion H. congruence. }
    case_bool_decide.
    + split; [done|]. intros (_ & H2 & _). set_solver.
    + rewrite IH, NoDup_cons, Forall_cons. set_solver.
Qed.

Lemma AcceptListChanged_spec p q : AcceptListChanged p q = false <-> AcceptList p = AcceptList q.
Proof.
  unfold AcceptListChanged. generalize (AcceptList p) as l, (AcceptList q) as l'. clear.
  induction l as [|a l IH]; intros [|b l']; cbn; try done. specialize (IH l').
  rewrite orb_false_iff, negb_false_iff, bool_decide_eq_true in IH.
  rewrite !orb_false_iff, !negb_false_iff, !bool_decide_eq_true.
  split.
  - intros ([= E1] & -> & E2). f_equal. by apply IH.
  - intros [= -> ->]. destruct IH as [_ IH]. specialize (IH eq_refl) as [? ?]. by split_and!.
Qed.

Section ParamLaws.
Context {SM : SdkMath} {SML : SdkMathLaws}.

Lemma validateDecOpenClosed_spec s :
  validateDecOpenClosed s = Ok tt <-> exists d, LegacyNewDecFromStr s = Ok d /\ 0 < d <= dec_one.
Proof.
  unfold validateDecOpenClosed, LegacyZeroDec, LegacyOneDec.
  destruct (LegacyNewDecFromStr s) as [d| |] eqn:E; cbn [mbind res_bind wrap_err]; [|naive_solver..].
  destruct ((d <=? 0) || (dec_one <? d)) eqn:C; split; try done; try (intros (d' & [= <-] & H)); try lia.
  intros _. exists d. split; [done|lia].
Qed.

Lemma validateSlashRate_spec s :
  validateSlashRate s = Ok tt <-> exists d, LegacyNewDecFromStr s = Ok d /\ 0 <= 20 * d < dec_one.
Proof.
  unfold validateSlashRate, LegacyNewDecWithPrec.
  destruct (LegacyNewDecFromStr s) as [d| |] eqn:E; cbn [mbind res_bind wrap_err]; [|naive_solver..].
  change (5 * 10 ^ (18 - 2)) with 50000000000000000. unfold dec_one.
  destruct ((d <? 0) || _) eqn:C; split; try done; try (intros (d' & [= <-] & H)); try lia.
  intros _. exists d. split; [done|lia].
Qed.

(** What [Validate] accepts. *)
Lemma OracleParams_Validate_spec p :
  Validate p = Ok tt <->
  0 < VoteWindow p /\ 0 < MissWindowSize p /\ 0 < MaxPriceAge p /\
  (forall s, s ∈ [MissThreshold p; OutlierThreshold p; QuorumFraction p] ->
     exists d, LegacyNewDecFromStr s = Ok d /\ 0 < d <= dec_one) /\
  (forall s, s ∈ [MissSlashRate p; OutlierSlashRate p] ->
     exists d, LegacyNewDecFromStr s = Ok d /\ 0 <= 20 * d < dec_one) /\
  AcceptList p <> [] /\ NoDup (AcceptList p) /\ Forall (fun p => pairRegex p = true) (AcceptList p).
Proof.
  unfold Validate.
  destruct (Z.leb_spec (VoteWindow p) 0); [split; [done|lia]|].
  destruct (Z.leb_spec (MissWindowSize p) 0); [split; [done|lia]|].
  destruct (Z.leb_spec (MaxPriceAge p) 0); [split; [done|lia]|].
  rewrite !seq_unit_Ok, !validateDecOpenClosed_spec, !validateSlashRate_spec.
  assert (match AcceptList p with [] => Err ErrInvalidParams | l => validate_pairs ∅ l end
          = Ok tt <-> AcceptList p <> [] /\ NoDup (AcceptList p) /\
                      Forall (fun p => pairRegex p = true) (AcceptList p)) as ->.
  { destruct (AcceptList p) as [|a l]; [naive_solver|]. rewrite validate_pairs_spec.
    split; [naive_solver|]. intros (_ & H3 & H4). split_and!; [done|set_solver|done]. }
  split.
  - intros (HA & HB & HC & HD & HE & HF).
    split_and!; try done; try apply HF; intros s Hs; rewrite !elem_of_cons, elem_of_nil in Hs; naive_solver.
  - intros (_ & _ & _ & HA & HB & HC).
    split_and!; first [apply HA; set_solver|apply HB; set_solver|apply HC].
Qed.

End ParamLaws.
