(* ===== verification/OracleAgg.v ===== *)
(** * x/oracle: aggregation

    The medians and the quorum test of keeper/aggregate.go, and what they
    compute. *)

From S2P Require Import Prelude Sdk SdkRef.

Open Scope Z_scope.

(** [sort.Slice(l, less)]: a permutation of [l] in which no element is [less] than
    an earlier one. Which of several such permutations it produces is not
    specified; [scan_unique] and [UnweightedMedian_unique] below show that the
    medians do not depend on it. *)
Definition sort_le {A} (less : A -> A -> bool) (a b : A) : Prop := less b a = false.

#[global] Instance sort_le_dec {A} (less : A -> A -> bool) : RelDecision (sort_le less).
Proof. intros a b. unfold sort_le. apply _. Defined.

Definition sort_slice {A} (less : A -> A -> bool) (l : list A) : list A :=
  merge_sort (sort_le less) l.

Record WeightedPrice : Type := mkWeightedPrice { Price : Z; Weight : Z; Valoper : string }.

Definition wp_less (a b : WeightedPrice) : bool :=
  if Price a =? Price b then bytes_ltb (bytes_of (Valoper a)) (bytes_of (Valoper b))
  else Price a <? Price b.

(** [total += e.Weight] over the entries, in [int64]. *)
Definition total_weight (l : list WeightedPrice) : Z :=
  foldl (fun total e => wrap64 (total + Weight e)) 0 l.

Fixpoint median_scan (half cum : Z) (l : list WeightedPrice) : Z :=
  match l with
  | [] => LegacyZeroDec
  | e :: l => let cum := wrap64 (cum + Weight e) in
              if half <=? cum then Price e else median_scan half cum l
  end.

Definition WeightedMedian (entries : list WeightedPrice) : Z :=
  let entries := sort_slice wp_less entries in
  let half := Z.quot (total_weight entries) 2 in
  median_scan half 0 entries.

Definition UnweightedMedian (prices : list Z) : Z :=
  let prices := sort_slice Z.ltb prices in
  match prices with
  | [] => LegacyZeroDec
  | _ => nth ((length prices - 1) / 2) prices LegacyZeroDec
  end.

(** [i.Int64()] panics when [i] does not fit. *)
Definition Int64 (i : Z) : res Z := if is_int64 i then Ok i else Panic.

Definition QuorumMet {SM : SdkMath} (submittedPower totalPower quorumFraction : Z) : res bool :=
  if totalPower =? 0 then Ok false else
  s ← Int64 submittedPower;
  t ← Int64 totalPower;
  ratio ← DecQuo (LegacyNewDec s) (LegacyNewDec t);
  Ok (negb (ratio <? quorumFraction)).

(** ** The weighted median *)

(** The weight of the entries that satisfy [P]. *)
Definition weight_of (P : Z -> bool) (l : list WeightedPrice) : Z :=
  foldr (fun e acc => (if P (Price e) then Weight e else 0) + acc) 0 l.

Definition weight_all : list WeightedPrice -> Z := weight_of (fun _ => true).

(** Positive weights whose sum is an [int64]. *)
Definition weights_ok (l : list WeightedPrice) : Prop :=
  Forall (fun e => 0 < Weight e) l /\ weight_all l < two63.

Lemma weight_all_cons e l : weight_all (e :: l) = Weight e + weight_all l.
Proof. done. Qed.

Lemma weight_of_perm P l l' : l ≡ₚ l' -> weight_of P l = weight_of P l'.
Proof. unfold weight_of. induction 1; cbn in *; lia. Qed.

Lemma weight_of_app P l l' : weight_of P (l ++ l') = weight_of P l + weight_of P l'.
Proof. unfold weight_of. induction l; cbn in *; lia. Qed.

Lemma weight_of_nonneg P l : Forall (fun e => 0 < Weight e) l -> 0 <= weight_of P l.
Proof. unfold weight_of. induction 1; cbn; [done|]. destruct (P _); lia. Qed.

Lemma weight_of_mono P Q l : Forall (fun e => 0 < Weight e) l ->
  (forall e, e ∈ l -> P (Price e) = true -> Q (Price e) = true) -> weight_of P l <= weight_of Q l.
Proof.
  unfold weight_of. induction 1 as [|e l He HF IH]; cbn; intros H; [done|].
  assert (weight_of P l <= weight_of Q l) as Hl by (apply IH; set_solver). unfold weight_of in Hl.
  specialize (H e ltac:(left)). destruct (P (Price e)), (Q (Price e)); lia.
Qed.

Lemma weight_of_split P l :
  weight_all l = weight_of P l + weight_of (fun x => negb (P x)) l.
Proof. unfold weight_all, weight_of. induction l as [|e l IH]; cbn in *; [done|]. destruct (P _); cbn; lia. Qed.

Lemma weight_of_all P l : (forall e, e ∈ l -> P (Price e) = true) -> weight_of P l = weight_all l.
Proof.
  unfold weight_all, weight_of. induction l as [|e l IH]; cbn; intros H; [done|].
  rewrite (H e) by left. rewrite IH by set_solver. done.
Qed.

Lemma weight_of_none P l : (forall e, e ∈ l -> P (Price e) = false) -> weight_of P l = 0.
Proof.
  unfold weight_of. induction l as [|e l IH]; cbn; intros H; [done|].
  rewrite (H e) by left. rewrite IH by set_solver. done.
Qed.

Lemma total_weight_sum l : weights_ok l -> total_weight l = weight_all l.
Proof.
  unfold total_weight. intros [Hpos Hsum].
  assert (forall acc, 0 <= acc -> acc + weight_all l < two63 ->
    foldl (fun total e => wrap64 (total + Weight e)) acc l = acc + weight_all l) as H.
  { clear Hsum. induction Hpos as [|e l He HF IH]; intros acc Ha Hs; [cbn; lia|].
    rewrite weight_all_cons in *. cbn [foldl].
    pose proof (weight_of_nonneg (fun _ => true) l HF) as Hn. fold (weight_all l) in Hn.
    rewrite wrap64_id by (unfold two63 in *; lia). rewrite IH by lia. lia. }
  rewrite H; lia.
Qed.

(** [m] splits the weights at [half]: less than [half] lies strictly below it,
    at least [half] at or below it. *)
Definition splits (half : Z) (l : list WeightedPrice) (m : Z) : Prop :=
  (exists e, e ∈ l /\ Price e = m) /\
  weight_of (fun p => p <? m) l < half /\ half <= weight_of (fun p => p <=? m) l.

Lemma splits_unique half l m m' : Forall (fun e => 0 < Weight e) l ->
  splits half l m -> splits half l m' -> m = m'.
Proof.
  intros Hpos (_ & A1 & A2) (_ & B1 & B2).
  assert (forall x y, x < y -> weight_of (fun p => p <=? x) l <= weight_of (fun p => p <? y) l) as Hm.
  { intros x y Hxy. apply weight_of_mono; [done|]. intros e _. lia. }
  destruct (Z.lt_trichotomy m m') as [H|[H|H]]; [|done|]; specialize (Hm _ _ H); lia.
Qed.

Lemma splits_perm half l l' m : l ≡ₚ l' -> splits half l m -> splits half l' m.
Proof.
  intros Hp ((e & He & Em) & A1 & A2). split_and!.
  - exists e. split; [by rewrite <- Hp|done].
  - by rewrite <- (weight_of_perm _ _ _ Hp).
  - by rewrite <- (weight_of_perm _ _ _ Hp).
Qed.

(** On any list sorted by price, the scan stops at the price that splits it. *)
Lemma median_scan_splits l half :
  StronglySorted (fun a b => Price a <= Price b) l -> weights_ok l ->
  0 < half <= weight_all l -> splits half l (median_scan half 0 l).
Proof.
  intros HS [Hpos Hsum] Hhalf.
  assert (forall pre post, l = pre ++ post -> weight_all pre < half ->
            splits half l (median_scan half (weight_all pre) post)) as H; [|apply (H [] l); [done|unfold weight_all, weight_of; cbn; lia]].
  intros pre post. revert pre. induction post as [|e post IH]; intros pre El Hpre.
  { rewrite app_nil_r in El. subst. lia. }
  cbn [median_scan]. subst l. apply Forall_app in Hpos as Hpos'. destruct Hpos' as [Hp1 Hp2].
  apply Forall_cons in Hp2 as [He Hp2].
  assert (weight_all (pre ++ e :: post) = weight_all pre + Weight e + weight_all post) as Ew.
  { unfold weight_all. rewrite weight_of_app. unfold weight_of. cbn. lia. }
  pose proof (weight_of_nonneg (fun _ => true) pre Hp1) as N1. fold (weight_all pre) in N1.
  pose proof (weight_of_nonneg (fun _ => true) post Hp2) as N2. fold (weight_all post) in N2.
  rewrite wrap64_id by (unfold two63 in *; lia).
  assert (weight_all (pre ++ [e]) = weight_all pre + Weight e) as Es.
  { unfold weight_all. rewrite weight_of_app. unfold weight_of. cbn. lia. }
  destruct (Z.leb_spec half (weight_all pre + Weight e)) as [Hge|Hlt].
  - apply StronglySorted_app in HS as (Hcross & _ & HSp).
    apply StronglySorted_inv in HSp as [_ HF]. rewrite Forall_forall in HF.
    split_and!; [exists e; set_solver| |].
    + rewrite weight_of_app. rewrite (weight_of_none _ (e :: post)).
      * pose proof (weight_of_mono (fun p => p <? Price e) (fun _ => true) pre Hp1 ltac:(done)) as Hm.
        fold (weight_all pre) in Hm. lia.
      * intros x Hx. apply elem_of_cons in Hx as [->|Hx]; [lia|]. specialize (HF x Hx). lia.
    + change (e :: post) with ([e] ++ post). rewrite app_assoc, weight_of_app.
      rewrite (weight_of_all _ (pre ++ [e])).
      * pose proof (weight_of_nonneg (fun p => p <=? Price e) post Hp2). lia.
      * intros x [Hx|Hx]%elem_of_app; [specialize (Hcross x e Hx ltac:(left)); lia|].
        apply list_elem_of_singleton in Hx as ->. lia.
  - rewrite <- Es. apply IH; [by rewrite <- app_assoc|lia].
Qed.

#[global] Instance wp_le_total : Total (sort_le wp_less).
Proof.
  intros a b. unfold sort_le, wp_less.
  destruct (Z.eqb_spec (Price a) (Price b)) as [E|E], (Z.eqb_spec (Price b) (Price a)) as [E'|E']; try lia.
  destruct (bytes_ltb (bytes_of (Valoper b)) _) eqn:C; [right; by apply bytes_ltb_asym|by left].
Qed.

#[global] Instance wp_le_trans : Transitive (sort_le wp_less).
Proof.
  intros a b c. unfold sort_le, wp_less.
  destruct (Z.eqb_spec (Price b) (Price a)), (Z.eqb_spec (Price c) (Price b)),
    (Z.eqb_spec (Price c) (Price a)); intros H1 H2; try lia.
  pose proof (bytes_leb_trans (bytes_of (Valoper a)) (bytes_of (Valoper b)) (bytes_of (Valoper c))) as H.
  unfold bytes_leb in H. rewrite !negb_true_iff in H. auto.
Qed.

Lemma wp_le_price a b : sort_le wp_less a b -> Price a <= Price b.
Proof. unfold sort_le, wp_less. destruct (Z.eqb_spec (Price b) (Price a)); lia. Qed.

Lemma StronglySorted_weaken {A} (R S : relation A) l :
  (forall a b, R a b -> S a b) -> StronglySorted R l -> StronglySorted S l.
Proof.
  intros H. induction 1 as [|x l HS IH HF]; constructor; [done|]. eapply Forall_impl; eauto.
Qed.

Lemma sort_wp_sorted l : StronglySorted (fun a b => Price a <= Price b) (sort_slice wp_less l).
Proof.
  eapply StronglySorted_weaken; [apply wp_le_price|]. apply StronglySorted_merge_sort; apply _.
Qed.

Lemma weights_ok_perm l l' : l ≡ₚ l' -> weights_ok l -> weights_ok l'.
Proof.
  intros Hp [H1 H2]. split; [by rewrite <- Hp|]. unfold weight_all. by rewrite <- (weight_of_perm _ _ _ Hp).
Qed.

Lemma sort_slice_perm {A} (less : A -> A -> bool) l : sort_slice less l ≡ₚ l.
Proof. apply merge_sort_Permutation. Qed.

Lemma WeightedMedian_splits l : weights_ok l -> 2 <= weight_all l ->
  splits (weight_all l / 2) l (WeightedMedian l).
Proof.
  intros Hok Hge. unfold WeightedMedian. cbn zeta.
  pose proof (sort_slice_perm wp_less l) as Hp.
  assert (weights_ok (sort_slice wp_less l)) as Hok' by (by apply (weights_ok_perm l)).
  rewrite total_weight_sum by done.
  assert (weight_all (sort_slice wp_less l) = weight_all l) as E by (by apply weight_of_perm).
  rewrite E, Z.quot_div_nonneg by lia.
  apply (splits_perm _ _ _ _ Hp). apply median_scan_splits; [apply sort_wp_sorted|done|].
  rewrite E. pose proof (Z.div_le_upper_bound (weight_all l) 2 (weight_all l)).
  pose proof (Z.div_le_lower_bound (weight_all l) 2 1). lia.
Qed.

(** The scan returns one of the prices, whatever the total. *)
Lemma median_scan_elem half cum l : l <> [] -> Forall (fun e => 0 < Weight e) l ->
  0 <= cum -> cum + weight_all l < two63 -> half <= cum + weight_all l ->
  exists e, e ∈ l /\ Price e = median_scan half cum l.
Proof.
  intros Hne HF. revert cum. induction HF as [|e l He HF IH]; intros cum Hc Hs Hh; [done|].
  rewrite weight_all_cons in Hs, Hh. pose proof (weight_of_nonneg (fun _ => true) l HF) as Hn.
  fold (weight_all l) in Hn. cbn [median_scan]. rewrite wrap64_id by (unfold two63 in *; lia).
  destruct (Z.leb_spec half (cum + Weight e)) as [|Hlt]; [exists e; split; [left|done]|].
  destruct l as [|e' l]; [unfold weight_all, weight_of in Hh; cbn in Hh; lia|].
  destruct (IH ltac:(done) (cum + Weight e)) as (x & Hx & E); [lia..|].
  exists x. split; [by right|done].
Qed.

Lemma WeightedMedian_elem l : l <> [] -> weights_ok l -> exists e, e ∈ l /\ Price e = WeightedMedian l.
Proof.
  intros Hne Hok. pose proof (sort_slice_perm wp_less l) as Hp.
  pose proof (weights_ok_perm _ _ (symmetry Hp) Hok) as Hok'.
  destruct (median_scan_elem (Z.quot (total_weight (sort_slice wp_less l)) 2) 0 (sort_slice wp_less l)) as (e & He & E).
  - intros E. rewrite E in Hp. by apply Permutation_nil_l in Hp.
  - apply Hok'.
  - done.
  - apply Hok'.
  - rewrite total_weight_sum by done. pose proof (weight_of_nonneg (fun _ => true) _ (proj1 Hok')) as Hn.
    fold (weight_all (sort_slice wp_less l)) in Hn.
    rewrite Z.quot_div_nonneg by lia. apply Z.div_le_upper_bound; lia.
  - exists e. split; [by rewrite <- Hp|done].
Qed.

Lemma UnweightedMedian_elem l : l <> [] -> UnweightedMedian l ∈ l.
Proof.
  intros Hne. pose proof (sort_slice_perm Z.ltb l) as Hp. unfold UnweightedMedian.
  destruct (sort_slice Z.ltb l) as [|x s] eqn:E; [by apply Permutation_nil_l in Hp|].
  cbv zeta. rewrite <- Hp. apply list_elem_of_In, nth_In. apply Nat.Div0.div_lt_upper_bound. cbn [length]. lia.
Qed.

(** Whatever order [sort.Slice] leaves entries of equal price in, the scan
    returns the same price. *)
Lemma scan_unique l l' : weights_ok l -> 2 <= weight_all l -> l' ≡ₚ l ->
  StronglySorted (fun a b => Price a <= Price b) l' ->
  median_scan (Z.quot (total_weight l') 2) 0 l' = WeightedMedian l.
Proof.
  intros Hok Hge Hp HS. pose proof (weights_ok_perm l l' ltac:(done) Hok) as Hok'.
  assert (weight_all l' = weight_all l) as E by (by apply weight_of_perm).
  rewrite total_weight_sum, E, Z.quot_div_nonneg by (done || lia).
  apply (splits_unique (weight_all l / 2) l); [apply Hok| |by apply WeightedMedian_splits].
  apply (splits_perm _ _ _ _ Hp). apply median_scan_splits; [done|done|].
  rewrite E. pose proof (Z.div_le_upper_bound (weight_all l) 2 (weight_all l)).
  pose proof (Z.div_le_lower_bound (weight_all l) 2 1). lia.
Qed.

(** C11: the published price is one of the submitted prices, at most half of the
    submitted power lies strictly below it, and at most half of it (rounded up)
    strictly above it; and it does not depend on the order of the feeds. *)
Theorem WeightedMedian_median l : weights_ok l -> 2 <= weight_all l ->
  let m := WeightedMedian l in
  (exists e, e ∈ l /\ Price e = m) /\
  2 * weight_of (fun p => p <? m) l < weight_all l /\
  2 * weight_of (fun p => m <? p) l <= weight_all l + 1 /\
  (forall l', l ≡ₚ l' -> WeightedMedian l' = m).
Proof.
  intros Hok Hge m. destruct (WeightedMedian_splits l Hok Hge) as (He & A1 & A2). fold m in He, A1, A2.
  pose proof (Z.div_mod (weight_all l) 2 ltac:(lia)). pose proof (Z.mod_pos_bound (weight_all l) 2 ltac:(lia)).
  split_and!; [done|lia| |].
    assert (weight_of (fun p => m <? p) l = weight_of (fun x => negb (x <=? m)) l) as ->.
    { apply Z.le_antisymm; apply weight_of_mono; try apply Hok; intros e _; lia. }
    pose proof (weight_of_split (fun p => p <=? m) l) as Hs. cbv beta in Hs. lia.
  - intros l' Hp. pose proof (weights_ok_perm l l' Hp Hok) as Hok'.
    assert (weight_all l' = weight_all l) as E by (by apply weight_of_perm).
    apply (splits_unique (weight_all l / 2) l'); [apply Hok'| |by apply (splits_perm _ l)].
    rewrite <- E. apply WeightedMedian_splits; [done|lia].
Qed.

(** C12: manipulation resistance, exactly. Let [half] be half of the submitted power,
    rounded down. The published price lies in a band if and only if the feeds below
    the band hold less than [half] and the feeds above it hold at most the rest,
    [total - half]: whoever controls less than [half] of the power cannot move the
    price out of a band that contains all the other feeds, and with an odd total just
    under half of it can pull the price down ([WeightedMedian_odd_total]). *)
Theorem WeightedMedian_resists l lo hi : weights_ok l -> 2 <= weight_all l ->
  let half := weight_all l / 2 in
  lo <= WeightedMedian l <= hi <->
  weight_of (fun p => p <? lo) l < half /\ weight_of (fun p => hi <? p) l <= weight_all l - half.
Proof.
  intros Hok Hge half. destruct (WeightedMedian_splits l Hok Hge) as (_ & A1 & A2).
  set (m := WeightedMedian l) in *. fold half in A1, A2.
  pose proof (fun P Q H => weight_of_mono P Q l (proj1 Hok) H) as Hmono.
  assert (weight_of (fun p => hi <? p) l = weight_of (fun x => negb (x <=? hi)) l) as ->.
  { apply Z.le_antisymm; apply Hmono; intros e _; lia. }
  pose proof (weight_of_split (fun p => p <=? hi) l) as Hs. cbv beta in Hs.
  split.
  - intros [Hlo Hhi].
    pose proof (Hmono (fun p => p <? lo) (fun p => p <? m) ltac:(intros e _; cbv beta; lia)).
    pose proof (Hmono (fun p => p <=? m) (fun p => p <=? hi) ltac:(intros e _; cbv beta; lia)). lia.
  - intros [Hlo Hhi]. split.
    + destruct (Z.le_gt_cases lo m) as [|Hlt]; [done|].
      pose proof (Hmono (fun p => p <=? m) (fun p => p <? lo) ltac:(intros e _; cbv beta; lia)). lia.
    + destruct (Z.le_gt_cases m hi) as [|Hgt]; [done|].
      pose proof (Hmono (fun p => p <=? hi) (fun p => p <? m) ltac:(intros e _; cbv beta; lia)). lia.
Qed.

(** ** The unweighted median *)

Definition count (P : Z -> bool) (l : list Z) : nat := length (filter (fun x => P x = true) l).

Lemma count_perm P l l' : l ≡ₚ l' -> count P l = count P l'.
Proof. intros Hp. unfold count. by rewrite Hp. Qed.

Lemma count_app P l l' : count P (l ++ l') = (count P l + count P l')%nat.
Proof. unfold count. by rewrite filter_app, length_app. Qed.

Lemma count_mono P Q l : (forall x, x ∈ l -> P x = true -> Q x = true) -> (count P l <= count Q l)%nat.
Proof.
  unfold count. induction l as [|x l IH]; intros H; [done|]. rewrite !filter_cons.
  pose proof (H x ltac:(left)). specialize (IH ltac:(set_solver)).
  repeat case_decide; cbn; try lia. naive_solver.
Qed.

Lemma count_le P l : (count P l <= length l)%nat.
Proof. unfold count. apply length_filter. Qed.

Lemma count_all P l : (forall x, x ∈ l -> P x = true) -> count P l = length l.
Proof.
  unfold count. induction l as [|x l IH]; intros H; [done|].
  rewrite filter_cons, decide_True by (apply H; left). cbn. rewrite IH; [done|set_solver].
Qed.

Lemma count_none P l : (forall x, x ∈ l -> P x = false) -> count P l = 0%nat.
Proof.
  unfold count. induction l as [|x l IH]; intros H; [done|].
  rewrite filter_cons, decide_False by (rewrite (H x ltac:(left)); done). apply IH. set_solver.
Qed.

#[global] Instance zle_total : Total (sort_le Z.ltb).
Proof. intros a b. unfold sort_le. rewrite !Z.ltb_ge. lia. Qed.
#[global] Instance zle_trans : Transitive (sort_le Z.ltb).
Proof. intros a b c. unfold sort_le. rewrite !Z.ltb_ge. lia. Qed.

(** The [k]-th element of a sorted list, by counting. *)
Lemma sorted_nth_count l k d : StronglySorted (fun a b => a <= b) l -> (k < length l)%nat ->
  let m := nth k l d in
  m ∈ l /\ (count (fun p => (p <? m)%Z) l <= k)%nat /\ (k < count (fun p => (p <=? m)%Z) l)%nat.
Proof.
  intros HS Hk m. destruct (nth_split l d Hk) as (l1 & l2 & El & Hl1). fold m in El.
  rewrite El in HS |- *. apply StronglySorted_app in HS as (Hc & _ & HSp).
  apply StronglySorted_inv in HSp as [_ HF]. rewrite Forall_forall in HF.
  split_and!; [set_solver| |].
  - rewrite count_app, (count_none _ (m :: l2)); [pose proof (count_le (fun p => p <? m) l1); lia|].
    intros x [->|Hx]%elem_of_cons; [lia|]. specialize (HF x Hx). lia.
  - change (m :: l2) with ([m] ++ l2). rewrite app_assoc, count_app, (count_all _ (l1 ++ [m])).
    + rewrite length_app. cbn. lia.
    + intros x [Hx|Hx]%elem_of_app; [specialize (Hc x m Hx ltac:(left)); lia|].
      apply list_elem_of_singleton in Hx as ->. lia.
Qed.

(** The reference price of the outlier band is the lower median: for a
    non-empty list of [n] prices it is one of them, at most [(n-1)/2] are
    strictly below it and at most [n/2] strictly above it; no other value has
    these counts, so the order of the feeds does not matter. *)
Theorem UnweightedMedian_median l : l <> [] ->
  let m := UnweightedMedian l in let k := ((length l - 1) / 2)%nat in
  m ∈ l /\ (count (fun p => (p <? m)%Z) l <= k)%nat /\ (count (fun p => (m <? p)%Z) l < length l - k)%nat /\
  (forall m', (count (fun p => (p <? m')%Z) l <= k < count (fun p => (p <=? m')%Z) l)%nat -> m' = m).
Proof.
  intros Hne m k. pose proof (sort_slice_perm Z.ltb l) as Hp.
  assert (length l <> 0)%nat as Hlen by (by destruct l).
  assert (k < length l)%nat as Hk by (unfold k; apply Nat.Div0.div_lt_upper_bound; lia).
  assert (m = nth k (sort_slice Z.ltb l) LegacyZeroDec) as Em.
  { unfold m, UnweightedMedian, k. pose proof (Permutation_length Hp) as El. rewrite <- El.
    destruct (sort_slice Z.ltb l) eqn:E; [|done]. by apply Permutation_nil_l in Hp. }
  destruct (sorted_nth_count (sort_slice Z.ltb l) k LegacyZeroDec) as (M1 & M2 & M3).
  { eapply StronglySorted_weaken; [|apply StronglySorted_merge_sort; apply _].
    intros a b. unfold sort_le. rewrite Z.ltb_ge. done. }
  { by rewrite Hp. }
  rewrite <- Em in M1, M2, M3. rewrite (count_perm _ _ _ Hp) in M2. rewrite (count_perm _ _ _ Hp) in M3. rewrite Hp in M1.
  assert (forall x, count (fun p => (p <=? x)%Z) l + count (fun p => (x <? p)%Z) l = length l)%nat as Hsplit.
  { intros x. clear. unfold count. induction l as [|y l IH]; [done|]. rewrite !filter_cons.
    repeat case_decide; cbn; lia. }
  split_and!; [done|done|specialize (Hsplit m); lia|].
  intros m' [B1 B2].
  assert (forall x y, (x < y)%Z -> count (fun p => (p <=? x)%Z) l <= count (fun p => (p <? y)%Z) l)%nat as Hm.
  { intros x y Hxy. apply count_mono. lia. }
  destruct (Z.lt_trichotomy m' m) as [H|[H|H]]; [|done|]; specialize (Hm _ _ H); lia.
Qed.

(** ** The quorum *)

(** The ratio is the share rounded to 18 places, computed without overflow. *)
Lemma QuorumMet_ratio {SM : SdkMath} {SML : SdkMathLaws} s t q :
  0 <= s <= t -> 0 < t < two63 ->
  exists c, QuorumMet s t q = Ok (negb (c <? q)) /\ nearest c (s * dec_one * dec_one / t) dec_one.
Proof.
  intros Hs Ht. unfold QuorumMet. destruct (Z.eqb_spec t 0) as [|Hnz]; [lia|].
  assert (forall i, 0 <= i <= t -> Int64 i = Ok i) as HI.
  { intros i Hi. unfold Int64. replace (is_int64 i) with true; [done|].
    symmetry. apply is_int64_spec. unfold two63 in *. lia. }
  rewrite !HI by lia. cbn [mbind res_bind]. unfold LegacyNewDec.
  set (x := s * dec_one * dec_one / t).
  assert (Z.quot (s * dec_one * dec_one * dec_one) (t * dec_one) = x) as Ex.
  { rewrite Z.quot_div_nonneg by (unfold dec_one; lia). unfold x.
    rewrite Z.div_mul_cancel_r by (unfold dec_one; lia). done. }
  assert (0 <= x <= dec_one * dec_one) as Hx.
  { unfold x. split; [apply Z.div_pos; unfold dec_one; lia|].
    apply Z.div_le_upper_bound; unfold dec_one; nia. }
  destruct (dec_quo_total (s * dec_one) (t * dec_one)) as (c & Ec).
  { unfold dec_one. lia. }
  { rewrite Ex. unfold dec_limit, dec_one in *. lia. }
  exists c. rewrite Ec. apply dec_quo_nearest in Ec as [_ Hc]. by rewrite Ex in Hc.
Qed.

(** A quorum is declared when the submitted share reaches the fraction, and
    is not declared when the share is below it by half a unit of the 18th
    decimal place or more; the test is total on consensus powers. *)
Theorem QuorumMet_spec {SM : SdkMath} {SML : SdkMathLaws} s t q :
  0 <= s <= t -> t < two63 -> 0 < q <= dec_one ->
  exists b, QuorumMet s t q = Ok b /\
    (0 < t -> q * t <= s * dec_one -> b = true) /\
    (2 * (s * dec_one) < (2 * q - 1) * t -> b = false) /\ (t = 0 -> b = false).
Proof.
  intros Hs Ht Hq. destruct (Z.eq_dec t 0) as [->|Hnz].
  { exists false. split_and!; [done|lia|done|done]. }
  destruct (QuorumMet_ratio s t q Hs ltac:(lia)) as (c & E & Hc).
  exists (negb (c <? q)). split; [done|].
  pose proof (Z.div_mod (s * dec_one * dec_one) t Hnz) as Hdm.
  pose proof (Z.mod_pos_bound (s * dec_one * dec_one) t ltac:(lia)) as Hmb.
  set (x := s * dec_one * dec_one / t) in *.
  set (r := (s * dec_one * dec_one) mod t) in *. clearbody x r.
  unfold nearest, dec_one in *. split_and!; [| |done].
  - intros _ Hle. apply negb_true_iff, Z.ltb_ge.
    destruct (Z.le_gt_cases q c) as [|Hlt]; [done|]. exfalso. nia.
  - intros Hlt. apply negb_false_iff, Z.ltb_lt.
    destruct (Z.le_gt_cases q c) as [Hge|]; [|done]. exfalso. nia.
Qed.

(** ** Concrete inputs *)

Definition ref_feeds : list WeightedPrice :=
  [mkWeightedPrice 300 10 "c"; mkWeightedPrice 100 20 "a"; mkWeightedPrice 200 25 "b"].

Lemma WeightedMedian_median_witness :
  WeightedMedian ref_feeds = 200 /\ WeightedMedian (rev ref_feeds) = WeightedMedian ref_feeds.
Proof.
  split; [vm_compute; reflexivity|].
  destruct (WeightedMedian_median ref_feeds) as (_ & _ & _ & H).
  - split; [repeat constructor|vm_compute; reflexivity].
  - vm_compute; discriminate.
  - apply H. apply Permutation_rev.
Defined.

Lemma WeightedMedian_resists_witness : 150 <= WeightedMedian ref_feeds <= 350.
Proof.
  apply (WeightedMedian_resists ref_feeds 150 350).
  - split; [repeat constructor|vm_compute; reflexivity].
  - vm_compute; discriminate.
  - split; vm_compute; congruence.
Defined.

Lemma UnweightedMedian_median_witness : UnweightedMedian [40; 10; 30; 20] ∈ [40; 10; 30; 20].
Proof. apply (UnweightedMedian_median [40; 10; 30; 20]). discriminate. Defined.

Lemma QuorumMet_spec_witness : exists b, QuorumMet 66 99 (666 * 10 ^ 15) = Ok b /\ b = true.
Proof.
  destruct (QuorumMet_spec 66 99 (666 * 10 ^ 15)) as (b & E & H & _).
  - lia.
  - unfold two63; lia.
  - unfold dec_one; lia.
  - exists b. split; [exact E|]. apply H; unfold dec_one; lia.
Defined.

(** With three validators of equal power the scan stops at the first one: half of
    3 is rounded to 1, so two thirds of the power lie above the result. *)
Lemma WeightedMedian_odd_total :
  let l := [mkWeightedPrice 1 1 "a"; mkWeightedPrice 2 1 "b"; mkWeightedPrice 3 1 "c"] in
  WeightedMedian l = 1 /\ UnweightedMedian (Price <$> l) = 2 /\
  2 * weight_of (fun p => p <? 2) l < weight_all l /\ 2 * weight_of (fun p => 1 <? p) l > weight_all l.
Proof. split_and!; vm_compute; reflexivity. Qed.
