(* ===== verification/OracleKeeper.v ===== *)
(** * x/oracle: the keeper

    The store operations (keeper/keeper.go), feeder delegations
    (keeper/feeder.go), time-weighted averages (keeper/twap.go), the message
    server (keeper/msg_server.go), queries (keeper/grpc_query.go), genesis
    (keeper/genesis.go) and the crisis invariant (keeper/invariants.go). The
    end-blocker is in [OracleEndBlock]. *)

From S2P Require Import Prelude Sdk World SdkRef Wire OracleTypes OracleAgg.

Open Scope Z_scope.

(** The fields of the keeper that the methods read; [stakingKeeper] is an
    interface that may be nil. *)
Record Keeper : Type := mkKeeper { authority : string; stakingKeeper : bool }.

Definition GetAuthority (k : Keeper) : string := authority k.

Section Oracle.
Context {St X : Type} {KV : KVStore St} {SM : SdkMath} {BE : Bech32} {T : StdTime}
        {SK : StakingKeeper X}.
Local Abbreviation W := (world St X).

(** ** keeper/keeper.go *)

Definition GetParams (w : W) : res OracleParams :=
  bz ← st_get OracleKey KeyParams w;
  match bz with
  | None => Ok DefaultParams
  | Some bz => MustUnmarshal bz
  end.

Definition SetParams (p : OracleParams) : M W unit :=
  _ ← lift (Validate p);
  bz ← lift (Marshal p);
  st_set OracleKey KeyParams bz.

(** A random bonded validator; [intn] is [r.Intn]. *)
Definition BondedValidator (k : Keeper) (intn : Z -> Z) (w : W) : option Validator :=
  if negb (stakingKeeper k) then None else
  match GetBondedValidatorsByPower (w_ext w) with
  | Ok vals => match vals with
               | [] => None
               | _ => nth_error vals (Z.to_nat (intn (Z.of_nat (length vals))))
               end
  | _ => None
  end.

Definition SetAggregatedPrice (ap : AggregatedPrice) : M W unit :=
  bz ← lift (Marshal ap);
  st_set OracleKey (AggregatedPriceKey (ap_Pair ap)) bz.

Definition GetAggregatedPrice (pair : string) (w : W) : res AggregatedPrice :=
  params ← GetParams w;
  if negb (PairAccepted params pair) then Err ErrPairNotAccepted else
  bz ← st_get OracleKey (AggregatedPriceKey pair) w;
  match bz with
  | None => Err ErrNoPrice
  | Some bz =>
      ap ← MustUnmarshal bz;
      let age := time_sub (w_time w) (ap_BlockTime ap) in
      if seconds (MaxPriceAge params) <? age then Err ErrStalePrice else Ok ap
  end.

Definition GetPrice (pair : string) (w : W) : res Z :=
  ap ← GetAggregatedPrice pair w;
  LegacyNewDecFromStr (ap_Price ap).

Definition SetFeed (feed : OracleFeed) : M W unit :=
  val ← lift (ValAddressFromBech32 (of_Validator feed));
  bz ← lift (Marshal feed);
  key ← lift (FeedKey val (of_Pair feed));
  st_set OracleKey key bz.

Definition GetFeed (val : bytes) (pair : string) (w : W) : res (option OracleFeed) :=
  key ← FeedKey val pair;
  bz ← st_get OracleKey key w;
  match bz with
  | None => Ok None
  | Some bz => feed ← MustUnmarshal bz; Ok (Some feed)
  end.

(** [int64(binary.BigEndian.Uint64(bz))]. *)
Definition read_counter (bz : option bytes) : res Z :=
  match bz with
  | None => Ok 0
  | Some bz => v ← be64_read bz; Ok (wrap64 v)
  end.

Definition IncMissCounter (val : bytes) : M W Z :=
  bz ← ask (st_get OracleKey (MissCounterKey val));
  count ← lift (read_counter bz);
  let count := wrap64 (count + 1) in
  _ ← st_set OracleKey (MissCounterKey val) (be64 count);
  mret count.

Definition IncTotalWindows (val : bytes) : M W Z :=
  bz ← ask (st_get OracleKey (TotalWindowsKey val));
  count ← lift (read_counter bz);
  let count := wrap64 (count + 1) in
  _ ← st_set OracleKey (TotalWindowsKey val) (be64 count);
  mret count.

Definition GetMissCounter (val : bytes) (w : W) : res Z :=
  bz ← st_get OracleKey (MissCounterKey val) w; read_counter bz.

Definition GetTotalWindows (val : bytes) (w : W) : res Z :=
  bz ← st_get OracleKey (TotalWindowsKey val) w; read_counter bz.

Definition deleteAllWithPrefix (prefix : bytes) : M W unit :=
  kvs ← ask (st_iterator OracleKey prefix);
  mfor (kvs.*1) (st_delete OracleKey).

Definition ResetMissCounters : M W unit :=
  _ ← deleteAllWithPrefix KeyPrefixMissCounter;
  deleteAllWithPrefix KeyPrefixTotalWindows.

Definition ResetValidatorWindows (val : bytes) : M W unit :=
  _ ← st_delete OracleKey (MissCounterKey val);
  st_delete OracleKey (TotalWindowsKey val).

(** The loop of [IterateAllFeeds] over the entries; [fn] updates the variables
    [acc] its closure captures and says whether to go on. *)
Fixpoint iterate_feeds {A} (fn : A -> bytes -> string -> string -> res (A * bool))
  (acc : A) (kvs : list (bytes * bytes)) : res A :=
  match kvs with
  | [] => Ok acc
  | (key, value) :: kvs =>
      match ParseFeedKey key with
      | Ok (val, pr) =>
          feed ← MustUnmarshal (A := OracleFeed) value;
          '(acc, go_on) ← fn acc val pr (of_Price feed);
          if (go_on : bool) then iterate_feeds fn acc kvs else Ok acc
      | Err _ => iterate_feeds fn acc kvs
      | Panic => Panic
      end
  end.

Definition IterateAllFeeds {A} (acc : A) (fn : A -> bytes -> string -> string -> res (A * bool)) (w : W) : res A :=
  kvs ← st_iterator OracleKey FeedKeyPrefix w;
  iterate_feeds fn acc kvs.

Definition DeleteAllFeeds : M W unit :=
  kvs ← ask (st_iterator OracleKey FeedKeyPrefix);
  mfor (kvs.*1) (st_delete OracleKey).

Definition GetValidatorSubmittedPairs (val : bytes) (w : W) : res (gset string) :=
  IterateAllFeeds (∅ : gset string) (fun pairs v pr _ =>
    Ok (if bool_decide (v = val) then {[pr]} ∪ pairs else pairs, true)) w.

(** ** keeper/feeder.go *)

Definition SetFeederDelegation (val feeder : bytes) : M W unit :=
  existing ← ask (st_get OracleKey (FeederToValoperKey feeder));
  _ ← guard_err (match existing with Some e => negb (bool_decide (e = val)) | None => false end)
        ErrFeederAlreadyBound;
  _ ← st_set OracleKey (FeederToValoperKey feeder) val;
  st_set OracleKey (ValoperToFeederKey val) feeder.

Definition GetFeederForValidator (val : bytes) (w : W) : res (option bytes) :=
  st_get OracleKey (ValoperToFeederKey val) w.

Definition ResolveAuthorizedFeeder (val : bytes) (w : W) : res bytes :=
  f ← GetFeederForValidator val w;
  match f with
  | Some feeder => Ok feeder
  | None => Ok val
  end.

(** ** keeper/twap.go *)

Definition AppendTWAPEntry (pair : string) (price blockTime : Z) : M W unit :=
  let entry := mkTWAPEntry pair (DecString price) blockTime in
  bz ← lift (Marshal entry);
  st_set OracleKey (TWAPKey pair blockTime) bz.

Fixpoint prune_keys (cutoff : Z) (kvs : list (bytes * bytes)) : res (list bytes) :=
  match kvs with
  | [] => Ok []
  | (key, value) :: kvs =>
      e ← MustUnmarshal (A := TWAPEntry) value;
      if te_BlockTime e <? cutoff then toDelete ← prune_keys cutoff kvs; Ok (key :: toDelete)
      else Ok []
  end.

Definition PruneTWAPOlderThan (pair : string) (cutoff : Z) : M W unit :=
  kvs ← ask (st_iterator OracleKey (TWAPPrefix pair));
  toDelete ← lift (prune_keys cutoff kvs);
  mfor toDelete (st_delete OracleKey).

Fixpoint collect_twap (now windowStart : Z) (acc : list TWAPEntry) (kvs : list (bytes * bytes)) :
  res (list TWAPEntry) :=
  match kvs with
  | [] => Ok acc
  | (_, value) :: kvs =>
      e ← MustUnmarshal (A := TWAPEntry) value;
      if now <? te_BlockTime e then collect_twap now windowStart acc kvs else
      let acc := acc ++ [e] in
      if negb (windowStart <? te_BlockTime e) then Ok acc
      else collect_twap now windowStart acc kvs
  end.

Fixpoint twap_sum (now weightedSum totalWeight : Z) (entries : list TWAPEntry) : res (Z * Z) :=
  match entries with
  | [] => Ok (weightedSum, totalWeight)
  | e :: entries =>
      price ← LegacyNewDecFromStr (te_Price e);
      let start := te_BlockTime e in
      let fin := match entries with e' :: _ => te_BlockTime e' | [] => now end in
      let wt := LegacyNewDec (time_sub fin start) in
      m ← DecMul price wt;
      weightedSum ← DecAdd weightedSum m;
      totalWeight ← DecAdd totalWeight wt;
      twap_sum now weightedSum totalWeight entries
  end.

Definition GetTWAP (pair : string) (window : Z) (w : W) : res Z :=
  params ← GetParams w;
  if negb (PairAccepted params pair) then Err ErrPairNotAccepted else
  let now := w_time w in
  let windowStart := now + wrap64 (- window) in
  kvs ← st_reverse_iterator OracleKey (TWAPPrefix pair) w;
  entries ← collect_twap now windowStart [] kvs;
  match reverse entries with
  | [] => Err ErrNoTWAPData
  | (e0 :: rest) as entries =>
      let latest := List.last entries e0 in
      if seconds (MaxPriceAge params) <? time_sub now (te_BlockTime latest) then Err ErrStalePrice else
      match rest with
      | [] => LegacyNewDecFromStr (te_Price e0)
      | _ =>
          '(weightedSum, totalWeight) ← twap_sum now LegacyZeroDec LegacyZeroDec entries;
          if totalWeight =? 0 then Err ErrNoTWAPData else DecQuo weightedSum totalWeight
      end
  end.

(** ** keeper/msg_server.go *)

(** [if ms.stakingKeeper != nil { v, err := GetValidator; ... Bonded }]. *)
Definition check_bonded (k : Keeper) (val : bytes) : M W unit :=
  if stakingKeeper k then
    v ← ask (fun w => GetValidator (w_ext w) val);
    guard_err (negb (VStatus v =? Bonded)) ErrNotBondedValidator
  else mret tt.

Definition SetFeeder (k : Keeper) (msg : MsgSetFeeder) : M W unit :=
  _ ← lift (MsgSetFeeder_ValidateBasic msg);
  val ← lift (ValAddressFromBech32 (sf_Validator msg));
  feeder ← lift (AccAddressFromBech32 (sf_Feeder msg));
  _ ← check_bonded k val;
  _ ← SetFeederDelegation val feeder;
  emit EventTypeFeederSet
    [(AttributeKeyValidator, sf_Validator msg); (AttributeKeyFeeder, sf_Feeder msg)].

Definition SubmitFeed (k : Keeper) (msg : MsgSubmitFeed) : M W unit :=
  _ ← lift (MsgSubmitFeed_ValidateBasic msg);
  val ← lift (ValAddressFromBech32 (ms_Validator msg));
  feeder ← lift (AccAddressFromBech32 (ms_Feeder msg));
  authorized ← ask (ResolveAuthorizedFeeder val);
  _ ← guard_err (negb (bool_decide (authorized = feeder))) ErrFeederNotAuthorized;
  params ← ask GetParams;
  _ ← guard_err (negb (PairAccepted params (ms_Pair msg))) ErrPairNotAccepted;
  _ ← check_bonded k val;
  _ ← (if stakingKeeper k then
         power ← ask (fun w => wrap_err ErrNotBondedValidator (GetLastValidatorPower (w_ext w) val));
         guard_err (power =? 0) ErrNotBondedValidator
       else mret tt);
  height ← ask (fun w => Ok (w_height w));
  let feed := mkOracleFeed (ms_Validator msg) (ms_Pair msg) (ms_Price msg) height in
  _ ← SetFeed feed;
  emit EventTypeFeedSubmitted
    [(AttributeKeyValidator, ms_Validator msg); (AttributeKeyFeeder, ms_Feeder msg);
     (AttributeKeyPair, ms_Pair msg); (AttributeKeyPrice, ms_Price msg)].

Definition UpdateParams (k : Keeper) (msg : MsgUpdateParams) : M W unit :=
  _ ← guard_err (negb (bool_decide (GetAuthority k = Authority msg))) ErrInvalidSigner;
  _ ← lift (MsgUpdateParams_ValidateBasic msg);
  oldParams ← ask GetParams;
  let acceptListChanged := AcceptListChanged oldParams (Params msg) in
  _ ← (if acceptListChanged then ResetMissCounters else mret tt);
  _ ← SetParams (Params msg);
  emit EventTypeParamsUpdated [(AttributeKeyAcceptListChanged, FormatBool acceptListChanged)].

(** ** keeper/genesis.go *)

Definition InitGenesis (k : Keeper) (genState : GenesisState) : M W unit :=
  _ ← must (lift (GenesisState_Validate genState));
  _ ← mfor (gs_Prices genState) (fun p =>
        must (ask (fun w => ValidatePriceBlockTime (ap_BlockTime p) (w_time w))));
  _ ← must (SetParams (gs_Params genState));
  _ ← mfor (gs_Prices genState) (fun p => must (SetAggregatedPrice p));
  mfor (gs_Feeders genState) (fun fd =>
    val ← must (lift (ValAddressFromBech32 (fd_Validator fd)));
    feeder ← must (lift (AccAddressFromBech32 (fd_Feeder fd)));
    _ ← (if stakingKeeper k then
           _ ← must (ask (fun w => GetValidator (w_ext w) val)); mret tt
         else mret tt);
    must (SetFeederDelegation val feeder)).

Definition export_prices (kvs : list (bytes * bytes)) : res (list AggregatedPrice) :=
  rfold kvs [] (fun acc kv => ap ← MustUnmarshal kv.2; Ok (acc ++ [ap])).

Definition export_feeders (kvs : list (bytes * bytes)) : list FeederDelegation :=
  foldl (fun acc kv =>
    if bool_decide (length kv.1 <= length KeyPrefixValoperToFeeder)%nat then acc else
    let val := drop (length KeyPrefixValoperToFeeder) kv.1 in
    acc ++ [mkFeederDelegation (ValString val) (AccString kv.2)]) [] kvs.

Definition ExportGenesis (w : W) : res GenesisState :=
  params ← must_res (GetParams w);
  pkvs ← must_res (st_iterator OracleKey KeyPrefixAggregatedPrice w);
  prices ← export_prices pkvs;
  let prices := sort_slice (string_less ap_Pair) prices in
  fkvs ← must_res (st_iterator OracleKey KeyPrefixValoperToFeeder w);
  let feeders := sort_slice (string_less fd_Validator) (export_feeders fkvs) in
  Ok (mkGenesisState params prices feeders).

(** ** keeper/invariants.go *)

Definition price_broken (accept : gset string) (ap : AggregatedPrice) : bool :=
  negb (bool_decide (ap_Pair ap ∈ accept)) ||
  match LegacyNewDecFromStr (ap_Price ap) with
  | Ok price => negb (0 <? price)
  | _ => true
  end.

Definition PricesInvariant (w : W) : res bool :=
  match GetParams w with
  | Panic => Panic
  | Err _ => Ok true
  | Ok params =>
      let accept : gset string := list_to_set (AcceptList params) in
      match st_iterator OracleKey KeyPrefixAggregatedPrice w with
      | Panic => Panic
      | Err _ => Ok true
      | Ok kvs => rfold kvs false (fun broken kv =>
                    ap ← MustUnmarshal kv.2; Ok (broken || price_broken accept ap))
      end
  end.

(** ** keeper/grpc_query.go: requests are pointers, [None] when nil *)

Definition oracleQueryGRPCError (err : error) : error :=
  if bool_decide (err = ErrNoPrice) || bool_decide (err = ErrNoTWAPData) then NotFound
  else if bool_decide (err = ErrStalePrice) then FailedPrecondition
  else err.

Definition QueryPrice (req : option string) (w : W) : res AggregatedPrice :=
  match req with
  | None => Err InvalidArgument
  | Some pr => if bool_decide (pr = ""%string) then Err InvalidArgument else
               map_err oracleQueryGRPCError (GetAggregatedPrice pr w)
  end.

Definition QueryTwap (req : option (string * Z)) (w : W) : res Z :=
  match req with
  | None => Err InvalidArgument
  | Some (pr, windowSeconds) =>
      if bool_decide (pr = ""%string) || (windowSeconds =? 0) then Err InvalidArgument else
      map_err oracleQueryGRPCError (GetTWAP pr (seconds windowSeconds) w)
  end.

Definition QueryParams (req : option unit) (w : W) : res OracleParams :=
  match req with None => Err InvalidArgument | Some _ => GetParams w end.

Definition QueryMissCounter (req : option string) (w : W) : res (Z * Z) :=
  match req with
  | None => Err InvalidArgument
  | Some v => if bool_decide (v = ""%string) then Err InvalidArgument else
              val ← wrap_err InvalidArgument (ValAddressFromBech32 v);
              misses ← GetMissCounter val w;
              total ← GetTotalWindows val w;
              Ok (misses, total)
  end.

Definition QueryFeeder (req : option string) (w : W) : res string :=
  match req with
  | None => Err InvalidArgument
  | Some v => if bool_decide (v = ""%string) then Err InvalidArgument else
              val ← wrap_err InvalidArgument (ValAddressFromBech32 v);
              feeder ← ResolveAuthorizedFeeder val w;
              Ok (AccString feeder)
  end.

(** ** Lemmas: the store *)

Context {KVL : KVStoreLaws St} {SML : SdkMathLaws} {BEL : Bech32Laws} {TL : StdTimeLaws}.

Lemma oracle_GetParams_view w : GetParams w =
  match view OracleKey w !! KeyParams with None => Ok DefaultParams | Some bz => MustUnmarshal bz end.
Proof. unfold GetParams. by rewrite st_get_run. Qed.

Lemma GetMissCounter_view val w : GetMissCounter val w = read_counter (view OracleKey w !! MissCounterKey val).
Proof. unfold GetMissCounter. by rewrite st_get_run. Qed.

Lemma GetTotalWindows_view val w : GetTotalWindows val w = read_counter (view OracleKey w !! TotalWindowsKey val).
Proof. unfold GetTotalWindows. by rewrite st_get_run. Qed.

Lemma GetFeederForValidator_view val w :
  GetFeederForValidator val w = Ok (view OracleKey w !! ValoperToFeederKey val).
Proof. unfold GetFeederForValidator. by rewrite st_get_run. Qed.

Lemma GetAggregatedPrice_view pair w : GetAggregatedPrice pair w =
  (params ← GetParams w;
   if negb (PairAccepted params pair) then Err ErrPairNotAccepted else
   match view OracleKey w !! AggregatedPriceKey pair with
   | None => Err ErrNoPrice
   | Some bz =>
       ap ← MustUnmarshal bz;
       if seconds (MaxPriceAge params) <? time_sub (w_time w) (ap_BlockTime ap)
       then Err ErrStalePrice else Ok ap
   end).
Proof.
  unfold GetAggregatedPrice. destruct (GetParams w); try done. cbn. by rewrite st_get_run.
Qed.

Lemma MustUnmarshal_Marshal {A} `{ProtoLaws A} (a : A) : wf_msg a ->
  exists bz, Marshal a = Ok bz /\ MustUnmarshal bz = Ok a.
Proof.
  intros Hwf. destruct (unmarshal_marshal a Hwf) as (bz & E1 & E2). exists bz.
  unfold MustUnmarshal. by rewrite E2.
Qed.

Lemma oracle_SetParams_run p w : Validate p = Ok tt -> wf_msg p ->
  exists w' bz, SetParams p w = (w', Ok tt) /\ MustUnmarshal bz = Ok p /\
    store_upd OracleKey (<[KeyParams := bz]> (view OracleKey w)) w w'.
Proof.
  intros Hv Hwf. destruct (MustUnmarshal_Marshal p Hwf) as (bz & Em & Eu).
  destruct (st_set_run OracleKey KeyParams bz w) as (w' & Es & U); [done|].
  exists w', bz. unfold SetParams. erewrite bind_lift_run by exact Hv.
  by erewrite bind_lift_run by exact Em.
Qed.

Lemma SetAggregatedPrice_run ap w : wf_msg ap ->
  exists w' bz, SetAggregatedPrice ap w = (w', Ok tt) /\ MustUnmarshal bz = Ok ap /\
    store_upd OracleKey (<[AggregatedPriceKey (ap_Pair ap) := bz]> (view OracleKey w)) w w'.
Proof.
  intros Hwf. destruct (MustUnmarshal_Marshal ap Hwf) as (bz & Em & Eu).
  destruct (st_set_run OracleKey (AggregatedPriceKey (ap_Pair ap)) bz w) as (w' & Es & U); [done|].
  exists w', bz. unfold SetAggregatedPrice. by erewrite bind_lift_run by exact Em.
Qed.

Lemma SetFeed_run feed val w : wf_msg feed -> ValAddressFromBech32 (of_Validator feed) = Ok val ->
  exists w' key bz, SetFeed feed w = (w', Ok tt) /\ FeedKey val (of_Pair feed) = Ok key /\
    MustUnmarshal bz = Ok feed /\ store_upd OracleKey (<[key := bz]> (view OracleKey w)) w w'.
Proof.
  intros Hwf Hv. destruct (MustUnmarshal_Marshal feed Hwf) as (bz & Em & Eu).
  pose proof (FeedKey_run val (of_Pair feed) (val_parse_ok _ _ Hv)) as Ek.
  match type of Ek with _ = Ok ?k => destruct (st_set_run OracleKey k bz w) as (w' & Es & U); [done|] end.
  exists w'. eexists _, bz. split_and!; [|exact Ek|done|exact U]. unfold SetFeed.
  erewrite bind_lift_run by exact Hv. erewrite bind_lift_run by exact Em.
  by erewrite bind_lift_run by exact Ek.
Qed.

Lemma GetFeed_view val pair key w : FeedKey val pair = Ok key -> key <> [] ->
  GetFeed val pair w = match view OracleKey w !! key with
                       | None => Ok None
                       | Some bz => feed ← MustUnmarshal bz; Ok (Some feed)
                       end.
Proof. intros Ek Hne. unfold GetFeed. rewrite Ek. cbn. by rewrite st_get_run. Qed.

(** *** The counters *)

Lemma read_counter_be64 n : - two63 <= n < two63 -> read_counter (Some (be64 n)) = Ok n.
Proof.
  intros Hn. unfold read_counter. rewrite be64_read_be64. cbn [mbind res_bind].
  by rewrite wrap64_u64, wrap64_id.
Qed.

Lemma IncMissCounter_run val n w : GetMissCounter val w = Ok n -> - two63 <= n < two63 - 1 ->
  exists w', IncMissCounter val w = (w', Ok (n + 1)) /\
    store_upd OracleKey (<[MissCounterKey val := be64 (n + 1)]> (view OracleKey w)) w w'.
Proof.
  intros Hn Hr. destruct (st_set_run OracleKey (MissCounterKey val) (be64 (n + 1)) w) as (w' & E & U); [done|].
  exists w'. split; [|done]. unfold IncMissCounter.
  erewrite bind_ask_run by (by apply st_get_run). rewrite GetMissCounter_view in Hn.
  erewrite bind_lift_run by exact Hn. cbn zeta. rewrite wrap64_id by (unfold two63 in *; lia).
  by erewrite bind_Ok_run by exact E.
Qed.

Lemma IncTotalWindows_run val n w : GetTotalWindows val w = Ok n -> - two63 <= n < two63 - 1 ->
  exists w', IncTotalWindows val w = (w', Ok (n + 1)) /\
    store_upd OracleKey (<[TotalWindowsKey val := be64 (n + 1)]> (view OracleKey w)) w w'.
Proof.
  intros Hn Hr. destruct (st_set_run OracleKey (TotalWindowsKey val) (be64 (n + 1)) w) as (w' & E & U); [done|].
  exists w'. split; [|done]. unfold IncTotalWindows.
  erewrite bind_ask_run by (by apply st_get_run). rewrite GetTotalWindows_view in Hn.
  erewrite bind_lift_run by exact Hn. cbn zeta. rewrite wrap64_id by (unfold two63 in *; lia).
  by erewrite bind_Ok_run by exact E.
Qed.

Lemma DeleteAllFeeds_run w : exists w' m, DeleteAllFeeds w = (w', Ok tt) /\ store_upd OracleKey m w w' /\
  forall k, m !! k = if decide (KeyPrefixFeed `prefix_of` k) then None else view OracleKey w !! k.
Proof. by apply delete_prefix_run. Qed.

Lemma ResetMissCounters_run w : exists w' m, ResetMissCounters w = (w', Ok tt) /\ store_upd OracleKey m w w' /\
  forall k, m !! k = if decide (KeyPrefixMissCounter `prefix_of` k \/ KeyPrefixTotalWindows `prefix_of` k)
                     then None else view OracleKey w !! k.
Proof.
  destruct (delete_prefix_run OracleKey KeyPrefixMissCounter w) as (w1 & m1 & E1 & U1 & H1); [done|].
  destruct (delete_prefix_run OracleKey KeyPrefixTotalWindows w1) as (w2 & m2 & E2 & U2 & H2); [done|].
  exists w2, m2. unfold ResetMissCounters, deleteAllWithPrefix. split_and!.
  - erewrite bind_Ok_run by exact E1. done.
  - by eapply store_upd_trans.
  - intros k. rewrite H2. destruct U1 as (-> & _). rewrite H1. repeat case_decide; tauto.
Qed.

(** ** Submitting a feed *)

(** The conditions under which a feed is accepted. *)
Definition feed_admissible (k : Keeper) (msg : MsgSubmitFeed) (w : W) : Prop :=
  exists val feeder params price,
    ValAddressFromBech32 (ms_Validator msg) = Ok val /\
    AccAddressFromBech32 (ms_Feeder msg) = Ok feeder /\
    ms_Pair msg <> ""%string /\ LegacyNewDecFromStr (ms_Price msg) = Ok price /\ 0 < price /\
    ResolveAuthorizedFeeder val w = Ok feeder /\
    GetParams w = Ok params /\ ms_Pair msg ∈ AcceptList params /\
    (stakingKeeper k = true -> exists v power, GetValidator (w_ext w) val = Ok v /\
       VStatus v = Bonded /\ GetLastValidatorPower (w_ext w) val = Ok power /\ power <> 0).

Definition submitted_feed (msg : MsgSubmitFeed) (w : W) : OracleFeed :=
  mkOracleFeed (ms_Validator msg) (ms_Pair msg) (ms_Price msg) (w_height w).

Lemma MsgSubmitFeed_ValidateBasic_spec msg :
  MsgSubmitFeed_ValidateBasic msg = Ok tt <->
  exists val feeder price,
    ValAddressFromBech32 (ms_Validator msg) = Ok val /\
    AccAddressFromBech32 (ms_Feeder msg) = Ok feeder /\
    ms_Pair msg <> ""%string /\ LegacyNewDecFromStr (ms_Price msg) = Ok price /\ 0 < price.
Proof.
  unfold MsgSubmitFeed_ValidateBasic. split.
  - intros H. apply res_bind_Ok in H as (f & Hf%wrap_err_Ok & H).
    apply res_bind_Ok in H as (v & Hv%wrap_err_Ok & H). case_bool_decide; [done|].
    apply res_bind_Ok in H as (p & Hp%wrap_err_Ok & H).
    destruct (Z.ltb_spec 0 p); [|done]. exists v, f, p. done.
  - intros (v & f & p & -> & -> & Hne & -> & Hp). cbn.
    rewrite bool_decide_eq_false_2 by done. cbn. by destruct (Z.ltb_spec 0 p); [|lia].
Qed.

Lemma SubmitFeed_admitted k msg w w' : SubmitFeed k msg w = (w', Ok tt) -> feed_admissible k msg w.
Proof.
  intros H. unfold SubmitFeed in H.
  apply M_bind_Ok in H as (s1 & [] & [-> H1]%lift_Ok & H).
  apply M_bind_Ok in H as (s2 & val & [-> H2]%lift_Ok & H).
  apply M_bind_Ok in H as (s3 & feeder & [-> H3]%lift_Ok & H).
  apply M_bind_Ok in H as (s4 & au & [-> H4]%ask_Ok & H).
  apply M_bind_Ok in H as (s5 & [] & [-> H5]%guard_err_Ok & H).
  apply M_bind_Ok in H as (s6 & params & [-> H6]%ask_Ok & H).
  apply M_bind_Ok in H as (s7 & [] & [-> H7]%guard_err_Ok & H).
  apply M_bind_Ok in H as (s8 & [] & H8 & H).
  apply M_bind_Ok in H as (s9 & [] & H9 & H).
  apply negb_false_iff, bool_decide_eq_true in H5 as ->.
  apply negb_false_iff, PairAccepted_spec in H7.
  apply MsgSubmitFeed_ValidateBasic_spec in H1 as (v' & f' & price & E1 & E2 & E3 & E4 & E5).
  exists val, feeder, params, price. split_and!; try done.
  intros Hk. unfold check_bonded in H8. rewrite Hk in H8, H9.
  apply M_bind_Ok in H8 as (s10 & v & [-> Hv]%ask_Ok & [-> Hb]%guard_err_Ok).
  apply M_bind_Ok in H9 as (s11 & power & [-> Hpw%wrap_err_Ok]%ask_Ok & [-> Hz]%guard_err_Ok).
  exists v, power. split_and!; try done; [|by apply Z.eqb_neq].
  by apply Z.eqb_eq, negb_false_iff.
Qed.

Lemma SubmitFeed_runs k msg w : wf_msg (submitted_feed msg w) -> feed_admissible k msg w ->
  exists w1 val key bz, SubmitFeed k msg w =
    (add_event (mkEvent EventTypeFeedSubmitted
       [(AttributeKeyValidator, ms_Validator msg); (AttributeKeyFeeder, ms_Feeder msg);
        (AttributeKeyPair, ms_Pair msg); (AttributeKeyPrice, ms_Price msg)]) w1, Ok tt) /\
    ValAddressFromBech32 (ms_Validator msg) = Ok val /\ FeedKey val (ms_Pair msg) = Ok key /\
    MustUnmarshal bz = Ok (submitted_feed msg w) /\
    store_upd OracleKey (<[key := bz]> (view OracleKey w)) w w1.
Proof.
  intros Hwf (val & feeder & params & price & E1 & E2 & E3 & E4 & E5 & E6 & E7 & E8 & E9).
  destruct (SetFeed_run (submitted_feed msg w) val w Hwf E1) as (w1 & key & bz & F1 & F2 & F3 & F4).
  exists w1, val, key, bz. split_and!; try done. unfold SubmitFeed.
  erewrite bind_lift_run by (apply MsgSubmitFeed_ValidateBasic_spec; eauto 10).
  erewrite bind_lift_run by exact E1. erewrite bind_lift_run by exact E2.
  erewrite bind_ask_run by exact E6.
  erewrite bind_guard_run by (by rewrite bool_decide_eq_true_2).
  erewrite bind_ask_run by exact E7.
  erewrite bind_guard_run by (by rewrite (proj2 (PairAccepted_spec _ _))).
  unfold check_bonded. destruct (stakingKeeper k).
  - destruct E9 as (v & power & G1 & G2 & G3 & G4); [done|].
    rewrite (bind_Ok_run _ _ w w tt).
    2: { erewrite bind_ask_run by exact G1. rewrite G2. done. }
    rewrite (bind_Ok_run _ _ w w tt).
    2: { erewrite bind_ask_run by (apply wrap_err_Ok; exact G3). by apply Z.eqb_neq in G4 as ->. }
    erewrite bind_ask_run by reflexivity. cbn zeta. by erewrite bind_Ok_run by exact F1.
  - erewrite bind_Ok_run by reflexivity. erewrite bind_Ok_run by reflexivity.
    erewrite bind_ask_run by reflexivity. cbn zeta. by erewrite bind_Ok_run by exact F1.
Qed.

Lemma check_bonded_wlp k val (Q : unit -> W -> Prop) (E : error -> W -> Prop) w :
  Q tt w -> (forall e, E e w) -> wlp (check_bonded k val) Q E w.
Proof. intros. unfold check_bonded. wlp_steps; auto. Qed.

Lemma SetFeed_wlp feed w : wlp (SetFeed feed) (fun _ _ => True) (fun _ w' => w' = w) w.
Proof.
  unfold SetFeed. world_steps; try done.
  match goal with Hv : ValAddressFromBech32 _ = Ok ?v, Hk : FeedKey ?v _ = Ok _ |- _ =>
    rewrite FeedKey_run in Hk by (by eapply val_parse_ok); injection Hk as <- end.
  by apply wlp_st_set.
Qed.

Lemma SubmitFeed_atomic k msg w : wlp (SubmitFeed k msg) (fun _ _ => True) (fun _ w' => w' = w) w.
Proof.
  unfold SubmitFeed. wlp_steps; try done. apply check_bonded_wlp; [|done].
  wlp_steps; try done; (eapply wlp_mono; [apply SetFeed_wlp|done|done]).
Qed.

(** C13: a feed is accepted exactly when its addresses parse, its price is a
    positive decimal, its pair is on the accept list, its sender is the feeder
    bound to the validator (the validator itself when none is) and the
    validator is bonded with power; then that feed, stamped with the block
    height, is what is stored for the validator and pair, every other feed is
    as before, and a refused message changes nothing. *)
Theorem SubmitFeed_spec k msg w : wf_msg (submitted_feed msg w) ->
  (feed_admissible k msg w <-> exists w', SubmitFeed k msg w = (w', Ok tt)) /\
  (forall w' e, SubmitFeed k msg w = (w', Err e) -> w' = w) /\
  (forall w', SubmitFeed k msg w = (w', Ok tt) -> exists val,
     ValAddressFromBech32 (ms_Validator msg) = Ok val /\
     GetFeed val (ms_Pair msg) w' = Ok (Some (submitted_feed msg w)) /\
     (forall val' pair', addr_ok val' -> (val', pair') <> (val, ms_Pair msg) ->
        GetFeed val' pair' w' = GetFeed val' pair' w) /\
     GetParams w' = GetParams w /\ w_ext w' = w_ext w).
Proof.
  intros Hwf. split_and!.
  - split; [|intros [w' H]; by eapply SubmitFeed_admitted].
    intros H. destruct (SubmitFeed_runs k msg w Hwf H) as (w1 & val & key & bz & E & _). eauto.
  - intros w' e H. exact (wlp_run _ _ _ _ _ _ (SubmitFeed_atomic k msg w) H).
  - intros w' H. pose proof (SubmitFeed_admitted _ _ _ _ H) as Ha.
    destruct (SubmitFeed_runs k msg w Hwf Ha) as (w1 & val & key & bz & E & Ev & Ek & Eb & U).
    rewrite E in H. injection H as <-. exists val. pose proof (val_parse_ok _ _ Ev) as Hv.
    pose proof (FeedKey_run val (ms_Pair msg) Hv) as Ek'. rewrite Ek in Ek'. injection Ek' as Ek'.
    destruct U as (V & O & X1 & _).
    split_and!; [done| | | |done].
    + rewrite (GetFeed_view _ _ key) by (done || by rewrite Ek'). rewrite view_add_event, V, lookup_insert_eq.
      by rewrite Eb.
    + intros val' pair' Hv' Hne. pose proof (FeedKey_run val' pair' Hv') as Ek2.
      rewrite !(GetFeed_view _ _ _ _ Ek2) by done. rewrite view_add_event, V, lookup_insert_ne; [done|].
      intros E2. apply Hne. destruct (FeedKey_inj val' pair' val (ms_Pair msg)) as [-> ->]; try done.
      by rewrite Ek2, Ek, E2.
    + rewrite !oracle_GetParams_view, view_add_event, V, lookup_insert_ne; [done|]. by rewrite Ek'.
Qed.

(** ** Feeder bindings *)

(** The two indexes agree: the feeder recorded for a validator is bound to it. *)
Definition bindings_ok (m : gmap bytes bytes) : Prop :=
  forall val f, m !! ValoperToFeederKey val = Some f -> m !! FeederToValoperKey f = Some val.

Lemma SetFeederDelegation_wlp val feeder (Q : unit -> W -> Prop) (E : error -> W -> Prop) w :
  (forall w', match view OracleKey w !! FeederToValoperKey feeder with Some e => e = val | None => True end ->
     store_upd OracleKey (<[ValoperToFeederKey val := feeder]>
       (<[FeederToValoperKey feeder := val]> (view OracleKey w))) w w' -> Q tt w') ->
  E ErrFeederAlreadyBound w -> wlp (SetFeederDelegation val feeder) Q E w.
Proof.
  intros HQ HE. unfold SetFeederDelegation. wlp_step. apply wlp_ask; rewrite st_get_run by done; [|done].
  intros ? [= <-]. wlp_steps; [|done]. apply wlp_st_set; [done|]. intros w1 U1.
  apply wlp_st_set; [done|]. intros w2 U2. apply HQ.
  - destruct (view OracleKey w !! FeederToValoperKey feeder); [|done].
    match goal with H : negb _ = false |- _ => by apply negb_false_iff, bool_decide_eq_true in H end.
  - destruct U1 as (V1 & U1). rewrite V1 in U2. by apply (store_upd_trans _ _ _ _ w1 _ (conj V1 U1)).
Qed.

Lemma bindings_set val feeder m : bindings_ok m ->
  match m !! FeederToValoperKey feeder with Some e => e = val | None => True end ->
  bindings_ok (<[ValoperToFeederKey val := feeder]> (<[FeederToValoperKey feeder := val]> m)).
Proof.
  intros Hm Hex v f. destruct (decide (v = val)) as [->|Hne].
  - rewrite lookup_insert_eq. intros [= <-]. by rewrite lookup_insert_ne, lookup_insert_eq.
  - rewrite lookup_insert_ne by (intros [=]; congruence). rewrite lookup_insert_ne by done.
    intros Hv. apply Hm in Hv. rewrite lookup_insert_ne by done.
    destruct (decide (f = feeder)) as [->|Hnf].
    + rewrite Hv in Hex. congruence.
    + by rewrite lookup_insert_ne by (intros [=]; congruence).
Qed.

(** ** Prices *)

(** An aggregated price, once written, is what readers get until it is older
    than [MaxPriceAge] seconds, and a stale-price error from then on; a pair off
    the accept list is refused whatever is stored. *)
Theorem price_lifetime ap params w w' w2 : wf_msg ap ->
  SetAggregatedPrice ap w = (w', Ok tt) ->
  GetParams w' = Ok params -> MaxPriceAge params * Second < two63 -> 0 < MaxPriceAge params ->
  view OracleKey w2 = view OracleKey w' -> - two63 <= w_time w2 - ap_BlockTime ap < two63 ->
  GetAggregatedPrice (ap_Pair ap) w2 =
    if negb (PairAccepted params (ap_Pair ap)) then Err ErrPairNotAccepted else
    if MaxPriceAge params * Second <? w_time w2 - ap_BlockTime ap then Err ErrStalePrice else Ok ap.
Proof.
  intros Hwf HS HP Hage Hpos HV Ht.
  destruct (SetAggregatedPrice_run ap w Hwf) as (w1 & bz & E1 & E2 & (V & _)).
  rewrite HS in E1. injection E1 as <-.
  assert (GetParams w2 = Ok params) as HP2 by (rewrite oracle_GetParams_view, HV, <- oracle_GetParams_view; done).
  rewrite GetAggregatedPrice_view, HP2. cbn [mbind res_bind]. destruct (PairAccepted _ _); [|done]. cbn [negb].
  rewrite HV, V, lookup_insert_eq, E2. cbn [mbind res_bind].
  unfold seconds. rewrite wrap64_id by (unfold two63, Second in *; lia). by rewrite time_sub_small.
Qed.

(** ** Time-weighted averages *)

(** [kv] is the stored sample [e] of [pair]. *)
Definition twap_entry (pair : string) (kv : bytes * bytes) (e : TWAPEntry) : Prop :=
  kv.1 = TWAPKey pair (te_BlockTime e) /\ 0 <= te_BlockTime e < two63 /\ MustUnmarshal kv.2 = Ok e.

(** The samples of [pair] are stored under their times, which do not precede the
    Unix epoch. *)
Definition twap_wf (pair : string) (m : gmap bytes bytes) : Prop :=
  forall k v, m !! k = Some v -> TWAPPrefix pair `prefix_of` k -> exists e, twap_entry pair (k, v) e.

Definition earlier (a b : TWAPEntry) : Prop := te_BlockTime a < te_BlockTime b.

Lemma TWAPKey_ltb pair t1 t2 : 0 <= t1 < two63 -> 0 <= t2 < two63 ->
  bytes_ltb (TWAPKey pair t1) (TWAPKey pair t2) = (t1 <? t2).
Proof.
  intros H1 H2. unfold TWAPKey. rewrite bytes_ltb_app, !wrap64_id by lia.
  apply be64_ltb; unfold two63, two64 in *; lia.
Qed.

Lemma TWAPKey_inj pair t1 t2 : 0 <= t1 < two63 -> 0 <= t2 < two63 ->
  TWAPKey pair t1 = TWAPKey pair t2 -> t1 = t2.
Proof.
  intros H1 H2 E. apply (inj (app (TWAPPrefix pair))) in E. rewrite !wrap64_id in E by lia.
  apply be64_inj; unfold two63, two64 in *; done || lia.
Qed.

Lemma TWAPKey_prefix pair t : TWAPPrefix pair `prefix_of` TWAPKey pair t.
Proof. by exists (be64 (wrap64 t)). Qed.

(** The samples of a pair, in the order of the store, are in the order of time. *)
Lemma twap_samples pair m : twap_wf pair m ->
  exists es, Forall2 (twap_entry pair) (kv_prefix m (TWAPPrefix pair)) es /\ StronglySorted earlier es.
Proof.
  intros Hwf. pose proof (kv_prefix_sorted m (TWAPPrefix pair)) as HS.
  assert (Forall (fun kv => exists e, twap_entry pair kv e) (kv_prefix m (TWAPPrefix pair))) as HF.
  { apply Forall_forall. intros [k v] [Hk Hp]%elem_of_kv_prefix. by apply Hwf. }
  induction HS as [|kv l HS IH Hlt]; [exists []; split; constructor|].
  apply Forall_cons in HF as [(e & He) HF]. destruct (IH HF) as (es & H2 & HS2).
  exists (e :: es). split; [by constructor|]. constructor; [done|].
  apply Forall_forall. intros e' Hin. apply list_elem_of_lookup in Hin as [i Hi].
  destruct (Forall2_lookup_r _ _ _ _ _ H2 Hi) as (kv' & Hkv' & K1 & K2 & _).
  destruct He as (E1 & E2 & _). rewrite Forall_forall in Hlt.
  specialize (Hlt kv' ltac:(by apply list_elem_of_lookup_2 in Hkv')). unfold key_lt in Hlt.
  rewrite E1, K1, TWAPKey_ltb in Hlt by done. by apply Z.ltb_lt.
Qed.

Lemma prune_keys_spec pair cutoff kvs es :
  Forall2 (twap_entry pair) kvs es -> StronglySorted earlier es ->
  exists ks, prune_keys cutoff kvs = Ok ks /\
    forall k, k ∈ ks <-> exists e, e ∈ es /\ k = TWAPKey pair (te_BlockTime e) /\ te_BlockTime e < cutoff.
Proof.
  intros H2. induction H2 as [|[k v] e kvs es He H2 IH]; intros HS.
  - exists []. split; [done|]. set_solver.
  - apply StronglySorted_inv in HS as [HS HF]. destruct (IH HS) as (ks & E & Hks).
    destruct He as (E1 & E2 & E3). cbn in E1, E3. cbn [prune_keys]. rewrite E3. cbn [mbind res_bind].
    destruct (Z.ltb_spec (te_BlockTime e) cutoff) as [Hlt|Hge].
    + rewrite E. cbn. exists (k :: ks). split; [done|]. intros k'. rewrite elem_of_cons, Hks.
      split; [intros [->|(e' & ? & ? & ?)]; [exists e; set_solver|exists e'; set_solver]|].
      intros (e' & [->|Hin]%elem_of_cons & -> & ?); [by left|right; eauto].
    + exists []. split; [done|]. intros k'. split; [intros Hn; by apply not_elem_of_nil in Hn|].
      intros (e' & [->|Hin]%elem_of_cons & _ & ?); [lia|].
      rewrite Forall_forall in HF. specialize (HF _ Hin). unfold earlier in HF. lia.
Qed.

Lemma PruneTWAP_run pair cutoff w : twap_wf pair (view OracleKey w) ->
  exists w' m, PruneTWAPOlderThan pair cutoff w = (w', Ok tt) /\ store_upd OracleKey m w w' /\
    (forall t, 0 <= t < two63 ->
       m !! TWAPKey pair t = if t <? cutoff then None else view OracleKey w !! TWAPKey pair t) /\
    (forall k, ~ TWAPPrefix pair `prefix_of` k -> m !! k = view OracleKey w !! k) /\
    (forall k v, m !! k = Some v -> view OracleKey w !! k = Some v).
Proof.
  intros Hwf. destruct (twap_samples pair _ Hwf) as (es & H2 & HS).
  destruct (prune_keys_spec pair cutoff _ _ H2 HS) as (ks & Ek & Hks).
  destruct (mfor_delete_run OracleKey ks w) as (w' & m & E & U & Hm).
  { apply Forall_forall. intros k (e & _ & -> & _)%Hks. done. }
  exists w', m. split_and!; [|done| | |].
  - unfold PruneTWAPOlderThan. erewrite bind_ask_run by (by apply st_iterator_run).
    by erewrite bind_lift_run by exact Ek.
  - intros t Ht. rewrite Hm.
    destruct (view OracleKey w !! TWAPKey pair t) as [v|] eqn:Hv.
    2: { by case_decide; destruct (t <? cutoff). }
    assert (TWAPKey pair t ∈ ks <-> t < cutoff) as Hiff.
    { rewrite Hks. split.
      - intros (e & Hin & Heq & Hlt). apply list_elem_of_lookup in Hin as [i Hi].
        destruct (Forall2_lookup_r _ _ _ _ _ H2 Hi) as (kv & _ & _ & Hr & _).
        by apply TWAPKey_inj in Heq as ->.
      - intros Hlt. assert ((TWAPKey pair t, v) ∈ kv_prefix (view OracleKey w) (TWAPPrefix pair)) as Hin
          by (apply elem_of_kv_prefix; split; [done|apply TWAPKey_prefix]).
        apply list_elem_of_lookup in Hin as [i Hi].
        destruct (Forall2_lookup_l _ _ _ _ _ H2 Hi) as (e & He & K1 & K2 & _). cbn in K1.
        exists e. split_and!; [by apply list_elem_of_lookup_2 in He|done|].
        by apply TWAPKey_inj in K1 as <-. }
    destruct (Z.ltb_spec t cutoff); [rewrite decide_True by tauto|rewrite decide_False by (rewrite Hiff; lia)]; done.
  - intros k Hk. rewrite Hm, decide_False; [done|]. intros (e & _ & -> & _)%Hks. apply Hk, TWAPKey_prefix.
  - intros k v. rewrite Hm. by case_decide.
Qed.

(** Pruning deletes exactly the samples of the pair that are older than the
    cutoff: it stops at the first younger one, and no older sample can follow
    because big-endian keys are in the order of time. *)
Theorem PruneTWAP_exact pair cutoff w : twap_wf pair (view OracleKey w) ->
  exists w' m, PruneTWAPOlderThan pair cutoff w = (w', Ok tt) /\ store_upd OracleKey m w w' /\
    (forall t, 0 <= t < two63 ->
       m !! TWAPKey pair t = if t <? cutoff then None else view OracleKey w !! TWAPKey pair t) /\
    (forall k, ~ TWAPPrefix pair `prefix_of` k -> m !! k = view OracleKey w !! k).
Proof.
  intros Hwf. destruct (PruneTWAP_run pair cutoff w Hwf) as (w' & m & E & U & H1 & H2 & _).
  by exists w', m.
Qed.

(** The samples that [GetTWAP] averages, from a list in descending order of time. *)
Fixpoint take_used (now ws : Z) (l : list TWAPEntry) : list TWAPEntry :=
  match l with
  | [] => []
  | e :: l => if now <? te_BlockTime e then take_used now ws l else
              e :: (if ws <? te_BlockTime e then take_used now ws l else [])
  end.

Lemma collect_twap_used pair now ws acc kvs es : Forall2 (twap_entry pair) kvs es ->
  collect_twap now ws acc kvs = Ok (acc ++ take_used now ws es).
Proof.
  intros H2. revert acc. induction H2 as [|[k v] e kvs es (_ & _ & E) H2 IH]; intros acc; cbn [collect_twap take_used].
  - by rewrite app_nil_r.
  - cbn in E. rewrite E. cbn [mbind res_bind]. destruct (now <? te_BlockTime e); [apply IH|].
    destruct (ws <? te_BlockTime e); cbn [negb]; [|done].
    rewrite IH. by rewrite <- app_assoc.
Qed.

(** In descending order, the samples used are those up to [now] and not before the
    window, and the last one at or before its start. *)
Lemma take_used_spec now ws d : StronglySorted (flip earlier) d ->
  exists post pre, d = post ++ take_used now ws d ++ pre /\
    Forall (fun e => now < te_BlockTime e) post /\ Forall (fun e => te_BlockTime e <= now) (take_used now ws d) /\
    (forall l e, take_used now ws d = l ++ [e] -> Forall (fun e => ws < te_BlockTime e) l) /\
    (pre <> [] -> exists l e, take_used now ws d = l ++ [e] /\ te_BlockTime e <= ws).
Proof.
  induction 1 as [|e d HS IH HF]; cbn [take_used].
  - exists [], []. split_and!; try done. intros [|] ?; done.
  - destruct IH as (post & pre & Ed & P1 & P2 & P3 & P4). rewrite Forall_forall in HF.
    destruct (Z.ltb_spec now (te_BlockTime e)) as [Hn|Hn].
    + exists (e :: post), pre. split_and!; try done; [cbn; by f_equal|by constructor].
    + assert (post = []) as ->.
      { destruct post as [|x post]; [done|]. apply Forall_cons in P1 as [Hx _].
        assert (flip earlier e x) as He by (apply HF; rewrite Ed; left). unfold earlier in He. cbn in He. lia. }
      cbn in Ed. destruct (Z.ltb_spec ws (te_BlockTime e)) as [Hw|Hw].
      * exists [], pre. split_and!; [cbn; by f_equal|done|by constructor| |].
        -- intros [|x l] y; cbn; [constructor|]. intros [= <- E]. constructor; [done|]. by eapply P3.
        -- intros Hp. destruct (P4 Hp) as (l & y & E & Hy). exists (e :: l), y. by rewrite E.
      * exists [], d. split_and!; [done|done|by constructor; [lia|constructor]| |].
        -- intros [|x l] y E; [constructor|]. by destruct l.
        -- intros _. exists [], e. split; [done|lia].
Qed.

(** The exact weighted sum that [twap_sum] computes. *)
Fixpoint weighted_prices (now : Z) (l : list (TWAPEntry * Z)) : Z :=
  match l with
  | [] => 0
  | (e, p) :: l =>
      p * ((match l with (e', _) :: _ => te_BlockTime e' | [] => now end) - te_BlockTime e)
      + weighted_prices now l
  end.

Definition first_time (now : Z) (l : list TWAPEntry) : Z :=
  match l with [] => now | e :: _ => te_BlockTime e end.

Lemma DecMul_whole p n c : DecMul p (LegacyNewDec n) = Ok c -> c = p * n.
Proof. intros H%dec_mul_nearest. unfold nearest, LegacyNewDec, dec_one in H. lia. Qed.

Lemma twap_sum_exact now s t es s' t' :
  StronglySorted earlier es -> Forall (fun e => 0 <= te_BlockTime e <= now) es -> now < two63 ->
  twap_sum now s t es = Ok (s', t') ->
  exists ps, Forall2 (fun e p => LegacyNewDecFromStr (te_Price e) = Ok p) es ps /\
    s' = s + weighted_prices now (zip es ps) /\ t' = t + LegacyNewDec (now - first_time now es).
Proof.
  intros HS HF Hnow. revert s t. induction HS as [|e es HS IH HFe]; intros s t; cbn [twap_sum].
  { intros [= <- <-]. exists []. cbn. unfold LegacyNewDec. split_and!; [constructor|lia|lia]. }
  apply Forall_cons in HF as [He HF]. intros H.
  apply res_bind_Ok in H as (p & Hp & H). cbv zeta in H.
  assert (first_time now es <= now /\ te_BlockTime e <= first_time now es) as [Hf1 Hf2].
  { destruct es as [|e' es]; cbn; [lia|]. apply Forall_cons in HF as [? _], HFe as [Hlt _].
    unfold earlier in Hlt. lia. }
  change (match es with [] => now | e' :: _ => te_BlockTime e' end) with (first_time now es) in H.
  rewrite time_sub_small in H by (unfold two63 in *; lia).
  apply res_bind_Ok in H as (m & ->%DecMul_whole & H).
  apply res_bind_Ok in H as (s1 & Hs & H). apply res_bind_Ok in H as (t1 & Ht & H).
  rewrite dec_add in Hs, Ht. repeat case_decide; try done. injection Hs as <-. injection Ht as <-.
  destruct (IH HF _ _ H) as (ps & H2 & Es & Et). exists (p :: ps).
  split_and!; [by constructor| |].
  - rewrite Es. cbn. destruct es as [|e' es]; [inversion H2; subst; cbn; lia|].
    inversion H2; subst. cbn in *. lia.
  - rewrite Et. cbn. unfold LegacyNewDec. lia.
Qed.

Lemma weighted_prices_bounds now es ps lo hi :
  StronglySorted earlier es -> Forall (fun e => te_BlockTime e <= now) es ->
  length es = length ps -> Forall (fun p => lo <= p <= hi) ps ->
  lo * (now - first_time now es) <= weighted_prices now (zip es ps) <= hi * (now - first_time now es).
Proof.
  intros HS HF. revert ps. induction HS as [|e es HS IH HFe]; intros [|p ps] Hl Hb; try discriminate Hl.
  { cbn. lia. }
  injection Hl as Hl. apply Forall_cons in HF as [He HF], Hb as [Hp Hb]. specialize (IH HF ps Hl Hb).
  cbn [zip zip_with weighted_prices first_time].
  assert (te_BlockTime e <= first_time now es) as Hf.
  { destruct es as [|e' es]; cbn; [lia|]. apply Forall_cons in HFe as [Hlt _]. unfold earlier in Hlt. lia. }
  replace (match zip_with pair es ps with [] => now | (e', _) :: _ => te_BlockTime e' end)
    with (first_time now es) by (destruct es, ps; try discriminate Hl; done).
  change (zip_with pair es ps) with (zip es ps). nia.
Qed.

Lemma StronglySorted_reverse {A} (R : relation A) l : StronglySorted R l -> StronglySorted (flip R) (reverse l).
Proof.
  induction 1 as [|x l HS IH HF]; [constructor|]. rewrite reverse_cons. apply StronglySorted_app.
  split_and!; [|done|repeat constructor].
  intros a b Ha Hb%list_elem_of_singleton. subst. rewrite Forall_forall in HF. cbn. apply HF.
  by rewrite elem_of_reverse in Ha.
Qed.

(** The quotient of the sums is the average, to within one unit. *)
Lemma average_quo S D c : 0 < D -> DecQuo S (LegacyNewDec D) = Ok c ->
  dec_one * (2 * Z.abs (c * D - S)) <= D * (dec_one + 2).
Proof.
  intros HD [_ Hc]%dec_quo_nearest. unfold LegacyNewDec in Hc.
  set (x := Z.quot (S * dec_one * dec_one) (D * dec_one)) in *.
  assert (Z.abs (S * dec_one - x * D) < D) as Hx.
  { unfold x. rewrite Z.quot_mul_cancel_r by (unfold dec_one; lia).
    pose proof (Z.quot_rem (S * dec_one) D ltac:(lia)). pose proof (Z.rem_bound_abs (S * dec_one) D ltac:(lia)). lia. }
  clearbody x. unfold nearest, dec_one in *. nia.
Qed.

Lemma last_elem {A} (x : A) l d : List.last (x :: l) d ∈ x :: l.
Proof.
  destruct (exists_last (l := x :: l)) as (l' & y & El); [done|]. rewrite El, last_last. set_solver.
Qed.

(** The value computed from the samples used. *)
Lemma used_average now c e0 rest :
  StronglySorted earlier (e0 :: rest) -> Forall (fun e => 0 <= te_BlockTime e <= now) (e0 :: rest) ->
  now < two63 ->
  match rest with
  | [] => LegacyNewDecFromStr (te_Price e0)
  | _ => '(weightedSum, totalWeight) ← twap_sum now LegacyZeroDec LegacyZeroDec (e0 :: rest);
         if totalWeight =? 0 then Err ErrNoTWAPData else DecQuo weightedSum totalWeight
  end = Ok c ->
  exists ps, Forall2 (fun e p => LegacyNewDecFromStr (te_Price e) = Ok p) (e0 :: rest) ps /\
    (let D := now - te_BlockTime e0 in Z.abs (c * D - weighted_prices now (zip (e0 :: rest) ps)) <= D) /\
    (forall lo hi, Forall (fun p => lo <= p <= hi) ps -> lo <= c <= hi).
Proof.
  intros HS HF Hnow H. destruct rest as [|e1 rest].
  - apply Forall_cons in HF as [He0 _]. exists [c]. cbn. split_and!; [by repeat constructor|lia|].
    intros lo hi Hb. by apply Forall_cons in Hb as [? _].
  - apply res_bind_Ok in H as ([s t] & Hsum & H). destruct (Z.eqb_spec t 0) as [|Hnz]; [done|].
    destruct (twap_sum_exact _ _ _ _ _ _ HS HF Hnow Hsum) as (ps & Q1 & Es & Et).
    cbn [first_time] in Et. unfold LegacyZeroDec in *. rewrite Z.add_0_l in Es, Et. subst s t.
    apply Forall_cons in HF as He0. destruct He0 as [He0 _].
    assert (0 < now - te_BlockTime e0) as HD by (unfold LegacyNewDec, dec_one in Hnz; lia).
    apply (average_quo _ _ _ HD) in H.
    exists ps. split_and!; [done|cbv zeta; unfold dec_one in H; nia|].
    intros lo hi Hb.
    pose proof (weighted_prices_bounds now (e0 :: e1 :: rest) ps lo hi HS) as HB.
    cbn [first_time] in HB. specialize (HB ltac:(eapply Forall_impl; [exact HF|cbn; lia])
      ltac:(by eapply Forall2_length) Hb).
    set (D := now - te_BlockTime e0) in *. set (S := weighted_prices now _) in *. clearbody S D.
    unfold dec_one in H. nia.
Qed.

(** C14: a time-weighted average is computed over the right samples and is their
    average. For an accepted pair whose samples are [es] in order of time, the
    samples used are a contiguous run [used]: none later than now, all but the
    first inside the window, the first at or before the window's start when
    older samples exist, the newest no older than [MaxPriceAge]; and the result
    differs from the duration-weighted mean of their prices by less than one
    unit of the 18th decimal, and lies between the smallest and largest. Each sample is
    weighted from its own block time to the next one, the first one too: the part of
    its duration before the window counts (the design document clamps it to the start
    of the window, [twap_leading_not_clamped]). *)
Theorem GetTWAP_average pair window w c es :
  let now := w_time w in
  let ws := now + wrap64 (- window) in
  Forall2 (twap_entry pair) (kv_prefix (view OracleKey w) (TWAPPrefix pair)) es ->
  StronglySorted earlier es -> 0 <= now < two63 ->
  GetTWAP pair window w = Ok c ->
  exists params pre e0 rest post ps,
    GetParams w = Ok params /\ pair ∈ AcceptList params /\
    es = pre ++ (e0 :: rest) ++ post /\
    Forall (fun e => now < te_BlockTime e) post /\
    Forall (fun e => te_BlockTime e <= now) (e0 :: rest) /\
    Forall (fun e => ws < te_BlockTime e) rest /\
    (pre <> [] -> te_BlockTime e0 <= ws) /\
    now - te_BlockTime (List.last (e0 :: rest) e0) <= seconds (MaxPriceAge params) /\
    Forall2 (fun e p => LegacyNewDecFromStr (te_Price e) = Ok p) (e0 :: rest) ps /\
    (let D := now - te_BlockTime e0 in
     Z.abs (c * D - weighted_prices now (zip (e0 :: rest) ps)) <= D) /\
    (forall lo hi, Forall (fun p => lo <= p <= hi) ps -> lo <= c <= hi).
Proof.
  intros now ws H2 HS Hnow H. unfold GetTWAP in H.
  apply res_bind_Ok in H as (params & Hp & H).
  destruct (PairAccepted params pair) eqn:Hacc; [|done]. cbn [negb] in H. cbv zeta in H.
  rewrite st_reverse_iterator_run in H by done. cbn [mbind res_bind] in H.
  rewrite (collect_twap_used pair _ _ _ _ (reverse es)) in H by (by apply Forall2_reverse).
  cbn [mbind res_bind app] in H.
  destruct (take_used_spec now ws (reverse es) (StronglySorted_reverse _ _ HS)) as (post & pre & Ed & P1 & P2 & P3 & P4).
  set (used := take_used now ws (reverse es)) in *.
  change (take_used (w_time w) _ _) with used in H.
  assert (es = reverse pre ++ reverse used ++ reverse post) as Ees.
  { rewrite <- (reverse_involutive es), Ed, !reverse_app. by rewrite app_assoc. }
  destruct (reverse used) as [|e0 rest] eqn:Er; [done|].
  assert (used = reverse rest ++ [e0]) as Eu by (by rewrite <- (reverse_involutive used), Er, reverse_cons).
  assert (Forall (fun e => te_BlockTime e <= now) (e0 :: rest)) as HFn
    by (rewrite <- Er; by apply Forall_reverse).
  assert (StronglySorted earlier (e0 :: rest)) as HSu.
  { rewrite Ees in HS. apply StronglySorted_app_1_r, StronglySorted_app_1_l in HS. done. }
  assert (Forall (fun e => 0 <= te_BlockTime e <= now) (e0 :: rest)) as HF0.
  { apply Forall_forall. intros e He. rewrite Forall_forall in HFn. split; [|by apply HFn].
    assert (e ∈ es) as Hin by (rewrite Ees; set_solver). apply list_elem_of_lookup in Hin as [i Hi].
    destruct (Forall2_lookup_r _ _ _ _ _ H2 Hi) as (kv & _ & _ & Hr & _). lia. }
  fold now in H. change (now + _) with ws in H.
  destruct (Z.ltb_spec (seconds (MaxPriceAge params))
              (time_sub now (te_BlockTime (List.last (e0 :: rest) e0)))) as [|Hage]; [done|].
  pose proof (last_elem e0 rest e0) as Hlast. apply (proj1 (Forall_forall _ _) HF0) in Hlast.
  rewrite time_sub_small in Hage by (unfold two63 in *; lia).
  destruct (used_average now c e0 rest HSu HF0 ltac:(lia) H) as (ps & Q1 & Q2 & Q3).
  exists params, (reverse pre), e0, rest, (reverse post), ps.
  split_and!; try done.
  - by apply PairAccepted_spec.
  - by apply Forall_reverse.
  - rewrite <- (reverse_involutive rest). apply Forall_reverse. by apply (P3 _ e0).
  - intros Hne. destruct P4 as (l & e & El & Hle).
    { intros ->. done. }
    rewrite Eu in El. by apply app_inj_tail in El as [_ ->].
Qed.

(** ** Parameter updates *)

Lemma OracleParams_Validate_total p : Validate p <> Panic.
Proof.
  assert (forall s, validateDecOpenClosed s <> Panic) as H1.
  { intros s. unfold validateDecOpenClosed. pose proof (dec_parse_total s).
    destruct (LegacyNewDecFromStr s); cbn; try done. by case_match. }
  assert (forall s, validateSlashRate s <> Panic) as H2.
  { intros s. unfold validateSlashRate. pose proof (dec_parse_total s).
    destruct (LegacyNewDecFromStr s); cbn [mbind res_bind wrap_err]; try done. by case_match. }
  assert (forall l seen, validate_pairs seen l <> Panic) as H3.
  { induction l as [|x l IH]; intros seen; cbn; [done|]. by repeat case_match. }
  assert (forall {B} (m : res unit) (k : res B), m <> Panic -> k <> Panic -> m ≫= (fun _ => k) <> Panic) as H4.
  { intros B m k Hm Hk. by destruct m. }
  unfold Validate. repeat (case_match; [done|]).
  repeat (apply H4; [apply H1 || apply H2|]). by case_match.
Qed.

(** What a successful update does to the store. *)
Lemma oracle_UpdateParams_effect k msg w w' old : wf_msg (Params msg) -> GetParams w = Ok old ->
  UpdateParams k msg w = (w', Ok tt) ->
  Authority msg = authority k /\ Validate (Params msg) = Ok tt /\
  exists bz m, MustUnmarshal bz = Ok (Params msg) /\ view OracleKey w' = <[KeyParams := bz]> m /\
    forall key, m !! key =
      if decide (AcceptList old <> AcceptList (Params msg) /\
         (KeyPrefixMissCounter `prefix_of` key \/ KeyPrefixTotalWindows `prefix_of` key))
      then None else view OracleKey w !! key.
Proof.
  intros Hwf Hold H. unfold UpdateParams in H.
  apply M_bind_Ok in H as (s1 & [] & [-> H1]%guard_err_Ok & H).
  apply M_bind_Ok in H as (s2 & [] & [-> H2]%lift_Ok & H).
  apply M_bind_Ok in H as (s3 & p & [-> H3]%ask_Ok & H). rewrite Hold in H3. injection H3 as <-.
  apply negb_false_iff, bool_decide_eq_true in H1.
  unfold MsgUpdateParams_ValidateBasic in H2. apply res_bind_Ok in H2 as (_ & _ & Hv).
  cbv zeta in H. apply M_bind_Ok in H as (w1 & [] & Hr & H).
  assert (exists m, store_upd OracleKey m w w1 /\ forall key, m !! key =
    if decide (AcceptList old <> AcceptList (Params msg) /\
       (KeyPrefixMissCounter `prefix_of` key \/ KeyPrefixTotalWindows `prefix_of` key))
    then None else view OracleKey w !! key) as (m & U1 & Hm).
  { destruct (AcceptListChanged old (Params msg)) eqn:Hc.
    - destruct (ResetMissCounters_run w) as (w2 & m & E & U & Hm). rewrite E in Hr. injection Hr as <-.
      exists m. split; [done|]. intros key. rewrite Hm.
      assert (AcceptList old <> AcceptList (Params msg)) by (intros E2%AcceptListChanged_spec; congruence).
      repeat case_decide; tauto.
    - apply AcceptListChanged_spec in Hc. apply mret_Ok in Hr as [-> _]. exists (view OracleKey w).
      split; [apply store_upd_refl|]. intros key. rewrite decide_False; [done|]. tauto. }
  destruct (oracle_SetParams_run (Params msg) w1 Hv Hwf) as (w2 & bz & E2 & E3 & (V2 & _)).
  erewrite bind_Ok_run in H by exact E2. apply modify_Ok in H as ->.
  destruct U1 as (V1 & _). rewrite V1 in V2. split; [done|]. split; [done|]. exists bz, m.
  by rewrite view_add_event, V2.
Qed.

(** C16: only the authority updates the parameters, and only to valid ones; an
    update that changes the accept list forgets every miss and window counter,
    any other update keeps them, and neither touches feeds, prices, samples or
    feeder bindings. *)
Theorem oracle_UpdateParams_spec k msg w w' old : wf_msg (Params msg) -> GetParams w = Ok old ->
  UpdateParams k msg w = (w', Ok tt) ->
  Authority msg = authority k /\ Validate (Params msg) = Ok tt /\ GetParams w' = Ok (Params msg) /\
  (forall val, GetMissCounter val w' = if decide (AcceptList old = AcceptList (Params msg))
                                       then GetMissCounter val w else Ok 0) /\
  (forall val, GetTotalWindows val w' = if decide (AcceptList old = AcceptList (Params msg))
                                        then GetTotalWindows val w else Ok 0) /\
  (forall key, key <> KeyParams -> ~ KeyPrefixMissCounter `prefix_of` key ->
     ~ KeyPrefixTotalWindows `prefix_of` key -> view OracleKey w' !! key = view OracleKey w !! key).
Proof.
  intros Hwf Hold H. destruct (oracle_UpdateParams_effect k msg w w' old Hwf Hold H) as (Ha & Hv & bz & m & Hu & V & Hm).
  assert (forall key, key <> KeyParams -> view OracleKey w' !! key = m !! key) as Hk.
  { intros key Hne. by rewrite V, lookup_insert_ne. }
  split_and!; [done|done| | | |].
  - by rewrite oracle_GetParams_view, V, lookup_insert_eq.
  - intros val. rewrite !GetMissCounter_view, Hk, Hm by done.
    assert (KeyPrefixMissCounter `prefix_of` MissCounterKey val) by (by eexists).
    repeat case_decide; tauto || done.
  - intros val. rewrite !GetTotalWindows_view, Hk, Hm by done.
    assert (KeyPrefixTotalWindows `prefix_of` TotalWindowsKey val) by (by eexists).
    repeat case_decide; tauto || done.
  - intros key K1 K2 K3. rewrite Hk, Hm, decide_False by tauto. done.
Qed.

End Oracle.

(** ** Concrete inputs *)

(** Two bonded validators, [alice] with power 10 and [bobby] with power 20. *)
Definition ref_val (name : string) : Validator :=
  {| OperatorAddress := "vtxvaloper1" +:+ name; VStatus := Bonded; GetConsAddr := Ok (bytes_of name) |}.

Definition ref_sdk : sdk_state :=
  mkSdk (fun _ d => if decide (d = "uvtx"%string) then 10 ^ 9 else 0)
        (fun d => if decide (d = "uvtx"%string) then 10 ^ 12 else 0)
        [ref_val "alice"; ref_val "bobby"]
        (fun a => if decide (a = bytes_of "alice") then 10 else if decide (a = bytes_of "bobby") then 20 else 0) 30.

(** A chain at a height and a time in seconds, with an oracle store. *)
Definition ref_chain (store : gmap bytes bytes) (height time : Z) : world (gmap bytes bytes) sdk_state :=
  mkWorld ∅ store ∅ ref_sdk height (time * Second) [].

Definition ref_keeper : Keeper := mkKeeper "vtx1gov" true.

(** Evaluates a closed statement. *)
Ltac ref_eval := vm_compute; first [reflexivity | discriminate | split; first [reflexivity | discriminate]].

Definition ref_msg : MsgSubmitFeed := mkMsgSubmitFeed "vtx1alice" "vtxvaloper1alice" "VTX:USD" "1.5".

Lemma SubmitFeed_spec_witness :
  exists w', SubmitFeed ref_keeper ref_msg (ref_chain ∅ 7 100) = (w', Ok tt) /\
    GetFeed (bytes_of "alice") "VTX:USD" w'
      = Ok (Some (mkOracleFeed "vtxvaloper1alice" "VTX:USD" "1.5" 7)).
Proof.
  exists (SubmitFeed ref_keeper ref_msg (ref_chain ∅ 7 100)).1.
  assert (SubmitFeed ref_keeper ref_msg (ref_chain ∅ 7 100)
          = ((SubmitFeed ref_keeper ref_msg (ref_chain ∅ 7 100)).1, Ok tt)) as E
    by (apply run_result; vm_compute; reflexivity).
  split; [exact E|].
  destruct (SubmitFeed_spec ref_keeper ref_msg (ref_chain ∅ 7 100)) as (_ & _ & H).
  - split; [ref_eval|split; ref_eval].
  - destruct (H _ E) as (val & Ev & G & _). vm_compute in Ev. injection Ev as <-. exact G.
Defined.

Definition ref_price : AggregatedPrice := mkAggregatedPrice "VTX:USD" "1.5" 10 (100 * Second).

Definition ref_priced : world (gmap bytes bytes) sdk_state :=
  (SetAggregatedPrice ref_price (ref_chain ∅ 10 100)).1.

(** The same chain at another time. *)
Definition at_time (w : world (gmap bytes bytes) sdk_state) (t : Z) : world (gmap bytes bytes) sdk_state :=
  mkWorld (w_fees w) (w_oracle w) (w_rwa w) (w_ext w) (w_height w) (t * Second) (w_events w).

Lemma price_lifetime_witness :
  GetAggregatedPrice (ap_Pair ref_price) (at_time ref_priced 400) = Ok ref_price /\
  GetAggregatedPrice (ap_Pair ref_price) (at_time ref_priced 401) = Err ErrStalePrice.
Proof.
  pose proof (fun t => price_lifetime ref_price DefaultParams (ref_chain ∅ 10 100) ref_priced (at_time ref_priced t)) as H.
  split.
  - rewrite H; [vm_compute; reflexivity|..].
    + split; [ref_eval|split; [split; ref_eval|split; ref_eval]].
    + apply run_result. vm_compute; reflexivity.
    + vm_compute; reflexivity.
    + ref_eval.
    + ref_eval.
    + reflexivity.
    + split; ref_eval.
  - vm_compute; reflexivity.
Defined.

(** Samples at 100 s and 160 s, read at 200 s. *)
Definition ref_sampled : world (gmap bytes bytes) sdk_state :=
  let w1 := (AppendTWAPEntry "VTX:USD" (1 * dec_one) (100 * Second) (ref_chain ∅ 10 100)).1 in
  at_time (AppendTWAPEntry "VTX:USD" (2 * dec_one) (160 * Second) w1).1 200.

Definition ref_samples : list TWAPEntry :=
  [mkTWAPEntry "VTX:USD" (DecString (1 * dec_one)) (100 * Second);
   mkTWAPEntry "VTX:USD" (DecString (2 * dec_one)) (160 * Second)].

Lemma ref_samples_stored :
  Forall2 (twap_entry "VTX:USD") (kv_prefix (view OracleKey ref_sampled) (TWAPPrefix "VTX:USD")) ref_samples.
Proof.
  set (l := kv_prefix _ _). vm_compute in l. subst l.
  repeat constructor; ref_eval.
Qed.

Lemma GetTWAP_average_witness :
  exists c, GetTWAP "VTX:USD" (60 * Second) ref_sampled = Ok c /\ 1 * dec_one <= c <= 2 * dec_one.
Proof.
  exists (14 * 10 ^ 17). split; [vm_compute; reflexivity|].
  destruct (GetTWAP_average "VTX:USD" (60 * Second) ref_sampled (14 * 10 ^ 17) ref_samples)
    as (params & pre & e0 & rest & post & ps & _ & _ & Es & _ & _ & _ & _ & _ & Hps & _ & Hb).
  - apply ref_samples_stored.
  - repeat constructor.
  - split; ref_eval.
  - vm_compute; reflexivity.
  - apply Hb. apply Forall_forall. intros p Hp. apply list_elem_of_lookup in Hp as [i Hi].
    destruct (Forall2_lookup_r _ _ _ _ _ Hps Hi) as (e & He & Hpar).
    assert (e ∈ ref_samples) as Hin.
    { rewrite Es. apply elem_of_app. right. apply elem_of_app. left. by apply list_elem_of_lookup_2 in He. }
    unfold ref_samples in Hin. rewrite !elem_of_cons, elem_of_nil in Hin.
    destruct Hin as [->|[->|[]]]; vm_compute in Hpar; injection Hpar as <-; split; ref_eval.
Defined.

(** The samples of twap_test.go: 100, 200 and 300 at 1000 s, 1100 s and 1200 s, read at
    1250 s over a window of 200 s. The code weights the leading sample from 1000 s and
    returns 180, the value of the test; weighted from the start of the window, 1050 s,
    as the design document and the comment of the test say, the average is 200. *)
Definition ref_test_samples : world (gmap bytes bytes) sdk_state :=
  let w1 := (AppendTWAPEntry "VTX:USD" (100 * dec_one) (1000 * Second) (ref_chain ∅ 10 100)).1 in
  let w2 := (AppendTWAPEntry "VTX:USD" (200 * dec_one) (1100 * Second) w1).1 in
  at_time (AppendTWAPEntry "VTX:USD" (300 * dec_one) (1200 * Second) w2).1 1250.

Lemma twap_leading_not_clamped :
  GetTWAP "VTX:USD" (200 * Second) ref_test_samples = Ok (180 * dec_one) /\
  100 * (1100 - 1000) + 200 * (1200 - 1100) + 300 * (1250 - 1200) = 180 * (1250 - 1000) /\
  100 * (1100 - 1050) + 200 * (1200 - 1100) + 300 * (1250 - 1200) = 200 * (1250 - 1050).
Proof. split; [vm_compute; reflexivity|lia]. Qed.

Lemma ref_sampled_wf : twap_wf "VTX:USD" (view OracleKey ref_sampled).
Proof.
  intros k v Hk Hp. pose proof (proj2 (elem_of_kv_prefix _ _ _ _) (conj Hk Hp)) as Hin.
  apply list_elem_of_lookup in Hin as [i Hi].
  destruct (Forall2_lookup_l _ _ _ _ _ ref_samples_stored Hi) as (e & _ & He). by exists e.
Qed.

Lemma PruneTWAP_exact_witness :
  exists w' m, PruneTWAPOlderThan "VTX:USD" (150 * Second) ref_sampled = (w', Ok tt) /\
    store_upd OracleKey m ref_sampled w' /\
    m !! TWAPKey "VTX:USD" (100 * Second) = None /\ is_Some (m !! TWAPKey "VTX:USD" (160 * Second)).
Proof.
  destruct (PruneTWAP_exact "VTX:USD" (150 * Second) ref_sampled ref_sampled_wf) as (w' & m & E & U & H & _).
  exists w', m. split; [exact E|]. split; [exact U|]. split.
  - rewrite H; [reflexivity|split; ref_eval].
  - rewrite H; [vm_compute; eauto|split; ref_eval].
Defined.

Definition ref_update : MsgUpdateParams :=
  mkMsgUpdateParams "vtx1gov" (mkOracleParams 20 "0.05" "0.005" "0.01" "0.05" 500 "0.667" 300 ["BTC:USD"%string]).

Lemma oracle_UpdateParams_spec_witness :
  let w := (IncMissCounter (bytes_of "alice") (ref_chain ∅ 7 100)).1 in
  exists w', UpdateParams ref_keeper ref_update w = (w', Ok tt) /\
    GetMissCounter (bytes_of "alice") w = Ok 1 /\ GetMissCounter (bytes_of "alice") w' = Ok 0.
Proof.
  intros w. exists (UpdateParams ref_keeper ref_update w).1.
  assert (UpdateParams ref_keeper ref_update w = ((UpdateParams ref_keeper ref_update w).1, Ok tt)) as E
    by (apply run_result; vm_compute; reflexivity).
  split; [exact E|]. split; [vm_compute; reflexivity|].
  destruct (fun H1 H2 => oracle_UpdateParams_spec ref_keeper ref_update w
      (UpdateParams ref_keeper ref_update w).1 DefaultParams H1 H2 E) as (_ & _ & _ & H & _).
  - split; [ref_eval|]. split; [split; ref_eval|]. split; [split; ref_eval|split; ref_eval].
  - vm_compute; reflexivity.
  - rewrite H. reflexivity.
Defined.
