(* ===== verification/OracleEndBlock.v ===== *)
(** * x/oracle: the end-blocker

    keeper/abci.go: at every vote-window boundary the feeds are aggregated into
    prices, outliers and absentees are slashed, and the feeds are cleared. *)

From S2P Require Import Prelude Sdk World SdkRef Wire OracleTypes OracleAgg OracleKeeper.

Open Scope Z_scope.

Section EndBlock.
Context {St X : Type} {KV : KVStore St} {SM : SdkMath} {BE : Bech32} {T : StdTime}
        {SK : StakingKeeper X} {SL : SlashingKeeper X}.
Local Abbreviation W := (world St X).

(** A nil consensus address is the empty one. *)
Definition slashValidator (v : Validator) (rate : Z) (reason : string) : M W unit :=
  or_return (lift (GetConsAddr v)) (fun consAddr =>
  if bool_decide (consAddr = []) then mret tt else
  or_return (lift (ValAddressFromBech32 (OperatorAddress v))) (fun valAddr =>
  or_return (ask (fun w => GetLastValidatorPower (w_ext w) valAddr)) (fun power =>
  if power =? 0 then mret tt else
  height ← ask (fun w => Ok (w_height w));
  or_return (ext (fun x => Slash x consAddr rate power height)) (fun _ =>
  emit EventTypeSlash
    [(AttributeKeyValidator, OperatorAddress v); (AttributeKeySlashReason, reason);
     (AttributeKeySlashFraction, DecString rate)])))).

(** The variables of one round of the loop over the pairs. *)
Record pair_feeds : Type := mkPairFeeds {
  weighted : list WeightedPrice;
  rawPrices : list Z;
  validFeeds : list (string * Z);
  submittedPower : Z
}.

(** The callback passed to [IterateAllFeeds]. *)
Definition collect_feed (valByOper : gmap string Validator) (x : X) (pair : string)
  (acc : pair_feeds) (val : bytes) (feedPair priceStr : string) : res (pair_feeds * bool) :=
  if negb (bool_decide (feedPair = pair)) then Ok (acc, true) else
  match LegacyNewDecFromStr priceStr with
  | Panic => Panic
  | Err _ => Ok (acc, true)
  | Ok price =>
      if negb (0 <? price) then Ok (acc, true) else
      match valByOper !! ValString val with
      | None => Ok (acc, true)
      | Some v =>
          if negb (VStatus v =? Bonded) then Ok (acc, true) else
          match GetLastValidatorPower x val with
          | Panic => Panic
          | Err _ => Ok (acc, true)
          | Ok pw =>
              if pw =? 0 then Ok (acc, true) else
              power ← IntAdd (submittedPower acc) pw;
              Ok (mkPairFeeds (weighted acc ++ [mkWeightedPrice price pw (ValString val)])
                    (rawPrices acc ++ [price]) (validFeeds acc ++ [(ValString val, price)]) power, true)
          end
      end
  end.

(** [f.price.Sub(refMedian).Abs()], [diff.Quo(refMedian).GT(outlierThreshold)]. *)
Definition outlier_check (valByOper : gmap string Validator) (refMedian outlierThreshold outlierSlashRate : Z)
  (f : string * Z) : M W unit :=
  diff ← lift (DecSub f.2 refMedian);
  q ← lift (DecQuo (Z.abs diff) refMedian);
  if outlierThreshold <? q then
    match valByOper !! f.1 with
    | Some v => slashValidator v outlierSlashRate "outlier"
    | None => mret tt
    end
  else mret tt.

(** One round of the loop over [params.AcceptList]; the result is [quorumLive]. *)
Definition pair_step (valByOper : gmap string Validator)
  (totalPower quorumFraction outlierThreshold outlierSlashRate height blockTime twapCutoff : Z)
  (quorumLive : list string) (pair : string) : M W (list string) :=
  fs ← ask (fun w => IterateAllFeeds (mkPairFeeds [] [] [] 0) (collect_feed valByOper (w_ext w) pair) w);
  match weighted fs with
  | [] => mret quorumLive
  | _ =>
      met ← lift (QuorumMet (submittedPower fs) totalPower quorumFraction);
      if negb met then mret quorumLive else
      let quorumLive := quorumLive ++ [pair] in
      let median := WeightedMedian (weighted fs) in
      let refMedian := UnweightedMedian (rawPrices fs) in
      _ ← SetAggregatedPrice (mkAggregatedPrice pair (DecString median) height blockTime);
      _ ← AppendTWAPEntry pair median blockTime;
      _ ← PruneTWAPOlderThan pair twapCutoff;
      _ ← emit EventTypePriceAggregated
            [(AttributeKeyPair, pair); (AttributeKeyPrice, DecString median)];
      _ ← (if 0 <? refMedian then
             mfor (validFeeds fs) (outlier_check valByOper refMedian outlierThreshold outlierSlashRate)
           else mret tt);
      mret quorumLive
  end.

(** One round of the loop over the bonded validators. *)
Definition miss_step (quorumLive : list string) (missWindowSize missThreshold missSlashRate : Z)
  (v : Validator) : M W unit :=
  match ValAddressFromBech32 (OperatorAddress v) with
  | Panic => lift Panic
  | Err _ => mret tt
  | Ok valAddr =>
      submitted ← ask (GetValidatorSubmittedPairs valAddr);
      let submittedAllLive := forallb (fun p => bool_decide (p ∈ submitted)) quorumLive in
      total ← IncTotalWindows valAddr;
      miss ← (if negb submittedAllLive then IncMissCounter valAddr else ask (GetMissCounter valAddr));
      if missWindowSize <=? total then
        missRate ← lift (DecQuo (LegacyNewDec miss) (LegacyNewDec total));
        _ ← (if missThreshold <? missRate then slashValidator v missSlashRate "miss" else mret tt);
        ResetValidatorWindows valAddr
      else mret tt
  end.

(** [height % params.VoteWindow]: division by zero panics. *)
Definition at_boundary (height voteWindow : Z) : res bool :=
  if voteWindow =? 0 then Panic else Ok (Z.rem height voteWindow =? 0).

Definition operators (vals : list Validator) : gmap string Validator :=
  foldl (fun m v => <[OperatorAddress v := v]> m) ∅ vals.

Definition EndBlocker : M W unit :=
  height ← ask (fun w => Ok (w_height w));
  params ← ask GetParams;
  boundary ← lift (at_boundary height (VoteWindow params));
  if negb boundary then mret tt else
  vals ← ask (fun w => GetBondedValidatorsByPower (w_ext w));
  let valByOper := operators vals in
  totalPower ← ask (fun w => GetLastTotalPower (w_ext w));
  quorumFraction ← lift (LegacyNewDecFromStr (QuorumFraction params));
  outlierThreshold ← lift (LegacyNewDecFromStr (OutlierThreshold params));
  outlierSlashRate ← lift (LegacyNewDecFromStr (OutlierSlashRate params));
  missThreshold ← lift (LegacyNewDecFromStr (MissThreshold params));
  missSlashRate ← lift (LegacyNewDecFromStr (MissSlashRate params));
  blockTime ← ask (fun w => Ok (w_time w));
  let twapCutoff := blockTime - 24 * Hour in
  quorumLive ← mfold (AcceptList params) [] (pair_step valByOper totalPower quorumFraction
                 outlierThreshold outlierSlashRate height blockTime twapCutoff);
  _ ← mfor vals (miss_step quorumLive (MissWindowSize params) missThreshold missSlashRate);
  DeleteAllFeeds.

(** ** The votes of a pair *)

Context {KVL : KVStoreLaws St} {SML : SdkMathLaws} {BEL : Bech32Laws} {TL : StdTimeLaws} {SLL : StakingLaws X}.

(** The entries under the feed prefix are feeds under their keys. *)
Definition feeds_wf (m : gmap bytes bytes) : Prop :=
  forall k v, m !! k = Some v -> KeyPrefixFeed `prefix_of` k ->
    exists val pair f, addr_ok val /\ FeedKey val pair = Ok k /\ MustUnmarshal (A := OracleFeed) v = Ok f.

(** The vote that a stored feed casts for [pair], if any: a positive price, from
    a bonded validator with power. *)
Definition feed_vote (valByOper : gmap string Validator) (x : X) (pair : string) (kv : bytes * bytes) :
  option WeightedPrice :=
  match ParseFeedKey kv.1, MustUnmarshal (A := OracleFeed) kv.2 with
  | Ok (val, p), Ok f =>
      match LegacyNewDecFromStr (of_Price f), valByOper !! ValString val, GetLastValidatorPower x val with
      | Ok price, Some v, Ok pw =>
          if bool_decide (p = pair) && (0 <? price) && (VStatus v =? Bonded) && negb (pw =? 0)
          then Some (mkWeightedPrice price pw (ValString val)) else None
      | _, _, _ => None
      end
  | _, _ => None
  end.

Definition votes (valByOper : gmap string Validator) (x : X) (pair : string) (m : gmap bytes bytes) :
  list WeightedPrice :=
  omap (feed_vote valByOper x pair) (kv_prefix m KeyPrefixFeed).

Definition add_votes (acc : pair_feeds) (vs : list WeightedPrice) : pair_feeds :=
  mkPairFeeds (weighted acc ++ vs) (rawPrices acc ++ (Price <$> vs))
    (validFeeds acc ++ ((fun v => (Valoper v, Price v)) <$> vs)) (submittedPower acc + weight_all vs).

Lemma add_votes_nil acc : add_votes acc [] = acc.
Proof. destruct acc. unfold add_votes, weight_all, weight_of. cbn. by rewrite !app_nil_r, Z.add_0_r. Qed.

Lemma add_votes_cons acc v vs : add_votes (add_votes acc [v]) vs = add_votes acc (v :: vs).
Proof.
  destruct acc. unfold add_votes, weight_all, weight_of. cbn. rewrite <- !app_assoc. f_equal; cbn; lia.
Qed.

Lemma collect_feed_vote valByOper x pair acc val p f k value :
  addr_ok val -> FeedKey val p = Ok k -> MustUnmarshal value = Ok f ->
  let vote := feed_vote valByOper x pair (k, value) in
  (forall v, vote = Some v -> Z.abs (submittedPower acc + Weight v) < int_limit) ->
  collect_feed valByOper x pair acc val p (of_Price f) =
    Ok (match vote with Some v => add_votes acc [v] | None => acc end, true).
Proof.
  intros Hval Hk Hf vote Hsum. unfold vote, feed_vote in *. cbn [fst snd] in *.
  rewrite (ParseFeedKey_FeedKey val p) in * by done. rewrite Hf in *. unfold collect_feed.
  pose proof (dec_parse_total (of_Price f)). pose proof (last_power_total x val).
  destruct (LegacyNewDecFromStr (of_Price f)) as [price| |]; try done; case_bool_decide; cbn [negb andb] in *; try done;
    destruct (valByOper !! ValString val) as [v|]; try done;
    destruct (GetLastValidatorPower x val) as [pw| |]; try done;
    destruct (0 <? price); try done; destruct (VStatus v =? Bonded); try done; destruct (pw =? 0); try done.
  cbn [negb andb] in *. specialize (Hsum _ eq_refl). cbn [Weight] in Hsum.
  rewrite int_add, decide_True by done. cbn [mbind res_bind]. unfold add_votes, weight_all, weight_of.
  cbn. by rewrite Z.add_0_r.
Qed.

Lemma iterate_feeds_votes valByOper x pair acc kvs :
  Forall (fun kv => exists val p f, addr_ok val /\ FeedKey val p = Ok kv.1 /\
                                    MustUnmarshal (A := OracleFeed) kv.2 = Ok f) kvs ->
  let vs := omap (feed_vote valByOper x pair) kvs in
  0 <= submittedPower acc -> Forall (fun v => 0 < Weight v) vs -> submittedPower acc + weight_all vs < int_limit ->
  iterate_feeds (collect_feed valByOper x pair) acc kvs = Ok (add_votes acc vs).
Proof.
  intros HF. revert acc. induction HF as [|[k value] kvs (val & p & f & H1 & H2 & H3) HF IH];
    intros acc vs Hacc Hpos Hsum; subst vs.
  { cbn. by rewrite add_votes_nil. }
  cbn [iterate_feeds]. cbn [fst snd] in *. rewrite (ParseFeedKey_FeedKey val p) by done.
  rewrite H3. cbn [mbind res_bind]. cbn [omap list_omap] in *.
  rewrite (collect_feed_vote _ _ _ _ _ _ _ k value) by (done || (intros v Hv; rewrite Hv in *;
    apply Forall_cons in Hpos as [? Hpos]; rewrite weight_all_cons in Hsum;
    pose proof (weight_of_nonneg (fun _ => true) _ Hpos) as Hn; fold (weight_all (omap (feed_vote valByOper x pair) kvs)) in Hn; lia)).
  cbn [mbind res_bind]. destruct (feed_vote valByOper x pair (k, value)) as [v|].
  - apply Forall_cons in Hpos as [Hv Hpos]. rewrite weight_all_cons in Hsum.
    rewrite IH; [by rewrite add_votes_cons| |done|];
      unfold add_votes, weight_all at 1, weight_of; cbn [submittedPower foldr]; lia.
  - by rewrite IH.
Qed.
(** ** What the votes of a pair are *)

Definition is_feed (kv : bytes * bytes) : Prop :=
  exists val p f, addr_ok val /\ FeedKey val p = Ok kv.1 /\ MustUnmarshal (A := OracleFeed) kv.2 = Ok f.

Lemma feeds_wf_entries m : feeds_wf m -> Forall is_feed (kv_prefix m KeyPrefixFeed).
Proof.
  intros Hm. apply Forall_forall. intros [k v] [Hk Hp]%elem_of_kv_prefix.
  destruct (Hm k v Hk Hp) as (val & p & f & H). by exists val, p, f.
Qed.

Lemma feed_vote_spec valByOper x pair kv vt : is_feed kv -> feed_vote valByOper x pair kv = Some vt ->
  exists val f v, addr_ok val /\ FeedKey val pair = Ok kv.1 /\ MustUnmarshal kv.2 = Ok f /\
    Valoper vt = ValString val /\ LegacyNewDecFromStr (of_Price f) = Ok (Price vt) /\ 0 < Price vt /\
    valByOper !! Valoper vt = Some v /\ VStatus v = Bonded /\
    GetLastValidatorPower x val = Ok (Weight vt) /\ 0 < Weight vt.
Proof.
  intros (val & p & f & Hv & Hk & Hf) H. unfold feed_vote in H.
  rewrite (ParseFeedKey_FeedKey val p) in H by done. rewrite Hf in H.
  destruct (LegacyNewDecFromStr (of_Price f)) as [price| |] eqn:Ep; try done.
  destruct (valByOper !! ValString val) as [v|] eqn:El; try done.
  destruct (GetLastValidatorPower x val) as [pw| |] eqn:Epw; try done.
  destruct (_ && _) eqn:C; [|done]. injection H as <-. rewrite !andb_true_iff, negb_true_iff in C.
  destruct C as [[[->%bool_decide_eq_true C2] C3%Z.eqb_eq] C4%Z.eqb_neq].
  pose proof (last_power_range _ _ _ Epw).
  exists val, f, v. cbn. split_and!; done || lia.
Qed.

Lemma votes_positive valByOper x pair kvs : Forall is_feed kvs ->
  Forall (fun v => 0 < Weight v) (omap (feed_vote valByOper x pair) kvs).
Proof.
  intros HF. apply Forall_forall. intros vt (kv & Hin & Hvt)%list_elem_of_omap.
  rewrite Forall_forall in HF. destruct (feed_vote_spec _ _ _ _ _ (HF _ Hin) Hvt) as (? & ? & ? & H). apply H.
Qed.

Lemma ValString_inj a b : addr_ok a -> addr_ok b -> ValString a = ValString b -> a = b.
Proof.
  intros Ha Hb E. apply val_print in Ha, Hb. rewrite E in Ha. rewrite Ha in Hb. by injection Hb.
Qed.

(** One vote per validator and pair. *)
Lemma votes_distinct valByOper x pair kvs : Forall is_feed kvs -> NoDup kvs.*1 ->
  NoDup (Valoper <$> omap (feed_vote valByOper x pair) kvs).
Proof.
  induction 1 as [|kv kvs Hkv HF IH]; intros HN; [constructor|].
  cbn in HN. apply NoDup_cons in HN as [Hnin HN]. cbn [omap list_omap].
  destruct (feed_vote valByOper x pair kv) as [vt|] eqn:E; [|by apply IH].
  cbn. apply NoDup_cons. split; [|by apply IH].
  intros (vt' & Heq & (kv' & Hin & E')%list_elem_of_omap)%list_elem_of_fmap.
  destruct (feed_vote_spec _ _ _ _ _ Hkv E) as (val & f & v & A1 & A2 & _ & A3 & _).
  rewrite Forall_forall in HF.
  destruct (feed_vote_spec _ _ _ _ _ (HF _ Hin) E') as (val' & f' & v' & B1 & B2 & _ & B3 & _).
  rewrite A3, B3 in Heq. apply ValString_inj in Heq as ->; [|done..].
  apply Hnin. rewrite A2 in B2. injection B2 as ->. by apply list_elem_of_fmap_2.
Qed.

Lemma operators_lookup vals s v : operators vals !! s = Some v -> v ∈ vals /\ OperatorAddress v = s.
Proof.
  unfold operators. enough (forall m : gmap string Validator, foldl (fun m v => <[OperatorAddress v := v]> m) m vals !! s = Some v ->
    (v ∈ vals /\ OperatorAddress v = s) \/ m !! s = Some v) as H.
  { intros [?|E]%H; [done|]. by rewrite lookup_empty in E. }
  induction vals as [|u vals IH]; intros m; cbn; [by right|].
  intros [[? ?]|H]%IH; [left; set_solver|].
  destruct (decide (OperatorAddress u = s)) as [<-|Hne].
  - rewrite lookup_insert_eq in H. injection H as ->. left. set_solver.
  - rewrite lookup_insert_ne in H by done. by right.
Qed.

(** The power of a validator, and of a list of them. *)
Definition power_of (x : X) (v : Validator) : Z :=
  match ValAddressFromBech32 (OperatorAddress v) with
  | Ok val => match GetLastValidatorPower x val with Ok p => p | _ => 0 end
  | _ => 0
  end.

Definition powers (x : X) (vals : list Validator) : Z := foldr (fun v acc => power_of x v + acc) 0 vals.

Lemma powers_cons x v l : powers x (v :: l) = power_of x v + powers x l.
Proof. done. Qed.

Lemma power_of_nonneg x v : 0 <= power_of x v.
Proof.
  unfold power_of. repeat case_match; try done.
  match goal with H : GetLastValidatorPower _ _ = Ok _ |- _ => apply last_power_range in H; lia end.
Qed.

Lemma powers_submseteq x l l' : l ⊆+ l' -> powers x l <= powers x l'.
Proof.
  unfold powers. induction 1; cbn in *; try lia. pose proof (power_of_nonneg x x0). lia.
Qed.

(** The power behind the votes of a pair is part of that of the bonded set. *)
Lemma votes_weight vals x pair kvs : Forall is_feed kvs -> NoDup kvs.*1 ->
  weight_all (omap (feed_vote (operators vals) x pair) kvs) <= powers x vals.
Proof.
  intros HF HN. set (vs := omap (feed_vote (operators vals) x pair) kvs).
  pose proof (votes_distinct (operators vals) x pair kvs HF HN) as HD. fold vs in HD.
  assert (Forall (fun vt => exists v, operators vals !! Valoper vt = Some v /\ power_of x v = Weight vt) vs) as HV.
  { apply Forall_forall. intros vt (kv & Hin & Hvt)%list_elem_of_omap. rewrite Forall_forall in HF.
    destruct (feed_vote_spec _ _ _ _ _ (HF _ Hin) Hvt) as (val & f & v & A1 & _ & _ & A3 & _ & _ & A4 & _ & A5 & _).
    exists v. split; [done|]. apply operators_lookup in A4 as [_ A4].
    unfold power_of. rewrite A4, A3, val_print by done. by rewrite A5. }
  set (ws := omap (fun vt => operators vals !! Valoper vt) vs).
  assert (weight_all vs = powers x ws /\ OperatorAddress <$> ws = Valoper <$> vs) as [-> Eo].
  { subst ws. clear HD. induction HV as [|vt vs' (v & E1 & E2) HV IH]; [done|].
    cbn [omap list_omap]. rewrite E1. destruct IH as [IH1 IH2]. rewrite weight_all_cons, IH1.
    apply operators_lookup in E1 as [_ E1]. rewrite powers_cons, !fmap_cons. split; [lia|by f_equal]. }
  apply powers_submseteq. apply NoDup_submseteq.
  - eapply NoDup_fmap_1. by rewrite Eo.
  - intros v (vt & _ & Hl)%list_elem_of_omap. by apply operators_lookup in Hl as [? _].
Qed.

Lemma kv_prefix_NoDup m p : NoDup (kv_prefix m p).*1.
Proof.
  unfold kv_prefix. pose proof (kv_sorted_NoDup m) as H.
  induction (kv_sorted m) as [|kv l IH]; [constructor|]. cbn in H. apply NoDup_cons in H as [H1 H2].
  rewrite filter_cons. case_decide; [|by apply IH]. cbn. apply NoDup_cons. split; [|by apply IH].
  intros (kv' & E & Hin)%list_elem_of_fmap. apply list_elem_of_filter in Hin as [_ Hin].
  apply H1. rewrite E. by apply list_elem_of_fmap_2.
Qed.

(** The scan of the feeds for one pair, on a well-formed store. *)
Lemma pair_scan vals pair (w : W) : feeds_wf (view OracleKey w) -> powers (w_ext w) vals < two63 ->
  let vs := votes (operators vals) (w_ext w) pair (view OracleKey w) in
  IterateAllFeeds (mkPairFeeds [] [] [] 0) (collect_feed (operators vals) (w_ext w) pair) w
    = Ok (mkPairFeeds vs (Price <$> vs) ((fun v => (Valoper v, Price v)) <$> vs) (weight_all vs)) /\
  weights_ok vs.
Proof.
  intros Hwf Hp vs. pose proof (feeds_wf_entries _ Hwf) as HF.
  pose proof (votes_weight vals (w_ext w) pair _ HF (kv_prefix_NoDup _ _)) as Hw.
  pose proof (votes_positive (operators vals) (w_ext w) pair _ HF) as Hpos.
  change (weight_all vs <= powers (w_ext w) vals) in Hw.
  split; [|split; [done|lia]].
  unfold IterateAllFeeds, FeedKeyPrefix. rewrite st_iterator_run by done. cbn [mbind res_bind].
  rewrite iterate_feeds_votes; [done|done|done|done|]. cbn [submittedPower].
  change (0 + weight_all vs < int_limit). unfold int_limit, two63 in *. lia.
Qed.

(** ** Slashing *)

(** What slashing can change: the SDK modules' state, but no last power, and the
    event log. *)
Definition slash_effect (w w' : W) : Prop :=
  (forall sk, get_store sk w' = get_store sk w) /\ w_height w' = w_height w /\ w_time w' = w_time w /\
  (forall v, GetLastValidatorPower (w_ext w') v = GetLastValidatorPower (w_ext w) v).

Lemma slash_effect_refl w : slash_effect w w.
Proof. done. Qed.

Lemma slash_effect_trans w1 w2 w3 : slash_effect w1 w2 -> slash_effect w2 w3 -> slash_effect w1 w3.
Proof.
  intros (A1 & A2 & A3 & A4) (B1 & B2 & B3 & B4). split_and!; intros; congruence.
Qed.

Lemma slashValidator_run v rate reason w : GetConsAddr v <> Panic ->
  exists w', slashValidator v rate reason w = (w', Ok tt) /\ slash_effect w w'.
Proof.
  intros Hc. assert (exists w', (w, Ok tt) = (w', Ok tt) /\ slash_effect w w') as Hnop by (by exists w).
  unfold slashValidator, or_return at 1, lift.
  destruct (GetConsAddr v) as [c| |]; [|done|done]. case_bool_decide; [done|].
  unfold or_return at 1. pose proof (val_parse_total (OperatorAddress v)).
  destruct (ValAddressFromBech32 (OperatorAddress v)) as [val| |]; [|done|done].
  unfold or_return at 1, ask at 1. pose proof (last_power_total (w_ext w) val).
  destruct (GetLastValidatorPower (w_ext w) val) as [pw| |]; [|done|done].
  destruct (pw =? 0); [done|]. erewrite bind_ask_run by reflexivity. unfold or_return.
  destruct (Slash (w_ext w) c rate pw (w_height w)) as [x r] eqn:E.
  rewrite (ext_run _ _ x r) by done. pose proof (slash_no_panic _ _ _ _ _ _ _ E).
  assert (slash_effect w (set_ext x w)) as Hs.
  { split_and!; [by intros []|done|done|]. intros u. cbn. by eapply slash_last_power. }
  destruct r as [[]| |]; [|by eexists|done]. eexists. split; [done|].
  eapply slash_effect_trans; [exact Hs|]. by split_and!; [intros []| | |].
Qed.

Lemma outlier_check_run valByOper ref thr rate f w :
  0 < ref < 2 ^ 255 -> 0 < f.2 < 2 ^ 255 ->
  (forall v, valByOper !! f.1 = Some v -> GetConsAddr v <> Panic) ->
  exists w', outlier_check valByOper ref thr rate f w = (w', Ok tt) /\ slash_effect w w'.
Proof.
  intros Hr Hf Hc. unfold outlier_check.
  erewrite bind_lift_run by (rewrite dec_sub, decide_True; [done|unfold dec_limit; lia]).
  set (d := Z.abs (f.2 - ref)).
  destruct (dec_quo_total d ref) as (q & Eq); [lia| |].
  { assert (0 <= Z.quot (d * dec_one * dec_one) ref <= d * dec_one * dec_one) as Hq.
    { rewrite Z.quot_div_nonneg by (unfold dec_one, d; lia).
      split; [apply Z.div_pos; unfold dec_one, d; lia|].
      apply Z.div_le_upper_bound; [lia|]. unfold dec_one, d in *. nia. }
    unfold dec_limit, dec_one, d in *. lia. }
  erewrite bind_lift_run by exact Eq. destruct (thr <? q); [|by exists w].
  destruct (valByOper !! f.1) as [v|]; [by apply slashValidator_run, Hc|by exists w].
Qed.

(** ** One pair *)

(** The pair reaches its quorum. *)
Definition quorum_live (vs : list WeightedPrice) (totalPower quorumFraction : Z) : bool :=
  match vs with
  | [] => false
  | _ => match QuorumMet (weight_all vs) totalPower quorumFraction with Ok b => b | _ => false end
  end.

(** During the loop over the pairs only prices and samples are written. *)
Definition same_round (w0 w : W) : Prop :=
  (forall k, ~ KeyPrefixAggregatedPrice `prefix_of` k -> ~ KeyPrefixTWAP `prefix_of` k ->
     view OracleKey w !! k = view OracleKey w0 !! k) /\
  (forall sk, sk <> OracleKey -> get_store sk w = get_store sk w0) /\
  w_height w = w_height w0 /\ w_time w = w_time w0 /\
  (forall v, GetLastValidatorPower (w_ext w) v = GetLastValidatorPower (w_ext w0) v).

Lemma same_round_refl w : same_round w w.
Proof. done. Qed.

Lemma same_round_slash w0 w w' : same_round w0 w -> slash_effect w w' -> same_round w0 w'.
Proof.
  intros (A1 & A2 & A3 & A4 & A5) (B1 & B2 & B3 & B4). split_and!; intros.
  - unfold view in *. rewrite B1. auto.
  - rewrite B1. auto.
  - congruence.
  - congruence.
  - by rewrite B4.
Qed.

Lemma same_round_write w0 w w' m : same_round w0 w -> store_upd OracleKey m w w' ->
  (forall k, ~ KeyPrefixAggregatedPrice `prefix_of` k -> ~ KeyPrefixTWAP `prefix_of` k ->
     m !! k = view OracleKey w !! k) -> same_round w0 w'.
Proof.
  intros (A1 & A2 & A3 & A4 & A5) (V & O & X1 & H1 & T1 & _) Hm. split_and!; intros.
  - rewrite V, Hm by done. auto.
  - rewrite O by done. auto.
  - congruence.
  - congruence.
  - by rewrite X1.
Qed.

(** The votes only depend on the feeds and the powers, which no round changes. *)
Lemma votes_same_round valByOper pair w0 w : same_round w0 w ->
  votes valByOper (w_ext w) pair (view OracleKey w) = votes valByOper (w_ext w0) pair (view OracleKey w0).
Proof.
  intros (A1 & _ & _ & _ & A5). unfold votes.
  rewrite (kv_prefix_ext (view OracleKey w) (view OracleKey w0)).
  - apply list_omap_ext, Forall_Forall2_diag, Forall_forall. intros kv _. unfold feed_vote.
    destruct (ParseFeedKey kv.1) as [[val p]| |]; [|done..]. by rewrite A5.
  - intros k Hp. apply A1; intros Hq; discriminate (prefix_distinct _ _ k Hp Hq).
Qed.

Lemma price_wf pair price height time :
  zlen (bytes_of pair) < 2 ^ 32 -> Z.abs price < dec_limit -> - two63 <= height < two63 -> time_ok time ->
  wf_msg (mkAggregatedPrice pair (DecString price) height time) /\
  wf_msg (mkTWAPEntry pair (DecString price) time).
Proof.
  intros Hp Hd Hh Ht. pose proof (dec_print_short _ Hd) as Hs.
  assert (zlen (bytes_of (DecString price)) <= 400) as Hs' by (unfold zlen; lia).
  pose proof (size_string_le pair ltac:(unfold two64; lia)).
  assert (size_string (DecString price) <= 411) as Hs2.
  { pose proof (size_string_le (DecString price)). unfold two64 in *. lia. }
  pose proof (size_int_le height). pose proof (size_time_le time Ht).
  split; cbn; unfold AggregatedPrice_Size, TWAPEntry_Size; cbn -[size_string size_int size_time Z.add];
    unfold two63 in *; split_and!; done || lia.
Qed.

Lemma twap_wf_sub pair m m' : twap_wf pair m -> (forall k v, m' !! k = Some v -> m !! k = Some v) -> twap_wf pair m'.
Proof. intros H Hs k v Hk Hp. by apply H; [apply Hs|]. Qed.

Lemma twap_wf_ext pair m m' : twap_wf pair m ->
  (forall k, TWAPPrefix pair `prefix_of` k -> m' !! k = m !! k) -> twap_wf pair m'.
Proof. intros H He k v Hk Hp. rewrite He in Hk by done. by apply H. Qed.

(** Publishing a price: the aggregated price, its sample, the pruning. *)
Lemma publish_run pair price height time cutoff (w : W) :
  zlen (bytes_of pair) < 2 ^ 32 -> Z.abs price < dec_limit -> - two63 <= height < two63 ->
  time_ok time -> 0 <= time < two63 -> twap_wf pair (view OracleKey w) ->
  exists w1 w2 w3 m,
    SetAggregatedPrice (mkAggregatedPrice pair (DecString price) height time) w = (w1, Ok tt) /\
    AppendTWAPEntry pair price time w1 = (w2, Ok tt) /\
    PruneTWAPOlderThan pair cutoff w2 = (w3, Ok tt) /\
    store_upd OracleKey m w w3 /\
    (exists bz, m !! AggregatedPriceKey pair = Some bz /\
       MustUnmarshal bz = Ok (mkAggregatedPrice pair (DecString price) height time)) /\
    (cutoff <= time -> exists bz, m !! TWAPKey pair time = Some bz /\
       MustUnmarshal bz = Ok (mkTWAPEntry pair (DecString price) time)) /\
    twap_wf pair m /\
    (forall k, k <> AggregatedPriceKey pair -> ~ TWAPPrefix pair `prefix_of` k -> m !! k = view OracleKey w !! k).
Proof.
  intros Hp Hd Hh Ht Ht2 Hwf. destruct (price_wf pair price height time Hp Hd Hh Ht) as [Hw1 Hw2].
  destruct (SetAggregatedPrice_run _ w Hw1) as (w1 & bz1 & E1 & D1 & U1). cbn [ap_Pair] in U1.
  destruct (MustUnmarshal_Marshal _ Hw2) as (bz2 & Em & D2).
  destruct (st_set_run OracleKey (TWAPKey pair time) bz2 w1) as (w2 & E2 & U2); [done|].
  pose proof (store_upd_trans _ _ _ _ _ _ U1 U2) as U12. destruct U1 as (V1 & _). rewrite V1 in U12.
  assert (twap_wf pair (view OracleKey w2)) as Hwf2.
  { destruct U12 as (-> & _). intros k v Hk Hpre. destruct (decide (k = TWAPKey pair time)) as [->|Hne].
    - rewrite lookup_insert_eq in Hk. injection Hk as <-. eexists. split; [|split; [|exact D2]]; done.
    - rewrite lookup_insert_ne in Hk by done. rewrite lookup_insert_ne in Hk; [by apply Hwf|].
      intros <-. destruct Hpre as [y Hy]. discriminate Hy. }
  destruct (PruneTWAP_run pair cutoff w2 Hwf2) as (w3 & m & E3 & U3 & P1 & P2 & P3).
  pose proof (store_upd_trans _ _ _ _ _ _ U12 U3) as U. destruct U12 as (V2 & _). rewrite V2 in *.
  assert (~ TWAPPrefix pair `prefix_of` AggregatedPriceKey pair) as Hna by (intros [y Hy]; discriminate Hy).
  exists w1, w2, w3, m. split_and!; [done| |done|done| | | |].
  - unfold AppendTWAPEntry. cbv zeta. by erewrite bind_lift_run by exact Em.
  - exists bz1. split; [|done]. rewrite P2 by done. rewrite lookup_insert_ne by done. apply lookup_insert_eq.
  - intros Hc. exists bz2. split; [|done]. rewrite P1 by done.
    destruct (Z.ltb_spec time cutoff); [lia|]. apply lookup_insert_eq.
  - by eapply twap_wf_sub.
  - intros k K1 K2. rewrite P2 by done. rewrite lookup_insert_ne by (intros <-; apply K2, TWAPKey_prefix).
    by rewrite lookup_insert_ne.
Qed.

(** ** The loop over the validators *)

(** The pairs a validator has a feed for. *)
Lemma iterate_submitted val (acc : gset string) kvs : addr_ok val -> Forall is_feed kvs ->
  exists s, iterate_feeds (fun pairs v pr _ => Ok (if bool_decide (v = val) then {[pr]} ∪ pairs else pairs, true))
              acc kvs = Ok s /\
    forall p, p ∈ s <-> p ∈ acc \/ exists kv, kv ∈ kvs /\ FeedKey val p = Ok kv.1.
Proof.
  intros Hval HF. revert acc. induction HF as [|[k value] kvs (v & pr & f & H1 & H2 & H3) HF IH]; intros acc.
  { exists acc. split; [done|]. intros p. split; [by left|]. intros [?|(kv & Hin & _)]; [done|].
    by apply not_elem_of_nil in Hin. }
  cbn [iterate_feeds]. cbn in H2, H3. rewrite (ParseFeedKey_FeedKey v pr) by done. rewrite H3. cbn [mbind res_bind].
  destruct (IH (if bool_decide (v = val) then {[pr]} ∪ acc else acc)) as (s & E & Hs).
  exists s. split; [done|]. intros p. rewrite Hs.
  assert (FeedKey val p = Ok k <-> v = val /\ pr = p) as Hk.
  { rewrite <- H2. split; [|by intros [-> ->]]. intros Eq. symmetry in Eq. by apply FeedKey_inj in Eq. }
  setoid_rewrite elem_of_cons.
  case_bool_decide; [rewrite elem_of_union, elem_of_singleton|]; naive_solver.
Qed.

Definition has_feed (m : gmap bytes bytes) (val : bytes) (pair : string) : bool :=
  match FeedKey val pair with Ok k => bool_decide (is_Some (m !! k)) | _ => false end.

Lemma submitted_run val (w : W) : addr_ok val -> feeds_wf (view OracleKey w) ->
  exists s, GetValidatorSubmittedPairs val w = Ok s /\
    forall p, bool_decide (p ∈ s) = has_feed (view OracleKey w) val p.
Proof.
  intros Hval Hwf. destruct (iterate_submitted val ∅ _ Hval (feeds_wf_entries _ Hwf)) as (s & E & Hs).
  exists s. split.
  { unfold GetValidatorSubmittedPairs, IterateAllFeeds, FeedKeyPrefix. by rewrite st_iterator_run. }
  intros p. unfold has_feed. pose proof (FeedKey_run val p Hval) as Ek. rewrite Ek.
  apply bool_decide_ext. rewrite Hs. split.
  - intros [Hn|([k v] & [Hin _]%elem_of_kv_prefix & Ek')]; [set_solver|].
    rewrite Ek in Ek'. injection Ek' as ->. cbn. by eexists.
  - intros [v Hv]. right. eexists (_, v). split; [|exact Ek]. apply elem_of_kv_prefix.
    split; [done|]. by eexists.
Qed.

(** [w'] is [w] after a validator's round: only its two counters and the SDK
    state may differ. *)
Definition counter_effect (val : bytes) (w w' : W) : Prop :=
  (forall k, k <> MissCounterKey val -> k <> TotalWindowsKey val ->
     view OracleKey w' !! k = view OracleKey w !! k) /\
  (forall sk, sk <> OracleKey -> get_store sk w' = get_store sk w) /\
  w_height w' = w_height w /\ w_time w' = w_time w /\
  (forall v, GetLastValidatorPower (w_ext w') v = GetLastValidatorPower (w_ext w) v).

Lemma counter_effect_trans val w1 w2 w3 :
  counter_effect val w1 w2 -> counter_effect val w2 w3 -> counter_effect val w1 w3.
Proof.
  intros (A1 & A2 & A3 & A4 & A5) (B1 & B2 & B3 & B4 & B5). split_and!; intros.
  - rewrite B1, A1; done.
  - rewrite B2, A2; done.
  - congruence.
  - congruence.
  - by rewrite B5.
Qed.

Lemma counter_effect_upd val m (w w' : W) : store_upd OracleKey m w w' ->
  (forall k, k <> MissCounterKey val -> k <> TotalWindowsKey val -> m !! k = view OracleKey w !! k) ->
  counter_effect val w w'.
Proof.
  intros (V & O & X1 & H1 & T1 & _) Hm. split_and!; intros; [rewrite V; auto|auto|done|done|by rewrite X1].
Qed.

Lemma slash_counter_effect val w w' : slash_effect w w' -> counter_effect val w w'.
Proof.
  intros (A1 & A2 & A3 & A4). split_and!; intros; [unfold view; by rewrite A1|by rewrite A1|done|done|done].
Qed.

Lemma MissCounterKey_inj a b : MissCounterKey a = MissCounterKey b -> a = b.
Proof. by intros [= ->]. Qed.

Lemma TotalWindowsKey_inj a b : TotalWindowsKey a = TotalWindowsKey b -> a = b.
Proof. by intros [= ->]. Qed.

(** Reading a counter after a write. *)
Lemma counters_after val t m (w w1 w2 : W) :
  store_upd OracleKey (<[TotalWindowsKey val := be64 t]> (view OracleKey w)) w w1 ->
  (store_upd OracleKey (<[MissCounterKey val := be64 m]> (view OracleKey w1)) w1 w2 \/
   w2 = w1 /\ GetMissCounter val w = Ok m) ->
  - two63 <= t < two63 -> - two63 <= m < two63 ->
  GetTotalWindows val w2 = Ok t /\ GetMissCounter val w2 = Ok m /\ counter_effect val w w2.
Proof.
  intros U1 H2 Ht Hm.
  assert (counter_effect val w w1) as C1.
  { apply (counter_effect_upd _ _ _ _ U1). intros k _ Hk. by rewrite lookup_insert_ne. }
  destruct U1 as (V1 & _). rewrite !GetTotalWindows_view, !GetMissCounter_view in *.
  destruct H2 as [U2|[-> Hmiss]].
  - assert (counter_effect val w1 w2) as C2.
    { apply (counter_effect_upd _ _ _ _ U2). intros k Hk _. by rewrite lookup_insert_ne. }
    destruct U2 as (V2 & _). rewrite V2, lookup_insert_eq, lookup_insert_ne, V1, lookup_insert_eq by done.
    split_and!; [by apply read_counter_be64..|by eapply counter_effect_trans].
  - rewrite V1, lookup_insert_eq, lookup_insert_ne by done. split_and!; [by apply read_counter_be64|done|done].
Qed.

Lemma ResetValidatorWindows_run val (w : W) : exists w', ResetValidatorWindows val w = (w', Ok tt) /\
  GetTotalWindows val w' = Ok 0 /\ GetMissCounter val w' = Ok 0 /\ counter_effect val w w'.
Proof.
  destruct (st_delete_run OracleKey (MissCounterKey val) w) as (w1 & E1 & U1); [done|].
  destruct (st_delete_run OracleKey (TotalWindowsKey val) w1) as (w2 & E2 & U2); [done|].
  exists w2. unfold ResetValidatorWindows. erewrite bind_Ok_run by exact E1.
  pose proof (store_upd_trans _ _ _ _ _ _ U1 U2) as U. destruct U1 as (V1 & _). rewrite V1 in U.
  split_and!; [done| | |].
  - destruct U as (V & _). by rewrite GetTotalWindows_view, V, lookup_delete_eq.
  - destruct U as (V & _). rewrite GetMissCounter_view, V, lookup_delete_ne by done. by rewrite lookup_delete_eq.
  - apply (counter_effect_upd _ _ _ _ U). intros k K1 K2. by rewrite !lookup_delete_ne.
Qed.

(** One validator: its window counter advances, its miss counter too when it has
    no feed for some live pair; a full window resets both. *)
Lemma miss_step_run ql mws mthr mrate v val t m (w : W) :
  ValAddressFromBech32 (OperatorAddress v) = Ok val -> GetConsAddr v <> Panic -> feeds_wf (view OracleKey w) ->
  GetTotalWindows val w = Ok t -> GetMissCounter val w = Ok m -> 0 <= m <= t -> t < two63 - 1 ->
  let missed := negb (forallb (has_feed (view OracleKey w) val) ql) in
  let full := mws <=? t + 1 in
  exists w', miss_step ql mws mthr mrate v w = (w', Ok tt) /\ counter_effect val w w' /\
    GetTotalWindows val w' = Ok (if full then 0 else t + 1) /\
    GetMissCounter val w' = Ok (if full then 0 else m + (if missed then 1 else 0)).
Proof.
  intros Hv Hc Hwf Ht Hm Hr Hmax missed full. unfold miss_step. rewrite Hv.
  destruct (submitted_run val w (val_parse_ok _ _ Hv) Hwf) as (s & Es & Hs).
  erewrite bind_ask_run by exact Es. cbv zeta.
  assert (negb (forallb (fun p => bool_decide (p ∈ s)) ql) = missed) as Hmiss.
  { unfold missed. f_equal. clear -Hs. induction ql as [|p ql IH]; cbn; [done|]. by rewrite Hs, IH. }
  rewrite Hmiss.
  destruct (IncTotalWindows_run val t w Ht ltac:(unfold two63 in *; lia)) as (w1 & E1 & U1).
  erewrite bind_Ok_run by exact E1.
  set (m' := m + (if missed then 1 else 0)).
  assert (exists w2, (if missed then IncMissCounter val else ask (GetMissCounter val)) w1 = (w2, Ok m') /\
    GetTotalWindows val w2 = Ok (t + 1) /\ GetMissCounter val w2 = Ok m' /\ counter_effect val w w2) as (w2 & E2 & T2 & M2 & C2).
  { assert (GetMissCounter val w1 = Ok m) as Hm1.
    { destruct U1 as (V1 & _). rewrite GetMissCounter_view, V1, lookup_insert_ne by done. by rewrite <- GetMissCounter_view. }
    unfold m'. destruct missed.
    - destruct (IncMissCounter_run val m w1 Hm1 ltac:(unfold two63 in *; lia)) as (w2 & E2 & U2). exists w2.
      split; [done|]. apply (counters_after val (t + 1) (m + 1) w w1 w2 U1); [by left|unfold two63 in *; lia..].
    - exists w1. rewrite Z.add_0_r. split; [unfold ask; by rewrite Hm1|].
      apply (counters_after val (t + 1) m w w1 w1 U1); [by right|unfold two63 in *; lia..]. }
  erewrite bind_Ok_run by exact E2. fold full. destruct full; [|by exists w2].
  assert (0 <= m' <= t + 1) as Hm' by (unfold m'; destruct missed; lia).
  destruct (dec_quo_total (LegacyNewDec m') (LegacyNewDec (t + 1))) as (q & Eq).
  { unfold LegacyNewDec, dec_one. lia. }
  { unfold LegacyNewDec. rewrite Z.quot_div_nonneg by (unfold dec_one; lia).
    assert (0 <= m' * dec_one * dec_one * dec_one / ((t + 1) * dec_one) <= dec_one * dec_one) as Hq.
    { split; [apply Z.div_pos; unfold dec_one; lia|]. apply Z.div_le_upper_bound; unfold dec_one in *; nia. }
    unfold dec_limit, dec_one in *. lia. }
  erewrite bind_lift_run by exact Eq.
  assert (exists w3, (if mthr <? q then slashValidator v mrate "miss" else mret tt) w2 = (w3, Ok tt) /\
    slash_effect w2 w3) as (w3 & E3 & H3).
  { destruct (mthr <? q); [by apply slashValidator_run|by exists w2]. }
  erewrite bind_Ok_run by exact E3.
  destruct (ResetValidatorWindows_run val w3) as (w4 & E4 & T4 & M4 & C4).
  exists w4. split_and!; [done| |done|done].
  eapply counter_effect_trans; [exact C2|]. eapply counter_effect_trans; [|exact C4]. by apply slash_counter_effect.
Qed.

(** ** The block *)

(** The operator addresses of the validators. *)
Definition val_addrs (vals : list Validator) : list bytes :=
  omap (fun v => match ValAddressFromBech32 (OperatorAddress v) with Ok a => Some a | _ => None end) vals.

(** Every stored feed is below 2^255 units (5.7e58). [SubmitFeed] checks no upper bound:
    this is a condition of the theorems on the end of a window, and
    [EndBlocker_outlier_overflow] shows a larger feed on which the block end panics. *)
Definition feeds_small (m : gmap bytes bytes) : Prop :=
  forall k v f d, m !! k = Some v -> KeyPrefixFeed `prefix_of` k ->
    MustUnmarshal v = Ok f -> LegacyNewDecFromStr (of_Price f) = Ok d -> d < 2 ^ 255.

(** A block at a vote-window boundary, on well-formed stores whose feeds are
    [feeds_small]. The powers of the bonded validators add up to at most the total,
    which is an [int64]. *)
Record boundary_block (w : W) (params : OracleParams) (vals : list Validator) (total : Z) : Prop := {
  bb_params : GetParams w = Ok params;
  bb_valid : Validate params = Ok tt;
  bb_short : Forall (fun p => zlen (bytes_of p) < 2 ^ 32) (AcceptList params);
  bb_window : Z.rem (w_height w) (VoteWindow params) = 0;
  bb_height : - two63 <= w_height w < two63;
  bb_time : time_ok (w_time w) /\ 0 <= w_time w < two63;
  bb_vals : GetBondedValidatorsByPower (w_ext w) = Ok vals;
  bb_cons : Forall (fun v => GetConsAddr v <> Panic) vals;
  bb_distinct : NoDup (val_addrs vals);
  bb_total : GetLastTotalPower (w_ext w) = Ok total;
  bb_powers : powers (w_ext w) vals <= total < two63;
  bb_feeds : feeds_wf (view OracleKey w);
  bb_prices : feeds_small (view OracleKey w);
  bb_twap : forall p, p ∈ AcceptList params -> twap_wf p (view OracleKey w);
  bb_counters : forall v val, v ∈ vals -> ValAddressFromBech32 (OperatorAddress v) = Ok val ->
    exists t m, GetTotalWindows val w = Ok t /\ GetMissCounter val w = Ok m /\ 0 <= m <= t /\ t < two63 - 1
}.

Section Block.
Context (w0 : W) (params : OracleParams) (vals : list Validator) (total : Z)
        (BB : boundary_block w0 params vals total).

(** The votes of a pair at the start of the block. *)
Definition block_votes (pair : string) : list WeightedPrice :=
  votes (operators vals) (w_ext w0) pair (view OracleKey w0).

Lemma powers_same_round w l : same_round w0 w -> powers (w_ext w) l = powers (w_ext w0) l.
Proof.
  intros (_ & _ & _ & _ & A5). unfold powers. induction l as [|v l IH]; cbn [foldr]; [done|].
  rewrite IH. unfold power_of. destruct (ValAddressFromBech32 _); [|done..]. by rewrite A5.
Qed.

Lemma block_votes_scan w pair : same_round w0 w ->
  let vs := block_votes pair in
  IterateAllFeeds (mkPairFeeds [] [] [] 0) (collect_feed (operators vals) (w_ext w) pair) w
    = Ok (mkPairFeeds vs (Price <$> vs) ((fun v => (Valoper v, Price v)) <$> vs) (weight_all vs)) /\
  weights_ok vs /\ weight_all vs <= total.
Proof.
  intros Hr vs. pose proof (bb_feeds _ _ _ _ BB) as Hf. pose proof (bb_powers _ _ _ _ BB) as Hp.
  assert (feeds_wf (view OracleKey w)) as Hf'.
  { intros k v Hk Hpre. apply (Hf k v); [|done]. rewrite <- (proj1 Hr k); [done| |];
      intros Hq; discriminate (prefix_distinct _ _ k Hpre Hq). }
  destruct (pair_scan vals pair w Hf') as [E Hok].
  { rewrite powers_same_round by done. lia. }
  rewrite (votes_same_round _ _ w0 w Hr) in E, Hok. split_and!; [exact E|exact Hok|].
  pose proof (votes_weight vals (w_ext w0) pair _ (feeds_wf_entries _ Hf) (kv_prefix_NoDup _ _)) as Hw.
  change (weight_all vs <= powers (w_ext w0) vals) in Hw. lia.
Qed.

(** Facts about each vote of the block. *)
Lemma block_vote_facts pair vt : vt ∈ block_votes pair ->
  0 < Price vt < 2 ^ 255 /\ (forall v, operators vals !! Valoper vt = Some v -> GetConsAddr v <> Panic).
Proof.
  intros (kv & Hin & Hvt)%list_elem_of_omap. pose proof (bb_feeds _ _ _ _ BB) as Hf.
  pose proof (feeds_wf_entries _ Hf) as HF. rewrite Forall_forall in HF.
  destruct (feed_vote_spec _ _ _ _ _ (HF _ Hin) Hvt) as (val & f & v & _ & _ & B1 & B2 & B3 & B4 & B5 & _).
  destruct kv as [k value]. apply elem_of_kv_prefix in Hin as [Hk Hpre].
  split; [split; [done|by eapply (bb_prices _ _ _ _ BB k value)]|].
  intros v' [Hv' _]%operators_lookup. pose proof (bb_cons _ _ _ _ BB) as Hc.
  rewrite Forall_forall in Hc. by apply Hc.
Qed.

(** The price of [pair] was published in this block. *)
Definition published (pair : string) (m : gmap bytes bytes) : Prop :=
  let price := DecString (WeightedMedian (block_votes pair)) in
  (exists bz, m !! AggregatedPriceKey pair = Some bz /\
     MustUnmarshal bz = Ok (mkAggregatedPrice pair price (w_height w0) (w_time w0))) /\
  (exists bz, m !! TWAPKey pair (w_time w0) = Some bz /\
     MustUnmarshal bz = Ok (mkTWAPEntry pair price (w_time w0))).

Definition live (quorumFraction : Z) (pair : string) : bool :=
  quorum_live (block_votes pair) total quorumFraction.

(** The price of a live pair is positive and in range. *)
Lemma live_price qf pair : live qf pair = true -> 0 < WeightedMedian (block_votes pair) < 2 ^ 255.
Proof.
  intros El. destruct (block_votes_scan w0 pair (same_round_refl w0)) as (_ & Hok & _).
  destruct (WeightedMedian_elem (block_votes pair)) as (e & He & Em); [|done|].
  { unfold live, quorum_live in El. by destruct (block_votes pair). }
  destruct (block_vote_facts pair e He) as [Hp _]. by rewrite Em in Hp.
Qed.

(** The outlier checks of a live pair only slash. *)
Lemma outliers_run pair thr rate w :
  exists w',
    (if 0 <? UnweightedMedian (Price <$> block_votes pair) then
       mfor ((fun v => (Valoper v, Price v)) <$> block_votes pair)
         (outlier_check (operators vals) (UnweightedMedian (Price <$> block_votes pair)) thr rate)
     else mret tt) w = (w', Ok tt) /\ slash_effect w w'.
Proof.
  destruct (Z.ltb_spec 0 (UnweightedMedian (Price <$> block_votes pair))) as [Hpos|_]; [|by exists w].
  assert (UnweightedMedian (Price <$> block_votes pair) < 2 ^ 255) as Hlt.
  { destruct (block_votes pair) as [|vt vs] eqn:E; [done|]. rewrite <- E in *.
    assert (UnweightedMedian (Price <$> block_votes pair) ∈ Price <$> block_votes pair) as Hin
      by (apply UnweightedMedian_elem; by rewrite E).
    apply list_elem_of_fmap in Hin as (vt' & -> & [[_ ?] _]%block_vote_facts). done. }
  apply (mfor_run (slash_effect w)); [apply slash_effect_refl|].
  intros f s (vt & -> & Hvt)%list_elem_of_fmap Hs. destruct (block_vote_facts _ _ Hvt) as [Hp Hc].
  destruct (outlier_check_run (operators vals) (UnweightedMedian (Price <$> block_votes pair)) thr rate
    (Valoper vt, Price vt) s) as (s' & E & Hs'); [done|done|done|].
  exists s'. split; [done|]. by eapply slash_effect_trans.
Qed.

Lemma QuorumMet_live qf pair : block_votes pair <> [] ->
  QuorumMet (weight_all (block_votes pair)) total qf = Ok (live qf pair).
Proof.
  intros Hne. destruct (block_votes_scan w0 pair (same_round_refl w0)) as (_ & [Hpos Hsum] & Htot).
  pose proof (weight_of_nonneg (fun _ => true) _ Hpos) as Hn. fold (weight_all (block_votes pair)) in Hn.
  pose proof (bb_powers _ _ _ _ BB).
  assert (exists b, QuorumMet (weight_all (block_votes pair)) total qf = Ok b) as [b Eb].
  { destruct (Z.eq_dec total 0) as [->|Hnz]; [by eexists|].
    destruct (QuorumMet_ratio (weight_all (block_votes pair)) total qf) as (c & E & _); [lia|lia|eauto]. }
  unfold live, quorum_live. destruct (block_votes pair); [done|]. by rewrite Eb.
Qed.

Lemma pair_step_run w ql pair qf ot osr :
  same_round w0 w -> pair ∈ AcceptList params -> twap_wf pair (view OracleKey w) ->
  exists w', pair_step (operators vals) total qf ot osr (w_height w0) (w_time w0) (w_time w0 - 24 * Hour) ql pair w
      = (w', Ok (if live qf pair then ql ++ [pair] else ql)) /\
    same_round w0 w' /\ twap_wf pair (view OracleKey w') /\
    (forall k, k <> AggregatedPriceKey pair -> ~ TWAPPrefix pair `prefix_of` k ->
       view OracleKey w' !! k = view OracleKey w !! k) /\
    (if live qf pair then published pair (view OracleKey w') else view OracleKey w' = view OracleKey w).
Proof.
  intros Hr Hin Htw. destruct (block_votes_scan w pair Hr) as (E & Hok & Htot).
  unfold pair_step. erewrite bind_ask_run by exact E. cbn [weighted rawPrices validFeeds submittedPower].
  assert (live qf pair = false -> exists w', (w, Ok ql) = (w', Ok (if live qf pair then ql ++ [pair] else ql)) /\
    same_round w0 w' /\ twap_wf pair (view OracleKey w') /\
    (forall k, k <> AggregatedPriceKey pair -> ~ TWAPPrefix pair `prefix_of` k ->
       view OracleKey w' !! k = view OracleKey w !! k) /\
    (if live qf pair then published pair (view OracleKey w') else view OracleKey w' = view OracleKey w)) as Hnop.
  { intros ->. by exists w. }
  destruct (block_votes pair) as [|vt vs] eqn:Ev; [apply Hnop; unfold live; by rewrite Ev|]. rewrite <- Ev in *.
  erewrite bind_lift_run by (apply QuorumMet_live; by rewrite Ev).
  destruct (live qf pair) eqn:El; cbn [negb]; [clear Hnop|by apply Hnop]. cbv zeta.
  destruct (WeightedMedian_elem (block_votes pair) ltac:(by rewrite Ev) Hok) as (e & He & Em).
  destruct (block_vote_facts _ _ He) as [Hp _]. rewrite Em in Hp.
  pose proof (bb_short _ _ _ _ BB) as Hsh. rewrite Forall_forall in Hsh.
  destruct (bb_time _ _ _ _ BB) as [Ht1 Ht2].
  destruct (publish_run pair (WeightedMedian (block_votes pair)) (w_height w0) (w_time w0) (w_time w0 - 24 * Hour) w)
    as (w1 & w2 & w3 & m & S1 & S2 & S3 & U & P1 & P2 & P3 & P4);
    [by apply Hsh|unfold dec_limit; lia|apply (bb_height _ _ _ _ BB)|done|done|done|].
  erewrite bind_Ok_run by exact S1. erewrite bind_Ok_run by exact S2. erewrite bind_Ok_run by exact S3.
  erewrite bind_Ok_run by reflexivity.
  match goal with |- context [mbind (M := M W) _ (if _ then _ else _) ?s] =>
    destruct (outliers_run pair ot osr s) as (w5 & E5 & H5); set (w4 := s) in * end.
  erewrite bind_Ok_run by exact E5.
  assert (same_round w0 w3) as Hr3.
  { eapply same_round_write; [exact Hr|exact U|]. intros k K1 K2. apply P4.
    - intros ->. apply K1. by eexists.
    - intros [y Hy]. apply K2. subst k. by eexists. }
  assert (view OracleKey w5 = m) as V5.
  { destruct H5 as (A1 & _). unfold view. rewrite A1. unfold w4. by destruct U as (V & _). }
  exists w5. split_and!; [done| | | |].
  - apply (same_round_slash w0 w4); [|done]. by destruct Hr3 as (A1 & A2 & A3 & A4 & A5); split_and!.
  - by rewrite V5.
  - intros k K1 K2. rewrite V5. by apply P4.
  - rewrite V5. split; [done|]. apply P2. unfold Hour, Second. lia.
Qed.

(** ** The loop over the pairs *)

Lemma pairRegex_accepted p : p ∈ AcceptList params -> pairRegex p = true.
Proof.
  intros Hp. pose proof (bb_valid _ _ _ _ BB) as Hv. apply OracleParams_Validate_spec in Hv as (_ & _ & _ & _ & _ & _ & _ & HF).
  rewrite Forall_forall in HF. by apply HF.
Qed.

Lemma AggregatedPriceKey_inj p q : AggregatedPriceKey p = AggregatedPriceKey q -> p = q.
Proof. intros [= E]. by apply (inj bytes_of). Qed.

(** A pair's entries are not touched by the round of another pair. *)
Lemma pair_keys_disjoint p q k : p ∈ AcceptList params -> q ∈ AcceptList params -> p <> q ->
  k = AggregatedPriceKey q \/ (exists t, k = TWAPKey q t) ->
  k <> AggregatedPriceKey p /\ ~ TWAPPrefix p `prefix_of` k.
Proof.
  intros Hp%pairRegex_accepted Hq%pairRegex_accepted Hne [->|(t & ->)]; split.
  - intros E%AggregatedPriceKey_inj. congruence.
  - intros [y Hy]. discriminate Hy.
  - discriminate.
  - intros E%TWAPPrefix_separates; [congruence|done|done].
Qed.

(** The state of the loop after the pairs [pre]. *)
Definition pairs_inv (qf : Z) (pre : list string) (ql : list string) (w : W) : Prop :=
  same_round w0 w /\ ql = filter (fun p => live qf p = true) pre /\
  (forall p, p ∈ AcceptList params -> twap_wf p (view OracleKey w)) /\
  (forall p, p ∈ pre -> live qf p = true -> published p (view OracleKey w)) /\
  (forall p, (p ∈ pre -> live qf p = false) ->
     view OracleKey w !! AggregatedPriceKey p = view OracleKey w0 !! AggregatedPriceKey p) /\
  (forall k, (forall p, p ∈ pre -> k <> AggregatedPriceKey p /\ ~ TWAPPrefix p `prefix_of` k) ->
     view OracleKey w !! k = view OracleKey w0 !! k).

Lemma pairs_run qf ot osr :
  exists w ql, mfold (AcceptList params) [] (pair_step (operators vals) total qf ot osr (w_height w0) (w_time w0)
                 (w_time w0 - 24 * Hour)) w0 = (w, Ok ql) /\ pairs_inv qf (AcceptList params) ql w.
Proof.
  apply (mfold_run_prefix (pairs_inv qf)).
  { split_and!; [apply same_round_refl|done|apply (bb_twap _ _ _ _ BB)|set_solver|done|done]. }
  intros pre p post ql w El (I1 & I2 & I3 & I4 & I5 & I6).
  assert (p ∈ AcceptList params) as Hp by (rewrite El; set_solver).
  assert (p ∉ pre) as Hnew.
  { pose proof (bb_valid _ _ _ _ BB) as Hv. apply OracleParams_Validate_spec in Hv as (_ & _ & _ & _ & _ & _ & HN & _).
    rewrite El in HN. apply NoDup_app in HN as (_ & HN & _). intros Hin. apply (HN p Hin). left. }
  destruct (pair_step_run w ql p qf ot osr I1 Hp (I3 p Hp)) as (w' & E & R1 & R2 & R3 & R4).
  assert (forall q k, q ∈ AcceptList params -> p <> q -> k = AggregatedPriceKey q \/ (exists t, k = TWAPKey q t) ->
    view OracleKey w' !! k = view OracleKey w !! k) as Hother.
  { intros q k Hq Hne Hk. destruct (pair_keys_disjoint p q k Hp Hq Hne Hk). by apply R3. }
  eexists w', _. split; [exact E|]. split_and!; [done| | | | |].
  - rewrite filter_app, <- I2, filter_cons, filter_nil.
    destruct (live qf p); [by rewrite decide_True|]. rewrite decide_False by done. by rewrite app_nil_r.
  - intros q Hq. destruct (decide (p = q)) as [<-|Hne]; [done|].
    eapply twap_wf_ext; [by apply I3|]. intros k Hk. apply R3.
    + intros ->. destruct Hk as [y Hy]. discriminate Hy.
    + intros Hk'. apply Hne. apply pairRegex_accepted, pairRegex_no_slash in Hp, Hq.
      destruct Hk as [y ->], Hk' as [z Hz]. unfold TWAPPrefix in Hz. rewrite <- !app_assoc in Hz.
      injection Hz as Hz. apply (inj bytes_of). symmetry.
      apply (sep_prefix "/"%byte _ _ z); [done|done|]. exists y. rewrite <- app_assoc. done.
  - intros q [Hq| ->%list_elem_of_singleton]%elem_of_app Hl; [|by rewrite Hl in R4].
    assert (q ∈ AcceptList params) as Hq' by (rewrite El; set_solver).
    destruct (I4 q Hq Hl) as [(bz & B1 & B2) (bz' & B3 & B4)].
    split; [exists bz|exists bz']; (split; [|done]).
    + rewrite (Hother q) by (done || (by left) || (by intros ->)). done.
    + rewrite (Hother q) by (done || (by right; eexists) || (by intros ->)). done.
  - intros q Hd. destruct (decide (p = q)) as [<-|Hne].
    + rewrite Hd in R4 by set_solver. rewrite R4. apply I5. tauto.
    + rewrite R3; [apply I5; intros Hin; apply Hd; set_solver| |].
      * intros Eq%AggregatedPriceKey_inj. congruence.
      * intros [y Hy]. discriminate Hy.
  - intros k Hk. destruct (Hk p ltac:(set_solver)). rewrite R3 by done. apply I6. set_solver.
Qed.

(** The validator misses the window: some live pair has no feed from it. *)
Definition missed (qf : Z) (val : bytes) : bool :=
  negb (forallb (has_feed (view OracleKey w0) val) (filter (fun p => live qf p = true) (AcceptList params))).

(** The counters of a validator after its round, from those before the block. *)
Definition counted (qf : Z) (val : bytes) (w : W) : Prop :=
  forall t m, GetTotalWindows val w0 = Ok t -> GetMissCounter val w0 = Ok m ->
    let full := MissWindowSize params <=? t + 1 in
    GetTotalWindows val w = Ok (if full then 0 else t + 1) /\
    GetMissCounter val w = Ok (if full then 0 else m + (if missed qf val then 1 else 0)).

Definition same_counters (val : bytes) (w w' : W) : Prop :=
  GetTotalWindows val w' = GetTotalWindows val w /\ GetMissCounter val w' = GetMissCounter val w.

Lemma counter_effect_other val val' w w' : counter_effect val w w' -> val' <> val -> same_counters val' w w'.
Proof.
  intros (A1 & _) Hne. split; rewrite ?GetTotalWindows_view, ?GetMissCounter_view, A1; try done.
  - by intros [= ->].
  - by intros [= ->].
Qed.

(** The state of the loop, started at [w1], after the validators [pre]. *)
Definition misses_inv (qf : Z) (w1 : W) (pre : list Validator) (w : W) : Prop :=
  (forall k, ~ KeyPrefixMissCounter `prefix_of` k -> ~ KeyPrefixTotalWindows `prefix_of` k ->
     view OracleKey w !! k = view OracleKey w1 !! k) /\
  (forall sk, sk <> OracleKey -> get_store sk w = get_store sk w1) /\
  (forall val, if decide (val ∈ val_addrs pre) then counted qf val w else same_counters val w0 w).

Lemma val_addrs_app l l' : val_addrs (l ++ l') = val_addrs l ++ val_addrs l'.
Proof. apply omap_app. Qed.

Lemma val_addrs_snoc l v : val_addrs (l ++ [v]) =
  match ValAddressFromBech32 (OperatorAddress v) with Ok a => val_addrs l ++ [a] | _ => val_addrs l end.
Proof.
  rewrite val_addrs_app. unfold val_addrs at 2. cbn.
  destruct (ValAddressFromBech32 (OperatorAddress v)); by rewrite ?app_nil_r.
Qed.

Lemma val_addrs_elem l val : val ∈ val_addrs l <-> exists v, v ∈ l /\ ValAddressFromBech32 (OperatorAddress v) = Ok val.
Proof.
  unfold val_addrs. rewrite list_elem_of_omap. split; intros (v & Hv & E); exists v; (split; [done|]).
  - by destruct (ValAddressFromBech32 (OperatorAddress v)); simplify_eq.
  - by rewrite E.
Qed.

Lemma misses_run qf mthr mrate w1 : same_round w0 w1 ->
  exists w2, mfor vals (miss_step (filter (fun p => live qf p = true) (AcceptList params))
                          (MissWindowSize params) mthr mrate) w1 = (w2, Ok tt) /\ misses_inv qf w1 vals w2.
Proof.
  intros Hr. apply (mfor_run_prefix (misses_inv qf w1)).
  { split_and!; [done|done|]. intros val. rewrite decide_False by apply not_elem_of_nil.
    destruct Hr as (A1 & _). split; rewrite ?GetTotalWindows_view, ?GetMissCounter_view, A1; try done;
      intros [y Hy]; discriminate Hy. }
  intros pre v post w El (I1 & I2 & I3).
  assert (v ∈ vals) as Hv by (rewrite El; set_solver).
  destruct (ValAddressFromBech32 (OperatorAddress v)) as [val|e|] eqn:Ev;
    [|exists w; unfold miss_step; rewrite Ev; split; [done|]; split_and!; [done|done|];
      intros val'; specialize (I3 val'); rewrite val_addrs_snoc, Ev; done
     |by apply val_parse_total in Ev].
  assert (val ∈ val_addrs vals) as Hval by (apply val_addrs_elem; by exists v).
  assert (val ∉ val_addrs pre) as Hnew.
  { pose proof (bb_distinct _ _ _ _ BB) as HN. rewrite El, val_addrs_app in HN.
    apply NoDup_app in HN as (_ & HN & _). intros Hin. apply (HN val Hin). unfold val_addrs. cbn. rewrite Ev. left. }
  pose proof (I3 val) as Hc. rewrite decide_False in Hc by done. destruct Hc as [Ct Cm].
  destruct (bb_counters _ _ _ _ BB v val Hv Ev) as (t & m & Ht & Hm & Hmt & Hmax).
  assert (forall k, KeyPrefixFeed `prefix_of` k -> view OracleKey w !! k = view OracleKey w0 !! k) as Hfeeds.
  { intros k Hk. rewrite I1, (proj1 Hr); try done; intros Hq; discriminate (prefix_distinct _ _ k Hk Hq). }
  assert (feeds_wf (view OracleKey w)) as Hwf.
  { intros k u Hk Hpre. rewrite Hfeeds in Hk by done. by apply (bb_feeds _ _ _ _ BB). }
  pose proof (bb_cons _ _ _ _ BB) as Hcons. rewrite Forall_forall in Hcons.
  destruct (miss_step_run (filter (fun p => live qf p = true) (AcceptList params)) (MissWindowSize params)
    mthr mrate v val t m w Ev (Hcons v Hv) Hwf) as (w' & E & C & T' & M'); [congruence|congruence|done|done|].
  exists w'. split; [done|]. split_and!.
  - intros k K1 K2. destruct C as (C1 & _). rewrite C1; [by apply I1| |]; intros ->; [apply K1|apply K2]; by eexists.
  - intros sk Hsk. destruct C as (_ & C2 & _). rewrite C2 by done. by apply I2.
  - intros val'. rewrite val_addrs_snoc, Ev.
    destruct (decide (val' = val)) as [->|Hne].
    + rewrite decide_True by set_solver. intros t' m' Ht' Hm'. rewrite Ht in Ht'. rewrite Hm in Hm'. simplify_eq.
      split; [exact T'|]. rewrite M'. unfold missed.
      assert (forall l, forallb (has_feed (view OracleKey w) val) l = forallb (has_feed (view OracleKey w0) val) l) as Hl.
      { clear -Hfeeds Ev BEL. induction l as [|p l IH]; [done|]. cbn [forallb]. rewrite IH. f_equal.
        unfold has_feed. rewrite FeedKey_run by (by eapply val_parse_ok). rewrite Hfeeds; [done|]. by eexists. }
      by rewrite Hl.
    + specialize (I3 val'). destruct (counter_effect_other val val' w w' C Hne) as [D1 D2].
      destruct (decide (val' ∈ val_addrs pre)) as [Hin|Hnin].
      * rewrite decide_True by set_solver. intros t' m' Ht' Hm'. cbv zeta. rewrite D1, D2. by apply I3.
      * rewrite decide_False by set_solver. destruct I3 as [D3 D4]. split; congruence.
Qed.

Lemma EndBlocker_effect qf : LegacyNewDecFromStr (QuorumFraction params) = Ok qf ->
  exists w1 w2 w', EndBlocker w0 = (w', Ok tt) /\
    pairs_inv qf (AcceptList params) (filter (fun p => live qf p = true) (AcceptList params)) w1 /\
    misses_inv qf w1 vals w2 /\
    (forall sk, sk <> OracleKey -> get_store sk w' = get_store sk w2) /\
    (forall k, view OracleKey w' !! k = if decide (KeyPrefixFeed `prefix_of` k) then None else view OracleKey w2 !! k).
Proof.
  intros Hqf. pose proof (bb_valid _ _ _ _ BB) as Hv.
  apply OracleParams_Validate_spec in Hv as (Hvw & Hmws & _ & Hd & Hs & _).
  destruct (Hd (OutlierThreshold params) ltac:(set_solver)) as (ot & Eot & _).
  destruct (Hd (MissThreshold params) ltac:(set_solver)) as (mt & Emt & _).
  destruct (Hs (OutlierSlashRate params) ltac:(set_solver)) as (osr & Eosr & _).
  destruct (Hs (MissSlashRate params) ltac:(set_solver)) as (msr & Emsr & _).
  destruct (pairs_run qf ot osr) as (w1 & ql & E1 & I1). pose proof I1 as (Hr & Eql & _). subst ql.
  destruct (misses_run qf mt msr w1 Hr) as (w2 & E2 & I2).
  destruct (DeleteAllFeeds_run w2) as (w' & m & E3 & (V3 & O3 & _) & Hm).
  exists w1, w2, w'. split_and!; [|done|done|done|].
  - unfold EndBlocker. erewrite bind_ask_run by reflexivity.
    erewrite bind_ask_run by exact (bb_params _ _ _ _ BB).
    assert (at_boundary (w_height w0) (VoteWindow params) = Ok true) as Hb.
    { unfold at_boundary. destruct (Z.eqb_spec (VoteWindow params) 0); [lia|].
      by rewrite (bb_window _ _ _ _ BB). }
    erewrite bind_lift_run by exact Hb. cbn [negb].
    erewrite bind_ask_run by exact (bb_vals _ _ _ _ BB). cbv zeta.
    erewrite bind_ask_run by exact (bb_total _ _ _ _ BB).
    erewrite bind_lift_run by exact Hqf. erewrite bind_lift_run by exact Eot.
    erewrite bind_lift_run by exact Eosr. erewrite bind_lift_run by exact Emt.
    erewrite bind_lift_run by exact Emsr. erewrite bind_ask_run by reflexivity.
    erewrite bind_Ok_run by exact E1. by erewrite bind_Ok_run by exact E2.
  - intros k. by rewrite V3, Hm.
Qed.

(** Reading an entry of the final state back through the rounds. *)
Lemma final_entry (w1 w2 w' : W) qf k :
  misses_inv qf w1 vals w2 ->
  (forall k, view OracleKey w' !! k = if decide (KeyPrefixFeed `prefix_of` k) then None else view OracleKey w2 !! k) ->
  ~ KeyPrefixFeed `prefix_of` k -> ~ KeyPrefixMissCounter `prefix_of` k -> ~ KeyPrefixTotalWindows `prefix_of` k ->
  view OracleKey w' !! k = view OracleKey w1 !! k.
Proof. intros (A1 & _) Hw' K1 K2 K3. rewrite Hw', decide_False by done. by apply A1. Qed.

(** C4: at a vote-window boundary, on well-formed stores in which every feed is below
    2^255 units (a larger feed, which [SubmitFeed] accepts, can overflow the outlier
    test: [EndBlocker_outlier_overflow]), the end-blocker succeeds and publishes, for
    exactly the accepted pairs whose bonded, powered, positive feeds reach the
    quorum, the stake-weighted median of those feeds, stamped with the block's
    height and time, and records it as a sample for averaging; the stored price of
    every other pair, accepted or removed from the accept list since, is left as it
    was. *)
Theorem EndBlocker_publishes qf : LegacyNewDecFromStr (QuorumFraction params) = Ok qf ->
  exists w', EndBlocker w0 = (w', Ok tt) /\
    forall pair,
      if bool_decide (pair ∈ AcceptList params) && live qf pair then published pair (view OracleKey w')
      else view OracleKey w' !! AggregatedPriceKey pair = view OracleKey w0 !! AggregatedPriceKey pair.
Proof.
  intros Hqf. destruct (EndBlocker_effect qf Hqf) as (w1 & w2 & w' & E & (_ & _ & _ & P1 & P2 & _) & I2 & _ & Hw').
  exists w'. split; [done|]. intros p.
  assert (forall k, k = AggregatedPriceKey p \/ k = TWAPKey p (w_time w0) -> view OracleKey w' !! k = view OracleKey w1 !! k) as Hk.
  { intros k Hk. apply (final_entry w1 w2 w' qf k I2 Hw'); destruct Hk as [-> | ->]; intros [y Hy]; discriminate Hy. }
  destruct (bool_decide_reflect (p ∈ AcceptList params)) as [Hp|Hp]; cbn [andb]; [|rewrite Hk by auto; by apply P2].
  destruct (live qf p) eqn:El.
  - destruct (P1 p Hp El) as [(bz & B1 & B2) (bz' & B3 & B4)].
    split; [exists bz|exists bz']; (split; [|done]); rewrite Hk; auto.
  - rewrite Hk by auto. by apply P2.
Qed.


(** After a boundary block no feed is left, so the next window starts empty;
    parameters, feeder bindings and the stores of the other modules are
    untouched. *)
Theorem EndBlocker_clears_feeds qf : LegacyNewDecFromStr (QuorumFraction params) = Ok qf ->
  exists w', EndBlocker w0 = (w', Ok tt) /\
    (forall val pair, addr_ok val -> GetFeed val pair w' = Ok None) /\
    GetParams w' = Ok params /\
    (forall val, GetFeederForValidator val w' = GetFeederForValidator val w0) /\
    w_fees w' = w_fees w0 /\ w_rwa w' = w_rwa w0.
Proof.
  intros Hqf. destruct (EndBlocker_effect qf Hqf) as (w1 & w2 & w' & E & (Hr & _) & I2 & O & Hw').
  exists w'. split; [done|]. destruct Hr as (A1 & A2 & _). destruct I2 as (B1 & B2 & B3).
  assert (forall k, ~ KeyPrefixFeed `prefix_of` k -> ~ KeyPrefixMissCounter `prefix_of` k ->
    ~ KeyPrefixTotalWindows `prefix_of` k -> ~ KeyPrefixAggregatedPrice `prefix_of` k -> ~ KeyPrefixTWAP `prefix_of` k ->
    view OracleKey w' !! k = view OracleKey w0 !! k) as Hk.
  { intros k K1 K2 K3 K4 K5. rewrite (final_entry w1 w2 w' qf k (conj B1 (conj B2 B3)) Hw') by done. by apply A1. }
  split_and!.
  - intros val p Hval. rewrite (GetFeed_view _ _ _ _ (FeedKey_run val p Hval)) by done.
    rewrite Hw', decide_True; [done|]. by eexists.
  - rewrite oracle_GetParams_view, Hk, <- oracle_GetParams_view; [apply (bb_params _ _ _ _ BB)| | | | |];
      intros [y Hy]; discriminate Hy.
  - intros val. rewrite !GetFeederForValidator_view, Hk; [done| | | | |]; intros [y Hy]; discriminate Hy.
  - change (get_store FeesKey w' = get_store FeesKey w0). rewrite O, B2, A2; done.
  - change (get_store RwaKey w' = get_store RwaKey w0). rewrite O, B2, A2; done.
Qed.

End Block.

(** Between boundaries the end-blocker does nothing. *)
Theorem EndBlocker_between_windows w params : GetParams w = Ok params -> Validate params = Ok tt ->
  Z.rem (w_height w) (VoteWindow params) <> 0 -> EndBlocker w = (w, Ok tt).
Proof.
  intros Hp Hv Hh. apply OracleParams_Validate_spec in Hv as (Hvw & _). unfold EndBlocker.
  erewrite bind_ask_run by reflexivity. erewrite bind_ask_run by exact Hp.
  assert (at_boundary (w_height w) (VoteWindow params) = Ok false) as Hb.
  { unfold at_boundary. destruct (Z.eqb_spec (VoteWindow params) 0); [lia|]. by apply Z.eqb_neq in Hh as ->. }
  by erewrite bind_lift_run by exact Hb.
Qed.

End EndBlock.

(** ** A concrete boundary block: two feeds for one pair, at height 10 *)

Definition ref_block_of (p1 p2 : string) : world (gmap bytes bytes) sdk_state :=
  let w1 := (SubmitFeed ref_keeper (mkMsgSubmitFeed "vtx1alice" "vtxvaloper1alice" "VTX:USD" p1) (ref_chain ∅ 10 100)).1 in
  (SubmitFeed ref_keeper (mkMsgSubmitFeed "vtx1bobby" "vtxvaloper1bobby" "VTX:USD" p2) w1).1.

Definition ref_block : world (gmap bytes bytes) sdk_state := ref_block_of "1.5" "1.51".

Definition ref_vals : list Validator := [ref_val "alice"; ref_val "bobby"].

Lemma ref_block_feeds : Forall (fun kv => exists val p f, addr_ok val /\ FeedKey val p = Ok kv.1 /\
    MustUnmarshal (A := OracleFeed) kv.2 = Ok f /\
    forall d, LegacyNewDecFromStr (of_Price f) = Ok d -> d < 2 ^ 255)
  (kv_prefix (view OracleKey ref_block) KeyPrefixFeed).
Proof.
  set (l := kv_prefix _ _). vm_compute in l. subst l.
  constructor; [|constructor; [|constructor]].
  - exists (bytes_of "alice"), "VTX:USD"%string, (mkOracleFeed "vtxvaloper1alice" "VTX:USD" "1.5" 10).
    split; [split; cbn; lia|]. split; [vm_compute; reflexivity|]. split; [vm_compute; reflexivity|].
    intros d Hd. vm_compute in Hd. injection Hd as <-. ref_eval.
  - exists (bytes_of "bobby"), "VTX:USD"%string, (mkOracleFeed "vtxvaloper1bobby" "VTX:USD" "1.51" 10).
    split; [split; cbn; lia|]. split; [vm_compute; reflexivity|]. split; [vm_compute; reflexivity|].
    intros d Hd. vm_compute in Hd. injection Hd as <-. ref_eval.
Qed.

Lemma ref_block_ok : boundary_block ref_block DefaultParams ref_vals 30.
Proof.
  constructor.
  - vm_compute; reflexivity.
  - vm_compute; reflexivity.
  - repeat constructor; ref_eval.
  - reflexivity.
  - split; ref_eval.
  - split; split; ref_eval.
  - vm_compute; reflexivity.
  - repeat constructor; discriminate.
  - apply (bool_decide_eq_true_1 (NoDup (val_addrs ref_vals))). vm_compute; reflexivity.
  - vm_compute; reflexivity.
  - split; ref_eval.
  - intros k v Hk Hp. pose proof (proj2 (elem_of_kv_prefix _ _ _ _) (conj Hk Hp)) as Hin.
    pose proof ref_block_feeds as HF. rewrite Forall_forall in HF.
    destruct (HF _ Hin) as (val & p & f & H1 & H2 & H3 & _). exists val, p, f. exact (conj H1 (conj H2 H3)).
  - intros k v f d Hk Hp Hf Hd. pose proof (proj2 (elem_of_kv_prefix _ _ _ _) (conj Hk Hp)) as Hin.
    pose proof ref_block_feeds as HF. rewrite Forall_forall in HF.
    destruct (HF _ Hin) as (val & p & f' & _ & _ & H3 & H4). cbn [snd] in H3. rewrite Hf in H3.
    injection H3 as <-. by apply H4.
  - assert (Forall (fun p => kv_prefix (view OracleKey ref_block) (TWAPPrefix p) = []) (AcceptList DefaultParams)) as HF
      by (repeat constructor; vm_compute; reflexivity).
    rewrite Forall_forall in HF. intros p Hp k v Hk Hpre. specialize (HF p Hp).
    pose proof (proj1 (kv_prefix_nil _ _) HF k Hpre) as Hn. rewrite Hn in Hk. discriminate Hk.
  - intros v val Hv. unfold ref_vals in Hv. rewrite !elem_of_cons, elem_of_nil in Hv.
    destruct Hv as [->|[->|[]]]; intros Ev; vm_compute in Ev; injection Ev as <-; exists 0, 0;
      (split; [vm_compute; reflexivity|]); (split; [vm_compute; reflexivity|]); (split; [split; ref_eval|ref_eval]).
Qed.

Lemma EndBlocker_publishes_witness :
  exists w', EndBlocker ref_block = (w', Ok tt) /\ published ref_block ref_vals "VTX:USD" (view OracleKey w').
Proof.
  destruct (EndBlocker_publishes ref_block DefaultParams ref_vals 30 ref_block_ok (667 * 10 ^ 15)) as (w' & E & H).
  - vm_compute; reflexivity.
  - exists w'. split; [exact E|]. specialize (H "VTX:USD"%string).
    assert (bool_decide ("VTX:USD"%string ∈ AcceptList DefaultParams) &&
            live ref_block ref_vals 30 (667 * 10 ^ 15) "VTX:USD" = true) as El by (vm_compute; reflexivity).
    rewrite El in H. exact H.
Defined.


Lemma EndBlocker_clears_feeds_witness :
  exists w', EndBlocker ref_block = (w', Ok tt) /\ GetFeed (bytes_of "alice") "VTX:USD" w' = Ok None.
Proof.
  destruct (EndBlocker_clears_feeds ref_block DefaultParams ref_vals 30 ref_block_ok (667 * 10 ^ 15)) as (w' & E & H & _).
  - vm_compute; reflexivity.
  - exists w'. split; [exact E|]. apply H. split; cbn; lia.
Defined.

Lemma EndBlocker_between_windows_witness :
  EndBlocker (ref_chain ∅ 11 100) = (ref_chain ∅ 11 100, Ok tt).
Proof.
  apply (EndBlocker_between_windows (ref_chain ∅ 11 100) DefaultParams).
  - vm_compute; reflexivity.
  - vm_compute; reflexivity.
  - discriminate.
Defined.

(** A single bonded validator halts the chain: with a reference price of one unit
    of the 18th decimal, a submitted price of 2^314 units overflows the
    division of the outlier test, and the end-blocker panics. *)
Lemma EndBlocker_outlier_overflow :
  LegacyNewDecFromStr (DecString (2 ^ 314)) = Ok (2 ^ 314) /\
  (EndBlocker (ref_block_of "0.000000000000000001" (DecString (2 ^ 314)))).2 = Panic.
Proof. split; vm_compute; reflexivity. Qed.
