(* ===== verification/OracleSafety.v ===== *)
(** * x/oracle: safety over whole executions

    The transitions of the module as a step relation, the invariant of the feeder
    bindings by rule induction, the crisis invariant on prices across boundary
    blocks, and the concrete executions on which the theorems of the oracle
    files are evaluated. *)

From S2P Require Import Prelude Sdk World SdkRef Wire FeesTypes Fees.
From S2P Require Import OracleTypes OracleAgg OracleKeeper OracleEndBlock.

Open Scope Z_scope.

Section Safety.
Context {St X : Type} {KV : KVStore St} {SM : SdkMath} {BE : Bech32} {T : StdTime}
        {SK : StakingKeeper X} {SL : SlashingKeeper X}.
Context {KVL : KVStoreLaws St} {SML : SdkMathLaws} {BEL : Bech32Laws} {TL : StdTimeLaws} {SLL : StakingLaws X}.
Local Abbreviation W := (world St X).

(** One step of the chain as the module sees it: a message that succeeds (a failed
    one is rolled back), the end-blocker, or anything that leaves its store
    alone. *)
Inductive oracle_step (k : Keeper) : W -> W -> Prop :=
| ostep_set_feeder msg w w' : SetFeeder k msg w = (w', Ok tt) -> oracle_step k w w'
| ostep_submit_feed msg w w' : SubmitFeed k msg w = (w', Ok tt) -> oracle_step k w w'
| ostep_update_params msg w w' : UpdateParams k msg w = (w', Ok tt) -> oracle_step k w w'
| ostep_end_block w w' : EndBlocker w = (w', Ok tt) -> oracle_step k w w'
| ostep_other w w' : view OracleKey w' = view OracleKey w -> oracle_step k w w'.

(** ** Feeder bindings *)

Definition binding_key (k : bytes) : Prop :=
  KeyPrefixFeederToValoper `prefix_of` k \/ KeyPrefixValoperToFeeder `prefix_of` k.

Lemma binding_key_other p k : p <> x07 -> p <> x08 -> [p] `prefix_of` k -> ~ binding_key k.
Proof. intros H7 H8 Hp [Hq|Hq]; [apply H7|apply H8]; by apply (prefix_distinct _ _ k). Qed.

(** Solves that a key with another first byte is not a binding key. *)
Ltac not_binding := match goal with |- ~ binding_key ?k =>
  let h := eval hnf in k in
  match h with ?b :: _ => apply (binding_key_other b); [discriminate|discriminate|by eexists] end end.

Lemma bindings_agree (w w' : W) : agree OracleKey binding_key w w' ->
  bindings_ok (view OracleKey w) -> bindings_ok (view OracleKey w').
Proof.
  intros Ha Hb val f. rewrite !Ha; [apply Hb|left; by eexists|right; by eexists].
Qed.

Lemma SetParams_framed p : framed OracleKey binding_key (SetParams p : M W unit).
Proof. unfold SetParams. frame_steps. apply framed_set; [done|not_binding]. Qed.

Lemma SetFeed_framed feed : framed OracleKey binding_key (SetFeed feed : M W unit).
Proof.
  intros w. unfold SetFeed. apply wlp_bind, wlp_lift; [|done]. intros val Hv. apply wlp_bind, wlp_lift; [|done].
  intros bz _. apply wlp_bind, wlp_lift; [|done]. intros key Hk.
  rewrite FeedKey_run in Hk by (by eapply val_parse_ok). injection Hk as <-.
  apply framed_set; [done|not_binding].
Qed.

Lemma SubmitFeed_framed k msg : framed OracleKey binding_key (SubmitFeed k msg : M W unit).
Proof. unfold SubmitFeed, check_bonded. frame_steps. apply SetFeed_framed. Qed.

Lemma deleteAll_framed p : p <> x07 -> p <> x08 ->
  framed OracleKey binding_key (deleteAllWithPrefix [p] : M W unit).
Proof.
  intros H7 H8. apply framed_delete_prefix; [done|]. intros key Hk Hp. by apply (binding_key_other p key) in Hk.
Qed.

Lemma UpdateParams_framed k msg : framed OracleKey binding_key (UpdateParams k msg : M W unit).
Proof.
  unfold UpdateParams, ResetMissCounters. frame_steps; [by apply deleteAll_framed..|apply SetParams_framed].
Qed.

Lemma slashValidator_framed v rate reason : framed OracleKey binding_key (slashValidator v rate reason : M W unit).
Proof. unfold slashValidator. frame_steps. Qed.

Lemma prune_keys_sub cutoff kvs ks : prune_keys cutoff kvs = Ok ks -> forall k, k ∈ ks -> k ∈ kvs.*1.
Proof.
  revert ks; induction kvs as [|[k v] kvs IH]; intros ks; cbn; [intros [= <-]; set_solver|].
  destruct (MustUnmarshal v) as [e| |]; try done. cbn. case_match; [|intros [= <-]; set_solver].
  destruct (prune_keys cutoff kvs) as [ks'| |]; try done. cbn. intros [= <-] k'. rewrite !elem_of_cons.
  intros [->|Hin]; [by left|right; by eapply IH].
Qed.

Lemma Prune_framed pair cutoff : framed OracleKey binding_key (PruneTWAPOlderThan pair cutoff : M W unit).
Proof.
  intros w. unfold PruneTWAPOlderThan. apply wlp_bind, wlp_ask; rewrite st_iterator_run by done; [|done].
  intros kvs [= <-]. apply wlp_bind, wlp_lift; [|done]. intros ks Hks. apply framed_mfor. intros key Hin.
  apply (prune_keys_sub _ _ _ Hks), list_elem_of_fmap in Hin as ([k' v] & -> & [_ [y Hy]]%elem_of_kv_prefix).
  cbn in Hy |- *. subst k'. apply framed_delete; [done|not_binding].
Qed.

Lemma EndBlocker_framed : framed OracleKey binding_key (EndBlocker : M W unit).
Proof.
  unfold EndBlocker, pair_step, SetAggregatedPrice, AppendTWAPEntry, outlier_check, miss_step,
    IncTotalWindows, IncMissCounter, ResetValidatorWindows.
  frame_steps; try apply Prune_framed; try apply slashValidator_framed;
    try (apply framed_set; [done|not_binding]); try (apply framed_delete; [done|not_binding]).
  by apply (deleteAll_framed x01).
Qed.

Lemma SetFeederDelegation_bindings val feeder (w : W) : bindings_ok (view OracleKey w) ->
  wlp (SetFeederDelegation val feeder) (fun _ w' => bindings_ok (view OracleKey w')) (fun _ _ => True) w.
Proof.
  intros Hb. apply SetFeederDelegation_wlp; [|done]. intros w' Hex (V & _). rewrite V. by apply bindings_set.
Qed.

Lemma SetFeeder_bindings k msg (w : W) : bindings_ok (view OracleKey w) ->
  wlp (SetFeeder k msg) (fun _ w' => bindings_ok (view OracleKey w')) (fun _ _ => True) w.
Proof.
  intros Hb. unfold SetFeeder. wlp_steps; try done. apply check_bonded_wlp; [|done]. wlp_steps.
  eapply wlp_mono; [by apply SetFeederDelegation_bindings| |done]. intros [] w' Hb'. cbv beta.
  apply wlp_emit. by rewrite view_add_event.
Qed.

Lemma framed_run {A} (m : M W A) w w' a : framed OracleKey binding_key m -> m w = (w', Ok a) ->
  bindings_ok (view OracleKey w) -> bindings_ok (view OracleKey w').
Proof. intros Hf E. apply bindings_agree. exact (wlp_run _ _ _ _ _ _ (Hf w) E). Qed.

Lemma oracle_step_bindings k w w' : oracle_step k w w' ->
  bindings_ok (view OracleKey w) -> bindings_ok (view OracleKey w').
Proof.
  intros Hs Hb. destruct Hs as [msg w w' E|msg w w' E|msg w w' E|w w' E|w w' E].
  - by apply (wlp_run _ _ _ _ _ _ (SetFeeder_bindings k msg w Hb) E).
  - by apply (framed_run _ _ _ _ (SubmitFeed_framed k msg) E).
  - by apply (framed_run _ _ _ _ (UpdateParams_framed k msg) E).
  - by apply (framed_run _ _ _ _ EndBlocker_framed E).
  - by rewrite E.
Qed.

Lemma InitGenesis_bindings k gs (w : W) : bindings_ok (view OracleKey w) ->
  wlp (InitGenesis k gs) (fun _ w' => bindings_ok (view OracleKey w')) (fun _ _ => True) w.
Proof.
  intros Hb. unfold InitGenesis. wlp_steps; try done.
  apply (wlp_mfor (fun w' => w' = w)); [done| |].
  { intros p w1 _ ->. wlp_steps; done. }
  intros w1 ->. wlp_steps. eapply wlp_mono; [apply SetParams_framed| |done].
  intros [] w2 Ha2. apply (bindings_agree _ _ Ha2) in Hb. apply wlp_bind.
  apply (wlp_mfor (fun w' => bindings_ok (view OracleKey w'))); [done| |].
  { intros p w3 _ Hb3. apply wlp_must. unfold SetAggregatedPrice. wlp_steps; try done.
    apply wlp_st_set; [done|]. intros w4 (V & _). rewrite V. intros val f.
    rewrite !lookup_insert_ne by done. apply Hb3. }
  intros w3 Hb3. apply (wlp_mfor (fun w' => bindings_ok (view OracleKey w'))); [done| |done].
  intros fd w4 _ Hb4. wlp_steps; try done;
    (eapply wlp_mono; [by apply SetFeederDelegation_bindings|done|done]).
Qed.

(** A feeder account never serves two validators. From genesis on, whatever
    sequence of messages and blocks, the feeder recorded for a validator is
    bound to that validator, so two validators with the same recorded feeder
    are one. *)
Theorem feeder_serves_one_validator k gs w0 w1 w v1 v2 f :
  (forall val, GetFeederForValidator val w0 = Ok None) ->
  InitGenesis k gs w0 = (w1, Ok tt) -> rtc (oracle_step k) w1 w ->
  GetFeederForValidator v1 w = Ok (Some f) -> GetFeederForValidator v2 w = Ok (Some f) -> v1 = v2.
Proof.
  intros Hnone Hi Hs. rewrite !GetFeederForValidator_view. intros [= H1] [= H2].
  assert (bindings_ok (view OracleKey w0)) as Hb0.
  { intros val g. specialize (Hnone val). rewrite GetFeederForValidator_view in Hnone. injection Hnone as ->. done. }
  pose proof (wlp_run _ _ _ _ _ _ (InitGenesis_bindings k gs w0 Hb0) Hi) as Hb. cbn in Hb. clear Hi.
  induction Hs as [|w1 w2 w3 Hstep _ IH]; [|eauto using oracle_step_bindings].
  apply Hb in H1, H2. rewrite H1 in H2. by injection H2.
Qed.

(** ** The crisis invariant on prices *)

Lemma rfold_broken (accept : gset string) (kvs : list (bytes * bytes)) b :
  rfold kvs b (fun broken kv => ap ← MustUnmarshal kv.2; Ok (broken || price_broken accept ap)) = Ok false <->
  b = false /\ Forall (fun kv => exists ap, MustUnmarshal kv.2 = Ok ap /\ price_broken accept ap = false) kvs.
Proof.
  revert b; induction kvs as [|[k v] kvs IH]; intros b; cbn [rfold].
  { split; [by intros [= ->]|by intros [-> _]]. }
  rewrite Forall_cons. cbn [snd]. destruct (MustUnmarshal v) as [ap| |]; cbn [mbind res_bind]; [|naive_solver..].
  rewrite IH, orb_false_iff. naive_solver.
Qed.

Lemma PricesInvariant_spec params (w : W) : GetParams w = Ok params ->
  PricesInvariant w = Ok false <->
  forall k v, view OracleKey w !! k = Some v -> KeyPrefixAggregatedPrice `prefix_of` k ->
    exists ap, MustUnmarshal v = Ok ap /\ price_broken (list_to_set (AcceptList params)) ap = false.
Proof.
  intros Hp. unfold PricesInvariant. rewrite Hp, st_iterator_run by done. rewrite rfold_broken, Forall_forall.
  split.
  - intros [_ H] k v Hk Hpre. by apply (H (k, v)), elem_of_kv_prefix.
  - intros H. split; [done|]. intros [k v] [Hk Hpre]%elem_of_kv_prefix. by apply (H k v).
Qed.

(** Blocks keep the price invariant. When every stored price is accept-listed
    and positive before a boundary block, the block succeeds and the same holds
    after it. *)
Theorem EndBlocker_keeps_prices_invariant (w0 : W) params vals total :
  boundary_block w0 params vals total -> PricesInvariant w0 = Ok false ->
  exists w', EndBlocker w0 = (w', Ok tt) /\ PricesInvariant w' = Ok false.
Proof.
  intros BB Hinv. pose proof (bb_valid _ _ _ _ BB) as Hv.
  apply OracleParams_Validate_spec in Hv as (_ & _ & _ & Hd & _).
  destruct (Hd (QuorumFraction params) ltac:(set_solver)) as (qf & Hqf & _).
  destruct (EndBlocker_effect w0 params vals total BB qf Hqf)
    as (w1 & w2 & w' & E & (Hr & _ & _ & P1 & P2 & _) & I2 & _ & Hw').
  assert (forall k, ~ KeyPrefixFeed `prefix_of` k -> ~ KeyPrefixMissCounter `prefix_of` k ->
            ~ KeyPrefixTotalWindows `prefix_of` k -> view OracleKey w' !! k = view OracleKey w1 !! k) as Hk.
  { intros k. by apply (final_entry w0 params vals total w1 w2 w' qf). }
  assert (GetParams w' = Ok params) as Hp'.
  { rewrite oracle_GetParams_view, Hk, (proj1 Hr), <- oracle_GetParams_view; [apply (bb_params _ _ _ _ BB)| | | | |];
      intros [y Hy]; discriminate Hy. }
  exists w'. split; [done|]. rewrite (PricesInvariant_spec params) by done.
  rewrite (PricesInvariant_spec params) in Hinv by apply (bb_params _ _ _ _ BB).
  intros k v Hkv Hpre. rewrite Hk in Hkv by (intros Hq; discriminate (prefix_distinct _ _ k Hpre Hq)).
  destruct Hpre as [y ->]. set (p := string_of y).
  assert (KeyPrefixAggregatedPrice ++ y = AggregatedPriceKey p) as Ek.
  { unfold AggregatedPriceKey, p. by rewrite bytes_of_string_of. }
  rewrite Ek in *. destruct (decide (p ∈ AcceptList params)) as [Hin|Hnin].
  2: { rewrite P2 in Hkv by done. apply (Hinv _ _ Hkv). by eexists. }
  destruct (live w0 vals total qf p) eqn:El.
  2: { rewrite P2 in Hkv by done. apply (Hinv _ _ Hkv). by eexists. }
  destruct (P1 p Hin El) as [(bz & B1 & B2) _]. rewrite B1 in Hkv. injection Hkv as <-.
  eexists. split; [exact B2|]. unfold price_broken. cbn [ap_Pair ap_Price].
  rewrite bool_decide_eq_true_2 by (by apply elem_of_list_to_set). cbn [negb orb].
  pose proof (live_price w0 params vals total BB qf p El) as Hpos.
  rewrite dec_print by (unfold dec_limit; lia). lia.
Qed.

End Safety.

(** ** Concrete executions *)

Lemma feeder_serves_one_validator_witness :
  exists w, rtc (oracle_step ref_keeper) (InitGenesis ref_keeper DefaultGenesis (ref_chain ∅ 1 10)).1 w /\
    GetFeederForValidator (bytes_of "alice") w = Ok (Some (bytes_of "carol")) /\
    forall v, GetFeederForValidator v w = Ok (Some (bytes_of "carol")) -> bytes_of "alice" = v.
Proof.
  set (w1 := (InitGenesis ref_keeper DefaultGenesis (ref_chain ∅ 1 10)).1).
  exists (SetFeeder ref_keeper (mkMsgSetFeeder "vtxvaloper1alice" "vtx1carol") w1).1.
  assert (rtc (oracle_step ref_keeper) w1
            (SetFeeder ref_keeper (mkMsgSetFeeder "vtxvaloper1alice" "vtx1carol") w1).1) as Hs.
  { apply rtc_once, (ostep_set_feeder _ (mkMsgSetFeeder "vtxvaloper1alice" "vtx1carol")), run_result.
    vm_compute; reflexivity. }
  split; [exact Hs|]. split; [vm_compute; reflexivity|].
  intros v Hv. apply (feeder_serves_one_validator ref_keeper DefaultGenesis (ref_chain ∅ 1 10) w1 _ _ _ (bytes_of "carol")) with (3 := Hs).
  - intros val. reflexivity.
  - apply run_result. vm_compute; reflexivity.
  - vm_compute; reflexivity.
  - exact Hv.
Defined.

Lemma EndBlocker_keeps_prices_invariant_witness :
  exists w', EndBlocker ref_block = (w', Ok tt) /\ PricesInvariant w' = Ok false.
Proof.
  apply (EndBlocker_keeps_prices_invariant ref_block DefaultParams ref_vals 30 ref_block_ok).
  vm_compute; reflexivity.
Defined.

(** ** Two invariants that do not survive other operations *)

(** Removing a pair from the accept list leaves its price in the store: after a
    valid parameter update the price invariant is broken. *)
Lemma UpdateParams_breaks_prices_invariant :
  PricesInvariant ref_priced = Ok false /\
  (UpdateParams ref_keeper ref_update ref_priced).2 = Ok tt /\
  PricesInvariant (UpdateParams ref_keeper ref_update ref_priced).1 = Ok true.
Proof. split_and!; vm_compute; reflexivity. Qed.

(** The application's burner accounts that matter here. *)
Definition ref_burners : list (string * list string) :=
  [(FeesTypes.FeeCollectorName, []); (FeesTypes.ModuleName, ["burner"%string]); (bonded_pool, ["burner"%string])].

(** Slashing an outlier burns staked uvtx outside x/fees: the reconcile invariant
    of x/fees, true right after genesis, is broken by the oracle's
    end-blocker. *)
Lemma slashing_breaks_reconcile :
  let w := (Fees.InitGenesis (BK := BK_ref ref_burners []) (FeesTypes.mkGenesisState (mkFeesParams "0.4" "0.6"))
              (ref_block_of "1.5" "3")).1 in
  let w' := (EndBlocker w).1 in
  Fees.ReconcileInvariant (BK := BK_ref ref_burners []) w = Ok false /\
  (EndBlocker w).2 = Ok tt /\
  Fees.ReconcileInvariant (BK := BK_ref ref_burners []) w' = Ok true.
Proof. cbv zeta. split_and!; vm_compute; reflexivity. Qed.
