(* ===== verification/OracleInv.v ===== *)
(** * x/oracle: the invariant of the store

    What every reachable state of the module satisfies: each entry decodes, lies
    under its own key and is in range, and the counters of a validator are
    consistent ([oracle_inv]). It is established by genesis and kept by every message
    and block, so that the end-blocker, which panics on entries that it cannot decode
    and on counters that overflow, never does ([EndBlocker_runs]). *)

From S2P Require Import Prelude Sdk World SdkRef Wire.
From S2P Require Import OracleTypes OracleAgg OracleKeeper OracleEndBlock OracleSafety.

Open Scope Z_scope.

Section OracleInv.
Context {St X : Type} {KV : KVStore St} {SM : SdkMath} {BE : Bech32} {T : StdTime}
        {SK : StakingKeeper X} {SL : SlashingKeeper X}.
Context {KVL : KVStoreLaws St} {SML : SdkMathLaws} {BEL : Bech32Laws} {TL : StdTimeLaws} {SLL : StakingLaws X}.
Local Abbreviation W := (world St X).

(** ** The invariant *)

(** Parameters as a transaction can carry them. *)
Definition params_fit (p : OracleParams) : Prop :=
  wf_msg p /\ Forall (fun s => zlen (bytes_of s) < 2 ^ 32) (AcceptList p).

Definition price_ok (ap : AggregatedPrice) : Prop :=
  wf_msg ap /\ ap_BlockTime ap <> zero_time /\ exists d, LegacyNewDecFromStr (ap_Price ap) = Ok d /\ 0 < d.

(** Of a validator: neither counter is negative, it missed at most the windows
    there were, and the next window does not overflow. *)
Definition counters_ok (val : bytes) (w : W) : Prop :=
  exists t m, GetTotalWindows val w = Ok t /\ GetMissCounter val w = Ok m /\ 0 <= m <= t /\ t < two63 - 1.

Record oracle_inv (w : W) : Prop := mkOracleInv {
  oi_params : exists p, GetParams w = Ok p /\ Validate p = Ok tt /\ params_fit p;
  oi_feeds : feeds_wf (view OracleKey w);
  oi_prices : forall k v, view OracleKey w !! k = Some v -> KeyPrefixAggregatedPrice `prefix_of` k ->
    exists ap, MustUnmarshal v = Ok ap /\ k = AggregatedPriceKey (ap_Pair ap) /\ price_ok ap;
  oi_twap : forall p, pairRegex p = true -> twap_wf p (view OracleKey w);
  oi_counters : forall val, counters_ok val w;
  oi_bindings : bindings_ok (view OracleKey w);
  oi_feeders : forall k f, view OracleKey w !! k = Some f -> KeyPrefixValoperToFeeder `prefix_of` k ->
    addr_ok f /\ exists val, addr_ok val /\ k = ValoperToFeederKey val
}.

(** ** The moves *)

(** The header and the validator set that a block is run with, from consensus and
    x/staking: the powers of the bonded validators, which have distinct operators,
    add up to at most the total, an [int64]; the time is between 1970 and 2262. A block
    that closes a vote window, moreover, finds every feed below 2^255 units
    ([feeds_small]): that is a condition on what the feeders submitted, since
    [SubmitFeed] checks no upper bound. *)
Record block_env (w : W) : Prop := mkBlockEnv {
  be_height : - two63 <= w_height w < two63;
  be_time : time_ok (w_time w) /\ 0 <= w_time w < two63;
  be_validators : exists vals total, GetBondedValidatorsByPower (w_ext w) = Ok vals /\
    Forall (fun v => GetConsAddr v <> Panic) vals /\ NoDup (val_addrs vals) /\
    GetLastTotalPower (w_ext w) = Ok total /\ powers (w_ext w) vals <= total < two63;
  be_feeds params : GetParams w = Ok params -> Z.rem (w_height w) (VoteWindow params) = 0 ->
    feeds_small (view OracleKey w)
}.

(** A feed as a transaction can carry it: its texts have the sizes of a message. *)
Definition feed_fits (msg : MsgSubmitFeed) (w : W) : Prop := wf_msg (submitted_feed msg w).

Inductive oracle_move (k : Keeper) : W -> W -> Prop :=
| omove_set_feeder msg w w' : SetFeeder k msg w = (w', Ok tt) -> oracle_move k w w'
| omove_submit_feed msg w w' : feed_fits msg w -> SubmitFeed k msg w = (w', Ok tt) -> oracle_move k w w'
| omove_update_params msg w w' : params_fit (Params msg) -> UpdateParams k msg w = (w', Ok tt) -> oracle_move k w w'
| omove_end_block w w' : block_env w -> EndBlocker w = (w', Ok tt) -> oracle_move k w w'
| omove_other w w' : view OracleKey w' = view OracleKey w -> oracle_move k w w'.

(** ** Writing one entry *)

(** An entry of the parameters, a feed or a price that the invariant allows. *)
Definition entry_ok (k v : bytes) : Prop :=
  (k = KeyParams /\ exists p, MustUnmarshal v = Ok p /\ Validate p = Ok tt /\ params_fit p) \/
  (exists val pair f, addr_ok val /\ FeedKey val pair = Ok k /\ MustUnmarshal (A := OracleFeed) v = Ok f) \/
  (exists ap, MustUnmarshal v = Ok ap /\ k = AggregatedPriceKey (ap_Pair ap) /\ price_ok ap).

Definition entry_byte (k : bytes) : Prop := head k = Some x06 \/ head k = Some x01 \/ head k = Some x02.

Lemma entry_ok_byte k v : entry_ok k v -> entry_byte k.
Proof.
  intros [[-> _]|[(val & pair & f & Hv & Hk & _)|(ap & _ & -> & _)]]; [by left| |by right; right].
  rewrite FeedKey_run in Hk by done. injection Hk as <-. by right; left.
Qed.

Lemma entry_params v : entry_ok KeyParams v -> exists p, MustUnmarshal v = Ok p /\ Validate p = Ok tt /\ params_fit p.
Proof.
  intros [[_ H]|[(val & pair & f & Hv & Hk & _)|(ap & _ & [=] & _)]]; [done|].
  rewrite FeedKey_run in Hk by done. discriminate Hk.
Qed.

Lemma entry_feed k v : entry_ok k v -> KeyPrefixFeed `prefix_of` k ->
  exists val pair f, addr_ok val /\ FeedKey val pair = Ok k /\ MustUnmarshal (A := OracleFeed) v = Ok f.
Proof. intros [[-> _]|[H|(ap & _ & -> & _)]] [y Hy]; done || discriminate Hy. Qed.

Lemma entry_price k v : entry_ok k v -> KeyPrefixAggregatedPrice `prefix_of` k ->
  exists ap, MustUnmarshal v = Ok ap /\ k = AggregatedPriceKey (ap_Pair ap) /\ price_ok ap.
Proof.
  intros [[-> _]|[(val & pair & f & Hv & Hk & _)|H]] [y Hy]; [discriminate Hy| |done].
  rewrite FeedKey_run in Hk by done. subst k. discriminate Hk.
Qed.

(** The invariant depends on the entries only. *)
Lemma oracle_inv_view (w w' : W) : view OracleKey w' = view OracleKey w -> oracle_inv w -> oracle_inv w'.
Proof.
  intros V [H1 H2 H4 H5 H6 H7 H8]. split; rewrite ?V; try done.
  - destruct H1 as (p & Hp & ?). exists p. by rewrite oracle_GetParams_view, V, <- oracle_GetParams_view.
  - intros val. destruct (H6 val) as (t & m & Ht & Hm & ?). exists t, m.
    by rewrite GetTotalWindows_view, GetMissCounter_view, V, <- GetTotalWindows_view, <- GetMissCounter_view.
Qed.

Lemma oracle_inv_insert (w w' : W) k0 v0 : view OracleKey w' = <[k0 := v0]> (view OracleKey w) ->
  entry_ok k0 v0 -> oracle_inv w -> oracle_inv w'.
Proof.
  intros V He [H1 H2 H4 H5 H6 H7 H8].
  assert (forall k, ~ entry_byte k -> view OracleKey w' !! k = view OracleKey w !! k) as Hother.
  { intros k Hk. rewrite V, lookup_insert_ne; [done|]. intros <-. apply Hk. by eapply entry_ok_byte. }
  assert (forall k v, view OracleKey w' !! k = Some v -> (k = k0 /\ v = v0) \/ view OracleKey w !! k = Some v) as Hcase.
  { intros k v. rewrite V. destruct (decide (k = k0)) as [->|Hne]; [rewrite lookup_insert_eq; intros [= <-]; by left|].
    rewrite lookup_insert_ne by done. by right. }
  split.
  - destruct (decide (k0 = KeyParams)) as [->|Hne].
    + apply entry_params in He as (p & Hu & ?). exists p. by rewrite oracle_GetParams_view, V, lookup_insert_eq.
    + destruct H1 as (p & Hp & ?). exists p. by rewrite oracle_GetParams_view, V, lookup_insert_ne, <- oracle_GetParams_view.
  - intros k v [[-> ->]|Hk]%Hcase Hpre; [by apply (entry_feed _ _ He Hpre)|by apply H2].
  - intros k v [[-> ->]|Hk]%Hcase Hpre; [by apply (entry_price _ _ He Hpre)|by apply H4].
  - intros p Hp k v Hk Hpre. rewrite Hother in Hk; [by apply H5|]. destruct Hpre as [y ->]. intros [[=]|[[=]|[=]]].
  - intros val. destruct (H6 val) as (t & m & Ht & Hm & ?). exists t, m.
    rewrite GetTotalWindows_view, GetMissCounter_view, !Hother, <- GetTotalWindows_view, <- GetMissCounter_view;
      [done|intros [[=]|[[=]|[=]]]..].
  - intros val f. rewrite !Hother; [apply H7|intros [[=]|[[=]|[=]]]..].
  - intros k f Hk Hpre. rewrite Hother in Hk; [by apply H8|]. destruct Hpre as [y ->]. intros [[=]|[[=]|[=]]].
Qed.

(** Binding a feeder. *)
Lemma oracle_inv_bind (w w' : W) val f : addr_ok val -> addr_ok f ->
  match view OracleKey w !! FeederToValoperKey f with Some e => e = val | None => True end ->
  view OracleKey w' = <[ValoperToFeederKey val := f]> (<[FeederToValoperKey f := val]> (view OracleKey w)) ->
  oracle_inv w -> oracle_inv w'.
Proof.
  intros Hv Hf Hex V [H1 H2 H4 H5 H6 H7 H8].
  assert (forall k, ~ binding_key k -> view OracleKey w' !! k = view OracleKey w !! k) as Hother.
  { intros k Hk. rewrite V, !lookup_insert_ne; [done| |]; intros <-; apply Hk; [left|right]; by eexists. }
  assert (forall p k, p <> x07 -> p <> x08 -> [p] `prefix_of` k -> view OracleKey w' !! k = view OracleKey w !! k) as Hk.
  { intros p k P7 P8 Hp. apply Hother. by apply (binding_key_other p). }
  split.
  - destruct H1 as (p & Hp & ?). exists p. rewrite oracle_GetParams_view, (Hk x06), <- oracle_GetParams_view; done.
  - intros k v. intros Hkv Hpre. rewrite (Hk x01) in Hkv by done. by apply H2.
  - intros k v Hkv Hpre. rewrite (Hk x02) in Hkv by done. by apply H4.
  - intros p Hp k v Hkv Hpre. rewrite (Hk x03) in Hkv; [by apply H5|done|done|destruct Hpre as [y ->]; by eexists].
  - intros va. destruct (H6 va) as (t & m & Ht & Hm & ?). exists t, m.
    rewrite GetTotalWindows_view, GetMissCounter_view, (Hk x05), (Hk x04), <- GetTotalWindows_view, <- GetMissCounter_view;
      done || by eexists.
  - rewrite V. by apply bindings_set.
  - intros k g Hkg Hpre. rewrite V in Hkg. destruct (decide (k = ValoperToFeederKey val)) as [->|Hne].
    + rewrite lookup_insert_eq in Hkg. injection Hkg as <-. eauto.
    + rewrite lookup_insert_ne in Hkg by done. rewrite lookup_insert_ne in Hkg; [by apply H8|].
      intros <-. destruct Hpre as [y Hy]. discriminate Hy.
Qed.

(** ** Messages *)

Lemma SetFeeder_inv k msg (w : W) : oracle_inv w ->
  wlp (SetFeeder k msg) (fun _ w' => oracle_inv w') (fun _ _ => True) w.
Proof.
  intros Hi. unfold SetFeeder. wlp_steps; try done. apply check_bonded_wlp; [|done]. wlp_steps.
  apply SetFeederDelegation_wlp; [|done]. intros w' Hex (V & _). apply wlp_emit.
  apply (oracle_inv_view w'); [apply view_add_event|].
  eapply (oracle_inv_bind w); [..|exact V|done]; [by eapply val_parse_ok|by eapply acc_parse_ok|done].
Qed.

Lemma SubmitFeed_inv k msg (w w' : W) : feed_fits msg w -> SubmitFeed k msg w = (w', Ok tt) ->
  oracle_inv w -> oracle_inv w'.
Proof.
  intros Hwf H Hi. pose proof (SubmitFeed_admitted _ _ _ _ H) as Ha.
  destruct (SubmitFeed_runs k msg w Hwf Ha) as (w1 & val & key & bz & E & Ev & Ek & Eb & (V & _)).
  rewrite E in H. injection H as <-. apply (oracle_inv_view w1); [apply view_add_event|].
  apply (oracle_inv_insert w w1 key bz V); [|done]. right; left.
  exists val, (ms_Pair msg), (submitted_feed msg w). split_and!; [by eapply val_parse_ok|done|done].
Qed.

Lemma UpdateParams_inv k msg (w w' : W) : params_fit (Params msg) -> UpdateParams k msg w = (w', Ok tt) ->
  oracle_inv w -> oracle_inv w'.
Proof.
  intros Hf H Hi. destruct (oi_params _ Hi) as (old & Hold & _).
  destruct (oracle_UpdateParams_effect k msg w w' old (proj1 Hf) Hold H) as (_ & Hv & bz & m & Hu & V & Hm).
  set (reset := AcceptList old <> AcceptList (Params msg)) in Hm.
  destruct Hi as [H1 H2 H4 H5 H6 H7 H8].
  assert (forall k0, k0 <> KeyParams -> ~ KeyPrefixMissCounter `prefix_of` k0 -> ~ KeyPrefixTotalWindows `prefix_of` k0 ->
    view OracleKey w' !! k0 = view OracleKey w !! k0) as Hk.
  { intros k0 K1 K2 K3. rewrite V, lookup_insert_ne, Hm, decide_False by (done || tauto). done. }
  assert (forall p k0 y, p <> x04 -> p <> x05 -> p <> x06 -> k0 = p :: y ->
    view OracleKey w' !! k0 = view OracleKey w !! k0) as Hpre.
  { intros p k0 y P4 P5 P6 ->. apply Hk; [intros [=]; congruence|..]; intros [z [=]]; congruence. }
  split.
  - exists (Params msg). by rewrite oracle_GetParams_view, V, lookup_insert_eq.
  - intros k0 v Hkv [y ->]. erewrite (Hpre x01) in Hkv by (discriminate || reflexivity). apply H2; [done|by eexists].
  - intros k0 v Hkv [y ->]. erewrite (Hpre x02) in Hkv by (discriminate || reflexivity). apply H4; [done|by eexists].
  - intros p Hp k0 v Hkv [y ->]. erewrite (Hpre x03) in Hkv by (discriminate || reflexivity). apply H5; [done|done|by eexists].
  - intros val. unfold counters_ok. rewrite GetTotalWindows_view, GetMissCounter_view, V, !lookup_insert_ne, !Hm by done.
    assert (KeyPrefixMissCounter `prefix_of` MissCounterKey val) by (by eexists).
    assert (KeyPrefixTotalWindows `prefix_of` TotalWindowsKey val) by (by eexists).
    destruct (decide reset) as [Hr|Hr].
    + rewrite !decide_True by tauto. exists 0, 0. unfold two63. split_and!; done || lia.
    + rewrite !decide_False by tauto. rewrite <- GetTotalWindows_view, <- GetMissCounter_view. apply H6.
  - intros val f. erewrite (Hpre x08), (Hpre x07) by (discriminate || reflexivity). apply H7.
  - intros k0 f Hkf [y ->]. erewrite (Hpre x08) in Hkf by (discriminate || reflexivity). apply H8; [done|by eexists].
Qed.

(** ** Blocks *)

(** The store is as the end-blocker needs it. *)
Lemma inv_boundary (w : W) params : oracle_inv w -> block_env w -> GetParams w = Ok params ->
  Z.rem (w_height w) (VoteWindow params) = 0 -> exists vals total, boundary_block w params vals total.
Proof.
  intros [H1 H2 H4 H5 H6 H7 H8] [E1 E2 (vals & total & E3 & E4 & E5 & E6 & E7) E8] Hp Hr.
  destruct H1 as (p & Hp' & Hv & _ & Hs). rewrite Hp in Hp'. injection Hp' as <-.
  exists vals, total. split; try done.
  - by apply (E8 params).
  - intros q Hq. apply H5. apply OracleParams_Validate_spec in Hv as (_ & _ & _ & _ & _ & _ & _ & HF).
    rewrite Forall_forall in HF. by apply HF.
  - intros v val _ _. apply H6.
Qed.

Section OneBlock.
Context (w0 : W) (params : OracleParams) (vals : list Validator) (total : Z)
        (BB : boundary_block w0 params vals total) (Hi : oracle_inv w0).

(** The prices after the round of the pairs: those of this block, and older ones. *)
Lemma block_prices qf (w1 : W) k v :
  (forall p, p ∈ AcceptList params -> live w0 vals total qf p = true -> published w0 vals p (view OracleKey w1)) ->
  (forall p, (p ∈ AcceptList params -> live w0 vals total qf p = false) ->
     view OracleKey w1 !! AggregatedPriceKey p = view OracleKey w0 !! AggregatedPriceKey p) ->
  view OracleKey w1 !! k = Some v -> KeyPrefixAggregatedPrice `prefix_of` k ->
  exists ap, MustUnmarshal v = Ok ap /\ k = AggregatedPriceKey (ap_Pair ap) /\ price_ok ap.
Proof.
  intros P1 P2 Hk [y ->]. set (p := string_of y).
  assert (KeyPrefixAggregatedPrice ++ y = AggregatedPriceKey p) as Ek.
  { unfold AggregatedPriceKey, p. by rewrite bytes_of_string_of. }
  rewrite Ek in *. destruct (decide (p ∈ AcceptList params /\ live w0 vals total qf p = true)) as [[Hin El]|Hn].
  - destruct (P1 p Hin El) as [(bz & B1 & B2) _]. rewrite Hk in B1. injection B1 as <-. eexists.
    split; [exact B2|]. split; [done|]. pose proof (live_price w0 params vals total BB qf p El) as Hpos.
    destruct (bb_time _ _ _ _ BB) as [Ht Ht0]. pose proof (bb_short _ _ _ _ BB) as Hs. rewrite Forall_forall in Hs.
    split; [|split].
    + apply price_wf; [by apply Hs|unfold dec_limit; lia|apply (bb_height _ _ _ _ BB)|done].
    + cbn [ap_BlockTime]. unfold zero_time, Second. lia.
    + cbn [ap_Price]. eexists. rewrite dec_print by (unfold dec_limit; lia). split; [done|lia].
  - rewrite P2 in Hk; [by apply (oi_prices _ Hi); [|by eexists]|].
    intros Hin. destruct (live w0 vals total qf p); [|done]. exfalso. by apply Hn.
Qed.

Lemma block_samples (w1 : W) q :
  (forall p, p ∈ AcceptList params -> twap_wf p (view OracleKey w1)) ->
  (forall k, (forall p, p ∈ AcceptList params -> k <> AggregatedPriceKey p /\ ~ TWAPPrefix p `prefix_of` k) ->
     view OracleKey w1 !! k = view OracleKey w0 !! k) ->
  pairRegex q = true -> twap_wf q (view OracleKey w1).
Proof.
  intros Htw P3 Hq. destruct (decide (q ∈ AcceptList params)) as [Hin|Hnin]; [by apply Htw|].
  apply (twap_wf_ext q (view OracleKey w0)); [by apply (oi_twap _ Hi)|].
  intros k Hk. apply P3. intros p Hp. split.
  - intros ->. destruct Hk as [y Hy]. discriminate Hy.
  - intros Hk'. apply Hnin. replace q with p; [done|].
    apply (pairRegex_accepted w0 params vals total BB), pairRegex_no_slash in Hp. apply pairRegex_no_slash in Hq.
    destruct Hk as [y ->], Hk' as [z Hz]. unfold TWAPPrefix in Hz. rewrite <- !app_assoc in Hz.
    injection Hz as Hz. apply (inj bytes_of).
    apply (sep_prefix "/"%byte _ _ y); [done|done|]. exists z. rewrite <- app_assoc. done.
Qed.

(** The counters after the round of the validators. *)
Lemma block_counters qf (w1 w2 : W) val : MissWindowSize params < two63 ->
  misses_inv w0 params vals total qf w1 vals w2 -> counters_ok val w2.
Proof.
  intros Hmw (_ & _ & I3). destruct (oi_counters _ Hi val) as (t & m & Ht & Hm & Hmt & Hmax).
  specialize (I3 val). destruct (decide (val ∈ val_addrs vals)) as [Hin|Hnin].
  - destruct (I3 t m Ht Hm) as [E1 E2]. do 2 eexists. split; [exact E1|]. split; [exact E2|].
    destruct (Z.leb_spec (MissWindowSize params) (t + 1)); [unfold two63; lia|].
    destruct (missed _ _ _ _ _ _); lia.
  - destruct I3 as [E1 E2]. exists t, m. rewrite E1, E2. done.
Qed.

End OneBlock.

Lemma EndBlocker_inv (w w' : W) : block_env w -> EndBlocker w = (w', Ok tt) -> oracle_inv w -> oracle_inv w'.
Proof.
  intros He H Hi. destruct (oi_params _ Hi) as (params & Hp & Hv & Hfit).
  destruct (decide (Z.rem (w_height w) (VoteWindow params) = 0)) as [Hz|Hz].
  2: { rewrite (EndBlocker_between_windows w params) in H by done. by injection H as <-. }
  destruct (inv_boundary w params Hi He Hp Hz) as (vals & total & BB).
  destruct (proj1 (OracleParams_Validate_spec params) Hv) as (_ & _ & _ & Hd & _).
  destruct (Hd (QuorumFraction params) ltac:(set_solver)) as (qf & Hqf & _).
  destruct (EndBlocker_effect w params vals total BB qf Hqf)
    as (w1 & w2 & w'' & E & (Hr & _ & Htw & P1 & P2 & P3) & I2 & _ & Hw').
  rewrite H in E. injection E as <-.
  assert (forall b k y, b <> x01 -> b <> x04 -> b <> x05 -> k = b :: y -> view OracleKey w' !! k = view OracleKey w1 !! k) as Hk1.
  { intros b k y B1 B4 B5 ->. apply (final_entry w params vals total w1 w2 w' qf); [done|done|..]; intros [z [=]]; congruence. }
  assert (forall b k y, b <> x01 -> b <> x02 -> b <> x03 -> b <> x04 -> b <> x05 -> k = b :: y ->
            view OracleKey w' !! k = view OracleKey w !! k) as Hk0.
  { intros b k y B1 B2 B3 B4 B5 ->. erewrite (Hk1 b) by (assumption || reflexivity).
    apply (proj1 Hr); intros [z [=]]; congruence. }
  split.
  - exists params. split; [|done]. rewrite oracle_GetParams_view.
    erewrite (Hk0 x06) by (discriminate || reflexivity). by rewrite <- oracle_GetParams_view.
  - intros k v Hkv Hpre. by rewrite Hw', decide_True in Hkv.
  - intros k v Hkv [y ->]. erewrite (Hk1 x02) in Hkv by (discriminate || reflexivity).
    apply (block_prices w params vals total BB Hi qf w1); [done|done|done|by eexists].
  - intros q Hq k v Hkv [y ->]. erewrite (Hk1 x03) in Hkv by (discriminate || reflexivity).
    apply (block_samples w params vals total BB Hi w1 q); [done|done|done|done|by eexists].
  - intros val. destruct (block_counters w params vals total Hi qf w1 w2 val) as (t & m & Ht & Hm & ?).
    { apply Hfit. }
    { done. }
    exists t, m. rewrite GetTotalWindows_view, GetMissCounter_view, !Hw', !decide_False,
      <- GetTotalWindows_view, <- GetMissCounter_view; [done|intros [z [=]]..].
  - intros val f. erewrite (Hk0 x08), (Hk0 x07) by (discriminate || reflexivity). apply (oi_bindings _ Hi).
  - intros k f Hkf [y ->]. erewrite (Hk0 x08) in Hkf by (discriminate || reflexivity).
    apply (oi_feeders _ Hi); [done|by eexists].
Qed.

Lemma oracle_move_inv k (w w' : W) : oracle_move k w w' -> oracle_inv w -> oracle_inv w'.
Proof.
  intros Hs Hi. destruct Hs as [msg w w' E|msg w w' Hb E|msg w w' Hf E|w w' He E|w w' V].
  - exact (wlp_run _ _ _ _ _ _ (SetFeeder_inv k msg w Hi) E).
  - by eapply SubmitFeed_inv.
  - by eapply UpdateParams_inv.
  - by eapply EndBlocker_inv.
  - by apply (oracle_inv_view w).
Qed.

(** ** Genesis *)

Lemma oracle_inv_fresh (w : W) p bz : view OracleKey w = {[KeyParams := bz]} -> MustUnmarshal bz = Ok p ->
  Validate p = Ok tt -> params_fit p -> oracle_inv w.
Proof.
  intros V Hu Hv Hf.
  assert (forall k v b, view OracleKey w !! k = Some v -> b <> x06 -> [b] `prefix_of` k -> False) as Hno.
  { intros k v b. rewrite V. intros [<- _]%lookup_singleton_Some Hb [z [=]]. congruence. }
  split.
  - exists p. by rewrite oracle_GetParams_view, V, lookup_singleton_eq.
  - intros k v Hk Hp. by destruct (Hno k v x01).
  - intros k v Hk Hp. by destruct (Hno k v x02).
  - intros q _ k v Hk [y ->]. destruct (Hno _ v x03 Hk); [done|by eexists].
  - intros val. exists 0, 0. rewrite GetTotalWindows_view, GetMissCounter_view, V, !lookup_singleton_ne by done.
    unfold two63. split_and!; done || lia.
  - intros val f Hk. destruct (Hno _ f x08 Hk); [done|by eexists].
  - intros k f Hk Hp. by destruct (Hno k f x08).
Qed.

Lemma validate_prices_facts p seen l : validate_prices p seen l = Ok tt ->
  Forall (fun ap => ap_BlockTime ap <> zero_time /\ exists d, LegacyNewDecFromStr (ap_Price ap) = Ok d /\ 0 < d) l.
Proof.
  revert seen; induction l as [|ap l IH]; intros seen H; [constructor|]. cbn [validate_prices] in H.
  destruct (negb _); [done|]. case_bool_decide; [done|].
  destruct (LegacyNewDecFromStr (ap_Price ap)) as [d| |] eqn:E; cbn [wrap_err mbind res_bind] in H; [|done..].
  destruct (Z.ltb_spec 0 d); [|done]. cbn [negb] in H. destruct (Z.eqb_spec (ap_BlockTime ap) zero_time); [done|].
  constructor; [eauto|by eapply IH].
Qed.

(** A genesis state whose messages have sizes that a file can have. *)
Definition genesis_fits (gs : GenesisState) : Prop :=
  params_fit (gs_Params gs) /\ Forall (fun ap => wf_msg ap) (gs_Prices gs).

Lemma InitGenesis_oracle_inv k gs (w : W) : view OracleKey w = ∅ -> genesis_fits gs ->
  wlp (InitGenesis k gs) (fun _ w' => oracle_inv w') (fun _ _ => True) w.
Proof.
  intros Hempty [Hf Hps]. unfold InitGenesis. wlp_steps; try done.
  match goal with H : GenesisState_Validate gs = Ok _ |- _ => rename H into Hv end.
  unfold GenesisState_Validate in Hv. apply res_bind_Ok in Hv as ([] & Hvp & Hv).
  apply res_bind_Ok in Hv as ([] & Hvr%validate_prices_facts & _). rewrite Forall_forall in Hvr, Hps.
  apply (wlp_mfor (fun w' => w' = w)); [done| |].
  { intros p w1 _ ->. wlp_steps; done. }
  intros w1 ->. destruct (oracle_SetParams_run (gs_Params gs) w Hvp (proj1 Hf)) as (w2 & bz & E2 & Hu & (V2 & _)).
  apply wlp_bind, wlp_must. unfold wlp. rewrite E2. fold (wlp (S := W) (A := unit)). rewrite Hempty in V2.
  pose proof (oracle_inv_fresh w2 _ bz V2 Hu Hvp Hf) as Hi2. apply wlp_bind.
  apply (wlp_mfor oracle_inv); [done| |].
  { intros ap w3 Hin Hi3. apply wlp_must.
    destruct (SetAggregatedPrice_run ap w3 (Hps ap Hin)) as (w4 & bz4 & E4 & Hu4 & (V4 & _)).
    unfold wlp. rewrite E4. apply (oracle_inv_insert w3 w4 _ _ V4); [|done]. right; right. exists ap.
    split; [done|]. split; [done|]. split; [by apply Hps|by apply Hvr]. }
  intros w3 Hi3. apply (wlp_mfor oracle_inv); [done| |done].
  intros fd w4 _ Hi4. wlp_steps; try done;
    (apply SetFeederDelegation_wlp; [|done]; intros w5 Hex (V5 & _);
     eapply (oracle_inv_bind w4); [..|exact V5|done]; [by eapply val_parse_ok|by eapply acc_parse_ok|done]).
Qed.

Lemma oracle_reachable_inv k gs (w0 w1 w : W) : view OracleKey w0 = ∅ -> genesis_fits gs ->
  InitGenesis k gs w0 = (w1, Ok tt) -> rtc (oracle_move k) w1 w -> oracle_inv w.
Proof.
  intros He Hf H1 Hs. pose proof (wlp_run _ _ _ _ _ _ (InitGenesis_oracle_inv k gs w0 He Hf) H1) as Hi. cbn beta iota in Hi.
  clear H1. induction Hs as [|w1 w2 w3 H _ IH]; [done|]. by apply IH, (oracle_move_inv k w1 w2).
Qed.

(** The price stored for a pair, whatever its age. *)
Definition stored_price (w : W) (pair : string) (ap : AggregatedPrice) : Prop :=
  exists v, view OracleKey w !! AggregatedPriceKey pair = Some v /\ MustUnmarshal v = Ok ap.

Lemma inv_stored_price (w : W) pair ap : oracle_inv w -> stored_price w pair ap -> ap_Pair ap = pair /\ price_ok ap.
Proof.
  intros Hi (v & Hk & Hu). destruct (oi_prices _ Hi _ v Hk ltac:(by eexists)) as (ap' & Hu' & Ek & Hok).
  rewrite Hu in Hu'. injection Hu' as <-. apply AggregatedPriceKey_inj in Ek as ->. done.
Qed.

(** In a reachable state the crisis invariant on prices can only be broken by a price
    whose pair has been removed from the accept list. *)
Lemma PricesInvariant_accepted (w : W) params : oracle_inv w -> GetParams w = Ok params ->
  PricesInvariant w = Ok false <-> forall pair ap, stored_price w pair ap -> pair ∈ AcceptList params.
Proof.
  intros Hi Hp. rewrite (PricesInvariant_spec params) by done. split.
  - intros H pair ap Hs. destruct (inv_stored_price w pair ap Hi Hs) as [<- _]. destruct Hs as (v & Hk & Hu).
    destruct (H _ v Hk ltac:(by eexists)) as (ap' & Hu' & Hb). rewrite Hu in Hu'. injection Hu' as <-.
    apply orb_false_iff in Hb as [Hb _]. by apply negb_false_iff, bool_decide_eq_true, elem_of_list_to_set in Hb.
  - intros H k v Hk Hpre. destruct (oi_prices _ Hi k v Hk Hpre) as (ap & Hu & -> & _ & _ & d & Hd & Hpos).
    exists ap. split; [done|]. unfold price_broken. rewrite Hd, bool_decide_eq_true_2; [by replace (0 <? d) with true by lia|].
    apply elem_of_list_to_set, (H _ ap). by exists v.
Qed.

(** In such a state the end-blocker succeeds, at a boundary and between boundaries:
    every entry that it decodes is well-formed and no counter overflows. After a
    boundary no feed is left. *)
Lemma EndBlocker_runs (w : W) params : oracle_inv w -> block_env w -> GetParams w = Ok params ->
  exists w', EndBlocker w = (w', Ok tt) /\
    (Z.rem (w_height w) (VoteWindow params) = 0 -> forall val pair, addr_ok val -> GetFeed val pair w' = Ok None).
Proof.
  intros Hi He Hp. destruct (oi_params _ Hi) as (p & Hp' & Hv & _). rewrite Hp in Hp'. injection Hp' as <-.
  destruct (decide (Z.rem (w_height w) (VoteWindow params) = 0)) as [Hb|Hb].
  - destruct (inv_boundary w params Hi He Hp Hb) as (vals & total & BB).
    destruct (proj1 (OracleParams_Validate_spec params) Hv) as (_ & _ & _ & Hd & _).
    destruct (Hd (QuorumFraction params) ltac:(set_solver)) as (qf & Hqf & _).
    destruct (EndBlocker_clears_feeds w params vals total BB qf Hqf) as (w' & E & Hc & _). eauto.
  - exists w. split; [by apply (EndBlocker_between_windows w params)|done].
Qed.

End OracleInv.

(** ** A concrete run: genesis, two feeds, a block, a binding *)

Definition ref_g0 : world (gmap bytes bytes) sdk_state := ref_chain ∅ 10 100.
Definition ref_g1 := (InitGenesis ref_keeper DefaultGenesis ref_g0).1.
Definition ref_submit (val price : string) : MsgSubmitFeed :=
  mkMsgSubmitFeed ("vtx1" +:+ val) ("vtxvaloper1" +:+ val) "VTX:USD" price.
Definition ref_g2 := (SubmitFeed ref_keeper (ref_submit "alice" "1.5") ref_g1).1.
Definition ref_g3 := (SubmitFeed ref_keeper (ref_submit "bobby" "1.51") ref_g2).1.

Lemma ref_genesis_fits : genesis_fits DefaultGenesis.
Proof.
  split; [|constructor]. split; [|repeat constructor; by vm_compute].
  split; [ref_eval|]. split; [split; ref_eval|]. split; [split; ref_eval|split; ref_eval].
Qed.

Lemma ref_genesis_ok : InitGenesis ref_keeper DefaultGenesis ref_g0 = (ref_g1, Ok tt).
Proof. unfold ref_g1. apply run_result. vm_compute; reflexivity. Qed.

(** The feeds of a concrete store, checked entry by entry. *)
Definition small_feedb (kv : bytes * bytes) : bool :=
  match MustUnmarshal (A := OracleFeed) kv.2 with
  | Ok f => match LegacyNewDecFromStr (of_Price f) with Ok d => d <? 2 ^ 255 | _ => true end
  | _ => true
  end.

Lemma feeds_small_check (m : gmap bytes bytes) :
  forallb (fun kv => negb (bool_decide (KeyPrefixFeed `prefix_of` kv.1)) || small_feedb kv) (map_to_list m) = true ->
  feeds_small m.
Proof.
  intros H k v f d Hk Hp Hu Hd. apply (proj1 (forallb_forall _ _)) with (x := (k, v)) in H;
    [|by apply list_elem_of_In, elem_of_map_to_list].
  cbn [fst] in H. rewrite bool_decide_eq_true_2 in H by done. unfold small_feedb in H. cbn [snd negb orb] in H.
  rewrite Hu, Hd in H. by apply Z.ltb_lt.
Qed.

Lemma ref_block_env (w : world (gmap bytes bytes) sdk_state) :
  w_height w = 10 -> w_time w = 100 * Second -> w_ext w = ref_sdk -> feeds_small (view OracleKey w) -> block_env w.
Proof.
  intros Eh Et Ex Hs. split.
  - rewrite Eh. unfold two63. lia.
  - rewrite Et. split; [split; ref_eval|split; ref_eval].
  - rewrite Ex. exists ref_vals, 30. split; [reflexivity|]. split; [repeat constructor; done|].
    split; [vm_compute; repeat constructor; set_solver|]. split; [reflexivity|]. vm_compute. split; congruence.
  - done.
Qed.

Lemma ref_feed_fits (val p : string) (w : world (gmap bytes bytes) sdk_state) :
  w_height w = 10 -> (OracleFeed_Size (mkOracleFeed ("vtxvaloper1" +:+ val) "VTX:USD" p 10) <? two63) = true ->
  feed_fits (ref_submit val p) w.
Proof.
  intros Eh Hs. unfold feed_fits, submitted_feed. cbn [ms_Validator ms_Pair ms_Price ref_submit]. rewrite Eh.
  split; [by apply Z.ltb_lt|]. cbn. unfold two63. lia.
Qed.

Lemma ref_feeds_run : rtc (oracle_move ref_keeper) ref_g1 ref_g3.
Proof.
  eapply rtc_l; [eapply (omove_submit_feed _ (ref_submit "alice" "1.5") _ ref_g2)|].
  { by apply (ref_feed_fits "alice" "1.5"); vm_compute. }
  { apply run_result. vm_compute; reflexivity. }
  apply rtc_once. eapply (omove_submit_feed _ (ref_submit "bobby" "1.51")).
  { by apply (ref_feed_fits "bobby" "1.51"); vm_compute. }
  apply run_result. vm_compute; reflexivity.
Qed.
