(* ===== verification/OracleGenesis.v ===== *)
(** * x/oracle: export and import of a running chain

    [ExportGenesis] of every reachable state gives a genesis state, valid exactly when
    the price invariant holds; [InitGenesis] accepts it exactly when, moreover, the new
    chain is not behind the prices and knows every bound validator, and then rebuilds
    the parameters, the prices and the bindings. The last lemmas run the two histories
    after which an export is not importable. *)

From S2P Require Import Prelude Sdk World SdkRef Wire.
From S2P Require Import OracleTypes OracleAgg OracleKeeper OracleEndBlock OracleSafety OracleInv.

Open Scope Z_scope.

Section OracleGenesis.
Context {St X : Type} {KV : KVStore St} {SM : SdkMath} {BE : Bech32} {T : StdTime}
        {SK : StakingKeeper X} {SL : SlashingKeeper X}.
Local Abbreviation W := (world St X).
Context {KVL : KVStoreLaws St} {SML : SdkMathLaws} {BEL : Bech32Laws} {TL : StdTimeLaws} {SLL : StakingLaws X}.

(** ** Export *)

Lemma export_prices_run (kvs : list (bytes * bytes)) l acc :
  Forall2 (fun kv ap => MustUnmarshal kv.2 = Ok ap /\ kv.1 = AggregatedPriceKey (ap_Pair ap)) kvs l ->
  rfold kvs acc (fun acc kv => ap ← MustUnmarshal kv.2; Ok (acc ++ [ap])) = Ok (acc ++ l).
Proof.
  intros HF. revert acc. induction HF as [|kv ap kvs l [E _] HF IH]; intros acc; cbn [rfold];
    [by rewrite app_nil_r|].
  rewrite E. cbn [mbind res_bind]. by rewrite IH, <- app_assoc.
Qed.

(** A binding as it is exported. *)
Definition binding_of (b : bytes * bytes) : FeederDelegation := mkFeederDelegation (ValString b.1) (AccString b.2).

Lemma export_feeders_run (kvs : list (bytes * bytes)) l :
  Forall2 (fun kv b => (addr_ok b.1 /\ kv.2 = b.2) /\ kv.1 = ValoperToFeederKey b.1) kvs l ->
  export_feeders kvs = binding_of <$> l.
Proof.
  unfold export_feeders. intros HF. assert (forall acc, foldl (fun acc kv =>
    if bool_decide (length kv.1 <= length KeyPrefixValoperToFeeder)%nat then acc else
    acc ++ [mkFeederDelegation (ValString (drop (length KeyPrefixValoperToFeeder) kv.1)) (AccString kv.2)]) acc kvs
    = acc ++ (binding_of <$> l)) as H; [|exact (H [])].
  induction HF as [|[k v] [val f] kvs l [[Hv Ef] Ek] HF IH]; intros acc; [by rewrite app_nil_r|].
  cbn [fst snd] in *. subst. cbn [foldl fmap list_fmap]. rewrite bool_decide_eq_false_2; [|unfold addr_ok in Hv; cbn; lia].
  by rewrite IH, <- app_assoc.
Qed.

(** ** Validation *)

Lemma validate_prices_iff p seen (l : list AggregatedPrice) :
  NoDup (ap_Pair <$> l) -> Forall (fun ap => ap_Pair ap ∉ seen) l ->
  Forall (fun ap => ap_BlockTime ap <> zero_time /\ exists d, LegacyNewDecFromStr (ap_Price ap) = Ok d /\ 0 < d) l ->
  validate_prices p seen l = Ok tt <-> Forall (fun ap => ap_Pair ap ∈ AcceptList p) l.
Proof.
  revert seen; induction l as [|ap l IH]; intros seen ND Hs HF; [done|]. cbn in ND.
  apply NoDup_cons in ND as [Hn ND]. apply Forall_cons in Hs as [Hs0 Hs].
  apply Forall_cons in HF as [(Ht & d & Ed & Hd) HF]. cbn [validate_prices]. rewrite Forall_cons.
  destruct (PairAccepted p (ap_Pair ap)) eqn:Ha; cbn [negb].
  2: { split; [done|]. intros [H%PairAccepted_spec _]. congruence. }
  apply PairAccepted_spec in Ha. rewrite bool_decide_eq_false_2 by done. rewrite Ed. cbn [wrap_err mbind res_bind].
  replace (0 <? d) with true by lia. cbn [negb]. destruct (Z.eqb_spec (ap_BlockTime ap) zero_time); [done|].
  rewrite IH; [tauto|done| |done]. apply Forall_forall. intros b Hb. rewrite Forall_forall in Hs.
  apply not_elem_of_union. split; [|by apply Hs].
  apply not_elem_of_singleton. intros E. apply Hn. rewrite <- E. by apply list_elem_of_fmap_2.
Qed.

Lemma AccString_inj a b : addr_ok a -> addr_ok b -> AccString a = AccString b -> a = b.
Proof. intros Ha Hb E. apply acc_print in Ha, Hb. rewrite E in Ha. rewrite Ha in Hb. by injection Hb. Qed.

Lemma validate_feeders_Ok seen (l : list (bytes * bytes)) :
  NoDup l.*2 -> Forall (fun b => addr_ok b.1 /\ addr_ok b.2) l -> Forall (fun b => AccString b.2 ∉ seen) l ->
  validate_feeders seen (binding_of <$> l) = Ok tt.
Proof.
  revert seen; induction l as [|[val f] l IH]; intros seen ND Ha Hs; [done|]. cbn in ND.
  apply NoDup_cons in ND as [Hn ND]. apply Forall_cons in Hs as [Hs0 Hs]. apply Forall_cons in Ha as [[Hv Hf] Ha].
  cbn [fmap list_fmap validate_feeders binding_of fd_Validator fd_Feeder fst snd] in *.
  rewrite val_print, acc_print by done. cbn [wrap_err mbind res_bind]. rewrite bool_decide_eq_false_2 by done.
  apply IH; [done..|]. rewrite !Forall_forall in *. intros [v' f'] Hb. apply not_elem_of_union.
  split; [|by apply (Hs (v', f'))]. apply not_elem_of_singleton. intros E%AccString_inj; [|by apply (Ha _ Hb)|done].
  cbn in E. subst f'. apply Hn. by apply (list_elem_of_fmap_2 snd) in Hb.
Qed.

(** ** Import *)

Lemma check_times_run (l : list AggregatedPrice) (w : W) :
  Forall (fun ap => ap_BlockTime ap <= w_time w) l ->
  mfor l (fun p => must (ask (fun w => ValidatePriceBlockTime (ap_BlockTime p) (w_time w)))) w = (w, Ok tt).
Proof.
  induction 1 as [|ap l Ht _ IH]; [done|]. cbn [mfor]. erewrite bind_Ok_run; [exact IH|].
  unfold must, ask, ValidatePriceBlockTime. by replace (w_time w <? ap_BlockTime ap) with false by lia.
Qed.

Lemma set_prices_run (l : list AggregatedPrice) (w : W) : Forall (fun ap => wf_msg ap) l -> NoDup (ap_Pair <$> l) ->
  exists w' m, mfor l (fun p => must (SetAggregatedPrice p)) w = (w', Ok tt) /\ store_upd OracleKey m w w' /\
    (forall ap, ap ∈ l -> exists bz, m !! AggregatedPriceKey (ap_Pair ap) = Some bz /\ MustUnmarshal bz = Ok ap) /\
    (forall k, (forall ap, ap ∈ l -> k <> AggregatedPriceKey (ap_Pair ap)) -> m !! k = view OracleKey w !! k).
Proof.
  intros Hwf. revert w. induction Hwf as [|ap l Hap _ IH]; intros w ND.
  { exists w, (view OracleKey w). split_and!; [done|apply store_upd_refl|set_solver|done]. }
  cbn in ND. apply NoDup_cons in ND as [Hn ND].
  destruct (SetAggregatedPrice_run ap w Hap) as (w1 & bz & E1 & D1 & U1).
  destruct (IH w1 ND) as (w2 & m & E2 & U2 & H1 & H2). exists w2, m. destruct U1 as (V1 & U1r).
  split_and!.
  - cbn [mfor]. erewrite bind_Ok_run; [exact E2|]. by apply must_run.
  - eapply store_upd_trans; [|exact U2]. by split.
  - intros a [->|Ha]%elem_of_cons; [|by apply H1]. exists bz. split; [|done].
    rewrite H2, V1; [by rewrite lookup_insert_eq|]. intros b Hb E%AggregatedPriceKey_inj.
    apply Hn. rewrite E. by apply list_elem_of_fmap_2.
  - intros k Hk. rewrite H2, V1, lookup_insert_ne; [done| |].
    + intros E. apply (Hk ap); [by left|done].
    + intros b Hb. apply Hk. by right.
Qed.

Lemma SetFeederDelegation_run val f (w : W) : view OracleKey w !! FeederToValoperKey f = None ->
  exists w', SetFeederDelegation val f w = (w', Ok tt) /\
    store_upd OracleKey (<[ValoperToFeederKey val := f]> (<[FeederToValoperKey f := val]> (view OracleKey w))) w w'.
Proof.
  intros Hn. unfold SetFeederDelegation.
  erewrite bind_ask_run by (rewrite st_get_run by done; reflexivity). rewrite Hn.
  rewrite bind_guard_run by done.
  destruct (st_set_run OracleKey (FeederToValoperKey f) val w) as (w1 & E1 & U1); [done|].
  erewrite bind_Ok_run by exact E1.
  destruct (st_set_run OracleKey (ValoperToFeederKey val) f w1) as (w2 & E2 & U2); [done|].
  exists w2. split; [exact E2|]. destruct U1 as (V1 & U1r). rewrite V1 in U2.
  eapply store_upd_trans; [by split|exact U2].
Qed.

(** The body of the last loop of [InitGenesis]. *)
Definition bind_feeder (k : Keeper) (fd : FeederDelegation) : M W unit :=
  val ← must (lift (ValAddressFromBech32 (fd_Validator fd)));
  feeder ← must (lift (AccAddressFromBech32 (fd_Feeder fd)));
  _ ← (if stakingKeeper k then
         _ ← must (ask (fun w => GetValidator (w_ext w) val)); mret tt
       else mret tt);
  must (SetFeederDelegation val feeder).

Lemma bind_feeder_run k (b : bytes * bytes) (w : W) : addr_ok b.1 -> addr_ok b.2 ->
  (stakingKeeper k = true -> exists v, GetValidator (w_ext w) b.1 = Ok v) -> view OracleKey w !! FeederToValoperKey b.2 = None ->
  exists w', bind_feeder k (binding_of b) w = (w', Ok tt) /\
    store_upd OracleKey (<[ValoperToFeederKey b.1 := b.2]>
      (<[FeederToValoperKey b.2 := b.1]> (view OracleKey w))) w w'.
Proof.
  intros Hv Hf Hex Hn. destruct (SetFeederDelegation_run b.1 b.2 w Hn) as (w' & E & U).
  exists w'. split; [|done]. unfold bind_feeder. cbn [binding_of fd_Validator fd_Feeder].
  erewrite bind_Ok_run by (unfold must, lift; by rewrite val_print).
  erewrite bind_Ok_run by (unfold must, lift; by rewrite acc_print).
  rewrite (bind_Ok_run _ _ w w tt); [by apply must_run|].
  destruct (stakingKeeper k); [|done]. destruct (Hex eq_refl) as [v Ev].
  by erewrite bind_Ok_run by (unfold must, ask; by rewrite Ev).
Qed.

Lemma bind_feeders_run k (l : list (bytes * bytes)) (w : W) : NoDup l.*1 -> NoDup l.*2 ->
  Forall (fun b => addr_ok b.1 /\ addr_ok b.2) l ->
  Forall (fun b => stakingKeeper k = true -> exists v, GetValidator (w_ext w) b.1 = Ok v) l ->
  Forall (fun b => view OracleKey w !! FeederToValoperKey b.2 = None) l ->
  exists w' m, mfor (binding_of <$> l) (bind_feeder k) w = (w', Ok tt) /\ store_upd OracleKey m w w' /\
    (forall b, b ∈ l -> m !! ValoperToFeederKey b.1 = Some b.2 /\ m !! FeederToValoperKey b.2 = Some b.1) /\
    (forall key, (forall b, b ∈ l -> key <> ValoperToFeederKey b.1 /\ key <> FeederToValoperKey b.2) ->
       m !! key = view OracleKey w !! key).
Proof.
  revert w. induction l as [|[val f] l IH]; intros w ND1 ND2 Ha Hv Hn.
  { exists w, (view OracleKey w). split_and!; [done|apply store_upd_refl|set_solver|done]. }
  cbn in ND1, ND2. apply NoDup_cons in ND1 as [Hn1 ND1]. apply NoDup_cons in ND2 as [Hn2 ND2].
  apply Forall_cons in Ha as [[Ha1 Ha2] Ha]. apply Forall_cons in Hv as [Hv0 Hv]. apply Forall_cons in Hn as [Hn0 Hn].
  destruct (bind_feeder_run k (val, f) w Ha1 Ha2 Hv0 Hn0) as (w1 & E1 & V1 & U1). cbn [fst snd] in *.
  assert (forall b, b ∈ l -> val <> b.1 /\ f <> b.2) as Hd.
  { intros b Hb. split; intros ->; [apply Hn1|apply Hn2]; by apply list_elem_of_fmap_2. }
  destruct (IH w1 ND1 ND2 Ha) as (w2 & m & E2 & U2 & H1 & H2).
  { destruct U1 as (_ & -> & _). done. }
  { rewrite V1. rewrite !Forall_forall in *. intros b Hb. rewrite lookup_insert_ne by done.
    rewrite lookup_insert_ne; [by apply Hn|]. intros [= E]. by apply (Hd b Hb). }
  exists w2, m. split_and!.
  - cbn [fmap list_fmap mfor]. by erewrite bind_Ok_run by exact E1.
  - eapply store_upd_trans; [by split|exact U2].
  - intros b [->|Hb]%elem_of_cons; [|by apply H1]. cbn [fst snd].
    split; (rewrite H2, V1; [|intros b Hb; destruct (Hd b Hb); split; intros [= ?]; congruence]);
      [by rewrite lookup_insert_eq|by rewrite lookup_insert_ne, lookup_insert_eq].
  - intros key Hk. destruct (Hk (val, f) ltac:(left)) as [K1 K2]. cbn [fst snd] in K1, K2.
    rewrite H2 by (intros b Hb; apply Hk; by right). by rewrite V1, !lookup_insert_ne by congruence.
Qed.

(** ** The round trip *)

(** The exported lists: the stored prices, one per pair, and the bindings. *)
Lemma ExportGenesis_run (w : W) params : oracle_inv w -> GetParams w = Ok params ->
  exists prices bindings, ExportGenesis w = Ok (mkGenesisState params prices (binding_of <$> bindings)) /\
    NoDup (ap_Pair <$> prices) /\ (forall ap, ap ∈ prices <-> stored_price w (ap_Pair ap) ap) /\
    NoDup bindings.*1 /\ NoDup bindings.*2 /\
    (forall val f, (val, f) ∈ bindings <-> view OracleKey w !! ValoperToFeederKey val = Some f) /\
    Forall (fun b => addr_ok b.1 /\ addr_ok b.2) bindings.
Proof.
  intros [_ _ Hpr _ _ Hb Hf] Hp.
  set (R1 v (ap : AggregatedPrice) := MustUnmarshal v = Ok ap).
  destruct (kv_decoded (view OracleKey w) KeyPrefixAggregatedPrice R1 (fun ap => AggregatedPriceKey (ap_Pair ap)))
    as [ps HF1].
  { intros k v Hk Hpre. destruct (Hpr k v Hk Hpre) as (ap & Eap & Ek & _). by exists ap. }
  destruct (kv_decoded_spec _ _ R1 _ _ HF1) as (N1 & P1 & P2).
  set (R2 v (b : bytes * bytes) := addr_ok b.1 /\ v = b.2).
  destruct (kv_decoded (view OracleKey w) KeyPrefixValoperToFeeder R2 (fun b => ValoperToFeederKey b.1))
    as [bs HF2].
  { intros k f Hk Hpre. destruct (Hf k f Hk Hpre) as (_ & val & Hv & ->). by exists (val, f). }
  destruct (kv_decoded_spec _ _ R2 _ _ HF2) as (N2 & B1 & B2).
  pose proof (sort_slice_perm (string_less ap_Pair) ps) as Hps.
  destruct (Permutation_map_inv _ _ (sort_slice_perm (string_less fd_Validator) (binding_of <$> bs))) as (bs' & Ebs & Hbs).
  exists (sort_slice (string_less ap_Pair) ps), bs'.
  assert (forall val f, (val, f) ∈ bs <-> view OracleKey w !! ValoperToFeederKey val = Some f) as Hbind.
  { intros val f. split.
    - intros (_ & v & Hv & _ & ->)%B1. exact Hv.
    - intros Hv. destruct (B2 _ f Hv ltac:(by eexists)) as ([val' f'] & Hin & [= <-] & _ & ->). done. }
  split_and!.
  - unfold ExportGenesis. rewrite Hp. cbn [must_res mbind res_bind]. rewrite !st_iterator_run by done.
    cbn [must_res mbind res_bind]. unfold export_prices. rewrite (export_prices_run _ ps []) by exact HF1.
    cbn [app mbind res_bind]. rewrite (export_feeders_run _ bs) by exact HF2.
    do 2 f_equal. exact Ebs.
  - rewrite Hps. apply (NoDup_fmap_1 AggregatedPriceKey). by rewrite <- list_fmap_compose.
  - intros ap. rewrite Hps. split; [by intros (_ & v & ? & ?)%P1; exists v|].
    intros (v & Hv & Hu). destruct (P2 _ v Hv ltac:(by eexists)) as (ap' & Hin & _ & Hu').
    unfold R1 in Hu'. rewrite Hu in Hu'. by injection Hu' as <-.
  - rewrite <- Hbs. apply (NoDup_fmap_1 ValoperToFeederKey). by rewrite <- list_fmap_compose.
  - rewrite <- Hbs. apply NoDup_fmap_2_strong; [|by apply NoDup_fmap_1 in N2].
    intros [v1 f1] [v2 f2] H1%Hbind%Hb H2%Hbind%Hb E. cbn in E. subst f2. rewrite H1 in H2. by injection H2 as ->.
  - intros val f. by rewrite <- Hbs.
  - rewrite <- Hbs. apply Forall_forall. intros [val f] Hin. apply Hbind in Hin.
    destruct (Hf _ f Hin ltac:(by eexists)) as (? & val' & ? & [= ->]). done.
Qed.

Lemma exported_valid (w : W) params prices bindings : oracle_inv w -> GetParams w = Ok params ->
  NoDup (ap_Pair <$> prices) -> (forall ap, ap ∈ prices <-> stored_price w (ap_Pair ap) ap) ->
  NoDup bindings.*2 -> Forall (fun b => addr_ok b.1 /\ addr_ok b.2) bindings ->
  GenesisState_Validate (mkGenesisState params prices (binding_of <$> bindings)) = Ok tt <->
  PricesInvariant w = Ok false.
Proof.
  intros Hi Hp ND Hin ND2 Ha. rewrite (PricesInvariant_accepted w params) by done.
  destruct (oi_params _ Hi) as (p & Hp' & Hv & _). rewrite Hp in Hp'. injection Hp' as <-.
  unfold GenesisState_Validate. cbn [gs_Params gs_Prices gs_Feeders]. rewrite Hv. cbn [mbind res_bind].
  assert (forall r : res unit, (_ ← r; validate_feeders ∅ (binding_of <$> bindings)) = Ok tt <-> r = Ok tt) as Hr.
  { intros r. destruct r as [[]| |]; cbn [mbind res_bind]; [|done..]. split; [done|]. intros _.
    apply validate_feeders_Ok; [done..|]. apply Forall_forall. set_solver. }
  rewrite Hr, validate_prices_iff; [|done|apply Forall_forall; set_solver|].
  - rewrite Forall_forall. split.
    + intros H pair ap Hs. destruct (inv_stored_price w pair ap Hi Hs) as [<- _]. by apply H, Hin.
    + intros H ap Hs%Hin. by apply (H _ ap).
  - apply Forall_forall. intros ap Hs%Hin. by destruct (inv_stored_price w _ ap Hi Hs) as (_ & _ & Ht & Hd).
Qed.

(** What an import writes, and nothing else. *)
Record imported (params : OracleParams) (ps : list AggregatedPrice) (bs : list (bytes * bytes))
  (m : gmap bytes bytes) : Prop := {
  im_params : exists bz, m !! KeyParams = Some bz /\ MustUnmarshal bz = Ok params;
  im_prices : forall ap, ap ∈ ps ->
    exists bz, m !! AggregatedPriceKey (ap_Pair ap) = Some bz /\ MustUnmarshal bz = Ok ap;
  im_bindings : forall b, b ∈ bs ->
    m !! ValoperToFeederKey b.1 = Some b.2 /\ m !! FeederToValoperKey b.2 = Some b.1;
  im_only : forall key, m !! key <> None -> key = KeyParams \/
    (exists ap, ap ∈ ps /\ key = AggregatedPriceKey (ap_Pair ap)) \/
    (exists b, b ∈ bs /\ (key = ValoperToFeederKey b.1 \/ key = FeederToValoperKey b.2))
}.

Lemma InitGenesis_run k params ps bs (w0 : W) :
  let gs := mkGenesisState params ps (binding_of <$> bs) in
  GenesisState_Validate gs = Ok tt -> wf_msg params -> Forall (fun ap => wf_msg ap) ps ->
  NoDup (ap_Pair <$> ps) -> NoDup bs.*1 -> NoDup bs.*2 -> Forall (fun b => addr_ok b.1 /\ addr_ok b.2) bs ->
  Forall (fun ap => ap_BlockTime ap <= w_time w0) ps ->
  Forall (fun b => stakingKeeper k = true -> exists v, GetValidator (w_ext w0) b.1 = Ok v) bs -> view OracleKey w0 = ∅ ->
  exists w1, InitGenesis k gs w0 = (w1, Ok tt) /\ imported params ps bs (view OracleKey w1).
Proof.
  intros gs Hv Hwf Hps N1 N2 N3 Ha Ht Hval He.
  assert (Validate params = Ok tt) as Hvp.
  { unfold GenesisState_Validate in Hv. cbn [gs_Params gs] in Hv. by destruct (Validate params) as [[]| |]. }
  destruct (oracle_SetParams_run params w0 Hvp Hwf) as (wa & bz & Ea & Da & Va & Ua).
  destruct (set_prices_run ps wa Hps N1) as (wb & mb & Eb & (Vb & Ub) & P1 & P2).
  assert (forall b, view OracleKey wb !! FeederToValoperKey b = None) as Hnone.
  { intros b. rewrite Vb, P2, Va, He, lookup_insert_ne by done. done. }
  destruct (bind_feeders_run k bs wb N2 N3 Ha) as (wc & mc & Ec & (Vc & _) & B1 & B2).
  { destruct Ub as (_ & -> & _). by destruct Ua as (_ & -> & _). }
  { by apply Forall_forall. }
  exists wc. split.
  - unfold InitGenesis. cbn [gs gs_Params gs_Prices gs_Feeders].
    erewrite bind_Ok_run by (apply must_run; unfold lift; by rewrite Hv).
    erewrite bind_Ok_run by (by apply check_times_run).
    erewrite bind_Ok_run by (by apply must_run).
    erewrite bind_Ok_run by exact Eb. exact Ec.
  - rewrite Vc. split.
    + exists bz. split; [|done]. rewrite B2, Vb, P2, Va by done. by rewrite lookup_insert_eq.
    + intros ap Hap. rewrite B2, Vb by done. by apply P1.
    + exact B1.
    + intros key Hk. destruct (decide (key = KeyParams)) as [|Hnp]; [by left|right].
      destruct (decide (Exists (fun b => key = ValoperToFeederKey b.1 \/ key = FeederToValoperKey b.2) bs))
        as [Hex|Hnb]; [right; by apply Exists_exists in Hex|left].
      destruct (decide (Exists (fun ap => key = AggregatedPriceKey (ap_Pair ap)) ps))
        as [Hex|Hna]; [by apply Exists_exists in Hex|exfalso].
      apply Hk. rewrite B2, Vb, P2; [by rewrite Va, He, lookup_insert_ne by congruence|..].
      * intros ap Hap ->. apply Hna, Exists_exists. eauto.
      * intros b Hb. split; intros ->; apply Hnb, Exists_exists; eauto.
Qed.

Lemma oracle_import_run k (w wn : W) params ps bs :
  let gs := mkGenesisState params ps (binding_of <$> bs) in
  oracle_inv w -> GetParams w = Ok params -> NoDup (ap_Pair <$> ps) ->
  (forall ap, ap ∈ ps <-> stored_price w (ap_Pair ap) ap) -> NoDup bs.*1 -> NoDup bs.*2 ->
  (forall val f, (val, f) ∈ bs <-> view OracleKey w !! ValoperToFeederKey val = Some f) ->
  Forall (fun b => addr_ok b.1 /\ addr_ok b.2) bs -> GenesisState_Validate gs = Ok tt -> view OracleKey wn = ∅ ->
  (forall pair ap, stored_price w pair ap -> ap_BlockTime ap <= w_time wn) ->
  (stakingKeeper k = true ->
     forall val f, GetFeederForValidator val w = Ok (Some f) -> exists v, GetValidator (w_ext wn) val = Ok v) ->
  exists w', InitGenesis k gs wn = (w', Ok tt) /\ oracle_inv w' /\ GetParams w' = Ok params /\
    (forall pair ap, stored_price w' pair ap <-> stored_price w pair ap) /\
    (forall val, GetFeederForValidator val w' = GetFeederForValidator val w) /\
    (forall key, view OracleKey w' !! key <> None ->
       key = KeyParams \/ KeyPrefixAggregatedPrice `prefix_of` key \/ binding_key key).
Proof.
  intros gs Hi Hp N1 P N2 N3 B Ha Hv He Ht Hval.
  destruct (oi_params _ Hi) as (p & Hp' & _ & Hfit). rewrite Hp in Hp'. injection Hp' as <-.
  assert (Forall (fun ap => wf_msg ap) ps) as Hwf.
  { apply Forall_forall. intros ap Hap%P. by apply inv_stored_price in Hap as (_ & ? & _). }
  destruct (InitGenesis_run k params ps bs wn Hv (proj1 Hfit)) as (w1 & E1 & [(bz & K1 & K2) I1 I2 I3]); try done.
  { apply Forall_forall. intros ap Hap%P. by apply Ht in Hap. }
  { apply Forall_forall. intros [val f] Hb%B Hk. apply (Hval Hk val f). by rewrite GetFeederForValidator_view, Hb. }
  exists w1. split_and!; [done| | | | |].
  - refine (wlp_run _ _ _ _ _ _ (InitGenesis_oracle_inv k gs wn He _) E1). by split.
  - by rewrite oracle_GetParams_view, K1.
  - intros pair ap. split.
    + intros (v & Hk & Hu). destruct (I3 _ ltac:(by rewrite Hk)) as [[=]|[(ap' & Hin & Ek)|(b & _ & [[=]|[=]])]].
      apply AggregatedPriceKey_inj in Ek. subst pair. destruct (I1 ap' Hin) as (v' & Hk' & Hu').
      rewrite Hk in Hk'. injection Hk' as <-. rewrite Hu in Hu'. injection Hu' as <-. by apply P.
    + intros Hs. destruct (inv_stored_price w pair ap Hi Hs) as [<- _]. apply P, I1 in Hs as (v & ? & ?). by exists v.
  - intros val. rewrite !GetFeederForValidator_view. f_equal.
    destruct (view OracleKey w1 !! ValoperToFeederKey val) as [f|] eqn:Ef.
    + destruct (I3 _ ltac:(by rewrite Ef)) as [[=]|[(ap' & _ & [=])|(b & Hin & [[= ->]|[=]])]].
      destruct (I2 _ Hin) as [G1 _]. rewrite G1 in Ef. injection Ef as <-. symmetry. apply B. by destruct b.
    + destruct (view OracleKey w !! ValoperToFeederKey val) as [f|] eqn:Ef'; [|done].
      apply B, I2 in Ef' as [Ef' _]. cbn [fst snd] in Ef'. congruence.
  - intros key Hk. destruct (I3 _ Hk) as [->|[(ap & _ & ->)|(b & _ & [-> | ->])]]; [by left|right; left; by eexists|..];
      right; right; [right|left]; by eexists.
Qed.

(** What an export is, and what importing it gives. *)
Lemma inv_restart k (w : W) params : oracle_inv w -> GetParams w = Ok params ->
  exists gs, ExportGenesis w = Ok gs /\ genesis_fits gs /\
    (GenesisState_Validate gs = Ok tt <-> PricesInvariant w = Ok false) /\
    (PricesInvariant w = Ok false -> forall wn, view OracleKey wn = ∅ ->
      (forall pair ap, stored_price w pair ap -> ap_BlockTime ap <= w_time wn) ->
      (stakingKeeper k = true ->
         forall val f, GetFeederForValidator val w = Ok (Some f) -> exists v, GetValidator (w_ext wn) val = Ok v) ->
      exists w', InitGenesis k gs wn = (w', Ok tt) /\ oracle_inv w' /\ GetParams w' = Ok params /\
        (forall pair ap, stored_price w' pair ap <-> stored_price w pair ap) /\
        (forall val, GetFeederForValidator val w' = GetFeederForValidator val w) /\
        (forall key, view OracleKey w' !! key <> None ->
           key = KeyParams \/ KeyPrefixAggregatedPrice `prefix_of` key \/ binding_key key)).
Proof.
  intros Hi Hp. destruct (ExportGenesis_run w params Hi Hp) as (ps & bs & Ee & N1 & P & N2 & N3 & B & Ha).
  pose proof (exported_valid w params ps bs Hi Hp N1 P N3 Ha) as Hv.
  eexists. split; [exact Ee|]. split.
  { destruct (oi_params _ Hi) as (p & Hp' & _ & Hfit). rewrite Hp in Hp'. injection Hp' as <-.
    split; [done|]. apply Forall_forall. intros ap Hap%P. by apply inv_stored_price in Hap as (_ & ? & _). }
  split; [exact Hv|]. intros Hinv wn He Ht Hval.
  apply (oracle_import_run k w wn params ps bs); try done. by apply Hv.
Qed.

(** ** What an import needs *)

(** A loop all of whose iterations establish [P] of their element. *)
Lemma wlp_mfor_each {S A} (I : S -> Prop) (P : A -> Prop) (l : list A) (body : A -> M S unit)
  (Q : unit -> S -> Prop) (E : error -> S -> Prop) s :
  I s -> (forall x s, x ∈ l -> I s -> wlp (body x) (fun _ s' => I s' /\ P x) E s) ->
  (forall s, I s -> Forall P l -> Q tt s) -> wlp (mfor l body) Q E s.
Proof.
  revert s Q. induction l as [|x l IH]; intros s Q Hs Hb HQ; cbn [mfor]; [by apply wlp_mret, HQ|].
  apply wlp_bind. eapply wlp_mono; [apply Hb; [left|done]| |done]. intros [] s' [Hs' Hx].
  apply IH; [done| |].
  - intros y s1 Hy. apply Hb. by right.
  - intros s1 Hs1 Hl. apply HQ; [done|]. by constructor.
Qed.

(** The import of a genesis state either panics or has found it valid, its prices not
    after the block and, with a staking keeper, its validators known; it returns no
    error. *)
Lemma InitGenesis_requires k gs (w : W) : Forall (fun ap => wf_msg ap) (gs_Prices gs) ->
  wlp (InitGenesis k gs) (fun _ _ => GenesisState_Validate gs = Ok tt /\
    Forall (fun ap => ap_BlockTime ap <= w_time w) (gs_Prices gs) /\
    Forall (fun fd => stakingKeeper k = true -> exists val v, ValAddressFromBech32 (fd_Validator fd) = Ok val /\
      GetValidator (w_ext w) val = Ok v) (gs_Feeders gs)) (fun _ _ => False) w.
Proof.
  intros Hwf. rewrite Forall_forall in Hwf. unfold InitGenesis. wlp_steps; try done.
  match goal with H : GenesisState_Validate gs = Ok ?u |- _ => destruct u; rename H into Hv end.
  apply (wlp_mfor_each (fun s => s = w) (fun ap => ap_BlockTime ap <= w_time w)); [done| |].
  { intros ap s _ ->. wlp_steps; try done. split; [done|].
    match goal with H : ValidatePriceBlockTime _ _ = Ok _ |- _ => revert H end.
    unfold ValidatePriceBlockTime. by destruct (Z.ltb_spec (w_time w) (ap_BlockTime ap)). }
  intros ? -> Ht. apply wlp_bind, wlp_must. unfold SetParams. wlp_steps; try done. apply wlp_st_set; [done|].
  intros w1 (_ & _ & X1 & _). apply wlp_bind. apply (wlp_mfor (fun s => w_ext s = w_ext w)); [done| |].
  { intros ap s Hin Hs. apply wlp_must. destruct (SetAggregatedPrice_run ap s (Hwf ap Hin)) as (s' & bz & E & _ & U).
    unfold wlp. rewrite E. destruct U as (_ & _ & -> & _). done. }
  intros w2 X2. apply (wlp_mfor_each (fun s => w_ext s = w_ext w) (fun fd => stakingKeeper k = true ->
    exists val v, ValAddressFromBech32 (fd_Validator fd) = Ok val /\ GetValidator (w_ext w) val = Ok v)); [done| |done].
  intros fd s _ Hs. wlp_steps; try done;
    (apply SetFeederDelegation_wlp; [|done]; intros s' _ (_ & _ & -> & _); split; [done|]).
  - intros _. rewrite <- Hs. eauto.
  - by intros Hk; congruence.
Qed.

(** What the restart of a chain from the export of [w] depends on: no price of a pair
    that is not accepted is stored, the new chain is not behind a price, and, where
    the keeper has a staking keeper, it knows every validator that has a feeder. *)
Record restartable (k : Keeper) (w wn : W) : Prop := mkRestartable {
  rs_prices : PricesInvariant w = Ok false;
  rs_time : forall pair ap, stored_price w pair ap -> ap_BlockTime ap <= w_time wn;
  rs_validators : stakingKeeper k = true ->
    forall val f, GetFeederForValidator val w = Ok (Some f) -> exists v, GetValidator (w_ext wn) val = Ok v
}.

(** Otherwise the import panics. *)
Lemma import_panics k (w wn : W) params gs : oracle_inv w -> GetParams w = Ok params -> ExportGenesis w = Ok gs ->
  ~ restartable k w wn -> (InitGenesis k gs wn).2 = Panic.
Proof.
  intros Hi Hp He Hn. destruct (ExportGenesis_run w params Hi Hp) as (ps & bs & Ee & N1 & P & N2 & N3 & B & Ha).
  rewrite He in Ee. injection Ee as ->.
  assert (Forall (fun ap => wf_msg ap) ps) as Hwf.
  { apply Forall_forall. intros ap Hap%P. by apply inv_stored_price in Hap as (_ & ? & _). }
  pose proof (InitGenesis_requires k (mkGenesisState params ps (binding_of <$> bs)) wn Hwf) as H. unfold wlp in H.
  destruct (InitGenesis _ _ wn) as [w' [[]| |]]; [|done|done]. cbn [snd gs_Prices gs_Feeders] in *.
  destruct H as (Hv & Ht & Hval). exfalso. apply Hn. split.
  - by apply (exported_valid w params ps bs Hi Hp N1 P N3 Ha).
  - intros pair ap Hs. rewrite Forall_forall in Ht. apply Ht. apply P. by destruct (inv_stored_price w pair ap Hi Hs) as [-> _].
  - intros Hk val f Hf. rewrite GetFeederForValidator_view in Hf. injection Hf as Hf. apply B in Hf.
    rewrite Forall_forall in Ha. rewrite Forall_forall in Hval. destruct (Ha _ Hf) as [Hav _].
    destruct (Hval (binding_of (val, f)) (list_elem_of_fmap_2 _ _ _ Hf) Hk) as (val' & v & Ev & Eg).
    cbn in Ev. rewrite val_print in Ev by done. injection Ev as <-. by exists v.
Qed.

(** C15: a chain can be restarted from its export exactly under three conditions. Of
    every state reached from genesis (by blocks whose windows close on feeds below
    2^255 units) the export succeeds, and it is a valid genesis state exactly when the
    crisis invariant on prices holds. Imported on an empty store it panics unless that
    invariant holds, the block time of the new chain is not before that of a price,
    and every validator that has a feeder exists in the new chain (x/oracle keeps the
    bindings of validators that x/staking removed: [removed_validator_blocks_restart]).
    When the three hold it rebuilds the same parameters, for every pair the same stored
    price and for every validator the same feeder, and the invariant of the store
    holds again; feeds, miss counters and time-weighted samples start empty. *)
Theorem oracle_restart k gs0 (w0 w1 w : W) : view OracleKey w0 = ∅ -> genesis_fits gs0 ->
  InitGenesis k gs0 w0 = (w1, Ok tt) -> rtc (oracle_move k) w1 w ->
  exists gs, ExportGenesis w = Ok gs /\ (GenesisState_Validate gs = Ok tt <-> PricesInvariant w = Ok false) /\
    forall wn, view OracleKey wn = ∅ ->
      (~ restartable k w wn -> (InitGenesis k gs wn).2 = Panic) /\
      (restartable k w wn ->
       exists w', InitGenesis k gs wn = (w', Ok tt) /\ oracle_inv w' /\ GetParams w' = GetParams w /\
         (forall pair ap, stored_price w' pair ap <-> stored_price w pair ap) /\
         (forall val, GetFeederForValidator val w' = GetFeederForValidator val w) /\
         (forall key, view OracleKey w' !! key <> None ->
            key = KeyParams \/ KeyPrefixAggregatedPrice `prefix_of` key \/ binding_key key)).
Proof.
  intros Hz Hf H1 Hs. pose proof (oracle_reachable_inv k gs0 w0 w1 w Hz Hf H1 Hs) as Hi.
  destruct (oi_params _ Hi) as (params & Hp & _). rewrite Hp.
  destruct (inv_restart k w params Hi Hp) as (gs & E & _ & Hv & H). exists gs. split; [done|]. split; [done|].
  intros wn He. split; [by apply (import_panics k w wn params)|]. intros [R1 R2 R3]. by apply H.
Qed.

End OracleGenesis.

(** ** Concrete restarts *)

(** A boundary block has published a price, and alice has bound a feeder. *)
Definition ref_g4 := (EndBlocker ref_g3).1.
Definition ref_running : world (gmap bytes bytes) sdk_state :=
  (SetFeeder ref_keeper (mkMsgSetFeeder "vtxvaloper1alice" "vtx1carol") ref_g4).1.

Lemma ref_running_reached : rtc (oracle_move ref_keeper) ref_g1 ref_running.
Proof.
  etrans; [exact ref_feeds_run|].
  eapply rtc_l; [apply (omove_end_block _ _ ref_g4)|].
  { apply ref_block_env; [vm_compute; reflexivity..|]. apply feeds_small_check. vm_compute; reflexivity. }
  { unfold ref_g4. apply run_result. vm_compute; reflexivity. }
  unfold ref_running. apply rtc_once, (omove_set_feeder _ (mkMsgSetFeeder "vtxvaloper1alice" "vtx1carol")), run_result. vm_compute; reflexivity.
Qed.

(** Facts about the stored prices and the bindings of a given state, by its entries. *)
Lemma stored_price_entries {St X} {KV : KVStore St} {KVL : KVStoreLaws St} {T : StdTime} (w : world St X) (P : AggregatedPrice -> Prop) :
  Forall (fun kv => exists ap, MustUnmarshal kv.2 = Ok ap /\ P ap)
    (kv_prefix (view OracleKey w) KeyPrefixAggregatedPrice) ->
  forall pair ap, stored_price w pair ap -> P ap.
Proof.
  rewrite Forall_forall. intros H pair ap (v & Hk & Hu).
  destruct (H (AggregatedPriceKey pair, v)) as (ap' & Hu' & Hp); [apply elem_of_kv_prefix; split; [done|by eexists]|].
  cbn [snd] in Hu'. rewrite Hu in Hu'. by injection Hu' as <-.
Qed.

Lemma feeder_entries {St X} {KV : KVStore St} {KVL : KVStoreLaws St} (w : world St X) (P : bytes -> Prop) :
  Forall (fun kv => forall val, kv.1 = ValoperToFeederKey val -> P val)
    (kv_prefix (view OracleKey w) KeyPrefixValoperToFeeder) ->
  forall val f, GetFeederForValidator val w = Ok (Some f) -> P val.
Proof.
  rewrite Forall_forall. intros H val f. rewrite GetFeederForValidator_view. intros [= Hk].
  apply (H (ValoperToFeederKey val, f)); [|done]. apply elem_of_kv_prefix. split; [done|by eexists].
Qed.

(** Evaluates the entries of a concrete store under a prefix. *)
Ltac entries := set (l := kv_prefix _ _); vm_compute in l; subst l; constructor; [|constructor].

Lemma oracle_restart_witness :
  exists gs w', ExportGenesis ref_running = Ok gs /\ InitGenesis ref_keeper gs (ref_chain ∅ 0 200) = (w', Ok tt) /\
    GetFeederForValidator (bytes_of "alice") w' = Ok (Some (bytes_of "carol")).
Proof.
  destruct (oracle_restart ref_keeper DefaultGenesis ref_g0 ref_g1 ref_running) as (gs & E1 & _ & H);
    [reflexivity|exact ref_genesis_fits|exact ref_genesis_ok|exact ref_running_reached|].
  destruct (H (ref_chain ∅ 0 200) ltac:(reflexivity)) as [_ HR].
  destruct HR as (w' & E2 & _ & _ & _ & F & _); [split|].
  - vm_compute; reflexivity.
  - apply stored_price_entries. entries. eexists. split; [vm_compute; reflexivity|]. vm_compute; discriminate.
  - intros _. apply feeder_entries. entries. intros val [= <-]. exists (ref_val "alice"). vm_compute; reflexivity.
  - exists gs, w'. split; [exact E1|]. split; [exact E2|]. rewrite F. vm_compute; reflexivity.
Defined.

(** The parameter update that removes a pair leaves its price in the store: the
    export then contains it, and the chain cannot be started from the export. *)
Lemma removed_pair_blocks_restart :
  let w := (UpdateParams ref_keeper ref_update ref_priced).1 in
  (UpdateParams ref_keeper ref_update ref_priced).2 = Ok tt /\
  exists gs, ExportGenesis w = Ok gs /\ GenesisState_Validate gs = Err ErrGenesis /\
    (InitGenesis ref_keeper gs (ref_chain ∅ 0 200)).2 = Panic.
Proof.
  split; [vm_compute; reflexivity|]. eexists. split; [vm_compute; reflexivity|]. split; vm_compute; reflexivity.
Qed.

(** A validator that leaves the validator set keeps its binding: when x/staking has
    removed alice, the export of the chain, which validates, still contains her
    feeder, and a chain with the same validators panics on it. *)
Definition ref_departed : world (gmap bytes bytes) sdk_state :=
  set_ext (mkSdk (fun _ _ => 0) (fun _ => 0) [ref_val "bobby"] (fun _ => 0) 0) ref_running.

Lemma removed_validator_blocks_restart :
  rtc (oracle_move ref_keeper) ref_g1 ref_departed /\ PricesInvariant ref_departed = Ok false /\
  exists gs, ExportGenesis ref_departed = Ok gs /\ GenesisState_Validate gs = Ok tt /\
    (InitGenesis ref_keeper gs (mkWorld ∅ ∅ ∅ (w_ext ref_departed) 0 (200 * Second) [])).2 = Panic.
Proof.
  split; [eapply rtc_r; [exact ref_running_reached|by apply omove_other]|].
  split; [vm_compute; reflexivity|]. eexists. split; [vm_compute; reflexivity|]. split; vm_compute; reflexivity.
Qed.
