(* ===== verification/RwaTypes.v ===== *)
(** * x/rwa: types

    The asset record and the messages (types/types.pb.go, tx.pb.go,
    genesis.pb.go), store keys (types/keys.go), errors and events, parameters
    (types/params.go), the stateless validation of the messages (types/msgs.go)
    and of the genesis state (types/genesis.go), and the generated binary
    encodings of the two stored messages. *)

From S2P Require Import Prelude Sdk World SdkRef Wire.

Open Scope Z_scope.

(** ** Errors, events and keys *)

Definition ModuleName : string := "rwa".
Definition BondDenom : string := "uvtx".
Definition RWADenomPrefix : string := "rwa/".

(** [authtypes.FeeCollectorName]. *)
Definition FeeCollectorName : string := "fee_collector".

Definition ErrInvalidSigner : error := Registered ModuleName 2.
Definition ErrUnauthorized : error := Registered ModuleName 3.
Definition ErrAssetExists : error := Registered ModuleName 4.
Definition ErrAssetNotFound : error := Registered ModuleName 5.
Definition ErrInvalidStatus : error := Registered ModuleName 6.
Definition ErrBondTooLow : error := Registered ModuleName 7.
Definition ErrAttestationFailed : error := Registered ModuleName 8.
Definition ErrInvalidNotional : error := Registered ModuleName 9.
Definition ErrTransferRestricted : error := Registered ModuleName 10.
Definition ErrInvalidAssetID : error := Registered ModuleName 11.
Definition ErrInvalidParams : error := Registered ModuleName 12.
Definition ErrInvalidAmount : error := Registered ModuleName 13.
Definition ErrInvalidAddress : error := Registered "sdk" 7.

Definition EventTypeAssetRegistered : string := "rwa_asset_registered".
Definition EventTypeAssetAttested : string := "rwa_asset_attested".
Definition EventTypeRWAMinted : string := "rwa_minted".
Definition EventTypeRWATransferred : string := "rwa_transferred".
Definition EventTypeRWASettled : string := "rwa_settled".
Definition EventTypeRestrictionUpdated : string := "rwa_restriction_updated".
Definition EventTypeBondSlashed : string := "rwa_bond_slashed".
Definition EventTypeParamsUpdated : string := "rwa_params_updated".
Definition AttributeKeyAssetID : string := "asset_id".
Definition AttributeKeyIssuer : string := "issuer".
Definition AttributeKeyBond : string := "bond".
Definition AttributeKeyOraclePair : string := "oracle_pair".
Definition AttributeKeyAttestedPrice : string := "attested_price".
Definition AttributeKeyNotional : string := "notional".
Definition AttributeKeyMintFee : string := "mint_fee".
Definition AttributeKeySettleFee : string := "settle_fee".
Definition AttributeKeyBondReturned : string := "bond_returned".
Definition AttributeKeySender : string := "sender".
Definition AttributeKeyRecipient : string := "recipient".
Definition AttributeKeyAmount : string := "amount".
Definition AttributeKeyAllowAll : string := "allow_all".
Definition AttributeKeyReason : string := "reason".

(** ** The data *)

(** [AssetStatus] is an [int32]: a stored record may hold any value. *)
Definition ASSET_STATUS_UNSPECIFIED : Z := 0.
Definition ASSET_STATUS_DRAFT : Z := 1.
Definition ASSET_STATUS_ATTESTED : Z := 2.
Definition ASSET_STATUS_ACTIVE : Z := 3.
Definition ASSET_STATUS_SETTLED : Z := 4.

Record AssetRecord : Type := mkAssetRecord {
  ar_AssetId : string;
  ar_Issuer : string;
  ar_Name : string;
  ar_Description : string;
  ar_Status : Z;
  ar_OraclePair : string;
  ar_Denom : string;
  ar_Bond : string;
  ar_NotionalMinted : string;
  ar_AllowAll : bool;
  ar_AttestedPrice : string;
  ar_AttestedAt : Z;
  ar_CreatedAt : Z;
  ar_SettledAt : Z
}.

#[global] Instance AssetRecord_eq_dec : EqDecision AssetRecord.
Proof. solve_decision. Defined.

Record RWAParams : Type := mkRWAParams {
  MinIssuerBond : string; MintFeeRate : string; SettleFeeRate : string
}.

#[global] Instance RWAParams_eq_dec : EqDecision RWAParams.
Proof. solve_decision. Defined.

Record Restriction : Type := mkRestriction { rs_AssetId : string; rs_Address : string; rs_IsDeny : bool }.

Record GenesisState : Type := mkGenesisState {
  gs_Params : RWAParams; gs_Assets : list AssetRecord; gs_Restrictions : list Restriction
}.

Record MsgRegisterAsset : Type := mkMsgRegisterAsset {
  ra_Issuer : string; ra_AssetId : string; ra_Name : string; ra_Description : string;
  ra_OraclePair : string; ra_Bond : string
}.

Record MsgAttestAsset : Type := mkMsgAttestAsset { aa_Issuer : string; aa_AssetId : string }.

Record MsgMintRWA : Type := mkMsgMintRWA {
  mr_Issuer : string; mr_AssetId : string; mr_Notional : string
}.

Record MsgTransferRWA : Type := mkMsgTransferRWA {
  tr_Sender : string; tr_Recipient : string; tr_AssetId : string; tr_Amount : string
}.

Record MsgSettleRWA : Type := mkMsgSettleRWA { sr_Issuer : string; sr_AssetId : string }.

Record MsgUpdateRestrictions : Type := mkMsgUpdateRestrictions {
  ur_Issuer : string; ur_AssetId : string; ur_AllowAll : bool;
  ur_AddAllow : list string; ur_DelAllow : list string;
  ur_AddDeny : list string; ur_DelDeny : list string
}.

Record MsgSlashBond : Type := mkMsgSlashBond {
  sb_Authority : string; sb_AssetId : string; sb_Reason : string
}.

Record MsgUpdateParams : Type := mkMsgUpdateParams { Authority : string; Params : RWAParams }.

(** ** types/keys.go *)

Definition KeyPrefixAsset : bytes := [x01].
Definition KeyPrefixIssuerIndex : bytes := [x02].
Definition KeyPrefixAllowlist : bytes := [x03].
Definition KeyPrefixDenylist : bytes := [x04].
Definition KeyParams : bytes := [x05].

Definition AssetKey (assetID : string) : bytes := KeyPrefixAsset ++ bytes_of assetID.

(** [byte(len(idBytes))] keeps the low eight bits of the length. *)
Definition membershipPrefix (prefix : bytes) (assetID : string) : bytes :=
  let idBytes := bytes_of assetID in
  (prefix ++ [byte_of_Z (zlen idBytes)]) ++ idBytes.

Definition membershipKey (prefix : bytes) (assetID : string) (addr : bytes) : bytes :=
  membershipPrefix prefix assetID ++ addr.

Definition AllowlistKey (assetID : string) (addr : bytes) : bytes :=
  membershipKey KeyPrefixAllowlist assetID addr.
Definition DenylistKey (assetID : string) (addr : bytes) : bytes :=
  membershipKey KeyPrefixDenylist assetID addr.
Definition AllowlistPrefix (assetID : string) : bytes := membershipPrefix KeyPrefixAllowlist assetID.
Definition DenylistPrefix (assetID : string) : bytes := membershipPrefix KeyPrefixDenylist assetID.

(** ** types/msgs.go *)

Definition slug_char (b : byte) : bool := is_lower b || is_digit b.

(** [slugRegex]: [^[a-z0-9][a-z0-9-]{2,42}$]. *)
Definition slugRegex (s : string) : bool :=
  match bytes_of s with
  | [] => false
  | c :: r => slug_char c && bool_decide (2 <= length r <= 42)%nat &&
              forallb (fun x => slug_char x || bool_decide (x = "-"%byte)) r
  end.

(** [pairRegex]: [^[A-Z0-9]+:[A-Z0-9]+$]. *)
Definition pairRegex (s : string) : bool :=
  match split_at ":"%byte (bytes_of s) with
  | (l, Some r) => pair_part l && pair_part r
  | (_, None) => false
  end.

Definition maxRestrictionBatch : Z := 100.

Definition ValidateAssetID (id : string) : res unit :=
  if negb (slugRegex id) then Err ErrInvalidAssetID else Ok tt.

Section RwaTypes.
Context {SM : SdkMath} {BE : Bech32}.

Definition IssuerIndexPrefix (issuer : bytes) : res bytes :=
  prefixed ← MustLengthPrefix issuer;
  Ok (KeyPrefixIssuerIndex ++ prefixed).

Definition IssuerIndexKey (issuer : bytes) (assetID : string) : res bytes :=
  prefixed ← MustLengthPrefix issuer;
  Ok ((KeyPrefixIssuerIndex ++ prefixed) ++ bytes_of ("/" +:+ assetID)).

Definition validatePositiveInt (s : string) : res unit :=
  match NewIntFromString s with
  | None => Err ErrInvalidAmount
  | Some v => if negb (0 <? v) then Err ErrInvalidAmount else Ok tt
  end.

Definition MsgRegisterAsset_ValidateBasic (m : MsgRegisterAsset) : res unit :=
  _ ← wrap_err ErrInvalidAddress (AccAddressFromBech32 (ra_Issuer m));
  _ ← ValidateAssetID (ra_AssetId m);
  if bool_decide (ra_Name m = ""%string) then Err ErrInvalidParams else
  if negb (pairRegex (ra_OraclePair m)) then Err ErrInvalidParams else
  validatePositiveInt (ra_Bond m).

Definition MsgAttestAsset_ValidateBasic (m : MsgAttestAsset) : res unit :=
  _ ← wrap_err ErrInvalidAddress (AccAddressFromBech32 (aa_Issuer m));
  ValidateAssetID (aa_AssetId m).

Definition MsgMintRWA_ValidateBasic (m : MsgMintRWA) : res unit :=
  _ ← wrap_err ErrInvalidAddress (AccAddressFromBech32 (mr_Issuer m));
  _ ← ValidateAssetID (mr_AssetId m);
  wrap_err ErrInvalidNotional (validatePositiveInt (mr_Notional m)).

Definition MsgTransferRWA_ValidateBasic (m : MsgTransferRWA) : res unit :=
  _ ← wrap_err ErrInvalidAddress (AccAddressFromBech32 (tr_Sender m));
  _ ← wrap_err ErrInvalidAddress (AccAddressFromBech32 (tr_Recipient m));
  _ ← ValidateAssetID (tr_AssetId m);
  validatePositiveInt (tr_Amount m).

Definition MsgSettleRWA_ValidateBasic (m : MsgSettleRWA) : res unit :=
  _ ← wrap_err ErrInvalidAddress (AccAddressFromBech32 (sr_Issuer m));
  ValidateAssetID (sr_AssetId m).

(** One group of restriction entries: the size first, then each address. *)
Definition validate_group (group : list string) : res unit :=
  if maxRestrictionBatch <? zlen group then Err ErrInvalidParams else
  rfold group tt (fun _ a => _ ← wrap_err ErrInvalidAddress (AccAddressFromBech32 a); Ok tt).

Definition MsgUpdateRestrictions_ValidateBasic (m : MsgUpdateRestrictions) : res unit :=
  _ ← wrap_err ErrInvalidAddress (AccAddressFromBech32 (ur_Issuer m));
  _ ← ValidateAssetID (ur_AssetId m);
  rfold [ur_AddAllow m; ur_DelAllow m; ur_AddDeny m; ur_DelDeny m] tt (fun _ g => validate_group g).

Definition MsgSlashBond_ValidateBasic (m : MsgSlashBond) : res unit :=
  _ ← wrap_err ErrInvalidAddress (AccAddressFromBech32 (sb_Authority m));
  ValidateAssetID (sb_AssetId m).

(** ** types/params.go *)

Definition DefaultParams : RWAParams := {|
  MinIssuerBond := IntString 10000000000;
  MintFeeRate := DecString (LegacyNewDecWithPrec 1 3);
  SettleFeeRate := DecString (LegacyNewDecWithPrec 1 3)
|}.

Definition MinIssuerBondInt (p : RWAParams) : option Z := NewIntFromString (MinIssuerBond p).
Definition MintFeeRateDec (p : RWAParams) : res Z := LegacyNewDecFromStr (MintFeeRate p).
Definition SettleFeeRateDec (p : RWAParams) : res Z := LegacyNewDecFromStr (SettleFeeRate p).

Definition validateFeeRate (s : string) : res unit :=
  d ← wrap_err ErrInvalidParams (LegacyNewDecFromStr s);
  if (d <? 0) || (LegacyOneDec <=? d) then Err ErrInvalidParams else Ok tt.

Definition Validate (p : RWAParams) : res unit :=
  match NewIntFromString (MinIssuerBond p) with
  | None => Err ErrInvalidParams
  | Some bond =>
      if bond <? 0 then Err ErrInvalidParams else
      _ ← validateFeeRate (MintFeeRate p);
      validateFeeRate (SettleFeeRate p)
  end.

Definition MsgUpdateParams_ValidateBasic (m : MsgUpdateParams) : res unit :=
  _ ← wrap_err ErrInvalidAddress (AccAddressFromBech32 (Authority m));
  Validate (Params m).

(** ** types/genesis.go *)

Definition DefaultGenesis : GenesisState := mkGenesisState DefaultParams [] [].

Definition ErrGenesis : error := Errorf "invalid rwa genesis".

Fixpoint validate_assets (minBond : option Z) (seen : gset string) (l : list AssetRecord) : res (gset string) :=
  match l with
  | [] => Ok seen
  | a :: l =>
      _ ← wrap_err ErrGenesis (ValidateAssetID (ar_AssetId a));
      if bool_decide (ar_AssetId a ∈ seen) then Err ErrGenesis else
      let seen := {[ar_AssetId a]} ∪ seen in
      _ ← wrap_err ErrGenesis (AccAddressFromBech32 (ar_Issuer a));
      if (ar_Status a <? ASSET_STATUS_DRAFT) || (ASSET_STATUS_SETTLED <? ar_Status a) then Err ErrGenesis else
      if negb (pairRegex (ar_OraclePair a)) then Err ErrGenesis else
      match NewIntFromString (ar_Bond a) with
      | None => Err ErrGenesis
      | Some bond =>
          _ ← (if (ar_Status a =? ASSET_STATUS_ATTESTED) || (ar_Status a =? ASSET_STATUS_ACTIVE)
               then match minBond with
                    | None => Panic
                    | Some mb => if bond <? mb then Err ErrGenesis else Ok tt
                    end
               else Ok tt);
          match NewIntFromString (ar_NotionalMinted a) with
          | None => Err ErrGenesis
          | Some _ => validate_assets minBond seen l
          end
      end
  end.

Definition GenesisState_Validate (gs : GenesisState) : res unit :=
  _ ← Validate (gs_Params gs);
  seen ← validate_assets (MinIssuerBondInt (gs_Params gs)) ∅ (gs_Assets gs);
  rfold (gs_Restrictions gs) tt (fun _ r =>
    if negb (bool_decide (rs_AssetId r ∈ seen)) then Err ErrGenesis else
    _ ← wrap_err ErrGenesis (AccAddressFromBech32 (rs_Address r)); Ok tt).

End RwaTypes.

(** ** The binary encodings (types.pb.go) *)

Definition RWAParams_Size (m : RWAParams) : Z :=
  size_string (MinIssuerBond m) + size_string (MintFeeRate m) + size_string (SettleFeeRate m).

Definition RWAParams_MarshalToSizedBuffer (m : RWAParams) (w : writer) : res writer :=
  w ← wr_string x1a (SettleFeeRate m) w;
  w ← wr_string x12 (MintFeeRate m) w;
  wr_string x0a (MinIssuerBond m) w.

Definition RWAParams_Marshal (m : RWAParams) : res bytes :=
  marshal_with (RWAParams_Size m) (RWAParams_MarshalToSizedBuffer m).

Definition RWAParams_switch (l fieldNum wireType : Z) (m : RWAParams) (b : bytes) :
  option (res (RWAParams * bytes)) :=
  let 'mkRWAParams mb mf sf := m in
  match fieldNum with
  | 1 => Some ('(s, b) ← rd_string l wireType b; Ok (mkRWAParams s mf sf, b))
  | 2 => Some ('(s, b) ← rd_string l wireType b; Ok (mkRWAParams mb s sf, b))
  | 3 => Some ('(s, b) ← rd_string l wireType b; Ok (mkRWAParams mb mf s, b))
  | _ => None
  end.

Definition RWAParams_Unmarshal (dAtA : bytes) : res RWAParams :=
  unmarshal RWAParams_switch (mkRWAParams "" "" "") dAtA.

#[global] Instance RWAParams_proto : ProtoMsg RWAParams := {|
  Marshal := RWAParams_Marshal;
  Unmarshal := RWAParams_Unmarshal;
  wf_msg m := RWAParams_Size m < two63
|}.

Section Timed.
Context {T : StdTime}.

Definition AssetRecord_Size (m : AssetRecord) : Z :=
  size_string (ar_AssetId m) + size_string (ar_Issuer m) + size_string (ar_Name m)
  + size_string (ar_Description m) + size_int (ar_Status m) + size_string (ar_OraclePair m)
  + size_string (ar_Denom m) + size_string (ar_Bond m) + size_string (ar_NotionalMinted m)
  + size_bool (ar_AllowAll m) + size_string (ar_AttestedPrice m) + size_time (ar_AttestedAt m)
  + size_time (ar_CreatedAt m) + size_time (ar_SettledAt m).

Definition AssetRecord_MarshalToSizedBuffer (m : AssetRecord) (w : writer) : res writer :=
  w ← wr_time x72 (ar_SettledAt m) w;
  w ← wr_time x6a (ar_CreatedAt m) w;
  w ← wr_time x62 (ar_AttestedAt m) w;
  w ← wr_string x5a (ar_AttestedPrice m) w;
  w ← wr_bool x50 (ar_AllowAll m) w;
  w ← wr_string x4a (ar_NotionalMinted m) w;
  w ← wr_string x42 (ar_Bond m) w;
  w ← wr_string x3a (ar_Denom m) w;
  w ← wr_string x32 (ar_OraclePair m) w;
  w ← wr_int x28 (ar_Status m) w;
  w ← wr_string x22 (ar_Description m) w;
  w ← wr_string x1a (ar_Name m) w;
  w ← wr_string x12 (ar_Issuer m) w;
  wr_string x0a (ar_AssetId m) w.

Definition AssetRecord_Marshal (m : AssetRecord) : res bytes :=
  marshal_with (AssetRecord_Size m) (AssetRecord_MarshalToSizedBuffer m).

Definition AssetRecord_switch (l fieldNum wireType : Z) (m : AssetRecord) (b : bytes) :
  option (res (AssetRecord * bytes)) :=
  let 'mkAssetRecord id iss nm ds st op dn bd nt aa ap at_ ct se := m in
  match fieldNum with
  | 1 => Some ('(s, b) ← rd_string l wireType b; Ok (mkAssetRecord s iss nm ds st op dn bd nt aa ap at_ ct se, b))
  | 2 => Some ('(s, b) ← rd_string l wireType b; Ok (mkAssetRecord id s nm ds st op dn bd nt aa ap at_ ct se, b))
  | 3 => Some ('(s, b) ← rd_string l wireType b; Ok (mkAssetRecord id iss s ds st op dn bd nt aa ap at_ ct se, b))
  | 4 => Some ('(s, b) ← rd_string l wireType b; Ok (mkAssetRecord id iss nm s st op dn bd nt aa ap at_ ct se, b))
  | 5 => Some ('(v, b) ← rd_int32 wireType b; Ok (mkAssetRecord id iss nm ds v op dn bd nt aa ap at_ ct se, b))
  | 6 => Some ('(s, b) ← rd_string l wireType b; Ok (mkAssetRecord id iss nm ds st s dn bd nt aa ap at_ ct se, b))
  | 7 => Some ('(s, b) ← rd_string l wireType b; Ok (mkAssetRecord id iss nm ds st op s bd nt aa ap at_ ct se, b))
  | 8 => Some ('(s, b) ← rd_string l wireType b; Ok (mkAssetRecord id iss nm ds st op dn s nt aa ap at_ ct se, b))
  | 9 => Some ('(s, b) ← rd_string l wireType b; Ok (mkAssetRecord id iss nm ds st op dn bd s aa ap at_ ct se, b))
  | 10 => Some ('(v, b) ← rd_bool wireType b; Ok (mkAssetRecord id iss nm ds st op dn bd nt v ap at_ ct se, b))
  | 11 => Some ('(s, b) ← rd_string l wireType b; Ok (mkAssetRecord id iss nm ds st op dn bd nt aa s at_ ct se, b))
  | 12 => Some ('(t, b) ← rd_time l wireType b; Ok (mkAssetRecord id iss nm ds st op dn bd nt aa ap t ct se, b))
  | 13 => Some ('(t, b) ← rd_time l wireType b; Ok (mkAssetRecord id iss nm ds st op dn bd nt aa ap at_ t se, b))
  | 14 => Some ('(t, b) ← rd_time l wireType b; Ok (mkAssetRecord id iss nm ds st op dn bd nt aa ap at_ ct t, b))
  | _ => None
  end.

(** The zero value of the Go struct. *)
Definition AssetRecord_zero : AssetRecord :=
  mkAssetRecord "" "" "" "" 0 "" "" "" "" false "" zero_time zero_time zero_time.

Definition AssetRecord_Unmarshal (dAtA : bytes) : res AssetRecord :=
  unmarshal AssetRecord_switch AssetRecord_zero dAtA.

#[export] Instance AssetRecord_proto : ProtoMsg AssetRecord := {|
  Marshal := AssetRecord_Marshal;
  Unmarshal := AssetRecord_Unmarshal;
  wf_msg m := AssetRecord_Size m < two63 /\ - 2 ^ 31 <= ar_Status m < 2 ^ 31 /\
              time_ok (ar_AttestedAt m) /\ time_ok (ar_CreatedAt m) /\ time_ok (ar_SettledAt m)
|}.

End Timed.
#[export] Existing Instance AssetRecord_proto.

(** *** Their round trips *)

Definition RWAParams_encode (m : RWAParams) : bytes :=
  (enc_string x0a (MinIssuerBond m) ++ enc_string x12 (MintFeeRate m)) ++ enc_string x1a (SettleFeeRate m).

Lemma RWAParams_reads m : reads RWAParams_switch (RWAParams_encode m) (mkRWAParams "" "" "") m.
Proof.
  destruct m as [a b c]. unfold RWAParams_encode. cbn [MinIssuerBond MintFeeRate SettleFeeRate].
  reads_split.
  - read_string (fun s => mkRWAParams s "" "").
  - read_string (fun s => mkRWAParams a s "").
  - read_string (fun s => mkRWAParams a b s).
Qed.

Lemma RWAParams_encodes m :
  encodes (RWAParams_MarshalToSizedBuffer m) (RWAParams_encode m) (RWAParams_Size m).
Proof. apply encodes_comp; [apply encodes_string|]. apply encodes_comp; apply encodes_string. Qed.

#[global] Instance RWAParams_proto_laws : ProtoLaws RWAParams.
Proof.
  constructor. intros m Hm. exists (RWAParams_encode m).
  destruct (encodes_marshal _ _ _ (RWAParams_encodes m) Hm) as [E L].
  split; [done|]. by apply unmarshal_reads; [apply RWAParams_reads|].
Qed.

(** [ta], [tc] and [ts] encode the three times. *)
Definition AssetRecord_encode (m : AssetRecord) (ta tc ts : bytes) : bytes :=
  ((((((((((((enc_string x0a (ar_AssetId m) ++ enc_string x12 (ar_Issuer m))
   ++ enc_string x1a (ar_Name m)) ++ enc_string x22 (ar_Description m))
   ++ enc_int x28 (ar_Status m)) ++ enc_string x32 (ar_OraclePair m))
   ++ enc_string x3a (ar_Denom m)) ++ enc_string x42 (ar_Bond m))
   ++ enc_string x4a (ar_NotionalMinted m)) ++ enc_bool x50 (ar_AllowAll m))
   ++ enc_string x5a (ar_AttestedPrice m)) ++ enc_bytes x62 ta) ++ enc_bytes x6a tc) ++ enc_bytes x72 ts.

Section TimedLaws.
Context {T : StdTime} {TL : StdTimeLaws}.

Lemma AssetRecord_reads m ta tc ts : - 2 ^ 31 <= ar_Status m < 2 ^ 31 ->
  StdTimeUnmarshal ta = Ok (ar_AttestedAt m) -> StdTimeUnmarshal tc = Ok (ar_CreatedAt m) ->
  StdTimeUnmarshal ts = Ok (ar_SettledAt m) ->
  reads AssetRecord_switch (AssetRecord_encode m ta tc ts) AssetRecord_zero m.
Proof.
  destruct m as [id iss nm ds st op dn bd nt aa ap at_ ct se]. unfold AssetRecord_encode, AssetRecord_zero.
  cbn [ar_AssetId ar_Issuer ar_Name ar_Description ar_Status ar_OraclePair ar_Denom ar_Bond
       ar_NotionalMinted ar_AllowAll ar_AttestedPrice ar_AttestedAt ar_CreatedAt ar_SettledAt].
  intros Hs Ha Hc Hse. set (z := zero_time). reads_split.
  - read_string (fun s => mkAssetRecord s "" "" "" 0 "" "" "" "" false "" z z z).
  - read_string (fun s => mkAssetRecord id s "" "" 0 "" "" "" "" false "" z z z).
  - read_string (fun s => mkAssetRecord id iss s "" 0 "" "" "" "" false "" z z z).
  - read_string (fun s => mkAssetRecord id iss nm s 0 "" "" "" "" false "" z z z).
  - eapply (reads_int32 _ _ _ _ (fun v => mkAssetRecord id iss nm ds v "" "" "" "" false "" z z z));
      [solve_tag|done|reflexivity|reflexivity].
  - read_string (fun s => mkAssetRecord id iss nm ds st s "" "" "" false "" z z z).
  - read_string (fun s => mkAssetRecord id iss nm ds st op s "" "" false "" z z z).
  - read_string (fun s => mkAssetRecord id iss nm ds st op dn s "" false "" z z z).
  - read_string (fun s => mkAssetRecord id iss nm ds st op dn bd s false "" z z z).
  - eapply (reads_bool _ _ _ _ (fun v => mkAssetRecord id iss nm ds st op dn bd nt v "" z z z));
      [solve_tag|reflexivity|reflexivity].
  - read_string (fun s => mkAssetRecord id iss nm ds st op dn bd nt aa s z z z).
  - eapply (reads_time _ _ _ _ (fun t => mkAssetRecord id iss nm ds st op dn bd nt aa ap t z z));
      [solve_tag|done|reflexivity].
  - eapply (reads_time _ _ _ _ (fun t => mkAssetRecord id iss nm ds st op dn bd nt aa ap at_ t z));
      [solve_tag|done|reflexivity].
  - eapply (reads_time _ _ _ _ (mkAssetRecord id iss nm ds st op dn bd nt aa ap at_ ct));
      [solve_tag|done|reflexivity].
Qed.

Lemma AssetRecord_encodes m ta tc ts :
  StdTimeMarshal (ar_AttestedAt m) = Ok ta -> SizeOfStdTime (ar_AttestedAt m) = zlen ta ->
  StdTimeMarshal (ar_CreatedAt m) = Ok tc -> SizeOfStdTime (ar_CreatedAt m) = zlen tc ->
  StdTimeMarshal (ar_SettledAt m) = Ok ts -> SizeOfStdTime (ar_SettledAt m) = zlen ts ->
  encodes (AssetRecord_MarshalToSizedBuffer m) (AssetRecord_encode m ta tc ts) (AssetRecord_Size m).
Proof.
  intros. do 3 (apply encodes_comp; [by apply encodes_time|]).
  do 10 (apply encodes_comp; [first [apply encodes_string|apply encodes_bool|apply encodes_int]|]).
  apply encodes_string.
Qed.

#[global] Instance AssetRecord_proto_laws : ProtoLaws AssetRecord.
Proof.
  constructor. intros m (Hm & Hs & Ha & Hc & Hse).
  destruct (std_time _ Ha) as (ta & A1 & A2 & A3 & _).
  destruct (std_time _ Hc) as (tc & C1 & C2 & C3 & _).
  destruct (std_time _ Hse) as (ts & S1 & S2 & S3 & _).
  exists (AssetRecord_encode m ta tc ts).
  destruct (encodes_marshal _ _ _ (AssetRecord_encodes m ta tc ts A1 A2 C1 C2 S1 S2) Hm) as [E L].
  split; [done|]. by apply unmarshal_reads; [apply AssetRecord_reads|].
Qed.

End TimedLaws.

(** ** Lemmas: asset ids and keys *)

Lemma slugRegex_spec s : slugRegex s = true ->
  exists c r, bytes_of s = c :: r /\ slug_char c = true /\ (2 <= length r <= 42)%nat /\
    forall x, x ∈ r -> slug_char x = true \/ x = "-"%byte.
Proof.
  unfold slugRegex. destruct (bytes_of s) as [|c r]; [done|].
  rewrite !andb_true_iff, bool_decide_eq_true, forallb_forall. intros [[Hc Hl] Hf].
  exists c, r. split_and!; try done; try lia. intros x Hx.
  apply list_elem_of_In, Hf, orb_true_iff in Hx. rewrite bool_decide_eq_true in Hx. done.
Qed.

Lemma ValidateAssetID_Ok id : ValidateAssetID id = Ok tt <-> slugRegex id = true.
Proof. unfold ValidateAssetID. by destruct (slugRegex id). Qed.

Lemma slug_length id : slugRegex id = true -> (3 <= length (bytes_of id) <= 43)%nat.
Proof. intros (c & r & -> & _ & H & _)%slugRegex_spec. cbn. lia. Qed.

(** A slug makes a valid bank denom. *)
Lemma slug_denom_ok id : slugRegex id = true -> denom_ok (RWADenomPrefix +:+ id) = true.
Proof.
  intros (c & r & E & Hc & Hl & Hr)%slugRegex_spec. unfold denom_ok.
  rewrite bytes_of_app, E. change (bytes_of RWADenomPrefix) with (["r"; "w"; "a"; "/"]%byte).
  cbn [app]. rewrite !andb_true_iff. split_and!; [done| |].
  - apply bool_decide_eq_true. cbn. lia.
  - unfold slug_char in Hc. apply forallb_forall. intros x Hx. apply list_elem_of_In in Hx.
    rewrite !elem_of_cons in Hx.
    destruct Hx as [->|[->|[->|[->|Hx]]]]; [done..| |].
    + apply orb_true_iff in Hc as [->| ->]; by rewrite ?orb_true_r.
    + destruct (Hr x Hx) as [H| ->]; [|done].
      apply orb_true_iff in H as [->| ->]; by rewrite ?orb_true_r.
Qed.

#[global] Instance AssetKey_inj : Inj (=) (=) AssetKey.
Proof. intros a b E. by apply app_inv_head, bytes_of_inj in E. Qed.

Lemma membershipPrefix_cons p id : membershipPrefix [p] id = p :: byte_of_Z (zlen (bytes_of id)) :: bytes_of id.
Proof. done. Qed.

Lemma id_byte id : slugRegex id = true ->
  Z_of_byte (byte_of_Z (zlen (bytes_of id))) = zlen (bytes_of id).
Proof.
  intros Hl%slug_length. rewrite Z_of_byte_of_Z. unfold zlen. apply Z.mod_small. lia.
Qed.

(** The length byte makes membership keys unambiguous: no member of one asset is
    found under the prefix of another, though one id may be a prefix of another. *)
Lemma membershipPrefix_separates p id id' addr :
  slugRegex id = true -> slugRegex id' = true ->
  membershipPrefix [p] id `prefix_of` membershipKey [p] id' addr <-> id = id'.
Proof.
  intros H1 H2. unfold membershipKey. rewrite !membershipPrefix_cons. split.
  - intros [k E]. cbn in E. injection E as E1 E2.
    assert (zlen (bytes_of id) = zlen (bytes_of id')) as Hl.
    { rewrite <- (id_byte id H1), <- (id_byte id' H2). by rewrite E1. }
    unfold zlen in Hl. apply app_inj_1 in E2 as [E2 _]; [|lia]. by apply bytes_of_inj.
  - intros ->. by eexists.
Qed.

Lemma membershipKey_inj p id id' a a' : slugRegex id = true -> slugRegex id' = true ->
  membershipKey [p] id a = membershipKey [p] id' a' -> id = id' /\ a = a'.
Proof.
  intros H1 H2 E. assert (id = id') as ->.
  { apply (membershipPrefix_separates p id id' a'); [done..|]. rewrite <- E. by eexists. }
  split; [done|]. by apply app_inv_head in E.
Qed.

Section KeyLaws.
Context {BE : Bech32} {BEL : Bech32Laws}.

Lemma IssuerIndexKey_run issuer id : addr_ok issuer ->
  IssuerIndexKey issuer id =
  Ok (x02 :: byte_of_Z (Z.of_nat (length issuer)) :: issuer ++ "/"%byte :: bytes_of id).
Proof.
  intros Hi. unfold IssuerIndexKey. rewrite length_prefix by done. cbn [mbind res_bind].
  by rewrite bytes_of_app.
Qed.

End KeyLaws.

Section ParamLaws.
Context {SM : SdkMath} {SML : SdkMathLaws} {BE : Bech32} {BEL : Bech32Laws}.

Lemma validateFeeRate_spec s :
  validateFeeRate s = Ok tt <-> exists d, LegacyNewDecFromStr s = Ok d /\ 0 <= d < dec_one.
Proof.
  unfold validateFeeRate, LegacyOneDec.
  destruct (LegacyNewDecFromStr s) as [d| |]; cbn [mbind res_bind wrap_err]; [|naive_solver..].
  destruct ((d <? 0) || (dec_one <=? d)) eqn:C; split; try done; try (intros (d' & [= <-] & H)); try lia.
  intros _. exists d. split; [done|lia].
Qed.

(** What [Validate] accepts. *)
Lemma RWAParams_Validate_spec p :
  Validate p = Ok tt <->
  (exists b, NewIntFromString (MinIssuerBond p) = Some b /\ 0 <= b) /\
  (exists d, LegacyNewDecFromStr (MintFeeRate p) = Ok d /\ 0 <= d < dec_one) /\
  (exists d, LegacyNewDecFromStr (SettleFeeRate p) = Ok d /\ 0 <= d < dec_one).
Proof.
  unfold Validate. destruct (NewIntFromString _) as [b|]; [|naive_solver].
  destruct (Z.ltb_spec b 0).
  - split; [done|]. intros ((b' & [= <-] & ?) & _). lia.
  - rewrite seq_unit_Ok, !validateFeeRate_spec. naive_solver.
Qed.

Lemma validatePositiveInt_spec s :
  validatePositiveInt s = Ok tt <-> exists v, NewIntFromString s = Some v /\ 0 < v.
Proof.
  unfold validatePositiveInt. destruct (NewIntFromString s) as [v|]; [|naive_solver].
  destruct (Z.ltb_spec 0 v); cbn; split; try done; try (intros (v' & [= <-] & ?); lia). eauto.
Qed.

End ParamLaws.
