(* ===== verification/Codec.v ===== *)
(** * The binary codec of the stored messages

    What the generated [Marshal] and [Unmarshal] methods (x/*/types/types.pb.go)
    promise to the stores: the bytes are those that the protobuf specification
    prescribes for the message ([proto3_encode], a definition by fields that
    knows nothing of buffers and sizes), and decoding returns on every input. *)

From S2P Require Import Prelude Sdk Wire FeesTypes OracleTypes RwaTypes SdkRef.

(** ** Decoding returns *)

(** Neither a panic nor a run out of fuel. *)
Definition returns {A} (r : res A) : Prop := r <> Panic.

(** A read from [b] returns, and what it leaves is no longer than [b]. *)
Definition consumes {A} (b : bytes) (r : res (A * bytes)) : Prop :=
  match r with
  | Ok (_, rest) => (length rest <= length b)%nat
  | Err _ => True
  | Panic => False
  end.

Lemma consumes_bind {A B} b (r : res (A * bytes)) (f : A -> B) :
  consumes b r -> consumes b ('(x, rest) ← r; Ok (f x, rest)).
Proof. by destruct r as [[x rest]| |]. Qed.

Lemma varint_read_consumes f shift acc b :
  match varint_read f shift acc b with
  | Ok (_, rest) => (length rest < length b)%nat
  | Err _ => True
  | Panic => False
  end.
Proof.
  revert shift acc b; induction f as [|f IH]; intros shift acc [|x b]; cbn [varint_read]; try done.
  destruct (_ <? 128); [cbn; lia|].
  specialize (IH (shift + 7) (Z.lor acc (u64 (Z.shiftl (Z.land (Z_of_byte x) 127) shift))) b).
  destruct (varint_read f _ _ b) as [[n rest]| |]; [cbn; lia|done..].
Qed.

Lemma varint_shorter b n rest : varint b = Ok (n, rest) -> (length rest < length b)%nat.
Proof. intros E. pose proof (varint_read_consumes 10 0 0 b) as H. unfold varint in E. by rewrite E in H. Qed.

Lemma varint_returns b : varint b <> Panic.
Proof. intros E. pose proof (varint_read_consumes 10 0 0 b) as H. unfold varint in E. by rewrite E in H. Qed.

(** Case analysis on a varint that is read: its value and the shorter rest. *)
Ltac read_varint b n rest :=
  let E := fresh "E" in
  destruct (varint b) as [[n rest]| |] eqn:E;
  [cbn [mbind res_bind]; apply varint_shorter in E|done|by apply varint_returns in E].

Lemma wrap64_add_le i k : 0 <= i < two63 -> 0 <= k < two63 -> 0 <= wrap64 (i + k) ->
  wrap64 (i + k) = i + k.
Proof.
  intros Hi Hk Hw. destruct (Z_lt_ge_dec (i + k) two63) as [Hs|Hs].
  - by rewrite wrap64_id by (unfold two63 in *; lia).
  - exfalso. unfold wrap64 in Hw.
    rewrite (Z.mod_eq (i + k + two63) two64) in Hw by (unfold two64; lia).
    rewrite <- (Z.div_unique (i + k + two63) two64 1 (i + k + two63 - two64)) in Hw
      by (unfold two63, two64 in *; lia).
    unfold two63, two64 in *. lia.
Qed.

(** The checks before a slice keep it in range, whatever the length read. *)
Lemma rd_bytes_consumes l wt b : zlen b <= l < two63 -> consumes b (rd_bytes l wt b).
Proof.
  intros Hl. unfold rd_bytes. case_match; [done|]. read_varint b n rest. cbn zeta.
  pose proof (wrap64_range n). destruct (Z.ltb_spec (wrap64 n) 0); [done|].
  assert (0 <= l - zlen rest) by (unfold zlen in *; lia). pose proof (zlen_nonneg rest).
  destruct (Z.ltb_spec (wrap64 (l - zlen rest + wrap64 n)) 0) as [|Hw]; [done|].
  apply wrap64_add_le in Hw as ->; [|lia..].
  destruct (Z.ltb_spec l (l - zlen rest + wrap64 n)); [done|].
  unfold slice. replace (l - zlen rest + wrap64 n - (l - zlen rest)) with (wrap64 n) by lia.
  replace ((0 <=? wrap64 n) && (wrap64 n <=? zlen rest)) with true by lia.
  cbn. rewrite length_drop. lia.
Qed.

Lemma rd_string_consumes l wt b : zlen b <= l < two63 -> consumes b (rd_string l wt b).
Proof. intros. by apply (consumes_bind b (rd_bytes l wt b) string_of), rd_bytes_consumes. Qed.

Lemma rd_int64_consumes wt b : consumes b (rd_int64 wt b).
Proof. unfold rd_int64. case_match; [done|]. read_varint b n rest. cbn. lia. Qed.

Lemma rd_int32_consumes wt b : consumes b (rd_int32 wt b).
Proof. unfold rd_int32. case_match; [done|]. read_varint b n rest. cbn. lia. Qed.

Lemma rd_bool_consumes wt b : consumes b (rd_bool wt b).
Proof. unfold rd_bool. case_match; [done|]. read_varint b n rest. cbn. lia. Qed.

Lemma rd_time_consumes {T : StdTime} l wt b :
  (forall s, StdTimeUnmarshal s <> Panic) -> zlen b <= l < two63 -> consumes b (rd_time l wt b).
Proof.
  intros HT Hl. unfold rd_time. pose proof (rd_bytes_consumes l wt b Hl) as H.
  destruct (rd_bytes l wt b) as [[s rest]| |]; [|done..]. cbn [mbind res_bind].
  destruct (StdTimeUnmarshal s) eqn:E; [exact H|done|by apply HT in E].
Qed.

Create HintDb codec.
#[export] Hint Resolve rd_bytes_consumes rd_string_consumes rd_int64_consumes rd_int32_consumes
  rd_bool_consumes rd_time_consumes : codec.

(** *** Unknown fields *)

Lemma skip_varint_moves f shift i b :
  match skip_varint f shift i b with Ok j => i < j | Err _ => True | Panic => False end.
Proof.
  revert shift i; induction f as [|f IH]; intros shift i; cbn [skip_varint]; [done|].
  destruct (b !! _); [|done]. destruct (_ <? 128); [lia|].
  specialize (IH (shift + 7) (i + 1)). destruct (skip_varint f _ _ b); [lia|done..].
Qed.

(** The rest of [b] after the bytes before the index [i]. *)
Lemma skip_index b i n rest :
  varint (drop (Z.to_nat i) b) = Ok (n, rest) -> 0 <= i -> i < zlen b - zlen rest <= zlen b.
Proof.
  intros E Hi. apply varint_shorter in E. rewrite length_drop in E. unfold zlen. lia.
Qed.

Lemma skip_field_moves wt i depth b : 0 <= i <= zlen b -> zlen b < two63 ->
  match skip_field wt i depth b with Ok (j, _) => 0 <= j -> i <= j | Err _ => True | Panic => False end.
Proof.
  intros Hi Hb. unfold skip_field.
  destruct (wt =? 0).
  { pose proof (skip_varint_moves 10 0 i b). destruct (skip_varint 10 0 i b); cbn; [lia|done..]. }
  destruct (wt =? 1); [intros Hj; rewrite wrap64_add_le; unfold two63 in *; lia|].
  destruct (wt =? 2).
  { destruct (varint (drop (Z.to_nat i) b)) as [[n rest]| |] eqn:E;
      [|done|by apply varint_returns in E].
    apply skip_index in E; [|lia]. cbn -[wrap64]. pose proof (wrap64_range n).
    destruct (Z.ltb_spec (wrap64 n) 0); [done|]. intros Hj.
    rewrite wrap64_add_le; lia. }
  destruct (wt =? 3); [lia|]. destruct (wt =? 4); [by destruct (depth =? 0)|].
  destruct (wt =? 5); [intros Hj; rewrite wrap64_add_le; unfold two63 in *; lia|done].
Qed.

Lemma skip_loop_moves fuel i depth b : 0 <= i -> zlen b < two63 ->
  Z.max 0 (zlen b - i) < Z.of_nat fuel ->
  match skip_loop fuel i depth b with Ok j => i < j | Err _ => True | Panic => False end.
Proof.
  revert i depth; induction fuel as [|fuel IH]; intros i depth Hi Hb Hf; [lia|]. cbn [skip_loop].
  destruct (Z.leb_spec (zlen b) i); [done|].
  destruct (varint (drop (Z.to_nat i) b)) as [[n rest]| |] eqn:E; [|done|by apply varint_returns in E].
  apply skip_index in E; [|done]. cbn [mbind res_bind].
  pose proof (skip_field_moves (Z.land n 7) (zlen b - zlen rest) depth b ltac:(lia) Hb) as Hm.
  destruct (skip_field _ _ depth b) as [[j d]| |]; [cbn [mbind res_bind]|done..].
  destruct (Z.ltb_spec j 0); [done|]. destruct (d =? 0); [lia|].
  specialize (IH j d ltac:(lia) Hb ltac:(lia)). destruct (skip_loop fuel j d b); [lia|done..].
Qed.

Lemma skip_moves b : zlen b < two63 ->
  match skip b with Ok j => 0 < j | Err _ => True | Panic => False end.
Proof. intros Hb. apply skip_loop_moves; [lia|done|unfold zlen; lia]. Qed.

(** *** Messages *)

(** Every branch of a message's [switch] consumes no more than it is given. *)
Definition switch_consumes {A} (sw : Z -> Z -> Z -> A -> bytes -> option (res (A * bytes))) : Prop :=
  forall l k wt m b r, zlen b <= l < two63 -> sw l k wt m b = Some r -> consumes b r.

Lemma unmarshal_loop_returns {A} (sw : Z -> Z -> Z -> A -> bytes -> option (res (A * bytes))) fuel l m b :
  switch_consumes sw -> (length b <= fuel)%nat -> zlen b <= l < two63 ->
  returns (unmarshal_loop sw fuel l m b).
Proof.
  intros Hsw. revert m b. induction fuel as [|fuel IH]; intros m [|x b0] Hl Hb; try done; [cbn in Hl; lia|].
  cbn [unmarshal_loop]. set (b := x :: b0) in *. read_varint b n rest. cbn zeta.
  destruct (_ =? 4); [done|]. destruct (_ <=? 0); [done|].
  destruct (sw l _ _ m rest) as [r|] eqn:Er.
  - apply Hsw in Er; [|unfold zlen in *; lia]. destruct r as [[m' b']| |]; [|done..]. cbn in Er |- *.
    apply IH; unfold zlen in *; lia.
  - pose proof (skip_moves b ltac:(lia)) as Hs. destruct (skip b) as [j| |]; [|done..].
    cbn [mbind res_bind]. destruct (_ || _); [done|]. destruct (_ <? _); [done|].
    apply IH; unfold zlen in *; rewrite length_drop; lia.
Qed.

(** Each branch of a [switch] is one field read. *)
Ltac solve_switch :=
  let m := fresh in let E := fresh in
  intros l k wt m b r ? E; destruct m; cbv beta iota delta [FeesParams_switch OracleFeed_switch
    OracleParams_switch AggregatedPrice_switch TWAPEntry_switch RWAParams_switch AssetRecord_switch] in E;
  repeat case_match; first [discriminate E | injection E as <-];
  apply (consumes_bind b _ _); auto with codec.

Lemma FeesParams_switch_consumes : switch_consumes FeesParams_switch.
Proof. solve_switch. Qed.

Lemma OracleFeed_switch_consumes : switch_consumes OracleFeed_switch.
Proof. solve_switch. Qed.

Lemma OracleParams_switch_consumes : switch_consumes OracleParams_switch.
Proof. solve_switch. Qed.

Lemma RWAParams_switch_consumes : switch_consumes RWAParams_switch.
Proof. solve_switch. Qed.

Section TimedSwitch.
Context {T : StdTime} (HT : forall s, StdTimeUnmarshal s <> Panic).

Lemma AggregatedPrice_switch_consumes : switch_consumes AggregatedPrice_switch.
Proof. solve_switch. Qed.

Lemma TWAPEntry_switch_consumes : switch_consumes TWAPEntry_switch.
Proof. solve_switch. Qed.

Lemma AssetRecord_switch_consumes : switch_consumes AssetRecord_switch.
Proof. solve_switch. Qed.

End TimedSwitch.

(** Decoding terminates with a message or an error on every input: for each
    stored message type and any bytes whatever (of a length that a Go slice can
    have), the generated [Unmarshal], with the skipping of unknown fields and nested
    groups, neither loops nor panics, given that the decoder of timestamps does not
    panic. A corrupted or hostile value cannot hang a node. *)
Theorem Unmarshal_terminates {T : StdTime} (HT : forall s, StdTimeUnmarshal s <> Panic) (b : bytes) :
  zlen b < two63 ->
  returns (FeesParams_Unmarshal b) /\ returns (OracleParams_Unmarshal b) /\
  returns (OracleFeed_Unmarshal b) /\ returns (AggregatedPrice_Unmarshal b) /\
  returns (TWAPEntry_Unmarshal b) /\ returns (RWAParams_Unmarshal b) /\
  returns (AssetRecord_Unmarshal b).
Proof.
  intros Hb. repeat split; apply unmarshal_loop_returns; try done.
  - apply FeesParams_switch_consumes.
  - apply OracleParams_switch_consumes.
  - apply OracleFeed_switch_consumes.
  - by apply AggregatedPrice_switch_consumes.
  - by apply TWAPEntry_switch_consumes.
  - apply RWAParams_switch_consumes.
  - by apply AssetRecord_switch_consumes.
Qed.

(** ** The protobuf encoding, by fields *)

(** A little-endian number in base 128, the high bit set on all bytes but the
    last. *)
Fixpoint base128 (digits : nat) (v : Z) : bytes :=
  match digits with
  | O => []
  | S digits => if v <? 128 then [byte_of_Z v] else byte_of_Z (v mod 128 + 128) :: base128 digits (v / 128)
  end.

Arguments base128 : simpl never.

Inductive field_value : Type :=
| FString (s : string)
| FInt (v : Z)
| FBool (b : bool)
| FStrings (l : list string)
| FTime (t : Z)
| FCustom (b : bytes)
| FMsg (fs : list (Z * field_value))
| FMsgs (l : list (list (Z * field_value)))
| FRaw (b : bytes).

(** A message as its schema lists it: field numbers and values. *)
Class Schema (A : Type) : Type := fields : A -> list (Z * field_value).

(** The key of a field, then a length and that many bytes. *)
Definition delimited (k : Z) (b : bytes) : bytes :=
  base128 10 (k * 8 + 2) ++ base128 10 (zlen b) ++ b.

(** A scalar that has its default value is not encoded; each element of a repeated
    field is; an embedded message or a value of a custom type is, when it is
    present. The fields that an embedded message has beyond its schema ([FRaw]) are
    bytes that stand for themselves. *)
Fixpoint proto3_value {T : StdTime} (k : Z) (v : field_value) : bytes :=
  match v with
  | FString s => if decide (s = ""%string) then [] else delimited k (bytes_of s)
  | FInt v => if decide (v = 0) then [] else base128 10 (k * 8) ++ base128 10 (v mod two64)
  | FBool b => if b then base128 10 (k * 8) ++ [x01] else []
  | FStrings l => l ≫= fun s => delimited k (bytes_of s)
  | FTime t => match StdTimeMarshal t with Ok b => delimited k b | _ => [] end
  | FCustom b => delimited k b
  | FMsg fs => delimited k (fs ≫= fun f => match f with (k, v) => proto3_value k v end)
  | FMsgs l => l ≫= fun fs => delimited k (fs ≫= fun f => match f with (k, v) => proto3_value k v end)
  | FRaw b => b
  end.

Definition proto3_field {T : StdTime} (f : Z * field_value) : bytes := match f with (k, v) => proto3_value k v end.

Definition proto3_encode {T : StdTime} {A} {S : Schema A} (m : A) : bytes := fields m ≫= proto3_field.

(** The schemas of proto/vertix/*/v1/types.proto. *)
#[global] Instance FeesParams_schema : Schema FeesParams := fun m =>
  [(1, FString (BurnRatio m)); (2, FString (DistributionRatio m))].

#[global] Instance OracleFeed_schema : Schema OracleFeed := fun m =>
  [(1, FString (of_Validator m)); (2, FString (of_Pair m)); (3, FString (of_Price m));
   (4, FInt (of_BlockHeight m))].

#[global] Instance AggregatedPrice_schema : Schema AggregatedPrice := fun m =>
  [(1, FString (ap_Pair m)); (2, FString (ap_Price m)); (3, FInt (ap_BlockHeight m));
   (4, FTime (ap_BlockTime m))].

#[global] Instance TWAPEntry_schema : Schema TWAPEntry := fun m =>
  [(1, FString (te_Pair m)); (2, FString (te_Price m)); (3, FTime (te_BlockTime m))].

#[global] Instance OracleParams_schema : Schema OracleParams := fun m =>
  [(1, FInt (VoteWindow m)); (2, FString (MissThreshold m)); (3, FString (MissSlashRate m));
   (4, FString (OutlierSlashRate m)); (5, FString (OutlierThreshold m)); (6, FInt (MissWindowSize m));
   (7, FString (QuorumFraction m)); (8, FInt (MaxPriceAge m)); (9, FStrings (AcceptList m))].

#[global] Instance RWAParams_schema : Schema RWAParams := fun m =>
  [(1, FString (MinIssuerBond m)); (2, FString (MintFeeRate m)); (3, FString (SettleFeeRate m))].

#[global] Instance AssetRecord_schema : Schema AssetRecord := fun m =>
  [(1, FString (ar_AssetId m)); (2, FString (ar_Issuer m)); (3, FString (ar_Name m));
   (4, FString (ar_Description m)); (5, FInt (ar_Status m)); (6, FString (ar_OraclePair m));
   (7, FString (ar_Denom m)); (8, FString (ar_Bond m)); (9, FString (ar_NotionalMinted m));
   (10, FBool (ar_AllowAll m)); (11, FString (ar_AttestedPrice m)); (12, FTime (ar_AttestedAt m));
   (13, FTime (ar_CreatedAt m)); (14, FTime (ar_SettledAt m))].

(** *** Lemmas *)

Lemma enc_varint_base128 n v : 0 <= v -> enc_varint_ n v = base128 n v.
Proof.
  revert v; induction n as [|n IH]; intros v Hv; [done|]. simpl enc_varint_. unfold base128; fold base128.
  destruct (Z.leb_spec 128 v), (Z.ltb_spec v 128); try lia; [|done].
  rewrite Z.shiftr_div_pow2 by lia. change (2 ^ 7) with 128.
  rewrite IH by (apply Z.div_pos; lia). f_equal.
  rewrite <- cont_byte by done. by rewrite byte_of_Z_of_byte.
Qed.

Lemma bytes_of_empty s : zlen (bytes_of s) = 0 <-> s = ""%string.
Proof. split; [|by intros ->]. by destruct s. Qed.

Section Fields.
Context {T : StdTime}.

Lemma enc_bytes_delimited tag k b : base128 10 (k * 8 + 2) = [tag] -> enc_bytes tag b = delimited k b.
Proof.
  intros E. unfold enc_bytes, delimited, enc_varint. rewrite E.
  by rewrite enc_varint_base128 by apply zlen_nonneg.
Qed.

Lemma enc_string_field tag k s : base128 10 (k * 8 + 2) = [tag] ->
  enc_string tag s = proto3_field (k, FString s).
Proof.
  intros E. unfold enc_string, proto3_field, proto3_value. pose proof (zlen_nonneg (bytes_of s)).
  destruct (decide (s = ""%string)) as [->|Hs]; [done|].
  destruct (Z.ltb_spec 0 (zlen (bytes_of s))); [by apply enc_bytes_delimited|].
  exfalso. apply Hs, bytes_of_empty. lia.
Qed.

Lemma enc_int_field tag k v : base128 10 (k * 8) = [tag] -> enc_int tag v = proto3_field (k, FInt v).
Proof.
  intros E. unfold enc_int, proto3_field, proto3_value, enc_varint, u64. rewrite E.
  rewrite enc_varint_base128 by (apply Z.mod_pos_bound; done).
  destruct (Z.eqb_spec v 0), (decide (v = 0)); done.
Qed.

Lemma enc_bool_field tag k b : base128 10 (k * 8) = [tag] -> enc_bool tag b = proto3_field (k, FBool b).
Proof. intros E. unfold enc_bool, proto3_field, proto3_value. rewrite E. by destruct b. Qed.

Lemma enc_strings_field tag k l : base128 10 (k * 8 + 2) = [tag] ->
  enc_strings tag l = proto3_field (k, FStrings l).
Proof.
  intros E. unfold enc_strings, proto3_field, proto3_value. induction l as [|s l IH]; [done|].
  cbn [mbind list_bind]. rewrite IH. f_equal. by apply enc_bytes_delimited.
Qed.

Lemma enc_time_field tag k t b : base128 10 (k * 8 + 2) = [tag] -> StdTimeMarshal t = Ok b ->
  enc_bytes tag b = proto3_field (k, FTime t).
Proof. intros E Et. unfold proto3_field, proto3_value. rewrite Et. by apply enc_bytes_delimited. Qed.

End Fields.

(** Field by field, the bytes of a message are those of its schema. *)
Ltac by_fields :=
  unfold proto3_encode, fields; cbn [mbind list_bind]; rewrite ?app_nil_r, <- ?app_assoc;
  repeat (lazymatch goal with |- _ ++ _ = _ ++ _ => f_equal end);
  first [apply enc_string_field|apply enc_int_field|apply enc_bool_field|apply enc_strings_field
        |apply enc_time_field]; done.

Section Equivalence.
Context {T : StdTime} {TL : StdTimeLaws}.

Lemma FeesParams_proto3 m : FeesParams_encode m = proto3_encode m.
Proof. unfold FeesParams_encode, FeesParams_schema. by_fields. Qed.

Lemma OracleFeed_proto3 m : OracleFeed_encode m = proto3_encode m.
Proof. unfold OracleFeed_encode, OracleFeed_schema. by_fields. Qed.

Lemma OracleParams_proto3 m : OracleParams_encode m = proto3_encode m.
Proof. unfold OracleParams_encode, OracleParams_schema. by_fields. Qed.

Lemma RWAParams_proto3 m : RWAParams_encode m = proto3_encode m.
Proof. unfold RWAParams_encode, RWAParams_schema. by_fields. Qed.

Lemma AggregatedPrice_proto3 m t : StdTimeMarshal (ap_BlockTime m) = Ok t ->
  AggregatedPrice_encode m t = proto3_encode m.
Proof. intros E. unfold AggregatedPrice_encode, AggregatedPrice_schema. by_fields. Qed.

Lemma TWAPEntry_proto3 m t : StdTimeMarshal (te_BlockTime m) = Ok t ->
  TWAPEntry_encode m t = proto3_encode m.
Proof. intros E. unfold TWAPEntry_encode, TWAPEntry_schema. by_fields. Qed.

Lemma AssetRecord_proto3 m ta tc ts : StdTimeMarshal (ar_AttestedAt m) = Ok ta ->
  StdTimeMarshal (ar_CreatedAt m) = Ok tc -> StdTimeMarshal (ar_SettledAt m) = Ok ts ->
  AssetRecord_encode m ta tc ts = proto3_encode m.
Proof. intros E1 E2 E3. unfold AssetRecord_encode, AssetRecord_schema. by_fields. Qed.

(** [Marshal] gives the bytes of the schema, from which [Unmarshal] gives the
    message back. *)
Definition implements_schema {A} {PM : ProtoMsg A} {S : Schema A} (m : A) : Prop :=
  Marshal m = Ok (proto3_encode m) /\ Unmarshal (proto3_encode m) = Ok m.

Lemma schema_of_encodes {A} {PM : ProtoMsg A} {PL : ProtoLaws A} {S : Schema A} (m : A) fill size e :
  wf_msg m -> encodes fill e size -> size < two63 ->
  Marshal m = marshal_with size fill -> e = proto3_encode m -> implements_schema m.
Proof.
  intros Hm He Hs EM Ee. destruct (encodes_marshal _ _ _ He Hs) as [E _].
  destruct (unmarshal_marshal m Hm) as (b & E1 & E2). rewrite EM, E in E1. injection E1 as <-.
  split; [by rewrite EM, E, Ee|by rewrite <- Ee].
Qed.

(** The generated [Marshal], which computes a size, allocates a buffer and fills it
    backwards, is equivalent to the protobuf encoding by fields of the schema, for
    every storable message of the seven types (its size an [int], its integers in
    the range of their Go types, its times in the range of protobuf timestamps);
    and [Unmarshal] reads the encoding back to the same message. In particular
    the stored bytes of a message are unique. *)
Theorem Marshal_equivalent :
  (forall m : FeesParams, wf_msg m -> implements_schema m) /\
  (forall m : OracleParams, wf_msg m -> implements_schema m) /\
  (forall m : OracleFeed, wf_msg m -> implements_schema m) /\
  (forall m : AggregatedPrice, wf_msg m -> implements_schema m) /\
  (forall m : TWAPEntry, wf_msg m -> implements_schema m) /\
  (forall m : RWAParams, wf_msg m -> implements_schema m) /\
  (forall m : AssetRecord, wf_msg m -> implements_schema m).
Proof.
  refine (conj _ (conj _ (conj _ (conj _ (conj _ (conj _ _)))))); intros m Hm.
  - by eapply schema_of_encodes; [|apply FeesParams_encodes| | |apply FeesParams_proto3].
  - destruct Hm as (? & ?). by eapply schema_of_encodes;
      [|apply OracleParams_encodes| | |apply OracleParams_proto3].
  - destruct Hm as (? & ?). by eapply schema_of_encodes; [|apply OracleFeed_encodes| | |apply OracleFeed_proto3].
  - destruct Hm as (? & ? & Ht). destruct (std_time _ Ht) as (t & E1 & E2 & _).
    by eapply schema_of_encodes; [|apply AggregatedPrice_encodes| | |apply AggregatedPrice_proto3].
  - destruct Hm as (? & Ht). destruct (std_time _ Ht) as (t & E1 & E2 & _).
    by eapply schema_of_encodes; [|apply TWAPEntry_encodes| | |apply TWAPEntry_proto3].
  - by eapply schema_of_encodes; [|apply RWAParams_encodes| | |apply RWAParams_proto3].
  - destruct Hm as (? & ? & Ha & Hc & Hs). destruct (std_time _ Ha) as (ta & A1 & A2 & _).
    destruct (std_time _ Hc) as (tc & C1 & C2 & _). destruct (std_time _ Hs) as (ts & S1 & S2 & _).
    by eapply schema_of_encodes; [|apply AssetRecord_encodes| | |apply AssetRecord_proto3].
Qed.

End Equivalence.

(** A record of a group that is never closed, with a bogus length inside. *)
Lemma Unmarshal_terminates_witness :
  let b := [x7b; x82; x01; xff; xff; xff; xff; xff; xff; xff; xff; xff; x01] in
  zlen b < two63 /\
  returns (FeesParams_Unmarshal b) /\ returns (OracleParams_Unmarshal b) /\
  returns (OracleFeed_Unmarshal b) /\ returns (AggregatedPrice_Unmarshal b) /\
  returns (TWAPEntry_Unmarshal b) /\ returns (RWAParams_Unmarshal b) /\
  returns (AssetRecord_Unmarshal b).
Proof.
  intros b. split; [by vm_compute|]. apply Unmarshal_terminates; [|by vm_compute].
  intros s. cbn. by destruct (int_literal _).
Defined.

Lemma Marshal_equivalent_witness :
  implements_schema (mkOracleFeed "val" "VTX/USD" "1.5" 300).
Proof.
  apply (proj1 (proj2 (proj2 Marshal_equivalent))). vm_compute. repeat split; congruence.
Defined.
