(* ===== verification/Foreign.v ===== *)
(** * Fields that the schema does not have

    A program built against a later schema may add fields to a message. This file
    says what such fields are on the wire ([foreign]), shows that [skip] moves over
    exactly one of them, and that the decoding loop of x/*/types, whose default
    branch calls it, leaves the message as it is. *)

From S2P Require Import Prelude Sdk World SdkRef Wire Codec.

Open Scope Z_scope.

(** One field numbered [k] on the wire, of any of the wire types: a varint (0), eight
    bytes (1), a length and as many bytes (2), a group of fields between a start and an
    end tag (3 and 4), four bytes (5). *)
Inductive wire_field : Z -> bytes -> Prop :=
| wire_varint k v : 0 <= v < two64 -> wire_field k (base128 10 (k * 8) ++ base128 10 v)
| wire_fixed64 k c : zlen c = 8 -> wire_field k (base128 10 (k * 8 + 1) ++ c)
| wire_delimited k c : wire_field k (delimited k c)
| wire_group k fs : wire_fields fs -> wire_field k (base128 10 (k * 8 + 3) ++ fs ++ base128 10 (k * 8 + 4))
| wire_fixed32 k c : zlen c = 4 -> wire_field k (base128 10 (k * 8 + 5) ++ c)
with wire_fields : bytes -> Prop :=
| wire_none : wire_fields []
| wire_more k f fs : 0 < k < 2 ^ 29 -> wire_field k f -> wire_fields fs -> wire_fields (f ++ fs).

Scheme wire_field_rule := Minimality for wire_field Sort Prop
  with wire_fields_rule := Minimality for wire_fields Sort Prop.
Combined Scheme wire_field_ind2 from wire_field_rule, wire_fields_rule.

(** Fields whose numbers are not among [ks]; a protobuf field number is below 2^29. *)
Inductive foreign_field (ks : list Z) : bytes -> Prop :=
| foreign_number k f : k ∉ ks -> 0 < k < 2 ^ 29 -> wire_field k f -> foreign_field ks f.

Inductive foreign (ks : list Z) : bytes -> Prop :=
| foreign_nil : foreign ks []
| foreign_cons f u : foreign_field ks f -> foreign ks u -> foreign ks (f ++ u).

(** The number of a field that the [switch] handles is in the schema. *)
Definition switch_knows {A} (ks : list Z) (sw : Z -> Z -> Z -> A -> bytes -> option (res (A * bytes))) : Prop :=
  forall l k wt m b, k ∉ ks -> sw l k wt m b = None.

Lemma base128_enc v : 0 <= v -> base128 10 v = enc_varint v.
Proof. intros Hv. unfold enc_varint. by rewrite enc_varint_base128. Qed.

Lemma varint_key k wt b : 0 < k < 2 ^ 29 -> 0 <= wt < 8 ->
  varint (base128 10 (k * 8 + wt) ++ b) = Ok (k * 8 + wt, b).
Proof. intros Hk Hw. rewrite base128_enc by lia. apply varint_enc. unfold two64. lia. Qed.

Lemma key_parts k wt : 0 < k < 2 ^ 29 -> 0 <= wt < 8 ->
  wrap32 (Z.shiftr (k * 8 + wt) 3) = k /\ Z.land (k * 8 + wt) 7 = wt.
Proof.
  intros Hk Hw. split.
  - rewrite Z.shiftr_div_pow2 by lia. replace ((k * 8 + wt) / 2 ^ 3) with k by (apply Z.div_unique with wt; lia).
    unfold wrap32. rewrite Z.mod_small by lia. lia.
  - change 7 with (Z.ones 3). rewrite Z.land_ones by lia. symmetry. apply Z.mod_unique with k; lia.
Qed.

(** A field starts with its key, which is not the end of a group. *)
Lemma wire_key k f : wire_field k f ->
  exists wt e, 0 <= wt < 8 /\ wt <> 4 /\ f = base128 10 (k * 8 + wt) ++ e.
Proof.
  intros [? v Hv|? c Hc|? c|k' fs Hf|? c Hc].
  - exists 0, (base128 10 v). rewrite Z.add_0_r. split_and!; lia || reflexivity.
  - exists 1, c. split_and!; lia || reflexivity.
  - exists 2, (base128 10 (zlen c) ++ c). split_and!; lia || reflexivity.
  - exists 3, (fs ++ base128 10 (k' * 8 + 4)). split_and!; lia || reflexivity.
  - exists 5, c. split_and!; lia || reflexivity.
Qed.

Lemma foreign_key ks f : foreign_field ks f -> exists k wt e, (k ∉ ks) /\ 0 < k < 2 ^ 29 /\
  (0 <= wt < 8 /\ wt <> 4) /\ f = base128 10 (k * 8 + wt) ++ e.
Proof. intros [k f' Hk Hr (wt & e & ? & ? & ->)%wire_key]. eauto 10. Qed.

Lemma base128_S n v :
  base128 (S n) v = if v <? 128 then [byte_of_Z v] else byte_of_Z (v mod 128 + 128) :: base128 n (v / 128).
Proof. done. Qed.

Lemma base128_pos v : 0 < zlen (base128 10 v).
Proof.
  rewrite base128_S.
  case_match; rewrite zlen_cons; match goal with |- context [zlen ?l] => pose proof (zlen_nonneg l) end; lia.
Qed.

Lemma foreign_pos ks f : foreign_field ks f -> 0 < zlen f.
Proof.
  intros (k & wt & e & _ & _ & _ & ->)%foreign_key. rewrite zlen_app.
  pose proof (base128_pos (k * 8 + wt)). pose proof (zlen_nonneg e). lia.
Qed.

(** ** Skipping *)

Lemma skip_varint_run f fuel shift v pre b : (S f <= fuel)%nat -> 0 <= v < 2 ^ (7 * Z.of_nat (S f)) ->
  skip_varint fuel shift (zlen pre) (pre ++ base128 (S f) v ++ b) = Ok (zlen pre + zlen (base128 (S f) v)).
Proof.
  revert fuel shift v pre. induction f as [|f IH]; intros [|fuel] shift v pre Hn Hv; try lia;
    cbn [skip_varint]; rewrite base128_S; unfold zlen at 1; rewrite Nat2Z.id.
  - change (2 ^ (7 * Z.of_nat 1)) with 128 in Hv. replace (v <? 128) with true by lia. cbn [app].
    rewrite list_lookup_middle, Z_of_byte_of_Z, Z.mod_small by (done || lia). by replace (v <? 128) with true by lia.
  - destruct (Z.ltb_spec v 128); cbn [app].
    + rewrite list_lookup_middle, Z_of_byte_of_Z, Z.mod_small by (done || lia). by replace (v <? 128) with true by lia.
    + pose proof (Z.mod_pos_bound v 128 ltac:(lia)).
      rewrite list_lookup_middle, Z_of_byte_of_Z, (Z.mod_small (v mod 128 + 128)) by (done || lia).
      replace (v mod 128 + 128 <? 128) with false by lia.
      set (x := byte_of_Z (v mod 128 + 128)). replace (zlen pre + 1) with (zlen (pre ++ [x])) by (rewrite zlen_app; done).
      change (pre ++ x :: base128 (S f) (v / 128) ++ b) with (pre ++ [x] ++ base128 (S f) (v / 128) ++ b).
      rewrite app_assoc, IH; [|lia|].
      * f_equal. rewrite zlen_app, !zlen_cons. change (zlen (A:=byte) []) with 0. lia.
      * split; [apply Z.div_pos; lia|]. apply Z.div_lt_upper_bound; [lia|].
        replace (128 * 2 ^ (7 * Z.of_nat (S f))) with (2 ^ (7 * Z.of_nat (S (S f)))); [lia|].
        change 128 with (2 ^ 7). rewrite <- Z.pow_add_r by lia. f_equal. lia.
Qed.

Lemma drop_prefix (p b : bytes) : drop (Z.to_nat (zlen p)) (p ++ b) = b.
Proof. unfold zlen. by rewrite Nat2Z.id, drop_app_length. Qed.

(** One iteration of [skip] at a key. *)
Lemma skip_step fuel depth k wt pre r : 0 < k < 2 ^ 29 -> 0 <= wt < 8 ->
  let key := base128 10 (k * 8 + wt) in
  skip_loop (S fuel) (zlen pre) depth (pre ++ key ++ r) =
  ('(i1, depth1) ← skip_field wt (zlen (pre ++ key)) depth (pre ++ key ++ r);
   if i1 <? 0 then Err ErrInvalidLength else
   if depth1 =? 0 then Ok i1 else skip_loop fuel i1 depth1 (pre ++ key ++ r)).
Proof.
  intros Hk Hw key. cbn [skip_loop]. pose proof (base128_pos (k * 8 + wt)) as H0. fold key in H0.
  pose proof (zlen_nonneg r). replace (zlen (pre ++ key ++ r) <=? zlen pre) with false by (rewrite !zlen_app; lia).
  pose proof (varint_key k wt r Hk Hw) as Ev. fold key in Ev. rewrite drop_prefix, Ev. cbn [mbind res_bind].
  rewrite (proj2 (key_parts k wt Hk Hw)).
  replace (zlen (pre ++ key ++ r) - zlen r) with (zlen (pre ++ key)) by (rewrite !zlen_app; lia). done.
Qed.

(** [skip] moves over the bytes [f], wherever they are and however deep the nesting. *)
Definition skips (inside : Z -> Prop) (f : bytes) : Prop :=
  forall fuel depth pre b, inside depth -> (length f <= fuel)%nat -> zlen (pre ++ f ++ b) < two63 ->
  exists fuel', (fuel <= fuel' + length f)%nat /\
    skip_loop fuel (zlen pre) depth (pre ++ f ++ b) =
    if depth =? 0 then Ok (zlen (pre ++ f)) else skip_loop fuel' (zlen (pre ++ f)) depth (pre ++ f ++ b).

(** A field of one iteration, whose contents [e] the [switch] moves over. *)
Lemma skips_flat k wt e : 0 < k < 2 ^ 29 -> 0 <= wt < 8 ->
  (forall depth p b, zlen (p ++ e ++ b) < two63 -> 0 < zlen p ->
     skip_field wt (zlen p) depth (p ++ e ++ b) = Ok (zlen (p ++ e), depth)) ->
  skips (fun depth => 0 <= depth) (base128 10 (k * 8 + wt) ++ e).
Proof.
  intros Hk Hw He fuel depth pre b _ Hfu Hl. set (key := base128 10 (k * 8 + wt)) in *.
  pose proof (base128_pos (k * 8 + wt)) as H0. fold key in H0.
  destruct fuel as [|fuel]; [rewrite length_app in Hfu; unfold zlen in H0; lia|].
  exists fuel. split; [rewrite length_app; unfold zlen in H0; lia|]. rewrite <- (app_assoc key) in *.
  pose proof (skip_step fuel depth k wt pre (e ++ b) Hk Hw) as Es. cbv zeta in Es. fold key in Es. rewrite Es.
  pose proof (zlen_nonneg pre).
  rewrite (app_assoc pre key (e ++ b)), He by (rewrite <- ?app_assoc, ?zlen_app in *; lia). cbn [mbind res_bind].
  rewrite (proj2 (Z.ltb_ge _ _)) by apply zlen_nonneg. by rewrite <- !app_assoc.
Qed.

(** A group: the depth grows at its start and is back at its end. *)
Lemma skips_group k fs : 0 < k < 2 ^ 29 -> skips (fun depth => 0 < depth) fs ->
  skips (fun depth => 0 <= depth) (base128 10 (k * 8 + 3) ++ fs ++ base128 10 (k * 8 + 4)).
Proof.
  intros Hk IH fuel depth pre b Hd Hfu Hl. rewrite !length_app in Hfu.
  set (open := base128 10 (k * 8 + 3)) in *. set (close := base128 10 (k * 8 + 4)) in *.
  pose proof (base128_pos (k * 8 + 3)) as H3. fold open in H3. pose proof (base128_pos (k * 8 + 4)) as H4. fold close in H4.
  unfold zlen in H3, H4. destruct fuel as [|fuel]; [lia|].
  replace (pre ++ (open ++ fs ++ close) ++ b) with (pre ++ open ++ fs ++ close ++ b) in * by (by rewrite <- !app_assoc).
  pose proof (skip_step fuel depth k 3 pre (fs ++ close ++ b) Hk ltac:(lia)) as Es. cbv zeta in Es. fold open in Es.
  rewrite Es. unfold skip_field at 1. cbn [Z.eqb Pos.eqb mbind res_bind].
  rewrite (proj2 (Z.ltb_ge _ _)) by apply zlen_nonneg. rewrite (proj2 (Z.eqb_neq (depth + 1) 0)) by lia.
  destruct (IH fuel (depth + 1) (pre ++ open) (close ++ b)) as (fuel1 & Hf1 & E1);
    [lia|lia|by rewrite <- app_assoc|].
  rewrite <- app_assoc in E1. rewrite E1. rewrite (proj2 (Z.eqb_neq (depth + 1) 0)) by lia.
  destruct fuel1 as [|fuel1]; [lia|]. exists fuel1. split; [rewrite !length_app; lia|].
  replace (pre ++ open ++ fs ++ close ++ b) with (((pre ++ open) ++ fs) ++ close ++ b) by (by rewrite <- !app_assoc).
  pose proof (skip_step fuel1 (depth + 1) k 4 ((pre ++ open) ++ fs) b Hk ltac:(lia)) as Ec. cbv zeta in Ec. fold close in Ec.
  rewrite Ec. unfold skip_field at 1. cbn [Z.eqb Pos.eqb].
  rewrite (proj2 (Z.eqb_neq (depth + 1) 0)) by lia. cbn [mbind res_bind]. rewrite (proj2 (Z.ltb_ge _ _)) by apply zlen_nonneg.
  rewrite Z.add_simpl_r. by rewrite <- !app_assoc.
Qed.

Lemma skip_wire :
  (forall k f, wire_field k f -> 0 < k < 2 ^ 29 -> skips (fun depth => 0 <= depth) f) /\
  (forall fs, wire_fields fs -> skips (fun depth => 0 < depth) fs).
Proof.
  apply wire_field_ind2.
  - intros k v Hv Hk. replace (k * 8) with (k * 8 + 0) by lia. apply skips_flat; [done|lia|].
    intros depth p b Hl Hp. unfold skip_field. cbn [Z.eqb].
    rewrite (skip_varint_run 9) by (done || by apply u64_pow). cbn [mbind res_bind]. by rewrite zlen_app.
  - intros k c Hc Hk. apply skips_flat; [done|lia|]. intros depth p b Hl Hp. unfold skip_field. cbn [Z.eqb Pos.eqb].
    pose proof (zlen_nonneg b). rewrite !zlen_app, Hc in *. by rewrite wrap64_id by (unfold two63 in *; lia).
  - intros k c Hk. unfold delimited. apply skips_flat; [done|lia|]. intros depth p b Hl Hp.
    unfold skip_field. cbn [Z.eqb Pos.eqb]. rewrite drop_prefix, <- app_assoc.
    pose proof (zlen_nonneg c). pose proof (zlen_nonneg b). pose proof (base128_pos (zlen c)).
    rewrite !zlen_app in Hl. rewrite (base128_enc (zlen c)), varint_enc by (unfold two63, two64 in *; lia).
    rewrite <- base128_enc by done. cbn [mbind res_bind]. rewrite wrap64_id by (unfold two63 in *; lia).
    rewrite (proj2 (Z.ltb_ge (zlen c) 0)) by done. rewrite !zlen_app. rewrite wrap64_id by (unfold two63 in *; lia).
    do 2 f_equal. lia.
  - intros k fs _ IH Hk. by apply skips_group.
  - intros k c Hc Hk. apply skips_flat; [done|lia|]. intros depth p b Hl Hp. unfold skip_field. cbn [Z.eqb Pos.eqb].
    pose proof (zlen_nonneg b). rewrite !zlen_app, Hc in *. by rewrite wrap64_id by (unfold two63 in *; lia).
  - intros fuel depth pre b Hd _ _. exists fuel. split; [cbn; lia|]. cbn [app].
    rewrite (proj2 (Z.eqb_neq depth 0)) by lia. by rewrite app_nil_r.
  - intros k f fs Hk _ IHf _ IHs fuel depth pre b Hd Hfu Hl. rewrite length_app in Hfu. rewrite <- app_assoc in *.
    destruct (IHf Hk fuel depth pre (fs ++ b)) as (fuel1 & Hf1 & E1); [lia|lia|done|].
    rewrite (proj2 (Z.eqb_neq depth 0)) in * by lia.
    destruct (IHs fuel1 depth (pre ++ f) b) as (fuel2 & Hf2 & E2); [lia|lia|by rewrite <- app_assoc|].
    rewrite (proj2 (Z.eqb_neq depth 0)) in * by lia. exists fuel2. split; [rewrite length_app; lia|].
    rewrite E1. rewrite <- (app_assoc pre f (fs ++ b)), <- (app_assoc pre f fs) in E2. exact E2.
Qed.

Lemma skip_foreign ks f b : foreign_field ks f -> zlen (f ++ b) < two63 -> skip (f ++ b) = Ok (zlen f).
Proof.
  intros [k f' Hk Hr Hf] Hl. unfold skip.
  destruct (proj1 skip_wire k f' Hf Hr (S (length (f' ++ b))) 0 [] b) as (fuel & _ & E);
    [done|rewrite length_app; lia|done|exact E].
Qed.

(** ** The decoding loop *)

Section Loop.
Context {A : Type} (sw : Z -> Z -> Z -> A -> bytes -> option (res (A * bytes))) (ks : list Z) (Hk : switch_knows ks sw).

Lemma reads_foreign_field f m : foreign_field ks f -> reads sw f m m.
Proof.
  intros Hf fuel l b Hfu Hl. pose proof (foreign_pos ks f Hf) as H0.
  destruct fuel as [|fuel]; [unfold zlen in H0; lia|]. exists fuel. split; [unfold zlen in H0; lia|].
  pose proof (skip_foreign ks f b Hf ltac:(lia)) as Es.
  assert (unmarshal_loop sw (S fuel) l m (f ++ b) = unmarshal_loop sw fuel l m (drop (Z.to_nat (zlen f)) (f ++ b))) as ->.
  2:{ unfold zlen. by rewrite Nat2Z.id, drop_app_length. }
  apply foreign_key in Hf as (k & wt & e & Hn & Hr & Hw & ->). rewrite <- app_assoc in *.
  destruct Hw as [Hw Hw4]. pose proof (varint_key k wt (e ++ b) Hr Hw) as Ev. destruct (key_parts k wt) as [K1 K2]; [lia..|].
  set (d := base128 10 (k * 8 + wt) ++ e ++ b) in *. destruct d as [|x d0] eqn:Ed; [by rewrite zlen_app in H0; cbn in Es|].
  cbn [unmarshal_loop]. rewrite Ev. cbn [mbind res_bind]. cbv zeta. rewrite K1, K2.
  replace (wt =? 4) with false by lia. replace (k <=? 0) with false by lia. rewrite Hk, Es by done. cbn [mbind res_bind].
  assert (zlen (base128 10 (k * 8 + wt) ++ e) <= zlen (x :: d0)) as Hle.
  { rewrite <- Ed. unfold d. rewrite !zlen_app. pose proof (zlen_nonneg b). lia. }
  pose proof (zlen_nonneg (x :: d0)). rewrite wrap64_id by (unfold two63 in *; lia).
  repeat (rewrite (proj2 (Z.ltb_ge _ _)) by lia). done.
Qed.

Lemma reads_foreign u m : foreign ks u -> reads sw u m m.
Proof.
  induction 1 as [|f u Hf _ IH]; [apply reads_nil|]. eapply reads_app; [by apply reads_foreign_field|done].
Qed.

End Loop.

(** [switch_knows] of a literal [switch]. *)
Ltac knows_fields := intros ? ? ? ? ? Hk; repeat case_match; try done; exfalso; apply Hk; subst; simpl; rewrite ?elem_of_cons; auto 20.
