(* ===== verification/WireMsg.v ===== *)
(** * Messages inside messages

    The generated code of x/*/types/*.pb.go for embedded and repeated messages,
    and the interface [GoMsg] through which it is called: a message type with its
    [Size], [MarshalToSizedBuffer] and [Unmarshal]. [GoMsgLaws] is what the
    methods promise: the bytes written are those of the schema ([proto3_encode]),
    decoding them gives the message back, decoding returns on every input. *)

From S2P Require Import Prelude Sdk World SdkRef Wire Codec Foreign.

Open Scope Z_scope.

Class GoMsg (A : Type) : Type := {
  msg_zero : A;
  msg_Size : A -> Z;
  msg_MarshalToSizedBuffer : A -> writer -> res writer;
  (** Decodes into an existing message: absent fields keep their values. *)
  msg_Unmarshal : A -> bytes -> res A
}.

(** [func (m *A) Marshal()]: the same text for every message. *)
Definition msg_Marshal {A} {G : GoMsg A} (m : A) : res bytes :=
  marshal_with (msg_Size m) (msg_MarshalToSizedBuffer m).

(** ** Fields of message types *)

Section Embedded.
Context {A : Type} {G : GoMsg A}.

(** [size, err := m.F.MarshalToSizedBuffer(dAtA[:i]); i -= size;
    i = encodeVarint(dAtA, i, uint64(size)); i--; dAtA[i] = tag]. *)
Definition wr_msg (tag : byte) (m : A) (w : writer) : res writer :=
  let head := take (Z.to_nat w.2) w.1 in
  sub ← msg_MarshalToSizedBuffer m (head, zlen head);
  let size := zlen head - sub.2 in
  w ← encodeVarint (sub.1 ++ drop (Z.to_nat w.2) w.1, w.2 - size) size;
  wr_byte tag w.

(** [for iNdEx := len(l) - 1; iNdEx >= 0; iNdEx--]. *)
Fixpoint wr_msgs (tag : byte) (l : list A) (w : writer) : res writer :=
  match l with
  | [] => Ok w
  | m :: l => w ← wr_msgs tag l w; wr_msg tag m w
  end.

(** [if m.F != nil]. *)
Definition wr_opt (tag : byte) (o : option A) (w : writer) : res writer :=
  match o with Some m => wr_msg tag m w | None => Ok w end.

Definition size_msg (m : A) : Z := size_bytes (msg_Size m).
Definition size_msgs (l : list A) : Z := foldr (fun m n => n + size_msg m) 0 l.
Definition size_opt (o : option A) : Z := match o with Some m => size_msg m | None => 0 end.

(** A field of message type is decoded into its current value. *)
Definition rd_msg (cur : A) (l wireType : Z) (b : bytes) : res (A * bytes) :=
  '(s, b) ← rd_bytes l wireType b; m ← msg_Unmarshal cur s; Ok (m, b).

End Embedded.

(** A [uint64] field. *)
Definition rd_uint64 (wireType : Z) (b : bytes) : res (Z * bytes) :=
  if negb (wireType =? 0) then Err ErrWireType else varint b.

(** ** What a message type promises *)

Class GoMsgLaws (A : Type) {T : StdTime} {G : GoMsg A} {S : Schema A} : Type := {
  msg_wf : A -> Prop;
  msg_encodes m : msg_wf m -> encodes (msg_MarshalToSizedBuffer m) (proto3_encode m) (msg_Size m);
  (** Decoding gives the message back, whatever fields of a later schema follow. *)
  msg_skips m u : msg_wf m -> foreign (fields m).*1 u -> zlen (proto3_encode m ++ u) < two63 ->
    msg_Unmarshal msg_zero (proto3_encode m ++ u) = Ok m;
  msg_returns m b : zlen b < two63 -> returns (msg_Unmarshal m b)
}.

(** ** Lemmas: writing *)

Lemma zlen_take_all (b : bytes) n : 0 <= n <= zlen b -> zlen (take (Z.to_nat n) b) = n.
Proof. intros Hn. unfold zlen in *. rewrite length_take. lia. Qed.

Lemma delimited_len k b : zlen b < two64 -> 0 <= k * 8 + 2 < 128 -> zlen (delimited k b) = size_bytes (zlen b).
Proof.
  intros Hb Hk. rewrite <- (enc_bytes_delimited (byte_of_Z (k * 8 + 2))).
  - by apply enc_bytes_len.
  - unfold base128. fold base128. by replace (k * 8 + 2 <? 128) with true by lia.
Qed.

Lemma size_bytes_pos n : 0 <= n -> 0 <= size_bytes n.
Proof. intros Hn. unfold size_bytes. pose proof (sov_pos n Hn). lia. Qed.

Lemma rd_bytes_short l wt b s rest : zlen b < two63 -> rd_bytes l wt b = Ok (s, rest) -> zlen s < two63.
Proof.
  intros Hb E. unfold rd_bytes in E. destruct (negb (wt =? 2)); [done|]. destruct (varint b) as [[n r]| |] eqn:V; [|done..].
  apply varint_shorter in V. cbn [mbind res_bind] in E. repeat (case_match; try done). unfold slice in E.
  case_match; [|done]. injection E as <- _. unfold zlen in *. rewrite length_take. lia.
Qed.

Section Laws.
Context {T : StdTime} {A : Type} {G : GoMsg A} {S : Schema A} {L : GoMsgLaws A}.

Lemma msg_decodes m : msg_wf m -> zlen (proto3_encode m) < two63 -> msg_Unmarshal msg_zero (proto3_encode m) = Ok m.
Proof. intros Hm Hl. rewrite <- (app_nil_r (proto3_encode m)). apply msg_skips; [done|constructor|by rewrite app_nil_r]. Qed.

(** The sub-slice before the index is a buffer of its own. *)
Lemma writes_msg tag m : msg_wf m -> msg_Size m < two63 -> writes (wr_msg tag m) (enc_bytes tag (proto3_encode m)).
Proof.
  intros Hm Hs n suf w (pre & E1 & E2 & E3) Hn.
  destruct (msg_encodes m Hm) as [_ He]. destruct (He Hs) as [Hw Hl]. pose proof (zlen_nonneg (proto3_encode m)) as H0.
  rewrite enc_bytes_len in Hn by (unfold two63, two64 in *; lia). unfold size_bytes in Hn.
  pose proof (sov_pos _ H0).
  assert (Z.to_nat (zlen pre) = length pre) as En by (unfold zlen; lia).
  unfold wr_msg. rewrite E1, E2, En, take_app_length, drop_app_length.
  destruct (Hw (zlen pre) [] (pre, zlen pre)) as (sub & -> & (spre & F1 & F2 & F3)).
  - exists pre. rewrite app_nil_r. change (zlen (A:=byte) []) with 0. split_and!; [done|done|lia].
  - change (zlen (A:=byte) []) with 0. lia.
  - cbn [mbind res_bind]. rewrite app_nil_r in *.
    replace (zlen pre - (zlen pre - sub.2)) with (zlen spre) by lia.
    replace (zlen pre - sub.2) with (zlen (proto3_encode m)) by lia. rewrite F1, <- app_assoc.
    destruct (encodeVarint_run n (proto3_encode m ++ suf) (spre ++ proto3_encode m ++ suf, zlen spre) (zlen (proto3_encode m)))
      as (w1 & -> & Hw1).
    + exists spre. cbn [fst snd]. repeat split. rewrite zlen_app. lia.
    + unfold two63, two64 in *. lia.
    + rewrite zlen_app. lia.
    + cbn [mbind res_bind]. unfold enc_bytes. rewrite <- app_comm_cons, <- app_assoc. apply wr_byte_run; [done|].
      rewrite !zlen_app, enc_varint_len by (unfold two63, two64 in *; lia). lia.
Qed.

Lemma encodes_msg tag k m : base128 10 (k * 8 + 2) = [tag] -> msg_wf m ->
  encodes (wr_msg tag m) (proto3_field (k, FMsg (fields m))) (size_msg m).
Proof.
  intros Ht Hm. destruct (msg_encodes m Hm) as [H0 He]. unfold size_msg. split; [by apply size_bytes_pos|].
  intros Hs. pose proof (size_bytes_bound (msg_Size m) H0). destruct (He ltac:(lia)) as [_ Hl].
  change (proto3_field (k, FMsg (fields m))) with (delimited k (proto3_encode m)).
  rewrite <- (enc_bytes_delimited tag) by done. split; [apply writes_msg; [done|lia]|].
  rewrite enc_bytes_len by (unfold two63, two64 in *; lia). by rewrite Hl.
Qed.

Lemma encodes_msgs tag k l : base128 10 (k * 8 + 2) = [tag] -> Forall msg_wf l ->
  encodes (wr_msgs tag l) (proto3_field (k, FMsgs (fields <$> l))) (size_msgs l).
Proof.
  intros Ht. induction 1 as [|m l Hm HF IH].
  - split; [done|]. intros _. split; [|done]. intros n suf w Hw _. by exists w.
  - pose proof (encodes_comp _ _ _ _ _ _ IH (encodes_msg tag k m Ht Hm)) as H.
    cbn [size_msgs foldr wr_msgs]. fold (size_msgs l). by rewrite Z.add_comm.
Qed.

Lemma encodes_opt tag k o : base128 10 (k * 8 + 2) = [tag] -> (forall m, o = Some m -> msg_wf m) ->
  encodes (wr_opt tag o) (proto3_field (k, FMsgs (match o with Some m => [fields m] | None => [] end))) (size_opt o).
Proof.
  intros Ht Hm. destruct o as [m|].
  - replace (proto3_field (k, FMsgs [fields m])) with (proto3_field (k, FMsg (fields m))) by (cbn; by rewrite app_nil_r).
    by apply encodes_msg, Hm.
  - split; [done|]. intros _. split; [|done]. intros n suf w Hw _. by exists w.
Qed.

Lemma rd_msg_consumes (cur : A) l wt b : zlen b <= l < two63 -> consumes b (rd_msg cur l wt b).
Proof.
  intros Hl. unfold rd_msg. pose proof (rd_bytes_consumes l wt b Hl) as H.
  destruct (rd_bytes l wt b) as [[s rest]| |] eqn:E; [|done..]. cbn [mbind res_bind].
  apply rd_bytes_short in E as Hs; [|lia].
  pose proof (msg_returns cur s Hs) as Hr. destruct (msg_Unmarshal cur s); [exact H|done|by destruct Hr].
Qed.

End Laws.

Lemma rd_uint64_consumes wt b : consumes b (rd_uint64 wt b).
Proof. unfold rd_uint64. case_match; [done|]. destruct (varint b) as [[n rest]| |] eqn:E; [|done|by apply varint_returns in E].
  apply varint_shorter in E. cbn. lia.
Qed.

(** The decoder of timestamps does not panic. *)
Class StdTimeTotal {T : StdTime} : Prop := std_time_total s : zlen s < two63 -> StdTimeUnmarshal s <> Panic.

Lemma rd_time_total {T : StdTime} {TT : StdTimeTotal} l wt b : zlen b <= l < two63 -> consumes b (rd_time l wt b).
Proof.
  intros Hl. unfold rd_time. pose proof (rd_bytes_consumes l wt b Hl) as H.
  destruct (rd_bytes l wt b) as [[s rest]| |] eqn:E; [|done..]. apply rd_bytes_short in E; [|lia]. cbn [mbind res_bind].
  destruct (StdTimeUnmarshal s) eqn:Et; [exact H|done|by apply std_time_total in Et].
Qed.

#[export] Hint Resolve rd_msg_consumes rd_uint64_consumes rd_time_total : codec.

(** ** Messages of the SDK: pagination (cosmos-sdk/types/query) *)

Class SdkImports : Type := {
  PageRequest : Type;
  PageResponse : Type;
  PageRequest_msg :: GoMsg PageRequest;
  PageResponse_msg :: GoMsg PageResponse;
  PageRequest_schema :: Schema PageRequest;
  PageResponse_schema :: Schema PageResponse
}.

Class SdkImportsLaws {T : StdTime} {I : SdkImports} : Type := {
  PageRequest_laws :: GoMsgLaws PageRequest;
  PageResponse_laws :: GoMsgLaws PageResponse
}.

(** ** Lemmas: fields by number

    The tag of a field with a number below 16 is one byte. *)

Lemma tag_byte k wt : 0 < k < 16 -> 0 <= wt < 6 -> wt <> 4 ->
  base128 10 (k * 8 + wt) = [byte_of_Z (k * 8 + wt)] /\ tag_of (byte_of_Z (k * 8 + wt)) k wt.
Proof.
  intros Hk Hw H4. split; [unfold base128; fold base128; by replace (k * 8 + wt <? 128) with true by lia|].
  unfold tag_of. rewrite Z_of_byte_of_Z, (Z.mod_small _ 256) by lia.
  assert (Z.shiftr (k * 8 + wt) 3 = k) as ->.
  { rewrite Z.shiftr_div_pow2 by lia. symmetry. apply Z.div_unique with wt; lia. }
  assert (Z.land (k * 8 + wt) 7 = wt) as ->.
  { change 7 with (Z.ones 3). rewrite Z.land_ones by lia. symmetry. apply Z.mod_unique with k; lia. }
  unfold wrap32. rewrite Z.mod_small by lia. lia.
Qed.

Section FieldsByNumber.
Context {T : StdTime} {B : Type} (R : bytes -> B -> B -> Prop)
  {sw : Z -> Z -> Z -> B -> bytes -> option (res (B * bytes))} {FR : FieldReader sw R}.

Lemma reads_fstring k m (upd : string -> B) s : 0 < k < 16 ->
  (forall l b, sw l k 2 m b = Some ('(s, b) ← rd_string l 2 b; Ok (upd s, b))) -> upd ""%string = m ->
  R (proto3_field (k, FString s)) m (upd s).
Proof.
  intros Hk Hsw H0. destruct (tag_byte k 2 Hk) as [Eb Ht]; [lia..|].
  rewrite <- (enc_string_field _ k s Eb). by apply (reads_string _ _ k).
Qed.

Lemma reads_fstrings k (upd : list string -> B) ss : 0 < k < 16 ->
  (forall l ss b, sw l k 2 (upd ss) b = Some ('(s, b) ← rd_string l 2 b; Ok (upd (ss ++ [s]), b))) ->
  R (proto3_field (k, FStrings ss)) (upd []) (upd ss).
Proof.
  intros Hk Hsw. destruct (tag_byte k 2 Hk) as [Eb Ht]; [lia..|].
  rewrite <- (enc_strings_field _ k ss Eb). by apply (reads_strings R _ k upd []).
Qed.

Lemma reads_fint64 k m (upd : Z -> B) v : 0 < k < 16 -> - two63 <= v < two63 ->
  (forall l b, sw l k 0 m b = Some ('(s, b) ← rd_int64 0 b; Ok (upd s, b))) -> upd 0 = m ->
  R (proto3_field (k, FInt v)) m (upd v).
Proof.
  intros Hk Hv Hsw H0. destruct (tag_byte k 0 Hk) as [Eb Ht]; [lia..|]. rewrite Z.add_0_r in *.
  rewrite <- (enc_int_field _ k v Eb). by apply (reads_int64 _ _ k).
Qed.

Lemma reads_fuint64 k m (upd : Z -> B) v : 0 < k < 16 -> 0 <= v < two64 ->
  (forall l b, sw l k 0 m b = Some ('(s, b) ← rd_uint64 0 b; Ok (upd s, b))) -> upd 0 = m ->
  R (proto3_field (k, FInt v)) m (upd v).
Proof.
  intros Hk Hv Hsw H0. destruct (tag_byte k 0 Hk) as [Eb Ht]; [lia..|]. rewrite Z.add_0_r in *.
  rewrite <- (enc_int_field _ k v Eb). unfold enc_int. destruct (Z.eqb_spec v 0) as [->|Hne]; cbn [negb].
  - rewrite H0. apply rd_nil.
  - apply (rd_field _ k _ _ _ _ Ht). intros l b Hb. rewrite Hsw. unfold rd_uint64. cbn [Z.eqb negb].
    unfold u64. rewrite Z.mod_small, varint_enc by done. done.
Qed.

Lemma reads_fint32 k m (upd : Z -> B) v : 0 < k < 16 -> - 2 ^ 31 <= v < 2 ^ 31 ->
  (forall l b, sw l k 0 m b = Some ('(s, b) ← rd_int32 0 b; Ok (upd s, b))) -> upd 0 = m ->
  R (proto3_field (k, FInt v)) m (upd v).
Proof.
  intros Hk Hv Hsw H0. destruct (tag_byte k 0 Hk) as [Eb Ht]; [lia..|]. rewrite Z.add_0_r in *.
  rewrite <- (enc_int_field _ k v Eb). by apply (reads_int32 _ _ k).
Qed.

Lemma reads_fbool k m (upd : bool -> B) v : 0 < k < 16 ->
  (forall l b, sw l k 0 m b = Some ('(s, b) ← rd_bool 0 b; Ok (upd s, b))) -> upd false = m ->
  R (proto3_field (k, FBool v)) m (upd v).
Proof.
  intros Hk Hsw H0. destruct (tag_byte k 0 Hk) as [Eb Ht]; [lia..|]. rewrite Z.add_0_r in *.
  rewrite <- (enc_bool_field _ k v Eb). by apply (reads_bool _ _ k).
Qed.

(** One length-delimited field whose contents [rd] reads as [v]. *)
Lemma reads_fdelimited {V} k m m' (rd : bytes -> res V) (upd : V -> B) (c : bytes) v : 0 < k < 16 ->
  (forall l b, sw l k 2 m b = Some ('(s, b) ← rd_bytes l 2 b; x ← rd s; Ok (upd x, b))) ->
  (zlen c < two63 -> rd c = Ok v) -> upd v = m' -> R (delimited k c) m m'.
Proof.
  intros Hk Hsw Hrd <-. destruct (tag_byte k 2 Hk) as [Eb Ht]; [lia..|].
  rewrite <- (enc_bytes_delimited _ k c Eb). apply (rd_field _ k _ _ _ _ Ht). intros l b Hb.
  rewrite Hsw, <- app_assoc, rd_bytes_enc by (rewrite <- app_assoc in Hb; lia). cbn [mbind res_bind].
  rewrite Hrd; [done|]. rewrite !zlen_app in Hb. pose proof (zlen_nonneg b). pose proof (zlen_nonneg (enc_varint (zlen c))). lia.
Qed.

Lemma reads_ftime {TL : StdTimeLaws} k m (upd : Z -> B) t : 0 < k < 16 -> time_ok t ->
  (forall l b, sw l k 2 m b = Some ('(s, b) ← rd_time l 2 b; Ok (upd s, b))) ->
  R (proto3_field (k, FTime t)) m (upd t).
Proof.
  intros Hk Ht Hsw. destruct (std_time t Ht) as (c & Em & _ & Eu & _).
  unfold proto3_field, proto3_value. rewrite Em. eapply (reads_fdelimited k m _ StdTimeUnmarshal upd); [done| |done|done].
  intros l b. rewrite Hsw. unfold rd_time. destruct (rd_bytes l 2 b) as [[s r]| |]; [|done..]. cbn [mbind res_bind].
  by destruct (StdTimeUnmarshal s).
Qed.

Context {A : Type} {G : GoMsg A} {S : Schema A} {L : GoMsgLaws A}.

Lemma reads_fmsg k m (upd : A -> B) x : 0 < k < 16 -> msg_wf x ->
  (forall l b, sw l k 2 m b = Some ('(s, b) ← rd_msg msg_zero l 2 b; Ok (upd s, b))) ->
  R (proto3_field (k, FMsg (fields x))) m (upd x).
Proof.
  intros Hk Hx Hsw. change (proto3_field (k, FMsg (fields x))) with (delimited k (proto3_encode x)).
  eapply (reads_fdelimited k m _ (msg_Unmarshal msg_zero) upd); [done| |by apply msg_decodes|done].
  intros l b. rewrite Hsw. unfold rd_msg. destruct (rd_bytes l 2 b) as [[s r]| |]; [|done..]. cbn [mbind res_bind].
  by destruct (msg_Unmarshal msg_zero s).
Qed.

Lemma reads_fmsgs k (upd : list A -> B) xs : 0 < k < 16 -> Forall msg_wf xs ->
  (forall l ys b, sw l k 2 (upd ys) b = Some ('(s, b) ← rd_msg msg_zero l 2 b; Ok (upd (ys ++ [s]), b))) ->
  R (proto3_field (k, FMsgs (fields <$> xs))) (upd []) (upd xs).
Proof.
  intros Hk Hx Hsw. change xs with ([] ++ xs) at 2. generalize (@nil A). induction Hx as [|x xs Hx _ IH]; intros ys.
  - rewrite app_nil_r. apply rd_nil.
  - replace (ys ++ x :: xs) with ((ys ++ [x]) ++ xs) by (by rewrite <- app_assoc).
    change (proto3_field (k, FMsgs (fields <$> x :: xs)))
      with (proto3_field (k, FMsg (fields x)) ++ proto3_field (k, FMsgs (fields <$> xs))).
    eapply rd_app; [|apply IH]. by apply (reads_fmsg k (upd ys) (fun s => upd (ys ++ [s]))).
Qed.

Lemma reads_fopt k (upd : option A -> B) o : 0 < k < 16 -> (forall x, o = Some x -> msg_wf x) ->
  (forall l b, sw l k 2 (upd None) b = Some ('(s, b) ← rd_msg msg_zero l 2 b; Ok (upd (Some s), b))) ->
  R (proto3_field (k, FMsgs (match o with Some x => [fields x] | None => [] end))) (upd None) (upd o).
Proof.
  intros Hk Hx Hsw. destruct o as [x|]; [|apply rd_nil].
  replace (proto3_field (k, FMsgs [fields x])) with (proto3_field (k, FMsg (fields x))) by (cbn; by rewrite app_nil_r).
  apply (reads_fmsg k (upd None) (fun s => upd (Some s))); [done|by apply Hx|done].
Qed.

End FieldsByNumber.

(** ** Messages of the repository

    The laws of a message whose [Unmarshal] is the loop over a [switch]. *)
Section Own.
Context {T : StdTime} {A : Type} {G : GoMsg A} {S : Schema A} (sw : Z -> Z -> Z -> A -> bytes -> option (res (A * bytes))).

Definition own_laws (wf : A -> Prop) (HU : forall m b, msg_Unmarshal m b = unmarshal sw m b)
  (He : forall m, wf m -> encodes (msg_MarshalToSizedBuffer m) (proto3_encode m) (msg_Size m))
  (Hr : forall m, wf m -> reads sw (proto3_encode m) msg_zero m)
  (Hk : forall m, switch_knows (fields m).*1 sw)
  (Hc : switch_consumes sw) : GoMsgLaws A.
Proof.
  refine {| msg_wf := wf |}.
  - exact He.
  - intros m u Hm Hu Hl. rewrite HU. apply unmarshal_reads; [|done].
    eapply reads_app; [by apply Hr|by eapply reads_foreign].
  - intros m b Hl. rewrite HU. apply unmarshal_loop_returns; [done|done|]. unfold zlen in *. lia.
Defined.

End Own.

(** Field lemmas of the writer, stated with the schema. *)
Section EncodesFields.
Context {T : StdTime}.

Lemma encodes_fstring tag k s : base128 10 (k * 8 + 2) = [tag] ->
  encodes (wr_string tag s) (proto3_field (k, FString s)) (size_string s).
Proof. intros E. rewrite <- (enc_string_field tag) by done. apply encodes_string. Qed.

Lemma encodes_fstrings tag k l : base128 10 (k * 8 + 2) = [tag] ->
  encodes (wr_strings tag l) (proto3_field (k, FStrings l)) (size_strings l).
Proof. intros E. rewrite <- (enc_strings_field tag) by done. apply encodes_strings. Qed.

Lemma encodes_fint tag k v : base128 10 (k * 8) = [tag] ->
  encodes (wr_int tag v) (proto3_field (k, FInt v)) (size_int v).
Proof. intros E. rewrite <- (enc_int_field tag) by done. apply encodes_int. Qed.

Lemma encodes_fbool tag k b : base128 10 (k * 8) = [tag] ->
  encodes (wr_bool tag b) (proto3_field (k, FBool b)) (size_bool b).
Proof. intros E. rewrite <- (enc_bool_field tag) by done. apply encodes_bool. Qed.

Lemma encodes_ftime {TL : StdTimeLaws} tag k t : base128 10 (k * 8 + 2) = [tag] -> time_ok t ->
  encodes (wr_time tag t) (proto3_field (k, FTime t)) (size_time t).
Proof.
  intros E Ht. destruct (std_time t Ht) as (c & Em & Es & _). rewrite <- (enc_time_field tag k t c) by done.
  by apply encodes_time.
Qed.

Lemma encodes_nothing : encodes (fun w => Ok w) [] 0.
Proof. split; [done|]. intros _. split; [|done]. intros n suf w Hw _. by exists w. Qed.

End EncodesFields.

Arguments proto3_field : simpl never.
Arguments reads : simpl never.

(** ** Automation: the three laws of a message from the lemmas of its fields *)

Ltac encodes_field :=
  first [apply encodes_fstring|apply encodes_fstrings|apply encodes_fint|apply encodes_fbool
        |apply encodes_msg|apply encodes_msgs|apply encodes_opt|apply encodes_ftime|apply encodes_nothing];
  first [reflexivity|assumption|naive_solver].

(** [encodes] of a message: [_MarshalToSizedBuffer] and [_Size] unfolded, field by
    field from the last. *)
Ltac encodes_fields :=
  repeat match goal with H : _ /\ _ |- _ => destruct H end;
  unfold proto3_encode, fields; cbn [mbind list_bind]; rewrite ?app_nil_r, ?app_assoc;
  repeat (eapply encodes_comp; [encodes_field|]); encodes_field.

Ltac reads_done := first [apply _|assumption|lia|by (intros; reflexivity)|naive_solver].
Ltac reads_one :=
  lazymatch goal with
  | |- ?R (proto3_field (_, FString _)) _ _ => eapply (reads_fstring R)
  | |- ?R (proto3_field (_, FBool _)) _ _ => eapply (reads_fbool R)
  | |- ?R (proto3_field (_, FTime _)) _ _ => eapply (reads_ftime R)
  | |- ?R (proto3_field (_, FMsg _)) _ _ => eapply (reads_fmsg R)
  end; reads_done.

(** [reads] of a message, one field at a time from the first: [e] is the encoding as
    the concatenation of its fields, [u] the update of a repeated or optional
    field. *)
Ltac reads_start e :=
  repeat match goal with H : ?P /\ _ |- _ => lazymatch P with (_ <= _)%Z => fail | _ => destruct H end end;
  lazymatch goal with |- ?R _ ?m ?m' => let m1 := eval simpl in m in change (R e m1 m') end.
Ltac reads_step tac :=
  eapply rd_app; [tac|];
  lazymatch goal with |- ?R ?e ?m ?m' => let m1 := eval simpl in m in change (R e m1 m') end.
Ltac reads_scalar := reads_step reads_one.
Ltac reads_i64 := reads_step ltac:(lazymatch goal with |- ?R _ _ _ => eapply (reads_fint64 R) end; reads_done).
Ltac reads_i32 := reads_step ltac:(lazymatch goal with |- ?R _ _ _ => eapply (reads_fint32 R) end; reads_done).
Ltac reads_u64 := reads_step ltac:(lazymatch goal with |- ?R _ _ _ => eapply (reads_fuint64 R) end; reads_done).
Ltac reads_repeated_strings u := reads_step ltac:(apply (reads_fstrings _ _ u); reads_done).
Ltac reads_repeated u := reads_step ltac:(apply (reads_fmsgs _ _ u); reads_done).
Ltac reads_optional u := reads_step ltac:(apply (reads_fopt _ _ u); reads_done).

(** [switch_consumes], the [switch] unfolded in [E]. *)
Ltac consumes_fields E :=
  repeat case_match; first [discriminate E|injection E as <-]; apply (consumes_bind _ _ _);
  first [by eapply rd_msg_consumes|by auto with codec].
