(* ===== verification/FeesCodec.v ===== *)
(** * x/fees: the wire code of the messages

    [Size], [MarshalToSizedBuffer] and the [switch] of [Unmarshal] of every message of
    x/fees/types/*.pb.go, each an instance of [GoMsg] with its laws: stored
    messages, transaction messages and their responses, genesis, queries. *)

From S2P Require Import Prelude Sdk World SdkRef Wire FeesTypes Codec Foreign WireMsg.

Open Scope Z_scope.

Section FeesCodec.
Context {T : StdTime} {TL : StdTimeLaws} {TT : StdTimeTotal}.

(** ** types/types.pb.go *)

(** [FeesParams]. *)

#[global] Instance FeesParams_msg : GoMsg FeesParams := {|
  msg_zero := mkFeesParams "" "";
  msg_Size := FeesParams_Size;
  msg_MarshalToSizedBuffer := FeesParams_MarshalToSizedBuffer;
  msg_Unmarshal := unmarshal FeesParams_switch
|}.

Lemma fees_FeesParams_consumes : switch_consumes FeesParams_switch.
Proof. intros l k wt m b r ? E. unfold FeesParams_switch in E. consumes_fields E. Qed.

#[global] Instance FeesParams_laws : GoMsgLaws FeesParams.
Proof.
  apply (own_laws FeesParams_switch (fun m => True)); [done| | |intros m; unfold FeesParams_switch; knows_fields|apply fees_FeesParams_consumes].
  - intros m Hm. simpl. unfold FeesParams_MarshalToSizedBuffer, FeesParams_Size, FeesParams_schema. encodes_fields.
  - intros [x1 x2] Hm. reads_start (proto3_field (1, FString x1) ++ proto3_field (2, FString x2) ++ [] : bytes).
    reads_scalar. reads_scalar. apply rd_nil.
Defined.

(** ** types/genesis.pb.go *)

(** [GenesisState]. *)

Definition GenesisState_Size (m : GenesisState) : Z :=
  size_msg (gs_Params m).

Definition GenesisState_MarshalToSizedBuffer (m : GenesisState) (w : writer) : res writer :=
  wr_msg x0a (gs_Params m) w.

Definition GenesisState_switch (l fieldNum wireType : Z) (m : GenesisState) (b : bytes) : option (res (GenesisState * bytes)) :=
  match fieldNum with
  | 1 => Some ('(s, b) ← rd_msg (gs_Params m) l wireType b;
      Ok (mkGenesisState s, b))
  | _ => None
  end.

#[global] Instance GenesisState_msg : GoMsg GenesisState := {|
  msg_zero := mkGenesisState msg_zero;
  msg_Size := GenesisState_Size;
  msg_MarshalToSizedBuffer := GenesisState_MarshalToSizedBuffer;
  msg_Unmarshal := unmarshal GenesisState_switch
|}.

#[global] Instance GenesisState_schema : Schema GenesisState := fun m =>
  [(1, FMsg (fields (gs_Params m)))].

Lemma fees_GenesisState_consumes : switch_consumes GenesisState_switch.
Proof. intros l k wt m b r ? E. unfold GenesisState_switch in E. consumes_fields E. Qed.

#[global] Instance GenesisState_laws : GoMsgLaws GenesisState.
Proof.
  apply (own_laws GenesisState_switch (fun m => msg_wf (gs_Params m))); [done| | |intros m; unfold GenesisState_switch; knows_fields|apply fees_GenesisState_consumes].
  - intros m Hm. simpl. unfold GenesisState_MarshalToSizedBuffer, GenesisState_Size, GenesisState_schema. encodes_fields.
  - intros [x1] Hm. reads_start (proto3_field (1, FMsg (fields x1)) ++ [] : bytes).
    reads_scalar. apply rd_nil.
Defined.

(** ** types/tx.pb.go *)

(** [MsgUpdateParams]. *)

Definition MsgUpdateParams_Size (m : MsgUpdateParams) : Z :=
  size_string (Authority m) + size_msg (Params m).

Definition MsgUpdateParams_MarshalToSizedBuffer (m : MsgUpdateParams) (w : writer) : res writer :=
  w ← wr_msg x12 (Params m) w;
  wr_string x0a (Authority m) w.

Definition MsgUpdateParams_switch (l fieldNum wireType : Z) (m : MsgUpdateParams) (b : bytes) : option (res (MsgUpdateParams * bytes)) :=
  match fieldNum with
  | 1 => Some ('(s, b) ← rd_string l wireType b;
      Ok (mkMsgUpdateParams s (Params m), b))
  | 2 => Some ('(s, b) ← rd_msg (Params m) l wireType b;
      Ok (mkMsgUpdateParams (Authority m) s, b))
  | _ => None
  end.

#[global] Instance MsgUpdateParams_msg : GoMsg MsgUpdateParams := {|
  msg_zero := mkMsgUpdateParams "" msg_zero;
  msg_Size := MsgUpdateParams_Size;
  msg_MarshalToSizedBuffer := MsgUpdateParams_MarshalToSizedBuffer;
  msg_Unmarshal := unmarshal MsgUpdateParams_switch
|}.

#[global] Instance MsgUpdateParams_schema : Schema MsgUpdateParams := fun m =>
  [(1, FString (Authority m));
   (2, FMsg (fields (Params m)))].

Lemma fees_MsgUpdateParams_consumes : switch_consumes MsgUpdateParams_switch.
Proof. intros l k wt m b r ? E. unfold MsgUpdateParams_switch in E. consumes_fields E. Qed.

#[global] Instance MsgUpdateParams_laws : GoMsgLaws MsgUpdateParams.
Proof.
  apply (own_laws MsgUpdateParams_switch (fun m => msg_wf (Params m))); [done| | |intros m; unfold MsgUpdateParams_switch; knows_fields|apply fees_MsgUpdateParams_consumes].
  - intros m Hm. simpl. unfold MsgUpdateParams_MarshalToSizedBuffer, MsgUpdateParams_Size, MsgUpdateParams_schema. encodes_fields.
  - intros [x1 x2] Hm. reads_start (proto3_field (1, FString x1) ++ proto3_field (2, FMsg (fields x2)) ++ [] : bytes).
    reads_scalar. reads_scalar. apply rd_nil.
Defined.

(** [MsgUpdateParamsResponse]. *)

Record MsgUpdateParamsResponse : Type := mkMsgUpdateParamsResponse { }.

Definition MsgUpdateParamsResponse_Size (m : MsgUpdateParamsResponse) : Z :=
  0.

Definition MsgUpdateParamsResponse_MarshalToSizedBuffer (m : MsgUpdateParamsResponse) (w : writer) : res writer :=
  Ok w.

Definition MsgUpdateParamsResponse_switch (l fieldNum wireType : Z) (m : MsgUpdateParamsResponse) (b : bytes) : option (res (MsgUpdateParamsResponse * bytes)) :=
  match fieldNum with
  | _ => None
  end.

#[global] Instance MsgUpdateParamsResponse_msg : GoMsg MsgUpdateParamsResponse := {|
  msg_zero := mkMsgUpdateParamsResponse;
  msg_Size := MsgUpdateParamsResponse_Size;
  msg_MarshalToSizedBuffer := MsgUpdateParamsResponse_MarshalToSizedBuffer;
  msg_Unmarshal := unmarshal MsgUpdateParamsResponse_switch
|}.

#[global] Instance MsgUpdateParamsResponse_schema : Schema MsgUpdateParamsResponse := fun m =>
  [].

Lemma fees_MsgUpdateParamsResponse_consumes : switch_consumes MsgUpdateParamsResponse_switch.
Proof. intros l k wt m b r ? E. unfold MsgUpdateParamsResponse_switch in E. consumes_fields E. Qed.

#[global] Instance MsgUpdateParamsResponse_laws : GoMsgLaws MsgUpdateParamsResponse.
Proof.
  apply (own_laws MsgUpdateParamsResponse_switch (fun m => True)); [done| | |intros m; unfold MsgUpdateParamsResponse_switch; knows_fields|apply fees_MsgUpdateParamsResponse_consumes].
  - intros m Hm. simpl. unfold MsgUpdateParamsResponse_MarshalToSizedBuffer, MsgUpdateParamsResponse_Size, MsgUpdateParamsResponse_schema. encodes_fields.
  - intros [] Hm. reads_start ([] : bytes).
    apply rd_nil.
Defined.

(** ** types/query.pb.go *)

(** [QueryParamsRequest]. *)

Record QueryParamsRequest : Type := mkQueryParamsRequest { }.

Definition QueryParamsRequest_Size (m : QueryParamsRequest) : Z :=
  0.

Definition QueryParamsRequest_MarshalToSizedBuffer (m : QueryParamsRequest) (w : writer) : res writer :=
  Ok w.

Definition QueryParamsRequest_switch (l fieldNum wireType : Z) (m : QueryParamsRequest) (b : bytes) : option (res (QueryParamsRequest * bytes)) :=
  match fieldNum with
  | _ => None
  end.

#[global] Instance QueryParamsRequest_msg : GoMsg QueryParamsRequest := {|
  msg_zero := mkQueryParamsRequest;
  msg_Size := QueryParamsRequest_Size;
  msg_MarshalToSizedBuffer := QueryParamsRequest_MarshalToSizedBuffer;
  msg_Unmarshal := unmarshal QueryParamsRequest_switch
|}.

#[global] Instance QueryParamsRequest_schema : Schema QueryParamsRequest := fun m =>
  [].

Lemma fees_QueryParamsRequest_consumes : switch_consumes QueryParamsRequest_switch.
Proof. intros l k wt m b r ? E. unfold QueryParamsRequest_switch in E. consumes_fields E. Qed.

#[global] Instance QueryParamsRequest_laws : GoMsgLaws QueryParamsRequest.
Proof.
  apply (own_laws QueryParamsRequest_switch (fun m => True)); [done| | |intros m; unfold QueryParamsRequest_switch; knows_fields|apply fees_QueryParamsRequest_consumes].
  - intros m Hm. simpl. unfold QueryParamsRequest_MarshalToSizedBuffer, QueryParamsRequest_Size, QueryParamsRequest_schema. encodes_fields.
  - intros [] Hm. reads_start ([] : bytes).
    apply rd_nil.
Defined.

(** [QueryParamsResponse]. *)

Record QueryParamsResponse : Type := mkQueryParamsResponse {
  qp_res_Params : FeesParams
}.

Definition QueryParamsResponse_Size (m : QueryParamsResponse) : Z :=
  size_msg (qp_res_Params m).

Definition QueryParamsResponse_MarshalToSizedBuffer (m : QueryParamsResponse) (w : writer) : res writer :=
  wr_msg x0a (qp_res_Params m) w.

Definition QueryParamsResponse_switch (l fieldNum wireType : Z) (m : QueryParamsResponse) (b : bytes) : option (res (QueryParamsResponse * bytes)) :=
  match fieldNum with
  | 1 => Some ('(s, b) ← rd_msg (qp_res_Params m) l wireType b;
      Ok (mkQueryParamsResponse s, b))
  | _ => None
  end.

#[global] Instance QueryParamsResponse_msg : GoMsg QueryParamsResponse := {|
  msg_zero := mkQueryParamsResponse msg_zero;
  msg_Size := QueryParamsResponse_Size;
  msg_MarshalToSizedBuffer := QueryParamsResponse_MarshalToSizedBuffer;
  msg_Unmarshal := unmarshal QueryParamsResponse_switch
|}.

#[global] Instance QueryParamsResponse_schema : Schema QueryParamsResponse := fun m =>
  [(1, FMsg (fields (qp_res_Params m)))].

Lemma fees_QueryParamsResponse_consumes : switch_consumes QueryParamsResponse_switch.
Proof. intros l k wt m b r ? E. unfold QueryParamsResponse_switch in E. consumes_fields E. Qed.

#[global] Instance QueryParamsResponse_laws : GoMsgLaws QueryParamsResponse.
Proof.
  apply (own_laws QueryParamsResponse_switch (fun m => msg_wf (qp_res_Params m))); [done| | |intros m; unfold QueryParamsResponse_switch; knows_fields|apply fees_QueryParamsResponse_consumes].
  - intros m Hm. simpl. unfold QueryParamsResponse_MarshalToSizedBuffer, QueryParamsResponse_Size, QueryParamsResponse_schema. encodes_fields.
  - intros [x1] Hm. reads_start (proto3_field (1, FMsg (fields x1)) ++ [] : bytes).
    reads_scalar. apply rd_nil.
Defined.

End FeesCodec.
