(* ===== verification/OracleCodec.v ===== *)
(** * x/oracle: the wire code of the messages

    [Size], [MarshalToSizedBuffer] and the [switch] of [Unmarshal] of every message of
    x/oracle/types/*.pb.go, each an instance of [GoMsg] with its laws: stored
    messages, transaction messages and their responses, genesis, queries. *)

From S2P Require Import Prelude Sdk World SdkRef Wire OracleTypes Codec Foreign WireMsg.

Open Scope Z_scope.

Section OracleCodec.
Context {T : StdTime} {TL : StdTimeLaws} {TT : StdTimeTotal}.

(** ** types/types.pb.go *)

(** [OracleFeed]. *)

#[global] Instance OracleFeed_msg : GoMsg OracleFeed := {|
  msg_zero := mkOracleFeed "" "" "" 0;
  msg_Size := OracleFeed_Size;
  msg_MarshalToSizedBuffer := OracleFeed_MarshalToSizedBuffer;
  msg_Unmarshal := unmarshal OracleFeed_switch
|}.

Lemma oracle_OracleFeed_consumes : switch_consumes OracleFeed_switch.
Proof. intros l k wt m b r ? E. unfold OracleFeed_switch in E. consumes_fields E. Qed.

#[global] Instance OracleFeed_laws : GoMsgLaws OracleFeed.
Proof.
  apply (own_laws OracleFeed_switch (fun m => - two63 <= of_BlockHeight m < two63)); [done| | |intros m; unfold OracleFeed_switch; knows_fields|apply oracle_OracleFeed_consumes].
  - intros m Hm. simpl. unfold OracleFeed_MarshalToSizedBuffer, OracleFeed_Size, OracleFeed_schema. encodes_fields.
  - intros [x1 x2 x3 x4] Hm. reads_start (proto3_field (1, FString x1) ++ proto3_field (2, FString x2) ++ proto3_field (3, FString x3) ++ proto3_field (4, FInt x4) ++ [] : bytes).
    reads_scalar. reads_scalar. reads_scalar. reads_i64. apply rd_nil.
Defined.

(** [AggregatedPrice]. *)

#[global] Instance AggregatedPrice_msg : GoMsg AggregatedPrice := {|
  msg_zero := mkAggregatedPrice "" "" 0 zero_time;
  msg_Size := AggregatedPrice_Size;
  msg_MarshalToSizedBuffer := AggregatedPrice_MarshalToSizedBuffer;
  msg_Unmarshal := unmarshal AggregatedPrice_switch
|}.

Lemma oracle_AggregatedPrice_consumes : switch_consumes AggregatedPrice_switch.
Proof. intros l k wt m b r ? E. unfold AggregatedPrice_switch in E. consumes_fields E. Qed.

#[global] Instance AggregatedPrice_laws : GoMsgLaws AggregatedPrice.
Proof.
  apply (own_laws AggregatedPrice_switch (fun m => - two63 <= ap_BlockHeight m < two63 /\ time_ok (ap_BlockTime m))); [done| | |intros m; unfold AggregatedPrice_switch; knows_fields|apply oracle_AggregatedPrice_consumes].
  - intros m Hm. simpl. unfold AggregatedPrice_MarshalToSizedBuffer, AggregatedPrice_Size, AggregatedPrice_schema. encodes_fields.
  - intros [x1 x2 x3 x4] Hm. reads_start (proto3_field (1, FString x1) ++ proto3_field (2, FString x2) ++ proto3_field (3, FInt x3) ++ proto3_field (4, FTime x4) ++ [] : bytes).
    reads_scalar. reads_scalar. reads_i64. reads_scalar. apply rd_nil.
Defined.

(** [TWAPEntry]. *)

#[global] Instance TWAPEntry_msg : GoMsg TWAPEntry := {|
  msg_zero := mkTWAPEntry "" "" zero_time;
  msg_Size := TWAPEntry_Size;
  msg_MarshalToSizedBuffer := TWAPEntry_MarshalToSizedBuffer;
  msg_Unmarshal := unmarshal TWAPEntry_switch
|}.

Lemma oracle_TWAPEntry_consumes : switch_consumes TWAPEntry_switch.
Proof. intros l k wt m b r ? E. unfold TWAPEntry_switch in E. consumes_fields E. Qed.

#[global] Instance TWAPEntry_laws : GoMsgLaws TWAPEntry.
Proof.
  apply (own_laws TWAPEntry_switch (fun m => time_ok (te_BlockTime m))); [done| | |intros m; unfold TWAPEntry_switch; knows_fields|apply oracle_TWAPEntry_consumes].
  - intros m Hm. simpl. unfold TWAPEntry_MarshalToSizedBuffer, TWAPEntry_Size, TWAPEntry_schema. encodes_fields.
  - intros [x1 x2 x3] Hm. reads_start (proto3_field (1, FString x1) ++ proto3_field (2, FString x2) ++ proto3_field (3, FTime x3) ++ [] : bytes).
    reads_scalar. reads_scalar. reads_scalar. apply rd_nil.
Defined.

(** [OracleParams]. *)

#[global] Instance OracleParams_msg : GoMsg OracleParams := {|
  msg_zero := mkOracleParams 0 "" "" "" "" 0 "" 0 [];
  msg_Size := OracleParams_Size;
  msg_MarshalToSizedBuffer := OracleParams_MarshalToSizedBuffer;
  msg_Unmarshal := unmarshal OracleParams_switch
|}.

Lemma oracle_OracleParams_consumes : switch_consumes OracleParams_switch.
Proof. intros l k wt m b r ? E. unfold OracleParams_switch in E. consumes_fields E. Qed.

#[global] Instance OracleParams_laws : GoMsgLaws OracleParams.
Proof.
  apply (own_laws OracleParams_switch (fun m => - two63 <= VoteWindow m < two63 /\ - two63 <= MissWindowSize m < two63 /\ - two63 <= MaxPriceAge m < two63)); [done| | |intros m; unfold OracleParams_switch; knows_fields|apply oracle_OracleParams_consumes].
  - intros m Hm. simpl. unfold OracleParams_MarshalToSizedBuffer, OracleParams_Size, OracleParams_schema. encodes_fields.
  - intros [x1 x2 x3 x4 x5 x6 x7 x8 x9] Hm. reads_start (proto3_field (1, FInt x1) ++ proto3_field (2, FString x2) ++ proto3_field (3, FString x3) ++ proto3_field (4, FString x4) ++ proto3_field (5, FString x5) ++ proto3_field (6, FInt x6) ++ proto3_field (7, FString x7) ++ proto3_field (8, FInt x8) ++ proto3_field (9, FStrings x9) ++ [] : bytes).
    reads_i64. reads_scalar. reads_scalar. reads_scalar. reads_scalar. reads_i64. reads_scalar. reads_i64. reads_repeated_strings (fun v => mkOracleParams x1 x2 x3 x4 x5 x6 x7 x8 v). apply rd_nil.
Defined.

(** ** types/genesis.pb.go *)

(** [FeederDelegation]. *)

Definition FeederDelegation_Size (m : FeederDelegation) : Z :=
  size_string (fd_Validator m) + size_string (fd_Feeder m).

Definition FeederDelegation_MarshalToSizedBuffer (m : FeederDelegation) (w : writer) : res writer :=
  w ← wr_string x12 (fd_Feeder m) w;
  wr_string x0a (fd_Validator m) w.

Definition FeederDelegation_switch (l fieldNum wireType : Z) (m : FeederDelegation) (b : bytes) : option (res (FeederDelegation * bytes)) :=
  match fieldNum with
  | 1 => Some ('(s, b) ← rd_string l wireType b;
      Ok (mkFeederDelegation s (fd_Feeder m), b))
  | 2 => Some ('(s, b) ← rd_string l wireType b;
      Ok (mkFeederDelegation (fd_Validator m) s, b))
  | _ => None
  end.

#[global] Instance FeederDelegation_msg : GoMsg FeederDelegation := {|
  msg_zero := mkFeederDelegation "" "";
  msg_Size := FeederDelegation_Size;
  msg_MarshalToSizedBuffer := FeederDelegation_MarshalToSizedBuffer;
  msg_Unmarshal := unmarshal FeederDelegation_switch
|}.

#[global] Instance FeederDelegation_schema : Schema FeederDelegation := fun m =>
  [(1, FString (fd_Validator m));
   (2, FString (fd_Feeder m))].

Lemma oracle_FeederDelegation_consumes : switch_consumes FeederDelegation_switch.
Proof. intros l k wt m b r ? E. unfold FeederDelegation_switch in E. consumes_fields E. Qed.

#[global] Instance FeederDelegation_laws : GoMsgLaws FeederDelegation.
Proof.
  apply (own_laws FeederDelegation_switch (fun m => True)); [done| | |intros m; unfold FeederDelegation_switch; knows_fields|apply oracle_FeederDelegation_consumes].
  - intros m Hm. simpl. unfold FeederDelegation_MarshalToSizedBuffer, FeederDelegation_Size, FeederDelegation_schema. encodes_fields.
  - intros [x1 x2] Hm. reads_start (proto3_field (1, FString x1) ++ proto3_field (2, FString x2) ++ [] : bytes).
    reads_scalar. reads_scalar. apply rd_nil.
Defined.

(** [GenesisState]. *)

Definition GenesisState_Size (m : GenesisState) : Z :=
  size_msg (gs_Params m) + size_msgs (gs_Prices m) + size_msgs (gs_Feeders m).

Definition GenesisState_MarshalToSizedBuffer (m : GenesisState) (w : writer) : res writer :=
  w ← wr_msgs x1a (gs_Feeders m) w;
  w ← wr_msgs x12 (gs_Prices m) w;
  wr_msg x0a (gs_Params m) w.

Definition GenesisState_switch (l fieldNum wireType : Z) (m : GenesisState) (b : bytes) : option (res (GenesisState * bytes)) :=
  match fieldNum with
  | 1 => Some ('(s, b) ← rd_msg (gs_Params m) l wireType b;
      Ok (mkGenesisState s (gs_Prices m) (gs_Feeders m), b))
  | 2 => Some ('(s, b) ← rd_msg msg_zero l wireType b;
      Ok (mkGenesisState (gs_Params m) (gs_Prices m ++ [s]) (gs_Feeders m), b))
  | 3 => Some ('(s, b) ← rd_msg msg_zero l wireType b;
      Ok (mkGenesisState (gs_Params m) (gs_Prices m) (gs_Feeders m ++ [s]), b))
  | _ => None
  end.

#[global] Instance GenesisState_msg : GoMsg GenesisState := {|
  msg_zero := mkGenesisState msg_zero [] [];
  msg_Size := GenesisState_Size;
  msg_MarshalToSizedBuffer := GenesisState_MarshalToSizedBuffer;
  msg_Unmarshal := unmarshal GenesisState_switch
|}.

#[global] Instance GenesisState_schema : Schema GenesisState := fun m =>
  [(1, FMsg (fields (gs_Params m)));
   (2, FMsgs (fields <$> (gs_Prices m)));
   (3, FMsgs (fields <$> (gs_Feeders m)))].

Lemma oracle_GenesisState_consumes : switch_consumes GenesisState_switch.
Proof. intros l k wt m b r ? E. unfold GenesisState_switch in E. consumes_fields E. Qed.

#[global] Instance GenesisState_laws : GoMsgLaws GenesisState.
Proof.
  apply (own_laws GenesisState_switch (fun m => msg_wf (gs_Params m) /\ Forall msg_wf (gs_Prices m) /\ Forall msg_wf (gs_Feeders m))); [done| | |intros m; unfold GenesisState_switch; knows_fields|apply oracle_GenesisState_consumes].
  - intros m Hm. simpl. unfold GenesisState_MarshalToSizedBuffer, GenesisState_Size, GenesisState_schema. encodes_fields.
  - intros [x1 x2 x3] Hm. reads_start (proto3_field (1, FMsg (fields x1)) ++ proto3_field (2, FMsgs (fields <$> x2)) ++ proto3_field (3, FMsgs (fields <$> x3)) ++ [] : bytes).
    reads_scalar. reads_repeated (fun v => mkGenesisState x1 v []). reads_repeated (fun v => mkGenesisState x1 x2 v). apply rd_nil.
Defined.

(** ** types/tx.pb.go *)

(** [MsgSetFeeder]. *)

Definition MsgSetFeeder_Size (m : MsgSetFeeder) : Z :=
  size_string (sf_Validator m) + size_string (sf_Feeder m).

Definition MsgSetFeeder_MarshalToSizedBuffer (m : MsgSetFeeder) (w : writer) : res writer :=
  w ← wr_string x12 (sf_Feeder m) w;
  wr_string x0a (sf_Validator m) w.

Definition MsgSetFeeder_switch (l fieldNum wireType : Z) (m : MsgSetFeeder) (b : bytes) : option (res (MsgSetFeeder * bytes)) :=
  match fieldNum with
  | 1 => Some ('(s, b) ← rd_string l wireType b;
      Ok (mkMsgSetFeeder s (sf_Feeder m), b))
  | 2 => Some ('(s, b) ← rd_string l wireType b;
      Ok (mkMsgSetFeeder (sf_Validator m) s, b))
  | _ => None
  end.

#[global] Instance MsgSetFeeder_msg : GoMsg MsgSetFeeder := {|
  msg_zero := mkMsgSetFeeder "" "";
  msg_Size := MsgSetFeeder_Size;
  msg_MarshalToSizedBuffer := MsgSetFeeder_MarshalToSizedBuffer;
  msg_Unmarshal := unmarshal MsgSetFeeder_switch
|}.

#[global] Instance MsgSetFeeder_schema : Schema MsgSetFeeder := fun m =>
  [(1, FString (sf_Validator m));
   (2, FString (sf_Feeder m))].

Lemma oracle_MsgSetFeeder_consumes : switch_consumes MsgSetFeeder_switch.
Proof. intros l k wt m b r ? E. unfold MsgSetFeeder_switch in E. consumes_fields E. Qed.

#[global] Instance MsgSetFeeder_laws : GoMsgLaws MsgSetFeeder.
Proof.
  apply (own_laws MsgSetFeeder_switch (fun m => True)); [done| | |intros m; unfold MsgSetFeeder_switch; knows_fields|apply oracle_MsgSetFeeder_consumes].
  - intros m Hm. simpl. unfold MsgSetFeeder_MarshalToSizedBuffer, MsgSetFeeder_Size, MsgSetFeeder_schema. encodes_fields.
  - intros [x1 x2] Hm. reads_start (proto3_field (1, FString x1) ++ proto3_field (2, FString x2) ++ [] : bytes).
    reads_scalar. reads_scalar. apply rd_nil.
Defined.

(** [MsgSetFeederResponse]. *)

Record MsgSetFeederResponse : Type := mkMsgSetFeederResponse { }.

Definition MsgSetFeederResponse_Size (m : MsgSetFeederResponse) : Z :=
  0.

Definition MsgSetFeederResponse_MarshalToSizedBuffer (m : MsgSetFeederResponse) (w : writer) : res writer :=
  Ok w.

Definition MsgSetFeederResponse_switch (l fieldNum wireType : Z) (m : MsgSetFeederResponse) (b : bytes) : option (res (MsgSetFeederResponse * bytes)) :=
  match fieldNum with
  | _ => None
  end.

#[global] Instance MsgSetFeederResponse_msg : GoMsg MsgSetFeederResponse := {|
  msg_zero := mkMsgSetFeederResponse;
  msg_Size := MsgSetFeederResponse_Size;
  msg_MarshalToSizedBuffer := MsgSetFeederResponse_MarshalToSizedBuffer;
  msg_Unmarshal := unmarshal MsgSetFeederResponse_switch
|}.

#[global] Instance MsgSetFeederResponse_schema : Schema MsgSetFeederResponse := fun m =>
  [].

Lemma oracle_MsgSetFeederResponse_consumes : switch_consumes MsgSetFeederResponse_switch.
Proof. intros l k wt m b r ? E. unfold MsgSetFeederResponse_switch in E. consumes_fields E. Qed.

#[global] Instance MsgSetFeederResponse_laws : GoMsgLaws MsgSetFeederResponse.
Proof.
  apply (own_laws MsgSetFeederResponse_switch (fun m => True)); [done| | |intros m; unfold MsgSetFeederResponse_switch; knows_fields|apply oracle_MsgSetFeederResponse_consumes].
  - intros m Hm. simpl. unfold MsgSetFeederResponse_MarshalToSizedBuffer, MsgSetFeederResponse_Size, MsgSetFeederResponse_schema. encodes_fields.
  - intros [] Hm. reads_start ([] : bytes).
    apply rd_nil.
Defined.

(** [MsgSubmitFeed]. *)

Definition MsgSubmitFeed_Size (m : MsgSubmitFeed) : Z :=
  size_string (ms_Feeder m) + size_string (ms_Validator m) + size_string (ms_Pair m) + size_string (ms_Price m).

Definition MsgSubmitFeed_MarshalToSizedBuffer (m : MsgSubmitFeed) (w : writer) : res writer :=
  w ← wr_string x22 (ms_Price m) w;
  w ← wr_string x1a (ms_Pair m) w;
  w ← wr_string x12 (ms_Validator m) w;
  wr_string x0a (ms_Feeder m) w.

Definition MsgSubmitFeed_switch (l fieldNum wireType : Z) (m : MsgSubmitFeed) (b : bytes) : option (res (MsgSubmitFeed * bytes)) :=
  match fieldNum with
  | 1 => Some ('(s, b) ← rd_string l wireType b;
      Ok (mkMsgSubmitFeed s (ms_Validator m) (ms_Pair m) (ms_Price m), b))
  | 2 => Some ('(s, b) ← rd_string l wireType b;
      Ok (mkMsgSubmitFeed (ms_Feeder m) s (ms_Pair m) (ms_Price m), b))
  | 3 => Some ('(s, b) ← rd_string l wireType b;
      Ok (mkMsgSubmitFeed (ms_Feeder m) (ms_Validator m) s (ms_Price m), b))
  | 4 => Some ('(s, b) ← rd_string l wireType b;
      Ok (mkMsgSubmitFeed (ms_Feeder m) (ms_Validator m) (ms_Pair m) s, b))
  | _ => None
  end.

#[global] Instance MsgSubmitFeed_msg : GoMsg MsgSubmitFeed := {|
  msg_zero := mkMsgSubmitFeed "" "" "" "";
  msg_Size := MsgSubmitFeed_Size;
  msg_MarshalToSizedBuffer := MsgSubmitFeed_MarshalToSizedBuffer;
  msg_Unmarshal := unmarshal MsgSubmitFeed_switch
|}.

#[global] Instance MsgSubmitFeed_schema : Schema MsgSubmitFeed := fun m =>
  [(1, FString (ms_Feeder m));
   (2, FString (ms_Validator m));
   (3, FString (ms_Pair m));
   (4, FString (ms_Price m))].

Lemma oracle_MsgSubmitFeed_consumes : switch_consumes MsgSubmitFeed_switch.
Proof. intros l k wt m b r ? E. unfold MsgSubmitFeed_switch in E. consumes_fields E. Qed.

#[global] Instance MsgSubmitFeed_laws : GoMsgLaws MsgSubmitFeed.
Proof.
  apply (own_laws MsgSubmitFeed_switch (fun m => True)); [done| | |intros m; unfold MsgSubmitFeed_switch; knows_fields|apply oracle_MsgSubmitFeed_consumes].
  - intros m Hm. simpl. unfold MsgSubmitFeed_MarshalToSizedBuffer, MsgSubmitFeed_Size, MsgSubmitFeed_schema. encodes_fields.
  - intros [x1 x2 x3 x4] Hm. reads_start (proto3_field (1, FString x1) ++ proto3_field (2, FString x2) ++ proto3_field (3, FString x3) ++ proto3_field (4, FString x4) ++ [] : bytes).
    reads_scalar. reads_scalar. reads_scalar. reads_scalar. apply rd_nil.
Defined.

(** [MsgSubmitFeedResponse]. *)

Record MsgSubmitFeedResponse : Type := mkMsgSubmitFeedResponse { }.

Definition MsgSubmitFeedResponse_Size (m : MsgSubmitFeedResponse) : Z :=
  0.

Definition MsgSubmitFeedResponse_MarshalToSizedBuffer (m : MsgSubmitFeedResponse) (w : writer) : res writer :=
  Ok w.

Definition MsgSubmitFeedResponse_switch (l fieldNum wireType : Z) (m : MsgSubmitFeedResponse) (b : bytes) : option (res (MsgSubmitFeedResponse * bytes)) :=
  match fieldNum with
  | _ => None
  end.

#[global] Instance MsgSubmitFeedResponse_msg : GoMsg MsgSubmitFeedResponse := {|
  msg_zero := mkMsgSubmitFeedResponse;
  msg_Size := MsgSubmitFeedResponse_Size;
  msg_MarshalToSizedBuffer := MsgSubmitFeedResponse_MarshalToSizedBuffer;
  msg_Unmarshal := unmarshal MsgSubmitFeedResponse_switch
|}.

#[global] Instance MsgSubmitFeedResponse_schema : Schema MsgSubmitFeedResponse := fun m =>
  [].

Lemma oracle_MsgSubmitFeedResponse_consumes : switch_consumes MsgSubmitFeedResponse_switch.
Proof. intros l k wt m b r ? E. unfold MsgSubmitFeedResponse_switch in E. consumes_fields E. Qed.

#[global] Instance MsgSubmitFeedResponse_laws : GoMsgLaws MsgSubmitFeedResponse.
Proof.
  apply (own_laws MsgSubmitFeedResponse_switch (fun m => True)); [done| | |intros m; unfold MsgSubmitFeedResponse_switch; knows_fields|apply oracle_MsgSubmitFeedResponse_consumes].
  - intros m Hm. simpl. unfold MsgSubmitFeedResponse_MarshalToSizedBuffer, MsgSubmitFeedResponse_Size, MsgSubmitFeedResponse_schema. encodes_fields.
  - intros [] Hm. reads_start ([] : bytes).
    apply rd_nil.
Defined.

(** [MsgUpdateParams]. *)

Definition MsgUpdateParams_Size (m : MsgUpdateParams) : Z :=
  size_string (Authority m) + size_msg (Params m).

Definition MsgUpdateParams_MarshalToSizedBuffer (m : MsgUpdateParams) (w : writer) : res writer :=
  w ← wr_msg x12 (Params m) w;
  wr_string x0a (Authority m) w.

Definition MsgUpdateParams_switch (l fieldNum wireType : Z) (m : MsgUpdateParams) (b : bytes) : option (res (MsgUpdateParams * bytes)) :=
  match fieldNum with
  | 1 => Some ('(s, b) ← rd_string l wireType b;
      Ok (mkMsgUpdateParams s (Params m), b))
  | 2 => Some ('(s, b) ← rd_msg (Params m) l wireType b;
      Ok (mkMsgUpdateParams (Authority m) s, b))
  | _ => None
  end.

#[global] Instance MsgUpdateParams_msg : GoMsg MsgUpdateParams := {|
  msg_zero := mkMsgUpdateParams "" msg_zero;
  msg_Size := MsgUpdateParams_Size;
  msg_MarshalToSizedBuffer := MsgUpdateParams_MarshalToSizedBuffer;
  msg_Unmarshal := unmarshal MsgUpdateParams_switch
|}.

#[global] Instance MsgUpdateParams_schema : Schema MsgUpdateParams := fun m =>
  [(1, FString (Authority m));
   (2, FMsg (fields (Params m)))].

Lemma oracle_MsgUpdateParams_consumes : switch_consumes MsgUpdateParams_switch.
Proof. intros l k wt m b r ? E. unfold MsgUpdateParams_switch in E. consumes_fields E. Qed.

#[global] Instance MsgUpdateParams_laws : GoMsgLaws MsgUpdateParams.
Proof.
  apply (own_laws MsgUpdateParams_switch (fun m => msg_wf (Params m))); [done| | |intros m; unfold MsgUpdateParams_switch; knows_fields|apply oracle_MsgUpdateParams_consumes].
  - intros m Hm. simpl. unfold MsgUpdateParams_MarshalToSizedBuffer, MsgUpdateParams_Size, MsgUpdateParams_schema. encodes_fields.
  - intros [x1 x2] Hm. reads_start (proto3_field (1, FString x1) ++ proto3_field (2, FMsg (fields x2)) ++ [] : bytes).
    reads_scalar. reads_scalar. apply rd_nil.
Defined.

(** [MsgUpdateParamsResponse]. *)

Record MsgUpdateParamsResponse : Type := mkMsgUpdateParamsResponse { }.

Definition MsgUpdateParamsResponse_Size (m : MsgUpdateParamsResponse) : Z :=
  0.

Definition MsgUpdateParamsResponse_MarshalToSizedBuffer (m : MsgUpdateParamsResponse) (w : writer) : res writer :=
  Ok w.

Definition MsgUpdateParamsResponse_switch (l fieldNum wireType : Z) (m : MsgUpdateParamsResponse) (b : bytes) : option (res (MsgUpdateParamsResponse * bytes)) :=
  match fieldNum with
  | _ => None
  end.

#[global] Instance MsgUpdateParamsResponse_msg : GoMsg MsgUpdateParamsResponse := {|
  msg_zero := mkMsgUpdateParamsResponse;
  msg_Size := MsgUpdateParamsResponse_Size;
  msg_MarshalToSizedBuffer := MsgUpdateParamsResponse_MarshalToSizedBuffer;
  msg_Unmarshal := unmarshal MsgUpdateParamsResponse_switch
|}.

#[global] Instance MsgUpdateParamsResponse_schema : Schema MsgUpdateParamsResponse := fun m =>
  [].

Lemma oracle_MsgUpdateParamsResponse_consumes : switch_consumes MsgUpdateParamsResponse_switch.
Proof. intros l k wt m b r ? E. unfold MsgUpdateParamsResponse_switch in E. consumes_fields E. Qed.

#[global] Instance MsgUpdateParamsResponse_laws : GoMsgLaws MsgUpdateParamsResponse.
Proof.
  apply (own_laws MsgUpdateParamsResponse_switch (fun m => True)); [done| | |intros m; unfold MsgUpdateParamsResponse_switch; knows_fields|apply oracle_MsgUpdateParamsResponse_consumes].
  - intros m Hm. simpl. unfold MsgUpdateParamsResponse_MarshalToSizedBuffer, MsgUpdateParamsResponse_Size, MsgUpdateParamsResponse_schema. encodes_fields.
  - intros [] Hm. reads_start ([] : bytes).
    apply rd_nil.
Defined.

(** ** types/query.pb.go *)

(** [QueryPriceRequest]. *)

Record QueryPriceRequest : Type := mkQueryPriceRequest {
  qp_req_Pair : string
}.

Definition QueryPriceRequest_Size (m : QueryPriceRequest) : Z :=
  size_string (qp_req_Pair m).

Definition QueryPriceRequest_MarshalToSizedBuffer (m : QueryPriceRequest) (w : writer) : res writer :=
  wr_string x0a (qp_req_Pair m) w.

Definition QueryPriceRequest_switch (l fieldNum wireType : Z) (m : QueryPriceRequest) (b : bytes) : option (res (QueryPriceRequest * bytes)) :=
  match fieldNum with
  | 1 => Some ('(s, b) ← rd_string l wireType b;
      Ok (mkQueryPriceRequest s, b))
  | _ => None
  end.

#[global] Instance QueryPriceRequest_msg : GoMsg QueryPriceRequest := {|
  msg_zero := mkQueryPriceRequest "";
  msg_Size := QueryPriceRequest_Size;
  msg_MarshalToSizedBuffer := QueryPriceRequest_MarshalToSizedBuffer;
  msg_Unmarshal := unmarshal QueryPriceRequest_switch
|}.

#[global] Instance QueryPriceRequest_schema : Schema QueryPriceRequest := fun m =>
  [(1, FString (qp_req_Pair m))].

Lemma oracle_QueryPriceRequest_consumes : switch_consumes QueryPriceRequest_switch.
Proof. intros l k wt m b r ? E. unfold QueryPriceRequest_switch in E. consumes_fields E. Qed.

#[global] Instance QueryPriceRequest_laws : GoMsgLaws QueryPriceRequest.
Proof.
  apply (own_laws QueryPriceRequest_switch (fun m => True)); [done| | |intros m; unfold QueryPriceRequest_switch; knows_fields|apply oracle_QueryPriceRequest_consumes].
  - intros m Hm. simpl. unfold QueryPriceRequest_MarshalToSizedBuffer, QueryPriceRequest_Size, QueryPriceRequest_schema. encodes_fields.
  - intros [x1] Hm. reads_start (proto3_field (1, FString x1) ++ [] : bytes).
    reads_scalar. apply rd_nil.
Defined.

(** [QueryPriceResponse]. *)

Record QueryPriceResponse : Type := mkQueryPriceResponse {
  qp_res_Price : AggregatedPrice
}.

Definition QueryPriceResponse_Size (m : QueryPriceResponse) : Z :=
  size_msg (qp_res_Price m).

Definition QueryPriceResponse_MarshalToSizedBuffer (m : QueryPriceResponse) (w : writer) : res writer :=
  wr_msg x0a (qp_res_Price m) w.

Definition QueryPriceResponse_switch (l fieldNum wireType : Z) (m : QueryPriceResponse) (b : bytes) : option (res (QueryPriceResponse * bytes)) :=
  match fieldNum with
  | 1 => Some ('(s, b) ← rd_msg (qp_res_Price m) l wireType b;
      Ok (mkQueryPriceResponse s, b))
  | _ => None
  end.

#[global] Instance QueryPriceResponse_msg : GoMsg QueryPriceResponse := {|
  msg_zero := mkQueryPriceResponse msg_zero;
  msg_Size := QueryPriceResponse_Size;
  msg_MarshalToSizedBuffer := QueryPriceResponse_MarshalToSizedBuffer;
  msg_Unmarshal := unmarshal QueryPriceResponse_switch
|}.

#[global] Instance QueryPriceResponse_schema : Schema QueryPriceResponse := fun m =>
  [(1, FMsg (fields (qp_res_Price m)))].

Lemma oracle_QueryPriceResponse_consumes : switch_consumes QueryPriceResponse_switch.
Proof. intros l k wt m b r ? E. unfold QueryPriceResponse_switch in E. consumes_fields E. Qed.

#[global] Instance QueryPriceResponse_laws : GoMsgLaws QueryPriceResponse.
Proof.
  apply (own_laws QueryPriceResponse_switch (fun m => msg_wf (qp_res_Price m))); [done| | |intros m; unfold QueryPriceResponse_switch; knows_fields|apply oracle_QueryPriceResponse_consumes].
  - intros m Hm. simpl. unfold QueryPriceResponse_MarshalToSizedBuffer, QueryPriceResponse_Size, QueryPriceResponse_schema. encodes_fields.
  - intros [x1] Hm. reads_start (proto3_field (1, FMsg (fields x1)) ++ [] : bytes).
    reads_scalar. apply rd_nil.
Defined.

(** [QueryTwapRequest]. *)

Record QueryTwapRequest : Type := mkQueryTwapRequest {
  qt_req_Pair : string;
  qt_req_WindowSeconds : Z
}.

Definition QueryTwapRequest_Size (m : QueryTwapRequest) : Z :=
  size_string (qt_req_Pair m) + size_int (qt_req_WindowSeconds m).

Definition QueryTwapRequest_MarshalToSizedBuffer (m : QueryTwapRequest) (w : writer) : res writer :=
  w ← wr_int x10 (qt_req_WindowSeconds m) w;
  wr_string x0a (qt_req_Pair m) w.

Definition QueryTwapRequest_switch (l fieldNum wireType : Z) (m : QueryTwapRequest) (b : bytes) : option (res (QueryTwapRequest * bytes)) :=
  match fieldNum with
  | 1 => Some ('(s, b) ← rd_string l wireType b;
      Ok (mkQueryTwapRequest s (qt_req_WindowSeconds m), b))
  | 2 => Some ('(s, b) ← rd_uint64 wireType b;
      Ok (mkQueryTwapRequest (qt_req_Pair m) s, b))
  | _ => None
  end.

#[global] Instance QueryTwapRequest_msg : GoMsg QueryTwapRequest := {|
  msg_zero := mkQueryTwapRequest "" 0;
  msg_Size := QueryTwapRequest_Size;
  msg_MarshalToSizedBuffer := QueryTwapRequest_MarshalToSizedBuffer;
  msg_Unmarshal := unmarshal QueryTwapRequest_switch
|}.

#[global] Instance QueryTwapRequest_schema : Schema QueryTwapRequest := fun m =>
  [(1, FString (qt_req_Pair m));
   (2, FInt (qt_req_WindowSeconds m))].

Lemma oracle_QueryTwapRequest_consumes : switch_consumes QueryTwapRequest_switch.
Proof. intros l k wt m b r ? E. unfold QueryTwapRequest_switch in E. consumes_fields E. Qed.

#[global] Instance QueryTwapRequest_laws : GoMsgLaws QueryTwapRequest.
Proof.
  apply (own_laws QueryTwapRequest_switch (fun m => 0 <= qt_req_WindowSeconds m < two64)); [done| | |intros m; unfold QueryTwapRequest_switch; knows_fields|apply oracle_QueryTwapRequest_consumes].
  - intros m Hm. simpl. unfold QueryTwapRequest_MarshalToSizedBuffer, QueryTwapRequest_Size, QueryTwapRequest_schema. encodes_fields.
  - intros [x1 x2] Hm. reads_start (proto3_field (1, FString x1) ++ proto3_field (2, FInt x2) ++ [] : bytes).
    reads_scalar. reads_u64. apply rd_nil.
Defined.

(** [QueryParamsRequest]. *)

Record QueryParamsRequest : Type := mkQueryParamsRequest { }.

Definition QueryParamsRequest_Size (m : QueryParamsRequest) : Z :=
  0.

Definition QueryParamsRequest_MarshalToSizedBuffer (m : QueryParamsRequest) (w : writer) : res writer :=
  Ok w.

Definition QueryParamsRequest_switch (l fieldNum wireType : Z) (m : QueryParamsRequest) (b : bytes) : option (res (QueryParamsRequest * bytes)) :=
  match fieldNum with
  | _ => None
  end.

#[global] Instance QueryParamsRequest_msg : GoMsg QueryParamsRequest := {|
  msg_zero := mkQueryParamsRequest;
  msg_Size := QueryParamsRequest_Size;
  msg_MarshalToSizedBuffer := QueryParamsRequest_MarshalToSizedBuffer;
  msg_Unmarshal := unmarshal QueryParamsRequest_switch
|}.

#[global] Instance QueryParamsRequest_schema : Schema QueryParamsRequest := fun m =>
  [].

Lemma oracle_QueryParamsRequest_consumes : switch_consumes QueryParamsRequest_switch.
Proof. intros l k wt m b r ? E. unfold QueryParamsRequest_switch in E. consumes_fields E. Qed.

#[global] Instance QueryParamsRequest_laws : GoMsgLaws QueryParamsRequest.
Proof.
  apply (own_laws QueryParamsRequest_switch (fun m => True)); [done| | |intros m; unfold QueryParamsRequest_switch; knows_fields|apply oracle_QueryParamsRequest_consumes].
  - intros m Hm. simpl. unfold QueryParamsRequest_MarshalToSizedBuffer, QueryParamsRequest_Size, QueryParamsRequest_schema. encodes_fields.
  - intros [] Hm. reads_start ([] : bytes).
    apply rd_nil.
Defined.

(** [QueryParamsResponse]. *)

Record QueryParamsResponse : Type := mkQueryParamsResponse {
  qp_res_Params : OracleParams
}.

Definition QueryParamsResponse_Size (m : QueryParamsResponse) : Z :=
  size_msg (qp_res_Params m).

Definition QueryParamsResponse_MarshalToSizedBuffer (m : QueryParamsResponse) (w : writer) : res writer :=
  wr_msg x0a (qp_res_Params m) w.

Definition QueryParamsResponse_switch (l fieldNum wireType : Z) (m : QueryParamsResponse) (b : bytes) : option (res (QueryParamsResponse * bytes)) :=
  match fieldNum with
  | 1 => Some ('(s, b) ← rd_msg (qp_res_Params m) l wireType b;
      Ok (mkQueryParamsResponse s, b))
  | _ => None
  end.

#[global] Instance QueryParamsResponse_msg : GoMsg QueryParamsResponse := {|
  msg_zero := mkQueryParamsResponse msg_zero;
  msg_Size := QueryParamsResponse_Size;
  msg_MarshalToSizedBuffer := QueryParamsResponse_MarshalToSizedBuffer;
  msg_Unmarshal := unmarshal QueryParamsResponse_switch
|}.

#[global] Instance QueryParamsResponse_schema : Schema QueryParamsResponse := fun m =>
  [(1, FMsg (fields (qp_res_Params m)))].

Lemma oracle_QueryParamsResponse_consumes : switch_consumes QueryParamsResponse_switch.
Proof. intros l k wt m b r ? E. unfold QueryParamsResponse_switch in E. consumes_fields E. Qed.

#[global] Instance QueryParamsResponse_laws : GoMsgLaws QueryParamsResponse.
Proof.
  apply (own_laws QueryParamsResponse_switch (fun m => msg_wf (qp_res_Params m))); [done| | |intros m; unfold QueryParamsResponse_switch; knows_fields|apply oracle_QueryParamsResponse_consumes].
  - intros m Hm. simpl. unfold QueryParamsResponse_MarshalToSizedBuffer, QueryParamsResponse_Size, QueryParamsResponse_schema. encodes_fields.
  - intros [x1] Hm. reads_start (proto3_field (1, FMsg (fields x1)) ++ [] : bytes).
    reads_scalar. apply rd_nil.
Defined.

(** [QueryMissCounterRequest]. *)

Record QueryMissCounterRequest : Type := mkQueryMissCounterRequest {
  qmc_req_Validator : string
}.

Definition QueryMissCounterRequest_Size (m : QueryMissCounterRequest) : Z :=
  size_string (qmc_req_Validator m).

Definition QueryMissCounterRequest_MarshalToSizedBuffer (m : QueryMissCounterRequest) (w : writer) : res writer :=
  wr_string x0a (qmc_req_Validator m) w.

Definition QueryMissCounterRequest_switch (l fieldNum wireType : Z) (m : QueryMissCounterRequest) (b : bytes) : option (res (QueryMissCounterRequest * bytes)) :=
  match fieldNum with
  | 1 => Some ('(s, b) ← rd_string l wireType b;
      Ok (mkQueryMissCounterRequest s, b))
  | _ => None
  end.

#[global] Instance QueryMissCounterRequest_msg : GoMsg QueryMissCounterRequest := {|
  msg_zero := mkQueryMissCounterRequest "";
  msg_Size := QueryMissCounterRequest_Size;
  msg_MarshalToSizedBuffer := QueryMissCounterRequest_MarshalToSizedBuffer;
  msg_Unmarshal := unmarshal QueryMissCounterRequest_switch
|}.

#[global] Instance QueryMissCounterRequest_schema : Schema QueryMissCounterRequest := fun m =>
  [(1, FString (qmc_req_Validator m))].

Lemma oracle_QueryMissCounterRequest_consumes : switch_consumes QueryMissCounterRequest_switch.
Proof. intros l k wt m b r ? E. unfold QueryMissCounterRequest_switch in E. consumes_fields E. Qed.

#[global] Instance QueryMissCounterRequest_laws : GoMsgLaws QueryMissCounterRequest.
Proof.
  apply (own_laws QueryMissCounterRequest_switch (fun m => True)); [done| | |intros m; unfold QueryMissCounterRequest_switch; knows_fields|apply oracle_QueryMissCounterRequest_consumes].
  - intros m Hm. simpl. unfold QueryMissCounterRequest_MarshalToSizedBuffer, QueryMissCounterRequest_Size, QueryMissCounterRequest_schema. encodes_fields.
  - intros [x1] Hm. reads_start (proto3_field (1, FString x1) ++ [] : bytes).
    reads_scalar. apply rd_nil.
Defined.

(** [QueryMissCounterResponse]. *)

Record QueryMissCounterResponse : Type := mkQueryMissCounterResponse {
  qmc_res_Misses : Z;
  qmc_res_TotalWindows : Z
}.

Definition QueryMissCounterResponse_Size (m : QueryMissCounterResponse) : Z :=
  size_int (qmc_res_Misses m) + size_int (qmc_res_TotalWindows m).

Definition QueryMissCounterResponse_MarshalToSizedBuffer (m : QueryMissCounterResponse) (w : writer) : res writer :=
  w ← wr_int x10 (qmc_res_TotalWindows m) w;
  wr_int x08 (qmc_res_Misses m) w.

Definition QueryMissCounterResponse_switch (l fieldNum wireType : Z) (m : QueryMissCounterResponse) (b : bytes) : option (res (QueryMissCounterResponse * bytes)) :=
  match fieldNum with
  | 1 => Some ('(s, b) ← rd_int64 wireType b;
      Ok (mkQueryMissCounterResponse s (qmc_res_TotalWindows m), b))
  | 2 => Some ('(s, b) ← rd_int64 wireType b;
      Ok (mkQueryMissCounterResponse (qmc_res_Misses m) s, b))
  | _ => None
  end.

#[global] Instance QueryMissCounterResponse_msg : GoMsg QueryMissCounterResponse := {|
  msg_zero := mkQueryMissCounterResponse 0 0;
  msg_Size := QueryMissCounterResponse_Size;
  msg_MarshalToSizedBuffer := QueryMissCounterResponse_MarshalToSizedBuffer;
  msg_Unmarshal := unmarshal QueryMissCounterResponse_switch
|}.

#[global] Instance QueryMissCounterResponse_schema : Schema QueryMissCounterResponse := fun m =>
  [(1, FInt (qmc_res_Misses m));
   (2, FInt (qmc_res_TotalWindows m))].

Lemma oracle_QueryMissCounterResponse_consumes : switch_consumes QueryMissCounterResponse_switch.
Proof. intros l k wt m b r ? E. unfold QueryMissCounterResponse_switch in E. consumes_fields E. Qed.

#[global] Instance QueryMissCounterResponse_laws : GoMsgLaws QueryMissCounterResponse.
Proof.
  apply (own_laws QueryMissCounterResponse_switch (fun m => - two63 <= qmc_res_Misses m < two63 /\ - two63 <= qmc_res_TotalWindows m < two63)); [done| | |intros m; unfold QueryMissCounterResponse_switch; knows_fields|apply oracle_QueryMissCounterResponse_consumes].
  - intros m Hm. simpl. unfold QueryMissCounterResponse_MarshalToSizedBuffer, QueryMissCounterResponse_Size, QueryMissCounterResponse_schema. encodes_fields.
  - intros [x1 x2] Hm. reads_start (proto3_field (1, FInt x1) ++ proto3_field (2, FInt x2) ++ [] : bytes).
    reads_i64. reads_i64. apply rd_nil.
Defined.

(** [QueryFeederRequest]. *)

Record QueryFeederRequest : Type := mkQueryFeederRequest {
  qf_req_Validator : string
}.

Definition QueryFeederRequest_Size (m : QueryFeederRequest) : Z :=
  size_string (qf_req_Validator m).

Definition QueryFeederRequest_MarshalToSizedBuffer (m : QueryFeederRequest) (w : writer) : res writer :=
  wr_string x0a (qf_req_Validator m) w.

Definition QueryFeederRequest_switch (l fieldNum wireType : Z) (m : QueryFeederRequest) (b : bytes) : option (res (QueryFeederRequest * bytes)) :=
  match fieldNum with
  | 1 => Some ('(s, b) ← rd_string l wireType b;
      Ok (mkQueryFeederRequest s, b))
  | _ => None
  end.

#[global] Instance QueryFeederRequest_msg : GoMsg QueryFeederRequest := {|
  msg_zero := mkQueryFeederRequest "";
  msg_Size := QueryFeederRequest_Size;
  msg_MarshalToSizedBuffer := QueryFeederRequest_MarshalToSizedBuffer;
  msg_Unmarshal := unmarshal QueryFeederRequest_switch
|}.

#[global] Instance QueryFeederRequest_schema : Schema QueryFeederRequest := fun m =>
  [(1, FString (qf_req_Validator m))].

Lemma oracle_QueryFeederRequest_consumes : switch_consumes QueryFeederRequest_switch.
Proof. intros l k wt m b r ? E. unfold QueryFeederRequest_switch in E. consumes_fields E. Qed.

#[global] Instance QueryFeederRequest_laws : GoMsgLaws QueryFeederRequest.
Proof.
  apply (own_laws QueryFeederRequest_switch (fun m => True)); [done| | |intros m; unfold QueryFeederRequest_switch; knows_fields|apply oracle_QueryFeederRequest_consumes].
  - intros m Hm. simpl. unfold QueryFeederRequest_MarshalToSizedBuffer, QueryFeederRequest_Size, QueryFeederRequest_schema. encodes_fields.
  - intros [x1] Hm. reads_start (proto3_field (1, FString x1) ++ [] : bytes).
    reads_scalar. apply rd_nil.
Defined.

(** [QueryFeederResponse]. *)

Record QueryFeederResponse : Type := mkQueryFeederResponse {
  qf_res_Feeder : string
}.

Definition QueryFeederResponse_Size (m : QueryFeederResponse) : Z :=
  size_string (qf_res_Feeder m).

Definition QueryFeederResponse_MarshalToSizedBuffer (m : QueryFeederResponse) (w : writer) : res writer :=
  wr_string x0a (qf_res_Feeder m) w.

Definition QueryFeederResponse_switch (l fieldNum wireType : Z) (m : QueryFeederResponse) (b : bytes) : option (res (QueryFeederResponse * bytes)) :=
  match fieldNum with
  | 1 => Some ('(s, b) ← rd_string l wireType b;
      Ok (mkQueryFeederResponse s, b))
  | _ => None
  end.

#[global] Instance QueryFeederResponse_msg : GoMsg QueryFeederResponse := {|
  msg_zero := mkQueryFeederResponse "";
  msg_Size := QueryFeederResponse_Size;
  msg_MarshalToSizedBuffer := QueryFeederResponse_MarshalToSizedBuffer;
  msg_Unmarshal := unmarshal QueryFeederResponse_switch
|}.

#[global] Instance QueryFeederResponse_schema : Schema QueryFeederResponse := fun m =>
  [(1, FString (qf_res_Feeder m))].

Lemma oracle_QueryFeederResponse_consumes : switch_consumes QueryFeederResponse_switch.
Proof. intros l k wt m b r ? E. unfold QueryFeederResponse_switch in E. consumes_fields E. Qed.

#[global] Instance QueryFeederResponse_laws : GoMsgLaws QueryFeederResponse.
Proof.
  apply (own_laws QueryFeederResponse_switch (fun m => True)); [done| | |intros m; unfold QueryFeederResponse_switch; knows_fields|apply oracle_QueryFeederResponse_consumes].
  - intros m Hm. simpl. unfold QueryFeederResponse_MarshalToSizedBuffer, QueryFeederResponse_Size, QueryFeederResponse_schema. encodes_fields.
  - intros [x1] Hm. reads_start (proto3_field (1, FString x1) ++ [] : bytes).
    reads_scalar. apply rd_nil.
Defined.

End OracleCodec.
