(* ===== verification/RwaCodec.v ===== *)
(** * x/rwa: the wire code of the messages

    [Size], [MarshalToSizedBuffer] and the [switch] of [Unmarshal] of every message of
    x/rwa/types/*.pb.go, each an instance of [GoMsg] with its laws: stored
    messages, transaction messages and their responses, genesis, queries. *)

From S2P Require Import Prelude Sdk World SdkRef Wire RwaTypes Codec Foreign WireMsg.

Open Scope Z_scope.

Section RwaCodec.
Context {T : StdTime} {TL : StdTimeLaws} {TT : StdTimeTotal}.
Context {I : SdkImports} {IL : SdkImportsLaws}.

(** ** types/types.pb.go *)

(** [AssetRecord]. *)

#[global] Instance AssetRecord_msg : GoMsg AssetRecord := {|
  msg_zero := mkAssetRecord "" "" "" "" 0 "" "" "" "" false "" zero_time zero_time zero_time;
  msg_Size := AssetRecord_Size;
  msg_MarshalToSizedBuffer := AssetRecord_MarshalToSizedBuffer;
  msg_Unmarshal := unmarshal AssetRecord_switch
|}.

Lemma rwa_AssetRecord_consumes : switch_consumes AssetRecord_switch.
Proof. intros l k wt m b r ? E. unfold AssetRecord_switch in E. consumes_fields E. Qed.

#[global] Instance AssetRecord_laws : GoMsgLaws AssetRecord.
Proof.
  apply (own_laws AssetRecord_switch (fun m => - 2 ^ 31 <= ar_Status m < 2 ^ 31 /\ time_ok (ar_AttestedAt m) /\ time_ok (ar_CreatedAt m) /\ time_ok (ar_SettledAt m))); [done| | |intros m; unfold AssetRecord_switch; knows_fields|apply rwa_AssetRecord_consumes].
  - intros m Hm. simpl. unfold AssetRecord_MarshalToSizedBuffer, AssetRecord_Size, AssetRecord_schema. encodes_fields.
  - intros [x1 x2 x3 x4 x5 x6 x7 x8 x9 x10 x11 x12 x13 x14] Hm. reads_start (proto3_field (1, FString x1) ++ proto3_field (2, FString x2) ++ proto3_field (3, FString x3) ++ proto3_field (4, FString x4) ++ proto3_field (5, FInt x5) ++ proto3_field (6, FString x6) ++ proto3_field (7, FString x7) ++ proto3_field (8, FString x8) ++ proto3_field (9, FString x9) ++ proto3_field (10, FBool x10) ++ proto3_field (11, FString x11) ++ proto3_field (12, FTime x12) ++ proto3_field (13, FTime x13) ++ proto3_field (14, FTime x14) ++ [] : bytes).
    reads_scalar. reads_scalar. reads_scalar. reads_scalar. reads_i32. reads_scalar. reads_scalar. reads_scalar. reads_scalar. reads_scalar. reads_scalar. reads_scalar. reads_scalar. reads_scalar. apply rd_nil.
Defined.

(** [RWAParams]. *)

#[global] Instance RWAParams_msg : GoMsg RWAParams := {|
  msg_zero := mkRWAParams "" "" "";
  msg_Size := RWAParams_Size;
  msg_MarshalToSizedBuffer := RWAParams_MarshalToSizedBuffer;
  msg_Unmarshal := unmarshal RWAParams_switch
|}.

Lemma rwa_RWAParams_consumes : switch_consumes RWAParams_switch.
Proof. intros l k wt m b r ? E. unfold RWAParams_switch in E. consumes_fields E. Qed.

#[global] Instance RWAParams_laws : GoMsgLaws RWAParams.
Proof.
  apply (own_laws RWAParams_switch (fun m => True)); [done| | |intros m; unfold RWAParams_switch; knows_fields|apply rwa_RWAParams_consumes].
  - intros m Hm. simpl. unfold RWAParams_MarshalToSizedBuffer, RWAParams_Size, RWAParams_schema. encodes_fields.
  - intros [x1 x2 x3] Hm. reads_start (proto3_field (1, FString x1) ++ proto3_field (2, FString x2) ++ proto3_field (3, FString x3) ++ [] : bytes).
    reads_scalar. reads_scalar. reads_scalar. apply rd_nil.
Defined.

(** ** types/genesis.pb.go *)

(** [Restriction]. *)

Definition Restriction_Size (m : Restriction) : Z :=
  size_string (rs_AssetId m) + size_string (rs_Address m) + size_bool (rs_IsDeny m).

Definition Restriction_MarshalToSizedBuffer (m : Restriction) (w : writer) : res writer :=
  w ← wr_bool x18 (rs_IsDeny m) w;
  w ← wr_string x12 (rs_Address m) w;
  wr_string x0a (rs_AssetId m) w.

Definition Restriction_switch (l fieldNum wireType : Z) (m : Restriction) (b : bytes) : option (res (Restriction * bytes)) :=
  match fieldNum with
  | 1 => Some ('(s, b) ← rd_string l wireType b;
      Ok (mkRestriction s (rs_Address m) (rs_IsDeny m), b))
  | 2 => Some ('(s, b) ← rd_string l wireType b;
      Ok (mkRestriction (rs_AssetId m) s (rs_IsDeny m), b))
  | 3 => Some ('(s, b) ← rd_bool wireType b;
      Ok (mkRestriction (rs_AssetId m) (rs_Address m) s, b))
  | _ => None
  end.

#[global] Instance Restriction_msg : GoMsg Restriction := {|
  msg_zero := mkRestriction "" "" false;
  msg_Size := Restriction_Size;
  msg_MarshalToSizedBuffer := Restriction_MarshalToSizedBuffer;
  msg_Unmarshal := unmarshal Restriction_switch
|}.

#[global] Instance Restriction_schema : Schema Restriction := fun m =>
  [(1, FString (rs_AssetId m));
   (2, FString (rs_Address m));
   (3, FBool (rs_IsDeny m))].

Lemma rwa_Restriction_consumes : switch_consumes Restriction_switch.
Proof. intros l k wt m b r ? E. unfold Restriction_switch in E. consumes_fields E. Qed.

#[global] Instance Restriction_laws : GoMsgLaws Restriction.
Proof.
  apply (own_laws Restriction_switch (fun m => True)); [done| | |intros m; unfold Restriction_switch; knows_fields|apply rwa_Restriction_consumes].
  - intros m Hm. simpl. unfold Restriction_MarshalToSizedBuffer, Restriction_Size, Restriction_schema. encodes_fields.
  - intros [x1 x2 x3] Hm. reads_start (proto3_field (1, FString x1) ++ proto3_field (2, FString x2) ++ proto3_field (3, FBool x3) ++ [] : bytes).
    reads_scalar. reads_scalar. reads_scalar. apply rd_nil.
Defined.

(** [GenesisState]. *)

Definition GenesisState_Size (m : GenesisState) : Z :=
  size_msg (gs_Params m) + size_msgs (gs_Assets m) + size_msgs (gs_Restrictions m).

Definition GenesisState_MarshalToSizedBuffer (m : GenesisState) (w : writer) : res writer :=
  w ← wr_msgs x1a (gs_Restrictions m) w;
  w ← wr_msgs x12 (gs_Assets m) w;
  wr_msg x0a (gs_Params m) w.

Definition GenesisState_switch (l fieldNum wireType : Z) (m : GenesisState) (b : bytes) : option (res (GenesisState * bytes)) :=
  match fieldNum with
  | 1 => Some ('(s, b) ← rd_msg (gs_Params m) l wireType b;
      Ok (mkGenesisState s (gs_Assets m) (gs_Restrictions m), b))
  | 2 => Some ('(s, b) ← rd_msg msg_zero l wireType b;
      Ok (mkGenesisState (gs_Params m) (gs_Assets m ++ [s]) (gs_Restrictions m), b))
  | 3 => Some ('(s, b) ← rd_msg msg_zero l wireType b;
      Ok (mkGenesisState (gs_Params m) (gs_Assets m) (gs_Restrictions m ++ [s]), b))
  | _ => None
  end.

#[global] Instance GenesisState_msg : GoMsg GenesisState := {|
  msg_zero := mkGenesisState msg_zero [] [];
  msg_Size := GenesisState_Size;
  msg_MarshalToSizedBuffer := GenesisState_MarshalToSizedBuffer;
  msg_Unmarshal := unmarshal GenesisState_switch
|}.

#[global] Instance GenesisState_schema : Schema GenesisState := fun m =>
  [(1, FMsg (fields (gs_Params m)));
   (2, FMsgs (fields <$> (gs_Assets m)));
   (3, FMsgs (fields <$> (gs_Restrictions m)))].

Lemma rwa_GenesisState_consumes : switch_consumes GenesisState_switch.
Proof. intros l k wt m b r ? E. unfold GenesisState_switch in E. consumes_fields E. Qed.

#[global] Instance GenesisState_laws : GoMsgLaws GenesisState.
Proof.
  apply (own_laws GenesisState_switch (fun m => msg_wf (gs_Params m) /\ Forall msg_wf (gs_Assets m) /\ Forall msg_wf (gs_Restrictions m))); [done| | |intros m; unfold GenesisState_switch; knows_fields|apply rwa_GenesisState_consumes].
  - intros m Hm. simpl. unfold GenesisState_MarshalToSizedBuffer, GenesisState_Size, GenesisState_schema. encodes_fields.
  - intros [x1 x2 x3] Hm. reads_start (proto3_field (1, FMsg (fields x1)) ++ proto3_field (2, FMsgs (fields <$> x2)) ++ proto3_field (3, FMsgs (fields <$> x3)) ++ [] : bytes).
    reads_scalar. reads_repeated (fun v => mkGenesisState x1 v []). reads_repeated (fun v => mkGenesisState x1 x2 v). apply rd_nil.
Defined.

(** ** types/tx.pb.go *)

(** [MsgRegisterAsset]. *)

Definition MsgRegisterAsset_Size (m : MsgRegisterAsset) : Z :=
  size_string (ra_Issuer m) + size_string (ra_AssetId m) + size_string (ra_Name m) + size_string (ra_Description m) + size_string (ra_OraclePair m) + size_string (ra_Bond m).

Definition MsgRegisterAsset_MarshalToSizedBuffer (m : MsgRegisterAsset) (w : writer) : res writer :=
  w ← wr_string x32 (ra_Bond m) w;
  w ← wr_string x2a (ra_OraclePair m) w;
  w ← wr_string x22 (ra_Description m) w;
  w ← wr_string x1a (ra_Name m) w;
  w ← wr_string x12 (ra_AssetId m) w;
  wr_string x0a (ra_Issuer m) w.

Definition MsgRegisterAsset_switch (l fieldNum wireType : Z) (m : MsgRegisterAsset) (b : bytes) : option (res (MsgRegisterAsset * bytes)) :=
  match fieldNum with
  | 1 => Some ('(s, b) ← rd_string l wireType b;
      Ok (mkMsgRegisterAsset s (ra_AssetId m) (ra_Name m) (ra_Description m) (ra_OraclePair m) (ra_Bond m), b))
  | 2 => Some ('(s, b) ← rd_string l wireType b;
      Ok (mkMsgRegisterAsset (ra_Issuer m) s (ra_Name m) (ra_Description m) (ra_OraclePair m) (ra_Bond m), b))
  | 3 => Some ('(s, b) ← rd_string l wireType b;
      Ok (mkMsgRegisterAsset (ra_Issuer m) (ra_AssetId m) s (ra_Description m) (ra_OraclePair m) (ra_Bond m), b))
  | 4 => Some ('(s, b) ← rd_string l wireType b;
      Ok (mkMsgRegisterAsset (ra_Issuer m) (ra_AssetId m) (ra_Name m) s (ra_OraclePair m) (ra_Bond m), b))
  | 5 => Some ('(s, b) ← rd_string l wireType b;
      Ok (mkMsgRegisterAsset (ra_Issuer m) (ra_AssetId m) (ra_Name m) (ra_Description m) s (ra_Bond m), b))
  | 6 => Some ('(s, b) ← rd_string l wireType b;
      Ok (mkMsgRegisterAsset (ra_Issuer m) (ra_AssetId m) (ra_Name m) (ra_Description m) (ra_OraclePair m) s, b))
  | _ => None
  end.

#[global] Instance MsgRegisterAsset_msg : GoMsg MsgRegisterAsset := {|
  msg_zero := mkMsgRegisterAsset "" "" "" "" "" "";
  msg_Size := MsgRegisterAsset_Size;
  msg_MarshalToSizedBuffer := MsgRegisterAsset_MarshalToSizedBuffer;
  msg_Unmarshal := unmarshal MsgRegisterAsset_switch
|}.

#[global] Instance MsgRegisterAsset_schema : Schema MsgRegisterAsset := fun m =>
  [(1, FString (ra_Issuer m));
   (2, FString (ra_AssetId m));
   (3, FString (ra_Name m));
   (4, FString (ra_Description m));
   (5, FString (ra_OraclePair m));
   (6, FString (ra_Bond m))].

Lemma rwa_MsgRegisterAsset_consumes : switch_consumes MsgRegisterAsset_switch.
Proof. intros l k wt m b r ? E. unfold MsgRegisterAsset_switch in E. consumes_fields E. Qed.

#[global] Instance MsgRegisterAsset_laws : GoMsgLaws MsgRegisterAsset.
Proof.
  apply (own_laws MsgRegisterAsset_switch (fun m => True)); [done| | |intros m; unfold MsgRegisterAsset_switch; knows_fields|apply rwa_MsgRegisterAsset_consumes].
  - intros m Hm. simpl. unfold MsgRegisterAsset_MarshalToSizedBuffer, MsgRegisterAsset_Size, MsgRegisterAsset_schema. encodes_fields.
  - intros [x1 x2 x3 x4 x5 x6] Hm. reads_start (proto3_field (1, FString x1) ++ proto3_field (2, FString x2) ++ proto3_field (3, FString x3) ++ proto3_field (4, FString x4) ++ proto3_field (5, FString x5) ++ proto3_field (6, FString x6) ++ [] : bytes).
    reads_scalar. reads_scalar. reads_scalar. reads_scalar. reads_scalar. reads_scalar. apply rd_nil.
Defined.

(** [MsgRegisterAssetResponse]. *)

Record MsgRegisterAssetResponse : Type := mkMsgRegisterAssetResponse { }.

Definition MsgRegisterAssetResponse_Size (m : MsgRegisterAssetResponse) : Z :=
  0.

Definition MsgRegisterAssetResponse_MarshalToSizedBuffer (m : MsgRegisterAssetResponse) (w : writer) : res writer :=
  Ok w.

Definition MsgRegisterAssetResponse_switch (l fieldNum wireType : Z) (m : MsgRegisterAssetResponse) (b : bytes) : option (res (MsgRegisterAssetResponse * bytes)) :=
  match fieldNum with
  | _ => None
  end.

#[global] Instance MsgRegisterAssetResponse_msg : GoMsg MsgRegisterAssetResponse := {|
  msg_zero := mkMsgRegisterAssetResponse;
  msg_Size := MsgRegisterAssetResponse_Size;
  msg_MarshalToSizedBuffer := MsgRegisterAssetResponse_MarshalToSizedBuffer;
  msg_Unmarshal := unmarshal MsgRegisterAssetResponse_switch
|}.

#[global] Instance MsgRegisterAssetResponse_schema : Schema MsgRegisterAssetResponse := fun m =>
  [].

Lemma rwa_MsgRegisterAssetResponse_consumes : switch_consumes MsgRegisterAssetResponse_switch.
Proof. intros l k wt m b r ? E. unfold MsgRegisterAssetResponse_switch in E. consumes_fields E. Qed.

#[global] Instance MsgRegisterAssetResponse_laws : GoMsgLaws MsgRegisterAssetResponse.
Proof.
  apply (own_laws MsgRegisterAssetResponse_switch (fun m => True)); [done| | |intros m; unfold MsgRegisterAssetResponse_switch; knows_fields|apply rwa_MsgRegisterAssetResponse_consumes].
  - intros m Hm. simpl. unfold MsgRegisterAssetResponse_MarshalToSizedBuffer, MsgRegisterAssetResponse_Size, MsgRegisterAssetResponse_schema. encodes_fields.
  - intros [] Hm. reads_start ([] : bytes).
    apply rd_nil.
Defined.

(** [MsgAttestAsset]. *)

Definition MsgAttestAsset_Size (m : MsgAttestAsset) : Z :=
  size_string (aa_Issuer m) + size_string (aa_AssetId m).

Definition MsgAttestAsset_MarshalToSizedBuffer (m : MsgAttestAsset) (w : writer) : res writer :=
  w ← wr_string x12 (aa_AssetId m) w;
  wr_string x0a (aa_Issuer m) w.

Definition MsgAttestAsset_switch (l fieldNum wireType : Z) (m : MsgAttestAsset) (b : bytes) : option (res (MsgAttestAsset * bytes)) :=
  match fieldNum with
  | 1 => Some ('(s, b) ← rd_string l wireType b;
      Ok (mkMsgAttestAsset s (aa_AssetId m), b))
  | 2 => Some ('(s, b) ← rd_string l wireType b;
      Ok (mkMsgAttestAsset (aa_Issuer m) s, b))
  | _ => None
  end.

#[global] Instance MsgAttestAsset_msg : GoMsg MsgAttestAsset := {|
  msg_zero := mkMsgAttestAsset "" "";
  msg_Size := MsgAttestAsset_Size;
  msg_MarshalToSizedBuffer := MsgAttestAsset_MarshalToSizedBuffer;
  msg_Unmarshal := unmarshal MsgAttestAsset_switch
|}.

#[global] Instance MsgAttestAsset_schema : Schema MsgAttestAsset := fun m =>
  [(1, FString (aa_Issuer m));
   (2, FString (aa_AssetId m))].

Lemma rwa_MsgAttestAsset_consumes : switch_consumes MsgAttestAsset_switch.
Proof. intros l k wt m b r ? E. unfold MsgAttestAsset_switch in E. consumes_fields E. Qed.

#[global] Instance MsgAttestAsset_laws : GoMsgLaws MsgAttestAsset.
Proof.
  apply (own_laws MsgAttestAsset_switch (fun m => True)); [done| | |intros m; unfold MsgAttestAsset_switch; knows_fields|apply rwa_MsgAttestAsset_consumes].
  - intros m Hm. simpl. unfold MsgAttestAsset_MarshalToSizedBuffer, MsgAttestAsset_Size, MsgAttestAsset_schema. encodes_fields.
  - intros [x1 x2] Hm. reads_start (proto3_field (1, FString x1) ++ proto3_field (2, FString x2) ++ [] : bytes).
    reads_scalar. reads_scalar. apply rd_nil.
Defined.

(** [MsgAttestAssetResponse]. *)

Record MsgAttestAssetResponse : Type := mkMsgAttestAssetResponse { }.

Definition MsgAttestAssetResponse_Size (m : MsgAttestAssetResponse) : Z :=
  0.

Definition MsgAttestAssetResponse_MarshalToSizedBuffer (m : MsgAttestAssetResponse) (w : writer) : res writer :=
  Ok w.

Definition MsgAttestAssetResponse_switch (l fieldNum wireType : Z) (m : MsgAttestAssetResponse) (b : bytes) : option (res (MsgAttestAssetResponse * bytes)) :=
  match fieldNum with
  | _ => None
  end.

#[global] Instance MsgAttestAssetResponse_msg : GoMsg MsgAttestAssetResponse := {|
  msg_zero := mkMsgAttestAssetResponse;
  msg_Size := MsgAttestAssetResponse_Size;
  msg_MarshalToSizedBuffer := MsgAttestAssetResponse_MarshalToSizedBuffer;
  msg_Unmarshal := unmarshal MsgAttestAssetResponse_switch
|}.

#[global] Instance MsgAttestAssetResponse_schema : Schema MsgAttestAssetResponse := fun m =>
  [].

Lemma rwa_MsgAttestAssetResponse_consumes : switch_consumes MsgAttestAssetResponse_switch.
Proof. intros l k wt m b r ? E. unfold MsgAttestAssetResponse_switch in E. consumes_fields E. Qed.

#[global] Instance MsgAttestAssetResponse_laws : GoMsgLaws MsgAttestAssetResponse.
Proof.
  apply (own_laws MsgAttestAssetResponse_switch (fun m => True)); [done| | |intros m; unfold MsgAttestAssetResponse_switch; knows_fields|apply rwa_MsgAttestAssetResponse_consumes].
  - intros m Hm. simpl. unfold MsgAttestAssetResponse_MarshalToSizedBuffer, MsgAttestAssetResponse_Size, MsgAttestAssetResponse_schema. encodes_fields.
  - intros [] Hm. reads_start ([] : bytes).
    apply rd_nil.
Defined.

(** [MsgMintRWA]. *)

Definition MsgMintRWA_Size (m : MsgMintRWA) : Z :=
  size_string (mr_Issuer m) + size_string (mr_AssetId m) + size_string (mr_Notional m).

Definition MsgMintRWA_MarshalToSizedBuffer (m : MsgMintRWA) (w : writer) : res writer :=
  w ← wr_string x1a (mr_Notional m) w;
  w ← wr_string x12 (mr_AssetId m) w;
  wr_string x0a (mr_Issuer m) w.

Definition MsgMintRWA_switch (l fieldNum wireType : Z) (m : MsgMintRWA) (b : bytes) : option (res (MsgMintRWA * bytes)) :=
  match fieldNum with
  | 1 => Some ('(s, b) ← rd_string l wireType b;
      Ok (mkMsgMintRWA s (mr_AssetId m) (mr_Notional m), b))
  | 2 => Some ('(s, b) ← rd_string l wireType b;
      Ok (mkMsgMintRWA (mr_Issuer m) s (mr_Notional m), b))
  | 3 => Some ('(s, b) ← rd_string l wireType b;
      Ok (mkMsgMintRWA (mr_Issuer m) (mr_AssetId m) s, b))
  | _ => None
  end.

#[global] Instance MsgMintRWA_msg : GoMsg MsgMintRWA := {|
  msg_zero := mkMsgMintRWA "" "" "";
  msg_Size := MsgMintRWA_Size;
  msg_MarshalToSizedBuffer := MsgMintRWA_MarshalToSizedBuffer;
  msg_Unmarshal := unmarshal MsgMintRWA_switch
|}.

#[global] Instance MsgMintRWA_schema : Schema MsgMintRWA := fun m =>
  [(1, FString (mr_Issuer m));
   (2, FString (mr_AssetId m));
   (3, FString (mr_Notional m))].

Lemma rwa_MsgMintRWA_consumes : switch_consumes MsgMintRWA_switch.
Proof. intros l k wt m b r ? E. unfold MsgMintRWA_switch in E. consumes_fields E. Qed.

#[global] Instance MsgMintRWA_laws : GoMsgLaws MsgMintRWA.
Proof.
  apply (own_laws MsgMintRWA_switch (fun m => True)); [done| | |intros m; unfold MsgMintRWA_switch; knows_fields|apply rwa_MsgMintRWA_consumes].
  - intros m Hm. simpl. unfold MsgMintRWA_MarshalToSizedBuffer, MsgMintRWA_Size, MsgMintRWA_schema. encodes_fields.
  - intros [x1 x2 x3] Hm. reads_start (proto3_field (1, FString x1) ++ proto3_field (2, FString x2) ++ proto3_field (3, FString x3) ++ [] : bytes).
    reads_scalar. reads_scalar. reads_scalar. apply rd_nil.
Defined.

(** [MsgMintRWAResponse]. *)

Record MsgMintRWAResponse : Type := mkMsgMintRWAResponse { }.

Definition MsgMintRWAResponse_Size (m : MsgMintRWAResponse) : Z :=
  0.

Definition MsgMintRWAResponse_MarshalToSizedBuffer (m : MsgMintRWAResponse) (w : writer) : res writer :=
  Ok w.

Definition MsgMintRWAResponse_switch (l fieldNum wireType : Z) (m : MsgMintRWAResponse) (b : bytes) : option (res (MsgMintRWAResponse * bytes)) :=
  match fieldNum with
  | _ => None
  end.

#[global] Instance MsgMintRWAResponse_msg : GoMsg MsgMintRWAResponse := {|
  msg_zero := mkMsgMintRWAResponse;
  msg_Size := MsgMintRWAResponse_Size;
  msg_MarshalToSizedBuffer := MsgMintRWAResponse_MarshalToSizedBuffer;
  msg_Unmarshal := unmarshal MsgMintRWAResponse_switch
|}.

#[global] Instance MsgMintRWAResponse_schema : Schema MsgMintRWAResponse := fun m =>
  [].

Lemma rwa_MsgMintRWAResponse_consumes : switch_consumes MsgMintRWAResponse_switch.
Proof. intros l k wt m b r ? E. unfold MsgMintRWAResponse_switch in E. consumes_fields E. Qed.

#[global] Instance MsgMintRWAResponse_laws : GoMsgLaws MsgMintRWAResponse.
Proof.
  apply (own_laws MsgMintRWAResponse_switch (fun m => True)); [done| | |intros m; unfold MsgMintRWAResponse_switch; knows_fields|apply rwa_MsgMintRWAResponse_consumes].
  - intros m Hm. simpl. unfold MsgMintRWAResponse_MarshalToSizedBuffer, MsgMintRWAResponse_Size, MsgMintRWAResponse_schema. encodes_fields.
  - intros [] Hm. reads_start ([] : bytes).
    apply rd_nil.
Defined.

(** [MsgTransferRWA]. *)

Definition MsgTransferRWA_Size (m : MsgTransferRWA) : Z :=
  size_string (tr_Sender m) + size_string (tr_Recipient m) + size_string (tr_AssetId m) + size_string (tr_Amount m).

Definition MsgTransferRWA_MarshalToSizedBuffer (m : MsgTransferRWA) (w : writer) : res writer :=
  w ← wr_string x22 (tr_Amount m) w;
  w ← wr_string x1a (tr_AssetId m) w;
  w ← wr_string x12 (tr_Recipient m) w;
  wr_string x0a (tr_Sender m) w.

Definition MsgTransferRWA_switch (l fieldNum wireType : Z) (m : MsgTransferRWA) (b : bytes) : option (res (MsgTransferRWA * bytes)) :=
  match fieldNum with
  | 1 => Some ('(s, b) ← rd_string l wireType b;
      Ok (mkMsgTransferRWA s (tr_Recipient m) (tr_AssetId m) (tr_Amount m), b))
  | 2 => Some ('(s, b) ← rd_string l wireType b;
      Ok (mkMsgTransferRWA (tr_Sender m) s (tr_AssetId m) (tr_Amount m), b))
  | 3 => Some ('(s, b) ← rd_string l wireType b;
      Ok (mkMsgTransferRWA (tr_Sender m) (tr_Recipient m) s (tr_Amount m), b))
  | 4 => Some ('(s, b) ← rd_string l wireType b;
      Ok (mkMsgTransferRWA (tr_Sender m) (tr_Recipient m) (tr_AssetId m) s, b))
  | _ => None
  end.

#[global] Instance MsgTransferRWA_msg : GoMsg MsgTransferRWA := {|
  msg_zero := mkMsgTransferRWA "" "" "" "";
  msg_Size := MsgTransferRWA_Size;
  msg_MarshalToSizedBuffer := MsgTransferRWA_MarshalToSizedBuffer;
  msg_Unmarshal := unmarshal MsgTransferRWA_switch
|}.

#[global] Instance MsgTransferRWA_schema : Schema MsgTransferRWA := fun m =>
  [(1, FString (tr_Sender m));
   (2, FString (tr_Recipient m));
   (3, FString (tr_AssetId m));
   (4, FString (tr_Amount m))].

Lemma rwa_MsgTransferRWA_consumes : switch_consumes MsgTransferRWA_switch.
Proof. intros l k wt m b r ? E. unfold MsgTransferRWA_switch in E. consumes_fields E. Qed.

#[global] Instance MsgTransferRWA_laws : GoMsgLaws MsgTransferRWA.
Proof.
  apply (own_laws MsgTransferRWA_switch (fun m => True)); [done| | |intros m; unfold MsgTransferRWA_switch; knows_fields|apply rwa_MsgTransferRWA_consumes].
  - intros m Hm. simpl. unfold MsgTransferRWA_MarshalToSizedBuffer, MsgTransferRWA_Size, MsgTransferRWA_schema. encodes_fields.
  - intros [x1 x2 x3 x4] Hm. reads_start (proto3_field (1, FString x1) ++ proto3_field (2, FString x2) ++ proto3_field (3, FString x3) ++ proto3_field (4, FString x4) ++ [] : bytes).
    reads_scalar. reads_scalar. reads_scalar. reads_scalar. apply rd_nil.
Defined.

(** [MsgTransferRWAResponse]. *)

Record MsgTransferRWAResponse : Type := mkMsgTransferRWAResponse { }.

Definition MsgTransferRWAResponse_Size (m : MsgTransferRWAResponse) : Z :=
  0.

Definition MsgTransferRWAResponse_MarshalToSizedBuffer (m : MsgTransferRWAResponse) (w : writer) : res writer :=
  Ok w.

Definition MsgTransferRWAResponse_switch (l fieldNum wireType : Z) (m : MsgTransferRWAResponse) (b : bytes) : option (res (MsgTransferRWAResponse * bytes)) :=
  match fieldNum with
  | _ => None
  end.

#[global] Instance MsgTransferRWAResponse_msg : GoMsg MsgTransferRWAResponse := {|
  msg_zero := mkMsgTransferRWAResponse;
  msg_Size := MsgTransferRWAResponse_Size;
  msg_MarshalToSizedBuffer := MsgTransferRWAResponse_MarshalToSizedBuffer;
  msg_Unmarshal := unmarshal MsgTransferRWAResponse_switch
|}.

#[global] Instance MsgTransferRWAResponse_schema : Schema MsgTransferRWAResponse := fun m =>
  [].

Lemma rwa_MsgTransferRWAResponse_consumes : switch_consumes MsgTransferRWAResponse_switch.
Proof. intros l k wt m b r ? E. unfold MsgTransferRWAResponse_switch in E. consumes_fields E. Qed.

#[global] Instance MsgTransferRWAResponse_laws : GoMsgLaws MsgTransferRWAResponse.
Proof.
  apply (own_laws MsgTransferRWAResponse_switch (fun m => True)); [done| | |intros m; unfold MsgTransferRWAResponse_switch; knows_fields|apply rwa_MsgTransferRWAResponse_consumes].
  - intros m Hm. simpl. unfold MsgTransferRWAResponse_MarshalToSizedBuffer, MsgTransferRWAResponse_Size, MsgTransferRWAResponse_schema. encodes_fields.
  - intros [] Hm. reads_start ([] : bytes).
    apply rd_nil.
Defined.

(** [MsgSettleRWA]. *)

Definition MsgSettleRWA_Size (m : MsgSettleRWA) : Z :=
  size_string (sr_Issuer m) + size_string (sr_AssetId m).

Definition MsgSettleRWA_MarshalToSizedBuffer (m : MsgSettleRWA) (w : writer) : res writer :=
  w ← wr_string x12 (sr_AssetId m) w;
  wr_string x0a (sr_Issuer m) w.

Definition MsgSettleRWA_switch (l fieldNum wireType : Z) (m : MsgSettleRWA) (b : bytes) : option (res (MsgSettleRWA * bytes)) :=
  match fieldNum with
  | 1 => Some ('(s, b) ← rd_string l wireType b;
      Ok (mkMsgSettleRWA s (sr_AssetId m), b))
  | 2 => Some ('(s, b) ← rd_string l wireType b;
      Ok (mkMsgSettleRWA (sr_Issuer m) s, b))
  | _ => None
  end.

#[global] Instance MsgSettleRWA_msg : GoMsg MsgSettleRWA := {|
  msg_zero := mkMsgSettleRWA "" "";
  msg_Size := MsgSettleRWA_Size;
  msg_MarshalToSizedBuffer := MsgSettleRWA_MarshalToSizedBuffer;
  msg_Unmarshal := unmarshal MsgSettleRWA_switch
|}.

#[global] Instance MsgSettleRWA_schema : Schema MsgSettleRWA := fun m =>
  [(1, FString (sr_Issuer m));
   (2, FString (sr_AssetId m))].

Lemma rwa_MsgSettleRWA_consumes : switch_consumes MsgSettleRWA_switch.
Proof. intros l k wt m b r ? E. unfold MsgSettleRWA_switch in E. consumes_fields E. Qed.

#[global] Instance MsgSettleRWA_laws : GoMsgLaws MsgSettleRWA.
Proof.
  apply (own_laws MsgSettleRWA_switch (fun m => True)); [done| | |intros m; unfold MsgSettleRWA_switch; knows_fields|apply rwa_MsgSettleRWA_consumes].
  - intros m Hm. simpl. unfold MsgSettleRWA_MarshalToSizedBuffer, MsgSettleRWA_Size, MsgSettleRWA_schema. encodes_fields.
  - intros [x1 x2] Hm. reads_start (proto3_field (1, FString x1) ++ proto3_field (2, FString x2) ++ [] : bytes).
    reads_scalar. reads_scalar. apply rd_nil.
Defined.

(** [MsgSettleRWAResponse]. *)

Record MsgSettleRWAResponse : Type := mkMsgSettleRWAResponse { }.

Definition MsgSettleRWAResponse_Size (m : MsgSettleRWAResponse) : Z :=
  0.

Definition MsgSettleRWAResponse_MarshalToSizedBuffer (m : MsgSettleRWAResponse) (w : writer) : res writer :=
  Ok w.

Definition MsgSettleRWAResponse_switch (l fieldNum wireType : Z) (m : MsgSettleRWAResponse) (b : bytes) : option (res (MsgSettleRWAResponse * bytes)) :=
  match fieldNum with
  | _ => None
  end.

#[global] Instance MsgSettleRWAResponse_msg : GoMsg MsgSettleRWAResponse := {|
  msg_zero := mkMsgSettleRWAResponse;
  msg_Size := MsgSettleRWAResponse_Size;
  msg_MarshalToSizedBuffer := MsgSettleRWAResponse_MarshalToSizedBuffer;
  msg_Unmarshal := unmarshal MsgSettleRWAResponse_switch
|}.

#[global] Instance MsgSettleRWAResponse_schema : Schema MsgSettleRWAResponse := fun m =>
  [].

Lemma rwa_MsgSettleRWAResponse_consumes : switch_consumes MsgSettleRWAResponse_switch.
Proof. intros l k wt m b r ? E. unfold MsgSettleRWAResponse_switch in E. consumes_fields E. Qed.

#[global] Instance MsgSettleRWAResponse_laws : GoMsgLaws MsgSettleRWAResponse.
Proof.
  apply (own_laws MsgSettleRWAResponse_switch (fun m => True)); [done| | |intros m; unfold MsgSettleRWAResponse_switch; knows_fields|apply rwa_MsgSettleRWAResponse_consumes].
  - intros m Hm. simpl. unfold MsgSettleRWAResponse_MarshalToSizedBuffer, MsgSettleRWAResponse_Size, MsgSettleRWAResponse_schema. encodes_fields.
  - intros [] Hm. reads_start ([] : bytes).
    apply rd_nil.
Defined.

(** [MsgUpdateRestrictions]. *)

Definition MsgUpdateRestrictions_Size (m : MsgUpdateRestrictions) : Z :=
  size_string (ur_Issuer m) + size_string (ur_AssetId m) + size_bool (ur_AllowAll m) + size_strings (ur_AddAllow m) + size_strings (ur_DelAllow m) + size_strings (ur_AddDeny m) + size_strings (ur_DelDeny m).

Definition MsgUpdateRestrictions_MarshalToSizedBuffer (m : MsgUpdateRestrictions) (w : writer) : res writer :=
  w ← wr_strings x3a (ur_DelDeny m) w;
  w ← wr_strings x32 (ur_AddDeny m) w;
  w ← wr_strings x2a (ur_DelAllow m) w;
  w ← wr_strings x22 (ur_AddAllow m) w;
  w ← wr_bool x18 (ur_AllowAll m) w;
  w ← wr_string x12 (ur_AssetId m) w;
  wr_string x0a (ur_Issuer m) w.

Definition MsgUpdateRestrictions_switch (l fieldNum wireType : Z) (m : MsgUpdateRestrictions) (b : bytes) : option (res (MsgUpdateRestrictions * bytes)) :=
  match fieldNum with
  | 1 => Some ('(s, b) ← rd_string l wireType b;
      Ok (mkMsgUpdateRestrictions s (ur_AssetId m) (ur_AllowAll m) (ur_AddAllow m) (ur_DelAllow m) (ur_AddDeny m) (ur_DelDeny m), b))
  | 2 => Some ('(s, b) ← rd_string l wireType b;
      Ok (mkMsgUpdateRestrictions (ur_Issuer m) s (ur_AllowAll m) (ur_AddAllow m) (ur_DelAllow m) (ur_AddDeny m) (ur_DelDeny m), b))
  | 3 => Some ('(s, b) ← rd_bool wireType b;
      Ok (mkMsgUpdateRestrictions (ur_Issuer m) (ur_AssetId m) s (ur_AddAllow m) (ur_DelAllow m) (ur_AddDeny m) (ur_DelDeny m), b))
  | 4 => Some ('(s, b) ← rd_string l wireType b;
      Ok (mkMsgUpdateRestrictions (ur_Issuer m) (ur_AssetId m) (ur_AllowAll m) (ur_AddAllow m ++ [s]) (ur_DelAllow m) (ur_AddDeny m) (ur_DelDeny m), b))
  | 5 => Some ('(s, b) ← rd_string l wireType b;
      Ok (mkMsgUpdateRestrictions (ur_Issuer m) (ur_AssetId m) (ur_AllowAll m) (ur_AddAllow m) (ur_DelAllow m ++ [s]) (ur_AddDeny m) (ur_DelDeny m), b))
  | 6 => Some ('(s, b) ← rd_string l wireType b;
      Ok (mkMsgUpdateRestrictions (ur_Issuer m) (ur_AssetId m) (ur_AllowAll m) (ur_AddAllow m) (ur_DelAllow m) (ur_AddDeny m ++ [s]) (ur_DelDeny m), b))
  | 7 => Some ('(s, b) ← rd_string l wireType b;
      Ok (mkMsgUpdateRestrictions (ur_Issuer m) (ur_AssetId m) (ur_AllowAll m) (ur_AddAllow m) (ur_DelAllow m) (ur_AddDeny m) (ur_DelDeny m ++ [s]), b))
  | _ => None
  end.

#[global] Instance MsgUpdateRestrictions_msg : GoMsg MsgUpdateRestrictions := {|
  msg_zero := mkMsgUpdateRestrictions "" "" false [] [] [] [];
  msg_Size := MsgUpdateRestrictions_Size;
  msg_MarshalToSizedBuffer := MsgUpdateRestrictions_MarshalToSizedBuffer;
  msg_Unmarshal := unmarshal MsgUpdateRestrictions_switch
|}.

#[global] Instance MsgUpdateRestrictions_schema : Schema MsgUpdateRestrictions := fun m =>
  [(1, FString (ur_Issuer m));
   (2, FString (ur_AssetId m));
   (3, FBool (ur_AllowAll m));
   (4, FStrings (ur_AddAllow m));
   (5, FStrings (ur_DelAllow m));
   (6, FStrings (ur_AddDeny m));
   (7, FStrings (ur_DelDeny m))].

Lemma rwa_MsgUpdateRestrictions_consumes : switch_consumes MsgUpdateRestrictions_switch.
Proof. intros l k wt m b r ? E. unfold MsgUpdateRestrictions_switch in E. consumes_fields E. Qed.

#[global] Instance MsgUpdateRestrictions_laws : GoMsgLaws MsgUpdateRestrictions.
Proof.
  apply (own_laws MsgUpdateRestrictions_switch (fun m => True)); [done| | |intros m; unfold MsgUpdateRestrictions_switch; knows_fields|apply rwa_MsgUpdateRestrictions_consumes].
  - intros m Hm. simpl. unfold MsgUpdateRestrictions_MarshalToSizedBuffer, MsgUpdateRestrictions_Size, MsgUpdateRestrictions_schema. encodes_fields.
  - intros [x1 x2 x3 x4 x5 x6 x7] Hm. reads_start (proto3_field (1, FString x1) ++ proto3_field (2, FString x2) ++ proto3_field (3, FBool x3) ++ proto3_field (4, FStrings x4) ++ proto3_field (5, FStrings x5) ++ proto3_field (6, FStrings x6) ++ proto3_field (7, FStrings x7) ++ [] : bytes).
    reads_scalar. reads_scalar. reads_scalar. reads_repeated_strings (fun v => mkMsgUpdateRestrictions x1 x2 x3 v [] [] []). reads_repeated_strings (fun v => mkMsgUpdateRestrictions x1 x2 x3 x4 v [] []). reads_repeated_strings (fun v => mkMsgUpdateRestrictions x1 x2 x3 x4 x5 v []). reads_repeated_strings (fun v => mkMsgUpdateRestrictions x1 x2 x3 x4 x5 x6 v). apply rd_nil.
Defined.

(** [MsgUpdateRestrictionsResponse]. *)

Record MsgUpdateRestrictionsResponse : Type := mkMsgUpdateRestrictionsResponse { }.

Definition MsgUpdateRestrictionsResponse_Size (m : MsgUpdateRestrictionsResponse) : Z :=
  0.

Definition MsgUpdateRestrictionsResponse_MarshalToSizedBuffer (m : MsgUpdateRestrictionsResponse) (w : writer) : res writer :=
  Ok w.

Definition MsgUpdateRestrictionsResponse_switch (l fieldNum wireType : Z) (m : MsgUpdateRestrictionsResponse) (b : bytes) : option (res (MsgUpdateRestrictionsResponse * bytes)) :=
  match fieldNum with
  | _ => None
  end.

#[global] Instance MsgUpdateRestrictionsResponse_msg : GoMsg MsgUpdateRestrictionsResponse := {|
  msg_zero := mkMsgUpdateRestrictionsResponse;
  msg_Size := MsgUpdateRestrictionsResponse_Size;
  msg_MarshalToSizedBuffer := MsgUpdateRestrictionsResponse_MarshalToSizedBuffer;
  msg_Unmarshal := unmarshal MsgUpdateRestrictionsResponse_switch
|}.

#[global] Instance MsgUpdateRestrictionsResponse_schema : Schema MsgUpdateRestrictionsResponse := fun m =>
  [].

Lemma rwa_MsgUpdateRestrictionsResponse_consumes : switch_consumes MsgUpdateRestrictionsResponse_switch.
Proof. intros l k wt m b r ? E. unfold MsgUpdateRestrictionsResponse_switch in E. consumes_fields E. Qed.

#[global] Instance MsgUpdateRestrictionsResponse_laws : GoMsgLaws MsgUpdateRestrictionsResponse.
Proof.
  apply (own_laws MsgUpdateRestrictionsResponse_switch (fun m => True)); [done| | |intros m; unfold MsgUpdateRestrictionsResponse_switch; knows_fields|apply rwa_MsgUpdateRestrictionsResponse_consumes].
  - intros m Hm. simpl. unfold MsgUpdateRestrictionsResponse_MarshalToSizedBuffer, MsgUpdateRestrictionsResponse_Size, MsgUpdateRestrictionsResponse_schema. encodes_fields.
  - intros [] Hm. reads_start ([] : bytes).
    apply rd_nil.
Defined.

(** [MsgSlashBond]. *)

Definition MsgSlashBond_Size (m : MsgSlashBond) : Z :=
  size_string (sb_Authority m) + size_string (sb_AssetId m) + size_string (sb_Reason m).

Definition MsgSlashBond_MarshalToSizedBuffer (m : MsgSlashBond) (w : writer) : res writer :=
  w ← wr_string x1a (sb_Reason m) w;
  w ← wr_string x12 (sb_AssetId m) w;
  wr_string x0a (sb_Authority m) w.

Definition MsgSlashBond_switch (l fieldNum wireType : Z) (m : MsgSlashBond) (b : bytes) : option (res (MsgSlashBond * bytes)) :=
  match fieldNum with
  | 1 => Some ('(s, b) ← rd_string l wireType b;
      Ok (mkMsgSlashBond s (sb_AssetId m) (sb_Reason m), b))
  | 2 => Some ('(s, b) ← rd_string l wireType b;
      Ok (mkMsgSlashBond (sb_Authority m) s (sb_Reason m), b))
  | 3 => Some ('(s, b) ← rd_string l wireType b;
      Ok (mkMsgSlashBond (sb_Authority m) (sb_AssetId m) s, b))
  | _ => None
  end.

#[global] Instance MsgSlashBond_msg : GoMsg MsgSlashBond := {|
  msg_zero := mkMsgSlashBond "" "" "";
  msg_Size := MsgSlashBond_Size;
  msg_MarshalToSizedBuffer := MsgSlashBond_MarshalToSizedBuffer;
  msg_Unmarshal := unmarshal MsgSlashBond_switch
|}.

#[global] Instance MsgSlashBond_schema : Schema MsgSlashBond := fun m =>
  [(1, FString (sb_Authority m));
   (2, FString (sb_AssetId m));
   (3, FString (sb_Reason m))].

Lemma rwa_MsgSlashBond_consumes : switch_consumes MsgSlashBond_switch.
Proof. intros l k wt m b r ? E. unfold MsgSlashBond_switch in E. consumes_fields E. Qed.

#[global] Instance MsgSlashBond_laws : GoMsgLaws MsgSlashBond.
Proof.
  apply (own_laws MsgSlashBond_switch (fun m => True)); [done| | |intros m; unfold MsgSlashBond_switch; knows_fields|apply rwa_MsgSlashBond_consumes].
  - intros m Hm. simpl. unfold MsgSlashBond_MarshalToSizedBuffer, MsgSlashBond_Size, MsgSlashBond_schema. encodes_fields.
  - intros [x1 x2 x3] Hm. reads_start (proto3_field (1, FString x1) ++ proto3_field (2, FString x2) ++ proto3_field (3, FString x3) ++ [] : bytes).
    reads_scalar. reads_scalar. reads_scalar. apply rd_nil.
Defined.

(** [MsgSlashBondResponse]. *)

Record MsgSlashBondResponse : Type := mkMsgSlashBondResponse { }.

Definition MsgSlashBondResponse_Size (m : MsgSlashBondResponse) : Z :=
  0.

Definition MsgSlashBondResponse_MarshalToSizedBuffer (m : MsgSlashBondResponse) (w : writer) : res writer :=
  Ok w.

Definition MsgSlashBondResponse_switch (l fieldNum wireType : Z) (m : MsgSlashBondResponse) (b : bytes) : option (res (MsgSlashBondResponse * bytes)) :=
  match fieldNum with
  | _ => None
  end.

#[global] Instance MsgSlashBondResponse_msg : GoMsg MsgSlashBondResponse := {|
  msg_zero := mkMsgSlashBondResponse;
  msg_Size := MsgSlashBondResponse_Size;
  msg_MarshalToSizedBuffer := MsgSlashBondResponse_MarshalToSizedBuffer;
  msg_Unmarshal := unmarshal MsgSlashBondResponse_switch
|}.

#[global] Instance MsgSlashBondResponse_schema : Schema MsgSlashBondResponse := fun m =>
  [].

Lemma rwa_MsgSlashBondResponse_consumes : switch_consumes MsgSlashBondResponse_switch.
Proof. intros l k wt m b r ? E. unfold MsgSlashBondResponse_switch in E. consumes_fields E. Qed.

#[global] Instance MsgSlashBondResponse_laws : GoMsgLaws MsgSlashBondResponse.
Proof.
  apply (own_laws MsgSlashBondResponse_switch (fun m => True)); [done| | |intros m; unfold MsgSlashBondResponse_switch; knows_fields|apply rwa_MsgSlashBondResponse_consumes].
  - intros m Hm. simpl. unfold MsgSlashBondResponse_MarshalToSizedBuffer, MsgSlashBondResponse_Size, MsgSlashBondResponse_schema. encodes_fields.
  - intros [] Hm. reads_start ([] : bytes).
    apply rd_nil.
Defined.

(** [MsgUpdateParams]. *)

Definition MsgUpdateParams_Size (m : MsgUpdateParams) : Z :=
  size_string (Authority m) + size_msg (Params m).

Definition MsgUpdateParams_MarshalToSizedBuffer (m : MsgUpdateParams) (w : writer) : res writer :=
  w ← wr_msg x12 (Params m) w;
  wr_string x0a (Authority m) w.

Definition MsgUpdateParams_switch (l fieldNum wireType : Z) (m : MsgUpdateParams) (b : bytes) : option (res (MsgUpdateParams * bytes)) :=
  match fieldNum with
  | 1 => Some ('(s, b) ← rd_string l wireType b;
      Ok (mkMsgUpdateParams s (Params m), b))
  | 2 => Some ('(s, b) ← rd_msg (Params m) l wireType b;
      Ok (mkMsgUpdateParams (Authority m) s, b))
  | _ => None
  end.

#[global] Instance MsgUpdateParams_msg : GoMsg MsgUpdateParams := {|
  msg_zero := mkMsgUpdateParams "" msg_zero;
  msg_Size := MsgUpdateParams_Size;
  msg_MarshalToSizedBuffer := MsgUpdateParams_MarshalToSizedBuffer;
  msg_Unmarshal := unmarshal MsgUpdateParams_switch
|}.

#[global] Instance MsgUpdateParams_schema : Schema MsgUpdateParams := fun m =>
  [(1, FString (Authority m));
   (2, FMsg (fields (Params m)))].

Lemma rwa_MsgUpdateParams_consumes : switch_consumes MsgUpdateParams_switch.
Proof. intros l k wt m b r ? E. unfold MsgUpdateParams_switch in E. consumes_fields E. Qed.

#[global] Instance MsgUpdateParams_laws : GoMsgLaws MsgUpdateParams.
Proof.
  apply (own_laws MsgUpdateParams_switch (fun m => msg_wf (Params m))); [done| | |intros m; unfold MsgUpdateParams_switch; knows_fields|apply rwa_MsgUpdateParams_consumes].
  - intros m Hm. simpl. unfold MsgUpdateParams_MarshalToSizedBuffer, MsgUpdateParams_Size, MsgUpdateParams_schema. encodes_fields.
  - intros [x1 x2] Hm. reads_start (proto3_field (1, FString x1) ++ proto3_field (2, FMsg (fields x2)) ++ [] : bytes).
    reads_scalar. reads_scalar. apply rd_nil.
Defined.

(** [MsgUpdateParamsResponse]. *)

Record MsgUpdateParamsResponse : Type := mkMsgUpdateParamsResponse { }.

Definition MsgUpdateParamsResponse_Size (m : MsgUpdateParamsResponse) : Z :=
  0.

Definition MsgUpdateParamsResponse_MarshalToSizedBuffer (m : MsgUpdateParamsResponse) (w : writer) : res writer :=
  Ok w.

Definition MsgUpdateParamsResponse_switch (l fieldNum wireType : Z) (m : MsgUpdateParamsResponse) (b : bytes) : option (res (MsgUpdateParamsResponse * bytes)) :=
  match fieldNum with
  | _ => None
  end.

#[global] Instance MsgUpdateParamsResponse_msg : GoMsg MsgUpdateParamsResponse := {|
  msg_zero := mkMsgUpdateParamsResponse;
  msg_Size := MsgUpdateParamsResponse_Size;
  msg_MarshalToSizedBuffer := MsgUpdateParamsResponse_MarshalToSizedBuffer;
  msg_Unmarshal := unmarshal MsgUpdateParamsResponse_switch
|}.

#[global] Instance MsgUpdateParamsResponse_schema : Schema MsgUpdateParamsResponse := fun m =>
  [].

Lemma rwa_MsgUpdateParamsResponse_consumes : switch_consumes MsgUpdateParamsResponse_switch.
Proof. intros l k wt m b r ? E. unfold MsgUpdateParamsResponse_switch in E. consumes_fields E. Qed.

#[global] Instance MsgUpdateParamsResponse_laws : GoMsgLaws MsgUpdateParamsResponse.
Proof.
  apply (own_laws MsgUpdateParamsResponse_switch (fun m => True)); [done| | |intros m; unfold MsgUpdateParamsResponse_switch; knows_fields|apply rwa_MsgUpdateParamsResponse_consumes].
  - intros m Hm. simpl. unfold MsgUpdateParamsResponse_MarshalToSizedBuffer, MsgUpdateParamsResponse_Size, MsgUpdateParamsResponse_schema. encodes_fields.
  - intros [] Hm. reads_start ([] : bytes).
    apply rd_nil.
Defined.

(** ** types/query.pb.go *)

(** [QueryAssetRequest]. *)

Record QueryAssetRequest : Type := mkQueryAssetRequest {
  qa_req_AssetId : string
}.

Definition QueryAssetRequest_Size (m : QueryAssetRequest) : Z :=
  size_string (qa_req_AssetId m).

Definition QueryAssetRequest_MarshalToSizedBuffer (m : QueryAssetRequest) (w : writer) : res writer :=
  wr_string x0a (qa_req_AssetId m) w.

Definition QueryAssetRequest_switch (l fieldNum wireType : Z) (m : QueryAssetRequest) (b : bytes) : option (res (QueryAssetRequest * bytes)) :=
  match fieldNum with
  | 1 => Some ('(s, b) ← rd_string l wireType b;
      Ok (mkQueryAssetRequest s, b))
  | _ => None
  end.

#[global] Instance QueryAssetRequest_msg : GoMsg QueryAssetRequest := {|
  msg_zero := mkQueryAssetRequest "";
  msg_Size := QueryAssetRequest_Size;
  msg_MarshalToSizedBuffer := QueryAssetRequest_MarshalToSizedBuffer;
  msg_Unmarshal := unmarshal QueryAssetRequest_switch
|}.

#[global] Instance QueryAssetRequest_schema : Schema QueryAssetRequest := fun m =>
  [(1, FString (qa_req_AssetId m))].

Lemma rwa_QueryAssetRequest_consumes : switch_consumes QueryAssetRequest_switch.
Proof. intros l k wt m b r ? E. unfold QueryAssetRequest_switch in E. consumes_fields E. Qed.

#[global] Instance QueryAssetRequest_laws : GoMsgLaws QueryAssetRequest.
Proof.
  apply (own_laws QueryAssetRequest_switch (fun m => True)); [done| | |intros m; unfold QueryAssetRequest_switch; knows_fields|apply rwa_QueryAssetRequest_consumes].
  - intros m Hm. simpl. unfold QueryAssetRequest_MarshalToSizedBuffer, QueryAssetRequest_Size, QueryAssetRequest_schema. encodes_fields.
  - intros [x1] Hm. reads_start (proto3_field (1, FString x1) ++ [] : bytes).
    reads_scalar. apply rd_nil.
Defined.

(** [QueryAssetResponse]. *)

Record QueryAssetResponse : Type := mkQueryAssetResponse {
  qa_res_Asset : AssetRecord
}.

Definition QueryAssetResponse_Size (m : QueryAssetResponse) : Z :=
  size_msg (qa_res_Asset m).

Definition QueryAssetResponse_MarshalToSizedBuffer (m : QueryAssetResponse) (w : writer) : res writer :=
  wr_msg x0a (qa_res_Asset m) w.

Definition QueryAssetResponse_switch (l fieldNum wireType : Z) (m : QueryAssetResponse) (b : bytes) : option (res (QueryAssetResponse * bytes)) :=
  match fieldNum with
  | 1 => Some ('(s, b) ← rd_msg (qa_res_Asset m) l wireType b;
      Ok (mkQueryAssetResponse s, b))
  | _ => None
  end.

#[global] Instance QueryAssetResponse_msg : GoMsg QueryAssetResponse := {|
  msg_zero := mkQueryAssetResponse msg_zero;
  msg_Size := QueryAssetResponse_Size;
  msg_MarshalToSizedBuffer := QueryAssetResponse_MarshalToSizedBuffer;
  msg_Unmarshal := unmarshal QueryAssetResponse_switch
|}.

#[global] Instance QueryAssetResponse_schema : Schema QueryAssetResponse := fun m =>
  [(1, FMsg (fields (qa_res_Asset m)))].

Lemma rwa_QueryAssetResponse_consumes : switch_consumes QueryAssetResponse_switch.
Proof. intros l k wt m b r ? E. unfold QueryAssetResponse_switch in E. consumes_fields E. Qed.

#[global] Instance QueryAssetResponse_laws : GoMsgLaws QueryAssetResponse.
Proof.
  apply (own_laws QueryAssetResponse_switch (fun m => msg_wf (qa_res_Asset m))); [done| | |intros m; unfold QueryAssetResponse_switch; knows_fields|apply rwa_QueryAssetResponse_consumes].
  - intros m Hm. simpl. unfold QueryAssetResponse_MarshalToSizedBuffer, QueryAssetResponse_Size, QueryAssetResponse_schema. encodes_fields.
  - intros [x1] Hm. reads_start (proto3_field (1, FMsg (fields x1)) ++ [] : bytes).
    reads_scalar. apply rd_nil.
Defined.

(** [QueryAssetsByIssuerRequest]. *)

Record QueryAssetsByIssuerRequest : Type := mkQueryAssetsByIssuerRequest {
  qabi_req_Issuer : string;
  qabi_req_Pagination : option PageRequest
}.

Definition QueryAssetsByIssuerRequest_Size (m : QueryAssetsByIssuerRequest) : Z :=
  size_string (qabi_req_Issuer m) + size_opt (qabi_req_Pagination m).

Definition QueryAssetsByIssuerRequest_MarshalToSizedBuffer (m : QueryAssetsByIssuerRequest) (w : writer) : res writer :=
  w ← wr_opt x12 (qabi_req_Pagination m) w;
  wr_string x0a (qabi_req_Issuer m) w.

Definition QueryAssetsByIssuerRequest_switch (l fieldNum wireType : Z) (m : QueryAssetsByIssuerRequest) (b : bytes) : option (res (QueryAssetsByIssuerRequest * bytes)) :=
  match fieldNum with
  | 1 => Some ('(s, b) ← rd_string l wireType b;
      Ok (mkQueryAssetsByIssuerRequest s (qabi_req_Pagination m), b))
  | 2 => Some ('(s, b) ← rd_msg (default msg_zero (qabi_req_Pagination m)) l wireType b;
      Ok (mkQueryAssetsByIssuerRequest (qabi_req_Issuer m) (Some s), b))
  | _ => None
  end.

#[global] Instance QueryAssetsByIssuerRequest_msg : GoMsg QueryAssetsByIssuerRequest := {|
  msg_zero := mkQueryAssetsByIssuerRequest "" None;
  msg_Size := QueryAssetsByIssuerRequest_Size;
  msg_MarshalToSizedBuffer := QueryAssetsByIssuerRequest_MarshalToSizedBuffer;
  msg_Unmarshal := unmarshal QueryAssetsByIssuerRequest_switch
|}.

#[global] Instance QueryAssetsByIssuerRequest_schema : Schema QueryAssetsByIssuerRequest := fun m =>
  [(1, FString (qabi_req_Issuer m));
   (2, FMsgs (match (qabi_req_Pagination m) with Some x => [fields x] | None => [] end))].

Lemma rwa_QueryAssetsByIssuerRequest_consumes : switch_consumes QueryAssetsByIssuerRequest_switch.
Proof. intros l k wt m b r ? E. unfold QueryAssetsByIssuerRequest_switch in E. consumes_fields E. Qed.

#[global] Instance QueryAssetsByIssuerRequest_laws : GoMsgLaws QueryAssetsByIssuerRequest.
Proof.
  apply (own_laws QueryAssetsByIssuerRequest_switch (fun m => (forall x, qabi_req_Pagination m = Some x -> msg_wf x))); [done| | |intros m; unfold QueryAssetsByIssuerRequest_switch; knows_fields|apply rwa_QueryAssetsByIssuerRequest_consumes].
  - intros m Hm. simpl. unfold QueryAssetsByIssuerRequest_MarshalToSizedBuffer, QueryAssetsByIssuerRequest_Size, QueryAssetsByIssuerRequest_schema. encodes_fields.
  - intros [x1 x2] Hm. reads_start (proto3_field (1, FString x1) ++ proto3_field (2, FMsgs (match x2 with Some x => [fields x] | None => [] end)) ++ [] : bytes).
    reads_scalar. reads_optional (fun v => mkQueryAssetsByIssuerRequest x1 v). apply rd_nil.
Defined.

(** [QueryAssetsByIssuerResponse]. *)

Record QueryAssetsByIssuerResponse : Type := mkQueryAssetsByIssuerResponse {
  qabi_res_Assets : list AssetRecord;
  qabi_res_Pagination : option PageResponse
}.

Definition QueryAssetsByIssuerResponse_Size (m : QueryAssetsByIssuerResponse) : Z :=
  size_msgs (qabi_res_Assets m) + size_opt (qabi_res_Pagination m).

Definition QueryAssetsByIssuerResponse_MarshalToSizedBuffer (m : QueryAssetsByIssuerResponse) (w : writer) : res writer :=
  w ← wr_opt x12 (qabi_res_Pagination m) w;
  wr_msgs x0a (qabi_res_Assets m) w.

Definition QueryAssetsByIssuerResponse_switch (l fieldNum wireType : Z) (m : QueryAssetsByIssuerResponse) (b : bytes) : option (res (QueryAssetsByIssuerResponse * bytes)) :=
  match fieldNum with
  | 1 => Some ('(s, b) ← rd_msg msg_zero l wireType b;
      Ok (mkQueryAssetsByIssuerResponse (qabi_res_Assets m ++ [s]) (qabi_res_Pagination m), b))
  | 2 => Some ('(s, b) ← rd_msg (default msg_zero (qabi_res_Pagination m)) l wireType b;
      Ok (mkQueryAssetsByIssuerResponse (qabi_res_Assets m) (Some s), b))
  | _ => None
  end.

#[global] Instance QueryAssetsByIssuerResponse_msg : GoMsg QueryAssetsByIssuerResponse := {|
  msg_zero := mkQueryAssetsByIssuerResponse [] None;
  msg_Size := QueryAssetsByIssuerResponse_Size;
  msg_MarshalToSizedBuffer := QueryAssetsByIssuerResponse_MarshalToSizedBuffer;
  msg_Unmarshal := unmarshal QueryAssetsByIssuerResponse_switch
|}.

#[global] Instance QueryAssetsByIssuerResponse_schema : Schema QueryAssetsByIssuerResponse := fun m =>
  [(1, FMsgs (fields <$> (qabi_res_Assets m)));
   (2, FMsgs (match (qabi_res_Pagination m) with Some x => [fields x] | None => [] end))].

Lemma rwa_QueryAssetsByIssuerResponse_consumes : switch_consumes QueryAssetsByIssuerResponse_switch.
Proof. intros l k wt m b r ? E. unfold QueryAssetsByIssuerResponse_switch in E. consumes_fields E. Qed.

#[global] Instance QueryAssetsByIssuerResponse_laws : GoMsgLaws QueryAssetsByIssuerResponse.
Proof.
  apply (own_laws QueryAssetsByIssuerResponse_switch (fun m => Forall msg_wf (qabi_res_Assets m) /\ (forall x, qabi_res_Pagination m = Some x -> msg_wf x))); [done| | |intros m; unfold QueryAssetsByIssuerResponse_switch; knows_fields|apply rwa_QueryAssetsByIssuerResponse_consumes].
  - intros m Hm. simpl. unfold QueryAssetsByIssuerResponse_MarshalToSizedBuffer, QueryAssetsByIssuerResponse_Size, QueryAssetsByIssuerResponse_schema. encodes_fields.
  - intros [x1 x2] Hm. reads_start (proto3_field (1, FMsgs (fields <$> x1)) ++ proto3_field (2, FMsgs (match x2 with Some x => [fields x] | None => [] end)) ++ [] : bytes).
    reads_repeated (fun v => mkQueryAssetsByIssuerResponse v None). reads_optional (fun v => mkQueryAssetsByIssuerResponse x1 v). apply rd_nil.
Defined.

(** [QueryRestrictionsRequest]. *)

Record QueryRestrictionsRequest : Type := mkQueryRestrictionsRequest {
  qr_req_AssetId : string
}.

Definition QueryRestrictionsRequest_Size (m : QueryRestrictionsRequest) : Z :=
  size_string (qr_req_AssetId m).

Definition QueryRestrictionsRequest_MarshalToSizedBuffer (m : QueryRestrictionsRequest) (w : writer) : res writer :=
  wr_string x0a (qr_req_AssetId m) w.

Definition QueryRestrictionsRequest_switch (l fieldNum wireType : Z) (m : QueryRestrictionsRequest) (b : bytes) : option (res (QueryRestrictionsRequest * bytes)) :=
  match fieldNum with
  | 1 => Some ('(s, b) ← rd_string l wireType b;
      Ok (mkQueryRestrictionsRequest s, b))
  | _ => None
  end.

#[global] Instance QueryRestrictionsRequest_msg : GoMsg QueryRestrictionsRequest := {|
  msg_zero := mkQueryRestrictionsRequest "";
  msg_Size := QueryRestrictionsRequest_Size;
  msg_MarshalToSizedBuffer := QueryRestrictionsRequest_MarshalToSizedBuffer;
  msg_Unmarshal := unmarshal QueryRestrictionsRequest_switch
|}.

#[global] Instance QueryRestrictionsRequest_schema : Schema QueryRestrictionsRequest := fun m =>
  [(1, FString (qr_req_AssetId m))].

Lemma rwa_QueryRestrictionsRequest_consumes : switch_consumes QueryRestrictionsRequest_switch.
Proof. intros l k wt m b r ? E. unfold QueryRestrictionsRequest_switch in E. consumes_fields E. Qed.

#[global] Instance QueryRestrictionsRequest_laws : GoMsgLaws QueryRestrictionsRequest.
Proof.
  apply (own_laws QueryRestrictionsRequest_switch (fun m => True)); [done| | |intros m; unfold QueryRestrictionsRequest_switch; knows_fields|apply rwa_QueryRestrictionsRequest_consumes].
  - intros m Hm. simpl. unfold QueryRestrictionsRequest_MarshalToSizedBuffer, QueryRestrictionsRequest_Size, QueryRestrictionsRequest_schema. encodes_fields.
  - intros [x1] Hm. reads_start (proto3_field (1, FString x1) ++ [] : bytes).
    reads_scalar. apply rd_nil.
Defined.

(** [QueryRestrictionsResponse]. *)

Record QueryRestrictionsResponse : Type := mkQueryRestrictionsResponse {
  qr_res_AllowAll : bool;
  qr_res_Allowlist : list string;
  qr_res_Denylist : list string
}.

Definition QueryRestrictionsResponse_Size (m : QueryRestrictionsResponse) : Z :=
  size_bool (qr_res_AllowAll m) + size_strings (qr_res_Allowlist m) + size_strings (qr_res_Denylist m).

Definition QueryRestrictionsResponse_MarshalToSizedBuffer (m : QueryRestrictionsResponse) (w : writer) : res writer :=
  w ← wr_strings x1a (qr_res_Denylist m) w;
  w ← wr_strings x12 (qr_res_Allowlist m) w;
  wr_bool x08 (qr_res_AllowAll m) w.

Definition QueryRestrictionsResponse_switch (l fieldNum wireType : Z) (m : QueryRestrictionsResponse) (b : bytes) : option (res (QueryRestrictionsResponse * bytes)) :=
  match fieldNum with
  | 1 => Some ('(s, b) ← rd_bool wireType b;
      Ok (mkQueryRestrictionsResponse s (qr_res_Allowlist m) (qr_res_Denylist m), b))
  | 2 => Some ('(s, b) ← rd_string l wireType b;
      Ok (mkQueryRestrictionsResponse (qr_res_AllowAll m) (qr_res_Allowlist m ++ [s]) (qr_res_Denylist m), b))
  | 3 => Some ('(s, b) ← rd_string l wireType b;
      Ok (mkQueryRestrictionsResponse (qr_res_AllowAll m) (qr_res_Allowlist m) (qr_res_Denylist m ++ [s]), b))
  | _ => None
  end.

#[global] Instance QueryRestrictionsResponse_msg : GoMsg QueryRestrictionsResponse := {|
  msg_zero := mkQueryRestrictionsResponse false [] [];
  msg_Size := QueryRestrictionsResponse_Size;
  msg_MarshalToSizedBuffer := QueryRestrictionsResponse_MarshalToSizedBuffer;
  msg_Unmarshal := unmarshal QueryRestrictionsResponse_switch
|}.

#[global] Instance QueryRestrictionsResponse_schema : Schema QueryRestrictionsResponse := fun m =>
  [(1, FBool (qr_res_AllowAll m));
   (2, FStrings (qr_res_Allowlist m));
   (3, FStrings (qr_res_Denylist m))].

Lemma rwa_QueryRestrictionsResponse_consumes : switch_consumes QueryRestrictionsResponse_switch.
Proof. intros l k wt m b r ? E. unfold QueryRestrictionsResponse_switch in E. consumes_fields E. Qed.

#[global] Instance QueryRestrictionsResponse_laws : GoMsgLaws QueryRestrictionsResponse.
Proof.
  apply (own_laws QueryRestrictionsResponse_switch (fun m => True)); [done| | |intros m; unfold QueryRestrictionsResponse_switch; knows_fields|apply rwa_QueryRestrictionsResponse_consumes].
  - intros m Hm. simpl. unfold QueryRestrictionsResponse_MarshalToSizedBuffer, QueryRestrictionsResponse_Size, QueryRestrictionsResponse_schema. encodes_fields.
  - intros [x1 x2 x3] Hm. reads_start (proto3_field (1, FBool x1) ++ proto3_field (2, FStrings x2) ++ proto3_field (3, FStrings x3) ++ [] : bytes).
    reads_scalar. reads_repeated_strings (fun v => mkQueryRestrictionsResponse x1 v []). reads_repeated_strings (fun v => mkQueryRestrictionsResponse x1 x2 v). apply rd_nil.
Defined.

(** [QueryParamsRequest]. *)

Record QueryParamsRequest : Type := mkQueryParamsRequest { }.

Definition QueryParamsRequest_Size (m : QueryParamsRequest) : Z :=
  0.

Definition QueryParamsRequest_MarshalToSizedBuffer (m : QueryParamsRequest) (w : writer) : res writer :=
  Ok w.

Definition QueryParamsRequest_switch (l fieldNum wireType : Z) (m : QueryParamsRequest) (b : bytes) : option (res (QueryParamsRequest * bytes)) :=
  match fieldNum with
  | _ => None
  end.

#[global] Instance QueryParamsRequest_msg : GoMsg QueryParamsRequest := {|
  msg_zero := mkQueryParamsRequest;
  msg_Size := QueryParamsRequest_Size;
  msg_MarshalToSizedBuffer := QueryParamsRequest_MarshalToSizedBuffer;
  msg_Unmarshal := unmarshal QueryParamsRequest_switch
|}.

#[global] Instance QueryParamsRequest_schema : Schema QueryParamsRequest := fun m =>
  [].

Lemma rwa_QueryParamsRequest_consumes : switch_consumes QueryParamsRequest_switch.
Proof. intros l k wt m b r ? E. unfold QueryParamsRequest_switch in E. consumes_fields E. Qed.

#[global] Instance QueryParamsRequest_laws : GoMsgLaws QueryParamsRequest.
Proof.
  apply (own_laws QueryParamsRequest_switch (fun m => True)); [done| | |intros m; unfold QueryParamsRequest_switch; knows_fields|apply rwa_QueryParamsRequest_consumes].
  - intros m Hm. simpl. unfold QueryParamsRequest_MarshalToSizedBuffer, QueryParamsRequest_Size, QueryParamsRequest_schema. encodes_fields.
  - intros [] Hm. reads_start ([] : bytes).
    apply rd_nil.
Defined.

(** [QueryParamsResponse]. *)

Record QueryParamsResponse : Type := mkQueryParamsResponse {
  qp_res_Params : RWAParams
}.

Definition QueryParamsResponse_Size (m : QueryParamsResponse) : Z :=
  size_msg (qp_res_Params m).

Definition QueryParamsResponse_MarshalToSizedBuffer (m : QueryParamsResponse) (w : writer) : res writer :=
  wr_msg x0a (qp_res_Params m) w.

Definition QueryParamsResponse_switch (l fieldNum wireType : Z) (m : QueryParamsResponse) (b : bytes) : option (res (QueryParamsResponse * bytes)) :=
  match fieldNum with
  | 1 => Some ('(s, b) ← rd_msg (qp_res_Params m) l wireType b;
      Ok (mkQueryParamsResponse s, b))
  | _ => None
  end.

#[global] Instance QueryParamsResponse_msg : GoMsg QueryParamsResponse := {|
  msg_zero := mkQueryParamsResponse msg_zero;
  msg_Size := QueryParamsResponse_Size;
  msg_MarshalToSizedBuffer := QueryParamsResponse_MarshalToSizedBuffer;
  msg_Unmarshal := unmarshal QueryParamsResponse_switch
|}.

#[global] Instance QueryParamsResponse_schema : Schema QueryParamsResponse := fun m =>
  [(1, FMsg (fields (qp_res_Params m)))].

Lemma rwa_QueryParamsResponse_consumes : switch_consumes QueryParamsResponse_switch.
Proof. intros l k wt m b r ? E. unfold QueryParamsResponse_switch in E. consumes_fields E. Qed.

#[global] Instance QueryParamsResponse_laws : GoMsgLaws QueryParamsResponse.
Proof.
  apply (own_laws QueryParamsResponse_switch (fun m => msg_wf (qp_res_Params m))); [done| | |intros m; unfold QueryParamsResponse_switch; knows_fields|apply rwa_QueryParamsResponse_consumes].
  - intros m Hm. simpl. unfold QueryParamsResponse_MarshalToSizedBuffer, QueryParamsResponse_Size, QueryParamsResponse_schema. encodes_fields.
  - intros [x1] Hm. reads_start (proto3_field (1, FMsg (fields x1)) ++ [] : bytes).
    reads_scalar. apply rd_nil.
Defined.

End RwaCodec.
