(* ===== verification/TwapCodec.v ===== *)
(** * x/oracle: the response to a TWAP query

    [QueryTwapResponse] of x/oracle/types/query.pb.go, the only message with a field
    of a custom type: its price is a [LegacyDec] of cosmossdk.io/math, which writes
    and reads itself ([Size], [MarshalTo], [Unmarshal]) where the schema has a
    string. [DecWire] is that interface and [DecWireLaws] what the message relies
    on. A decimal is [None] when its pointer is nil, as in the zero value. *)

From S2P Require Import Prelude Sdk World SdkRef Wire OracleTypes Codec Foreign WireMsg.

Open Scope Z_scope.

Class DecWire : Type := {
  DecSize : option Z -> Z;
  (** The bytes that [MarshalTo] copies to the slice it is given. *)
  DecMarshalTo : option Z -> res bytes;
  DecUnmarshal : bytes -> res (option Z)
}.

(** A decimal in range is written as a text that is not empty and read back; reading
    does not panic. *)
Class DecWireLaws {D : DecWire} : Prop := {
  dec_wire d : Z.abs d < dec_limit ->
    exists b, DecMarshalTo (Some d) = Ok b /\ DecSize (Some d) = zlen b /\ DecUnmarshal b = Ok (Some d) /\ b <> [];
  dec_wire_total b : DecUnmarshal b <> Panic
}.

Section TwapCodec.
Context {T : StdTime} {D : DecWire}.

(** [size := m.F.Size(); i -= size; m.F.MarshalTo(dAtA[i:])], then the length and
    the tag; written whatever the value. *)
Definition wr_dec (tag : byte) (d : option Z) (w : writer) : res writer :=
  let size := DecSize d in
  let i := w.2 - size in
  b ← DecMarshalTo d;
  buf ← copy_at w.1 i b;
  w ← encodeVarint (buf, i) size;
  wr_byte tag w.

Definition size_dec (d : option Z) : Z := size_bytes (DecSize d).

Definition rd_dec (l wireType : Z) (b : bytes) : res (option Z * bytes) :=
  '(s, b) ← rd_bytes l wireType b; d ← DecUnmarshal s; Ok (d, b).

(** The string of the schema. *)
Definition dec_text (d : option Z) : string :=
  match DecMarshalTo d with Ok b => string_of b | _ => "" end.

Record QueryTwapResponse : Type := mkQueryTwapResponse { qt_res_Price : option Z }.

Definition QueryTwapResponse_Size (m : QueryTwapResponse) : Z := size_dec (qt_res_Price m).

Definition QueryTwapResponse_MarshalToSizedBuffer (m : QueryTwapResponse) (w : writer) : res writer :=
  wr_dec x0a (qt_res_Price m) w.

Definition QueryTwapResponse_switch (l fieldNum wireType : Z) (m : QueryTwapResponse) (b : bytes) : option (res (QueryTwapResponse * bytes)) :=
  match fieldNum with
  | 1 => Some ('(s, b) ← rd_dec l wireType b; Ok (mkQueryTwapResponse s, b))
  | _ => None
  end.

#[global] Instance QueryTwapResponse_msg : GoMsg QueryTwapResponse := {|
  msg_zero := mkQueryTwapResponse None;
  msg_Size := QueryTwapResponse_Size;
  msg_MarshalToSizedBuffer := QueryTwapResponse_MarshalToSizedBuffer;
  msg_Unmarshal := unmarshal QueryTwapResponse_switch
|}.

#[global] Instance QueryTwapResponse_schema : Schema QueryTwapResponse := fun m =>
  [(1, FString (dec_text (qt_res_Price m)))].

Definition twap_response_ok (m : QueryTwapResponse) : Prop :=
  exists d, qt_res_Price m = Some d /\ Z.abs d < dec_limit.

Context {DL : DecWireLaws}.

(** ** Lemmas *)

Lemma dec_text_eq d : Z.abs d < dec_limit -> exists b, DecMarshalTo (Some d) = Ok b /\ DecSize (Some d) = zlen b /\
  DecUnmarshal b = Ok (Some d) /\ dec_text (Some d) = string_of b /\ 0 < zlen b.
Proof.
  intros (b & Em & Es & Eu & Hb)%dec_wire. exists b. unfold dec_text. rewrite Em. split_and!; [done..|].
  destruct b; [done|]. unfold zlen. cbn. lia.
Qed.

Lemma dec_field tag k d b : base128 10 (k * 8 + 2) = [tag] -> dec_text d = string_of b -> 0 < zlen b ->
  proto3_field (k, FString (dec_text d)) = enc_bytes tag b.
Proof.
  intros Et -> Hb. rewrite <- (enc_string_field tag) by done. unfold enc_string. rewrite bytes_of_string_of.
  by replace (0 <? zlen b) with true by lia.
Qed.

Lemma encodes_fdec tag k d : base128 10 (k * 8 + 2) = [tag] -> Z.abs d < dec_limit ->
  encodes (wr_dec tag (Some d)) (proto3_field (k, FString (dec_text (Some d)))) (size_dec (Some d)).
Proof.
  intros Et (b & Em & Es & _ & Ex & Hb)%dec_text_eq. rewrite (dec_field tag k _ b) by done.
  unfold size_dec. rewrite Es. pose proof (size_bytes_bound (zlen b) ltac:(lia)).
  split; [lia|]. intros Hs. split; [|apply enc_bytes_len; unfold two63, two64 in *; lia].
  intros n suf w Hw Hn. unfold wr_dec. rewrite Em, Es. cbn [mbind res_bind].
  apply (writes_bytes tag b); [unfold two63, two64 in *; lia|done..].
Qed.

Lemma rd_dec_consumes l wt b : zlen b <= l < two63 -> consumes b (rd_dec l wt b).
Proof.
  intros Hl. unfold rd_dec. pose proof (rd_bytes_consumes l wt b Hl) as H.
  destruct (rd_bytes l wt b) as [[s rest]| |]; [|done..]. cbn [mbind res_bind].
  destruct (DecUnmarshal s) eqn:E; [exact H|done|by apply dec_wire_total in E].
Qed.

Hint Resolve rd_dec_consumes : codec.

Lemma oracle_QueryTwapResponse_consumes : switch_consumes QueryTwapResponse_switch.
Proof. intros l k wt m b r ? E. unfold QueryTwapResponse_switch in E. consumes_fields E. Qed.

#[global] Instance QueryTwapResponse_laws : GoMsgLaws QueryTwapResponse.
Proof.
  apply (own_laws QueryTwapResponse_switch twap_response_ok);
    [done| | |intros m; unfold QueryTwapResponse_switch; knows_fields|apply oracle_QueryTwapResponse_consumes].
  - intros [p] (d & E & Hd). simpl in E. subst p.
    unfold proto3_encode, fields, QueryTwapResponse_schema. cbn [mbind list_bind qt_res_Price]. rewrite app_nil_r.
    by apply encodes_fdec.
  - intros [p] (d & E & Hd). simpl in E. subst p. destruct (dec_text_eq d Hd) as (b & _ & _ & Eu & Ex & Hb).
    unfold proto3_encode, fields, QueryTwapResponse_schema. cbn [mbind list_bind qt_res_Price]. rewrite app_nil_r.
    rewrite (dec_field x0a 1 _ b), (enc_bytes_delimited x0a 1) by done.
    apply (reads_fdelimited _ 1 _ _ DecUnmarshal mkQueryTwapResponse b (Some d)); [lia| |done|done].
    intros l c. unfold QueryTwapResponse_switch, rd_dec. destruct (rd_bytes l 2 c) as [[s r]| |]; [|done..].
    cbn [mbind res_bind]. by destruct (DecUnmarshal s).
Defined.

End TwapCodec.

(** ** A reference instance: decimal text of the number of units *)

#[global] Instance D_ref : DecWire := {|
  DecSize d := zlen (int_bytes (default 0 d));
  DecMarshalTo d := Ok (int_bytes (default 0 d));
  DecUnmarshal b := if decide (b = []) then Ok None else
    match int_literal (string_of b) with
    | Some d => if decide (Z.abs d < dec_limit) then Ok (Some d) else Err (Errorf "decimal out of range")
    | None => Err (Errorf "bad decimal")
    end
|}.

#[global] Instance DL_ref : DecWireLaws.
Proof.
  split.
  - intros d Hd. exists (int_bytes d). assert (int_bytes d <> []) as Hn.
    { intros E. pose proof (int_literal_print d) as H. by rewrite E in H. }
    split_and!; [done..| |done]. cbn -[dec_limit]. rewrite decide_False by done.
    by rewrite int_literal_print, decide_True.
  - intros b. cbn -[dec_limit]. repeat case_match; done.
Qed.
