(* ===== verification/Pulsar.v ===== *)
(** * The client API: wire code

    The files of api/vertix/ are the protobuf bindings that clients (and the
    modules' autocli and signing code) use: a struct per message that keeps the
    unknown fields of its input, a reflection view (file Reflect) and the methods
    [size], [marshal] and [unmarshal] of [ProtoMethods]. This file has the pieces
    those methods are made of, the interface [PulsarMsg] that every message
    implements, and what it promises. The runtime of cosmos-proto and the option
    methods of google.golang.org/protobuf are parameters. *)

From S2P Require Import Prelude Sdk World SdkRef Wire Codec Foreign WireMsg.

Open Scope Z_scope.

(** ** The runtime *)

(** github.com/cosmos/cosmos-proto/runtime, and the methods of
    [proto.MarshalOptions] and [proto.UnmarshalOptions] that call a message's own
    fast-path methods. *)
Class ProtoRuntime : Type := {
  rt_Sov : Z -> Z;
  rt_EncodeVarint : writer -> Z -> res writer;
  rt_Skip : bytes -> res Z;
  opt_Size : forall {A}, (option A -> Z) -> option A -> Z;
  opt_Marshal : forall {A}, (bytes -> option A -> res bytes) -> option A -> res bytes;
  opt_Unmarshal : forall {A}, (bool -> bytes -> option A -> res (option A)) -> bool -> bytes -> A -> res A
}.

(** [Sov] is the length of a varint, [EncodeVarint] writes it before the index;
    [Skip] returns, and skips at least the tag, and of a well-formed field all of
    it; the options run the message's methods, [Unmarshal] merging into the message
    it is given. *)
Class ProtoRuntimeLaws {P : ProtoRuntime} : Prop := {
  rt_sov v : 0 <= v -> rt_Sov v = sov v;
  rt_varint w v : rt_EncodeVarint w v = encodeVarint w v;
  rt_skip b : zlen b < two63 -> match rt_Skip b with Ok n => 0 < n | Err _ => True | Panic => False end;
  rt_skip_field ks f b : foreign_field ks f -> zlen (f ++ b) < two63 -> rt_Skip (f ++ b) = Ok (zlen f);
  opt_size {A} (f : option A -> Z) o : opt_Size f o = f o;
  opt_marshal {A} (f : bytes -> option A -> res bytes) o : opt_Marshal f o = f [] o;
  opt_unmarshal {A} (f : bool -> bytes -> option A -> res (option A)) d b m :
    opt_Unmarshal f d b m = (o ← f d b (Some m); match o with Some m => Ok m | None => Panic end)
}.

(** ** Sizes and writing *)

Section Writing.
Context {P : ProtoRuntime}.

Definition pz_bytes (n : Z) : Z := 1 + n + rt_Sov n.
Definition pz_string (s : string) : Z := let l := zlen (bytes_of s) in if 0 <? l then pz_bytes l else 0.
Definition pz_strings (l : list string) : Z := foldr (fun s n => n + pz_bytes (zlen (bytes_of s))) 0 l.
Definition pz_int (v : Z) : Z := if negb (v =? 0) then 1 + rt_Sov (u64 v) else 0.
Definition pz_bool (b : bool) : Z := if b then 2 else 0.

(** [copy(dAtA[i:], s); i = runtime.EncodeVarint(dAtA, i, uint64(len(s))); i--; dAtA[i] = tag]. *)
Definition pw_bytes (tag : byte) (s : bytes) (w : writer) : res writer :=
  let i := w.2 - zlen s in
  buf ← copy_at w.1 i s;
  w ← rt_EncodeVarint (buf, i) (zlen s);
  wr_byte tag w.
Definition pw_string (tag : byte) (s : string) (w : writer) : res writer :=
  if 0 <? zlen (bytes_of s) then pw_bytes tag (bytes_of s) w else Ok w.
Fixpoint pw_strings (tag : byte) (l : list string) (w : writer) : res writer :=
  match l with
  | [] => Ok w
  | s :: l => w ← pw_strings tag l w; pw_bytes tag (bytes_of s) w
  end.
Definition pw_int (tag : byte) (v : Z) (w : writer) : res writer :=
  if negb (v =? 0) then w ← rt_EncodeVarint w (u64 v); wr_byte tag w else Ok w.
Definition pw_bool (tag : byte) (b : bool) (w : writer) : res writer :=
  if b then w ← wr_byte x01 w; wr_byte tag w else Ok w.

(** [if x.unknownFields != nil { i -= len(x.unknownFields); copy(dAtA[i:], x.unknownFields) }]. *)
Definition pw_raw (s : bytes) (w : writer) : res writer :=
  let i := w.2 - zlen s in buf ← copy_at w.1 i s; Ok (buf, i).

End Writing.

(** ** The fast-path methods of a message type *)

Class PulsarMsg (A : Type) : Type := {
  pm_new : A;
  pm_size : option A -> Z;
  pm_marshal : bytes -> option A -> res bytes;
  pm_unmarshal : bool -> bytes -> option A -> res (option A);
  pm_unknown : A -> bytes;
  pm_set_unknown : bytes -> A -> A
}.

Section Methods.
Context {P : ProtoRuntime}.

(** The frame of [marshal]: a buffer of the computed size filled from its end, and
    appended to the input buffer; a nil message leaves it as it is. *)
Definition pulsar_marshal {A} (size : option A -> Z) (fill : A -> writer -> res writer)
    (buf : bytes) (o : option A) : res bytes :=
  match o with
  | None => Ok buf
  | Some x =>
      let dAtA := replicate (Z.to_nat (opt_Size size (Some x))) x00 in
      w ← fill x (dAtA, zlen dAtA);
      Ok (buf ++ w.1)
  end.

(** The loop of [unmarshal] over the [switch] on the field number; its default
    branch keeps the bytes of the field, unless they are to be discarded. *)
Section Loop.
Context {A : Type} (switch_ : Z -> Z -> Z -> A -> bytes -> option (res (A * bytes))).
Context (append_unknown : bytes -> A -> A) (discard : bool).

Fixpoint pulsar_loop (fuel : nat) (l : Z) (x : A) (b : bytes) : res A :=
  match b with
  | [] => Ok x
  | _ :: _ =>
      match fuel with
      | O => Panic
      | S fuel =>
          '(wire, rest) ← varint b;
          let fieldNum := wrap32 (Z.shiftr wire 3) in
          let wireType := Z.land wire 7 in
          if wireType =? 4 then Err ErrEndGroup else
          if fieldNum <=? 0 then Err ErrIllegalTag else
          match switch_ l fieldNum wireType x rest with
          | Some r => '(x, b) ← r; pulsar_loop fuel l x b
          | None =>
              skippy ← rt_Skip b;
              let iNdEx := l - zlen b in
              if (skippy <? 0) || (wrap64 (iNdEx + skippy) <? 0) then Err ErrInvalidLength else
              if l <? wrap64 (iNdEx + skippy) then Err ErrUnexpectedEOF else
              let x := if discard then x else append_unknown (take (Z.to_nat skippy) b) x in
              pulsar_loop fuel l x (drop (Z.to_nat skippy) b)
          end
      end
  end.

End Loop.

Definition pulsar_unmarshal {A} (switch_ : bool -> Z -> Z -> Z -> A -> bytes -> option (res (A * bytes)))
    (append_unknown : bytes -> A -> A) (discard : bool) (dAtA : bytes) (o : option A) : res (option A) :=
  match o with
  | None => Ok None
  | Some x => x ← pulsar_loop (switch_ discard) append_unknown discard (length dAtA) (zlen dAtA) x dAtA; Ok (Some x)
  end.

(** Fields of message type: pointers, and lists of pointers. *)
Section Fields.
Context {A : Type} {M : PulsarMsg A}.

Definition pz_msg (o : option A) : Z := match o with Some _ => pz_bytes (opt_Size pm_size o) | None => 0 end.
Definition pz_msgs (l : list (option A)) : Z := foldr (fun e n => n + pz_bytes (opt_Size pm_size e)) 0 l.

Definition pw_elem (tag : byte) (o : option A) (w : writer) : res writer :=
  encoded ← opt_Marshal pm_marshal o; pw_bytes tag encoded w.
Definition pw_msg (tag : byte) (o : option A) (w : writer) : res writer :=
  match o with Some _ => pw_elem tag o w | None => Ok w end.
Fixpoint pw_msgs (tag : byte) (l : list (option A)) (w : writer) : res writer :=
  match l with
  | [] => Ok w
  | e :: l => w ← pw_msgs tag l w; pw_elem tag e w
  end.

(** [if x.F == nil { x.F = &A{} }; options.Unmarshal(dAtA[iNdEx:postIndex], x.F)]. *)
Definition pr_msg (discard : bool) (cur : option A) (l wireType : Z) (b : bytes) : res (A * bytes) :=
  '(s, b) ← rd_bytes l wireType b;
  m ← opt_Unmarshal pm_unmarshal discard s (default pm_new cur);
  Ok (m, b).

End Fields.
End Methods.

(** ** What the fast-path methods promise *)

(** The message without its unknown fields and those of the messages in its fields, at
    any depth: what a decoder that discards unknown fields makes of it. *)
Class PulsarStrip (A : Type) : Type := pm_strip : A -> A.

(** All the bytes of a message: the fields of its schema, then its unknown fields. *)
Definition pm_bytes {A} {T : StdTime} {M : PulsarMsg A} {S : Schema A} (x : A) : bytes :=
  proto3_encode x ++ pm_unknown x.

(** The unknown fields of a message are fields that its schema does not have. *)
Definition pm_foreign {A} {M : PulsarMsg A} {S : Schema A} (x : A) : Prop := foreign (fields x).*1 (pm_unknown x).

Class PulsarLaws (A : Type) {T : StdTime} {P : ProtoRuntime} {M : PulsarMsg A} {S : Schema A}
    {F : PulsarStrip A} : Type := {
  pm_wf : A -> Prop;
  (** Within [int], [size] is the length that [marshal] appends: the fields of the
      schema, then the unknown fields. *)
  pm_encodes x buf : pm_wf x -> pm_size (Some x) < two63 ->
    pm_marshal buf (Some x) = Ok (buf ++ pm_bytes x) /\ zlen (pm_bytes x) = pm_size (Some x);
  pm_nil buf : pm_marshal buf None = Ok buf /\ pm_size None = 0;
  (** Decoding gives the message back, with the fields of a later schema, its own and
      those of nested messages, unless they are to be discarded. *)
  pm_keeps d x : pm_wf x -> pm_foreign x -> zlen (pm_bytes x) < two63 ->
    pm_unmarshal d (pm_bytes x) (Some pm_new) = Ok (Some (if d then pm_strip x else x));
  pm_returns d x b : zlen b < two63 -> match pm_unmarshal d b (Some x) with Ok (Some _) | Err _ => True | _ => False end
}.

(** ** Lemmas: writing *)

Section WritingLemmas.
Context {T : StdTime} {P : ProtoRuntime} {PL : ProtoRuntimeLaws}.

Lemma pz_bytes_eq n : 0 <= n -> pz_bytes n = size_bytes n.
Proof. intros Hn. unfold pz_bytes, size_bytes. by rewrite rt_sov. Qed.

Lemma pz_string_eq s : pz_string s = size_string s.
Proof. unfold pz_string, size_string. pose proof (zlen_nonneg (bytes_of s)). case_match; [by apply pz_bytes_eq|done]. Qed.

Lemma pz_strings_eq l : pz_strings l = size_strings l.
Proof.
  unfold pz_strings, size_strings. induction l as [|s l IH]; [done|]. cbn [foldr]. rewrite IH.
  by rewrite pz_bytes_eq by apply zlen_nonneg.
Qed.

Lemma pz_int_eq v : pz_int v = size_int v.
Proof. unfold pz_int, size_int. case_match; [|done]. rewrite rt_sov; [done|]. apply u64_range. Qed.

Lemma pw_bytes_eq tag s w : pw_bytes tag s w = wr_bytes tag s w.
Proof. unfold pw_bytes, wr_bytes. destruct (copy_at _ _ _); [cbn [mbind res_bind]; by rewrite rt_varint|done..]. Qed.

Lemma pw_string_eq tag s w : pw_string tag s w = wr_string tag s w.
Proof. unfold pw_string, wr_string. case_match; [apply pw_bytes_eq|done]. Qed.

Lemma pw_strings_eq tag l w : pw_strings tag l w = wr_strings tag l w.
Proof.
  revert w. induction l as [|s l IH]; intros w; [done|]. cbn [pw_strings wr_strings]. rewrite IH.
  destruct (wr_strings tag l w); [cbn [mbind res_bind]; apply pw_bytes_eq|done..].
Qed.

Lemma pw_int_eq tag v w : pw_int tag v w = wr_int tag v w.
Proof. unfold pw_int, wr_int. case_match; [by rewrite rt_varint|done]. Qed.

Lemma encodes_ext f g e s s' : (forall w, f w = g w) -> s = s' -> encodes g e s' -> encodes f e s.
Proof.
  intros Hf -> [H0 He]. split; [done|]. intros Hs. destruct (He Hs) as [W L]. split; [|done].
  intros n suf w Hw Hn. rewrite Hf. by apply W.
Qed.

Lemma pw_fstring tag k s : base128 10 (k * 8 + 2) = [tag] ->
  encodes (pw_string tag s) (proto3_field (k, FString s)) (pz_string s).
Proof. intros E. eapply encodes_ext; [apply pw_string_eq|apply pz_string_eq|by apply encodes_fstring]. Qed.

Lemma pw_fstrings tag k l : base128 10 (k * 8 + 2) = [tag] ->
  encodes (pw_strings tag l) (proto3_field (k, FStrings l)) (pz_strings l).
Proof. intros E. eapply encodes_ext; [apply pw_strings_eq|apply pz_strings_eq|by apply encodes_fstrings]. Qed.

Lemma pw_fint tag k v : base128 10 (k * 8) = [tag] ->
  encodes (pw_int tag v) (proto3_field (k, FInt v)) (pz_int v).
Proof. intros E. eapply encodes_ext; [apply pw_int_eq|apply pz_int_eq|by apply encodes_fint]. Qed.

Lemma pw_fbool tag k b : base128 10 (k * 8) = [tag] ->
  encodes (pw_bool tag b) (proto3_field (k, FBool b)) (pz_bool b).
Proof. intros E. by apply encodes_fbool. Qed.

Lemma pw_raw_encodes s : encodes (pw_raw s) s (zlen s).
Proof.
  pose proof (zlen_nonneg s). split; [done|]. intros _. split; [|done].
  intros n suf w (pre & E1 & E2 & E3) Hn. unfold pw_raw. rewrite E1, E2.
  destruct (copy_at_run pre suf s) as (pre' & E & L); [lia|]. rewrite E. cbn [mbind res_bind].
  exists (pre' ++ s ++ suf, zlen pre - zlen s). split; [done|]. exists pre'. cbn [fst snd].
  split_and!; [done|lia|]. rewrite zlen_app. lia.
Qed.

Lemma pulsar_marshal_run {A} (size : option A -> Z) (fill : A -> writer -> res writer) buf x e :
  encodes (fill x) e (size (Some x)) -> size (Some x) < two63 ->
  pulsar_marshal size fill buf (Some x) = Ok (buf ++ e) /\ zlen e = size (Some x).
Proof.
  intros [H0 He] Hs. destruct (He Hs) as [Hw Hl]. split; [|done]. unfold pulsar_marshal. rewrite opt_size.
  set (dAtA := replicate _ _). assert (zlen dAtA = size (Some x)) as Hd by (unfold dAtA, zlen; rewrite length_replicate; lia).
  destruct (Hw (size (Some x)) [] (dAtA, zlen dAtA)) as (w & -> & (pre & E1 & E2 & E3)).
  - exists dAtA. rewrite app_nil_r. change (zlen (A:=byte) []) with 0. split_and!; [done|done|lia].
  - change (zlen (A:=byte) []) with 0. lia.
  - cbn [mbind res_bind]. rewrite app_nil_r in *. rewrite E1. destruct pre as [|c pre]; [done|].
    rewrite zlen_cons in E3. pose proof (zlen_nonneg pre). lia.
Qed.

Context {A : Type} {M : PulsarMsg A} {S : Schema A} {F : PulsarStrip A} {L : PulsarLaws A}.

(** A message that a message field may hold: its unknown fields, if it has any, are
    fields of a later schema. *)
Definition pm_good (x : A) : Prop := pm_wf x /\ pm_foreign x.

(** A message without unknown fields, at any depth. *)
Definition pm_plain (x : A) : Prop := pm_wf x /\ pm_unknown x = [] /\ pm_strip x = x.

Lemma plain_good x : pm_plain x -> pm_good x.
Proof. intros (Hx & Hu & _). split; [done|]. unfold pm_foreign. rewrite Hu. constructor. Qed.

Lemma plain_bytes x : pm_plain x -> pm_bytes x = proto3_encode x.
Proof. intros (_ & Hu & _). unfold pm_bytes. rewrite Hu. apply app_nil_r. Qed.

Lemma pm_decodes d x : pm_plain x -> zlen (proto3_encode x) < two63 ->
  pm_unmarshal d (proto3_encode x) (Some pm_new) = Ok (Some x).
Proof.
  intros Hx Hl. rewrite <- (plain_bytes x Hx) in *. destruct (plain_good x Hx) as [Hw Hf]. rewrite pm_keeps by done.
  destruct Hx as (_ & _ & E). rewrite E. by destruct d.
Qed.

Lemma pw_elem_encodes tag k x : base128 10 (k * 8 + 2) = [tag] -> pm_good x ->
  encodes (pw_elem tag (Some x)) (delimited k (pm_bytes x)) (pz_bytes (opt_Size pm_size (Some x))).
Proof.
  intros Ht [Hx _]. rewrite opt_size.
  assert (0 <= pm_size (Some x)) as H0.
  { destruct (Z.lt_ge_cases (pm_size (Some x)) two63) as [Hs|Hs]; [|unfold two63 in *; lia].
    destruct (pm_encodes x [] Hx Hs) as [_ <-]. apply zlen_nonneg. }
  rewrite pz_bytes_eq by done. split; [by apply size_bytes_pos|]. intros Hs.
  pose proof (size_bytes_bound _ H0). destruct (pm_encodes x [] Hx ltac:(lia)) as [Em El].
  rewrite <- (enc_bytes_delimited tag) by done. split.
  - intros n suf w Hw Hn. unfold pw_elem. rewrite opt_marshal, Em. cbn [mbind res_bind app]. rewrite pw_bytes_eq.
    apply writes_bytes; [unfold two63, two64 in *; lia|done|done].
  - rewrite enc_bytes_len by (unfold two63, two64 in *; lia). by rewrite El.
Qed.

(** The fields of a message in a message field: those of its schema, and what it has
    beyond it. *)
Definition all_fields (x : A) : list (Z * field_value) := fields x ++ [(0, FRaw (pm_unknown x))].
Definition ptr_fields (o : option A) : list (list (Z * field_value)) := match o with Some x => [all_fields x] | None => [] end.
Definition elem_fields (o : option A) : list (Z * field_value) := match o with Some x => all_fields x | None => [] end.

Lemma all_fields_bytes x : all_fields x ≫= proto3_field = pm_bytes x.
Proof. unfold all_fields, pm_bytes, proto3_encode. rewrite bind_app. f_equal. apply app_nil_r. Qed.

Lemma ptr_fields_some k x : proto3_field (k, FMsgs (ptr_fields (Some x))) = delimited k (pm_bytes x).
Proof. rewrite <- all_fields_bytes. apply (app_nil_r (delimited k (all_fields x ≫= proto3_field))). Qed.

Lemma elem_fields_cons k x l : proto3_field (k, FMsgs (elem_fields <$> Some x :: l)) =
  delimited k (pm_bytes x) ++ proto3_field (k, FMsgs (elem_fields <$> l)).
Proof. by rewrite <- all_fields_bytes. Qed.

Lemma pw_fmsg tag k o : base128 10 (k * 8 + 2) = [tag] -> (forall x, o = Some x -> pm_good x) ->
  encodes (pw_msg tag o) (proto3_field (k, FMsgs (ptr_fields o))) (pz_msg o).
Proof.
  intros Ht Hx. destruct o as [x|]; [|apply encodes_nothing].
  rewrite ptr_fields_some.
  apply pw_elem_encodes; [done|by apply Hx].
Qed.

(** The pointers of a repeated field are not nil. *)
Definition elems_good (l : list (option A)) : Prop := Forall (fun o => exists x, o = Some x /\ pm_good x) l.

Lemma pw_fmsgs tag k l : base128 10 (k * 8 + 2) = [tag] -> elems_good l ->
  encodes (pw_msgs tag l) (proto3_field (k, FMsgs (elem_fields <$> l))) (pz_msgs l).
Proof.
  intros Ht. induction 1 as [|o l (x & -> & Hx) HF IH]; [apply encodes_nothing|].
  pose proof (encodes_comp _ _ _ _ _ _ IH (pw_elem_encodes tag k x Ht Hx)) as H.
  rewrite elem_fields_cons. cbn [pz_msgs foldr pw_msgs]. fold (pz_msgs l). by rewrite Z.add_comm.
Qed.

(** A message field after decoding: stripped when unknown fields are discarded. *)
Definition pstrip (d : bool) (o : option A) : option A := if d then option_map pm_strip o else o.
Definition pstrips (d : bool) (l : list (option A)) : list (option A) := if d then option_map pm_strip <$> l else l.

End WritingLemmas.

(** ** Lemmas: reading *)

Section ReadingLemmas.
Context {T : StdTime} {P : ProtoRuntime} {PL : ProtoRuntimeLaws}.
Context {B : Type} (sw : Z -> Z -> Z -> B -> bytes -> option (res (B * bytes))) (app_ : bytes -> B -> B) (d : bool).

Definition preads (e : bytes) (m m' : B) : Prop :=
  forall fuel l b, (length e + length b <= fuel)%nat -> zlen (e ++ b) <= l < two63 ->
    exists fuel', (length b <= fuel')%nat /\
      pulsar_loop sw app_ d fuel l m (e ++ b) = pulsar_loop sw app_ d fuel' l m' b.

#[global] Instance preads_reader : FieldReader sw preads.
Proof.
  constructor.
  - intros m fuel l b Hf _. exists fuel. split; [cbn in Hf; lia|done].
  - intros e1 e2 m m1 m2 H1 H2 fuel l b Hf Hl. rewrite <- app_assoc in *.
    destruct (H1 fuel l (e2 ++ b)) as (f1 & Hf1 & ->); [rewrite !length_app in *; lia|done|].
    apply H2; [by rewrite <- length_app|]. rewrite zlen_app in Hl. pose proof (zlen_nonneg e1). lia.
  - intros tag k wt enc m m' (T1 & T2 & T3 & T4 & T5) Hsw fuel l b Hf Hl. cbn [app length] in *.
    destruct fuel as [|fuel]; [lia|]. exists fuel. split; [lia|]. cbn [pulsar_loop].
    rewrite varint_byte by done. cbn [mbind res_bind]. rewrite T2, T3.
    replace (wt =? 4) with false by (symmetry; by apply Z.eqb_neq). replace (k <=? 0) with false by lia.
    rewrite Hsw; [done|]. rewrite zlen_cons in Hl. lia.
Qed.

Lemma pulsar_loop_reads m m' e : preads e m m' -> zlen e < two63 ->
  pulsar_loop sw app_ d (length e) (zlen e) m e = Ok m'.
Proof.
  intros Hr Hl. destruct (Hr (length e) (zlen e) []) as (f & _ & E); [cbn; lia|rewrite app_nil_r; lia|].
  rewrite app_nil_r in E. rewrite E. by destruct f.
Qed.

(** The default branch keeps a foreign field, or drops it. *)
Lemma preads_foreign_field ks f m : switch_knows ks sw -> foreign_field ks f ->
  preads f m (if d then m else app_ f m).
Proof.
  intros Hk Hf fuel l b Hfu Hl. pose proof (foreign_pos ks f Hf) as H0.
  destruct fuel as [|fuel]; [unfold zlen in H0; lia|]. exists fuel. split; [unfold zlen in H0; lia|].
  pose proof (rt_skip_field ks f b Hf ltac:(lia)) as Es.
  assert (Z.to_nat (zlen f) = length f) as En by (unfold zlen; lia).
  pose proof (take_app_length f b) as Et. pose proof (drop_app_length f b) as Er.
  assert (zlen f <= zlen (f ++ b)) as Hle by (rewrite zlen_app; pose proof (zlen_nonneg b); lia).
  apply foreign_key in Hf as (k & wt & e & Hn & Hr & Hw & Ef).
  assert (varint (f ++ b) = Ok (k * 8 + wt, e ++ b)) as Ev.
  { rewrite Ef, <- app_assoc. apply varint_key; lia. }
  destruct (key_parts k wt) as [K1 K2]; [lia..|].
  destruct (f ++ b) as [|x y] eqn:Ed; [change (zlen (A:=byte) []) with 0 in Hle; lia|].
  cbn [pulsar_loop]. rewrite Ev. cbn [mbind res_bind]. cbv zeta. rewrite K1, K2.
  replace (wt =? 4) with false by lia. replace (k <=? 0) with false by lia. rewrite Hk, Es by done. cbn [mbind res_bind].
  pose proof (zlen_nonneg (x :: y)). rewrite wrap64_id by (unfold two63 in *; lia).
  repeat (rewrite (proj2 (Z.ltb_ge _ _)) by lia). cbn [orb]. by rewrite En, Et, Er.
Qed.

Lemma preads_foreign ks u m : switch_knows ks sw -> (forall x, app_ [] x = x) ->
  (forall s s' x, app_ s' (app_ s x) = app_ (s ++ s') x) -> foreign ks u -> preads u m (if d then m else app_ u m).
Proof.
  intros Hk H0 Ha Hu. revert m. induction Hu as [|f u Hf _ IH]; intros m.
  - replace (if d then m else app_ [] m) with m by (rewrite H0; by destruct d). apply rd_nil.
  - eapply rd_app; [by apply (preads_foreign_field ks)|].
    replace (if d then m else app_ (f ++ u) m) with (if d then if d then m else app_ f m else app_ u (if d then m else app_ f m));
      [apply IH|]. destruct d; [done|apply Ha].
Qed.

Lemma pulsar_loop_returns fuel l m b : switch_consumes sw -> (length b <= fuel)%nat -> zlen b <= l < two63 ->
  returns (pulsar_loop sw app_ d fuel l m b).
Proof.
  intros Hsw. revert m b. induction fuel as [|fuel IH]; intros m [|c b0] Hl Hb; try done; [cbn in Hl; lia|].
  cbn [pulsar_loop]. set (b := c :: b0) in *. read_varint b n rest. cbn zeta.
  destruct (_ =? 4); [done|]. destruct (_ <=? 0); [done|].
  destruct (sw l _ _ m rest) as [r|] eqn:Er.
  - apply Hsw in Er; [|unfold zlen in *; lia]. destruct r as [[m' b']| |]; [|done..]. cbn in Er |- *.
    apply IH; unfold zlen in *; lia.
  - pose proof (rt_skip b ltac:(lia)) as Hs. destruct (rt_Skip b) as [j| |]; [|done..].
    cbn [mbind res_bind]. destruct (_ || _); [done|]. destruct (_ <? _); [done|].
    apply IH; unfold zlen in *; rewrite length_drop; lia.
Qed.

End ReadingLemmas.

Section MessageFields.
Context {T : StdTime} {P : ProtoRuntime} {PL : ProtoRuntimeLaws}.
Context {A : Type} {M : PulsarMsg A} {S : Schema A} {F : PulsarStrip A} {L : PulsarLaws A}.

Lemma pr_msg_consumes d (cur : option A) l wt b : zlen b <= l < two63 -> consumes b (pr_msg d cur l wt b).
Proof.
  intros Hl. unfold pr_msg. pose proof (rd_bytes_consumes l wt b Hl) as H.
  destruct (rd_bytes l wt b) as [[s rest]| |] eqn:E; [|done..]. cbn [mbind res_bind].
  apply rd_bytes_short in E; [|lia]. rewrite opt_unmarshal. pose proof (pm_returns d (default pm_new cur) s E) as Hr.
  destruct (pm_unmarshal d s (Some (default pm_new cur))) as [[m|]| |]; [exact H|done|done|done].
Qed.

Context {B : Type} (R : bytes -> B -> B -> Prop)
  {sw : Z -> Z -> Z -> B -> bytes -> option (res (B * bytes))} {FR : FieldReader sw R}.

Lemma preads_elem d k m (upd : A -> B) x : 0 < k < 16 -> pm_good x ->
  (forall l b, sw l k 2 m b = Some ('(s, b) ← pr_msg d None l 2 b; Ok (upd s, b))) ->
  R (delimited k (pm_bytes x)) m (upd (if d then pm_strip x else x)).
Proof.
  intros Hk [Hx Hf] Hsw.
  eapply (reads_fdelimited R k m _ (fun s => opt_Unmarshal pm_unmarshal d s pm_new) upd); [done| | |done].
  - intros l b. rewrite Hsw. unfold pr_msg. destruct (rd_bytes l 2 b) as [[s r]| |]; [|done..]. cbn [mbind res_bind default].
    by destruct (opt_Unmarshal pm_unmarshal d s pm_new).
  - intros Hl. by rewrite opt_unmarshal, pm_keeps.
Qed.

Lemma preads_fmsg d k (upd : option A -> B) o : 0 < k < 16 -> (forall x, o = Some x -> pm_good x) ->
  (forall l b, sw l k 2 (upd None) b = Some ('(s, b) ← pr_msg d None l 2 b; Ok (upd (Some s), b))) ->
  R (proto3_field (k, FMsgs (ptr_fields o))) (upd None) (upd (pstrip d o)).
Proof.
  intros Hk Hx Hsw. destruct o as [x|]; [|by destruct d; apply rd_nil].
  rewrite ptr_fields_some. replace (pstrip d (Some x)) with (Some (if d then pm_strip x else x)) by (by destruct d).
  apply (preads_elem d k (upd None) (fun s => upd (Some s))); [done|by apply Hx|done].
Qed.

Lemma preads_fmsgs d k (upd : list (option A) -> B) xs : 0 < k < 16 -> elems_good xs ->
  (forall l ys b, sw l k 2 (upd ys) b = Some ('(s, b) ← pr_msg d None l 2 b; Ok (upd (ys ++ [Some s]), b))) ->
  R (proto3_field (k, FMsgs (elem_fields <$> xs))) (upd []) (upd (pstrips d xs)).
Proof.
  intros Hk Hx Hsw. change (pstrips d xs) with ([] ++ pstrips d xs). generalize (@nil (option A)).
  induction Hx as [|o xs (x & -> & Hx) _ IH]; intros ys.
  - replace (pstrips d []) with (@nil (option A)) by (by destruct d). rewrite app_nil_r. apply rd_nil.
  - set (x' := if d then pm_strip x else x).
    replace (pstrips d (Some x :: xs)) with ([Some x'] ++ pstrips d xs) by (by destruct d).
    rewrite app_assoc, elem_fields_cons.
    eapply rd_app; [|apply IH]. by apply (preads_elem d k (upd ys) (fun s => upd (ys ++ [Some s]))).
Qed.

End MessageFields.

#[export] Hint Resolve pr_msg_consumes : codec.

(** The laws of a message whose methods have the two frames. *)
Section Own.
Context {T : StdTime} {P : ProtoRuntime} {PL : ProtoRuntimeLaws}.
Context {A : Type} {M : PulsarMsg A} {S : Schema A} {F : PulsarStrip A}.

(** [x.unknownFields = append(x.unknownFields, s...)]. *)
Definition append_unknown (s : bytes) (x : A) : A := pm_set_unknown (pm_unknown x ++ s) x.

(** The unknown fields are a component of their own. *)
Record unknown_lens (wf : A -> Prop) : Prop := {
  ul_id x : pm_set_unknown (pm_unknown x) x = x;
  ul_get u (x : A) : pm_unknown (pm_set_unknown u x) = u;
  ul_set u v (x : A) : pm_set_unknown u (pm_set_unknown v x) = pm_set_unknown u x;
  ul_fields u (x : A) : fields (pm_set_unknown u x) = fields x;
  ul_strip u (x : A) : pm_strip (pm_set_unknown u x) = pm_strip x;
  ul_wf u (x : A) : wf x -> wf (pm_set_unknown u x)
}.

Definition own_pulsar (sw : bool -> Z -> Z -> Z -> A -> bytes -> option (res (A * bytes)))
  (fill : A -> writer -> res writer) (wf : A -> Prop)
  (HM : forall buf o, pm_marshal buf o = pulsar_marshal pm_size fill buf o)
  (HU : forall d b o, pm_unmarshal d b o = pulsar_unmarshal sw append_unknown d b o)
  (H0 : pm_size (A := A) None = 0)
  (HL : unknown_lens wf)
  (He : forall x, wf x -> encodes (fill x) (pm_bytes x) (pm_size (Some x)))
  (Hr : forall d x, wf x -> pm_unknown x = [] ->
     preads (sw d) append_unknown d (proto3_encode x) pm_new (if d then pm_strip x else x))
  (Hk : forall d x, switch_knows (fields x).*1 (sw d))
  (Hc : forall d, switch_consumes (sw d)) : PulsarLaws A.
Proof.
  refine {| pm_wf := wf |}.
  - intros x buf Hx Hs. rewrite HM. by apply pulsar_marshal_run; [apply He|].
  - intros buf. by rewrite HM.
  - intros d x Hx Hu Hl. rewrite HU. unfold pulsar_unmarshal.
    rewrite (pulsar_loop_reads (sw d) append_unknown d pm_new (if d then pm_strip x else x)); [done| |done].
    pose proof (Hr d (pm_set_unknown [] x) (ul_wf _ HL [] x Hx) (ul_get _ HL [] x)) as H1.
    unfold proto3_encode in H1. rewrite (ul_fields wf HL), (ul_strip wf HL) in H1. fold (proto3_encode x) in H1.
    set (m := if d then pm_strip x else pm_set_unknown [] x) in H1.
    assert ((if d then pm_strip x else x) = if d then m else append_unknown (pm_unknown x) m) as ->.
    { unfold m. destruct d; [done|]. unfold append_unknown. rewrite (ul_get wf HL), (ul_set wf HL). cbn [app]. symmetry. apply (ul_id wf HL). }
    eapply rd_app; [exact H1|]. apply (preads_foreign (sw d) append_unknown d _ _ m (Hk d x)); [| |done].
    + intros y. unfold append_unknown. rewrite app_nil_r. apply (ul_id wf HL).
    + intros t t' y. unfold append_unknown. by rewrite !(ul_get wf HL), (ul_set wf HL), app_assoc.
  - intros d x b Hl. rewrite HU. unfold pulsar_unmarshal.
    pose proof (pulsar_loop_returns (sw d) append_unknown d (length b) (zlen b) x b (Hc d)) as H.
    destruct (pulsar_loop _ _ _ _ _ _ _); [done|done|]. apply H; [done|unfold zlen in *; lia|done].
Defined.

End Own.

Arguments preads : simpl never.

(** ** Messages of other modules

    google.protobuf.Timestamp and the pagination messages of the SDK. *)
Class ApiImports : Type := {
  Timestamp : Type;
  PageRequest : Type;
  PageResponse : Type;
  Timestamp_pulsar :: PulsarMsg Timestamp;
  PageRequest_pulsar :: PulsarMsg PageRequest;
  PageResponse_pulsar :: PulsarMsg PageResponse;
  Timestamp_schema :: Schema Timestamp;
  PageRequest_schema :: Schema PageRequest;
  PageResponse_schema :: Schema PageResponse;
  Timestamp_strip :: PulsarStrip Timestamp;
  PageRequest_strip :: PulsarStrip PageRequest;
  PageResponse_strip :: PulsarStrip PageResponse
}.

Class ApiImportsLaws {T : StdTime} {P : ProtoRuntime} {I : ApiImports} : Type := {
  Timestamp_laws :: PulsarLaws Timestamp;
  PageRequest_laws :: PulsarLaws PageRequest;
  PageResponse_laws :: PulsarLaws PageResponse
}.

(** ** Automation: the laws of a message from the lemmas of its fields *)

Ltac pencodes_field :=
  first [apply pw_fstring|apply pw_fstrings|apply pw_fint|apply pw_fbool
        |apply pw_fmsg|apply pw_fmsgs|apply pw_raw_encodes];
  first [reflexivity|assumption|naive_solver].
Ltac pencodes_fields :=
  repeat match goal with H : _ /\ _ |- _ => destruct H end;
  unfold pm_bytes, proto3_encode, fields; cbn [mbind list_bind app]; rewrite ?app_nil_r, ?app_assoc;
  repeat (eapply encodes_comp; [pencodes_field|]); pencodes_field.

Ltac preads_repeated d u := reads_step ltac:(apply (preads_fmsgs _ d _ u); reads_done).
Ltac preads_optional d u := reads_step ltac:(apply (preads_fmsg _ d _ u); reads_done).

Ltac pconsumes_fields E :=
  repeat case_match; first [discriminate E|injection E as <-]; apply (consumes_bind _ _ _);
  first [by eapply pr_msg_consumes|by auto with codec].

Ltac unknown_lens := split; [by intros []|by intros ? []|by intros ? ? []|by intros ? []|by intros ? []|by intros ? []].
Ltac preads_end d := destruct d; apply rd_nil.
Ltac knows_switch := intros ? ?; knows_fields.
