(* ===== verification/Reflect.v ===== *)
(** * The client API: reflection

    The view of a message through [protoreflect.Message] that the generated code of
    api/vertix/ implements: [Range], [Has], [Clear], [Get], [Set], [Mutable] and
    [NewField], each a [switch] on the full name of the field. [Reflect] is the
    interface, [ReflectLaws] what it promises. A method is given a message, not a
    nil pointer; a list value stands for the contents it refers to. *)

From S2P Require Import Prelude Sdk Wire.

Open Scope Z_scope.

(** [switch fd.FullName()], whose default branch panics. *)
Fixpoint fd_switch {R} (fd : string) (cases : list (string * res R)) : res R :=
  match cases with
  | [] => Panic
  | (name, r) :: cases => if String.eqb fd name then r else fd_switch fd cases
  end.

(** [x.F != ""], [len(x.F) != 0], [x.F != nil], [x.F != false],
    [x.F != int64(0)]. *)
Definition str_set (s : string) : bool := negb (String.eqb s "").
Definition list_set {A} (l : list A) : bool := negb (zlen l =? 0).
Definition ptr_set {A} (o : option A) : bool := match o with Some _ => true | None => false end.
Definition bool_set (b : bool) : bool := negb (Bool.eqb b false).
Definition int_set (v : Z) : bool := negb (v =? 0).

(** The view of a list that [Get] returns: of an empty list, one that refers to
    nothing. *)
Definition list_view {A} (l : list A) : option (list A) := if zlen l =? 0 then None else Some l.

(** One step of [Range]: [if populated { if !f(fd, value) { return } }], then the rest. *)
Definition visit {V S} (f : string -> V -> S -> bool * S) (populated : bool) (fd : string) (v : V)
    (rest : S -> S) (s : S) : S :=
  if populated then let '(go, s) := f fd v s in if go then rest s else s else rest s.

Class Reflect (A V : Type) : Type := {
  r_new : A;
  r_names : list string;
  r_Range : forall {S}, (string -> V -> S -> bool * S) -> A -> S -> S;
  r_Has : string -> A -> res bool;
  r_Clear : string -> A -> res A;
  r_Get : string -> A -> res V;
  r_Set : string -> V -> A -> res A;
  r_Mutable : string -> A -> res (A * V);
  r_NewField : string -> res V;
  r_SetUnknown : bytes -> A -> A
}.

(** A callback over a list of fields, stopping where it says so. *)
Fixpoint visits {V S} (f : string -> V -> S -> bool * S) (l : list (string * V)) (s : S) : S :=
  match l with
  | [] => s
  | (fd, v) :: l => let '(go, s) := f fd v s in if go then visits f l s else s
  end.

(** The populated fields of a message in the order of its declaration, by [Has]
    and [Get]. *)
Definition populated_in {A V} {R : Reflect A V} (names : list string) (x : A) : list (string * V) :=
  omap (fun fd => match r_Has fd x, r_Get fd x with Ok true, Ok v => Some (fd, v) | _, _ => None end) names.
Definition populated {A V} {R : Reflect A V} (x : A) : list (string * V) := populated_in r_names x.

(** What the reflection view promises:
    - a name that is not a field of the message panics in every method;
    - [Range] shows the callback exactly the populated fields with their values, in
      order, until it stops;
    - setting on an empty message what [Range] shows rebuilds the message, without
      its unknown fields;
    - a cleared field is not populated, and the others are as before;
    - a field that was set has the value that was set, and the others are as
      before;
    - a mutable field value is the one the field has afterwards, and the others are
      as before;
    - a new field value can be set. *)
Class ReflectLaws (A V : Type) {R : Reflect A V} : Prop := {
  rl_dom fd (x : A) v : fd ∉ r_names ->
    r_Has fd x = Panic /\ r_Clear fd x = Panic /\ r_Get fd x = Panic /\ r_Set fd v x = Panic /\
    r_Mutable fd x = Panic /\ r_NewField fd = Panic;
  rl_range (x : A) {S} (f : string -> V -> S -> bool * S) s : r_Range f x s = visits f (populated x) s;
  rl_copy (x : A) : rfold (populated x) r_new (fun y fv => r_Set fv.1 fv.2 y) = Ok (r_SetUnknown [] x);
  rl_clear fd (x : A) : fd ∈ r_names -> exists x', r_Clear fd x = Ok x' /\ r_Has fd x' = Ok false /\
    forall fd', fd' ∈ r_names -> fd' <> fd -> r_Get fd' x' = r_Get fd' x;
  rl_set fd v (x x' : A) : r_Set fd v x = Ok x' -> (r_Has fd x' = Ok true -> r_Get fd x' = Ok v) /\
    forall fd', fd' ∈ r_names -> fd' <> fd -> r_Get fd' x' = r_Get fd' x;
  rl_mutable fd v (x x' : A) : r_Mutable fd x = Ok (x', v) -> r_Set fd v x' = Ok x' /\
    forall fd', fd' ∈ r_names -> fd' <> fd -> r_Get fd' x' = r_Get fd' x;
  rl_new fd (x : A) : fd ∈ r_names -> exists v x', r_NewField fd = Ok v /\ r_Set fd v x = Ok x'
}.

(** ** Lemmas *)

Lemma fd_switch_dom {R} fd (cases : list (string * res R)) : fd ∉ cases.*1 -> fd_switch fd cases = Panic.
Proof.
  induction cases as [|[n r] cases IH]; intros Hn; [done|]. cbn [fd_switch fmap list_fmap fst] in *.
  apply not_elem_of_cons in Hn as [Hne Hn]. destruct (String.eqb_spec fd n); [done|auto].
Qed.

Lemma list_view_set {A} (l : list A) : list_set l = true -> list_view l = Some l.
Proof. unfold list_set, list_view. by destruct (_ =? 0). Qed.

Section Fields.
Context {A V : Type} {R : Reflect A V}.

(** One step of [Range] is one field of [populated]. *)
Lemma visit_populated {S} (f : string -> V -> S -> bool * S) (x : A) p fd v rest names s :
  r_Has fd x = Ok p -> (p = true -> r_Get fd x = Ok v) ->
  (forall s, rest s = visits f (populated_in names x) s) ->
  visit f p fd v rest s = visits f (populated_in (fd :: names) x) s.
Proof.
  intros Hp Hv Hr. unfold populated_in, visit. cbn [omap list_omap]. rewrite Hp. destruct p; [rewrite Hv by done|by apply Hr].
  cbn [visits]. destruct (f fd v s) as [[|] s']; [by apply Hr|done].
Qed.

(** The copy of one field to another message. *)
Definition copy_field (x : A) (y : A) (fd : string) : res A :=
  match r_Has fd x, r_Get fd x with Ok true, Ok v => r_Set fd v y | _, _ => Ok y end.

Lemma copy_populated names (x y : A) :
  rfold (populated_in names x) y (fun y fv => r_Set fv.1 fv.2 y) = rfold names y (copy_field x).
Proof.
  revert y. induction names as [|fd names IH]; intros y; [done|].
  unfold populated_in. cbn [omap list_omap rfold]. unfold copy_field at 2.
  destruct (r_Has fd x) as [[|]| |]; [|apply IH..]. destruct (r_Get fd x) as [v| |]; [|apply IH..].
  cbn [rfold fst snd]. destruct (r_Set fd v y); [apply IH|done..].
Qed.

Lemma copy_step fd names (x y y' : A) r :
  copy_field x y fd = Ok y' -> rfold names y' (copy_field x) = r -> rfold (fd :: names) y (copy_field x) = r.
Proof. intros E1 E2. cbn [rfold]. by rewrite E1. Qed.

End Fields.

(** ** Automation: the laws of a message, field by field *)

(** [H : fd ∈ names] for a list of literals: one goal per field. *)
Ltac each_field H :=
  repeat (apply elem_of_cons in H as [-> | H]); [..|by apply elem_of_nil in H].

(** The branch that a literal field name selects. *)
Ltac eval_switch H :=
  cbv [fd_switch String.eqb Ascii.eqb Bool.eqb] in H.

Ltac reflect_others := let fd' := fresh in let Hin := fresh in let Hne := fresh in
  intros fd' Hin Hne; each_field Hin; first [by destruct Hne|reflexivity].

(** [Hn]: the name is not a field; the cases of the [switch] may come in any order. *)
Ltac not_field Hn := first [reflexivity|by apply fd_switch_dom
  |let H := fresh in apply fd_switch_dom; intros H; apply Hn; revert H; simpl; rewrite !elem_of_cons; tauto].

Ltac reflect_dom := intros fd x v Hn; split_and!; not_field Hn.

Ltac reflect_range := intros x S f; cbn [populated r_names];
  repeat (let s := fresh in intros s; eapply visit_populated;
    [reflexivity|first [reflexivity|let H := fresh in intros H%list_view_set; rewrite <- H; reflexivity]|clear s]); done.

(** The next field copied, [y'] the message then. *)
Ltac copy_one y' := eapply (copy_step _ _ _ _ y');
  [unfold copy_field; simpl;
   lazymatch goal with |- context [str_set ?s] => destruct s
   | |- context [list_set ?l] => destruct l | |- context [ptr_set ?o] => destruct o
   | |- context [int_set ?z] => destruct z | |- context [bool_set ?b] => destruct b end; reflexivity|].

Ltac reflect_clear := intros fd x Hin; each_field Hin;
  (eexists; split; [reflexivity|split; [reflexivity|reflect_others]]).

(** [H]: a call [e] with a name that is not a field returned. *)
Ltac unknown_field Hn e H := exfalso; let E := fresh in assert (e = Panic) as E by not_field Hn; by rewrite E in H.

Ltac reflect_set := intros fd v x x' Hs;
  let A := type of x in destruct (decide (fd ∈ r_names (A := A))) as [Hin|Hin]; [|unknown_field Hin (r_Set fd v x) Hs];
  each_field Hin; destruct v; try discriminate Hs;
  try match goal with o : option (list _) |- _ => destruct o; [|discriminate Hs] end;
  injection Hs as <-; (split; [intros Hh|reflect_others]); try reflexivity;
  lazymatch goal with l : list _ |- _ => by destruct l end.
Ltac reflect_mutable := intros fd v x x' Hs;
  let A := type of x in destruct (decide (fd ∈ r_names (A := A))) as [Hin|Hin]; [|unknown_field Hin (r_Mutable fd x) Hs];
  each_field Hin; try discriminate Hs; injection Hs as <- <-; (split; [by destruct x|reflect_others]).
Ltac reflect_new := intros fd x Hin; each_field Hin; (eexists _, _; split; reflexivity).
