(* ===== verification/ApiOracle.v ===== *)
(** * api/vertix/oracle: the client bindings of x/oracle

    The messages of api/vertix/oracle/v1/*.pulsar.go and module/module.pulsar.go: the
    struct, the reflection methods and the methods of [ProtoMethods], each message an
    instance of [PulsarMsg] and [Reflect] with the laws of both. *)

From S2P Require Import Prelude Sdk World SdkRef Wire Codec Foreign WireMsg Pulsar Reflect.

Open Scope Z_scope.

Section ApiOracle.
Context {T : StdTime} {P : ProtoRuntime} {I : ApiImports}.

(** ** Messages *)

Record Module_ : Type := mkModule_ {
  Module__Authority : string;
  Module__unknownFields : bytes
}.

Record OracleFeed : Type := mkOracleFeed {
  OracleFeed_Validator : string;
  OracleFeed_Pair : string;
  OracleFeed_Price : string;
  OracleFeed_BlockHeight : Z;
  OracleFeed_unknownFields : bytes
}.

Record AggregatedPrice : Type := mkAggregatedPrice {
  AggregatedPrice_Pair : string;
  AggregatedPrice_Price : string;
  AggregatedPrice_BlockHeight : Z;
  AggregatedPrice_BlockTime : option Timestamp;
  AggregatedPrice_unknownFields : bytes
}.

Record TWAPEntry : Type := mkTWAPEntry {
  TWAPEntry_Pair : string;
  TWAPEntry_Price : string;
  TWAPEntry_BlockTime : option Timestamp;
  TWAPEntry_unknownFields : bytes
}.

Record OracleParams : Type := mkOracleParams {
  OracleParams_VoteWindow : Z;
  OracleParams_MissThreshold : string;
  OracleParams_MissSlashRate : string;
  OracleParams_OutlierSlashRate : string;
  OracleParams_OutlierThreshold : string;
  OracleParams_MissWindowSize : Z;
  OracleParams_QuorumFraction : string;
  OracleParams_MaxPriceAge : Z;
  OracleParams_AcceptList : list string;
  OracleParams_unknownFields : bytes
}.

Record FeederDelegation : Type := mkFeederDelegation {
  FeederDelegation_Validator : string;
  FeederDelegation_Feeder : string;
  FeederDelegation_unknownFields : bytes
}.

Record GenesisState : Type := mkGenesisState {
  GenesisState_Params : option OracleParams;
  GenesisState_Prices : list (option AggregatedPrice);
  GenesisState_Feeders : list (option FeederDelegation);
  GenesisState_unknownFields : bytes
}.

Record MsgSetFeeder : Type := mkMsgSetFeeder {
  MsgSetFeeder_Validator : string;
  MsgSetFeeder_Feeder : string;
  MsgSetFeeder_unknownFields : bytes
}.

Record MsgSetFeederResponse : Type := mkMsgSetFeederResponse {
  MsgSetFeederResponse_unknownFields : bytes
}.

Record MsgSubmitFeed : Type := mkMsgSubmitFeed {
  MsgSubmitFeed_Feeder : string;
  MsgSubmitFeed_Validator : string;
  MsgSubmitFeed_Pair : string;
  MsgSubmitFeed_Price : string;
  MsgSubmitFeed_unknownFields : bytes
}.

Record MsgSubmitFeedResponse : Type := mkMsgSubmitFeedResponse {
  MsgSubmitFeedResponse_unknownFields : bytes
}.

Record MsgUpdateParams : Type := mkMsgUpdateParams {
  MsgUpdateParams_Authority : string;
  MsgUpdateParams_Params : option OracleParams;
  MsgUpdateParams_unknownFields : bytes
}.

Record MsgUpdateParamsResponse : Type := mkMsgUpdateParamsResponse {
  MsgUpdateParamsResponse_unknownFields : bytes
}.

Record QueryPriceRequest : Type := mkQueryPriceRequest {
  QueryPriceRequest_Pair : string;
  QueryPriceRequest_unknownFields : bytes
}.

Record QueryPriceResponse : Type := mkQueryPriceResponse {
  QueryPriceResponse_Price : option AggregatedPrice;
  QueryPriceResponse_unknownFields : bytes
}.

Record QueryTwapRequest : Type := mkQueryTwapRequest {
  QueryTwapRequest_Pair : string;
  QueryTwapRequest_WindowSeconds : Z;
  QueryTwapRequest_unknownFields : bytes
}.

Record QueryTwapResponse : Type := mkQueryTwapResponse {
  QueryTwapResponse_Price : string;
  QueryTwapResponse_unknownFields : bytes
}.

Record QueryParamsRequest : Type := mkQueryParamsRequest {
  QueryParamsRequest_unknownFields : bytes
}.

Record QueryParamsResponse : Type := mkQueryParamsResponse {
  QueryParamsResponse_Params : option OracleParams;
  QueryParamsResponse_unknownFields : bytes
}.

Record QueryMissCounterRequest : Type := mkQueryMissCounterRequest {
  QueryMissCounterRequest_Validator : string;
  QueryMissCounterRequest_unknownFields : bytes
}.

Record QueryMissCounterResponse : Type := mkQueryMissCounterResponse {
  QueryMissCounterResponse_Misses : Z;
  QueryMissCounterResponse_TotalWindows : Z;
  QueryMissCounterResponse_unknownFields : bytes
}.

Record QueryFeederRequest : Type := mkQueryFeederRequest {
  QueryFeederRequest_Validator : string;
  QueryFeederRequest_unknownFields : bytes
}.

Record QueryFeederResponse : Type := mkQueryFeederResponse {
  QueryFeederResponse_Feeder : string;
  QueryFeederResponse_unknownFields : bytes
}.

(** ** Assignments to a field: [x.F = v] *)

Definition Module__set_Authority (v : string) (x : Module_) : Module_ :=
  mkModule_ v (Module__unknownFields x).

Definition Module__set_unknownFields (v : bytes) (x : Module_) : Module_ :=
  mkModule_ (Module__Authority x) v.

Definition OracleFeed_set_Validator (v : string) (x : OracleFeed) : OracleFeed :=
  mkOracleFeed v (OracleFeed_Pair x) (OracleFeed_Price x) (OracleFeed_BlockHeight x) (OracleFeed_unknownFields x).

Definition OracleFeed_set_Pair (v : string) (x : OracleFeed) : OracleFeed :=
  mkOracleFeed (OracleFeed_Validator x) v (OracleFeed_Price x) (OracleFeed_BlockHeight x) (OracleFeed_unknownFields x).

Definition OracleFeed_set_Price (v : string) (x : OracleFeed) : OracleFeed :=
  mkOracleFeed (OracleFeed_Validator x) (OracleFeed_Pair x) v (OracleFeed_BlockHeight x) (OracleFeed_unknownFields x).

Definition OracleFeed_set_BlockHeight (v : Z) (x : OracleFeed) : OracleFeed :=
  mkOracleFeed (OracleFeed_Validator x) (OracleFeed_Pair x) (OracleFeed_Price x) v (OracleFeed_unknownFields x).

Definition OracleFeed_set_unknownFields (v : bytes) (x : OracleFeed) : OracleFeed :=
  mkOracleFeed (OracleFeed_Validator x) (OracleFeed_Pair x) (OracleFeed_Price x) (OracleFeed_BlockHeight x) v.

Definition AggregatedPrice_set_Pair (v : string) (x : AggregatedPrice) : AggregatedPrice :=
  mkAggregatedPrice v (AggregatedPrice_Price x) (AggregatedPrice_BlockHeight x) (AggregatedPrice_BlockTime x) (AggregatedPrice_unknownFields x).

Definition AggregatedPrice_set_Price (v : string) (x : AggregatedPrice) : AggregatedPrice :=
  mkAggregatedPrice (AggregatedPrice_Pair x) v (AggregatedPrice_BlockHeight x) (AggregatedPrice_BlockTime x) (AggregatedPrice_unknownFields x).

Definition AggregatedPrice_set_BlockHeight (v : Z) (x : AggregatedPrice) : AggregatedPrice :=
  mkAggregatedPrice (AggregatedPrice_Pair x) (AggregatedPrice_Price x) v (AggregatedPrice_BlockTime x) (AggregatedPrice_unknownFields x).

Definition AggregatedPrice_set_BlockTime (v : option Timestamp) (x : AggregatedPrice) : AggregatedPrice :=
  mkAggregatedPrice (AggregatedPrice_Pair x) (AggregatedPrice_Price x) (AggregatedPrice_BlockHeight x) v (AggregatedPrice_unknownFields x).

Definition AggregatedPrice_set_unknownFields (v : bytes) (x : AggregatedPrice) : AggregatedPrice :=
  mkAggregatedPrice (AggregatedPrice_Pair x) (AggregatedPrice_Price x) (AggregatedPrice_BlockHeight x) (AggregatedPrice_BlockTime x) v.

Definition TWAPEntry_set_Pair (v : string) (x : TWAPEntry) : TWAPEntry :=
  mkTWAPEntry v (TWAPEntry_Price x) (TWAPEntry_BlockTime x) (TWAPEntry_unknownFields x).

Definition TWAPEntry_set_Price (v : string) (x : TWAPEntry) : TWAPEntry :=
  mkTWAPEntry (TWAPEntry_Pair x) v (TWAPEntry_BlockTime x) (TWAPEntry_unknownFields x).

Definition TWAPEntry_set_BlockTime (v : option Timestamp) (x : TWAPEntry) : TWAPEntry :=
  mkTWAPEntry (TWAPEntry_Pair x) (TWAPEntry_Price x) v (TWAPEntry_unknownFields x).

Definition TWAPEntry_set_unknownFields (v : bytes) (x : TWAPEntry) : TWAPEntry :=
  mkTWAPEntry (TWAPEntry_Pair x) (TWAPEntry_Price x) (TWAPEntry_BlockTime x) v.

Definition OracleParams_set_VoteWindow (v : Z) (x : OracleParams) : OracleParams :=
  mkOracleParams v (OracleParams_MissThreshold x) (OracleParams_MissSlashRate x) (OracleParams_OutlierSlashRate x) (OracleParams_OutlierThreshold x) (OracleParams_MissWindowSize x) (OracleParams_QuorumFraction x) (OracleParams_MaxPriceAge x) (OracleParams_AcceptList x) (OracleParams_unknownFields x).

Definition OracleParams_set_MissThreshold (v : string) (x : OracleParams) : OracleParams :=
  mkOracleParams (OracleParams_VoteWindow x) v (OracleParams_MissSlashRate x) (OracleParams_OutlierSlashRate x) (OracleParams_OutlierThreshold x) (OracleParams_MissWindowSize x) (OracleParams_QuorumFraction x) (OracleParams_MaxPriceAge x) (OracleParams_AcceptList x) (OracleParams_unknownFields x).

Definition OracleParams_set_MissSlashRate (v : string) (x : OracleParams) : OracleParams :=
  mkOracleParams (OracleParams_VoteWindow x) (OracleParams_MissThreshold x) v (OracleParams_OutlierSlashRate x) (OracleParams_OutlierThreshold x) (OracleParams_MissWindowSize x) (OracleParams_QuorumFraction x) (OracleParams_MaxPriceAge x) (OracleParams_AcceptList x) (OracleParams_unknownFields x).

Definition OracleParams_set_OutlierSlashRate (v : string) (x : OracleParams) : OracleParams :=
  mkOracleParams (OracleParams_VoteWindow x) (OracleParams_MissThreshold x) (OracleParams_MissSlashRate x) v (OracleParams_OutlierThreshold x) (OracleParams_MissWindowSize x) (OracleParams_QuorumFraction x) (OracleParams_MaxPriceAge x) (OracleParams_AcceptList x) (OracleParams_unknownFields x).

Definition OracleParams_set_OutlierThreshold (v : string) (x : OracleParams) : OracleParams :=
  mkOracleParams (OracleParams_VoteWindow x) (OracleParams_MissThreshold x) (OracleParams_MissSlashRate x) (OracleParams_OutlierSlashRate x) v (OracleParams_MissWindowSize x) (OracleParams_QuorumFraction x) (OracleParams_MaxPriceAge x) (OracleParams_AcceptList x) (OracleParams_unknownFields x).

Definition OracleParams_set_MissWindowSize (v : Z) (x : OracleParams) : OracleParams :=
  mkOracleParams (OracleParams_VoteWindow x) (OracleParams_MissThreshold x) (OracleParams_MissSlashRate x) (OracleParams_OutlierSlashRate x) (OracleParams_OutlierThreshold x) v (OracleParams_QuorumFraction x) (OracleParams_MaxPriceAge x) (OracleParams_AcceptList x) (OracleParams_unknownFields x).

Definition OracleParams_set_QuorumFraction (v : string) (x : OracleParams) : OracleParams :=
  mkOracleParams (OracleParams_VoteWindow x) (OracleParams_MissThreshold x) (OracleParams_MissSlashRate x) (OracleParams_OutlierSlashRate x) (OracleParams_OutlierThreshold x) (OracleParams_MissWindowSize x) v (OracleParams_MaxPriceAge x) (OracleParams_AcceptList x) (OracleParams_unknownFields x).

Definition OracleParams_set_MaxPriceAge (v : Z) (x : OracleParams) : OracleParams :=
  mkOracleParams (OracleParams_VoteWindow x) (OracleParams_MissThreshold x) (OracleParams_MissSlashRate x) (OracleParams_OutlierSlashRate x) (OracleParams_OutlierThreshold x) (OracleParams_MissWindowSize x) (OracleParams_QuorumFraction x) v (OracleParams_AcceptList x) (OracleParams_unknownFields x).

Definition OracleParams_set_AcceptList (v : list string) (x : OracleParams) : OracleParams :=
  mkOracleParams (OracleParams_VoteWindow x) (OracleParams_MissThreshold x) (OracleParams_MissSlashRate x) (OracleParams_OutlierSlashRate x) (OracleParams_OutlierThreshold x) (OracleParams_MissWindowSize x) (OracleParams_QuorumFraction x) (OracleParams_MaxPriceAge x) v (OracleParams_unknownFields x).

Definition OracleParams_set_unknownFields (v : bytes) (x : OracleParams) : OracleParams :=
  mkOracleParams (OracleParams_VoteWindow x) (OracleParams_MissThreshold x) (OracleParams_MissSlashRate x) (OracleParams_OutlierSlashRate x) (OracleParams_OutlierThreshold x) (OracleParams_MissWindowSize x) (OracleParams_QuorumFraction x) (OracleParams_MaxPriceAge x) (OracleParams_AcceptList x) v.

Definition FeederDelegation_set_Validator (v : string) (x : FeederDelegation) : FeederDelegation :=
  mkFeederDelegation v (FeederDelegation_Feeder x) (FeederDelegation_unknownFields x).

Definition FeederDelegation_set_Feeder (v : string) (x : FeederDelegation) : FeederDelegation :=
  mkFeederDelegation (FeederDelegation_Validator x) v (FeederDelegation_unknownFields x).

Definition FeederDelegation_set_unknownFields (v : bytes) (x : FeederDelegation) : FeederDelegation :=
  mkFeederDelegation (FeederDelegation_Validator x) (FeederDelegation_Feeder x) v.

Definition GenesisState_set_Params (v : option OracleParams) (x : GenesisState) : GenesisState :=
  mkGenesisState v (GenesisState_Prices x) (GenesisState_Feeders x) (GenesisState_unknownFields x).

Definition GenesisState_set_Prices (v : list (option AggregatedPrice)) (x : GenesisState) : GenesisState :=
  mkGenesisState (GenesisState_Params x) v (GenesisState_Feeders x) (GenesisState_unknownFields x).

Definition GenesisState_set_Feeders (v : list (option FeederDelegation)) (x : GenesisState) : GenesisState :=
  mkGenesisState (GenesisState_Params x) (GenesisState_Prices x) v (GenesisState_unknownFields x).

Definition GenesisState_set_unknownFields (v : bytes) (x : GenesisState) : GenesisState :=
  mkGenesisState (GenesisState_Params x) (GenesisState_Prices x) (GenesisState_Feeders x) v.

Definition MsgSetFeeder_set_Validator (v : string) (x : MsgSetFeeder) : MsgSetFeeder :=
  mkMsgSetFeeder v (MsgSetFeeder_Feeder x) (MsgSetFeeder_unknownFields x).

Definition MsgSetFeeder_set_Feeder (v : string) (x : MsgSetFeeder) : MsgSetFeeder :=
  mkMsgSetFeeder (MsgSetFeeder_Validator x) v (MsgSetFeeder_unknownFields x).

Definition MsgSetFeeder_set_unknownFields (v : bytes) (x : MsgSetFeeder) : MsgSetFeeder :=
  mkMsgSetFeeder (MsgSetFeeder_Validator x) (MsgSetFeeder_Feeder x) v.

Definition MsgSetFeederResponse_set_unknownFields (v : bytes) (x : MsgSetFeederResponse) : MsgSetFeederResponse :=
  mkMsgSetFeederResponse v.

Definition MsgSubmitFeed_set_Feeder (v : string) (x : MsgSubmitFeed) : MsgSubmitFeed :=
  mkMsgSubmitFeed v (MsgSubmitFeed_Validator x) (MsgSubmitFeed_Pair x) (MsgSubmitFeed_Price x) (MsgSubmitFeed_unknownFields x).

Definition MsgSubmitFeed_set_Validator (v : string) (x : MsgSubmitFeed) : MsgSubmitFeed :=
  mkMsgSubmitFeed (MsgSubmitFeed_Feeder x) v (MsgSubmitFeed_Pair x) (MsgSubmitFeed_Price x) (MsgSubmitFeed_unknownFields x).

Definition MsgSubmitFeed_set_Pair (v : string) (x : MsgSubmitFeed) : MsgSubmitFeed :=
  mkMsgSubmitFeed (MsgSubmitFeed_Feeder x) (MsgSubmitFeed_Validator x) v (MsgSubmitFeed_Price x) (MsgSubmitFeed_unknownFields x).

Definition MsgSubmitFeed_set_Price (v : string) (x : MsgSubmitFeed) : MsgSubmitFeed :=
  mkMsgSubmitFeed (MsgSubmitFeed_Feeder x) (MsgSubmitFeed_Validator x) (MsgSubmitFeed_Pair x) v (MsgSubmitFeed_unknownFields x).

Definition MsgSubmitFeed_set_unknownFields (v : bytes) (x : MsgSubmitFeed) : MsgSubmitFeed :=
  mkMsgSubmitFeed (MsgSubmitFeed_Feeder x) (MsgSubmitFeed_Validator x) (MsgSubmitFeed_Pair x) (MsgSubmitFeed_Price x) v.

Definition MsgSubmitFeedResponse_set_unknownFields (v : bytes) (x : MsgSubmitFeedResponse) : MsgSubmitFeedResponse :=
  mkMsgSubmitFeedResponse v.

Definition MsgUpdateParams_set_Authority (v : string) (x : MsgUpdateParams) : MsgUpdateParams :=
  mkMsgUpdateParams v (MsgUpdateParams_Params x) (MsgUpdateParams_unknownFields x).

Definition MsgUpdateParams_set_Params (v : option OracleParams) (x : MsgUpdateParams) : MsgUpdateParams :=
  mkMsgUpdateParams (MsgUpdateParams_Authority x) v (MsgUpdateParams_unknownFields x).

Definition MsgUpdateParams_set_unknownFields (v : bytes) (x : MsgUpdateParams) : MsgUpdateParams :=
  mkMsgUpdateParams (MsgUpdateParams_Authority x) (MsgUpdateParams_Params x) v.

Definition MsgUpdateParamsResponse_set_unknownFields (v : bytes) (x : MsgUpdateParamsResponse) : MsgUpdateParamsResponse :=
  mkMsgUpdateParamsResponse v.

Definition QueryPriceRequest_set_Pair (v : string) (x : QueryPriceRequest) : QueryPriceRequest :=
  mkQueryPriceRequest v (QueryPriceRequest_unknownFields x).

Definition QueryPriceRequest_set_unknownFields (v : bytes) (x : QueryPriceRequest) : QueryPriceRequest :=
  mkQueryPriceRequest (QueryPriceRequest_Pair x) v.

Definition QueryPriceResponse_set_Price (v : option AggregatedPrice) (x : QueryPriceResponse) : QueryPriceResponse :=
  mkQueryPriceResponse v (QueryPriceResponse_unknownFields x).

Definition QueryPriceResponse_set_unknownFields (v : bytes) (x : QueryPriceResponse) : QueryPriceResponse :=
  mkQueryPriceResponse (QueryPriceResponse_Price x) v.

Definition QueryTwapRequest_set_Pair (v : string) (x : QueryTwapRequest) : QueryTwapRequest :=
  mkQueryTwapRequest v (QueryTwapRequest_WindowSeconds x) (QueryTwapRequest_unknownFields x).

Definition QueryTwapRequest_set_WindowSeconds (v : Z) (x : QueryTwapRequest) : QueryTwapRequest :=
  mkQueryTwapRequest (QueryTwapRequest_Pair x) v (QueryTwapRequest_unknownFields x).

Definition QueryTwapRequest_set_unknownFields (v : bytes) (x : QueryTwapRequest) : QueryTwapRequest :=
  mkQueryTwapRequest (QueryTwapRequest_Pair x) (QueryTwapRequest_WindowSeconds x) v.

Definition QueryTwapResponse_set_Price (v : string) (x : QueryTwapResponse) : QueryTwapResponse :=
  mkQueryTwapResponse v (QueryTwapResponse_unknownFields x).

Definition QueryTwapResponse_set_unknownFields (v : bytes) (x : QueryTwapResponse) : QueryTwapResponse :=
  mkQueryTwapResponse (QueryTwapResponse_Price x) v.

Definition QueryParamsRequest_set_unknownFields (v : bytes) (x : QueryParamsRequest) : QueryParamsRequest :=
  mkQueryParamsRequest v.

Definition QueryParamsResponse_set_Params (v : option OracleParams) (x : QueryParamsResponse) : QueryParamsResponse :=
  mkQueryParamsResponse v (QueryParamsResponse_unknownFields x).

Definition QueryParamsResponse_set_unknownFields (v : bytes) (x : QueryParamsResponse) : QueryParamsResponse :=
  mkQueryParamsResponse (QueryParamsResponse_Params x) v.

Definition QueryMissCounterRequest_set_Validator (v : string) (x : QueryMissCounterRequest) : QueryMissCounterRequest :=
  mkQueryMissCounterRequest v (QueryMissCounterRequest_unknownFields x).

Definition QueryMissCounterRequest_set_unknownFields (v : bytes) (x : QueryMissCounterRequest) : QueryMissCounterRequest :=
  mkQueryMissCounterRequest (QueryMissCounterRequest_Validator x) v.

Definition QueryMissCounterResponse_set_Misses (v : Z) (x : QueryMissCounterResponse) : QueryMissCounterResponse :=
  mkQueryMissCounterResponse v (QueryMissCounterResponse_TotalWindows x) (QueryMissCounterResponse_unknownFields x).

Definition QueryMissCounterResponse_set_TotalWindows (v : Z) (x : QueryMissCounterResponse) : QueryMissCounterResponse :=
  mkQueryMissCounterResponse (QueryMissCounterResponse_Misses x) v (QueryMissCounterResponse_unknownFields x).

Definition QueryMissCounterResponse_set_unknownFields (v : bytes) (x : QueryMissCounterResponse) : QueryMissCounterResponse :=
  mkQueryMissCounterResponse (QueryMissCounterResponse_Misses x) (QueryMissCounterResponse_TotalWindows x) v.

Definition QueryFeederRequest_set_Validator (v : string) (x : QueryFeederRequest) : QueryFeederRequest :=
  mkQueryFeederRequest v (QueryFeederRequest_unknownFields x).

Definition QueryFeederRequest_set_unknownFields (v : bytes) (x : QueryFeederRequest) : QueryFeederRequest :=
  mkQueryFeederRequest (QueryFeederRequest_Validator x) v.

Definition QueryFeederResponse_set_Feeder (v : string) (x : QueryFeederResponse) : QueryFeederResponse :=
  mkQueryFeederResponse v (QueryFeederResponse_unknownFields x).

Definition QueryFeederResponse_set_unknownFields (v : bytes) (x : QueryFeederResponse) : QueryFeederResponse :=
  mkQueryFeederResponse (QueryFeederResponse_Feeder x) v.

(** ** Values

    [protoreflect.Value]: scalars, messages (a pointer, which may be nil) and the list
    wrappers, one type per repeated field, which may refer to nothing. *)

Inductive value : Type :=
| VString (s : string)
| VInt64 (v : Z)
| VTimestamp (m : option Timestamp)
| V_OracleParams_9_list (l : option (list string))
| VOracleParams (m : option OracleParams)
| V_GenesisState_2_list (l : option (list (option AggregatedPrice)))
| V_GenesisState_3_list (l : option (list (option FeederDelegation)))
| VAggregatedPrice (m : option AggregatedPrice)
| VUint64 (v : Z).

(** The accessors and type assertions of [Set], which panic on another kind. *)

Definition as_string (v : value) : res string := match v with VString v => Ok v | _ => Panic end.
Definition as_int64 (v : value) : res Z := match v with VInt64 v => Ok v | _ => Panic end.
Definition as_Timestamp (v : value) : res (option Timestamp) := match v with VTimestamp v => Ok v | _ => Panic end.
Definition as_OracleParams_9_list (v : value) : res (list string) := match v with V_OracleParams_9_list (Some l) => Ok l | _ => Panic end.
Definition as_OracleParams (v : value) : res (option OracleParams) := match v with VOracleParams v => Ok v | _ => Panic end.
Definition as_GenesisState_2_list (v : value) : res (list (option AggregatedPrice)) := match v with V_GenesisState_2_list (Some l) => Ok l | _ => Panic end.
Definition as_GenesisState_3_list (v : value) : res (list (option FeederDelegation)) := match v with V_GenesisState_3_list (Some l) => Ok l | _ => Panic end.
Definition as_AggregatedPrice (v : value) : res (option AggregatedPrice) := match v with VAggregatedPrice v => Ok v | _ => Panic end.
Definition as_uint64 (v : value) : res Z := match v with VUint64 v => Ok v | _ => Panic end.

(** ** Methods *)

(** *** [Module] *)

Definition Module__Range {S} (f : string -> value -> S -> bool * S) (x : Module_) (s : S) : S :=
  visit f (str_set (Module__Authority x)) "vertix.oracle.module.Module.authority" (VString (Module__Authority x)) (fun s => s) s.

Definition Module__Has (fd : string) (x : Module_) : res bool :=
  fd_switch fd
    [("vertix.oracle.module.Module.authority", Ok (str_set (Module__Authority x)))].

Definition Module__Clear (fd : string) (x : Module_) : res Module_ :=
  fd_switch fd
    [("vertix.oracle.module.Module.authority", Ok (Module__set_Authority "" x))].

Definition Module__Get (fd : string) (x : Module_) : res value :=
  fd_switch fd
    [("vertix.oracle.module.Module.authority", Ok (VString (Module__Authority x)))].

Definition Module__Set (fd : string) (v : value) (x : Module_) : res Module_ :=
  fd_switch fd
    [("vertix.oracle.module.Module.authority", (v ← as_string v; Ok (Module__set_Authority v x)))].

Definition Module__Mutable (fd : string) (x : Module_) : res (Module_ * value) :=
  fd_switch fd
    [("vertix.oracle.module.Module.authority", Panic)].

Definition Module__NewField (fd : string) : res value :=
  fd_switch fd
    [("vertix.oracle.module.Module.authority", Ok (VString ""))].

Definition Module__size (o : option Module_) : Z :=
  match o with
  | None => 0
  | Some x => pz_string (Module__Authority x) + zlen (Module__unknownFields x)
  end.

Definition Module__marshal : bytes -> option Module_ -> res bytes :=
  pulsar_marshal Module__size (fun x w =>
    w ← pw_raw (Module__unknownFields x) w;
    pw_string x0a (Module__Authority x) w).

Definition Module__unmarshal : bool -> bytes -> option Module_ -> res (option Module_) :=
  pulsar_unmarshal (fun discard l fieldNum wireType x b =>
    match fieldNum with
    | 1 => Some ('(s, b) ← rd_string l wireType b; Ok (Module__set_Authority s x, b))
    | _ => None
    end) (fun s x => Module__set_unknownFields (Module__unknownFields x ++ s) x).

#[global] Instance Module__pulsar : PulsarMsg Module_ := {|
  pm_new := mkModule_ "" [];
  pm_size := Module__size; pm_marshal := Module__marshal; pm_unmarshal := Module__unmarshal;
  pm_unknown := Module__unknownFields; pm_set_unknown := Module__set_unknownFields
|}.

#[global] Instance Module__reflect : Reflect Module_ value := {|
  r_new := mkModule_ "" [];
  r_names := ["vertix.oracle.module.Module.authority"];
  r_Range := @Module__Range; r_Has := Module__Has; r_Clear := Module__Clear; r_Get := Module__Get;
  r_Set := Module__Set; r_Mutable := Module__Mutable; r_NewField := Module__NewField;
  r_SetUnknown := Module__set_unknownFields
|}.

#[global] Instance Module__schema : Schema Module_ := fun x =>
  [(1, FString (Module__Authority x))].

#[global] Instance Module__strip : PulsarStrip Module_ := fun x =>
  mkModule_ (Module__Authority x) [].

(** *** [OracleFeed] *)

Definition OracleFeed_Range {S} (f : string -> value -> S -> bool * S) (x : OracleFeed) (s : S) : S :=
  visit f (str_set (OracleFeed_Validator x)) "vertix.oracle.v1.OracleFeed.validator" (VString (OracleFeed_Validator x)) (fun s =>
  visit f (str_set (OracleFeed_Pair x)) "vertix.oracle.v1.OracleFeed.pair" (VString (OracleFeed_Pair x)) (fun s =>
  visit f (str_set (OracleFeed_Price x)) "vertix.oracle.v1.OracleFeed.price" (VString (OracleFeed_Price x)) (fun s =>
  visit f (int_set (OracleFeed_BlockHeight x)) "vertix.oracle.v1.OracleFeed.block_height" (VInt64 (OracleFeed_BlockHeight x)) (fun s => s) s) s) s) s.

Definition OracleFeed_Has (fd : string) (x : OracleFeed) : res bool :=
  fd_switch fd
    [("vertix.oracle.v1.OracleFeed.validator", Ok (str_set (OracleFeed_Validator x)));
     ("vertix.oracle.v1.OracleFeed.pair", Ok (str_set (OracleFeed_Pair x)));
     ("vertix.oracle.v1.OracleFeed.price", Ok (str_set (OracleFeed_Price x)));
     ("vertix.oracle.v1.OracleFeed.block_height", Ok (int_set (OracleFeed_BlockHeight x)))].

Definition OracleFeed_Clear (fd : string) (x : OracleFeed) : res OracleFeed :=
  fd_switch fd
    [("vertix.oracle.v1.OracleFeed.validator", Ok (OracleFeed_set_Validator "" x));
     ("vertix.oracle.v1.OracleFeed.pair", Ok (OracleFeed_set_Pair "" x));
     ("vertix.oracle.v1.OracleFeed.price", Ok (OracleFeed_set_Price "" x));
     ("vertix.oracle.v1.OracleFeed.block_height", Ok (OracleFeed_set_BlockHeight 0 x))].

Definition OracleFeed_Get (fd : string) (x : OracleFeed) : res value :=
  fd_switch fd
    [("vertix.oracle.v1.OracleFeed.validator", Ok (VString (OracleFeed_Validator x)));
     ("vertix.oracle.v1.OracleFeed.pair", Ok (VString (OracleFeed_Pair x)));
     ("vertix.oracle.v1.OracleFeed.price", Ok (VString (OracleFeed_Price x)));
     ("vertix.oracle.v1.OracleFeed.block_height", Ok (VInt64 (OracleFeed_BlockHeight x)))].

Definition OracleFeed_Set (fd : string) (v : value) (x : OracleFeed) : res OracleFeed :=
  fd_switch fd
    [("vertix.oracle.v1.OracleFeed.validator", (v ← as_string v; Ok (OracleFeed_set_Validator v x)));
     ("vertix.oracle.v1.OracleFeed.pair", (v ← as_string v; Ok (OracleFeed_set_Pair v x)));
     ("vertix.oracle.v1.OracleFeed.price", (v ← as_string v; Ok (OracleFeed_set_Price v x)));
     ("vertix.oracle.v1.OracleFeed.block_height", (v ← as_int64 v; Ok (OracleFeed_set_BlockHeight v x)))].

Definition OracleFeed_Mutable (fd : string) (x : OracleFeed) : res (OracleFeed * value) :=
  fd_switch fd
    [("vertix.oracle.v1.OracleFeed.validator", Panic);
     ("vertix.oracle.v1.OracleFeed.pair", Panic);
     ("vertix.oracle.v1.OracleFeed.price", Panic);
     ("vertix.oracle.v1.OracleFeed.block_height", Panic)].

Definition OracleFeed_NewField (fd : string) : res value :=
  fd_switch fd
    [("vertix.oracle.v1.OracleFeed.validator", Ok (VString ""));
     ("vertix.oracle.v1.OracleFeed.pair", Ok (VString ""));
     ("vertix.oracle.v1.OracleFeed.price", Ok (VString ""));
     ("vertix.oracle.v1.OracleFeed.block_height", Ok (VInt64 0))].

Definition OracleFeed_size (o : option OracleFeed) : Z :=
  match o with
  | None => 0
  | Some x => pz_string (OracleFeed_Validator x) + pz_string (OracleFeed_Pair x) + pz_string (OracleFeed_Price x) + pz_int (OracleFeed_BlockHeight x) + zlen (OracleFeed_unknownFields x)
  end.

Definition OracleFeed_marshal : bytes -> option OracleFeed -> res bytes :=
  pulsar_marshal OracleFeed_size (fun x w =>
    w ← pw_raw (OracleFeed_unknownFields x) w;
    w ← pw_int x20 (OracleFeed_BlockHeight x) w;
    w ← pw_string x1a (OracleFeed_Price x) w;
    w ← pw_string x12 (OracleFeed_Pair x) w;
    pw_string x0a (OracleFeed_Validator x) w).

Definition OracleFeed_unmarshal : bool -> bytes -> option OracleFeed -> res (option OracleFeed) :=
  pulsar_unmarshal (fun discard l fieldNum wireType x b =>
    match fieldNum with
    | 1 => Some ('(s, b) ← rd_string l wireType b; Ok (OracleFeed_set_Validator s x, b))
    | 2 => Some ('(s, b) ← rd_string l wireType b; Ok (OracleFeed_set_Pair s x, b))
    | 3 => Some ('(s, b) ← rd_string l wireType b; Ok (OracleFeed_set_Price s x, b))
    | 4 => Some ('(s, b) ← rd_int64 wireType b; Ok (OracleFeed_set_BlockHeight s x, b))
    | _ => None
    end) (fun s x => OracleFeed_set_unknownFields (OracleFeed_unknownFields x ++ s) x).

#[global] Instance OracleFeed_pulsar : PulsarMsg OracleFeed := {|
  pm_new := mkOracleFeed "" "" "" 0 [];
  pm_size := OracleFeed_size; pm_marshal := OracleFeed_marshal; pm_unmarshal := OracleFeed_unmarshal;
  pm_unknown := OracleFeed_unknownFields; pm_set_unknown := OracleFeed_set_unknownFields
|}.

#[global] Instance OracleFeed_reflect : Reflect OracleFeed value := {|
  r_new := mkOracleFeed "" "" "" 0 [];
  r_names := ["vertix.oracle.v1.OracleFeed.validator";
    "vertix.oracle.v1.OracleFeed.pair";
    "vertix.oracle.v1.OracleFeed.price";
    "vertix.oracle.v1.OracleFeed.block_height"];
  r_Range := @OracleFeed_Range; r_Has := OracleFeed_Has; r_Clear := OracleFeed_Clear; r_Get := OracleFeed_Get;
  r_Set := OracleFeed_Set; r_Mutable := OracleFeed_Mutable; r_NewField := OracleFeed_NewField;
  r_SetUnknown := OracleFeed_set_unknownFields
|}.

#[global] Instance OracleFeed_schema : Schema OracleFeed := fun x =>
  [(1, FString (OracleFeed_Validator x));
   (2, FString (OracleFeed_Pair x));
   (3, FString (OracleFeed_Price x));
   (4, FInt (OracleFeed_BlockHeight x))].

#[global] Instance OracleFeed_strip : PulsarStrip OracleFeed := fun x =>
  mkOracleFeed (OracleFeed_Validator x) (OracleFeed_Pair x) (OracleFeed_Price x) (OracleFeed_BlockHeight x) [].

(** *** [AggregatedPrice] *)

Definition AggregatedPrice_Range {S} (f : string -> value -> S -> bool * S) (x : AggregatedPrice) (s : S) : S :=
  visit f (str_set (AggregatedPrice_Pair x)) "vertix.oracle.v1.AggregatedPrice.pair" (VString (AggregatedPrice_Pair x)) (fun s =>
  visit f (str_set (AggregatedPrice_Price x)) "vertix.oracle.v1.AggregatedPrice.price" (VString (AggregatedPrice_Price x)) (fun s =>
  visit f (int_set (AggregatedPrice_BlockHeight x)) "vertix.oracle.v1.AggregatedPrice.block_height" (VInt64 (AggregatedPrice_BlockHeight x)) (fun s =>
  visit f (ptr_set (AggregatedPrice_BlockTime x)) "vertix.oracle.v1.AggregatedPrice.block_time" (VTimestamp (AggregatedPrice_BlockTime x)) (fun s => s) s) s) s) s.

Definition AggregatedPrice_Has (fd : string) (x : AggregatedPrice) : res bool :=
  fd_switch fd
    [("vertix.oracle.v1.AggregatedPrice.pair", Ok (str_set (AggregatedPrice_Pair x)));
     ("vertix.oracle.v1.AggregatedPrice.price", Ok (str_set (AggregatedPrice_Price x)));
     ("vertix.oracle.v1.AggregatedPrice.block_height", Ok (int_set (AggregatedPrice_BlockHeight x)));
     ("vertix.oracle.v1.AggregatedPrice.block_time", Ok (ptr_set (AggregatedPrice_BlockTime x)))].

Definition AggregatedPrice_Clear (fd : string) (x : AggregatedPrice) : res AggregatedPrice :=
  fd_switch fd
    [("vertix.oracle.v1.AggregatedPrice.pair", Ok (AggregatedPrice_set_Pair "" x));
     ("vertix.oracle.v1.AggregatedPrice.price", Ok (AggregatedPrice_set_Price "" x));
     ("vertix.oracle.v1.AggregatedPrice.block_height", Ok (AggregatedPrice_set_BlockHeight 0 x));
     ("vertix.oracle.v1.AggregatedPrice.block_time", Ok (AggregatedPrice_set_BlockTime None x))].

Definition AggregatedPrice_Get (fd : string) (x : AggregatedPrice) : res value :=
  fd_switch fd
    [("vertix.oracle.v1.AggregatedPrice.pair", Ok (VString (AggregatedPrice_Pair x)));
     ("vertix.oracle.v1.AggregatedPrice.price", Ok (VString (AggregatedPrice_Price x)));
     ("vertix.oracle.v1.AggregatedPrice.block_height", Ok (VInt64 (AggregatedPrice_BlockHeight x)));
     ("vertix.oracle.v1.AggregatedPrice.block_time", Ok (VTimestamp (AggregatedPrice_BlockTime x)))].

Definition AggregatedPrice_Set (fd : string) (v : value) (x : AggregatedPrice) : res AggregatedPrice :=
  fd_switch fd
    [("vertix.oracle.v1.AggregatedPrice.pair", (v ← as_string v; Ok (AggregatedPrice_set_Pair v x)));
     ("vertix.oracle.v1.AggregatedPrice.price", (v ← as_string v; Ok (AggregatedPrice_set_Price v x)));
     ("vertix.oracle.v1.AggregatedPrice.block_height", (v ← as_int64 v; Ok (AggregatedPrice_set_BlockHeight v x)));
     ("vertix.oracle.v1.AggregatedPrice.block_time", (v ← as_Timestamp v; Ok (AggregatedPrice_set_BlockTime v x)))].

Definition AggregatedPrice_Mutable (fd : string) (x : AggregatedPrice) : res (AggregatedPrice * value) :=
  fd_switch fd
    [("vertix.oracle.v1.AggregatedPrice.block_time", (let x := AggregatedPrice_set_BlockTime (Some (default pm_new (AggregatedPrice_BlockTime x))) x in Ok (x, VTimestamp (AggregatedPrice_BlockTime x))));
     ("vertix.oracle.v1.AggregatedPrice.pair", Panic);
     ("vertix.oracle.v1.AggregatedPrice.price", Panic);
     ("vertix.oracle.v1.AggregatedPrice.block_height", Panic)].

Definition AggregatedPrice_NewField (fd : string) : res value :=
  fd_switch fd
    [("vertix.oracle.v1.AggregatedPrice.pair", Ok (VString ""));
     ("vertix.oracle.v1.AggregatedPrice.price", Ok (VString ""));
     ("vertix.oracle.v1.AggregatedPrice.block_height", Ok (VInt64 0));
     ("vertix.oracle.v1.AggregatedPrice.block_time", Ok (VTimestamp (Some pm_new)))].

Definition AggregatedPrice_size (o : option AggregatedPrice) : Z :=
  match o with
  | None => 0
  | Some x => pz_string (AggregatedPrice_Pair x) + pz_string (AggregatedPrice_Price x) + pz_int (AggregatedPrice_BlockHeight x) + pz_msg (AggregatedPrice_BlockTime x) + zlen (AggregatedPrice_unknownFields x)
  end.

Definition AggregatedPrice_marshal : bytes -> option AggregatedPrice -> res bytes :=
  pulsar_marshal AggregatedPrice_size (fun x w =>
    w ← pw_raw (AggregatedPrice_unknownFields x) w;
    w ← pw_msg x22 (AggregatedPrice_BlockTime x) w;
    w ← pw_int x18 (AggregatedPrice_BlockHeight x) w;
    w ← pw_string x12 (AggregatedPrice_Price x) w;
    pw_string x0a (AggregatedPrice_Pair x) w).

Definition AggregatedPrice_unmarshal : bool -> bytes -> option AggregatedPrice -> res (option AggregatedPrice) :=
  pulsar_unmarshal (fun discard l fieldNum wireType x b =>
    match fieldNum with
    | 1 => Some ('(s, b) ← rd_string l wireType b; Ok (AggregatedPrice_set_Pair s x, b))
    | 2 => Some ('(s, b) ← rd_string l wireType b; Ok (AggregatedPrice_set_Price s x, b))
    | 3 => Some ('(s, b) ← rd_int64 wireType b; Ok (AggregatedPrice_set_BlockHeight s x, b))
    | 4 => Some ('(s, b) ← pr_msg discard (AggregatedPrice_BlockTime x) l wireType b; Ok (AggregatedPrice_set_BlockTime (Some s) x, b))
    | _ => None
    end) (fun s x => AggregatedPrice_set_unknownFields (AggregatedPrice_unknownFields x ++ s) x).

#[global] Instance AggregatedPrice_pulsar : PulsarMsg AggregatedPrice := {|
  pm_new := mkAggregatedPrice "" "" 0 None [];
  pm_size := AggregatedPrice_size; pm_marshal := AggregatedPrice_marshal; pm_unmarshal := AggregatedPrice_unmarshal;
  pm_unknown := AggregatedPrice_unknownFields; pm_set_unknown := AggregatedPrice_set_unknownFields
|}.

#[global] Instance AggregatedPrice_reflect : Reflect AggregatedPrice value := {|
  r_new := mkAggregatedPrice "" "" 0 None [];
  r_names := ["vertix.oracle.v1.AggregatedPrice.pair";
    "vertix.oracle.v1.AggregatedPrice.price";
    "vertix.oracle.v1.AggregatedPrice.block_height";
    "vertix.oracle.v1.AggregatedPrice.block_time"];
  r_Range := @AggregatedPrice_Range; r_Has := AggregatedPrice_Has; r_Clear := AggregatedPrice_Clear; r_Get := AggregatedPrice_Get;
  r_Set := AggregatedPrice_Set; r_Mutable := AggregatedPrice_Mutable; r_NewField := AggregatedPrice_NewField;
  r_SetUnknown := AggregatedPrice_set_unknownFields
|}.

#[global] Instance AggregatedPrice_schema : Schema AggregatedPrice := fun x =>
  [(1, FString (AggregatedPrice_Pair x));
   (2, FString (AggregatedPrice_Price x));
   (3, FInt (AggregatedPrice_BlockHeight x));
   (4, FMsgs (ptr_fields (AggregatedPrice_BlockTime x)))].

#[global] Instance AggregatedPrice_strip : PulsarStrip AggregatedPrice := fun x =>
  mkAggregatedPrice (AggregatedPrice_Pair x) (AggregatedPrice_Price x) (AggregatedPrice_BlockHeight x) (pstrip true (AggregatedPrice_BlockTime x)) [].

(** *** [TWAPEntry] *)

Definition TWAPEntry_Range {S} (f : string -> value -> S -> bool * S) (x : TWAPEntry) (s : S) : S :=
  visit f (str_set (TWAPEntry_Pair x)) "vertix.oracle.v1.TWAPEntry.pair" (VString (TWAPEntry_Pair x)) (fun s =>
  visit f (str_set (TWAPEntry_Price x)) "vertix.oracle.v1.TWAPEntry.price" (VString (TWAPEntry_Price x)) (fun s =>
  visit f (ptr_set (TWAPEntry_BlockTime x)) "vertix.oracle.v1.TWAPEntry.block_time" (VTimestamp (TWAPEntry_BlockTime x)) (fun s => s) s) s) s.

Definition TWAPEntry_Has (fd : string) (x : TWAPEntry) : res bool :=
  fd_switch fd
    [("vertix.oracle.v1.TWAPEntry.pair", Ok (str_set (TWAPEntry_Pair x)));
     ("vertix.oracle.v1.TWAPEntry.price", Ok (str_set (TWAPEntry_Price x)));
     ("vertix.oracle.v1.TWAPEntry.block_time", Ok (ptr_set (TWAPEntry_BlockTime x)))].

Definition TWAPEntry_Clear (fd : string) (x : TWAPEntry) : res TWAPEntry :=
  fd_switch fd
    [("vertix.oracle.v1.TWAPEntry.pair", Ok (TWAPEntry_set_Pair "" x));
     ("vertix.oracle.v1.TWAPEntry.price", Ok (TWAPEntry_set_Price "" x));
     ("vertix.oracle.v1.TWAPEntry.block_time", Ok (TWAPEntry_set_BlockTime None x))].

Definition TWAPEntry_Get (fd : string) (x : TWAPEntry) : res value :=
  fd_switch fd
    [("vertix.oracle.v1.TWAPEntry.pair", Ok (VString (TWAPEntry_Pair x)));
     ("vertix.oracle.v1.TWAPEntry.price", Ok (VString (TWAPEntry_Price x)));
     ("vertix.oracle.v1.TWAPEntry.block_time", Ok (VTimestamp (TWAPEntry_BlockTime x)))].

Definition TWAPEntry_Set (fd : string) (v : value) (x : TWAPEntry) : res TWAPEntry :=
  fd_switch fd
    [("vertix.oracle.v1.TWAPEntry.pair", (v ← as_string v; Ok (TWAPEntry_set_Pair v x)));
     ("vertix.oracle.v1.TWAPEntry.price", (v ← as_string v; Ok (TWAPEntry_set_Price v x)));
     ("vertix.oracle.v1.TWAPEntry.block_time", (v ← as_Timestamp v; Ok (TWAPEntry_set_BlockTime v x)))].

Definition TWAPEntry_Mutable (fd : string) (x : TWAPEntry) : res (TWAPEntry * value) :=
  fd_switch fd
    [("vertix.oracle.v1.TWAPEntry.block_time", (let x := TWAPEntry_set_BlockTime (Some (default pm_new (TWAPEntry_BlockTime x))) x in Ok (x, VTimestamp (TWAPEntry_BlockTime x))));
     ("vertix.oracle.v1.TWAPEntry.pair", Panic);
     ("vertix.oracle.v1.TWAPEntry.price", Panic)].

Definition TWAPEntry_NewField (fd : string) : res value :=
  fd_switch fd
    [("vertix.oracle.v1.TWAPEntry.pair", Ok (VString ""));
     ("vertix.oracle.v1.TWAPEntry.price", Ok (VString ""));
     ("vertix.oracle.v1.TWAPEntry.block_time", Ok (VTimestamp (Some pm_new)))].

Definition TWAPEntry_size (o : option TWAPEntry) : Z :=
  match o with
  | None => 0
  | Some x => pz_string (TWAPEntry_Pair x) + pz_string (TWAPEntry_Price x) + pz_msg (TWAPEntry_BlockTime x) + zlen (TWAPEntry_unknownFields x)
  end.

Definition TWAPEntry_marshal : bytes -> option TWAPEntry -> res bytes :=
  pulsar_marshal TWAPEntry_size (fun x w =>
    w ← pw_raw (TWAPEntry_unknownFields x) w;
    w ← pw_msg x1a (TWAPEntry_BlockTime x) w;
    w ← pw_string x12 (TWAPEntry_Price x) w;
    pw_string x0a (TWAPEntry_Pair x) w).

Definition TWAPEntry_unmarshal : bool -> bytes -> option TWAPEntry -> res (option TWAPEntry) :=
  pulsar_unmarshal (fun discard l fieldNum wireType x b =>
    match fieldNum with
    | 1 => Some ('(s, b) ← rd_string l wireType b; Ok (TWAPEntry_set_Pair s x, b))
    | 2 => Some ('(s, b) ← rd_string l wireType b; Ok (TWAPEntry_set_Price s x, b))
    | 3 => Some ('(s, b) ← pr_msg discard (TWAPEntry_BlockTime x) l wireType b; Ok (TWAPEntry_set_BlockTime (Some s) x, b))
    | _ => None
    end) (fun s x => TWAPEntry_set_unknownFields (TWAPEntry_unknownFields x ++ s) x).

#[global] Instance TWAPEntry_pulsar : PulsarMsg TWAPEntry := {|
  pm_new := mkTWAPEntry "" "" None [];
  pm_size := TWAPEntry_size; pm_marshal := TWAPEntry_marshal; pm_unmarshal := TWAPEntry_unmarshal;
  pm_unknown := TWAPEntry_unknownFields; pm_set_unknown := TWAPEntry_set_unknownFields
|}.

#[global] Instance TWAPEntry_reflect : Reflect TWAPEntry value := {|
  r_new := mkTWAPEntry "" "" None [];
  r_names := ["vertix.oracle.v1.TWAPEntry.pair";
    "vertix.oracle.v1.TWAPEntry.price";
    "vertix.oracle.v1.TWAPEntry.block_time"];
  r_Range := @TWAPEntry_Range; r_Has := TWAPEntry_Has; r_Clear := TWAPEntry_Clear; r_Get := TWAPEntry_Get;
  r_Set := TWAPEntry_Set; r_Mutable := TWAPEntry_Mutable; r_NewField := TWAPEntry_NewField;
  r_SetUnknown := TWAPEntry_set_unknownFields
|}.

#[global] Instance TWAPEntry_schema : Schema TWAPEntry := fun x =>
  [(1, FString (TWAPEntry_Pair x));
   (2, FString (TWAPEntry_Price x));
   (3, FMsgs (ptr_fields (TWAPEntry_BlockTime x)))].

#[global] Instance TWAPEntry_strip : PulsarStrip TWAPEntry := fun x =>
  mkTWAPEntry (TWAPEntry_Pair x) (TWAPEntry_Price x) (pstrip true (TWAPEntry_BlockTime x)) [].

(** *** [OracleParams] *)

Definition OracleParams_Range {S} (f : string -> value -> S -> bool * S) (x : OracleParams) (s : S) : S :=
  visit f (int_set (OracleParams_VoteWindow x)) "vertix.oracle.v1.OracleParams.vote_window" (VInt64 (OracleParams_VoteWindow x)) (fun s =>
  visit f (str_set (OracleParams_MissThreshold x)) "vertix.oracle.v1.OracleParams.miss_threshold" (VString (OracleParams_MissThreshold x)) (fun s =>
  visit f (str_set (OracleParams_MissSlashRate x)) "vertix.oracle.v1.OracleParams.miss_slash_rate" (VString (OracleParams_MissSlashRate x)) (fun s =>
  visit f (str_set (OracleParams_OutlierSlashRate x)) "vertix.oracle.v1.OracleParams.outlier_slash_rate" (VString (OracleParams_OutlierSlashRate x)) (fun s =>
  visit f (str_set (OracleParams_OutlierThreshold x)) "vertix.oracle.v1.OracleParams.outlier_threshold" (VString (OracleParams_OutlierThreshold x)) (fun s =>
  visit f (int_set (OracleParams_MissWindowSize x)) "vertix.oracle.v1.OracleParams.miss_window_size" (VInt64 (OracleParams_MissWindowSize x)) (fun s =>
  visit f (str_set (OracleParams_QuorumFraction x)) "vertix.oracle.v1.OracleParams.quorum_fraction" (VString (OracleParams_QuorumFraction x)) (fun s =>
  visit f (int_set (OracleParams_MaxPriceAge x)) "vertix.oracle.v1.OracleParams.max_price_age" (VInt64 (OracleParams_MaxPriceAge x)) (fun s =>
  visit f (list_set (OracleParams_AcceptList x)) "vertix.oracle.v1.OracleParams.accept_list" (V_OracleParams_9_list (Some (OracleParams_AcceptList x))) (fun s => s) s) s) s) s) s) s) s) s) s.

Definition OracleParams_Has (fd : string) (x : OracleParams) : res bool :=
  fd_switch fd
    [("vertix.oracle.v1.OracleParams.vote_window", Ok (int_set (OracleParams_VoteWindow x)));
     ("vertix.oracle.v1.OracleParams.miss_threshold", Ok (str_set (OracleParams_MissThreshold x)));
     ("vertix.oracle.v1.OracleParams.miss_slash_rate", Ok (str_set (OracleParams_MissSlashRate x)));
     ("vertix.oracle.v1.OracleParams.outlier_slash_rate", Ok (str_set (OracleParams_OutlierSlashRate x)));
     ("vertix.oracle.v1.OracleParams.outlier_threshold", Ok (str_set (OracleParams_OutlierThreshold x)));
     ("vertix.oracle.v1.OracleParams.miss_window_size", Ok (int_set (OracleParams_MissWindowSize x)));
     ("vertix.oracle.v1.OracleParams.quorum_fraction", Ok (str_set (OracleParams_QuorumFraction x)));
     ("vertix.oracle.v1.OracleParams.max_price_age", Ok (int_set (OracleParams_MaxPriceAge x)));
     ("vertix.oracle.v1.OracleParams.accept_list", Ok (list_set (OracleParams_AcceptList x)))].

Definition OracleParams_Clear (fd : string) (x : OracleParams) : res OracleParams :=
  fd_switch fd
    [("vertix.oracle.v1.OracleParams.vote_window", Ok (OracleParams_set_VoteWindow 0 x));
     ("vertix.oracle.v1.OracleParams.miss_threshold", Ok (OracleParams_set_MissThreshold "" x));
     ("vertix.oracle.v1.OracleParams.miss_slash_rate", Ok (OracleParams_set_MissSlashRate "" x));
     ("vertix.oracle.v1.OracleParams.outlier_slash_rate", Ok (OracleParams_set_OutlierSlashRate "" x));
     ("vertix.oracle.v1.OracleParams.outlier_threshold", Ok (OracleParams_set_OutlierThreshold "" x));
     ("vertix.oracle.v1.OracleParams.miss_window_size", Ok (OracleParams_set_MissWindowSize 0 x));
     ("vertix.oracle.v1.OracleParams.quorum_fraction", Ok (OracleParams_set_QuorumFraction "" x));
     ("vertix.oracle.v1.OracleParams.max_price_age", Ok (OracleParams_set_MaxPriceAge 0 x));
     ("vertix.oracle.v1.OracleParams.accept_list", Ok (OracleParams_set_AcceptList [] x))].

Definition OracleParams_Get (fd : string) (x : OracleParams) : res value :=
  fd_switch fd
    [("vertix.oracle.v1.OracleParams.vote_window", Ok (VInt64 (OracleParams_VoteWindow x)));
     ("vertix.oracle.v1.OracleParams.miss_threshold", Ok (VString (OracleParams_MissThreshold x)));
     ("vertix.oracle.v1.OracleParams.miss_slash_rate", Ok (VString (OracleParams_MissSlashRate x)));
     ("vertix.oracle.v1.OracleParams.outlier_slash_rate", Ok (VString (OracleParams_OutlierSlashRate x)));
     ("vertix.oracle.v1.OracleParams.outlier_threshold", Ok (VString (OracleParams_OutlierThreshold x)));
     ("vertix.oracle.v1.OracleParams.miss_window_size", Ok (VInt64 (OracleParams_MissWindowSize x)));
     ("vertix.oracle.v1.OracleParams.quorum_fraction", Ok (VString (OracleParams_QuorumFraction x)));
     ("vertix.oracle.v1.OracleParams.max_price_age", Ok (VInt64 (OracleParams_MaxPriceAge x)));
     ("vertix.oracle.v1.OracleParams.accept_list", Ok (V_OracleParams_9_list (list_view (OracleParams_AcceptList x))))].

Definition OracleParams_Set (fd : string) (v : value) (x : OracleParams) : res OracleParams :=
  fd_switch fd
    [("vertix.oracle.v1.OracleParams.vote_window", (v ← as_int64 v; Ok (OracleParams_set_VoteWindow v x)));
     ("vertix.oracle.v1.OracleParams.miss_threshold", (v ← as_string v; Ok (OracleParams_set_MissThreshold v x)));
     ("vertix.oracle.v1.OracleParams.miss_slash_rate", (v ← as_string v; Ok (OracleParams_set_MissSlashRate v x)));
     ("vertix.oracle.v1.OracleParams.outlier_slash_rate", (v ← as_string v; Ok (OracleParams_set_OutlierSlashRate v x)));
     ("vertix.oracle.v1.OracleParams.outlier_threshold", (v ← as_string v; Ok (OracleParams_set_OutlierThreshold v x)));
     ("vertix.oracle.v1.OracleParams.miss_window_size", (v ← as_int64 v; Ok (OracleParams_set_MissWindowSize v x)));
     ("vertix.oracle.v1.OracleParams.quorum_fraction", (v ← as_string v; Ok (OracleParams_set_QuorumFraction v x)));
     ("vertix.oracle.v1.OracleParams.max_price_age", (v ← as_int64 v; Ok (OracleParams_set_MaxPriceAge v x)));
     ("vertix.oracle.v1.OracleParams.accept_list", (v ← as_OracleParams_9_list v; Ok (OracleParams_set_AcceptList v x)))].

Definition OracleParams_Mutable (fd : string) (x : OracleParams) : res (OracleParams * value) :=
  fd_switch fd
    [("vertix.oracle.v1.OracleParams.accept_list", Ok (x, V_OracleParams_9_list (Some (OracleParams_AcceptList x))));
     ("vertix.oracle.v1.OracleParams.vote_window", Panic);
     ("vertix.oracle.v1.OracleParams.miss_threshold", Panic);
     ("vertix.oracle.v1.OracleParams.miss_slash_rate", Panic);
     ("vertix.oracle.v1.OracleParams.outlier_slash_rate", Panic);
     ("vertix.oracle.v1.OracleParams.outlier_threshold", Panic);
     ("vertix.oracle.v1.OracleParams.miss_window_size", Panic);
     ("vertix.oracle.v1.OracleParams.quorum_fraction", Panic);
     ("vertix.oracle.v1.OracleParams.max_price_age", Panic)].

Definition OracleParams_NewField (fd : string) : res value :=
  fd_switch fd
    [("vertix.oracle.v1.OracleParams.vote_window", Ok (VInt64 0));
     ("vertix.oracle.v1.OracleParams.miss_threshold", Ok (VString ""));
     ("vertix.oracle.v1.OracleParams.miss_slash_rate", Ok (VString ""));
     ("vertix.oracle.v1.OracleParams.outlier_slash_rate", Ok (VString ""));
     ("vertix.oracle.v1.OracleParams.outlier_threshold", Ok (VString ""));
     ("vertix.oracle.v1.OracleParams.miss_window_size", Ok (VInt64 0));
     ("vertix.oracle.v1.OracleParams.quorum_fraction", Ok (VString ""));
     ("vertix.oracle.v1.OracleParams.max_price_age", Ok (VInt64 0));
     ("vertix.oracle.v1.OracleParams.accept_list", Ok (V_OracleParams_9_list (Some [])))].

Definition OracleParams_size (o : option OracleParams) : Z :=
  match o with
  | None => 0
  | Some x => pz_int (OracleParams_VoteWindow x) + pz_string (OracleParams_MissThreshold x) + pz_string (OracleParams_MissSlashRate x) + pz_string (OracleParams_OutlierSlashRate x) + pz_string (OracleParams_OutlierThreshold x) + pz_int (OracleParams_MissWindowSize x) + pz_string (OracleParams_QuorumFraction x) + pz_int (OracleParams_MaxPriceAge x) + pz_strings (OracleParams_AcceptList x) + zlen (OracleParams_unknownFields x)
  end.

Definition OracleParams_marshal : bytes -> option OracleParams -> res bytes :=
  pulsar_marshal OracleParams_size (fun x w =>
    w ← pw_raw (OracleParams_unknownFields x) w;
    w ← pw_strings x4a (OracleParams_AcceptList x) w;
    w ← pw_int x40 (OracleParams_MaxPriceAge x) w;
    w ← pw_string x3a (OracleParams_QuorumFraction x) w;
    w ← pw_int x30 (OracleParams_MissWindowSize x) w;
    w ← pw_string x2a (OracleParams_OutlierThreshold x) w;
    w ← pw_string x22 (OracleParams_OutlierSlashRate x) w;
    w ← pw_string x1a (OracleParams_MissSlashRate x) w;
    w ← pw_string x12 (OracleParams_MissThreshold x) w;
    pw_int x08 (OracleParams_VoteWindow x) w).

Definition OracleParams_unmarshal : bool -> bytes -> option OracleParams -> res (option OracleParams) :=
  pulsar_unmarshal (fun discard l fieldNum wireType x b =>
    match fieldNum with
    | 1 => Some ('(s, b) ← rd_int64 wireType b; Ok (OracleParams_set_VoteWindow s x, b))
    | 2 => Some ('(s, b) ← rd_string l wireType b; Ok (OracleParams_set_MissThreshold s x, b))
    | 3 => Some ('(s, b) ← rd_string l wireType b; Ok (OracleParams_set_MissSlashRate s x, b))
    | 4 => Some ('(s, b) ← rd_string l wireType b; Ok (OracleParams_set_OutlierSlashRate s x, b))
    | 5 => Some ('(s, b) ← rd_string l wireType b; Ok (OracleParams_set_OutlierThreshold s x, b))
    | 6 => Some ('(s, b) ← rd_int64 wireType b; Ok (OracleParams_set_MissWindowSize s x, b))
    | 7 => Some ('(s, b) ← rd_string l wireType b; Ok (OracleParams_set_QuorumFraction s x, b))
    | 8 => Some ('(s, b) ← rd_int64 wireType b; Ok (OracleParams_set_MaxPriceAge s x, b))
    | 9 => Some ('(s, b) ← rd_string l wireType b; Ok (OracleParams_set_AcceptList (OracleParams_AcceptList x ++ [s]) x, b))
    | _ => None
    end) (fun s x => OracleParams_set_unknownFields (OracleParams_unknownFields x ++ s) x).

#[global] Instance OracleParams_pulsar : PulsarMsg OracleParams := {|
  pm_new := mkOracleParams 0 "" "" "" "" 0 "" 0 [] [];
  pm_size := OracleParams_size; pm_marshal := OracleParams_marshal; pm_unmarshal := OracleParams_unmarshal;
  pm_unknown := OracleParams_unknownFields; pm_set_unknown := OracleParams_set_unknownFields
|}.

#[global] Instance OracleParams_reflect : Reflect OracleParams value := {|
  r_new := mkOracleParams 0 "" "" "" "" 0 "" 0 [] [];
  r_names := ["vertix.oracle.v1.OracleParams.vote_window";
    "vertix.oracle.v1.OracleParams.miss_threshold";
    "vertix.oracle.v1.OracleParams.miss_slash_rate";
    "vertix.oracle.v1.OracleParams.outlier_slash_rate";
    "vertix.oracle.v1.OracleParams.outlier_threshold";
    "vertix.oracle.v1.OracleParams.miss_window_size";
    "vertix.oracle.v1.OracleParams.quorum_fraction";
    "vertix.oracle.v1.OracleParams.max_price_age";
    "vertix.oracle.v1.OracleParams.accept_list"];
  r_Range := @OracleParams_Range; r_Has := OracleParams_Has; r_Clear := OracleParams_Clear; r_Get := OracleParams_Get;
  r_Set := OracleParams_Set; r_Mutable := OracleParams_Mutable; r_NewField := OracleParams_NewField;
  r_SetUnknown := OracleParams_set_unknownFields
|}.

#[global] Instance OracleParams_schema : Schema OracleParams := fun x =>
  [(1, FInt (OracleParams_VoteWindow x));
   (2, FString (OracleParams_MissThreshold x));
   (3, FString (OracleParams_MissSlashRate x));
   (4, FString (OracleParams_OutlierSlashRate x));
   (5, FString (OracleParams_OutlierThreshold x));
   (6, FInt (OracleParams_MissWindowSize x));
   (7, FString (OracleParams_QuorumFraction x));
   (8, FInt (OracleParams_MaxPriceAge x));
   (9, FStrings (OracleParams_AcceptList x))].

#[global] Instance OracleParams_strip : PulsarStrip OracleParams := fun x =>
  mkOracleParams (OracleParams_VoteWindow x) (OracleParams_MissThreshold x) (OracleParams_MissSlashRate x) (OracleParams_OutlierSlashRate x) (OracleParams_OutlierThreshold x) (OracleParams_MissWindowSize x) (OracleParams_QuorumFraction x) (OracleParams_MaxPriceAge x) (OracleParams_AcceptList x) [].

(** *** [FeederDelegation] *)

Definition FeederDelegation_Range {S} (f : string -> value -> S -> bool * S) (x : FeederDelegation) (s : S) : S :=
  visit f (str_set (FeederDelegation_Validator x)) "vertix.oracle.v1.FeederDelegation.validator" (VString (FeederDelegation_Validator x)) (fun s =>
  visit f (str_set (FeederDelegation_Feeder x)) "vertix.oracle.v1.FeederDelegation.feeder" (VString (FeederDelegation_Feeder x)) (fun s => s) s) s.

Definition FeederDelegation_Has (fd : string) (x : FeederDelegation) : res bool :=
  fd_switch fd
    [("vertix.oracle.v1.FeederDelegation.validator", Ok (str_set (FeederDelegation_Validator x)));
     ("vertix.oracle.v1.FeederDelegation.feeder", Ok (str_set (FeederDelegation_Feeder x)))].

Definition FeederDelegation_Clear (fd : string) (x : FeederDelegation) : res FeederDelegation :=
  fd_switch fd
    [("vertix.oracle.v1.FeederDelegation.validator", Ok (FeederDelegation_set_Validator "" x));
     ("vertix.oracle.v1.FeederDelegation.feeder", Ok (FeederDelegation_set_Feeder "" x))].

Definition FeederDelegation_Get (fd : string) (x : FeederDelegation) : res value :=
  fd_switch fd
    [("vertix.oracle.v1.FeederDelegation.validator", Ok (VString (FeederDelegation_Validator x)));
     ("vertix.oracle.v1.FeederDelegation.feeder", Ok (VString (FeederDelegation_Feeder x)))].

Definition FeederDelegation_Set (fd : string) (v : value) (x : FeederDelegation) : res FeederDelegation :=
  fd_switch fd
    [("vertix.oracle.v1.FeederDelegation.validator", (v ← as_string v; Ok (FeederDelegation_set_Validator v x)));
     ("vertix.oracle.v1.FeederDelegation.feeder", (v ← as_string v; Ok (FeederDelegation_set_Feeder v x)))].

Definition FeederDelegation_Mutable (fd : string) (x : FeederDelegation) : res (FeederDelegation * value) :=
  fd_switch fd
    [("vertix.oracle.v1.FeederDelegation.validator", Panic);
     ("vertix.oracle.v1.FeederDelegation.feeder", Panic)].

Definition FeederDelegation_NewField (fd : string) : res value :=
  fd_switch fd
    [("vertix.oracle.v1.FeederDelegation.validator", Ok (VString ""));
     ("vertix.oracle.v1.FeederDelegation.feeder", Ok (VString ""))].

Definition FeederDelegation_size (o : option FeederDelegation) : Z :=
  match o with
  | None => 0
  | Some x => pz_string (FeederDelegation_Validator x) + pz_string (FeederDelegation_Feeder x) + zlen (FeederDelegation_unknownFields x)
  end.

Definition FeederDelegation_marshal : bytes -> option FeederDelegation -> res bytes :=
  pulsar_marshal FeederDelegation_size (fun x w =>
    w ← pw_raw (FeederDelegation_unknownFields x) w;
    w ← pw_string x12 (FeederDelegation_Feeder x) w;
    pw_string x0a (FeederDelegation_Validator x) w).

Definition FeederDelegation_unmarshal : bool -> bytes -> option FeederDelegation -> res (option FeederDelegation) :=
  pulsar_unmarshal (fun discard l fieldNum wireType x b =>
    match fieldNum with
    | 1 => Some ('(s, b) ← rd_string l wireType b; Ok (FeederDelegation_set_Validator s x, b))
    | 2 => Some ('(s, b) ← rd_string l wireType b; Ok (FeederDelegation_set_Feeder s x, b))
    | _ => None
    end) (fun s x => FeederDelegation_set_unknownFields (FeederDelegation_unknownFields x ++ s) x).

#[global] Instance FeederDelegation_pulsar : PulsarMsg FeederDelegation := {|
  pm_new := mkFeederDelegation "" "" [];
  pm_size := FeederDelegation_size; pm_marshal := FeederDelegation_marshal; pm_unmarshal := FeederDelegation_unmarshal;
  pm_unknown := FeederDelegation_unknownFields; pm_set_unknown := FeederDelegation_set_unknownFields
|}.

#[global] Instance FeederDelegation_reflect : Reflect FeederDelegation value := {|
  r_new := mkFeederDelegation "" "" [];
  r_names := ["vertix.oracle.v1.FeederDelegation.validator";
    "vertix.oracle.v1.FeederDelegation.feeder"];
  r_Range := @FeederDelegation_Range; r_Has := FeederDelegation_Has; r_Clear := FeederDelegation_Clear; r_Get := FeederDelegation_Get;
  r_Set := FeederDelegation_Set; r_Mutable := FeederDelegation_Mutable; r_NewField := FeederDelegation_NewField;
  r_SetUnknown := FeederDelegation_set_unknownFields
|}.

#[global] Instance FeederDelegation_schema : Schema FeederDelegation := fun x =>
  [(1, FString (FeederDelegation_Validator x));
   (2, FString (FeederDelegation_Feeder x))].

#[global] Instance FeederDelegation_strip : PulsarStrip FeederDelegation := fun x =>
  mkFeederDelegation (FeederDelegation_Validator x) (FeederDelegation_Feeder x) [].

(** *** [GenesisState] *)

Definition GenesisState_Range {S} (f : string -> value -> S -> bool * S) (x : GenesisState) (s : S) : S :=
  visit f (ptr_set (GenesisState_Params x)) "vertix.oracle.v1.GenesisState.params" (VOracleParams (GenesisState_Params x)) (fun s =>
  visit f (list_set (GenesisState_Prices x)) "vertix.oracle.v1.GenesisState.prices" (V_GenesisState_2_list (Some (GenesisState_Prices x))) (fun s =>
  visit f (list_set (GenesisState_Feeders x)) "vertix.oracle.v1.GenesisState.feeders" (V_GenesisState_3_list (Some (GenesisState_Feeders x))) (fun s => s) s) s) s.

Definition GenesisState_Has (fd : string) (x : GenesisState) : res bool :=
  fd_switch fd
    [("vertix.oracle.v1.GenesisState.params", Ok (ptr_set (GenesisState_Params x)));
     ("vertix.oracle.v1.GenesisState.prices", Ok (list_set (GenesisState_Prices x)));
     ("vertix.oracle.v1.GenesisState.feeders", Ok (list_set (GenesisState_Feeders x)))].

Definition GenesisState_Clear (fd : string) (x : GenesisState) : res GenesisState :=
  fd_switch fd
    [("vertix.oracle.v1.GenesisState.params", Ok (GenesisState_set_Params None x));
     ("vertix.oracle.v1.GenesisState.prices", Ok (GenesisState_set_Prices [] x));
     ("vertix.oracle.v1.GenesisState.feeders", Ok (GenesisState_set_Feeders [] x))].

Definition GenesisState_Get (fd : string) (x : GenesisState) : res value :=
  fd_switch fd
    [("vertix.oracle.v1.GenesisState.params", Ok (VOracleParams (GenesisState_Params x)));
     ("vertix.oracle.v1.GenesisState.prices", Ok (V_GenesisState_2_list (list_view (GenesisState_Prices x))));
     ("vertix.oracle.v1.GenesisState.feeders", Ok (V_GenesisState_3_list (list_view (GenesisState_Feeders x))))].

Definition GenesisState_Set (fd : string) (v : value) (x : GenesisState) : res GenesisState :=
  fd_switch fd
    [("vertix.oracle.v1.GenesisState.params", (v ← as_OracleParams v; Ok (GenesisState_set_Params v x)));
     ("vertix.oracle.v1.GenesisState.prices", (v ← as_GenesisState_2_list v; Ok (GenesisState_set_Prices v x)));
     ("vertix.oracle.v1.GenesisState.feeders", (v ← as_GenesisState_3_list v; Ok (GenesisState_set_Feeders v x)))].

Definition GenesisState_Mutable (fd : string) (x : GenesisState) : res (GenesisState * value) :=
  fd_switch fd
    [("vertix.oracle.v1.GenesisState.params", (let x := GenesisState_set_Params (Some (default pm_new (GenesisState_Params x))) x in Ok (x, VOracleParams (GenesisState_Params x))));
     ("vertix.oracle.v1.GenesisState.prices", Ok (x, V_GenesisState_2_list (Some (GenesisState_Prices x))));
     ("vertix.oracle.v1.GenesisState.feeders", Ok (x, V_GenesisState_3_list (Some (GenesisState_Feeders x))))].

Definition GenesisState_NewField (fd : string) : res value :=
  fd_switch fd
    [("vertix.oracle.v1.GenesisState.params", Ok (VOracleParams (Some pm_new)));
     ("vertix.oracle.v1.GenesisState.prices", Ok (V_GenesisState_2_list (Some [])));
     ("vertix.oracle.v1.GenesisState.feeders", Ok (V_GenesisState_3_list (Some [])))].

Definition GenesisState_size (o : option GenesisState) : Z :=
  match o with
  | None => 0
  | Some x => pz_msg (GenesisState_Params x) + pz_msgs (GenesisState_Prices x) + pz_msgs (GenesisState_Feeders x) + zlen (GenesisState_unknownFields x)
  end.

Definition GenesisState_marshal : bytes -> option GenesisState -> res bytes :=
  pulsar_marshal GenesisState_size (fun x w =>
    w ← pw_raw (GenesisState_unknownFields x) w;
    w ← pw_msgs x1a (GenesisState_Feeders x) w;
    w ← pw_msgs x12 (GenesisState_Prices x) w;
    pw_msg x0a (GenesisState_Params x) w).

Definition GenesisState_unmarshal : bool -> bytes -> option GenesisState -> res (option GenesisState) :=
  pulsar_unmarshal (fun discard l fieldNum wireType x b =>
    match fieldNum with
    | 1 => Some ('(s, b) ← pr_msg discard (GenesisState_Params x) l wireType b; Ok (GenesisState_set_Params (Some s) x, b))
    | 2 => Some ('(s, b) ← pr_msg discard None l wireType b; Ok (GenesisState_set_Prices (GenesisState_Prices x ++ [Some s]) x, b))
    | 3 => Some ('(s, b) ← pr_msg discard None l wireType b; Ok (GenesisState_set_Feeders (GenesisState_Feeders x ++ [Some s]) x, b))
    | _ => None
    end) (fun s x => GenesisState_set_unknownFields (GenesisState_unknownFields x ++ s) x).

#[global] Instance GenesisState_pulsar : PulsarMsg GenesisState := {|
  pm_new := mkGenesisState None [] [] [];
  pm_size := GenesisState_size; pm_marshal := GenesisState_marshal; pm_unmarshal := GenesisState_unmarshal;
  pm_unknown := GenesisState_unknownFields; pm_set_unknown := GenesisState_set_unknownFields
|}.

#[global] Instance GenesisState_reflect : Reflect GenesisState value := {|
  r_new := mkGenesisState None [] [] [];
  r_names := ["vertix.oracle.v1.GenesisState.params";
    "vertix.oracle.v1.GenesisState.prices";
    "vertix.oracle.v1.GenesisState.feeders"];
  r_Range := @GenesisState_Range; r_Has := GenesisState_Has; r_Clear := GenesisState_Clear; r_Get := GenesisState_Get;
  r_Set := GenesisState_Set; r_Mutable := GenesisState_Mutable; r_NewField := GenesisState_NewField;
  r_SetUnknown := GenesisState_set_unknownFields
|}.

#[global] Instance GenesisState_schema : Schema GenesisState := fun x =>
  [(1, FMsgs (ptr_fields (GenesisState_Params x)));
   (2, FMsgs (elem_fields <$> (GenesisState_Prices x)));
   (3, FMsgs (elem_fields <$> (GenesisState_Feeders x)))].

#[global] Instance GenesisState_strip : PulsarStrip GenesisState := fun x =>
  mkGenesisState (pstrip true (GenesisState_Params x)) (pstrips true (GenesisState_Prices x)) (pstrips true (GenesisState_Feeders x)) [].

(** *** [MsgSetFeeder] *)

Definition MsgSetFeeder_Range {S} (f : string -> value -> S -> bool * S) (x : MsgSetFeeder) (s : S) : S :=
  visit f (str_set (MsgSetFeeder_Validator x)) "vertix.oracle.v1.MsgSetFeeder.validator" (VString (MsgSetFeeder_Validator x)) (fun s =>
  visit f (str_set (MsgSetFeeder_Feeder x)) "vertix.oracle.v1.MsgSetFeeder.feeder" (VString (MsgSetFeeder_Feeder x)) (fun s => s) s) s.

Definition MsgSetFeeder_Has (fd : string) (x : MsgSetFeeder) : res bool :=
  fd_switch fd
    [("vertix.oracle.v1.MsgSetFeeder.validator", Ok (str_set (MsgSetFeeder_Validator x)));
     ("vertix.oracle.v1.MsgSetFeeder.feeder", Ok (str_set (MsgSetFeeder_Feeder x)))].

Definition MsgSetFeeder_Clear (fd : string) (x : MsgSetFeeder) : res MsgSetFeeder :=
  fd_switch fd
    [("vertix.oracle.v1.MsgSetFeeder.validator", Ok (MsgSetFeeder_set_Validator "" x));
     ("vertix.oracle.v1.MsgSetFeeder.feeder", Ok (MsgSetFeeder_set_Feeder "" x))].

Definition MsgSetFeeder_Get (fd : string) (x : MsgSetFeeder) : res value :=
  fd_switch fd
    [("vertix.oracle.v1.MsgSetFeeder.validator", Ok (VString (MsgSetFeeder_Validator x)));
     ("vertix.oracle.v1.MsgSetFeeder.feeder", Ok (VString (MsgSetFeeder_Feeder x)))].

Definition MsgSetFeeder_Set (fd : string) (v : value) (x : MsgSetFeeder) : res MsgSetFeeder :=
  fd_switch fd
    [("vertix.oracle.v1.MsgSetFeeder.validator", (v ← as_string v; Ok (MsgSetFeeder_set_Validator v x)));
     ("vertix.oracle.v1.MsgSetFeeder.feeder", (v ← as_string v; Ok (MsgSetFeeder_set_Feeder v x)))].

Definition MsgSetFeeder_Mutable (fd : string) (x : MsgSetFeeder) : res (MsgSetFeeder * value) :=
  fd_switch fd
    [("vertix.oracle.v1.MsgSetFeeder.validator", Panic);
     ("vertix.oracle.v1.MsgSetFeeder.feeder", Panic)].

Definition MsgSetFeeder_NewField (fd : string) : res value :=
  fd_switch fd
    [("vertix.oracle.v1.MsgSetFeeder.validator", Ok (VString ""));
     ("vertix.oracle.v1.MsgSetFeeder.feeder", Ok (VString ""))].

Definition MsgSetFeeder_size (o : option MsgSetFeeder) : Z :=
  match o with
  | None => 0
  | Some x => pz_string (MsgSetFeeder_Validator x) + pz_string (MsgSetFeeder_Feeder x) + zlen (MsgSetFeeder_unknownFields x)
  end.

Definition MsgSetFeeder_marshal : bytes -> option MsgSetFeeder -> res bytes :=
  pulsar_marshal MsgSetFeeder_size (fun x w =>
    w ← pw_raw (MsgSetFeeder_unknownFields x) w;
    w ← pw_string x12 (MsgSetFeeder_Feeder x) w;
    pw_string x0a (MsgSetFeeder_Validator x) w).

Definition MsgSetFeeder_unmarshal : bool -> bytes -> option MsgSetFeeder -> res (option MsgSetFeeder) :=
  pulsar_unmarshal (fun discard l fieldNum wireType x b =>
    match fieldNum with
    | 1 => Some ('(s, b) ← rd_string l wireType b; Ok (MsgSetFeeder_set_Validator s x, b))
    | 2 => Some ('(s, b) ← rd_string l wireType b; Ok (MsgSetFeeder_set_Feeder s x, b))
    | _ => None
    end) (fun s x => MsgSetFeeder_set_unknownFields (MsgSetFeeder_unknownFields x ++ s) x).

#[global] Instance MsgSetFeeder_pulsar : PulsarMsg MsgSetFeeder := {|
  pm_new := mkMsgSetFeeder "" "" [];
  pm_size := MsgSetFeeder_size; pm_marshal := MsgSetFeeder_marshal; pm_unmarshal := MsgSetFeeder_unmarshal;
  pm_unknown := MsgSetFeeder_unknownFields; pm_set_unknown := MsgSetFeeder_set_unknownFields
|}.

#[global] Instance MsgSetFeeder_reflect : Reflect MsgSetFeeder value := {|
  r_new := mkMsgSetFeeder "" "" [];
  r_names := ["vertix.oracle.v1.MsgSetFeeder.validator";
    "vertix.oracle.v1.MsgSetFeeder.feeder"];
  r_Range := @MsgSetFeeder_Range; r_Has := MsgSetFeeder_Has; r_Clear := MsgSetFeeder_Clear; r_Get := MsgSetFeeder_Get;
  r_Set := MsgSetFeeder_Set; r_Mutable := MsgSetFeeder_Mutable; r_NewField := MsgSetFeeder_NewField;
  r_SetUnknown := MsgSetFeeder_set_unknownFields
|}.

#[global] Instance MsgSetFeeder_schema : Schema MsgSetFeeder := fun x =>
  [(1, FString (MsgSetFeeder_Validator x));
   (2, FString (MsgSetFeeder_Feeder x))].

#[global] Instance MsgSetFeeder_strip : PulsarStrip MsgSetFeeder := fun x =>
  mkMsgSetFeeder (MsgSetFeeder_Validator x) (MsgSetFeeder_Feeder x) [].

(** *** [MsgSetFeederResponse] *)

Definition MsgSetFeederResponse_Range {S} (f : string -> value -> S -> bool * S) (x : MsgSetFeederResponse) (s : S) : S :=
  s.

Definition MsgSetFeederResponse_Has (fd : string) (x : MsgSetFeederResponse) : res bool :=
  fd_switch fd [].

Definition MsgSetFeederResponse_Clear (fd : string) (x : MsgSetFeederResponse) : res MsgSetFeederResponse :=
  fd_switch fd [].

Definition MsgSetFeederResponse_Get (fd : string) (x : MsgSetFeederResponse) : res value :=
  fd_switch fd [].

Definition MsgSetFeederResponse_Set (fd : string) (v : value) (x : MsgSetFeederResponse) : res MsgSetFeederResponse :=
  fd_switch fd [].

Definition MsgSetFeederResponse_Mutable (fd : string) (x : MsgSetFeederResponse) : res (MsgSetFeederResponse * value) :=
  fd_switch fd [].

Definition MsgSetFeederResponse_NewField (fd : string) : res value :=
  fd_switch fd [].

Definition MsgSetFeederResponse_size (o : option MsgSetFeederResponse) : Z :=
  match o with
  | None => 0
  | Some x => zlen (MsgSetFeederResponse_unknownFields x)
  end.

Definition MsgSetFeederResponse_marshal : bytes -> option MsgSetFeederResponse -> res bytes :=
  pulsar_marshal MsgSetFeederResponse_size (fun x w =>
    pw_raw (MsgSetFeederResponse_unknownFields x) w).

Definition MsgSetFeederResponse_unmarshal : bool -> bytes -> option MsgSetFeederResponse -> res (option MsgSetFeederResponse) :=
  pulsar_unmarshal (fun discard l fieldNum wireType x b => None)
    (fun s x => MsgSetFeederResponse_set_unknownFields (MsgSetFeederResponse_unknownFields x ++ s) x).

#[global] Instance MsgSetFeederResponse_pulsar : PulsarMsg MsgSetFeederResponse := {|
  pm_new := mkMsgSetFeederResponse [];
  pm_size := MsgSetFeederResponse_size; pm_marshal := MsgSetFeederResponse_marshal; pm_unmarshal := MsgSetFeederResponse_unmarshal;
  pm_unknown := MsgSetFeederResponse_unknownFields; pm_set_unknown := MsgSetFeederResponse_set_unknownFields
|}.

#[global] Instance MsgSetFeederResponse_reflect : Reflect MsgSetFeederResponse value := {|
  r_new := mkMsgSetFeederResponse [];
  r_names := [];
  r_Range := @MsgSetFeederResponse_Range; r_Has := MsgSetFeederResponse_Has; r_Clear := MsgSetFeederResponse_Clear; r_Get := MsgSetFeederResponse_Get;
  r_Set := MsgSetFeederResponse_Set; r_Mutable := MsgSetFeederResponse_Mutable; r_NewField := MsgSetFeederResponse_NewField;
  r_SetUnknown := MsgSetFeederResponse_set_unknownFields
|}.

#[global] Instance MsgSetFeederResponse_schema : Schema MsgSetFeederResponse := fun x =>
  [].

#[global] Instance MsgSetFeederResponse_strip : PulsarStrip MsgSetFeederResponse := fun x =>
  mkMsgSetFeederResponse [].

(** *** [MsgSubmitFeed] *)

Definition MsgSubmitFeed_Range {S} (f : string -> value -> S -> bool * S) (x : MsgSubmitFeed) (s : S) : S :=
  visit f (str_set (MsgSubmitFeed_Feeder x)) "vertix.oracle.v1.MsgSubmitFeed.feeder" (VString (MsgSubmitFeed_Feeder x)) (fun s =>
  visit f (str_set (MsgSubmitFeed_Validator x)) "vertix.oracle.v1.MsgSubmitFeed.validator" (VString (MsgSubmitFeed_Validator x)) (fun s =>
  visit f (str_set (MsgSubmitFeed_Pair x)) "vertix.oracle.v1.MsgSubmitFeed.pair" (VString (MsgSubmitFeed_Pair x)) (fun s =>
  visit f (str_set (MsgSubmitFeed_Price x)) "vertix.oracle.v1.MsgSubmitFeed.price" (VString (MsgSubmitFeed_Price x)) (fun s => s) s) s) s) s.

Definition MsgSubmitFeed_Has (fd : string) (x : MsgSubmitFeed) : res bool :=
  fd_switch fd
    [("vertix.oracle.v1.MsgSubmitFeed.feeder", Ok (str_set (MsgSubmitFeed_Feeder x)));
     ("vertix.oracle.v1.MsgSubmitFeed.validator", Ok (str_set (MsgSubmitFeed_Validator x)));
     ("vertix.oracle.v1.MsgSubmitFeed.pair", Ok (str_set (MsgSubmitFeed_Pair x)));
     ("vertix.oracle.v1.MsgSubmitFeed.price", Ok (str_set (MsgSubmitFeed_Price x)))].

Definition MsgSubmitFeed_Clear (fd : string) (x : MsgSubmitFeed) : res MsgSubmitFeed :=
  fd_switch fd
    [("vertix.oracle.v1.MsgSubmitFeed.feeder", Ok (MsgSubmitFeed_set_Feeder "" x));
     ("vertix.oracle.v1.MsgSubmitFeed.validator", Ok (MsgSubmitFeed_set_Validator "" x));
     ("vertix.oracle.v1.MsgSubmitFeed.pair", Ok (MsgSubmitFeed_set_Pair "" x));
     ("vertix.oracle.v1.MsgSubmitFeed.price", Ok (MsgSubmitFeed_set_Price "" x))].

Definition MsgSubmitFeed_Get (fd : string) (x : MsgSubmitFeed) : res value :=
  fd_switch fd
    [("vertix.oracle.v1.MsgSubmitFeed.feeder", Ok (VString (MsgSubmitFeed_Feeder x)));
     ("vertix.oracle.v1.MsgSubmitFeed.validator", Ok (VString (MsgSubmitFeed_Validator x)));
     ("vertix.oracle.v1.MsgSubmitFeed.pair", Ok (VString (MsgSubmitFeed_Pair x)));
     ("vertix.oracle.v1.MsgSubmitFeed.price", Ok (VString (MsgSubmitFeed_Price x)))].

Definition MsgSubmitFeed_Set (fd : string) (v : value) (x : MsgSubmitFeed) : res MsgSubmitFeed :=
  fd_switch fd
    [("vertix.oracle.v1.MsgSubmitFeed.feeder", (v ← as_string v; Ok (MsgSubmitFeed_set_Feeder v x)));
     ("vertix.oracle.v1.MsgSubmitFeed.validator", (v ← as_string v; Ok (MsgSubmitFeed_set_Validator v x)));
     ("vertix.oracle.v1.MsgSubmitFeed.pair", (v ← as_string v; Ok (MsgSubmitFeed_set_Pair v x)));
     ("vertix.oracle.v1.MsgSubmitFeed.price", (v ← as_string v; Ok (MsgSubmitFeed_set_Price v x)))].

Definition MsgSubmitFeed_Mutable (fd : string) (x : MsgSubmitFeed) : res (MsgSubmitFeed * value) :=
  fd_switch fd
    [("vertix.oracle.v1.MsgSubmitFeed.feeder", Panic);
     ("vertix.oracle.v1.MsgSubmitFeed.validator", Panic);
     ("vertix.oracle.v1.MsgSubmitFeed.pair", Panic);
     ("vertix.oracle.v1.MsgSubmitFeed.price", Panic)].

Definition MsgSubmitFeed_NewField (fd : string) : res value :=
  fd_switch fd
    [("vertix.oracle.v1.MsgSubmitFeed.feeder", Ok (VString ""));
     ("vertix.oracle.v1.MsgSubmitFeed.validator", Ok (VString ""));
     ("vertix.oracle.v1.MsgSubmitFeed.pair", Ok (VString ""));
     ("vertix.oracle.v1.MsgSubmitFeed.price", Ok (VString ""))].

Definition MsgSubmitFeed_size (o : option MsgSubmitFeed) : Z :=
  match o with
  | None => 0
  | Some x => pz_string (MsgSubmitFeed_Feeder x) + pz_string (MsgSubmitFeed_Validator x) + pz_string (MsgSubmitFeed_Pair x) + pz_string (MsgSubmitFeed_Price x) + zlen (MsgSubmitFeed_unknownFields x)
  end.

Definition MsgSubmitFeed_marshal : bytes -> option MsgSubmitFeed -> res bytes :=
  pulsar_marshal MsgSubmitFeed_size (fun x w =>
    w ← pw_raw (MsgSubmitFeed_unknownFields x) w;
    w ← pw_string x22 (MsgSubmitFeed_Price x) w;
    w ← pw_string x1a (MsgSubmitFeed_Pair x) w;
    w ← pw_string x12 (MsgSubmitFeed_Validator x) w;
    pw_string x0a (MsgSubmitFeed_Feeder x) w).

Definition MsgSubmitFeed_unmarshal : bool -> bytes -> option MsgSubmitFeed -> res (option MsgSubmitFeed) :=
  pulsar_unmarshal (fun discard l fieldNum wireType x b =>
    match fieldNum with
    | 1 => Some ('(s, b) ← rd_string l wireType b; Ok (MsgSubmitFeed_set_Feeder s x, b))
    | 2 => Some ('(s, b) ← rd_string l wireType b; Ok (MsgSubmitFeed_set_Validator s x, b))
    | 3 => Some ('(s, b) ← rd_string l wireType b; Ok (MsgSubmitFeed_set_Pair s x, b))
    | 4 => Some ('(s, b) ← rd_string l wireType b; Ok (MsgSubmitFeed_set_Price s x, b))
    | _ => None
    end) (fun s x => MsgSubmitFeed_set_unknownFields (MsgSubmitFeed_unknownFields x ++ s) x).

#[global] Instance MsgSubmitFeed_pulsar : PulsarMsg MsgSubmitFeed := {|
  pm_new := mkMsgSubmitFeed "" "" "" "" [];
  pm_size := MsgSubmitFeed_size; pm_marshal := MsgSubmitFeed_marshal; pm_unmarshal := MsgSubmitFeed_unmarshal;
  pm_unknown := MsgSubmitFeed_unknownFields; pm_set_unknown := MsgSubmitFeed_set_unknownFields
|}.

#[global] Instance MsgSubmitFeed_reflect : Reflect MsgSubmitFeed value := {|
  r_new := mkMsgSubmitFeed "" "" "" "" [];
  r_names := ["vertix.oracle.v1.MsgSubmitFeed.feeder";
    "vertix.oracle.v1.MsgSubmitFeed.validator";
    "vertix.oracle.v1.MsgSubmitFeed.pair";
    "vertix.oracle.v1.MsgSubmitFeed.price"];
  r_Range := @MsgSubmitFeed_Range; r_Has := MsgSubmitFeed_Has; r_Clear := MsgSubmitFeed_Clear; r_Get := MsgSubmitFeed_Get;
  r_Set := MsgSubmitFeed_Set; r_Mutable := MsgSubmitFeed_Mutable; r_NewField := MsgSubmitFeed_NewField;
  r_SetUnknown := MsgSubmitFeed_set_unknownFields
|}.

#[global] Instance MsgSubmitFeed_schema : Schema MsgSubmitFeed := fun x =>
  [(1, FString (MsgSubmitFeed_Feeder x));
   (2, FString (MsgSubmitFeed_Validator x));
   (3, FString (MsgSubmitFeed_Pair x));
   (4, FString (MsgSubmitFeed_Price x))].

#[global] Instance MsgSubmitFeed_strip : PulsarStrip MsgSubmitFeed := fun x =>
  mkMsgSubmitFeed (MsgSubmitFeed_Feeder x) (MsgSubmitFeed_Validator x) (MsgSubmitFeed_Pair x) (MsgSubmitFeed_Price x) [].

(** *** [MsgSubmitFeedResponse] *)

Definition MsgSubmitFeedResponse_Range {S} (f : string -> value -> S -> bool * S) (x : MsgSubmitFeedResponse) (s : S) : S :=
  s.

Definition MsgSubmitFeedResponse_Has (fd : string) (x : MsgSubmitFeedResponse) : res bool :=
  fd_switch fd [].

Definition MsgSubmitFeedResponse_Clear (fd : string) (x : MsgSubmitFeedResponse) : res MsgSubmitFeedResponse :=
  fd_switch fd [].

Definition MsgSubmitFeedResponse_Get (fd : string) (x : MsgSubmitFeedResponse) : res value :=
  fd_switch fd [].

Definition MsgSubmitFeedResponse_Set (fd : string) (v : value) (x : MsgSubmitFeedResponse) : res MsgSubmitFeedResponse :=
  fd_switch fd [].

Definition MsgSubmitFeedResponse_Mutable (fd : string) (x : MsgSubmitFeedResponse) : res (MsgSubmitFeedResponse * value) :=
  fd_switch fd [].

Definition MsgSubmitFeedResponse_NewField (fd : string) : res value :=
  fd_switch fd [].

Definition MsgSubmitFeedResponse_size (o : option MsgSubmitFeedResponse) : Z :=
  match o with
  | None => 0
  | Some x => zlen (MsgSubmitFeedResponse_unknownFields x)
  end.

Definition MsgSubmitFeedResponse_marshal : bytes -> option MsgSubmitFeedResponse -> res bytes :=
  pulsar_marshal MsgSubmitFeedResponse_size (fun x w =>
    pw_raw (MsgSubmitFeedResponse_unknownFields x) w).

Definition MsgSubmitFeedResponse_unmarshal : bool -> bytes -> option MsgSubmitFeedResponse -> res (option MsgSubmitFeedResponse) :=
  pulsar_unmarshal (fun discard l fieldNum wireType x b => None)
    (fun s x => MsgSubmitFeedResponse_set_unknownFields (MsgSubmitFeedResponse_unknownFields x ++ s) x).

#[global] Instance MsgSubmitFeedResponse_pulsar : PulsarMsg MsgSubmitFeedResponse := {|
  pm_new := mkMsgSubmitFeedResponse [];
  pm_size := MsgSubmitFeedResponse_size; pm_marshal := MsgSubmitFeedResponse_marshal; pm_unmarshal := MsgSubmitFeedResponse_unmarshal;
  pm_unknown := MsgSubmitFeedResponse_unknownFields; pm_set_unknown := MsgSubmitFeedResponse_set_unknownFields
|}.

#[global] Instance MsgSubmitFeedResponse_reflect : Reflect MsgSubmitFeedResponse value := {|
  r_new := mkMsgSubmitFeedResponse [];
  r_names := [];
  r_Range := @MsgSubmitFeedResponse_Range; r_Has := MsgSubmitFeedResponse_Has; r_Clear := MsgSubmitFeedResponse_Clear; r_Get := MsgSubmitFeedResponse_Get;
  r_Set := MsgSubmitFeedResponse_Set; r_Mutable := MsgSubmitFeedResponse_Mutable; r_NewField := MsgSubmitFeedResponse_NewField;
  r_SetUnknown := MsgSubmitFeedResponse_set_unknownFields
|}.

#[global] Instance MsgSubmitFeedResponse_schema : Schema MsgSubmitFeedResponse := fun x =>
  [].

#[global] Instance MsgSubmitFeedResponse_strip : PulsarStrip MsgSubmitFeedResponse := fun x =>
  mkMsgSubmitFeedResponse [].

(** *** [MsgUpdateParams] *)

Definition MsgUpdateParams_Range {S} (f : string -> value -> S -> bool * S) (x : MsgUpdateParams) (s : S) : S :=
  visit f (str_set (MsgUpdateParams_Authority x)) "vertix.oracle.v1.MsgUpdateParams.authority" (VString (MsgUpdateParams_Authority x)) (fun s =>
  visit f (ptr_set (MsgUpdateParams_Params x)) "vertix.oracle.v1.MsgUpdateParams.params" (VOracleParams (MsgUpdateParams_Params x)) (fun s => s) s) s.

Definition MsgUpdateParams_Has (fd : string) (x : MsgUpdateParams) : res bool :=
  fd_switch fd
    [("vertix.oracle.v1.MsgUpdateParams.authority", Ok (str_set (MsgUpdateParams_Authority x)));
     ("vertix.oracle.v1.MsgUpdateParams.params", Ok (ptr_set (MsgUpdateParams_Params x)))].

Definition MsgUpdateParams_Clear (fd : string) (x : MsgUpdateParams) : res MsgUpdateParams :=
  fd_switch fd
    [("vertix.oracle.v1.MsgUpdateParams.authority", Ok (MsgUpdateParams_set_Authority "" x));
     ("vertix.oracle.v1.MsgUpdateParams.params", Ok (MsgUpdateParams_set_Params None x))].

Definition MsgUpdateParams_Get (fd : string) (x : MsgUpdateParams) : res value :=
  fd_switch fd
    [("vertix.oracle.v1.MsgUpdateParams.authority", Ok (VString (MsgUpdateParams_Authority x)));
     ("vertix.oracle.v1.MsgUpdateParams.params", Ok (VOracleParams (MsgUpdateParams_Params x)))].

Definition MsgUpdateParams_Set (fd : string) (v : value) (x : MsgUpdateParams) : res MsgUpdateParams :=
  fd_switch fd
    [("vertix.oracle.v1.MsgUpdateParams.authority", (v ← as_string v; Ok (MsgUpdateParams_set_Authority v x)));
     ("vertix.oracle.v1.MsgUpdateParams.params", (v ← as_OracleParams v; Ok (MsgUpdateParams_set_Params v x)))].

Definition MsgUpdateParams_Mutable (fd : string) (x : MsgUpdateParams) : res (MsgUpdateParams * value) :=
  fd_switch fd
    [("vertix.oracle.v1.MsgUpdateParams.params", (let x := MsgUpdateParams_set_Params (Some (default pm_new (MsgUpdateParams_Params x))) x in Ok (x, VOracleParams (MsgUpdateParams_Params x))));
     ("vertix.oracle.v1.MsgUpdateParams.authority", Panic)].

Definition MsgUpdateParams_NewField (fd : string) : res value :=
  fd_switch fd
    [("vertix.oracle.v1.MsgUpdateParams.authority", Ok (VString ""));
     ("vertix.oracle.v1.MsgUpdateParams.params", Ok (VOracleParams (Some pm_new)))].

Definition MsgUpdateParams_size (o : option MsgUpdateParams) : Z :=
  match o with
  | None => 0
  | Some x => pz_string (MsgUpdateParams_Authority x) + pz_msg (MsgUpdateParams_Params x) + zlen (MsgUpdateParams_unknownFields x)
  end.

Definition MsgUpdateParams_marshal : bytes -> option MsgUpdateParams -> res bytes :=
  pulsar_marshal MsgUpdateParams_size (fun x w =>
    w ← pw_raw (MsgUpdateParams_unknownFields x) w;
    w ← pw_msg x12 (MsgUpdateParams_Params x) w;
    pw_string x0a (MsgUpdateParams_Authority x) w).

Definition MsgUpdateParams_unmarshal : bool -> bytes -> option MsgUpdateParams -> res (option MsgUpdateParams) :=
  pulsar_unmarshal (fun discard l fieldNum wireType x b =>
    match fieldNum with
    | 1 => Some ('(s, b) ← rd_string l wireType b; Ok (MsgUpdateParams_set_Authority s x, b))
    | 2 => Some ('(s, b) ← pr_msg discard (MsgUpdateParams_Params x) l wireType b; Ok (MsgUpdateParams_set_Params (Some s) x, b))
    | _ => None
    end) (fun s x => MsgUpdateParams_set_unknownFields (MsgUpdateParams_unknownFields x ++ s) x).

#[global] Instance MsgUpdateParams_pulsar : PulsarMsg MsgUpdateParams := {|
  pm_new := mkMsgUpdateParams "" None [];
  pm_size := MsgUpdateParams_size; pm_marshal := MsgUpdateParams_marshal; pm_unmarshal := MsgUpdateParams_unmarshal;
  pm_unknown := MsgUpdateParams_unknownFields; pm_set_unknown := MsgUpdateParams_set_unknownFields
|}.

#[global] Instance MsgUpdateParams_reflect : Reflect MsgUpdateParams value := {|
  r_new := mkMsgUpdateParams "" None [];
  r_names := ["vertix.oracle.v1.MsgUpdateParams.authority";
    "vertix.oracle.v1.MsgUpdateParams.params"];
  r_Range := @MsgUpdateParams_Range; r_Has := MsgUpdateParams_Has; r_Clear := MsgUpdateParams_Clear; r_Get := MsgUpdateParams_Get;
  r_Set := MsgUpdateParams_Set; r_Mutable := MsgUpdateParams_Mutable; r_NewField := MsgUpdateParams_NewField;
  r_SetUnknown := MsgUpdateParams_set_unknownFields
|}.

#[global] Instance MsgUpdateParams_schema : Schema MsgUpdateParams := fun x =>
  [(1, FString (MsgUpdateParams_Authority x));
   (2, FMsgs (ptr_fields (MsgUpdateParams_Params x)))].

#[global] Instance MsgUpdateParams_strip : PulsarStrip MsgUpdateParams := fun x =>
  mkMsgUpdateParams (MsgUpdateParams_Authority x) (pstrip true (MsgUpdateParams_Params x)) [].

(** *** [MsgUpdateParamsResponse] *)

Definition MsgUpdateParamsResponse_Range {S} (f : string -> value -> S -> bool * S) (x : MsgUpdateParamsResponse) (s : S) : S :=
  s.

Definition MsgUpdateParamsResponse_Has (fd : string) (x : MsgUpdateParamsResponse) : res bool :=
  fd_switch fd [].

Definition MsgUpdateParamsResponse_Clear (fd : string) (x : MsgUpdateParamsResponse) : res MsgUpdateParamsResponse :=
  fd_switch fd [].

Definition MsgUpdateParamsResponse_Get (fd : string) (x : MsgUpdateParamsResponse) : res value :=
  fd_switch fd [].

Definition MsgUpdateParamsResponse_Set (fd : string) (v : value) (x : MsgUpdateParamsResponse) : res MsgUpdateParamsResponse :=
  fd_switch fd [].

Definition MsgUpdateParamsResponse_Mutable (fd : string) (x : MsgUpdateParamsResponse) : res (MsgUpdateParamsResponse * value) :=
  fd_switch fd [].

Definition MsgUpdateParamsResponse_NewField (fd : string) : res value :=
  fd_switch fd [].

Definition MsgUpdateParamsResponse_size (o : option MsgUpdateParamsResponse) : Z :=
  match o with
  | None => 0
  | Some x => zlen (MsgUpdateParamsResponse_unknownFields x)
  end.

Definition MsgUpdateParamsResponse_marshal : bytes -> option MsgUpdateParamsResponse -> res bytes :=
  pulsar_marshal MsgUpdateParamsResponse_size (fun x w =>
    pw_raw (MsgUpdateParamsResponse_unknownFields x) w).

Definition MsgUpdateParamsResponse_unmarshal : bool -> bytes -> option MsgUpdateParamsResponse -> res (option MsgUpdateParamsResponse) :=
  pulsar_unmarshal (fun discard l fieldNum wireType x b => None)
    (fun s x => MsgUpdateParamsResponse_set_unknownFields (MsgUpdateParamsResponse_unknownFields x ++ s) x).

#[global] Instance MsgUpdateParamsResponse_pulsar : PulsarMsg MsgUpdateParamsResponse := {|
  pm_new := mkMsgUpdateParamsResponse [];
  pm_size := MsgUpdateParamsResponse_size; pm_marshal := MsgUpdateParamsResponse_marshal; pm_unmarshal := MsgUpdateParamsResponse_unmarshal;
  pm_unknown := MsgUpdateParamsResponse_unknownFields; pm_set_unknown := MsgUpdateParamsResponse_set_unknownFields
|}.

#[global] Instance MsgUpdateParamsResponse_reflect : Reflect MsgUpdateParamsResponse value := {|
  r_new := mkMsgUpdateParamsResponse [];
  r_names := [];
  r_Range := @MsgUpdateParamsResponse_Range; r_Has := MsgUpdateParamsResponse_Has; r_Clear := MsgUpdateParamsResponse_Clear; r_Get := MsgUpdateParamsResponse_Get;
  r_Set := MsgUpdateParamsResponse_Set; r_Mutable := MsgUpdateParamsResponse_Mutable; r_NewField := MsgUpdateParamsResponse_NewField;
  r_SetUnknown := MsgUpdateParamsResponse_set_unknownFields
|}.

#[global] Instance MsgUpdateParamsResponse_schema : Schema MsgUpdateParamsResponse := fun x =>
  [].

#[global] Instance MsgUpdateParamsResponse_strip : PulsarStrip MsgUpdateParamsResponse := fun x =>
  mkMsgUpdateParamsResponse [].

(** *** [QueryPriceRequest] *)

Definition QueryPriceRequest_Range {S} (f : string -> value -> S -> bool * S) (x : QueryPriceRequest) (s : S) : S :=
  visit f (str_set (QueryPriceRequest_Pair x)) "vertix.oracle.v1.QueryPriceRequest.pair" (VString (QueryPriceRequest_Pair x)) (fun s => s) s.

Definition QueryPriceRequest_Has (fd : string) (x : QueryPriceRequest) : res bool :=
  fd_switch fd
    [("vertix.oracle.v1.QueryPriceRequest.pair", Ok (str_set (QueryPriceRequest_Pair x)))].

Definition QueryPriceRequest_Clear (fd : string) (x : QueryPriceRequest) : res QueryPriceRequest :=
  fd_switch fd
    [("vertix.oracle.v1.QueryPriceRequest.pair", Ok (QueryPriceRequest_set_Pair "" x))].

Definition QueryPriceRequest_Get (fd : string) (x : QueryPriceRequest) : res value :=
  fd_switch fd
    [("vertix.oracle.v1.QueryPriceRequest.pair", Ok (VString (QueryPriceRequest_Pair x)))].

Definition QueryPriceRequest_Set (fd : string) (v : value) (x : QueryPriceRequest) : res QueryPriceRequest :=
  fd_switch fd
    [("vertix.oracle.v1.QueryPriceRequest.pair", (v ← as_string v; Ok (QueryPriceRequest_set_Pair v x)))].

Definition QueryPriceRequest_Mutable (fd : string) (x : QueryPriceRequest) : res (QueryPriceRequest * value) :=
  fd_switch fd
    [("vertix.oracle.v1.QueryPriceRequest.pair", Panic)].

Definition QueryPriceRequest_NewField (fd : string) : res value :=
  fd_switch fd
    [("vertix.oracle.v1.QueryPriceRequest.pair", Ok (VString ""))].

Definition QueryPriceRequest_size (o : option QueryPriceRequest) : Z :=
  match o with
  | None => 0
  | Some x => pz_string (QueryPriceRequest_Pair x) + zlen (QueryPriceRequest_unknownFields x)
  end.

Definition QueryPriceRequest_marshal : bytes -> option QueryPriceRequest -> res bytes :=
  pulsar_marshal QueryPriceRequest_size (fun x w =>
    w ← pw_raw (QueryPriceRequest_unknownFields x) w;
    pw_string x0a (QueryPriceRequest_Pair x) w).

Definition QueryPriceRequest_unmarshal : bool -> bytes -> option QueryPriceRequest -> res (option QueryPriceRequest) :=
  pulsar_unmarshal (fun discard l fieldNum wireType x b =>
    match fieldNum with
    | 1 => Some ('(s, b) ← rd_string l wireType b; Ok (QueryPriceRequest_set_Pair s x, b))
    | _ => None
    end) (fun s x => QueryPriceRequest_set_unknownFields (QueryPriceRequest_unknownFields x ++ s) x).

#[global] Instance QueryPriceRequest_pulsar : PulsarMsg QueryPriceRequest := {|
  pm_new := mkQueryPriceRequest "" [];
  pm_size := QueryPriceRequest_size; pm_marshal := QueryPriceRequest_marshal; pm_unmarshal := QueryPriceRequest_unmarshal;
  pm_unknown := QueryPriceRequest_unknownFields; pm_set_unknown := QueryPriceRequest_set_unknownFields
|}.

#[global] Instance QueryPriceRequest_reflect : Reflect QueryPriceRequest value := {|
  r_new := mkQueryPriceRequest "" [];
  r_names := ["vertix.oracle.v1.QueryPriceRequest.pair"];
  r_Range := @QueryPriceRequest_Range; r_Has := QueryPriceRequest_Has; r_Clear := QueryPriceRequest_Clear; r_Get := QueryPriceRequest_Get;
  r_Set := QueryPriceRequest_Set; r_Mutable := QueryPriceRequest_Mutable; r_NewField := QueryPriceRequest_NewField;
  r_SetUnknown := QueryPriceRequest_set_unknownFields
|}.

#[global] Instance QueryPriceRequest_schema : Schema QueryPriceRequest := fun x =>
  [(1, FString (QueryPriceRequest_Pair x))].

#[global] Instance QueryPriceRequest_strip : PulsarStrip QueryPriceRequest := fun x =>
  mkQueryPriceRequest (QueryPriceRequest_Pair x) [].

(** *** [QueryPriceResponse] *)

Definition QueryPriceResponse_Range {S} (f : string -> value -> S -> bool * S) (x : QueryPriceResponse) (s : S) : S :=
  visit f (ptr_set (QueryPriceResponse_Price x)) "vertix.oracle.v1.QueryPriceResponse.price" (VAggregatedPrice (QueryPriceResponse_Price x)) (fun s => s) s.

Definition QueryPriceResponse_Has (fd : string) (x : QueryPriceResponse) : res bool :=
  fd_switch fd
    [("vertix.oracle.v1.QueryPriceResponse.price", Ok (ptr_set (QueryPriceResponse_Price x)))].

Definition QueryPriceResponse_Clear (fd : string) (x : QueryPriceResponse) : res QueryPriceResponse :=
  fd_switch fd
    [("vertix.oracle.v1.QueryPriceResponse.price", Ok (QueryPriceResponse_set_Price None x))].

Definition QueryPriceResponse_Get (fd : string) (x : QueryPriceResponse) : res value :=
  fd_switch fd
    [("vertix.oracle.v1.QueryPriceResponse.price", Ok (VAggregatedPrice (QueryPriceResponse_Price x)))].

Definition QueryPriceResponse_Set (fd : string) (v : value) (x : QueryPriceResponse) : res QueryPriceResponse :=
  fd_switch fd
    [("vertix.oracle.v1.QueryPriceResponse.price", (v ← as_AggregatedPrice v; Ok (QueryPriceResponse_set_Price v x)))].

Definition QueryPriceResponse_Mutable (fd : string) (x : QueryPriceResponse) : res (QueryPriceResponse * value) :=
  fd_switch fd
    [("vertix.oracle.v1.QueryPriceResponse.price", (let x := QueryPriceResponse_set_Price (Some (default pm_new (QueryPriceResponse_Price x))) x in Ok (x, VAggregatedPrice (QueryPriceResponse_Price x))))].

Definition QueryPriceResponse_NewField (fd : string) : res value :=
  fd_switch fd
    [("vertix.oracle.v1.QueryPriceResponse.price", Ok (VAggregatedPrice (Some pm_new)))].

Definition QueryPriceResponse_size (o : option QueryPriceResponse) : Z :=
  match o with
  | None => 0
  | Some x => pz_msg (QueryPriceResponse_Price x) + zlen (QueryPriceResponse_unknownFields x)
  end.

Definition QueryPriceResponse_marshal : bytes -> option QueryPriceResponse -> res bytes :=
  pulsar_marshal QueryPriceResponse_size (fun x w =>
    w ← pw_raw (QueryPriceResponse_unknownFields x) w;
    pw_msg x0a (QueryPriceResponse_Price x) w).

Definition QueryPriceResponse_unmarshal : bool -> bytes -> option QueryPriceResponse -> res (option QueryPriceResponse) :=
  pulsar_unmarshal (fun discard l fieldNum wireType x b =>
    match fieldNum with
    | 1 => Some ('(s, b) ← pr_msg discard (QueryPriceResponse_Price x) l wireType b; Ok (QueryPriceResponse_set_Price (Some s) x, b))
    | _ => None
    end) (fun s x => QueryPriceResponse_set_unknownFields (QueryPriceResponse_unknownFields x ++ s) x).

#[global] Instance QueryPriceResponse_pulsar : PulsarMsg QueryPriceResponse := {|
  pm_new := mkQueryPriceResponse None [];
  pm_size := QueryPriceResponse_size; pm_marshal := QueryPriceResponse_marshal; pm_unmarshal := QueryPriceResponse_unmarshal;
  pm_unknown := QueryPriceResponse_unknownFields; pm_set_unknown := QueryPriceResponse_set_unknownFields
|}.

#[global] Instance QueryPriceResponse_reflect : Reflect QueryPriceResponse value := {|
  r_new := mkQueryPriceResponse None [];
  r_names := ["vertix.oracle.v1.QueryPriceResponse.price"];
  r_Range := @QueryPriceResponse_Range; r_Has := QueryPriceResponse_Has; r_Clear := QueryPriceResponse_Clear; r_Get := QueryPriceResponse_Get;
  r_Set := QueryPriceResponse_Set; r_Mutable := QueryPriceResponse_Mutable; r_NewField := QueryPriceResponse_NewField;
  r_SetUnknown := QueryPriceResponse_set_unknownFields
|}.

#[global] Instance QueryPriceResponse_schema : Schema QueryPriceResponse := fun x =>
  [(1, FMsgs (ptr_fields (QueryPriceResponse_Price x)))].

#[global] Instance QueryPriceResponse_strip : PulsarStrip QueryPriceResponse := fun x =>
  mkQueryPriceResponse (pstrip true (QueryPriceResponse_Price x)) [].

(** *** [QueryTwapRequest] *)

Definition QueryTwapRequest_Range {S} (f : string -> value -> S -> bool * S) (x : QueryTwapRequest) (s : S) : S :=
  visit f (str_set (QueryTwapRequest_Pair x)) "vertix.oracle.v1.QueryTwapRequest.pair" (VString (QueryTwapRequest_Pair x)) (fun s =>
  visit f (int_set (QueryTwapRequest_WindowSeconds x)) "vertix.oracle.v1.QueryTwapRequest.window_seconds" (VUint64 (QueryTwapRequest_WindowSeconds x)) (fun s => s) s) s.

Definition QueryTwapRequest_Has (fd : string) (x : QueryTwapRequest) : res bool :=
  fd_switch fd
    [("vertix.oracle.v1.QueryTwapRequest.pair", Ok (str_set (QueryTwapRequest_Pair x)));
     ("vertix.oracle.v1.QueryTwapRequest.window_seconds", Ok (int_set (QueryTwapRequest_WindowSeconds x)))].

Definition QueryTwapRequest_Clear (fd : string) (x : QueryTwapRequest) : res QueryTwapRequest :=
  fd_switch fd
    [("vertix.oracle.v1.QueryTwapRequest.pair", Ok (QueryTwapRequest_set_Pair "" x));
     ("vertix.oracle.v1.QueryTwapRequest.window_seconds", Ok (QueryTwapRequest_set_WindowSeconds 0 x))].

Definition QueryTwapRequest_Get (fd : string) (x : QueryTwapRequest) : res value :=
  fd_switch fd
    [("vertix.oracle.v1.QueryTwapRequest.pair", Ok (VString (QueryTwapRequest_Pair x)));
     ("vertix.oracle.v1.QueryTwapRequest.window_seconds", Ok (VUint64 (QueryTwapRequest_WindowSeconds x)))].

Definition QueryTwapRequest_Set (fd : string) (v : value) (x : QueryTwapRequest) : res QueryTwapRequest :=
  fd_switch fd
    [("vertix.oracle.v1.QueryTwapRequest.pair", (v ← as_string v; Ok (QueryTwapRequest_set_Pair v x)));
     ("vertix.oracle.v1.QueryTwapRequest.window_seconds", (v ← as_uint64 v; Ok (QueryTwapRequest_set_WindowSeconds v x)))].

Definition QueryTwapRequest_Mutable (fd : string) (x : QueryTwapRequest) : res (QueryTwapRequest * value) :=
  fd_switch fd
    [("vertix.oracle.v1.QueryTwapRequest.pair", Panic);
     ("vertix.oracle.v1.QueryTwapRequest.window_seconds", Panic)].

Definition QueryTwapRequest_NewField (fd : string) : res value :=
  fd_switch fd
    [("vertix.oracle.v1.QueryTwapRequest.pair", Ok (VString ""));
     ("vertix.oracle.v1.QueryTwapRequest.window_seconds", Ok (VUint64 0))].

Definition QueryTwapRequest_size (o : option QueryTwapRequest) : Z :=
  match o with
  | None => 0
  | Some x => pz_string (QueryTwapRequest_Pair x) + pz_int (QueryTwapRequest_WindowSeconds x) + zlen (QueryTwapRequest_unknownFields x)
  end.

Definition QueryTwapRequest_marshal : bytes -> option QueryTwapRequest -> res bytes :=
  pulsar_marshal QueryTwapRequest_size (fun x w =>
    w ← pw_raw (QueryTwapRequest_unknownFields x) w;
    w ← pw_int x10 (QueryTwapRequest_WindowSeconds x) w;
    pw_string x0a (QueryTwapRequest_Pair x) w).

Definition QueryTwapRequest_unmarshal : bool -> bytes -> option QueryTwapRequest -> res (option QueryTwapRequest) :=
  pulsar_unmarshal (fun discard l fieldNum wireType x b =>
    match fieldNum with
    | 1 => Some ('(s, b) ← rd_string l wireType b; Ok (QueryTwapRequest_set_Pair s x, b))
    | 2 => Some ('(s, b) ← rd_uint64 wireType b; Ok (QueryTwapRequest_set_WindowSeconds s x, b))
    | _ => None
    end) (fun s x => QueryTwapRequest_set_unknownFields (QueryTwapRequest_unknownFields x ++ s) x).

#[global] Instance QueryTwapRequest_pulsar : PulsarMsg QueryTwapRequest := {|
  pm_new := mkQueryTwapRequest "" 0 [];
  pm_size := QueryTwapRequest_size; pm_marshal := QueryTwapRequest_marshal; pm_unmarshal := QueryTwapRequest_unmarshal;
  pm_unknown := QueryTwapRequest_unknownFields; pm_set_unknown := QueryTwapRequest_set_unknownFields
|}.

#[global] Instance QueryTwapRequest_reflect : Reflect QueryTwapRequest value := {|
  r_new := mkQueryTwapRequest "" 0 [];
  r_names := ["vertix.oracle.v1.QueryTwapRequest.pair";
    "vertix.oracle.v1.QueryTwapRequest.window_seconds"];
  r_Range := @QueryTwapRequest_Range; r_Has := QueryTwapRequest_Has; r_Clear := QueryTwapRequest_Clear; r_Get := QueryTwapRequest_Get;
  r_Set := QueryTwapRequest_Set; r_Mutable := QueryTwapRequest_Mutable; r_NewField := QueryTwapRequest_NewField;
  r_SetUnknown := QueryTwapRequest_set_unknownFields
|}.

#[global] Instance QueryTwapRequest_schema : Schema QueryTwapRequest := fun x =>
  [(1, FString (QueryTwapRequest_Pair x));
   (2, FInt (QueryTwapRequest_WindowSeconds x))].

#[global] Instance QueryTwapRequest_strip : PulsarStrip QueryTwapRequest := fun x =>
  mkQueryTwapRequest (QueryTwapRequest_Pair x) (QueryTwapRequest_WindowSeconds x) [].

(** *** [QueryTwapResponse] *)

Definition QueryTwapResponse_Range {S} (f : string -> value -> S -> bool * S) (x : QueryTwapResponse) (s : S) : S :=
  visit f (str_set (QueryTwapResponse_Price x)) "vertix.oracle.v1.QueryTwapResponse.price" (VString (QueryTwapResponse_Price x)) (fun s => s) s.

Definition QueryTwapResponse_Has (fd : string) (x : QueryTwapResponse) : res bool :=
  fd_switch fd
    [("vertix.oracle.v1.QueryTwapResponse.price", Ok (str_set (QueryTwapResponse_Price x)))].

Definition QueryTwapResponse_Clear (fd : string) (x : QueryTwapResponse) : res QueryTwapResponse :=
  fd_switch fd
    [("vertix.oracle.v1.QueryTwapResponse.price", Ok (QueryTwapResponse_set_Price "" x))].

Definition QueryTwapResponse_Get (fd : string) (x : QueryTwapResponse) : res value :=
  fd_switch fd
    [("vertix.oracle.v1.QueryTwapResponse.price", Ok (VString (QueryTwapResponse_Price x)))].

Definition QueryTwapResponse_Set (fd : string) (v : value) (x : QueryTwapResponse) : res QueryTwapResponse :=
  fd_switch fd
    [("vertix.oracle.v1.QueryTwapResponse.price", (v ← as_string v; Ok (QueryTwapResponse_set_Price v x)))].

Definition QueryTwapResponse_Mutable (fd : string) (x : QueryTwapResponse) : res (QueryTwapResponse * value) :=
  fd_switch fd
    [("vertix.oracle.v1.QueryTwapResponse.price", Panic)].

Definition QueryTwapResponse_NewField (fd : string) : res value :=
  fd_switch fd
    [("vertix.oracle.v1.QueryTwapResponse.price", Ok (VString ""))].

Definition QueryTwapResponse_size (o : option QueryTwapResponse) : Z :=
  match o with
  | None => 0
  | Some x => pz_string (QueryTwapResponse_Price x) + zlen (QueryTwapResponse_unknownFields x)
  end.

Definition QueryTwapResponse_marshal : bytes -> option QueryTwapResponse -> res bytes :=
  pulsar_marshal QueryTwapResponse_size (fun x w =>
    w ← pw_raw (QueryTwapResponse_unknownFields x) w;
    pw_string x0a (QueryTwapResponse_Price x) w).

Definition QueryTwapResponse_unmarshal : bool -> bytes -> option QueryTwapResponse -> res (option QueryTwapResponse) :=
  pulsar_unmarshal (fun discard l fieldNum wireType x b =>
    match fieldNum with
    | 1 => Some ('(s, b) ← rd_string l wireType b; Ok (QueryTwapResponse_set_Price s x, b))
    | _ => None
    end) (fun s x => QueryTwapResponse_set_unknownFields (QueryTwapResponse_unknownFields x ++ s) x).

#[global] Instance QueryTwapResponse_pulsar : PulsarMsg QueryTwapResponse := {|
  pm_new := mkQueryTwapResponse "" [];
  pm_size := QueryTwapResponse_size; pm_marshal := QueryTwapResponse_marshal; pm_unmarshal := QueryTwapResponse_unmarshal;
  pm_unknown := QueryTwapResponse_unknownFields; pm_set_unknown := QueryTwapResponse_set_unknownFields
|}.

#[global] Instance QueryTwapResponse_reflect : Reflect QueryTwapResponse value := {|
  r_new := mkQueryTwapResponse "" [];
  r_names := ["vertix.oracle.v1.QueryTwapResponse.price"];
  r_Range := @QueryTwapResponse_Range; r_Has := QueryTwapResponse_Has; r_Clear := QueryTwapResponse_Clear; r_Get := QueryTwapResponse_Get;
  r_Set := QueryTwapResponse_Set; r_Mutable := QueryTwapResponse_Mutable; r_NewField := QueryTwapResponse_NewField;
  r_SetUnknown := QueryTwapResponse_set_unknownFields
|}.

#[global] Instance QueryTwapResponse_schema : Schema QueryTwapResponse := fun x =>
  [(1, FString (QueryTwapResponse_Price x))].

#[global] Instance QueryTwapResponse_strip : PulsarStrip QueryTwapResponse := fun x =>
  mkQueryTwapResponse (QueryTwapResponse_Price x) [].

(** *** [QueryParamsRequest] *)

Definition QueryParamsRequest_Range {S} (f : string -> value -> S -> bool * S) (x : QueryParamsRequest) (s : S) : S :=
  s.

Definition QueryParamsRequest_Has (fd : string) (x : QueryParamsRequest) : res bool :=
  fd_switch fd [].

Definition QueryParamsRequest_Clear (fd : string) (x : QueryParamsRequest) : res QueryParamsRequest :=
  fd_switch fd [].

Definition QueryParamsRequest_Get (fd : string) (x : QueryParamsRequest) : res value :=
  fd_switch fd [].

Definition QueryParamsRequest_Set (fd : string) (v : value) (x : QueryParamsRequest) : res QueryParamsRequest :=
  fd_switch fd [].

Definition QueryParamsRequest_Mutable (fd : string) (x : QueryParamsRequest) : res (QueryParamsRequest * value) :=
  fd_switch fd [].

Definition QueryParamsRequest_NewField (fd : string) : res value :=
  fd_switch fd [].

Definition QueryParamsRequest_size (o : option QueryParamsRequest) : Z :=
  match o with
  | None => 0
  | Some x => zlen (QueryParamsRequest_unknownFields x)
  end.

Definition QueryParamsRequest_marshal : bytes -> option QueryParamsRequest -> res bytes :=
  pulsar_marshal QueryParamsRequest_size (fun x w =>
    pw_raw (QueryParamsRequest_unknownFields x) w).

Definition QueryParamsRequest_unmarshal : bool -> bytes -> option QueryParamsRequest -> res (option QueryParamsRequest) :=
  pulsar_unmarshal (fun discard l fieldNum wireType x b => None)
    (fun s x => QueryParamsRequest_set_unknownFields (QueryParamsRequest_unknownFields x ++ s) x).

#[global] Instance QueryParamsRequest_pulsar : PulsarMsg QueryParamsRequest := {|
  pm_new := mkQueryParamsRequest [];
  pm_size := QueryParamsRequest_size; pm_marshal := QueryParamsRequest_marshal; pm_unmarshal := QueryParamsRequest_unmarshal;
  pm_unknown := QueryParamsRequest_unknownFields; pm_set_unknown := QueryParamsRequest_set_unknownFields
|}.

#[global] Instance QueryParamsRequest_reflect : Reflect QueryParamsRequest value := {|
  r_new := mkQueryParamsRequest [];
  r_names := [];
  r_Range := @QueryParamsRequest_Range; r_Has := QueryParamsRequest_Has; r_Clear := QueryParamsRequest_Clear; r_Get := QueryParamsRequest_Get;
  r_Set := QueryParamsRequest_Set; r_Mutable := QueryParamsRequest_Mutable; r_NewField := QueryParamsRequest_NewField;
  r_SetUnknown := QueryParamsRequest_set_unknownFields
|}.

#[global] Instance QueryParamsRequest_schema : Schema QueryParamsRequest := fun x =>
  [].

#[global] Instance QueryParamsRequest_strip : PulsarStrip QueryParamsRequest := fun x =>
  mkQueryParamsRequest [].

(** *** [QueryParamsResponse] *)

Definition QueryParamsResponse_Range {S} (f : string -> value -> S -> bool * S) (x : QueryParamsResponse) (s : S) : S :=
  visit f (ptr_set (QueryParamsResponse_Params x)) "vertix.oracle.v1.QueryParamsResponse.params" (VOracleParams (QueryParamsResponse_Params x)) (fun s => s) s.

Definition QueryParamsResponse_Has (fd : string) (x : QueryParamsResponse) : res bool :=
  fd_switch fd
    [("vertix.oracle.v1.QueryParamsResponse.params", Ok (ptr_set (QueryParamsResponse_Params x)))].

Definition QueryParamsResponse_Clear (fd : string) (x : QueryParamsResponse) : res QueryParamsResponse :=
  fd_switch fd
    [("vertix.oracle.v1.QueryParamsResponse.params", Ok (QueryParamsResponse_set_Params None x))].

Definition QueryParamsResponse_Get (fd : string) (x : QueryParamsResponse) : res value :=
  fd_switch fd
    [("vertix.oracle.v1.QueryParamsResponse.params", Ok (VOracleParams (QueryParamsResponse_Params x)))].

Definition QueryParamsResponse_Set (fd : string) (v : value) (x : QueryParamsResponse) : res QueryParamsResponse :=
  fd_switch fd
    [("vertix.oracle.v1.QueryParamsResponse.params", (v ← as_OracleParams v; Ok (QueryParamsResponse_set_Params v x)))].

Definition QueryParamsResponse_Mutable (fd : string) (x : QueryParamsResponse) : res (QueryParamsResponse * value) :=
  fd_switch fd
    [("vertix.oracle.v1.QueryParamsResponse.params", (let x := QueryParamsResponse_set_Params (Some (default pm_new (QueryParamsResponse_Params x))) x in Ok (x, VOracleParams (QueryParamsResponse_Params x))))].

Definition QueryParamsResponse_NewField (fd : string) : res value :=
  fd_switch fd
    [("vertix.oracle.v1.QueryParamsResponse.params", Ok (VOracleParams (Some pm_new)))].

Definition QueryParamsResponse_size (o : option QueryParamsResponse) : Z :=
  match o with
  | None => 0
  | Some x => pz_msg (QueryParamsResponse_Params x) + zlen (QueryParamsResponse_unknownFields x)
  end.

Definition QueryParamsResponse_marshal : bytes -> option QueryParamsResponse -> res bytes :=
  pulsar_marshal QueryParamsResponse_size (fun x w =>
    w ← pw_raw (QueryParamsResponse_unknownFields x) w;
    pw_msg x0a (QueryParamsResponse_Params x) w).

Definition QueryParamsResponse_unmarshal : bool -> bytes -> option QueryParamsResponse -> res (option QueryParamsResponse) :=
  pulsar_unmarshal (fun discard l fieldNum wireType x b =>
    match fieldNum with
    | 1 => Some ('(s, b) ← pr_msg discard (QueryParamsResponse_Params x) l wireType b; Ok (QueryParamsResponse_set_Params (Some s) x, b))
    | _ => None
    end) (fun s x => QueryParamsResponse_set_unknownFields (QueryParamsResponse_unknownFields x ++ s) x).

#[global] Instance QueryParamsResponse_pulsar : PulsarMsg QueryParamsResponse := {|
  pm_new := mkQueryParamsResponse None [];
  pm_size := QueryParamsResponse_size; pm_marshal := QueryParamsResponse_marshal; pm_unmarshal := QueryParamsResponse_unmarshal;
  pm_unknown := QueryParamsResponse_unknownFields; pm_set_unknown := QueryParamsResponse_set_unknownFields
|}.

#[global] Instance QueryParamsResponse_reflect : Reflect QueryParamsResponse value := {|
  r_new := mkQueryParamsResponse None [];
  r_names := ["vertix.oracle.v1.QueryParamsResponse.params"];
  r_Range := @QueryParamsResponse_Range; r_Has := QueryParamsResponse_Has; r_Clear := QueryParamsResponse_Clear; r_Get := QueryParamsResponse_Get;
  r_Set := QueryParamsResponse_Set; r_Mutable := QueryParamsResponse_Mutable; r_NewField := QueryParamsResponse_NewField;
  r_SetUnknown := QueryParamsResponse_set_unknownFields
|}.

#[global] Instance QueryParamsResponse_schema : Schema QueryParamsResponse := fun x =>
  [(1, FMsgs (ptr_fields (QueryParamsResponse_Params x)))].

#[global] Instance QueryParamsResponse_strip : PulsarStrip QueryParamsResponse := fun x =>
  mkQueryParamsResponse (pstrip true (QueryParamsResponse_Params x)) [].

(** *** [QueryMissCounterRequest] *)

Definition QueryMissCounterRequest_Range {S} (f : string -> value -> S -> bool * S) (x : QueryMissCounterRequest) (s : S) : S :=
  visit f (str_set (QueryMissCounterRequest_Validator x)) "vertix.oracle.v1.QueryMissCounterRequest.validator" (VString (QueryMissCounterRequest_Validator x)) (fun s => s) s.

Definition QueryMissCounterRequest_Has (fd : string) (x : QueryMissCounterRequest) : res bool :=
  fd_switch fd
    [("vertix.oracle.v1.QueryMissCounterRequest.validator", Ok (str_set (QueryMissCounterRequest_Validator x)))].

Definition QueryMissCounterRequest_Clear (fd : string) (x : QueryMissCounterRequest) : res QueryMissCounterRequest :=
  fd_switch fd
    [("vertix.oracle.v1.QueryMissCounterRequest.validator", Ok (QueryMissCounterRequest_set_Validator "" x))].

Definition QueryMissCounterRequest_Get (fd : string) (x : QueryMissCounterRequest) : res value :=
  fd_switch fd
    [("vertix.oracle.v1.QueryMissCounterRequest.validator", Ok (VString (QueryMissCounterRequest_Validator x)))].

Definition QueryMissCounterRequest_Set (fd : string) (v : value) (x : QueryMissCounterRequest) : res QueryMissCounterRequest :=
  fd_switch fd
    [("vertix.oracle.v1.QueryMissCounterRequest.validator", (v ← as_string v; Ok (QueryMissCounterRequest_set_Validator v x)))].

Definition QueryMissCounterRequest_Mutable (fd : string) (x : QueryMissCounterRequest) : res (QueryMissCounterRequest * value) :=
  fd_switch fd
    [("vertix.oracle.v1.QueryMissCounterRequest.validator", Panic)].

Definition QueryMissCounterRequest_NewField (fd : string) : res value :=
  fd_switch fd
    [("vertix.oracle.v1.QueryMissCounterRequest.validator", Ok (VString ""))].

Definition QueryMissCounterRequest_size (o : option QueryMissCounterRequest) : Z :=
  match o with
  | None => 0
  | Some x => pz_string (QueryMissCounterRequest_Validator x) + zlen (QueryMissCounterRequest_unknownFields x)
  end.

Definition QueryMissCounterRequest_marshal : bytes -> option QueryMissCounterRequest -> res bytes :=
  pulsar_marshal QueryMissCounterRequest_size (fun x w =>
    w ← pw_raw (QueryMissCounterRequest_unknownFields x) w;
    pw_string x0a (QueryMissCounterRequest_Validator x) w).

Definition QueryMissCounterRequest_unmarshal : bool -> bytes -> option QueryMissCounterRequest -> res (option QueryMissCounterRequest) :=
  pulsar_unmarshal (fun discard l fieldNum wireType x b =>
    match fieldNum with
    | 1 => Some ('(s, b) ← rd_string l wireType b; Ok (QueryMissCounterRequest_set_Validator s x, b))
    | _ => None
    end) (fun s x => QueryMissCounterRequest_set_unknownFields (QueryMissCounterRequest_unknownFields x ++ s) x).

#[global] Instance QueryMissCounterRequest_pulsar : PulsarMsg QueryMissCounterRequest := {|
  pm_new := mkQueryMissCounterRequest "" [];
  pm_size := QueryMissCounterRequest_size; pm_marshal := QueryMissCounterRequest_marshal; pm_unmarshal := QueryMissCounterRequest_unmarshal;
  pm_unknown := QueryMissCounterRequest_unknownFields; pm_set_unknown := QueryMissCounterRequest_set_unknownFields
|}.

#[global] Instance QueryMissCounterRequest_reflect : Reflect QueryMissCounterRequest value := {|
  r_new := mkQueryMissCounterRequest "" [];
  r_names := ["vertix.oracle.v1.QueryMissCounterRequest.validator"];
  r_Range := @QueryMissCounterRequest_Range; r_Has := QueryMissCounterRequest_Has; r_Clear := QueryMissCounterRequest_Clear; r_Get := QueryMissCounterRequest_Get;
  r_Set := QueryMissCounterRequest_Set; r_Mutable := QueryMissCounterRequest_Mutable; r_NewField := QueryMissCounterRequest_NewField;
  r_SetUnknown := QueryMissCounterRequest_set_unknownFields
|}.

#[global] Instance QueryMissCounterRequest_schema : Schema QueryMissCounterRequest := fun x =>
  [(1, FString (QueryMissCounterRequest_Validator x))].

#[global] Instance QueryMissCounterRequest_strip : PulsarStrip QueryMissCounterRequest := fun x =>
  mkQueryMissCounterRequest (QueryMissCounterRequest_Validator x) [].

(** *** [QueryMissCounterResponse] *)

Definition QueryMissCounterResponse_Range {S} (f : string -> value -> S -> bool * S) (x : QueryMissCounterResponse) (s : S) : S :=
  visit f (int_set (QueryMissCounterResponse_Misses x)) "vertix.oracle.v1.QueryMissCounterResponse.misses" (VInt64 (QueryMissCounterResponse_Misses x)) (fun s =>
  visit f (int_set (QueryMissCounterResponse_TotalWindows x)) "vertix.oracle.v1.QueryMissCounterResponse.total_windows" (VInt64 (QueryMissCounterResponse_TotalWindows x)) (fun s => s) s) s.

Definition QueryMissCounterResponse_Has (fd : string) (x : QueryMissCounterResponse) : res bool :=
  fd_switch fd
    [("vertix.oracle.v1.QueryMissCounterResponse.misses", Ok (int_set (QueryMissCounterResponse_Misses x)));
     ("vertix.oracle.v1.QueryMissCounterResponse.total_windows", Ok (int_set (QueryMissCounterResponse_TotalWindows x)))].

Definition QueryMissCounterResponse_Clear (fd : string) (x : QueryMissCounterResponse) : res QueryMissCounterResponse :=
  fd_switch fd
    [("vertix.oracle.v1.QueryMissCounterResponse.misses", Ok (QueryMissCounterResponse_set_Misses 0 x));
     ("vertix.oracle.v1.QueryMissCounterResponse.total_windows", Ok (QueryMissCounterResponse_set_TotalWindows 0 x))].

Definition QueryMissCounterResponse_Get (fd : string) (x : QueryMissCounterResponse) : res value :=
  fd_switch fd
    [("vertix.oracle.v1.QueryMissCounterResponse.misses", Ok (VInt64 (QueryMissCounterResponse_Misses x)));
     ("vertix.oracle.v1.QueryMissCounterResponse.total_windows", Ok (VInt64 (QueryMissCounterResponse_TotalWindows x)))].

Definition QueryMissCounterResponse_Set (fd : string) (v : value) (x : QueryMissCounterResponse) : res QueryMissCounterResponse :=
  fd_switch fd
    [("vertix.oracle.v1.QueryMissCounterResponse.misses", (v ← as_int64 v; Ok (QueryMissCounterResponse_set_Misses v x)));
     ("vertix.oracle.v1.QueryMissCounterResponse.total_windows", (v ← as_int64 v; Ok (QueryMissCounterResponse_set_TotalWindows v x)))].

Definition QueryMissCounterResponse_Mutable (fd : string) (x : QueryMissCounterResponse) : res (QueryMissCounterResponse * value) :=
  fd_switch fd
    [("vertix.oracle.v1.QueryMissCounterResponse.misses", Panic);
     ("vertix.oracle.v1.QueryMissCounterResponse.total_windows", Panic)].

Definition QueryMissCounterResponse_NewField (fd : string) : res value :=
  fd_switch fd
    [("vertix.oracle.v1.QueryMissCounterResponse.misses", Ok (VInt64 0));
     ("vertix.oracle.v1.QueryMissCounterResponse.total_windows", Ok (VInt64 0))].

Definition QueryMissCounterResponse_size (o : option QueryMissCounterResponse) : Z :=
  match o with
  | None => 0
  | Some x => pz_int (QueryMissCounterResponse_Misses x) + pz_int (QueryMissCounterResponse_TotalWindows x) + zlen (QueryMissCounterResponse_unknownFields x)
  end.

Definition QueryMissCounterResponse_marshal : bytes -> option QueryMissCounterResponse -> res bytes :=
  pulsar_marshal QueryMissCounterResponse_size (fun x w =>
    w ← pw_raw (QueryMissCounterResponse_unknownFields x) w;
    w ← pw_int x10 (QueryMissCounterResponse_TotalWindows x) w;
    pw_int x08 (QueryMissCounterResponse_Misses x) w).

Definition QueryMissCounterResponse_unmarshal : bool -> bytes -> option QueryMissCounterResponse -> res (option QueryMissCounterResponse) :=
  pulsar_unmarshal (fun discard l fieldNum wireType x b =>
    match fieldNum with
    | 1 => Some ('(s, b) ← rd_int64 wireType b; Ok (QueryMissCounterResponse_set_Misses s x, b))
    | 2 => Some ('(s, b) ← rd_int64 wireType b; Ok (QueryMissCounterResponse_set_TotalWindows s x, b))
    | _ => None
    end) (fun s x => QueryMissCounterResponse_set_unknownFields (QueryMissCounterResponse_unknownFields x ++ s) x).

#[global] Instance QueryMissCounterResponse_pulsar : PulsarMsg QueryMissCounterResponse := {|
  pm_new := mkQueryMissCounterResponse 0 0 [];
  pm_size := QueryMissCounterResponse_size; pm_marshal := QueryMissCounterResponse_marshal; pm_unmarshal := QueryMissCounterResponse_unmarshal;
  pm_unknown := QueryMissCounterResponse_unknownFields; pm_set_unknown := QueryMissCounterResponse_set_unknownFields
|}.

#[global] Instance QueryMissCounterResponse_reflect : Reflect QueryMissCounterResponse value := {|
  r_new := mkQueryMissCounterResponse 0 0 [];
  r_names := ["vertix.oracle.v1.QueryMissCounterResponse.misses";
    "vertix.oracle.v1.QueryMissCounterResponse.total_windows"];
  r_Range := @QueryMissCounterResponse_Range; r_Has := QueryMissCounterResponse_Has; r_Clear := QueryMissCounterResponse_Clear; r_Get := QueryMissCounterResponse_Get;
  r_Set := QueryMissCounterResponse_Set; r_Mutable := QueryMissCounterResponse_Mutable; r_NewField := QueryMissCounterResponse_NewField;
  r_SetUnknown := QueryMissCounterResponse_set_unknownFields
|}.

#[global] Instance QueryMissCounterResponse_schema : Schema QueryMissCounterResponse := fun x =>
  [(1, FInt (QueryMissCounterResponse_Misses x));
   (2, FInt (QueryMissCounterResponse_TotalWindows x))].

#[global] Instance QueryMissCounterResponse_strip : PulsarStrip QueryMissCounterResponse := fun x =>
  mkQueryMissCounterResponse (QueryMissCounterResponse_Misses x) (QueryMissCounterResponse_TotalWindows x) [].

(** *** [QueryFeederRequest] *)

Definition QueryFeederRequest_Range {S} (f : string -> value -> S -> bool * S) (x : QueryFeederRequest) (s : S) : S :=
  visit f (str_set (QueryFeederRequest_Validator x)) "vertix.oracle.v1.QueryFeederRequest.validator" (VString (QueryFeederRequest_Validator x)) (fun s => s) s.

Definition QueryFeederRequest_Has (fd : string) (x : QueryFeederRequest) : res bool :=
  fd_switch fd
    [("vertix.oracle.v1.QueryFeederRequest.validator", Ok (str_set (QueryFeederRequest_Validator x)))].

Definition QueryFeederRequest_Clear (fd : string) (x : QueryFeederRequest) : res QueryFeederRequest :=
  fd_switch fd
    [("vertix.oracle.v1.QueryFeederRequest.validator", Ok (QueryFeederRequest_set_Validator "" x))].

Definition QueryFeederRequest_Get (fd : string) (x : QueryFeederRequest) : res value :=
  fd_switch fd
    [("vertix.oracle.v1.QueryFeederRequest.validator", Ok (VString (QueryFeederRequest_Validator x)))].

Definition QueryFeederRequest_Set (fd : string) (v : value) (x : QueryFeederRequest) : res QueryFeederRequest :=
  fd_switch fd
    [("vertix.oracle.v1.QueryFeederRequest.validator", (v ← as_string v; Ok (QueryFeederRequest_set_Validator v x)))].

Definition QueryFeederRequest_Mutable (fd : string) (x : QueryFeederRequest) : res (QueryFeederRequest * value) :=
  fd_switch fd
    [("vertix.oracle.v1.QueryFeederRequest.validator", Panic)].

Definition QueryFeederRequest_NewField (fd : string) : res value :=
  fd_switch fd
    [("vertix.oracle.v1.QueryFeederRequest.validator", Ok (VString ""))].

Definition QueryFeederRequest_size (o : option QueryFeederRequest) : Z :=
  match o with
  | None => 0
  | Some x => pz_string (QueryFeederRequest_Validator x) + zlen (QueryFeederRequest_unknownFields x)
  end.

Definition QueryFeederRequest_marshal : bytes -> option QueryFeederRequest -> res bytes :=
  pulsar_marshal QueryFeederRequest_size (fun x w =>
    w ← pw_raw (QueryFeederRequest_unknownFields x) w;
    pw_string x0a (QueryFeederRequest_Validator x) w).

Definition QueryFeederRequest_unmarshal : bool -> bytes -> option QueryFeederRequest -> res (option QueryFeederRequest) :=
  pulsar_unmarshal (fun discard l fieldNum wireType x b =>
    match fieldNum with
    | 1 => Some ('(s, b) ← rd_string l wireType b; Ok (QueryFeederRequest_set_Validator s x, b))
    | _ => None
    end) (fun s x => QueryFeederRequest_set_unknownFields (QueryFeederRequest_unknownFields x ++ s) x).

#[global] Instance QueryFeederRequest_pulsar : PulsarMsg QueryFeederRequest := {|
  pm_new := mkQueryFeederRequest "" [];
  pm_size := QueryFeederRequest_size; pm_marshal := QueryFeederRequest_marshal; pm_unmarshal := QueryFeederRequest_unmarshal;
  pm_unknown := QueryFeederRequest_unknownFields; pm_set_unknown := QueryFeederRequest_set_unknownFields
|}.

#[global] Instance QueryFeederRequest_reflect : Reflect QueryFeederRequest value := {|
  r_new := mkQueryFeederRequest "" [];
  r_names := ["vertix.oracle.v1.QueryFeederRequest.validator"];
  r_Range := @QueryFeederRequest_Range; r_Has := QueryFeederRequest_Has; r_Clear := QueryFeederRequest_Clear; r_Get := QueryFeederRequest_Get;
  r_Set := QueryFeederRequest_Set; r_Mutable := QueryFeederRequest_Mutable; r_NewField := QueryFeederRequest_NewField;
  r_SetUnknown := QueryFeederRequest_set_unknownFields
|}.

#[global] Instance QueryFeederRequest_schema : Schema QueryFeederRequest := fun x =>
  [(1, FString (QueryFeederRequest_Validator x))].

#[global] Instance QueryFeederRequest_strip : PulsarStrip QueryFeederRequest := fun x =>
  mkQueryFeederRequest (QueryFeederRequest_Validator x) [].

(** *** [QueryFeederResponse] *)

Definition QueryFeederResponse_Range {S} (f : string -> value -> S -> bool * S) (x : QueryFeederResponse) (s : S) : S :=
  visit f (str_set (QueryFeederResponse_Feeder x)) "vertix.oracle.v1.QueryFeederResponse.feeder" (VString (QueryFeederResponse_Feeder x)) (fun s => s) s.

Definition QueryFeederResponse_Has (fd : string) (x : QueryFeederResponse) : res bool :=
  fd_switch fd
    [("vertix.oracle.v1.QueryFeederResponse.feeder", Ok (str_set (QueryFeederResponse_Feeder x)))].

Definition QueryFeederResponse_Clear (fd : string) (x : QueryFeederResponse) : res QueryFeederResponse :=
  fd_switch fd
    [("vertix.oracle.v1.QueryFeederResponse.feeder", Ok (QueryFeederResponse_set_Feeder "" x))].

Definition QueryFeederResponse_Get (fd : string) (x : QueryFeederResponse) : res value :=
  fd_switch fd
    [("vertix.oracle.v1.QueryFeederResponse.feeder", Ok (VString (QueryFeederResponse_Feeder x)))].

Definition QueryFeederResponse_Set (fd : string) (v : value) (x : QueryFeederResponse) : res QueryFeederResponse :=
  fd_switch fd
    [("vertix.oracle.v1.QueryFeederResponse.feeder", (v ← as_string v; Ok (QueryFeederResponse_set_Feeder v x)))].

Definition QueryFeederResponse_Mutable (fd : string) (x : QueryFeederResponse) : res (QueryFeederResponse * value) :=
  fd_switch fd
    [("vertix.oracle.v1.QueryFeederResponse.feeder", Panic)].

Definition QueryFeederResponse_NewField (fd : string) : res value :=
  fd_switch fd
    [("vertix.oracle.v1.QueryFeederResponse.feeder", Ok (VString ""))].

Definition QueryFeederResponse_size (o : option QueryFeederResponse) : Z :=
  match o with
  | None => 0
  | Some x => pz_string (QueryFeederResponse_Feeder x) + zlen (QueryFeederResponse_unknownFields x)
  end.

Definition QueryFeederResponse_marshal : bytes -> option QueryFeederResponse -> res bytes :=
  pulsar_marshal QueryFeederResponse_size (fun x w =>
    w ← pw_raw (QueryFeederResponse_unknownFields x) w;
    pw_string x0a (QueryFeederResponse_Feeder x) w).

Definition QueryFeederResponse_unmarshal : bool -> bytes -> option QueryFeederResponse -> res (option QueryFeederResponse) :=
  pulsar_unmarshal (fun discard l fieldNum wireType x b =>
    match fieldNum with
    | 1 => Some ('(s, b) ← rd_string l wireType b; Ok (QueryFeederResponse_set_Feeder s x, b))
    | _ => None
    end) (fun s x => QueryFeederResponse_set_unknownFields (QueryFeederResponse_unknownFields x ++ s) x).

#[global] Instance QueryFeederResponse_pulsar : PulsarMsg QueryFeederResponse := {|
  pm_new := mkQueryFeederResponse "" [];
  pm_size := QueryFeederResponse_size; pm_marshal := QueryFeederResponse_marshal; pm_unmarshal := QueryFeederResponse_unmarshal;
  pm_unknown := QueryFeederResponse_unknownFields; pm_set_unknown := QueryFeederResponse_set_unknownFields
|}.

#[global] Instance QueryFeederResponse_reflect : Reflect QueryFeederResponse value := {|
  r_new := mkQueryFeederResponse "" [];
  r_names := ["vertix.oracle.v1.QueryFeederResponse.feeder"];
  r_Range := @QueryFeederResponse_Range; r_Has := QueryFeederResponse_Has; r_Clear := QueryFeederResponse_Clear; r_Get := QueryFeederResponse_Get;
  r_Set := QueryFeederResponse_Set; r_Mutable := QueryFeederResponse_Mutable; r_NewField := QueryFeederResponse_NewField;
  r_SetUnknown := QueryFeederResponse_set_unknownFields
|}.

#[global] Instance QueryFeederResponse_schema : Schema QueryFeederResponse := fun x =>
  [(1, FString (QueryFeederResponse_Feeder x))].

#[global] Instance QueryFeederResponse_strip : PulsarStrip QueryFeederResponse := fun x =>
  mkQueryFeederResponse (QueryFeederResponse_Feeder x) [].

(** ** The messages keep the promises of [PulsarLaws] and [ReflectLaws] *)

Context {PL : ProtoRuntimeLaws} {IL : ApiImportsLaws}.

#[global] Instance Module__wire : PulsarLaws Module_.
Proof.
  eapply (own_pulsar _ _ (fun x => True)); [intros; reflexivity|intros; reflexivity|reflexivity|unknown_lens| | |knows_switch|].
  - intros x Hx. unfold pm_size, Module__pulsar, Module__size, Module__schema. pencodes_fields.
  - intros d [x1 u] Hx Hu. simpl in Hu. subst u. reads_start (proto3_field (1, FString x1) ++ [] : bytes).
    reads_scalar. preads_end d.
  - intros d l k wt x b r ? E. cbv beta in E. pconsumes_fields E.
Defined.

#[global] Instance Module__reflects : ReflectLaws Module_ value.
Proof.
  split; [reflect_dom|reflect_range| |reflect_clear|reflect_set|reflect_mutable|reflect_new].
  intros [x1 u]. unfold populated. rewrite copy_populated. simpl r_names. simpl r_new.
  copy_one (mkModule_ x1 []). reflexivity.
Qed.

#[global] Instance OracleFeed_wire : PulsarLaws OracleFeed.
Proof.
  eapply (own_pulsar _ _ (fun x => - two63 <= OracleFeed_BlockHeight x < two63)); [intros; reflexivity|intros; reflexivity|reflexivity|unknown_lens| | |knows_switch|].
  - intros x Hx. unfold pm_size, OracleFeed_pulsar, OracleFeed_size, OracleFeed_schema. pencodes_fields.
  - intros d [x1 x2 x3 x4 u] Hx Hu. simpl in Hu. subst u. reads_start (proto3_field (1, FString x1) ++ proto3_field (2, FString x2) ++ proto3_field (3, FString x3) ++ proto3_field (4, FInt x4) ++ [] : bytes).
    reads_scalar. reads_scalar. reads_scalar. reads_i64. preads_end d.
  - intros d l k wt x b r ? E. cbv beta in E. pconsumes_fields E.
Defined.

#[global] Instance OracleFeed_reflects : ReflectLaws OracleFeed value.
Proof.
  split; [reflect_dom|reflect_range| |reflect_clear|reflect_set|reflect_mutable|reflect_new].
  intros [x1 x2 x3 x4 u]. unfold populated. rewrite copy_populated. simpl r_names. simpl r_new.
  copy_one (mkOracleFeed x1 "" "" 0 []). copy_one (mkOracleFeed x1 x2 "" 0 []). copy_one (mkOracleFeed x1 x2 x3 0 []). copy_one (mkOracleFeed x1 x2 x3 x4 []). reflexivity.
Qed.

#[global] Instance AggregatedPrice_wire : PulsarLaws AggregatedPrice.
Proof.
  eapply (own_pulsar _ _ (fun x => - two63 <= AggregatedPrice_BlockHeight x < two63 /\ (forall y, AggregatedPrice_BlockTime x = Some y -> pm_good y))); [intros; reflexivity|intros; reflexivity|reflexivity|unknown_lens| | |knows_switch|].
  - intros x Hx. unfold pm_size, AggregatedPrice_pulsar, AggregatedPrice_size, AggregatedPrice_schema. pencodes_fields.
  - intros d [x1 x2 x3 x4 u] Hx Hu. simpl in Hu. subst u. reads_start (proto3_field (1, FString x1) ++ proto3_field (2, FString x2) ++ proto3_field (3, FInt x3) ++ proto3_field (4, FMsgs (ptr_fields x4)) ++ [] : bytes).
    reads_scalar. reads_scalar. reads_i64. preads_optional d (fun v => mkAggregatedPrice x1 x2 x3 v []). preads_end d.
  - intros d l k wt x b r ? E. cbv beta in E. pconsumes_fields E.
Defined.

#[global] Instance AggregatedPrice_reflects : ReflectLaws AggregatedPrice value.
Proof.
  split; [reflect_dom|reflect_range| |reflect_clear|reflect_set|reflect_mutable|reflect_new].
  intros [x1 x2 x3 x4 u]. unfold populated. rewrite copy_populated. simpl r_names. simpl r_new.
  copy_one (mkAggregatedPrice x1 "" 0 None []). copy_one (mkAggregatedPrice x1 x2 0 None []). copy_one (mkAggregatedPrice x1 x2 x3 None []). copy_one (mkAggregatedPrice x1 x2 x3 x4 []). reflexivity.
Qed.

#[global] Instance TWAPEntry_wire : PulsarLaws TWAPEntry.
Proof.
  eapply (own_pulsar _ _ (fun x => (forall y, TWAPEntry_BlockTime x = Some y -> pm_good y))); [intros; reflexivity|intros; reflexivity|reflexivity|unknown_lens| | |knows_switch|].
  - intros x Hx. unfold pm_size, TWAPEntry_pulsar, TWAPEntry_size, TWAPEntry_schema. pencodes_fields.
  - intros d [x1 x2 x3 u] Hx Hu. simpl in Hu. subst u. reads_start (proto3_field (1, FString x1) ++ proto3_field (2, FString x2) ++ proto3_field (3, FMsgs (ptr_fields x3)) ++ [] : bytes).
    reads_scalar. reads_scalar. preads_optional d (fun v => mkTWAPEntry x1 x2 v []). preads_end d.
  - intros d l k wt x b r ? E. cbv beta in E. pconsumes_fields E.
Defined.

#[global] Instance TWAPEntry_reflects : ReflectLaws TWAPEntry value.
Proof.
  split; [reflect_dom|reflect_range| |reflect_clear|reflect_set|reflect_mutable|reflect_new].
  intros [x1 x2 x3 u]. unfold populated. rewrite copy_populated. simpl r_names. simpl r_new.
  copy_one (mkTWAPEntry x1 "" None []). copy_one (mkTWAPEntry x1 x2 None []). copy_one (mkTWAPEntry x1 x2 x3 []). reflexivity.
Qed.

#[global] Instance OracleParams_wire : PulsarLaws OracleParams.
Proof.
  eapply (own_pulsar _ _ (fun x => - two63 <= OracleParams_VoteWindow x < two63 /\ - two63 <= OracleParams_MissWindowSize x < two63 /\ - two63 <= OracleParams_MaxPriceAge x < two63)); [intros; reflexivity|intros; reflexivity|reflexivity|unknown_lens| | |knows_switch|].
  - intros x Hx. unfold pm_size, OracleParams_pulsar, OracleParams_size, OracleParams_schema. pencodes_fields.
  - intros d [x1 x2 x3 x4 x5 x6 x7 x8 x9 u] Hx Hu. simpl in Hu. subst u. reads_start (proto3_field (1, FInt x1) ++ proto3_field (2, FString x2) ++ proto3_field (3, FString x3) ++ proto3_field (4, FString x4) ++ proto3_field (5, FString x5) ++ proto3_field (6, FInt x6) ++ proto3_field (7, FString x7) ++ proto3_field (8, FInt x8) ++ proto3_field (9, FStrings x9) ++ [] : bytes).
    reads_i64. reads_scalar. reads_scalar. reads_scalar. reads_scalar. reads_i64. reads_scalar. reads_i64. reads_repeated_strings (fun v => mkOracleParams x1 x2 x3 x4 x5 x6 x7 x8 v []). preads_end d.
  - intros d l k wt x b r ? E. cbv beta in E. pconsumes_fields E.
Defined.

#[global] Instance OracleParams_reflects : ReflectLaws OracleParams value.
Proof.
  split; [reflect_dom|reflect_range| |reflect_clear|reflect_set|reflect_mutable|reflect_new].
  intros [x1 x2 x3 x4 x5 x6 x7 x8 x9 u]. unfold populated. rewrite copy_populated. simpl r_names. simpl r_new.
  copy_one (mkOracleParams x1 "" "" "" "" 0 "" 0 [] []). copy_one (mkOracleParams x1 x2 "" "" "" 0 "" 0 [] []). copy_one (mkOracleParams x1 x2 x3 "" "" 0 "" 0 [] []). copy_one (mkOracleParams x1 x2 x3 x4 "" 0 "" 0 [] []). copy_one (mkOracleParams x1 x2 x3 x4 x5 0 "" 0 [] []). copy_one (mkOracleParams x1 x2 x3 x4 x5 x6 "" 0 [] []). copy_one (mkOracleParams x1 x2 x3 x4 x5 x6 x7 0 [] []). copy_one (mkOracleParams x1 x2 x3 x4 x5 x6 x7 x8 [] []). copy_one (mkOracleParams x1 x2 x3 x4 x5 x6 x7 x8 x9 []). reflexivity.
Qed.

#[global] Instance FeederDelegation_wire : PulsarLaws FeederDelegation.
Proof.
  eapply (own_pulsar _ _ (fun x => True)); [intros; reflexivity|intros; reflexivity|reflexivity|unknown_lens| | |knows_switch|].
  - intros x Hx. unfold pm_size, FeederDelegation_pulsar, FeederDelegation_size, FeederDelegation_schema. pencodes_fields.
  - intros d [x1 x2 u] Hx Hu. simpl in Hu. subst u. reads_start (proto3_field (1, FString x1) ++ proto3_field (2, FString x2) ++ [] : bytes).
    reads_scalar. reads_scalar. preads_end d.
  - intros d l k wt x b r ? E. cbv beta in E. pconsumes_fields E.
Defined.

#[global] Instance FeederDelegation_reflects : ReflectLaws FeederDelegation value.
Proof.
  split; [reflect_dom|reflect_range| |reflect_clear|reflect_set|reflect_mutable|reflect_new].
  intros [x1 x2 u]. unfold populated. rewrite copy_populated. simpl r_names. simpl r_new.
  copy_one (mkFeederDelegation x1 "" []). copy_one (mkFeederDelegation x1 x2 []). reflexivity.
Qed.

#[global] Instance GenesisState_wire : PulsarLaws GenesisState.
Proof.
  eapply (own_pulsar _ _ (fun x => (forall y, GenesisState_Params x = Some y -> pm_good y) /\ elems_good (GenesisState_Prices x) /\ elems_good (GenesisState_Feeders x))); [intros; reflexivity|intros; reflexivity|reflexivity|unknown_lens| | |knows_switch|].
  - intros x Hx. unfold pm_size, GenesisState_pulsar, GenesisState_size, GenesisState_schema. pencodes_fields.
  - intros d [x1 x2 x3 u] Hx Hu. simpl in Hu. subst u. reads_start (proto3_field (1, FMsgs (ptr_fields x1)) ++ proto3_field (2, FMsgs (elem_fields <$> x2)) ++ proto3_field (3, FMsgs (elem_fields <$> x3)) ++ [] : bytes).
    preads_optional d (fun v => mkGenesisState v [] [] []). preads_repeated d (fun v => mkGenesisState (pstrip d x1) v [] []). preads_repeated d (fun v => mkGenesisState (pstrip d x1) (pstrips d x2) v []). preads_end d.
  - intros d l k wt x b r ? E. cbv beta in E. pconsumes_fields E.
Defined.

#[global] Instance GenesisState_reflects : ReflectLaws GenesisState value.
Proof.
  split; [reflect_dom|reflect_range| |reflect_clear|reflect_set|reflect_mutable|reflect_new].
  intros [x1 x2 x3 u]. unfold populated. rewrite copy_populated. simpl r_names. simpl r_new.
  copy_one (mkGenesisState x1 [] [] []). copy_one (mkGenesisState x1 x2 [] []). copy_one (mkGenesisState x1 x2 x3 []). reflexivity.
Qed.

#[global] Instance MsgSetFeeder_wire : PulsarLaws MsgSetFeeder.
Proof.
  eapply (own_pulsar _ _ (fun x => True)); [intros; reflexivity|intros; reflexivity|reflexivity|unknown_lens| | |knows_switch|].
  - intros x Hx. unfold pm_size, MsgSetFeeder_pulsar, MsgSetFeeder_size, MsgSetFeeder_schema. pencodes_fields.
  - intros d [x1 x2 u] Hx Hu. simpl in Hu. subst u. reads_start (proto3_field (1, FString x1) ++ proto3_field (2, FString x2) ++ [] : bytes).
    reads_scalar. reads_scalar. preads_end d.
  - intros d l k wt x b r ? E. cbv beta in E. pconsumes_fields E.
Defined.

#[global] Instance MsgSetFeeder_reflects : ReflectLaws MsgSetFeeder value.
Proof.
  split; [reflect_dom|reflect_range| |reflect_clear|reflect_set|reflect_mutable|reflect_new].
  intros [x1 x2 u]. unfold populated. rewrite copy_populated. simpl r_names. simpl r_new.
  copy_one (mkMsgSetFeeder x1 "" []). copy_one (mkMsgSetFeeder x1 x2 []). reflexivity.
Qed.

#[global] Instance MsgSetFeederResponse_wire : PulsarLaws MsgSetFeederResponse.
Proof.
  eapply (own_pulsar _ _ (fun x => True)); [intros; reflexivity|intros; reflexivity|reflexivity|unknown_lens| | |knows_switch|].
  - intros x Hx. unfold pm_size, MsgSetFeederResponse_pulsar, MsgSetFeederResponse_size, MsgSetFeederResponse_schema. pencodes_fields.
  - intros d [u] Hx Hu. simpl in Hu. subst u. reads_start ([] : bytes).
    preads_end d.
  - intros d l k wt x b r ? E. cbv beta in E. pconsumes_fields E.
Defined.

#[global] Instance MsgSetFeederResponse_reflects : ReflectLaws MsgSetFeederResponse value.
Proof.
  split; [reflect_dom|reflect_range| |reflect_clear|reflect_set|reflect_mutable|reflect_new].
  intros [u]. unfold populated. rewrite copy_populated. simpl r_names. simpl r_new.
  reflexivity.
Qed.

#[global] Instance MsgSubmitFeed_wire : PulsarLaws MsgSubmitFeed.
Proof.
  eapply (own_pulsar _ _ (fun x => True)); [intros; reflexivity|intros; reflexivity|reflexivity|unknown_lens| | |knows_switch|].
  - intros x Hx. unfold pm_size, MsgSubmitFeed_pulsar, MsgSubmitFeed_size, MsgSubmitFeed_schema. pencodes_fields.
  - intros d [x1 x2 x3 x4 u] Hx Hu. simpl in Hu. subst u. reads_start (proto3_field (1, FString x1) ++ proto3_field (2, FString x2) ++ proto3_field (3, FString x3) ++ proto3_field (4, FString x4) ++ [] : bytes).
    reads_scalar. reads_scalar. reads_scalar. reads_scalar. preads_end d.
  - intros d l k wt x b r ? E. cbv beta in E. pconsumes_fields E.
Defined.

#[global] Instance MsgSubmitFeed_reflects : ReflectLaws MsgSubmitFeed value.
Proof.
  split; [reflect_dom|reflect_range| |reflect_clear|reflect_set|reflect_mutable|reflect_new].
  intros [x1 x2 x3 x4 u]. unfold populated. rewrite copy_populated. simpl r_names. simpl r_new.
  copy_one (mkMsgSubmitFeed x1 "" "" "" []). copy_one (mkMsgSubmitFeed x1 x2 "" "" []). copy_one (mkMsgSubmitFeed x1 x2 x3 "" []). copy_one (mkMsgSubmitFeed x1 x2 x3 x4 []). reflexivity.
Qed.

#[global] Instance MsgSubmitFeedResponse_wire : PulsarLaws MsgSubmitFeedResponse.
Proof.
  eapply (own_pulsar _ _ (fun x => True)); [intros; reflexivity|intros; reflexivity|reflexivity|unknown_lens| | |knows_switch|].
  - intros x Hx. unfold pm_size, MsgSubmitFeedResponse_pulsar, MsgSubmitFeedResponse_size, MsgSubmitFeedResponse_schema. pencodes_fields.
  - intros d [u] Hx Hu. simpl in Hu. subst u. reads_start ([] : bytes).
    preads_end d.
  - intros d l k wt x b r ? E. cbv beta in E. pconsumes_fields E.
Defined.

#[global] Instance MsgSubmitFeedResponse_reflects : ReflectLaws MsgSubmitFeedResponse value.
Proof.
  split; [reflect_dom|reflect_range| |reflect_clear|reflect_set|reflect_mutable|reflect_new].
  intros [u]. unfold populated. rewrite copy_populated. simpl r_names. simpl r_new.
  reflexivity.
Qed.

#[global] Instance MsgUpdateParams_wire : PulsarLaws MsgUpdateParams.
Proof.
  eapply (own_pulsar _ _ (fun x => (forall y, MsgUpdateParams_Params x = Some y -> pm_good y))); [intros; reflexivity|intros; reflexivity|reflexivity|unknown_lens| | |knows_switch|].
  - intros x Hx. unfold pm_size, MsgUpdateParams_pulsar, MsgUpdateParams_size, MsgUpdateParams_schema. pencodes_fields.
  - intros d [x1 x2 u] Hx Hu. simpl in Hu. subst u. reads_start (proto3_field (1, FString x1) ++ proto3_field (2, FMsgs (ptr_fields x2)) ++ [] : bytes).
    reads_scalar. preads_optional d (fun v => mkMsgUpdateParams x1 v []). preads_end d.
  - intros d l k wt x b r ? E. cbv beta in E. pconsumes_fields E.
Defined.

#[global] Instance MsgUpdateParams_reflects : ReflectLaws MsgUpdateParams value.
Proof.
  split; [reflect_dom|reflect_range| |reflect_clear|reflect_set|reflect_mutable|reflect_new].
  intros [x1 x2 u]. unfold populated. rewrite copy_populated. simpl r_names. simpl r_new.
  copy_one (mkMsgUpdateParams x1 None []). copy_one (mkMsgUpdateParams x1 x2 []). reflexivity.
Qed.

#[global] Instance MsgUpdateParamsResponse_wire : PulsarLaws MsgUpdateParamsResponse.
Proof.
  eapply (own_pulsar _ _ (fun x => True)); [intros; reflexivity|intros; reflexivity|reflexivity|unknown_lens| | |knows_switch|].
  - intros x Hx. unfold pm_size, MsgUpdateParamsResponse_pulsar, MsgUpdateParamsResponse_size, MsgUpdateParamsResponse_schema. pencodes_fields.
  - intros d [u] Hx Hu. simpl in Hu. subst u. reads_start ([] : bytes).
    preads_end d.
  - intros d l k wt x b r ? E. cbv beta in E. pconsumes_fields E.
Defined.

#[global] Instance MsgUpdateParamsResponse_reflects : ReflectLaws MsgUpdateParamsResponse value.
Proof.
  split; [reflect_dom|reflect_range| |reflect_clear|reflect_set|reflect_mutable|reflect_new].
  intros [u]. unfold populated. rewrite copy_populated. simpl r_names. simpl r_new.
  reflexivity.
Qed.

#[global] Instance QueryPriceRequest_wire : PulsarLaws QueryPriceRequest.
Proof.
  eapply (own_pulsar _ _ (fun x => True)); [intros; reflexivity|intros; reflexivity|reflexivity|unknown_lens| | |knows_switch|].
  - intros x Hx. unfold pm_size, QueryPriceRequest_pulsar, QueryPriceRequest_size, QueryPriceRequest_schema. pencodes_fields.
  - intros d [x1 u] Hx Hu. simpl in Hu. subst u. reads_start (proto3_field (1, FString x1) ++ [] : bytes).
    reads_scalar. preads_end d.
  - intros d l k wt x b r ? E. cbv beta in E. pconsumes_fields E.
Defined.

#[global] Instance QueryPriceRequest_reflects : ReflectLaws QueryPriceRequest value.
Proof.
  split; [reflect_dom|reflect_range| |reflect_clear|reflect_set|reflect_mutable|reflect_new].
  intros [x1 u]. unfold populated. rewrite copy_populated. simpl r_names. simpl r_new.
  copy_one (mkQueryPriceRequest x1 []). reflexivity.
Qed.

#[global] Instance QueryPriceResponse_wire : PulsarLaws QueryPriceResponse.
Proof.
  eapply (own_pulsar _ _ (fun x => (forall y, QueryPriceResponse_Price x = Some y -> pm_good y))); [intros; reflexivity|intros; reflexivity|reflexivity|unknown_lens| | |knows_switch|].
  - intros x Hx. unfold pm_size, QueryPriceResponse_pulsar, QueryPriceResponse_size, QueryPriceResponse_schema. pencodes_fields.
  - intros d [x1 u] Hx Hu. simpl in Hu. subst u. reads_start (proto3_field (1, FMsgs (ptr_fields x1)) ++ [] : bytes).
    preads_optional d (fun v => mkQueryPriceResponse v []). preads_end d.
  - intros d l k wt x b r ? E. cbv beta in E. pconsumes_fields E.
Defined.

#[global] Instance QueryPriceResponse_reflects : ReflectLaws QueryPriceResponse value.
Proof.
  split; [reflect_dom|reflect_range| |reflect_clear|reflect_set|reflect_mutable|reflect_new].
  intros [x1 u]. unfold populated. rewrite copy_populated. simpl r_names. simpl r_new.
  copy_one (mkQueryPriceResponse x1 []). reflexivity.
Qed.

#[global] Instance QueryTwapRequest_wire : PulsarLaws QueryTwapRequest.
Proof.
  eapply (own_pulsar _ _ (fun x => 0 <= QueryTwapRequest_WindowSeconds x < two64)); [intros; reflexivity|intros; reflexivity|reflexivity|unknown_lens| | |knows_switch|].
  - intros x Hx. unfold pm_size, QueryTwapRequest_pulsar, QueryTwapRequest_size, QueryTwapRequest_schema. pencodes_fields.
  - intros d [x1 x2 u] Hx Hu. simpl in Hu. subst u. reads_start (proto3_field (1, FString x1) ++ proto3_field (2, FInt x2) ++ [] : bytes).
    reads_scalar. reads_u64. preads_end d.
  - intros d l k wt x b r ? E. cbv beta in E. pconsumes_fields E.
Defined.

#[global] Instance QueryTwapRequest_reflects : ReflectLaws QueryTwapRequest value.
Proof.
  split; [reflect_dom|reflect_range| |reflect_clear|reflect_set|reflect_mutable|reflect_new].
  intros [x1 x2 u]. unfold populated. rewrite copy_populated. simpl r_names. simpl r_new.
  copy_one (mkQueryTwapRequest x1 0 []). copy_one (mkQueryTwapRequest x1 x2 []). reflexivity.
Qed.

#[global] Instance QueryTwapResponse_wire : PulsarLaws QueryTwapResponse.
Proof.
  eapply (own_pulsar _ _ (fun x => True)); [intros; reflexivity|intros; reflexivity|reflexivity|unknown_lens| | |knows_switch|].
  - intros x Hx. unfold pm_size, QueryTwapResponse_pulsar, QueryTwapResponse_size, QueryTwapResponse_schema. pencodes_fields.
  - intros d [x1 u] Hx Hu. simpl in Hu. subst u. reads_start (proto3_field (1, FString x1) ++ [] : bytes).
    reads_scalar. preads_end d.
  - intros d l k wt x b r ? E. cbv beta in E. pconsumes_fields E.
Defined.

#[global] Instance QueryTwapResponse_reflects : ReflectLaws QueryTwapResponse value.
Proof.
  split; [reflect_dom|reflect_range| |reflect_clear|reflect_set|reflect_mutable|reflect_new].
  intros [x1 u]. unfold populated. rewrite copy_populated. simpl r_names. simpl r_new.
  copy_one (mkQueryTwapResponse x1 []). reflexivity.
Qed.

#[global] Instance QueryParamsRequest_wire : PulsarLaws QueryParamsRequest.
Proof.
  eapply (own_pulsar _ _ (fun x => True)); [intros; reflexivity|intros; reflexivity|reflexivity|unknown_lens| | |knows_switch|].
  - intros x Hx. unfold pm_size, QueryParamsRequest_pulsar, QueryParamsRequest_size, QueryParamsRequest_schema. pencodes_fields.
  - intros d [u] Hx Hu. simpl in Hu. subst u. reads_start ([] : bytes).
    preads_end d.
  - intros d l k wt x b r ? E. cbv beta in E. pconsumes_fields E.
Defined.

#[global] Instance QueryParamsRequest_reflects : ReflectLaws QueryParamsRequest value.
Proof.
  split; [reflect_dom|reflect_range| |reflect_clear|reflect_set|reflect_mutable|reflect_new].
  intros [u]. unfold populated. rewrite copy_populated. simpl r_names. simpl r_new.
  reflexivity.
Qed.

#[global] Instance QueryParamsResponse_wire : PulsarLaws QueryParamsResponse.
Proof.
  eapply (own_pulsar _ _ (fun x => (forall y, QueryParamsResponse_Params x = Some y -> pm_good y))); [intros; reflexivity|intros; reflexivity|reflexivity|unknown_lens| | |knows_switch|].
  - intros x Hx. unfold pm_size, QueryParamsResponse_pulsar, QueryParamsResponse_size, QueryParamsResponse_schema. pencodes_fields.
  - intros d [x1 u] Hx Hu. simpl in Hu. subst u. reads_start (proto3_field (1, FMsgs (ptr_fields x1)) ++ [] : bytes).
    preads_optional d (fun v => mkQueryParamsResponse v []). preads_end d.
  - intros d l k wt x b r ? E. cbv beta in E. pconsumes_fields E.
Defined.

#[global] Instance QueryParamsResponse_reflects : ReflectLaws QueryParamsResponse value.
Proof.
  split; [reflect_dom|reflect_range| |reflect_clear|reflect_set|reflect_mutable|reflect_new].
  intros [x1 u]. unfold populated. rewrite copy_populated. simpl r_names. simpl r_new.
  copy_one (mkQueryParamsResponse x1 []). reflexivity.
Qed.

#[global] Instance QueryMissCounterRequest_wire : PulsarLaws QueryMissCounterRequest.
Proof.
  eapply (own_pulsar _ _ (fun x => True)); [intros; reflexivity|intros; reflexivity|reflexivity|unknown_lens| | |knows_switch|].
  - intros x Hx. unfold pm_size, QueryMissCounterRequest_pulsar, QueryMissCounterRequest_size, QueryMissCounterRequest_schema. pencodes_fields.
  - intros d [x1 u] Hx Hu. simpl in Hu. subst u. reads_start (proto3_field (1, FString x1) ++ [] : bytes).
    reads_scalar. preads_end d.
  - intros d l k wt x b r ? E. cbv beta in E. pconsumes_fields E.
Defined.

#[global] Instance QueryMissCounterRequest_reflects : ReflectLaws QueryMissCounterRequest value.
Proof.
  split; [reflect_dom|reflect_range| |reflect_clear|reflect_set|reflect_mutable|reflect_new].
  intros [x1 u]. unfold populated. rewrite copy_populated. simpl r_names. simpl r_new.
  copy_one (mkQueryMissCounterRequest x1 []). reflexivity.
Qed.

#[global] Instance QueryMissCounterResponse_wire : PulsarLaws QueryMissCounterResponse.
Proof.
  eapply (own_pulsar _ _ (fun x => - two63 <= QueryMissCounterResponse_Misses x < two63 /\ - two63 <= QueryMissCounterResponse_TotalWindows x < two63)); [intros; reflexivity|intros; reflexivity|reflexivity|unknown_lens| | |knows_switch|].
  - intros x Hx. unfold pm_size, QueryMissCounterResponse_pulsar, QueryMissCounterResponse_size, QueryMissCounterResponse_schema. pencodes_fields.
  - intros d [x1 x2 u] Hx Hu. simpl in Hu. subst u. reads_start (proto3_field (1, FInt x1) ++ proto3_field (2, FInt x2) ++ [] : bytes).
    reads_i64. reads_i64. preads_end d.
  - intros d l k wt x b r ? E. cbv beta in E. pconsumes_fields E.
Defined.

#[global] Instance QueryMissCounterResponse_reflects : ReflectLaws QueryMissCounterResponse value.
Proof.
  split; [reflect_dom|reflect_range| |reflect_clear|reflect_set|reflect_mutable|reflect_new].
  intros [x1 x2 u]. unfold populated. rewrite copy_populated. simpl r_names. simpl r_new.
  copy_one (mkQueryMissCounterResponse x1 0 []). copy_one (mkQueryMissCounterResponse x1 x2 []). reflexivity.
Qed.

#[global] Instance QueryFeederRequest_wire : PulsarLaws QueryFeederRequest.
Proof.
  eapply (own_pulsar _ _ (fun x => True)); [intros; reflexivity|intros; reflexivity|reflexivity|unknown_lens| | |knows_switch|].
  - intros x Hx. unfold pm_size, QueryFeederRequest_pulsar, QueryFeederRequest_size, QueryFeederRequest_schema. pencodes_fields.
  - intros d [x1 u] Hx Hu. simpl in Hu. subst u. reads_start (proto3_field (1, FString x1) ++ [] : bytes).
    reads_scalar. preads_end d.
  - intros d l k wt x b r ? E. cbv beta in E. pconsumes_fields E.
Defined.

#[global] Instance QueryFeederRequest_reflects : ReflectLaws QueryFeederRequest value.
Proof.
  split; [reflect_dom|reflect_range| |reflect_clear|reflect_set|reflect_mutable|reflect_new].
  intros [x1 u]. unfold populated. rewrite copy_populated. simpl r_names. simpl r_new.
  copy_one (mkQueryFeederRequest x1 []). reflexivity.
Qed.

#[global] Instance QueryFeederResponse_wire : PulsarLaws QueryFeederResponse.
Proof.
  eapply (own_pulsar _ _ (fun x => True)); [intros; reflexivity|intros; reflexivity|reflexivity|unknown_lens| | |knows_switch|].
  - intros x Hx. unfold pm_size, QueryFeederResponse_pulsar, QueryFeederResponse_size, QueryFeederResponse_schema. pencodes_fields.
  - intros d [x1 u] Hx Hu. simpl in Hu. subst u. reads_start (proto3_field (1, FString x1) ++ [] : bytes).
    reads_scalar. preads_end d.
  - intros d l k wt x b r ? E. cbv beta in E. pconsumes_fields E.
Defined.

#[global] Instance QueryFeederResponse_reflects : ReflectLaws QueryFeederResponse value.
Proof.
  split; [reflect_dom|reflect_range| |reflect_clear|reflect_set|reflect_mutable|reflect_new].
  intros [x1 u]. unfold populated. rewrite copy_populated. simpl r_names. simpl r_new.
  copy_one (mkQueryFeederResponse x1 []). reflexivity.
Qed.

End ApiOracle.
