(* ===== verification/ApiRwa.v ===== *)
(** * api/vertix/rwa: the client bindings of x/rwa

    The messages of api/vertix/rwa/v1/*.pulsar.go and module/module.pulsar.go: the
    struct, the reflection methods and the methods of [ProtoMethods], each message an
    instance of [PulsarMsg] and [Reflect] with the laws of both. *)

From S2P Require Import Prelude Sdk World SdkRef Wire Codec Foreign WireMsg Pulsar Reflect.

Open Scope Z_scope.

Section ApiRwa.
Context {T : StdTime} {P : ProtoRuntime} {I : ApiImports}.

(** ** Messages *)

Record Module_ : Type := mkModule_ {
  Module__Authority : string;
  Module__unknownFields : bytes
}.

Record AssetRecord : Type := mkAssetRecord {
  AssetRecord_AssetId : string;
  AssetRecord_Issuer : string;
  AssetRecord_Name : string;
  AssetRecord_Description : string;
  AssetRecord_Status : Z;
  AssetRecord_OraclePair : string;
  AssetRecord_Denom : string;
  AssetRecord_Bond : string;
  AssetRecord_NotionalMinted : string;
  AssetRecord_AllowAll : bool;
  AssetRecord_AttestedPrice : string;
  AssetRecord_AttestedAt : option Timestamp;
  AssetRecord_CreatedAt : option Timestamp;
  AssetRecord_SettledAt : option Timestamp;
  AssetRecord_unknownFields : bytes
}.

Record RWAParams : Type := mkRWAParams {
  RWAParams_MinIssuerBond : string;
  RWAParams_MintFeeRate : string;
  RWAParams_SettleFeeRate : string;
  RWAParams_unknownFields : bytes
}.

Record Restriction : Type := mkRestriction {
  Restriction_AssetId : string;
  Restriction_Address : string;
  Restriction_IsDeny : bool;
  Restriction_unknownFields : bytes
}.

Record GenesisState : Type := mkGenesisState {
  GenesisState_Params : option RWAParams;
  GenesisState_Assets : list (option AssetRecord);
  GenesisState_Restrictions : list (option Restriction);
  GenesisState_unknownFields : bytes
}.

Record MsgRegisterAsset : Type := mkMsgRegisterAsset {
  MsgRegisterAsset_Issuer : string;
  MsgRegisterAsset_AssetId : string;
  MsgRegisterAsset_Name : string;
  MsgRegisterAsset_Description : string;
  MsgRegisterAsset_OraclePair : string;
  MsgRegisterAsset_Bond : string;
  MsgRegisterAsset_unknownFields : bytes
}.

Record MsgRegisterAssetResponse : Type := mkMsgRegisterAssetResponse {
  MsgRegisterAssetResponse_unknownFields : bytes
}.

Record MsgAttestAsset : Type := mkMsgAttestAsset {
  MsgAttestAsset_Issuer : string;
  MsgAttestAsset_AssetId : string;
  MsgAttestAsset_unknownFields : bytes
}.

Record MsgAttestAssetResponse : Type := mkMsgAttestAssetResponse {
  MsgAttestAssetResponse_unknownFields : bytes
}.

Record MsgMintRWA : Type := mkMsgMintRWA {
  MsgMintRWA_Issuer : string;
  MsgMintRWA_AssetId : string;
  MsgMintRWA_Notional : string;
  MsgMintRWA_unknownFields : bytes
}.

Record MsgMintRWAResponse : Type := mkMsgMintRWAResponse {
  MsgMintRWAResponse_unknownFields : bytes
}.

Record MsgTransferRWA : Type := mkMsgTransferRWA {
  MsgTransferRWA_Sender : string;
  MsgTransferRWA_Recipient : string;
  MsgTransferRWA_AssetId : string;
  MsgTransferRWA_Amount : string;
  MsgTransferRWA_unknownFields : bytes
}.

Record MsgTransferRWAResponse : Type := mkMsgTransferRWAResponse {
  MsgTransferRWAResponse_unknownFields : bytes
}.

Record MsgSettleRWA : Type := mkMsgSettleRWA {
  MsgSettleRWA_Issuer : string;
  MsgSettleRWA_AssetId : string;
  MsgSettleRWA_unknownFields : bytes
}.

Record MsgSettleRWAResponse : Type := mkMsgSettleRWAResponse {
  MsgSettleRWAResponse_unknownFields : bytes
}.

Record MsgUpdateRestrictions : Type := mkMsgUpdateRestrictions {
  MsgUpdateRestrictions_Issuer : string;
  MsgUpdateRestrictions_AssetId : string;
  MsgUpdateRestrictions_AllowAll : bool;
  MsgUpdateRestrictions_AddAllow : list string;
  MsgUpdateRestrictions_DelAllow : list string;
  MsgUpdateRestrictions_AddDeny : list string;
  MsgUpdateRestrictions_DelDeny : list string;
  MsgUpdateRestrictions_unknownFields : bytes
}.

Record MsgUpdateRestrictionsResponse : Type := mkMsgUpdateRestrictionsResponse {
  MsgUpdateRestrictionsResponse_unknownFields : bytes
}.

Record MsgSlashBond : Type := mkMsgSlashBond {
  MsgSlashBond_Authority : string;
  MsgSlashBond_AssetId : string;
  MsgSlashBond_Reason : string;
  MsgSlashBond_unknownFields : bytes
}.

Record MsgSlashBondResponse : Type := mkMsgSlashBondResponse {
  MsgSlashBondResponse_unknownFields : bytes
}.

Record MsgUpdateParams : Type := mkMsgUpdateParams {
  MsgUpdateParams_Authority : string;
  MsgUpdateParams_Params : option RWAParams;
  MsgUpdateParams_unknownFields : bytes
}.

Record MsgUpdateParamsResponse : Type := mkMsgUpdateParamsResponse {
  MsgUpdateParamsResponse_unknownFields : bytes
}.

Record QueryAssetRequest : Type := mkQueryAssetRequest {
  QueryAssetRequest_AssetId : string;
  QueryAssetRequest_unknownFields : bytes
}.

Record QueryAssetResponse : Type := mkQueryAssetResponse {
  QueryAssetResponse_Asset : option AssetRecord;
  QueryAssetResponse_unknownFields : bytes
}.

Record QueryAssetsByIssuerRequest : Type := mkQueryAssetsByIssuerRequest {
  QueryAssetsByIssuerRequest_Issuer : string;
  QueryAssetsByIssuerRequest_Pagination : option PageRequest;
  QueryAssetsByIssuerRequest_unknownFields : bytes
}.

Record QueryAssetsByIssuerResponse : Type := mkQueryAssetsByIssuerResponse {
  QueryAssetsByIssuerResponse_Assets : list (option AssetRecord);
  QueryAssetsByIssuerResponse_Pagination : option PageResponse;
  QueryAssetsByIssuerResponse_unknownFields : bytes
}.

Record QueryRestrictionsRequest : Type := mkQueryRestrictionsRequest {
  QueryRestrictionsRequest_AssetId : string;
  QueryRestrictionsRequest_unknownFields : bytes
}.

Record QueryRestrictionsResponse : Type := mkQueryRestrictionsResponse {
  QueryRestrictionsResponse_AllowAll : bool;
  QueryRestrictionsResponse_Allowlist : list string;
  QueryRestrictionsResponse_Denylist : list string;
  QueryRestrictionsResponse_unknownFields : bytes
}.

Record QueryParamsRequest : Type := mkQueryParamsRequest {
  QueryParamsRequest_unknownFields : bytes
}.

Record QueryParamsResponse : Type := mkQueryParamsResponse {
  QueryParamsResponse_Params : option RWAParams;
  QueryParamsResponse_unknownFields : bytes
}.

(** ** Assignments to a field: [x.F = v] *)

Definition Module__set_Authority (v : string) (x : Module_) : Module_ :=
  mkModule_ v (Module__unknownFields x).

Definition Module__set_unknownFields (v : bytes) (x : Module_) : Module_ :=
  mkModule_ (Module__Authority x) v.

Definition AssetRecord_set_AssetId (v : string) (x : AssetRecord) : AssetRecord :=
  mkAssetRecord v (AssetRecord_Issuer x) (AssetRecord_Name x) (AssetRecord_Description x) (AssetRecord_Status x) (AssetRecord_OraclePair x) (AssetRecord_Denom x) (AssetRecord_Bond x) (AssetRecord_NotionalMinted x) (AssetRecord_AllowAll x) (AssetRecord_AttestedPrice x) (AssetRecord_AttestedAt x) (AssetRecord_CreatedAt x) (AssetRecord_SettledAt x) (AssetRecord_unknownFields x).

Definition AssetRecord_set_Issuer (v : string) (x : AssetRecord) : AssetRecord :=
  mkAssetRecord (AssetRecord_AssetId x) v (AssetRecord_Name x) (AssetRecord_Description x) (AssetRecord_Status x) (AssetRecord_OraclePair x) (AssetRecord_Denom x) (AssetRecord_Bond x) (AssetRecord_NotionalMinted x) (AssetRecord_AllowAll x) (AssetRecord_AttestedPrice x) (AssetRecord_AttestedAt x) (AssetRecord_CreatedAt x) (AssetRecord_SettledAt x) (AssetRecord_unknownFields x).

Definition AssetRecord_set_Name (v : string) (x : AssetRecord) : AssetRecord :=
  mkAssetRecord (AssetRecord_AssetId x) (AssetRecord_Issuer x) v (AssetRecord_Description x) (AssetRecord_Status x) (AssetRecord_OraclePair x) (AssetRecord_Denom x) (AssetRecord_Bond x) (AssetRecord_NotionalMinted x) (AssetRecord_AllowAll x) (AssetRecord_AttestedPrice x) (AssetRecord_AttestedAt x) (AssetRecord_CreatedAt x) (AssetRecord_SettledAt x) (AssetRecord_unknownFields x).

Definition AssetRecord_set_Description (v : string) (x : AssetRecord) : AssetRecord :=
  mkAssetRecord (AssetRecord_AssetId x) (AssetRecord_Issuer x) (AssetRecord_Name x) v (AssetRecord_Status x) (AssetRecord_OraclePair x) (AssetRecord_Denom x) (AssetRecord_Bond x) (AssetRecord_NotionalMinted x) (AssetRecord_AllowAll x) (AssetRecord_AttestedPrice x) (AssetRecord_AttestedAt x) (AssetRecord_CreatedAt x) (AssetRecord_SettledAt x) (AssetRecord_unknownFields x).

Definition AssetRecord_set_Status (v : Z) (x : AssetRecord) : AssetRecord :=
  mkAssetRecord (AssetRecord_AssetId x) (AssetRecord_Issuer x) (AssetRecord_Name x) (AssetRecord_Description x) v (AssetRecord_OraclePair x) (AssetRecord_Denom x) (AssetRecord_Bond x) (AssetRecord_NotionalMinted x) (AssetRecord_AllowAll x) (AssetRecord_AttestedPrice x) (AssetRecord_AttestedAt x) (AssetRecord_CreatedAt x) (AssetRecord_SettledAt x) (AssetRecord_unknownFields x).

Definition AssetRecord_set_OraclePair (v : string) (x : AssetRecord) : AssetRecord :=
  mkAssetRecord (AssetRecord_AssetId x) (AssetRecord_Issuer x) (AssetRecord_Name x) (AssetRecord_Description x) (AssetRecord_Status x) v (AssetRecord_Denom x) (AssetRecord_Bond x) (AssetRecord_NotionalMinted x) (AssetRecord_AllowAll x) (AssetRecord_AttestedPrice x) (AssetRecord_AttestedAt x) (AssetRecord_CreatedAt x) (AssetRecord_SettledAt x) (AssetRecord_unknownFields x).

Definition AssetRecord_set_Denom (v : string) (x : AssetRecord) : AssetRecord :=
  mkAssetRecord (AssetRecord_AssetId x) (AssetRecord_Issuer x) (AssetRecord_Name x) (AssetRecord_Description x) (AssetRecord_Status x) (AssetRecord_OraclePair x) v (AssetRecord_Bond x) (AssetRecord_NotionalMinted x) (AssetRecord_AllowAll x) (AssetRecord_AttestedPrice x) (AssetRecord_AttestedAt x) (AssetRecord_CreatedAt x) (AssetRecord_SettledAt x) (AssetRecord_unknownFields x).

Definition AssetRecord_set_Bond (v : string) (x : AssetRecord) : AssetRecord :=
  mkAssetRecord (AssetRecord_AssetId x) (AssetRecord_Issuer x) (AssetRecord_Name x) (AssetRecord_Description x) (AssetRecord_Status x) (AssetRecord_OraclePair x) (AssetRecord_Denom x) v (AssetRecord_NotionalMinted x) (AssetRecord_AllowAll x) (AssetRecord_AttestedPrice x) (AssetRecord_AttestedAt x) (AssetRecord_CreatedAt x) (AssetRecord_SettledAt x) (AssetRecord_unknownFields x).

Definition AssetRecord_set_NotionalMinted (v : string) (x : AssetRecord) : AssetRecord :=
  mkAssetRecord (AssetRecord_AssetId x) (AssetRecord_Issuer x) (AssetRecord_Name x) (AssetRecord_Description x) (AssetRecord_Status x) (AssetRecord_OraclePair x) (AssetRecord_Denom x) (AssetRecord_Bond x) v (AssetRecord_AllowAll x) (AssetRecord_AttestedPrice x) (AssetRecord_AttestedAt x) (AssetRecord_CreatedAt x) (AssetRecord_SettledAt x) (AssetRecord_unknownFields x).

Definition AssetRecord_set_AllowAll (v : bool) (x : AssetRecord) : AssetRecord :=
  mkAssetRecord (AssetRecord_AssetId x) (AssetRecord_Issuer x) (AssetRecord_Name x) (AssetRecord_Description x) (AssetRecord_Status x) (AssetRecord_OraclePair x) (AssetRecord_Denom x) (AssetRecord_Bond x) (AssetRecord_NotionalMinted x) v (AssetRecord_AttestedPrice x) (AssetRecord_AttestedAt x) (AssetRecord_CreatedAt x) (AssetRecord_SettledAt x) (AssetRecord_unknownFields x).

Definition AssetRecord_set_AttestedPrice (v : string) (x : AssetRecord) : AssetRecord :=
  mkAssetRecord (AssetRecord_AssetId x) (AssetRecord_Issuer x) (AssetRecord_Name x) (AssetRecord_Description x) (AssetRecord_Status x) (AssetRecord_OraclePair x) (AssetRecord_Denom x) (AssetRecord_Bond x) (AssetRecord_NotionalMinted x) (AssetRecord_AllowAll x) v (AssetRecord_AttestedAt x) (AssetRecord_CreatedAt x) (AssetRecord_SettledAt x) (AssetRecord_unknownFields x).

Definition AssetRecord_set_AttestedAt (v : option Timestamp) (x : AssetRecord) : AssetRecord :=
  mkAssetRecord (AssetRecord_AssetId x) (AssetRecord_Issuer x) (AssetRecord_Name x) (AssetRecord_Description x) (AssetRecord_Status x) (AssetRecord_OraclePair x) (AssetRecord_Denom x) (AssetRecord_Bond x) (AssetRecord_NotionalMinted x) (AssetRecord_AllowAll x) (AssetRecord_AttestedPrice x) v (AssetRecord_CreatedAt x) (AssetRecord_SettledAt x) (AssetRecord_unknownFields x).

Definition AssetRecord_set_CreatedAt (v : option Timestamp) (x : AssetRecord) : AssetRecord :=
  mkAssetRecord (AssetRecord_AssetId x) (AssetRecord_Issuer x) (AssetRecord_Name x) (AssetRecord_Description x) (AssetRecord_Status x) (AssetRecord_OraclePair x) (AssetRecord_Denom x) (AssetRecord_Bond x) (AssetRecord_NotionalMinted x) (AssetRecord_AllowAll x) (AssetRecord_AttestedPrice x) (AssetRecord_AttestedAt x) v (AssetRecord_SettledAt x) (AssetRecord_unknownFields x).

Definition AssetRecord_set_SettledAt (v : option Timestamp) (x : AssetRecord) : AssetRecord :=
  mkAssetRecord (AssetRecord_AssetId x) (AssetRecord_Issuer x) (AssetRecord_Name x) (AssetRecord_Description x) (AssetRecord_Status x) (AssetRecord_OraclePair x) (AssetRecord_Denom x) (AssetRecord_Bond x) (AssetRecord_NotionalMinted x) (AssetRecord_AllowAll x) (AssetRecord_AttestedPrice x) (AssetRecord_AttestedAt x) (AssetRecord_CreatedAt x) v (AssetRecord_unknownFields x).

Definition AssetRecord_set_unknownFields (v : bytes) (x : AssetRecord) : AssetRecord :=
  mkAssetRecord (AssetRecord_AssetId x) (AssetRecord_Issuer x) (AssetRecord_Name x) (AssetRecord_Description x) (AssetRecord_Status x) (AssetRecord_OraclePair x) (AssetRecord_Denom x) (AssetRecord_Bond x) (AssetRecord_NotionalMinted x) (AssetRecord_AllowAll x) (AssetRecord_AttestedPrice x) (AssetRecord_AttestedAt x) (AssetRecord_CreatedAt x) (AssetRecord_SettledAt x) v.

Definition RWAParams_set_MinIssuerBond (v : string) (x : RWAParams) : RWAParams :=
  mkRWAParams v (RWAParams_MintFeeRate x) (RWAParams_SettleFeeRate x) (RWAParams_unknownFields x).

Definition RWAParams_set_MintFeeRate (v : string) (x : RWAParams) : RWAParams :=
  mkRWAParams (RWAParams_MinIssuerBond x) v (RWAParams_SettleFeeRate x) (RWAParams_unknownFields x).

Definition RWAParams_set_SettleFeeRate (v : string) (x : RWAParams) : RWAParams :=
  mkRWAParams (RWAParams_MinIssuerBond x) (RWAParams_MintFeeRate x) v (RWAParams_unknownFields x).

Definition RWAParams_set_unknownFields (v : bytes) (x : RWAParams) : RWAParams :=
  mkRWAParams (RWAParams_MinIssuerBond x) (RWAParams_MintFeeRate x) (RWAParams_SettleFeeRate x) v.

Definition Restriction_set_AssetId (v : string) (x : Restriction) : Restriction :=
  mkRestriction v (Restriction_Address x) (Restriction_IsDeny x) (Restriction_unknownFields x).

Definition Restriction_set_Address (v : string) (x : Restriction) : Restriction :=
  mkRestriction (Restriction_AssetId x) v (Restriction_IsDeny x) (Restriction_unknownFields x).

Definition Restriction_set_IsDeny (v : bool) (x : Restriction) : Restriction :=
  mkRestriction (Restriction_AssetId x) (Restriction_Address x) v (Restriction_unknownFields x).

Definition Restriction_set_unknownFields (v : bytes) (x : Restriction) : Restriction :=
  mkRestriction (Restriction_AssetId x) (Restriction_Address x) (Restriction_IsDeny x) v.

Definition GenesisState_set_Params (v : option RWAParams) (x : GenesisState) : GenesisState :=
  mkGenesisState v (GenesisState_Assets x) (GenesisState_Restrictions x) (GenesisState_unknownFields x).

Definition GenesisState_set_Assets (v : list (option AssetRecord)) (x : GenesisState) : GenesisState :=
  mkGenesisState (GenesisState_Params x) v (GenesisState_Restrictions x) (GenesisState_unknownFields x).

Definition GenesisState_set_Restrictions (v : list (option Restriction)) (x : GenesisState) : GenesisState :=
  mkGenesisState (GenesisState_Params x) (GenesisState_Assets x) v (GenesisState_unknownFields x).

Definition GenesisState_set_unknownFields (v : bytes) (x : GenesisState) : GenesisState :=
  mkGenesisState (GenesisState_Params x) (GenesisState_Assets x) (GenesisState_Restrictions x) v.

Definition MsgRegisterAsset_set_Issuer (v : string) (x : MsgRegisterAsset) : MsgRegisterAsset :=
  mkMsgRegisterAsset v (MsgRegisterAsset_AssetId x) (MsgRegisterAsset_Name x) (MsgRegisterAsset_Description x) (MsgRegisterAsset_OraclePair x) (MsgRegisterAsset_Bond x) (MsgRegisterAsset_unknownFields x).

Definition MsgRegisterAsset_set_AssetId (v : string) (x : MsgRegisterAsset) : MsgRegisterAsset :=
  mkMsgRegisterAsset (MsgRegisterAsset_Issuer x) v (MsgRegisterAsset_Name x) (MsgRegisterAsset_Description x) (MsgRegisterAsset_OraclePair x) (MsgRegisterAsset_Bond x) (MsgRegisterAsset_unknownFields x).

Definition MsgRegisterAsset_set_Name (v : string) (x : MsgRegisterAsset) : MsgRegisterAsset :=
  mkMsgRegisterAsset (MsgRegisterAsset_Issuer x) (MsgRegisterAsset_AssetId x) v (MsgRegisterAsset_Description x) (MsgRegisterAsset_OraclePair x) (MsgRegisterAsset_Bond x) (MsgRegisterAsset_unknownFields x).

Definition MsgRegisterAsset_set_Description (v : string) (x : MsgRegisterAsset) : MsgRegisterAsset :=
  mkMsgRegisterAsset (MsgRegisterAsset_Issuer x) (MsgRegisterAsset_AssetId x) (MsgRegisterAsset_Name x) v (MsgRegisterAsset_OraclePair x) (MsgRegisterAsset_Bond x) (MsgRegisterAsset_unknownFields x).

Definition MsgRegisterAsset_set_OraclePair (v : string) (x : MsgRegisterAsset) : MsgRegisterAsset :=
  mkMsgRegisterAsset (MsgRegisterAsset_Issuer x) (MsgRegisterAsset_AssetId x) (MsgRegisterAsset_Name x) (MsgRegisterAsset_Description x) v (MsgRegisterAsset_Bond x) (MsgRegisterAsset_unknownFields x).

Definition MsgRegisterAsset_set_Bond (v : string) (x : MsgRegisterAsset) : MsgRegisterAsset :=
  mkMsgRegisterAsset (MsgRegisterAsset_Issuer x) (MsgRegisterAsset_AssetId x) (MsgRegisterAsset_Name x) (MsgRegisterAsset_Description x) (MsgRegisterAsset_OraclePair x) v (MsgRegisterAsset_unknownFields x).

Definition MsgRegisterAsset_set_unknownFields (v : bytes) (x : MsgRegisterAsset) : MsgRegisterAsset :=
  mkMsgRegisterAsset (MsgRegisterAsset_Issuer x) (MsgRegisterAsset_AssetId x) (MsgRegisterAsset_Name x) (MsgRegisterAsset_Description x) (MsgRegisterAsset_OraclePair x) (MsgRegisterAsset_Bond x) v.

Definition MsgRegisterAssetResponse_set_unknownFields (v : bytes) (x : MsgRegisterAssetResponse) : MsgRegisterAssetResponse :=
  mkMsgRegisterAssetResponse v.

Definition MsgAttestAsset_set_Issuer (v : string) (x : MsgAttestAsset) : MsgAttestAsset :=
  mkMsgAttestAsset v (MsgAttestAsset_AssetId x) (MsgAttestAsset_unknownFields x).

Definition MsgAttestAsset_set_AssetId (v : string) (x : MsgAttestAsset) : MsgAttestAsset :=
  mkMsgAttestAsset (MsgAttestAsset_Issuer x) v (MsgAttestAsset_unknownFields x).

Definition MsgAttestAsset_set_unknownFields (v : bytes) (x : MsgAttestAsset) : MsgAttestAsset :=
  mkMsgAttestAsset (MsgAttestAsset_Issuer x) (MsgAttestAsset_AssetId x) v.

Definition MsgAttestAssetResponse_set_unknownFields (v : bytes) (x : MsgAttestAssetResponse) : MsgAttestAssetResponse :=
  mkMsgAttestAssetResponse v.

Definition MsgMintRWA_set_Issuer (v : string) (x : MsgMintRWA) : MsgMintRWA :=
  mkMsgMintRWA v (MsgMintRWA_AssetId x) (MsgMintRWA_Notional x) (MsgMintRWA_unknownFields x).

Definition MsgMintRWA_set_AssetId (v : string) (x : MsgMintRWA) : MsgMintRWA :=
  mkMsgMintRWA (MsgMintRWA_Issuer x) v (MsgMintRWA_Notional x) (MsgMintRWA_unknownFields x).

Definition MsgMintRWA_set_Notional (v : string) (x : MsgMintRWA) : MsgMintRWA :=
  mkMsgMintRWA (MsgMintRWA_Issuer x) (MsgMintRWA_AssetId x) v (MsgMintRWA_unknownFields x).

Definition MsgMintRWA_set_unknownFields (v : bytes) (x : MsgMintRWA) : MsgMintRWA :=
  mkMsgMintRWA (MsgMintRWA_Issuer x) (MsgMintRWA_AssetId x) (MsgMintRWA_Notional x) v.

Definition MsgMintRWAResponse_set_unknownFields (v : bytes) (x : MsgMintRWAResponse) : MsgMintRWAResponse :=
  mkMsgMintRWAResponse v.

Definition MsgTransferRWA_set_Sender (v : string) (x : MsgTransferRWA) : MsgTransferRWA :=
  mkMsgTransferRWA v (MsgTransferRWA_Recipient x) (MsgTransferRWA_AssetId x) (MsgTransferRWA_Amount x) (MsgTransferRWA_unknownFields x).

Definition MsgTransferRWA_set_Recipient (v : string) (x : MsgTransferRWA) : MsgTransferRWA :=
  mkMsgTransferRWA (MsgTransferRWA_Sender x) v (MsgTransferRWA_AssetId x) (MsgTransferRWA_Amount x) (MsgTransferRWA_unknownFields x).

Definition MsgTransferRWA_set_AssetId (v : string) (x : MsgTransferRWA) : MsgTransferRWA :=
  mkMsgTransferRWA (MsgTransferRWA_Sender x) (MsgTransferRWA_Recipient x) v (MsgTransferRWA_Amount x) (MsgTransferRWA_unknownFields x).

Definition MsgTransferRWA_set_Amount (v : string) (x : MsgTransferRWA) : MsgTransferRWA :=
  mkMsgTransferRWA (MsgTransferRWA_Sender x) (MsgTransferRWA_Recipient x) (MsgTransferRWA_AssetId x) v (MsgTransferRWA_unknownFields x).

Definition MsgTransferRWA_set_unknownFields (v : bytes) (x : MsgTransferRWA) : MsgTransferRWA :=
  mkMsgTransferRWA (MsgTransferRWA_Sender x) (MsgTransferRWA_Recipient x) (MsgTransferRWA_AssetId x) (MsgTransferRWA_Amount x) v.

Definition MsgTransferRWAResponse_set_unknownFields (v : bytes) (x : MsgTransferRWAResponse) : MsgTransferRWAResponse :=
  mkMsgTransferRWAResponse v.

Definition MsgSettleRWA_set_Issuer (v : string) (x : MsgSettleRWA) : MsgSettleRWA :=
  mkMsgSettleRWA v (MsgSettleRWA_AssetId x) (MsgSettleRWA_unknownFields x).

Definition MsgSettleRWA_set_AssetId (v : string) (x : MsgSettleRWA) : MsgSettleRWA :=
  mkMsgSettleRWA (MsgSettleRWA_Issuer x) v (MsgSettleRWA_unknownFields x).

Definition MsgSettleRWA_set_unknownFields (v : bytes) (x : MsgSettleRWA) : MsgSettleRWA :=
  mkMsgSettleRWA (MsgSettleRWA_Issuer x) (MsgSettleRWA_AssetId x) v.

Definition MsgSettleRWAResponse_set_unknownFields (v : bytes) (x : MsgSettleRWAResponse) : MsgSettleRWAResponse :=
  mkMsgSettleRWAResponse v.

Definition MsgUpdateRestrictions_set_Issuer (v : string) (x : MsgUpdateRestrictions) : MsgUpdateRestrictions :=
  mkMsgUpdateRestrictions v (MsgUpdateRestrictions_AssetId x) (MsgUpdateRestrictions_AllowAll x) (MsgUpdateRestrictions_AddAllow x) (MsgUpdateRestrictions_DelAllow x) (MsgUpdateRestrictions_AddDeny x) (MsgUpdateRestrictions_DelDeny x) (MsgUpdateRestrictions_unknownFields x).

Definition MsgUpdateRestrictions_set_AssetId (v : string) (x : MsgUpdateRestrictions) : MsgUpdateRestrictions :=
  mkMsgUpdateRestrictions (MsgUpdateRestrictions_Issuer x) v (MsgUpdateRestrictions_AllowAll x) (MsgUpdateRestrictions_AddAllow x) (MsgUpdateRestrictions_DelAllow x) (MsgUpdateRestrictions_AddDeny x) (MsgUpdateRestrictions_DelDeny x) (MsgUpdateRestrictions_unknownFields x).

Definition MsgUpdateRestrictions_set_AllowAll (v : bool) (x : MsgUpdateRestrictions) : MsgUpdateRestrictions :=
  mkMsgUpdateRestrictions (MsgUpdateRestrictions_Issuer x) (MsgUpdateRestrictions_AssetId x) v (MsgUpdateRestrictions_AddAllow x) (MsgUpdateRestrictions_DelAllow x) (MsgUpdateRestrictions_AddDeny x) (MsgUpdateRestrictions_DelDeny x) (MsgUpdateRestrictions_unknownFields x).

Definition MsgUpdateRestrictions_set_AddAllow (v : list string) (x : MsgUpdateRestrictions) : MsgUpdateRestrictions :=
  mkMsgUpdateRestrictions (MsgUpdateRestrictions_Issuer x) (MsgUpdateRestrictions_AssetId x) (MsgUpdateRestrictions_AllowAll x) v (MsgUpdateRestrictions_DelAllow x) (MsgUpdateRestrictions_AddDeny x) (MsgUpdateRestrictions_DelDeny x) (MsgUpdateRestrictions_unknownFields x).

Definition MsgUpdateRestrictions_set_DelAllow (v : list string) (x : MsgUpdateRestrictions) : MsgUpdateRestrictions :=
  mkMsgUpdateRestrictions (MsgUpdateRestrictions_Issuer x) (MsgUpdateRestrictions_AssetId x) (MsgUpdateRestrictions_AllowAll x) (MsgUpdateRestrictions_AddAllow x) v (MsgUpdateRestrictions_AddDeny x) (MsgUpdateRestrictions_DelDeny x) (MsgUpdateRestrictions_unknownFields x).

Definition MsgUpdateRestrictions_set_AddDeny (v : list string) (x : MsgUpdateRestrictions) : MsgUpdateRestrictions :=
  mkMsgUpdateRestrictions (MsgUpdateRestrictions_Issuer x) (MsgUpdateRestrictions_AssetId x) (MsgUpdateRestrictions_AllowAll x) (MsgUpdateRestrictions_AddAllow x) (MsgUpdateRestrictions_DelAllow x) v (MsgUpdateRestrictions_DelDeny x) (MsgUpdateRestrictions_unknownFields x).

Definition MsgUpdateRestrictions_set_DelDeny (v : list string) (x : MsgUpdateRestrictions) : MsgUpdateRestrictions :=
  mkMsgUpdateRestrictions (MsgUpdateRestrictions_Issuer x) (MsgUpdateRestrictions_AssetId x) (MsgUpdateRestrictions_AllowAll x) (MsgUpdateRestrictions_AddAllow x) (MsgUpdateRestrictions_DelAllow x) (MsgUpdateRestrictions_AddDeny x) v (MsgUpdateRestrictions_unknownFields x).

Definition MsgUpdateRestrictions_set_unknownFields (v : bytes) (x : MsgUpdateRestrictions) : MsgUpdateRestrictions :=
  mkMsgUpdateRestrictions (MsgUpdateRestrictions_Issuer x) (MsgUpdateRestrictions_AssetId x) (MsgUpdateRestrictions_AllowAll x) (MsgUpdateRestrictions_AddAllow x) (MsgUpdateRestrictions_DelAllow x) (MsgUpdateRestrictions_AddDeny x) (MsgUpdateRestrictions_DelDeny x) v.

Definition MsgUpdateRestrictionsResponse_set_unknownFields (v : bytes) (x : MsgUpdateRestrictionsResponse) : MsgUpdateRestrictionsResponse :=
  mkMsgUpdateRestrictionsResponse v.

Definition MsgSlashBond_set_Authority (v : string) (x : MsgSlashBond) : MsgSlashBond :=
  mkMsgSlashBond v (MsgSlashBond_AssetId x) (MsgSlashBond_Reason x) (MsgSlashBond_unknownFields x).

Definition MsgSlashBond_set_AssetId (v : string) (x : MsgSlashBond) : MsgSlashBond :=
  mkMsgSlashBond (MsgSlashBond_Authority x) v (MsgSlashBond_Reason x) (MsgSlashBond_unknownFields x).

Definition MsgSlashBond_set_Reason (v : string) (x : MsgSlashBond) : MsgSlashBond :=
  mkMsgSlashBond (MsgSlashBond_Authority x) (MsgSlashBond_AssetId x) v (MsgSlashBond_unknownFields x).

Definition MsgSlashBond_set_unknownFields (v : bytes) (x : MsgSlashBond) : MsgSlashBond :=
  mkMsgSlashBond (MsgSlashBond_Authority x) (MsgSlashBond_AssetId x) (MsgSlashBond_Reason x) v.

Definition MsgSlashBondResponse_set_unknownFields (v : bytes) (x : MsgSlashBondResponse) : MsgSlashBondResponse :=
  mkMsgSlashBondResponse v.

Definition MsgUpdateParams_set_Authority (v : string) (x : MsgUpdateParams) : MsgUpdateParams :=
  mkMsgUpdateParams v (MsgUpdateParams_Params x) (MsgUpdateParams_unknownFields x).

Definition MsgUpdateParams_set_Params (v : option RWAParams) (x : MsgUpdateParams) : MsgUpdateParams :=
  mkMsgUpdateParams (MsgUpdateParams_Authority x) v (MsgUpdateParams_unknownFields x).

Definition MsgUpdateParams_set_unknownFields (v : bytes) (x : MsgUpdateParams) : MsgUpdateParams :=
  mkMsgUpdateParams (MsgUpdateParams_Authority x) (MsgUpdateParams_Params x) v.

Definition MsgUpdateParamsResponse_set_unknownFields (v : bytes) (x : MsgUpdateParamsResponse) : MsgUpdateParamsResponse :=
  mkMsgUpdateParamsResponse v.

Definition QueryAssetRequest_set_AssetId (v : string) (x : QueryAssetRequest) : QueryAssetRequest :=
  mkQueryAssetRequest v (QueryAssetRequest_unknownFields x).

Definition QueryAssetRequest_set_unknownFields (v : bytes) (x : QueryAssetRequest) : QueryAssetRequest :=
  mkQueryAssetRequest (QueryAssetRequest_AssetId x) v.

Definition QueryAssetResponse_set_Asset (v : option AssetRecord) (x : QueryAssetResponse) : QueryAssetResponse :=
  mkQueryAssetResponse v (QueryAssetResponse_unknownFields x).

Definition QueryAssetResponse_set_unknownFields (v : bytes) (x : QueryAssetResponse) : QueryAssetResponse :=
  mkQueryAssetResponse (QueryAssetResponse_Asset x) v.

Definition QueryAssetsByIssuerRequest_set_Issuer (v : string) (x : QueryAssetsByIssuerRequest) : QueryAssetsByIssuerRequest :=
  mkQueryAssetsByIssuerRequest v (QueryAssetsByIssuerRequest_Pagination x) (QueryAssetsByIssuerRequest_unknownFields x).

Definition QueryAssetsByIssuerRequest_set_Pagination (v : option PageRequest) (x : QueryAssetsByIssuerRequest) : QueryAssetsByIssuerRequest :=
  mkQueryAssetsByIssuerRequest (QueryAssetsByIssuerRequest_Issuer x) v (QueryAssetsByIssuerRequest_unknownFields x).

Definition QueryAssetsByIssuerRequest_set_unknownFields (v : bytes) (x : QueryAssetsByIssuerRequest) : QueryAssetsByIssuerRequest :=
  mkQueryAssetsByIssuerRequest (QueryAssetsByIssuerRequest_Issuer x) (QueryAssetsByIssuerRequest_Pagination x) v.

Definition QueryAssetsByIssuerResponse_set_Assets (v : list (option AssetRecord)) (x : QueryAssetsByIssuerResponse) : QueryAssetsByIssuerResponse :=
  mkQueryAssetsByIssuerResponse v (QueryAssetsByIssuerResponse_Pagination x) (QueryAssetsByIssuerResponse_unknownFields x).

Definition QueryAssetsByIssuerResponse_set_Pagination (v : option PageResponse) (x : QueryAssetsByIssuerResponse) : QueryAssetsByIssuerResponse :=
  mkQueryAssetsByIssuerResponse (QueryAssetsByIssuerResponse_Assets x) v (QueryAssetsByIssuerResponse_unknownFields x).

Definition QueryAssetsByIssuerResponse_set_unknownFields (v : bytes) (x : QueryAssetsByIssuerResponse) : QueryAssetsByIssuerResponse :=
  mkQueryAssetsByIssuerResponse (QueryAssetsByIssuerResponse_Assets x) (QueryAssetsByIssuerResponse_Pagination x) v.

Definition QueryRestrictionsRequest_set_AssetId (v : string) (x : QueryRestrictionsRequest) : QueryRestrictionsRequest :=
  mkQueryRestrictionsRequest v (QueryRestrictionsRequest_unknownFields x).

Definition QueryRestrictionsRequest_set_unknownFields (v : bytes) (x : QueryRestrictionsRequest) : QueryRestrictionsRequest :=
  mkQueryRestrictionsRequest (QueryRestrictionsRequest_AssetId x) v.

Definition QueryRestrictionsResponse_set_AllowAll (v : bool) (x : QueryRestrictionsResponse) : QueryRestrictionsResponse :=
  mkQueryRestrictionsResponse v (QueryRestrictionsResponse_Allowlist x) (QueryRestrictionsResponse_Denylist x) (QueryRestrictionsResponse_unknownFields x).

Definition QueryRestrictionsResponse_set_Allowlist (v : list string) (x : QueryRestrictionsResponse) : QueryRestrictionsResponse :=
  mkQueryRestrictionsResponse (QueryRestrictionsResponse_AllowAll x) v (QueryRestrictionsResponse_Denylist x) (QueryRestrictionsResponse_unknownFields x).

Definition QueryRestrictionsResponse_set_Denylist (v : list string) (x : QueryRestrictionsResponse) : QueryRestrictionsResponse :=
  mkQueryRestrictionsResponse (QueryRestrictionsResponse_AllowAll x) (QueryRestrictionsResponse_Allowlist x) v (QueryRestrictionsResponse_unknownFields x).

Definition QueryRestrictionsResponse_set_unknownFields (v : bytes) (x : QueryRestrictionsResponse) : QueryRestrictionsResponse :=
  mkQueryRestrictionsResponse (QueryRestrictionsResponse_AllowAll x) (QueryRestrictionsResponse_Allowlist x) (QueryRestrictionsResponse_Denylist x) v.

Definition QueryParamsRequest_set_unknownFields (v : bytes) (x : QueryParamsRequest) : QueryParamsRequest :=
  mkQueryParamsRequest v.

Definition QueryParamsResponse_set_Params (v : option RWAParams) (x : QueryParamsResponse) : QueryParamsResponse :=
  mkQueryParamsResponse v (QueryParamsResponse_unknownFields x).

Definition QueryParamsResponse_set_unknownFields (v : bytes) (x : QueryParamsResponse) : QueryParamsResponse :=
  mkQueryParamsResponse (QueryParamsResponse_Params x) v.

(** ** Values

    [protoreflect.Value]: scalars, messages (a pointer, which may be nil) and the list
    wrappers, one type per repeated field, which may refer to nothing. *)

Inductive value : Type :=
| VString (s : string)
| VEnum (v : Z)
| VBool (b : bool)
| VTimestamp (m : option Timestamp)
| VRWAParams (m : option RWAParams)
| V_GenesisState_2_list (l : option (list (option AssetRecord)))
| V_GenesisState_3_list (l : option (list (option Restriction)))
| V_MsgUpdateRestrictions_4_list (l : option (list string))
| V_MsgUpdateRestrictions_5_list (l : option (list string))
| V_MsgUpdateRestrictions_6_list (l : option (list string))
| V_MsgUpdateRestrictions_7_list (l : option (list string))
| VAssetRecord (m : option AssetRecord)
| VPageRequest (m : option PageRequest)
| V_QueryAssetsByIssuerResponse_1_list (l : option (list (option AssetRecord)))
| VPageResponse (m : option PageResponse)
| V_QueryRestrictionsResponse_2_list (l : option (list string))
| V_QueryRestrictionsResponse_3_list (l : option (list string)).

(** The accessors and type assertions of [Set], which panic on another kind. *)

Definition as_string (v : value) : res string := match v with VString v => Ok v | _ => Panic end.
Definition as_enum (v : value) : res Z := match v with VEnum v => Ok v | _ => Panic end.
Definition as_bool (v : value) : res bool := match v with VBool v => Ok v | _ => Panic end.
Definition as_Timestamp (v : value) : res (option Timestamp) := match v with VTimestamp v => Ok v | _ => Panic end.
Definition as_RWAParams (v : value) : res (option RWAParams) := match v with VRWAParams v => Ok v | _ => Panic end.
Definition as_GenesisState_2_list (v : value) : res (list (option AssetRecord)) := match v with V_GenesisState_2_list (Some l) => Ok l | _ => Panic end.
Definition as_GenesisState_3_list (v : value) : res (list (option Restriction)) := match v with V_GenesisState_3_list (Some l) => Ok l | _ => Panic end.
Definition as_MsgUpdateRestrictions_4_list (v : value) : res (list string) := match v with V_MsgUpdateRestrictions_4_list (Some l) => Ok l | _ => Panic end.
Definition as_MsgUpdateRestrictions_5_list (v : value) : res (list string) := match v with V_MsgUpdateRestrictions_5_list (Some l) => Ok l | _ => Panic end.
Definition as_MsgUpdateRestrictions_6_list (v : value) : res (list string) := match v with V_MsgUpdateRestrictions_6_list (Some l) => Ok l | _ => Panic end.
Definition as_MsgUpdateRestrictions_7_list (v : value) : res (list string) := match v with V_MsgUpdateRestrictions_7_list (Some l) => Ok l | _ => Panic end.
Definition as_AssetRecord (v : value) : res (option AssetRecord) := match v with VAssetRecord v => Ok v | _ => Panic end.
Definition as_PageRequest (v : value) : res (option PageRequest) := match v with VPageRequest v => Ok v | _ => Panic end.
Definition as_QueryAssetsByIssuerResponse_1_list (v : value) : res (list (option AssetRecord)) := match v with V_QueryAssetsByIssuerResponse_1_list (Some l) => Ok l | _ => Panic end.
Definition as_PageResponse (v : value) : res (option PageResponse) := match v with VPageResponse v => Ok v | _ => Panic end.
Definition as_QueryRestrictionsResponse_2_list (v : value) : res (list string) := match v with V_QueryRestrictionsResponse_2_list (Some l) => Ok l | _ => Panic end.
Definition as_QueryRestrictionsResponse_3_list (v : value) : res (list string) := match v with V_QueryRestrictionsResponse_3_list (Some l) => Ok l | _ => Panic end.

(** ** Methods *)

(** *** [Module] *)

Definition Module__Range {S} (f : string -> value -> S -> bool * S) (x : Module_) (s : S) : S :=
  visit f (str_set (Module__Authority x)) "vertix.rwa.module.Module.authority" (VString (Module__Authority x)) (fun s => s) s.

Definition Module__Has (fd : string) (x : Module_) : res bool :=
  fd_switch fd
    [("vertix.rwa.module.Module.authority", Ok (str_set (Module__Authority x)))].

Definition Module__Clear (fd : string) (x : Module_) : res Module_ :=
  fd_switch fd
    [("vertix.rwa.module.Module.authority", Ok (Module__set_Authority "" x))].

Definition Module__Get (fd : string) (x : Module_) : res value :=
  fd_switch fd
    [("vertix.rwa.module.Module.authority", Ok (VString (Module__Authority x)))].

Definition Module__Set (fd : string) (v : value) (x : Module_) : res Module_ :=
  fd_switch fd
    [("vertix.rwa.module.Module.authority", (v ← as_string v; Ok (Module__set_Authority v x)))].

Definition Module__Mutable (fd : string) (x : Module_) : res (Module_ * value) :=
  fd_switch fd
    [("vertix.rwa.module.Module.authority", Panic)].

Definition Module__NewField (fd : string) : res value :=
  fd_switch fd
    [("vertix.rwa.module.Module.authority", Ok (VString ""))].

Definition Module__size (o : option Module_) : Z :=
  match o with
  | None => 0
  | Some x => pz_string (Module__Authority x) + zlen (Module__unknownFields x)
  end.

Definition Module__marshal : bytes -> option Module_ -> res bytes :=
  pulsar_marshal Module__size (fun x w =>
    w ← pw_raw (Module__unknownFields x) w;
    pw_string x0a (Module__Authority x) w).

Definition Module__unmarshal : bool -> bytes -> option Module_ -> res (option Module_) :=
  pulsar_unmarshal (fun discard l fieldNum wireType x b =>
    match fieldNum with
    | 1 => Some ('(s, b) ← rd_string l wireType b; Ok (Module__set_Authority s x, b))
    | _ => None
    end) (fun s x => Module__set_unknownFields (Module__unknownFields x ++ s) x).

#[global] Instance Module__pulsar : PulsarMsg Module_ := {|
  pm_new := mkModule_ "" [];
  pm_size := Module__size; pm_marshal := Module__marshal; pm_unmarshal := Module__unmarshal;
  pm_unknown := Module__unknownFields; pm_set_unknown := Module__set_unknownFields
|}.

#[global] Instance Module__reflect : Reflect Module_ value := {|
  r_new := mkModule_ "" [];
  r_names := ["vertix.rwa.module.Module.authority"];
  r_Range := @Module__Range; r_Has := Module__Has; r_Clear := Module__Clear; r_Get := Module__Get;
  r_Set := Module__Set; r_Mutable := Module__Mutable; r_NewField := Module__NewField;
  r_SetUnknown := Module__set_unknownFields
|}.

#[global] Instance Module__schema : Schema Module_ := fun x =>
  [(1, FString (Module__Authority x))].

#[global] Instance Module__strip : PulsarStrip Module_ := fun x =>
  mkModule_ (Module__Authority x) [].

(** *** [AssetRecord] *)

Definition AssetRecord_Range {S} (f : string -> value -> S -> bool * S) (x : AssetRecord) (s : S) : S :=
  visit f (str_set (AssetRecord_AssetId x)) "vertix.rwa.v1.AssetRecord.asset_id" (VString (AssetRecord_AssetId x)) (fun s =>
  visit f (str_set (AssetRecord_Issuer x)) "vertix.rwa.v1.AssetRecord.issuer" (VString (AssetRecord_Issuer x)) (fun s =>
  visit f (str_set (AssetRecord_Name x)) "vertix.rwa.v1.AssetRecord.name" (VString (AssetRecord_Name x)) (fun s =>
  visit f (str_set (AssetRecord_Description x)) "vertix.rwa.v1.AssetRecord.description" (VString (AssetRecord_Description x)) (fun s =>
  visit f (int_set (AssetRecord_Status x)) "vertix.rwa.v1.AssetRecord.status" (VEnum (AssetRecord_Status x)) (fun s =>
  visit f (str_set (AssetRecord_OraclePair x)) "vertix.rwa.v1.AssetRecord.oracle_pair" (VString (AssetRecord_OraclePair x)) (fun s =>
  visit f (str_set (AssetRecord_Denom x)) "vertix.rwa.v1.AssetRecord.denom" (VString (AssetRecord_Denom x)) (fun s =>
  visit f (str_set (AssetRecord_Bond x)) "vertix.rwa.v1.AssetRecord.bond" (VString (AssetRecord_Bond x)) (fun s =>
  visit f (str_set (AssetRecord_NotionalMinted x)) "vertix.rwa.v1.AssetRecord.notional_minted" (VString (AssetRecord_NotionalMinted x)) (fun s =>
  visit f (bool_set (AssetRecord_AllowAll x)) "vertix.rwa.v1.AssetRecord.allow_all" (VBool (AssetRecord_AllowAll x)) (fun s =>
  visit f (str_set (AssetRecord_AttestedPrice x)) "vertix.rwa.v1.AssetRecord.attested_price" (VString (AssetRecord_AttestedPrice x)) (fun s =>
  visit f (ptr_set (AssetRecord_AttestedAt x)) "vertix.rwa.v1.AssetRecord.attested_at" (VTimestamp (AssetRecord_AttestedAt x)) (fun s =>
  visit f (ptr_set (AssetRecord_CreatedAt x)) "vertix.rwa.v1.AssetRecord.created_at" (VTimestamp (AssetRecord_CreatedAt x)) (fun s =>
  visit f (ptr_set (AssetRecord_SettledAt x)) "vertix.rwa.v1.AssetRecord.settled_at" (VTimestamp (AssetRecord_SettledAt x)) (fun s => s) s) s) s) s) s) s) s) s) s) s) s) s) s) s.

Definition AssetRecord_Has (fd : string) (x : AssetRecord) : res bool :=
  fd_switch fd
    [("vertix.rwa.v1.AssetRecord.asset_id", Ok (str_set (AssetRecord_AssetId x)));
     ("vertix.rwa.v1.AssetRecord.issuer", Ok (str_set (AssetRecord_Issuer x)));
     ("vertix.rwa.v1.AssetRecord.name", Ok (str_set (AssetRecord_Name x)));
     ("vertix.rwa.v1.AssetRecord.description", Ok (str_set (AssetRecord_Description x)));
     ("vertix.rwa.v1.AssetRecord.status", Ok (int_set (AssetRecord_Status x)));
     ("vertix.rwa.v1.AssetRecord.oracle_pair", Ok (str_set (AssetRecord_OraclePair x)));
     ("vertix.rwa.v1.AssetRecord.denom", Ok (str_set (AssetRecord_Denom x)));
     ("vertix.rwa.v1.AssetRecord.bond", Ok (str_set (AssetRecord_Bond x)));
     ("vertix.rwa.v1.AssetRecord.notional_minted", Ok (str_set (AssetRecord_NotionalMinted x)));
     ("vertix.rwa.v1.AssetRecord.allow_all", Ok (bool_set (AssetRecord_AllowAll x)));
     ("vertix.rwa.v1.AssetRecord.attested_price", Ok (str_set (AssetRecord_AttestedPrice x)));
     ("vertix.rwa.v1.AssetRecord.attested_at", Ok (ptr_set (AssetRecord_AttestedAt x)));
     ("vertix.rwa.v1.AssetRecord.created_at", Ok (ptr_set (AssetRecord_CreatedAt x)));
     ("vertix.rwa.v1.AssetRecord.settled_at", Ok (ptr_set (AssetRecord_SettledAt x)))].

Definition AssetRecord_Clear (fd : string) (x : AssetRecord) : res AssetRecord :=
  fd_switch fd
    [("vertix.rwa.v1.AssetRecord.asset_id", Ok (AssetRecord_set_AssetId "" x));
     ("vertix.rwa.v1.AssetRecord.issuer", Ok (AssetRecord_set_Issuer "" x));
     ("vertix.rwa.v1.AssetRecord.name", Ok (AssetRecord_set_Name "" x));
     ("vertix.rwa.v1.AssetRecord.description", Ok (AssetRecord_set_Description "" x));
     ("vertix.rwa.v1.AssetRecord.status", Ok (AssetRecord_set_Status 0 x));
     ("vertix.rwa.v1.AssetRecord.oracle_pair", Ok (AssetRecord_set_OraclePair "" x));
     ("vertix.rwa.v1.AssetRecord.denom", Ok (AssetRecord_set_Denom "" x));
     ("vertix.rwa.v1.AssetRecord.bond", Ok (AssetRecord_set_Bond "" x));
     ("vertix.rwa.v1.AssetRecord.notional_minted", Ok (AssetRecord_set_NotionalMinted "" x));
     ("vertix.rwa.v1.AssetRecord.allow_all", Ok (AssetRecord_set_AllowAll false x));
     ("vertix.rwa.v1.AssetRecord.attested_price", Ok (AssetRecord_set_AttestedPrice "" x));
     ("vertix.rwa.v1.AssetRecord.attested_at", Ok (AssetRecord_set_AttestedAt None x));
     ("vertix.rwa.v1.AssetRecord.created_at", Ok (AssetRecord_set_CreatedAt None x));
     ("vertix.rwa.v1.AssetRecord.settled_at", Ok (AssetRecord_set_SettledAt None x))].

Definition AssetRecord_Get (fd : string) (x : AssetRecord) : res value :=
  fd_switch fd
    [("vertix.rwa.v1.AssetRecord.asset_id", Ok (VString (AssetRecord_AssetId x)));
     ("vertix.rwa.v1.AssetRecord.issuer", Ok (VString (AssetRecord_Issuer x)));
     ("vertix.rwa.v1.AssetRecord.name", Ok (VString (AssetRecord_Name x)));
     ("vertix.rwa.v1.AssetRecord.description", Ok (VString (AssetRecord_Description x)));
     ("vertix.rwa.v1.AssetRecord.status", Ok (VEnum (AssetRecord_Status x)));
     ("vertix.rwa.v1.AssetRecord.oracle_pair", Ok (VString (AssetRecord_OraclePair x)));
     ("vertix.rwa.v1.AssetRecord.denom", Ok (VString (AssetRecord_Denom x)));
     ("vertix.rwa.v1.AssetRecord.bond", Ok (VString (AssetRecord_Bond x)));
     ("vertix.rwa.v1.AssetRecord.notional_minted", Ok (VString (AssetRecord_NotionalMinted x)));
     ("vertix.rwa.v1.AssetRecord.allow_all", Ok (VBool (AssetRecord_AllowAll x)));
     ("vertix.rwa.v1.AssetRecord.attested_price", Ok (VString (AssetRecord_AttestedPrice x)));
     ("vertix.rwa.v1.AssetRecord.attested_at", Ok (VTimestamp (AssetRecord_AttestedAt x)));
     ("vertix.rwa.v1.AssetRecord.created_at", Ok (VTimestamp (AssetRecord_CreatedAt x)));
     ("vertix.rwa.v1.AssetRecord.settled_at", Ok (VTimestamp (AssetRecord_SettledAt x)))].

Definition AssetRecord_Set (fd : string) (v : value) (x : AssetRecord) : res AssetRecord :=
  fd_switch fd
    [("vertix.rwa.v1.AssetRecord.asset_id", (v ← as_string v; Ok (AssetRecord_set_AssetId v x)));
     ("vertix.rwa.v1.AssetRecord.issuer", (v ← as_string v; Ok (AssetRecord_set_Issuer v x)));
     ("vertix.rwa.v1.AssetRecord.name", (v ← as_string v; Ok (AssetRecord_set_Name v x)));
     ("vertix.rwa.v1.AssetRecord.description", (v ← as_string v; Ok (AssetRecord_set_Description v x)));
     ("vertix.rwa.v1.AssetRecord.status", (v ← as_enum v; Ok (AssetRecord_set_Status v x)));
     ("vertix.rwa.v1.AssetRecord.oracle_pair", (v ← as_string v; Ok (AssetRecord_set_OraclePair v x)));
     ("vertix.rwa.v1.AssetRecord.denom", (v ← as_string v; Ok (AssetRecord_set_Denom v x)));
     ("vertix.rwa.v1.AssetRecord.bond", (v ← as_string v; Ok (AssetRecord_set_Bond v x)));
     ("vertix.rwa.v1.AssetRecord.notional_minted", (v ← as_string v; Ok (AssetRecord_set_NotionalMinted v x)));
     ("vertix.rwa.v1.AssetRecord.allow_all", (v ← as_bool v; Ok (AssetRecord_set_AllowAll v x)));
     ("vertix.rwa.v1.AssetRecord.attested_price", (v ← as_string v; Ok (AssetRecord_set_AttestedPrice v x)));
     ("vertix.rwa.v1.AssetRecord.attested_at", (v ← as_Timestamp v; Ok (AssetRecord_set_AttestedAt v x)));
     ("vertix.rwa.v1.AssetRecord.created_at", (v ← as_Timestamp v; Ok (AssetRecord_set_CreatedAt v x)));
     ("vertix.rwa.v1.AssetRecord.settled_at", (v ← as_Timestamp v; Ok (AssetRecord_set_SettledAt v x)))].

Definition AssetRecord_Mutable (fd : string) (x : AssetRecord) : res (AssetRecord * value) :=
  fd_switch fd
    [("vertix.rwa.v1.AssetRecord.attested_at", (let x := AssetRecord_set_AttestedAt (Some (default pm_new (AssetRecord_AttestedAt x))) x in Ok (x, VTimestamp (AssetRecord_AttestedAt x))));
     ("vertix.rwa.v1.AssetRecord.created_at", (let x := AssetRecord_set_CreatedAt (Some (default pm_new (AssetRecord_CreatedAt x))) x in Ok (x, VTimestamp (AssetRecord_CreatedAt x))));
     ("vertix.rwa.v1.AssetRecord.settled_at", (let x := AssetRecord_set_SettledAt (Some (default pm_new (AssetRecord_SettledAt x))) x in Ok (x, VTimestamp (AssetRecord_SettledAt x))));
     ("vertix.rwa.v1.AssetRecord.asset_id", Panic);
     ("vertix.rwa.v1.AssetRecord.issuer", Panic);
     ("vertix.rwa.v1.AssetRecord.name", Panic);
     ("vertix.rwa.v1.AssetRecord.description", Panic);
     ("vertix.rwa.v1.AssetRecord.status", Panic);
     ("vertix.rwa.v1.AssetRecord.oracle_pair", Panic);
     ("vertix.rwa.v1.AssetRecord.denom", Panic);
     ("vertix.rwa.v1.AssetRecord.bond", Panic);
     ("vertix.rwa.v1.AssetRecord.notional_minted", Panic);
     ("vertix.rwa.v1.AssetRecord.allow_all", Panic);
     ("vertix.rwa.v1.AssetRecord.attested_price", Panic)].

Definition AssetRecord_NewField (fd : string) : res value :=
  fd_switch fd
    [("vertix.rwa.v1.AssetRecord.asset_id", Ok (VString ""));
     ("vertix.rwa.v1.AssetRecord.issuer", Ok (VString ""));
     ("vertix.rwa.v1.AssetRecord.name", Ok (VString ""));
     ("vertix.rwa.v1.AssetRecord.description", Ok (VString ""));
     ("vertix.rwa.v1.AssetRecord.status", Ok (VEnum 0));
     ("vertix.rwa.v1.AssetRecord.oracle_pair", Ok (VString ""));
     ("vertix.rwa.v1.AssetRecord.denom", Ok (VString ""));
     ("vertix.rwa.v1.AssetRecord.bond", Ok (VString ""));
     ("vertix.rwa.v1.AssetRecord.notional_minted", Ok (VString ""));
     ("vertix.rwa.v1.AssetRecord.allow_all", Ok (VBool false));
     ("vertix.rwa.v1.AssetRecord.attested_price", Ok (VString ""));
     ("vertix.rwa.v1.AssetRecord.attested_at", Ok (VTimestamp (Some pm_new)));
     ("vertix.rwa.v1.AssetRecord.created_at", Ok (VTimestamp (Some pm_new)));
     ("vertix.rwa.v1.AssetRecord.settled_at", Ok (VTimestamp (Some pm_new)))].

Definition AssetRecord_size (o : option AssetRecord) : Z :=
  match o with
  | None => 0
  | Some x => pz_string (AssetRecord_AssetId x) + pz_string (AssetRecord_Issuer x) + pz_string (AssetRecord_Name x) + pz_string (AssetRecord_Description x) + pz_int (AssetRecord_Status x) + pz_string (AssetRecord_OraclePair x) + pz_string (AssetRecord_Denom x) + pz_string (AssetRecord_Bond x) + pz_string (AssetRecord_NotionalMinted x) + pz_bool (AssetRecord_AllowAll x) + pz_string (AssetRecord_AttestedPrice x) + pz_msg (AssetRecord_AttestedAt x) + pz_msg (AssetRecord_CreatedAt x) + pz_msg (AssetRecord_SettledAt x) + zlen (AssetRecord_unknownFields x)
  end.

Definition AssetRecord_marshal : bytes -> option AssetRecord -> res bytes :=
  pulsar_marshal AssetRecord_size (fun x w =>
    w ← pw_raw (AssetRecord_unknownFields x) w;
    w ← pw_msg x72 (AssetRecord_SettledAt x) w;
    w ← pw_msg x6a (AssetRecord_CreatedAt x) w;
    w ← pw_msg x62 (AssetRecord_AttestedAt x) w;
    w ← pw_string x5a (AssetRecord_AttestedPrice x) w;
    w ← pw_bool x50 (AssetRecord_AllowAll x) w;
    w ← pw_string x4a (AssetRecord_NotionalMinted x) w;
    w ← pw_string x42 (AssetRecord_Bond x) w;
    w ← pw_string x3a (AssetRecord_Denom x) w;
    w ← pw_string x32 (AssetRecord_OraclePair x) w;
    w ← pw_int x28 (AssetRecord_Status x) w;
    w ← pw_string x22 (AssetRecord_Description x) w;
    w ← pw_string x1a (AssetRecord_Name x) w;
    w ← pw_string x12 (AssetRecord_Issuer x) w;
    pw_string x0a (AssetRecord_AssetId x) w).

Definition AssetRecord_unmarshal : bool -> bytes -> option AssetRecord -> res (option AssetRecord) :=
  pulsar_unmarshal (fun discard l fieldNum wireType x b =>
    match fieldNum with
    | 1 => Some ('(s, b) ← rd_string l wireType b; Ok (AssetRecord_set_AssetId s x, b))
    | 2 => Some ('(s, b) ← rd_string l wireType b; Ok (AssetRecord_set_Issuer s x, b))
    | 3 => Some ('(s, b) ← rd_string l wireType b; Ok (AssetRecord_set_Name s x, b))
    | 4 => Some ('(s, b) ← rd_string l wireType b; Ok (AssetRecord_set_Description s x, b))
    | 5 => Some ('(s, b) ← rd_int32 wireType b; Ok (AssetRecord_set_Status s x, b))
    | 6 => Some ('(s, b) ← rd_string l wireType b; Ok (AssetRecord_set_OraclePair s x, b))
    | 7 => Some ('(s, b) ← rd_string l wireType b; Ok (AssetRecord_set_Denom s x, b))
    | 8 => Some ('(s, b) ← rd_string l wireType b; Ok (AssetRecord_set_Bond s x, b))
    | 9 => Some ('(s, b) ← rd_string l wireType b; Ok (AssetRecord_set_NotionalMinted s x, b))
    | 10 => Some ('(s, b) ← rd_bool wireType b; Ok (AssetRecord_set_AllowAll s x, b))
    | 11 => Some ('(s, b) ← rd_string l wireType b; Ok (AssetRecord_set_AttestedPrice s x, b))
    | 12 => Some ('(s, b) ← pr_msg discard (AssetRecord_AttestedAt x) l wireType b; Ok (AssetRecord_set_AttestedAt (Some s) x, b))
    | 13 => Some ('(s, b) ← pr_msg discard (AssetRecord_CreatedAt x) l wireType b; Ok (AssetRecord_set_CreatedAt (Some s) x, b))
    | 14 => Some ('(s, b) ← pr_msg discard (AssetRecord_SettledAt x) l wireType b; Ok (AssetRecord_set_SettledAt (Some s) x, b))
    | _ => None
    end) (fun s x => AssetRecord_set_unknownFields (AssetRecord_unknownFields x ++ s) x).

#[global] Instance AssetRecord_pulsar : PulsarMsg AssetRecord := {|
  pm_new := mkAssetRecord "" "" "" "" 0 "" "" "" "" false "" None None None [];
  pm_size := AssetRecord_size; pm_marshal := AssetRecord_marshal; pm_unmarshal := AssetRecord_unmarshal;
  pm_unknown := AssetRecord_unknownFields; pm_set_unknown := AssetRecord_set_unknownFields
|}.

#[global] Instance AssetRecord_reflect : Reflect AssetRecord value := {|
  r_new := mkAssetRecord "" "" "" "" 0 "" "" "" "" false "" None None None [];
  r_names := ["vertix.rwa.v1.AssetRecord.asset_id";
    "vertix.rwa.v1.AssetRecord.issuer";
    "vertix.rwa.v1.AssetRecord.name";
    "vertix.rwa.v1.AssetRecord.description";
    "vertix.rwa.v1.AssetRecord.status";
    "vertix.rwa.v1.AssetRecord.oracle_pair";
    "vertix.rwa.v1.AssetRecord.denom";
    "vertix.rwa.v1.AssetRecord.bond";
    "vertix.rwa.v1.AssetRecord.notional_minted";
    "vertix.rwa.v1.AssetRecord.allow_all";
    "vertix.rwa.v1.AssetRecord.attested_price";
    "vertix.rwa.v1.AssetRecord.attested_at";
    "vertix.rwa.v1.AssetRecord.created_at";
    "vertix.rwa.v1.AssetRecord.settled_at"];
  r_Range := @AssetRecord_Range; r_Has := AssetRecord_Has; r_Clear := AssetRecord_Clear; r_Get := AssetRecord_Get;
  r_Set := AssetRecord_Set; r_Mutable := AssetRecord_Mutable; r_NewField := AssetRecord_NewField;
  r_SetUnknown := AssetRecord_set_unknownFields
|}.

#[global] Instance AssetRecord_schema : Schema AssetRecord := fun x =>
  [(1, FString (AssetRecord_AssetId x));
   (2, FString (AssetRecord_Issuer x));
   (3, FString (AssetRecord_Name x));
   (4, FString (AssetRecord_Description x));
   (5, FInt (AssetRecord_Status x));
   (6, FString (AssetRecord_OraclePair x));
   (7, FString (AssetRecord_Denom x));
   (8, FString (AssetRecord_Bond x));
   (9, FString (AssetRecord_NotionalMinted x));
   (10, FBool (AssetRecord_AllowAll x));
   (11, FString (AssetRecord_AttestedPrice x));
   (12, FMsgs (ptr_fields (AssetRecord_AttestedAt x)));
   (13, FMsgs (ptr_fields (AssetRecord_CreatedAt x)));
   (14, FMsgs (ptr_fields (AssetRecord_SettledAt x)))].

#[global] Instance AssetRecord_strip : PulsarStrip AssetRecord := fun x =>
  mkAssetRecord (AssetRecord_AssetId x) (AssetRecord_Issuer x) (AssetRecord_Name x) (AssetRecord_Description x) (AssetRecord_Status x) (AssetRecord_OraclePair x) (AssetRecord_Denom x) (AssetRecord_Bond x) (AssetRecord_NotionalMinted x) (AssetRecord_AllowAll x) (AssetRecord_AttestedPrice x) (pstrip true (AssetRecord_AttestedAt x)) (pstrip true (AssetRecord_CreatedAt x)) (pstrip true (AssetRecord_SettledAt x)) [].

(** *** [RWAParams] *)

Definition RWAParams_Range {S} (f : string -> value -> S -> bool * S) (x : RWAParams) (s : S) : S :=
  visit f (str_set (RWAParams_MinIssuerBond x)) "vertix.rwa.v1.RWAParams.min_issuer_bond" (VString (RWAParams_MinIssuerBond x)) (fun s =>
  visit f (str_set (RWAParams_MintFeeRate x)) "vertix.rwa.v1.RWAParams.mint_fee_rate" (VString (RWAParams_MintFeeRate x)) (fun s =>
  visit f (str_set (RWAParams_SettleFeeRate x)) "vertix.rwa.v1.RWAParams.settle_fee_rate" (VString (RWAParams_SettleFeeRate x)) (fun s => s) s) s) s.

Definition RWAParams_Has (fd : string) (x : RWAParams) : res bool :=
  fd_switch fd
    [("vertix.rwa.v1.RWAParams.min_issuer_bond", Ok (str_set (RWAParams_MinIssuerBond x)));
     ("vertix.rwa.v1.RWAParams.mint_fee_rate", Ok (str_set (RWAParams_MintFeeRate x)));
     ("vertix.rwa.v1.RWAParams.settle_fee_rate", Ok (str_set (RWAParams_SettleFeeRate x)))].

Definition RWAParams_Clear (fd : string) (x : RWAParams) : res RWAParams :=
  fd_switch fd
    [("vertix.rwa.v1.RWAParams.min_issuer_bond", Ok (RWAParams_set_MinIssuerBond "" x));
     ("vertix.rwa.v1.RWAParams.mint_fee_rate", Ok (RWAParams_set_MintFeeRate "" x));
     ("vertix.rwa.v1.RWAParams.settle_fee_rate", Ok (RWAParams_set_SettleFeeRate "" x))].

Definition RWAParams_Get (fd : string) (x : RWAParams) : res value :=
  fd_switch fd
    [("vertix.rwa.v1.RWAParams.min_issuer_bond", Ok (VString (RWAParams_MinIssuerBond x)));
     ("vertix.rwa.v1.RWAParams.mint_fee_rate", Ok (VString (RWAParams_MintFeeRate x)));
     ("vertix.rwa.v1.RWAParams.settle_fee_rate", Ok (VString (RWAParams_SettleFeeRate x)))].

Definition RWAParams_Set (fd : string) (v : value) (x : RWAParams) : res RWAParams :=
  fd_switch fd
    [("vertix.rwa.v1.RWAParams.min_issuer_bond", (v ← as_string v; Ok (RWAParams_set_MinIssuerBond v x)));
     ("vertix.rwa.v1.RWAParams.mint_fee_rate", (v ← as_string v; Ok (RWAParams_set_MintFeeRate v x)));
     ("vertix.rwa.v1.RWAParams.settle_fee_rate", (v ← as_string v; Ok (RWAParams_set_SettleFeeRate v x)))].

Definition RWAParams_Mutable (fd : string) (x : RWAParams) : res (RWAParams * value) :=
  fd_switch fd
    [("vertix.rwa.v1.RWAParams.min_issuer_bond", Panic);
     ("vertix.rwa.v1.RWAParams.mint_fee_rate", Panic);
     ("vertix.rwa.v1.RWAParams.settle_fee_rate", Panic)].

Definition RWAParams_NewField (fd : string) : res value :=
  fd_switch fd
    [("vertix.rwa.v1.RWAParams.min_issuer_bond", Ok (VString ""));
     ("vertix.rwa.v1.RWAParams.mint_fee_rate", Ok (VString ""));
     ("vertix.rwa.v1.RWAParams.settle_fee_rate", Ok (VString ""))].

Definition RWAParams_size (o : option RWAParams) : Z :=
  match o with
  | None => 0
  | Some x => pz_string (RWAParams_MinIssuerBond x) + pz_string (RWAParams_MintFeeRate x) + pz_string (RWAParams_SettleFeeRate x) + zlen (RWAParams_unknownFields x)
  end.

Definition RWAParams_marshal : bytes -> option RWAParams -> res bytes :=
  pulsar_marshal RWAParams_size (fun x w =>
    w ← pw_raw (RWAParams_unknownFields x) w;
    w ← pw_string x1a (RWAParams_SettleFeeRate x) w;
    w ← pw_string x12 (RWAParams_MintFeeRate x) w;
    pw_string x0a (RWAParams_MinIssuerBond x) w).

Definition RWAParams_unmarshal : bool -> bytes -> option RWAParams -> res (option RWAParams) :=
  pulsar_unmarshal (fun discard l fieldNum wireType x b =>
    match fieldNum with
    | 1 => Some ('(s, b) ← rd_string l wireType b; Ok (RWAParams_set_MinIssuerBond s x, b))
    | 2 => Some ('(s, b) ← rd_string l wireType b; Ok (RWAParams_set_MintFeeRate s x, b))
    | 3 => Some ('(s, b) ← rd_string l wireType b; Ok (RWAParams_set_SettleFeeRate s x, b))
    | _ => None
    end) (fun s x => RWAParams_set_unknownFields (RWAParams_unknownFields x ++ s) x).

#[global] Instance RWAParams_pulsar : PulsarMsg RWAParams := {|
  pm_new := mkRWAParams "" "" "" [];
  pm_size := RWAParams_size; pm_marshal := RWAParams_marshal; pm_unmarshal := RWAParams_unmarshal;
  pm_unknown := RWAParams_unknownFields; pm_set_unknown := RWAParams_set_unknownFields
|}.

#[global] Instance RWAParams_reflect : Reflect RWAParams value := {|
  r_new := mkRWAParams "" "" "" [];
  r_names := ["vertix.rwa.v1.RWAParams.min_issuer_bond";
    "vertix.rwa.v1.RWAParams.mint_fee_rate";
    "vertix.rwa.v1.RWAParams.settle_fee_rate"];
  r_Range := @RWAParams_Range; r_Has := RWAParams_Has; r_Clear := RWAParams_Clear; r_Get := RWAParams_Get;
  r_Set := RWAParams_Set; r_Mutable := RWAParams_Mutable; r_NewField := RWAParams_NewField;
  r_SetUnknown := RWAParams_set_unknownFields
|}.

#[global] Instance RWAParams_schema : Schema RWAParams := fun x =>
  [(1, FString (RWAParams_MinIssuerBond x));
   (2, FString (RWAParams_MintFeeRate x));
   (3, FString (RWAParams_SettleFeeRate x))].

#[global] Instance RWAParams_strip : PulsarStrip RWAParams := fun x =>
  mkRWAParams (RWAParams_MinIssuerBond x) (RWAParams_MintFeeRate x) (RWAParams_SettleFeeRate x) [].

(** *** [Restriction] *)

Definition Restriction_Range {S} (f : string -> value -> S -> bool * S) (x : Restriction) (s : S) : S :=
  visit f (str_set (Restriction_AssetId x)) "vertix.rwa.v1.Restriction.asset_id" (VString (Restriction_AssetId x)) (fun s =>
  visit f (str_set (Restriction_Address x)) "vertix.rwa.v1.Restriction.address" (VString (Restriction_Address x)) (fun s =>
  visit f (bool_set (Restriction_IsDeny x)) "vertix.rwa.v1.Restriction.is_deny" (VBool (Restriction_IsDeny x)) (fun s => s) s) s) s.

Definition Restriction_Has (fd : string) (x : Restriction) : res bool :=
  fd_switch fd
    [("vertix.rwa.v1.Restriction.asset_id", Ok (str_set (Restriction_AssetId x)));
     ("vertix.rwa.v1.Restriction.address", Ok (str_set (Restriction_Address x)));
     ("vertix.rwa.v1.Restriction.is_deny", Ok (bool_set (Restriction_IsDeny x)))].

Definition Restriction_Clear (fd : string) (x : Restriction) : res Restriction :=
  fd_switch fd
    [("vertix.rwa.v1.Restriction.asset_id", Ok (Restriction_set_AssetId "" x));
     ("vertix.rwa.v1.Restriction.address", Ok (Restriction_set_Address "" x));
     ("vertix.rwa.v1.Restriction.is_deny", Ok (Restriction_set_IsDeny false x))].

Definition Restriction_Get (fd : string) (x : Restriction) : res value :=
  fd_switch fd
    [("vertix.rwa.v1.Restriction.asset_id", Ok (VString (Restriction_AssetId x)));
     ("vertix.rwa.v1.Restriction.address", Ok (VString (Restriction_Address x)));
     ("vertix.rwa.v1.Restriction.is_deny", Ok (VBool (Restriction_IsDeny x)))].

Definition Restriction_Set (fd : string) (v : value) (x : Restriction) : res Restriction :=
  fd_switch fd
    [("vertix.rwa.v1.Restriction.asset_id", (v ← as_string v; Ok (Restriction_set_AssetId v x)));
     ("vertix.rwa.v1.Restriction.address", (v ← as_string v; Ok (Restriction_set_Address v x)));
     ("vertix.rwa.v1.Restriction.is_deny", (v ← as_bool v; Ok (Restriction_set_IsDeny v x)))].

Definition Restriction_Mutable (fd : string) (x : Restriction) : res (Restriction * value) :=
  fd_switch fd
    [("vertix.rwa.v1.Restriction.asset_id", Panic);
     ("vertix.rwa.v1.Restriction.address", Panic);
     ("vertix.rwa.v1.Restriction.is_deny", Panic)].

Definition Restriction_NewField (fd : string) : res value :=
  fd_switch fd
    [("vertix.rwa.v1.Restriction.asset_id", Ok (VString ""));
     ("vertix.rwa.v1.Restriction.address", Ok (VString ""));
     ("vertix.rwa.v1.Restriction.is_deny", Ok (VBool false))].

Definition Restriction_size (o : option Restriction) : Z :=
  match o with
  | None => 0
  | Some x => pz_string (Restriction_AssetId x) + pz_string (Restriction_Address x) + pz_bool (Restriction_IsDeny x) + zlen (Restriction_unknownFields x)
  end.

Definition Restriction_marshal : bytes -> option Restriction -> res bytes :=
  pulsar_marshal Restriction_size (fun x w =>
    w ← pw_raw (Restriction_unknownFields x) w;
    w ← pw_bool x18 (Restriction_IsDeny x) w;
    w ← pw_string x12 (Restriction_Address x) w;
    pw_string x0a (Restriction_AssetId x) w).

Definition Restriction_unmarshal : bool -> bytes -> option Restriction -> res (option Restriction) :=
  pulsar_unmarshal (fun discard l fieldNum wireType x b =>
    match fieldNum with
    | 1 => Some ('(s, b) ← rd_string l wireType b; Ok (Restriction_set_AssetId s x, b))
    | 2 => Some ('(s, b) ← rd_string l wireType b; Ok (Restriction_set_Address s x, b))
    | 3 => Some ('(s, b) ← rd_bool wireType b; Ok (Restriction_set_IsDeny s x, b))
    | _ => None
    end) (fun s x => Restriction_set_unknownFields (Restriction_unknownFields x ++ s) x).

#[global] Instance Restriction_pulsar : PulsarMsg Restriction := {|
  pm_new := mkRestriction "" "" false [];
  pm_size := Restriction_size; pm_marshal := Restriction_marshal; pm_unmarshal := Restriction_unmarshal;
  pm_unknown := Restriction_unknownFields; pm_set_unknown := Restriction_set_unknownFields
|}.

#[global] Instance Restriction_reflect : Reflect Restriction value := {|
  r_new := mkRestriction "" "" false [];
  r_names := ["vertix.rwa.v1.Restriction.asset_id";
    "vertix.rwa.v1.Restriction.address";
    "vertix.rwa.v1.Restriction.is_deny"];
  r_Range := @Restriction_Range; r_Has := Restriction_Has; r_Clear := Restriction_Clear; r_Get := Restriction_Get;
  r_Set := Restriction_Set; r_Mutable := Restriction_Mutable; r_NewField := Restriction_NewField;
  r_SetUnknown := Restriction_set_unknownFields
|}.

#[global] Instance Restriction_schema : Schema Restriction := fun x =>
  [(1, FString (Restriction_AssetId x));
   (2, FString (Restriction_Address x));
   (3, FBool (Restriction_IsDeny x))].

#[global] Instance Restriction_strip : PulsarStrip Restriction := fun x =>
  mkRestriction (Restriction_AssetId x) (Restriction_Address x) (Restriction_IsDeny x) [].

(** *** [GenesisState] *)

Definition GenesisState_Range {S} (f : string -> value -> S -> bool * S) (x : GenesisState) (s : S) : S :=
  visit f (ptr_set (GenesisState_Params x)) "vertix.rwa.v1.GenesisState.params" (VRWAParams (GenesisState_Params x)) (fun s =>
  visit f (list_set (GenesisState_Assets x)) "vertix.rwa.v1.GenesisState.assets" (V_GenesisState_2_list (Some (GenesisState_Assets x))) (fun s =>
  visit f (list_set (GenesisState_Restrictions x)) "vertix.rwa.v1.GenesisState.restrictions" (V_GenesisState_3_list (Some (GenesisState_Restrictions x))) (fun s => s) s) s) s.

Definition GenesisState_Has (fd : string) (x : GenesisState) : res bool :=
  fd_switch fd
    [("vertix.rwa.v1.GenesisState.params", Ok (ptr_set (GenesisState_Params x)));
     ("vertix.rwa.v1.GenesisState.assets", Ok (list_set (GenesisState_Assets x)));
     ("vertix.rwa.v1.GenesisState.restrictions", Ok (list_set (GenesisState_Restrictions x)))].

Definition GenesisState_Clear (fd : string) (x : GenesisState) : res GenesisState :=
  fd_switch fd
    [("vertix.rwa.v1.GenesisState.params", Ok (GenesisState_set_Params None x));
     ("vertix.rwa.v1.GenesisState.assets", Ok (GenesisState_set_Assets [] x));
     ("vertix.rwa.v1.GenesisState.restrictions", Ok (GenesisState_set_Restrictions [] x))].

Definition GenesisState_Get (fd : string) (x : GenesisState) : res value :=
  fd_switch fd
    [("vertix.rwa.v1.GenesisState.params", Ok (VRWAParams (GenesisState_Params x)));
     ("vertix.rwa.v1.GenesisState.assets", Ok (V_GenesisState_2_list (list_view (GenesisState_Assets x))));
     ("vertix.rwa.v1.GenesisState.restrictions", Ok (V_GenesisState_3_list (list_view (GenesisState_Restrictions x))))].

Definition GenesisState_Set (fd : string) (v : value) (x : GenesisState) : res GenesisState :=
  fd_switch fd
    [("vertix.rwa.v1.GenesisState.params", (v ← as_RWAParams v; Ok (GenesisState_set_Params v x)));
     ("vertix.rwa.v1.GenesisState.assets", (v ← as_GenesisState_2_list v; Ok (GenesisState_set_Assets v x)));
     ("vertix.rwa.v1.GenesisState.restrictions", (v ← as_GenesisState_3_list v; Ok (GenesisState_set_Restrictions v x)))].

Definition GenesisState_Mutable (fd : string) (x : GenesisState) : res (GenesisState * value) :=
  fd_switch fd
    [("vertix.rwa.v1.GenesisState.params", (let x := GenesisState_set_Params (Some (default pm_new (GenesisState_Params x))) x in Ok (x, VRWAParams (GenesisState_Params x))));
     ("vertix.rwa.v1.GenesisState.assets", Ok (x, V_GenesisState_2_list (Some (GenesisState_Assets x))));
     ("vertix.rwa.v1.GenesisState.restrictions", Ok (x, V_GenesisState_3_list (Some (GenesisState_Restrictions x))))].

Definition GenesisState_NewField (fd : string) : res value :=
  fd_switch fd
    [("vertix.rwa.v1.GenesisState.params", Ok (VRWAParams (Some pm_new)));
     ("vertix.rwa.v1.GenesisState.assets", Ok (V_GenesisState_2_list (Some [])));
     ("vertix.rwa.v1.GenesisState.restrictions", Ok (V_GenesisState_3_list (Some [])))].

Definition GenesisState_size (o : option GenesisState) : Z :=
  match o with
  | None => 0
  | Some x => pz_msg (GenesisState_Params x) + pz_msgs (GenesisState_Assets x) + pz_msgs (GenesisState_Restrictions x) + zlen (GenesisState_unknownFields x)
  end.

Definition GenesisState_marshal : bytes -> option GenesisState -> res bytes :=
  pulsar_marshal GenesisState_size (fun x w =>
    w ← pw_raw (GenesisState_unknownFields x) w;
    w ← pw_msgs x1a (GenesisState_Restrictions x) w;
    w ← pw_msgs x12 (GenesisState_Assets x) w;
    pw_msg x0a (GenesisState_Params x) w).

Definition GenesisState_unmarshal : bool -> bytes -> option GenesisState -> res (option GenesisState) :=
  pulsar_unmarshal (fun discard l fieldNum wireType x b =>
    match fieldNum with
    | 1 => Some ('(s, b) ← pr_msg discard (GenesisState_Params x) l wireType b; Ok (GenesisState_set_Params (Some s) x, b))
    | 2 => Some ('(s, b) ← pr_msg discard None l wireType b; Ok (GenesisState_set_Assets (GenesisState_Assets x ++ [Some s]) x, b))
    | 3 => Some ('(s, b) ← pr_msg discard None l wireType b; Ok (GenesisState_set_Restrictions (GenesisState_Restrictions x ++ [Some s]) x, b))
    | _ => None
    end) (fun s x => GenesisState_set_unknownFields (GenesisState_unknownFields x ++ s) x).

#[global] Instance GenesisState_pulsar : PulsarMsg GenesisState := {|
  pm_new := mkGenesisState None [] [] [];
  pm_size := GenesisState_size; pm_marshal := GenesisState_marshal; pm_unmarshal := GenesisState_unmarshal;
  pm_unknown := GenesisState_unknownFields; pm_set_unknown := GenesisState_set_unknownFields
|}.

#[global] Instance GenesisState_reflect : Reflect GenesisState value := {|
  r_new := mkGenesisState None [] [] [];
  r_names := ["vertix.rwa.v1.GenesisState.params";
    "vertix.rwa.v1.GenesisState.assets";
    "vertix.rwa.v1.GenesisState.restrictions"];
  r_Range := @GenesisState_Range; r_Has := GenesisState_Has; r_Clear := GenesisState_Clear; r_Get := GenesisState_Get;
  r_Set := GenesisState_Set; r_Mutable := GenesisState_Mutable; r_NewField := GenesisState_NewField;
  r_SetUnknown := GenesisState_set_unknownFields
|}.

#[global] Instance GenesisState_schema : Schema GenesisState := fun x =>
  [(1, FMsgs (ptr_fields (GenesisState_Params x)));
   (2, FMsgs (elem_fields <$> (GenesisState_Assets x)));
   (3, FMsgs (elem_fields <$> (GenesisState_Restrictions x)))].

#[global] Instance GenesisState_strip : PulsarStrip GenesisState := fun x =>
  mkGenesisState (pstrip true (GenesisState_Params x)) (pstrips true (GenesisState_Assets x)) (pstrips true (GenesisState_Restrictions x)) [].

(** *** [MsgRegisterAsset] *)

Definition MsgRegisterAsset_Range {S} (f : string -> value -> S -> bool * S) (x : MsgRegisterAsset) (s : S) : S :=
  visit f (str_set (MsgRegisterAsset_Issuer x)) "vertix.rwa.v1.MsgRegisterAsset.issuer" (VString (MsgRegisterAsset_Issuer x)) (fun s =>
  visit f (str_set (MsgRegisterAsset_AssetId x)) "vertix.rwa.v1.MsgRegisterAsset.asset_id" (VString (MsgRegisterAsset_AssetId x)) (fun s =>
  visit f (str_set (MsgRegisterAsset_Name x)) "vertix.rwa.v1.MsgRegisterAsset.name" (VString (MsgRegisterAsset_Name x)) (fun s =>
  visit f (str_set (MsgRegisterAsset_Description x)) "vertix.rwa.v1.MsgRegisterAsset.description" (VString (MsgRegisterAsset_Description x)) (fun s =>
  visit f (str_set (MsgRegisterAsset_OraclePair x)) "vertix.rwa.v1.MsgRegisterAsset.oracle_pair" (VString (MsgRegisterAsset_OraclePair x)) (fun s =>
  visit f (str_set (MsgRegisterAsset_Bond x)) "vertix.rwa.v1.MsgRegisterAsset.bond" (VString (MsgRegisterAsset_Bond x)) (fun s => s) s) s) s) s) s) s.

Definition MsgRegisterAsset_Has (fd : string) (x : MsgRegisterAsset) : res bool :=
  fd_switch fd
    [("vertix.rwa.v1.MsgRegisterAsset.issuer", Ok (str_set (MsgRegisterAsset_Issuer x)));
     ("vertix.rwa.v1.MsgRegisterAsset.asset_id", Ok (str_set (MsgRegisterAsset_AssetId x)));
     ("vertix.rwa.v1.MsgRegisterAsset.name", Ok (str_set (MsgRegisterAsset_Name x)));
     ("vertix.rwa.v1.MsgRegisterAsset.description", Ok (str_set (MsgRegisterAsset_Description x)));
     ("vertix.rwa.v1.MsgRegisterAsset.oracle_pair", Ok (str_set (MsgRegisterAsset_OraclePair x)));
     ("vertix.rwa.v1.MsgRegisterAsset.bond", Ok (str_set (MsgRegisterAsset_Bond x)))].

Definition MsgRegisterAsset_Clear (fd : string) (x : MsgRegisterAsset) : res MsgRegisterAsset :=
  fd_switch fd
    [("vertix.rwa.v1.MsgRegisterAsset.issuer", Ok (MsgRegisterAsset_set_Issuer "" x));
     ("vertix.rwa.v1.MsgRegisterAsset.asset_id", Ok (MsgRegisterAsset_set_AssetId "" x));
     ("vertix.rwa.v1.MsgRegisterAsset.name", Ok (MsgRegisterAsset_set_Name "" x));
     ("vertix.rwa.v1.MsgRegisterAsset.description", Ok (MsgRegisterAsset_set_Description "" x));
     ("vertix.rwa.v1.MsgRegisterAsset.oracle_pair", Ok (MsgRegisterAsset_set_OraclePair "" x));
     ("vertix.rwa.v1.MsgRegisterAsset.bond", Ok (MsgRegisterAsset_set_Bond "" x))].

Definition MsgRegisterAsset_Get (fd : string) (x : MsgRegisterAsset) : res value :=
  fd_switch fd
    [("vertix.rwa.v1.MsgRegisterAsset.issuer", Ok (VString (MsgRegisterAsset_Issuer x)));
     ("vertix.rwa.v1.MsgRegisterAsset.asset_id", Ok (VString (MsgRegisterAsset_AssetId x)));
     ("vertix.rwa.v1.MsgRegisterAsset.name", Ok (VString (MsgRegisterAsset_Name x)));
     ("vertix.rwa.v1.MsgRegisterAsset.description", Ok (VString (MsgRegisterAsset_Description x)));
     ("vertix.rwa.v1.MsgRegisterAsset.oracle_pair", Ok (VString (MsgRegisterAsset_OraclePair x)));
     ("vertix.rwa.v1.MsgRegisterAsset.bond", Ok (VString (MsgRegisterAsset_Bond x)))].

Definition MsgRegisterAsset_Set (fd : string) (v : value) (x : MsgRegisterAsset) : res MsgRegisterAsset :=
  fd_switch fd
    [("vertix.rwa.v1.MsgRegisterAsset.issuer", (v ← as_string v; Ok (MsgRegisterAsset_set_Issuer v x)));
     ("vertix.rwa.v1.MsgRegisterAsset.asset_id", (v ← as_string v; Ok (MsgRegisterAsset_set_AssetId v x)));
     ("vertix.rwa.v1.MsgRegisterAsset.name", (v ← as_string v; Ok (MsgRegisterAsset_set_Name v x)));
     ("vertix.rwa.v1.MsgRegisterAsset.description", (v ← as_string v; Ok (MsgRegisterAsset_set_Description v x)));
     ("vertix.rwa.v1.MsgRegisterAsset.oracle_pair", (v ← as_string v; Ok (MsgRegisterAsset_set_OraclePair v x)));
     ("vertix.rwa.v1.MsgRegisterAsset.bond", (v ← as_string v; Ok (MsgRegisterAsset_set_Bond v x)))].

Definition MsgRegisterAsset_Mutable (fd : string) (x : MsgRegisterAsset) : res (MsgRegisterAsset * value) :=
  fd_switch fd
    [("vertix.rwa.v1.MsgRegisterAsset.issuer", Panic);
     ("vertix.rwa.v1.MsgRegisterAsset.asset_id", Panic);
     ("vertix.rwa.v1.MsgRegisterAsset.name", Panic);
     ("vertix.rwa.v1.MsgRegisterAsset.description", Panic);
     ("vertix.rwa.v1.MsgRegisterAsset.oracle_pair", Panic);
     ("vertix.rwa.v1.MsgRegisterAsset.bond", Panic)].

Definition MsgRegisterAsset_NewField (fd : string) : res value :=
  fd_switch fd
    [("vertix.rwa.v1.MsgRegisterAsset.issuer", Ok (VString ""));
     ("vertix.rwa.v1.MsgRegisterAsset.asset_id", Ok (VString ""));
     ("vertix.rwa.v1.MsgRegisterAsset.name", Ok (VString ""));
     ("vertix.rwa.v1.MsgRegisterAsset.description", Ok (VString ""));
     ("vertix.rwa.v1.MsgRegisterAsset.oracle_pair", Ok (VString ""));
     ("vertix.rwa.v1.MsgRegisterAsset.bond", Ok (VString ""))].

Definition MsgRegisterAsset_size (o : option MsgRegisterAsset) : Z :=
  match o with
  | None => 0
  | Some x => pz_string (MsgRegisterAsset_Issuer x) + pz_string (MsgRegisterAsset_AssetId x) + pz_string (MsgRegisterAsset_Name x) + pz_string (MsgRegisterAsset_Description x) + pz_string (MsgRegisterAsset_OraclePair x) + pz_string (MsgRegisterAsset_Bond x) + zlen (MsgRegisterAsset_unknownFields x)
  end.

Definition MsgRegisterAsset_marshal : bytes -> option MsgRegisterAsset -> res bytes :=
  pulsar_marshal MsgRegisterAsset_size (fun x w =>
    w ← pw_raw (MsgRegisterAsset_unknownFields x) w;
    w ← pw_string x32 (MsgRegisterAsset_Bond x) w;
    w ← pw_string x2a (MsgRegisterAsset_OraclePair x) w;
    w ← pw_string x22 (MsgRegisterAsset_Description x) w;
    w ← pw_string x1a (MsgRegisterAsset_Name x) w;
    w ← pw_string x12 (MsgRegisterAsset_AssetId x) w;
    pw_string x0a (MsgRegisterAsset_Issuer x) w).

Definition MsgRegisterAsset_unmarshal : bool -> bytes -> option MsgRegisterAsset -> res (option MsgRegisterAsset) :=
  pulsar_unmarshal (fun discard l fieldNum wireType x b =>
    match fieldNum with
    | 1 => Some ('(s, b) ← rd_string l wireType b; Ok (MsgRegisterAsset_set_Issuer s x, b))
    | 2 => Some ('(s, b) ← rd_string l wireType b; Ok (MsgRegisterAsset_set_AssetId s x, b))
    | 3 => Some ('(s, b) ← rd_string l wireType b; Ok (MsgRegisterAsset_set_Name s x, b))
    | 4 => Some ('(s, b) ← rd_string l wireType b; Ok (MsgRegisterAsset_set_Description s x, b))
    | 5 => Some ('(s, b) ← rd_string l wireType b; Ok (MsgRegisterAsset_set_OraclePair s x, b))
    | 6 => Some ('(s, b) ← rd_string l wireType b; Ok (MsgRegisterAsset_set_Bond s x, b))
    | _ => None
    end) (fun s x => MsgRegisterAsset_set_unknownFields (MsgRegisterAsset_unknownFields x ++ s) x).

#[global] Instance MsgRegisterAsset_pulsar : PulsarMsg MsgRegisterAsset := {|
  pm_new := mkMsgRegisterAsset "" "" "" "" "" "" [];
  pm_size := MsgRegisterAsset_size; pm_marshal := MsgRegisterAsset_marshal; pm_unmarshal := MsgRegisterAsset_unmarshal;
  pm_unknown := MsgRegisterAsset_unknownFields; pm_set_unknown := MsgRegisterAsset_set_unknownFields
|}.

#[global] Instance MsgRegisterAsset_reflect : Reflect MsgRegisterAsset value := {|
  r_new := mkMsgRegisterAsset "" "" "" "" "" "" [];
  r_names := ["vertix.rwa.v1.MsgRegisterAsset.issuer";
    "vertix.rwa.v1.MsgRegisterAsset.asset_id";
    "vertix.rwa.v1.MsgRegisterAsset.name";
    "vertix.rwa.v1.MsgRegisterAsset.description";
    "vertix.rwa.v1.MsgRegisterAsset.oracle_pair";
    "vertix.rwa.v1.MsgRegisterAsset.bond"];
  r_Range := @MsgRegisterAsset_Range; r_Has := MsgRegisterAsset_Has; r_Clear := MsgRegisterAsset_Clear; r_Get := MsgRegisterAsset_Get;
  r_Set := MsgRegisterAsset_Set; r_Mutable := MsgRegisterAsset_Mutable; r_NewField := MsgRegisterAsset_NewField;
  r_SetUnknown := MsgRegisterAsset_set_unknownFields
|}.

#[global] Instance MsgRegisterAsset_schema : Schema MsgRegisterAsset := fun x =>
  [(1, FString (MsgRegisterAsset_Issuer x));
   (2, FString (MsgRegisterAsset_AssetId x));
   (3, FString (MsgRegisterAsset_Name x));
   (4, FString (MsgRegisterAsset_Description x));
   (5, FString (MsgRegisterAsset_OraclePair x));
   (6, FString (MsgRegisterAsset_Bond x))].

#[global] Instance MsgRegisterAsset_strip : PulsarStrip MsgRegisterAsset := fun x =>
  mkMsgRegisterAsset (MsgRegisterAsset_Issuer x) (MsgRegisterAsset_AssetId x) (MsgRegisterAsset_Name x) (MsgRegisterAsset_Description x) (MsgRegisterAsset_OraclePair x) (MsgRegisterAsset_Bond x) [].

(** *** [MsgRegisterAssetResponse] *)

Definition MsgRegisterAssetResponse_Range {S} (f : string -> value -> S -> bool * S) (x : MsgRegisterAssetResponse) (s : S) : S :=
  s.

Definition MsgRegisterAssetResponse_Has (fd : string) (x : MsgRegisterAssetResponse) : res bool :=
  fd_switch fd [].

Definition MsgRegisterAssetResponse_Clear (fd : string) (x : MsgRegisterAssetResponse) : res MsgRegisterAssetResponse :=
  fd_switch fd [].

Definition MsgRegisterAssetResponse_Get (fd : string) (x : MsgRegisterAssetResponse) : res value :=
  fd_switch fd [].

Definition MsgRegisterAssetResponse_Set (fd : string) (v : value) (x : MsgRegisterAssetResponse) : res MsgRegisterAssetResponse :=
  fd_switch fd [].

Definition MsgRegisterAssetResponse_Mutable (fd : string) (x : MsgRegisterAssetResponse) : res (MsgRegisterAssetResponse * value) :=
  fd_switch fd [].

Definition MsgRegisterAssetResponse_NewField (fd : string) : res value :=
  fd_switch fd [].

Definition MsgRegisterAssetResponse_size (o : option MsgRegisterAssetResponse) : Z :=
  match o with
  | None => 0
  | Some x => zlen (MsgRegisterAssetResponse_unknownFields x)
  end.

Definition MsgRegisterAssetResponse_marshal : bytes -> option MsgRegisterAssetResponse -> res bytes :=
  pulsar_marshal MsgRegisterAssetResponse_size (fun x w =>
    pw_raw (MsgRegisterAssetResponse_unknownFields x) w).

Definition MsgRegisterAssetResponse_unmarshal : bool -> bytes -> option MsgRegisterAssetResponse -> res (option MsgRegisterAssetResponse) :=
  pulsar_unmarshal (fun discard l fieldNum wireType x b => None)
    (fun s x => MsgRegisterAssetResponse_set_unknownFields (MsgRegisterAssetResponse_unknownFields x ++ s) x).

#[global] Instance MsgRegisterAssetResponse_pulsar : PulsarMsg MsgRegisterAssetResponse := {|
  pm_new := mkMsgRegisterAssetResponse [];
  pm_size := MsgRegisterAssetResponse_size; pm_marshal := MsgRegisterAssetResponse_marshal; pm_unmarshal := MsgRegisterAssetResponse_unmarshal;
  pm_unknown := MsgRegisterAssetResponse_unknownFields; pm_set_unknown := MsgRegisterAssetResponse_set_unknownFields
|}.

#[global] Instance MsgRegisterAssetResponse_reflect : Reflect MsgRegisterAssetResponse value := {|
  r_new := mkMsgRegisterAssetResponse [];
  r_names := [];
  r_Range := @MsgRegisterAssetResponse_Range; r_Has := MsgRegisterAssetResponse_Has; r_Clear := MsgRegisterAssetResponse_Clear; r_Get := MsgRegisterAssetResponse_Get;
  r_Set := MsgRegisterAssetResponse_Set; r_Mutable := MsgRegisterAssetResponse_Mutable; r_NewField := MsgRegisterAssetResponse_NewField;
  r_SetUnknown := MsgRegisterAssetResponse_set_unknownFields
|}.

#[global] Instance MsgRegisterAssetResponse_schema : Schema MsgRegisterAssetResponse := fun x =>
  [].

#[global] Instance MsgRegisterAssetResponse_strip : PulsarStrip MsgRegisterAssetResponse := fun x =>
  mkMsgRegisterAssetResponse [].

(** *** [MsgAttestAsset] *)

Definition MsgAttestAsset_Range {S} (f : string -> value -> S -> bool * S) (x : MsgAttestAsset) (s : S) : S :=
  visit f (str_set (MsgAttestAsset_Issuer x)) "vertix.rwa.v1.MsgAttestAsset.issuer" (VString (MsgAttestAsset_Issuer x)) (fun s =>
  visit f (str_set (MsgAttestAsset_AssetId x)) "vertix.rwa.v1.MsgAttestAsset.asset_id" (VString (MsgAttestAsset_AssetId x)) (fun s => s) s) s.

Definition MsgAttestAsset_Has (fd : string) (x : MsgAttestAsset) : res bool :=
  fd_switch fd
    [("vertix.rwa.v1.MsgAttestAsset.issuer", Ok (str_set (MsgAttestAsset_Issuer x)));
     ("vertix.rwa.v1.MsgAttestAsset.asset_id", Ok (str_set (MsgAttestAsset_AssetId x)))].

Definition MsgAttestAsset_Clear (fd : string) (x : MsgAttestAsset) : res MsgAttestAsset :=
  fd_switch fd
    [("vertix.rwa.v1.MsgAttestAsset.issuer", Ok (MsgAttestAsset_set_Issuer "" x));
     ("vertix.rwa.v1.MsgAttestAsset.asset_id", Ok (MsgAttestAsset_set_AssetId "" x))].

Definition MsgAttestAsset_Get (fd : string) (x : MsgAttestAsset) : res value :=
  fd_switch fd
    [("vertix.rwa.v1.MsgAttestAsset.issuer", Ok (VString (MsgAttestAsset_Issuer x)));
     ("vertix.rwa.v1.MsgAttestAsset.asset_id", Ok (VString (MsgAttestAsset_AssetId x)))].

Definition MsgAttestAsset_Set (fd : string) (v : value) (x : MsgAttestAsset) : res MsgAttestAsset :=
  fd_switch fd
    [("vertix.rwa.v1.MsgAttestAsset.issuer", (v ← as_string v; Ok (MsgAttestAsset_set_Issuer v x)));
     ("vertix.rwa.v1.MsgAttestAsset.asset_id", (v ← as_string v; Ok (MsgAttestAsset_set_AssetId v x)))].

Definition MsgAttestAsset_Mutable (fd : string) (x : MsgAttestAsset) : res (MsgAttestAsset * value) :=
  fd_switch fd
    [("vertix.rwa.v1.MsgAttestAsset.issuer", Panic);
     ("vertix.rwa.v1.MsgAttestAsset.asset_id", Panic)].

Definition MsgAttestAsset_NewField (fd : string) : res value :=
  fd_switch fd
    [("vertix.rwa.v1.MsgAttestAsset.issuer", Ok (VString ""));
     ("vertix.rwa.v1.MsgAttestAsset.asset_id", Ok (VString ""))].

Definition MsgAttestAsset_size (o : option MsgAttestAsset) : Z :=
  match o with
  | None => 0
  | Some x => pz_string (MsgAttestAsset_Issuer x) + pz_string (MsgAttestAsset_AssetId x) + zlen (MsgAttestAsset_unknownFields x)
  end.

Definition MsgAttestAsset_marshal : bytes -> option MsgAttestAsset -> res bytes :=
  pulsar_marshal MsgAttestAsset_size (fun x w =>
    w ← pw_raw (MsgAttestAsset_unknownFields x) w;
    w ← pw_string x12 (MsgAttestAsset_AssetId x) w;
    pw_string x0a (MsgAttestAsset_Issuer x) w).

Definition MsgAttestAsset_unmarshal : bool -> bytes -> option MsgAttestAsset -> res (option MsgAttestAsset) :=
  pulsar_unmarshal (fun discard l fieldNum wireType x b =>
    match fieldNum with
    | 1 => Some ('(s, b) ← rd_string l wireType b; Ok (MsgAttestAsset_set_Issuer s x, b))
    | 2 => Some ('(s, b) ← rd_string l wireType b; Ok (MsgAttestAsset_set_AssetId s x, b))
    | _ => None
    end) (fun s x => MsgAttestAsset_set_unknownFields (MsgAttestAsset_unknownFields x ++ s) x).

#[global] Instance MsgAttestAsset_pulsar : PulsarMsg MsgAttestAsset := {|
  pm_new := mkMsgAttestAsset "" "" [];
  pm_size := MsgAttestAsset_size; pm_marshal := MsgAttestAsset_marshal; pm_unmarshal := MsgAttestAsset_unmarshal;
  pm_unknown := MsgAttestAsset_unknownFields; pm_set_unknown := MsgAttestAsset_set_unknownFields
|}.

#[global] Instance MsgAttestAsset_reflect : Reflect MsgAttestAsset value := {|
  r_new := mkMsgAttestAsset "" "" [];
  r_names := ["vertix.rwa.v1.MsgAttestAsset.issuer";
    "vertix.rwa.v1.MsgAttestAsset.asset_id"];
  r_Range := @MsgAttestAsset_Range; r_Has := MsgAttestAsset_Has; r_Clear := MsgAttestAsset_Clear; r_Get := MsgAttestAsset_Get;
  r_Set := MsgAttestAsset_Set; r_Mutable := MsgAttestAsset_Mutable; r_NewField := MsgAttestAsset_NewField;
  r_SetUnknown := MsgAttestAsset_set_unknownFields
|}.

#[global] Instance MsgAttestAsset_schema : Schema MsgAttestAsset := fun x =>
  [(1, FString (MsgAttestAsset_Issuer x));
   (2, FString (MsgAttestAsset_AssetId x))].

#[global] Instance MsgAttestAsset_strip : PulsarStrip MsgAttestAsset := fun x =>
  mkMsgAttestAsset (MsgAttestAsset_Issuer x) (MsgAttestAsset_AssetId x) [].

(** *** [MsgAttestAssetResponse] *)

Definition MsgAttestAssetResponse_Range {S} (f : string -> value -> S -> bool * S) (x : MsgAttestAssetResponse) (s : S) : S :=
  s.

Definition MsgAttestAssetResponse_Has (fd : string) (x : MsgAttestAssetResponse) : res bool :=
  fd_switch fd [].

Definition MsgAttestAssetResponse_Clear (fd : string) (x : MsgAttestAssetResponse) : res MsgAttestAssetResponse :=
  fd_switch fd [].

Definition MsgAttestAssetResponse_Get (fd : string) (x : MsgAttestAssetResponse) : res value :=
  fd_switch fd [].

Definition MsgAttestAssetResponse_Set (fd : string) (v : value) (x : MsgAttestAssetResponse) : res MsgAttestAssetResponse :=
  fd_switch fd [].

Definition MsgAttestAssetResponse_Mutable (fd : string) (x : MsgAttestAssetResponse) : res (MsgAttestAssetResponse * value) :=
  fd_switch fd [].

Definition MsgAttestAssetResponse_NewField (fd : string) : res value :=
  fd_switch fd [].

Definition MsgAttestAssetResponse_size (o : option MsgAttestAssetResponse) : Z :=
  match o with
  | None => 0
  | Some x => zlen (MsgAttestAssetResponse_unknownFields x)
  end.

Definition MsgAttestAssetResponse_marshal : bytes -> option MsgAttestAssetResponse -> res bytes :=
  pulsar_marshal MsgAttestAssetResponse_size (fun x w =>
    pw_raw (MsgAttestAssetResponse_unknownFields x) w).

Definition MsgAttestAssetResponse_unmarshal : bool -> bytes -> option MsgAttestAssetResponse -> res (option MsgAttestAssetResponse) :=
  pulsar_unmarshal (fun discard l fieldNum wireType x b => None)
    (fun s x => MsgAttestAssetResponse_set_unknownFields (MsgAttestAssetResponse_unknownFields x ++ s) x).

#[global] Instance MsgAttestAssetResponse_pulsar : PulsarMsg MsgAttestAssetResponse := {|
  pm_new := mkMsgAttestAssetResponse [];
  pm_size := MsgAttestAssetResponse_size; pm_marshal := MsgAttestAssetResponse_marshal; pm_unmarshal := MsgAttestAssetResponse_unmarshal;
  pm_unknown := MsgAttestAssetResponse_unknownFields; pm_set_unknown := MsgAttestAssetResponse_set_unknownFields
|}.

#[global] Instance MsgAttestAssetResponse_reflect : Reflect MsgAttestAssetResponse value := {|
  r_new := mkMsgAttestAssetResponse [];
  r_names := [];
  r_Range := @MsgAttestAssetResponse_Range; r_Has := MsgAttestAssetResponse_Has; r_Clear := MsgAttestAssetResponse_Clear; r_Get := MsgAttestAssetResponse_Get;
  r_Set := MsgAttestAssetResponse_Set; r_Mutable := MsgAttestAssetResponse_Mutable; r_NewField := MsgAttestAssetResponse_NewField;
  r_SetUnknown := MsgAttestAssetResponse_set_unknownFields
|}.

#[global] Instance MsgAttestAssetResponse_schema : Schema MsgAttestAssetResponse := fun x =>
  [].

#[global] Instance MsgAttestAssetResponse_strip : PulsarStrip MsgAttestAssetResponse := fun x =>
  mkMsgAttestAssetResponse [].

(** *** [MsgMintRWA] *)

Definition MsgMintRWA_Range {S} (f : string -> value -> S -> bool * S) (x : MsgMintRWA) (s : S) : S :=
  visit f (str_set (MsgMintRWA_Issuer x)) "vertix.rwa.v1.MsgMintRWA.issuer" (VString (MsgMintRWA_Issuer x)) (fun s =>
  visit f (str_set (MsgMintRWA_AssetId x)) "vertix.rwa.v1.MsgMintRWA.asset_id" (VString (MsgMintRWA_AssetId x)) (fun s =>
  visit f (str_set (MsgMintRWA_Notional x)) "vertix.rwa.v1.MsgMintRWA.notional" (VString (MsgMintRWA_Notional x)) (fun s => s) s) s) s.

Definition MsgMintRWA_Has (fd : string) (x : MsgMintRWA) : res bool :=
  fd_switch fd
    [("vertix.rwa.v1.MsgMintRWA.issuer", Ok (str_set (MsgMintRWA_Issuer x)));
     ("vertix.rwa.v1.MsgMintRWA.asset_id", Ok (str_set (MsgMintRWA_AssetId x)));
     ("vertix.rwa.v1.MsgMintRWA.notional", Ok (str_set (MsgMintRWA_Notional x)))].

Definition MsgMintRWA_Clear (fd : string) (x : MsgMintRWA) : res MsgMintRWA :=
  fd_switch fd
    [("vertix.rwa.v1.MsgMintRWA.issuer", Ok (MsgMintRWA_set_Issuer "" x));
     ("vertix.rwa.v1.MsgMintRWA.asset_id", Ok (MsgMintRWA_set_AssetId "" x));
     ("vertix.rwa.v1.MsgMintRWA.notional", Ok (MsgMintRWA_set_Notional "" x))].

Definition MsgMintRWA_Get (fd : string) (x : MsgMintRWA) : res value :=
  fd_switch fd
    [("vertix.rwa.v1.MsgMintRWA.issuer", Ok (VString (MsgMintRWA_Issuer x)));
     ("vertix.rwa.v1.MsgMintRWA.asset_id", Ok (VString (MsgMintRWA_AssetId x)));
     ("vertix.rwa.v1.MsgMintRWA.notional", Ok (VString (MsgMintRWA_Notional x)))].

Definition MsgMintRWA_Set (fd : string) (v : value) (x : MsgMintRWA) : res MsgMintRWA :=
  fd_switch fd
    [("vertix.rwa.v1.MsgMintRWA.issuer", (v ← as_string v; Ok (MsgMintRWA_set_Issuer v x)));
     ("vertix.rwa.v1.MsgMintRWA.asset_id", (v ← as_string v; Ok (MsgMintRWA_set_AssetId v x)));
     ("vertix.rwa.v1.MsgMintRWA.notional", (v ← as_string v; Ok (MsgMintRWA_set_Notional v x)))].

Definition MsgMintRWA_Mutable (fd : string) (x : MsgMintRWA) : res (MsgMintRWA * value) :=
  fd_switch fd
    [("vertix.rwa.v1.MsgMintRWA.issuer", Panic);
     ("vertix.rwa.v1.MsgMintRWA.asset_id", Panic);
     ("vertix.rwa.v1.MsgMintRWA.notional", Panic)].

Definition MsgMintRWA_NewField (fd : string) : res value :=
  fd_switch fd
    [("vertix.rwa.v1.MsgMintRWA.issuer", Ok (VString ""));
     ("vertix.rwa.v1.MsgMintRWA.asset_id", Ok (VString ""));
     ("vertix.rwa.v1.MsgMintRWA.notional", Ok (VString ""))].

Definition MsgMintRWA_size (o : option MsgMintRWA) : Z :=
  match o with
  | None => 0
  | Some x => pz_string (MsgMintRWA_Issuer x) + pz_string (MsgMintRWA_AssetId x) + pz_string (MsgMintRWA_Notional x) + zlen (MsgMintRWA_unknownFields x)
  end.

Definition MsgMintRWA_marshal : bytes -> option MsgMintRWA -> res bytes :=
  pulsar_marshal MsgMintRWA_size (fun x w =>
    w ← pw_raw (MsgMintRWA_unknownFields x) w;
    w ← pw_string x1a (MsgMintRWA_Notional x) w;
    w ← pw_string x12 (MsgMintRWA_AssetId x) w;
    pw_string x0a (MsgMintRWA_Issuer x) w).

Definition MsgMintRWA_unmarshal : bool -> bytes -> option MsgMintRWA -> res (option MsgMintRWA) :=
  pulsar_unmarshal (fun discard l fieldNum wireType x b =>
    match fieldNum with
    | 1 => Some ('(s, b) ← rd_string l wireType b; Ok (MsgMintRWA_set_Issuer s x, b))
    | 2 => Some ('(s, b) ← rd_string l wireType b; Ok (MsgMintRWA_set_AssetId s x, b))
    | 3 => Some ('(s, b) ← rd_string l wireType b; Ok (MsgMintRWA_set_Notional s x, b))
    | _ => None
    end) (fun s x => MsgMintRWA_set_unknownFields (MsgMintRWA_unknownFields x ++ s) x).

#[global] Instance MsgMintRWA_pulsar : PulsarMsg MsgMintRWA := {|
  pm_new := mkMsgMintRWA "" "" "" [];
  pm_size := MsgMintRWA_size; pm_marshal := MsgMintRWA_marshal; pm_unmarshal := MsgMintRWA_unmarshal;
  pm_unknown := MsgMintRWA_unknownFields; pm_set_unknown := MsgMintRWA_set_unknownFields
|}.

#[global] Instance MsgMintRWA_reflect : Reflect MsgMintRWA value := {|
  r_new := mkMsgMintRWA "" "" "" [];
  r_names := ["vertix.rwa.v1.MsgMintRWA.issuer";
    "vertix.rwa.v1.MsgMintRWA.asset_id";
    "vertix.rwa.v1.MsgMintRWA.notional"];
  r_Range := @MsgMintRWA_Range; r_Has := MsgMintRWA_Has; r_Clear := MsgMintRWA_Clear; r_Get := MsgMintRWA_Get;
  r_Set := MsgMintRWA_Set; r_Mutable := MsgMintRWA_Mutable; r_NewField := MsgMintRWA_NewField;
  r_SetUnknown := MsgMintRWA_set_unknownFields
|}.

#[global] Instance MsgMintRWA_schema : Schema MsgMintRWA := fun x =>
  [(1, FString (MsgMintRWA_Issuer x));
   (2, FString (MsgMintRWA_AssetId x));
   (3, FString (MsgMintRWA_Notional x))].

#[global] Instance MsgMintRWA_strip : PulsarStrip MsgMintRWA := fun x =>
  mkMsgMintRWA (MsgMintRWA_Issuer x) (MsgMintRWA_AssetId x) (MsgMintRWA_Notional x) [].

(** *** [MsgMintRWAResponse] *)

Definition MsgMintRWAResponse_Range {S} (f : string -> value -> S -> bool * S) (x : MsgMintRWAResponse) (s : S) : S :=
  s.

Definition MsgMintRWAResponse_Has (fd : string) (x : MsgMintRWAResponse) : res bool :=
  fd_switch fd [].

Definition MsgMintRWAResponse_Clear (fd : string) (x : MsgMintRWAResponse) : res MsgMintRWAResponse :=
  fd_switch fd [].

Definition MsgMintRWAResponse_Get (fd : string) (x : MsgMintRWAResponse) : res value :=
  fd_switch fd [].

Definition MsgMintRWAResponse_Set (fd : string) (v : value) (x : MsgMintRWAResponse) : res MsgMintRWAResponse :=
  fd_switch fd [].

Definition MsgMintRWAResponse_Mutable (fd : string) (x : MsgMintRWAResponse) : res (MsgMintRWAResponse * value) :=
  fd_switch fd [].

Definition MsgMintRWAResponse_NewField (fd : string) : res value :=
  fd_switch fd [].

Definition MsgMintRWAResponse_size (o : option MsgMintRWAResponse) : Z :=
  match o with
  | None => 0
  | Some x => zlen (MsgMintRWAResponse_unknownFields x)
  end.

Definition MsgMintRWAResponse_marshal : bytes -> option MsgMintRWAResponse -> res bytes :=
  pulsar_marshal MsgMintRWAResponse_size (fun x w =>
    pw_raw (MsgMintRWAResponse_unknownFields x) w).

Definition MsgMintRWAResponse_unmarshal : bool -> bytes -> option MsgMintRWAResponse -> res (option MsgMintRWAResponse) :=
  pulsar_unmarshal (fun discard l fieldNum wireType x b => None)
    (fun s x => MsgMintRWAResponse_set_unknownFields (MsgMintRWAResponse_unknownFields x ++ s) x).

#[global] Instance MsgMintRWAResponse_pulsar : PulsarMsg MsgMintRWAResponse := {|
  pm_new := mkMsgMintRWAResponse [];
  pm_size := MsgMintRWAResponse_size; pm_marshal := MsgMintRWAResponse_marshal; pm_unmarshal := MsgMintRWAResponse_unmarshal;
  pm_unknown := MsgMintRWAResponse_unknownFields; pm_set_unknown := MsgMintRWAResponse_set_unknownFields
|}.

#[global] Instance MsgMintRWAResponse_reflect : Reflect MsgMintRWAResponse value := {|
  r_new := mkMsgMintRWAResponse [];
  r_names := [];
  r_Range := @MsgMintRWAResponse_Range; r_Has := MsgMintRWAResponse_Has; r_Clear := MsgMintRWAResponse_Clear; r_Get := MsgMintRWAResponse_Get;
  r_Set := MsgMintRWAResponse_Set; r_Mutable := MsgMintRWAResponse_Mutable; r_NewField := MsgMintRWAResponse_NewField;
  r_SetUnknown := MsgMintRWAResponse_set_unknownFields
|}.

#[global] Instance MsgMintRWAResponse_schema : Schema MsgMintRWAResponse := fun x =>
  [].

#[global] Instance MsgMintRWAResponse_strip : PulsarStrip MsgMintRWAResponse := fun x =>
  mkMsgMintRWAResponse [].

(** *** [MsgTransferRWA] *)

Definition MsgTransferRWA_Range {S} (f : string -> value -> S -> bool * S) (x : MsgTransferRWA) (s : S) : S :=
  visit f (str_set (MsgTransferRWA_Sender x)) "vertix.rwa.v1.MsgTransferRWA.sender" (VString (MsgTransferRWA_Sender x)) (fun s =>
  visit f (str_set (MsgTransferRWA_Recipient x)) "vertix.rwa.v1.MsgTransferRWA.recipient" (VString (MsgTransferRWA_Recipient x)) (fun s =>
  visit f (str_set (MsgTransferRWA_AssetId x)) "vertix.rwa.v1.MsgTransferRWA.asset_id" (VString (MsgTransferRWA_AssetId x)) (fun s =>
  visit f (str_set (MsgTransferRWA_Amount x)) "vertix.rwa.v1.MsgTransferRWA.amount" (VString (MsgTransferRWA_Amount x)) (fun s => s) s) s) s) s.

Definition MsgTransferRWA_Has (fd : string) (x : MsgTransferRWA) : res bool :=
  fd_switch fd
    [("vertix.rwa.v1.MsgTransferRWA.sender", Ok (str_set (MsgTransferRWA_Sender x)));
     ("vertix.rwa.v1.MsgTransferRWA.recipient", Ok (str_set (MsgTransferRWA_Recipient x)));
     ("vertix.rwa.v1.MsgTransferRWA.asset_id", Ok (str_set (MsgTransferRWA_AssetId x)));
     ("vertix.rwa.v1.MsgTransferRWA.amount", Ok (str_set (MsgTransferRWA_Amount x)))].

Definition MsgTransferRWA_Clear (fd : string) (x : MsgTransferRWA) : res MsgTransferRWA :=
  fd_switch fd
    [("vertix.rwa.v1.MsgTransferRWA.sender", Ok (MsgTransferRWA_set_Sender "" x));
     ("vertix.rwa.v1.MsgTransferRWA.recipient", Ok (MsgTransferRWA_set_Recipient "" x));
     ("vertix.rwa.v1.MsgTransferRWA.asset_id", Ok (MsgTransferRWA_set_AssetId "" x));
     ("vertix.rwa.v1.MsgTransferRWA.amount", Ok (MsgTransferRWA_set_Amount "" x))].

Definition MsgTransferRWA_Get (fd : string) (x : MsgTransferRWA) : res value :=
  fd_switch fd
    [("vertix.rwa.v1.MsgTransferRWA.sender", Ok (VString (MsgTransferRWA_Sender x)));
     ("vertix.rwa.v1.MsgTransferRWA.recipient", Ok (VString (MsgTransferRWA_Recipient x)));
     ("vertix.rwa.v1.MsgTransferRWA.asset_id", Ok (VString (MsgTransferRWA_AssetId x)));
     ("vertix.rwa.v1.MsgTransferRWA.amount", Ok (VString (MsgTransferRWA_Amount x)))].

Definition MsgTransferRWA_Set (fd : string) (v : value) (x : MsgTransferRWA) : res MsgTransferRWA :=
  fd_switch fd
    [("vertix.rwa.v1.MsgTransferRWA.sender", (v ← as_string v; Ok (MsgTransferRWA_set_Sender v x)));
     ("vertix.rwa.v1.MsgTransferRWA.recipient", (v ← as_string v; Ok (MsgTransferRWA_set_Recipient v x)));
     ("vertix.rwa.v1.MsgTransferRWA.asset_id", (v ← as_string v; Ok (MsgTransferRWA_set_AssetId v x)));
     ("vertix.rwa.v1.MsgTransferRWA.amount", (v ← as_string v; Ok (MsgTransferRWA_set_Amount v x)))].

Definition MsgTransferRWA_Mutable (fd : string) (x : MsgTransferRWA) : res (MsgTransferRWA * value) :=
  fd_switch fd
    [("vertix.rwa.v1.MsgTransferRWA.sender", Panic);
     ("vertix.rwa.v1.MsgTransferRWA.recipient", Panic);
     ("vertix.rwa.v1.MsgTransferRWA.asset_id", Panic);
     ("vertix.rwa.v1.MsgTransferRWA.amount", Panic)].

Definition MsgTransferRWA_NewField (fd : string) : res value :=
  fd_switch fd
    [("vertix.rwa.v1.MsgTransferRWA.sender", Ok (VString ""));
     ("vertix.rwa.v1.MsgTransferRWA.recipient", Ok (VString ""));
     ("vertix.rwa.v1.MsgTransferRWA.asset_id", Ok (VString ""));
     ("vertix.rwa.v1.MsgTransferRWA.amount", Ok (VString ""))].

Definition MsgTransferRWA_size (o : option MsgTransferRWA) : Z :=
  match o with
  | None => 0
  | Some x => pz_string (MsgTransferRWA_Sender x) + pz_string (MsgTransferRWA_Recipient x) + pz_string (MsgTransferRWA_AssetId x) + pz_string (MsgTransferRWA_Amount x) + zlen (MsgTransferRWA_unknownFields x)
  end.

Definition MsgTransferRWA_marshal : bytes -> option MsgTransferRWA -> res bytes :=
  pulsar_marshal MsgTransferRWA_size (fun x w =>
    w ← pw_raw (MsgTransferRWA_unknownFields x) w;
    w ← pw_string x22 (MsgTransferRWA_Amount x) w;
    w ← pw_string x1a (MsgTransferRWA_AssetId x) w;
    w ← pw_string x12 (MsgTransferRWA_Recipient x) w;
    pw_string x0a (MsgTransferRWA_Sender x) w).

Definition MsgTransferRWA_unmarshal : bool -> bytes -> option MsgTransferRWA -> res (option MsgTransferRWA) :=
  pulsar_unmarshal (fun discard l fieldNum wireType x b =>
    match fieldNum with
    | 1 => Some ('(s, b) ← rd_string l wireType b; Ok (MsgTransferRWA_set_Sender s x, b))
    | 2 => Some ('(s, b) ← rd_string l wireType b; Ok (MsgTransferRWA_set_Recipient s x, b))
    | 3 => Some ('(s, b) ← rd_string l wireType b; Ok (MsgTransferRWA_set_AssetId s x, b))
    | 4 => Some ('(s, b) ← rd_string l wireType b; Ok (MsgTransferRWA_set_Amount s x, b))
    | _ => None
    end) (fun s x => MsgTransferRWA_set_unknownFields (MsgTransferRWA_unknownFields x ++ s) x).

#[global] Instance MsgTransferRWA_pulsar : PulsarMsg MsgTransferRWA := {|
  pm_new := mkMsgTransferRWA "" "" "" "" [];
  pm_size := MsgTransferRWA_size; pm_marshal := MsgTransferRWA_marshal; pm_unmarshal := MsgTransferRWA_unmarshal;
  pm_unknown := MsgTransferRWA_unknownFields; pm_set_unknown := MsgTransferRWA_set_unknownFields
|}.

#[global] Instance MsgTransferRWA_reflect : Reflect MsgTransferRWA value := {|
  r_new := mkMsgTransferRWA "" "" "" "" [];
  r_names := ["vertix.rwa.v1.MsgTransferRWA.sender";
    "vertix.rwa.v1.MsgTransferRWA.recipient";
    "vertix.rwa.v1.MsgTransferRWA.asset_id";
    "vertix.rwa.v1.MsgTransferRWA.amount"];
  r_Range := @MsgTransferRWA_Range; r_Has := MsgTransferRWA_Has; r_Clear := MsgTransferRWA_Clear; r_Get := MsgTransferRWA_Get;
  r_Set := MsgTransferRWA_Set; r_Mutable := MsgTransferRWA_Mutable; r_NewField := MsgTransferRWA_NewField;
  r_SetUnknown := MsgTransferRWA_set_unknownFields
|}.

#[global] Instance MsgTransferRWA_schema : Schema MsgTransferRWA := fun x =>
  [(1, FString (MsgTransferRWA_Sender x));
   (2, FString (MsgTransferRWA_Recipient x));
   (3, FString (MsgTransferRWA_AssetId x));
   (4, FString (MsgTransferRWA_Amount x))].

#[global] Instance MsgTransferRWA_strip : PulsarStrip MsgTransferRWA := fun x =>
  mkMsgTransferRWA (MsgTransferRWA_Sender x) (MsgTransferRWA_Recipient x) (MsgTransferRWA_AssetId x) (MsgTransferRWA_Amount x) [].

(** *** [MsgTransferRWAResponse] *)

Definition MsgTransferRWAResponse_Range {S} (f : string -> value -> S -> bool * S) (x : MsgTransferRWAResponse) (s : S) : S :=
  s.

Definition MsgTransferRWAResponse_Has (fd : string) (x : MsgTransferRWAResponse) : res bool :=
  fd_switch fd [].

Definition MsgTransferRWAResponse_Clear (fd : string) (x : MsgTransferRWAResponse) : res MsgTransferRWAResponse :=
  fd_switch fd [].

Definition MsgTransferRWAResponse_Get (fd : string) (x : MsgTransferRWAResponse) : res value :=
  fd_switch fd [].

Definition MsgTransferRWAResponse_Set (fd : string) (v : value) (x : MsgTransferRWAResponse) : res MsgTransferRWAResponse :=
  fd_switch fd [].

Definition MsgTransferRWAResponse_Mutable (fd : string) (x : MsgTransferRWAResponse) : res (MsgTransferRWAResponse * value) :=
  fd_switch fd [].

Definition MsgTransferRWAResponse_NewField (fd : string) : res value :=
  fd_switch fd [].

Definition MsgTransferRWAResponse_size (o : option MsgTransferRWAResponse) : Z :=
  match o with
  | None => 0
  | Some x => zlen (MsgTransferRWAResponse_unknownFields x)
  end.

Definition MsgTransferRWAResponse_marshal : bytes -> option MsgTransferRWAResponse -> res bytes :=
  pulsar_marshal MsgTransferRWAResponse_size (fun x w =>
    pw_raw (MsgTransferRWAResponse_unknownFields x) w).

Definition MsgTransferRWAResponse_unmarshal : bool -> bytes -> option MsgTransferRWAResponse -> res (option MsgTransferRWAResponse) :=
  pulsar_unmarshal (fun discard l fieldNum wireType x b => None)
    (fun s x => MsgTransferRWAResponse_set_unknownFields (MsgTransferRWAResponse_unknownFields x ++ s) x).

#[global] Instance MsgTransferRWAResponse_pulsar : PulsarMsg MsgTransferRWAResponse := {|
  pm_new := mkMsgTransferRWAResponse [];
  pm_size := MsgTransferRWAResponse_size; pm_marshal := MsgTransferRWAResponse_marshal; pm_unmarshal := MsgTransferRWAResponse_unmarshal;
  pm_unknown := MsgTransferRWAResponse_unknownFields; pm_set_unknown := MsgTransferRWAResponse_set_unknownFields
|}.

#[global] Instance MsgTransferRWAResponse_reflect : Reflect MsgTransferRWAResponse value := {|
  r_new := mkMsgTransferRWAResponse [];
  r_names := [];
  r_Range := @MsgTransferRWAResponse_Range; r_Has := MsgTransferRWAResponse_Has; r_Clear := MsgTransferRWAResponse_Clear; r_Get := MsgTransferRWAResponse_Get;
  r_Set := MsgTransferRWAResponse_Set; r_Mutable := MsgTransferRWAResponse_Mutable; r_NewField := MsgTransferRWAResponse_NewField;
  r_SetUnknown := MsgTransferRWAResponse_set_unknownFields
|}.

#[global] Instance MsgTransferRWAResponse_schema : Schema MsgTransferRWAResponse := fun x =>
  [].

#[global] Instance MsgTransferRWAResponse_strip : PulsarStrip MsgTransferRWAResponse := fun x =>
  mkMsgTransferRWAResponse [].

(** *** [MsgSettleRWA] *)

Definition MsgSettleRWA_Range {S} (f : string -> value -> S -> bool * S) (x : MsgSettleRWA) (s : S) : S :=
  visit f (str_set (MsgSettleRWA_Issuer x)) "vertix.rwa.v1.MsgSettleRWA.issuer" (VString (MsgSettleRWA_Issuer x)) (fun s =>
  visit f (str_set (MsgSettleRWA_AssetId x)) "vertix.rwa.v1.MsgSettleRWA.asset_id" (VString (MsgSettleRWA_AssetId x)) (fun s => s) s) s.

Definition MsgSettleRWA_Has (fd : string) (x : MsgSettleRWA) : res bool :=
  fd_switch fd
    [("vertix.rwa.v1.MsgSettleRWA.issuer", Ok (str_set (MsgSettleRWA_Issuer x)));
     ("vertix.rwa.v1.MsgSettleRWA.asset_id", Ok (str_set (MsgSettleRWA_AssetId x)))].

Definition MsgSettleRWA_Clear (fd : string) (x : MsgSettleRWA) : res MsgSettleRWA :=
  fd_switch fd
    [("vertix.rwa.v1.MsgSettleRWA.issuer", Ok (MsgSettleRWA_set_Issuer "" x));
     ("vertix.rwa.v1.MsgSettleRWA.asset_id", Ok (MsgSettleRWA_set_AssetId "" x))].

Definition MsgSettleRWA_Get (fd : string) (x : MsgSettleRWA) : res value :=
  fd_switch fd
    [("vertix.rwa.v1.MsgSettleRWA.issuer", Ok (VString (MsgSettleRWA_Issuer x)));
     ("vertix.rwa.v1.MsgSettleRWA.asset_id", Ok (VString (MsgSettleRWA_AssetId x)))].

Definition MsgSettleRWA_Set (fd : string) (v : value) (x : MsgSettleRWA) : res MsgSettleRWA :=
  fd_switch fd
    [("vertix.rwa.v1.MsgSettleRWA.issuer", (v ← as_string v; Ok (MsgSettleRWA_set_Issuer v x)));
     ("vertix.rwa.v1.MsgSettleRWA.asset_id", (v ← as_string v; Ok (MsgSettleRWA_set_AssetId v x)))].

Definition MsgSettleRWA_Mutable (fd : string) (x : MsgSettleRWA) : res (MsgSettleRWA * value) :=
  fd_switch fd
    [("vertix.rwa.v1.MsgSettleRWA.issuer", Panic);
     ("vertix.rwa.v1.MsgSettleRWA.asset_id", Panic)].

Definition MsgSettleRWA_NewField (fd : string) : res value :=
  fd_switch fd
    [("vertix.rwa.v1.MsgSettleRWA.issuer", Ok (VString ""));
     ("vertix.rwa.v1.MsgSettleRWA.asset_id", Ok (VString ""))].

Definition MsgSettleRWA_size (o : option MsgSettleRWA) : Z :=
  match o with
  | None => 0
  | Some x => pz_string (MsgSettleRWA_Issuer x) + pz_string (MsgSettleRWA_AssetId x) + zlen (MsgSettleRWA_unknownFields x)
  end.

Definition MsgSettleRWA_marshal : bytes -> option MsgSettleRWA -> res bytes :=
  pulsar_marshal MsgSettleRWA_size (fun x w =>
    w ← pw_raw (MsgSettleRWA_unknownFields x) w;
    w ← pw_string x12 (MsgSettleRWA_AssetId x) w;
    pw_string x0a (MsgSettleRWA_Issuer x) w).

Definition MsgSettleRWA_unmarshal : bool -> bytes -> option MsgSettleRWA -> res (option MsgSettleRWA) :=
  pulsar_unmarshal (fun discard l fieldNum wireType x b =>
    match fieldNum with
    | 1 => Some ('(s, b) ← rd_string l wireType b; Ok (MsgSettleRWA_set_Issuer s x, b))
    | 2 => Some ('(s, b) ← rd_string l wireType b; Ok (MsgSettleRWA_set_AssetId s x, b))
    | _ => None
    end) (fun s x => MsgSettleRWA_set_unknownFields (MsgSettleRWA_unknownFields x ++ s) x).

#[global] Instance MsgSettleRWA_pulsar : PulsarMsg MsgSettleRWA := {|
  pm_new := mkMsgSettleRWA "" "" [];
  pm_size := MsgSettleRWA_size; pm_marshal := MsgSettleRWA_marshal; pm_unmarshal := MsgSettleRWA_unmarshal;
  pm_unknown := MsgSettleRWA_unknownFields; pm_set_unknown := MsgSettleRWA_set_unknownFields
|}.

#[global] Instance MsgSettleRWA_reflect : Reflect MsgSettleRWA value := {|
  r_new := mkMsgSettleRWA "" "" [];
  r_names := ["vertix.rwa.v1.MsgSettleRWA.issuer";
    "vertix.rwa.v1.MsgSettleRWA.asset_id"];
  r_Range := @MsgSettleRWA_Range; r_Has := MsgSettleRWA_Has; r_Clear := MsgSettleRWA_Clear; r_Get := MsgSettleRWA_Get;
  r_Set := MsgSettleRWA_Set; r_Mutable := MsgSettleRWA_Mutable; r_NewField := MsgSettleRWA_NewField;
  r_SetUnknown := MsgSettleRWA_set_unknownFields
|}.

#[global] Instance MsgSettleRWA_schema : Schema MsgSettleRWA := fun x =>
  [(1, FString (MsgSettleRWA_Issuer x));
   (2, FString (MsgSettleRWA_AssetId x))].

#[global] Instance MsgSettleRWA_strip : PulsarStrip MsgSettleRWA := fun x =>
  mkMsgSettleRWA (MsgSettleRWA_Issuer x) (MsgSettleRWA_AssetId x) [].

(** *** [MsgSettleRWAResponse] *)

Definition MsgSettleRWAResponse_Range {S} (f : string -> value -> S -> bool * S) (x : MsgSettleRWAResponse) (s : S) : S :=
  s.

Definition MsgSettleRWAResponse_Has (fd : string) (x : MsgSettleRWAResponse) : res bool :=
  fd_switch fd [].

Definition MsgSettleRWAResponse_Clear (fd : string) (x : MsgSettleRWAResponse) : res MsgSettleRWAResponse :=
  fd_switch fd [].

Definition MsgSettleRWAResponse_Get (fd : string) (x : MsgSettleRWAResponse) : res value :=
  fd_switch fd [].

Definition MsgSettleRWAResponse_Set (fd : string) (v : value) (x : MsgSettleRWAResponse) : res MsgSettleRWAResponse :=
  fd_switch fd [].

Definition MsgSettleRWAResponse_Mutable (fd : string) (x : MsgSettleRWAResponse) : res (MsgSettleRWAResponse * value) :=
  fd_switch fd [].

Definition MsgSettleRWAResponse_NewField (fd : string) : res value :=
  fd_switch fd [].

Definition MsgSettleRWAResponse_size (o : option MsgSettleRWAResponse) : Z :=
  match o with
  | None => 0
  | Some x => zlen (MsgSettleRWAResponse_unknownFields x)
  end.

Definition MsgSettleRWAResponse_marshal : bytes -> option MsgSettleRWAResponse -> res bytes :=
  pulsar_marshal MsgSettleRWAResponse_size (fun x w =>
    pw_raw (MsgSettleRWAResponse_unknownFields x) w).

Definition MsgSettleRWAResponse_unmarshal : bool -> bytes -> option MsgSettleRWAResponse -> res (option MsgSettleRWAResponse) :=
  pulsar_unmarshal (fun discard l fieldNum wireType x b => None)
    (fun s x => MsgSettleRWAResponse_set_unknownFields (MsgSettleRWAResponse_unknownFields x ++ s) x).

#[global] Instance MsgSettleRWAResponse_pulsar : PulsarMsg MsgSettleRWAResponse := {|
  pm_new := mkMsgSettleRWAResponse [];
  pm_size := MsgSettleRWAResponse_size; pm_marshal := MsgSettleRWAResponse_marshal; pm_unmarshal := MsgSettleRWAResponse_unmarshal;
  pm_unknown := MsgSettleRWAResponse_unknownFields; pm_set_unknown := MsgSettleRWAResponse_set_unknownFields
|}.

#[global] Instance MsgSettleRWAResponse_reflect : Reflect MsgSettleRWAResponse value := {|
  r_new := mkMsgSettleRWAResponse [];
  r_names := [];
  r_Range := @MsgSettleRWAResponse_Range; r_Has := MsgSettleRWAResponse_Has; r_Clear := MsgSettleRWAResponse_Clear; r_Get := MsgSettleRWAResponse_Get;
  r_Set := MsgSettleRWAResponse_Set; r_Mutable := MsgSettleRWAResponse_Mutable; r_NewField := MsgSettleRWAResponse_NewField;
  r_SetUnknown := MsgSettleRWAResponse_set_unknownFields
|}.

#[global] Instance MsgSettleRWAResponse_schema : Schema MsgSettleRWAResponse := fun x =>
  [].

#[global] Instance MsgSettleRWAResponse_strip : PulsarStrip MsgSettleRWAResponse := fun x =>
  mkMsgSettleRWAResponse [].

(** *** [MsgUpdateRestrictions] *)

Definition MsgUpdateRestrictions_Range {S} (f : string -> value -> S -> bool * S) (x : MsgUpdateRestrictions) (s : S) : S :=
  visit f (str_set (MsgUpdateRestrictions_Issuer x)) "vertix.rwa.v1.MsgUpdateRestrictions.issuer" (VString (MsgUpdateRestrictions_Issuer x)) (fun s =>
  visit f (str_set (MsgUpdateRestrictions_AssetId x)) "vertix.rwa.v1.MsgUpdateRestrictions.asset_id" (VString (MsgUpdateRestrictions_AssetId x)) (fun s =>
  visit f (bool_set (MsgUpdateRestrictions_AllowAll x)) "vertix.rwa.v1.MsgUpdateRestrictions.allow_all" (VBool (MsgUpdateRestrictions_AllowAll x)) (fun s =>
  visit f (list_set (MsgUpdateRestrictions_AddAllow x)) "vertix.rwa.v1.MsgUpdateRestrictions.add_allow" (V_MsgUpdateRestrictions_4_list (Some (MsgUpdateRestrictions_AddAllow x))) (fun s =>
  visit f (list_set (MsgUpdateRestrictions_DelAllow x)) "vertix.rwa.v1.MsgUpdateRestrictions.del_allow" (V_MsgUpdateRestrictions_5_list (Some (MsgUpdateRestrictions_DelAllow x))) (fun s =>
  visit f (list_set (MsgUpdateRestrictions_AddDeny x)) "vertix.rwa.v1.MsgUpdateRestrictions.add_deny" (V_MsgUpdateRestrictions_6_list (Some (MsgUpdateRestrictions_AddDeny x))) (fun s =>
  visit f (list_set (MsgUpdateRestrictions_DelDeny x)) "vertix.rwa.v1.MsgUpdateRestrictions.del_deny" (V_MsgUpdateRestrictions_7_list (Some (MsgUpdateRestrictions_DelDeny x))) (fun s => s) s) s) s) s) s) s) s.

Definition MsgUpdateRestrictions_Has (fd : string) (x : MsgUpdateRestrictions) : res bool :=
  fd_switch fd
    [("vertix.rwa.v1.MsgUpdateRestrictions.issuer", Ok (str_set (MsgUpdateRestrictions_Issuer x)));
     ("vertix.rwa.v1.MsgUpdateRestrictions.asset_id", Ok (str_set (MsgUpdateRestrictions_AssetId x)));
     ("vertix.rwa.v1.MsgUpdateRestrictions.allow_all", Ok (bool_set (MsgUpdateRestrictions_AllowAll x)));
     ("vertix.rwa.v1.MsgUpdateRestrictions.add_allow", Ok (list_set (MsgUpdateRestrictions_AddAllow x)));
     ("vertix.rwa.v1.MsgUpdateRestrictions.del_allow", Ok (list_set (MsgUpdateRestrictions_DelAllow x)));
     ("vertix.rwa.v1.MsgUpdateRestrictions.add_deny", Ok (list_set (MsgUpdateRestrictions_AddDeny x)));
     ("vertix.rwa.v1.MsgUpdateRestrictions.del_deny", Ok (list_set (MsgUpdateRestrictions_DelDeny x)))].

Definition MsgUpdateRestrictions_Clear (fd : string) (x : MsgUpdateRestrictions) : res MsgUpdateRestrictions :=
  fd_switch fd
    [("vertix.rwa.v1.MsgUpdateRestrictions.issuer", Ok (MsgUpdateRestrictions_set_Issuer "" x));
     ("vertix.rwa.v1.MsgUpdateRestrictions.asset_id", Ok (MsgUpdateRestrictions_set_AssetId "" x));
     ("vertix.rwa.v1.MsgUpdateRestrictions.allow_all", Ok (MsgUpdateRestrictions_set_AllowAll false x));
     ("vertix.rwa.v1.MsgUpdateRestrictions.add_allow", Ok (MsgUpdateRestrictions_set_AddAllow [] x));
     ("vertix.rwa.v1.MsgUpdateRestrictions.del_allow", Ok (MsgUpdateRestrictions_set_DelAllow [] x));
     ("vertix.rwa.v1.MsgUpdateRestrictions.add_deny", Ok (MsgUpdateRestrictions_set_AddDeny [] x));
     ("vertix.rwa.v1.MsgUpdateRestrictions.del_deny", Ok (MsgUpdateRestrictions_set_DelDeny [] x))].

Definition MsgUpdateRestrictions_Get (fd : string) (x : MsgUpdateRestrictions) : res value :=
  fd_switch fd
    [("vertix.rwa.v1.MsgUpdateRestrictions.issuer", Ok (VString (MsgUpdateRestrictions_Issuer x)));
     ("vertix.rwa.v1.MsgUpdateRestrictions.asset_id", Ok (VString (MsgUpdateRestrictions_AssetId x)));
     ("vertix.rwa.v1.MsgUpdateRestrictions.allow_all", Ok (VBool (MsgUpdateRestrictions_AllowAll x)));
     ("vertix.rwa.v1.MsgUpdateRestrictions.add_allow", Ok (V_MsgUpdateRestrictions_4_list (list_view (MsgUpdateRestrictions_AddAllow x))));
     ("vertix.rwa.v1.MsgUpdateRestrictions.del_allow", Ok (V_MsgUpdateRestrictions_5_list (list_view (MsgUpdateRestrictions_DelAllow x))));
     ("vertix.rwa.v1.MsgUpdateRestrictions.add_deny", Ok (V_MsgUpdateRestrictions_6_list (list_view (MsgUpdateRestrictions_AddDeny x))));
     ("vertix.rwa.v1.MsgUpdateRestrictions.del_deny", Ok (V_MsgUpdateRestrictions_7_list (list_view (MsgUpdateRestrictions_DelDeny x))))].

Definition MsgUpdateRestrictions_Set (fd : string) (v : value) (x : MsgUpdateRestrictions) : res MsgUpdateRestrictions :=
  fd_switch fd
    [("vertix.rwa.v1.MsgUpdateRestrictions.issuer", (v ← as_string v; Ok (MsgUpdateRestrictions_set_Issuer v x)));
     ("vertix.rwa.v1.MsgUpdateRestrictions.asset_id", (v ← as_string v; Ok (MsgUpdateRestrictions_set_AssetId v x)));
     ("vertix.rwa.v1.MsgUpdateRestrictions.allow_all", (v ← as_bool v; Ok (MsgUpdateRestrictions_set_AllowAll v x)));
     ("vertix.rwa.v1.MsgUpdateRestrictions.add_allow", (v ← as_MsgUpdateRestrictions_4_list v; Ok (MsgUpdateRestrictions_set_AddAllow v x)));
     ("vertix.rwa.v1.MsgUpdateRestrictions.del_allow", (v ← as_MsgUpdateRestrictions_5_list v; Ok (MsgUpdateRestrictions_set_DelAllow v x)));
     ("vertix.rwa.v1.MsgUpdateRestrictions.add_deny", (v ← as_MsgUpdateRestrictions_6_list v; Ok (MsgUpdateRestrictions_set_AddDeny v x)));
     ("vertix.rwa.v1.MsgUpdateRestrictions.del_deny", (v ← as_MsgUpdateRestrictions_7_list v; Ok (MsgUpdateRestrictions_set_DelDeny v x)))].

Definition MsgUpdateRestrictions_Mutable (fd : string) (x : MsgUpdateRestrictions) : res (MsgUpdateRestrictions * value) :=
  fd_switch fd
    [("vertix.rwa.v1.MsgUpdateRestrictions.add_allow", Ok (x, V_MsgUpdateRestrictions_4_list (Some (MsgUpdateRestrictions_AddAllow x))));
     ("vertix.rwa.v1.MsgUpdateRestrictions.del_allow", Ok (x, V_MsgUpdateRestrictions_5_list (Some (MsgUpdateRestrictions_DelAllow x))));
     ("vertix.rwa.v1.MsgUpdateRestrictions.add_deny", Ok (x, V_MsgUpdateRestrictions_6_list (Some (MsgUpdateRestrictions_AddDeny x))));
     ("vertix.rwa.v1.MsgUpdateRestrictions.del_deny", Ok (x, V_MsgUpdateRestrictions_7_list (Some (MsgUpdateRestrictions_DelDeny x))));
     ("vertix.rwa.v1.MsgUpdateRestrictions.issuer", Panic);
     ("vertix.rwa.v1.MsgUpdateRestrictions.asset_id", Panic);
     ("vertix.rwa.v1.MsgUpdateRestrictions.allow_all", Panic)].

Definition MsgUpdateRestrictions_NewField (fd : string) : res value :=
  fd_switch fd
    [("vertix.rwa.v1.MsgUpdateRestrictions.issuer", Ok (VString ""));
     ("vertix.rwa.v1.MsgUpdateRestrictions.asset_id", Ok (VString ""));
     ("vertix.rwa.v1.MsgUpdateRestrictions.allow_all", Ok (VBool false));
     ("vertix.rwa.v1.MsgUpdateRestrictions.add_allow", Ok (V_MsgUpdateRestrictions_4_list (Some [])));
     ("vertix.rwa.v1.MsgUpdateRestrictions.del_allow", Ok (V_MsgUpdateRestrictions_5_list (Some [])));
     ("vertix.rwa.v1.MsgUpdateRestrictions.add_deny", Ok (V_MsgUpdateRestrictions_6_list (Some [])));
     ("vertix.rwa.v1.MsgUpdateRestrictions.del_deny", Ok (V_MsgUpdateRestrictions_7_list (Some [])))].

Definition MsgUpdateRestrictions_size (o : option MsgUpdateRestrictions) : Z :=
  match o with
  | None => 0
  | Some x => pz_string (MsgUpdateRestrictions_Issuer x) + pz_string (MsgUpdateRestrictions_AssetId x) + pz_bool (MsgUpdateRestrictions_AllowAll x) + pz_strings (MsgUpdateRestrictions_AddAllow x) + pz_strings (MsgUpdateRestrictions_DelAllow x) + pz_strings (MsgUpdateRestrictions_AddDeny x) + pz_strings (MsgUpdateRestrictions_DelDeny x) + zlen (MsgUpdateRestrictions_unknownFields x)
  end.

Definition MsgUpdateRestrictions_marshal : bytes -> option MsgUpdateRestrictions -> res bytes :=
  pulsar_marshal MsgUpdateRestrictions_size (fun x w =>
    w ← pw_raw (MsgUpdateRestrictions_unknownFields x) w;
    w ← pw_strings x3a (MsgUpdateRestrictions_DelDeny x) w;
    w ← pw_strings x32 (MsgUpdateRestrictions_AddDeny x) w;
    w ← pw_strings x2a (MsgUpdateRestrictions_DelAllow x) w;
    w ← pw_strings x22 (MsgUpdateRestrictions_AddAllow x) w;
    w ← pw_bool x18 (MsgUpdateRestrictions_AllowAll x) w;
    w ← pw_string x12 (MsgUpdateRestrictions_AssetId x) w;
    pw_string x0a (MsgUpdateRestrictions_Issuer x) w).

Definition MsgUpdateRestrictions_unmarshal : bool -> bytes -> option MsgUpdateRestrictions -> res (option MsgUpdateRestrictions) :=
  pulsar_unmarshal (fun discard l fieldNum wireType x b =>
    match fieldNum with
    | 1 => Some ('(s, b) ← rd_string l wireType b; Ok (MsgUpdateRestrictions_set_Issuer s x, b))
    | 2 => Some ('(s, b) ← rd_string l wireType b; Ok (MsgUpdateRestrictions_set_AssetId s x, b))
    | 3 => Some ('(s, b) ← rd_bool wireType b; Ok (MsgUpdateRestrictions_set_AllowAll s x, b))
    | 4 => Some ('(s, b) ← rd_string l wireType b; Ok (MsgUpdateRestrictions_set_AddAllow (MsgUpdateRestrictions_AddAllow x ++ [s]) x, b))
    | 5 => Some ('(s, b) ← rd_string l wireType b; Ok (MsgUpdateRestrictions_set_DelAllow (MsgUpdateRestrictions_DelAllow x ++ [s]) x, b))
    | 6 => Some ('(s, b) ← rd_string l wireType b; Ok (MsgUpdateRestrictions_set_AddDeny (MsgUpdateRestrictions_AddDeny x ++ [s]) x, b))
    | 7 => Some ('(s, b) ← rd_string l wireType b; Ok (MsgUpdateRestrictions_set_DelDeny (MsgUpdateRestrictions_DelDeny x ++ [s]) x, b))
    | _ => None
    end) (fun s x => MsgUpdateRestrictions_set_unknownFields (MsgUpdateRestrictions_unknownFields x ++ s) x).

#[global] Instance MsgUpdateRestrictions_pulsar : PulsarMsg MsgUpdateRestrictions := {|
  pm_new := mkMsgUpdateRestrictions "" "" false [] [] [] [] [];
  pm_size := MsgUpdateRestrictions_size; pm_marshal := MsgUpdateRestrictions_marshal; pm_unmarshal := MsgUpdateRestrictions_unmarshal;
  pm_unknown := MsgUpdateRestrictions_unknownFields; pm_set_unknown := MsgUpdateRestrictions_set_unknownFields
|}.

#[global] Instance MsgUpdateRestrictions_reflect : Reflect MsgUpdateRestrictions value := {|
  r_new := mkMsgUpdateRestrictions "" "" false [] [] [] [] [];
  r_names := ["vertix.rwa.v1.MsgUpdateRestrictions.issuer";
    "vertix.rwa.v1.MsgUpdateRestrictions.asset_id";
    "vertix.rwa.v1.MsgUpdateRestrictions.allow_all";
    "vertix.rwa.v1.MsgUpdateRestrictions.add_allow";
    "vertix.rwa.v1.MsgUpdateRestrictions.del_allow";
    "vertix.rwa.v1.MsgUpdateRestrictions.add_deny";
    "vertix.rwa.v1.MsgUpdateRestrictions.del_deny"];
  r_Range := @MsgUpdateRestrictions_Range; r_Has := MsgUpdateRestrictions_Has; r_Clear := MsgUpdateRestrictions_Clear; r_Get := MsgUpdateRestrictions_Get;
  r_Set := MsgUpdateRestrictions_Set; r_Mutable := MsgUpdateRestrictions_Mutable; r_NewField := MsgUpdateRestrictions_NewField;
  r_SetUnknown := MsgUpdateRestrictions_set_unknownFields
|}.

#[global] Instance MsgUpdateRestrictions_schema : Schema MsgUpdateRestrictions := fun x =>
  [(1, FString (MsgUpdateRestrictions_Issuer x));
   (2, FString (MsgUpdateRestrictions_AssetId x));
   (3, FBool (MsgUpdateRestrictions_AllowAll x));
   (4, FStrings (MsgUpdateRestrictions_AddAllow x));
   (5, FStrings (MsgUpdateRestrictions_DelAllow x));
   (6, FStrings (MsgUpdateRestrictions_AddDeny x));
   (7, FStrings (MsgUpdateRestrictions_DelDeny x))].

#[global] Instance MsgUpdateRestrictions_strip : PulsarStrip MsgUpdateRestrictions := fun x =>
  mkMsgUpdateRestrictions (MsgUpdateRestrictions_Issuer x) (MsgUpdateRestrictions_AssetId x) (MsgUpdateRestrictions_AllowAll x) (MsgUpdateRestrictions_AddAllow x) (MsgUpdateRestrictions_DelAllow x) (MsgUpdateRestrictions_AddDeny x) (MsgUpdateRestrictions_DelDeny x) [].

(** *** [MsgUpdateRestrictionsResponse] *)

Definition MsgUpdateRestrictionsResponse_Range {S} (f : string -> value -> S -> bool * S) (x : MsgUpdateRestrictionsResponse) (s : S) : S :=
  s.

Definition MsgUpdateRestrictionsResponse_Has (fd : string) (x : MsgUpdateRestrictionsResponse) : res bool :=
  fd_switch fd [].

Definition MsgUpdateRestrictionsResponse_Clear (fd : string) (x : MsgUpdateRestrictionsResponse) : res MsgUpdateRestrictionsResponse :=
  fd_switch fd [].

Definition MsgUpdateRestrictionsResponse_Get (fd : string) (x : MsgUpdateRestrictionsResponse) : res value :=
  fd_switch fd [].

Definition MsgUpdateRestrictionsResponse_Set (fd : string) (v : value) (x : MsgUpdateRestrictionsResponse) : res MsgUpdateRestrictionsResponse :=
  fd_switch fd [].

Definition MsgUpdateRestrictionsResponse_Mutable (fd : string) (x : MsgUpdateRestrictionsResponse) : res (MsgUpdateRestrictionsResponse * value) :=
  fd_switch fd [].

Definition MsgUpdateRestrictionsResponse_NewField (fd : string) : res value :=
  fd_switch fd [].

Definition MsgUpdateRestrictionsResponse_size (o : option MsgUpdateRestrictionsResponse) : Z :=
  match o with
  | None => 0
  | Some x => zlen (MsgUpdateRestrictionsResponse_unknownFields x)
  end.

Definition MsgUpdateRestrictionsResponse_marshal : bytes -> option MsgUpdateRestrictionsResponse -> res bytes :=
  pulsar_marshal MsgUpdateRestrictionsResponse_size (fun x w =>
    pw_raw (MsgUpdateRestrictionsResponse_unknownFields x) w).

Definition MsgUpdateRestrictionsResponse_unmarshal : bool -> bytes -> option MsgUpdateRestrictionsResponse -> res (option MsgUpdateRestrictionsResponse) :=
  pulsar_unmarshal (fun discard l fieldNum wireType x b => None)
    (fun s x => MsgUpdateRestrictionsResponse_set_unknownFields (MsgUpdateRestrictionsResponse_unknownFields x ++ s) x).

#[global] Instance MsgUpdateRestrictionsResponse_pulsar : PulsarMsg MsgUpdateRestrictionsResponse := {|
  pm_new := mkMsgUpdateRestrictionsResponse [];
  pm_size := MsgUpdateRestrictionsResponse_size; pm_marshal := MsgUpdateRestrictionsResponse_marshal; pm_unmarshal := MsgUpdateRestrictionsResponse_unmarshal;
  pm_unknown := MsgUpdateRestrictionsResponse_unknownFields; pm_set_unknown := MsgUpdateRestrictionsResponse_set_unknownFields
|}.

#[global] Instance MsgUpdateRestrictionsResponse_reflect : Reflect MsgUpdateRestrictionsResponse value := {|
  r_new := mkMsgUpdateRestrictionsResponse [];
  r_names := [];
  r_Range := @MsgUpdateRestrictionsResponse_Range; r_Has := MsgUpdateRestrictionsResponse_Has; r_Clear := MsgUpdateRestrictionsResponse_Clear; r_Get := MsgUpdateRestrictionsResponse_Get;
  r_Set := MsgUpdateRestrictionsResponse_Set; r_Mutable := MsgUpdateRestrictionsResponse_Mutable; r_NewField := MsgUpdateRestrictionsResponse_NewField;
  r_SetUnknown := MsgUpdateRestrictionsResponse_set_unknownFields
|}.

#[global] Instance MsgUpdateRestrictionsResponse_schema : Schema MsgUpdateRestrictionsResponse := fun x =>
  [].

#[global] Instance MsgUpdateRestrictionsResponse_strip : PulsarStrip MsgUpdateRestrictionsResponse := fun x =>
  mkMsgUpdateRestrictionsResponse [].

(** *** [MsgSlashBond] *)

Definition MsgSlashBond_Range {S} (f : string -> value -> S -> bool * S) (x : MsgSlashBond) (s : S) : S :=
  visit f (str_set (MsgSlashBond_Authority x)) "vertix.rwa.v1.MsgSlashBond.authority" (VString (MsgSlashBond_Authority x)) (fun s =>
  visit f (str_set (MsgSlashBond_AssetId x)) "vertix.rwa.v1.MsgSlashBond.asset_id" (VString (MsgSlashBond_AssetId x)) (fun s =>
  visit f (str_set (MsgSlashBond_Reason x)) "vertix.rwa.v1.MsgSlashBond.reason" (VString (MsgSlashBond_Reason x)) (fun s => s) s) s) s.

Definition MsgSlashBond_Has (fd : string) (x : MsgSlashBond) : res bool :=
  fd_switch fd
    [("vertix.rwa.v1.MsgSlashBond.authority", Ok (str_set (MsgSlashBond_Authority x)));
     ("vertix.rwa.v1.MsgSlashBond.asset_id", Ok (str_set (MsgSlashBond_AssetId x)));
     ("vertix.rwa.v1.MsgSlashBond.reason", Ok (str_set (MsgSlashBond_Reason x)))].

Definition MsgSlashBond_Clear (fd : string) (x : MsgSlashBond) : res MsgSlashBond :=
  fd_switch fd
    [("vertix.rwa.v1.MsgSlashBond.authority", Ok (MsgSlashBond_set_Authority "" x));
     ("vertix.rwa.v1.MsgSlashBond.asset_id", Ok (MsgSlashBond_set_AssetId "" x));
     ("vertix.rwa.v1.MsgSlashBond.reason", Ok (MsgSlashBond_set_Reason "" x))].

Definition MsgSlashBond_Get (fd : string) (x : MsgSlashBond) : res value :=
  fd_switch fd
    [("vertix.rwa.v1.MsgSlashBond.authority", Ok (VString (MsgSlashBond_Authority x)));
     ("vertix.rwa.v1.MsgSlashBond.asset_id", Ok (VString (MsgSlashBond_AssetId x)));
     ("vertix.rwa.v1.MsgSlashBond.reason", Ok (VString (MsgSlashBond_Reason x)))].

Definition MsgSlashBond_Set (fd : string) (v : value) (x : MsgSlashBond) : res MsgSlashBond :=
  fd_switch fd
    [("vertix.rwa.v1.MsgSlashBond.authority", (v ← as_string v; Ok (MsgSlashBond_set_Authority v x)));
     ("vertix.rwa.v1.MsgSlashBond.asset_id", (v ← as_string v; Ok (MsgSlashBond_set_AssetId v x)));
     ("vertix.rwa.v1.MsgSlashBond.reason", (v ← as_string v; Ok (MsgSlashBond_set_Reason v x)))].

Definition MsgSlashBond_Mutable (fd : string) (x : MsgSlashBond) : res (MsgSlashBond * value) :=
  fd_switch fd
    [("vertix.rwa.v1.MsgSlashBond.authority", Panic);
     ("vertix.rwa.v1.MsgSlashBond.asset_id", Panic);
     ("vertix.rwa.v1.MsgSlashBond.reason", Panic)].

Definition MsgSlashBond_NewField (fd : string) : res value :=
  fd_switch fd
    [("vertix.rwa.v1.MsgSlashBond.authority", Ok (VString ""));
     ("vertix.rwa.v1.MsgSlashBond.asset_id", Ok (VString ""));
     ("vertix.rwa.v1.MsgSlashBond.reason", Ok (VString ""))].

Definition MsgSlashBond_size (o : option MsgSlashBond) : Z :=
  match o with
  | None => 0
  | Some x => pz_string (MsgSlashBond_Authority x) + pz_string (MsgSlashBond_AssetId x) + pz_string (MsgSlashBond_Reason x) + zlen (MsgSlashBond_unknownFields x)
  end.

Definition MsgSlashBond_marshal : bytes -> option MsgSlashBond -> res bytes :=
  pulsar_marshal MsgSlashBond_size (fun x w =>
    w ← pw_raw (MsgSlashBond_unknownFields x) w;
    w ← pw_string x1a (MsgSlashBond_Reason x) w;
    w ← pw_string x12 (MsgSlashBond_AssetId x) w;
    pw_string x0a (MsgSlashBond_Authority x) w).

Definition MsgSlashBond_unmarshal : bool -> bytes -> option MsgSlashBond -> res (option MsgSlashBond) :=
  pulsar_unmarshal (fun discard l fieldNum wireType x b =>
    match fieldNum with
    | 1 => Some ('(s, b) ← rd_string l wireType b; Ok (MsgSlashBond_set_Authority s x, b))
    | 2 => Some ('(s, b) ← rd_string l wireType b; Ok (MsgSlashBond_set_AssetId s x, b))
    | 3 => Some ('(s, b) ← rd_string l wireType b; Ok (MsgSlashBond_set_Reason s x, b))
    | _ => None
    end) (fun s x => MsgSlashBond_set_unknownFields (MsgSlashBond_unknownFields x ++ s) x).

#[global] Instance MsgSlashBond_pulsar : PulsarMsg MsgSlashBond := {|
  pm_new := mkMsgSlashBond "" "" "" [];
  pm_size := MsgSlashBond_size; pm_marshal := MsgSlashBond_marshal; pm_unmarshal := MsgSlashBond_unmarshal;
  pm_unknown := MsgSlashBond_unknownFields; pm_set_unknown := MsgSlashBond_set_unknownFields
|}.

#[global] Instance MsgSlashBond_reflect : Reflect MsgSlashBond value := {|
  r_new := mkMsgSlashBond "" "" "" [];
  r_names := ["vertix.rwa.v1.MsgSlashBond.authority";
    "vertix.rwa.v1.MsgSlashBond.asset_id";
    "vertix.rwa.v1.MsgSlashBond.reason"];
  r_Range := @MsgSlashBond_Range; r_Has := MsgSlashBond_Has; r_Clear := MsgSlashBond_Clear; r_Get := MsgSlashBond_Get;
  r_Set := MsgSlashBond_Set; r_Mutable := MsgSlashBond_Mutable; r_NewField := MsgSlashBond_NewField;
  r_SetUnknown := MsgSlashBond_set_unknownFields
|}.

#[global] Instance MsgSlashBond_schema : Schema MsgSlashBond := fun x =>
  [(1, FString (MsgSlashBond_Authority x));
   (2, FString (MsgSlashBond_AssetId x));
   (3, FString (MsgSlashBond_Reason x))].

#[global] Instance MsgSlashBond_strip : PulsarStrip MsgSlashBond := fun x =>
  mkMsgSlashBond (MsgSlashBond_Authority x) (MsgSlashBond_AssetId x) (MsgSlashBond_Reason x) [].

(** *** [MsgSlashBondResponse] *)

Definition MsgSlashBondResponse_Range {S} (f : string -> value -> S -> bool * S) (x : MsgSlashBondResponse) (s : S) : S :=
  s.

Definition MsgSlashBondResponse_Has (fd : string) (x : MsgSlashBondResponse) : res bool :=
  fd_switch fd [].

Definition MsgSlashBondResponse_Clear (fd : string) (x : MsgSlashBondResponse) : res MsgSlashBondResponse :=
  fd_switch fd [].

Definition MsgSlashBondResponse_Get (fd : string) (x : MsgSlashBondResponse) : res value :=
  fd_switch fd [].

Definition MsgSlashBondResponse_Set (fd : string) (v : value) (x : MsgSlashBondResponse) : res MsgSlashBondResponse :=
  fd_switch fd [].

Definition MsgSlashBondResponse_Mutable (fd : string) (x : MsgSlashBondResponse) : res (MsgSlashBondResponse * value) :=
  fd_switch fd [].

Definition MsgSlashBondResponse_NewField (fd : string) : res value :=
  fd_switch fd [].

Definition MsgSlashBondResponse_size (o : option MsgSlashBondResponse) : Z :=
  match o with
  | None => 0
  | Some x => zlen (MsgSlashBondResponse_unknownFields x)
  end.

Definition MsgSlashBondResponse_marshal : bytes -> option MsgSlashBondResponse -> res bytes :=
  pulsar_marshal MsgSlashBondResponse_size (fun x w =>
    pw_raw (MsgSlashBondResponse_unknownFields x) w).

Definition MsgSlashBondResponse_unmarshal : bool -> bytes -> option MsgSlashBondResponse -> res (option MsgSlashBondResponse) :=
  pulsar_unmarshal (fun discard l fieldNum wireType x b => None)
    (fun s x => MsgSlashBondResponse_set_unknownFields (MsgSlashBondResponse_unknownFields x ++ s) x).

#[global] Instance MsgSlashBondResponse_pulsar : PulsarMsg MsgSlashBondResponse := {|
  pm_new := mkMsgSlashBondResponse [];
  pm_size := MsgSlashBondResponse_size; pm_marshal := MsgSlashBondResponse_marshal; pm_unmarshal := MsgSlashBondResponse_unmarshal;
  pm_unknown := MsgSlashBondResponse_unknownFields; pm_set_unknown := MsgSlashBondResponse_set_unknownFields
|}.

#[global] Instance MsgSlashBondResponse_reflect : Reflect MsgSlashBondResponse value := {|
  r_new := mkMsgSlashBondResponse [];
  r_names := [];
  r_Range := @MsgSlashBondResponse_Range; r_Has := MsgSlashBondResponse_Has; r_Clear := MsgSlashBondResponse_Clear; r_Get := MsgSlashBondResponse_Get;
  r_Set := MsgSlashBondResponse_Set; r_Mutable := MsgSlashBondResponse_Mutable; r_NewField := MsgSlashBondResponse_NewField;
  r_SetUnknown := MsgSlashBondResponse_set_unknownFields
|}.

#[global] Instance MsgSlashBondResponse_schema : Schema MsgSlashBondResponse := fun x =>
  [].

#[global] Instance MsgSlashBondResponse_strip : PulsarStrip MsgSlashBondResponse := fun x =>
  mkMsgSlashBondResponse [].

(** *** [MsgUpdateParams] *)

Definition MsgUpdateParams_Range {S} (f : string -> value -> S -> bool * S) (x : MsgUpdateParams) (s : S) : S :=
  visit f (str_set (MsgUpdateParams_Authority x)) "vertix.rwa.v1.MsgUpdateParams.authority" (VString (MsgUpdateParams_Authority x)) (fun s =>
  visit f (ptr_set (MsgUpdateParams_Params x)) "vertix.rwa.v1.MsgUpdateParams.params" (VRWAParams (MsgUpdateParams_Params x)) (fun s => s) s) s.

Definition MsgUpdateParams_Has (fd : string) (x : MsgUpdateParams) : res bool :=
  fd_switch fd
    [("vertix.rwa.v1.MsgUpdateParams.authority", Ok (str_set (MsgUpdateParams_Authority x)));
     ("vertix.rwa.v1.MsgUpdateParams.params", Ok (ptr_set (MsgUpdateParams_Params x)))].

Definition MsgUpdateParams_Clear (fd : string) (x : MsgUpdateParams) : res MsgUpdateParams :=
  fd_switch fd
    [("vertix.rwa.v1.MsgUpdateParams.authority", Ok (MsgUpdateParams_set_Authority "" x));
     ("vertix.rwa.v1.MsgUpdateParams.params", Ok (MsgUpdateParams_set_Params None x))].

Definition MsgUpdateParams_Get (fd : string) (x : MsgUpdateParams) : res value :=
  fd_switch fd
    [("vertix.rwa.v1.MsgUpdateParams.authority", Ok (VString (MsgUpdateParams_Authority x)));
     ("vertix.rwa.v1.MsgUpdateParams.params", Ok (VRWAParams (MsgUpdateParams_Params x)))].

Definition MsgUpdateParams_Set (fd : string) (v : value) (x : MsgUpdateParams) : res MsgUpdateParams :=
  fd_switch fd
    [("vertix.rwa.v1.MsgUpdateParams.authority", (v ← as_string v; Ok (MsgUpdateParams_set_Authority v x)));
     ("vertix.rwa.v1.MsgUpdateParams.params", (v ← as_RWAParams v; Ok (MsgUpdateParams_set_Params v x)))].

Definition MsgUpdateParams_Mutable (fd : string) (x : MsgUpdateParams) : res (MsgUpdateParams * value) :=
  fd_switch fd
    [("vertix.rwa.v1.MsgUpdateParams.params", (let x := MsgUpdateParams_set_Params (Some (default pm_new (MsgUpdateParams_Params x))) x in Ok (x, VRWAParams (MsgUpdateParams_Params x))));
     ("vertix.rwa.v1.MsgUpdateParams.authority", Panic)].

Definition MsgUpdateParams_NewField (fd : string) : res value :=
  fd_switch fd
    [("vertix.rwa.v1.MsgUpdateParams.authority", Ok (VString ""));
     ("vertix.rwa.v1.MsgUpdateParams.params", Ok (VRWAParams (Some pm_new)))].

Definition MsgUpdateParams_size (o : option MsgUpdateParams) : Z :=
  match o with
  | None => 0
  | Some x => pz_string (MsgUpdateParams_Authority x) + pz_msg (MsgUpdateParams_Params x) + zlen (MsgUpdateParams_unknownFields x)
  end.

Definition MsgUpdateParams_marshal : bytes -> option MsgUpdateParams -> res bytes :=
  pulsar_marshal MsgUpdateParams_size (fun x w =>
    w ← pw_raw (MsgUpdateParams_unknownFields x) w;
    w ← pw_msg x12 (MsgUpdateParams_Params x) w;
    pw_string x0a (MsgUpdateParams_Authority x) w).

Definition MsgUpdateParams_unmarshal : bool -> bytes -> option MsgUpdateParams -> res (option MsgUpdateParams) :=
  pulsar_unmarshal (fun discard l fieldNum wireType x b =>
    match fieldNum with
    | 1 => Some ('(s, b) ← rd_string l wireType b; Ok (MsgUpdateParams_set_Authority s x, b))
    | 2 => Some ('(s, b) ← pr_msg discard (MsgUpdateParams_Params x) l wireType b; Ok (MsgUpdateParams_set_Params (Some s) x, b))
    | _ => None
    end) (fun s x => MsgUpdateParams_set_unknownFields (MsgUpdateParams_unknownFields x ++ s) x).

#[global] Instance MsgUpdateParams_pulsar : PulsarMsg MsgUpdateParams := {|
  pm_new := mkMsgUpdateParams "" None [];
  pm_size := MsgUpdateParams_size; pm_marshal := MsgUpdateParams_marshal; pm_unmarshal := MsgUpdateParams_unmarshal;
  pm_unknown := MsgUpdateParams_unknownFields; pm_set_unknown := MsgUpdateParams_set_unknownFields
|}.

#[global] Instance MsgUpdateParams_reflect : Reflect MsgUpdateParams value := {|
  r_new := mkMsgUpdateParams "" None [];
  r_names := ["vertix.rwa.v1.MsgUpdateParams.authority";
    "vertix.rwa.v1.MsgUpdateParams.params"];
  r_Range := @MsgUpdateParams_Range; r_Has := MsgUpdateParams_Has; r_Clear := MsgUpdateParams_Clear; r_Get := MsgUpdateParams_Get;
  r_Set := MsgUpdateParams_Set; r_Mutable := MsgUpdateParams_Mutable; r_NewField := MsgUpdateParams_NewField;
  r_SetUnknown := MsgUpdateParams_set_unknownFields
|}.

#[global] Instance MsgUpdateParams_schema : Schema MsgUpdateParams := fun x =>
  [(1, FString (MsgUpdateParams_Authority x));
   (2, FMsgs (ptr_fields (MsgUpdateParams_Params x)))].

#[global] Instance MsgUpdateParams_strip : PulsarStrip MsgUpdateParams := fun x =>
  mkMsgUpdateParams (MsgUpdateParams_Authority x) (pstrip true (MsgUpdateParams_Params x)) [].

(** *** [MsgUpdateParamsResponse] *)

Definition MsgUpdateParamsResponse_Range {S} (f : string -> value -> S -> bool * S) (x : MsgUpdateParamsResponse) (s : S) : S :=
  s.

Definition MsgUpdateParamsResponse_Has (fd : string) (x : MsgUpdateParamsResponse) : res bool :=
  fd_switch fd [].

Definition MsgUpdateParamsResponse_Clear (fd : string) (x : MsgUpdateParamsResponse) : res MsgUpdateParamsResponse :=
  fd_switch fd [].

Definition MsgUpdateParamsResponse_Get (fd : string) (x : MsgUpdateParamsResponse) : res value :=
  fd_switch fd [].

Definition MsgUpdateParamsResponse_Set (fd : string) (v : value) (x : MsgUpdateParamsResponse) : res MsgUpdateParamsResponse :=
  fd_switch fd [].

Definition MsgUpdateParamsResponse_Mutable (fd : string) (x : MsgUpdateParamsResponse) : res (MsgUpdateParamsResponse * value) :=
  fd_switch fd [].

Definition MsgUpdateParamsResponse_NewField (fd : string) : res value :=
  fd_switch fd [].

Definition MsgUpdateParamsResponse_size (o : option MsgUpdateParamsResponse) : Z :=
  match o with
  | None => 0
  | Some x => zlen (MsgUpdateParamsResponse_unknownFields x)
  end.

Definition MsgUpdateParamsResponse_marshal : bytes -> option MsgUpdateParamsResponse -> res bytes :=
  pulsar_marshal MsgUpdateParamsResponse_size (fun x w =>
    pw_raw (MsgUpdateParamsResponse_unknownFields x) w).

Definition MsgUpdateParamsResponse_unmarshal : bool -> bytes -> option MsgUpdateParamsResponse -> res (option MsgUpdateParamsResponse) :=
  pulsar_unmarshal (fun discard l fieldNum wireType x b => None)
    (fun s x => MsgUpdateParamsResponse_set_unknownFields (MsgUpdateParamsResponse_unknownFields x ++ s) x).

#[global] Instance MsgUpdateParamsResponse_pulsar : PulsarMsg MsgUpdateParamsResponse := {|
  pm_new := mkMsgUpdateParamsResponse [];
  pm_size := MsgUpdateParamsResponse_size; pm_marshal := MsgUpdateParamsResponse_marshal; pm_unmarshal := MsgUpdateParamsResponse_unmarshal;
  pm_unknown := MsgUpdateParamsResponse_unknownFields; pm_set_unknown := MsgUpdateParamsResponse_set_unknownFields
|}.

#[global] Instance MsgUpdateParamsResponse_reflect : Reflect MsgUpdateParamsResponse value := {|
  r_new := mkMsgUpdateParamsResponse [];
  r_names := [];
  r_Range := @MsgUpdateParamsResponse_Range; r_Has := MsgUpdateParamsResponse_Has; r_Clear := MsgUpdateParamsResponse_Clear; r_Get := MsgUpdateParamsResponse_Get;
  r_Set := MsgUpdateParamsResponse_Set; r_Mutable := MsgUpdateParamsResponse_Mutable; r_NewField := MsgUpdateParamsResponse_NewField;
  r_SetUnknown := MsgUpdateParamsResponse_set_unknownFields
|}.

#[global] Instance MsgUpdateParamsResponse_schema : Schema MsgUpdateParamsResponse := fun x =>
  [].

#[global] Instance MsgUpdateParamsResponse_strip : PulsarStrip MsgUpdateParamsResponse := fun x =>
  mkMsgUpdateParamsResponse [].

(** *** [QueryAssetRequest] *)

Definition QueryAssetRequest_Range {S} (f : string -> value -> S -> bool * S) (x : QueryAssetRequest) (s : S) : S :=
  visit f (str_set (QueryAssetRequest_AssetId x)) "vertix.rwa.v1.QueryAssetRequest.asset_id" (VString (QueryAssetRequest_AssetId x)) (fun s => s) s.

Definition QueryAssetRequest_Has (fd : string) (x : QueryAssetRequest) : res bool :=
  fd_switch fd
    [("vertix.rwa.v1.QueryAssetRequest.asset_id", Ok (str_set (QueryAssetRequest_AssetId x)))].

Definition QueryAssetRequest_Clear (fd : string) (x : QueryAssetRequest) : res QueryAssetRequest :=
  fd_switch fd
    [("vertix.rwa.v1.QueryAssetRequest.asset_id", Ok (QueryAssetRequest_set_AssetId "" x))].

Definition QueryAssetRequest_Get (fd : string) (x : QueryAssetRequest) : res value :=
  fd_switch fd
    [("vertix.rwa.v1.QueryAssetRequest.asset_id", Ok (VString (QueryAssetRequest_AssetId x)))].

Definition QueryAssetRequest_Set (fd : string) (v : value) (x : QueryAssetRequest) : res QueryAssetRequest :=
  fd_switch fd
    [("vertix.rwa.v1.QueryAssetRequest.asset_id", (v ← as_string v; Ok (QueryAssetRequest_set_AssetId v x)))].

Definition QueryAssetRequest_Mutable (fd : string) (x : QueryAssetRequest) : res (QueryAssetRequest * value) :=
  fd_switch fd
    [("vertix.rwa.v1.QueryAssetRequest.asset_id", Panic)].

Definition QueryAssetRequest_NewField (fd : string) : res value :=
  fd_switch fd
    [("vertix.rwa.v1.QueryAssetRequest.asset_id", Ok (VString ""))].

Definition QueryAssetRequest_size (o : option QueryAssetRequest) : Z :=
  match o with
  | None => 0
  | Some x => pz_string (QueryAssetRequest_AssetId x) + zlen (QueryAssetRequest_unknownFields x)
  end.

Definition QueryAssetRequest_marshal : bytes -> option QueryAssetRequest -> res bytes :=
  pulsar_marshal QueryAssetRequest_size (fun x w =>
    w ← pw_raw (QueryAssetRequest_unknownFields x) w;
    pw_string x0a (QueryAssetRequest_AssetId x) w).

Definition QueryAssetRequest_unmarshal : bool -> bytes -> option QueryAssetRequest -> res (option QueryAssetRequest) :=
  pulsar_unmarshal (fun discard l fieldNum wireType x b =>
    match fieldNum with
    | 1 => Some ('(s, b) ← rd_string l wireType b; Ok (QueryAssetRequest_set_AssetId s x, b))
    | _ => None
    end) (fun s x => QueryAssetRequest_set_unknownFields (QueryAssetRequest_unknownFields x ++ s) x).

#[global] Instance QueryAssetRequest_pulsar : PulsarMsg QueryAssetRequest := {|
  pm_new := mkQueryAssetRequest "" [];
  pm_size := QueryAssetRequest_size; pm_marshal := QueryAssetRequest_marshal; pm_unmarshal := QueryAssetRequest_unmarshal;
  pm_unknown := QueryAssetRequest_unknownFields; pm_set_unknown := QueryAssetRequest_set_unknownFields
|}.

#[global] Instance QueryAssetRequest_reflect : Reflect QueryAssetRequest value := {|
  r_new := mkQueryAssetRequest "" [];
  r_names := ["vertix.rwa.v1.QueryAssetRequest.asset_id"];
  r_Range := @QueryAssetRequest_Range; r_Has := QueryAssetRequest_Has; r_Clear := QueryAssetRequest_Clear; r_Get := QueryAssetRequest_Get;
  r_Set := QueryAssetRequest_Set; r_Mutable := QueryAssetRequest_Mutable; r_NewField := QueryAssetRequest_NewField;
  r_SetUnknown := QueryAssetRequest_set_unknownFields
|}.

#[global] Instance QueryAssetRequest_schema : Schema QueryAssetRequest := fun x =>
  [(1, FString (QueryAssetRequest_AssetId x))].

#[global] Instance QueryAssetRequest_strip : PulsarStrip QueryAssetRequest := fun x =>
  mkQueryAssetRequest (QueryAssetRequest_AssetId x) [].

(** *** [QueryAssetResponse] *)

Definition QueryAssetResponse_Range {S} (f : string -> value -> S -> bool * S) (x : QueryAssetResponse) (s : S) : S :=
  visit f (ptr_set (QueryAssetResponse_Asset x)) "vertix.rwa.v1.QueryAssetResponse.asset" (VAssetRecord (QueryAssetResponse_Asset x)) (fun s => s) s.

Definition QueryAssetResponse_Has (fd : string) (x : QueryAssetResponse) : res bool :=
  fd_switch fd
    [("vertix.rwa.v1.QueryAssetResponse.asset", Ok (ptr_set (QueryAssetResponse_Asset x)))].

Definition QueryAssetResponse_Clear (fd : string) (x : QueryAssetResponse) : res QueryAssetResponse :=
  fd_switch fd
    [("vertix.rwa.v1.QueryAssetResponse.asset", Ok (QueryAssetResponse_set_Asset None x))].

Definition QueryAssetResponse_Get (fd : string) (x : QueryAssetResponse) : res value :=
  fd_switch fd
    [("vertix.rwa.v1.QueryAssetResponse.asset", Ok (VAssetRecord (QueryAssetResponse_Asset x)))].

Definition QueryAssetResponse_Set (fd : string) (v : value) (x : QueryAssetResponse) : res QueryAssetResponse :=
  fd_switch fd
    [("vertix.rwa.v1.QueryAssetResponse.asset", (v ← as_AssetRecord v; Ok (QueryAssetResponse_set_Asset v x)))].

Definition QueryAssetResponse_Mutable (fd : string) (x : QueryAssetResponse) : res (QueryAssetResponse * value) :=
  fd_switch fd
    [("vertix.rwa.v1.QueryAssetResponse.asset", (let x := QueryAssetResponse_set_Asset (Some (default pm_new (QueryAssetResponse_Asset x))) x in Ok (x, VAssetRecord (QueryAssetResponse_Asset x))))].

Definition QueryAssetResponse_NewField (fd : string) : res value :=
  fd_switch fd
    [("vertix.rwa.v1.QueryAssetResponse.asset", Ok (VAssetRecord (Some pm_new)))].

Definition QueryAssetResponse_size (o : option QueryAssetResponse) : Z :=
  match o with
  | None => 0
  | Some x => pz_msg (QueryAssetResponse_Asset x) + zlen (QueryAssetResponse_unknownFields x)
  end.

Definition QueryAssetResponse_marshal : bytes -> option QueryAssetResponse -> res bytes :=
  pulsar_marshal QueryAssetResponse_size (fun x w =>
    w ← pw_raw (QueryAssetResponse_unknownFields x) w;
    pw_msg x0a (QueryAssetResponse_Asset x) w).

Definition QueryAssetResponse_unmarshal : bool -> bytes -> option QueryAssetResponse -> res (option QueryAssetResponse) :=
  pulsar_unmarshal (fun discard l fieldNum wireType x b =>
    match fieldNum with
    | 1 => Some ('(s, b) ← pr_msg discard (QueryAssetResponse_Asset x) l wireType b; Ok (QueryAssetResponse_set_Asset (Some s) x, b))
    | _ => None
    end) (fun s x => QueryAssetResponse_set_unknownFields (QueryAssetResponse_unknownFields x ++ s) x).

#[global] Instance QueryAssetResponse_pulsar : PulsarMsg QueryAssetResponse := {|
  pm_new := mkQueryAssetResponse None [];
  pm_size := QueryAssetResponse_size; pm_marshal := QueryAssetResponse_marshal; pm_unmarshal := QueryAssetResponse_unmarshal;
  pm_unknown := QueryAssetResponse_unknownFields; pm_set_unknown := QueryAssetResponse_set_unknownFields
|}.

#[global] Instance QueryAssetResponse_reflect : Reflect QueryAssetResponse value := {|
  r_new := mkQueryAssetResponse None [];
  r_names := ["vertix.rwa.v1.QueryAssetResponse.asset"];
  r_Range := @QueryAssetResponse_Range; r_Has := QueryAssetResponse_Has; r_Clear := QueryAssetResponse_Clear; r_Get := QueryAssetResponse_Get;
  r_Set := QueryAssetResponse_Set; r_Mutable := QueryAssetResponse_Mutable; r_NewField := QueryAssetResponse_NewField;
  r_SetUnknown := QueryAssetResponse_set_unknownFields
|}.

#[global] Instance QueryAssetResponse_schema : Schema QueryAssetResponse := fun x =>
  [(1, FMsgs (ptr_fields (QueryAssetResponse_Asset x)))].

#[global] Instance QueryAssetResponse_strip : PulsarStrip QueryAssetResponse := fun x =>
  mkQueryAssetResponse (pstrip true (QueryAssetResponse_Asset x)) [].

(** *** [QueryAssetsByIssuerRequest] *)

Definition QueryAssetsByIssuerRequest_Range {S} (f : string -> value -> S -> bool * S) (x : QueryAssetsByIssuerRequest) (s : S) : S :=
  visit f (str_set (QueryAssetsByIssuerRequest_Issuer x)) "vertix.rwa.v1.QueryAssetsByIssuerRequest.issuer" (VString (QueryAssetsByIssuerRequest_Issuer x)) (fun s =>
  visit f (ptr_set (QueryAssetsByIssuerRequest_Pagination x)) "vertix.rwa.v1.QueryAssetsByIssuerRequest.pagination" (VPageRequest (QueryAssetsByIssuerRequest_Pagination x)) (fun s => s) s) s.

Definition QueryAssetsByIssuerRequest_Has (fd : string) (x : QueryAssetsByIssuerRequest) : res bool :=
  fd_switch fd
    [("vertix.rwa.v1.QueryAssetsByIssuerRequest.issuer", Ok (str_set (QueryAssetsByIssuerRequest_Issuer x)));
     ("vertix.rwa.v1.QueryAssetsByIssuerRequest.pagination", Ok (ptr_set (QueryAssetsByIssuerRequest_Pagination x)))].

Definition QueryAssetsByIssuerRequest_Clear (fd : string) (x : QueryAssetsByIssuerRequest) : res QueryAssetsByIssuerRequest :=
  fd_switch fd
    [("vertix.rwa.v1.QueryAssetsByIssuerRequest.issuer", Ok (QueryAssetsByIssuerRequest_set_Issuer "" x));
     ("vertix.rwa.v1.QueryAssetsByIssuerRequest.pagination", Ok (QueryAssetsByIssuerRequest_set_Pagination None x))].

Definition QueryAssetsByIssuerRequest_Get (fd : string) (x : QueryAssetsByIssuerRequest) : res value :=
  fd_switch fd
    [("vertix.rwa.v1.QueryAssetsByIssuerRequest.issuer", Ok (VString (QueryAssetsByIssuerRequest_Issuer x)));
     ("vertix.rwa.v1.QueryAssetsByIssuerRequest.pagination", Ok (VPageRequest (QueryAssetsByIssuerRequest_Pagination x)))].

Definition QueryAssetsByIssuerRequest_Set (fd : string) (v : value) (x : QueryAssetsByIssuerRequest) : res QueryAssetsByIssuerRequest :=
  fd_switch fd
    [("vertix.rwa.v1.QueryAssetsByIssuerRequest.issuer", (v ← as_string v; Ok (QueryAssetsByIssuerRequest_set_Issuer v x)));
     ("vertix.rwa.v1.QueryAssetsByIssuerRequest.pagination", (v ← as_PageRequest v; Ok (QueryAssetsByIssuerRequest_set_Pagination v x)))].

Definition QueryAssetsByIssuerRequest_Mutable (fd : string) (x : QueryAssetsByIssuerRequest) : res (QueryAssetsByIssuerRequest * value) :=
  fd_switch fd
    [("vertix.rwa.v1.QueryAssetsByIssuerRequest.pagination", (let x := QueryAssetsByIssuerRequest_set_Pagination (Some (default pm_new (QueryAssetsByIssuerRequest_Pagination x))) x in Ok (x, VPageRequest (QueryAssetsByIssuerRequest_Pagination x))));
     ("vertix.rwa.v1.QueryAssetsByIssuerRequest.issuer", Panic)].

Definition QueryAssetsByIssuerRequest_NewField (fd : string) : res value :=
  fd_switch fd
    [("vertix.rwa.v1.QueryAssetsByIssuerRequest.issuer", Ok (VString ""));
     ("vertix.rwa.v1.QueryAssetsByIssuerRequest.pagination", Ok (VPageRequest (Some pm_new)))].

Definition QueryAssetsByIssuerRequest_size (o : option QueryAssetsByIssuerRequest) : Z :=
  match o with
  | None => 0
  | Some x => pz_string (QueryAssetsByIssuerRequest_Issuer x) + pz_msg (QueryAssetsByIssuerRequest_Pagination x) + zlen (QueryAssetsByIssuerRequest_unknownFields x)
  end.

Definition QueryAssetsByIssuerRequest_marshal : bytes -> option QueryAssetsByIssuerRequest -> res bytes :=
  pulsar_marshal QueryAssetsByIssuerRequest_size (fun x w =>
    w ← pw_raw (QueryAssetsByIssuerRequest_unknownFields x) w;
    w ← pw_msg x12 (QueryAssetsByIssuerRequest_Pagination x) w;
    pw_string x0a (QueryAssetsByIssuerRequest_Issuer x) w).

Definition QueryAssetsByIssuerRequest_unmarshal : bool -> bytes -> option QueryAssetsByIssuerRequest -> res (option QueryAssetsByIssuerRequest) :=
  pulsar_unmarshal (fun discard l fieldNum wireType x b =>
    match fieldNum with
    | 1 => Some ('(s, b) ← rd_string l wireType b; Ok (QueryAssetsByIssuerRequest_set_Issuer s x, b))
    | 2 => Some ('(s, b) ← pr_msg discard (QueryAssetsByIssuerRequest_Pagination x) l wireType b; Ok (QueryAssetsByIssuerRequest_set_Pagination (Some s) x, b))
    | _ => None
    end) (fun s x => QueryAssetsByIssuerRequest_set_unknownFields (QueryAssetsByIssuerRequest_unknownFields x ++ s) x).

#[global] Instance QueryAssetsByIssuerRequest_pulsar : PulsarMsg QueryAssetsByIssuerRequest := {|
  pm_new := mkQueryAssetsByIssuerRequest "" None [];
  pm_size := QueryAssetsByIssuerRequest_size; pm_marshal := QueryAssetsByIssuerRequest_marshal; pm_unmarshal := QueryAssetsByIssuerRequest_unmarshal;
  pm_unknown := QueryAssetsByIssuerRequest_unknownFields; pm_set_unknown := QueryAssetsByIssuerRequest_set_unknownFields
|}.

#[global] Instance QueryAssetsByIssuerRequest_reflect : Reflect QueryAssetsByIssuerRequest value := {|
  r_new := mkQueryAssetsByIssuerRequest "" None [];
  r_names := ["vertix.rwa.v1.QueryAssetsByIssuerRequest.issuer";
    "vertix.rwa.v1.QueryAssetsByIssuerRequest.pagination"];
  r_Range := @QueryAssetsByIssuerRequest_Range; r_Has := QueryAssetsByIssuerRequest_Has; r_Clear := QueryAssetsByIssuerRequest_Clear; r_Get := QueryAssetsByIssuerRequest_Get;
  r_Set := QueryAssetsByIssuerRequest_Set; r_Mutable := QueryAssetsByIssuerRequest_Mutable; r_NewField := QueryAssetsByIssuerRequest_NewField;
  r_SetUnknown := QueryAssetsByIssuerRequest_set_unknownFields
|}.

#[global] Instance QueryAssetsByIssuerRequest_schema : Schema QueryAssetsByIssuerRequest := fun x =>
  [(1, FString (QueryAssetsByIssuerRequest_Issuer x));
   (2, FMsgs (ptr_fields (QueryAssetsByIssuerRequest_Pagination x)))].

#[global] Instance QueryAssetsByIssuerRequest_strip : PulsarStrip QueryAssetsByIssuerRequest := fun x =>
  mkQueryAssetsByIssuerRequest (QueryAssetsByIssuerRequest_Issuer x) (pstrip true (QueryAssetsByIssuerRequest_Pagination x)) [].

(** *** [QueryAssetsByIssuerResponse] *)

Definition QueryAssetsByIssuerResponse_Range {S} (f : string -> value -> S -> bool * S) (x : QueryAssetsByIssuerResponse) (s : S) : S :=
  visit f (list_set (QueryAssetsByIssuerResponse_Assets x)) "vertix.rwa.v1.QueryAssetsByIssuerResponse.assets" (V_QueryAssetsByIssuerResponse_1_list (Some (QueryAssetsByIssuerResponse_Assets x))) (fun s =>
  visit f (ptr_set (QueryAssetsByIssuerResponse_Pagination x)) "vertix.rwa.v1.QueryAssetsByIssuerResponse.pagination" (VPageResponse (QueryAssetsByIssuerResponse_Pagination x)) (fun s => s) s) s.

Definition QueryAssetsByIssuerResponse_Has (fd : string) (x : QueryAssetsByIssuerResponse) : res bool :=
  fd_switch fd
    [("vertix.rwa.v1.QueryAssetsByIssuerResponse.assets", Ok (list_set (QueryAssetsByIssuerResponse_Assets x)));
     ("vertix.rwa.v1.QueryAssetsByIssuerResponse.pagination", Ok (ptr_set (QueryAssetsByIssuerResponse_Pagination x)))].

Definition QueryAssetsByIssuerResponse_Clear (fd : string) (x : QueryAssetsByIssuerResponse) : res QueryAssetsByIssuerResponse :=
  fd_switch fd
    [("vertix.rwa.v1.QueryAssetsByIssuerResponse.assets", Ok (QueryAssetsByIssuerResponse_set_Assets [] x));
     ("vertix.rwa.v1.QueryAssetsByIssuerResponse.pagination", Ok (QueryAssetsByIssuerResponse_set_Pagination None x))].

Definition QueryAssetsByIssuerResponse_Get (fd : string) (x : QueryAssetsByIssuerResponse) : res value :=
  fd_switch fd
    [("vertix.rwa.v1.QueryAssetsByIssuerResponse.assets", Ok (V_QueryAssetsByIssuerResponse_1_list (list_view (QueryAssetsByIssuerResponse_Assets x))));
     ("vertix.rwa.v1.QueryAssetsByIssuerResponse.pagination", Ok (VPageResponse (QueryAssetsByIssuerResponse_Pagination x)))].

Definition QueryAssetsByIssuerResponse_Set (fd : string) (v : value) (x : QueryAssetsByIssuerResponse) : res QueryAssetsByIssuerResponse :=
  fd_switch fd
    [("vertix.rwa.v1.QueryAssetsByIssuerResponse.assets", (v ← as_QueryAssetsByIssuerResponse_1_list v; Ok (QueryAssetsByIssuerResponse_set_Assets v x)));
     ("vertix.rwa.v1.QueryAssetsByIssuerResponse.pagination", (v ← as_PageResponse v; Ok (QueryAssetsByIssuerResponse_set_Pagination v x)))].

Definition QueryAssetsByIssuerResponse_Mutable (fd : string) (x : QueryAssetsByIssuerResponse) : res (QueryAssetsByIssuerResponse * value) :=
  fd_switch fd
    [("vertix.rwa.v1.QueryAssetsByIssuerResponse.assets", Ok (x, V_QueryAssetsByIssuerResponse_1_list (Some (QueryAssetsByIssuerResponse_Assets x))));
     ("vertix.rwa.v1.QueryAssetsByIssuerResponse.pagination", (let x := QueryAssetsByIssuerResponse_set_Pagination (Some (default pm_new (QueryAssetsByIssuerResponse_Pagination x))) x in Ok (x, VPageResponse (QueryAssetsByIssuerResponse_Pagination x))))].

Definition QueryAssetsByIssuerResponse_NewField (fd : string) : res value :=
  fd_switch fd
    [("vertix.rwa.v1.QueryAssetsByIssuerResponse.assets", Ok (V_QueryAssetsByIssuerResponse_1_list (Some [])));
     ("vertix.rwa.v1.QueryAssetsByIssuerResponse.pagination", Ok (VPageResponse (Some pm_new)))].

Definition QueryAssetsByIssuerResponse_size (o : option QueryAssetsByIssuerResponse) : Z :=
  match o with
  | None => 0
  | Some x => pz_msgs (QueryAssetsByIssuerResponse_Assets x) + pz_msg (QueryAssetsByIssuerResponse_Pagination x) + zlen (QueryAssetsByIssuerResponse_unknownFields x)
  end.

Definition QueryAssetsByIssuerResponse_marshal : bytes -> option QueryAssetsByIssuerResponse -> res bytes :=
  pulsar_marshal QueryAssetsByIssuerResponse_size (fun x w =>
    w ← pw_raw (QueryAssetsByIssuerResponse_unknownFields x) w;
    w ← pw_msg x12 (QueryAssetsByIssuerResponse_Pagination x) w;
    pw_msgs x0a (QueryAssetsByIssuerResponse_Assets x) w).

Definition QueryAssetsByIssuerResponse_unmarshal : bool -> bytes -> option QueryAssetsByIssuerResponse -> res (option QueryAssetsByIssuerResponse) :=
  pulsar_unmarshal (fun discard l fieldNum wireType x b =>
    match fieldNum with
    | 1 => Some ('(s, b) ← pr_msg discard None l wireType b; Ok (QueryAssetsByIssuerResponse_set_Assets (QueryAssetsByIssuerResponse_Assets x ++ [Some s]) x, b))
    | 2 => Some ('(s, b) ← pr_msg discard (QueryAssetsByIssuerResponse_Pagination x) l wireType b; Ok (QueryAssetsByIssuerResponse_set_Pagination (Some s) x, b))
    | _ => None
    end) (fun s x => QueryAssetsByIssuerResponse_set_unknownFields (QueryAssetsByIssuerResponse_unknownFields x ++ s) x).

#[global] Instance QueryAssetsByIssuerResponse_pulsar : PulsarMsg QueryAssetsByIssuerResponse := {|
  pm_new := mkQueryAssetsByIssuerResponse [] None [];
  pm_size := QueryAssetsByIssuerResponse_size; pm_marshal := QueryAssetsByIssuerResponse_marshal; pm_unmarshal := QueryAssetsByIssuerResponse_unmarshal;
  pm_unknown := QueryAssetsByIssuerResponse_unknownFields; pm_set_unknown := QueryAssetsByIssuerResponse_set_unknownFields
|}.

#[global] Instance QueryAssetsByIssuerResponse_reflect : Reflect QueryAssetsByIssuerResponse value := {|
  r_new := mkQueryAssetsByIssuerResponse [] None [];
  r_names := ["vertix.rwa.v1.QueryAssetsByIssuerResponse.assets";
    "vertix.rwa.v1.QueryAssetsByIssuerResponse.pagination"];
  r_Range := @QueryAssetsByIssuerResponse_Range; r_Has := QueryAssetsByIssuerResponse_Has; r_Clear := QueryAssetsByIssuerResponse_Clear; r_Get := QueryAssetsByIssuerResponse_Get;
  r_Set := QueryAssetsByIssuerResponse_Set; r_Mutable := QueryAssetsByIssuerResponse_Mutable; r_NewField := QueryAssetsByIssuerResponse_NewField;
  r_SetUnknown := QueryAssetsByIssuerResponse_set_unknownFields
|}.

#[global] Instance QueryAssetsByIssuerResponse_schema : Schema QueryAssetsByIssuerResponse := fun x =>
  [(1, FMsgs (elem_fields <$> (QueryAssetsByIssuerResponse_Assets x)));
   (2, FMsgs (ptr_fields (QueryAssetsByIssuerResponse_Pagination x)))].

#[global] Instance QueryAssetsByIssuerResponse_strip : PulsarStrip QueryAssetsByIssuerResponse := fun x =>
  mkQueryAssetsByIssuerResponse (pstrips true (QueryAssetsByIssuerResponse_Assets x)) (pstrip true (QueryAssetsByIssuerResponse_Pagination x)) [].

(** *** [QueryRestrictionsRequest] *)

Definition QueryRestrictionsRequest_Range {S} (f : string -> value -> S -> bool * S) (x : QueryRestrictionsRequest) (s : S) : S :=
  visit f (str_set (QueryRestrictionsRequest_AssetId x)) "vertix.rwa.v1.QueryRestrictionsRequest.asset_id" (VString (QueryRestrictionsRequest_AssetId x)) (fun s => s) s.

Definition QueryRestrictionsRequest_Has (fd : string) (x : QueryRestrictionsRequest) : res bool :=
  fd_switch fd
    [("vertix.rwa.v1.QueryRestrictionsRequest.asset_id", Ok (str_set (QueryRestrictionsRequest_AssetId x)))].

Definition QueryRestrictionsRequest_Clear (fd : string) (x : QueryRestrictionsRequest) : res QueryRestrictionsRequest :=
  fd_switch fd
    [("vertix.rwa.v1.QueryRestrictionsRequest.asset_id", Ok (QueryRestrictionsRequest_set_AssetId "" x))].

Definition QueryRestrictionsRequest_Get (fd : string) (x : QueryRestrictionsRequest) : res value :=
  fd_switch fd
    [("vertix.rwa.v1.QueryRestrictionsRequest.asset_id", Ok (VString (QueryRestrictionsRequest_AssetId x)))].

Definition QueryRestrictionsRequest_Set (fd : string) (v : value) (x : QueryRestrictionsRequest) : res QueryRestrictionsRequest :=
  fd_switch fd
    [("vertix.rwa.v1.QueryRestrictionsRequest.asset_id", (v ← as_string v; Ok (QueryRestrictionsRequest_set_AssetId v x)))].

Definition QueryRestrictionsRequest_Mutable (fd : string) (x : QueryRestrictionsRequest) : res (QueryRestrictionsRequest * value) :=
  fd_switch fd
    [("vertix.rwa.v1.QueryRestrictionsRequest.asset_id", Panic)].

Definition QueryRestrictionsRequest_NewField (fd : string) : res value :=
  fd_switch fd
    [("vertix.rwa.v1.QueryRestrictionsRequest.asset_id", Ok (VString ""))].

Definition QueryRestrictionsRequest_size (o : option QueryRestrictionsRequest) : Z :=
  match o with
  | None => 0
  | Some x => pz_string (QueryRestrictionsRequest_AssetId x) + zlen (QueryRestrictionsRequest_unknownFields x)
  end.

Definition QueryRestrictionsRequest_marshal : bytes -> option QueryRestrictionsRequest -> res bytes :=
  pulsar_marshal QueryRestrictionsRequest_size (fun x w =>
    w ← pw_raw (QueryRestrictionsRequest_unknownFields x) w;
    pw_string x0a (QueryRestrictionsRequest_AssetId x) w).

Definition QueryRestrictionsRequest_unmarshal : bool -> bytes -> option QueryRestrictionsRequest -> res (option QueryRestrictionsRequest) :=
  pulsar_unmarshal (fun discard l fieldNum wireType x b =>
    match fieldNum with
    | 1 => Some ('(s, b) ← rd_string l wireType b; Ok (QueryRestrictionsRequest_set_AssetId s x, b))
    | _ => None
    end) (fun s x => QueryRestrictionsRequest_set_unknownFields (QueryRestrictionsRequest_unknownFields x ++ s) x).

#[global] Instance QueryRestrictionsRequest_pulsar : PulsarMsg QueryRestrictionsRequest := {|
  pm_new := mkQueryRestrictionsRequest "" [];
  pm_size := QueryRestrictionsRequest_size; pm_marshal := QueryRestrictionsRequest_marshal; pm_unmarshal := QueryRestrictionsRequest_unmarshal;
  pm_unknown := QueryRestrictionsRequest_unknownFields; pm_set_unknown := QueryRestrictionsRequest_set_unknownFields
|}.

#[global] Instance QueryRestrictionsRequest_reflect : Reflect QueryRestrictionsRequest value := {|
  r_new := mkQueryRestrictionsRequest "" [];
  r_names := ["vertix.rwa.v1.QueryRestrictionsRequest.asset_id"];
  r_Range := @QueryRestrictionsRequest_Range; r_Has := QueryRestrictionsRequest_Has; r_Clear := QueryRestrictionsRequest_Clear; r_Get := QueryRestrictionsRequest_Get;
  r_Set := QueryRestrictionsRequest_Set; r_Mutable := QueryRestrictionsRequest_Mutable; r_NewField := QueryRestrictionsRequest_NewField;
  r_SetUnknown := QueryRestrictionsRequest_set_unknownFields
|}.

#[global] Instance QueryRestrictionsRequest_schema : Schema QueryRestrictionsRequest := fun x =>
  [(1, FString (QueryRestrictionsRequest_AssetId x))].

#[global] Instance QueryRestrictionsRequest_strip : PulsarStrip QueryRestrictionsRequest := fun x =>
  mkQueryRestrictionsRequest (QueryRestrictionsRequest_AssetId x) [].

(** *** [QueryRestrictionsResponse] *)

Definition QueryRestrictionsResponse_Range {S} (f : string -> value -> S -> bool * S) (x : QueryRestrictionsResponse) (s : S) : S :=
  visit f (bool_set (QueryRestrictionsResponse_AllowAll x)) "vertix.rwa.v1.QueryRestrictionsResponse.allow_all" (VBool (QueryRestrictionsResponse_AllowAll x)) (fun s =>
  visit f (list_set (QueryRestrictionsResponse_Allowlist x)) "vertix.rwa.v1.QueryRestrictionsResponse.allowlist" (V_QueryRestrictionsResponse_2_list (Some (QueryRestrictionsResponse_Allowlist x))) (fun s =>
  visit f (list_set (QueryRestrictionsResponse_Denylist x)) "vertix.rwa.v1.QueryRestrictionsResponse.denylist" (V_QueryRestrictionsResponse_3_list (Some (QueryRestrictionsResponse_Denylist x))) (fun s => s) s) s) s.

Definition QueryRestrictionsResponse_Has (fd : string) (x : QueryRestrictionsResponse) : res bool :=
  fd_switch fd
    [("vertix.rwa.v1.QueryRestrictionsResponse.allow_all", Ok (bool_set (QueryRestrictionsResponse_AllowAll x)));
     ("vertix.rwa.v1.QueryRestrictionsResponse.allowlist", Ok (list_set (QueryRestrictionsResponse_Allowlist x)));
     ("vertix.rwa.v1.QueryRestrictionsResponse.denylist", Ok (list_set (QueryRestrictionsResponse_Denylist x)))].

Definition QueryRestrictionsResponse_Clear (fd : string) (x : QueryRestrictionsResponse) : res QueryRestrictionsResponse :=
  fd_switch fd
    [("vertix.rwa.v1.QueryRestrictionsResponse.allow_all", Ok (QueryRestrictionsResponse_set_AllowAll false x));
     ("vertix.rwa.v1.QueryRestrictionsResponse.allowlist", Ok (QueryRestrictionsResponse_set_Allowlist [] x));
     ("vertix.rwa.v1.QueryRestrictionsResponse.denylist", Ok (QueryRestrictionsResponse_set_Denylist [] x))].

Definition QueryRestrictionsResponse_Get (fd : string) (x : QueryRestrictionsResponse) : res value :=
  fd_switch fd
    [("vertix.rwa.v1.QueryRestrictionsResponse.allow_all", Ok (VBool (QueryRestrictionsResponse_AllowAll x)));
     ("vertix.rwa.v1.QueryRestrictionsResponse.allowlist", Ok (V_QueryRestrictionsResponse_2_list (list_view (QueryRestrictionsResponse_Allowlist x))));
     ("vertix.rwa.v1.QueryRestrictionsResponse.denylist", Ok (V_QueryRestrictionsResponse_3_list (list_view (QueryRestrictionsResponse_Denylist x))))].

Definition QueryRestrictionsResponse_Set (fd : string) (v : value) (x : QueryRestrictionsResponse) : res QueryRestrictionsResponse :=
  fd_switch fd
    [("vertix.rwa.v1.QueryRestrictionsResponse.allow_all", (v ← as_bool v; Ok (QueryRestrictionsResponse_set_AllowAll v x)));
     ("vertix.rwa.v1.QueryRestrictionsResponse.allowlist", (v ← as_QueryRestrictionsResponse_2_list v; Ok (QueryRestrictionsResponse_set_Allowlist v x)));
     ("vertix.rwa.v1.QueryRestrictionsResponse.denylist", (v ← as_QueryRestrictionsResponse_3_list v; Ok (QueryRestrictionsResponse_set_Denylist v x)))].

Definition QueryRestrictionsResponse_Mutable (fd : string) (x : QueryRestrictionsResponse) : res (QueryRestrictionsResponse * value) :=
  fd_switch fd
    [("vertix.rwa.v1.QueryRestrictionsResponse.allowlist", Ok (x, V_QueryRestrictionsResponse_2_list (Some (QueryRestrictionsResponse_Allowlist x))));
     ("vertix.rwa.v1.QueryRestrictionsResponse.denylist", Ok (x, V_QueryRestrictionsResponse_3_list (Some (QueryRestrictionsResponse_Denylist x))));
     ("vertix.rwa.v1.QueryRestrictionsResponse.allow_all", Panic)].

Definition QueryRestrictionsResponse_NewField (fd : string) : res value :=
  fd_switch fd
    [("vertix.rwa.v1.QueryRestrictionsResponse.allow_all", Ok (VBool false));
     ("vertix.rwa.v1.QueryRestrictionsResponse.allowlist", Ok (V_QueryRestrictionsResponse_2_list (Some [])));
     ("vertix.rwa.v1.QueryRestrictionsResponse.denylist", Ok (V_QueryRestrictionsResponse_3_list (Some [])))].

Definition QueryRestrictionsResponse_size (o : option QueryRestrictionsResponse) : Z :=
  match o with
  | None => 0
  | Some x => pz_bool (QueryRestrictionsResponse_AllowAll x) + pz_strings (QueryRestrictionsResponse_Allowlist x) + pz_strings (QueryRestrictionsResponse_Denylist x) + zlen (QueryRestrictionsResponse_unknownFields x)
  end.

Definition QueryRestrictionsResponse_marshal : bytes -> option QueryRestrictionsResponse -> res bytes :=
  pulsar_marshal QueryRestrictionsResponse_size (fun x w =>
    w ← pw_raw (QueryRestrictionsResponse_unknownFields x) w;
    w ← pw_strings x1a (QueryRestrictionsResponse_Denylist x) w;
    w ← pw_strings x12 (QueryRestrictionsResponse_Allowlist x) w;
    pw_bool x08 (QueryRestrictionsResponse_AllowAll x) w).

Definition QueryRestrictionsResponse_unmarshal : bool -> bytes -> option QueryRestrictionsResponse -> res (option QueryRestrictionsResponse) :=
  pulsar_unmarshal (fun discard l fieldNum wireType x b =>
    match fieldNum with
    | 1 => Some ('(s, b) ← rd_bool wireType b; Ok (QueryRestrictionsResponse_set_AllowAll s x, b))
    | 2 => Some ('(s, b) ← rd_string l wireType b; Ok (QueryRestrictionsResponse_set_Allowlist (QueryRestrictionsResponse_Allowlist x ++ [s]) x, b))
    | 3 => Some ('(s, b) ← rd_string l wireType b; Ok (QueryRestrictionsResponse_set_Denylist (QueryRestrictionsResponse_Denylist x ++ [s]) x, b))
    | _ => None
    end) (fun s x => QueryRestrictionsResponse_set_unknownFields (QueryRestrictionsResponse_unknownFields x ++ s) x).

#[global] Instance QueryRestrictionsResponse_pulsar : PulsarMsg QueryRestrictionsResponse := {|
  pm_new := mkQueryRestrictionsResponse false [] [] [];
  pm_size := QueryRestrictionsResponse_size; pm_marshal := QueryRestrictionsResponse_marshal; pm_unmarshal := QueryRestrictionsResponse_unmarshal;
  pm_unknown := QueryRestrictionsResponse_unknownFields; pm_set_unknown := QueryRestrictionsResponse_set_unknownFields
|}.

#[global] Instance QueryRestrictionsResponse_reflect : Reflect QueryRestrictionsResponse value := {|
  r_new := mkQueryRestrictionsResponse false [] [] [];
  r_names := ["vertix.rwa.v1.QueryRestrictionsResponse.allow_all";
    "vertix.rwa.v1.QueryRestrictionsResponse.allowlist";
    "vertix.rwa.v1.QueryRestrictionsResponse.denylist"];
  r_Range := @QueryRestrictionsResponse_Range; r_Has := QueryRestrictionsResponse_Has; r_Clear := QueryRestrictionsResponse_Clear; r_Get := QueryRestrictionsResponse_Get;
  r_Set := QueryRestrictionsResponse_Set; r_Mutable := QueryRestrictionsResponse_Mutable; r_NewField := QueryRestrictionsResponse_NewField;
  r_SetUnknown := QueryRestrictionsResponse_set_unknownFields
|}.

#[global] Instance QueryRestrictionsResponse_schema : Schema QueryRestrictionsResponse := fun x =>
  [(1, FBool (QueryRestrictionsResponse_AllowAll x));
   (2, FStrings (QueryRestrictionsResponse_Allowlist x));
   (3, FStrings (QueryRestrictionsResponse_Denylist x))].

#[global] Instance QueryRestrictionsResponse_strip : PulsarStrip QueryRestrictionsResponse := fun x =>
  mkQueryRestrictionsResponse (QueryRestrictionsResponse_AllowAll x) (QueryRestrictionsResponse_Allowlist x) (QueryRestrictionsResponse_Denylist x) [].

(** *** [QueryParamsRequest] *)

Definition QueryParamsRequest_Range {S} (f : string -> value -> S -> bool * S) (x : QueryParamsRequest) (s : S) : S :=
  s.

Definition QueryParamsRequest_Has (fd : string) (x : QueryParamsRequest) : res bool :=
  fd_switch fd [].

Definition QueryParamsRequest_Clear (fd : string) (x : QueryParamsRequest) : res QueryParamsRequest :=
  fd_switch fd [].

Definition QueryParamsRequest_Get (fd : string) (x : QueryParamsRequest) : res value :=
  fd_switch fd [].

Definition QueryParamsRequest_Set (fd : string) (v : value) (x : QueryParamsRequest) : res QueryParamsRequest :=
  fd_switch fd [].

Definition QueryParamsRequest_Mutable (fd : string) (x : QueryParamsRequest) : res (QueryParamsRequest * value) :=
  fd_switch fd [].

Definition QueryParamsRequest_NewField (fd : string) : res value :=
  fd_switch fd [].

Definition QueryParamsRequest_size (o : option QueryParamsRequest) : Z :=
  match o with
  | None => 0
  | Some x => zlen (QueryParamsRequest_unknownFields x)
  end.

Definition QueryParamsRequest_marshal : bytes -> option QueryParamsRequest -> res bytes :=
  pulsar_marshal QueryParamsRequest_size (fun x w =>
    pw_raw (QueryParamsRequest_unknownFields x) w).

Definition QueryParamsRequest_unmarshal : bool -> bytes -> option QueryParamsRequest -> res (option QueryParamsRequest) :=
  pulsar_unmarshal (fun discard l fieldNum wireType x b => None)
    (fun s x => QueryParamsRequest_set_unknownFields (QueryParamsRequest_unknownFields x ++ s) x).

#[global] Instance QueryParamsRequest_pulsar : PulsarMsg QueryParamsRequest := {|
  pm_new := mkQueryParamsRequest [];
  pm_size := QueryParamsRequest_size; pm_marshal := QueryParamsRequest_marshal; pm_unmarshal := QueryParamsRequest_unmarshal;
  pm_unknown := QueryParamsRequest_unknownFields; pm_set_unknown := QueryParamsRequest_set_unknownFields
|}.

#[global] Instance QueryParamsRequest_reflect : Reflect QueryParamsRequest value := {|
  r_new := mkQueryParamsRequest [];
  r_names := [];
  r_Range := @QueryParamsRequest_Range; r_Has := QueryParamsRequest_Has; r_Clear := QueryParamsRequest_Clear; r_Get := QueryParamsRequest_Get;
  r_Set := QueryParamsRequest_Set; r_Mutable := QueryParamsRequest_Mutable; r_NewField := QueryParamsRequest_NewField;
  r_SetUnknown := QueryParamsRequest_set_unknownFields
|}.

#[global] Instance QueryParamsRequest_schema : Schema QueryParamsRequest := fun x =>
  [].

#[global] Instance QueryParamsRequest_strip : PulsarStrip QueryParamsRequest := fun x =>
  mkQueryParamsRequest [].

(** *** [QueryParamsResponse] *)

Definition QueryParamsResponse_Range {S} (f : string -> value -> S -> bool * S) (x : QueryParamsResponse) (s : S) : S :=
  visit f (ptr_set (QueryParamsResponse_Params x)) "vertix.rwa.v1.QueryParamsResponse.params" (VRWAParams (QueryParamsResponse_Params x)) (fun s => s) s.

Definition QueryParamsResponse_Has (fd : string) (x : QueryParamsResponse) : res bool :=
  fd_switch fd
    [("vertix.rwa.v1.QueryParamsResponse.params", Ok (ptr_set (QueryParamsResponse_Params x)))].

Definition QueryParamsResponse_Clear (fd : string) (x : QueryParamsResponse) : res QueryParamsResponse :=
  fd_switch fd
    [("vertix.rwa.v1.QueryParamsResponse.params", Ok (QueryParamsResponse_set_Params None x))].

Definition QueryParamsResponse_Get (fd : string) (x : QueryParamsResponse) : res value :=
  fd_switch fd
    [("vertix.rwa.v1.QueryParamsResponse.params", Ok (VRWAParams (QueryParamsResponse_Params x)))].

Definition QueryParamsResponse_Set (fd : string) (v : value) (x : QueryParamsResponse) : res QueryParamsResponse :=
  fd_switch fd
    [("vertix.rwa.v1.QueryParamsResponse.params", (v ← as_RWAParams v; Ok (QueryParamsResponse_set_Params v x)))].

Definition QueryParamsResponse_Mutable (fd : string) (x : QueryParamsResponse) : res (QueryParamsResponse * value) :=
  fd_switch fd
    [("vertix.rwa.v1.QueryParamsResponse.params", (let x := QueryParamsResponse_set_Params (Some (default pm_new (QueryParamsResponse_Params x))) x in Ok (x, VRWAParams (QueryParamsResponse_Params x))))].

Definition QueryParamsResponse_NewField (fd : string) : res value :=
  fd_switch fd
    [("vertix.rwa.v1.QueryParamsResponse.params", Ok (VRWAParams (Some pm_new)))].

Definition QueryParamsResponse_size (o : option QueryParamsResponse) : Z :=
  match o with
  | None => 0
  | Some x => pz_msg (QueryParamsResponse_Params x) + zlen (QueryParamsResponse_unknownFields x)
  end.

Definition QueryParamsResponse_marshal : bytes -> option QueryParamsResponse -> res bytes :=
  pulsar_marshal QueryParamsResponse_size (fun x w =>
    w ← pw_raw (QueryParamsResponse_unknownFields x) w;
    pw_msg x0a (QueryParamsResponse_Params x) w).

Definition QueryParamsResponse_unmarshal : bool -> bytes -> option QueryParamsResponse -> res (option QueryParamsResponse) :=
  pulsar_unmarshal (fun discard l fieldNum wireType x b =>
    match fieldNum with
    | 1 => Some ('(s, b) ← pr_msg discard (QueryParamsResponse_Params x) l wireType b; Ok (QueryParamsResponse_set_Params (Some s) x, b))
    | _ => None
    end) (fun s x => QueryParamsResponse_set_unknownFields (QueryParamsResponse_unknownFields x ++ s) x).

#[global] Instance QueryParamsResponse_pulsar : PulsarMsg QueryParamsResponse := {|
  pm_new := mkQueryParamsResponse None [];
  pm_size := QueryParamsResponse_size; pm_marshal := QueryParamsResponse_marshal; pm_unmarshal := QueryParamsResponse_unmarshal;
  pm_unknown := QueryParamsResponse_unknownFields; pm_set_unknown := QueryParamsResponse_set_unknownFields
|}.

#[global] Instance QueryParamsResponse_reflect : Reflect QueryParamsResponse value := {|
  r_new := mkQueryParamsResponse None [];
  r_names := ["vertix.rwa.v1.QueryParamsResponse.params"];
  r_Range := @QueryParamsResponse_Range; r_Has := QueryParamsResponse_Has; r_Clear := QueryParamsResponse_Clear; r_Get := QueryParamsResponse_Get;
  r_Set := QueryParamsResponse_Set; r_Mutable := QueryParamsResponse_Mutable; r_NewField := QueryParamsResponse_NewField;
  r_SetUnknown := QueryParamsResponse_set_unknownFields
|}.

#[global] Instance QueryParamsResponse_schema : Schema QueryParamsResponse := fun x =>
  [(1, FMsgs (ptr_fields (QueryParamsResponse_Params x)))].

#[global] Instance QueryParamsResponse_strip : PulsarStrip QueryParamsResponse := fun x =>
  mkQueryParamsResponse (pstrip true (QueryParamsResponse_Params x)) [].

(** ** The messages keep the promises of [PulsarLaws] and [ReflectLaws] *)

Context {PL : ProtoRuntimeLaws} {IL : ApiImportsLaws}.

#[global] Instance Module__wire : PulsarLaws Module_.
Proof.
  eapply (own_pulsar _ _ (fun x => True)); [intros; reflexivity|intros; reflexivity|reflexivity|unknown_lens| | |knows_switch|].
  - intros x Hx. unfold pm_size, Module__pulsar, Module__size, Module__schema. pencodes_fields.
  - intros d [x1 u] Hx Hu. simpl in Hu. subst u. reads_start (proto3_field (1, FString x1) ++ [] : bytes).
    reads_scalar. preads_end d.
  - intros d l k wt x b r ? E. cbv beta in E. pconsumes_fields E.
Defined.

#[global] Instance Module__reflects : ReflectLaws Module_ value.
Proof.
  split; [reflect_dom|reflect_range| |reflect_clear|reflect_set|reflect_mutable|reflect_new].
  intros [x1 u]. unfold populated. rewrite copy_populated. simpl r_names. simpl r_new.
  copy_one (mkModule_ x1 []). reflexivity.
Qed.

#[global] Instance AssetRecord_wire : PulsarLaws AssetRecord.
Proof.
  eapply (own_pulsar _ _ (fun x => - 2 ^ 31 <= AssetRecord_Status x < 2 ^ 31 /\ (forall y, AssetRecord_AttestedAt x = Some y -> pm_good y) /\ (forall y, AssetRecord_CreatedAt x = Some y -> pm_good y) /\ (forall y, AssetRecord_SettledAt x = Some y -> pm_good y))); [intros; reflexivity|intros; reflexivity|reflexivity|unknown_lens| | |knows_switch|].
  - intros x Hx. unfold pm_size, AssetRecord_pulsar, AssetRecord_size, AssetRecord_schema. pencodes_fields.
  - intros d [x1 x2 x3 x4 x5 x6 x7 x8 x9 x10 x11 x12 x13 x14 u] Hx Hu. simpl in Hu. subst u. reads_start (proto3_field (1, FString x1) ++ proto3_field (2, FString x2) ++ proto3_field (3, FString x3) ++ proto3_field (4, FString x4) ++ proto3_field (5, FInt x5) ++ proto3_field (6, FString x6) ++ proto3_field (7, FString x7) ++ proto3_field (8, FString x8) ++ proto3_field (9, FString x9) ++ proto3_field (10, FBool x10) ++ proto3_field (11, FString x11) ++ proto3_field (12, FMsgs (ptr_fields x12)) ++ proto3_field (13, FMsgs (ptr_fields x13)) ++ proto3_field (14, FMsgs (ptr_fields x14)) ++ [] : bytes).
    reads_scalar. reads_scalar. reads_scalar. reads_scalar. reads_i32. reads_scalar. reads_scalar. reads_scalar. reads_scalar. reads_scalar. reads_scalar. preads_optional d (fun v => mkAssetRecord x1 x2 x3 x4 x5 x6 x7 x8 x9 x10 x11 v None None []). preads_optional d (fun v => mkAssetRecord x1 x2 x3 x4 x5 x6 x7 x8 x9 x10 x11 (pstrip d x12) v None []). preads_optional d (fun v => mkAssetRecord x1 x2 x3 x4 x5 x6 x7 x8 x9 x10 x11 (pstrip d x12) (pstrip d x13) v []). preads_end d.
  - intros d l k wt x b r ? E. cbv beta in E. pconsumes_fields E.
Defined.

#[global] Instance AssetRecord_reflects : ReflectLaws AssetRecord value.
Proof.
  split; [reflect_dom|reflect_range| |reflect_clear|reflect_set|reflect_mutable|reflect_new].
  intros [x1 x2 x3 x4 x5 x6 x7 x8 x9 x10 x11 x12 x13 x14 u]. unfold populated. rewrite copy_populated. simpl r_names. simpl r_new.
  copy_one (mkAssetRecord x1 "" "" "" 0 "" "" "" "" false "" None None None []). copy_one (mkAssetRecord x1 x2 "" "" 0 "" "" "" "" false "" None None None []). copy_one (mkAssetRecord x1 x2 x3 "" 0 "" "" "" "" false "" None None None []). copy_one (mkAssetRecord x1 x2 x3 x4 0 "" "" "" "" false "" None None None []). copy_one (mkAssetRecord x1 x2 x3 x4 x5 "" "" "" "" false "" None None None []). copy_one (mkAssetRecord x1 x2 x3 x4 x5 x6 "" "" "" false "" None None None []). copy_one (mkAssetRecord x1 x2 x3 x4 x5 x6 x7 "" "" false "" None None None []). copy_one (mkAssetRecord x1 x2 x3 x4 x5 x6 x7 x8 "" false "" None None None []). copy_one (mkAssetRecord x1 x2 x3 x4 x5 x6 x7 x8 x9 false "" None None None []). copy_one (mkAssetRecord x1 x2 x3 x4 x5 x6 x7 x8 x9 x10 "" None None None []). copy_one (mkAssetRecord x1 x2 x3 x4 x5 x6 x7 x8 x9 x10 x11 None None None []). copy_one (mkAssetRecord x1 x2 x3 x4 x5 x6 x7 x8 x9 x10 x11 x12 None None []). copy_one (mkAssetRecord x1 x2 x3 x4 x5 x6 x7 x8 x9 x10 x11 x12 x13 None []). copy_one (mkAssetRecord x1 x2 x3 x4 x5 x6 x7 x8 x9 x10 x11 x12 x13 x14 []). reflexivity.
Qed.

#[global] Instance RWAParams_wire : PulsarLaws RWAParams.
Proof.
  eapply (own_pulsar _ _ (fun x => True)); [intros; reflexivity|intros; reflexivity|reflexivity|unknown_lens| | |knows_switch|].
  - intros x Hx. unfold pm_size, RWAParams_pulsar, RWAParams_size, RWAParams_schema. pencodes_fields.
  - intros d [x1 x2 x3 u] Hx Hu. simpl in Hu. subst u. reads_start (proto3_field (1, FString x1) ++ proto3_field (2, FString x2) ++ proto3_field (3, FString x3) ++ [] : bytes).
    reads_scalar. reads_scalar. reads_scalar. preads_end d.
  - intros d l k wt x b r ? E. cbv beta in E. pconsumes_fields E.
Defined.

#[global] Instance RWAParams_reflects : ReflectLaws RWAParams value.
Proof.
  split; [reflect_dom|reflect_range| |reflect_clear|reflect_set|reflect_mutable|reflect_new].
  intros [x1 x2 x3 u]. unfold populated. rewrite copy_populated. simpl r_names. simpl r_new.
  copy_one (mkRWAParams x1 "" "" []). copy_one (mkRWAParams x1 x2 "" []). copy_one (mkRWAParams x1 x2 x3 []). reflexivity.
Qed.

#[global] Instance Restriction_wire : PulsarLaws Restriction.
Proof.
  eapply (own_pulsar _ _ (fun x => True)); [intros; reflexivity|intros; reflexivity|reflexivity|unknown_lens| | |knows_switch|].
  - intros x Hx. unfold pm_size, Restriction_pulsar, Restriction_size, Restriction_schema. pencodes_fields.
  - intros d [x1 x2 x3 u] Hx Hu. simpl in Hu. subst u. reads_start (proto3_field (1, FString x1) ++ proto3_field (2, FString x2) ++ proto3_field (3, FBool x3) ++ [] : bytes).
    reads_scalar. reads_scalar. reads_scalar. preads_end d.
  - intros d l k wt x b r ? E. cbv beta in E. pconsumes_fields E.
Defined.

#[global] Instance Restriction_reflects : ReflectLaws Restriction value.
Proof.
  split; [reflect_dom|reflect_range| |reflect_clear|reflect_set|reflect_mutable|reflect_new].
  intros [x1 x2 x3 u]. unfold populated. rewrite copy_populated. simpl r_names. simpl r_new.
  copy_one (mkRestriction x1 "" false []). copy_one (mkRestriction x1 x2 false []). copy_one (mkRestriction x1 x2 x3 []). reflexivity.
Qed.

#[global] Instance GenesisState_wire : PulsarLaws GenesisState.
Proof.
  eapply (own_pulsar _ _ (fun x => (forall y, GenesisState_Params x = Some y -> pm_good y) /\ elems_good (GenesisState_Assets x) /\ elems_good (GenesisState_Restrictions x))); [intros; reflexivity|intros; reflexivity|reflexivity|unknown_lens| | |knows_switch|].
  - intros x Hx. unfold pm_size, GenesisState_pulsar, GenesisState_size, GenesisState_schema. pencodes_fields.
  - intros d [x1 x2 x3 u] Hx Hu. simpl in Hu. subst u. reads_start (proto3_field (1, FMsgs (ptr_fields x1)) ++ proto3_field (2, FMsgs (elem_fields <$> x2)) ++ proto3_field (3, FMsgs (elem_fields <$> x3)) ++ [] : bytes).
    preads_optional d (fun v => mkGenesisState v [] [] []). preads_repeated d (fun v => mkGenesisState (pstrip d x1) v [] []). preads_repeated d (fun v => mkGenesisState (pstrip d x1) (pstrips d x2) v []). preads_end d.
  - intros d l k wt x b r ? E. cbv beta in E. pconsumes_fields E.
Defined.

#[global] Instance GenesisState_reflects : ReflectLaws GenesisState value.
Proof.
  split; [reflect_dom|reflect_range| |reflect_clear|reflect_set|reflect_mutable|reflect_new].
  intros [x1 x2 x3 u]. unfold populated. rewrite copy_populated. simpl r_names. simpl r_new.
  copy_one (mkGenesisState x1 [] [] []). copy_one (mkGenesisState x1 x2 [] []). copy_one (mkGenesisState x1 x2 x3 []). reflexivity.
Qed.

#[global] Instance MsgRegisterAsset_wire : PulsarLaws MsgRegisterAsset.
Proof.
  eapply (own_pulsar _ _ (fun x => True)); [intros; reflexivity|intros; reflexivity|reflexivity|unknown_lens| | |knows_switch|].
  - intros x Hx. unfold pm_size, MsgRegisterAsset_pulsar, MsgRegisterAsset_size, MsgRegisterAsset_schema. pencodes_fields.
  - intros d [x1 x2 x3 x4 x5 x6 u] Hx Hu. simpl in Hu. subst u. reads_start (proto3_field (1, FString x1) ++ proto3_field (2, FString x2) ++ proto3_field (3, FString x3) ++ proto3_field (4, FString x4) ++ proto3_field (5, FString x5) ++ proto3_field (6, FString x6) ++ [] : bytes).
    reads_scalar. reads_scalar. reads_scalar. reads_scalar. reads_scalar. reads_scalar. preads_end d.
  - intros d l k wt x b r ? E. cbv beta in E. pconsumes_fields E.
Defined.

#[global] Instance MsgRegisterAsset_reflects : ReflectLaws MsgRegisterAsset value.
Proof.
  split; [reflect_dom|reflect_range| |reflect_clear|reflect_set|reflect_mutable|reflect_new].
  intros [x1 x2 x3 x4 x5 x6 u]. unfold populated. rewrite copy_populated. simpl r_names. simpl r_new.
  copy_one (mkMsgRegisterAsset x1 "" "" "" "" "" []). copy_one (mkMsgRegisterAsset x1 x2 "" "" "" "" []). copy_one (mkMsgRegisterAsset x1 x2 x3 "" "" "" []). copy_one (mkMsgRegisterAsset x1 x2 x3 x4 "" "" []). copy_one (mkMsgRegisterAsset x1 x2 x3 x4 x5 "" []). copy_one (mkMsgRegisterAsset x1 x2 x3 x4 x5 x6 []). reflexivity.
Qed.

#[global] Instance MsgRegisterAssetResponse_wire : PulsarLaws MsgRegisterAssetResponse.
Proof.
  eapply (own_pulsar _ _ (fun x => True)); [intros; reflexivity|intros; reflexivity|reflexivity|unknown_lens| | |knows_switch|].
  - intros x Hx. unfold pm_size, MsgRegisterAssetResponse_pulsar, MsgRegisterAssetResponse_size, MsgRegisterAssetResponse_schema. pencodes_fields.
  - intros d [u] Hx Hu. simpl in Hu. subst u. reads_start ([] : bytes).
    preads_end d.
  - intros d l k wt x b r ? E. cbv beta in E. pconsumes_fields E.
Defined.

#[global] Instance MsgRegisterAssetResponse_reflects : ReflectLaws MsgRegisterAssetResponse value.
Proof.
  split; [reflect_dom|reflect_range| |reflect_clear|reflect_set|reflect_mutable|reflect_new].
  intros [u]. unfold populated. rewrite copy_populated. simpl r_names. simpl r_new.
  reflexivity.
Qed.

#[global] Instance MsgAttestAsset_wire : PulsarLaws MsgAttestAsset.
Proof.
  eapply (own_pulsar _ _ (fun x => True)); [intros; reflexivity|intros; reflexivity|reflexivity|unknown_lens| | |knows_switch|].
  - intros x Hx. unfold pm_size, MsgAttestAsset_pulsar, MsgAttestAsset_size, MsgAttestAsset_schema. pencodes_fields.
  - intros d [x1 x2 u] Hx Hu. simpl in Hu. subst u. reads_start (proto3_field (1, FString x1) ++ proto3_field (2, FString x2) ++ [] : bytes).
    reads_scalar. reads_scalar. preads_end d.
  - intros d l k wt x b r ? E. cbv beta in E. pconsumes_fields E.
Defined.

#[global] Instance MsgAttestAsset_reflects : ReflectLaws MsgAttestAsset value.
Proof.
  split; [reflect_dom|reflect_range| |reflect_clear|reflect_set|reflect_mutable|reflect_new].
  intros [x1 x2 u]. unfold populated. rewrite copy_populated. simpl r_names. simpl r_new.
  copy_one (mkMsgAttestAsset x1 "" []). copy_one (mkMsgAttestAsset x1 x2 []). reflexivity.
Qed.

#[global] Instance MsgAttestAssetResponse_wire : PulsarLaws MsgAttestAssetResponse.
Proof.
  eapply (own_pulsar _ _ (fun x => True)); [intros; reflexivity|intros; reflexivity|reflexivity|unknown_lens| | |knows_switch|].
  - intros x Hx. unfold pm_size, MsgAttestAssetResponse_pulsar, MsgAttestAssetResponse_size, MsgAttestAssetResponse_schema. pencodes_fields.
  - intros d [u] Hx Hu. simpl in Hu. subst u. reads_start ([] : bytes).
    preads_end d.
  - intros d l k wt x b r ? E. cbv beta in E. pconsumes_fields E.
Defined.

#[global] Instance MsgAttestAssetResponse_reflects : ReflectLaws MsgAttestAssetResponse value.
Proof.
  split; [reflect_dom|reflect_range| |reflect_clear|reflect_set|reflect_mutable|reflect_new].
  intros [u]. unfold populated. rewrite copy_populated. simpl r_names. simpl r_new.
  reflexivity.
Qed.

#[global] Instance MsgMintRWA_wire : PulsarLaws MsgMintRWA.
Proof.
  eapply (own_pulsar _ _ (fun x => True)); [intros; reflexivity|intros; reflexivity|reflexivity|unknown_lens| | |knows_switch|].
  - intros x Hx. unfold pm_size, MsgMintRWA_pulsar, MsgMintRWA_size, MsgMintRWA_schema. pencodes_fields.
  - intros d [x1 x2 x3 u] Hx Hu. simpl in Hu. subst u. reads_start (proto3_field (1, FString x1) ++ proto3_field (2, FString x2) ++ proto3_field (3, FString x3) ++ [] : bytes).
    reads_scalar. reads_scalar. reads_scalar. preads_end d.
  - intros d l k wt x b r ? E. cbv beta in E. pconsumes_fields E.
Defined.

#[global] Instance MsgMintRWA_reflects : ReflectLaws MsgMintRWA value.
Proof.
  split; [reflect_dom|reflect_range| |reflect_clear|reflect_set|reflect_mutable|reflect_new].
  intros [x1 x2 x3 u]. unfold populated. rewrite copy_populated. simpl r_names. simpl r_new.
  copy_one (mkMsgMintRWA x1 "" "" []). copy_one (mkMsgMintRWA x1 x2 "" []). copy_one (mkMsgMintRWA x1 x2 x3 []). reflexivity.
Qed.

#[global] Instance MsgMintRWAResponse_wire : PulsarLaws MsgMintRWAResponse.
Proof.
  eapply (own_pulsar _ _ (fun x => True)); [intros; reflexivity|intros; reflexivity|reflexivity|unknown_lens| | |knows_switch|].
  - intros x Hx. unfold pm_size, MsgMintRWAResponse_pulsar, MsgMintRWAResponse_size, MsgMintRWAResponse_schema. pencodes_fields.
  - intros d [u] Hx Hu. simpl in Hu. subst u. reads_start ([] : bytes).
    preads_end d.
  - intros d l k wt x b r ? E. cbv beta in E. pconsumes_fields E.
Defined.

#[global] Instance MsgMintRWAResponse_reflects : ReflectLaws MsgMintRWAResponse value.
Proof.
  split; [reflect_dom|reflect_range| |reflect_clear|reflect_set|reflect_mutable|reflect_new].
  intros [u]. unfold populated. rewrite copy_populated. simpl r_names. simpl r_new.
  reflexivity.
Qed.

#[global] Instance MsgTransferRWA_wire : PulsarLaws MsgTransferRWA.
Proof.
  eapply (own_pulsar _ _ (fun x => True)); [intros; reflexivity|intros; reflexivity|reflexivity|unknown_lens| | |knows_switch|].
  - intros x Hx. unfold pm_size, MsgTransferRWA_pulsar, MsgTransferRWA_size, MsgTransferRWA_schema. pencodes_fields.
  - intros d [x1 x2 x3 x4 u] Hx Hu. simpl in Hu. subst u. reads_start (proto3_field (1, FString x1) ++ proto3_field (2, FString x2) ++ proto3_field (3, FString x3) ++ proto3_field (4, FString x4) ++ [] : bytes).
    reads_scalar. reads_scalar. reads_scalar. reads_scalar. preads_end d.
  - intros d l k wt x b r ? E. cbv beta in E. pconsumes_fields E.
Defined.

#[global] Instance MsgTransferRWA_reflects : ReflectLaws MsgTransferRWA value.
Proof.
  split; [reflect_dom|reflect_range| |reflect_clear|reflect_set|reflect_mutable|reflect_new].
  intros [x1 x2 x3 x4 u]. unfold populated. rewrite copy_populated. simpl r_names. simpl r_new.
  copy_one (mkMsgTransferRWA x1 "" "" "" []). copy_one (mkMsgTransferRWA x1 x2 "" "" []). copy_one (mkMsgTransferRWA x1 x2 x3 "" []). copy_one (mkMsgTransferRWA x1 x2 x3 x4 []). reflexivity.
Qed.

#[global] Instance MsgTransferRWAResponse_wire : PulsarLaws MsgTransferRWAResponse.
Proof.
  eapply (own_pulsar _ _ (fun x => True)); [intros; reflexivity|intros; reflexivity|reflexivity|unknown_lens| | |knows_switch|].
  - intros x Hx. unfold pm_size, MsgTransferRWAResponse_pulsar, MsgTransferRWAResponse_size, MsgTransferRWAResponse_schema. pencodes_fields.
  - intros d [u] Hx Hu. simpl in Hu. subst u. reads_start ([] : bytes).
    preads_end d.
  - intros d l k wt x b r ? E. cbv beta in E. pconsumes_fields E.
Defined.

#[global] Instance MsgTransferRWAResponse_reflects : ReflectLaws MsgTransferRWAResponse value.
Proof.
  split; [reflect_dom|reflect_range| |reflect_clear|reflect_set|reflect_mutable|reflect_new].
  intros [u]. unfold populated. rewrite copy_populated. simpl r_names. simpl r_new.
  reflexivity.
Qed.

#[global] Instance MsgSettleRWA_wire : PulsarLaws MsgSettleRWA.
Proof.
  eapply (own_pulsar _ _ (fun x => True)); [intros; reflexivity|intros; reflexivity|reflexivity|unknown_lens| | |knows_switch|].
  - intros x Hx. unfold pm_size, MsgSettleRWA_pulsar, MsgSettleRWA_size, MsgSettleRWA_schema. pencodes_fields.
  - intros d [x1 x2 u] Hx Hu. simpl in Hu. subst u. reads_start (proto3_field (1, FString x1) ++ proto3_field (2, FString x2) ++ [] : bytes).
    reads_scalar. reads_scalar. preads_end d.
  - intros d l k wt x b r ? E. cbv beta in E. pconsumes_fields E.
Defined.

#[global] Instance MsgSettleRWA_reflects : ReflectLaws MsgSettleRWA value.
Proof.
  split; [reflect_dom|reflect_range| |reflect_clear|reflect_set|reflect_mutable|reflect_new].
  intros [x1 x2 u]. unfold populated. rewrite copy_populated. simpl r_names. simpl r_new.
  copy_one (mkMsgSettleRWA x1 "" []). copy_one (mkMsgSettleRWA x1 x2 []). reflexivity.
Qed.

#[global] Instance MsgSettleRWAResponse_wire : PulsarLaws MsgSettleRWAResponse.
Proof.
  eapply (own_pulsar _ _ (fun x => True)); [intros; reflexivity|intros; reflexivity|reflexivity|unknown_lens| | |knows_switch|].
  - intros x Hx. unfold pm_size, MsgSettleRWAResponse_pulsar, MsgSettleRWAResponse_size, MsgSettleRWAResponse_schema. pencodes_fields.
  - intros d [u] Hx Hu. simpl in Hu. subst u. reads_start ([] : bytes).
    preads_end d.
  - intros d l k wt x b r ? E. cbv beta in E. pconsumes_fields E.
Defined.

#[global] Instance MsgSettleRWAResponse_reflects : ReflectLaws MsgSettleRWAResponse value.
Proof.
  split; [reflect_dom|reflect_range| |reflect_clear|reflect_set|reflect_mutable|reflect_new].
  intros [u]. unfold populated. rewrite copy_populated. simpl r_names. simpl r_new.
  reflexivity.
Qed.

#[global] Instance MsgUpdateRestrictions_wire : PulsarLaws MsgUpdateRestrictions.
Proof.
  eapply (own_pulsar _ _ (fun x => True)); [intros; reflexivity|intros; reflexivity|reflexivity|unknown_lens| | |knows_switch|].
  - intros x Hx. unfold pm_size, MsgUpdateRestrictions_pulsar, MsgUpdateRestrictions_size, MsgUpdateRestrictions_schema. pencodes_fields.
  - intros d [x1 x2 x3 x4 x5 x6 x7 u] Hx Hu. simpl in Hu. subst u. reads_start (proto3_field (1, FString x1) ++ proto3_field (2, FString x2) ++ proto3_field (3, FBool x3) ++ proto3_field (4, FStrings x4) ++ proto3_field (5, FStrings x5) ++ proto3_field (6, FStrings x6) ++ proto3_field (7, FStrings x7) ++ [] : bytes).
    reads_scalar. reads_scalar. reads_scalar. reads_repeated_strings (fun v => mkMsgUpdateRestrictions x1 x2 x3 v [] [] [] []). reads_repeated_strings (fun v => mkMsgUpdateRestrictions x1 x2 x3 x4 v [] [] []). reads_repeated_strings (fun v => mkMsgUpdateRestrictions x1 x2 x3 x4 x5 v [] []). reads_repeated_strings (fun v => mkMsgUpdateRestrictions x1 x2 x3 x4 x5 x6 v []). preads_end d.
  - intros d l k wt x b r ? E. cbv beta in E. pconsumes_fields E.
Defined.

#[global] Instance MsgUpdateRestrictions_reflects : ReflectLaws MsgUpdateRestrictions value.
Proof.
  split; [reflect_dom|reflect_range| |reflect_clear|reflect_set|reflect_mutable|reflect_new].
  intros [x1 x2 x3 x4 x5 x6 x7 u]. unfold populated. rewrite copy_populated. simpl r_names. simpl r_new.
  copy_one (mkMsgUpdateRestrictions x1 "" false [] [] [] [] []). copy_one (mkMsgUpdateRestrictions x1 x2 false [] [] [] [] []). copy_one (mkMsgUpdateRestrictions x1 x2 x3 [] [] [] [] []). copy_one (mkMsgUpdateRestrictions x1 x2 x3 x4 [] [] [] []). copy_one (mkMsgUpdateRestrictions x1 x2 x3 x4 x5 [] [] []). copy_one (mkMsgUpdateRestrictions x1 x2 x3 x4 x5 x6 [] []). copy_one (mkMsgUpdateRestrictions x1 x2 x3 x4 x5 x6 x7 []). reflexivity.
Qed.

#[global] Instance MsgUpdateRestrictionsResponse_wire : PulsarLaws MsgUpdateRestrictionsResponse.
Proof.
  eapply (own_pulsar _ _ (fun x => True)); [intros; reflexivity|intros; reflexivity|reflexivity|unknown_lens| | |knows_switch|].
  - intros x Hx. unfold pm_size, MsgUpdateRestrictionsResponse_pulsar, MsgUpdateRestrictionsResponse_size, MsgUpdateRestrictionsResponse_schema. pencodes_fields.
  - intros d [u] Hx Hu. simpl in Hu. subst u. reads_start ([] : bytes).
    preads_end d.
  - intros d l k wt x b r ? E. cbv beta in E. pconsumes_fields E.
Defined.

#[global] Instance MsgUpdateRestrictionsResponse_reflects : ReflectLaws MsgUpdateRestrictionsResponse value.
Proof.
  split; [reflect_dom|reflect_range| |reflect_clear|reflect_set|reflect_mutable|reflect_new].
  intros [u]. unfold populated. rewrite copy_populated. simpl r_names. simpl r_new.
  reflexivity.
Qed.

#[global] Instance MsgSlashBond_wire : PulsarLaws MsgSlashBond.
Proof.
  eapply (own_pulsar _ _ (fun x => True)); [intros; reflexivity|intros; reflexivity|reflexivity|unknown_lens| | |knows_switch|].
  - intros x Hx. unfold pm_size, MsgSlashBond_pulsar, MsgSlashBond_size, MsgSlashBond_schema. pencodes_fields.
  - intros d [x1 x2 x3 u] Hx Hu. simpl in Hu. subst u. reads_start (proto3_field (1, FString x1) ++ proto3_field (2, FString x2) ++ proto3_field (3, FString x3) ++ [] : bytes).
    reads_scalar. reads_scalar. reads_scalar. preads_end d.
  - intros d l k wt x b r ? E. cbv beta in E. pconsumes_fields E.
Defined.

#[global] Instance MsgSlashBond_reflects : ReflectLaws MsgSlashBond value.
Proof.
  split; [reflect_dom|reflect_range| |reflect_clear|reflect_set|reflect_mutable|reflect_new].
  intros [x1 x2 x3 u]. unfold populated. rewrite copy_populated. simpl r_names. simpl r_new.
  copy_one (mkMsgSlashBond x1 "" "" []). copy_one (mkMsgSlashBond x1 x2 "" []). copy_one (mkMsgSlashBond x1 x2 x3 []). reflexivity.
Qed.

#[global] Instance MsgSlashBondResponse_wire : PulsarLaws MsgSlashBondResponse.
Proof.
  eapply (own_pulsar _ _ (fun x => True)); [intros; reflexivity|intros; reflexivity|reflexivity|unknown_lens| | |knows_switch|].
  - intros x Hx. unfold pm_size, MsgSlashBondResponse_pulsar, MsgSlashBondResponse_size, MsgSlashBondResponse_schema. pencodes_fields.
  - intros d [u] Hx Hu. simpl in Hu. subst u. reads_start ([] : bytes).
    preads_end d.
  - intros d l k wt x b r ? E. cbv beta in E. pconsumes_fields E.
Defined.

#[global] Instance MsgSlashBondResponse_reflects : ReflectLaws MsgSlashBondResponse value.
Proof.
  split; [reflect_dom|reflect_range| |reflect_clear|reflect_set|reflect_mutable|reflect_new].
  intros [u]. unfold populated. rewrite copy_populated. simpl r_names. simpl r_new.
  reflexivity.
Qed.

#[global] Instance MsgUpdateParams_wire : PulsarLaws MsgUpdateParams.
Proof.
  eapply (own_pulsar _ _ (fun x => (forall y, MsgUpdateParams_Params x = Some y -> pm_good y))); [intros; reflexivity|intros; reflexivity|reflexivity|unknown_lens| | |knows_switch|].
  - intros x Hx. unfold pm_size, MsgUpdateParams_pulsar, MsgUpdateParams_size, MsgUpdateParams_schema. pencodes_fields.
  - intros d [x1 x2 u] Hx Hu. simpl in Hu. subst u. reads_start (proto3_field (1, FString x1) ++ proto3_field (2, FMsgs (ptr_fields x2)) ++ [] : bytes).
    reads_scalar. preads_optional d (fun v => mkMsgUpdateParams x1 v []). preads_end d.
  - intros d l k wt x b r ? E. cbv beta in E. pconsumes_fields E.
Defined.

#[global] Instance MsgUpdateParams_reflects : ReflectLaws MsgUpdateParams value.
Proof.
  split; [reflect_dom|reflect_range| |reflect_clear|reflect_set|reflect_mutable|reflect_new].
  intros [x1 x2 u]. unfold populated. rewrite copy_populated. simpl r_names. simpl r_new.
  copy_one (mkMsgUpdateParams x1 None []). copy_one (mkMsgUpdateParams x1 x2 []). reflexivity.
Qed.

#[global] Instance MsgUpdateParamsResponse_wire : PulsarLaws MsgUpdateParamsResponse.
Proof.
  eapply (own_pulsar _ _ (fun x => True)); [intros; reflexivity|intros; reflexivity|reflexivity|unknown_lens| | |knows_switch|].
  - intros x Hx. unfold pm_size, MsgUpdateParamsResponse_pulsar, MsgUpdateParamsResponse_size, MsgUpdateParamsResponse_schema. pencodes_fields.
  - intros d [u] Hx Hu. simpl in Hu. subst u. reads_start ([] : bytes).
    preads_end d.
  - intros d l k wt x b r ? E. cbv beta in E. pconsumes_fields E.
Defined.

#[global] Instance MsgUpdateParamsResponse_reflects : ReflectLaws MsgUpdateParamsResponse value.
Proof.
  split; [reflect_dom|reflect_range| |reflect_clear|reflect_set|reflect_mutable|reflect_new].
  intros [u]. unfold populated. rewrite copy_populated. simpl r_names. simpl r_new.
  reflexivity.
Qed.

#[global] Instance QueryAssetRequest_wire : PulsarLaws QueryAssetRequest.
Proof.
  eapply (own_pulsar _ _ (fun x => True)); [intros; reflexivity|intros; reflexivity|reflexivity|unknown_lens| | |knows_switch|].
  - intros x Hx. unfold pm_size, QueryAssetRequest_pulsar, QueryAssetRequest_size, QueryAssetRequest_schema. pencodes_fields.
  - intros d [x1 u] Hx Hu. simpl in Hu. subst u. reads_start (proto3_field (1, FString x1) ++ [] : bytes).
    reads_scalar. preads_end d.
  - intros d l k wt x b r ? E. cbv beta in E. pconsumes_fields E.
Defined.

#[global] Instance QueryAssetRequest_reflects : ReflectLaws QueryAssetRequest value.
Proof.
  split; [reflect_dom|reflect_range| |reflect_clear|reflect_set|reflect_mutable|reflect_new].
  intros [x1 u]. unfold populated. rewrite copy_populated. simpl r_names. simpl r_new.
  copy_one (mkQueryAssetRequest x1 []). reflexivity.
Qed.

#[global] Instance QueryAssetResponse_wire : PulsarLaws QueryAssetResponse.
Proof.
  eapply (own_pulsar _ _ (fun x => (forall y, QueryAssetResponse_Asset x = Some y -> pm_good y))); [intros; reflexivity|intros; reflexivity|reflexivity|unknown_lens| | |knows_switch|].
  - intros x Hx. unfold pm_size, QueryAssetResponse_pulsar, QueryAssetResponse_size, QueryAssetResponse_schema. pencodes_fields.
  - intros d [x1 u] Hx Hu. simpl in Hu. subst u. reads_start (proto3_field (1, FMsgs (ptr_fields x1)) ++ [] : bytes).
    preads_optional d (fun v => mkQueryAssetResponse v []). preads_end d.
  - intros d l k wt x b r ? E. cbv beta in E. pconsumes_fields E.
Defined.

#[global] Instance QueryAssetResponse_reflects : ReflectLaws QueryAssetResponse value.
Proof.
  split; [reflect_dom|reflect_range| |reflect_clear|reflect_set|reflect_mutable|reflect_new].
  intros [x1 u]. unfold populated. rewrite copy_populated. simpl r_names. simpl r_new.
  copy_one (mkQueryAssetResponse x1 []). reflexivity.
Qed.

#[global] Instance QueryAssetsByIssuerRequest_wire : PulsarLaws QueryAssetsByIssuerRequest.
Proof.
  eapply (own_pulsar _ _ (fun x => (forall y, QueryAssetsByIssuerRequest_Pagination x = Some y -> pm_good y))); [intros; reflexivity|intros; reflexivity|reflexivity|unknown_lens| | |knows_switch|].
  - intros x Hx. unfold pm_size, QueryAssetsByIssuerRequest_pulsar, QueryAssetsByIssuerRequest_size, QueryAssetsByIssuerRequest_schema. pencodes_fields.
  - intros d [x1 x2 u] Hx Hu. simpl in Hu. subst u. reads_start (proto3_field (1, FString x1) ++ proto3_field (2, FMsgs (ptr_fields x2)) ++ [] : bytes).
    reads_scalar. preads_optional d (fun v => mkQueryAssetsByIssuerRequest x1 v []). preads_end d.
  - intros d l k wt x b r ? E. cbv beta in E. pconsumes_fields E.
Defined.

#[global] Instance QueryAssetsByIssuerRequest_reflects : ReflectLaws QueryAssetsByIssuerRequest value.
Proof.
  split; [reflect_dom|reflect_range| |reflect_clear|reflect_set|reflect_mutable|reflect_new].
  intros [x1 x2 u]. unfold populated. rewrite copy_populated. simpl r_names. simpl r_new.
  copy_one (mkQueryAssetsByIssuerRequest x1 None []). copy_one (mkQueryAssetsByIssuerRequest x1 x2 []). reflexivity.
Qed.

#[global] Instance QueryAssetsByIssuerResponse_wire : PulsarLaws QueryAssetsByIssuerResponse.
Proof.
  eapply (own_pulsar _ _ (fun x => elems_good (QueryAssetsByIssuerResponse_Assets x) /\ (forall y, QueryAssetsByIssuerResponse_Pagination x = Some y -> pm_good y))); [intros; reflexivity|intros; reflexivity|reflexivity|unknown_lens| | |knows_switch|].
  - intros x Hx. unfold pm_size, QueryAssetsByIssuerResponse_pulsar, QueryAssetsByIssuerResponse_size, QueryAssetsByIssuerResponse_schema. pencodes_fields.
  - intros d [x1 x2 u] Hx Hu. simpl in Hu. subst u. reads_start (proto3_field (1, FMsgs (elem_fields <$> x1)) ++ proto3_field (2, FMsgs (ptr_fields x2)) ++ [] : bytes).
    preads_repeated d (fun v => mkQueryAssetsByIssuerResponse v None []). preads_optional d (fun v => mkQueryAssetsByIssuerResponse (pstrips d x1) v []). preads_end d.
  - intros d l k wt x b r ? E. cbv beta in E. pconsumes_fields E.
Defined.

#[global] Instance QueryAssetsByIssuerResponse_reflects : ReflectLaws QueryAssetsByIssuerResponse value.
Proof.
  split; [reflect_dom|reflect_range| |reflect_clear|reflect_set|reflect_mutable|reflect_new].
  intros [x1 x2 u]. unfold populated. rewrite copy_populated. simpl r_names. simpl r_new.
  copy_one (mkQueryAssetsByIssuerResponse x1 None []). copy_one (mkQueryAssetsByIssuerResponse x1 x2 []). reflexivity.
Qed.

#[global] Instance QueryRestrictionsRequest_wire : PulsarLaws QueryRestrictionsRequest.
Proof.
  eapply (own_pulsar _ _ (fun x => True)); [intros; reflexivity|intros; reflexivity|reflexivity|unknown_lens| | |knows_switch|].
  - intros x Hx. unfold pm_size, QueryRestrictionsRequest_pulsar, QueryRestrictionsRequest_size, QueryRestrictionsRequest_schema. pencodes_fields.
  - intros d [x1 u] Hx Hu. simpl in Hu. subst u. reads_start (proto3_field (1, FString x1) ++ [] : bytes).
    reads_scalar. preads_end d.
  - intros d l k wt x b r ? E. cbv beta in E. pconsumes_fields E.
Defined.

#[global] Instance QueryRestrictionsRequest_reflects : ReflectLaws QueryRestrictionsRequest value.
Proof.
  split; [reflect_dom|reflect_range| |reflect_clear|reflect_set|reflect_mutable|reflect_new].
  intros [x1 u]. unfold populated. rewrite copy_populated. simpl r_names. simpl r_new.
  copy_one (mkQueryRestrictionsRequest x1 []). reflexivity.
Qed.

#[global] Instance QueryRestrictionsResponse_wire : PulsarLaws QueryRestrictionsResponse.
Proof.
  eapply (own_pulsar _ _ (fun x => True)); [intros; reflexivity|intros; reflexivity|reflexivity|unknown_lens| | |knows_switch|].
  - intros x Hx. unfold pm_size, QueryRestrictionsResponse_pulsar, QueryRestrictionsResponse_size, QueryRestrictionsResponse_schema. pencodes_fields.
  - intros d [x1 x2 x3 u] Hx Hu. simpl in Hu. subst u. reads_start (proto3_field (1, FBool x1) ++ proto3_field (2, FStrings x2) ++ proto3_field (3, FStrings x3) ++ [] : bytes).
    reads_scalar. reads_repeated_strings (fun v => mkQueryRestrictionsResponse x1 v [] []). reads_repeated_strings (fun v => mkQueryRestrictionsResponse x1 x2 v []). preads_end d.
  - intros d l k wt x b r ? E. cbv beta in E. pconsumes_fields E.
Defined.

#[global] Instance QueryRestrictionsResponse_reflects : ReflectLaws QueryRestrictionsResponse value.
Proof.
  split; [reflect_dom|reflect_range| |reflect_clear|reflect_set|reflect_mutable|reflect_new].
  intros [x1 x2 x3 u]. unfold populated. rewrite copy_populated. simpl r_names. simpl r_new.
  copy_one (mkQueryRestrictionsResponse x1 [] [] []). copy_one (mkQueryRestrictionsResponse x1 x2 [] []). copy_one (mkQueryRestrictionsResponse x1 x2 x3 []). reflexivity.
Qed.

#[global] Instance QueryParamsRequest_wire : PulsarLaws QueryParamsRequest.
Proof.
  eapply (own_pulsar _ _ (fun x => True)); [intros; reflexivity|intros; reflexivity|reflexivity|unknown_lens| | |knows_switch|].
  - intros x Hx. unfold pm_size, QueryParamsRequest_pulsar, QueryParamsRequest_size, QueryParamsRequest_schema. pencodes_fields.
  - intros d [u] Hx Hu. simpl in Hu. subst u. reads_start ([] : bytes).
    preads_end d.
  - intros d l k wt x b r ? E. cbv beta in E. pconsumes_fields E.
Defined.

#[global] Instance QueryParamsRequest_reflects : ReflectLaws QueryParamsRequest value.
Proof.
  split; [reflect_dom|reflect_range| |reflect_clear|reflect_set|reflect_mutable|reflect_new].
  intros [u]. unfold populated. rewrite copy_populated. simpl r_names. simpl r_new.
  reflexivity.
Qed.

#[global] Instance QueryParamsResponse_wire : PulsarLaws QueryParamsResponse.
Proof.
  eapply (own_pulsar _ _ (fun x => (forall y, QueryParamsResponse_Params x = Some y -> pm_good y))); [intros; reflexivity|intros; reflexivity|reflexivity|unknown_lens| | |knows_switch|].
  - intros x Hx. unfold pm_size, QueryParamsResponse_pulsar, QueryParamsResponse_size, QueryParamsResponse_schema. pencodes_fields.
  - intros d [x1 u] Hx Hu. simpl in Hu. subst u. reads_start (proto3_field (1, FMsgs (ptr_fields x1)) ++ [] : bytes).
    preads_optional d (fun v => mkQueryParamsResponse v []). preads_end d.
  - intros d l k wt x b r ? E. cbv beta in E. pconsumes_fields E.
Defined.

#[global] Instance QueryParamsResponse_reflects : ReflectLaws QueryParamsResponse value.
Proof.
  split; [reflect_dom|reflect_range| |reflect_clear|reflect_set|reflect_mutable|reflect_new].
  intros [x1 u]. unfold populated. rewrite copy_populated. simpl r_names. simpl r_new.
  copy_one (mkQueryParamsResponse x1 []). reflexivity.
Qed.

End ApiRwa.
