(* ===== verification/ApiOracleBase.v ===== *)
(** * api/vertix/oracle: the client bindings of the unversioned package

    The messages of api/vertix/oracle/{params,genesis,tx,query}.pulsar.go, of the protobuf
    package vertix.oracle, which came before vertix.oracle.v1 and which the library still
    ships: the struct, the reflection methods and the methods of [ProtoMethods], each
    message an instance of [PulsarMsg] and [Reflect] with the laws of both. *)

From S2P Require Import Prelude Sdk World SdkRef Wire Codec Foreign WireMsg Pulsar Reflect.

Open Scope Z_scope.

Section ApiOracleBase.
Context {T : StdTime} {P : ProtoRuntime} {I : ApiImports}.

(** ** Messages *)

Record Params : Type := mkParams {
  Params_unknownFields : bytes
}.

Record GenesisState : Type := mkGenesisState {
  GenesisState_Params : option Params;
  GenesisState_unknownFields : bytes
}.

Record MsgUpdateParams : Type := mkMsgUpdateParams {
  MsgUpdateParams_Authority : string;
  MsgUpdateParams_Params : option Params;
  MsgUpdateParams_unknownFields : bytes
}.

Record MsgUpdateParamsResponse : Type := mkMsgUpdateParamsResponse {
  MsgUpdateParamsResponse_unknownFields : bytes
}.

Record QueryParamsRequest : Type := mkQueryParamsRequest {
  QueryParamsRequest_unknownFields : bytes
}.

Record QueryParamsResponse : Type := mkQueryParamsResponse {
  QueryParamsResponse_Params : option Params;
  QueryParamsResponse_unknownFields : bytes
}.

(** ** Assignments to a field: [x.F = v] *)

Definition Params_set_unknownFields (v : bytes) (x : Params) : Params :=
  mkParams v.

Definition GenesisState_set_Params (v : option Params) (x : GenesisState) : GenesisState :=
  mkGenesisState v (GenesisState_unknownFields x).

Definition GenesisState_set_unknownFields (v : bytes) (x : GenesisState) : GenesisState :=
  mkGenesisState (GenesisState_Params x) v.

Definition MsgUpdateParams_set_Authority (v : string) (x : MsgUpdateParams) : MsgUpdateParams :=
  mkMsgUpdateParams v (MsgUpdateParams_Params x) (MsgUpdateParams_unknownFields x).

Definition MsgUpdateParams_set_Params (v : option Params) (x : MsgUpdateParams) : MsgUpdateParams :=
  mkMsgUpdateParams (MsgUpdateParams_Authority x) v (MsgUpdateParams_unknownFields x).

Definition MsgUpdateParams_set_unknownFields (v : bytes) (x : MsgUpdateParams) : MsgUpdateParams :=
  mkMsgUpdateParams (MsgUpdateParams_Authority x) (MsgUpdateParams_Params x) v.

Definition MsgUpdateParamsResponse_set_unknownFields (v : bytes) (x : MsgUpdateParamsResponse) : MsgUpdateParamsResponse :=
  mkMsgUpdateParamsResponse v.

Definition QueryParamsRequest_set_unknownFields (v : bytes) (x : QueryParamsRequest) : QueryParamsRequest :=
  mkQueryParamsRequest v.

Definition QueryParamsResponse_set_Params (v : option Params) (x : QueryParamsResponse) : QueryParamsResponse :=
  mkQueryParamsResponse v (QueryParamsResponse_unknownFields x).

Definition QueryParamsResponse_set_unknownFields (v : bytes) (x : QueryParamsResponse) : QueryParamsResponse :=
  mkQueryParamsResponse (QueryParamsResponse_Params x) v.

(** ** Values

    [protoreflect.Value]: scalars, messages (a pointer, which may be nil) and the list
    wrappers, one type per repeated field, which may refer to nothing. *)

Inductive value : Type :=
| VParams (m : option Params)
| VString (s : string).

(** The accessors and type assertions of [Set], which panic on another kind. *)

Definition as_Params (v : value) : res (option Params) := match v with VParams v => Ok v | _ => Panic end.
Definition as_string (v : value) : res string := match v with VString v => Ok v | _ => Panic end.

(** ** Methods *)

(** *** [Params] *)

Definition Params_Range {S} (f : string -> value -> S -> bool * S) (x : Params) (s : S) : S :=
  s.

Definition Params_Has (fd : string) (x : Params) : res bool :=
  fd_switch fd [].

Definition Params_Clear (fd : string) (x : Params) : res Params :=
  fd_switch fd [].

Definition Params_Get (fd : string) (x : Params) : res value :=
  fd_switch fd [].

Definition Params_Set (fd : string) (v : value) (x : Params) : res Params :=
  fd_switch fd [].

Definition Params_Mutable (fd : string) (x : Params) : res (Params * value) :=
  fd_switch fd [].

Definition Params_NewField (fd : string) : res value :=
  fd_switch fd [].

Definition Params_size (o : option Params) : Z :=
  match o with
  | None => 0
  | Some x => zlen (Params_unknownFields x)
  end.

Definition Params_marshal : bytes -> option Params -> res bytes :=
  pulsar_marshal Params_size (fun x w =>
    pw_raw (Params_unknownFields x) w).

Definition Params_unmarshal : bool -> bytes -> option Params -> res (option Params) :=
  pulsar_unmarshal (fun discard l fieldNum wireType x b => None)
    (fun s x => Params_set_unknownFields (Params_unknownFields x ++ s) x).

#[global] Instance Params_pulsar : PulsarMsg Params := {|
  pm_new := mkParams [];
  pm_size := Params_size; pm_marshal := Params_marshal; pm_unmarshal := Params_unmarshal;
  pm_unknown := Params_unknownFields; pm_set_unknown := Params_set_unknownFields
|}.

#[global] Instance Params_reflect : Reflect Params value := {|
  r_new := mkParams [];
  r_names := [];
  r_Range := @Params_Range; r_Has := Params_Has; r_Clear := Params_Clear; r_Get := Params_Get;
  r_Set := Params_Set; r_Mutable := Params_Mutable; r_NewField := Params_NewField;
  r_SetUnknown := Params_set_unknownFields
|}.

#[global] Instance Params_schema : Schema Params := fun x =>
  [].

#[global] Instance Params_strip : PulsarStrip Params := fun x =>
  mkParams [].

(** *** [GenesisState] *)

Definition GenesisState_Range {S} (f : string -> value -> S -> bool * S) (x : GenesisState) (s : S) : S :=
  visit f (ptr_set (GenesisState_Params x)) "vertix.oracle.GenesisState.params" (VParams (GenesisState_Params x)) (fun s => s) s.

Definition GenesisState_Has (fd : string) (x : GenesisState) : res bool :=
  fd_switch fd
    [("vertix.oracle.GenesisState.params", Ok (ptr_set (GenesisState_Params x)))].

Definition GenesisState_Clear (fd : string) (x : GenesisState) : res GenesisState :=
  fd_switch fd
    [("vertix.oracle.GenesisState.params", Ok (GenesisState_set_Params None x))].

Definition GenesisState_Get (fd : string) (x : GenesisState) : res value :=
  fd_switch fd
    [("vertix.oracle.GenesisState.params", Ok (VParams (GenesisState_Params x)))].

Definition GenesisState_Set (fd : string) (v : value) (x : GenesisState) : res GenesisState :=
  fd_switch fd
    [("vertix.oracle.GenesisState.params", (v ← as_Params v; Ok (GenesisState_set_Params v x)))].

Definition GenesisState_Mutable (fd : string) (x : GenesisState) : res (GenesisState * value) :=
  fd_switch fd
    [("vertix.oracle.GenesisState.params", (let x := GenesisState_set_Params (Some (default pm_new (GenesisState_Params x))) x in Ok (x, VParams (GenesisState_Params x))))].

Definition GenesisState_NewField (fd : string) : res value :=
  fd_switch fd
    [("vertix.oracle.GenesisState.params", Ok (VParams (Some pm_new)))].

Definition GenesisState_size (o : option GenesisState) : Z :=
  match o with
  | None => 0
  | Some x => pz_msg (GenesisState_Params x) + zlen (GenesisState_unknownFields x)
  end.

Definition GenesisState_marshal : bytes -> option GenesisState -> res bytes :=
  pulsar_marshal GenesisState_size (fun x w =>
    w ← pw_raw (GenesisState_unknownFields x) w;
    pw_msg x0a (GenesisState_Params x) w).

Definition GenesisState_unmarshal : bool -> bytes -> option GenesisState -> res (option GenesisState) :=
  pulsar_unmarshal (fun discard l fieldNum wireType x b =>
    match fieldNum with
    | 1 => Some ('(s, b) ← pr_msg discard (GenesisState_Params x) l wireType b; Ok (GenesisState_set_Params (Some s) x, b))
    | _ => None
    end) (fun s x => GenesisState_set_unknownFields (GenesisState_unknownFields x ++ s) x).

#[global] Instance GenesisState_pulsar : PulsarMsg GenesisState := {|
  pm_new := mkGenesisState None [];
  pm_size := GenesisState_size; pm_marshal := GenesisState_marshal; pm_unmarshal := GenesisState_unmarshal;
  pm_unknown := GenesisState_unknownFields; pm_set_unknown := GenesisState_set_unknownFields
|}.

#[global] Instance GenesisState_reflect : Reflect GenesisState value := {|
  r_new := mkGenesisState None [];
  r_names := ["vertix.oracle.GenesisState.params"];
  r_Range := @GenesisState_Range; r_Has := GenesisState_Has; r_Clear := GenesisState_Clear; r_Get := GenesisState_Get;
  r_Set := GenesisState_Set; r_Mutable := GenesisState_Mutable; r_NewField := GenesisState_NewField;
  r_SetUnknown := GenesisState_set_unknownFields
|}.

#[global] Instance GenesisState_schema : Schema GenesisState := fun x =>
  [(1, FMsgs (ptr_fields (GenesisState_Params x)))].

#[global] Instance GenesisState_strip : PulsarStrip GenesisState := fun x =>
  mkGenesisState (pstrip true (GenesisState_Params x)) [].

(** *** [MsgUpdateParams] *)

Definition MsgUpdateParams_Range {S} (f : string -> value -> S -> bool * S) (x : MsgUpdateParams) (s : S) : S :=
  visit f (str_set (MsgUpdateParams_Authority x)) "vertix.oracle.MsgUpdateParams.authority" (VString (MsgUpdateParams_Authority x)) (fun s =>
  visit f (ptr_set (MsgUpdateParams_Params x)) "vertix.oracle.MsgUpdateParams.params" (VParams (MsgUpdateParams_Params x)) (fun s => s) s) s.

Definition MsgUpdateParams_Has (fd : string) (x : MsgUpdateParams) : res bool :=
  fd_switch fd
    [("vertix.oracle.MsgUpdateParams.authority", Ok (str_set (MsgUpdateParams_Authority x)));
     ("vertix.oracle.MsgUpdateParams.params", Ok (ptr_set (MsgUpdateParams_Params x)))].

Definition MsgUpdateParams_Clear (fd : string) (x : MsgUpdateParams) : res MsgUpdateParams :=
  fd_switch fd
    [("vertix.oracle.MsgUpdateParams.authority", Ok (MsgUpdateParams_set_Authority "" x));
     ("vertix.oracle.MsgUpdateParams.params", Ok (MsgUpdateParams_set_Params None x))].

Definition MsgUpdateParams_Get (fd : string) (x : MsgUpdateParams) : res value :=
  fd_switch fd
    [("vertix.oracle.MsgUpdateParams.authority", Ok (VString (MsgUpdateParams_Authority x)));
     ("vertix.oracle.MsgUpdateParams.params", Ok (VParams (MsgUpdateParams_Params x)))].

Definition MsgUpdateParams_Set (fd : string) (v : value) (x : MsgUpdateParams) : res MsgUpdateParams :=
  fd_switch fd
    [("vertix.oracle.MsgUpdateParams.authority", (v ← as_string v; Ok (MsgUpdateParams_set_Authority v x)));
     ("vertix.oracle.MsgUpdateParams.params", (v ← as_Params v; Ok (MsgUpdateParams_set_Params v x)))].

Definition MsgUpdateParams_Mutable (fd : string) (x : MsgUpdateParams) : res (MsgUpdateParams * value) :=
  fd_switch fd
    [("vertix.oracle.MsgUpdateParams.params", (let x := MsgUpdateParams_set_Params (Some (default pm_new (MsgUpdateParams_Params x))) x in Ok (x, VParams (MsgUpdateParams_Params x))));
     ("vertix.oracle.MsgUpdateParams.authority", Panic)].

Definition MsgUpdateParams_NewField (fd : string) : res value :=
  fd_switch fd
    [("vertix.oracle.MsgUpdateParams.authority", Ok (VString ""));
     ("vertix.oracle.MsgUpdateParams.params", Ok (VParams (Some pm_new)))].

Definition MsgUpdateParams_size (o : option MsgUpdateParams) : Z :=
  match o with
  | None => 0
  | Some x => pz_string (MsgUpdateParams_Authority x) + pz_msg (MsgUpdateParams_Params x) + zlen (MsgUpdateParams_unknownFields x)
  end.

Definition MsgUpdateParams_marshal : bytes -> option MsgUpdateParams -> res bytes :=
  pulsar_marshal MsgUpdateParams_size (fun x w =>
    w ← pw_raw (MsgUpdateParams_unknownFields x) w;
    w ← pw_msg x12 (MsgUpdateParams_Params x) w;
    pw_string x0a (MsgUpdateParams_Authority x) w).

Definition MsgUpdateParams_unmarshal : bool -> bytes -> option MsgUpdateParams -> res (option MsgUpdateParams) :=
  pulsar_unmarshal (fun discard l fieldNum wireType x b =>
    match fieldNum with
    | 1 => Some ('(s, b) ← rd_string l wireType b; Ok (MsgUpdateParams_set_Authority s x, b))
    | 2 => Some ('(s, b) ← pr_msg discard (MsgUpdateParams_Params x) l wireType b; Ok (MsgUpdateParams_set_Params (Some s) x, b))
    | _ => None
    end) (fun s x => MsgUpdateParams_set_unknownFields (MsgUpdateParams_unknownFields x ++ s) x).

#[global] Instance MsgUpdateParams_pulsar : PulsarMsg MsgUpdateParams := {|
  pm_new := mkMsgUpdateParams "" None [];
  pm_size := MsgUpdateParams_size; pm_marshal := MsgUpdateParams_marshal; pm_unmarshal := MsgUpdateParams_unmarshal;
  pm_unknown := MsgUpdateParams_unknownFields; pm_set_unknown := MsgUpdateParams_set_unknownFields
|}.

#[global] Instance MsgUpdateParams_reflect : Reflect MsgUpdateParams value := {|
  r_new := mkMsgUpdateParams "" None [];
  r_names := ["vertix.oracle.MsgUpdateParams.authority";
    "vertix.oracle.MsgUpdateParams.params"];
  r_Range := @MsgUpdateParams_Range; r_Has := MsgUpdateParams_Has; r_Clear := MsgUpdateParams_Clear; r_Get := MsgUpdateParams_Get;
  r_Set := MsgUpdateParams_Set; r_Mutable := MsgUpdateParams_Mutable; r_NewField := MsgUpdateParams_NewField;
  r_SetUnknown := MsgUpdateParams_set_unknownFields
|}.

#[global] Instance MsgUpdateParams_schema : Schema MsgUpdateParams := fun x =>
  [(1, FString (MsgUpdateParams_Authority x));
   (2, FMsgs (ptr_fields (MsgUpdateParams_Params x)))].

#[global] Instance MsgUpdateParams_strip : PulsarStrip MsgUpdateParams := fun x =>
  mkMsgUpdateParams (MsgUpdateParams_Authority x) (pstrip true (MsgUpdateParams_Params x)) [].

(** *** [MsgUpdateParamsResponse] *)

Definition MsgUpdateParamsResponse_Range {S} (f : string -> value -> S -> bool * S) (x : MsgUpdateParamsResponse) (s : S) : S :=
  s.

Definition MsgUpdateParamsResponse_Has (fd : string) (x : MsgUpdateParamsResponse) : res bool :=
  fd_switch fd [].

Definition MsgUpdateParamsResponse_Clear (fd : string) (x : MsgUpdateParamsResponse) : res MsgUpdateParamsResponse :=
  fd_switch fd [].

Definition MsgUpdateParamsResponse_Get (fd : string) (x : MsgUpdateParamsResponse) : res value :=
  fd_switch fd [].

Definition MsgUpdateParamsResponse_Set (fd : string) (v : value) (x : MsgUpdateParamsResponse) : res MsgUpdateParamsResponse :=
  fd_switch fd [].

Definition MsgUpdateParamsResponse_Mutable (fd : string) (x : MsgUpdateParamsResponse) : res (MsgUpdateParamsResponse * value) :=
  fd_switch fd [].

Definition MsgUpdateParamsResponse_NewField (fd : string) : res value :=
  fd_switch fd [].

Definition MsgUpdateParamsResponse_size (o : option MsgUpdateParamsResponse) : Z :=
  match o with
  | None => 0
  | Some x => zlen (MsgUpdateParamsResponse_unknownFields x)
  end.

Definition MsgUpdateParamsResponse_marshal : bytes -> option MsgUpdateParamsResponse -> res bytes :=
  pulsar_marshal MsgUpdateParamsResponse_size (fun x w =>
    pw_raw (MsgUpdateParamsResponse_unknownFields x) w).

Definition MsgUpdateParamsResponse_unmarshal : bool -> bytes -> option MsgUpdateParamsResponse -> res (option MsgUpdateParamsResponse) :=
  pulsar_unmarshal (fun discard l fieldNum wireType x b => None)
    (fun s x => MsgUpdateParamsResponse_set_unknownFields (MsgUpdateParamsResponse_unknownFields x ++ s) x).

#[global] Instance MsgUpdateParamsResponse_pulsar : PulsarMsg MsgUpdateParamsResponse := {|
  pm_new := mkMsgUpdateParamsResponse [];
  pm_size := MsgUpdateParamsResponse_size; pm_marshal := MsgUpdateParamsResponse_marshal; pm_unmarshal := MsgUpdateParamsResponse_unmarshal;
  pm_unknown := MsgUpdateParamsResponse_unknownFields; pm_set_unknown := MsgUpdateParamsResponse_set_unknownFields
|}.

#[global] Instance MsgUpdateParamsResponse_reflect : Reflect MsgUpdateParamsResponse value := {|
  r_new := mkMsgUpdateParamsResponse [];
  r_names := [];
  r_Range := @MsgUpdateParamsResponse_Range; r_Has := MsgUpdateParamsResponse_Has; r_Clear := MsgUpdateParamsResponse_Clear; r_Get := MsgUpdateParamsResponse_Get;
  r_Set := MsgUpdateParamsResponse_Set; r_Mutable := MsgUpdateParamsResponse_Mutable; r_NewField := MsgUpdateParamsResponse_NewField;
  r_SetUnknown := MsgUpdateParamsResponse_set_unknownFields
|}.

#[global] Instance MsgUpdateParamsResponse_schema : Schema MsgUpdateParamsResponse := fun x =>
  [].

#[global] Instance MsgUpdateParamsResponse_strip : PulsarStrip MsgUpdateParamsResponse := fun x =>
  mkMsgUpdateParamsResponse [].

(** *** [QueryParamsRequest] *)

Definition QueryParamsRequest_Range {S} (f : string -> value -> S -> bool * S) (x : QueryParamsRequest) (s : S) : S :=
  s.

Definition QueryParamsRequest_Has (fd : string) (x : QueryParamsRequest) : res bool :=
  fd_switch fd [].

Definition QueryParamsRequest_Clear (fd : string) (x : QueryParamsRequest) : res QueryParamsRequest :=
  fd_switch fd [].

Definition QueryParamsRequest_Get (fd : string) (x : QueryParamsRequest) : res value :=
  fd_switch fd [].

Definition QueryParamsRequest_Set (fd : string) (v : value) (x : QueryParamsRequest) : res QueryParamsRequest :=
  fd_switch fd [].

Definition QueryParamsRequest_Mutable (fd : string) (x : QueryParamsRequest) : res (QueryParamsRequest * value) :=
  fd_switch fd [].

Definition QueryParamsRequest_NewField (fd : string) : res value :=
  fd_switch fd [].

Definition QueryParamsRequest_size (o : option QueryParamsRequest) : Z :=
  match o with
  | None => 0
  | Some x => zlen (QueryParamsRequest_unknownFields x)
  end.

Definition QueryParamsRequest_marshal : bytes -> option QueryParamsRequest -> res bytes :=
  pulsar_marshal QueryParamsRequest_size (fun x w =>
    pw_raw (QueryParamsRequest_unknownFields x) w).

Definition QueryParamsRequest_unmarshal : bool -> bytes -> option QueryParamsRequest -> res (option QueryParamsRequest) :=
  pulsar_unmarshal (fun discard l fieldNum wireType x b => None)
    (fun s x => QueryParamsRequest_set_unknownFields (QueryParamsRequest_unknownFields x ++ s) x).

#[global] Instance QueryParamsRequest_pulsar : PulsarMsg QueryParamsRequest := {|
  pm_new := mkQueryParamsRequest [];
  pm_size := QueryParamsRequest_size; pm_marshal := QueryParamsRequest_marshal; pm_unmarshal := QueryParamsRequest_unmarshal;
  pm_unknown := QueryParamsRequest_unknownFields; pm_set_unknown := QueryParamsRequest_set_unknownFields
|}.

#[global] Instance QueryParamsRequest_reflect : Reflect QueryParamsRequest value := {|
  r_new := mkQueryParamsRequest [];
  r_names := [];
  r_Range := @QueryParamsRequest_Range; r_Has := QueryParamsRequest_Has; r_Clear := QueryParamsRequest_Clear; r_Get := QueryParamsRequest_Get;
  r_Set := QueryParamsRequest_Set; r_Mutable := QueryParamsRequest_Mutable; r_NewField := QueryParamsRequest_NewField;
  r_SetUnknown := QueryParamsRequest_set_unknownFields
|}.

#[global] Instance QueryParamsRequest_schema : Schema QueryParamsRequest := fun x =>
  [].

#[global] Instance QueryParamsRequest_strip : PulsarStrip QueryParamsRequest := fun x =>
  mkQueryParamsRequest [].

(** *** [QueryParamsResponse] *)

Definition QueryParamsResponse_Range {S} (f : string -> value -> S -> bool * S) (x : QueryParamsResponse) (s : S) : S :=
  visit f (ptr_set (QueryParamsResponse_Params x)) "vertix.oracle.QueryParamsResponse.params" (VParams (QueryParamsResponse_Params x)) (fun s => s) s.

Definition QueryParamsResponse_Has (fd : string) (x : QueryParamsResponse) : res bool :=
  fd_switch fd
    [("vertix.oracle.QueryParamsResponse.params", Ok (ptr_set (QueryParamsResponse_Params x)))].

Definition QueryParamsResponse_Clear (fd : string) (x : QueryParamsResponse) : res QueryParamsResponse :=
  fd_switch fd
    [("vertix.oracle.QueryParamsResponse.params", Ok (QueryParamsResponse_set_Params None x))].

Definition QueryParamsResponse_Get (fd : string) (x : QueryParamsResponse) : res value :=
  fd_switch fd
    [("vertix.oracle.QueryParamsResponse.params", Ok (VParams (QueryParamsResponse_Params x)))].

Definition QueryParamsResponse_Set (fd : string) (v : value) (x : QueryParamsResponse) : res QueryParamsResponse :=
  fd_switch fd
    [("vertix.oracle.QueryParamsResponse.params", (v ← as_Params v; Ok (QueryParamsResponse_set_Params v x)))].

Definition QueryParamsResponse_Mutable (fd : string) (x : QueryParamsResponse) : res (QueryParamsResponse * value) :=
  fd_switch fd
    [("vertix.oracle.QueryParamsResponse.params", (let x := QueryParamsResponse_set_Params (Some (default pm_new (QueryParamsResponse_Params x))) x in Ok (x, VParams (QueryParamsResponse_Params x))))].

Definition QueryParamsResponse_NewField (fd : string) : res value :=
  fd_switch fd
    [("vertix.oracle.QueryParamsResponse.params", Ok (VParams (Some pm_new)))].

Definition QueryParamsResponse_size (o : option QueryParamsResponse) : Z :=
  match o with
  | None => 0
  | Some x => pz_msg (QueryParamsResponse_Params x) + zlen (QueryParamsResponse_unknownFields x)
  end.

Definition QueryParamsResponse_marshal : bytes -> option QueryParamsResponse -> res bytes :=
  pulsar_marshal QueryParamsResponse_size (fun x w =>
    w ← pw_raw (QueryParamsResponse_unknownFields x) w;
    pw_msg x0a (QueryParamsResponse_Params x) w).

Definition QueryParamsResponse_unmarshal : bool -> bytes -> option QueryParamsResponse -> res (option QueryParamsResponse) :=
  pulsar_unmarshal (fun discard l fieldNum wireType x b =>
    match fieldNum with
    | 1 => Some ('(s, b) ← pr_msg discard (QueryParamsResponse_Params x) l wireType b; Ok (QueryParamsResponse_set_Params (Some s) x, b))
    | _ => None
    end) (fun s x => QueryParamsResponse_set_unknownFields (QueryParamsResponse_unknownFields x ++ s) x).

#[global] Instance QueryParamsResponse_pulsar : PulsarMsg QueryParamsResponse := {|
  pm_new := mkQueryParamsResponse None [];
  pm_size := QueryParamsResponse_size; pm_marshal := QueryParamsResponse_marshal; pm_unmarshal := QueryParamsResponse_unmarshal;
  pm_unknown := QueryParamsResponse_unknownFields; pm_set_unknown := QueryParamsResponse_set_unknownFields
|}.

#[global] Instance QueryParamsResponse_reflect : Reflect QueryParamsResponse value := {|
  r_new := mkQueryParamsResponse None [];
  r_names := ["vertix.oracle.QueryParamsResponse.params"];
  r_Range := @QueryParamsResponse_Range; r_Has := QueryParamsResponse_Has; r_Clear := QueryParamsResponse_Clear; r_Get := QueryParamsResponse_Get;
  r_Set := QueryParamsResponse_Set; r_Mutable := QueryParamsResponse_Mutable; r_NewField := QueryParamsResponse_NewField;
  r_SetUnknown := QueryParamsResponse_set_unknownFields
|}.

#[global] Instance QueryParamsResponse_schema : Schema QueryParamsResponse := fun x =>
  [(1, FMsgs (ptr_fields (QueryParamsResponse_Params x)))].

#[global] Instance QueryParamsResponse_strip : PulsarStrip QueryParamsResponse := fun x =>
  mkQueryParamsResponse (pstrip true (QueryParamsResponse_Params x)) [].

(** ** The messages keep the promises of [PulsarLaws] and [ReflectLaws] *)

Context {PL : ProtoRuntimeLaws} {IL : ApiImportsLaws}.

#[global] Instance Params_wire : PulsarLaws Params.
Proof.
  eapply (own_pulsar _ _ (fun x => True)); [intros; reflexivity|intros; reflexivity|reflexivity|unknown_lens| | |knows_switch|].
  - intros x Hx. unfold pm_size, Params_pulsar, Params_size, Params_schema. pencodes_fields.
  - intros d [u] Hx Hu. simpl in Hu. subst u. reads_start ([] : bytes).
    preads_end d.
  - intros d l k wt x b r ? E. cbv beta in E. pconsumes_fields E.
Defined.

#[global] Instance Params_reflects : ReflectLaws Params value.
Proof.
  split; [reflect_dom|reflect_range| |reflect_clear|reflect_set|reflect_mutable|reflect_new].
  intros [u]. unfold populated. rewrite copy_populated. simpl r_names. simpl r_new.
  reflexivity.
Qed.

#[global] Instance GenesisState_wire : PulsarLaws GenesisState.
Proof.
  eapply (own_pulsar _ _ (fun x => (forall y, GenesisState_Params x = Some y -> pm_good y))); [intros; reflexivity|intros; reflexivity|reflexivity|unknown_lens| | |knows_switch|].
  - intros x Hx. unfold pm_size, GenesisState_pulsar, GenesisState_size, GenesisState_schema. pencodes_fields.
  - intros d [x1 u] Hx Hu. simpl in Hu. subst u. reads_start (proto3_field (1, FMsgs (ptr_fields x1)) ++ [] : bytes).
    preads_optional d (fun v => mkGenesisState v []). preads_end d.
  - intros d l k wt x b r ? E. cbv beta in E. pconsumes_fields E.
Defined.

#[global] Instance GenesisState_reflects : ReflectLaws GenesisState value.
Proof.
  split; [reflect_dom|reflect_range| |reflect_clear|reflect_set|reflect_mutable|reflect_new].
  intros [x1 u]. unfold populated. rewrite copy_populated. simpl r_names. simpl r_new.
  copy_one (mkGenesisState x1 []). reflexivity.
Qed.

#[global] Instance MsgUpdateParams_wire : PulsarLaws MsgUpdateParams.
Proof.
  eapply (own_pulsar _ _ (fun x => (forall y, MsgUpdateParams_Params x = Some y -> pm_good y))); [intros; reflexivity|intros; reflexivity|reflexivity|unknown_lens| | |knows_switch|].
  - intros x Hx. unfold pm_size, MsgUpdateParams_pulsar, MsgUpdateParams_size, MsgUpdateParams_schema. pencodes_fields.
  - intros d [x1 x2 u] Hx Hu. simpl in Hu. subst u. reads_start (proto3_field (1, FString x1) ++ proto3_field (2, FMsgs (ptr_fields x2)) ++ [] : bytes).
    reads_scalar. preads_optional d (fun v => mkMsgUpdateParams x1 v []). preads_end d.
  - intros d l k wt x b r ? E. cbv beta in E. pconsumes_fields E.
Defined.

#[global] Instance MsgUpdateParams_reflects : ReflectLaws MsgUpdateParams value.
Proof.
  split; [reflect_dom|reflect_range| |reflect_clear|reflect_set|reflect_mutable|reflect_new].
  intros [x1 x2 u]. unfold populated. rewrite copy_populated. simpl r_names. simpl r_new.
  copy_one (mkMsgUpdateParams x1 None []). copy_one (mkMsgUpdateParams x1 x2 []). reflexivity.
Qed.

#[global] Instance MsgUpdateParamsResponse_wire : PulsarLaws MsgUpdateParamsResponse.
Proof.
  eapply (own_pulsar _ _ (fun x => True)); [intros; reflexivity|intros; reflexivity|reflexivity|unknown_lens| | |knows_switch|].
  - intros x Hx. unfold pm_size, MsgUpdateParamsResponse_pulsar, MsgUpdateParamsResponse_size, MsgUpdateParamsResponse_schema. pencodes_fields.
  - intros d [u] Hx Hu. simpl in Hu. subst u. reads_start ([] : bytes).
    preads_end d.
  - intros d l k wt x b r ? E. cbv beta in E. pconsumes_fields E.
Defined.

#[global] Instance MsgUpdateParamsResponse_reflects : ReflectLaws MsgUpdateParamsResponse value.
Proof.
  split; [reflect_dom|reflect_range| |reflect_clear|reflect_set|reflect_mutable|reflect_new].
  intros [u]. unfold populated. rewrite copy_populated. simpl r_names. simpl r_new.
  reflexivity.
Qed.

#[global] Instance QueryParamsRequest_wire : PulsarLaws QueryParamsRequest.
Proof.
  eapply (own_pulsar _ _ (fun x => True)); [intros; reflexivity|intros; reflexivity|reflexivity|unknown_lens| | |knows_switch|].
  - intros x Hx. unfold pm_size, QueryParamsRequest_pulsar, QueryParamsRequest_size, QueryParamsRequest_schema. pencodes_fields.
  - intros d [u] Hx Hu. simpl in Hu. subst u. reads_start ([] : bytes).
    preads_end d.
  - intros d l k wt x b r ? E. cbv beta in E. pconsumes_fields E.
Defined.

#[global] Instance QueryParamsRequest_reflects : ReflectLaws QueryParamsRequest value.
Proof.
  split; [reflect_dom|reflect_range| |reflect_clear|reflect_set|reflect_mutable|reflect_new].
  intros [u]. unfold populated. rewrite copy_populated. simpl r_names. simpl r_new.
  reflexivity.
Qed.

#[global] Instance QueryParamsResponse_wire : PulsarLaws QueryParamsResponse.
Proof.
  eapply (own_pulsar _ _ (fun x => (forall y, QueryParamsResponse_Params x = Some y -> pm_good y))); [intros; reflexivity|intros; reflexivity|reflexivity|unknown_lens| | |knows_switch|].
  - intros x Hx. unfold pm_size, QueryParamsResponse_pulsar, QueryParamsResponse_size, QueryParamsResponse_schema. pencodes_fields.
  - intros d [x1 u] Hx Hu. simpl in Hu. subst u. reads_start (proto3_field (1, FMsgs (ptr_fields x1)) ++ [] : bytes).
    preads_optional d (fun v => mkQueryParamsResponse v []). preads_end d.
  - intros d l k wt x b r ? E. cbv beta in E. pconsumes_fields E.
Defined.

#[global] Instance QueryParamsResponse_reflects : ReflectLaws QueryParamsResponse value.
Proof.
  split; [reflect_dom|reflect_range| |reflect_clear|reflect_set|reflect_mutable|reflect_new].
  intros [x1 u]. unfold populated. rewrite copy_populated. simpl r_names. simpl r_new.
  copy_one (mkQueryParamsResponse x1 []). reflexivity.
Qed.

End ApiOracleBase.
