(* ===== verification/ApiLists.v ===== *)
(** * The client API: list wrappers

    The types [_M_n_list] of api/vertix/*/v1/*.pulsar.go, through which reflection reads
    and changes a repeated field in place (protoreflect.List). A wrapper refers to the
    field or to nothing; a slice is its elements with what its array holds beyond them,
    since [Truncate] may also extend it up to the capacity. Lists of messages hold
    pointers. [ListLaws] is the contract of protoreflect.List, which all twelve wrappers
    meet. *)

From S2P Require Import Prelude Sdk Wire Codec Foreign WireMsg Pulsar Reflect ApiOracle ApiRwa.

Open Scope Z_scope.

(** ** Slices *)

Record slice (A : Type) : Type := mkSlice { elems : list A; spare : list A }.
Arguments mkSlice {_}.
Arguments elems {_}.
Arguments spare {_}.

(** A [protoreflect.Value]: one of the kind of the element, or another, with what its
    [String] method prints. *)
Inductive elem_value (A : Type) : Type :=
| ElemValue (a : A)
| OtherValue (printed : string).
Arguments ElemValue {_}.
Arguments OtherValue {_}.

(** The state of a wrapper: the slice that [x.list] points to, or nil. *)
Abbreviation wrapper A := (option (slice A)).

(** The methods. [Set], [Append], [AppendMutable] and [Truncate] change the slice. *)
Record List (A : Type) : Type := mkList {
  Len : wrapper A -> Z;
  Get : Z -> wrapper A -> res (elem_value A);
  Set_ : Z -> elem_value A -> wrapper A -> res (wrapper A);
  Append : elem_value A -> wrapper A -> res (wrapper A);
  AppendMutable : wrapper A -> res (wrapper A * elem_value A);
  Truncate : Z -> wrapper A -> res (wrapper A);
  NewElement : elem_value A;
  IsValid : wrapper A -> bool
}.
Arguments Len {_}.
Arguments Get {_}.
Arguments Set_ {_}.
Arguments Append {_}.
Arguments AppendMutable {_}.
Arguments Truncate {_}.
Arguments NewElement {_}.
Arguments IsValid {_}.
Arguments mkList {_}.

Section Slices.
Context {A : Type}.

(** [grow n] is how many further elements the runtime reserves when it extends a full
    slice of [n]; they are zero. *)
Context (grow : nat -> nat) (zero : A).

Definition slice_append (v : A) (s : slice A) : slice A :=
  match spare s with
  | _ :: rest => mkSlice (elems s ++ [v]) rest
  | [] => mkSlice (elems s ++ [v]) (replicate (grow (length (elems s))) zero)
  end.

(** [s[:n]]. *)
Definition reslice (n : Z) (s : slice A) : res (slice A) :=
  if (0 <=? n) && (n <=? zlen (elems s ++ spare s))
  then Ok (mkSlice (take (Z.to_nat n) (elems s ++ spare s)) (drop (Z.to_nat n) (elems s ++ spare s)))
  else Panic.

Definition slice_index (i : Z) (s : slice A) : res A :=
  if i <? 0 then Panic else match elems s !! Z.to_nat i with Some a => Ok a | None => Panic end.

Definition slice_set (i : Z) (a : A) (s : slice A) : res (slice A) :=
  if (0 <=? i) && (i <? zlen (elems s)) then Ok (mkSlice (<[Z.to_nat i := a]> (elems s)) (spare s)) else Panic.

(** [for i := n; i < len(s); i++ { s[i] = nil }]; a negative index panics. *)
Definition clear_from (n : Z) (s : slice A) : res (slice A) :=
  if n <? 0 then Panic
  else Ok (mkSlice (take (Z.to_nat n) (elems s) ++ replicate (length (elems s) - Z.to_nat n) zero) (spare s)).

(** [*x.list], a nil dereference panics. *)
Definition on_list {B} (f : slice A -> res B) (x : wrapper A) : res B :=
  match x with Some s => f s | None => Panic end.

Definition list_Len (x : wrapper A) : Z := match x with None => 0 | Some s => zlen (elems s) end.
Definition list_IsValid (x : wrapper A) : bool := match x with Some _ => true | None => false end.

End Slices.

(** ** The two kinds of lists *)

Section Kinds.
Context (grow : nat -> nat).

(** [value.String()] is defined on every value. *)
Definition value_String (v : elem_value string) : string := match v with ElemValue s => s | OtherValue s => s end.

Definition string_list : List string := mkList
  list_Len
  (fun i => on_list (fun l => s ← slice_index i l; Ok (ElemValue s)))
  (fun i v => on_list (fun l => l ← slice_set i (value_String v) l; Ok (Some l)))
  (fun v => on_list (fun l => Ok (Some (slice_append grow ""%string (value_String v) l))))
  (fun _ => Panic)
  (fun n => on_list (fun l => l ← reslice n l; Ok (Some l)))
  (ElemValue ""%string)
  list_IsValid.

(** [value.Message().Interface()] asserted to be a pointer to the message type; an element
    is a pointer, [fresh] is [new(A)]. *)
Definition value_Message {A} (v : elem_value (option A)) : res (option A) := match v with ElemValue m => Ok m | OtherValue _ => Panic end.

Definition message_list {A} (fresh : A) : List (option A) := mkList
  list_Len
  (fun i => on_list (fun l => m ← slice_index i l; Ok (ElemValue m)))
  (fun i v => on_list (fun l => m ← value_Message v; l ← slice_set i m l; Ok (Some l)))
  (fun v => on_list (fun l => m ← value_Message v; Ok (Some (slice_append grow None m l))))
  (on_list (fun l => Ok (Some (slice_append grow None (Some fresh) l), ElemValue (Some fresh))))
  (fun n => on_list (fun l => l ← clear_from None n l; l ← reslice n l; Ok (Some l)))
  (ElemValue (Some fresh))
  list_IsValid.

End Kinds.

(** ** The wrappers *)

Section Wrappers.
Context (grow : nat -> nat) {T : StdTime} {P : ProtoRuntime} {I : ApiImports}.

Definition OracleParams_9_list : List string := string_list grow.
Definition oracle_GenesisState_2_list : List (option ApiOracle.AggregatedPrice) := message_list grow (pm_new (A := ApiOracle.AggregatedPrice)).
Definition oracle_GenesisState_3_list : List (option ApiOracle.FeederDelegation) := message_list grow (pm_new (A := ApiOracle.FeederDelegation)).
Definition QueryAssetsByIssuerResponse_1_list : List (option ApiRwa.AssetRecord) := message_list grow (pm_new (A := ApiRwa.AssetRecord)).
Definition QueryRestrictionsResponse_2_list : List string := string_list grow.
Definition QueryRestrictionsResponse_3_list : List string := string_list grow.
Definition rwa_GenesisState_2_list : List (option ApiRwa.AssetRecord) := message_list grow (pm_new (A := ApiRwa.AssetRecord)).
Definition rwa_GenesisState_3_list : List (option ApiRwa.Restriction) := message_list grow (pm_new (A := ApiRwa.Restriction)).
Definition MsgUpdateRestrictions_4_list : List string := string_list grow.
Definition MsgUpdateRestrictions_5_list : List string := string_list grow.
Definition MsgUpdateRestrictions_6_list : List string := string_list grow.
Definition MsgUpdateRestrictions_7_list : List string := string_list grow.

End Wrappers.

(** ** The contract of protoreflect.List *)

(** The element that a value stands for, when the list can hold it. *)
Definition holds {A} (v : elem_value A) : option A := match v with ElemValue a => Some a | OtherValue _ => None end.

(** On a valid list:
    - [Get] reads what is at an index below the length and panics elsewhere;
    - [Set] changes exactly its index, and panics outside of the list;
    - [Append] adds its value at the end and changes nothing else;
    - [Truncate] to a smaller length drops the end;
    - a new element can be appended; a mutable one is appended as the new element that it
      returns, or the list has no mutable elements.
    An invalid list is empty and panics when it is changed. *)
Record ListLaws {A} (L : List A) : Prop := mkListLaws {
  ll_get i s : Get L i (Some s) = if (0 <=? i) && (i <? Len L (Some s))
    then match elems s !! Z.to_nat i with Some a => Ok (ElemValue a) | None => Panic end else Panic;
  ll_set i v a s : holds v = Some a -> if (0 <=? i) && (i <? Len L (Some s))
    then exists s', Set_ L i v (Some s) = Ok (Some s') /\ elems s' = <[Z.to_nat i := a]> (elems s)
    else Set_ L i v (Some s) = Panic;
  ll_append v a s : holds v = Some a -> exists s', Append L v (Some s) = Ok (Some s') /\ elems s' = elems s ++ [a];
  ll_truncate n s : 0 <= n <= Len L (Some s) ->
    exists s', Truncate L n (Some s) = Ok (Some s') /\ elems s' = take (Z.to_nat n) (elems s);
  ll_new : is_Some (holds (NewElement L));
  ll_mutable s : AppendMutable L (Some s) = Panic \/
    exists s' a, AppendMutable L (Some s) = Ok (Some s', NewElement L) /\ holds (NewElement L) = Some a /\ elems s' = elems s ++ [a];
  ll_len s : Len L (Some s) = zlen (elems s) /\ IsValid L (Some s) = true;
  ll_invalid i v : Len L None = 0 /\ IsValid L None = false /\ Get L i None = Panic /\ Set_ L i v None = Panic /\
    Append L v None = Panic /\ AppendMutable L None = Panic /\ Truncate L i None = Panic
}.

Section Laws.
Context {A : Type} (grow : nat -> nat) (zero : A).

Lemma slice_append_elems v s : elems (slice_append grow zero v s) = elems s ++ [v].
Proof. unfold slice_append. by destruct (spare s). Qed.

Lemma slice_index_run i (s : slice A) : slice_index i s = if (0 <=? i) && (i <? zlen (elems s))
  then match elems s !! Z.to_nat i with Some a => Ok a | None => Panic end else Panic.
Proof.
  unfold slice_index. destruct (Z.ltb_spec i 0); [by rewrite (proj2 (Z.leb_gt 0 i)) by lia|].
  rewrite (proj2 (Z.leb_le 0 i)) by lia. cbn [andb]. destruct (Z.ltb_spec i (zlen (elems s))); [done|].
  rewrite lookup_ge_None_2; [done|]. unfold zlen in *. lia.
Qed.

Lemma reslice_take n (s : slice A) : 0 <= n <= zlen (elems s) -> exists s', reslice n s = Ok s' /\ elems s' = take (Z.to_nat n) (elems s).
Proof.
  intros Hn. unfold reslice. rewrite (proj2 (Z.leb_le 0 n)) by lia. unfold zlen in *. rewrite length_app.
  rewrite (proj2 (Z.leb_le n _)) by lia. eexists. split; [done|]. cbn. apply take_app_le. lia.
Qed.

Lemma clear_reslice n (s : slice A) : 0 <= n <= zlen (elems s) ->
  exists s1 s2, clear_from zero n s = Ok s1 /\ reslice n s1 = Ok s2 /\ elems s2 = take (Z.to_nat n) (elems s).
Proof.
  intros Hn. unfold clear_from. rewrite (proj2 (Z.ltb_ge n 0)) by lia. unfold zlen in Hn.
  set (s1 := mkSlice _ _). assert (zlen (elems s1) = zlen (elems s)) as Hl.
  { unfold zlen, s1. cbn. rewrite length_app, length_take, length_replicate. lia. }
  destruct (reslice_take n s1) as (s2 & E & H2); [unfold zlen in *; lia|]. exists s1, s2. split; [done|]. split; [done|].
  rewrite H2. unfold s1. cbn. rewrite take_app_le by (rewrite length_take; lia). rewrite take_take. f_equal. lia.
Qed.

End Laws.

Lemma string_list_laws grow : ListLaws (string_list grow).
Proof.
  split; cbn -[zlen].
  - intros i s. rewrite slice_index_run. destruct (_ && _); [|done]. by destruct (elems s !! Z.to_nat i).
  - intros i [b|b] a s [= ->]. unfold slice_set. destruct (_ && _); [|done]. by eexists.
  - intros [b|b] a s [= ->]. eexists. split; [done|]. apply slice_append_elems.
  - intros n s Hn. destruct (reslice_take n s Hn) as (s' & E & H). exists s'. by rewrite E.
  - by eexists.
  - by left.
  - done.
  - done.
Qed.

Lemma message_list_laws {A} grow (fresh : A) : ListLaws (message_list grow fresh).
Proof.
  split; cbn -[zlen].
  - intros i s. rewrite slice_index_run. destruct (_ && _); [|done]. by destruct (elems s !! Z.to_nat i).
  - intros i [b|b] a s [= ->]. unfold slice_set. cbn -[zlen]. destruct (_ && _); [|done]. by eexists.
  - intros [b|b] a s [= ->]. eexists. split; [done|]. apply slice_append_elems.
  - intros n s Hn. destruct (clear_reslice None n s Hn) as (s1 & s2 & E1 & E2 & H). exists s2. rewrite E1. cbn. by rewrite E2.
  - by eexists.
  - intros s. right. eexists _, _. split; [done|]. split; [done|]. apply slice_append_elems.
  - done.
  - done.
Qed.

(** All wrappers of the client library keep the contract. *)
Theorem list_wrappers_lawful (grow : nat -> nat) {T : StdTime} {P : ProtoRuntime} {I : ApiImports} :
  Forall (fun L => ListLaws L) [OracleParams_9_list grow; QueryRestrictionsResponse_2_list grow; QueryRestrictionsResponse_3_list grow;
    MsgUpdateRestrictions_4_list grow; MsgUpdateRestrictions_5_list grow; MsgUpdateRestrictions_6_list grow; MsgUpdateRestrictions_7_list grow] /\
  ListLaws (oracle_GenesisState_2_list grow) /\ ListLaws (oracle_GenesisState_3_list grow) /\
  ListLaws (QueryAssetsByIssuerResponse_1_list grow) /\ ListLaws (rwa_GenesisState_2_list grow) /\ ListLaws (rwa_GenesisState_3_list grow).
Proof. split; [repeat constructor; apply string_list_laws|]. split_and!; apply message_list_laws. Qed.
