(* ===== verification/Interop.v ===== *)
(** * Two codecs, one wire format

    A message of Vertix has two Go types: the one of x/*/types (gogoproto), which the
    node stores and executes, and the one of api/vertix/ (pulsar), which clients build
    and read. [to_api] is the client's view of a message of the node; this file shows
    that the two generated codecs write the same bytes for it, and read each other's
    bytes. The types of other modules (timestamps, pagination) have the same
    property by assumption ([SharedImports]). *)

From S2P Require Import Prelude Sdk World SdkRef Wire FeesTypes OracleTypes RwaTypes Codec Foreign.
From S2P Require Import WireMsg FeesCodec OracleCodec RwaCodec TwapCodec Pulsar Reflect.
From S2P Require Import ApiFees ApiOracle ApiRwa ApiFeesBase ApiOracleBase.

Open Scope Z_scope.

Class ToApi (A B : Type) : Type := to_api : A -> B.

(** The view is a message that can be sent, with the size and the encoding of the
    original. *)
Class ToApiLaws (A B : Type) {T : StdTime} {P : ProtoRuntime} {GA : GoMsg A} {SA : Schema A} {LA : GoMsgLaws A}
    {MB : PulsarMsg B} {SB : Schema B} {FB : PulsarStrip B} {LB : PulsarLaws B} {C : ToApi A B} : Prop :=
  to_api_law m : msg_wf m -> pm_plain (to_api m) /\ proto3_encode (to_api m) = proto3_encode m /\
    pm_size (Some (to_api m)) = msg_Size m.

Class SharedImports {SI : SdkImports} {I : ApiImports} : Type := {
  api_time : Z -> Timestamp;
  PageRequest_to_api :: ToApi WireMsg.PageRequest Pulsar.PageRequest;
  PageResponse_to_api :: ToApi WireMsg.PageResponse Pulsar.PageResponse
}.

Class SharedImportsLaws {T : StdTime} {P : ProtoRuntime} {SI : SdkImports} {SIL : SdkImportsLaws}
    {I : ApiImports} {IL : ApiImportsLaws} {SH : SharedImports} : Prop := {
  api_time_law t : time_ok t ->
    pm_plain (api_time t) /\ StdTimeMarshal t = Ok (proto3_encode (api_time t)) /\
    pm_size (Some (api_time t)) = SizeOfStdTime t;
  PageRequest_to_api_laws :: ToApiLaws WireMsg.PageRequest Pulsar.PageRequest;
  PageResponse_to_api_laws :: ToApiLaws WireMsg.PageResponse Pulsar.PageResponse
}.

(** ** Fields *)

Lemma same_fields {T : StdTime} {A B} {SA : Schema A} {SB : Schema B} (a : A) (b : B) :
  Forall2 (fun f g => proto3_field f = proto3_field g) (fields b) (fields a) -> proto3_encode b = proto3_encode a.
Proof. unfold proto3_encode. induction 1 as [|f g l l' E _ IH]; [done|]. cbn [mbind list_bind]. by rewrite E, IH. Qed.

Section Fields.
Context {T : StdTime} {P : ProtoRuntime} {PL : ProtoRuntimeLaws} {A B : Type} {GA : GoMsg A} {SA : Schema A} {LA : GoMsgLaws A}
  {MB : PulsarMsg B} {SB : Schema B} {FB : PulsarStrip B} {LB : PulsarLaws B} {C : ToApi A B} {CL : ToApiLaws A B}.

Lemma same_msg k (m : A) : msg_wf m ->
  proto3_field (k, FMsgs (ptr_fields (Some (to_api m)))) = proto3_field (k, FMsg (fields m)).
Proof.
  intros Hm. destruct (to_api_law m Hm) as (Hp & E & _). rewrite ptr_fields_some, plain_bytes, E by done. done.
Qed.

Lemma same_opt k (o : option A) : (forall m, o = Some m -> msg_wf m) ->
  proto3_field (k, FMsgs (ptr_fields (to_api <$> o))) =
  proto3_field (k, FMsgs (match o with Some m => [fields m] | None => [] end)).
Proof.
  intros Ho. destruct o as [m|]; [|done]. cbn [fmap option_fmap option_map]. rewrite same_msg by auto.
  symmetry. apply (app_nil_r (proto3_field (k, FMsg (fields m)))).
Qed.

Lemma same_msgs k (l : list A) : Forall msg_wf l ->
  proto3_field (k, FMsgs (elem_fields <$> (Some <$> (to_api <$> l)))) = proto3_field (k, FMsgs (fields <$> l)).
Proof.
  induction 1 as [|m l Hm _ IH]; [done|]. destruct (to_api_law m Hm) as (Hp & E & _). cbn [fmap list_fmap].
  change (elem_fields (Some (to_api m)) :: ?r) with (elem_fields <$> Some (to_api m) :: (Some <$> (to_api <$> l))).
  rewrite elem_fields_cons, plain_bytes, E, IH by done. done.
Qed.

Lemma plain_msg (m : A) y : msg_wf m -> Some (to_api m) = Some y -> pm_good y.
Proof. intros Hm [= <-]. by apply plain_good, to_api_law. Qed.

Lemma plain_opt (o : option A) y : (forall m, o = Some m -> msg_wf m) -> to_api <$> o = Some y -> pm_good y.
Proof. intros Ho. destruct o as [m|]; [|done]. intros [= <-]. apply plain_good, to_api_law. by apply Ho. Qed.

Lemma plain_msgs (l : list A) : Forall msg_wf l -> elems_good (Some <$> (to_api <$> l)).
Proof.
  induction 1 as [|m l Hm _ IH]; [constructor|]. constructor; [|done]. eexists. split; [done|]. by apply plain_good, to_api_law.
Qed.

Lemma strip_msg (m : A) : msg_wf m -> pstrip true (Some (to_api m)) = Some (to_api m).
Proof. intros Hm. unfold pstrip. cbn [option_map]. f_equal. by apply to_api_law. Qed.

Lemma strip_opt (o : option A) : (forall m, o = Some m -> msg_wf m) -> pstrip true (to_api <$> o) = to_api <$> o.
Proof. intros Ho. destruct o as [m|]; [by apply strip_msg, Ho|done]. Qed.

Lemma strip_msgs (l : list A) : Forall msg_wf l -> pstrips true (Some <$> (to_api <$> l)) = Some <$> (to_api <$> l).
Proof.
  unfold pstrips. induction 1 as [|m l Hm _ IH]; [done|]. cbn [fmap list_fmap option_map].
  f_equal; [f_equal; by apply to_api_law|exact IH].
Qed.

Lemma size_same_msg (m : A) : msg_wf m -> pz_msg (Some (to_api m)) = size_msg m.
Proof.
  intros Hm. destruct (to_api_law m Hm) as (_ & _ & E). destruct (msg_encodes m Hm) as [H0 _].
  unfold pz_msg, size_msg. by rewrite opt_size, E, pz_bytes_eq.
Qed.

Lemma size_same_opt (o : option A) : (forall m, o = Some m -> msg_wf m) -> pz_msg (to_api <$> o) = size_opt o.
Proof. intros Ho. destruct o as [m|]; [by apply size_same_msg, Ho|done]. Qed.

Lemma size_same_msgs (l : list A) : Forall msg_wf l -> pz_msgs (Some <$> (to_api <$> l)) = size_msgs l.
Proof.
  unfold pz_msgs, size_msgs. induction 1 as [|m l Hm _ IH]; [done|]. cbn [fmap list_fmap foldr]. rewrite IH.
  f_equal. by apply size_same_msg.
Qed.

End Fields.

Section Interop.
Context {T : StdTime} {TL : StdTimeLaws} {TT : StdTimeTotal} {P : ProtoRuntime} {PL : ProtoRuntimeLaws}
  {SI : SdkImports} {SIL : SdkImportsLaws} {I : ApiImports} {IL : ApiImportsLaws}
  {SH : SharedImports} {SHL : SharedImportsLaws} {D : DecWire} {DL : DecWireLaws}.

Lemma same_time k t : time_ok t ->
  proto3_field (k, FMsgs (ptr_fields (Some (api_time t)))) = proto3_field (k, FTime t).
Proof.
  intros Ht. destruct (api_time_law t Ht) as (Hp & E & _). rewrite ptr_fields_some, plain_bytes by done.
  unfold proto3_field, proto3_value. by rewrite E.
Qed.

Lemma size_same_time t : time_ok t -> pz_msg (Some (api_time t)) = size_time t.
Proof.
  intros Ht. destruct (api_time_law t Ht) as (_ & _ & E). destruct (std_time t Ht) as (b & _ & Es & _).
  unfold pz_msg, size_time. rewrite opt_size, E, pz_bytes_eq; [done|]. rewrite Es. apply zlen_nonneg.
Qed.

Lemma plain_time t y : time_ok t -> Some (api_time t) = Some y -> pm_good y.
Proof. intros Ht [= <-]. by apply plain_good, api_time_law. Qed.

Lemma strip_time t : time_ok t -> pstrip true (Some (api_time t)) = Some (api_time t).
Proof. intros Ht. unfold pstrip. cbn [option_map]. f_equal. by apply api_time_law. Qed.

Ltac to_api_wf := match goal with H : _ |- _ => exact H | |- _ => exact Logic.I | |- _ => solve [simpl; tauto] end.
Ltac to_api_field := first [reflexivity|apply same_msg; to_api_wf|apply same_opt; to_api_wf|apply same_msgs; to_api_wf|apply same_time; to_api_wf].
Ltac to_api_plain := first [done|to_api_wf|intros ?; apply plain_msg; to_api_wf|intros ?; apply plain_opt; to_api_wf
  |apply plain_msgs; to_api_wf|intros ?; apply plain_time; to_api_wf].

Ltac to_api_size := first [apply pz_string_eq|apply pz_strings_eq|apply pz_int_eq|reflexivity
  |apply size_same_msg; to_api_wf|apply size_same_opt; to_api_wf|apply size_same_msgs; to_api_wf|apply size_same_time; to_api_wf].
Lemma size_end n n' : n = n' -> n + zlen (A:=byte) [] = n'.
Proof. intros ->. apply Z.add_0_r. Qed.

Ltac to_api_strip := first [reflexivity|apply strip_msg; to_api_wf|apply strip_opt; to_api_wf|apply strip_msgs; to_api_wf
  |apply strip_time; to_api_wf].
Ltac to_api_strips :=
  lazymatch goal with |- ?l = ?r => let l1 := eval hnf in l in let r1 := eval hnf in r in change (l1 = r1) end;
  f_equal; to_api_strip.

(** The law of a message from the lemmas of its fields. *)
Ltac to_api_fields :=
  let m := fresh "m" in let Hm := fresh in intros m Hm; destruct m; simpl in Hm;
  repeat match goal with H : ?Q /\ _ |- _ => lazymatch Q with (_ <= _)%Z => fail | _ => destruct H end end;
  split; [split; [simpl; repeat (lazymatch goal with |- (_ <= _)%Z /\ _ => fail | |- _ /\ _ => split; [to_api_plain|] end); to_api_plain
                |split; [reflexivity|to_api_strips]]
         |split; [apply same_fields; repeat (apply Forall2_cons; split; [to_api_field|]); by apply Forall2_nil|]].
Ltac to_api_sizes := first [reflexivity|apply size_end; repeat (apply (f_equal2 Z.add); [|to_api_size]); to_api_size].

(** ** x/fees *)

#[global] Instance fees_FeesParams_to_api : ToApi FeesTypes.FeesParams ApiFees.FeesParams := fun m =>
  ApiFees.mkFeesParams (FeesTypes.BurnRatio m) (FeesTypes.DistributionRatio m) [].

#[global] Instance fees_FeesParams_to_api_laws : ToApiLaws FeesTypes.FeesParams ApiFees.FeesParams.
Proof.
  to_api_fields. unfold pm_size, ApiFees.FeesParams_pulsar, ApiFees.FeesParams_size, msg_Size, FeesCodec.FeesParams_msg, FeesTypes.FeesParams_Size.
  to_api_sizes.
Qed.

#[global] Instance fees_GenesisState_to_api : ToApi FeesTypes.GenesisState ApiFees.GenesisState := fun m =>
  ApiFees.mkGenesisState (Some (to_api (FeesTypes.gs_Params m))) [].

#[global] Instance fees_GenesisState_to_api_laws : ToApiLaws FeesTypes.GenesisState ApiFees.GenesisState.
Proof.
  to_api_fields. unfold pm_size, ApiFees.GenesisState_pulsar, ApiFees.GenesisState_size, msg_Size, FeesCodec.GenesisState_msg, FeesCodec.GenesisState_Size.
  to_api_sizes.
Qed.

#[global] Instance fees_MsgUpdateParams_to_api : ToApi FeesTypes.MsgUpdateParams ApiFees.MsgUpdateParams := fun m =>
  ApiFees.mkMsgUpdateParams (FeesTypes.Authority m) (Some (to_api (FeesTypes.Params m))) [].

#[global] Instance fees_MsgUpdateParams_to_api_laws : ToApiLaws FeesTypes.MsgUpdateParams ApiFees.MsgUpdateParams.
Proof.
  to_api_fields. unfold pm_size, ApiFees.MsgUpdateParams_pulsar, ApiFees.MsgUpdateParams_size, msg_Size, FeesCodec.MsgUpdateParams_msg, FeesCodec.MsgUpdateParams_Size.
  to_api_sizes.
Qed.

#[global] Instance fees_MsgUpdateParamsResponse_to_api : ToApi FeesCodec.MsgUpdateParamsResponse ApiFees.MsgUpdateParamsResponse := fun m =>
  ApiFees.mkMsgUpdateParamsResponse  [].

#[global] Instance fees_MsgUpdateParamsResponse_to_api_laws : ToApiLaws FeesCodec.MsgUpdateParamsResponse ApiFees.MsgUpdateParamsResponse.
Proof.
  to_api_fields. unfold pm_size, ApiFees.MsgUpdateParamsResponse_pulsar, ApiFees.MsgUpdateParamsResponse_size, msg_Size, FeesCodec.MsgUpdateParamsResponse_msg, FeesCodec.MsgUpdateParamsResponse_Size.
  to_api_sizes.
Qed.

#[global] Instance fees_QueryParamsRequest_to_api : ToApi FeesCodec.QueryParamsRequest ApiFees.QueryParamsRequest := fun m =>
  ApiFees.mkQueryParamsRequest  [].

#[global] Instance fees_QueryParamsRequest_to_api_laws : ToApiLaws FeesCodec.QueryParamsRequest ApiFees.QueryParamsRequest.
Proof.
  to_api_fields. unfold pm_size, ApiFees.QueryParamsRequest_pulsar, ApiFees.QueryParamsRequest_size, msg_Size, FeesCodec.QueryParamsRequest_msg, FeesCodec.QueryParamsRequest_Size.
  to_api_sizes.
Qed.

#[global] Instance fees_QueryParamsResponse_to_api : ToApi FeesCodec.QueryParamsResponse ApiFees.QueryParamsResponse := fun m =>
  ApiFees.mkQueryParamsResponse (Some (to_api (FeesCodec.qp_res_Params m))) [].

#[global] Instance fees_QueryParamsResponse_to_api_laws : ToApiLaws FeesCodec.QueryParamsResponse ApiFees.QueryParamsResponse.
Proof.
  to_api_fields. unfold pm_size, ApiFees.QueryParamsResponse_pulsar, ApiFees.QueryParamsResponse_size, msg_Size, FeesCodec.QueryParamsResponse_msg, FeesCodec.QueryParamsResponse_Size.
  to_api_sizes.
Qed.

(** ** x/oracle *)

#[global] Instance oracle_OracleFeed_to_api : ToApi OracleTypes.OracleFeed ApiOracle.OracleFeed := fun m =>
  ApiOracle.mkOracleFeed (OracleTypes.of_Validator m) (OracleTypes.of_Pair m) (OracleTypes.of_Price m) (OracleTypes.of_BlockHeight m) [].

#[global] Instance oracle_OracleFeed_to_api_laws : ToApiLaws OracleTypes.OracleFeed ApiOracle.OracleFeed.
Proof.
  to_api_fields. unfold pm_size, ApiOracle.OracleFeed_pulsar, ApiOracle.OracleFeed_size, msg_Size, OracleCodec.OracleFeed_msg, OracleTypes.OracleFeed_Size.
  to_api_sizes.
Qed.

#[global] Instance oracle_AggregatedPrice_to_api : ToApi OracleTypes.AggregatedPrice ApiOracle.AggregatedPrice := fun m =>
  ApiOracle.mkAggregatedPrice (OracleTypes.ap_Pair m) (OracleTypes.ap_Price m) (OracleTypes.ap_BlockHeight m) (Some (api_time (OracleTypes.ap_BlockTime m))) [].

#[global] Instance oracle_AggregatedPrice_to_api_laws : ToApiLaws OracleTypes.AggregatedPrice ApiOracle.AggregatedPrice.
Proof.
  to_api_fields. unfold pm_size, ApiOracle.AggregatedPrice_pulsar, ApiOracle.AggregatedPrice_size, msg_Size, OracleCodec.AggregatedPrice_msg, OracleTypes.AggregatedPrice_Size.
  to_api_sizes.
Qed.

#[global] Instance oracle_TWAPEntry_to_api : ToApi OracleTypes.TWAPEntry ApiOracle.TWAPEntry := fun m =>
  ApiOracle.mkTWAPEntry (OracleTypes.te_Pair m) (OracleTypes.te_Price m) (Some (api_time (OracleTypes.te_BlockTime m))) [].

#[global] Instance oracle_TWAPEntry_to_api_laws : ToApiLaws OracleTypes.TWAPEntry ApiOracle.TWAPEntry.
Proof.
  to_api_fields. unfold pm_size, ApiOracle.TWAPEntry_pulsar, ApiOracle.TWAPEntry_size, msg_Size, OracleCodec.TWAPEntry_msg, OracleTypes.TWAPEntry_Size.
  to_api_sizes.
Qed.

#[global] Instance oracle_OracleParams_to_api : ToApi OracleTypes.OracleParams ApiOracle.OracleParams := fun m =>
  ApiOracle.mkOracleParams (OracleTypes.VoteWindow m) (OracleTypes.MissThreshold m) (OracleTypes.MissSlashRate m) (OracleTypes.OutlierSlashRate m) (OracleTypes.OutlierThreshold m) (OracleTypes.MissWindowSize m) (OracleTypes.QuorumFraction m) (OracleTypes.MaxPriceAge m) (OracleTypes.AcceptList m) [].

#[global] Instance oracle_OracleParams_to_api_laws : ToApiLaws OracleTypes.OracleParams ApiOracle.OracleParams.
Proof.
  to_api_fields. unfold pm_size, ApiOracle.OracleParams_pulsar, ApiOracle.OracleParams_size, msg_Size, OracleCodec.OracleParams_msg, OracleTypes.OracleParams_Size.
  to_api_sizes.
Qed.

#[global] Instance oracle_FeederDelegation_to_api : ToApi OracleTypes.FeederDelegation ApiOracle.FeederDelegation := fun m =>
  ApiOracle.mkFeederDelegation (OracleTypes.fd_Validator m) (OracleTypes.fd_Feeder m) [].

#[global] Instance oracle_FeederDelegation_to_api_laws : ToApiLaws OracleTypes.FeederDelegation ApiOracle.FeederDelegation.
Proof.
  to_api_fields. unfold pm_size, ApiOracle.FeederDelegation_pulsar, ApiOracle.FeederDelegation_size, msg_Size, OracleCodec.FeederDelegation_msg, OracleCodec.FeederDelegation_Size.
  to_api_sizes.
Qed.

#[global] Instance oracle_GenesisState_to_api : ToApi OracleTypes.GenesisState ApiOracle.GenesisState := fun m =>
  ApiOracle.mkGenesisState (Some (to_api (OracleTypes.gs_Params m))) (Some <$> (to_api <$> (OracleTypes.gs_Prices m))) (Some <$> (to_api <$> (OracleTypes.gs_Feeders m))) [].

#[global] Instance oracle_GenesisState_to_api_laws : ToApiLaws OracleTypes.GenesisState ApiOracle.GenesisState.
Proof.
  to_api_fields. unfold pm_size, ApiOracle.GenesisState_pulsar, ApiOracle.GenesisState_size, msg_Size, OracleCodec.GenesisState_msg, OracleCodec.GenesisState_Size.
  to_api_sizes.
Qed.

#[global] Instance oracle_MsgSetFeeder_to_api : ToApi OracleTypes.MsgSetFeeder ApiOracle.MsgSetFeeder := fun m =>
  ApiOracle.mkMsgSetFeeder (OracleTypes.sf_Validator m) (OracleTypes.sf_Feeder m) [].

#[global] Instance oracle_MsgSetFeeder_to_api_laws : ToApiLaws OracleTypes.MsgSetFeeder ApiOracle.MsgSetFeeder.
Proof.
  to_api_fields. unfold pm_size, ApiOracle.MsgSetFeeder_pulsar, ApiOracle.MsgSetFeeder_size, msg_Size, OracleCodec.MsgSetFeeder_msg, OracleCodec.MsgSetFeeder_Size.
  to_api_sizes.
Qed.

#[global] Instance oracle_MsgSetFeederResponse_to_api : ToApi OracleCodec.MsgSetFeederResponse ApiOracle.MsgSetFeederResponse := fun m =>
  ApiOracle.mkMsgSetFeederResponse  [].

#[global] Instance oracle_MsgSetFeederResponse_to_api_laws : ToApiLaws OracleCodec.MsgSetFeederResponse ApiOracle.MsgSetFeederResponse.
Proof.
  to_api_fields. unfold pm_size, ApiOracle.MsgSetFeederResponse_pulsar, ApiOracle.MsgSetFeederResponse_size, msg_Size, OracleCodec.MsgSetFeederResponse_msg, OracleCodec.MsgSetFeederResponse_Size.
  to_api_sizes.
Qed.

#[global] Instance oracle_MsgSubmitFeed_to_api : ToApi OracleTypes.MsgSubmitFeed ApiOracle.MsgSubmitFeed := fun m =>
  ApiOracle.mkMsgSubmitFeed (OracleTypes.ms_Feeder m) (OracleTypes.ms_Validator m) (OracleTypes.ms_Pair m) (OracleTypes.ms_Price m) [].

#[global] Instance oracle_MsgSubmitFeed_to_api_laws : ToApiLaws OracleTypes.MsgSubmitFeed ApiOracle.MsgSubmitFeed.
Proof.
  to_api_fields. unfold pm_size, ApiOracle.MsgSubmitFeed_pulsar, ApiOracle.MsgSubmitFeed_size, msg_Size, OracleCodec.MsgSubmitFeed_msg, OracleCodec.MsgSubmitFeed_Size.
  to_api_sizes.
Qed.

#[global] Instance oracle_MsgSubmitFeedResponse_to_api : ToApi OracleCodec.MsgSubmitFeedResponse ApiOracle.MsgSubmitFeedResponse := fun m =>
  ApiOracle.mkMsgSubmitFeedResponse  [].

#[global] Instance oracle_MsgSubmitFeedResponse_to_api_laws : ToApiLaws OracleCodec.MsgSubmitFeedResponse ApiOracle.MsgSubmitFeedResponse.
Proof.
  to_api_fields. unfold pm_size, ApiOracle.MsgSubmitFeedResponse_pulsar, ApiOracle.MsgSubmitFeedResponse_size, msg_Size, OracleCodec.MsgSubmitFeedResponse_msg, OracleCodec.MsgSubmitFeedResponse_Size.
  to_api_sizes.
Qed.

#[global] Instance oracle_MsgUpdateParams_to_api : ToApi OracleTypes.MsgUpdateParams ApiOracle.MsgUpdateParams := fun m =>
  ApiOracle.mkMsgUpdateParams (OracleTypes.Authority m) (Some (to_api (OracleTypes.Params m))) [].

#[global] Instance oracle_MsgUpdateParams_to_api_laws : ToApiLaws OracleTypes.MsgUpdateParams ApiOracle.MsgUpdateParams.
Proof.
  to_api_fields. unfold pm_size, ApiOracle.MsgUpdateParams_pulsar, ApiOracle.MsgUpdateParams_size, msg_Size, OracleCodec.MsgUpdateParams_msg, OracleCodec.MsgUpdateParams_Size.
  to_api_sizes.
Qed.

#[global] Instance oracle_MsgUpdateParamsResponse_to_api : ToApi OracleCodec.MsgUpdateParamsResponse ApiOracle.MsgUpdateParamsResponse := fun m =>
  ApiOracle.mkMsgUpdateParamsResponse  [].

#[global] Instance oracle_MsgUpdateParamsResponse_to_api_laws : ToApiLaws OracleCodec.MsgUpdateParamsResponse ApiOracle.MsgUpdateParamsResponse.
Proof.
  to_api_fields. unfold pm_size, ApiOracle.MsgUpdateParamsResponse_pulsar, ApiOracle.MsgUpdateParamsResponse_size, msg_Size, OracleCodec.MsgUpdateParamsResponse_msg, OracleCodec.MsgUpdateParamsResponse_Size.
  to_api_sizes.
Qed.

#[global] Instance oracle_QueryPriceRequest_to_api : ToApi OracleCodec.QueryPriceRequest ApiOracle.QueryPriceRequest := fun m =>
  ApiOracle.mkQueryPriceRequest (OracleCodec.qp_req_Pair m) [].

#[global] Instance oracle_QueryPriceRequest_to_api_laws : ToApiLaws OracleCodec.QueryPriceRequest ApiOracle.QueryPriceRequest.
Proof.
  to_api_fields. unfold pm_size, ApiOracle.QueryPriceRequest_pulsar, ApiOracle.QueryPriceRequest_size, msg_Size, OracleCodec.QueryPriceRequest_msg, OracleCodec.QueryPriceRequest_Size.
  to_api_sizes.
Qed.

#[global] Instance oracle_QueryPriceResponse_to_api : ToApi OracleCodec.QueryPriceResponse ApiOracle.QueryPriceResponse := fun m =>
  ApiOracle.mkQueryPriceResponse (Some (to_api (OracleCodec.qp_res_Price m))) [].

#[global] Instance oracle_QueryPriceResponse_to_api_laws : ToApiLaws OracleCodec.QueryPriceResponse ApiOracle.QueryPriceResponse.
Proof.
  to_api_fields. unfold pm_size, ApiOracle.QueryPriceResponse_pulsar, ApiOracle.QueryPriceResponse_size, msg_Size, OracleCodec.QueryPriceResponse_msg, OracleCodec.QueryPriceResponse_Size.
  to_api_sizes.
Qed.

#[global] Instance oracle_QueryTwapRequest_to_api : ToApi OracleCodec.QueryTwapRequest ApiOracle.QueryTwapRequest := fun m =>
  ApiOracle.mkQueryTwapRequest (OracleCodec.qt_req_Pair m) (OracleCodec.qt_req_WindowSeconds m) [].

#[global] Instance oracle_QueryTwapRequest_to_api_laws : ToApiLaws OracleCodec.QueryTwapRequest ApiOracle.QueryTwapRequest.
Proof.
  to_api_fields. unfold pm_size, ApiOracle.QueryTwapRequest_pulsar, ApiOracle.QueryTwapRequest_size, msg_Size, OracleCodec.QueryTwapRequest_msg, OracleCodec.QueryTwapRequest_Size.
  to_api_sizes.
Qed.

#[global] Instance oracle_QueryParamsRequest_to_api : ToApi OracleCodec.QueryParamsRequest ApiOracle.QueryParamsRequest := fun m =>
  ApiOracle.mkQueryParamsRequest  [].

#[global] Instance oracle_QueryParamsRequest_to_api_laws : ToApiLaws OracleCodec.QueryParamsRequest ApiOracle.QueryParamsRequest.
Proof.
  to_api_fields. unfold pm_size, ApiOracle.QueryParamsRequest_pulsar, ApiOracle.QueryParamsRequest_size, msg_Size, OracleCodec.QueryParamsRequest_msg, OracleCodec.QueryParamsRequest_Size.
  to_api_sizes.
Qed.

#[global] Instance oracle_QueryParamsResponse_to_api : ToApi OracleCodec.QueryParamsResponse ApiOracle.QueryParamsResponse := fun m =>
  ApiOracle.mkQueryParamsResponse (Some (to_api (OracleCodec.qp_res_Params m))) [].

#[global] Instance oracle_QueryParamsResponse_to_api_laws : ToApiLaws OracleCodec.QueryParamsResponse ApiOracle.QueryParamsResponse.
Proof.
  to_api_fields. unfold pm_size, ApiOracle.QueryParamsResponse_pulsar, ApiOracle.QueryParamsResponse_size, msg_Size, OracleCodec.QueryParamsResponse_msg, OracleCodec.QueryParamsResponse_Size.
  to_api_sizes.
Qed.

#[global] Instance oracle_QueryMissCounterRequest_to_api : ToApi OracleCodec.QueryMissCounterRequest ApiOracle.QueryMissCounterRequest := fun m =>
  ApiOracle.mkQueryMissCounterRequest (OracleCodec.qmc_req_Validator m) [].

#[global] Instance oracle_QueryMissCounterRequest_to_api_laws : ToApiLaws OracleCodec.QueryMissCounterRequest ApiOracle.QueryMissCounterRequest.
Proof.
  to_api_fields. unfold pm_size, ApiOracle.QueryMissCounterRequest_pulsar, ApiOracle.QueryMissCounterRequest_size, msg_Size, OracleCodec.QueryMissCounterRequest_msg, OracleCodec.QueryMissCounterRequest_Size.
  to_api_sizes.
Qed.

#[global] Instance oracle_QueryMissCounterResponse_to_api : ToApi OracleCodec.QueryMissCounterResponse ApiOracle.QueryMissCounterResponse := fun m =>
  ApiOracle.mkQueryMissCounterResponse (OracleCodec.qmc_res_Misses m) (OracleCodec.qmc_res_TotalWindows m) [].

#[global] Instance oracle_QueryMissCounterResponse_to_api_laws : ToApiLaws OracleCodec.QueryMissCounterResponse ApiOracle.QueryMissCounterResponse.
Proof.
  to_api_fields. unfold pm_size, ApiOracle.QueryMissCounterResponse_pulsar, ApiOracle.QueryMissCounterResponse_size, msg_Size, OracleCodec.QueryMissCounterResponse_msg, OracleCodec.QueryMissCounterResponse_Size.
  to_api_sizes.
Qed.

#[global] Instance oracle_QueryFeederRequest_to_api : ToApi OracleCodec.QueryFeederRequest ApiOracle.QueryFeederRequest := fun m =>
  ApiOracle.mkQueryFeederRequest (OracleCodec.qf_req_Validator m) [].

#[global] Instance oracle_QueryFeederRequest_to_api_laws : ToApiLaws OracleCodec.QueryFeederRequest ApiOracle.QueryFeederRequest.
Proof.
  to_api_fields. unfold pm_size, ApiOracle.QueryFeederRequest_pulsar, ApiOracle.QueryFeederRequest_size, msg_Size, OracleCodec.QueryFeederRequest_msg, OracleCodec.QueryFeederRequest_Size.
  to_api_sizes.
Qed.

#[global] Instance oracle_QueryFeederResponse_to_api : ToApi OracleCodec.QueryFeederResponse ApiOracle.QueryFeederResponse := fun m =>
  ApiOracle.mkQueryFeederResponse (OracleCodec.qf_res_Feeder m) [].

#[global] Instance oracle_QueryFeederResponse_to_api_laws : ToApiLaws OracleCodec.QueryFeederResponse ApiOracle.QueryFeederResponse.
Proof.
  to_api_fields. unfold pm_size, ApiOracle.QueryFeederResponse_pulsar, ApiOracle.QueryFeederResponse_size, msg_Size, OracleCodec.QueryFeederResponse_msg, OracleCodec.QueryFeederResponse_Size.
  to_api_sizes.
Qed.

(** ** x/rwa *)

#[global] Instance rwa_AssetRecord_to_api : ToApi RwaTypes.AssetRecord ApiRwa.AssetRecord := fun m =>
  ApiRwa.mkAssetRecord (RwaTypes.ar_AssetId m) (RwaTypes.ar_Issuer m) (RwaTypes.ar_Name m) (RwaTypes.ar_Description m) (RwaTypes.ar_Status m) (RwaTypes.ar_OraclePair m) (RwaTypes.ar_Denom m) (RwaTypes.ar_Bond m) (RwaTypes.ar_NotionalMinted m) (RwaTypes.ar_AllowAll m) (RwaTypes.ar_AttestedPrice m) (Some (api_time (RwaTypes.ar_AttestedAt m))) (Some (api_time (RwaTypes.ar_CreatedAt m))) (Some (api_time (RwaTypes.ar_SettledAt m))) [].

#[global] Instance rwa_AssetRecord_to_api_laws : ToApiLaws RwaTypes.AssetRecord ApiRwa.AssetRecord.
Proof.
  to_api_fields. unfold pm_size, ApiRwa.AssetRecord_pulsar, ApiRwa.AssetRecord_size, msg_Size, RwaCodec.AssetRecord_msg, RwaTypes.AssetRecord_Size.
  to_api_sizes.
Qed.

#[global] Instance rwa_RWAParams_to_api : ToApi RwaTypes.RWAParams ApiRwa.RWAParams := fun m =>
  ApiRwa.mkRWAParams (RwaTypes.MinIssuerBond m) (RwaTypes.MintFeeRate m) (RwaTypes.SettleFeeRate m) [].

#[global] Instance rwa_RWAParams_to_api_laws : ToApiLaws RwaTypes.RWAParams ApiRwa.RWAParams.
Proof.
  to_api_fields. unfold pm_size, ApiRwa.RWAParams_pulsar, ApiRwa.RWAParams_size, msg_Size, RwaCodec.RWAParams_msg, RwaTypes.RWAParams_Size.
  to_api_sizes.
Qed.

#[global] Instance rwa_Restriction_to_api : ToApi RwaTypes.Restriction ApiRwa.Restriction := fun m =>
  ApiRwa.mkRestriction (RwaTypes.rs_AssetId m) (RwaTypes.rs_Address m) (RwaTypes.rs_IsDeny m) [].

#[global] Instance rwa_Restriction_to_api_laws : ToApiLaws RwaTypes.Restriction ApiRwa.Restriction.
Proof.
  to_api_fields. unfold pm_size, ApiRwa.Restriction_pulsar, ApiRwa.Restriction_size, msg_Size, RwaCodec.Restriction_msg, RwaCodec.Restriction_Size.
  to_api_sizes.
Qed.

#[global] Instance rwa_GenesisState_to_api : ToApi RwaTypes.GenesisState ApiRwa.GenesisState := fun m =>
  ApiRwa.mkGenesisState (Some (to_api (RwaTypes.gs_Params m))) (Some <$> (to_api <$> (RwaTypes.gs_Assets m))) (Some <$> (to_api <$> (RwaTypes.gs_Restrictions m))) [].

#[global] Instance rwa_GenesisState_to_api_laws : ToApiLaws RwaTypes.GenesisState ApiRwa.GenesisState.
Proof.
  to_api_fields. unfold pm_size, ApiRwa.GenesisState_pulsar, ApiRwa.GenesisState_size, msg_Size, RwaCodec.GenesisState_msg, RwaCodec.GenesisState_Size.
  to_api_sizes.
Qed.

#[global] Instance rwa_MsgRegisterAsset_to_api : ToApi RwaTypes.MsgRegisterAsset ApiRwa.MsgRegisterAsset := fun m =>
  ApiRwa.mkMsgRegisterAsset (RwaTypes.ra_Issuer m) (RwaTypes.ra_AssetId m) (RwaTypes.ra_Name m) (RwaTypes.ra_Description m) (RwaTypes.ra_OraclePair m) (RwaTypes.ra_Bond m) [].

#[global] Instance rwa_MsgRegisterAsset_to_api_laws : ToApiLaws RwaTypes.MsgRegisterAsset ApiRwa.MsgRegisterAsset.
Proof.
  to_api_fields. unfold pm_size, ApiRwa.MsgRegisterAsset_pulsar, ApiRwa.MsgRegisterAsset_size, msg_Size, RwaCodec.MsgRegisterAsset_msg, RwaCodec.MsgRegisterAsset_Size.
  to_api_sizes.
Qed.

#[global] Instance rwa_MsgRegisterAssetResponse_to_api : ToApi RwaCodec.MsgRegisterAssetResponse ApiRwa.MsgRegisterAssetResponse := fun m =>
  ApiRwa.mkMsgRegisterAssetResponse  [].

#[global] Instance rwa_MsgRegisterAssetResponse_to_api_laws : ToApiLaws RwaCodec.MsgRegisterAssetResponse ApiRwa.MsgRegisterAssetResponse.
Proof.
  to_api_fields. unfold pm_size, ApiRwa.MsgRegisterAssetResponse_pulsar, ApiRwa.MsgRegisterAssetResponse_size, msg_Size, RwaCodec.MsgRegisterAssetResponse_msg, RwaCodec.MsgRegisterAssetResponse_Size.
  to_api_sizes.
Qed.

#[global] Instance rwa_MsgAttestAsset_to_api : ToApi RwaTypes.MsgAttestAsset ApiRwa.MsgAttestAsset := fun m =>
  ApiRwa.mkMsgAttestAsset (RwaTypes.aa_Issuer m) (RwaTypes.aa_AssetId m) [].

#[global] Instance rwa_MsgAttestAsset_to_api_laws : ToApiLaws RwaTypes.MsgAttestAsset ApiRwa.MsgAttestAsset.
Proof.
  to_api_fields. unfold pm_size, ApiRwa.MsgAttestAsset_pulsar, ApiRwa.MsgAttestAsset_size, msg_Size, RwaCodec.MsgAttestAsset_msg, RwaCodec.MsgAttestAsset_Size.
  to_api_sizes.
Qed.

#[global] Instance rwa_MsgAttestAssetResponse_to_api : ToApi RwaCodec.MsgAttestAssetResponse ApiRwa.MsgAttestAssetResponse := fun m =>
  ApiRwa.mkMsgAttestAssetResponse  [].

#[global] Instance rwa_MsgAttestAssetResponse_to_api_laws : ToApiLaws RwaCodec.MsgAttestAssetResponse ApiRwa.MsgAttestAssetResponse.
Proof.
  to_api_fields. unfold pm_size, ApiRwa.MsgAttestAssetResponse_pulsar, ApiRwa.MsgAttestAssetResponse_size, msg_Size, RwaCodec.MsgAttestAssetResponse_msg, RwaCodec.MsgAttestAssetResponse_Size.
  to_api_sizes.
Qed.

#[global] Instance rwa_MsgMintRWA_to_api : ToApi RwaTypes.MsgMintRWA ApiRwa.MsgMintRWA := fun m =>
  ApiRwa.mkMsgMintRWA (RwaTypes.mr_Issuer m) (RwaTypes.mr_AssetId m) (RwaTypes.mr_Notional m) [].

#[global] Instance rwa_MsgMintRWA_to_api_laws : ToApiLaws RwaTypes.MsgMintRWA ApiRwa.MsgMintRWA.
Proof.
  to_api_fields. unfold pm_size, ApiRwa.MsgMintRWA_pulsar, ApiRwa.MsgMintRWA_size, msg_Size, RwaCodec.MsgMintRWA_msg, RwaCodec.MsgMintRWA_Size.
  to_api_sizes.
Qed.

#[global] Instance rwa_MsgMintRWAResponse_to_api : ToApi RwaCodec.MsgMintRWAResponse ApiRwa.MsgMintRWAResponse := fun m =>
  ApiRwa.mkMsgMintRWAResponse  [].

#[global] Instance rwa_MsgMintRWAResponse_to_api_laws : ToApiLaws RwaCodec.MsgMintRWAResponse ApiRwa.MsgMintRWAResponse.
Proof.
  to_api_fields. unfold pm_size, ApiRwa.MsgMintRWAResponse_pulsar, ApiRwa.MsgMintRWAResponse_size, msg_Size, RwaCodec.MsgMintRWAResponse_msg, RwaCodec.MsgMintRWAResponse_Size.
  to_api_sizes.
Qed.

#[global] Instance rwa_MsgTransferRWA_to_api : ToApi RwaTypes.MsgTransferRWA ApiRwa.MsgTransferRWA := fun m =>
  ApiRwa.mkMsgTransferRWA (RwaTypes.tr_Sender m) (RwaTypes.tr_Recipient m) (RwaTypes.tr_AssetId m) (RwaTypes.tr_Amount m) [].

#[global] Instance rwa_MsgTransferRWA_to_api_laws : ToApiLaws RwaTypes.MsgTransferRWA ApiRwa.MsgTransferRWA.
Proof.
  to_api_fields. unfold pm_size, ApiRwa.MsgTransferRWA_pulsar, ApiRwa.MsgTransferRWA_size, msg_Size, RwaCodec.MsgTransferRWA_msg, RwaCodec.MsgTransferRWA_Size.
  to_api_sizes.
Qed.

#[global] Instance rwa_MsgTransferRWAResponse_to_api : ToApi RwaCodec.MsgTransferRWAResponse ApiRwa.MsgTransferRWAResponse := fun m =>
  ApiRwa.mkMsgTransferRWAResponse  [].

#[global] Instance rwa_MsgTransferRWAResponse_to_api_laws : ToApiLaws RwaCodec.MsgTransferRWAResponse ApiRwa.MsgTransferRWAResponse.
Proof.
  to_api_fields. unfold pm_size, ApiRwa.MsgTransferRWAResponse_pulsar, ApiRwa.MsgTransferRWAResponse_size, msg_Size, RwaCodec.MsgTransferRWAResponse_msg, RwaCodec.MsgTransferRWAResponse_Size.
  to_api_sizes.
Qed.

#[global] Instance rwa_MsgSettleRWA_to_api : ToApi RwaTypes.MsgSettleRWA ApiRwa.MsgSettleRWA := fun m =>
  ApiRwa.mkMsgSettleRWA (RwaTypes.sr_Issuer m) (RwaTypes.sr_AssetId m) [].

#[global] Instance rwa_MsgSettleRWA_to_api_laws : ToApiLaws RwaTypes.MsgSettleRWA ApiRwa.MsgSettleRWA.
Proof.
  to_api_fields. unfold pm_size, ApiRwa.MsgSettleRWA_pulsar, ApiRwa.MsgSettleRWA_size, msg_Size, RwaCodec.MsgSettleRWA_msg, RwaCodec.MsgSettleRWA_Size.
  to_api_sizes.
Qed.

#[global] Instance rwa_MsgSettleRWAResponse_to_api : ToApi RwaCodec.MsgSettleRWAResponse ApiRwa.MsgSettleRWAResponse := fun m =>
  ApiRwa.mkMsgSettleRWAResponse  [].

#[global] Instance rwa_MsgSettleRWAResponse_to_api_laws : ToApiLaws RwaCodec.MsgSettleRWAResponse ApiRwa.MsgSettleRWAResponse.
Proof.
  to_api_fields. unfold pm_size, ApiRwa.MsgSettleRWAResponse_pulsar, ApiRwa.MsgSettleRWAResponse_size, msg_Size, RwaCodec.MsgSettleRWAResponse_msg, RwaCodec.MsgSettleRWAResponse_Size.
  to_api_sizes.
Qed.

#[global] Instance rwa_MsgUpdateRestrictions_to_api : ToApi RwaTypes.MsgUpdateRestrictions ApiRwa.MsgUpdateRestrictions := fun m =>
  ApiRwa.mkMsgUpdateRestrictions (RwaTypes.ur_Issuer m) (RwaTypes.ur_AssetId m) (RwaTypes.ur_AllowAll m) (RwaTypes.ur_AddAllow m) (RwaTypes.ur_DelAllow m) (RwaTypes.ur_AddDeny m) (RwaTypes.ur_DelDeny m) [].

#[global] Instance rwa_MsgUpdateRestrictions_to_api_laws : ToApiLaws RwaTypes.MsgUpdateRestrictions ApiRwa.MsgUpdateRestrictions.
Proof.
  to_api_fields. unfold pm_size, ApiRwa.MsgUpdateRestrictions_pulsar, ApiRwa.MsgUpdateRestrictions_size, msg_Size, RwaCodec.MsgUpdateRestrictions_msg, RwaCodec.MsgUpdateRestrictions_Size.
  to_api_sizes.
Qed.

#[global] Instance rwa_MsgUpdateRestrictionsResponse_to_api : ToApi RwaCodec.MsgUpdateRestrictionsResponse ApiRwa.MsgUpdateRestrictionsResponse := fun m =>
  ApiRwa.mkMsgUpdateRestrictionsResponse  [].

#[global] Instance rwa_MsgUpdateRestrictionsResponse_to_api_laws : ToApiLaws RwaCodec.MsgUpdateRestrictionsResponse ApiRwa.MsgUpdateRestrictionsResponse.
Proof.
  to_api_fields. unfold pm_size, ApiRwa.MsgUpdateRestrictionsResponse_pulsar, ApiRwa.MsgUpdateRestrictionsResponse_size, msg_Size, RwaCodec.MsgUpdateRestrictionsResponse_msg, RwaCodec.MsgUpdateRestrictionsResponse_Size.
  to_api_sizes.
Qed.

#[global] Instance rwa_MsgSlashBond_to_api : ToApi RwaTypes.MsgSlashBond ApiRwa.MsgSlashBond := fun m =>
  ApiRwa.mkMsgSlashBond (RwaTypes.sb_Authority m) (RwaTypes.sb_AssetId m) (RwaTypes.sb_Reason m) [].

#[global] Instance rwa_MsgSlashBond_to_api_laws : ToApiLaws RwaTypes.MsgSlashBond ApiRwa.MsgSlashBond.
Proof.
  to_api_fields. unfold pm_size, ApiRwa.MsgSlashBond_pulsar, ApiRwa.MsgSlashBond_size, msg_Size, RwaCodec.MsgSlashBond_msg, RwaCodec.MsgSlashBond_Size.
  to_api_sizes.
Qed.

#[global] Instance rwa_MsgSlashBondResponse_to_api : ToApi RwaCodec.MsgSlashBondResponse ApiRwa.MsgSlashBondResponse := fun m =>
  ApiRwa.mkMsgSlashBondResponse  [].

#[global] Instance rwa_MsgSlashBondResponse_to_api_laws : ToApiLaws RwaCodec.MsgSlashBondResponse ApiRwa.MsgSlashBondResponse.
Proof.
  to_api_fields. unfold pm_size, ApiRwa.MsgSlashBondResponse_pulsar, ApiRwa.MsgSlashBondResponse_size, msg_Size, RwaCodec.MsgSlashBondResponse_msg, RwaCodec.MsgSlashBondResponse_Size.
  to_api_sizes.
Qed.

#[global] Instance rwa_MsgUpdateParams_to_api : ToApi RwaTypes.MsgUpdateParams ApiRwa.MsgUpdateParams := fun m =>
  ApiRwa.mkMsgUpdateParams (RwaTypes.Authority m) (Some (to_api (RwaTypes.Params m))) [].

#[global] Instance rwa_MsgUpdateParams_to_api_laws : ToApiLaws RwaTypes.MsgUpdateParams ApiRwa.MsgUpdateParams.
Proof.
  to_api_fields. unfold pm_size, ApiRwa.MsgUpdateParams_pulsar, ApiRwa.MsgUpdateParams_size, msg_Size, RwaCodec.MsgUpdateParams_msg, RwaCodec.MsgUpdateParams_Size.
  to_api_sizes.
Qed.

#[global] Instance rwa_MsgUpdateParamsResponse_to_api : ToApi RwaCodec.MsgUpdateParamsResponse ApiRwa.MsgUpdateParamsResponse := fun m =>
  ApiRwa.mkMsgUpdateParamsResponse  [].

#[global] Instance rwa_MsgUpdateParamsResponse_to_api_laws : ToApiLaws RwaCodec.MsgUpdateParamsResponse ApiRwa.MsgUpdateParamsResponse.
Proof.
  to_api_fields. unfold pm_size, ApiRwa.MsgUpdateParamsResponse_pulsar, ApiRwa.MsgUpdateParamsResponse_size, msg_Size, RwaCodec.MsgUpdateParamsResponse_msg, RwaCodec.MsgUpdateParamsResponse_Size.
  to_api_sizes.
Qed.

#[global] Instance rwa_QueryAssetRequest_to_api : ToApi RwaCodec.QueryAssetRequest ApiRwa.QueryAssetRequest := fun m =>
  ApiRwa.mkQueryAssetRequest (RwaCodec.qa_req_AssetId m) [].

#[global] Instance rwa_QueryAssetRequest_to_api_laws : ToApiLaws RwaCodec.QueryAssetRequest ApiRwa.QueryAssetRequest.
Proof.
  to_api_fields. unfold pm_size, ApiRwa.QueryAssetRequest_pulsar, ApiRwa.QueryAssetRequest_size, msg_Size, RwaCodec.QueryAssetRequest_msg, RwaCodec.QueryAssetRequest_Size.
  to_api_sizes.
Qed.

#[global] Instance rwa_QueryAssetResponse_to_api : ToApi RwaCodec.QueryAssetResponse ApiRwa.QueryAssetResponse := fun m =>
  ApiRwa.mkQueryAssetResponse (Some (to_api (RwaCodec.qa_res_Asset m))) [].

#[global] Instance rwa_QueryAssetResponse_to_api_laws : ToApiLaws RwaCodec.QueryAssetResponse ApiRwa.QueryAssetResponse.
Proof.
  to_api_fields. unfold pm_size, ApiRwa.QueryAssetResponse_pulsar, ApiRwa.QueryAssetResponse_size, msg_Size, RwaCodec.QueryAssetResponse_msg, RwaCodec.QueryAssetResponse_Size.
  to_api_sizes.
Qed.

#[global] Instance rwa_QueryAssetsByIssuerRequest_to_api : ToApi RwaCodec.QueryAssetsByIssuerRequest ApiRwa.QueryAssetsByIssuerRequest := fun m =>
  ApiRwa.mkQueryAssetsByIssuerRequest (RwaCodec.qabi_req_Issuer m) (to_api <$> (RwaCodec.qabi_req_Pagination m)) [].

#[global] Instance rwa_QueryAssetsByIssuerRequest_to_api_laws : ToApiLaws RwaCodec.QueryAssetsByIssuerRequest ApiRwa.QueryAssetsByIssuerRequest.
Proof.
  to_api_fields. unfold pm_size, ApiRwa.QueryAssetsByIssuerRequest_pulsar, ApiRwa.QueryAssetsByIssuerRequest_size, msg_Size, RwaCodec.QueryAssetsByIssuerRequest_msg, RwaCodec.QueryAssetsByIssuerRequest_Size.
  to_api_sizes.
Qed.

#[global] Instance rwa_QueryAssetsByIssuerResponse_to_api : ToApi RwaCodec.QueryAssetsByIssuerResponse ApiRwa.QueryAssetsByIssuerResponse := fun m =>
  ApiRwa.mkQueryAssetsByIssuerResponse (Some <$> (to_api <$> (RwaCodec.qabi_res_Assets m))) (to_api <$> (RwaCodec.qabi_res_Pagination m)) [].

#[global] Instance rwa_QueryAssetsByIssuerResponse_to_api_laws : ToApiLaws RwaCodec.QueryAssetsByIssuerResponse ApiRwa.QueryAssetsByIssuerResponse.
Proof.
  to_api_fields. unfold pm_size, ApiRwa.QueryAssetsByIssuerResponse_pulsar, ApiRwa.QueryAssetsByIssuerResponse_size, msg_Size, RwaCodec.QueryAssetsByIssuerResponse_msg, RwaCodec.QueryAssetsByIssuerResponse_Size.
  to_api_sizes.
Qed.

#[global] Instance rwa_QueryRestrictionsRequest_to_api : ToApi RwaCodec.QueryRestrictionsRequest ApiRwa.QueryRestrictionsRequest := fun m =>
  ApiRwa.mkQueryRestrictionsRequest (RwaCodec.qr_req_AssetId m) [].

#[global] Instance rwa_QueryRestrictionsRequest_to_api_laws : ToApiLaws RwaCodec.QueryRestrictionsRequest ApiRwa.QueryRestrictionsRequest.
Proof.
  to_api_fields. unfold pm_size, ApiRwa.QueryRestrictionsRequest_pulsar, ApiRwa.QueryRestrictionsRequest_size, msg_Size, RwaCodec.QueryRestrictionsRequest_msg, RwaCodec.QueryRestrictionsRequest_Size.
  to_api_sizes.
Qed.

#[global] Instance rwa_QueryRestrictionsResponse_to_api : ToApi RwaCodec.QueryRestrictionsResponse ApiRwa.QueryRestrictionsResponse := fun m =>
  ApiRwa.mkQueryRestrictionsResponse (RwaCodec.qr_res_AllowAll m) (RwaCodec.qr_res_Allowlist m) (RwaCodec.qr_res_Denylist m) [].

#[global] Instance rwa_QueryRestrictionsResponse_to_api_laws : ToApiLaws RwaCodec.QueryRestrictionsResponse ApiRwa.QueryRestrictionsResponse.
Proof.
  to_api_fields. unfold pm_size, ApiRwa.QueryRestrictionsResponse_pulsar, ApiRwa.QueryRestrictionsResponse_size, msg_Size, RwaCodec.QueryRestrictionsResponse_msg, RwaCodec.QueryRestrictionsResponse_Size.
  to_api_sizes.
Qed.

#[global] Instance rwa_QueryParamsRequest_to_api : ToApi RwaCodec.QueryParamsRequest ApiRwa.QueryParamsRequest := fun m =>
  ApiRwa.mkQueryParamsRequest  [].

#[global] Instance rwa_QueryParamsRequest_to_api_laws : ToApiLaws RwaCodec.QueryParamsRequest ApiRwa.QueryParamsRequest.
Proof.
  to_api_fields. unfold pm_size, ApiRwa.QueryParamsRequest_pulsar, ApiRwa.QueryParamsRequest_size, msg_Size, RwaCodec.QueryParamsRequest_msg, RwaCodec.QueryParamsRequest_Size.
  to_api_sizes.
Qed.

#[global] Instance rwa_QueryParamsResponse_to_api : ToApi RwaCodec.QueryParamsResponse ApiRwa.QueryParamsResponse := fun m =>
  ApiRwa.mkQueryParamsResponse (Some (to_api (RwaCodec.qp_res_Params m))) [].

#[global] Instance rwa_QueryParamsResponse_to_api_laws : ToApiLaws RwaCodec.QueryParamsResponse ApiRwa.QueryParamsResponse.
Proof.
  to_api_fields. unfold pm_size, ApiRwa.QueryParamsResponse_pulsar, ApiRwa.QueryParamsResponse_size, msg_Size, RwaCodec.QueryParamsResponse_msg, RwaCodec.QueryParamsResponse_Size.
  to_api_sizes.
Qed.

(** The price is the text of the decimal. *)
#[global] Instance oracle_QueryTwapResponse_to_api : ToApi TwapCodec.QueryTwapResponse ApiOracle.QueryTwapResponse := fun m =>
  ApiOracle.mkQueryTwapResponse (dec_text (TwapCodec.qt_res_Price m)) [].

#[global] Instance oracle_QueryTwapResponse_to_api_laws : ToApiLaws TwapCodec.QueryTwapResponse ApiOracle.QueryTwapResponse.
Proof.
  intros [p] (d & E & Hd). simpl in E. subst p. destruct (dec_text_eq d Hd) as (b & _ & Es & _ & Ex & Hb).
  split; [done|]. split; [by apply same_fields, Forall2_cons_2; [|apply Forall2_nil]|].
  change (pz_string (dec_text (Some d)) + zlen (A:=byte) [] = size_dec (Some d)).
  unfold size_dec. rewrite pz_string_eq, Es, Ex. unfold size_string. rewrite bytes_of_string_of.
  replace (0 <? zlen b) with true by lia. apply Z.add_0_r.
Qed.

(** ** The messages of the node with their client views *)

Record shared_msg : Type := mkShared {
  sh_chain : Type;
  sh_api : Type;
  sh_msg :: GoMsg sh_chain;
  sh_schema :: Schema sh_chain;
  sh_wf : sh_chain -> Prop;
  sh_pulsar :: PulsarMsg sh_api;
  sh_view :: ToApi sh_chain sh_api
}.

Definition shared_type (A B : Type) {GA : GoMsg A} {SA : Schema A} {LA : GoMsgLaws A}
    {MB : PulsarMsg B} {C : ToApi A B} : shared_msg :=
  mkShared A B GA SA msg_wf MB C.

Definition shared_messages : list shared_msg :=
  [shared_type FeesTypes.FeesParams ApiFees.FeesParams;
   shared_type FeesTypes.GenesisState ApiFees.GenesisState;
   shared_type FeesTypes.MsgUpdateParams ApiFees.MsgUpdateParams;
   shared_type FeesCodec.MsgUpdateParamsResponse ApiFees.MsgUpdateParamsResponse;
   shared_type FeesCodec.QueryParamsRequest ApiFees.QueryParamsRequest;
   shared_type FeesCodec.QueryParamsResponse ApiFees.QueryParamsResponse;
   shared_type OracleTypes.OracleFeed ApiOracle.OracleFeed;
   shared_type OracleTypes.AggregatedPrice ApiOracle.AggregatedPrice;
   shared_type OracleTypes.TWAPEntry ApiOracle.TWAPEntry;
   shared_type OracleTypes.OracleParams ApiOracle.OracleParams;
   shared_type OracleTypes.FeederDelegation ApiOracle.FeederDelegation;
   shared_type OracleTypes.GenesisState ApiOracle.GenesisState;
   shared_type OracleTypes.MsgSetFeeder ApiOracle.MsgSetFeeder;
   shared_type OracleCodec.MsgSetFeederResponse ApiOracle.MsgSetFeederResponse;
   shared_type OracleTypes.MsgSubmitFeed ApiOracle.MsgSubmitFeed;
   shared_type OracleCodec.MsgSubmitFeedResponse ApiOracle.MsgSubmitFeedResponse;
   shared_type OracleTypes.MsgUpdateParams ApiOracle.MsgUpdateParams;
   shared_type OracleCodec.MsgUpdateParamsResponse ApiOracle.MsgUpdateParamsResponse;
   shared_type OracleCodec.QueryPriceRequest ApiOracle.QueryPriceRequest;
   shared_type OracleCodec.QueryPriceResponse ApiOracle.QueryPriceResponse;
   shared_type OracleCodec.QueryTwapRequest ApiOracle.QueryTwapRequest;
   shared_type OracleCodec.QueryParamsRequest ApiOracle.QueryParamsRequest;
   shared_type OracleCodec.QueryParamsResponse ApiOracle.QueryParamsResponse;
   shared_type OracleCodec.QueryMissCounterRequest ApiOracle.QueryMissCounterRequest;
   shared_type OracleCodec.QueryMissCounterResponse ApiOracle.QueryMissCounterResponse;
   shared_type OracleCodec.QueryFeederRequest ApiOracle.QueryFeederRequest;
   shared_type OracleCodec.QueryFeederResponse ApiOracle.QueryFeederResponse;
   shared_type RwaTypes.AssetRecord ApiRwa.AssetRecord;
   shared_type RwaTypes.RWAParams ApiRwa.RWAParams;
   shared_type RwaTypes.Restriction ApiRwa.Restriction;
   shared_type RwaTypes.GenesisState ApiRwa.GenesisState;
   shared_type RwaTypes.MsgRegisterAsset ApiRwa.MsgRegisterAsset;
   shared_type RwaCodec.MsgRegisterAssetResponse ApiRwa.MsgRegisterAssetResponse;
   shared_type RwaTypes.MsgAttestAsset ApiRwa.MsgAttestAsset;
   shared_type RwaCodec.MsgAttestAssetResponse ApiRwa.MsgAttestAssetResponse;
   shared_type RwaTypes.MsgMintRWA ApiRwa.MsgMintRWA;
   shared_type RwaCodec.MsgMintRWAResponse ApiRwa.MsgMintRWAResponse;
   shared_type RwaTypes.MsgTransferRWA ApiRwa.MsgTransferRWA;
   shared_type RwaCodec.MsgTransferRWAResponse ApiRwa.MsgTransferRWAResponse;
   shared_type RwaTypes.MsgSettleRWA ApiRwa.MsgSettleRWA;
   shared_type RwaCodec.MsgSettleRWAResponse ApiRwa.MsgSettleRWAResponse;
   shared_type RwaTypes.MsgUpdateRestrictions ApiRwa.MsgUpdateRestrictions;
   shared_type RwaCodec.MsgUpdateRestrictionsResponse ApiRwa.MsgUpdateRestrictionsResponse;
   shared_type RwaTypes.MsgSlashBond ApiRwa.MsgSlashBond;
   shared_type RwaCodec.MsgSlashBondResponse ApiRwa.MsgSlashBondResponse;
   shared_type RwaTypes.MsgUpdateParams ApiRwa.MsgUpdateParams;
   shared_type RwaCodec.MsgUpdateParamsResponse ApiRwa.MsgUpdateParamsResponse;
   shared_type RwaCodec.QueryAssetRequest ApiRwa.QueryAssetRequest;
   shared_type RwaCodec.QueryAssetResponse ApiRwa.QueryAssetResponse;
   shared_type RwaCodec.QueryAssetsByIssuerRequest ApiRwa.QueryAssetsByIssuerRequest;
   shared_type RwaCodec.QueryAssetsByIssuerResponse ApiRwa.QueryAssetsByIssuerResponse;
   shared_type RwaCodec.QueryRestrictionsRequest ApiRwa.QueryRestrictionsRequest;
   shared_type RwaCodec.QueryRestrictionsResponse ApiRwa.QueryRestrictionsResponse;
   shared_type RwaCodec.QueryParamsRequest ApiRwa.QueryParamsRequest;
   shared_type RwaCodec.QueryParamsResponse ApiRwa.QueryParamsResponse;
   shared_type TwapCodec.QueryTwapResponse ApiOracle.QueryTwapResponse].

(** The conclusions for one type, from the laws of its instances. *)
Section OneType.
Context (A B : Type) {GA : GoMsg A} {SA : Schema A} {LA : GoMsgLaws A}
  {MB : PulsarMsg B} {SB : Schema B} {FB : PulsarStrip B} {LB : PulsarLaws B} {C : ToApi A B} {CL : ToApiLaws A B}.

Lemma msg_Marshal_eq (m : A) : msg_wf m -> msg_Size m < two63 ->
  msg_Marshal m = Ok (proto3_encode m) /\ zlen (proto3_encode m) = msg_Size m.
Proof.
  intros Hm Hs. pose proof (msg_encodes m Hm) as He. split; [|by apply He].
  by apply (encodes_marshal _ _ _ He).
Qed.

Lemma codecs_agree (m : sh_chain (shared_type A B)) : sh_wf (shared_type A B) m -> msg_Size m < two63 -> exists b,
  msg_Marshal m = Ok b /\ (forall buf, pm_marshal buf (Some (to_api m)) = Ok (buf ++ b)) /\
  (forall discard, pm_unmarshal discard b (Some pm_new) = Ok (Some (to_api m))) /\
  msg_Unmarshal msg_zero b = Ok m.
Proof.
  revert m. change (sh_chain (shared_type A B)) with A. intros m Hm Hs. destruct (msg_Marshal_eq m Hm Hs) as [Em El]. destruct (to_api_law m Hm) as (Hp & Ee & Ez).
  exists (proto3_encode m). split; [done|]. split_and!.
  - intros buf. destruct (pm_encodes (to_api m) buf (proj1 Hp)) as [Ea _]; [lia|]. by rewrite plain_bytes, Ee in Ea.
  - intros d. rewrite <- Ee. apply pm_decodes; [done|]. rewrite Ee. lia.
  - apply msg_decodes; [done|lia].
Qed.

Lemma proto3_one (m : sh_chain (shared_type A B)) : sh_wf (shared_type A B) m -> msg_Size m < two63 ->
  msg_Marshal m = Ok (proto3_encode m) /\
  forall u, foreign (fields m).*1 u -> zlen (proto3_encode m ++ u) < two63 ->
    msg_Unmarshal msg_zero (proto3_encode m ++ u) = Ok m.
Proof. intros Hm Hs. split; [by apply (msg_Marshal_eq m)|intros u Hu Hl; by apply (msg_skips (A := A))]. Qed.

End OneType.

(** [Forall] over a literal list of types. *)
Ltac each_type := repeat (apply Forall_cons; split); [..|by apply Forall_nil].

(** C30: for every message of the three modules (stored state, transactions, genesis and
    queries) the generated [Marshal], which computes a size, allocates a buffer and
    fills it backwards, is equivalent to the protobuf encoding by fields of the schema,
    nested and repeated messages included; and [Unmarshal] reads the encoding back to
    the same message, skipping whatever fields of a later schema follow it, of any wire
    type (varints, 32 and 64 bits, bytes, groups nested at will) and with any number of
    protobuf that the schema does not have. The message
    has integers in the range of their Go types, times in the range of protobuf
    timestamps and decimals in the range of [LegacyDec], and its size is an [int]. *)
Theorem Marshal_is_proto3 :
  Forall (fun t => forall m : sh_chain t, sh_wf t m -> msg_Size m < two63 ->
    msg_Marshal m = Ok (proto3_encode m) /\
    forall u, foreign (fields m).*1 u -> zlen (proto3_encode m ++ u) < two63 ->
      msg_Unmarshal msg_zero (proto3_encode m ++ u) = Ok m) shared_messages.
Proof. each_type; apply proto3_one. Qed.

(** C31: decoding terminates with a message or an error on every input: for each message
    type of the three modules, whatever the message held before and any bytes (of a
    length that a Go slice can have), the generated [Unmarshal], with nested messages and
    the skipping of unknown fields and groups, neither loops nor panics. A corrupted
    store value or a hostile transaction cannot hang a node. *)
Theorem Unmarshal_returns :
  Forall (fun t => forall (m : sh_chain t) b, zlen b < two63 -> returns (msg_Unmarshal m b)) shared_messages.
Proof. each_type; intros m b; apply (msg_returns (A := sh_chain (shared_type _ _))). Qed.

(** C29: the two generated codecs interoperate: for every message of the node, the client
    library writes for the client's view of it exactly the bytes that the node writes,
    appended to the buffer it is given; it reads the node's bytes as that view; and the
    node reads the client's bytes as the message. *)
Theorem codecs_interoperate :
  Forall (fun t => forall m : sh_chain t, sh_wf t m -> msg_Size m < two63 -> exists b,
    msg_Marshal m = Ok b /\ (forall buf, pm_marshal buf (Some (to_api m)) = Ok (buf ++ b)) /\
    (forall discard, pm_unmarshal discard b (Some pm_new) = Ok (Some (to_api m))) /\
    msg_Unmarshal msg_zero b = Ok m) shared_messages.
Proof. each_type; apply (codecs_agree _ _). Qed.

(** ** The messages of the client API *)

Record api_msg : Type := mkApiMsg {
  am_type : Type;
  am_value : Type;
  am_pulsar :: PulsarMsg am_type;
  am_schema :: Schema am_type;
  am_strip :: PulsarStrip am_type;
  am_reflect :: Reflect am_type am_value;
  am_wf : am_type -> Prop
}.

Definition am_names (t : api_msg) : list string := r_names (A := am_type t) (V := am_value t).

Definition api_type_of (A V : Type) {M : PulsarMsg A} {S : Schema A} {F : PulsarStrip A} {R : Reflect A V}
    {L : PulsarLaws A} : api_msg :=
  mkApiMsg A V M S F R pm_wf.

Section OneApiType.
Context (A V : Type) {M : PulsarMsg A} {S : Schema A} {F : PulsarStrip A} {R : Reflect A V} {L : PulsarLaws A}
  {RL : ReflectLaws A V}.

Lemma api_codec_one (x : A) : pm_wf x -> pm_size (Some x) < two63 ->
  zlen (pm_bytes x) = pm_size (Some x) /\
  (forall buf, pm_marshal buf (Some x) = Ok (buf ++ pm_bytes x)) /\
  (pm_foreign x -> forall discard,
    pm_unmarshal discard (pm_bytes x) (Some pm_new) = Ok (Some (if discard then pm_strip x else x))).
Proof.
  intros Hx Hs. destruct (pm_encodes x [] Hx Hs) as [_ El]. split_and!.
  - done.
  - intros buf. by apply pm_encodes.
  - intros Hf d. apply pm_keeps; [done|done|by rewrite El].
Qed.

End OneApiType.

Definition api_messages : list api_msg :=
  [api_type_of ApiFees.Module_ ApiFees.value;
   api_type_of ApiFees.FeesParams ApiFees.value;
   api_type_of ApiFees.GenesisState ApiFees.value;
   api_type_of ApiFees.MsgUpdateParams ApiFees.value;
   api_type_of ApiFees.MsgUpdateParamsResponse ApiFees.value;
   api_type_of ApiFees.QueryParamsRequest ApiFees.value;
   api_type_of ApiFees.QueryParamsResponse ApiFees.value;
   api_type_of ApiOracle.Module_ ApiOracle.value;
   api_type_of ApiOracle.OracleFeed ApiOracle.value;
   api_type_of ApiOracle.AggregatedPrice ApiOracle.value;
   api_type_of ApiOracle.TWAPEntry ApiOracle.value;
   api_type_of ApiOracle.OracleParams ApiOracle.value;
   api_type_of ApiOracle.FeederDelegation ApiOracle.value;
   api_type_of ApiOracle.GenesisState ApiOracle.value;
   api_type_of ApiOracle.MsgSetFeeder ApiOracle.value;
   api_type_of ApiOracle.MsgSetFeederResponse ApiOracle.value;
   api_type_of ApiOracle.MsgSubmitFeed ApiOracle.value;
   api_type_of ApiOracle.MsgSubmitFeedResponse ApiOracle.value;
   api_type_of ApiOracle.MsgUpdateParams ApiOracle.value;
   api_type_of ApiOracle.MsgUpdateParamsResponse ApiOracle.value;
   api_type_of ApiOracle.QueryPriceRequest ApiOracle.value;
   api_type_of ApiOracle.QueryPriceResponse ApiOracle.value;
   api_type_of ApiOracle.QueryTwapRequest ApiOracle.value;
   api_type_of ApiOracle.QueryTwapResponse ApiOracle.value;
   api_type_of ApiOracle.QueryParamsRequest ApiOracle.value;
   api_type_of ApiOracle.QueryParamsResponse ApiOracle.value;
   api_type_of ApiOracle.QueryMissCounterRequest ApiOracle.value;
   api_type_of ApiOracle.QueryMissCounterResponse ApiOracle.value;
   api_type_of ApiOracle.QueryFeederRequest ApiOracle.value;
   api_type_of ApiOracle.QueryFeederResponse ApiOracle.value;
   api_type_of ApiRwa.Module_ ApiRwa.value;
   api_type_of ApiRwa.AssetRecord ApiRwa.value;
   api_type_of ApiRwa.RWAParams ApiRwa.value;
   api_type_of ApiRwa.Restriction ApiRwa.value;
   api_type_of ApiRwa.GenesisState ApiRwa.value;
   api_type_of ApiRwa.MsgRegisterAsset ApiRwa.value;
   api_type_of ApiRwa.MsgRegisterAssetResponse ApiRwa.value;
   api_type_of ApiRwa.MsgAttestAsset ApiRwa.value;
   api_type_of ApiRwa.MsgAttestAssetResponse ApiRwa.value;
   api_type_of ApiRwa.MsgMintRWA ApiRwa.value;
   api_type_of ApiRwa.MsgMintRWAResponse ApiRwa.value;
   api_type_of ApiRwa.MsgTransferRWA ApiRwa.value;
   api_type_of ApiRwa.MsgTransferRWAResponse ApiRwa.value;
   api_type_of ApiRwa.MsgSettleRWA ApiRwa.value;
   api_type_of ApiRwa.MsgSettleRWAResponse ApiRwa.value;
   api_type_of ApiRwa.MsgUpdateRestrictions ApiRwa.value;
   api_type_of ApiRwa.MsgUpdateRestrictionsResponse ApiRwa.value;
   api_type_of ApiRwa.MsgSlashBond ApiRwa.value;
   api_type_of ApiRwa.MsgSlashBondResponse ApiRwa.value;
   api_type_of ApiRwa.MsgUpdateParams ApiRwa.value;
   api_type_of ApiRwa.MsgUpdateParamsResponse ApiRwa.value;
   api_type_of ApiRwa.QueryAssetRequest ApiRwa.value;
   api_type_of ApiRwa.QueryAssetResponse ApiRwa.value;
   api_type_of ApiRwa.QueryAssetsByIssuerRequest ApiRwa.value;
   api_type_of ApiRwa.QueryAssetsByIssuerResponse ApiRwa.value;
   api_type_of ApiRwa.QueryRestrictionsRequest ApiRwa.value;
   api_type_of ApiRwa.QueryRestrictionsResponse ApiRwa.value;
   api_type_of ApiRwa.QueryParamsRequest ApiRwa.value;
   api_type_of ApiRwa.QueryParamsResponse ApiRwa.value;
   api_type_of ApiFeesBase.Params ApiFeesBase.value;
   api_type_of ApiFeesBase.GenesisState ApiFeesBase.value;
   api_type_of ApiFeesBase.MsgUpdateParams ApiFeesBase.value;
   api_type_of ApiFeesBase.MsgUpdateParamsResponse ApiFeesBase.value;
   api_type_of ApiFeesBase.QueryParamsRequest ApiFeesBase.value;
   api_type_of ApiFeesBase.QueryParamsResponse ApiFeesBase.value;
   api_type_of ApiOracleBase.Params ApiOracleBase.value;
   api_type_of ApiOracleBase.GenesisState ApiOracleBase.value;
   api_type_of ApiOracleBase.MsgUpdateParams ApiOracleBase.value;
   api_type_of ApiOracleBase.MsgUpdateParamsResponse ApiOracleBase.value;
   api_type_of ApiOracleBase.QueryParamsRequest ApiOracleBase.value;
   api_type_of ApiOracleBase.QueryParamsResponse ApiOracleBase.value].

(** C32: the fast-path codec of every client message whose integers are in the range of
    their Go types, whose repeated fields hold no nil pointer and whose unknown fields,
    its own and those of the messages nested in it, are fields of a later schema:
    [marshal] appends to the buffer the encoding of the fields (of a nested message with
    its unknown fields) and then the unknown fields, [size] being the length of what
    it appends; [unmarshal] reads this back to the same message with its unknown fields
    at every depth, or without any of them when they are to be discarded ([pm_strip]);
    and on any input at all it returns a message or an error. So a client built against
    an older schema hands on, byte for byte, the fields it does not know. *)
Theorem api_codec_keeps_unknown :
  Forall (fun t => forall x : am_type t,
    (am_wf t x -> pm_size (Some x) < two63 ->
      zlen (pm_bytes x) = pm_size (Some x) /\
      (forall buf, pm_marshal buf (Some x) = Ok (buf ++ pm_bytes x)) /\
      (pm_foreign x -> forall discard,
        pm_unmarshal discard (pm_bytes x) (Some pm_new) = Ok (Some (if discard then pm_strip x else x)))) /\
    (forall discard b, zlen b < two63 ->
      match pm_unmarshal discard b (Some x) with Ok (Some _) | Err _ => True | _ => False end)) api_messages.
Proof. each_type; (intros x; split; [apply (api_codec_one _)|intros d b; apply (pm_returns d x b)]). Qed.

(** The callback that copies a field to another message, and stops at a failure. *)
Definition copy_to {A V : Type} {R : Reflect A V} (fd : string) (v : V) (y : res A) : bool * res A :=
  match y ≫= r_Set fd v with Ok y => (true, Ok y) | e => (false, e) end.

Lemma visits_copy {A V} {R : Reflect A V} (l : list (string * V)) (y : A) :
  visits copy_to l (Ok y) = rfold l y (fun y fv => r_Set fv.1 fv.2 y).
Proof.
  revert y. induction l as [|[fd v] l IH]; intros y; [done|]. cbn [visits rfold fst snd]. unfold copy_to at 1.
  cbn [mbind res_bind]. destruct (r_Set fd v y); [apply IH|done..].
Qed.

(** C33: generic code that works through reflection sees every client message as it is:
    copying each field that [Range] shows to an empty message with [Set] rebuilds the
    message (without its unknown fields); what is set is what is got, and clearing
    unpopulates, with every other field untouched; the value of a mutable field is the
    one the field then has; and the name of a field of another message panics. *)
Theorem api_reflection_faithful :
  Forall (fun t => forall (x : am_type t) fd v,
    r_Range copy_to x (Ok r_new) = Ok (r_SetUnknown [] x) /\
    (forall x', r_Set fd v x = Ok x' -> (r_Has fd x' = Ok true -> r_Get fd x' = Ok v) /\
      forall fd', fd' ∈ am_names t -> fd' <> fd -> r_Get fd' x' = r_Get fd' x) /\
    (forall x', r_Mutable fd x = Ok (x', v) -> r_Set fd v x' = Ok x' /\
      forall fd', fd' ∈ am_names t -> fd' <> fd -> r_Get fd' x' = r_Get fd' x) /\
    (fd ∈ am_names t -> exists x', r_Clear fd x = Ok x' /\ r_Has fd x' = Ok false /\
      forall fd', fd' ∈ am_names t -> fd' <> fd -> r_Get fd' x' = r_Get fd' x) /\
    (fd ∉ am_names t -> r_Has fd x = Panic /\ r_Get fd x = Panic /\ r_Set fd v x = Panic)) api_messages.
Proof.
  each_type; (intros x fd v; split_and!;
    [rewrite rl_range, visits_copy; apply rl_copy|intros x'; apply rl_set|intros x'; apply rl_mutable|apply rl_clear
    |intros Hn; destruct (rl_dom fd x v Hn) as (? & _ & ? & ? & _); by split_and!]).
Qed.

End Interop.
