(* ===== verification/ApiRef.v ===== *)
(** * The client API: a reference instance

    Concrete definitions for what the API bindings import: the runtime of
    cosmos-proto, google.protobuf.Timestamp (two integers, as its schema has them)
    with the encoding of [time.Time] on it, and pagination messages without fields.
    They satisfy the laws that the theorems of file Interop assume; the witnesses
    apply those theorems to messages of each module. *)

From S2P Require Import Prelude Sdk World SdkRef Wire FeesTypes OracleTypes RwaTypes Codec Foreign.
From S2P Require Import WireMsg FeesCodec OracleCodec RwaCodec TwapCodec Pulsar Reflect ApiFees ApiOracle ApiRwa Interop.

Open Scope Z_scope.

(** ** The runtime *)

#[local] Instance ref_runtime : ProtoRuntime := {|
  rt_Sov := sov;
  rt_EncodeVarint := encodeVarint;
  rt_Skip := skip;
  opt_Size A f o := f o;
  opt_Marshal A f o := f [] o;
  opt_Unmarshal A f d b m := (o ← f d b (Some m); match o with Some m => Ok m | None => Panic end)
|}.

#[local] Instance ref_runtime_laws : ProtoRuntimeLaws.
Proof. split; try done; [apply skip_moves|apply skip_foreign]. Qed.

(** ** Timestamps *)

Record timestamp : Type := mkTimestamp { ts_Seconds : Z; ts_Nanos : Z; ts_unknown : bytes }.

Definition timestamp_size (o : option timestamp) : Z :=
  match o with None => 0 | Some x => pz_int (ts_Seconds x) + pz_int (ts_Nanos x) + zlen (ts_unknown x) end.
Definition timestamp_marshal : bytes -> option timestamp -> res bytes :=
  pulsar_marshal timestamp_size (fun x w =>
    w ← pw_raw (ts_unknown x) w; w ← pw_int x10 (ts_Nanos x) w; pw_int x08 (ts_Seconds x) w).
Definition timestamp_unmarshal : bool -> bytes -> option timestamp -> res (option timestamp) :=
  pulsar_unmarshal (fun discard l fieldNum wireType x b =>
    match fieldNum with
    | 1 => Some ('(s, b) ← rd_int64 wireType b; Ok (mkTimestamp s (ts_Nanos x) (ts_unknown x), b))
    | 2 => Some ('(s, b) ← rd_int32 wireType b; Ok (mkTimestamp (ts_Seconds x) s (ts_unknown x), b))
    | _ => None
    end) (fun s x => mkTimestamp (ts_Seconds x) (ts_Nanos x) (ts_unknown x ++ s)).

#[local] Instance timestamp_pulsar : PulsarMsg timestamp := {|
  pm_new := mkTimestamp 0 0 [];
  pm_size := timestamp_size; pm_marshal := timestamp_marshal; pm_unmarshal := timestamp_unmarshal;
  pm_unknown := ts_unknown; pm_set_unknown u x := mkTimestamp (ts_Seconds x) (ts_Nanos x) u
|}.

#[local] Instance timestamp_schema : Schema timestamp := fun x => [(1, FInt (ts_Seconds x)); (2, FInt (ts_Nanos x))].

#[local] Instance timestamp_strip : PulsarStrip timestamp := fun x => mkTimestamp (ts_Seconds x) (ts_Nanos x) [].

#[local] Instance timestamp_laws {T : StdTime} : PulsarLaws timestamp.
Proof.
  eapply (own_pulsar _ _ (fun x => - two63 <= ts_Seconds x < two63 /\ - 2 ^ 31 <= ts_Nanos x < 2 ^ 31));
    [intros; reflexivity|intros; reflexivity|reflexivity|unknown_lens| | |knows_switch|].
  - intros x Hx. unfold pm_size, timestamp_pulsar, timestamp_size, timestamp_schema. pencodes_fields.
  - intros d [x1 x2 u] Hx Hu. simpl in Hu. subst u.
    reads_start (proto3_field (1, FInt x1) ++ proto3_field (2, FInt x2) ++ [] : bytes). reads_i64. reads_i32. preads_end d.
  - intros d l k wt x b r ? E. cbv beta in E. pconsumes_fields E.
Defined.

(** [time.Time], in nanoseconds since 1970. *)
Definition ref_time (t : Z) : timestamp := mkTimestamp (t / Second) (t mod Second) [].

(** The encoding does not depend on how times are encoded: there are none in it. *)
Definition ref_time_bytes (t : Z) : bytes := proto3_field (T := T_ref) (1, FInt (t / Second)) ++
  proto3_field (T := T_ref) (2, FInt (t mod Second)) ++ [].

#[local] Instance ref_std : StdTime := {|
  StdTimeMarshal t := Ok (ref_time_bytes t);
  SizeOfStdTime t := timestamp_size (Some (ref_time t));
  StdTimeUnmarshal b := (o ← timestamp_unmarshal false b (Some (mkTimestamp 0 0 []));
    match o with Some x => Ok (ts_Seconds x * Second + ts_Nanos x) | None => Panic end)
|}.

Lemma ref_time_plain (T : StdTime) t : time_ok t -> pm_plain (T := T) (ref_time t).
Proof.
  intros Ht. split; [|by split]. unfold time_ok, zero_time, Second in Ht. cbn.
  pose proof (Z.mod_pos_bound t Second ltac:(done)). unfold two63, Second in *. split; [|lia].
  split; [apply Z.div_le_lower_bound|apply Z.div_lt_upper_bound]; lia.
Qed.

Lemma ref_time_size t : pm_size (Some (ref_time t)) <= 22.
Proof.
  unfold pm_size, timestamp_pulsar, timestamp_size. rewrite !pz_int_eq. change (zlen (ts_unknown (ref_time t))) with 0.
  pose proof (size_int_le (ts_Seconds (ref_time t))). pose proof (size_int_le (ts_Nanos (ref_time t))). lia.
Qed.

Lemma ref_time_encoding t : time_ok t ->
  zlen (ref_time_bytes t) = pm_size (Some (ref_time t)) /\
  pm_unmarshal false (ref_time_bytes t) (Some pm_new) = Ok (Some (ref_time t)).
Proof.
  intros Ht. pose proof (ref_time_plain T_ref t Ht) as Hp. pose proof (ref_time_size t) as Hs.
  destruct (pm_encodes (T := T_ref) (ref_time t) [] (proj1 Hp)) as [_ E]; [unfold two63; lia|].
  rewrite plain_bytes in E by done. change (proto3_encode (T := T_ref) (ref_time t)) with (ref_time_bytes t) in E.
  split; [done|]. apply (pm_decodes (T := T_ref) false (ref_time t) Hp).
  change (proto3_encode (T := T_ref) (ref_time t)) with (ref_time_bytes t). rewrite E. unfold two63. lia.
Qed.

#[local] Instance ref_std_laws : StdTimeLaws.
Proof.
  split. intros t Ht. destruct (ref_time_encoding t Ht) as [El Eu]. pose proof (ref_time_size t).
  exists (ref_time_bytes t). split_and!; [done|symmetry; apply El| |lia].
  cbn [StdTimeUnmarshal ref_std].
  change (timestamp_unmarshal false (ref_time_bytes t) (Some (mkTimestamp 0 0 []))) with
    (pm_unmarshal false (ref_time_bytes t) (Some (pm_new (A := timestamp)))). rewrite Eu. cbn [mbind res_bind ts_Seconds ts_Nanos ref_time]. f_equal.
  pose proof (Z.div_mod t Second ltac:(done)). lia.
Qed.

#[local] Instance ref_std_total : StdTimeTotal.
Proof.
  intros b Hb. cbn [StdTimeUnmarshal ref_std]. pose proof (pm_returns (T := T_ref) false (mkTimestamp 0 0 []) b Hb) as H.
  cbn [pm_unmarshal timestamp_pulsar] in H.
  by destruct (timestamp_unmarshal false b (Some (mkTimestamp 0 0 []))) as [[x|]| |].
Qed.

(** ** Pagination: messages without fields *)

#[local] Instance ref_sdk : SdkImports := {|
  WireMsg.PageRequest := FeesCodec.QueryParamsRequest;
  WireMsg.PageResponse := FeesCodec.QueryParamsRequest
|}.

#[local] Instance ref_sdk_laws : SdkImportsLaws.
Proof. split; apply FeesCodec.QueryParamsRequest_laws. Defined.

#[local] Instance ref_api : ApiImports := {|
  Timestamp := timestamp;
  Pulsar.PageRequest := ApiFees.QueryParamsRequest;
  Pulsar.PageResponse := ApiFees.QueryParamsRequest
|}.

#[local] Instance ref_api_laws : ApiImportsLaws.
Proof. split; [apply timestamp_laws|apply ApiFees.QueryParamsRequest_wire..]. Defined.

#[local] Instance ref_shared : SharedImports := {|
  api_time := ref_time;
  PageRequest_to_api := fees_QueryParamsRequest_to_api;
  PageResponse_to_api := fees_QueryParamsRequest_to_api
|}.

#[local] Instance ref_shared_laws : SharedImportsLaws.
Proof.
  split; [|apply fees_QueryParamsRequest_to_api_laws..].
  intros t Ht. split_and!; [by apply (ref_time_plain ref_std)|done..].
Qed.

(** ** Witnesses *)

Ltac not_listed := repeat (apply not_elem_of_cons; split; [done|]); apply not_elem_of_nil.

(** A record with times before and after 1970. *)
Definition wit_asset : RwaTypes.AssetRecord :=
  RwaTypes.mkAssetRecord "gold-1" "issuer" "Gold" "" 3 "XAU/USD" "factory/rwa/gold-1" "100" "5" true "2400.5"
    (1700000000 * Second + 5) (-86400 * Second) zero_time.

(** What a later schema might add: four bytes as field 100, and a group numbered 200 of
    eight bytes and a text. *)
Definition wit_later : bytes :=
  (base128 10 (100 * 8 + 5) ++ [x01; x02; x03; x04]) ++
  (base128 10 (200 * 8 + 3) ++ ((base128 10 (1 * 8 + 1) ++ replicate 8 x07) ++ delimited 2 [x61] ++ []) ++
   base128 10 (200 * 8 + 4)) ++ [].

Lemma wit_later_foreign ks : 100 ∉ ks -> 200 ∉ ks -> foreign ks wit_later.
Proof.
  intros H1 H2. apply foreign_cons; [apply (foreign_number _ 100); [done|lia|by apply wire_fixed32]|].
  apply foreign_cons; [|constructor]. apply (foreign_number _ 200); [done|lia|]. apply wire_group.
  apply (wire_more 1); [lia|by apply wire_fixed64|]. apply (wire_more 2); [lia|apply wire_delimited|constructor].
Qed.

Lemma Marshal_is_proto3_witness :
  msg_Marshal wit_asset = Ok (proto3_encode wit_asset) /\
  msg_Unmarshal msg_zero (proto3_encode wit_asset ++ wit_later) = Ok wit_asset.
Proof.
  destruct (Forall_lookup_1 _ _ 27 _ Marshal_is_proto3 eq_refl wit_asset) as [E H].
  - vm_compute. repeat split; discriminate.
  - by vm_compute.
  - split; [exact E|]. apply (H wit_later); [|by vm_compute]. apply wit_later_foreign; not_listed.
Defined.

(** A transaction message cut short. *)
Lemma Unmarshal_returns_witness :
  returns (msg_Unmarshal (RwaTypes.mkMsgMintRWA "" "" "") [x0a; xff; xff; xff; xff; xff; xff; xff; xff; x7f]).
Proof. apply (Forall_lookup_1 _ _ 35 _ Unmarshal_returns eq_refl (RwaTypes.mkMsgMintRWA "" "" "")). by vm_compute. Defined.

Lemma codecs_interoperate_witness : exists b,
  msg_Marshal wit_asset = Ok b /\ (forall buf, pm_marshal buf (Some (to_api wit_asset)) = Ok (buf ++ b)) /\
  (forall discard, pm_unmarshal discard b (Some pm_new) = Ok (Some (to_api (B := ApiRwa.AssetRecord) wit_asset))) /\
  msg_Unmarshal msg_zero b = Ok wit_asset.
Proof.
  apply (Forall_lookup_1 _ _ 27 _ codecs_interoperate eq_refl wit_asset).
  - vm_compute. repeat split; discriminate.
  - by vm_compute.
Defined.

(** A price with a field of a later schema. *)
Definition wit_feed : ApiOracle.OracleFeed := ApiOracle.mkOracleFeed "val" "VTX/USD" "1.5" (-1) (delimited 9 [x2a]).

(** A response with such a price in it, and a field of its own that is unknown. *)
Definition wit_response : ApiOracle.QueryPriceResponse :=
  ApiOracle.mkQueryPriceResponse
    (Some (ApiOracle.mkAggregatedPrice "VTX/USD" "1.5" 7 (Some (mkTimestamp 5 6 [])) wit_later)) (delimited 9 [x2a]).

Lemma wit_response_good : pm_wf wit_response /\ pm_foreign wit_response.
Proof.
  split.
  - intros y [= <-]. split; [|apply wit_later_foreign; not_listed]. split; [vm_compute; split; congruence|].
    intros t [= <-]. split; [vm_compute; split; split; congruence|constructor].
  - unfold pm_foreign. rewrite <- (app_nil_r (pm_unknown _)). constructor; [|constructor].
    apply (foreign_number _ 9); [not_listed|lia|apply wire_delimited].
Qed.

(** Both kinds of unknown fields are kept, and both are dropped on request. *)
Lemma api_codec_keeps_unknown_witness :
  pm_marshal [] (Some wit_response) = Ok (pm_bytes wit_response) /\
  pm_unmarshal false (pm_bytes wit_response) (Some pm_new) = Ok (Some wit_response) /\
  pm_unmarshal true (pm_bytes wit_response) (Some (pm_new (A := ApiOracle.QueryPriceResponse))) = Ok (Some (ApiOracle.mkQueryPriceResponse
    (Some (ApiOracle.mkAggregatedPrice "VTX/USD" "1.5" 7 (Some (mkTimestamp 5 6 [])) [])) [])).
Proof.
  destruct (Forall_lookup_1 _ _ 21 _ api_codec_keeps_unknown eq_refl wit_response) as [H _].
  destruct H as (_ & Hm & Hu); [apply wit_response_good|by vm_compute|]. split; [apply (Hm [])|].
  split; [apply (Hu (proj2 wit_response_good) false)|apply (Hu (proj2 wit_response_good) true)].
Defined.

Lemma api_reflection_faithful_witness :
  r_Range copy_to wit_feed (Ok r_new) = Ok (ApiOracle.mkOracleFeed "val" "VTX/USD" "1.5" (-1) []) /\
  r_Has "vertix.oracle.v1.TWAPEntry.pair" wit_feed = Panic.
Proof.
  destruct (Forall_lookup_1 _ _ 8 _ api_reflection_faithful eq_refl wit_feed "vertix.oracle.v1.TWAPEntry.pair" (ApiOracle.VInt64 0))
    as (Hc & _ & _ & _ & Hn).
  split; [apply Hc|]. apply Hn. not_listed.
Defined.
