(* ===== verification/Grpc.v ===== *)
(** * gRPC: client stubs, method handlers, gateway

    The texts that the generators of gRPC code instantiate for every method of a
    service: the client stub ([client_call]), the handler that the server calls
    ([unary_handler]), the functions of the HTTP gateway. The gRPC runtime (a
    connection, a registrar of services) and the gateway runtime are parameters;
    [serves] states what a connection to a server of a service does. An
    [interface{}] is a value of a type [any] with a constructor per message type of
    the package, and a type assertion on it panics on another constructor. Contexts,
    call options and metadata are not modelled. *)

From S2P Require Import Prelude Sdk World SdkRef Wire Codec Foreign WireMsg Pulsar.

Open Scope Z_scope.

(** ** Messages on the wire *)

(** A message type as the protobuf codec of gRPC sees it: [new(T)], [Marshal] and
    [Unmarshal] into a new message. *)
Class GrpcMsg (A : Type) : Type := {
  g_new : A;
  g_Marshal : A -> res bytes;
  g_Unmarshal : bytes -> res A
}.

(** The messages of the node are encoded by their own methods, those of the client
    library by their fast path. *)
#[global] Instance go_grpc {A} {G : GoMsg A} : GrpcMsg A := {|
  g_new := msg_zero;
  g_Marshal := msg_Marshal;
  g_Unmarshal := msg_Unmarshal msg_zero
|}.

#[global] Instance pulsar_grpc {A} {M : PulsarMsg A} : GrpcMsg A := {|
  g_new := pm_new;
  g_Marshal x := pm_marshal [] (Some x);
  g_Unmarshal b := (o ← pm_unmarshal false b (Some pm_new); match o with Some x => Ok x | None => Panic end)
|}.

Section Grpc.
Context {W : Type}.

(** ** Clients *)

(** [grpc.ClientConnInterface]: [Invoke(ctx, method, in, out)] fills [out]. *)
Record ClientConn : Type := mkClientConn {
  Invoke : forall {A B : Type} {GA : GrpcMsg A} {GB : GrpcMsg B}, string -> A -> B -> M W B
}.

(** [out := new(B); err := c.cc.Invoke(ctx, method, in, out, opts...);
    if err != nil { return nil, err }; return out, nil]. *)
Definition client_call {A B} {GA : GrpcMsg A} {GB : GrpcMsg B} (cc : ClientConn) (method : string) (req : A) : M W B :=
  let out := g_new in
  out ← Invoke cc method req out;
  mret out.

(** ** Servers *)

Record UnaryServerInfo (Srv : Type) : Type := mkUnaryServerInfo { Server : Srv; FullMethod : string }.

(** [grpc.UnaryServerInterceptor], and the [dec] that a handler is given. *)
Definition Interceptor (any Srv : Type) : Type := any -> UnaryServerInfo Srv -> (any -> M W any) -> M W any.
Definition Decoder : Type := forall A, GrpcMsg A -> A -> M W A.
Definition MethodHandler (any Srv : Type) : Type := Srv -> Decoder -> option (Interceptor any Srv) -> M W any.

(** A handler: [in := new(A); if err := dec(in); err != nil { return nil, err }], then
    the method of the server, directly or inside the interceptor. *)
Definition unary_handler {any Srv A B} {GA : GrpcMsg A} (method : string) (call : Srv -> A -> M W B)
    (ofA : A -> any) (asA : any -> res A) (ofB : B -> any) : MethodHandler any Srv :=
  fun srv dec interceptor =>
  req ← dec A GA g_new;
  match interceptor with
  | None => resp ← call srv req; mret (ofB resp)
  | Some intercept =>
      let info := mkUnaryServerInfo Srv srv method in
      let handler := fun req : any => req ← lift (asA req); resp ← call srv req; mret (ofB resp) in
      intercept (ofA req) info handler
  end.

(** [grpc.ServiceDesc]. *)
Record ServiceDesc (any Srv : Type) : Type := mkServiceDesc {
  ServiceName : string;
  Methods : list (string * MethodHandler any Srv);
  Metadata : string
}.

(** [status.Errorf(codes.Unimplemented, ...)] and [codes.InvalidArgument]. *)
Definition Unimplemented : error := Status 12.
Definition BadRequest : error := Status 3.

(** ** The gateway *)

(** The gateway runtime: [runtime.String] and [runtime.Uint64], the form of a request
    and how it fills a message, the annotation of the context, and the routes of a
    [ServeMux]. A reply is an error or a message to forward. *)
Inductive reply (any : Type) : Type :=
| HTTPError (e : error)
| ForwardResponse (m : any).
Arguments HTTPError {_}.
Arguments ForwardResponse {_}.

(** The program and the pool that [runtime.NewPattern] is given. *)
Record pattern : Type := mkPattern { pat_ops : list Z; pat_pool : list string }.

(** [utilities.DoubleArray]: the parameters of the path, which a form does not set. *)
Record DoubleArray : Type := mkDoubleArray { da_Encoding : list (string * Z); da_Base : list Z; da_Check : list Z }.

Class GatewayRuntime : Type := {
  rt_String : string -> res string;
  rt_Uint64 : string -> res Z;
  HttpRequest : Type;
  Form : Type;
  ParseForm : HttpRequest -> res Form;
  PopulateQueryParameters : forall {A} {G : GrpcMsg A}, A -> Form -> DoubleArray -> res A;
  AnnotateContext : HttpRequest -> res unit;
  AnnotateIncomingContext : HttpRequest -> res unit;
  ServeMux : Type -> Type;
  Handle : forall {any}, string -> pattern -> (HttpRequest -> gmap string string -> M W (reply any)) ->
    ServeMux any -> ServeMux any
}.

Context {RT : GatewayRuntime}.

(** [val, ok = pathParams[name]; if !ok { return InvalidArgument }; F, err = parse(val);
    if err != nil { return InvalidArgument }]. *)
Definition path_param {A} (name : string) (parse : string -> res A) (pathParams : gmap string string) : M W A :=
  match pathParams !! name with
  | None => throw BadRequest
  | Some val => lift (wrap_err BadRequest (parse val))
  end.

(** [if err := req.ParseForm(); ...; if err := runtime.PopulateQueryParameters(&protoReq, req.Form, filter); ...]. *)
Definition query_params {A} {G : GrpcMsg A} (protoReq : A) (req : HttpRequest) (filter : DoubleArray) : M W A :=
  form ← lift (wrap_err BadRequest (ParseForm req));
  lift (wrap_err BadRequest (PopulateQueryParameters protoReq form filter)).

(** The body of the handlers that [RegisterQueryHandlerServer] and
    [RegisterQueryHandlerClient] give to the mux: an error of the annotation or of the
    call is an HTTP error, an answer is forwarded. *)
Definition gateway_handler {any B} (annotate : HttpRequest -> res unit)
    (call : HttpRequest -> gmap string string -> M W B) (ofB : B -> any)
    (req : HttpRequest) (pathParams : gmap string string) : M W (reply any) := fun w =>
  match annotate req with
  | Panic => (w, Panic)
  | Err e => (w, Ok (HTTPError e))
  | Ok _ =>
      match call req pathParams w with
      | (w, Panic) => (w, Panic)
      | (w, Err e) => (w, Ok (HTTPError e))
      | (w, Ok resp) => (w, Ok (ForwardResponse (ofB resp)))
      end
  end.

(** ** What a connection to a server does *)

(** The server of a service has registered [desc] and [srv]: a call of one of its
    methods runs the handler, with the request decoded from its encoding; the answer
    comes back through its own encoding; an error comes back as its status. *)
Definition serves {any Srv} (encode : any -> res bytes) (status : error -> error) (cc : ClientConn)
    (desc : ServiceDesc any Srv) (srv : Srv) (interceptor : option (Interceptor any Srv)) : Prop :=
  forall (A B : Type) (GA : GrpcMsg A) (GB : GrpcMsg B) name handler (req : A) b w w' r,
    (name, handler) ∈ Methods _ _ desc -> g_Marshal req = Ok b ->
    handler srv (fun _ _ _ => lift (g_Unmarshal b)) interceptor w = (w', r) ->
    match r with
    | Ok resp => forall rb, encode resp = Ok rb ->
        Invoke cc ("/" +:+ ServiceName _ _ desc +:+ "/" +:+ name) req (g_new (A := B)) w = (w', g_Unmarshal rb)
    | Err e => Invoke cc ("/" +:+ ServiceName _ _ desc +:+ "/" +:+ name) req (g_new (A := B)) w = (w', Err (status e))
    | Panic => True
    end.

(** An interceptor that hands on the request it got. *)
Definition transparent {any Srv} (o : option (Interceptor any Srv)) : Prop :=
  forall ic, o = Some ic -> forall req info handler w, ic req info handler w = handler req w.

(** ** Lemmas *)

Lemma handler_runs {any Srv A B} {GA : GrpcMsg A} method (call : Srv -> A -> M W B) ofA asA (ofB : B -> any)
    srv (dec : Decoder) o m w : transparent o -> (forall x, asA (ofA x) = Ok x) -> dec A GA g_new w = (w, Ok m) ->
  unary_handler method call ofA asA ofB srv dec o w = (resp ← call srv m; mret (ofB resp)) w.
Proof.
  intros Ht Has Hd. unfold unary_handler. erewrite bind_Ok_run by exact Hd. destruct o as [ic|]; [|done].
  rewrite (Ht ic eq_refl). by erewrite bind_lift_run by apply Has.
Qed.

(** A client of one binding, a server of another: the call returns the client's view of
    what the method answers. *)
Lemma served_call {any Srv A B A' B'} {GA : GrpcMsg A} {GB : GrpcMsg B} {GA' : GrpcMsg A'} {GB' : GrpcMsg B'}
    (encode : any -> res bytes) status cc (desc : ServiceDesc any Srv) srv o name full (call : Srv -> A -> M W B)
    ofA asA ofB (va : A -> A') (vb : B -> B') m b w :
  serves encode status cc desc srv o -> transparent o -> (forall x, asA (ofA x) = Ok x) ->
  (name, unary_handler full call ofA asA ofB) ∈ Methods _ _ desc ->
  g_Marshal (va m) = Ok b -> g_Unmarshal b = Ok m ->
  match call srv m w with
  | (w', Ok r) => forall rb, encode (ofB r) = Ok rb -> g_Unmarshal rb = Ok (vb r) ->
      client_call cc ("/" +:+ ServiceName _ _ desc +:+ "/" +:+ name) (va m) w = (w', Ok (vb r))
  | (w', Err e) =>
      client_call cc ("/" +:+ ServiceName _ _ desc +:+ "/" +:+ name) (va m) w = (w', Err (status e) : res B')
  | _ => True
  end.
Proof.
  intros Hs Ht Has Hin Hm Hu.
  assert (unary_handler full call ofA asA ofB srv (fun A G _ => lift (g_Unmarshal b)) o w =
          (resp ← call srv m; mret (ofB resp)) w) as E.
  { apply handler_runs; [done|done|]. unfold lift. by rewrite Hu. }
  destruct (call srv m w) as [w' [r|e|]] eqn:Ec; [| |done].
  - intros rb Hr Hrb. erewrite bind_Ok_run in E by exact Ec.
    pose proof (Hs A' B' _ _ name _ (va m) b w w' _ Hin Hm E rb Hr) as Hi.
    unfold client_call. rewrite Hrb in Hi. by erewrite bind_Ok_run by exact Hi.
  - rewrite M_bind_run, Ec in E. pose proof (Hs A' B' _ _ name _ (va m) b w w' _ Hin Hm E) as Hi. cbn in Hi.
    unfold client_call. rewrite M_bind_run, Hi. done.
Qed.

End Grpc.
Arguments ServiceName {_ _ _}.
Arguments Methods {_ _ _}.
Arguments Metadata {_ _ _}.
