(* ===== verification/GrpcFees.v ===== *)
(** * x/fees: the gRPC services of the node

    The clients, servers and handlers of the services Msg and Query of
    x/fees/types/{tx,query}.pb.go and the HTTP gateway of x/fees/types/query.pb.gw.go, over
    the texts of file Grpc. *)

From S2P Require Import Prelude Sdk World SdkRef Wire FeesTypes Codec Foreign WireMsg FeesCodec Pulsar Grpc.

Open Scope Z_scope.

Section GrpcFees.
Context {W : Type}.

(** ** [interface{}]: the messages of the services, and the type assertions of the handlers *)

Inductive any : Type :=
| Any_MsgUpdateParams (m : FeesTypes.MsgUpdateParams)
| Any_MsgUpdateParamsResponse (m : FeesCodec.MsgUpdateParamsResponse)
| Any_QueryParamsRequest (m : FeesCodec.QueryParamsRequest)
| Any_QueryParamsResponse (m : FeesCodec.QueryParamsResponse).

Definition as_MsgUpdateParams (a : any) : res FeesTypes.MsgUpdateParams := match a with Any_MsgUpdateParams m => Ok m | _ => Panic end.
Definition as_QueryParamsRequest (a : any) : res FeesCodec.QueryParamsRequest := match a with Any_QueryParamsRequest m => Ok m | _ => Panic end.

(** The encoding of a message by the codec of gRPC. *)
Definition any_Marshal (a : any) : res bytes :=
  match a with
  | Any_MsgUpdateParams m => g_Marshal m
  | Any_MsgUpdateParamsResponse m => g_Marshal m
  | Any_QueryParamsRequest m => g_Marshal m
  | Any_QueryParamsResponse m => g_Marshal m
  end.

(** ** The service vertix.fees.v1.Msg: clients *)

Record MsgClient : Type := mkMsgClient {
  MsgClient_UpdateParams : FeesTypes.MsgUpdateParams -> M W FeesCodec.MsgUpdateParamsResponse
}.

Definition msgClient_call_UpdateParams (cc : ClientConn (W := W)) (req : FeesTypes.MsgUpdateParams) : M W FeesCodec.MsgUpdateParamsResponse :=
  client_call cc "/vertix.fees.v1.Msg/UpdateParams" req.

Definition NewMsgClient (cc : ClientConn (W := W)) : MsgClient :=
  mkMsgClient (msgClient_call_UpdateParams cc).

(** ** The service vertix.fees.v1.Msg: server *)

Record MsgServer : Type := mkMsgServer {
  MsgServer_UpdateParams : FeesTypes.MsgUpdateParams -> M W FeesCodec.MsgUpdateParamsResponse
}.

Definition UnimplementedMsgServer : MsgServer :=
  mkMsgServer (fun _ => throw Unimplemented).

Definition Msg_UpdateParams_Handler : MethodHandler any MsgServer :=
  unary_handler "/vertix.fees.v1.Msg/UpdateParams" MsgServer_UpdateParams
    Any_MsgUpdateParams as_MsgUpdateParams Any_MsgUpdateParamsResponse.

Definition Msg_serviceDesc : ServiceDesc any MsgServer := mkServiceDesc _ _ "vertix.fees.v1.Msg"
  [("UpdateParams", Msg_UpdateParams_Handler)]
  "vertix/fees/v1/tx.proto".

Definition RegisterMsgServer {S} (RegisterService : ServiceDesc any MsgServer -> MsgServer -> S -> S)
    (s : S) (srv : MsgServer) : S :=
  RegisterService Msg_serviceDesc srv s.

(** ** The service vertix.fees.v1.Query: clients *)

Record QueryClient : Type := mkQueryClient {
  QueryClient_Params : FeesCodec.QueryParamsRequest -> M W FeesCodec.QueryParamsResponse
}.

Definition queryClient_call_Params (cc : ClientConn (W := W)) (req : FeesCodec.QueryParamsRequest) : M W FeesCodec.QueryParamsResponse :=
  client_call cc "/vertix.fees.v1.Query/Params" req.

Definition NewQueryClient (cc : ClientConn (W := W)) : QueryClient :=
  mkQueryClient (queryClient_call_Params cc).

(** ** The service vertix.fees.v1.Query: server *)

Record QueryServer : Type := mkQueryServer {
  QueryServer_Params : FeesCodec.QueryParamsRequest -> M W FeesCodec.QueryParamsResponse
}.

Definition UnimplementedQueryServer : QueryServer :=
  mkQueryServer (fun _ => throw Unimplemented).

Definition Query_Params_Handler : MethodHandler any QueryServer :=
  unary_handler "/vertix.fees.v1.Query/Params" QueryServer_Params
    Any_QueryParamsRequest as_QueryParamsRequest Any_QueryParamsResponse.

Definition Query_serviceDesc : ServiceDesc any QueryServer := mkServiceDesc _ _ "vertix.fees.v1.Query"
  [("Params", Query_Params_Handler)]
  "vertix/fees/v1/query.proto".

Definition RegisterQueryServer {S} (RegisterService : ServiceDesc any QueryServer -> QueryServer -> S -> S)
    (s : S) (srv : QueryServer) : S :=
  RegisterService Query_serviceDesc srv s.

(** ** The HTTP gateway *)

Context {RT : GatewayRuntime (W := W)}.

Definition pattern_Query_Params_0 : pattern := mkPattern [2; 0; 2; 1; 2; 2; 2; 3] ["vertix"; "fees"; "v1"; "params"].

Definition request_Query_Params_0 (client : QueryClient) (req : HttpRequest) (pathParams : gmap string string) : M W FeesCodec.QueryParamsResponse :=
  let protoReq : FeesCodec.QueryParamsRequest := g_new in
  QueryClient_Params client protoReq.

Definition local_request_Query_Params_0 (server : QueryServer) (req : HttpRequest) (pathParams : gmap string string) : M W FeesCodec.QueryParamsResponse :=
  let protoReq : FeesCodec.QueryParamsRequest := g_new in
  QueryServer_Params server protoReq.

Definition RegisterQueryHandlerServer (mux : ServeMux any) (server : QueryServer) : ServeMux any :=
  let mux := Handle "GET" pattern_Query_Params_0
    (gateway_handler AnnotateIncomingContext (local_request_Query_Params_0 server) Any_QueryParamsResponse) mux in
  mux.

Definition RegisterQueryHandlerClient (mux : ServeMux any) (client : QueryClient) : ServeMux any :=
  let mux := Handle "GET" pattern_Query_Params_0
    (gateway_handler AnnotateContext (request_Query_Params_0 client) Any_QueryParamsResponse) mux in
  mux.

Definition RegisterQueryHandler (mux : ServeMux any) (conn : ClientConn (W := W)) : ServeMux any :=
  RegisterQueryHandlerClient mux (NewQueryClient conn).

End GrpcFees.
