(* ===== verification/GrpcOracle.v ===== *)
(** * x/oracle: the gRPC services of the node

    The clients, servers and handlers of the services Msg and Query of
    x/oracle/types/{tx,query}.pb.go and the HTTP gateway of x/oracle/types/query.pb.gw.go, over
    the texts of file Grpc. *)

From S2P Require Import Prelude Sdk World SdkRef Wire OracleTypes Codec Foreign WireMsg OracleCodec TwapCodec Pulsar Grpc.

Open Scope Z_scope.

Section GrpcOracle.
Context {W : Type} {T : StdTime} {D : DecWire}.

(** ** [interface{}]: the messages of the services, and the type assertions of the handlers *)

Inductive any : Type :=
| Any_MsgSetFeeder (m : OracleTypes.MsgSetFeeder)
| Any_MsgSetFeederResponse (m : OracleCodec.MsgSetFeederResponse)
| Any_MsgSubmitFeed (m : OracleTypes.MsgSubmitFeed)
| Any_MsgSubmitFeedResponse (m : OracleCodec.MsgSubmitFeedResponse)
| Any_MsgUpdateParams (m : OracleTypes.MsgUpdateParams)
| Any_MsgUpdateParamsResponse (m : OracleCodec.MsgUpdateParamsResponse)
| Any_QueryPriceRequest (m : OracleCodec.QueryPriceRequest)
| Any_QueryPriceResponse (m : OracleCodec.QueryPriceResponse)
| Any_QueryTwapRequest (m : OracleCodec.QueryTwapRequest)
| Any_QueryTwapResponse (m : TwapCodec.QueryTwapResponse)
| Any_QueryParamsRequest (m : OracleCodec.QueryParamsRequest)
| Any_QueryParamsResponse (m : OracleCodec.QueryParamsResponse)
| Any_QueryMissCounterRequest (m : OracleCodec.QueryMissCounterRequest)
| Any_QueryMissCounterResponse (m : OracleCodec.QueryMissCounterResponse)
| Any_QueryFeederRequest (m : OracleCodec.QueryFeederRequest)
| Any_QueryFeederResponse (m : OracleCodec.QueryFeederResponse).

Definition as_MsgSetFeeder (a : any) : res OracleTypes.MsgSetFeeder := match a with Any_MsgSetFeeder m => Ok m | _ => Panic end.
Definition as_MsgSubmitFeed (a : any) : res OracleTypes.MsgSubmitFeed := match a with Any_MsgSubmitFeed m => Ok m | _ => Panic end.
Definition as_MsgUpdateParams (a : any) : res OracleTypes.MsgUpdateParams := match a with Any_MsgUpdateParams m => Ok m | _ => Panic end.
Definition as_QueryPriceRequest (a : any) : res OracleCodec.QueryPriceRequest := match a with Any_QueryPriceRequest m => Ok m | _ => Panic end.
Definition as_QueryTwapRequest (a : any) : res OracleCodec.QueryTwapRequest := match a with Any_QueryTwapRequest m => Ok m | _ => Panic end.
Definition as_QueryParamsRequest (a : any) : res OracleCodec.QueryParamsRequest := match a with Any_QueryParamsRequest m => Ok m | _ => Panic end.
Definition as_QueryMissCounterRequest (a : any) : res OracleCodec.QueryMissCounterRequest := match a with Any_QueryMissCounterRequest m => Ok m | _ => Panic end.
Definition as_QueryFeederRequest (a : any) : res OracleCodec.QueryFeederRequest := match a with Any_QueryFeederRequest m => Ok m | _ => Panic end.

(** The encoding of a message by the codec of gRPC. *)
Definition any_Marshal (a : any) : res bytes :=
  match a with
  | Any_MsgSetFeeder m => g_Marshal m
  | Any_MsgSetFeederResponse m => g_Marshal m
  | Any_MsgSubmitFeed m => g_Marshal m
  | Any_MsgSubmitFeedResponse m => g_Marshal m
  | Any_MsgUpdateParams m => g_Marshal m
  | Any_MsgUpdateParamsResponse m => g_Marshal m
  | Any_QueryPriceRequest m => g_Marshal m
  | Any_QueryPriceResponse m => g_Marshal m
  | Any_QueryTwapRequest m => g_Marshal m
  | Any_QueryTwapResponse m => g_Marshal m
  | Any_QueryParamsRequest m => g_Marshal m
  | Any_QueryParamsResponse m => g_Marshal m
  | Any_QueryMissCounterRequest m => g_Marshal m
  | Any_QueryMissCounterResponse m => g_Marshal m
  | Any_QueryFeederRequest m => g_Marshal m
  | Any_QueryFeederResponse m => g_Marshal m
  end.

(** ** The service vertix.oracle.v1.Msg: clients *)

Record MsgClient : Type := mkMsgClient {
  MsgClient_SetFeeder : OracleTypes.MsgSetFeeder -> M W OracleCodec.MsgSetFeederResponse;
  MsgClient_SubmitFeed : OracleTypes.MsgSubmitFeed -> M W OracleCodec.MsgSubmitFeedResponse;
  MsgClient_UpdateParams : OracleTypes.MsgUpdateParams -> M W OracleCodec.MsgUpdateParamsResponse
}.

Definition msgClient_call_SetFeeder (cc : ClientConn (W := W)) (req : OracleTypes.MsgSetFeeder) : M W OracleCodec.MsgSetFeederResponse :=
  client_call cc "/vertix.oracle.v1.Msg/SetFeeder" req.

Definition msgClient_call_SubmitFeed (cc : ClientConn (W := W)) (req : OracleTypes.MsgSubmitFeed) : M W OracleCodec.MsgSubmitFeedResponse :=
  client_call cc "/vertix.oracle.v1.Msg/SubmitFeed" req.

Definition msgClient_call_UpdateParams (cc : ClientConn (W := W)) (req : OracleTypes.MsgUpdateParams) : M W OracleCodec.MsgUpdateParamsResponse :=
  client_call cc "/vertix.oracle.v1.Msg/UpdateParams" req.

Definition NewMsgClient (cc : ClientConn (W := W)) : MsgClient :=
  mkMsgClient (msgClient_call_SetFeeder cc) (msgClient_call_SubmitFeed cc) (msgClient_call_UpdateParams cc).

(** ** The service vertix.oracle.v1.Msg: server *)

Record MsgServer : Type := mkMsgServer {
  MsgServer_SetFeeder : OracleTypes.MsgSetFeeder -> M W OracleCodec.MsgSetFeederResponse;
  MsgServer_SubmitFeed : OracleTypes.MsgSubmitFeed -> M W OracleCodec.MsgSubmitFeedResponse;
  MsgServer_UpdateParams : OracleTypes.MsgUpdateParams -> M W OracleCodec.MsgUpdateParamsResponse
}.

Definition UnimplementedMsgServer : MsgServer :=
  mkMsgServer (fun _ => throw Unimplemented) (fun _ => throw Unimplemented) (fun _ => throw Unimplemented).

Definition Msg_SetFeeder_Handler : MethodHandler any MsgServer :=
  unary_handler "/vertix.oracle.v1.Msg/SetFeeder" MsgServer_SetFeeder
    Any_MsgSetFeeder as_MsgSetFeeder Any_MsgSetFeederResponse.

Definition Msg_SubmitFeed_Handler : MethodHandler any MsgServer :=
  unary_handler "/vertix.oracle.v1.Msg/SubmitFeed" MsgServer_SubmitFeed
    Any_MsgSubmitFeed as_MsgSubmitFeed Any_MsgSubmitFeedResponse.

Definition Msg_UpdateParams_Handler : MethodHandler any MsgServer :=
  unary_handler "/vertix.oracle.v1.Msg/UpdateParams" MsgServer_UpdateParams
    Any_MsgUpdateParams as_MsgUpdateParams Any_MsgUpdateParamsResponse.

Definition Msg_serviceDesc : ServiceDesc any MsgServer := mkServiceDesc _ _ "vertix.oracle.v1.Msg"
  [("SetFeeder", Msg_SetFeeder_Handler);
   ("SubmitFeed", Msg_SubmitFeed_Handler);
   ("UpdateParams", Msg_UpdateParams_Handler)]
  "vertix/oracle/v1/tx.proto".

Definition RegisterMsgServer {S} (RegisterService : ServiceDesc any MsgServer -> MsgServer -> S -> S)
    (s : S) (srv : MsgServer) : S :=
  RegisterService Msg_serviceDesc srv s.

(** ** The service vertix.oracle.v1.Query: clients *)

Record QueryClient : Type := mkQueryClient {
  QueryClient_Price : OracleCodec.QueryPriceRequest -> M W OracleCodec.QueryPriceResponse;
  QueryClient_Twap : OracleCodec.QueryTwapRequest -> M W TwapCodec.QueryTwapResponse;
  QueryClient_Params : OracleCodec.QueryParamsRequest -> M W OracleCodec.QueryParamsResponse;
  QueryClient_MissCounter : OracleCodec.QueryMissCounterRequest -> M W OracleCodec.QueryMissCounterResponse;
  QueryClient_Feeder : OracleCodec.QueryFeederRequest -> M W OracleCodec.QueryFeederResponse
}.

Definition queryClient_call_Price (cc : ClientConn (W := W)) (req : OracleCodec.QueryPriceRequest) : M W OracleCodec.QueryPriceResponse :=
  client_call cc "/vertix.oracle.v1.Query/Price" req.

Definition queryClient_call_Twap (cc : ClientConn (W := W)) (req : OracleCodec.QueryTwapRequest) : M W TwapCodec.QueryTwapResponse :=
  client_call cc "/vertix.oracle.v1.Query/Twap" req.

Definition queryClient_call_Params (cc : ClientConn (W := W)) (req : OracleCodec.QueryParamsRequest) : M W OracleCodec.QueryParamsResponse :=
  client_call cc "/vertix.oracle.v1.Query/Params" req.

Definition queryClient_call_MissCounter (cc : ClientConn (W := W)) (req : OracleCodec.QueryMissCounterRequest) : M W OracleCodec.QueryMissCounterResponse :=
  client_call cc "/vertix.oracle.v1.Query/MissCounter" req.

Definition queryClient_call_Feeder (cc : ClientConn (W := W)) (req : OracleCodec.QueryFeederRequest) : M W OracleCodec.QueryFeederResponse :=
  client_call cc "/vertix.oracle.v1.Query/Feeder" req.

Definition NewQueryClient (cc : ClientConn (W := W)) : QueryClient :=
  mkQueryClient (queryClient_call_Price cc) (queryClient_call_Twap cc) (queryClient_call_Params cc) (queryClient_call_MissCounter cc) (queryClient_call_Feeder cc).

(** ** The service vertix.oracle.v1.Query: server *)

Record QueryServer : Type := mkQueryServer {
  QueryServer_Price : OracleCodec.QueryPriceRequest -> M W OracleCodec.QueryPriceResponse;
  QueryServer_Twap : OracleCodec.QueryTwapRequest -> M W TwapCodec.QueryTwapResponse;
  QueryServer_Params : OracleCodec.QueryParamsRequest -> M W OracleCodec.QueryParamsResponse;
  QueryServer_MissCounter : OracleCodec.QueryMissCounterRequest -> M W OracleCodec.QueryMissCounterResponse;
  QueryServer_Feeder : OracleCodec.QueryFeederRequest -> M W OracleCodec.QueryFeederResponse
}.

Definition UnimplementedQueryServer : QueryServer :=
  mkQueryServer (fun _ => throw Unimplemented) (fun _ => throw Unimplemented) (fun _ => throw Unimplemented) (fun _ => throw Unimplemented) (fun _ => throw Unimplemented).

Definition Query_Price_Handler : MethodHandler any QueryServer :=
  unary_handler "/vertix.oracle.v1.Query/Price" QueryServer_Price
    Any_QueryPriceRequest as_QueryPriceRequest Any_QueryPriceResponse.

Definition Query_Twap_Handler : MethodHandler any QueryServer :=
  unary_handler "/vertix.oracle.v1.Query/Twap" QueryServer_Twap
    Any_QueryTwapRequest as_QueryTwapRequest Any_QueryTwapResponse.

Definition Query_Params_Handler : MethodHandler any QueryServer :=
  unary_handler "/vertix.oracle.v1.Query/Params" QueryServer_Params
    Any_QueryParamsRequest as_QueryParamsRequest Any_QueryParamsResponse.

Definition Query_MissCounter_Handler : MethodHandler any QueryServer :=
  unary_handler "/vertix.oracle.v1.Query/MissCounter" QueryServer_MissCounter
    Any_QueryMissCounterRequest as_QueryMissCounterRequest Any_QueryMissCounterResponse.

Definition Query_Feeder_Handler : MethodHandler any QueryServer :=
  unary_handler "/vertix.oracle.v1.Query/Feeder" QueryServer_Feeder
    Any_QueryFeederRequest as_QueryFeederRequest Any_QueryFeederResponse.

Definition Query_serviceDesc : ServiceDesc any QueryServer := mkServiceDesc _ _ "vertix.oracle.v1.Query"
  [("Price", Query_Price_Handler);
   ("Twap", Query_Twap_Handler);
   ("Params", Query_Params_Handler);
   ("MissCounter", Query_MissCounter_Handler);
   ("Feeder", Query_Feeder_Handler)]
  "vertix/oracle/v1/query.proto".

Definition RegisterQueryServer {S} (RegisterService : ServiceDesc any QueryServer -> QueryServer -> S -> S)
    (s : S) (srv : QueryServer) : S :=
  RegisterService Query_serviceDesc srv s.

(** ** The HTTP gateway *)

Context {RT : GatewayRuntime (W := W)}.

Definition pattern_Query_Price_0 : pattern := mkPattern [2; 0; 2; 1; 2; 2; 2; 3; 1; 0; 4; 1; 5; 4] ["vertix"; "oracle"; "v1"; "price"; "pair"].

Definition request_Query_Price_0 (client : QueryClient) (req : HttpRequest) (pathParams : gmap string string) : M W OracleCodec.QueryPriceResponse :=
  let protoReq : OracleCodec.QueryPriceRequest := g_new in
  v ← path_param "pair" rt_String pathParams;
  let protoReq := OracleCodec.mkQueryPriceRequest v in
  QueryClient_Price client protoReq.

Definition local_request_Query_Price_0 (server : QueryServer) (req : HttpRequest) (pathParams : gmap string string) : M W OracleCodec.QueryPriceResponse :=
  let protoReq : OracleCodec.QueryPriceRequest := g_new in
  v ← path_param "pair" rt_String pathParams;
  let protoReq := OracleCodec.mkQueryPriceRequest v in
  QueryServer_Price server protoReq.

Definition pattern_Query_Twap_0 : pattern := mkPattern [2; 0; 2; 1; 2; 2; 2; 3; 1; 0; 4; 1; 5; 4; 1; 0; 4; 1; 5; 5] ["vertix"; "oracle"; "v1"; "twap"; "pair"; "window_seconds"].

Definition request_Query_Twap_0 (client : QueryClient) (req : HttpRequest) (pathParams : gmap string string) : M W TwapCodec.QueryTwapResponse :=
  let protoReq : OracleCodec.QueryTwapRequest := g_new in
  v ← path_param "pair" rt_String pathParams;
  let protoReq := OracleCodec.mkQueryTwapRequest v (OracleCodec.qt_req_WindowSeconds protoReq) in
  v ← path_param "window_seconds" rt_Uint64 pathParams;
  let protoReq := OracleCodec.mkQueryTwapRequest (OracleCodec.qt_req_Pair protoReq) v in
  QueryClient_Twap client protoReq.

Definition local_request_Query_Twap_0 (server : QueryServer) (req : HttpRequest) (pathParams : gmap string string) : M W TwapCodec.QueryTwapResponse :=
  let protoReq : OracleCodec.QueryTwapRequest := g_new in
  v ← path_param "pair" rt_String pathParams;
  let protoReq := OracleCodec.mkQueryTwapRequest v (OracleCodec.qt_req_WindowSeconds protoReq) in
  v ← path_param "window_seconds" rt_Uint64 pathParams;
  let protoReq := OracleCodec.mkQueryTwapRequest (OracleCodec.qt_req_Pair protoReq) v in
  QueryServer_Twap server protoReq.

Definition pattern_Query_Params_0 : pattern := mkPattern [2; 0; 2; 1; 2; 2; 2; 3] ["vertix"; "oracle"; "v1"; "params"].

Definition request_Query_Params_0 (client : QueryClient) (req : HttpRequest) (pathParams : gmap string string) : M W OracleCodec.QueryParamsResponse :=
  let protoReq : OracleCodec.QueryParamsRequest := g_new in
  QueryClient_Params client protoReq.

Definition local_request_Query_Params_0 (server : QueryServer) (req : HttpRequest) (pathParams : gmap string string) : M W OracleCodec.QueryParamsResponse :=
  let protoReq : OracleCodec.QueryParamsRequest := g_new in
  QueryServer_Params server protoReq.

Definition pattern_Query_MissCounter_0 : pattern := mkPattern [2; 0; 2; 1; 2; 2; 2; 3; 1; 0; 4; 1; 5; 4] ["vertix"; "oracle"; "v1"; "miss_counter"; "validator"].

Definition request_Query_MissCounter_0 (client : QueryClient) (req : HttpRequest) (pathParams : gmap string string) : M W OracleCodec.QueryMissCounterResponse :=
  let protoReq : OracleCodec.QueryMissCounterRequest := g_new in
  v ← path_param "validator" rt_String pathParams;
  let protoReq := OracleCodec.mkQueryMissCounterRequest v in
  QueryClient_MissCounter client protoReq.

Definition local_request_Query_MissCounter_0 (server : QueryServer) (req : HttpRequest) (pathParams : gmap string string) : M W OracleCodec.QueryMissCounterResponse :=
  let protoReq : OracleCodec.QueryMissCounterRequest := g_new in
  v ← path_param "validator" rt_String pathParams;
  let protoReq := OracleCodec.mkQueryMissCounterRequest v in
  QueryServer_MissCounter server protoReq.

Definition pattern_Query_Feeder_0 : pattern := mkPattern [2; 0; 2; 1; 2; 2; 2; 3; 1; 0; 4; 1; 5; 4] ["vertix"; "oracle"; "v1"; "feeder"; "validator"].

Definition request_Query_Feeder_0 (client : QueryClient) (req : HttpRequest) (pathParams : gmap string string) : M W OracleCodec.QueryFeederResponse :=
  let protoReq : OracleCodec.QueryFeederRequest := g_new in
  v ← path_param "validator" rt_String pathParams;
  let protoReq := OracleCodec.mkQueryFeederRequest v in
  QueryClient_Feeder client protoReq.

Definition local_request_Query_Feeder_0 (server : QueryServer) (req : HttpRequest) (pathParams : gmap string string) : M W OracleCodec.QueryFeederResponse :=
  let protoReq : OracleCodec.QueryFeederRequest := g_new in
  v ← path_param "validator" rt_String pathParams;
  let protoReq := OracleCodec.mkQueryFeederRequest v in
  QueryServer_Feeder server protoReq.

Definition RegisterQueryHandlerServer (mux : ServeMux any) (server : QueryServer) : ServeMux any :=
  let mux := Handle "GET" pattern_Query_Price_0
    (gateway_handler AnnotateIncomingContext (local_request_Query_Price_0 server) Any_QueryPriceResponse) mux in
  let mux := Handle "GET" pattern_Query_Twap_0
    (gateway_handler AnnotateIncomingContext (local_request_Query_Twap_0 server) Any_QueryTwapResponse) mux in
  let mux := Handle "GET" pattern_Query_Params_0
    (gateway_handler AnnotateIncomingContext (local_request_Query_Params_0 server) Any_QueryParamsResponse) mux in
  let mux := Handle "GET" pattern_Query_MissCounter_0
    (gateway_handler AnnotateIncomingContext (local_request_Query_MissCounter_0 server) Any_QueryMissCounterResponse) mux in
  let mux := Handle "GET" pattern_Query_Feeder_0
    (gateway_handler AnnotateIncomingContext (local_request_Query_Feeder_0 server) Any_QueryFeederResponse) mux in
  mux.

Definition RegisterQueryHandlerClient (mux : ServeMux any) (client : QueryClient) : ServeMux any :=
  let mux := Handle "GET" pattern_Query_Price_0
    (gateway_handler AnnotateContext (request_Query_Price_0 client) Any_QueryPriceResponse) mux in
  let mux := Handle "GET" pattern_Query_Twap_0
    (gateway_handler AnnotateContext (request_Query_Twap_0 client) Any_QueryTwapResponse) mux in
  let mux := Handle "GET" pattern_Query_Params_0
    (gateway_handler AnnotateContext (request_Query_Params_0 client) Any_QueryParamsResponse) mux in
  let mux := Handle "GET" pattern_Query_MissCounter_0
    (gateway_handler AnnotateContext (request_Query_MissCounter_0 client) Any_QueryMissCounterResponse) mux in
  let mux := Handle "GET" pattern_Query_Feeder_0
    (gateway_handler AnnotateContext (request_Query_Feeder_0 client) Any_QueryFeederResponse) mux in
  mux.

Definition RegisterQueryHandler (mux : ServeMux any) (conn : ClientConn (W := W)) : ServeMux any :=
  RegisterQueryHandlerClient mux (NewQueryClient conn).

End GrpcOracle.
