(* ===== verification/GrpcRwa.v ===== *)
(** * x/rwa: the gRPC services of the node

    The clients, servers and handlers of the services Msg and Query of
    x/rwa/types/{tx,query}.pb.go and the HTTP gateway of x/rwa/types/query.pb.gw.go, over
    the texts of file Grpc. *)

From S2P Require Import Prelude Sdk World SdkRef Wire RwaTypes Codec Foreign WireMsg RwaCodec Pulsar Grpc.

Open Scope Z_scope.

Section GrpcRwa.
Context {W : Type} {T : StdTime} {I : SdkImports}.

(** ** [interface{}]: the messages of the services, and the type assertions of the handlers *)

Inductive any : Type :=
| Any_MsgRegisterAsset (m : RwaTypes.MsgRegisterAsset)
| Any_MsgRegisterAssetResponse (m : RwaCodec.MsgRegisterAssetResponse)
| Any_MsgAttestAsset (m : RwaTypes.MsgAttestAsset)
| Any_MsgAttestAssetResponse (m : RwaCodec.MsgAttestAssetResponse)
| Any_MsgMintRWA (m : RwaTypes.MsgMintRWA)
| Any_MsgMintRWAResponse (m : RwaCodec.MsgMintRWAResponse)
| Any_MsgTransferRWA (m : RwaTypes.MsgTransferRWA)
| Any_MsgTransferRWAResponse (m : RwaCodec.MsgTransferRWAResponse)
| Any_MsgSettleRWA (m : RwaTypes.MsgSettleRWA)
| Any_MsgSettleRWAResponse (m : RwaCodec.MsgSettleRWAResponse)
| Any_MsgUpdateRestrictions (m : RwaTypes.MsgUpdateRestrictions)
| Any_MsgUpdateRestrictionsResponse (m : RwaCodec.MsgUpdateRestrictionsResponse)
| Any_MsgSlashBond (m : RwaTypes.MsgSlashBond)
| Any_MsgSlashBondResponse (m : RwaCodec.MsgSlashBondResponse)
| Any_MsgUpdateParams (m : RwaTypes.MsgUpdateParams)
| Any_MsgUpdateParamsResponse (m : RwaCodec.MsgUpdateParamsResponse)
| Any_QueryAssetRequest (m : RwaCodec.QueryAssetRequest)
| Any_QueryAssetResponse (m : RwaCodec.QueryAssetResponse)
| Any_QueryAssetsByIssuerRequest (m : RwaCodec.QueryAssetsByIssuerRequest)
| Any_QueryAssetsByIssuerResponse (m : RwaCodec.QueryAssetsByIssuerResponse)
| Any_QueryRestrictionsRequest (m : RwaCodec.QueryRestrictionsRequest)
| Any_QueryRestrictionsResponse (m : RwaCodec.QueryRestrictionsResponse)
| Any_QueryParamsRequest (m : RwaCodec.QueryParamsRequest)
| Any_QueryParamsResponse (m : RwaCodec.QueryParamsResponse).

Definition as_MsgRegisterAsset (a : any) : res RwaTypes.MsgRegisterAsset := match a with Any_MsgRegisterAsset m => Ok m | _ => Panic end.
Definition as_MsgAttestAsset (a : any) : res RwaTypes.MsgAttestAsset := match a with Any_MsgAttestAsset m => Ok m | _ => Panic end.
Definition as_MsgMintRWA (a : any) : res RwaTypes.MsgMintRWA := match a with Any_MsgMintRWA m => Ok m | _ => Panic end.
Definition as_MsgTransferRWA (a : any) : res RwaTypes.MsgTransferRWA := match a with Any_MsgTransferRWA m => Ok m | _ => Panic end.
Definition as_MsgSettleRWA (a : any) : res RwaTypes.MsgSettleRWA := match a with Any_MsgSettleRWA m => Ok m | _ => Panic end.
Definition as_MsgUpdateRestrictions (a : any) : res RwaTypes.MsgUpdateRestrictions := match a with Any_MsgUpdateRestrictions m => Ok m | _ => Panic end.
Definition as_MsgSlashBond (a : any) : res RwaTypes.MsgSlashBond := match a with Any_MsgSlashBond m => Ok m | _ => Panic end.
Definition as_MsgUpdateParams (a : any) : res RwaTypes.MsgUpdateParams := match a with Any_MsgUpdateParams m => Ok m | _ => Panic end.
Definition as_QueryAssetRequest (a : any) : res RwaCodec.QueryAssetRequest := match a with Any_QueryAssetRequest m => Ok m | _ => Panic end.
Definition as_QueryAssetsByIssuerRequest (a : any) : res RwaCodec.QueryAssetsByIssuerRequest := match a with Any_QueryAssetsByIssuerRequest m => Ok m | _ => Panic end.
Definition as_QueryRestrictionsRequest (a : any) : res RwaCodec.QueryRestrictionsRequest := match a with Any_QueryRestrictionsRequest m => Ok m | _ => Panic end.
Definition as_QueryParamsRequest (a : any) : res RwaCodec.QueryParamsRequest := match a with Any_QueryParamsRequest m => Ok m | _ => Panic end.

(** The encoding of a message by the codec of gRPC. *)
Definition any_Marshal (a : any) : res bytes :=
  match a with
  | Any_MsgRegisterAsset m => g_Marshal m
  | Any_MsgRegisterAssetResponse m => g_Marshal m
  | Any_MsgAttestAsset m => g_Marshal m
  | Any_MsgAttestAssetResponse m => g_Marshal m
  | Any_MsgMintRWA m => g_Marshal m
  | Any_MsgMintRWAResponse m => g_Marshal m
  | Any_MsgTransferRWA m => g_Marshal m
  | Any_MsgTransferRWAResponse m => g_Marshal m
  | Any_MsgSettleRWA m => g_Marshal m
  | Any_MsgSettleRWAResponse m => g_Marshal m
  | Any_MsgUpdateRestrictions m => g_Marshal m
  | Any_MsgUpdateRestrictionsResponse m => g_Marshal m
  | Any_MsgSlashBond m => g_Marshal m
  | Any_MsgSlashBondResponse m => g_Marshal m
  | Any_MsgUpdateParams m => g_Marshal m
  | Any_MsgUpdateParamsResponse m => g_Marshal m
  | Any_QueryAssetRequest m => g_Marshal m
  | Any_QueryAssetResponse m => g_Marshal m
  | Any_QueryAssetsByIssuerRequest m => g_Marshal m
  | Any_QueryAssetsByIssuerResponse m => g_Marshal m
  | Any_QueryRestrictionsRequest m => g_Marshal m
  | Any_QueryRestrictionsResponse m => g_Marshal m
  | Any_QueryParamsRequest m => g_Marshal m
  | Any_QueryParamsResponse m => g_Marshal m
  end.

(** ** The service vertix.rwa.v1.Msg: clients *)

Record MsgClient : Type := mkMsgClient {
  MsgClient_RegisterAsset : RwaTypes.MsgRegisterAsset -> M W RwaCodec.MsgRegisterAssetResponse;
  MsgClient_AttestAsset : RwaTypes.MsgAttestAsset -> M W RwaCodec.MsgAttestAssetResponse;
  MsgClient_MintRWA : RwaTypes.MsgMintRWA -> M W RwaCodec.MsgMintRWAResponse;
  MsgClient_TransferRWA : RwaTypes.MsgTransferRWA -> M W RwaCodec.MsgTransferRWAResponse;
  MsgClient_SettleRWA : RwaTypes.MsgSettleRWA -> M W RwaCodec.MsgSettleRWAResponse;
  MsgClient_UpdateRestrictions : RwaTypes.MsgUpdateRestrictions -> M W RwaCodec.MsgUpdateRestrictionsResponse;
  MsgClient_SlashBond : RwaTypes.MsgSlashBond -> M W RwaCodec.MsgSlashBondResponse;
  MsgClient_UpdateParams : RwaTypes.MsgUpdateParams -> M W RwaCodec.MsgUpdateParamsResponse
}.

Definition msgClient_call_RegisterAsset (cc : ClientConn (W := W)) (req : RwaTypes.MsgRegisterAsset) : M W RwaCodec.MsgRegisterAssetResponse :=
  client_call cc "/vertix.rwa.v1.Msg/RegisterAsset" req.

Definition msgClient_call_AttestAsset (cc : ClientConn (W := W)) (req : RwaTypes.MsgAttestAsset) : M W RwaCodec.MsgAttestAssetResponse :=
  client_call cc "/vertix.rwa.v1.Msg/AttestAsset" req.

Definition msgClient_call_MintRWA (cc : ClientConn (W := W)) (req : RwaTypes.MsgMintRWA) : M W RwaCodec.MsgMintRWAResponse :=
  client_call cc "/vertix.rwa.v1.Msg/MintRWA" req.

Definition msgClient_call_TransferRWA (cc : ClientConn (W := W)) (req : RwaTypes.MsgTransferRWA) : M W RwaCodec.MsgTransferRWAResponse :=
  client_call cc "/vertix.rwa.v1.Msg/TransferRWA" req.

Definition msgClient_call_SettleRWA (cc : ClientConn (W := W)) (req : RwaTypes.MsgSettleRWA) : M W RwaCodec.MsgSettleRWAResponse :=
  client_call cc "/vertix.rwa.v1.Msg/SettleRWA" req.

Definition msgClient_call_UpdateRestrictions (cc : ClientConn (W := W)) (req : RwaTypes.MsgUpdateRestrictions) : M W RwaCodec.MsgUpdateRestrictionsResponse :=
  client_call cc "/vertix.rwa.v1.Msg/UpdateRestrictions" req.

Definition msgClient_call_SlashBond (cc : ClientConn (W := W)) (req : RwaTypes.MsgSlashBond) : M W RwaCodec.MsgSlashBondResponse :=
  client_call cc "/vertix.rwa.v1.Msg/SlashBond" req.

Definition msgClient_call_UpdateParams (cc : ClientConn (W := W)) (req : RwaTypes.MsgUpdateParams) : M W RwaCodec.MsgUpdateParamsResponse :=
  client_call cc "/vertix.rwa.v1.Msg/UpdateParams" req.

Definition NewMsgClient (cc : ClientConn (W := W)) : MsgClient :=
  mkMsgClient (msgClient_call_RegisterAsset cc) (msgClient_call_AttestAsset cc) (msgClient_call_MintRWA cc) (msgClient_call_TransferRWA cc) (msgClient_call_SettleRWA cc) (msgClient_call_UpdateRestrictions cc) (msgClient_call_SlashBond cc) (msgClient_call_UpdateParams cc).

(** ** The service vertix.rwa.v1.Msg: server *)

Record MsgServer : Type := mkMsgServer {
  MsgServer_RegisterAsset : RwaTypes.MsgRegisterAsset -> M W RwaCodec.MsgRegisterAssetResponse;
  MsgServer_AttestAsset : RwaTypes.MsgAttestAsset -> M W RwaCodec.MsgAttestAssetResponse;
  MsgServer_MintRWA : RwaTypes.MsgMintRWA -> M W RwaCodec.MsgMintRWAResponse;
  MsgServer_TransferRWA : RwaTypes.MsgTransferRWA -> M W RwaCodec.MsgTransferRWAResponse;
  MsgServer_SettleRWA : RwaTypes.MsgSettleRWA -> M W RwaCodec.MsgSettleRWAResponse;
  MsgServer_UpdateRestrictions : RwaTypes.MsgUpdateRestrictions -> M W RwaCodec.MsgUpdateRestrictionsResponse;
  MsgServer_SlashBond : RwaTypes.MsgSlashBond -> M W RwaCodec.MsgSlashBondResponse;
  MsgServer_UpdateParams : RwaTypes.MsgUpdateParams -> M W RwaCodec.MsgUpdateParamsResponse
}.

Definition UnimplementedMsgServer : MsgServer :=
  mkMsgServer (fun _ => throw Unimplemented) (fun _ => throw Unimplemented) (fun _ => throw Unimplemented) (fun _ => throw Unimplemented) (fun _ => throw Unimplemented) (fun _ => throw Unimplemented) (fun _ => throw Unimplemented) (fun _ => throw Unimplemented).

Definition Msg_RegisterAsset_Handler : MethodHandler any MsgServer :=
  unary_handler "/vertix.rwa.v1.Msg/RegisterAsset" MsgServer_RegisterAsset
    Any_MsgRegisterAsset as_MsgRegisterAsset Any_MsgRegisterAssetResponse.

Definition Msg_AttestAsset_Handler : MethodHandler any MsgServer :=
  unary_handler "/vertix.rwa.v1.Msg/AttestAsset" MsgServer_AttestAsset
    Any_MsgAttestAsset as_MsgAttestAsset Any_MsgAttestAssetResponse.

Definition Msg_MintRWA_Handler : MethodHandler any MsgServer :=
  unary_handler "/vertix.rwa.v1.Msg/MintRWA" MsgServer_MintRWA
    Any_MsgMintRWA as_MsgMintRWA Any_MsgMintRWAResponse.

Definition Msg_TransferRWA_Handler : MethodHandler any MsgServer :=
  unary_handler "/vertix.rwa.v1.Msg/TransferRWA" MsgServer_TransferRWA
    Any_MsgTransferRWA as_MsgTransferRWA Any_MsgTransferRWAResponse.

Definition Msg_SettleRWA_Handler : MethodHandler any MsgServer :=
  unary_handler "/vertix.rwa.v1.Msg/SettleRWA" MsgServer_SettleRWA
    Any_MsgSettleRWA as_MsgSettleRWA Any_MsgSettleRWAResponse.

Definition Msg_UpdateRestrictions_Handler : MethodHandler any MsgServer :=
  unary_handler "/vertix.rwa.v1.Msg/UpdateRestrictions" MsgServer_UpdateRestrictions
    Any_MsgUpdateRestrictions as_MsgUpdateRestrictions Any_MsgUpdateRestrictionsResponse.

Definition Msg_SlashBond_Handler : MethodHandler any MsgServer :=
  unary_handler "/vertix.rwa.v1.Msg/SlashBond" MsgServer_SlashBond
    Any_MsgSlashBond as_MsgSlashBond Any_MsgSlashBondResponse.

Definition Msg_UpdateParams_Handler : MethodHandler any MsgServer :=
  unary_handler "/vertix.rwa.v1.Msg/UpdateParams" MsgServer_UpdateParams
    Any_MsgUpdateParams as_MsgUpdateParams Any_MsgUpdateParamsResponse.

Definition Msg_serviceDesc : ServiceDesc any MsgServer := mkServiceDesc _ _ "vertix.rwa.v1.Msg"
  [("RegisterAsset", Msg_RegisterAsset_Handler);
   ("AttestAsset", Msg_AttestAsset_Handler);
   ("MintRWA", Msg_MintRWA_Handler);
   ("TransferRWA", Msg_TransferRWA_Handler);
   ("SettleRWA", Msg_SettleRWA_Handler);
   ("UpdateRestrictions", Msg_UpdateRestrictions_Handler);
   ("SlashBond", Msg_SlashBond_Handler);
   ("UpdateParams", Msg_UpdateParams_Handler)]
  "vertix/rwa/v1/tx.proto".

Definition RegisterMsgServer {S} (RegisterService : ServiceDesc any MsgServer -> MsgServer -> S -> S)
    (s : S) (srv : MsgServer) : S :=
  RegisterService Msg_serviceDesc srv s.

(** ** The service vertix.rwa.v1.Query: clients *)

Record QueryClient : Type := mkQueryClient {
  QueryClient_Asset : RwaCodec.QueryAssetRequest -> M W RwaCodec.QueryAssetResponse;
  QueryClient_AssetsByIssuer : RwaCodec.QueryAssetsByIssuerRequest -> M W RwaCodec.QueryAssetsByIssuerResponse;
  QueryClient_Restrictions : RwaCodec.QueryRestrictionsRequest -> M W RwaCodec.QueryRestrictionsResponse;
  QueryClient_Params : RwaCodec.QueryParamsRequest -> M W RwaCodec.QueryParamsResponse
}.

Definition queryClient_call_Asset (cc : ClientConn (W := W)) (req : RwaCodec.QueryAssetRequest) : M W RwaCodec.QueryAssetResponse :=
  client_call cc "/vertix.rwa.v1.Query/Asset" req.

Definition queryClient_call_AssetsByIssuer (cc : ClientConn (W := W)) (req : RwaCodec.QueryAssetsByIssuerRequest) : M W RwaCodec.QueryAssetsByIssuerResponse :=
  client_call cc "/vertix.rwa.v1.Query/AssetsByIssuer" req.

Definition queryClient_call_Restrictions (cc : ClientConn (W := W)) (req : RwaCodec.QueryRestrictionsRequest) : M W RwaCodec.QueryRestrictionsResponse :=
  client_call cc "/vertix.rwa.v1.Query/Restrictions" req.

Definition queryClient_call_Params (cc : ClientConn (W := W)) (req : RwaCodec.QueryParamsRequest) : M W RwaCodec.QueryParamsResponse :=
  client_call cc "/vertix.rwa.v1.Query/Params" req.

Definition NewQueryClient (cc : ClientConn (W := W)) : QueryClient :=
  mkQueryClient (queryClient_call_Asset cc) (queryClient_call_AssetsByIssuer cc) (queryClient_call_Restrictions cc) (queryClient_call_Params cc).

(** ** The service vertix.rwa.v1.Query: server *)

Record QueryServer : Type := mkQueryServer {
  QueryServer_Asset : RwaCodec.QueryAssetRequest -> M W RwaCodec.QueryAssetResponse;
  QueryServer_AssetsByIssuer : RwaCodec.QueryAssetsByIssuerRequest -> M W RwaCodec.QueryAssetsByIssuerResponse;
  QueryServer_Restrictions : RwaCodec.QueryRestrictionsRequest -> M W RwaCodec.QueryRestrictionsResponse;
  QueryServer_Params : RwaCodec.QueryParamsRequest -> M W RwaCodec.QueryParamsResponse
}.

Definition UnimplementedQueryServer : QueryServer :=
  mkQueryServer (fun _ => throw Unimplemented) (fun _ => throw Unimplemented) (fun _ => throw Unimplemented) (fun _ => throw Unimplemented).

Definition Query_Asset_Handler : MethodHandler any QueryServer :=
  unary_handler "/vertix.rwa.v1.Query/Asset" QueryServer_Asset
    Any_QueryAssetRequest as_QueryAssetRequest Any_QueryAssetResponse.

Definition Query_AssetsByIssuer_Handler : MethodHandler any QueryServer :=
  unary_handler "/vertix.rwa.v1.Query/AssetsByIssuer" QueryServer_AssetsByIssuer
    Any_QueryAssetsByIssuerRequest as_QueryAssetsByIssuerRequest Any_QueryAssetsByIssuerResponse.

Definition Query_Restrictions_Handler : MethodHandler any QueryServer :=
  unary_handler "/vertix.rwa.v1.Query/Restrictions" QueryServer_Restrictions
    Any_QueryRestrictionsRequest as_QueryRestrictionsRequest Any_QueryRestrictionsResponse.

Definition Query_Params_Handler : MethodHandler any QueryServer :=
  unary_handler "/vertix.rwa.v1.Query/Params" QueryServer_Params
    Any_QueryParamsRequest as_QueryParamsRequest Any_QueryParamsResponse.

Definition Query_serviceDesc : ServiceDesc any QueryServer := mkServiceDesc _ _ "vertix.rwa.v1.Query"
  [("Asset", Query_Asset_Handler);
   ("AssetsByIssuer", Query_AssetsByIssuer_Handler);
   ("Restrictions", Query_Restrictions_Handler);
   ("Params", Query_Params_Handler)]
  "vertix/rwa/v1/query.proto".

Definition RegisterQueryServer {S} (RegisterService : ServiceDesc any QueryServer -> QueryServer -> S -> S)
    (s : S) (srv : QueryServer) : S :=
  RegisterService Query_serviceDesc srv s.

(** ** The HTTP gateway *)

Context {RT : GatewayRuntime (W := W)}.

Definition pattern_Query_Asset_0 : pattern := mkPattern [2; 0; 2; 1; 2; 2; 2; 3; 1; 0; 4; 1; 5; 4] ["vertix"; "rwa"; "v1"; "asset"; "asset_id"].

Definition request_Query_Asset_0 (client : QueryClient) (req : HttpRequest) (pathParams : gmap string string) : M W RwaCodec.QueryAssetResponse :=
  let protoReq : RwaCodec.QueryAssetRequest := g_new in
  v ← path_param "asset_id" rt_String pathParams;
  let protoReq := RwaCodec.mkQueryAssetRequest v in
  QueryClient_Asset client protoReq.

Definition local_request_Query_Asset_0 (server : QueryServer) (req : HttpRequest) (pathParams : gmap string string) : M W RwaCodec.QueryAssetResponse :=
  let protoReq : RwaCodec.QueryAssetRequest := g_new in
  v ← path_param "asset_id" rt_String pathParams;
  let protoReq := RwaCodec.mkQueryAssetRequest v in
  QueryServer_Asset server protoReq.

Definition pattern_Query_AssetsByIssuer_0 : pattern := mkPattern [2; 0; 2; 1; 2; 2; 2; 3; 1; 0; 4; 1; 5; 4] ["vertix"; "rwa"; "v1"; "assets_by_issuer"; "issuer"].

Definition filter_Query_AssetsByIssuer_0 : DoubleArray := mkDoubleArray [("issuer", 0)] [1; 1; 0] [0; 1; 2].

Definition request_Query_AssetsByIssuer_0 (client : QueryClient) (req : HttpRequest) (pathParams : gmap string string) : M W RwaCodec.QueryAssetsByIssuerResponse :=
  let protoReq : RwaCodec.QueryAssetsByIssuerRequest := g_new in
  v ← path_param "issuer" rt_String pathParams;
  let protoReq := RwaCodec.mkQueryAssetsByIssuerRequest v (RwaCodec.qabi_req_Pagination protoReq) in
  protoReq ← query_params protoReq req filter_Query_AssetsByIssuer_0;
  QueryClient_AssetsByIssuer client protoReq.

Definition local_request_Query_AssetsByIssuer_0 (server : QueryServer) (req : HttpRequest) (pathParams : gmap string string) : M W RwaCodec.QueryAssetsByIssuerResponse :=
  let protoReq : RwaCodec.QueryAssetsByIssuerRequest := g_new in
  v ← path_param "issuer" rt_String pathParams;
  let protoReq := RwaCodec.mkQueryAssetsByIssuerRequest v (RwaCodec.qabi_req_Pagination protoReq) in
  protoReq ← query_params protoReq req filter_Query_AssetsByIssuer_0;
  QueryServer_AssetsByIssuer server protoReq.

Definition pattern_Query_Restrictions_0 : pattern := mkPattern [2; 0; 2; 1; 2; 2; 2; 3; 1; 0; 4; 1; 5; 4] ["vertix"; "rwa"; "v1"; "restrictions"; "asset_id"].

Definition request_Query_Restrictions_0 (client : QueryClient) (req : HttpRequest) (pathParams : gmap string string) : M W RwaCodec.QueryRestrictionsResponse :=
  let protoReq : RwaCodec.QueryRestrictionsRequest := g_new in
  v ← path_param "asset_id" rt_String pathParams;
  let protoReq := RwaCodec.mkQueryRestrictionsRequest v in
  QueryClient_Restrictions client protoReq.

Definition local_request_Query_Restrictions_0 (server : QueryServer) (req : HttpRequest) (pathParams : gmap string string) : M W RwaCodec.QueryRestrictionsResponse :=
  let protoReq : RwaCodec.QueryRestrictionsRequest := g_new in
  v ← path_param "asset_id" rt_String pathParams;
  let protoReq := RwaCodec.mkQueryRestrictionsRequest v in
  QueryServer_Restrictions server protoReq.

Definition pattern_Query_Params_0 : pattern := mkPattern [2; 0; 2; 1; 2; 2; 2; 3] ["vertix"; "rwa"; "v1"; "params"].

Definition request_Query_Params_0 (client : QueryClient) (req : HttpRequest) (pathParams : gmap string string) : M W RwaCodec.QueryParamsResponse :=
  let protoReq : RwaCodec.QueryParamsRequest := g_new in
  QueryClient_Params client protoReq.

Definition local_request_Query_Params_0 (server : QueryServer) (req : HttpRequest) (pathParams : gmap string string) : M W RwaCodec.QueryParamsResponse :=
  let protoReq : RwaCodec.QueryParamsRequest := g_new in
  QueryServer_Params server protoReq.

Definition RegisterQueryHandlerServer (mux : ServeMux any) (server : QueryServer) : ServeMux any :=
  let mux := Handle "GET" pattern_Query_Asset_0
    (gateway_handler AnnotateIncomingContext (local_request_Query_Asset_0 server) Any_QueryAssetResponse) mux in
  let mux := Handle "GET" pattern_Query_AssetsByIssuer_0
    (gateway_handler AnnotateIncomingContext (local_request_Query_AssetsByIssuer_0 server) Any_QueryAssetsByIssuerResponse) mux in
  let mux := Handle "GET" pattern_Query_Restrictions_0
    (gateway_handler AnnotateIncomingContext (local_request_Query_Restrictions_0 server) Any_QueryRestrictionsResponse) mux in
  let mux := Handle "GET" pattern_Query_Params_0
    (gateway_handler AnnotateIncomingContext (local_request_Query_Params_0 server) Any_QueryParamsResponse) mux in
  mux.

Definition RegisterQueryHandlerClient (mux : ServeMux any) (client : QueryClient) : ServeMux any :=
  let mux := Handle "GET" pattern_Query_Asset_0
    (gateway_handler AnnotateContext (request_Query_Asset_0 client) Any_QueryAssetResponse) mux in
  let mux := Handle "GET" pattern_Query_AssetsByIssuer_0
    (gateway_handler AnnotateContext (request_Query_AssetsByIssuer_0 client) Any_QueryAssetsByIssuerResponse) mux in
  let mux := Handle "GET" pattern_Query_Restrictions_0
    (gateway_handler AnnotateContext (request_Query_Restrictions_0 client) Any_QueryRestrictionsResponse) mux in
  let mux := Handle "GET" pattern_Query_Params_0
    (gateway_handler AnnotateContext (request_Query_Params_0 client) Any_QueryParamsResponse) mux in
  mux.

Definition RegisterQueryHandler (mux : ServeMux any) (conn : ClientConn (W := W)) : ServeMux any :=
  RegisterQueryHandlerClient mux (NewQueryClient conn).

End GrpcRwa.
