(* ===== verification/ApiGrpcFees.v ===== *)
(** * api/vertix/fees/v1: the gRPC services of the client library

    The clients, servers and handlers of tx_grpc.pb.go and query_grpc.pb.go, over the
    messages of file ApiFees and the texts of file Grpc. *)

From S2P Require Import Prelude Sdk World SdkRef Wire Codec Foreign WireMsg Pulsar Reflect ApiFees Grpc.

Open Scope Z_scope.

Section ApiGrpcFees.
Context {W : Type} {T : StdTime} {P : ProtoRuntime} {I : ApiImports}.

(** ** [interface{}]: the messages of the services, and the type assertions of the handlers *)

Inductive any : Type :=
| Any_MsgUpdateParams (m : ApiFees.MsgUpdateParams)
| Any_MsgUpdateParamsResponse (m : ApiFees.MsgUpdateParamsResponse)
| Any_QueryParamsRequest (m : ApiFees.QueryParamsRequest)
| Any_QueryParamsResponse (m : ApiFees.QueryParamsResponse).

Definition as_MsgUpdateParams (a : any) : res ApiFees.MsgUpdateParams := match a with Any_MsgUpdateParams m => Ok m | _ => Panic end.
Definition as_QueryParamsRequest (a : any) : res ApiFees.QueryParamsRequest := match a with Any_QueryParamsRequest m => Ok m | _ => Panic end.

(** The encoding of a message by the codec of gRPC. *)
Definition any_Marshal (a : any) : res bytes :=
  match a with
  | Any_MsgUpdateParams m => g_Marshal m
  | Any_MsgUpdateParamsResponse m => g_Marshal m
  | Any_QueryParamsRequest m => g_Marshal m
  | Any_QueryParamsResponse m => g_Marshal m
  end.

(** ** The service vertix.fees.v1.Msg: clients *)

Record MsgClient : Type := mkMsgClient {
  MsgClient_UpdateParams : ApiFees.MsgUpdateParams -> M W ApiFees.MsgUpdateParamsResponse
}.

Definition msgClient_call_UpdateParams (cc : ClientConn (W := W)) (req : ApiFees.MsgUpdateParams) : M W ApiFees.MsgUpdateParamsResponse :=
  client_call cc "/vertix.fees.v1.Msg/UpdateParams" req.

Definition NewMsgClient (cc : ClientConn (W := W)) : MsgClient :=
  mkMsgClient (msgClient_call_UpdateParams cc).

(** ** The service vertix.fees.v1.Msg: server *)

Record MsgServer : Type := mkMsgServer {
  MsgServer_UpdateParams : ApiFees.MsgUpdateParams -> M W ApiFees.MsgUpdateParamsResponse
}.

Definition UnimplementedMsgServer : MsgServer :=
  mkMsgServer (fun _ => throw Unimplemented).

Definition Msg_UpdateParams_Handler : MethodHandler any MsgServer :=
  unary_handler "/vertix.fees.v1.Msg/UpdateParams" MsgServer_UpdateParams
    Any_MsgUpdateParams as_MsgUpdateParams Any_MsgUpdateParamsResponse.

Definition Msg_serviceDesc : ServiceDesc any MsgServer := mkServiceDesc _ _ "vertix.fees.v1.Msg"
  [("UpdateParams", Msg_UpdateParams_Handler)]
  "vertix/fees/v1/tx.proto".

Definition RegisterMsgServer {S} (RegisterService : ServiceDesc any MsgServer -> MsgServer -> S -> S)
    (s : S) (srv : MsgServer) : S :=
  RegisterService Msg_serviceDesc srv s.

(** ** The service vertix.fees.v1.Query: clients *)

Record QueryClient : Type := mkQueryClient {
  QueryClient_Params : ApiFees.QueryParamsRequest -> M W ApiFees.QueryParamsResponse
}.

Definition queryClient_call_Params (cc : ClientConn (W := W)) (req : ApiFees.QueryParamsRequest) : M W ApiFees.QueryParamsResponse :=
  client_call cc "/vertix.fees.v1.Query/Params" req.

Definition NewQueryClient (cc : ClientConn (W := W)) : QueryClient :=
  mkQueryClient (queryClient_call_Params cc).

(** ** The service vertix.fees.v1.Query: server *)

Record QueryServer : Type := mkQueryServer {
  QueryServer_Params : ApiFees.QueryParamsRequest -> M W ApiFees.QueryParamsResponse
}.

Definition UnimplementedQueryServer : QueryServer :=
  mkQueryServer (fun _ => throw Unimplemented).

Definition Query_Params_Handler : MethodHandler any QueryServer :=
  unary_handler "/vertix.fees.v1.Query/Params" QueryServer_Params
    Any_QueryParamsRequest as_QueryParamsRequest Any_QueryParamsResponse.

Definition Query_serviceDesc : ServiceDesc any QueryServer := mkServiceDesc _ _ "vertix.fees.v1.Query"
  [("Params", Query_Params_Handler)]
  "vertix/fees/v1/query.proto".

Definition RegisterQueryServer {S} (RegisterService : ServiceDesc any QueryServer -> QueryServer -> S -> S)
    (s : S) (srv : QueryServer) : S :=
  RegisterService Query_serviceDesc srv s.

End ApiGrpcFees.
