(* ===== verification/ApiGrpcOracle.v ===== *)
(** * api/vertix/oracle/v1: the gRPC services of the client library

    The clients, servers and handlers of tx_grpc.pb.go and query_grpc.pb.go, over the
    messages of file ApiOracle and the texts of file Grpc. *)

From S2P Require Import Prelude Sdk World SdkRef Wire Codec Foreign WireMsg Pulsar Reflect ApiOracle Grpc.

Open Scope Z_scope.

Section ApiGrpcOracle.
Context {W : Type} {T : StdTime} {P : ProtoRuntime} {I : ApiImports}.

(** ** [interface{}]: the messages of the services, and the type assertions of the handlers *)

Inductive any : Type :=
| Any_MsgSetFeeder (m : ApiOracle.MsgSetFeeder)
| Any_MsgSetFeederResponse (m : ApiOracle.MsgSetFeederResponse)
| Any_MsgSubmitFeed (m : ApiOracle.MsgSubmitFeed)
| Any_MsgSubmitFeedResponse (m : ApiOracle.MsgSubmitFeedResponse)
| Any_MsgUpdateParams (m : ApiOracle.MsgUpdateParams)
| Any_MsgUpdateParamsResponse (m : ApiOracle.MsgUpdateParamsResponse)
| Any_QueryPriceRequest (m : ApiOracle.QueryPriceRequest)
| Any_QueryPriceResponse (m : ApiOracle.QueryPriceResponse)
| Any_QueryTwapRequest (m : ApiOracle.QueryTwapRequest)
| Any_QueryTwapResponse (m : ApiOracle.QueryTwapResponse)
| Any_QueryParamsRequest (m : ApiOracle.QueryParamsRequest)
| Any_QueryParamsResponse (m : ApiOracle.QueryParamsResponse)
| Any_QueryMissCounterRequest (m : ApiOracle.QueryMissCounterRequest)
| Any_QueryMissCounterResponse (m : ApiOracle.QueryMissCounterResponse)
| Any_QueryFeederRequest (m : ApiOracle.QueryFeederRequest)
| Any_QueryFeederResponse (m : ApiOracle.QueryFeederResponse).

Definition as_MsgSetFeeder (a : any) : res ApiOracle.MsgSetFeeder := match a with Any_MsgSetFeeder m => Ok m | _ => Panic end.
Definition as_MsgSubmitFeed (a : any) : res ApiOracle.MsgSubmitFeed := match a with Any_MsgSubmitFeed m => Ok m | _ => Panic end.
Definition as_MsgUpdateParams (a : any) : res ApiOracle.MsgUpdateParams := match a with Any_MsgUpdateParams m => Ok m | _ => Panic end.
Definition as_QueryPriceRequest (a : any) : res ApiOracle.QueryPriceRequest := match a with Any_QueryPriceRequest m => Ok m | _ => Panic end.
Definition as_QueryTwapRequest (a : any) : res ApiOracle.QueryTwapRequest := match a with Any_QueryTwapRequest m => Ok m | _ => Panic end.
Definition as_QueryParamsRequest (a : any) : res ApiOracle.QueryParamsRequest := match a with Any_QueryParamsRequest m => Ok m | _ => Panic end.
Definition as_QueryMissCounterRequest (a : any) : res ApiOracle.QueryMissCounterRequest := match a with Any_QueryMissCounterRequest m => Ok m | _ => Panic end.
Definition as_QueryFeederRequest (a : any) : res ApiOracle.QueryFeederRequest := match a with Any_QueryFeederRequest m => Ok m | _ => Panic end.

(** The encoding of a message by the codec of gRPC. *)
Definition any_Marshal (a : any) : res bytes :=
  match a with
  | Any_MsgSetFeeder m => g_Marshal m
  | Any_MsgSetFeederResponse m => g_Marshal m
  | Any_MsgSubmitFeed m => g_Marshal m
  | Any_MsgSubmitFeedResponse m => g_Marshal m
  | Any_MsgUpdateParams m => g_Marshal m
  | Any_MsgUpdateParamsResponse m => g_Marshal m
  | Any_QueryPriceRequest m => g_Marshal m
  | Any_QueryPriceResponse m => g_Marshal m
  | Any_QueryTwapRequest m => g_Marshal m
  | Any_QueryTwapResponse m => g_Marshal m
  | Any_QueryParamsRequest m => g_Marshal m
  | Any_QueryParamsResponse m => g_Marshal m
  | Any_QueryMissCounterRequest m => g_Marshal m
  | Any_QueryMissCounterResponse m => g_Marshal m
  | Any_QueryFeederRequest m => g_Marshal m
  | Any_QueryFeederResponse m => g_Marshal m
  end.

(** ** The service vertix.oracle.v1.Msg: clients *)

Record MsgClient : Type := mkMsgClient {
  MsgClient_SetFeeder : ApiOracle.MsgSetFeeder -> M W ApiOracle.MsgSetFeederResponse;
  MsgClient_SubmitFeed : ApiOracle.MsgSubmitFeed -> M W ApiOracle.MsgSubmitFeedResponse;
  MsgClient_UpdateParams : ApiOracle.MsgUpdateParams -> M W ApiOracle.MsgUpdateParamsResponse
}.

Definition msgClient_call_SetFeeder (cc : ClientConn (W := W)) (req : ApiOracle.MsgSetFeeder) : M W ApiOracle.MsgSetFeederResponse :=
  client_call cc "/vertix.oracle.v1.Msg/SetFeeder" req.

Definition msgClient_call_SubmitFeed (cc : ClientConn (W := W)) (req : ApiOracle.MsgSubmitFeed) : M W ApiOracle.MsgSubmitFeedResponse :=
  client_call cc "/vertix.oracle.v1.Msg/SubmitFeed" req.

Definition msgClient_call_UpdateParams (cc : ClientConn (W := W)) (req : ApiOracle.MsgUpdateParams) : M W ApiOracle.MsgUpdateParamsResponse :=
  client_call cc "/vertix.oracle.v1.Msg/UpdateParams" req.

Definition NewMsgClient (cc : ClientConn (W := W)) : MsgClient :=
  mkMsgClient (msgClient_call_SetFeeder cc) (msgClient_call_SubmitFeed cc) (msgClient_call_UpdateParams cc).

(** ** The service vertix.oracle.v1.Msg: server *)

Record MsgServer : Type := mkMsgServer {
  MsgServer_SetFeeder : ApiOracle.MsgSetFeeder -> M W ApiOracle.MsgSetFeederResponse;
  MsgServer_SubmitFeed : ApiOracle.MsgSubmitFeed -> M W ApiOracle.MsgSubmitFeedResponse;
  MsgServer_UpdateParams : ApiOracle.MsgUpdateParams -> M W ApiOracle.MsgUpdateParamsResponse
}.

Definition UnimplementedMsgServer : MsgServer :=
  mkMsgServer (fun _ => throw Unimplemented) (fun _ => throw Unimplemented) (fun _ => throw Unimplemented).

Definition Msg_SetFeeder_Handler : MethodHandler any MsgServer :=
  unary_handler "/vertix.oracle.v1.Msg/SetFeeder" MsgServer_SetFeeder
    Any_MsgSetFeeder as_MsgSetFeeder Any_MsgSetFeederResponse.

Definition Msg_SubmitFeed_Handler : MethodHandler any MsgServer :=
  unary_handler "/vertix.oracle.v1.Msg/SubmitFeed" MsgServer_SubmitFeed
    Any_MsgSubmitFeed as_MsgSubmitFeed Any_MsgSubmitFeedResponse.

Definition Msg_UpdateParams_Handler : MethodHandler any MsgServer :=
  unary_handler "/vertix.oracle.v1.Msg/UpdateParams" MsgServer_UpdateParams
    Any_MsgUpdateParams as_MsgUpdateParams Any_MsgUpdateParamsResponse.

Definition Msg_serviceDesc : ServiceDesc any MsgServer := mkServiceDesc _ _ "vertix.oracle.v1.Msg"
  [("SetFeeder", Msg_SetFeeder_Handler);
   ("SubmitFeed", Msg_SubmitFeed_Handler);
   ("UpdateParams", Msg_UpdateParams_Handler)]
  "vertix/oracle/v1/tx.proto".

Definition RegisterMsgServer {S} (RegisterService : ServiceDesc any MsgServer -> MsgServer -> S -> S)
    (s : S) (srv : MsgServer) : S :=
  RegisterService Msg_serviceDesc srv s.

(** ** The service vertix.oracle.v1.Query: clients *)

Record QueryClient : Type := mkQueryClient {
  QueryClient_Price : ApiOracle.QueryPriceRequest -> M W ApiOracle.QueryPriceResponse;
  QueryClient_Twap : ApiOracle.QueryTwapRequest -> M W ApiOracle.QueryTwapResponse;
  QueryClient_Params : ApiOracle.QueryParamsRequest -> M W ApiOracle.QueryParamsResponse;
  QueryClient_MissCounter : ApiOracle.QueryMissCounterRequest -> M W ApiOracle.QueryMissCounterResponse;
  QueryClient_Feeder : ApiOracle.QueryFeederRequest -> M W ApiOracle.QueryFeederResponse
}.

Definition queryClient_call_Price (cc : ClientConn (W := W)) (req : ApiOracle.QueryPriceRequest) : M W ApiOracle.QueryPriceResponse :=
  client_call cc "/vertix.oracle.v1.Query/Price" req.

Definition queryClient_call_Twap (cc : ClientConn (W := W)) (req : ApiOracle.QueryTwapRequest) : M W ApiOracle.QueryTwapResponse :=
  client_call cc "/vertix.oracle.v1.Query/Twap" req.

Definition queryClient_call_Params (cc : ClientConn (W := W)) (req : ApiOracle.QueryParamsRequest) : M W ApiOracle.QueryParamsResponse :=
  client_call cc "/vertix.oracle.v1.Query/Params" req.

Definition queryClient_call_MissCounter (cc : ClientConn (W := W)) (req : ApiOracle.QueryMissCounterRequest) : M W ApiOracle.QueryMissCounterResponse :=
  client_call cc "/vertix.oracle.v1.Query/MissCounter" req.

Definition queryClient_call_Feeder (cc : ClientConn (W := W)) (req : ApiOracle.QueryFeederRequest) : M W ApiOracle.QueryFeederResponse :=
  client_call cc "/vertix.oracle.v1.Query/Feeder" req.

Definition NewQueryClient (cc : ClientConn (W := W)) : QueryClient :=
  mkQueryClient (queryClient_call_Price cc) (queryClient_call_Twap cc) (queryClient_call_Params cc) (queryClient_call_MissCounter cc) (queryClient_call_Feeder cc).

(** ** The service vertix.oracle.v1.Query: server *)

Record QueryServer : Type := mkQueryServer {
  QueryServer_Price : ApiOracle.QueryPriceRequest -> M W ApiOracle.QueryPriceResponse;
  QueryServer_Twap : ApiOracle.QueryTwapRequest -> M W ApiOracle.QueryTwapResponse;
  QueryServer_Params : ApiOracle.QueryParamsRequest -> M W ApiOracle.QueryParamsResponse;
  QueryServer_MissCounter : ApiOracle.QueryMissCounterRequest -> M W ApiOracle.QueryMissCounterResponse;
  QueryServer_Feeder : ApiOracle.QueryFeederRequest -> M W ApiOracle.QueryFeederResponse
}.

Definition UnimplementedQueryServer : QueryServer :=
  mkQueryServer (fun _ => throw Unimplemented) (fun _ => throw Unimplemented) (fun _ => throw Unimplemented) (fun _ => throw Unimplemented) (fun _ => throw Unimplemented).

Definition Query_Price_Handler : MethodHandler any QueryServer :=
  unary_handler "/vertix.oracle.v1.Query/Price" QueryServer_Price
    Any_QueryPriceRequest as_QueryPriceRequest Any_QueryPriceResponse.

Definition Query_Twap_Handler : MethodHandler any QueryServer :=
  unary_handler "/vertix.oracle.v1.Query/Twap" QueryServer_Twap
    Any_QueryTwapRequest as_QueryTwapRequest Any_QueryTwapResponse.

Definition Query_Params_Handler : MethodHandler any QueryServer :=
  unary_handler "/vertix.oracle.v1.Query/Params" QueryServer_Params
    Any_QueryParamsRequest as_QueryParamsRequest Any_QueryParamsResponse.

Definition Query_MissCounter_Handler : MethodHandler any QueryServer :=
  unary_handler "/vertix.oracle.v1.Query/MissCounter" QueryServer_MissCounter
    Any_QueryMissCounterRequest as_QueryMissCounterRequest Any_QueryMissCounterResponse.

Definition Query_Feeder_Handler : MethodHandler any QueryServer :=
  unary_handler "/vertix.oracle.v1.Query/Feeder" QueryServer_Feeder
    Any_QueryFeederRequest as_QueryFeederRequest Any_QueryFeederResponse.

Definition Query_serviceDesc : ServiceDesc any QueryServer := mkServiceDesc _ _ "vertix.oracle.v1.Query"
  [("Price", Query_Price_Handler);
   ("Twap", Query_Twap_Handler);
   ("Params", Query_Params_Handler);
   ("MissCounter", Query_MissCounter_Handler);
   ("Feeder", Query_Feeder_Handler)]
  "vertix/oracle/v1/query.proto".

Definition RegisterQueryServer {S} (RegisterService : ServiceDesc any QueryServer -> QueryServer -> S -> S)
    (s : S) (srv : QueryServer) : S :=
  RegisterService Query_serviceDesc srv s.

End ApiGrpcOracle.
