(* ===== verification/ApiGrpcRwa.v ===== *)
(** * api/vertix/rwa/v1: the gRPC services of the client library

    The clients, servers and handlers of tx_grpc.pb.go and query_grpc.pb.go, over the
    messages of file ApiRwa and the texts of file Grpc. *)

From S2P Require Import Prelude Sdk World SdkRef Wire Codec Foreign WireMsg Pulsar Reflect ApiRwa Grpc.

Open Scope Z_scope.

Section ApiGrpcRwa.
Context {W : Type} {T : StdTime} {P : ProtoRuntime} {I : ApiImports}.

(** ** [interface{}]: the messages of the services, and the type assertions of the handlers *)

Inductive any : Type :=
| Any_MsgRegisterAsset (m : ApiRwa.MsgRegisterAsset)
| Any_MsgRegisterAssetResponse (m : ApiRwa.MsgRegisterAssetResponse)
| Any_MsgAttestAsset (m : ApiRwa.MsgAttestAsset)
| Any_MsgAttestAssetResponse (m : ApiRwa.MsgAttestAssetResponse)
| Any_MsgMintRWA (m : ApiRwa.MsgMintRWA)
| Any_MsgMintRWAResponse (m : ApiRwa.MsgMintRWAResponse)
| Any_MsgTransferRWA (m : ApiRwa.MsgTransferRWA)
| Any_MsgTransferRWAResponse (m : ApiRwa.MsgTransferRWAResponse)
| Any_MsgSettleRWA (m : ApiRwa.MsgSettleRWA)
| Any_MsgSettleRWAResponse (m : ApiRwa.MsgSettleRWAResponse)
| Any_MsgUpdateRestrictions (m : ApiRwa.MsgUpdateRestrictions)
| Any_MsgUpdateRestrictionsResponse (m : ApiRwa.MsgUpdateRestrictionsResponse)
| Any_MsgSlashBond (m : ApiRwa.MsgSlashBond)
| Any_MsgSlashBondResponse (m : ApiRwa.MsgSlashBondResponse)
| Any_MsgUpdateParams (m : ApiRwa.MsgUpdateParams)
| Any_MsgUpdateParamsResponse (m : ApiRwa.MsgUpdateParamsResponse)
| Any_QueryAssetRequest (m : ApiRwa.QueryAssetRequest)
| Any_QueryAssetResponse (m : ApiRwa.QueryAssetResponse)
| Any_QueryAssetsByIssuerRequest (m : ApiRwa.QueryAssetsByIssuerRequest)
| Any_QueryAssetsByIssuerResponse (m : ApiRwa.QueryAssetsByIssuerResponse)
| Any_QueryRestrictionsRequest (m : ApiRwa.QueryRestrictionsRequest)
| Any_QueryRestrictionsResponse (m : ApiRwa.QueryRestrictionsResponse)
| Any_QueryParamsRequest (m : ApiRwa.QueryParamsRequest)
| Any_QueryParamsResponse (m : ApiRwa.QueryParamsResponse).

Definition as_MsgRegisterAsset (a : any) : res ApiRwa.MsgRegisterAsset := match a with Any_MsgRegisterAsset m => Ok m | _ => Panic end.
Definition as_MsgAttestAsset (a : any) : res ApiRwa.MsgAttestAsset := match a with Any_MsgAttestAsset m => Ok m | _ => Panic end.
Definition as_MsgMintRWA (a : any) : res ApiRwa.MsgMintRWA := match a with Any_MsgMintRWA m => Ok m | _ => Panic end.
Definition as_MsgTransferRWA (a : any) : res ApiRwa.MsgTransferRWA := match a with Any_MsgTransferRWA m => Ok m | _ => Panic end.
Definition as_MsgSettleRWA (a : any) : res ApiRwa.MsgSettleRWA := match a with Any_MsgSettleRWA m => Ok m | _ => Panic end.
Definition as_MsgUpdateRestrictions (a : any) : res ApiRwa.MsgUpdateRestrictions := match a with Any_MsgUpdateRestrictions m => Ok m | _ => Panic end.
Definition as_MsgSlashBond (a : any) : res ApiRwa.MsgSlashBond := match a with Any_MsgSlashBond m => Ok m | _ => Panic end.
Definition as_MsgUpdateParams (a : any) : res ApiRwa.MsgUpdateParams := match a with Any_MsgUpdateParams m => Ok m | _ => Panic end.
Definition as_QueryAssetRequest (a : any) : res ApiRwa.QueryAssetRequest := match a with Any_QueryAssetRequest m => Ok m | _ => Panic end.
Definition as_QueryAssetsByIssuerRequest (a : any) : res ApiRwa.QueryAssetsByIssuerRequest := match a with Any_QueryAssetsByIssuerRequest m => Ok m | _ => Panic end.
Definition as_QueryRestrictionsRequest (a : any) : res ApiRwa.QueryRestrictionsRequest := match a with Any_QueryRestrictionsRequest m => Ok m | _ => Panic end.
Definition as_QueryParamsRequest (a : any) : res ApiRwa.QueryParamsRequest := match a with Any_QueryParamsRequest m => Ok m | _ => Panic end.

(** The encoding of a message by the codec of gRPC. *)
Definition any_Marshal (a : any) : res bytes :=
  match a with
  | Any_MsgRegisterAsset m => g_Marshal m
  | Any_MsgRegisterAssetResponse m => g_Marshal m
  | Any_MsgAttestAsset m => g_Marshal m
  | Any_MsgAttestAssetResponse m => g_Marshal m
  | Any_MsgMintRWA m => g_Marshal m
  | Any_MsgMintRWAResponse m => g_Marshal m
  | Any_MsgTransferRWA m => g_Marshal m
  | Any_MsgTransferRWAResponse m => g_Marshal m
  | Any_MsgSettleRWA m => g_Marshal m
  | Any_MsgSettleRWAResponse m => g_Marshal m
  | Any_MsgUpdateRestrictions m => g_Marshal m
  | Any_MsgUpdateRestrictionsResponse m => g_Marshal m
  | Any_MsgSlashBond m => g_Marshal m
  | Any_MsgSlashBondResponse m => g_Marshal m
  | Any_MsgUpdateParams m => g_Marshal m
  | Any_MsgUpdateParamsResponse m => g_Marshal m
  | Any_QueryAssetRequest m => g_Marshal m
  | Any_QueryAssetResponse m => g_Marshal m
  | Any_QueryAssetsByIssuerRequest m => g_Marshal m
  | Any_QueryAssetsByIssuerResponse m => g_Marshal m
  | Any_QueryRestrictionsRequest m => g_Marshal m
  | Any_QueryRestrictionsResponse m => g_Marshal m
  | Any_QueryParamsRequest m => g_Marshal m
  | Any_QueryParamsResponse m => g_Marshal m
  end.

(** ** The service vertix.rwa.v1.Msg: clients *)

Record MsgClient : Type := mkMsgClient {
  MsgClient_RegisterAsset : ApiRwa.MsgRegisterAsset -> M W ApiRwa.MsgRegisterAssetResponse;
  MsgClient_AttestAsset : ApiRwa.MsgAttestAsset -> M W ApiRwa.MsgAttestAssetResponse;
  MsgClient_MintRWA : ApiRwa.MsgMintRWA -> M W ApiRwa.MsgMintRWAResponse;
  MsgClient_TransferRWA : ApiRwa.MsgTransferRWA -> M W ApiRwa.MsgTransferRWAResponse;
  MsgClient_SettleRWA : ApiRwa.MsgSettleRWA -> M W ApiRwa.MsgSettleRWAResponse;
  MsgClient_UpdateRestrictions : ApiRwa.MsgUpdateRestrictions -> M W ApiRwa.MsgUpdateRestrictionsResponse;
  MsgClient_SlashBond : ApiRwa.MsgSlashBond -> M W ApiRwa.MsgSlashBondResponse;
  MsgClient_UpdateParams : ApiRwa.MsgUpdateParams -> M W ApiRwa.MsgUpdateParamsResponse
}.

Definition msgClient_call_RegisterAsset (cc : ClientConn (W := W)) (req : ApiRwa.MsgRegisterAsset) : M W ApiRwa.MsgRegisterAssetResponse :=
  client_call cc "/vertix.rwa.v1.Msg/RegisterAsset" req.

Definition msgClient_call_AttestAsset (cc : ClientConn (W := W)) (req : ApiRwa.MsgAttestAsset) : M W ApiRwa.MsgAttestAssetResponse :=
  client_call cc "/vertix.rwa.v1.Msg/AttestAsset" req.

Definition msgClient_call_MintRWA (cc : ClientConn (W := W)) (req : ApiRwa.MsgMintRWA) : M W ApiRwa.MsgMintRWAResponse :=
  client_call cc "/vertix.rwa.v1.Msg/MintRWA" req.

Definition msgClient_call_TransferRWA (cc : ClientConn (W := W)) (req : ApiRwa.MsgTransferRWA) : M W ApiRwa.MsgTransferRWAResponse :=
  client_call cc "/vertix.rwa.v1.Msg/TransferRWA" req.

Definition msgClient_call_SettleRWA (cc : ClientConn (W := W)) (req : ApiRwa.MsgSettleRWA) : M W ApiRwa.MsgSettleRWAResponse :=
  client_call cc "/vertix.rwa.v1.Msg/SettleRWA" req.

Definition msgClient_call_UpdateRestrictions (cc : ClientConn (W := W)) (req : ApiRwa.MsgUpdateRestrictions) : M W ApiRwa.MsgUpdateRestrictionsResponse :=
  client_call cc "/vertix.rwa.v1.Msg/UpdateRestrictions" req.

Definition msgClient_call_SlashBond (cc : ClientConn (W := W)) (req : ApiRwa.MsgSlashBond) : M W ApiRwa.MsgSlashBondResponse :=
  client_call cc "/vertix.rwa.v1.Msg/SlashBond" req.

Definition msgClient_call_UpdateParams (cc : ClientConn (W := W)) (req : ApiRwa.MsgUpdateParams) : M W ApiRwa.MsgUpdateParamsResponse :=
  client_call cc "/vertix.rwa.v1.Msg/UpdateParams" req.

Definition NewMsgClient (cc : ClientConn (W := W)) : MsgClient :=
  mkMsgClient (msgClient_call_RegisterAsset cc) (msgClient_call_AttestAsset cc) (msgClient_call_MintRWA cc) (msgClient_call_TransferRWA cc) (msgClient_call_SettleRWA cc) (msgClient_call_UpdateRestrictions cc) (msgClient_call_SlashBond cc) (msgClient_call_UpdateParams cc).

(** ** The service vertix.rwa.v1.Msg: server *)

Record MsgServer : Type := mkMsgServer {
  MsgServer_RegisterAsset : ApiRwa.MsgRegisterAsset -> M W ApiRwa.MsgRegisterAssetResponse;
  MsgServer_AttestAsset : ApiRwa.MsgAttestAsset -> M W ApiRwa.MsgAttestAssetResponse;
  MsgServer_MintRWA : ApiRwa.MsgMintRWA -> M W ApiRwa.MsgMintRWAResponse;
  MsgServer_TransferRWA : ApiRwa.MsgTransferRWA -> M W ApiRwa.MsgTransferRWAResponse;
  MsgServer_SettleRWA : ApiRwa.MsgSettleRWA -> M W ApiRwa.MsgSettleRWAResponse;
  MsgServer_UpdateRestrictions : ApiRwa.MsgUpdateRestrictions -> M W ApiRwa.MsgUpdateRestrictionsResponse;
  MsgServer_SlashBond : ApiRwa.MsgSlashBond -> M W ApiRwa.MsgSlashBondResponse;
  MsgServer_UpdateParams : ApiRwa.MsgUpdateParams -> M W ApiRwa.MsgUpdateParamsResponse
}.

Definition UnimplementedMsgServer : MsgServer :=
  mkMsgServer (fun _ => throw Unimplemented) (fun _ => throw Unimplemented) (fun _ => throw Unimplemented) (fun _ => throw Unimplemented) (fun _ => throw Unimplemented) (fun _ => throw Unimplemented) (fun _ => throw Unimplemented) (fun _ => throw Unimplemented).

Definition Msg_RegisterAsset_Handler : MethodHandler any MsgServer :=
  unary_handler "/vertix.rwa.v1.Msg/RegisterAsset" MsgServer_RegisterAsset
    Any_MsgRegisterAsset as_MsgRegisterAsset Any_MsgRegisterAssetResponse.

Definition Msg_AttestAsset_Handler : MethodHandler any MsgServer :=
  unary_handler "/vertix.rwa.v1.Msg/AttestAsset" MsgServer_AttestAsset
    Any_MsgAttestAsset as_MsgAttestAsset Any_MsgAttestAssetResponse.

Definition Msg_MintRWA_Handler : MethodHandler any MsgServer :=
  unary_handler "/vertix.rwa.v1.Msg/MintRWA" MsgServer_MintRWA
    Any_MsgMintRWA as_MsgMintRWA Any_MsgMintRWAResponse.

Definition Msg_TransferRWA_Handler : MethodHandler any MsgServer :=
  unary_handler "/vertix.rwa.v1.Msg/TransferRWA" MsgServer_TransferRWA
    Any_MsgTransferRWA as_MsgTransferRWA Any_MsgTransferRWAResponse.

Definition Msg_SettleRWA_Handler : MethodHandler any MsgServer :=
  unary_handler "/vertix.rwa.v1.Msg/SettleRWA" MsgServer_SettleRWA
    Any_MsgSettleRWA as_MsgSettleRWA Any_MsgSettleRWAResponse.

Definition Msg_UpdateRestrictions_Handler : MethodHandler any MsgServer :=
  unary_handler "/vertix.rwa.v1.Msg/UpdateRestrictions" MsgServer_UpdateRestrictions
    Any_MsgUpdateRestrictions as_MsgUpdateRestrictions Any_MsgUpdateRestrictionsResponse.

Definition Msg_SlashBond_Handler : MethodHandler any MsgServer :=
  unary_handler "/vertix.rwa.v1.Msg/SlashBond" MsgServer_SlashBond
    Any_MsgSlashBond as_MsgSlashBond Any_MsgSlashBondResponse.

Definition Msg_UpdateParams_Handler : MethodHandler any MsgServer :=
  unary_handler "/vertix.rwa.v1.Msg/UpdateParams" MsgServer_UpdateParams
    Any_MsgUpdateParams as_MsgUpdateParams Any_MsgUpdateParamsResponse.

Definition Msg_serviceDesc : ServiceDesc any MsgServer := mkServiceDesc _ _ "vertix.rwa.v1.Msg"
  [("RegisterAsset", Msg_RegisterAsset_Handler);
   ("AttestAsset", Msg_AttestAsset_Handler);
   ("MintRWA", Msg_MintRWA_Handler);
   ("TransferRWA", Msg_TransferRWA_Handler);
   ("SettleRWA", Msg_SettleRWA_Handler);
   ("UpdateRestrictions", Msg_UpdateRestrictions_Handler);
   ("SlashBond", Msg_SlashBond_Handler);
   ("UpdateParams", Msg_UpdateParams_Handler)]
  "vertix/rwa/v1/tx.proto".

Definition RegisterMsgServer {S} (RegisterService : ServiceDesc any MsgServer -> MsgServer -> S -> S)
    (s : S) (srv : MsgServer) : S :=
  RegisterService Msg_serviceDesc srv s.

(** ** The service vertix.rwa.v1.Query: clients *)

Record QueryClient : Type := mkQueryClient {
  QueryClient_Asset : ApiRwa.QueryAssetRequest -> M W ApiRwa.QueryAssetResponse;
  QueryClient_AssetsByIssuer : ApiRwa.QueryAssetsByIssuerRequest -> M W ApiRwa.QueryAssetsByIssuerResponse;
  QueryClient_Restrictions : ApiRwa.QueryRestrictionsRequest -> M W ApiRwa.QueryRestrictionsResponse;
  QueryClient_Params : ApiRwa.QueryParamsRequest -> M W ApiRwa.QueryParamsResponse
}.

Definition queryClient_call_Asset (cc : ClientConn (W := W)) (req : ApiRwa.QueryAssetRequest) : M W ApiRwa.QueryAssetResponse :=
  client_call cc "/vertix.rwa.v1.Query/Asset" req.

Definition queryClient_call_AssetsByIssuer (cc : ClientConn (W := W)) (req : ApiRwa.QueryAssetsByIssuerRequest) : M W ApiRwa.QueryAssetsByIssuerResponse :=
  client_call cc "/vertix.rwa.v1.Query/AssetsByIssuer" req.

Definition queryClient_call_Restrictions (cc : ClientConn (W := W)) (req : ApiRwa.QueryRestrictionsRequest) : M W ApiRwa.QueryRestrictionsResponse :=
  client_call cc "/vertix.rwa.v1.Query/Restrictions" req.

Definition queryClient_call_Params (cc : ClientConn (W := W)) (req : ApiRwa.QueryParamsRequest) : M W ApiRwa.QueryParamsResponse :=
  client_call cc "/vertix.rwa.v1.Query/Params" req.

Definition NewQueryClient (cc : ClientConn (W := W)) : QueryClient :=
  mkQueryClient (queryClient_call_Asset cc) (queryClient_call_AssetsByIssuer cc) (queryClient_call_Restrictions cc) (queryClient_call_Params cc).

(** ** The service vertix.rwa.v1.Query: server *)

Record QueryServer : Type := mkQueryServer {
  QueryServer_Asset : ApiRwa.QueryAssetRequest -> M W ApiRwa.QueryAssetResponse;
  QueryServer_AssetsByIssuer : ApiRwa.QueryAssetsByIssuerRequest -> M W ApiRwa.QueryAssetsByIssuerResponse;
  QueryServer_Restrictions : ApiRwa.QueryRestrictionsRequest -> M W ApiRwa.QueryRestrictionsResponse;
  QueryServer_Params : ApiRwa.QueryParamsRequest -> M W ApiRwa.QueryParamsResponse
}.

Definition UnimplementedQueryServer : QueryServer :=
  mkQueryServer (fun _ => throw Unimplemented) (fun _ => throw Unimplemented) (fun _ => throw Unimplemented) (fun _ => throw Unimplemented).

Definition Query_Asset_Handler : MethodHandler any QueryServer :=
  unary_handler "/vertix.rwa.v1.Query/Asset" QueryServer_Asset
    Any_QueryAssetRequest as_QueryAssetRequest Any_QueryAssetResponse.

Definition Query_AssetsByIssuer_Handler : MethodHandler any QueryServer :=
  unary_handler "/vertix.rwa.v1.Query/AssetsByIssuer" QueryServer_AssetsByIssuer
    Any_QueryAssetsByIssuerRequest as_QueryAssetsByIssuerRequest Any_QueryAssetsByIssuerResponse.

Definition Query_Restrictions_Handler : MethodHandler any QueryServer :=
  unary_handler "/vertix.rwa.v1.Query/Restrictions" QueryServer_Restrictions
    Any_QueryRestrictionsRequest as_QueryRestrictionsRequest Any_QueryRestrictionsResponse.

Definition Query_Params_Handler : MethodHandler any QueryServer :=
  unary_handler "/vertix.rwa.v1.Query/Params" QueryServer_Params
    Any_QueryParamsRequest as_QueryParamsRequest Any_QueryParamsResponse.

Definition Query_serviceDesc : ServiceDesc any QueryServer := mkServiceDesc _ _ "vertix.rwa.v1.Query"
  [("Asset", Query_Asset_Handler);
   ("AssetsByIssuer", Query_AssetsByIssuer_Handler);
   ("Restrictions", Query_Restrictions_Handler);
   ("Params", Query_Params_Handler)]
  "vertix/rwa/v1/query.proto".

Definition RegisterQueryServer {S} (RegisterService : ServiceDesc any QueryServer -> QueryServer -> S -> S)
    (s : S) (srv : QueryServer) : S :=
  RegisterService Query_serviceDesc srv s.

End ApiGrpcRwa.
