(* ===== verification/ApiGrpcBase.v ===== *)
(** * api/vertix/fees and api/vertix/oracle: the gRPC services of the unversioned packages

    The clients, servers and handlers of their tx_grpc.pb.go and query_grpc.pb.go; the
    names of the two packages are told apart by a prefix. *)

From S2P Require Import Prelude Sdk World SdkRef Wire Codec Foreign WireMsg Pulsar Reflect ApiFeesBase ApiOracleBase Grpc.

Open Scope Z_scope.

Section ApiGrpcBase.
Context {W : Type} {T : StdTime} {P : ProtoRuntime} {I : ApiImports}.

(** ** [interface{}]: the messages of the services, and the type assertions of the handlers *)

Inductive any : Type :=
| Any_fees_MsgUpdateParams (m : ApiFeesBase.MsgUpdateParams)
| Any_fees_MsgUpdateParamsResponse (m : ApiFeesBase.MsgUpdateParamsResponse)
| Any_fees_QueryParamsRequest (m : ApiFeesBase.QueryParamsRequest)
| Any_fees_QueryParamsResponse (m : ApiFeesBase.QueryParamsResponse)
| Any_oracle_MsgUpdateParams (m : ApiOracleBase.MsgUpdateParams)
| Any_oracle_MsgUpdateParamsResponse (m : ApiOracleBase.MsgUpdateParamsResponse)
| Any_oracle_QueryParamsRequest (m : ApiOracleBase.QueryParamsRequest)
| Any_oracle_QueryParamsResponse (m : ApiOracleBase.QueryParamsResponse).

Definition as_fees_MsgUpdateParams (a : any) : res ApiFeesBase.MsgUpdateParams := match a with Any_fees_MsgUpdateParams m => Ok m | _ => Panic end.
Definition as_fees_QueryParamsRequest (a : any) : res ApiFeesBase.QueryParamsRequest := match a with Any_fees_QueryParamsRequest m => Ok m | _ => Panic end.
Definition as_oracle_MsgUpdateParams (a : any) : res ApiOracleBase.MsgUpdateParams := match a with Any_oracle_MsgUpdateParams m => Ok m | _ => Panic end.
Definition as_oracle_QueryParamsRequest (a : any) : res ApiOracleBase.QueryParamsRequest := match a with Any_oracle_QueryParamsRequest m => Ok m | _ => Panic end.

(** The encoding of a message by the codec of gRPC. *)
Definition any_Marshal (a : any) : res bytes :=
  match a with
  | Any_fees_MsgUpdateParams m => g_Marshal m
  | Any_fees_MsgUpdateParamsResponse m => g_Marshal m
  | Any_fees_QueryParamsRequest m => g_Marshal m
  | Any_fees_QueryParamsResponse m => g_Marshal m
  | Any_oracle_MsgUpdateParams m => g_Marshal m
  | Any_oracle_MsgUpdateParamsResponse m => g_Marshal m
  | Any_oracle_QueryParamsRequest m => g_Marshal m
  | Any_oracle_QueryParamsResponse m => g_Marshal m
  end.

(** ** The service vertix.fees.Msg: clients *)

Record fees_MsgClient : Type := mkfees_MsgClient {
  fees_MsgClient_UpdateParams : ApiFeesBase.MsgUpdateParams -> M W ApiFeesBase.MsgUpdateParamsResponse
}.

Definition fees_msgClient_call_UpdateParams (cc : ClientConn (W := W)) (req : ApiFeesBase.MsgUpdateParams) : M W ApiFeesBase.MsgUpdateParamsResponse :=
  client_call cc "/vertix.fees.Msg/UpdateParams" req.

Definition fees_NewMsgClient (cc : ClientConn (W := W)) : fees_MsgClient :=
  mkfees_MsgClient (fees_msgClient_call_UpdateParams cc).

(** ** The service vertix.fees.Msg: server *)

Record fees_MsgServer : Type := mkfees_MsgServer {
  fees_MsgServer_UpdateParams : ApiFeesBase.MsgUpdateParams -> M W ApiFeesBase.MsgUpdateParamsResponse
}.

Definition fees_UnimplementedMsgServer : fees_MsgServer :=
  mkfees_MsgServer (fun _ => throw Unimplemented).

Definition fees_Msg_UpdateParams_Handler : MethodHandler any fees_MsgServer :=
  unary_handler "/vertix.fees.Msg/UpdateParams" fees_MsgServer_UpdateParams
    Any_fees_MsgUpdateParams as_fees_MsgUpdateParams Any_fees_MsgUpdateParamsResponse.

Definition fees_Msg_serviceDesc : ServiceDesc any fees_MsgServer := mkServiceDesc _ _ "vertix.fees.Msg"
  [("UpdateParams", fees_Msg_UpdateParams_Handler)]
  "vertix/fees/tx.proto".

Definition fees_RegisterMsgServer {S} (RegisterService : ServiceDesc any fees_MsgServer -> fees_MsgServer -> S -> S)
    (s : S) (srv : fees_MsgServer) : S :=
  RegisterService fees_Msg_serviceDesc srv s.

(** ** The service vertix.fees.Query: clients *)

Record fees_QueryClient : Type := mkfees_QueryClient {
  fees_QueryClient_Params : ApiFeesBase.QueryParamsRequest -> M W ApiFeesBase.QueryParamsResponse
}.

Definition fees_queryClient_call_Params (cc : ClientConn (W := W)) (req : ApiFeesBase.QueryParamsRequest) : M W ApiFeesBase.QueryParamsResponse :=
  client_call cc "/vertix.fees.Query/Params" req.

Definition fees_NewQueryClient (cc : ClientConn (W := W)) : fees_QueryClient :=
  mkfees_QueryClient (fees_queryClient_call_Params cc).

(** ** The service vertix.fees.Query: server *)

Record fees_QueryServer : Type := mkfees_QueryServer {
  fees_QueryServer_Params : ApiFeesBase.QueryParamsRequest -> M W ApiFeesBase.QueryParamsResponse
}.

Definition fees_UnimplementedQueryServer : fees_QueryServer :=
  mkfees_QueryServer (fun _ => throw Unimplemented).

Definition fees_Query_Params_Handler : MethodHandler any fees_QueryServer :=
  unary_handler "/vertix.fees.Query/Params" fees_QueryServer_Params
    Any_fees_QueryParamsRequest as_fees_QueryParamsRequest Any_fees_QueryParamsResponse.

Definition fees_Query_serviceDesc : ServiceDesc any fees_QueryServer := mkServiceDesc _ _ "vertix.fees.Query"
  [("Params", fees_Query_Params_Handler)]
  "vertix/fees/query.proto".

Definition fees_RegisterQueryServer {S} (RegisterService : ServiceDesc any fees_QueryServer -> fees_QueryServer -> S -> S)
    (s : S) (srv : fees_QueryServer) : S :=
  RegisterService fees_Query_serviceDesc srv s.

(** ** The service vertix.oracle.Msg: clients *)

Record oracle_MsgClient : Type := mkoracle_MsgClient {
  oracle_MsgClient_UpdateParams : ApiOracleBase.MsgUpdateParams -> M W ApiOracleBase.MsgUpdateParamsResponse
}.

Definition oracle_msgClient_call_UpdateParams (cc : ClientConn (W := W)) (req : ApiOracleBase.MsgUpdateParams) : M W ApiOracleBase.MsgUpdateParamsResponse :=
  client_call cc "/vertix.oracle.Msg/UpdateParams" req.

Definition oracle_NewMsgClient (cc : ClientConn (W := W)) : oracle_MsgClient :=
  mkoracle_MsgClient (oracle_msgClient_call_UpdateParams cc).

(** ** The service vertix.oracle.Msg: server *)

Record oracle_MsgServer : Type := mkoracle_MsgServer {
  oracle_MsgServer_UpdateParams : ApiOracleBase.MsgUpdateParams -> M W ApiOracleBase.MsgUpdateParamsResponse
}.

Definition oracle_UnimplementedMsgServer : oracle_MsgServer :=
  mkoracle_MsgServer (fun _ => throw Unimplemented).

Definition oracle_Msg_UpdateParams_Handler : MethodHandler any oracle_MsgServer :=
  unary_handler "/vertix.oracle.Msg/UpdateParams" oracle_MsgServer_UpdateParams
    Any_oracle_MsgUpdateParams as_oracle_MsgUpdateParams Any_oracle_MsgUpdateParamsResponse.

Definition oracle_Msg_serviceDesc : ServiceDesc any oracle_MsgServer := mkServiceDesc _ _ "vertix.oracle.Msg"
  [("UpdateParams", oracle_Msg_UpdateParams_Handler)]
  "vertix/oracle/tx.proto".

Definition oracle_RegisterMsgServer {S} (RegisterService : ServiceDesc any oracle_MsgServer -> oracle_MsgServer -> S -> S)
    (s : S) (srv : oracle_MsgServer) : S :=
  RegisterService oracle_Msg_serviceDesc srv s.

(** ** The service vertix.oracle.Query: clients *)

Record oracle_QueryClient : Type := mkoracle_QueryClient {
  oracle_QueryClient_Params : ApiOracleBase.QueryParamsRequest -> M W ApiOracleBase.QueryParamsResponse
}.

Definition oracle_queryClient_call_Params (cc : ClientConn (W := W)) (req : ApiOracleBase.QueryParamsRequest) : M W ApiOracleBase.QueryParamsResponse :=
  client_call cc "/vertix.oracle.Query/Params" req.

Definition oracle_NewQueryClient (cc : ClientConn (W := W)) : oracle_QueryClient :=
  mkoracle_QueryClient (oracle_queryClient_call_Params cc).

(** ** The service vertix.oracle.Query: server *)

Record oracle_QueryServer : Type := mkoracle_QueryServer {
  oracle_QueryServer_Params : ApiOracleBase.QueryParamsRequest -> M W ApiOracleBase.QueryParamsResponse
}.

Definition oracle_UnimplementedQueryServer : oracle_QueryServer :=
  mkoracle_QueryServer (fun _ => throw Unimplemented).

Definition oracle_Query_Params_Handler : MethodHandler any oracle_QueryServer :=
  unary_handler "/vertix.oracle.Query/Params" oracle_QueryServer_Params
    Any_oracle_QueryParamsRequest as_oracle_QueryParamsRequest Any_oracle_QueryParamsResponse.

Definition oracle_Query_serviceDesc : ServiceDesc any oracle_QueryServer := mkServiceDesc _ _ "vertix.oracle.Query"
  [("Params", oracle_Query_Params_Handler)]
  "vertix/oracle/query.proto".

Definition oracle_RegisterQueryServer {S} (RegisterService : ServiceDesc any oracle_QueryServer -> oracle_QueryServer -> S -> S)
    (s : S) (srv : oracle_QueryServer) : S :=
  RegisterService oracle_Query_serviceDesc srv s.

End ApiGrpcBase.
