(* ===== verification/RwaKeeper.v ===== *)
(** * x/rwa: the keeper

    The asset store and the parameters (keeper/keeper.go), factory denoms
    (keeper/denom.go), fees (keeper/fee.go), issuer bonds (keeper/bond.go),
    transfer restrictions (keeper/restriction.go) and the hook that enforces them
    in x/bank (keeper/send_restriction.go), genesis (keeper/genesis.go), queries
    (keeper/grpc_query.go) and the two crisis invariants (keeper/invariants.go).
    The message server is in [RwaMsg]. *)

From S2P Require Import Prelude Sdk World SdkRef Wire OracleAgg RwaTypes.

Open Scope Z_scope.

(** The fields of the keeper that the methods read: [authority]. *)
Record Keeper : Type := mkKeeper { authority : string }.

Definition GetAuthority (k : Keeper) : string := authority k.

(** types/expected_keepers.go: what x/rwa asks of x/oracle. *)
Class PriceOracle (W : Type) : Type := { GetPrice : string -> W -> res Z }.

(** A price is a representable decimal. *)
Class PriceOracleLaws (W : Type) {PO : PriceOracle W} : Prop := {
  price_range pair (w : W) d : GetPrice pair w = Ok d -> Z.abs d < dec_limit
}.

(** types/query: a page of the entries of a store, and the response that says
    where the next one starts. *)
Class Pagination : Type := {
  PageRequest : Type;
  PageResponse : Type;
  Paginate : list (bytes * bytes) -> PageRequest -> res (list (bytes * bytes) * PageResponse)
}.

(** The result of [math.NewIntFromString] when the flag is dropped: a failed
    parse leaves a nil [Int], whose first use panics. *)
Definition deref (o : option Z) : res Z := match o with Some z => Ok z | None => Panic end.

Lemma deref_Ok o z : deref o = Ok z <-> o = Some z.
Proof. destruct o; cbn; split; congruence. Qed.

(** ** keeper/denom.go *)

Definition BuildDenom (assetID : string) : string := RWADenomPrefix +:+ assetID.

Definition ParseRWADenom (denom : string) : option string :=
  if negb (bool_decide (bytes_of RWADenomPrefix `prefix_of` bytes_of denom)) then None else
  let id := string_of (drop (length (bytes_of RWADenomPrefix)) (bytes_of denom)) in
  if bool_decide (id = ""%string) then None else Some id.

Section Rwa.
Context {St X : Type} {KV : KVStore St} {SM : SdkMath} {CO : Coins} {BE : Bech32} {T : StdTime}
        {BK : BankKeeper X} {PG : Pagination}.
Local Abbreviation W := (world St X).

(** ** keeper/keeper.go *)

(** [authtypes.NewModuleAddress(types.ModuleName)], the address the account
    keeper gives the module account. *)
Definition ModuleAddress : bytes := GetModuleAddress ModuleName.

Definition GetParams (w : W) : res RWAParams :=
  bz ← st_get RwaKey KeyParams w;
  match bz with
  | None => Ok DefaultParams
  | Some bz => MustUnmarshal bz
  end.

Definition SetParams (p : RWAParams) : M W unit :=
  _ ← lift (Validate p);
  bz ← lift (Marshal p);
  st_set RwaKey KeyParams bz.

Definition SetAsset (rec : AssetRecord) : M W unit :=
  bz ← lift (Marshal rec);
  _ ← st_set RwaKey (AssetKey (ar_AssetId rec)) bz;
  issuer ← lift (AccAddressFromBech32 (ar_Issuer rec));
  key ← lift (IssuerIndexKey issuer (ar_AssetId rec));
  st_set RwaKey key [x01].

Definition GetAsset (assetID : string) (w : W) : res (option AssetRecord) :=
  match st_get RwaKey (AssetKey assetID) w with
  | Ok (Some bz) => rec ← MustUnmarshal bz; Ok (Some rec)
  | Ok None | Err _ => Ok None
  | Panic => Panic
  end.

(** The loop of [IterateAssets]; [fn] returns the new state of its closure and
    whether to go on. *)
Fixpoint iterate_assets {A} (fn : A -> AssetRecord -> res (A * bool)) (acc : A)
    (kvs : list (bytes * bytes)) : res A :=
  match kvs with
  | [] => Ok acc
  | kv :: kvs =>
      rec ← MustUnmarshal kv.2;
      '(acc, go) ← fn acc rec;
      if go : bool then iterate_assets fn acc kvs else Ok acc
  end.

Definition IterateAssets {A} (acc : A) (fn : A -> AssetRecord -> res (A * bool)) (w : W) : res A :=
  kvs ← st_iterator RwaKey KeyPrefixAsset w;
  iterate_assets fn acc kvs.

(** ** keeper/restriction.go *)

Definition AddAllowlist (assetID : string) (addr : bytes) : M W unit :=
  st_set RwaKey (AllowlistKey assetID addr) [x01].
Definition DelAllowlist (assetID : string) (addr : bytes) : M W unit :=
  st_delete RwaKey (AllowlistKey assetID addr).
Definition AddDenylist (assetID : string) (addr : bytes) : M W unit :=
  st_set RwaKey (DenylistKey assetID addr) [x01].
Definition DelDenylist (assetID : string) (addr : bytes) : M W unit :=
  st_delete RwaKey (DenylistKey assetID addr).

Definition hasKey (key : bytes) (w : W) : res bool :=
  match st_has RwaKey key w with
  | Ok ok => Ok ok
  | Err _ => Ok false
  | Panic => Panic
  end.

Definition IsAllowlisted (assetID : string) (addr : bytes) (w : W) : res bool :=
  hasKey (AllowlistKey assetID addr) w.
Definition IsDenylisted (assetID : string) (addr : bytes) (w : W) : res bool :=
  hasKey (DenylistKey assetID addr) w.

(** [a || b] and [a && b] with fallible operands: the second is evaluated only
    when the first does not decide. *)
Definition or_else (a b : res bool) : res bool := x ← a; if x : bool then Ok true else b.
Definition not_res (a : res bool) : res bool := x ← a; Ok (negb x).

Definition CheckTransferAllowed (assetID : string) (from to : bytes) (w : W) : res unit :=
  let moduleAddr := ModuleAddress in
  if bool_decide (from = moduleAddr) || bool_decide (to = moduleAddr) then Ok tt else
  rec ← GetAsset assetID w;
  match rec with
  | None => Err ErrAssetNotFound
  | Some rec =>
      _ ← (if negb (ar_AllowAll rec) then
             off ← or_else (not_res (IsAllowlisted assetID from w)) (not_res (IsAllowlisted assetID to w));
             if off : bool then Err ErrTransferRestricted else Ok tt
           else Ok tt);
      denied ← or_else (IsDenylisted assetID from w) (IsDenylisted assetID to w);
      if denied : bool then Err ErrTransferRestricted else Ok tt
  end.

(** The member encoded in a key of a membership list; [None] for a key that the
    loop skips. *)
Definition member_of_key (key : bytes) : option bytes :=
  if bool_decide (length key < 2)%nat then None else
  let idLen := Z.to_nat (Z_of_byte (default x00 (key !! 1%nat))) in
  if bool_decide (length key < 2 + idLen)%nat then None else
  Some (drop (2 + idLen) key).

Fixpoint iterate_members {A} (fn : A -> bytes -> A * bool) (acc : A) (kvs : list (bytes * bytes)) : A :=
  match kvs with
  | [] => acc
  | kv :: kvs =>
      match member_of_key kv.1 with
      | None => iterate_members fn acc kvs
      | Some addr => let '(acc, go) := fn acc addr in
                     if go : bool then iterate_members fn acc kvs else acc
      end
  end.

Definition IterateMembers {A} (prefix : bytes) (acc : A) (fn : A -> bytes -> A * bool) (w : W) : res A :=
  kvs ← st_iterator RwaKey prefix w;
  Ok (iterate_members fn acc kvs).

(** [_ = iterate(...)]: the error is dropped; the closure has not run. *)
Definition drop_err {A} (acc : A) (r : res A) : res A :=
  match r with Err _ => Ok acc | r => r end.

(** ** keeper/send_restriction.go *)

Definition SendRestriction (from to : bytes) (amt : coins) (w : W) : res bytes :=
  _ ← rfold amt tt (fun _ c =>
        match ParseRWADenom c.1 with
        | None => Ok tt
        | Some assetID => CheckTransferAllowed assetID from to w
        end);
  Ok to.

(** The restriction that app.go appends to x/bank. *)
Definition send_restriction (w : W) : restr := fun from to amt => SendRestriction from to amt w.

(** ** keeper/fee.go *)

Definition ComputeFee (notional rate : Z) : res Z :=
  product ← DecMul (LegacyNewDecFromInt notional) rate;
  fee ← DecTruncateInt product;
  if fee =? 0 then Ok 0 else Ok fee.

Definition CollectFee (payer : bytes) (fee : Z) : M W unit :=
  if negb (0 <? fee) then mret tt else
  c ← lift (one_coin BondDenom fee);
  ext_send send_restriction (fun r x => SendCoinsFromAccountToModule r x payer FeeCollectorName c).

(** ** keeper/bond.go *)

Definition LockBond (issuer : bytes) (amount : Z) : M W unit :=
  c ← lift (one_coin BondDenom amount);
  ext_send send_restriction (fun r x => SendCoinsFromAccountToModule r x issuer ModuleName c).

Definition ReleaseBond (issuer : bytes) (amount : Z) : M W unit :=
  c ← lift (one_coin BondDenom amount);
  ext_send send_restriction (fun r x => SendCoinsFromModuleToAccount r x ModuleName issuer c).

Definition SlashBondToCommunityPool (amount : Z) : M W unit :=
  c ← lift (one_coin BondDenom amount);
  ext_send send_restriction (fun r x => FundCommunityPool r x c ModuleAddress).

(** ** keeper/genesis.go *)

Definition InitGenesis (gs : GenesisState) : M W unit :=
  _ ← must (lift (GenesisState_Validate gs));
  _ ← must (SetParams (gs_Params gs));
  _ ← mfor (gs_Assets gs) (fun a => must (SetAsset a));
  mfor (gs_Restrictions gs) (fun r =>
    addr ← must (lift (AccAddressFromBech32 (rs_Address r)));
    if rs_IsDeny r then must (AddDenylist (rs_AssetId r) addr)
    else must (AddAllowlist (rs_AssetId r) addr)).

(** The restrictions of one asset: its allowlist, then its denylist. *)
Definition export_members (w : W) (acc : list Restriction) (a : AssetRecord) : res (list Restriction) :=
  let assetID := ar_AssetId a in
  acc ← drop_err acc (IterateMembers (AllowlistPrefix assetID) acc (fun acc addr =>
          (acc ++ [mkRestriction assetID (AccString addr) false], true)) w);
  drop_err acc (IterateMembers (DenylistPrefix assetID) acc (fun acc addr =>
    (acc ++ [mkRestriction assetID (AccString addr) true], true)) w).

Definition ExportGenesis (w : W) : res GenesisState :=
  params ← must_res (GetParams w);
  assets ← drop_err [] (IterateAssets [] (fun acc rec => Ok (acc ++ [rec], true)) w);
  let assets := sort_slice (string_less ar_AssetId) assets in
  restrictions ← rfold assets [] (export_members w);
  Ok (mkGenesisState params assets restrictions).

(** ** keeper/invariants.go: [true] when broken *)

Definition BondInvariant (w : W) : res bool :=
  '(sum, broken) ← drop_err (0, false) (IterateAssets (0, false) (fun '(sum, broken) rec =>
     if ar_Status rec =? ASSET_STATUS_SETTLED then Ok ((sum, broken), true) else
     bond ← deref (NewIntFromString (ar_Bond rec));
     let broken := if (ar_Status rec =? ASSET_STATUS_ACTIVE) && negb (0 <? bond) then true else broken in
     sum ← IntAdd sum bond;
     Ok ((sum, broken), true)) w);
  let moduleBal := GetBalance (w_ext w) ModuleAddress BondDenom in
  Ok (if moduleBal <? sum then true else broken).

Definition DenomInvariant (w : W) : res bool :=
  drop_err false (IterateAssets false (fun broken rec =>
    Ok (if ((ar_Status rec =? ASSET_STATUS_DRAFT) || (ar_Status rec =? ASSET_STATUS_ATTESTED))
           && negb (GetSupply (w_ext w) (ar_Denom rec) =? 0)
        then true else broken, true)) w).

(** ** keeper/grpc_query.go: requests are pointers, [None] when nil *)

Definition QueryAsset (req : option string) (w : W) : res AssetRecord :=
  match req with
  | None => Err InvalidArgument
  | Some id =>
      if bool_decide (id = ""%string) then Err InvalidArgument else
      rec ← GetAsset id w;
      match rec with None => Err NotFound | Some rec => Ok rec end
  end.

(** [codes.Internal]. *)
Definition Internal : error := Status 13.

(** The index entries of the issuer, with the prefix removed from their keys as
    [prefix.NewStore] does. *)
Definition QueryAssetsByIssuer (req : option (string * PageRequest)) (w : W) :
  res (list AssetRecord * PageResponse) :=
  match req with
  | None => Err InvalidArgument
  | Some (iss, page) =>
      if bool_decide (iss = ""%string) then Err InvalidArgument else
      issuer ← map_err (fun _ => InvalidArgument) (AccAddressFromBech32 iss);
      prefix ← IssuerIndexPrefix issuer;
      kvs ← map_err (fun _ => Internal) (st_iterator RwaKey prefix w);
      let idxStore := (fun kv => (drop (length prefix) kv.1, kv.2)) <$> kvs in
      '(page, pageRes) ← map_err (fun _ => Internal) (Paginate idxStore page);
      assets ← rfold page [] (fun acc kv =>
        let assetID := match kv.1 with
                       | c :: r => if bool_decide (c = "/"%byte) then r else c :: r
                       | [] => []
                       end in
        rec ← GetAsset (string_of assetID) w;
        Ok (match rec with Some rec => acc ++ [rec] | None => acc end));
      Ok (assets, pageRes)
  end.

Definition QueryRestrictions (req : option string) (w : W) : res (bool * list string * list string) :=
  match req with
  | None => Err InvalidArgument
  | Some id =>
      if bool_decide (id = ""%string) then Err InvalidArgument else
      rec ← GetAsset id w;
      match rec with
      | None => Err NotFound
      | Some rec =>
          allow ← drop_err [] (IterateMembers (AllowlistPrefix id) [] (fun acc addr => (acc ++ [AccString addr], true)) w);
          deny ← drop_err [] (IterateMembers (DenylistPrefix id) [] (fun acc addr => (acc ++ [AccString addr], true)) w);
          Ok (ar_AllowAll rec, allow, deny)
      end
  end.

Definition QueryParams (req : option unit) (w : W) : res RWAParams :=
  match req with
  | None => Err InvalidArgument
  | Some _ => GetParams w
  end.

(** ** Lemmas *)

Context {KVL : KVStoreLaws St} {SML : SdkMathLaws} {COL : CoinsLaws} {BEL : Bech32Laws} {TL : StdTimeLaws}.

Lemma rwa_GetParams_view w : GetParams w =
  match view RwaKey w !! KeyParams with None => Ok DefaultParams | Some bz => MustUnmarshal bz end.
Proof. unfold GetParams. by rewrite st_get_run by done. Qed.

Lemma GetAsset_view id w : GetAsset id w =
  match view RwaKey w !! AssetKey id with
  | None => Ok None
  | Some bz => rec ← MustUnmarshal bz; Ok (Some rec)
  end.
Proof. unfold GetAsset. rewrite st_get_run by done. by destruct (_ !! _). Qed.

(** The record stored under an asset id. *)
Definition stored (w : W) (id : string) (r : AssetRecord) : Prop :=
  exists bz, view RwaKey w !! AssetKey id = Some bz /\ Unmarshal bz = Ok r.

Lemma GetAsset_stored id r w : GetAsset id w = Ok (Some r) <-> stored w id r.
Proof.
  rewrite GetAsset_view. unfold stored, MustUnmarshal.
  destruct (view RwaKey w !! AssetKey id) as [bz|]; [|split; [done|by intros (? & ? & _)]].
  destruct (Unmarshal bz) as [r'| |] eqn:E; cbn [mbind res_bind]; split; try done.
  - intros [= ->]. eauto.
  - intros (? & [= <-] & E'). rewrite E in E'. by injection E' as ->.
  - intros (? & [= <-] & E'). by rewrite E in E'.
  - intros (? & [= <-] & E'). by rewrite E in E'.
Qed.

Lemma GetAsset_None id w : GetAsset id w = Ok None <-> view RwaKey w !! AssetKey id = None.
Proof.
  rewrite GetAsset_view. unfold MustUnmarshal. destruct (view RwaKey w !! AssetKey id) as [bz|]; [|done].
  by destruct (Unmarshal bz).
Qed.

Lemma hasKey_run key w : key <> [] -> hasKey key w = Ok (bool_decide (is_Some (view RwaKey w !! key))).
Proof. intros Hk. unfold hasKey. by rewrite st_has_run. Qed.

(** [addr] is on the list of [assetID] that [p] (0x03 allow, 0x04 deny) selects. *)
Definition member (p : byte) (assetID : string) (addr : bytes) (w : W) : Prop :=
  is_Some (view RwaKey w !! membershipKey [p] assetID addr).

#[local] Instance member_dec p id a w : Decision (member p id a w).
Proof. unfold member. apply _. Defined.

Lemma IsAllowlisted_run id a w : IsAllowlisted id a w = Ok (bool_decide (member x03 id a w)).
Proof. apply hasKey_run. done. Qed.

Lemma IsDenylisted_run id a w : IsDenylisted id a w = Ok (bool_decide (member x04 id a w)).
Proof. apply hasKey_run. done. Qed.

(** The transfer policy of an asset: a leg of the module account is exempt;
    otherwise nobody involved is on the denylist and, unless the asset is open to
    all, both are on the allowlist. *)
Definition transfer_allowed (r : AssetRecord) (from to : bytes) (w : W) : Prop :=
  (ar_AllowAll r = true \/ (member x03 (ar_AssetId r) from w /\ member x03 (ar_AssetId r) to w)) /\
  ~ member x04 (ar_AssetId r) from w /\ ~ member x04 (ar_AssetId r) to w.

Lemma or_else_Ok a b : or_else (Ok a) (Ok b) = Ok (a || b).
Proof. by destruct a. Qed.

Lemma CheckTransfer_run id from to w :
  CheckTransferAllowed id from to w =
  if bool_decide (from = ModuleAddress) || bool_decide (to = ModuleAddress) then Ok tt else
  rec ← GetAsset id w;
  match rec with
  | None => Err ErrAssetNotFound
  | Some rec =>
      if (ar_AllowAll rec || (bool_decide (member x03 id from w) && bool_decide (member x03 id to w)))
         && negb (bool_decide (member x04 id from w)) && negb (bool_decide (member x04 id to w))
      then Ok tt else Err ErrTransferRestricted
  end.
Proof.
  unfold CheckTransferAllowed. destruct (_ || _); [done|]. destruct (GetAsset id w) as [[rec|]| |]; try done.
  cbn [mbind res_bind]. rewrite !IsAllowlisted_run, !IsDenylisted_run. cbn [not_res mbind res_bind].
  rewrite !or_else_Ok. cbn [mbind res_bind].
  destruct (ar_AllowAll rec), (bool_decide (member x03 id from w)), (bool_decide (member x03 id to w)),
    (bool_decide (member x04 id from w)), (bool_decide (member x04 id to w)); done.
Qed.

Lemma CheckTransfer_exempt id from to w : from = ModuleAddress \/ to = ModuleAddress ->
  CheckTransferAllowed id from to w = Ok tt.
Proof.
  intros Hm. unfold CheckTransferAllowed.
  destruct (bool_decide (from = ModuleAddress)) eqn:E1; [done|].
  destruct (bool_decide (to = ModuleAddress)) eqn:E2; [done|].
  apply bool_decide_eq_false in E1, E2. tauto.
Qed.

Lemma CheckTransfer_allowed id r from to w : GetAsset id w = Ok (Some r) -> ar_AssetId r = id ->
  from <> ModuleAddress -> to <> ModuleAddress ->
  CheckTransferAllowed id from to w =
  if bool_decide (transfer_allowed r from to w) then Ok tt else Err ErrTransferRestricted.
Proof.
  intros Hg Hid Hf Ht. rewrite CheckTransfer_run, !bool_decide_eq_false_2 by done. cbn [orb].
  rewrite Hg. cbn [mbind res_bind]. subst id.
  rewrite (bool_decide_ext (transfer_allowed r from to w)
    (((ar_AllowAll r || (bool_decide (member x03 (ar_AssetId r) from w) && bool_decide (member x03 (ar_AssetId r) to w)))
      && negb (bool_decide (member x04 (ar_AssetId r) from w)) && negb (bool_decide (member x04 (ar_AssetId r) to w))) = true)).
  - by destruct (_ && _ && _).
  - unfold transfer_allowed. rewrite !andb_true_iff, orb_true_iff, andb_true_iff, !negb_true_iff,
      !bool_decide_eq_true, !bool_decide_eq_false. tauto.
Qed.

(** *** The send restriction *)

(** Every stored asset record decodes, under its own id. *)
Definition assets_decode (w : W) : Prop :=
  forall id bz, view RwaKey w !! AssetKey id = Some bz ->
    exists r, Unmarshal bz = Ok r /\ ar_AssetId r = id.

(** What the restriction asks of one coin of the asset [id]. *)
Definition leg_allowed (id : string) (from to : bytes) (w : W) : Prop :=
  from = ModuleAddress \/ to = ModuleAddress \/
  exists r, stored w id r /\ transfer_allowed r from to w.

Lemma CheckTransfer_leg id from to w : assets_decode w ->
  (CheckTransferAllowed id from to w = Ok tt /\ leg_allowed id from to w) \/
  (~ leg_allowed id from to w /\
   (CheckTransferAllowed id from to w = Err ErrAssetNotFound \/
    CheckTransferAllowed id from to w = Err ErrTransferRestricted)).
Proof.
  intros Hd. destruct (decide (from = ModuleAddress \/ to = ModuleAddress)) as [Hm|Hm].
  { left. split; [by apply CheckTransfer_exempt|unfold leg_allowed; tauto]. }
  destruct (view RwaKey w !! AssetKey id) as [bz|] eqn:Hv.
  - destruct (Hd id bz Hv) as (r & Hr & Hid).
    assert (stored w id r) as Hst by (by exists bz).
    pose proof (proj2 (GetAsset_stored id r w) Hst) as Hg.
    assert (from <> ModuleAddress /\ to <> ModuleAddress) as [Hf Ht] by (split; intros ?; tauto).
    rewrite (CheckTransfer_allowed id r) by done.
    case_bool_decide as Ha; [left|right]; (split; [|unfold leg_allowed; eauto]); [done|].
    intros [?|[?|(r' & (bz' & Hv' & Hr') & Ha')]]; [tauto..|].
    rewrite Hv in Hv'. injection Hv' as <-. rewrite Hr in Hr'. injection Hr' as <-. done.
  - right. split.
    + intros [?|[?|(r' & (bz' & Hv' & _) & _)]]; [tauto..|]. by rewrite Hv in Hv'.
    + left. rewrite CheckTransfer_run, !bool_decide_eq_false_2 by tauto. cbn [orb].
      by rewrite (proj2 (GetAsset_None id w) Hv).
Qed.

(** A send that the policy of every asset among the coins allows. *)
Definition send_allowed (from to : bytes) (amt : coins) (w : W) : Prop :=
  forall d a id, (d, a) ∈ amt -> ParseRWADenom d = Some id -> leg_allowed id from to w.

Lemma SendRestriction_cases from to amt w : assets_decode w ->
  (SendRestriction from to amt w = Ok to /\ send_allowed from to amt w) \/
  (~ send_allowed from to amt w /\
   (SendRestriction from to amt w = Err ErrAssetNotFound \/
    SendRestriction from to amt w = Err ErrTransferRestricted)).
Proof.
  intros Hd. unfold SendRestriction, send_allowed. induction amt as [|[d a] amt IH]; cbn [rfold].
  { left. split; [done|]. by intros ? ? ? ?%not_elem_of_nil. }
  cbn [fst]. destruct (ParseRWADenom d) as [id|] eqn:Hp.
  - destruct (CheckTransfer_leg id from to w Hd) as [[E Hl]|[Hn E]].
    + rewrite E. destruct IH as [[IH1 IH2]|[IH1 IH2]]; [left; split; [exact IH1|]|right; split; [|exact IH2]].
      * intros d' a' id' [[= -> ->]|Hin]%elem_of_cons Hp'; [by simplify_eq|by eapply IH2].
      * intros H. apply IH1. intros d' a' id' Hin. by apply (H d' a'); right.
    + right. split; [intros H; apply Hn; by eapply H; [left|]|].
      destruct E as [-> | ->]; cbn; tauto.
  - destruct IH as [[IH1 IH2]|[IH1 IH2]]; [left; split; [exact IH1|]|right; split; [|exact IH2]].
    + intros d' a' id' [[= -> ->]|Hin]%elem_of_cons Hp'; [by simplify_eq|by eapply IH2].
    + intros H. apply IH1. intros d' a' id' Hin. by apply (H d' a'); right.
Qed.

(** Coins that are not factory denoms, and legs of the module account, pass. *)
Lemma SendRestriction_other from to d a w : ParseRWADenom d = None ->
  send_restriction w from to [(d, a)] = Ok to.
Proof. intros Hp. unfold send_restriction, SendRestriction. cbn. by rewrite Hp. Qed.

Lemma SendRestriction_module from to amt w : from = ModuleAddress \/ to = ModuleAddress ->
  send_restriction w from to amt = Ok to.
Proof.
  intros Hm. unfold send_restriction, SendRestriction.
  induction amt as [|[d a] amt IH]; cbn [rfold fst]; [done|]. destruct (ParseRWADenom d); [rewrite CheckTransfer_exempt by done|]; apply IH.
Qed.

(** *** Denoms *)

Lemma ParseRWADenom_BuildDenom id : id <> ""%string -> ParseRWADenom (BuildDenom id) = Some id.
Proof.
  intros Hne. unfold ParseRWADenom, BuildDenom. rewrite bytes_of_app.
  rewrite bool_decide_eq_true_2 by (by eexists). cbn [negb].
  rewrite drop_app_length, string_of_bytes_of, bool_decide_eq_false_2 by done. done.
Qed.

Lemma BuildDenom_ParseRWADenom d id : ParseRWADenom d = Some id -> BuildDenom id = d /\ id <> ""%string.
Proof.
  unfold ParseRWADenom, BuildDenom. case_bool_decide as Hp; [|done]. cbn [negb].
  case_bool_decide as Hne; [done|]. intros [= <-]. split; [|done]. apply (inj bytes_of).
  rewrite bytes_of_app, bytes_of_string_of. destruct Hp as [t ->]. done.
Qed.

#[global] Instance BuildDenom_inj : Inj (=) (=) BuildDenom.
Proof.
  intros a b E. apply (f_equal bytes_of) in E. unfold BuildDenom in E. rewrite !bytes_of_app in E.
  by apply app_inv_head, bytes_of_inj in E.
Qed.

Lemma BuildDenom_not_bond id : BuildDenom id <> BondDenom.
Proof. by intros [=]. Qed.

Lemma slug_nonempty id : slugRegex id = true -> id <> ""%string.
Proof. by intros H ->. Qed.

(** *** Fees *)

Lemma DecMul_int n rate c : DecMul (LegacyNewDecFromInt n) rate = Ok c -> c = n * rate.
Proof.
  intros H%dec_mul_nearest. unfold nearest, LegacyNewDecFromInt in H.
  replace (n * dec_one * rate) with (n * rate * dec_one) in H by lia.
  rewrite <- Z.mul_sub_distr_r, Z.abs_mul in H. unfold dec_one in H. lia.
Qed.

Lemma ComputeFee_run n rate : 0 <= n < int_limit -> 0 <= rate < dec_one ->
  ComputeFee n rate = if decide (n * rate < dec_limit) then Ok (n * rate / dec_one) else Panic.
Proof.
  intros Hn Hr. unfold ComputeFee.
  assert (Z.abs (LegacyNewDecFromInt n * rate) = n * rate * dec_one) as Ha.
  { unfold LegacyNewDecFromInt, dec_one in *. rewrite Z.abs_eq; nia. }
  case_decide as Hl.
  - destruct (dec_mul_total (LegacyNewDecFromInt n) rate) as [c Hc].
    { rewrite Ha. unfold dec_one. nia. }
    rewrite Hc. cbn [mbind res_bind]. apply DecMul_int in Hc as ->.
    assert (0 <= n * rate / dec_one <= n) as Hb.
    { split; [apply Z.div_pos; [nia|done]|].
      apply Z.div_le_upper_bound; [done|]. unfold dec_one in *. nia. }
    rewrite dec_truncate, Z.quot_div_nonneg by (done || nia).
    rewrite decide_True by lia. cbn [mbind res_bind]. by destruct (Z.eqb_spec (n * rate / dec_one) 0) as [->|].
  - rewrite dec_mul_overflow; [done|]. rewrite Ha. unfold dec_one. nia.
Qed.

(** *** Writes *)

Lemma rwa_SetParams_run p w : Validate p = Ok tt -> wf_msg p ->
  exists w' bz, SetParams p w = (w', Ok tt) /\
    store_upd RwaKey (<[KeyParams := bz]> (view RwaKey w)) w w' /\ MustUnmarshal bz = Ok p.
Proof.
  intros Hv Hw. destruct (unmarshal_marshal p Hw) as (bz & Hm & Hu).
  destruct (st_set_run RwaKey KeyParams bz w ltac:(done)) as (w' & E & U).
  exists w', bz. unfold SetParams, MustUnmarshal. rewrite Hu.
  erewrite bind_lift_run by exact Hv. erewrite bind_lift_run by exact Hm. done.
Qed.

(** The index entry of an asset: present, under the second prefix. *)
Definition index_upd (issuer : bytes) (id : string) (m : gmap bytes bytes) : gmap bytes bytes :=
  <[x02 :: byte_of_Z (Z.of_nat (length issuer)) :: issuer ++ "/"%byte :: bytes_of id := [x01]]> m.

Lemma SetAsset_run rec issuer w : wf_msg rec -> AccAddressFromBech32 (ar_Issuer rec) = Ok issuer ->
  exists w' bz, SetAsset rec w = (w', Ok tt) /\ Unmarshal bz = Ok rec /\
    store_upd RwaKey (index_upd issuer (ar_AssetId rec) (<[AssetKey (ar_AssetId rec) := bz]> (view RwaKey w))) w w'.
Proof.
  intros Hw Hi. destruct (unmarshal_marshal rec Hw) as (bz & Hm & Hu).
  destruct (st_set_run RwaKey (AssetKey (ar_AssetId rec)) bz w ltac:(done)) as (w1 & E1 & U1).
  pose proof (IssuerIndexKey_run issuer (ar_AssetId rec) (acc_parse_ok _ _ Hi)) as Hk.
  destruct (st_set_run RwaKey
    (x02 :: byte_of_Z (Z.of_nat (length issuer)) :: issuer ++ "/"%byte :: bytes_of (ar_AssetId rec)) [x01] w1
    ltac:(done)) as (w2 & E2 & U2).
  exists w2, bz. split; [|split; [done|]].
  - unfold SetAsset. erewrite bind_lift_run by exact Hm. erewrite bind_Ok_run by exact E1.
    erewrite bind_lift_run by exact Hi. by erewrite bind_lift_run by exact Hk.
  - eapply store_upd_trans; [exact U1|]. destruct U1 as (V1 & _). by rewrite V1 in U2.
Qed.

Lemma SetAsset_wlp rec issuer (Q : unit -> W -> Prop) (E : error -> W -> Prop) w :
  wf_msg rec -> AccAddressFromBech32 (ar_Issuer rec) = Ok issuer ->
  (forall w' bz, Unmarshal bz = Ok rec ->
     store_upd RwaKey (index_upd issuer (ar_AssetId rec) (<[AssetKey (ar_AssetId rec) := bz]> (view RwaKey w))) w w' ->
     Q tt w') ->
  wlp (SetAsset rec) Q E w.
Proof.
  intros Hw Hi HQ. destruct (SetAsset_run rec issuer w Hw Hi) as (w' & bz & Er & Hu & U).
  unfold wlp. rewrite Er. eauto.
Qed.

(** *** The ledger *)

Context (perms : list (string * list string)) {BKL : BankLaws X perms}.
Context (prwa pcol pdist : list string) (Hrwa : (ModuleName, prwa) ∈ perms)
        (Hcol : (FeeCollectorName, pcol) ∈ perms) (Hdist : ("distribution"%string, pdist) ∈ perms).

Lemma transferred_zero (x : X) f t d : transferred x x f t [(d, 0)].
Proof. split; [|done]. intros a d'. rewrite coin_amt_single. repeat case_decide; lia. Qed.

(** Each of the four movements of uvtx: what the ledger is when it succeeds. *)
Lemma CollectFee_wlp payer fee (Q : unit -> W -> Prop) (E : error -> W -> Prop) w : 0 <= fee ->
  (forall x', transferred (w_ext w) x' payer (GetModuleAddress FeeCollectorName) [(BondDenom, fee)] ->
     (0 < fee -> fee <= GetBalance (w_ext w) payer BondDenom) -> Q tt (set_ext x' w)) ->
  (forall e w', E e w') -> wlp (CollectFee payer fee) Q E w.
Proof.
  intros Hf HQ HE. unfold CollectFee. destruct (Z.ltb_spec 0 fee); cbn [negb].
  - rewrite one_coin_pos by done. wlp_steps; try done. simplify_eq.
    apply wlp_ext_send. intros x r S. rewrite (send_a2m _ _ _ _ _ _ Hcol) in S. destruct r as [[]| |]; [|done..].
    apply send_ok in S as (t' & Hr & Tr & Hb). rewrite SendRestriction_other in Hr by done.
    injection Hr as <-. apply HQ; [done|]. intros _. specialize (Hb BondDenom).
    by rewrite coin_amt_single, decide_True in Hb.
  - replace fee with 0 in * by lia. apply wlp_mret.
    replace w with (set_ext (w_ext w) w) at 1 by (by destruct w).
    apply HQ; [apply transferred_zero|lia].
Qed.

Lemma LockBond_wlp issuer amount (Q : unit -> W -> Prop) (E : error -> W -> Prop) w : 0 < amount ->
  (forall x', transferred (w_ext w) x' issuer ModuleAddress [(BondDenom, amount)] ->
     amount <= GetBalance (w_ext w) issuer BondDenom -> Q tt (set_ext x' w)) ->
  (forall e w', E e w') -> wlp (LockBond issuer amount) Q E w.
Proof.
  intros Ha HQ HE. unfold LockBond. rewrite one_coin_pos by done. wlp_steps; try done. simplify_eq.
  apply wlp_ext_send. intros x r S. rewrite (send_a2m _ _ _ _ _ _ Hrwa) in S. destruct r as [[]| |]; [|done..].
  apply send_ok in S as (t' & Hr & Tr & Hb). rewrite SendRestriction_other in Hr by done.
  injection Hr as <-. apply HQ; [done|]. specialize (Hb BondDenom).
  by rewrite coin_amt_single, decide_True in Hb.
Qed.

Lemma ReleaseBond_wlp issuer amount (Q : unit -> W -> Prop) (E : error -> W -> Prop) w : 0 < amount ->
  (forall x', transferred (w_ext w) x' ModuleAddress issuer [(BondDenom, amount)] -> Q tt (set_ext x' w)) ->
  (forall e w', E e w') -> wlp (ReleaseBond issuer amount) Q E w.
Proof.
  intros Ha HQ HE. unfold ReleaseBond. rewrite one_coin_pos by done. wlp_steps; try done. simplify_eq.
  apply wlp_ext_send. intros x r S. destruct r as [[]| |]; [|done..].
  destruct (BlockedAddr issuer) eqn:B.
  { destruct (send_m2a_blocked (send_restriction w) (w_ext w) _ issuer [(BondDenom, amount)] _ Hrwa B) as [e He].
    rewrite He in S. done. }
  rewrite (send_m2a _ _ _ _ _ _ Hrwa B) in S.
  apply send_ok in S as (t' & Hr & Tr & _). rewrite SendRestriction_other in Hr by done.
  injection Hr as <-. by apply HQ.
Qed.

Lemma SlashBond_wlp amount (Q : unit -> W -> Prop) (E : error -> W -> Prop) w : 0 < amount ->
  (forall x', transferred (w_ext w) x' ModuleAddress (GetModuleAddress "distribution") [(BondDenom, amount)] ->
     Q tt (set_ext x' w)) ->
  (forall e w', E e w') -> wlp (SlashBondToCommunityPool amount) Q E w.
Proof.
  intros Ha HQ HE. unfold SlashBondToCommunityPool. rewrite one_coin_pos by done. wlp_steps; try done. simplify_eq.
  apply wlp_ext_send. intros x r S. destruct r as [[]| |]; [|done..].
  apply fund_ok in S as (t' & Hr & Tr). rewrite SendRestriction_other in Hr by done.
  injection Hr as <-. by apply HQ.
Qed.

End Rwa.
