(* ===== verification/RwaMsg.v ===== *)
(** * x/rwa: the message server

    keeper/msg_server.go: the life of an asset from registration to settlement. *)

From S2P Require Import Prelude Sdk World SdkRef Wire OracleAgg RwaTypes RwaKeeper.

Open Scope Z_scope.

(** Field updates of an asset record. *)
Definition with_status (s : Z) (r : AssetRecord) : AssetRecord :=
  mkAssetRecord (ar_AssetId r) (ar_Issuer r) (ar_Name r) (ar_Description r) s (ar_OraclePair r)
    (ar_Denom r) (ar_Bond r) (ar_NotionalMinted r) (ar_AllowAll r) (ar_AttestedPrice r)
    (ar_AttestedAt r) (ar_CreatedAt r) (ar_SettledAt r).
Definition with_attestation (price : string) (t : Z) (r : AssetRecord) : AssetRecord :=
  mkAssetRecord (ar_AssetId r) (ar_Issuer r) (ar_Name r) (ar_Description r) (ar_Status r) (ar_OraclePair r)
    (ar_Denom r) (ar_Bond r) (ar_NotionalMinted r) (ar_AllowAll r) price
    t (ar_CreatedAt r) (ar_SettledAt r).
Definition with_notional (n : string) (r : AssetRecord) : AssetRecord :=
  mkAssetRecord (ar_AssetId r) (ar_Issuer r) (ar_Name r) (ar_Description r) (ar_Status r) (ar_OraclePair r)
    (ar_Denom r) (ar_Bond r) n (ar_AllowAll r) (ar_AttestedPrice r)
    (ar_AttestedAt r) (ar_CreatedAt r) (ar_SettledAt r).
Definition with_allow_all (b : bool) (r : AssetRecord) : AssetRecord :=
  mkAssetRecord (ar_AssetId r) (ar_Issuer r) (ar_Name r) (ar_Description r) (ar_Status r) (ar_OraclePair r)
    (ar_Denom r) (ar_Bond r) (ar_NotionalMinted r) b (ar_AttestedPrice r)
    (ar_AttestedAt r) (ar_CreatedAt r) (ar_SettledAt r).
Definition with_settled (t : Z) (r : AssetRecord) : AssetRecord :=
  mkAssetRecord (ar_AssetId r) (ar_Issuer r) (ar_Name r) (ar_Description r) (ar_Status r) (ar_OraclePair r)
    (ar_Denom r) (ar_Bond r) (ar_NotionalMinted r) (ar_AllowAll r) (ar_AttestedPrice r)
    (ar_AttestedAt r) (ar_CreatedAt r) t.
Definition with_bond (b : string) (r : AssetRecord) : AssetRecord :=
  mkAssetRecord (ar_AssetId r) (ar_Issuer r) (ar_Name r) (ar_Description r) (ar_Status r) (ar_OraclePair r)
    (ar_Denom r) b (ar_NotionalMinted r) (ar_AllowAll r) (ar_AttestedPrice r)
    (ar_AttestedAt r) (ar_CreatedAt r) (ar_SettledAt r).

Section RwaMsg.
Context {St X : Type} {KV : KVStore St} {SM : SdkMath} {CO : Coins} {BE : Bech32} {T : StdTime}
        {BK : BankKeeper X}.
Local Abbreviation W := (world St X).
Context {PO : PriceOracle W}.

Definition BlockTime : W -> res Z := fun w => Ok (w_time w).

Definition RegisterAsset (msg : MsgRegisterAsset) : M W unit :=
  _ ← lift (MsgRegisterAsset_ValidateBasic msg);
  found ← ask (GetAsset (ra_AssetId msg));
  _ ← guard_err (bool_decide (is_Some found)) ErrAssetExists;
  params ← ask GetParams;
  match NewIntFromString (ra_Bond msg) with
  | None => throw ErrInvalidAmount
  | Some bond =>
      minBond ← lift (deref (MinIssuerBondInt params));
      _ ← guard_err (bond <? minBond) ErrBondTooLow;
      issuer ← lift (AccAddressFromBech32 (ra_Issuer msg));
      _ ← LockBond issuer bond;
      now ← ask BlockTime;
      let rec := {|
        ar_AssetId := ra_AssetId msg;
        ar_Issuer := ra_Issuer msg;
        ar_Name := ra_Name msg;
        ar_Description := ra_Description msg;
        ar_Status := ASSET_STATUS_DRAFT;
        ar_OraclePair := ra_OraclePair msg;
        ar_Denom := BuildDenom (ra_AssetId msg);
        ar_Bond := IntString bond;
        ar_NotionalMinted := IntString 0;
        ar_AllowAll := true;
        ar_AttestedPrice := "";
        ar_AttestedAt := zero_time;
        ar_CreatedAt := now;
        ar_SettledAt := zero_time
      |} in
      _ ← SetAsset rec;
      emit EventTypeAssetRegistered
        [(AttributeKeyAssetID, ra_AssetId msg); (AttributeKeyIssuer, ra_Issuer msg);
         (AttributeKeyBond, IntString bond)]
  end.

Definition requireIssuer (assetID caller : string) (w : W) : res AssetRecord :=
  rec ← GetAsset assetID w;
  match rec with
  | None => Err ErrAssetNotFound
  | Some rec => if negb (bool_decide (ar_Issuer rec = caller)) then Err ErrUnauthorized else Ok rec
  end.

Definition AttestAsset (msg : MsgAttestAsset) : M W unit :=
  _ ← lift (MsgAttestAsset_ValidateBasic msg);
  rec ← ask (requireIssuer (aa_AssetId msg) (aa_Issuer msg));
  _ ← guard_err (negb (ar_Status rec =? ASSET_STATUS_DRAFT)) ErrInvalidStatus;
  price ← ask (fun w => wrap_err ErrAttestationFailed (GetPrice (ar_OraclePair rec) w));
  now ← ask BlockTime;
  let rec := with_attestation (DecString price) now (with_status ASSET_STATUS_ATTESTED rec) in
  _ ← SetAsset rec;
  emit EventTypeAssetAttested
    [(AttributeKeyAssetID, ar_AssetId rec); (AttributeKeyOraclePair, ar_OraclePair rec);
     (AttributeKeyAttestedPrice, ar_AttestedPrice rec)].

Definition MintRWA (msg : MsgMintRWA) : M W unit :=
  _ ← lift (MsgMintRWA_ValidateBasic msg);
  rec ← ask (requireIssuer (mr_AssetId msg) (mr_Issuer msg));
  _ ← guard_err (negb (ar_Status rec =? ASSET_STATUS_ATTESTED)
                 && negb (ar_Status rec =? ASSET_STATUS_ACTIVE)) ErrInvalidStatus;
  match NewIntFromString (mr_Notional msg) with
  | None => throw ErrInvalidNotional
  | Some notional =>
      _ ← guard_err (negb (0 <? notional)) ErrInvalidNotional;
      params ← ask GetParams;
      rate ← lift (MintFeeRateDec params);
      issuer ← lift (AccAddressFromBech32 (mr_Issuer msg));
      fee ← lift (ComputeFee notional rate);
      _ ← CollectFee issuer fee;
      mintCoins ← lift (one_coin (ar_Denom rec) notional);
      _ ← ext (fun x => MintCoins x ModuleName mintCoins);
      _ ← ext_send send_restriction (fun r x => SendCoinsFromModuleToAccount r x ModuleName issuer mintCoins);
      prev ← lift (deref (NewIntFromString (ar_NotionalMinted rec)));
      total ← lift (IntAdd prev notional);
      let rec := with_status ASSET_STATUS_ACTIVE (with_notional (IntString total) rec) in
      _ ← SetAsset rec;
      emit EventTypeRWAMinted
        [(AttributeKeyAssetID, ar_AssetId rec); (AttributeKeyNotional, IntString notional);
         (AttributeKeyMintFee, IntString fee)]
  end.

Definition TransferRWA (msg : MsgTransferRWA) : M W unit :=
  _ ← lift (MsgTransferRWA_ValidateBasic msg);
  found ← ask (GetAsset (tr_AssetId msg));
  match found with
  | None => throw ErrAssetNotFound
  | Some rec =>
      _ ← guard_err (negb (ar_Status rec =? ASSET_STATUS_ACTIVE)) ErrInvalidStatus;
      sender ← lift (AccAddressFromBech32 (tr_Sender msg));
      recipient ← lift (AccAddressFromBech32 (tr_Recipient msg));
      _ ← ask (CheckTransferAllowed (tr_AssetId msg) sender recipient);
      match NewIntFromString (tr_Amount msg) with
      | None => throw ErrInvalidAmount
      | Some amount =>
          _ ← guard_err (negb (0 <? amount)) ErrInvalidAmount;
          c ← lift (one_coin (ar_Denom rec) amount);
          _ ← ext_send send_restriction (fun r x => SendCoins r x sender recipient c);
          emit EventTypeRWATransferred
            [(AttributeKeyAssetID, ar_AssetId rec); (AttributeKeySender, tr_Sender msg);
             (AttributeKeyRecipient, tr_Recipient msg); (AttributeKeyAmount, IntString amount)]
      end
  end.

(** The closure [apply] of [UpdateRestrictions], with the function it applies. *)
Definition apply_list (assetID : string) (l : list string) (fn : string -> bytes -> M W unit) : M W unit :=
  mfor l (fun a => addr ← lift (AccAddressFromBech32 a); fn assetID addr).

Definition UpdateRestrictions (msg : MsgUpdateRestrictions) : M W unit :=
  _ ← lift (MsgUpdateRestrictions_ValidateBasic msg);
  rec ← ask (requireIssuer (ur_AssetId msg) (ur_Issuer msg));
  _ ← guard_err (ar_Status rec =? ASSET_STATUS_SETTLED) ErrInvalidStatus;
  _ ← apply_list (ur_AssetId msg) (ur_AddAllow msg) AddAllowlist;
  _ ← apply_list (ur_AssetId msg) (ur_DelAllow msg) DelAllowlist;
  _ ← apply_list (ur_AssetId msg) (ur_AddDeny msg) AddDenylist;
  _ ← apply_list (ur_AssetId msg) (ur_DelDeny msg) DelDenylist;
  let rec := with_allow_all (ur_AllowAll msg) rec in
  _ ← SetAsset rec;
  emit EventTypeRestrictionUpdated
    [(AttributeKeyAssetID, ar_AssetId rec); (AttributeKeyAllowAll, FormatBool (ar_AllowAll rec))].

Definition SettleRWA (msg : MsgSettleRWA) : M W unit :=
  _ ← lift (MsgSettleRWA_ValidateBasic msg);
  rec ← ask (requireIssuer (sr_AssetId msg) (sr_Issuer msg));
  _ ← guard_err (negb (ar_Status rec =? ASSET_STATUS_ACTIVE)) ErrInvalidStatus;
  issuer ← lift (AccAddressFromBech32 (sr_Issuer msg));
  params ← ask GetParams;
  rate ← lift (SettleFeeRateDec params);
  notionalMinted ← lift (deref (NewIntFromString (ar_NotionalMinted rec)));
  fee ← lift (ComputeFee notionalMinted rate);
  _ ← CollectFee issuer fee;
  burnCoins ← lift (one_coin (ar_Denom rec) notionalMinted);
  _ ← (if 0 <? notionalMinted then
         _ ← ext_send send_restriction (fun r x => SendCoinsFromAccountToModule r x issuer ModuleName burnCoins);
         ext (fun x => BurnCoins x ModuleName burnCoins)
       else mret tt);
  bond ← lift (deref (NewIntFromString (ar_Bond rec)));
  _ ← (if 0 <? bond then ReleaseBond issuer bond else mret tt);
  now ← ask BlockTime;
  let rec := with_settled now (with_status ASSET_STATUS_SETTLED rec) in
  _ ← SetAsset rec;
  emit EventTypeRWASettled
    [(AttributeKeyAssetID, ar_AssetId rec); (AttributeKeySettleFee, IntString fee);
     (AttributeKeyBondReturned, IntString bond)].

Definition SlashBond (k : Keeper) (msg : MsgSlashBond) : M W unit :=
  _ ← guard_err (negb (bool_decide (GetAuthority k = sb_Authority msg))) ErrUnauthorized;
  _ ← lift (MsgSlashBond_ValidateBasic msg);
  found ← ask (GetAsset (sb_AssetId msg));
  match found with
  | None => throw ErrAssetNotFound
  | Some rec =>
      _ ← guard_err (negb (ar_Status rec =? ASSET_STATUS_ACTIVE)) ErrInvalidStatus;
      bond ← lift (deref (NewIntFromString (ar_Bond rec)));
      _ ← (if 0 <? bond then SlashBondToCommunityPool bond else mret tt);
      now ← ask BlockTime;
      let rec := with_bond (IntString 0) (with_settled now (with_status ASSET_STATUS_SETTLED rec)) in
      _ ← SetAsset rec;
      emit EventTypeBondSlashed
        [(AttributeKeyAssetID, ar_AssetId rec); (AttributeKeyAmount, IntString bond);
         (AttributeKeyReason, sb_Reason msg)]
  end.

Definition UpdateParams (k : Keeper) (msg : MsgUpdateParams) : M W unit :=
  _ ← guard_err (negb (bool_decide (GetAuthority k = Authority msg))) ErrInvalidSigner;
  _ ← lift (MsgUpdateParams_ValidateBasic msg);
  _ ← SetParams (Params msg);
  emit EventTypeParamsUpdated [].

End RwaMsg.
