(* ===== verification/RwaInv.v ===== *)
(** * x/rwa: the invariant of the asset registry

    What holds of the module's store and of the ledger in every reachable state,
    the lemma that shows it of a state in which one record was rewritten, and the
    effect of each message on a state where it holds. *)

From S2P Require Import Prelude Sdk World SdkRef Wire OracleAgg RwaTypes RwaKeeper RwaMsg.

Open Scope Z_scope.

(** No message is near this size: a transaction is bounded by the block size. *)
Definition text_ok (s : string) : Prop := zlen (bytes_of s) <= 2 ^ 48.

Section RwaInv.
Context {St X : Type} {KV : KVStore St} {SM : SdkMath} {CO : Coins} {BE : Bech32} {T : StdTime}
        {BK : BankKeeper X}.
Local Abbreviation W := (world St X).
Context {PO : PriceOracle W} {POL : PriceOracleLaws W}.
Context {KVL : KVStoreLaws St} {SML : SdkMathLaws} {COL : CoinsLaws} {BEL : Bech32Laws} {TL : StdTimeLaws}.

(** ** The invariant *)

(** The strings of a record are small and its times encodable. *)
Definition rec_small (r : AssetRecord) : Prop :=
  Forall text_ok [ar_AssetId r; ar_Issuer r; ar_Name r; ar_Description r; ar_OraclePair r;
                  ar_Denom r; ar_Bond r; ar_NotionalMinted r; ar_AttestedPrice r] /\
  time_ok (ar_AttestedAt r) /\ time_ok (ar_CreatedAt r) /\ time_ok (ar_SettledAt r).

(** A record as the message server leaves it, on the ledger [x]: before
    settlement the bond is positive and the supply of the factory denom is the
    notional minted, which is zero until the first mint. *)
Record asset_ok (x : X) (r : AssetRecord) : Prop := mkAssetOk {
  ao_slug : slugRegex (ar_AssetId r) = true;
  ao_denom : ar_Denom r = BuildDenom (ar_AssetId r);
  ao_status : ASSET_STATUS_DRAFT <= ar_Status r <= ASSET_STATUS_SETTLED;
  ao_issuer : exists a, AccAddressFromBech32 (ar_Issuer r) = Ok a;
  ao_bond : exists b, NewIntFromString (ar_Bond r) = Some b /\
              (ar_Status r <> ASSET_STATUS_SETTLED -> 0 < b);
  ao_notional : exists n, NewIntFromString (ar_NotionalMinted r) = Some n /\ 0 <= n /\
              (ar_Status r <> ASSET_STATUS_SETTLED -> GetSupply x (ar_Denom r) = n) /\
              (ar_Status r <= ASSET_STATUS_ATTESTED -> n = 0);
  ao_small : rec_small r;
  ao_pair : pairRegex (ar_OraclePair r) = true
}.

(** The bond the module holds for a record. *)
Definition locked (r : AssetRecord) : Z :=
  if ar_Status r =? ASSET_STATUS_SETTLED then 0 else default 0 (NewIntFromString (ar_Bond r)).

Definition locked_of (v : bytes) : Z := match Unmarshal v with Ok r => locked r | _ => 0 end.

(** The stored parameters, if any, are valid ones. *)
Definition params_ok (m : gmap bytes bytes) : Prop :=
  forall bz, m !! KeyParams = Some bz -> exists p : RWAParams, Unmarshal bz = Ok p /\ Validate p = Ok tt.

Record rwa_inv (w : W) : Prop := mkRwaInv {
  inv_time : time_ok (w_time w);
  inv_params : params_ok (view RwaKey w);
  inv_assets : forall k v, view RwaKey w !! k = Some v -> KeyPrefixAsset `prefix_of` k ->
    exists r, Unmarshal v = Ok r /\ k = AssetKey (ar_AssetId r) /\ asset_ok (w_ext w) r;
  inv_bonds : kv_sum locked_of (view RwaKey w) KeyPrefixAsset
              <= GetBalance (w_ext w) ModuleAddress BondDenom;
  inv_unissued : forall id, slugRegex id = true -> view RwaKey w !! AssetKey id = None ->
    GetSupply (w_ext w) (BuildDenom id) = 0
}.

(** How a record may change in one message: nothing that identifies it; its status
    along the life cycle; nothing once it is settled. *)
Definition evolves (r r' : AssetRecord) : Prop :=
  (ar_AssetId r' = ar_AssetId r /\ ar_Issuer r' = ar_Issuer r /\ ar_Name r' = ar_Name r /\
   ar_Description r' = ar_Description r /\ ar_OraclePair r' = ar_OraclePair r /\
   ar_Denom r' = ar_Denom r /\ ar_CreatedAt r' = ar_CreatedAt r) /\
  ar_Status r <= ar_Status r' <= ar_Status r + 1 /\
  (ar_Status r = ASSET_STATUS_SETTLED -> r' = r) /\
  (ar_Status r' <> ASSET_STATUS_SETTLED -> ar_Bond r' = ar_Bond r).

(** ** Lemmas: records *)

Lemma text_ok_short s n : (length (bytes_of s) <= n)%nat -> Z.of_nat n <= 2 ^ 48 -> text_ok s.
Proof. unfold text_ok, zlen. lia. Qed.

Lemma rec_small_wf r : rec_small r -> ASSET_STATUS_DRAFT <= ar_Status r <= ASSET_STATUS_SETTLED -> wf_msg r.
Proof.
  intros (Hs & Ha & Hc & Hse) Hst. unfold ASSET_STATUS_DRAFT, ASSET_STATUS_SETTLED in Hst.
  split; [|split_and!; try done; lia]. unfold AssetRecord_Size.
  rewrite !Forall_cons in Hs. destruct Hs as (H1 & H2 & H3 & H4 & H5 & H6 & H7 & H8 & H9 & _).
  unfold text_ok in *.
  repeat match goal with |- context [size_string ?s] =>
    pose proof (size_string_le s ltac:(unfold two64; lia)); generalize dependent (size_string s); intros end.
  pose proof (size_int_le (ar_Status r)). pose proof (size_time_le _ Ha).
  pose proof (size_time_le _ Hc). pose proof (size_time_le _ Hse).
  assert (size_bool (ar_AllowAll r) <= 2) by (by destruct (ar_AllowAll r)).
  unfold two63. lia.
Qed.

Lemma asset_ok_ext x x' r : asset_ok x r ->
  GetSupply x' (ar_Denom r) = GetSupply x (ar_Denom r) -> asset_ok x' r.
Proof. intros [] E. constructor; try done. by rewrite E. Qed.

Lemma DefaultParams_valid : Validate DefaultParams = Ok tt.
Proof.
  apply RWAParams_Validate_spec. unfold DefaultParams. cbn [MinIssuerBond MintFeeRate SettleFeeRate].
  split_and!; eexists; (split; [first [apply int_print|apply dec_print]|]); by vm_compute.
Qed.

Lemma params_ok_get (w : W) : params_ok (view RwaKey w) -> exists p, GetParams w = Ok p /\ Validate p = Ok tt.
Proof.
  intros Hp. rewrite rwa_GetParams_view. destruct (view RwaKey w !! KeyParams) as [bz|] eqn:E.
  - destruct (Hp bz E) as (p & Hu & Hv). exists p. unfold MustUnmarshal. by rewrite Hu.
  - exists DefaultParams. split; [done|apply DefaultParams_valid].
Qed.

Lemma evolves_refl r : evolves r r.
Proof. repeat split; try done; lia. Qed.

(** ** Lemmas: the store *)

Definition asset_key (k : bytes) : Prop := KeyPrefixAsset `prefix_of` k.

Lemma asset_key_AssetKey id : asset_key (AssetKey id).
Proof. by eexists. Qed.

Lemma stored_agree (w w' : W) id r : agree RwaKey asset_key w w' -> stored w' id r <-> stored w id r.
Proof. intros Ha. unfold stored. by rewrite (Ha _ (asset_key_AssetKey id)). Qed.

Lemma inv_stored w id r : rwa_inv w -> stored w id r -> ar_AssetId r = id /\ asset_ok (w_ext w) r.
Proof.
  intros Hi (bz & Hv & Hu). destruct (inv_assets _ Hi _ _ Hv (asset_key_AssetKey id)) as (r' & Hu' & Hk & Ho).
  rewrite Hu in Hu'. injection Hu' as <-. split; [|done]. by apply AssetKey_inj in Hk.
Qed.

Lemma inv_decode w : rwa_inv w -> assets_decode w.
Proof.
  intros Hi id bz Hv. destruct (inv_assets _ Hi _ _ Hv (asset_key_AssetKey id)) as (r & Hu & Hk & _).
  exists r. split; [done|]. by apply AssetKey_inj in Hk.
Qed.

(** The registry is untouched, the ledger keeps the supplies of factory denoms
    and does not take bonds away. *)
Lemma inv_agree w w' : rwa_inv w -> agree RwaKey asset_key w w' -> params_ok (view RwaKey w') ->
  time_ok (w_time w') ->
  (forall id, slugRegex id = true -> GetSupply (w_ext w') (BuildDenom id) = GetSupply (w_ext w) (BuildDenom id)) ->
  GetBalance (w_ext w) ModuleAddress BondDenom <= GetBalance (w_ext w') ModuleAddress BondDenom ->
  rwa_inv w'.
Proof.
  intros Hi Ha Hp Ht Hs Hb. constructor; [done|done| | |].
  all: clear Hp.
  - intros k v Hv Hp. rewrite (Ha k Hp) in Hv. destruct (inv_assets _ Hi _ _ Hv Hp) as (r & Hu & Hk & Ho).
    exists r. split_and!; try done. apply (asset_ok_ext (w_ext w)); [done|].
    destruct Ho as [Hsl Hd]. rewrite Hd. by apply Hs.
  - rewrite (kv_sum_ext _ _ (view RwaKey w)) by (intros; by apply Ha). pose proof (inv_bonds _ Hi). lia.
  - intros id Hsl Hn. rewrite Hs by done. rewrite (Ha _ (asset_key_AssetKey id)) in Hn. by apply (inv_unissued _ Hi).
Qed.

Lemma inv_add_event ev w : rwa_inv w -> rwa_inv (add_event ev w).
Proof. intros []. by constructor. Qed.

(** One record is written: [old] is the one it replaces. *)
Definition replaces (w : W) (old : option AssetRecord) (id : string) : Prop :=
  match old with
  | Some r => stored w id r
  | None => view RwaKey w !! AssetKey id = None
  end.

Lemma index_upd_asset issuer id m k : asset_key k -> index_upd issuer id m !! k = m !! k.
Proof. intros [t ->]. unfold index_upd. by rewrite lookup_insert_ne. Qed.

Lemma asset_written (w1 w' : W) issuer id bz r' : ar_AssetId r' = id -> Unmarshal bz = Ok r' ->
  store_upd RwaKey (index_upd issuer id (<[AssetKey id := bz]> (view RwaKey w1))) w1 w' ->
  stored w' id r' /\ (forall k, asset_key k -> k <> AssetKey id -> view RwaKey w' !! k = view RwaKey w1 !! k).
Proof.
  intros Hid Hu (V & _). split.
  - exists bz. split; [|done]. by rewrite V, index_upd_asset, lookup_insert_eq by apply asset_key_AssetKey.
  - intros k Hk Hne. by rewrite V, index_upd_asset, lookup_insert_ne.
Qed.

Lemma inv_write (w w1 w' : W) issuer old r' bz :
  rwa_inv w -> replaces w old (ar_AssetId r') -> agree RwaKey asset_key w w1 ->
  view RwaKey w1 !! KeyParams = view RwaKey w !! KeyParams -> w_time w1 = w_time w ->
  asset_ok (w_ext w1) r' ->
  (forall id, id <> ar_AssetId r' ->
     GetSupply (w_ext w1) (BuildDenom id) = GetSupply (w_ext w) (BuildDenom id)) ->
  locked r' - match old with Some r => locked r | None => 0 end
    <= GetBalance (w_ext w1) ModuleAddress BondDenom - GetBalance (w_ext w) ModuleAddress BondDenom ->
  Unmarshal bz = Ok r' ->
  store_upd RwaKey (index_upd issuer (ar_AssetId r') (<[AssetKey (ar_AssetId r') := bz]> (view RwaKey w1))) w1 w' ->
  rwa_inv w'.
Proof.
  intros Hi Hold Ha Hpar Ht Hok Hs Hb Hu U. pose proof U as (V & _ & EX & _ & ET & _).
  destruct (asset_written _ _ _ _ _ _ eq_refl Hu U) as [Hst Hne].
  constructor.
  - rewrite ET, Ht. apply Hi.
  - intros bz'. rewrite V. unfold index_upd. rewrite !lookup_insert_ne, Hpar by done. apply (inv_params _ Hi).
  - rewrite EX. intros k v Hv Hp. destruct (decide (k = AssetKey (ar_AssetId r'))) as [->|Hk].
    + destruct Hst as (bz' & Hv' & Hu'). rewrite Hv in Hv'. injection Hv' as <-. by exists r'.
    + rewrite (Hne k Hp Hk), (Ha k Hp) in Hv. destruct (inv_assets _ Hi _ _ Hv Hp) as (r & Hr & Ek & Ho).
      exists r. split_and!; try done. apply (asset_ok_ext (w_ext w)); [done|].
      destruct Ho as [_ Hd]. rewrite Hd. apply Hs. congruence.
  - rewrite EX, V, (kv_sum_ext _ _ (<[AssetKey (ar_AssetId r') := bz]> (view RwaKey w1)))
      by (intros; by apply index_upd_asset).
    rewrite kv_sum_insert by apply asset_key_AssetKey.
    rewrite (kv_sum_ext _ _ (view RwaKey w)) by (intros; by apply Ha).
    rewrite (Ha _ (asset_key_AssetKey _)).
    assert (match view RwaKey w !! AssetKey (ar_AssetId r') with Some v0 => locked_of v0 | None => 0 end
            = match old with Some r => locked r | None => 0 end) as ->.
    { destruct old as [r|]; unfold replaces in Hold; [|by rewrite Hold]. destruct Hold as (b0 & -> & Hu0).
      unfold locked_of. by rewrite Hu0. }
    unfold locked_of at 2. rewrite Hu. pose proof (inv_bonds _ Hi). lia.
  - rewrite EX. intros id Hsl Hn. destruct (decide (id = ar_AssetId r')) as [->|Hid].
    + destruct Hst as (? & Hv & _). by rewrite Hv in Hn.
    + rewrite Hs by done. apply (inv_unissued _ Hi); [done|].
      rewrite <- (Ha _ (asset_key_AssetKey id)), <- Hne; [done|apply asset_key_AssetKey|].
      intros E. by apply AssetKey_inj in E.
Qed.

(** Every record of [w] has evolved into one of [w']. *)
Definition registry_evolves (w w' : W) : Prop :=
  forall id r, stored w id r -> exists r', stored w' id r' /\ evolves r r'.

Lemma registry_agree w w' : agree RwaKey asset_key w w' -> registry_evolves w w'.
Proof. intros Ha id r Hs. exists r. split; [by apply (stored_agree w)|apply evolves_refl]. Qed.

Lemma stored_inj (w : W) id r r' : stored w id r -> stored w id r' -> r = r'.
Proof. intros (b & H1 & H2) (b' & H3 & H4). congruence. Qed.

Lemma registry_write (w w1 w' : W) issuer old r' bz :
  replaces w old (ar_AssetId r') -> agree RwaKey asset_key w w1 ->
  match old with Some r => evolves r r' | None => True end -> Unmarshal bz = Ok r' ->
  store_upd RwaKey (index_upd issuer (ar_AssetId r') (<[AssetKey (ar_AssetId r') := bz]> (view RwaKey w1))) w1 w' ->
  registry_evolves w w'.
Proof.
  intros Hold Ha He Hu U id r Hr. destruct (asset_written _ _ _ _ _ _ eq_refl Hu U) as [Hst Hne].
  destruct (decide (id = ar_AssetId r')) as [->|Hid].
  - destruct old as [r0|]; unfold replaces in Hold.
    + rewrite (stored_inj _ _ _ _ Hr Hold). eauto.
    + destruct Hr as (? & Hr & _). by rewrite Hold in Hr.
  - exists r. split; [|apply evolves_refl]. destruct Hr as (b & Hv & Hb). exists b. split; [|done].
    rewrite Hne, Ha; [done|apply asset_key_AssetKey..|]. intros E. by apply AssetKey_inj in E.
Qed.

(** ** The effect of each message *)

(** Exactly one record was written, with its index entry. *)
Definition record_set (w w' : W) (issuer : bytes) (r : AssetRecord) : Prop :=
  exists bz, Unmarshal bz = Ok r /\
    view RwaKey w' = index_upd issuer (ar_AssetId r) (<[AssetKey (ar_AssetId r) := bz]> (view RwaKey w)) /\
    (forall sk, sk <> RwaKey -> get_store sk w' = get_store sk w).

Lemma record_set_upd w x bz w1 w' issuer r ev : w1 = set_ext x w -> Unmarshal bz = Ok r ->
  store_upd RwaKey (index_upd issuer (ar_AssetId r) (<[AssetKey (ar_AssetId r) := bz]> (view RwaKey w1))) w1 w' ->
  record_set w (add_event ev w') issuer r.
Proof.
  intros -> Hu (V & O & _). exists bz. split; [done|]. rewrite view_add_event, V, view_set_ext. split; [done|].
  intros sk Hsk. transitivity (get_store sk w'); [by destruct sk|]. rewrite O by done. by destruct sk.
Qed.

Lemma record_set_stored w w' issuer r : record_set w w' issuer r -> stored w' (ar_AssetId r) r.
Proof.
  intros (bz & Hu & V & _). exists bz. split; [|done].
  by rewrite V, index_upd_asset, lookup_insert_eq by apply asset_key_AssetKey.
Qed.

Lemma record_set_inv w w' issuer old r' :
  rwa_inv w -> record_set w w' issuer r' -> w_time w' = w_time w -> replaces w old (ar_AssetId r') ->
  asset_ok (w_ext w') r' ->
  (forall id, id <> ar_AssetId r' ->
     GetSupply (w_ext w') (BuildDenom id) = GetSupply (w_ext w) (BuildDenom id)) ->
  locked r' - match old with Some r => locked r | None => 0 end
    <= GetBalance (w_ext w') ModuleAddress BondDenom - GetBalance (w_ext w) ModuleAddress BondDenom ->
  rwa_inv w'.
Proof.
  intros Hi (bz & Hu & V & O) Ht Hold Hok Hs Hb.
  eapply (inv_write w (mkWorld (w_fees w') (w_oracle w') (w_rwa w) (w_ext w') (w_height w') (w_time w') (w_events w'))
    w' issuer old r' bz); try done.
  split; [exact V|]. split; [|done]. intros sk Hsk. by destruct sk.
Qed.

Lemma record_set_evolves w w' issuer old r' :
  record_set w w' issuer r' -> replaces w old (ar_AssetId r') ->
  match old with Some r => evolves r r' | None => True end -> registry_evolves w w'.
Proof.
  intros (bz & Hu & V & O) Hold He.
  eapply (registry_write w (mkWorld (w_fees w') (w_oracle w') (w_rwa w) (w_ext w') (w_height w') (w_time w') (w_events w'))
    w' issuer old r' bz); try done.
  split; [exact V|]. split; [|done]. intros sk Hsk. by destruct sk.
Qed.

Context (perms : list (string * list string)) {BKL : BankLaws X perms}.
Context (prwa pcol pdist : list string) (Hrwa : (ModuleName, prwa) ∈ perms)
        (Hcol : (FeeCollectorName, pcol) ∈ perms) (Hdist : ("distribution"%string, pdist) ∈ perms).

Lemma collector_not_module : GetModuleAddress FeeCollectorName <> ModuleAddress.
Proof. intros E. by apply (module_address_inj _ _ _ _ Hcol Hrwa) in E. Qed.

Lemma distribution_not_module : GetModuleAddress "distribution" <> ModuleAddress.
Proof. intros E. by apply (module_address_inj _ _ _ _ Hdist Hrwa) in E. Qed.

(** The record that a registration creates. *)
Definition registered (msg : MsgRegisterAsset) (bond now : Z) : AssetRecord :=
  mkAssetRecord (ra_AssetId msg) (ra_Issuer msg) (ra_Name msg) (ra_Description msg) ASSET_STATUS_DRAFT
    (ra_OraclePair msg) (BuildDenom (ra_AssetId msg)) (IntString bond) (IntString 0) true ""
    zero_time now zero_time.

Definition register_effect (msg : MsgRegisterAsset) (w w' : W) : Prop :=
  exists issuer bond params minBond,
    AccAddressFromBech32 (ra_Issuer msg) = Ok issuer /\ slugRegex (ra_AssetId msg) = true /\
    ra_Name msg <> ""%string /\ pairRegex (ra_OraclePair msg) = true /\
    view RwaKey w !! AssetKey (ra_AssetId msg) = None /\
    NewIntFromString (ra_Bond msg) = Some bond /\ 0 < bond /\
    GetParams w = Ok params /\ MinIssuerBondInt params = Some minBond /\ minBond <= bond /\
    transferred (w_ext w) (w_ext w') issuer ModuleAddress [(BondDenom, bond)] /\
    record_set w w' issuer (registered msg bond (w_time w)).

Definition register_small (msg : MsgRegisterAsset) : Prop :=
  Forall text_ok [ra_Issuer msg; ra_Name msg; ra_Description msg; ra_OraclePair msg].

Lemma zero_time_ok : time_ok zero_time.
Proof. unfold time_ok, zero_time, Second. lia. Qed.

Lemma IntString_text z : Z.abs z < int_limit -> text_ok (IntString z).
Proof. intros Hz. by apply (text_ok_short _ 300), Z.leb_le; [apply int_print_short|]. Qed.

Lemma slug_text id : slugRegex id = true -> text_ok id /\ text_ok (BuildDenom id).
Proof.
  intros H%slug_length. unfold text_ok, BuildDenom, zlen. rewrite bytes_of_app, length_app. cbn. lia.
Qed.

Lemma registered_wf msg bond now : register_small msg -> slugRegex (ra_AssetId msg) = true ->
  Z.abs bond < int_limit -> time_ok now -> rec_small (registered msg bond now).
Proof.
  unfold register_small, rec_small. rewrite !Forall_cons.
  intros (H1 & H2 & H3 & H4 & _) [Hs1 Hs2]%slug_text Hb Ht. cbn.
  split_and!; try done; try apply zero_time_ok; try by apply IntString_text.
Qed.

Lemma MsgRegisterAsset_ValidateBasic_Ok m : MsgRegisterAsset_ValidateBasic m = Ok tt ->
  slugRegex (ra_AssetId m) = true /\ ra_Name m <> ""%string /\ pairRegex (ra_OraclePair m) = true /\
  exists v, NewIntFromString (ra_Bond m) = Some v /\ 0 < v.
Proof.
  unfold MsgRegisterAsset_ValidateBasic.
  intros (a & _ & [H1%ValidateAssetID_Ok H2]%seq_unit_Ok)%res_bind_Ok.
  case_bool_decide; [done|]. destruct (pairRegex (ra_OraclePair m)); [|done].
  by apply validatePositiveInt_spec in H2.
Qed.

Lemma RegisterAsset_wlp msg w : rwa_inv w -> register_small msg ->
  wlp (RegisterAsset msg) (fun _ w' => register_effect msg w w' /\ w_time w' = w_time w) (fun _ _ => True) w.
Proof.
  intros Hi Hsm. unfold RegisterAsset. wlp_steps; try done.
  destruct a. match goal with H : MsgRegisterAsset_ValidateBasic _ = _ |- _ =>
    apply MsgRegisterAsset_ValidateBasic_Ok in H as (Hsl & Hname & Hpair & v & Hv & Hpos) end.
  rewrite Hv. wlp_steps; try done. apply (LockBond_wlp perms prwa Hrwa); [done| |done].
  intros x' Tr Hb. wlp_steps; try done.
  match goal with H : BlockTime _ = Ok _ |- _ => injection H as <- end.
  match goal with H : AccAddressFromBech32 _ = Ok ?i |- _ => rename i into issuer; rename H into Hiss end.
  pose proof (int_parse_range _ _ Hv) as Hr.
  pose proof (registered_wf msg v (w_time w) Hsm Hsl Hr (inv_time _ Hi)) as Hrs.
  apply (SetAsset_wlp _ issuer); [by apply rec_small_wf|done|].
  intros w' bz Hu U. apply wlp_emit. split; [|destruct U as (_ & _ & _ & _ & ET & _); by cbn; rewrite ET].
  match goal with H : (?bb <? ?mb) = false, G : GetParams w = Ok ?pp, D : deref _ = _ |- _ =>
    exists issuer, bb, pp, mb; apply Z.ltb_ge in H end.
  split_and!; try done.
  - match goal with H : bool_decide (is_Some ?f) = false, G : GetAsset _ w = Ok ?f |- _ =>
      apply bool_decide_eq_false in H; destruct f; [by destruct H; eauto|]; by apply GetAsset_None end.
  - by apply deref_Ok.
  - destruct U as (_ & _ & EX & _). cbn. by rewrite EX.
  - by eapply record_set_upd; [reflexivity|exact Hu|exact U].
Qed.

Lemma requireIssuer_Ok id caller r (w : W) :
  requireIssuer id caller w = Ok r <-> stored w id r /\ ar_Issuer r = caller.
Proof.
  unfold requireIssuer. rewrite <- GetAsset_stored. destruct (GetAsset id w) as [[r'|]| |]; cbn [mbind res_bind];
    try (split; [done|by intros [? _]]).
  destruct (decide (ar_Issuer r' = caller)) as [E|E].
  - rewrite bool_decide_eq_true_2 by done. cbn. split; [by intros [= ->]|by intros [[= ->] _]].
  - rewrite bool_decide_eq_false_2 by done. cbn. split; [done|]. by intros [[= ->] ?].
Qed.

(** *** Attestation *)

Definition attested (price now : Z) (r : AssetRecord) : AssetRecord :=
  with_attestation (DecString price) now (with_status ASSET_STATUS_ATTESTED r).

Definition attest_effect (msg : MsgAttestAsset) (w w' : W) : Prop :=
  exists r issuer price,
    stored w (aa_AssetId msg) r /\ ar_Issuer r = aa_Issuer msg /\
    AccAddressFromBech32 (ar_Issuer r) = Ok issuer /\ ar_Status r = ASSET_STATUS_DRAFT /\
    GetPrice (ar_OraclePair r) w = Ok price /\ w_ext w' = w_ext w /\
    record_set w w' issuer (attested price (w_time w) r).

Lemma attested_small price now r : rec_small r -> Z.abs price < dec_limit -> time_ok now ->
  rec_small (attested price now r).
Proof.
  unfold rec_small. rewrite !Forall_cons. intros ((H1 & H2 & H3 & H4 & H5 & H6 & H7 & H8 & _ & _) & _ & Hc & Hs) Hp Ht.
  cbn. split_and!; try done. apply (text_ok_short _ 400); [by apply dec_print_short|done].
Qed.

Lemma AttestAsset_wlp msg w : rwa_inv w ->
  wlp (AttestAsset msg) (fun _ w' => attest_effect msg w w' /\ w_time w' = w_time w) (fun _ _ => True) w.
Proof.
  intros Hi. unfold AttestAsset. wlp_steps; try done.
  match goal with H : requireIssuer _ _ _ = Ok ?x |- _ => apply requireIssuer_Ok in H as [Hst Hc]; rename x into r end.
  destruct (inv_stored _ _ _ Hi Hst) as [Hid Hok]. destruct (ao_issuer _ _ Hok) as [issuer Hiss].
  match goal with H : BlockTime _ = Ok _ |- _ => injection H as <- end.
  match goal with H : wrap_err _ _ = Ok ?x |- _ => apply wrap_err_Ok in H as Hp; rename x into price end.
  match goal with H : negb _ = false |- _ => apply negb_false_iff, Z.eqb_eq in H as Hs end.
  fold (attested price (w_time w) r).
  apply (SetAsset_wlp _ issuer); [apply rec_small_wf; [|done]|done|].
  { apply attested_small; [apply Hok|by apply price_range in Hp|apply Hi]. }
  intros w' bz Hu U. apply wlp_emit.
  split; [|destruct U as (_ & _ & _ & _ & ET & _); by cbn; rewrite ET].
  exists r, issuer, price. split_and!; try done; [by destruct U as (_ & _ & EX & _)|].
  destruct U as (V & O & U). exists bz. split_and!; [done|by rewrite view_add_event|].
  intros sk Hsk. rewrite <- O by done. by destruct sk.
Qed.

(** *** Minting *)

Definition minted (total : Z) (r : AssetRecord) : AssetRecord :=
  with_status ASSET_STATUS_ACTIVE (with_notional (IntString total) r).

(** [n] of [d] is created at [a], which pays [fee] in uvtx to the fee collector. *)
Definition mint_ledger (x x' : X) (a : bytes) (d : string) (n fee : Z) : Prop :=
  (forall b d', GetBalance x' b d' = GetBalance x b d'
     + (if decide (b = a /\ d' = d) then n else 0)
     - (if decide (b = a /\ d' = BondDenom) then fee else 0)
     + (if decide (b = GetModuleAddress FeeCollectorName /\ d' = BondDenom) then fee else 0)) /\
  (forall d', GetSupply x' d' = GetSupply x d' + (if decide (d' = d) then n else 0)).

Definition mint_effect (msg : MsgMintRWA) (w w' : W) : Prop :=
  exists r issuer prev n params rate,
    stored w (mr_AssetId msg) r /\ ar_Issuer r = mr_Issuer msg /\
    AccAddressFromBech32 (ar_Issuer r) = Ok issuer /\
    (ar_Status r = ASSET_STATUS_ATTESTED \/ ar_Status r = ASSET_STATUS_ACTIVE) /\
    NewIntFromString (mr_Notional msg) = Some n /\ 0 < n /\
    NewIntFromString (ar_NotionalMinted r) = Some prev /\ prev + n < int_limit /\
    GetParams w = Ok params /\ MintFeeRateDec params = Ok rate /\
    mint_ledger (w_ext w) (w_ext w') issuer (ar_Denom r) n (n * rate / dec_one) /\
    record_set w w' issuer (minted (prev + n) r).

Lemma minted_small total r : rec_small r -> Z.abs total < int_limit -> rec_small (minted total r).
Proof.
  unfold rec_small. rewrite !Forall_cons. intros ((H1 & H2 & H3 & H4 & H5 & H6 & H7 & _ & H9 & _) & Ht) Hp.
  cbn. split; [|done]. split_and!; try done. by apply IntString_text.
Qed.

Lemma mint_ledger_comp x x1 x2 x3 a d n fee :
  transferred x x1 a (GetModuleAddress FeeCollectorName) [(BondDenom, fee)] ->
  created 1 x1 x2 ModuleAddress [(d, n)] -> transferred x2 x3 ModuleAddress a [(d, n)] ->
  mint_ledger x x3 a d n fee.
Proof.
  intros [A1 A2] [B1 B2] [C1 C2]. split.
  - intros b d'. rewrite C1, B1, A1, !coin_amt_single. repeat case_decide; naive_solver lia.
  - intros d'. rewrite C2, B2, A2, !coin_amt_single. repeat case_decide; naive_solver lia.
Qed.

Lemma fee_nonneg n rate fee : 0 < n < int_limit -> 0 <= rate < dec_one -> ComputeFee n rate = Ok fee ->
  fee = n * rate / dec_one /\ 0 <= fee.
Proof.
  intros Hn Hr E. rewrite ComputeFee_run in E by (done || lia). case_decide; [|done]. injection E as <-.
  split; [done|]. apply Z.div_pos; [nia|done].
Qed.

Lemma mint_rate_ok (w : W) params rate : rwa_inv w -> GetParams w = Ok params -> MintFeeRateDec params = Ok rate ->
  0 <= rate < dec_one.
Proof.
  intros Hi Hp Hr. destruct (params_ok_get w (inv_params _ Hi)) as (p & Hg & Hv).
  rewrite Hp in Hg. injection Hg as <-. apply RWAParams_Validate_spec in Hv as (_ & (d & Hd & ?) & _).
  unfold MintFeeRateDec in Hr. rewrite Hd in Hr. by injection Hr as <-.
Qed.

Lemma MintRWA_wlp msg w : rwa_inv w ->
  wlp (MintRWA msg) (fun _ w' => mint_effect msg w w' /\ w_time w' = w_time w) (fun _ _ => True) w.
Proof.
  intros Hi. unfold MintRWA. wlp_steps; try done.
  match goal with H : requireIssuer _ _ _ = Ok ?x |- _ => apply requireIssuer_Ok in H as [Hst Hc]; rename x into r end.
  destruct (inv_stored _ _ _ Hi Hst) as [Hid Hok]. destruct (ao_issuer _ _ Hok) as [issuer Hiss].
  destruct (ao_notional _ _ Hok) as (prev & Hprev & Hp0 & Hsup & _).
  destruct (NewIntFromString (mr_Notional msg)) as [n|] eqn:Hn; wlp_steps; try done.
  match goal with H : AccAddressFromBech32 (mr_Issuer msg) = Ok _ |- _ => rewrite <- Hc, Hiss in H; injection H as <- end.
  match goal with H : negb (0 <? n) = false |- _ => apply negb_false_iff, Z.ltb_lt in H as Hpos end.
  match goal with H : ComputeFee _ ?rt = Ok ?f, G : GetParams w = Ok ?pp |- _ =>
    rename rt into rate; rename f into fee; rename pp into params; rename H into Hfee; rename G into Hpar end.
  pose proof (mint_rate_ok w params rate Hi Hpar ltac:(done)) as Hrate.
  pose proof (int_parse_range _ _ Hn) as Hrn.
  destruct (fee_nonneg n rate fee ltac:(lia) Hrate Hfee) as [-> Hf0].
  apply (CollectFee_wlp perms pcol Hcol); [done| |done]. intros x1 Tr1 _. wlp_steps; try done.
  rewrite one_coin_pos in * by (done || rewrite (ao_denom _ _ Hok); by apply slug_denom_ok, Hok). simplify_eq.
  apply wlp_ext. intros x2 r2 S2. destruct r2 as [u| |]; [|done..]. apply mint_ok in S2.
  wlp_steps. apply wlp_ext_send. intros x3 r3 S3. destruct r3 as [u3| |]; [|done..].
  destruct (BlockedAddr issuer) eqn:B.
  { edestruct (send_m2a_blocked (send_restriction (set_ext x2 (set_ext x1 w)))) as [e He]; [exact Hrwa|exact B|].
    rewrite He in S3. done. }
  rewrite (send_m2a _ _ _ _ _ _ Hrwa B) in S3. apply send_ok in S3 as (t' & Hr & Tr3 & _).
  rewrite SendRestriction_module in Hr by (by left). injection Hr as <-.
  wlp_steps; try done.
  match goal with H : deref _ = Ok _ |- _ => apply deref_Ok in H; rewrite Hprev in H; injection H as <- end.
  match goal with H : IntAdd _ _ = Ok _ |- _ => rewrite int_add in H; case_decide; [|done]; injection H as <- end.
  fold (minted (prev + n) r). apply (SetAsset_wlp _ issuer); [apply rec_small_wf; [|done]|done|].
  { apply minted_small; [apply Hok|done]. }
  intros w' bz Hu U. apply wlp_emit.
  split; [|destruct U as (_ & _ & _ & _ & ET & _); by cbn; rewrite ET].
  exists r, issuer, prev, n, params, rate. split_and!; try done; try lia.
  - destruct U as (_ & _ & EX & _). cbn. rewrite EX. cbn in S2, Tr3 |- *. by eapply mint_ledger_comp.
  - by eapply (record_set_upd w x3 bz); [|exact Hu|exact U].
Qed.

(** *** Transfers *)

Definition transfer_effect (msg : MsgTransferRWA) (w w' : W) : Prop :=
  exists r sender recipient amount,
    stored w (tr_AssetId msg) r /\ ar_Status r = ASSET_STATUS_ACTIVE /\
    AccAddressFromBech32 (tr_Sender msg) = Ok sender /\
    AccAddressFromBech32 (tr_Recipient msg) = Ok recipient /\
    leg_allowed (tr_AssetId msg) sender recipient w /\
    NewIntFromString (tr_Amount msg) = Some amount /\ 0 < amount /\
    transferred (w_ext w) (w_ext w') sender recipient [(ar_Denom r, amount)] /\
    (forall sk, get_store sk w' = get_store sk w).

Lemma TransferRWA_wlp msg w : rwa_inv w ->
  wlp (TransferRWA msg) (fun _ w' => transfer_effect msg w w' /\ w_time w' = w_time w) (fun _ _ => True) w.
Proof.
  intros Hi. unfold TransferRWA. wlp_steps; try done.
  match goal with H : GetAsset _ _ = Ok ?f |- _ => destruct f as [r|]; [apply GetAsset_stored in H as Hst|] end;
    wlp_steps; try done.
  destruct (NewIntFromString (tr_Amount msg)) as [amount|] eqn:Ha; wlp_steps; try done.
  destruct (inv_stored _ _ _ Hi Hst) as [Hid Hok].
  match goal with H : negb (0 <? _) = false |- _ => apply negb_false_iff, Z.ltb_lt in H as Hpos end.
  rewrite one_coin_pos in * by (done || rewrite (ao_denom _ _ Hok); by apply slug_denom_ok, Hok). simplify_eq.
  apply wlp_ext_send. intros x r1 S. destruct r1 as [u| |]; [|done..].
  apply wlp_emit. split; [|done].
  match goal with H1 : AccAddressFromBech32 (tr_Sender msg) = Ok ?s, H2 : AccAddressFromBech32 (tr_Recipient msg) = Ok ?t,
    H : CheckTransferAllowed _ _ _ _ = Ok _ |- _ => rename H into Hc, s into sender, t into recipient end.
  exists r, sender, recipient, amount.
  apply send_ok in S as (t' & Hr & Tr & _).
  destruct (SendRestriction_cases sender recipient [(ar_Denom r, amount)] w (inv_decode _ Hi)) as [[E _]|[_ [E|E]]];
    unfold send_restriction in Hr; rewrite E in Hr; [injection Hr as <-|done..].
  split_and!; try done; [lia|].
  destruct (CheckTransfer_leg (tr_AssetId msg) sender recipient w (inv_decode _ Hi)) as [[_ Hl]|[_ [E'|E']]]; [exact Hl| |];
    rewrite E' in Hc; done.
Qed.

(** *** Settlement and slashing *)

Definition settled (now : Z) (r : AssetRecord) : AssetRecord :=
  with_settled now (with_status ASSET_STATUS_SETTLED r).

Definition slashed (now : Z) (r : AssetRecord) : AssetRecord := with_bond (IntString 0) (settled now r).

(** The issuer [a] gives up [n] of [d] and the settlement fee, and gets its bond. *)
Definition settle_ledger (x x' : X) (a : bytes) (d : string) (n fee bond : Z) : Prop :=
  (forall b d', GetBalance x' b d' = GetBalance x b d'
     - (if decide (b = a /\ d' = d) then n else 0)
     - (if decide (b = a /\ d' = BondDenom) then fee else 0)
     + (if decide (b = GetModuleAddress FeeCollectorName /\ d' = BondDenom) then fee else 0)
     + (if decide (b = a /\ d' = BondDenom) then bond else 0)
     - (if decide (b = ModuleAddress /\ d' = BondDenom) then bond else 0)) /\
  (forall d', GetSupply x' d' = GetSupply x d' - (if decide (d' = d) then n else 0)).

Definition settle_effect (msg : MsgSettleRWA) (w w' : W) : Prop :=
  exists r issuer n bond params rate,
    stored w (sr_AssetId msg) r /\ ar_Issuer r = sr_Issuer msg /\
    AccAddressFromBech32 (ar_Issuer r) = Ok issuer /\ ar_Status r = ASSET_STATUS_ACTIVE /\
    NewIntFromString (ar_NotionalMinted r) = Some n /\ NewIntFromString (ar_Bond r) = Some bond /\
    GetParams w = Ok params /\ SettleFeeRateDec params = Ok rate /\
    settle_ledger (w_ext w) (w_ext w') issuer (ar_Denom r) n (n * rate / dec_one) bond /\
    record_set w w' issuer (settled (w_time w) r).

Lemma settle_ledger_comp x x1 x2 x3 x4 a d n fee bond :
  transferred x x1 a (GetModuleAddress FeeCollectorName) [(BondDenom, fee)] ->
  transferred x1 x2 a ModuleAddress [(d, n)] -> created (-1) x2 x3 ModuleAddress [(d, n)] ->
  transferred x3 x4 ModuleAddress a [(BondDenom, bond)] ->
  settle_ledger x x4 a d n fee bond.
Proof.
  intros [A1 A2] [B1 B2] [C1 C2] [D1 D2]. split.
  - intros b d'. rewrite D1, C1, B1, A1, !coin_amt_single. repeat case_decide; naive_solver lia.
  - intros d'. rewrite D2, C2, B2, A2, !coin_amt_single. repeat case_decide; naive_solver lia.
Qed.

Lemma settled_small now r : rec_small r -> time_ok now -> rec_small (settled now r).
Proof. intros (Hs & Ha & Hc & _) Ht. by split. Qed.

Lemma slashed_small now r : rec_small r -> time_ok now -> rec_small (slashed now r).
Proof.
  unfold rec_small. rewrite !Forall_cons. intros ((H1 & H2 & H3 & H4 & H5 & H6 & _ & H8 & H9 & _) & Ha & Hc & _) Ht.
  cbn. split_and!; try done. by apply IntString_text.
Qed.

Lemma settle_rate_ok (w : W) params rate : rwa_inv w -> GetParams w = Ok params -> SettleFeeRateDec params = Ok rate ->
  0 <= rate < dec_one.
Proof.
  intros Hi Hp Hr. destruct (params_ok_get w (inv_params _ Hi)) as (p & Hg & Hv).
  rewrite Hp in Hg. injection Hg as <-. apply RWAParams_Validate_spec in Hv as (_ & _ & (d & Hd & ?)).
  unfold SettleFeeRateDec in Hr. rewrite Hd in Hr. by injection Hr as <-.
Qed.

(** The burn of the returned tokens, if any were minted. *)
Lemma burn_back_wlp issuer d n c (Q : unit -> W -> Prop) (w : W) : 0 <= n ->
  c = (if decide (n = 0) then [] else [(d, n)]) ->
  (forall x2 x3, transferred (w_ext w) x2 issuer ModuleAddress [(d, n)] ->
     created (-1) x2 x3 ModuleAddress [(d, n)] -> Q tt (set_ext x3 w)) ->
  wlp (if 0 <? n then
         _ ← ext_send send_restriction (fun r x => SendCoinsFromAccountToModule r x issuer ModuleName c);
         ext (fun x => BurnCoins x ModuleName c)
       else mret tt) Q (fun _ _ => True) w.
Proof.
  intros Hn -> HQ. destruct (Z.ltb_spec 0 n).
  - rewrite decide_False by lia. wlp_steps. apply wlp_ext_send. intros x1 r1 S1. destruct r1 as [u| |]; [|done..].
    rewrite (send_a2m _ _ _ _ _ _ Hrwa) in S1. apply send_ok in S1 as (t' & Hr & Tr & _).
    rewrite SendRestriction_module in Hr by (by right). injection Hr as <-.
    apply wlp_ext. intros x2 r2 S2. destruct r2 as [[]| |]; [|done..]. apply burn_ok in S2.
    replace (set_ext x2 (set_ext x1 w)) with (set_ext x2 w) by done. by eapply HQ.
  - replace n with 0 in * by lia. apply wlp_mret.
    replace w with (set_ext (w_ext w) w) at 1 by (by destruct w). apply (HQ (w_ext w)).
    + split; [|done]. intros b d'. rewrite coin_amt_single. repeat case_decide; lia.
    + split; intros; rewrite coin_amt_single; repeat case_decide; lia.
Qed.

Lemma SettleRWA_wlp msg w : rwa_inv w ->
  wlp (SettleRWA msg) (fun _ w' => settle_effect msg w w' /\ w_time w' = w_time w) (fun _ _ => True) w.
Proof.
  intros Hi. unfold SettleRWA. wlp_steps; try done.
  match goal with H : requireIssuer _ _ _ = Ok ?x |- _ => apply requireIssuer_Ok in H as [Hst Hc]; rename x into r end.
  destruct (inv_stored _ _ _ Hi Hst) as [Hid Hok]. destruct (ao_issuer _ _ Hok) as [issuer Hiss].
  match goal with H : negb _ = false |- _ => apply negb_false_iff, Z.eqb_eq in H as Hact end.
  assert (ar_Status r <> ASSET_STATUS_SETTLED) as Hns by (rewrite Hact; done).
  match goal with H : AccAddressFromBech32 (sr_Issuer msg) = Ok _ |- _ => rewrite <- Hc, Hiss in H; injection H as <- end.
  match goal with H : deref (NewIntFromString (ar_NotionalMinted r)) = Ok ?x |- _ => apply deref_Ok in H as Hn; rename x into n end.
  destruct (ao_notional _ _ Hok) as (n' & Hn' & Hn0 & _). rewrite Hn in Hn'. injection Hn' as <-.
  destruct (ao_bond _ _ Hok) as (bond & Hb & Hbpos). specialize (Hbpos Hns).
  match goal with H : ComputeFee _ ?rt = Ok ?f, G : GetParams w = Ok ?pp |- _ =>
    rename rt into rate; rename f into fee; rename pp into params; rename H into Hfee; rename G into Hpar end.
  pose proof (settle_rate_ok w params rate Hi Hpar ltac:(done)) as Hrate.
  pose proof (int_parse_range _ _ Hn) as Hrn.
  assert (fee = n * rate / dec_one /\ 0 <= fee) as [-> Hf0].
  { rewrite ComputeFee_run in Hfee by lia. case_decide; [|done]. injection Hfee as <-.
    split; [done|]. apply Z.div_pos; [nia|done]. }
  apply (CollectFee_wlp perms pcol Hcol); [done| |done]. intros x1 Tr1 _.
  apply wlp_bind, wlp_lift; [|done]. intros cs [_ Hcoin]%one_coin_inv.
  apply wlp_bind. eapply burn_back_wlp; [done|exact Hcoin|]. intros x2 x3 Tr2 Cr. rewrite Hb.
  apply wlp_bind, wlp_lift; [|done]. intros ? [= <-].
  destruct (Z.ltb_spec 0 bond); [|lia]. apply wlp_bind.
  apply (ReleaseBond_wlp perms prwa Hrwa); [done| |done]. intros x4 Tr4. wlp_steps; try done.
  match goal with H : BlockTime _ = Ok ?t |- _ => assert (t = w_time w) as -> by (by injection H) end.
  fold (settled (w_time w) r).
  apply (SetAsset_wlp _ issuer); [apply rec_small_wf; [|done]|done|].
  { apply settled_small; [apply Hok|apply Hi]. }
  intros w' bz Hu U. apply wlp_emit.
  split; [|destruct U as (_ & _ & _ & _ & ET & _); by cbn; rewrite ET].
  exists r, issuer, n, bond, params, rate. split_and!; try done.
  - destruct U as (_ & _ & EX & _). cbn. rewrite EX. cbn in Tr2, Tr4 |- *. by eapply settle_ledger_comp.
  - by eapply (record_set_upd w x4 bz); [|exact Hu|exact U].
Qed.

Definition slash_effect (k : Keeper) (msg : MsgSlashBond) (w w' : W) : Prop :=
  exists r issuer bond,
    sb_Authority msg = GetAuthority k /\ stored w (sb_AssetId msg) r /\
    AccAddressFromBech32 (ar_Issuer r) = Ok issuer /\ ar_Status r = ASSET_STATUS_ACTIVE /\
    NewIntFromString (ar_Bond r) = Some bond /\
    transferred (w_ext w) (w_ext w') ModuleAddress (GetModuleAddress "distribution") [(BondDenom, bond)] /\
    record_set w w' issuer (slashed (w_time w) r).

Lemma SlashBond_msg_wlp k msg w : rwa_inv w ->
  wlp (SlashBond k msg) (fun _ w' => slash_effect k msg w w' /\ w_time w' = w_time w) (fun _ _ => True) w.
Proof.
  intros Hi. unfold SlashBond. wlp_steps; try done.
  match goal with H : GetAsset _ _ = Ok ?f |- _ => destruct f as [r|]; [apply GetAsset_stored in H as Hst|] end;
    [|done].
  apply wlp_bind, wlp_guard; intros Hact; [|done].
  destruct (inv_stored _ _ _ Hi Hst) as [Hid Hok]. destruct (ao_issuer _ _ Hok) as [issuer Hiss].
  apply negb_false_iff, Z.eqb_eq in Hact.
  match goal with H : negb (bool_decide _) = false |- _ => apply negb_false_iff, bool_decide_eq_true in H as Hau end.
  destruct (ao_bond _ _ Hok) as (bond & Hb & Hbpos). specialize (Hbpos ltac:(rewrite Hact; done)).
  rewrite Hb. apply wlp_bind, wlp_lift; [|done]. intros ? [= <-].
  destruct (Z.ltb_spec 0 bond); [|lia]. apply wlp_bind.
  apply (SlashBond_wlp perms); [done| |done]. intros x1 Tr. wlp_steps; try done.
  match goal with H : BlockTime _ = Ok ?t |- _ => assert (t = w_time w) as -> by (by injection H) end.
  fold (slashed (w_time w) r).
  apply (SetAsset_wlp _ issuer); [apply rec_small_wf; [|done]|done|].
  { apply slashed_small; [apply Hok|apply Hi]. }
  intros w' bz Hu U. apply wlp_emit.
  split; [|destruct U as (_ & _ & _ & _ & ET & _); by cbn; rewrite ET].
  exists r, issuer, bond. split_and!; try done.
  - destruct U as (_ & _ & EX & _). cbn. by rewrite EX.
  - by eapply (record_set_upd w x1 bz); [|exact Hu|exact U].
Qed.

End RwaInv.
