(* ===== verification/RwaSpec.v ===== *)
(** * x/rwa: what the messages and the bank hook guarantee

    The transfer policy at the bank, fees, denoms, and the behaviour of the
    message server on every state that satisfies the invariant of [RwaInv]. *)

From S2P Require Import Prelude Sdk World SdkRef Wire OracleAgg RwaTypes RwaKeeper RwaMsg RwaInv.

Open Scope Z_scope.

Section RwaSpec.
Context {St X : Type} {KV : KVStore St} {SM : SdkMath} {CO : Coins} {BE : Bech32} {T : StdTime}
        {BK : BankKeeper X}.
Local Abbreviation W := (world St X).
Context {PO : PriceOracle W} {POL : PriceOracleLaws W}.
Context {KVL : KVStoreLaws St} {SML : SdkMathLaws} {COL : CoinsLaws} {BEL : Bech32Laws} {TL : StdTimeLaws}.

(** ** Restriction lists *)

Definition parsed (l : list string) (addrs : list bytes) : Prop :=
  Forall2 (fun s a => AccAddressFromBech32 s = Ok a) l addrs.

Lemma validate_group_Ok l : validate_group l = Ok tt <-> zlen l <= 100 /\ exists addrs, parsed l addrs.
Proof.
  unfold validate_group, maxRestrictionBatch. destruct (Z.ltb_spec 100 (zlen l)); [split; [done|lia]|].
  transitivity (exists addrs, parsed l addrs); [clear|naive_solver]. induction l as [|s l IH]; cbn [rfold].
  - split; [intros _; exists []; constructor|done].
  - destruct (AccAddressFromBech32 s) as [a| |] eqn:E; cbn [mbind res_bind wrap_err].
    + rewrite IH. split; [intros [as_ H]; exists (a :: as_); by constructor|].
      intros [as_ H]. inversion H; subst. eauto.
    + split; [done|]. intros [as_ H]. inversion H; congruence.
    + split; [done|]. intros [as_ H]. inversion H; congruence.
Qed.

(** One entry of a list set ([Some]) or removed ([None]). *)
Definition put_entry (v : option bytes) (k : bytes) (m : gmap bytes bytes) : gmap bytes bytes :=
  match v with Some b => <[k := b]> m | None => delete k m end.

Lemma put_entry_lookup v k m k' : put_entry v k m !! k' = if decide (k' = k) then v else m !! k'.
Proof. destruct v; cbn; case_decide; subst; by rewrite ?lookup_insert_eq, ?lookup_insert_ne, ?lookup_delete_eq, ?lookup_delete_ne. Qed.

(** A membership operation writes one entry of the list [p]. *)
Definition list_op (p : byte) (v : option bytes) (fn : string -> bytes -> M W unit) : Prop :=
  forall id a w, exists w', fn id a w = (w', Ok tt) /\
    store_upd RwaKey (put_entry v (membershipKey [p] id a) (view RwaKey w)) w w'.

Lemma AddAllowlist_op : list_op x03 (Some [x01]) AddAllowlist.
Proof. intros id a w. by apply st_set_run. Qed.
Lemma DelAllowlist_op : list_op x03 None DelAllowlist.
Proof. intros id a w. by apply st_delete_run. Qed.
Lemma AddDenylist_op : list_op x04 (Some [x01]) AddDenylist.
Proof. intros id a w. by apply st_set_run. Qed.
Lemma DelDenylist_op : list_op x04 None DelDenylist.
Proof. intros id a w. by apply st_delete_run. Qed.

Lemma apply_list_run p v fn id l addrs (w : W) : list_op p v fn -> parsed l addrs ->
  exists w' m, apply_list id l fn w = (w', Ok tt) /\ store_upd RwaKey m w w' /\
    forall k, m !! k = if decide (k ∈ membershipKey [p] id <$> addrs) then v else view RwaKey w !! k.
Proof.
  intros Hop Hp. revert w. induction Hp as [|s a l addrs Ha Hp IH]; intros w; unfold apply_list; cbn [mfor].
  - exists w, (view RwaKey w). split_and!; [done|apply store_upd_refl|]. intros k.
    by rewrite decide_False by apply not_elem_of_nil.
  - destruct (Hop id a w) as (w1 & E1 & U1). destruct (IH w1) as (w2 & m & E2 & U2 & Hm).
    exists w2, m. split_and!.
    + erewrite bind_Ok_run; [exact E2|]. by erewrite bind_lift_run by exact Ha.
    + by eapply store_upd_trans.
    + intros k. rewrite Hm. destruct U1 as (-> & _). rewrite put_entry_lookup, fmap_cons.
      destruct (decide (k = membershipKey [p] id a)) as [->|Hne].
      * rewrite (decide_True (P := _ ∈ _ :: _)) by left. by case_decide.
      * case_decide; case_decide; set_solver.
Qed.

(** ** Updating restrictions *)

Record restrict_admissible (msg : MsgUpdateRestrictions) (w : W) (r : AssetRecord)
    (aa da ad dd : list bytes) : Prop := mkRestrictAdmissible {
  rad_stored : stored w (ur_AssetId msg) r;
  rad_issuer : ar_Issuer r = ur_Issuer msg;
  rad_status : ar_Status r <> ASSET_STATUS_SETTLED;
  rad_batch : Forall (fun g => zlen g <= 100) [ur_AddAllow msg; ur_DelAllow msg; ur_AddDeny msg; ur_DelDeny msg];
  rad_add_allow : parsed (ur_AddAllow msg) aa;
  rad_del_allow : parsed (ur_DelAllow msg) da;
  rad_add_deny : parsed (ur_AddDeny msg) ad;
  rad_del_deny : parsed (ur_DelDeny msg) dd
}.

Definition restrict_effect (msg : MsgUpdateRestrictions) (w w' : W) (r : AssetRecord)
    (aa da ad dd : list bytes) : Prop :=
  let id := ur_AssetId msg in
  stored w' id (with_allow_all (ur_AllowAll msg) r) /\
  (forall a, member x03 id a w' <-> (member x03 id a w \/ a ∈ aa) /\ a ∉ da) /\
  (forall a, member x04 id a w' <-> (member x04 id a w \/ a ∈ ad) /\ a ∉ dd) /\
  (forall id', slugRegex id' = true -> id' <> id ->
     (forall r', stored w' id' r' <-> stored w id' r') /\
     (forall p a, p ∈ [x03; x04] -> member p id' a w' <-> member p id' a w)) /\
  GetParams w' = GetParams w /\ w_ext w' = w_ext w.

Lemma MsgUpdateRestrictions_ValidateBasic_Ok m a :
  AccAddressFromBech32 (ur_Issuer m) = Ok a -> slugRegex (ur_AssetId m) = true ->
  MsgUpdateRestrictions_ValidateBasic m = Ok tt <->
  Forall (fun g => validate_group g = Ok tt) [ur_AddAllow m; ur_DelAllow m; ur_AddDeny m; ur_DelDeny m].
Proof.
  intros Ha Hs. unfold MsgUpdateRestrictions_ValidateBasic. rewrite Ha. cbn [mbind res_bind wrap_err].
  rewrite (proj2 (ValidateAssetID_Ok _) Hs). cbn [rfold mbind res_bind]. rewrite !Forall_cons, Forall_nil.
  destruct (validate_group (ur_AddAllow m)) as [[]| |]; cbn; [|naive_solver..].
  destruct (validate_group (ur_DelAllow m)) as [[]| |]; cbn; [|naive_solver..].
  destruct (validate_group (ur_AddDeny m)) as [[]| |]; cbn; [|naive_solver..].
  destruct (validate_group (ur_DelDeny m)) as [[]| |]; cbn; naive_solver.
Qed.

Lemma asset_key_membership p id a id' : p <> x01 -> AssetKey id' <> membershipKey [p] id a.
Proof. intros Hp [= E]. by subst. Qed.

Lemma rwa_keys_fmap p id id' a (addrs : list bytes) : slugRegex id = true -> slugRegex id' = true ->
  membershipKey [p] id' a ∈ membershipKey [p] id <$> addrs <-> id' = id /\ a ∈ addrs.
Proof.
  intros H1 H2. rewrite list_elem_of_fmap. split.
  - intros (b & E & Hb). apply membershipKey_inj in E as [-> ->]; done.
  - intros [-> Ha]. eauto.
Qed.

Lemma keys_fmap_other p q id id' a (addrs : list bytes) : p <> q ->
  membershipKey [p] id' a ∉ membershipKey [q] id <$> addrs.
Proof. intros Hne Hin. apply list_elem_of_fmap in Hin as (b & [= E _] & _). done. Qed.

Lemma asset_fmap_other q id id' (addrs : list bytes) : q <> x01 -> AssetKey id' ∉ membershipKey [q] id <$> addrs.
Proof. intros Hne Hin. apply list_elem_of_fmap in Hin as (b & [= E] & _). by subst. Qed.

(** The four list updates in sequence: adds, then removes, on each list. *)
Lemma apply_lists_run msg r aa da ad dd (w : W) : restrict_admissible msg w r aa da ad dd ->
  exists w' m,
    (forall K : M W unit,
       (_ ← apply_list (ur_AssetId msg) (ur_AddAllow msg) AddAllowlist;
        _ ← apply_list (ur_AssetId msg) (ur_DelAllow msg) DelAllowlist;
        _ ← apply_list (ur_AssetId msg) (ur_AddDeny msg) AddDenylist;
        _ ← apply_list (ur_AssetId msg) (ur_DelDeny msg) DelDenylist; K) w = K w') /\
    store_upd RwaKey m w w' /\
    forall k, m !! k =
      if decide (k ∈ membershipKey [x04] (ur_AssetId msg) <$> dd) then None else
      if decide (k ∈ membershipKey [x04] (ur_AssetId msg) <$> ad) then Some [x01] else
      if decide (k ∈ membershipKey [x03] (ur_AssetId msg) <$> da) then None else
      if decide (k ∈ membershipKey [x03] (ur_AssetId msg) <$> aa) then Some [x01] else view RwaKey w !! k.
Proof.
  intros [_ _ _ _ Haa Hda Had Hdd].
  destruct (apply_list_run _ _ _ (ur_AssetId msg) _ _ w AddAllowlist_op Haa) as (w1 & m1 & E1 & U1 & H1).
  destruct (apply_list_run _ _ _ (ur_AssetId msg) _ _ w1 DelAllowlist_op Hda) as (w2 & m2 & E2 & U2 & H2).
  destruct (apply_list_run _ _ _ (ur_AssetId msg) _ _ w2 AddDenylist_op Had) as (w3 & m3 & E3 & U3 & H3).
  destruct (apply_list_run _ _ _ (ur_AssetId msg) _ _ w3 DelDenylist_op Hdd) as (w4 & m4 & E4 & U4 & H4).
  exists w4, m4. split_and!.
  - intros K. erewrite bind_Ok_run by exact E1. erewrite bind_Ok_run by exact E2.
    erewrite bind_Ok_run by exact E3. by erewrite bind_Ok_run by exact E4.
  - eapply store_upd_trans; [|exact U4]. eapply store_upd_trans; [|exact U3]. by eapply store_upd_trans.
  - intros k. destruct U1 as (V1 & _), U2 as (V2 & _), U3 as (V3 & _). by rewrite H4, V3, H3, V2, H2, V1, H1.
Qed.

(** What is left of the store after the four updates and the write of the record. *)
Lemma restrict_effect_of msg r aa da ad dd issuer bz m (w w1 w' : W) :
  slugRegex (ur_AssetId msg) = true -> ar_AssetId r = ur_AssetId msg -> store_upd RwaKey m w w1 ->
  (forall k, m !! k =
      if decide (k ∈ membershipKey [x04] (ur_AssetId msg) <$> dd) then None else
      if decide (k ∈ membershipKey [x04] (ur_AssetId msg) <$> ad) then Some [x01] else
      if decide (k ∈ membershipKey [x03] (ur_AssetId msg) <$> da) then None else
      if decide (k ∈ membershipKey [x03] (ur_AssetId msg) <$> aa) then Some [x01] else view RwaKey w !! k) ->
  Unmarshal bz = Ok (with_allow_all (ur_AllowAll msg) r) ->
  store_upd RwaKey (index_upd issuer (ur_AssetId msg) (<[AssetKey (ur_AssetId msg) := bz]> (view RwaKey w1))) w1 w' ->
  restrict_effect msg w w' r aa da ad dd.
Proof.
  intros Hsl Hid U1 Hm Hu U2. pose proof U1 as (V1 & _ & X1 & _). pose proof U2 as (V2 & _ & X2 & _).
  assert (forall p id a, p <> x01 -> p <> x02 -> view RwaKey w' !! membershipKey [p] id a = m !! membershipKey [p] id a) as Hmem.
  { intros p id a H1 H2. rewrite V2, V1. unfold index_upd. rewrite !lookup_insert_ne; [done| |]; by intros [=]. }
  assert (forall id, id <> ur_AssetId msg -> view RwaKey w' !! AssetKey id = view RwaKey w !! AssetKey id) as Has.
  { intros id Hne. rewrite V2, V1, index_upd_asset, lookup_insert_ne by (apply asset_key_AssetKey || (intros E; by apply AssetKey_inj in E)).
    rewrite Hm, !decide_False by (by apply asset_fmap_other). done. }
  split_and!.
  - exists bz. split; [|done]. by rewrite V2, index_upd_asset, lookup_insert_eq by apply asset_key_AssetKey.
  - intros a. unfold member. rewrite Hmem, Hm by done.
    rewrite !(decide_False (P := _ ∈ membershipKey [x04] _ <$> _)) by (by apply keys_fmap_other).
    case_decide as H1; rewrite rwa_keys_fmap in H1 by done.
    + split; [by intros [? ?]|naive_solver].
    + case_decide as H2; rewrite rwa_keys_fmap in H2 by done; naive_solver.
  - intros a. unfold member. rewrite Hmem, Hm by done.
    case_decide as H1; rewrite rwa_keys_fmap in H1 by done; [split; [by intros [? ?]|naive_solver]|].
    case_decide as H2; rewrite rwa_keys_fmap in H2 by done; [naive_solver|].
    rewrite !decide_False by (by apply keys_fmap_other). naive_solver.
  - intros id' Hsl' Hne. split.
    + intros r'. unfold stored. by rewrite Has.
    + intros p a Hp. unfold member.
      assert (p = x03 \/ p = x04) as [-> | ->] by set_solver; rewrite Hmem, Hm by done.
      * rewrite !(decide_False (P := _ ∈ membershipKey [x04] _ <$> _)) by (by apply keys_fmap_other).
        rewrite !decide_False; [done|intros [? _]%rwa_keys_fmap; done..].
      * rewrite !(decide_False (P := _ ∈ membershipKey [x03] _ <$> _)) by (by apply keys_fmap_other).
        rewrite !decide_False; [done|intros [? _]%rwa_keys_fmap; done..].
  - rewrite !rwa_GetParams_view, V2, V1. unfold index_upd. rewrite !lookup_insert_ne by done.
    rewrite Hm, !decide_False; [done|by intros (? & [=] & _)%list_elem_of_fmap..].
  - congruence.
Qed.

Lemma allow_all_ok b x r : asset_ok x r -> asset_ok x (with_allow_all b r).
Proof. intros []. by constructor. Qed.

Lemma allow_all_evolves b r : ar_Status r <> ASSET_STATUS_SETTLED -> evolves r (with_allow_all b r).
Proof. intros H. repeat split; try done; cbn; lia. Qed.

Lemma restrict_validated msg w r aa da ad dd : rwa_inv w -> restrict_admissible msg w r aa da ad dd ->
  MsgUpdateRestrictions_ValidateBasic msg = Ok tt.
Proof.
  intros Hi Ha. destruct Ha as [Hst Hc Hs Hb Haa Hda Had Hdd].
  destruct (inv_stored _ _ _ Hi Hst) as [Hid Hok]. destruct (ao_issuer _ _ Hok) as [issuer Hiss].
  rewrite Hc in Hiss. eapply MsgUpdateRestrictions_ValidateBasic_Ok; [exact Hiss|rewrite <- Hid; apply Hok|].
  rewrite !Forall_cons in Hb. destruct Hb as (B1 & B2 & B3 & B4 & _).
  repeat constructor; apply validate_group_Ok; eauto.
Qed.

Lemma UpdateRestrictions_run msg w r aa da ad dd : rwa_inv w -> restrict_admissible msg w r aa da ad dd ->
  exists w', UpdateRestrictions msg w = (w', Ok tt) /\ restrict_effect msg w w' r aa da ad dd /\
    rwa_inv w' /\ registry_evolves w w'.
Proof.
  intros Hi Ha. pose proof (restrict_validated _ _ _ _ _ _ _ Hi Ha) as Hval. pose proof Ha as [Hst Hc Hs _ _ _ _ _].
  destruct (inv_stored _ _ _ Hi Hst) as [Hid Hok]. destruct (ao_issuer _ _ Hok) as [issuer Hiss].
  destruct (apply_lists_run _ _ _ _ _ _ w Ha) as (w1 & m & E1 & U1 & Hm).
  set (r' := with_allow_all (ur_AllowAll msg) r).
  assert (asset_ok (w_ext w) r') as Hok' by (by apply allow_all_ok).
  destruct (SetAsset_run r' issuer w1) as (w2 & bz & E2 & Hu & U2);
    [apply rec_small_wf; apply Hok'|done|].
  change (ar_AssetId r') with (ar_AssetId r) in U2. rewrite Hid in U2.
  assert (ur_AssetId msg = ar_AssetId r') as Hid' by done.
  assert (slugRegex (ur_AssetId msg) = true) as Hsl by (rewrite <- Hid; apply Hok).
  assert (agree RwaKey asset_key w w1 /\ view RwaKey w1 !! KeyParams = view RwaKey w !! KeyParams) as [Hag Hpar].
  { destruct U1 as (V1 & _). split; [intros k [t ->]|]; rewrite V1, Hm;
      rewrite !decide_False; try done; by intros (? & [=] & _)%list_elem_of_fmap. }
  assert (replaces w (Some r) (ar_AssetId r')) as Hrep by (unfold replaces; by rewrite <- Hid').
  assert (rwa_inv w2) as Hi2.
  { pose proof U1 as (_ & _ & X1 & _ & T1 & _). rewrite Hid' in U2.
    apply (inv_write w w1 w2 issuer (Some r) r' bz); try done; rewrite X1; try done. change (locked r') with (locked r). lia. }
  set (ev := mkEvent EventTypeRestrictionUpdated
    [(AttributeKeyAssetID, ar_AssetId r'); (AttributeKeyAllowAll, FormatBool (ar_AllowAll r'))]).
  exists (add_event ev w2). split; [|split; [|split]].
  - unfold UpdateRestrictions. erewrite bind_lift_run by exact Hval.
    erewrite bind_ask_run by (by apply requireIssuer_Ok).
    erewrite bind_guard_run by (by apply Z.eqb_neq). rewrite E1. by erewrite bind_Ok_run by exact E2.
  - by destruct (restrict_effect_of msg r aa da ad dd issuer bz m w w1 w2 Hsl Hid U1 Hm Hu U2).
  - by apply inv_add_event.
  - by apply (registry_write w w1 w2 issuer (Some r) r' bz); [|done|apply allow_all_evolves| |rewrite <- Hid'].
Qed.

Lemma UpdateRestrictions_admitted msg w w' : rwa_inv w -> UpdateRestrictions msg w = (w', Ok tt) ->
  exists r aa da ad dd, restrict_admissible msg w r aa da ad dd.
Proof.
  intros Hi H. unfold UpdateRestrictions in H. run_inv H.
  match goal with H : requireIssuer _ _ _ = Ok ?x |- _ => apply requireIssuer_Ok in H as [Hst Hc]; rename x into r end.
  destruct (inv_stored _ _ _ Hi Hst) as [Hid Hok]. destruct (ao_issuer _ _ Hok) as [issuer Hiss]. rewrite Hc in Hiss.
  match goal with H : MsgUpdateRestrictions_ValidateBasic _ = Ok ?u |- _ => destruct u;
    apply (MsgUpdateRestrictions_ValidateBasic_Ok _ _ Hiss) in H; [rename H into Hv|rewrite <- Hid; apply Hok] end.
  rewrite !Forall_cons, !validate_group_Ok in Hv.
  destruct Hv as ((B1 & aa & P1) & (B2 & da & P2) & (B3 & ad & P3) & (B4 & dd & P4) & _).
  exists r, aa, da, ad, dd. constructor; try done; [|by repeat constructor].
  intros E. by rewrite E in *.
Qed.

(** C25: an issuer, and nobody else, can change the transfer restrictions of its
    asset, and only before settlement. The message goes through exactly when
    every listed address parses and no list is over 100 entries; afterwards an
    address is on the allowlist exactly when it was there or was added, and was
    not removed (the same for the denylist), the asset has the requested
    [allow_all] flag and is otherwise as before, and no other asset or list is
    touched. *)
Theorem UpdateRestrictions_spec msg (w : W) : rwa_inv w ->
  (forall w', UpdateRestrictions msg w = (w', Ok tt) ->
     exists r aa da ad dd, restrict_admissible msg w r aa da ad dd) /\
  (forall r aa da ad dd, restrict_admissible msg w r aa da ad dd ->
     exists w', UpdateRestrictions msg w = (w', Ok tt) /\ restrict_effect msg w w' r aa da ad dd).
Proof.
  intros Hi. split; [intros w'; by apply UpdateRestrictions_admitted|].
  intros r aa da ad dd Ha. destruct (UpdateRestrictions_run _ _ _ _ _ _ _ Hi Ha) as (w' & E & He & _). eauto.
Qed.

(** ** Attestation *)

Lemma AttestAsset_run msg w r price : rwa_inv w -> stored w (aa_AssetId msg) r -> ar_Issuer r = aa_Issuer msg ->
  ar_Status r = ASSET_STATUS_DRAFT -> GetPrice (ar_OraclePair r) w = Ok price ->
  exists w', AttestAsset msg w = (w', Ok tt).
Proof.
  intros Hi Hst Hc Hs Hp. destruct (inv_stored _ _ _ Hi Hst) as [Hid Hok].
  destruct (ao_issuer _ _ Hok) as [issuer Hiss].
  destruct (SetAsset_run (attested price (w_time w) r) issuer w) as (w1 & bz & E & _); [|done|].
  { apply rec_small_wf; [|done]. apply attested_small; [apply Hok|by apply price_range in Hp|apply Hi]. }
  eexists. unfold AttestAsset, MsgAttestAsset_ValidateBasic. rewrite <- Hc, Hiss. cbn [wrap_err mbind res_bind].
  rewrite <- Hid, (proj2 (ValidateAssetID_Ok _) (ao_slug _ _ Hok)), Hid.
  erewrite bind_lift_run by reflexivity. erewrite bind_ask_run by (by apply requireIssuer_Ok).
  erewrite bind_guard_run by (by rewrite Hs). erewrite bind_ask_run by (by rewrite Hp).
  erewrite bind_ask_run by reflexivity. by erewrite bind_Ok_run by exact E.
Qed.

(** C23: An asset is attested exactly when its issuer asks for it, it is a draft,
    and the oracle has a fresh price for its pair; the record then holds that
    price and the block time, and nothing else changes: no coins move. *)
Theorem AttestAsset_spec msg (w : W) : rwa_inv w ->
  (forall w', AttestAsset msg w = (w', Ok tt) -> attest_effect msg w w') /\
  ((exists w', AttestAsset msg w = (w', Ok tt)) <->
   exists r price, stored w (aa_AssetId msg) r /\ ar_Issuer r = aa_Issuer msg /\
     ar_Status r = ASSET_STATUS_DRAFT /\ GetPrice (ar_OraclePair r) w = Ok price).
Proof.
  intros Hi.
  assert (forall w', AttestAsset msg w = (w', Ok tt) -> attest_effect msg w w') as He.
  { intros w' H. by apply (wlp_run _ _ _ _ _ _ (AttestAsset_wlp msg w Hi) H). }
  split; [exact He|]. split.
  - intros [w' H]. destruct (He w' H) as (r & issuer & price & H1 & H2 & _ & H4 & H5 & _). eauto 10.
  - intros (r & price & H1 & H2 & H3 & H4). by eapply AttestAsset_run.
Qed.

(** ** Fees and denoms *)

(** The protocol fee is the exact floor of notional times rate, never more
    than the notional, for every validated rate; only a product that does not fit
    a decimal of 315 bits makes the computation panic. *)
Theorem ComputeFee_floor notional s rate : 0 <= notional < int_limit ->
  validateFeeRate s = Ok tt -> LegacyNewDecFromStr s = Ok rate ->
  ComputeFee notional rate =
    (if decide (notional * rate < dec_limit) then Ok (notional * rate / dec_one) else Panic) /\
  0 <= notional * rate / dec_one <= notional.
Proof.
  intros Hn Hr Hl. apply validateFeeRate_spec in Hr as (d & Hd & Hr). rewrite Hl in Hd.
  injection Hd as <-. split; [by apply ComputeFee_run|].
  split; [apply Z.div_pos; [nia|done]|]. apply Z.div_le_upper_bound; [done|]. unfold dec_one in *. nia.
Qed.

(** Every valid asset id makes a valid bank denom, from which exactly that id
    is read back; and whatever denom parses as a factory denom is the one built
    from the id read. Distinct assets have distinct denoms, none of which is the
    bond denom. *)
Theorem rwa_denom_roundtrip id : ValidateAssetID id = Ok tt ->
  denom_ok (BuildDenom id) = true /\ ParseRWADenom (BuildDenom id) = Some id /\
  (forall d, ParseRWADenom d = Some id -> d = BuildDenom id) /\
  (forall id', BuildDenom id' = BuildDenom id -> id' = id) /\ ParseRWADenom BondDenom = None.
Proof.
  intros Hs%ValidateAssetID_Ok. split_and!.
  - by apply slug_denom_ok.
  - by apply ParseRWADenom_BuildDenom, slug_nonempty.
  - intros d Hd. by apply BuildDenom_ParseRWADenom in Hd as [<- _].
  - intros id' E. by apply BuildDenom_inj in E.
  - done.
Qed.

Context (perms : list (string * list string)) {BKL : BankLaws X perms}.
Context (prwa pcol pdist : list string) (Hrwa : (ModuleName, prwa) ∈ perms)
        (Hcol : (FeeCollectorName, pcol) ∈ perms) (Hdist : ("distribution"%string, pdist) ∈ perms).

(** ** The policy at the bank *)

(** C19: no send escapes the restrictions. With the hook installed, x/bank lets
    coins through exactly when the policy of every factory denom among them
    allows it: the other denoms are free, a leg of the module account is exempt,
    and otherwise the asset must be registered, neither party be on its denylist
    and, unless it is open to all, both be on its allowlist. A refused send
    leaves the ledger as it was. *)
Theorem bank_send_policy from to amt (x : X) (w : W) : assets_decode w ->
  (send_restriction w from to amt = Ok to <-> send_allowed from to amt w) /\
  (~ send_allowed from to amt w ->
     exists e, e ∈ [ErrAssetNotFound; ErrTransferRestricted] /\
       SendCoins (send_restriction w) x from to amt = (x, Err e)) /\
  (forall x' u, SendCoins (send_restriction w) x from to amt = (x', Ok u) ->
     send_allowed from to amt w /\ transferred x x' from to amt).
Proof.
  intros Hd. unfold send_restriction at 1.
  destruct (SendRestriction_cases from to amt w Hd) as [[E Ha]|[Hn E]].
  - rewrite E. split_and!; [done|done|]. intros x' u S. split; [done|].
    apply send_ok in S as (t' & Hr & Tr & _). unfold send_restriction in Hr. rewrite E in Hr. by injection Hr as <-.
  - split_and!.
    + split; [|done]. intros E'. destruct E as [E|E]; rewrite E in E'; done.
    + intros _. destruct E as [E|E]; eexists; (split; [|by apply send_restricted]); [left|right; left].
    + intros x' u S. exfalso. apply send_ok in S as (t' & Hr & _). unfold send_restriction in Hr.
      destruct E as [E|E]; rewrite E in Hr; done.
Qed.

(** ** Registration *)

(** What a registration needs, apart from the coins. *)
Record register_admissible (msg : MsgRegisterAsset) (w : W) (issuer : bytes) (bond : Z) : Prop := {
  rga_issuer : AccAddressFromBech32 (ra_Issuer msg) = Ok issuer;
  rga_slug : slugRegex (ra_AssetId msg) = true;
  rga_name : ra_Name msg <> ""%string;
  rga_pair : pairRegex (ra_OraclePair msg) = true;
  rga_bond : NewIntFromString (ra_Bond msg) = Some bond /\ 0 < bond;
  rga_fresh : view RwaKey w !! AssetKey (ra_AssetId msg) = None;
  rga_min : exists params minBond, GetParams w = Ok params /\ MinIssuerBondInt params = Some minBond /\ minBond <= bond
}.

Lemma register_validated msg w issuer bond : register_admissible msg w issuer bond ->
  MsgRegisterAsset_ValidateBasic msg = Ok tt.
Proof.
  intros [Hi Hs Hn Hp [Hb Hb0] _ _]. unfold MsgRegisterAsset_ValidateBasic. rewrite Hi. cbn [wrap_err mbind res_bind].
  rewrite (proj2 (ValidateAssetID_Ok _) Hs). cbn [mbind res_bind].
  rewrite bool_decide_eq_false_2, Hp by done. cbn [negb]. apply validatePositiveInt_spec. eauto.
Qed.

Lemma RegisterAsset_run msg w issuer bond x : rwa_inv w -> register_small msg ->
  register_admissible msg w issuer bond ->
  SendCoins (send_restriction w) (w_ext w) issuer ModuleAddress [(BondDenom, bond)] = (x, Ok tt) ->
  exists w', RegisterAsset msg w = (w', Ok tt).
Proof.
  intros Hi Hsm Ha S. pose proof (register_validated _ _ _ _ Ha) as Hv.
  destruct Ha as [Hiss Hs _ _ [Hb Hb0] Hf (params & minBond & Hp & Hm & Hle)].
  destruct (SetAsset_run (registered msg bond (w_time w)) issuer (set_ext x w)) as (w1 & bz & E & _); [|done|].
  { apply rec_small_wf; [|done]. apply registered_wf; try done; [by apply int_parse_range in Hb|apply Hi]. }
  eexists. unfold RegisterAsset. erewrite bind_lift_run by exact Hv.
  erewrite bind_ask_run by (by apply GetAsset_None). erewrite bind_guard_run by done.
  erewrite bind_ask_run by exact Hp. rewrite Hb. erewrite bind_lift_run by (by rewrite Hm).
  erewrite bind_guard_run by (by apply Z.ltb_ge). erewrite bind_lift_run by exact Hiss.
  unfold LockBond. rewrite one_coin_pos by done.
  erewrite bind_Ok_run.
  2: { erewrite bind_lift_run by reflexivity. apply ext_send_run. rewrite (send_a2m _ _ _ _ _ _ Hrwa). exact S. }
  erewrite bind_ask_run by reflexivity. by erewrite bind_Ok_run by exact E.
Qed.

(** A registration that succeeds was admissible, and the bank took the bond. *)
Lemma RegisterAsset_needs msg (w w' : W) : rwa_inv w -> register_small msg -> RegisterAsset msg w = (w', Ok tt) ->
  exists issuer bond x, register_admissible msg w issuer bond /\
    SendCoins (send_restriction w) (w_ext w) issuer ModuleAddress [(BondDenom, bond)] = (x, Ok tt).
Proof.
  intros Hi Hsm H.
  destruct (wlp_run _ _ _ _ _ _ (RegisterAsset_wlp perms prwa Hrwa msg w Hi Hsm) H)
    as [(issuer & bond & params & minBond & Hiss & Hsl & Hn & Hp & Hf & Hb & Hpos & Hpar & Hm & Hle & _) _].
  unfold RegisterAsset in H. apply M_bind_Ok in H as (w1 & [] & [-> _]%lift_Ok & H).
  apply M_bind_Ok in H as (w1 & f & [-> _]%ask_Ok & H). apply M_bind_Ok in H as (w1 & [] & [-> _]%guard_err_Ok & H).
  apply M_bind_Ok in H as (w1 & p & [-> _]%ask_Ok & H). rewrite Hb in H.
  apply M_bind_Ok in H as (w1 & mb & [-> _]%lift_Ok & H). apply M_bind_Ok in H as (w1 & [] & [-> _]%guard_err_Ok & H).
  apply M_bind_Ok in H as (w1 & a & [-> Ha]%lift_Ok & H). rewrite Hiss in Ha. injection Ha as <-.
  apply M_bind_Ok in H as (w1 & [] & H & _). unfold LockBond in H.
  apply M_bind_Ok in H as (w2 & c & [-> Hc]%lift_Ok & H). rewrite one_coin_pos in Hc by done. injection Hc as <-.
  unfold ext_send in H. destruct (SendCoinsFromAccountToModule _ _ _ _ _) as [x r] eqn:E.
  injection H as _ ->. rewrite (send_a2m _ _ _ _ _ _ Hrwa) in E.
  exists issuer, bond, x. split; [|exact E]. constructor; eauto.
Qed.

(** C24: registering an asset. It succeeds exactly for a fresh valid id, with a non-empty
    name, a well-formed pair and a bond of at least the minimum, when the bank
    takes the bond from the issuer; the bond is then in the module account, and
    the only record written is the draft that the message describes. *)
Theorem RegisterAsset_spec msg (w : W) : rwa_inv w -> register_small msg ->
  (forall w', RegisterAsset msg w = (w', Ok tt) -> register_effect msg w w') /\
  ((exists w', RegisterAsset msg w = (w', Ok tt)) <->
   exists issuer bond x, register_admissible msg w issuer bond /\
     SendCoins (send_restriction w) (w_ext w) issuer ModuleAddress [(BondDenom, bond)] = (x, Ok tt)).
Proof.
  intros Hi Hsm. split; [|split].
  - intros w' H. by apply (wlp_run _ _ _ _ _ _ (RegisterAsset_wlp perms prwa Hrwa msg w Hi Hsm) H).
  - intros [w' H]. by apply (RegisterAsset_needs msg w w').
  - intros (issuer & bond & x & Ha & S). by eapply RegisterAsset_run.
Qed.

(** ** Minting, transfers, settlement *)

(** C22: minting. A successful mint is by the issuer of an attested or active
    asset, of a positive amount; it creates exactly that amount of the asset's
    denom at the issuer, who pays exactly the floor of the fee rate to the fee
    collector and nothing to anybody else; the supply of no other denom changes,
    and the record becomes active with the new total. *)
Theorem MintRWA_spec msg (w w' : W) : rwa_inv w -> MintRWA msg w = (w', Ok tt) -> mint_effect msg w w'.
Proof. intros Hi H. by apply (wlp_run _ _ _ _ _ _ (MintRWA_wlp perms prwa pcol Hrwa Hcol msg w Hi) H). Qed.

(** Transferring. A successful transfer is of a positive amount of an active
    asset, between parties its policy allows; it moves exactly that amount and
    writes to no store. *)
Theorem TransferRWA_spec msg (w w' : W) : rwa_inv w -> TransferRWA msg w = (w', Ok tt) -> transfer_effect msg w w'.
Proof. intros Hi H. by apply (wlp_run _ _ _ _ _ _ (TransferRWA_wlp perms msg w Hi) H). Qed.

(** C26: slashing. Only the governance authority slashes, only an active asset, and
    exactly the recorded bond moves from the module account to the community
    pool; the record is settled with no bond left, and the supply is untouched. *)
Theorem SlashBond_spec k msg (w w' : W) : rwa_inv w -> SlashBond k msg w = (w', Ok tt) -> slash_effect k msg w w'.
Proof. intros Hi H. by apply (wlp_run _ _ _ _ _ _ (SlashBond_msg_wlp perms k msg w Hi) H). Qed.

(** The module account covers the bond of every unsettled asset. *)
Lemma bond_covered w id r bond : rwa_inv w -> stored w id r -> ar_Status r <> ASSET_STATUS_SETTLED ->
  NewIntFromString (ar_Bond r) = Some bond -> 0 < bond <= GetBalance (w_ext w) ModuleAddress BondDenom.
Proof.
  intros Hi Hst Hs Hb. destruct (inv_stored _ _ _ Hi Hst) as [Hid Hok].
  destruct (ao_bond _ _ Hok) as (b & Hb' & Hpos). rewrite Hb in Hb'. injection Hb' as <-. split; [by apply Hpos|].
  destruct Hst as (bz & Hv & Hu). transitivity (kv_sum locked_of (view RwaKey w) KeyPrefixAsset); [|apply Hi].
  replace bond with (locked_of bz).
  - eapply kv_sum_elem; [|exact Hv|apply asset_key_AssetKey]. intros k v Hk Hp.
    destruct (inv_assets _ Hi _ _ Hk Hp) as (r' & Hu' & _ & Hok'). unfold locked_of. rewrite Hu'. unfold locked.
    destruct (Z.eqb_spec (ar_Status r') ASSET_STATUS_SETTLED); [done|].
    destruct (ao_bond _ _ Hok') as (b' & -> & Hp'). cbn. specialize (Hp' ltac:(done)). lia.
  - unfold locked_of. rewrite Hu. unfold locked. rewrite (proj2 (Z.eqb_neq _ _) Hs), Hb. done.
Qed.

(** The two payments of a settlement, as the bank answers them. *)
Definition payments_accepted (w : W) (issuer : bytes) (d : string) (fee n : Z) (x1 x2 : X) : Prop :=
  (if decide (fee = 0) then x1 = w_ext w
   else SendCoins (send_restriction w) (w_ext w) issuer (GetModuleAddress FeeCollectorName) [(BondDenom, fee)] = (x1, Ok tt)) /\
  (if decide (n = 0) then x2 = x1
   else SendCoins (send_restriction w) x1 issuer ModuleAddress [(d, n)] = (x2, Ok tt)).

Lemma CollectFee_run payer fee x (w : W) : 0 <= fee ->
  (if decide (fee = 0) then x = w_ext w
   else SendCoins (send_restriction w) (w_ext w) payer (GetModuleAddress FeeCollectorName) [(BondDenom, fee)] = (x, Ok tt)) ->
  CollectFee payer fee w = (set_ext x w, Ok tt).
Proof.
  intros Hf H. unfold CollectFee. case_decide as E.
  - subst. by destruct w.
  - destruct (Z.ltb_spec 0 fee); [|lia]. cbn [negb]. rewrite one_coin_pos by done.
    erewrite bind_lift_run by reflexivity. apply ext_send_run. by rewrite (send_a2m _ _ _ _ _ _ Hcol).
Qed.

Lemma burn_back_run issuer d n x1 x2 (w : W) : 0 <= n -> "burner"%string ∈ prwa -> issuer <> ModuleAddress ->
  w_ext w = x1 ->
  (if decide (n = 0) then x2 = x1
   else SendCoins (send_restriction w) x1 issuer ModuleAddress [(d, n)] = (x2, Ok tt)) ->
  exists x3, (if 0 <? n then
         _ ← ext_send send_restriction (fun r x => SendCoinsFromAccountToModule r x issuer ModuleName
                 (if decide (n = 0) then [] else [(d, n)]));
         ext (fun x => BurnCoins x ModuleName (if decide (n = 0) then [] else [(d, n)]))
       else mret tt) w = (set_ext x3 w, Ok tt) /\
    (d <> BondDenom -> GetBalance x3 ModuleAddress BondDenom = GetBalance x1 ModuleAddress BondDenom).
Proof.
  intros Hn Hbr Hne <- H. destruct (Z.ltb_spec 0 n).
  - rewrite !decide_False in * by lia. pose proof H as S. apply send_ok in S as (t' & Hr & [Tr _] & _).
    rewrite SendRestriction_module in Hr by (by right). injection Hr as <-.
    destruct (burn_total x2 _ _ d n Hrwa Hbr) as [x3 B].
    { split; [done|]. change (GetModuleAddress ModuleName) with (ModuleAddress (BK := BK)).
      rewrite (Tr ModuleAddress d), coin_amt_single, !decide_True, decide_False by done.
      pose proof (balance_nonneg (w_ext w) ModuleAddress d). lia. }
    exists x3. split.
    + erewrite bind_Ok_run by (apply ext_send_run; rewrite (send_a2m _ _ _ _ _ _ Hrwa); exact H).
      by rewrite (ext_run _ (set_ext x2 w) x3 (Ok tt)).
    + intros Hd. apply burn_ok in B as [B _]. rewrite B, Tr, !coin_amt_single.
      repeat case_decide; try done; try lia.
  - replace n with 0 in * by lia. exists (w_ext w). split; [by destruct w|done].
Qed.

(** C21: settling. A successful settlement is by the issuer of an active asset; it
    burns the whole notional from the issuer, who pays exactly the floor of the
    settlement fee and gets exactly the recorded bond back; the record is
    settled. *)
Theorem SettleRWA_spec msg (w w' : W) : rwa_inv w -> SettleRWA msg w = (w', Ok tt) -> settle_effect msg w w'.
Proof. intros Hi H. by apply (wlp_run _ _ _ _ _ _ (SettleRWA_wlp perms prwa pcol Hrwa Hcol msg w Hi) H). Qed.

Lemma ReleaseBond_run issuer bond (w : W) : BlockedAddr issuer = false ->
  0 < bond <= GetBalance (w_ext w) ModuleAddress BondDenom ->
  exists x, ReleaseBond issuer bond w = (set_ext x w, Ok tt).
Proof.
  intros Hbl Hb.
  destruct (send_module_total (send_restriction w) (w_ext w) ModuleName issuer issuer BondDenom bond _ Hrwa) as [x S];
    [by apply SendRestriction_other|done|].
  exists x. unfold ReleaseBond. rewrite one_coin_pos by (done || lia). erewrite bind_lift_run by reflexivity.
  apply ext_send_run. by rewrite (send_m2a _ _ _ _ _ _ Hrwa Hbl).
Qed.

(** What the issuer brings to a settlement. *)
Record settle_ready (msg : MsgSettleRWA) (w : W) (r : AssetRecord) (issuer : bytes) (n : Z) (x1 x2 : X) : Prop := {
  sry_stored : stored w (sr_AssetId msg) r;
  sry_caller : ar_Issuer r = sr_Issuer msg;
  sry_status : ar_Status r = ASSET_STATUS_ACTIVE;
  sry_issuer : AccAddressFromBech32 (ar_Issuer r) = Ok issuer;
  sry_account : issuer <> ModuleAddress /\ BlockedAddr issuer = false;
  sry_notional : NewIntFromString (ar_NotionalMinted r) = Some n;
  sry_fee : exists params rate, GetParams w = Ok params /\ SettleFeeRateDec params = Ok rate /\
    n * rate < dec_limit /\ payments_accepted w issuer (ar_Denom r) (n * rate / dec_one) n x1 x2
}.

(** After the payments and the burn the module still holds the bond. *)
Lemma settle_bond_left w r issuer n fee x1 x2 x3 id bond : rwa_inv w -> stored w id r ->
  ar_Status r = ASSET_STATUS_ACTIVE -> NewIntFromString (ar_Bond r) = Some bond -> issuer <> ModuleAddress ->
  payments_accepted w issuer (ar_Denom r) fee n x1 x2 ->
  (ar_Denom r <> BondDenom -> GetBalance x3 ModuleAddress BondDenom = GetBalance x1 ModuleAddress BondDenom) ->
  0 < bond <= GetBalance x3 ModuleAddress BondDenom.
Proof.
  intros Hi Hst Hact Hb Hne [Pay1 _] Hx3. destruct (inv_stored _ _ _ Hi Hst) as [Hid Hok].
  destruct (bond_covered w _ r bond Hi Hst ltac:(rewrite Hact; done) Hb) as [Hb0 Hbal].
  enough (GetBalance x3 ModuleAddress BondDenom = GetBalance (w_ext w) ModuleAddress BondDenom) by lia.
  rewrite Hx3 by (rewrite (ao_denom _ _ Hok); apply BuildDenom_not_bond). case_decide; [by subst|].
  apply send_ok in Pay1 as (t' & Hr1 & [Tr _] & _). rewrite SendRestriction_other in Hr1 by done.
  injection Hr1 as <-. rewrite Tr, (decide_False (P := ModuleAddress = issuer)) by done.
  rewrite decide_False; [lia|]. intros E. by destruct (collector_not_module perms prwa pcol Hrwa Hcol).
Qed.

(** C20: settlement cannot be blocked by the module: whenever the issuer of an
    active asset can make its two payments (the fee, and the return of the
    tokens), the burn and the refund of the bond go through, because the module
    account always covers the outstanding bonds. *)
Theorem SettleRWA_live msg (w : W) r issuer n x1 x2 : rwa_inv w -> "burner"%string ∈ prwa ->
  settle_ready msg w r issuer n x1 x2 -> exists w', SettleRWA msg w = (w', Ok tt).
Proof.
  intros Hi Hbr [Hst Hc Hact Hiss [Hne Hbl] Hn (params & rate & Hp & Hr & Hlim & Pay)].
  destruct (inv_stored _ _ _ Hi Hst) as [Hid Hok]. destruct (ao_bond _ _ Hok) as (bond & Hb & _).
  destruct (ao_notional _ _ Hok) as (n' & Hn' & Hn0 & _). rewrite Hn in Hn'. injection Hn' as <-.
  pose proof (settle_rate_ok w params rate Hi Hp Hr) as Hrate. pose proof (int_parse_range _ _ Hn) as Hrn.
  assert (0 <= n * rate / dec_one) as Hf0 by (apply Z.div_pos; [nia|done]).
  pose proof (CollectFee_run issuer _ x1 w Hf0 (proj1 Pay)) as E1.
  destruct (burn_back_run issuer (ar_Denom r) n x1 x2 (set_ext x1 w) Hn0 Hbr Hne eq_refl (proj2 Pay)) as (x3 & E2 & Hx3).
  pose proof (settle_bond_left w r issuer n _ x1 x2 x3 _ bond Hi Hst Hact Hb Hne Pay Hx3) as Hleft.
  destruct (ReleaseBond_run issuer bond (set_ext x3 w) Hbl Hleft) as [x4 E4].
  destruct (SetAsset_run (settled (w_time w) r) issuer (set_ext x4 w)) as (w1 & bz & E5 & _); [|done|].
  { apply rec_small_wf; [|done]. apply settled_small; [apply Hok|apply Hi]. }
  eexists. unfold SettleRWA, MsgSettleRWA_ValidateBasic. rewrite <- Hc, Hiss. cbn [wrap_err mbind res_bind].
  rewrite <- Hid, (proj2 (ValidateAssetID_Ok _) (ao_slug _ _ Hok)), Hid.
  erewrite bind_lift_run by reflexivity. erewrite bind_ask_run by (by apply requireIssuer_Ok).
  erewrite bind_guard_run by (by rewrite Hact). erewrite bind_lift_run by reflexivity.
  erewrite bind_ask_run by exact Hp. erewrite bind_lift_run by exact Hr.
  rewrite Hn, Hb. erewrite bind_lift_run by reflexivity.
  erewrite bind_lift_run by (rewrite ComputeFee_run, decide_True by lia; reflexivity).
  erewrite bind_Ok_run by exact E1.
  erewrite bind_lift_run by (apply one_coin_ok; [rewrite (ao_denom _ _ Hok); apply slug_denom_ok, Hok|done]).
  erewrite bind_Ok_run by exact E2. erewrite bind_lift_run by reflexivity.
  rewrite (proj2 (Z.ltb_lt 0 bond)) by lia.
  erewrite bind_Ok_run by exact E4. erewrite bind_ask_run by reflexivity. by erewrite bind_Ok_run by exact E5.
Qed.

End RwaSpec.
