(* ===== verification/RwaSafety.v ===== *)
(** * x/rwa: safety over whole executions

    The transitions of the module as a step relation; by rule induction, the
    invariant of [RwaInv] in every state reachable from a sound genesis, hence the
    two crisis invariants, and the life cycle of every asset. *)

From S2P Require Import Prelude Sdk World SdkRef Wire OracleAgg RwaTypes RwaKeeper RwaMsg RwaInv RwaSpec.

Open Scope Z_scope.

Section RwaSafety.
Context {St X : Type} {KV : KVStore St} {SM : SdkMath} {CO : Coins} {BE : Bech32} {T : StdTime}
        {BK : BankKeeper X}.
Local Abbreviation W := (world St X).
Context {PO : PriceOracle W} {POL : PriceOracleLaws W}.
Context {KVL : KVStoreLaws St} {SML : SdkMathLaws} {COL : CoinsLaws} {BEL : Bech32Laws} {TL : StdTimeLaws}.
Context (perms : list (string * list string)) {BKL : BankLaws X perms}.
Context (prwa pcol pdist : list string) (Hrwa : (ModuleName, prwa) ∈ perms)
        (Hcol : (FeeCollectorName, pcol) ∈ perms) (Hdist : ("distribution"%string, pdist) ∈ perms).

(** No key signs for the module account. *)
Definition signer_ok (s : string) : Prop := AccAddressFromBech32 s <> Ok ModuleAddress.

Definition params_small (p : RWAParams) : Prop :=
  Forall text_ok [MinIssuerBond p; MintFeeRate p; SettleFeeRate p].

(** One step of the chain as the module sees it: a message that succeeds (a failed
    one is rolled back), or anything that leaves its store and the supplies of
    factory denoms alone and takes nothing out of the module account. *)
Inductive rwa_step (k : Keeper) : W -> W -> Prop :=
| rstep_register msg w w' : register_small msg -> signer_ok (ra_Issuer msg) ->
    RegisterAsset msg w = (w', Ok tt) -> rwa_step k w w'
| rstep_attest msg w w' : AttestAsset msg w = (w', Ok tt) -> rwa_step k w w'
| rstep_mint msg w w' : signer_ok (mr_Issuer msg) -> MintRWA msg w = (w', Ok tt) -> rwa_step k w w'
| rstep_transfer msg w w' : TransferRWA msg w = (w', Ok tt) -> rwa_step k w w'
| rstep_restrict msg w w' : UpdateRestrictions msg w = (w', Ok tt) -> rwa_step k w w'
| rstep_settle msg w w' : signer_ok (sr_Issuer msg) -> SettleRWA msg w = (w', Ok tt) -> rwa_step k w w'
| rstep_slash msg w w' : SlashBond k msg w = (w', Ok tt) -> rwa_step k w w'
| rstep_params msg w w' : params_small (Params msg) -> UpdateParams k msg w = (w', Ok tt) -> rwa_step k w w'
| rstep_other w w' : view RwaKey w' = view RwaKey w -> time_ok (w_time w') ->
    (forall id, slugRegex id = true -> GetSupply (w_ext w') (BuildDenom id) = GetSupply (w_ext w) (BuildDenom id)) ->
    GetBalance (w_ext w) ModuleAddress BondDenom <= GetBalance (w_ext w') ModuleAddress BondDenom ->
    rwa_step k w w'.

(** ** Every step keeps the invariant and lets records only evolve *)

Lemma locked_unsettled r b : ar_Status r <> ASSET_STATUS_SETTLED -> NewIntFromString (ar_Bond r) = Some b ->
  locked r = b.
Proof. intros Hs Hb. unfold locked. by rewrite (proj2 (Z.eqb_neq _ _) Hs), Hb. Qed.

Lemma locked_settled r : ar_Status r = ASSET_STATUS_SETTLED -> locked r = 0.
Proof. intros Hs. unfold locked. by rewrite Hs. Qed.

Lemma register_step msg w w' : rwa_inv w -> register_small msg -> signer_ok (ra_Issuer msg) ->
  register_effect msg w w' -> w_time w' = w_time w -> rwa_inv w' /\ registry_evolves w w'.
Proof.
  intros Hi Hsm Hsig (issuer & bond & params & minBond & Hiss & Hsl & _ & Hpair & Hf & Hb & Hb0 & _ & _ & _ & [Tr Ts] & Hset) Ht.
  pose proof (int_parse_range _ _ Hb) as Hr.
  assert (asset_ok (w_ext w') (registered msg bond (w_time w))) as Hok.
  { constructor; try done.
    - eauto.
    - exists bond. cbn. by rewrite int_print.
    - exists 0. cbn. rewrite int_print by done. split_and!; try done. intros _. cbn.
      rewrite Ts. by apply (inv_unissued _ Hi).
    - apply registered_wf; try done. apply Hi. }
  split; [|by eapply (record_set_evolves w w' issuer None)].
  eapply (record_set_inv w w' issuer None); try done.
  rewrite (locked_unsettled _ bond) by (done || by apply int_print). rewrite Tr, !coin_amt_single, !decide_True by done.
  rewrite decide_False; [lia|]. intros E. rewrite <- E in Hiss. by destruct Hsig.
Qed.

Lemma attest_step msg w w' : rwa_inv w -> attest_effect msg w w' -> w_time w' = w_time w ->
  rwa_inv w' /\ registry_evolves w w'.
Proof.
  intros Hi (r & issuer & price & Hst & Hc & Hiss & Hs & Hp & EX & Hset) Ht.
  destruct (inv_stored _ _ _ Hi Hst) as [Hid Hok].
  assert (replaces w (Some r) (ar_AssetId (attested price (w_time w) r))) as Hrep by (cbn; by rewrite Hid).
  assert (asset_ok (w_ext w') (attested price (w_time w) r)) as Hok'.
  { rewrite EX. destruct Hok as [H1 H2 H3 H4 (b & Hb & Hb0) (n & Hn & Hn0 & Hsup & Hz) H7 H8]. constructor; try done.
    - exists b. split; [done|]. intros _. apply Hb0. by rewrite Hs.
    - exists n. split_and!; try done; intros _; [apply Hsup|apply Hz]; rewrite Hs; done.
    - apply attested_small; [done|by apply price_range in Hp|apply Hi]. }
  split.
  - eapply (record_set_inv w w' issuer (Some r)); try done; [intros; by rewrite EX|]. rewrite EX.
    destruct (ao_bond _ _ Hok) as (b & Hb & _). rewrite (locked_unsettled _ b), (locked_unsettled r b); try done; [lia|by rewrite Hs].
  - eapply (record_set_evolves w w' issuer (Some r)); try done. unfold evolves. cbn. rewrite Hs.
    split_and!; done.
Qed.

Lemma mint_step msg w w' : rwa_inv w -> signer_ok (mr_Issuer msg) -> mint_effect msg w w' -> w_time w' = w_time w ->
  rwa_inv w' /\ registry_evolves w w'.
Proof.
  intros Hi Hsig (r & issuer & prev & n & params & rate & Hst & Hc & Hiss & Hs & Hn & Hn0 & Hprev & Hlim & Hpar & Hrate & [Lb Ls] & Hset) Ht.
  destruct (inv_stored _ _ _ Hi Hst) as [Hid Hok].
  assert (replaces w (Some r) (ar_AssetId (minted (prev + n) r))) as Hrep by (cbn; by rewrite Hid).
  assert (ar_Status r <> ASSET_STATUS_SETTLED) as Hns by (destruct Hs as [-> | ->]; done).
  destruct (ao_notional _ _ Hok) as (prev' & Hp' & Hp0 & Hsup & _). rewrite Hprev in Hp'. injection Hp' as <-.
  assert (asset_ok (w_ext w') (minted (prev + n) r)) as Hok'.
  { destruct Hok as [H1 H2 H3 H4 (b & Hb & Hb0) _ H7 H8]. constructor; try done.
    - exists b. split; [done|]. intros _. by apply Hb0.
    - exists (prev + n). cbn. rewrite int_print by lia. split_and!; try done; [lia|].
      intros _. rewrite Ls, decide_True by done. rewrite Hsup by done. done.
    - apply minted_small; [done|lia]. }
  split.
  - eapply (record_set_inv w w' issuer (Some r)); try done.
    + intros id Hne. rewrite Ls, decide_False; [lia|]. rewrite (ao_denom _ _ Hok). intros E.
      apply BuildDenom_inj in E. by apply Hne.
    + destruct (ao_bond _ _ Hok) as (b & Hb & _). rewrite (locked_unsettled _ b), (locked_unsettled r b) by done.
      rewrite Lb. pose proof (collector_not_module perms prwa pcol Hrwa Hcol).
      rewrite !decide_False; [lia|naive_solver..| |].
      * intros [E _]. rewrite <- E, Hc in Hiss. by destruct Hsig.
      * intros [E _]. rewrite <- E, Hc in Hiss. by destruct Hsig.
  - eapply (record_set_evolves w w' issuer (Some r)); try done. unfold evolves. cbn.
    unfold ASSET_STATUS_ATTESTED, ASSET_STATUS_ACTIVE, ASSET_STATUS_SETTLED in *. split_and!; try done; lia.
Qed.

Lemma settled_record_ok x now r : asset_ok x r -> time_ok now -> forall x', asset_ok x' (settled now r).
Proof.
  intros [H1 H2 H3 H4 (b & Hb & _) (n & Hn & Hn0 & _) H7 H8] Ht x'. constructor; try done.
  - by exists b.
  - exists n. by split_and!.
  - by apply settled_small.
Qed.

Lemma settled_evolves now r : ar_Status r = ASSET_STATUS_ACTIVE -> evolves r (settled now r).
Proof. intros Hs. unfold evolves. cbn. rewrite Hs. by split_and!. Qed.

Lemma settle_step msg w w' : rwa_inv w -> signer_ok (sr_Issuer msg) -> settle_effect msg w w' -> w_time w' = w_time w ->
  rwa_inv w' /\ registry_evolves w w'.
Proof.
  intros Hi Hsig (r & issuer & n & bond & params & rate & Hst & Hc & Hiss & Hs & Hn & Hb & Hpar & Hrate & [Lb Ls] & Hset) Ht.
  destruct (inv_stored _ _ _ Hi Hst) as [Hid Hok].
  assert (replaces w (Some r) (ar_AssetId (settled (w_time w) r))) as Hrep by (cbn; by rewrite Hid).
  split; [|by eapply (record_set_evolves w w' issuer (Some r)); try done; apply settled_evolves].
  eapply (record_set_inv w w' issuer (Some r)); try done.
  - by eapply settled_record_ok, Hi.
  - intros id Hne. rewrite Ls, decide_False; [lia|]. rewrite (ao_denom _ _ Hok). intros E.
    apply BuildDenom_inj in E. by apply Hne.
  - rewrite locked_settled, (locked_unsettled r bond) by (done || by rewrite Hs).
    assert (ModuleAddress <> issuer) as Hne.
    { intros E. rewrite <- E, Hc in Hiss. by destruct Hsig. }
    pose proof (collector_not_module perms prwa pcol Hrwa Hcol).
    rewrite Lb, (decide_True (P := ModuleAddress = ModuleAddress /\ _)), !decide_False by naive_solver. lia.
Qed.

Lemma slash_step k msg w w' : rwa_inv w -> slash_effect k msg w w' -> w_time w' = w_time w ->
  rwa_inv w' /\ registry_evolves w w'.
Proof.
  intros Hi (r & issuer & bond & Ha & Hst & Hiss & Hs & Hb & [Tr Ts] & Hset) Ht.
  destruct (inv_stored _ _ _ Hi Hst) as [Hid Hok].
  assert (replaces w (Some r) (ar_AssetId (slashed (w_time w) r))) as Hrep by (cbn; by rewrite Hid).
  assert (asset_ok (w_ext w') (slashed (w_time w) r)) as Hok'.
  { destruct (settled_record_ok _ (w_time w) r Hok (inv_time _ Hi) (w_ext w')) as [H1 H2 H3 H4 _ H6 _ H8].
    constructor; try done; [exists 0; cbn; by rewrite int_print|].
    apply slashed_small; [apply Hok|apply Hi]. }
  split.
  - eapply (record_set_inv w w' issuer (Some r)); try done.
    rewrite locked_settled, (locked_unsettled r bond) by (done || by rewrite Hs).
    rewrite Tr, !coin_amt_single, decide_False, decide_True by (done || (intros E; by destruct (distribution_not_module perms prwa pdist Hrwa Hdist))).
    rewrite decide_True by done. lia.
  - eapply (record_set_evolves w w' issuer (Some r)); try done. unfold evolves. cbn. rewrite Hs. by split_and!.
Qed.

Lemma transfer_step msg w w' : rwa_inv w -> transfer_effect msg w w' -> w_time w' = w_time w ->
  rwa_inv w' /\ registry_evolves w w'.
Proof.
  intros Hi (r & sender & recipient & amount & Hst & _ & _ & _ & _ & _ & _ & [Tr Ts] & O) Ht.
  destruct (inv_stored _ _ _ Hi Hst) as [Hid Hok].
  assert (view RwaKey w' = view RwaKey w) as V by (unfold view; by rewrite O).
  assert (agree RwaKey asset_key w w') as Ha by (intros k _; by rewrite V).
  split; [|by apply registry_agree].
  apply (inv_agree w); try done; [rewrite V; apply Hi|rewrite Ht; apply Hi|].
  rewrite Tr, !coin_amt_single, (ao_denom _ _ Hok).
  rewrite !(decide_False (P := BuildDenom _ = BondDenom)) by apply BuildDenom_not_bond.
  repeat case_decide; lia.
Qed.

Lemma params_small_wf p : params_small p -> wf_msg p.
Proof.
  unfold params_small, text_ok. rewrite !Forall_cons. intros (H1 & H2 & H3 & _).
  change (RWAParams_Size p < two63). unfold RWAParams_Size, two63.
  repeat match goal with |- context [size_string ?s] =>
    pose proof (size_string_le s ltac:(unfold two64; lia)); generalize dependent (size_string s); intros end. lia.
Qed.

Lemma UpdateParams_effect k msg (w w' : W) : params_small (Params msg) -> UpdateParams k msg w = (w', Ok tt) ->
  exists bz, MustUnmarshal bz = Ok (Params msg) /\ Validate (Params msg) = Ok tt /\
    view RwaKey w' = <[KeyParams := bz]> (view RwaKey w) /\ w_ext w' = w_ext w /\ w_time w' = w_time w.
Proof.
  intros Hsm H. unfold UpdateParams in H. run_inv H.
  match goal with H : SetParams _ _ = _ |- _ => pose proof H as Hset; unfold SetParams in H; run_inv H end.
  match goal with H : Validate _ = Ok ?u |- _ => destruct u; rename H into Hval end.
  destruct (rwa_SetParams_run (Params msg) w Hval (params_small_wf _ Hsm)) as (w1 & bz & E & (V & _ & EX & _ & ET & _) & Hu).
  rewrite E in Hset. injection Hset as <-.
  match goal with H : emit _ _ _ = _ |- _ => injection H as <- end.
  exists bz. by rewrite view_add_event.
Qed.

Lemma params_step k msg w w' : rwa_inv w -> params_small (Params msg) -> UpdateParams k msg w = (w', Ok tt) ->
  rwa_inv w' /\ registry_evolves w w'.
Proof.
  intros Hi Hsm H. destruct (UpdateParams_effect k msg w w' Hsm H) as (bz & Hu & Hval & V & EX & ET).
  assert (agree RwaKey asset_key w w') as Ha by (intros key [t ->]; by rewrite V, lookup_insert_ne).
  split; [|by apply registry_agree].
  apply (inv_agree w); try done; rewrite ?EX, ?ET; try done; try apply Hi.
  intros b Hb. rewrite V, lookup_insert_eq in Hb. injection Hb as <-.
  exists (Params msg). split; [|done]. unfold MustUnmarshal in Hu. by destruct (Unmarshal bz); simplify_eq.
Qed.

Lemma rwa_step_inv k w w' : rwa_inv w -> rwa_step k w w' -> rwa_inv w' /\ registry_evolves w w'.
Proof.
  intros Hi Hs. destruct Hs as [msg w w' H1 H2 H|msg w w' H|msg w w' H1 H|msg w w' H|msg w w' H|msg w w' H1 H|msg w w' H|msg w w' H1 H|w w' V H1 H2 H3].
  - destruct (wlp_run _ _ _ _ _ _ (RegisterAsset_wlp perms prwa Hrwa msg w Hi H1) H). by eapply register_step.
  - destruct (wlp_run _ _ _ _ _ _ (AttestAsset_wlp msg w Hi) H). by eapply attest_step.
  - destruct (wlp_run _ _ _ _ _ _ (MintRWA_wlp perms prwa pcol Hrwa Hcol msg w Hi) H). by eapply mint_step.
  - destruct (wlp_run _ _ _ _ _ _ (TransferRWA_wlp perms msg w Hi) H). by eapply transfer_step.
  - destruct (UpdateRestrictions_admitted _ _ _ Hi H) as (r & aa & da & ad & dd & Ha).
    destruct (UpdateRestrictions_run _ _ _ _ _ _ _ Hi Ha) as (w1 & E & _ & Hi1 & He).
    rewrite H in E. by injection E as <-.
  - destruct (wlp_run _ _ _ _ _ _ (SettleRWA_wlp perms prwa pcol Hrwa Hcol msg w Hi) H). by eapply settle_step.
  - destruct (wlp_run _ _ _ _ _ _ (SlashBond_msg_wlp perms k msg w Hi) H). by eapply slash_step.
  - by eapply params_step.
  - assert (agree RwaKey asset_key w w') as Ha by (intros key _; by rewrite V).
    split; [|by apply registry_agree]. apply (inv_agree w); try done. rewrite V. apply Hi.
Qed.

Lemma rwa_reachable_inv k w w' : rwa_inv w -> rtc (rwa_step k) w w' -> rwa_inv w'.
Proof. intros Hi Hs. induction Hs as [|w1 w2 w3 H1 _ IH]; [done|]. apply IH. by eapply rwa_step_inv. Qed.

(** ** The life of an asset *)

(** [r'] is a later state of the same asset. *)
Definition later (r r' : AssetRecord) : Prop :=
  (ar_AssetId r' = ar_AssetId r /\ ar_Issuer r' = ar_Issuer r /\ ar_Name r' = ar_Name r /\
   ar_Description r' = ar_Description r /\ ar_OraclePair r' = ar_OraclePair r /\
   ar_Denom r' = ar_Denom r /\ ar_CreatedAt r' = ar_CreatedAt r) /\
  ar_Status r <= ar_Status r' /\
  (ar_Status r = ASSET_STATUS_SETTLED -> r' = r) /\
  (ar_Status r' <> ASSET_STATUS_SETTLED -> ar_Bond r' = ar_Bond r).

Lemma evolves_later r1 r2 r3 : evolves r1 r2 -> later r2 r3 -> ar_Status r2 <= ASSET_STATUS_SETTLED ->
  ar_Status r3 <= ASSET_STATUS_SETTLED -> later r1 r3.
Proof.
  intros ((A1 & A2 & A3 & A4 & A5 & A6 & A7) & As & At & Ab) ((B1 & B2 & B3 & B4 & B5 & B6 & B7) & Bs & Bt & Bb) H2 H3.
  split; [split_and!; congruence|]. split; [lia|]. split.
  - intros E. pose proof (At E) as ->. by apply Bt.
  - intros E. rewrite Bb by done. apply Ab. unfold ASSET_STATUS_SETTLED in *. lia.
Qed.

(** C17: the life cycle. Whatever messages are delivered, in whatever order, a
    registered asset stays registered with the same id, issuer, name,
    description, price pair and denom; its status only moves forward, one stage
    per message (draft, attested, active, settled); its bond is never changed
    before it is settled; and a settled record never changes again. *)
Theorem rwa_lifecycle k (w w' : W) id r : rwa_inv w -> rtc (rwa_step k) w w' -> stored w id r ->
  (exists r', stored w' id r' /\ later r r') /\
  (forall w'', rwa_step k w' w'' -> registry_evolves w' w'').
Proof.
  intros Hi Hs Hr. split; [|intros w''; by apply rwa_step_inv, (rwa_reachable_inv k w)].
  revert r Hr. induction Hs as [w|w w1 w2 Hstep Hs IH]; intros r Hr.
  - exists r. split; [done|]. by split_and!.
  - destruct (rwa_step_inv _ _ _ Hi Hstep) as [Hi1 He]. destruct (He id r Hr) as (r1 & Hr1 & E1).
    destruct (IH Hi1 r1 Hr1) as (r2 & Hr2 & L). exists r2. split; [done|].
    apply (evolves_later r r1 r2); try done.
    + apply (inv_stored _ _ _ Hi1) in Hr1 as [_ Hok]. apply Hok.
    + apply (inv_stored _ _ _ (rwa_reachable_inv k _ _ Hi1 Hs)) in Hr2 as [_ Hok]. apply Hok.
Qed.

End RwaSafety.

(** ** The crisis invariants *)

Section RwaBooks.
Context {St X : Type} {KV : KVStore St} {SM : SdkMath} {CO : Coins} {BE : Bech32} {T : StdTime}
        {BK : BankKeeper X}.
Local Abbreviation W := (world St X).
Context {KVL : KVStoreLaws St} {SML : SdkMathLaws} {COL : CoinsLaws} {BEL : Bech32Laws} {TL : StdTimeLaws}.

(** The records under the asset prefix, in key order. *)
Definition decoded (m : gmap bytes bytes) (rs : list AssetRecord) : Prop :=
  Forall2 (fun kv r => Unmarshal kv.2 = Ok r) (kv_prefix m KeyPrefixAsset) rs.

Lemma iterate_assets_run {A} (g : A -> AssetRecord -> res A) kvs rs acc :
  Forall2 (fun kv r => Unmarshal kv.2 = Ok r) kvs rs ->
  iterate_assets (fun acc r => x ← g acc r; Ok (x, true)) acc kvs = rfold rs acc g.
Proof.
  intros HF. revert acc. induction HF as [|kv r kvs rs Hu HF IH]; intros acc; cbn [iterate_assets rfold]; [done|].
  unfold MustUnmarshal. rewrite Hu. cbn [mbind res_bind]. destruct (g acc r) as [x| |]; cbn [mbind res_bind]; [apply IH|done..].
Qed.

Lemma IterateAssets_run {A} (fn : A -> AssetRecord -> res (A * bool)) (g : A -> AssetRecord -> res A) rs acc (w : W) :
  decoded (view RwaKey w) rs -> (forall acc r, fn acc r = (x ← g acc r; Ok (x, true))) ->
  IterateAssets acc fn w = rfold rs acc g.
Proof.
  intros Hd Hfn. unfold IterateAssets. rewrite st_iterator_run by done. cbn [mbind res_bind].
  rewrite <- (iterate_assets_run g _ rs acc Hd). generalize (kv_prefix (view RwaKey w) KeyPrefixAsset), acc. clear -Hfn.
  intros kvs. induction kvs as [|kv kvs IH]; intros acc; cbn [iterate_assets]; [done|].
  destruct (MustUnmarshal kv.2); cbn [mbind res_bind]; try done. rewrite Hfn.
  destruct (g acc a); cbn [mbind res_bind]; try done.
Qed.

Lemma inv_decoded w : rwa_inv w -> exists rs, decoded (view RwaKey w) rs /\ Forall (asset_ok (w_ext w)) rs.
Proof.
  intros Hi. assert (forall kv, kv ∈ kv_prefix (view RwaKey w) KeyPrefixAsset ->
    exists r, Unmarshal kv.2 = Ok r /\ asset_ok (w_ext w) r) as H.
  { intros [k v] [Hv Hp]%elem_of_kv_prefix. destruct (inv_assets _ Hi _ _ Hv Hp) as (r & ? & _ & ?). eauto. }
  unfold decoded. induction (kv_prefix (view RwaKey w) KeyPrefixAsset) as [|kv kvs IH].
  - by exists [].
  - destruct (H kv ltac:(left)) as (r & Hu & Hok). destruct IH as (rs & Hd & HF); [intros kv' Hk; apply H; by right|].
    exists (r :: rs). split; by constructor.
Qed.

Definition locked_sum (rs : list AssetRecord) : Z := foldr (fun r acc => locked r + acc) 0 rs.

Lemma decoded_sum m rs : decoded m rs -> kv_sum locked_of m KeyPrefixAsset = locked_sum rs.
Proof.
  unfold decoded, kv_sum, locked_sum. induction 1 as [|kv r kvs rs Hu _ IH]; cbn [foldr]; [done|].
  unfold locked_of at 1. by rewrite Hu, IH.
Qed.

Lemma asset_ok_locked x r : asset_ok x r -> 0 <= locked r.
Proof.
  intros Hok. unfold locked. destruct (Z.eqb_spec (ar_Status r) ASSET_STATUS_SETTLED); [done|].
  destruct (ao_bond _ _ Hok) as (b & -> & Hb). cbn. specialize (Hb ltac:(done)). lia.
Qed.

Definition bond_body (acc : Z * bool) (rec : AssetRecord) : res (Z * bool) :=
  let '(sum, broken) := acc in
  if ar_Status rec =? ASSET_STATUS_SETTLED then Ok (sum, broken) else
  bond ← deref (NewIntFromString (ar_Bond rec));
  let broken := if (ar_Status rec =? ASSET_STATUS_ACTIVE) && negb (0 <? bond) then true else broken in
  sum ← IntAdd sum bond;
  Ok (sum, broken).

Lemma bond_body_run x rs s : Forall (asset_ok x) rs -> 0 <= s -> s + locked_sum rs < int_limit ->
  rfold rs (s, false) bond_body = Ok (s + locked_sum rs, false).
Proof.
  intros HF. revert s. induction HF as [|r rs Hok HF IH]; intros s Hs Hl; cbn [rfold locked_sum foldr] in *.
  - f_equal. f_equal. lia.
  - fold (locked_sum rs) in *. pose proof (asset_ok_locked _ _ Hok) as Hr.
    assert (0 <= locked_sum rs) as Hrs.
    { clear -HF. induction HF as [|r rs Hok _ IH]; cbn; [lia|]. pose proof (asset_ok_locked _ _ Hok). fold (locked_sum rs). lia. }
    assert (bond_body (s, false) r = Ok (s + locked r, false)) as ->.
    { unfold bond_body, locked in *. destruct (Z.eqb_spec (ar_Status r) ASSET_STATUS_SETTLED) as [E|E]; [by rewrite Z.add_0_r|].
      destruct (ao_bond _ _ Hok) as (b & Hb & Hpos). rewrite Hb in *. cbn [deref mbind res_bind default] in *.
      specialize (Hpos E). rewrite (proj2 (Z.ltb_lt 0 b)), andb_false_r by done.
      cbn in Hr, Hl. rewrite int_add, decide_True; [done|]. cbn in *. lia. }
    cbn [mbind res_bind]. rewrite IH by lia. f_equal. f_equal. lia.
Qed.

Lemma inv_BondInvariant w : rwa_inv w -> GetBalance (w_ext w) ModuleAddress BondDenom < int_limit ->
  BondInvariant w = Ok false.
Proof.
  intros Hi Hl. destruct (inv_decoded w Hi) as (rs & Hd & HF). unfold BondInvariant.
  rewrite (IterateAssets_run _ bond_body rs (0, false) w Hd).
  - pose proof (inv_bonds _ Hi) as Hb. rewrite (decoded_sum _ _ Hd) in Hb.
    rewrite (bond_body_run (w_ext w)) by (done || lia). cbn [drop_err mbind res_bind].
    destruct (Z.ltb_spec (GetBalance (w_ext w) ModuleAddress BondDenom) (0 + locked_sum rs)); [lia|done].
  - intros [sum broken] r. unfold bond_body. destruct (_ =? _); [done|].
    destruct (deref _); cbn [mbind res_bind]; try done. destruct (IntAdd _ _); done.
Qed.

Definition denom_body (x : X) (broken : bool) (rec : AssetRecord) : res bool :=
  Ok (if ((ar_Status rec =? ASSET_STATUS_DRAFT) || (ar_Status rec =? ASSET_STATUS_ATTESTED))
         && negb (GetSupply x (ar_Denom rec) =? 0)
      then true else broken).

Lemma inv_DenomInvariant w : rwa_inv w -> DenomInvariant w = Ok false.
Proof.
  intros Hi. destruct (inv_decoded w Hi) as (rs & Hd & HF). unfold DenomInvariant.
  rewrite (IterateAssets_run _ (denom_body (w_ext w)) rs false w Hd) by done. clear Hd.
  enough (rfold rs false (denom_body (w_ext w)) = Ok false) as -> by done.
  induction HF as [|r rs Hok HF IH]; cbn [rfold]; [done|].
  assert (denom_body (w_ext w) false r = Ok false) as ->; [|exact IH].
  unfold denom_body. destruct (ao_notional _ _ Hok) as (n & _ & _ & Hs & Hz).
  unfold ASSET_STATUS_DRAFT, ASSET_STATUS_ATTESTED, ASSET_STATUS_SETTLED in *.
  destruct (Z.eqb_spec (ar_Status r) 1) as [E|E]; [|destruct (Z.eqb_spec (ar_Status r) 2) as [E'|E']; [|done]];
    (rewrite Hs, Hz by lia; done).
Qed.

(** ** Genesis *)

(** A genesis state whose records are as the message server leaves them, on a
    ledger that backs them. *)
Record genesis_sound (gs : GenesisState) (w : W) : Prop := mkGenesisSound {
  gso_valid : GenesisState_Validate gs = Ok tt;
  gso_params : params_small (gs_Params gs);
  gso_assets : Forall (asset_ok (w_ext w)) (gs_Assets gs);
  gso_bonds : locked_sum (gs_Assets gs) <= GetBalance (w_ext w) ModuleAddress BondDenom;
  gso_unissued : forall id, slugRegex id = true -> id ∉ ar_AssetId <$> gs_Assets gs ->
    GetSupply (w_ext w) (BuildDenom id) = 0;
  gso_time : time_ok (w_time w);
  gso_empty : view RwaKey w = ∅
}.

Lemma validate_assets_NoDup mb seen l seen' : validate_assets mb seen l = Ok seen' ->
  NoDup (ar_AssetId <$> l) /\ (forall id, id ∈ ar_AssetId <$> l -> id ∉ seen) /\
  (forall id, id ∈ seen' <-> id ∈ seen \/ id ∈ ar_AssetId <$> l) /\
  Forall (fun a => slugRegex (ar_AssetId a) = true /\ exists i, AccAddressFromBech32 (ar_Issuer a) = Ok i) l.
Proof.
  revert seen. induction l as [|a l IH]; intros seen; cbn [validate_assets].
  - intros [= <-]. split_and!; [constructor|set_solver|set_solver|constructor].
  - destruct (ValidateAssetID (ar_AssetId a)) as [[]| |] eqn:Hs; cbn [wrap_err mbind res_bind]; [|done..].
    apply ValidateAssetID_Ok in Hs. case_bool_decide as Hin; [done|].
    destruct (AccAddressFromBech32 (ar_Issuer a)) as [i| |] eqn:Hi; cbn [wrap_err mbind res_bind]; [|done..].
    destruct (_ || _); [done|]. destruct (negb _); [done|]. destruct (NewIntFromString (ar_Bond a)); [|done].
    intros H. apply seq_unit_Ok in H as [_ H]. destruct (NewIntFromString (ar_NotionalMinted a)); [|done].
    apply IH in H as (H1 & H2 & H3 & H4). rewrite fmap_cons. split_and!.
    + constructor; [|done]. intros Hin'. by apply H2 in Hin'; set_solver.
    + intros id [->|Hid]%elem_of_cons; [done|]. apply H2 in Hid. set_solver.
    + intros id. rewrite H3. set_solver.
    + constructor; eauto.
Qed.

(** The registry holds exactly the records of [l]. *)
Record holds (l : list AssetRecord) (m : gmap bytes bytes) : Prop := mkHolds {
  ho_entries : forall k v, m !! k = Some v -> asset_key k ->
    exists r, r ∈ l /\ Unmarshal v = Ok r /\ k = AssetKey (ar_AssetId r);
  ho_records : forall r, r ∈ l -> exists v, m !! AssetKey (ar_AssetId r) = Some v /\ Unmarshal v = Ok r;
  ho_sum : kv_sum locked_of m KeyPrefixAsset = locked_sum l
}.

Lemma locked_sum_snoc l r : locked_sum (l ++ [r]) = locked_sum l + locked r.
Proof. unfold locked_sum. induction l as [|a l IH]; cbn; lia. Qed.

Lemma holds_write l r issuer bz m : holds l m -> ar_AssetId r ∉ ar_AssetId <$> l -> Unmarshal bz = Ok r ->
  holds (l ++ [r]) (index_upd issuer (ar_AssetId r) (<[AssetKey (ar_AssetId r) := bz]> m)).
Proof.
  intros [H1 H2 H3] Hn Hu. constructor.
  - intros k v Hv Hk. rewrite index_upd_asset in Hv by done.
    apply lookup_insert_Some in Hv as [[<- <-]|[Hne Hv]]; [exists r; set_solver|].
    destruct (H1 k v Hv Hk) as (r' & Hr' & ?). exists r'. set_solver.
  - intros r' Hr'. rewrite index_upd_asset by apply asset_key_AssetKey.
    destruct (decide (ar_AssetId r' = ar_AssetId r)) as [E|E].
    + rewrite E, lookup_insert_eq. exists bz. split; [done|].
      apply elem_of_app in Hr' as [Hr'|Hr']; [destruct Hn; rewrite <- E; by apply list_elem_of_fmap_2|].
      apply list_elem_of_singleton in Hr' as ->. done.
    + rewrite lookup_insert_ne by (intros E'; by apply AssetKey_inj in E'). apply H2. set_solver.
  - rewrite (kv_sum_ext _ _ (<[AssetKey (ar_AssetId r) := bz]> m)) by (intros; by apply index_upd_asset).
    rewrite kv_sum_insert by apply asset_key_AssetKey. rewrite H3, locked_sum_snoc. unfold locked_of at 2. rewrite Hu.
    destruct (m !! AssetKey (ar_AssetId r)) as [v|] eqn:Hv; [|lia].
    destruct (H1 _ _ Hv (asset_key_AssetKey _)) as (r' & Hr' & _ & E). apply AssetKey_inj in E.
    destruct Hn. rewrite E. by apply list_elem_of_fmap_2.
Qed.

Lemma set_assets_run l (w : W) : Forall (fun r => wf_msg r /\ exists i, AccAddressFromBech32 (ar_Issuer r) = Ok i) l ->
  NoDup (ar_AssetId <$> l) -> holds [] (view RwaKey w) ->
  exists w' m, mfor l (fun a => must (SetAsset a)) w = (w', Ok tt) /\ store_upd RwaKey m w w' /\ holds l m /\
    (forall k, ~ asset_key k -> ~ KeyPrefixIssuerIndex `prefix_of` k -> m !! k = view RwaKey w !! k).
Proof.
  intros HF ND H0.
  destruct (mfor_run_prefix (fun pre w1 => exists m, store_upd RwaKey m w w1 /\ holds pre m /\
    (forall k, ~ asset_key k -> ~ KeyPrefixIssuerIndex `prefix_of` k -> m !! k = view RwaKey w !! k))
    l (fun a => must (SetAsset a)) w) as (w' & E & m & U & Hm & Ho).
  - exists (view RwaKey w). split_and!; [apply store_upd_refl|done|done].
  - intros pre r post w1 El (m & U & Hm & Ho). rewrite El in HF, ND.
    apply Forall_app in HF as [_ HF]. apply Forall_cons in HF as [[Hwf [i Hiss]] _].
    rewrite fmap_app, fmap_cons in ND. apply NoDup_app in ND as (_ & ND & _).
    destruct (SetAsset_run r i w1 Hwf Hiss) as (w2 & bz & E2 & Hu & U2).
    exists w2. split; [by apply must_run|]. pose proof U as (V & _). rewrite V in U2.
    eexists. split; [by eapply store_upd_trans|]. split.
    + apply holds_write; [done| |done]. intros Hin. by apply (ND _ Hin); left.
    + intros k Hk Hk2. unfold index_upd. rewrite !lookup_insert_ne; [by apply Ho| |].
      * intros <-. apply Hk, asset_key_AssetKey.
      * intros <-. apply Hk2. by eexists.
  - by exists w', m.
Qed.

(** The list that a restriction belongs to, and that it puts [a] of asset [id] on it. *)
Definition list_of (r : Restriction) : byte := if rs_IsDeny r then x04 else x03.

Definition lists (l : list Restriction) (p : byte) (id : string) (a : bytes) : Prop :=
  exists r, r ∈ l /\ list_of r = p /\ rs_AssetId r = id /\ AccAddressFromBech32 (rs_Address r) = Ok a.

Definition set_restriction (r : Restriction) : M W unit :=
  addr ← must (lift (AccAddressFromBech32 (rs_Address r)));
  if rs_IsDeny r then must (AddDenylist (rs_AssetId r) addr) else must (AddAllowlist (rs_AssetId r) addr).

Lemma set_restriction_run r a (w : W) : AccAddressFromBech32 (rs_Address r) = Ok a ->
  exists w', set_restriction r w = (w', Ok tt) /\
    store_upd RwaKey (<[membershipKey [list_of r] (rs_AssetId r) a := [x01]]> (view RwaKey w)) w w'.
Proof.
  intros Ha. unfold set_restriction, list_of.
  destruct (rs_IsDeny r).
  - destruct (AddDenylist_op (rs_AssetId r) a w) as (w' & E & U). exists w'. split; [|done].
    erewrite bind_Ok_run by (apply must_run; by rewrite Ha). by apply must_run.
  - destruct (AddAllowlist_op (rs_AssetId r) a w) as (w' & E & U). exists w'. split; [|done].
    erewrite bind_Ok_run by (apply must_run; by rewrite Ha). by apply must_run.
Qed.

Lemma set_restrictions_run l (w : W) :
  Forall (fun r => slugRegex (rs_AssetId r) = true /\ exists a, AccAddressFromBech32 (rs_Address r) = Ok a) l ->
  (forall p id a, p ∈ [x03; x04] -> ~ member p id a w) ->
  exists w' m, mfor l set_restriction w = (w', Ok tt) /\ store_upd RwaKey m w w' /\
    (forall k, ~ KeyPrefixAllowlist `prefix_of` k -> ~ KeyPrefixDenylist `prefix_of` k -> m !! k = view RwaKey w !! k) /\
    (forall p id a, p ∈ [x03; x04] -> slugRegex id = true -> is_Some (m !! membershipKey [p] id a) <-> lists l p id a).
Proof.
  intros HF Hnone.
  destruct (mfor_run_prefix (fun pre w1 => exists m, store_upd RwaKey m w w1 /\
    (forall k, ~ KeyPrefixAllowlist `prefix_of` k -> ~ KeyPrefixDenylist `prefix_of` k -> m !! k = view RwaKey w !! k) /\
    (forall p id a, p ∈ [x03; x04] -> slugRegex id = true -> is_Some (m !! membershipKey [p] id a) <-> lists pre p id a))
    l set_restriction w) as (w' & E & m & U & Ho & Hm).
  - exists (view RwaKey w). split_and!; [apply store_upd_refl|done|]. intros p id a Hp _.
    split; [intros H; by destruct (Hnone p id a)|]. intros (r & Hr & _). by apply not_elem_of_nil in Hr.
  - intros pre r post w1 El (m & U & Ho & Hm). rewrite El in HF.
    apply Forall_app in HF as [_ HF]. apply Forall_cons in HF as [[Hsl [a0 Ha0]] _].
    destruct (set_restriction_run r a0 w1 Ha0) as (w2 & E2 & U2). exists w2. split; [done|].
    pose proof U as (V & _). rewrite V in U2. eexists. split; [by eapply store_upd_trans|]. split.
    + intros k H3 H4. rewrite lookup_insert_ne; [by apply Ho|]. intros <-. unfold list_of in *.
      destruct (rs_IsDeny r); [apply H4|apply H3]; by eexists.
    + intros p id a Hpp Hid. split.
      * destruct (decide (membershipKey [list_of r] (rs_AssetId r) a0 = membershipKey [p] id a)) as [E|E].
        -- intros _. assert (list_of r = p) as Hp by (by injection E). subst p.
           apply membershipKey_inj in E as [<- <-]; [|done..]. exists r. set_solver.
        -- rewrite lookup_insert_ne by done. rewrite Hm by done. intros (r' & Hr' & ?). exists r'. set_solver.
      * intros (r' & Hr' & Hp & Hi & Ha). apply elem_of_app in Hr' as [Hr'|Hr'].
        -- assert (is_Some (m !! membershipKey [p] id a)) as Hs by (apply Hm; [done..|]; by exists r').
           destruct (decide (membershipKey [list_of r] (rs_AssetId r) a0 = membershipKey [p] id a)) as [<-|E];
             [rewrite lookup_insert_eq; eauto|by rewrite lookup_insert_ne].
        -- apply list_elem_of_singleton in Hr' as ->. rewrite Ha in Ha0. injection Ha0 as <-.
           subst p id. rewrite lookup_insert_eq. eauto.
  - exists w', m. by split_and!.
Qed.

Lemma genesis_restrictions_ok gs : GenesisState_Validate gs = Ok tt ->
  Validate (gs_Params gs) = Ok tt /\ NoDup (ar_AssetId <$> gs_Assets gs) /\
  Forall (fun a => slugRegex (ar_AssetId a) = true /\ exists i, AccAddressFromBech32 (ar_Issuer a) = Ok i) (gs_Assets gs) /\
  Forall (fun r => slugRegex (rs_AssetId r) = true /\ exists a, AccAddressFromBech32 (rs_Address r) = Ok a) (gs_Restrictions gs) /\
  Forall (fun r => rs_AssetId r ∈ ar_AssetId <$> gs_Assets gs) (gs_Restrictions gs).
Proof.
  unfold GenesisState_Validate. intros [H1 (seen & H2 & H3)%res_bind_Ok]%seq_unit_Ok.
  apply validate_assets_NoDup in H2 as (ND & _ & Hs & HF). split_and!; try done.
  - revert H3. induction (gs_Restrictions gs) as [|r l IH]; cbn [rfold]; intros H3; [constructor|].
    case_bool_decide as Hin; [|done]. cbn [negb] in H3.
    destruct (AccAddressFromBech32 (rs_Address r)) as [a| |] eqn:Ha; try done. constructor; [|by apply IH].
    split; [|eauto]. apply Hs in Hin as [Hin|Hin]; [set_solver|].
    apply list_elem_of_fmap in Hin as (r' & -> & Hr'). by eapply Forall_forall in HF as [? _]; [|exact Hr'].
  - revert H3. induction (gs_Restrictions gs) as [|r l IH]; cbn [rfold]; intros H3; [constructor|].
    case_bool_decide as Hin; [|done]. cbn [negb] in H3.
    destruct (AccAddressFromBech32 (rs_Address r)) as [a| |] eqn:Ha; try done. constructor; [|by apply IH].
    apply Hs in Hin as [Hin|Hin]; [set_solver|done].
Qed.

(** The store after a genesis import. *)
Record imported (gs : GenesisState) (m : gmap bytes bytes) : Prop := mkImported {
  im_params : exists bz, m !! KeyParams = Some bz /\ Unmarshal bz = Ok (gs_Params gs);
  im_assets : holds (gs_Assets gs) m;
  im_lists : forall p id a, p ∈ [x03; x04] -> slugRegex id = true ->
    is_Some (m !! membershipKey [p] id a) <-> lists (gs_Restrictions gs) p id a
}.

Lemma holds_agree l m m' : holds l m -> (forall k, asset_key k -> m' !! k = m !! k) -> holds l m'.
Proof.
  intros [H1 H2 H3] Ha. constructor.
  - intros k v Hv Hk. rewrite Ha in Hv by done. by apply H1.
  - intros r Hr. rewrite Ha by apply asset_key_AssetKey. by apply H2.
  - by rewrite (kv_sum_ext _ _ m).
Qed.

Lemma rwa_InitGenesis_run gs (w : W) : GenesisState_Validate gs = Ok tt -> params_small (gs_Params gs) ->
  Forall (fun r => wf_msg r) (gs_Assets gs) -> view RwaKey w = ∅ ->
  exists w' m, InitGenesis gs w = (w', Ok tt) /\ store_upd RwaKey m w w' /\ imported gs m.
Proof.
  intros Hv Hsm Hwf He. destruct (genesis_restrictions_ok gs Hv) as (Hp & ND & Hiss & Hres & _).
  destruct (rwa_SetParams_run (gs_Params gs) w Hp (params_small_wf _ Hsm)) as (w1 & bz & E1 & U1 & Hu).
  pose proof U1 as (V1 & _). rewrite He in V1.
  destruct (set_assets_run (gs_Assets gs) w1) as (w2 & m2 & E2 & U2 & H2 & O2); [|done| |].
  { apply Forall_forall. intros r Hr. rewrite Forall_forall in Hwf. rewrite Forall_forall in Hiss.
    split; [by apply Hwf|]. by apply Hiss. }
  { rewrite V1. constructor; [|by intros r ?%not_elem_of_nil|].
    - intros k v Hk [t ->]. by rewrite lookup_insert_ne in Hk.
    - rewrite (kv_sum_ext _ _ ∅); [done|]. intros k [t ->]. by rewrite lookup_insert_ne. }
  destruct (set_restrictions_run (gs_Restrictions gs) w2 Hres) as (w3 & m3 & E3 & U3 & O3 & H3).
  { intros p id a Hin. unfold member. destruct U2 as (-> & _).
    assert (p = x03 \/ p = x04) as Hp' by set_solver.
    rewrite O2, V1, lookup_insert_ne; [by intros [? ?]| | |]; destruct Hp' as [-> | ->]; try by intros [=].
    all: by intros [t [=]]. }
  exists w3, m3. split_and!.
  - unfold InitGenesis. erewrite bind_Ok_run by (apply must_run; by rewrite Hv).
    erewrite bind_Ok_run by (by apply must_run). erewrite bind_Ok_run by exact E2. exact E3.
  - eapply store_upd_trans; [|exact U3]. by eapply store_upd_trans.
  - destruct U2 as (V2 & _). constructor; [| |exact H3].
    + exists bz. rewrite O3, V2, O2, V1, lookup_insert_eq by (by intros [t [=]]). split; [done|].
      unfold MustUnmarshal in Hu. by destruct (Unmarshal bz); simplify_eq.
    + apply (holds_agree _ m2); [done|]. intros k [t ->]. rewrite O3, V2 by (by intros [u [=]]). done.
Qed.

Lemma genesis_inv gs (w : W) : genesis_sound gs w ->
  exists w', InitGenesis gs w = (w', Ok tt) /\ rwa_inv w' /\ w_ext w' = w_ext w.
Proof.
  intros [Hv Hsm Hok Hb Hun Ht He].
  destruct (rwa_InitGenesis_run gs w Hv Hsm) as (w' & m & E & (V & _ & EX & _ & ET & _) & [(bz & Hbz & Hu) [H1 H2 H3] _]); [|done|].
  { eapply Forall_impl; [exact Hok|]. intros r Hr. apply rec_small_wf; apply Hr. }
  destruct (genesis_restrictions_ok gs Hv) as (Hp & _).
  exists w'. split; [done|]. split; [|done]. rewrite Forall_forall in Hok. constructor.
  - by rewrite ET.
  - intros b. rewrite V, Hbz. intros [= <-]. eauto.
  - rewrite V, EX. intros k v Hk Hpre. destruct (H1 k v Hk Hpre) as (r & Hr & Hur & Hkr). exists r. by auto.
  - by rewrite V, EX, H3.
  - rewrite V, EX. intros id Hsl Hn. apply Hun; [done|]. intros (r & -> & Hr)%list_elem_of_fmap.
    destruct (H2 r Hr) as (v & Hv' & _). by rewrite Hn in Hv'.
Qed.

End RwaBooks.

(** ** Every reachable state *)

Section RwaReachable.
Context {St X : Type} {KV : KVStore St} {SM : SdkMath} {CO : Coins} {BE : Bech32} {T : StdTime}
        {BK : BankKeeper X}.
Local Abbreviation W := (world St X).
Context {KVL : KVStoreLaws St} {SML : SdkMathLaws} {COL : CoinsLaws} {BEL : Bech32Laws} {TL : StdTimeLaws}.
Context {PO : PriceOracle W} {POL : PriceOracleLaws W}.
Context (perms : list (string * list string)) {BKL : BankLaws X perms}.
Context (prwa pcol pdist : list string) (Hrwa : (ModuleName, prwa) ∈ perms)
        (Hcol : (FeeCollectorName, pcol) ∈ perms) (Hdist : ("distribution"%string, pdist) ∈ perms).

(** The crisis invariants of the module never fire. A sound genesis state is
    imported, and in every state reached from it by messages, in any order, and by
    whatever else leaves the registry and the factory denoms alone and takes
    nothing from the module account, [BondInvariant] and [DenomInvariant]
    evaluate, without a panic, to "not broken": the module account covers the
    bonds of all unsettled assets, every active asset is bonded, and no asset has
    tokens before its first mint. *)
Theorem rwa_crisis_invariants k gs (w0 : W) : genesis_sound gs w0 ->
  exists w1, InitGenesis gs w0 = (w1, Ok tt) /\
    forall w, rtc (rwa_step k) w1 w -> GetBalance (w_ext w) ModuleAddress BondDenom < int_limit ->
      BondInvariant w = Ok false /\ DenomInvariant w = Ok false.
Proof.
  intros Hg. destruct (genesis_inv gs w0 Hg) as (w1 & E & Hi & _). exists w1. split; [done|].
  intros w Hs Hl. pose proof (rwa_reachable_inv perms prwa pcol pdist Hrwa Hcol Hdist k w1 w Hi Hs) as Hi'.
  split; [by apply inv_BondInvariant|by apply inv_DenomInvariant].
Qed.

(** C18: tokens are backed by the books. In every state reached from a sound
    genesis, the supply of the factory denom of an unsettled asset is exactly the
    notional its record says was minted, its bond is positive and covered by the
    module account, and a denom whose asset was never registered has no supply. *)
Theorem rwa_supply_is_notional k gs (w0 : W) : genesis_sound gs w0 ->
  exists w1, InitGenesis gs w0 = (w1, Ok tt) /\
    forall w, rtc (rwa_step k) w1 w ->
      (forall id r, stored w id r -> ar_Status r <> ASSET_STATUS_SETTLED ->
         ar_Denom r = BuildDenom id /\
         NewIntFromString (ar_NotionalMinted r) = Some (GetSupply (w_ext w) (BuildDenom id)) /\
         exists bond, NewIntFromString (ar_Bond r) = Some bond /\
           0 < bond <= GetBalance (w_ext w) ModuleAddress BondDenom) /\
      (forall id, slugRegex id = true -> GetAsset id w = Ok None -> GetSupply (w_ext w) (BuildDenom id) = 0).
Proof.
  intros Hg. destruct (genesis_inv gs w0 Hg) as (w1 & E & Hi & _). exists w1. split; [done|].
  intros w Hs. pose proof (rwa_reachable_inv perms prwa pcol pdist Hrwa Hcol Hdist k w1 w Hi Hs) as Hi'. split.
  - intros id r Hst Hns. destruct (inv_stored _ _ _ Hi' Hst) as [Hid Hok].
    destruct (ao_notional _ _ Hok) as (n & Hn & _ & Hsup & _). destruct (ao_bond _ _ Hok) as (b & Hb & _).
    pose proof (ao_denom _ _ Hok) as Hd. rewrite Hid in Hd. rewrite Hn, <- Hd, Hsup by done.
    split_and!; [done|done|]. exists b. split; [done|]. by eapply bond_covered.
  - intros id Hsl Hn. apply (inv_unissued _ Hi'); [done|]. by apply GetAsset_None.
Qed.

End RwaReachable.
