(* ===== verification/RwaRefine.v ===== *)
(** * x/rwa: an abstract specification, and its refinement

    The contract of the module without bytes, texts, stores or events: a finite
    map of assets, two sets of restrictions, three rates and a ledger, with one
    guarded operation per message ([exec]). [abstracts] relates a state of the
    chain to one of the specification; every trace of messages of the module
    from genesis, interleaved with whatever else the chain does, is a trace of
    the specification, and a message that the specification refuses fails. *)

From S2P Require Import Prelude Sdk World SdkRef Wire OracleAgg RwaTypes RwaKeeper RwaMsg RwaInv RwaSpec RwaSafety.

Open Scope Z_scope.

(** ** The specification *)

Module RwaModel.

Record ledger : Type := mkLedger {
  l_bal : bytes -> string -> Z;
  l_sup : string -> Z
}.

(** [n] of [d] moves, and is created (destroyed when negative). *)
Definition move (f t : bytes) (d : string) (n : Z) (l : ledger) : ledger :=
  mkLedger (fun a d' => l_bal l a d' + (if decide (a = t /\ d' = d) then n else 0)
                                     - (if decide (a = f /\ d' = d) then n else 0))
           (l_sup l).
Definition issue (t : bytes) (d : string) (n : Z) (l : ledger) : ledger :=
  mkLedger (fun a d' => l_bal l a d' + (if decide (a = t /\ d' = d) then n else 0))
           (fun d' => l_sup l d' + (if decide (d' = d) then n else 0)).

Inductive stage : Type := Draft | Attested | Active | Settled.

#[global] Instance stage_eq_dec : EqDecision stage.
Proof. solve_decision. Defined.

Record asset : Type := mkAsset {
  a_issuer : bytes;
  a_pair : string;
  a_stage : stage;
  a_bond : Z;
  a_minted : Z;
  a_open : bool;
  a_quote : string
}.

Record market : Type := mkMarket {
  assets : gmap string asset;
  allowed : gset (string * bytes);
  denied : gset (string * bytes);
  min_bond : Z;
  mint_rate : Z;
  settle_rate : Z;
  books : ledger
}.

Inductive op : Type :=
| ORegister (id : string) (issuer : bytes) (feed : string) (bond : Z)
| OAttest (id : string) (caller : bytes) (quote : string)
| OMint (id : string) (caller : bytes) (n : Z)
| OTransfer (id : string) (from to : bytes) (n : Z)
| ORestrict (id : string) (caller : bytes) (open : bool) (add_allow del_allow add_deny del_deny : list bytes)
| OSettle (id : string) (caller : bytes)
| OSlash (caller id : string)
| OParams (caller : string) (min mint settle : Z).

Definition put_asset (id : string) (a : asset) (l : ledger) (m : market) : market :=
  mkMarket (<[id := a]> (assets m)) (allowed m) (denied m) (min_bond m) (mint_rate m) (settle_rate m) l.
Definition put_books (l : ledger) (m : market) : market :=
  mkMarket (assets m) (allowed m) (denied m) (min_bond m) (mint_rate m) (settle_rate m) l.

Definition in_stage (s : stage) (a : asset) : asset :=
  mkAsset (a_issuer a) (a_pair a) s (a_bond a) (a_minted a) (a_open a) (a_quote a).
Definition quoted (q : string) (a : asset) : asset :=
  mkAsset (a_issuer a) (a_pair a) Attested (a_bond a) (a_minted a) (a_open a) q.
Definition mint_more (n : Z) (a : asset) : asset :=
  mkAsset (a_issuer a) (a_pair a) Active (a_bond a) (a_minted a + n) (a_open a) (a_quote a).
Definition set_open (b : bool) (a : asset) : asset :=
  mkAsset (a_issuer a) (a_pair a) (a_stage a) (a_bond a) (a_minted a) b (a_quote a).
Definition unbonded (a : asset) : asset :=
  mkAsset (a_issuer a) (a_pair a) Settled 0 (a_minted a) (a_open a) (a_quote a).

Definition entries (id : string) (l : list bytes) : gset (string * bytes) := list_to_set (pair id <$> l).

(** A transfer is open to both parties: neither is denied and, unless everybody
    is let in, both are allowed. *)
Definition open_to (id : string) (a : asset) (from to : bytes) (m : market) : bool :=
  (a_open a || (bool_decide ((id, from) ∈ allowed m) && bool_decide ((id, to) ∈ allowed m)))
  && bool_decide ((id, from) ∉ denied m) && bool_decide ((id, to) ∉ denied m).

Section Machine.
Context (escrow collector pool : bytes) (denom : string -> string) (bond_denom : string).
Context (authority : string) (unit_rate limit : Z).

(** The outcome of an operation, provided that none of the parties is overdrawn. *)
Definition solvent (parties : list (bytes * string)) (m : market) : option market :=
  if bool_decide (Forall (fun p => 0 <= l_bal (books m) p.1 p.2) parties) then Some m else None.

Definition fee (n rate : Z) : Z := n * rate / unit_rate.

Definition exec (o : op) (m : market) : option market :=
  match o with
  | ORegister id issuer feed bond =>
      if bool_decide (assets m !! id = None /\ 0 < bond /\ min_bond m <= bond) then
        solvent [(issuer, bond_denom)]
          (put_asset id (mkAsset issuer feed Draft bond 0 true "") (move issuer escrow bond_denom bond (books m)) m)
      else None
  | OAttest id caller quote =>
      a ← assets m !! id;
      if bool_decide (a_issuer a = caller /\ a_stage a = Draft)
      then Some (put_asset id (quoted quote a) (books m) m) else None
  | OMint id caller n =>
      a ← assets m !! id;
      if bool_decide (a_issuer a = caller /\ (a_stage a = Attested \/ a_stage a = Active) /\
                      0 < n /\ a_minted a + n < limit)
      then solvent [(caller, bond_denom)]
             (put_asset id (mint_more n a)
                (issue caller (denom id) n (move caller collector bond_denom (fee n (mint_rate m)) (books m))) m)
      else None
  | OTransfer id from to n =>
      a ← assets m !! id;
      if bool_decide (a_stage a = Active /\ 0 < n) &&
         (bool_decide (from = escrow) || bool_decide (to = escrow) || open_to id a from to m)
      then solvent [(from, denom id)] (put_books (move from to (denom id) n (books m)) m) else None
  | ORestrict id caller open aa da ad dd =>
      a ← assets m !! id;
      if bool_decide (a_issuer a = caller /\ a_stage a <> Settled)
      then Some (mkMarket (<[id := set_open open a]> (assets m))
                   ((allowed m ∪ entries id aa) ∖ entries id da) ((denied m ∪ entries id ad) ∖ entries id dd)
                   (min_bond m) (mint_rate m) (settle_rate m) (books m))
      else None
  | OSettle id caller =>
      a ← assets m !! id;
      if bool_decide (a_issuer a = caller /\ a_stage a = Active)
      then solvent [(caller, denom id); (caller, bond_denom); (escrow, bond_denom)]
             (put_asset id (in_stage Settled a)
                (move escrow caller bond_denom (a_bond a)
                   (issue caller (denom id) (- a_minted a)
                      (move caller collector bond_denom (fee (a_minted a) (settle_rate m)) (books m)))) m)
      else None
  | OSlash caller id =>
      a ← assets m !! id;
      if bool_decide (caller = authority /\ a_stage a = Active)
      then solvent [(escrow, bond_denom)]
             (put_asset id (unbonded a) (move escrow pool bond_denom (a_bond a) (books m)) m)
      else None
  | OParams caller min mint settle =>
      if bool_decide (caller = authority /\ 0 <= min /\ 0 <= mint < unit_rate /\ 0 <= settle < unit_rate)
      then Some (mkMarket (assets m) (allowed m) (denied m) min mint settle (books m)) else None
  end.

Context (valid_id : string -> bool).

(** What the rest of the chain may do: move coins, but not touch the supplies of
    assets nor take from the escrow. *)
Definition outside (m m' : market) : Prop :=
  (exists l, m' = put_books l m) /\
  (forall id, valid_id id = true -> l_sup (books m') (denom id) = l_sup (books m) (denom id)) /\
  l_bal (books m) escrow bond_denom <= l_bal (books m') escrow bond_denom.

Inductive spec_runs : market -> list (option op) -> market -> Prop :=
| spec_nil m : spec_runs m [] m
| spec_op o m1 m2 m3 tr : exec o m1 = Some m2 -> spec_runs m2 tr m3 -> spec_runs m1 (Some o :: tr) m3
| spec_outside m1 m2 m3 tr : outside m1 m2 -> spec_runs m2 tr m3 -> spec_runs m1 (None :: tr) m3.

End Machine.

End RwaModel.

Import RwaModel.

(** The messages of the module, with the routes of its message server. *)
Inductive rwa_msg : Type :=
| MRegister (m : MsgRegisterAsset)
| MAttest (m : MsgAttestAsset)
| MMint (m : MsgMintRWA)
| MTransfer (m : MsgTransferRWA)
| MRestrict (m : MsgUpdateRestrictions)
| MSettle (m : MsgSettleRWA)
| MSlash (m : MsgSlashBond)
| MParams (m : MsgUpdateParams).

Section RwaRefine.
Context {St X : Type} {KV : KVStore St} {SM : SdkMath} {CO : Coins} {BE : Bech32} {T : StdTime}
        {BK : BankKeeper X}.
Local Abbreviation W := (world St X).
Context {PO : PriceOracle W} {POL : PriceOracleLaws W}.
Context {KVL : KVStoreLaws St} {SML : SdkMathLaws} {COL : CoinsLaws} {BEL : Bech32Laws} {TL : StdTimeLaws}.
Context (perms : list (string * list string)) {BKL : BankLaws X perms}.
Context (prwa pcol pdist : list string) (Hrwa : (ModuleName, prwa) ∈ perms)
        (Hcol : (FeeCollectorName, pcol) ∈ perms) (Hdist : ("distribution"%string, pdist) ∈ perms).

Definition handle (k : Keeper) (m : rwa_msg) : M W unit :=
  match m with
  | MRegister m => RegisterAsset m
  | MAttest m => AttestAsset m
  | MMint m => MintRWA m
  | MTransfer m => TransferRWA m
  | MRestrict m => UpdateRestrictions m
  | MSettle m => SettleRWA m
  | MSlash m => SlashBond k m
  | MParams m => UpdateParams k m
  end.

(** What every delivered message satisfies: its size is bounded by that of a
    block, and no key signs for the module account. *)
Definition deliverable (m : rwa_msg) : Prop :=
  match m with
  | MRegister m => register_small m /\ signer_ok (ra_Issuer m)
  | MMint m => signer_ok (mr_Issuer m)
  | MSettle m => signer_ok (sr_Issuer m)
  | MParams m => params_small (Params m)
  | _ => True
  end.

(** ** The abstraction *)

Definition status_of (s : stage) : Z :=
  match s with
  | Draft => ASSET_STATUS_DRAFT | Attested => ASSET_STATUS_ATTESTED
  | Active => ASSET_STATUS_ACTIVE | Settled => ASSET_STATUS_SETTLED
  end.

Record record_of (r : AssetRecord) (a : asset) : Prop := mkRecordOf {
  ro_issuer : AccAddressFromBech32 (ar_Issuer r) = Ok (a_issuer a);
  ro_pair : ar_OraclePair r = a_pair a;
  ro_stage : ar_Status r = status_of (a_stage a);
  ro_bond : NewIntFromString (ar_Bond r) = Some (a_bond a);
  ro_minted : NewIntFromString (ar_NotionalMinted r) = Some (a_minted a);
  ro_open : ar_AllowAll r = a_open a;
  ro_quote : ar_AttestedPrice r = a_quote a
}.

Record ledger_of (x : X) (l : ledger) : Prop := mkLedgerOf {
  lo_bal : forall a d, GetBalance x a d = l_bal l a d;
  lo_sup : forall d, GetSupply x d = l_sup l d
}.

Definition rates_of (p : RWAParams) (m : market) : Prop :=
  MinIssuerBondInt p = Some (min_bond m) /\ MintFeeRateDec p = Ok (mint_rate m) /\
  SettleFeeRateDec p = Ok (settle_rate m).

Record abstracts (w : W) (m : market) : Prop := mkAbstracts {
  ab_assets : forall id, match assets m !! id with
    | Some a => exists r, stored w id r /\ record_of r a
    | None => forall r, ~ stored w id r
    end;
  ab_allowed : forall id a, slugRegex id = true -> (id, a) ∈ allowed m <-> member x03 id a w;
  ab_denied : forall id a, slugRegex id = true -> (id, a) ∈ denied m <-> member x04 id a w;
  ab_rates : exists p, GetParams w = Ok p /\ rates_of p m;
  ab_books : ledger_of (w_ext w) (books m)
}.

Local Abbreviation rwa_exec k :=
  (exec ModuleAddress (GetModuleAddress FeeCollectorName) (GetModuleAddress "distribution") BuildDenom BondDenom
     (GetAuthority k) dec_one int_limit).
Local Abbreviation rwa_spec_runs k :=
  (spec_runs ModuleAddress (GetModuleAddress FeeCollectorName) (GetModuleAddress "distribution") BuildDenom BondDenom
     (GetAuthority k) dec_one int_limit slugRegex).

(** The operation a message asks for: its texts parsed and, for an attestation,
    the price that the oracle answers. *)
Inductive denotes (w : W) : rwa_msg -> op -> Prop :=
| den_register m issuer bond : AccAddressFromBech32 (ra_Issuer m) = Ok issuer -> NewIntFromString (ra_Bond m) = Some bond ->
    denotes w (MRegister m) (ORegister (ra_AssetId m) issuer (ra_OraclePair m) bond)
| den_attest m issuer r price : AccAddressFromBech32 (aa_Issuer m) = Ok issuer -> stored w (aa_AssetId m) r ->
    GetPrice (ar_OraclePair r) w = Ok price ->
    denotes w (MAttest m) (OAttest (aa_AssetId m) issuer (DecString price))
| den_mint m issuer n : AccAddressFromBech32 (mr_Issuer m) = Ok issuer -> NewIntFromString (mr_Notional m) = Some n ->
    denotes w (MMint m) (OMint (mr_AssetId m) issuer n)
| den_transfer m from to n : AccAddressFromBech32 (tr_Sender m) = Ok from -> AccAddressFromBech32 (tr_Recipient m) = Ok to ->
    NewIntFromString (tr_Amount m) = Some n ->
    denotes w (MTransfer m) (OTransfer (tr_AssetId m) from to n)
| den_restrict m issuer aa da ad dd : AccAddressFromBech32 (ur_Issuer m) = Ok issuer ->
    parsed (ur_AddAllow m) aa -> parsed (ur_DelAllow m) da -> parsed (ur_AddDeny m) ad -> parsed (ur_DelDeny m) dd ->
    denotes w (MRestrict m) (ORestrict (ur_AssetId m) issuer (ur_AllowAll m) aa da ad dd)
| den_settle m issuer : AccAddressFromBech32 (sr_Issuer m) = Ok issuer ->
    denotes w (MSettle m) (OSettle (sr_AssetId m) issuer)
| den_slash m : denotes w (MSlash m) (OSlash (sb_Authority m) (sb_AssetId m))
| den_params m min mint settle : MinIssuerBondInt (Params m) = Some min -> MintFeeRateDec (Params m) = Ok mint ->
    SettleFeeRateDec (Params m) = Ok settle ->
    denotes w (MParams m) (OParams (Authority m) min mint settle).

Lemma parsed_fun l a1 a2 : parsed l a1 -> parsed l a2 -> a1 = a2.
Proof.
  intros H1. revert a2. induction H1 as [|s a l l1 Hs _ IH]; intros a2 H2; inversion H2; subst; [done|].
  f_equal; [congruence|by apply IH].
Qed.

Lemma denotes_fun w m o1 o2 : denotes w m o1 -> denotes w m o2 -> o1 = o2.
Proof.
  destruct 1; inversion 1; subst;
    try match goal with H1 : stored _ _ ?r, H2 : stored _ _ ?r' |- _ => pose proof (stored_inj _ _ _ _ H1 H2); subst end;
    f_equal; by (eapply parsed_fun || congruence).
Qed.

(** ** Simulation, message by message *)

Lemma abstracts_stored w m id r : abstracts w m -> stored w id r ->
  exists a, assets m !! id = Some a /\ record_of r a.
Proof.
  intros Ha Hr. pose proof (ab_assets _ _ Ha id) as H. destruct (assets m !! id) as [a|].
  - destruct H as (r' & Hr' & Ho). rewrite (stored_inj _ _ _ _ Hr Hr'). eauto.
  - by destruct (H r).
Qed.

Lemma solvent_ledger x parties m : ledger_of x (books m) -> solvent parties m = Some m.
Proof.
  intros [Hb _]. unfold solvent. rewrite bool_decide_eq_true_2; [done|].
  apply Forall_forall. intros p _. rewrite <- Hb. apply balance_nonneg.
Qed.

Lemma ledger_move x x' f t d n l : ledger_of x l -> transferred x x' f t [(d, n)] -> ledger_of x' (move f t d n l).
Proof.
  intros [H1 H2] [Tb Ts]. constructor; cbn.
  - intros a d'. rewrite Tb, H1, !coin_amt_single. repeat case_decide; naive_solver lia.
  - intros d'. by rewrite Ts, H2.
Qed.

Lemma ledger_mint x x' a d n f l : ledger_of x l -> mint_ledger x x' a d n f ->
  ledger_of x' (issue a d n (move a (GetModuleAddress FeeCollectorName) BondDenom f l)).
Proof.
  intros [H1 H2] [Tb Ts]. constructor; cbn; intros; rewrite ?Tb, ?Ts, ?H1, ?H2; lia.
Qed.

Lemma ledger_settle x x' a d n f bond l : ledger_of x l -> settle_ledger x x' a d n f bond ->
  ledger_of x' (move ModuleAddress a BondDenom bond
    (issue a d (- n) (move a (GetModuleAddress FeeCollectorName) BondDenom f l))).
Proof.
  intros [H1 H2] [Tb Ts]. constructor; cbn; intros; rewrite ?Tb, ?Ts, ?H1, ?H2; repeat case_decide; lia.
Qed.

(** One record was written, and the ledger is now [l]. *)
Lemma abstracts_record w w' m issuer r a l : abstracts w m -> record_set w w' issuer r -> record_of r a ->
  ledger_of (w_ext w') l -> abstracts w' (put_asset (ar_AssetId r) a l m).
Proof.
  intros [Has Hal Hde [p Hp] _] Hset Ho Hl. pose proof (record_set_stored _ _ _ _ Hset) as Hst.
  destruct Hset as (bz & Hu & V & _).
  assert (forall q id b, q <> x01 -> q <> x02 -> member q id b w' <-> member q id b w) as Hmem.
  { intros q id b H1 H2. unfold member. rewrite V. unfold index_upd.
    rewrite !lookup_insert_ne; [done| |]; by intros [=]. }
  constructor; cbn [put_asset assets allowed denied min_bond mint_rate settle_rate books];
    [|intros; by rewrite Hmem; auto..| |done].
  - intros id. destruct (decide (id = ar_AssetId r)) as [->|Hne]; [rewrite lookup_insert_eq; eauto|].
    rewrite lookup_insert_ne by done.
    assert (view RwaKey w' !! AssetKey id = view RwaKey w !! AssetKey id) as E.
    { rewrite V, index_upd_asset, lookup_insert_ne; [done| |apply asset_key_AssetKey].
      intros E. by apply AssetKey_inj in E. }
    specialize (Has id). unfold stored in *. by rewrite E.
  - exists p. rewrite rwa_GetParams_view in *. rewrite V. unfold index_upd.
    by rewrite !lookup_insert_ne by done.
Qed.

Definition simulated (k : Keeper) (w w' : W) (m : market) (msg : rwa_msg) : Prop :=
  exists o m', denotes w msg o /\ rwa_exec k o m = Some m' /\ abstracts w' m'.

Lemma sim_register k w w' m msg : abstracts w m -> register_effect msg w w' -> simulated k w w' m (MRegister msg).
Proof.
  intros Ha (issuer & bond & params & minBond & Hiss & Hsl & _ & _ & Hf & Hb & Hb0 & Hp & Hm & Hle & Tr & Hset).
  pose proof (ab_books _ _ Ha) as Hl. pose proof (ledger_move _ _ _ _ _ _ _ Hl Tr) as Hl'.
  assert (record_of (registered msg bond (w_time w)) (mkAsset issuer (ra_OraclePair msg) Draft bond 0 true "")) as Ho.
  { constructor; cbn; try done; by rewrite int_print by (by apply int_parse_range in Hb || done). }
  pose proof (abstracts_record _ _ _ _ _ _ _ Ha Hset Ho Hl') as Ha'.
  eexists _, _. split; [by constructor|]. split; [|exact Ha']. cbn [exec].
  rewrite bool_decide_eq_true_2; [by eapply solvent_ledger|]. split_and!; [|done|].
  - pose proof (ab_assets _ _ Ha (ra_AssetId msg)) as H. destruct (assets m !! ra_AssetId msg) as [a|]; [|done].
    destruct H as (r & (bz & Hv & _) & _). congruence.
  - destruct (ab_rates _ _ Ha) as (p & Hp' & Hm' & _). simplify_eq/=. congruence.
Qed.

Lemma stage_status s s' : status_of s = status_of s' -> s = s'.
Proof. by destruct s, s'. Qed.

Lemma sim_attest k w w' m msg : rwa_inv w -> abstracts w m -> attest_effect msg w w' -> simulated k w w' m (MAttest msg).
Proof.
  intros Hi Ha (r & issuer & price & Hst & Hc & Hiss & Hs & Hp & EX & Hset).
  destruct (inv_stored _ _ _ Hi Hst) as [Hid _].
  destruct (abstracts_stored _ _ _ _ Ha Hst) as (a & Hla & Ho). pose proof Ho as [O1 O2 O3 O4 O5 O6 O7].
  assert (record_of (attested price (w_time w) r) (quoted (DecString price) a)) as Ho' by (by constructor).
  assert (ledger_of (w_ext w') (books m)) as Hl by (rewrite EX; apply Ha).
  pose proof (abstracts_record _ _ _ _ _ _ _ Ha Hset Ho' Hl) as Ha'. cbn [attested with_attestation ar_AssetId with_status] in Ha'.
  rewrite Hid in Ha'. eexists _, _. split; [by econstructor; [rewrite <- Hc| |]|]. split; [|exact Ha'].
  cbn [exec]. rewrite Hla. cbn. rewrite bool_decide_eq_true_2; [done|]. split; [congruence|].
  apply stage_status. by rewrite <- O3.
Qed.

Lemma rates_mint w m p rate : abstracts w m -> GetParams w = Ok p -> MintFeeRateDec p = Ok rate -> rate = mint_rate m.
Proof. intros Ha H1 H2. destruct (ab_rates _ _ Ha) as (p' & Hp & _ & Hm & _). congruence. Qed.

Lemma rates_settle w m p rate : abstracts w m -> GetParams w = Ok p -> SettleFeeRateDec p = Ok rate -> rate = settle_rate m.
Proof. intros Ha H1 H2. destruct (ab_rates _ _ Ha) as (p' & Hp & _ & _ & Hm). congruence. Qed.

Lemma sim_mint k w w' m msg : rwa_inv w -> abstracts w m -> mint_effect msg w w' -> simulated k w w' m (MMint msg).
Proof.
  intros Hi Ha (r & issuer & prev & n & p & rate & Hst & Hc & Hiss & Hs & Hn & Hn0 & Hprev & Hlim & Hp & Hrate & Hled & Hset).
  destruct (inv_stored _ _ _ Hi Hst) as [Hid Hok].
  destruct (abstracts_stored _ _ _ _ Ha Hst) as (a & Hla & Ho). pose proof Ho as [O1 O2 O3 O4 O5 O6 O7].
  rewrite Hiss in O1. injection O1 as ->. rewrite Hprev in O5. injection O5 as ->.
  rewrite (rates_mint _ _ _ _ Ha Hp Hrate), (ao_denom _ _ Hok), Hid in Hled.
  destruct (ao_notional _ _ Hok) as (n0 & Hn1 & Hn2 & _). rewrite Hprev in Hn1. injection Hn1 as <-.
  assert (record_of (minted (a_minted a + n) r) (mint_more n a)) as Ho'.
  { constructor; cbn; try done. by rewrite int_print by lia. }
  pose proof (ledger_mint _ _ _ _ _ _ _ (ab_books _ _ Ha) Hled) as Hl.
  pose proof (abstracts_record _ _ _ _ _ _ _ Ha Hset Ho' Hl) as Ha'. cbn [minted with_status with_notional ar_AssetId] in Ha'.
  rewrite Hid in Ha'. eexists _, _. split; [constructor; [rewrite <- Hc; exact Hiss|exact Hn]|]. split; [|exact Ha'].
  cbn [exec]. rewrite Hla. cbn [mbind option_bind]. rewrite bool_decide_eq_true_2; [by eapply solvent_ledger|].
  split_and!; try done. destruct Hs as [Hs|Hs]; [left|right]; apply stage_status; by rewrite <- O3.
Qed.

Lemma open_to_allowed w m id r a from to : abstracts w m -> slugRegex id = true -> ar_AssetId r = id -> record_of r a ->
  transfer_allowed r from to w -> open_to id a from to m = true.
Proof.
  intros Ha Hsl <- Ho (H1 & H2 & H3). unfold open_to. rewrite <- (ro_open _ _ Ho).
  rewrite <- (ab_denied _ _ Ha) in H2, H3 by done. rewrite <- !(ab_allowed _ _ Ha) in H1 by done.
  rewrite (bool_decide_eq_true_2 _ H2), (bool_decide_eq_true_2 _ H3), !andb_true_r.
  destruct H1 as [-> | [H1 H4]]; [done|]. rewrite (bool_decide_eq_true_2 _ H1), (bool_decide_eq_true_2 _ H4). apply orb_true_r.
Qed.

Lemma abstracts_agree w w' m l : abstracts w m -> view RwaKey w' = view RwaKey w -> ledger_of (w_ext w') l ->
  abstracts w' (put_books l m).
Proof.
  intros [Has Hal Hde [p Hp] _] V Hl.
  constructor; cbn [put_books assets allowed denied min_bond mint_rate settle_rate books]; [| | | |done]; unfold stored, member; rewrite ?V; try done.
  exists p. rewrite rwa_GetParams_view in *. by rewrite V.
Qed.

Lemma sim_transfer k w w' m msg : rwa_inv w -> abstracts w m -> transfer_effect msg w w' ->
  simulated k w w' m (MTransfer msg).
Proof.
  intros Hi Ha (r & from & to & n & Hst & Hs & Hf & Ht & Hleg & Hn & Hn0 & Tr & O).
  destruct (inv_stored _ _ _ Hi Hst) as [Hid Hok]. rewrite (ao_denom _ _ Hok), Hid in Tr.
  destruct (abstracts_stored _ _ _ _ Ha Hst) as (a & Hla & Ho).
  assert (view RwaKey w' = view RwaKey w) as V by (unfold view; by rewrite O).
  pose proof (ledger_move _ _ _ _ _ _ _ (ab_books _ _ Ha) Tr) as Hl.
  eexists _, _. split; [by constructor|]. split; [|by apply (abstracts_agree w)].
  cbn [exec]. rewrite Hla. cbn [mbind option_bind]. rewrite bool_decide_eq_true_2.
  2:{ split; [|done]. apply stage_status. by rewrite <- (ro_stage _ _ Ho). }
  destruct (_ || _ || _) eqn:E; [by eapply solvent_ledger|].
  apply orb_false_iff in E as [[E1 E2]%orb_false_iff E3]. apply bool_decide_eq_false in E1, E2.
  destruct Hleg as [?|[?|(r' & Hr' & Hal)]]; [done..|]. rewrite (stored_inj _ _ _ _ Hr' Hst) in Hal.
  assert (slugRegex (tr_AssetId msg) = true) as Hsl by (rewrite <- Hid; apply Hok).
  by rewrite (open_to_allowed _ _ _ _ _ _ _ Ha Hsl Hid Ho Hal) in E3.
Qed.

Lemma elem_of_entries id id' a l : (id', a) ∈ entries id l <-> id' = id /\ a ∈ l.
Proof. unfold entries. rewrite elem_of_list_to_set, list_elem_of_fmap. naive_solver. Qed.

Lemma sim_restrict k w w' m msg r aa da ad dd : rwa_inv w -> abstracts w m -> restrict_admissible msg w r aa da ad dd ->
  restrict_effect msg w w' r aa da ad dd -> rwa_inv w' -> simulated k w w' m (MRestrict msg).
Proof.
  intros Hi Ha [Hst Hc Hs _ P1 P2 P3 P4] (Hst' & Hal & Hde & Hoth & Hpar & EX) Hi'.
  destruct (inv_stored _ _ _ Hi Hst) as [Hid Hok].
  destruct (abstracts_stored _ _ _ _ Ha Hst) as (a & Hla & Ho). pose proof Ho as [O1 O2 O3 O4 O5 O6 O7].
  assert (slugRegex (ur_AssetId msg) = true) as Hsl by (rewrite <- Hid; apply Hok).
  eexists _, _. split; [by constructor; [rewrite <- Hc; exact O1|..]|]. split.
  - cbn [exec]. rewrite Hla. cbn [mbind option_bind]. rewrite bool_decide_eq_true_2; [done|]. split; [done|].
    intros E. by rewrite E in O3.
  - constructor; cbn [assets allowed denied min_bond mint_rate settle_rate books].
    + intros id. destruct (decide (id = ur_AssetId msg)) as [->|Hne].
      * rewrite lookup_insert_eq. eexists. split; [exact Hst'|by constructor].
      * rewrite lookup_insert_ne by done. pose proof (ab_assets _ _ Ha id) as H.
        assert (forall r, stored w' id r <-> stored w id r) as E.
        { intros r'. destruct (slugRegex id) eqn:Hsl'; [by apply Hoth|].
          split; intros Hst2; [apply (inv_stored _ _ _ Hi') in Hst2 as [<- [Hb _]]|apply (inv_stored _ _ _ Hi) in Hst2 as [<- [Hb _]]];
            congruence. }
        destruct (assets m !! id) as [b|]; [|intros r'; by rewrite E]. destruct H as (r' & Hr' & ?). exists r'. by rewrite E.
    + intros id b Hid'. rewrite elem_of_difference, elem_of_union, !elem_of_entries, (ab_allowed _ _ Ha) by done.
      destruct (decide (id = ur_AssetId msg)) as [->|Hne]; [rewrite Hal; naive_solver|].
      destruct (Hoth id Hid' Hne) as [_ Hm]. rewrite Hm by set_solver. naive_solver.
    + intros id b Hid'. rewrite elem_of_difference, elem_of_union, !elem_of_entries, (ab_denied _ _ Ha) by done.
      destruct (decide (id = ur_AssetId msg)) as [->|Hne]; [rewrite Hde; naive_solver|].
      destruct (Hoth id Hid' Hne) as [_ Hm]. rewrite Hm by set_solver. naive_solver.
    + rewrite Hpar. apply Ha.
    + rewrite EX. apply Ha.
Qed.

Lemma sim_settle k w w' m msg : rwa_inv w -> abstracts w m -> settle_effect msg w w' -> simulated k w w' m (MSettle msg).
Proof.
  intros Hi Ha (r & issuer & n & bond & p & rate & Hst & Hc & Hiss & Hs & Hn & Hb & Hp & Hrate & Hled & Hset).
  destruct (inv_stored _ _ _ Hi Hst) as [Hid Hok].
  destruct (abstracts_stored _ _ _ _ Ha Hst) as (a & Hla & Ho). pose proof Ho as [O1 O2 O3 O4 O5 O6 O7].
  rewrite Hiss in O1. injection O1 as ->. rewrite Hb in O4. injection O4 as ->. rewrite Hn in O5. injection O5 as ->.
  rewrite (rates_settle _ _ _ _ Ha Hp Hrate), (ao_denom _ _ Hok), Hid in Hled.
  assert (record_of (settled (w_time w) r) (in_stage Settled a)) as Ho' by (by constructor).
  pose proof (ledger_settle _ _ _ _ _ _ _ _ (ab_books _ _ Ha) Hled) as Hl.
  pose proof (abstracts_record _ _ _ _ _ _ _ Ha Hset Ho' Hl) as Ha'. cbn [settled with_status with_settled ar_AssetId] in Ha'.
  rewrite Hid in Ha'. eexists _, _. split; [constructor; rewrite <- Hc; exact Hiss|]. split; [|exact Ha'].
  cbn [exec]. rewrite Hla. cbn [mbind option_bind]. rewrite bool_decide_eq_true_2; [by eapply solvent_ledger|].
  split; [done|]. apply stage_status. by rewrite <- O3.
Qed.

Lemma sim_slash k w w' m msg : rwa_inv w -> abstracts w m -> slash_effect k msg w w' -> simulated k w w' m (MSlash msg).
Proof.
  intros Hi Ha (r & issuer & bond & Hau & Hst & Hiss & Hs & Hb & Tr & Hset).
  destruct (inv_stored _ _ _ Hi Hst) as [Hid Hok].
  destruct (abstracts_stored _ _ _ _ Ha Hst) as (a & Hla & Ho). pose proof Ho as [O1 O2 O3 O4 O5 O6 O7].
  rewrite Hb in O4. injection O4 as ->.
  assert (record_of (slashed (w_time w) r) (unbonded a)) as Ho' by (constructor; cbn; try done; by rewrite int_print).
  pose proof (ledger_move _ _ _ _ _ _ _ (ab_books _ _ Ha) Tr) as Hl.
  pose proof (abstracts_record _ _ _ _ _ _ _ Ha Hset Ho' Hl) as Ha'. change (ar_AssetId (slashed _ r)) with (ar_AssetId r) in Ha'.
  rewrite Hid in Ha'. eexists _, _. split; [constructor|]. split; [|exact Ha'].
  cbn [exec]. rewrite Hla. cbn [mbind option_bind]. rewrite bool_decide_eq_true_2; [by eapply solvent_ledger|].
  split; [done|]. apply stage_status. by rewrite <- O3.
Qed.

Lemma UpdateParams_authority k msg (w w' : W) : UpdateParams k msg w = (w', Ok tt) -> Authority msg = GetAuthority k.
Proof.
  intros H. unfold UpdateParams in H. run_inv H.
  match goal with H : negb (bool_decide _) = false |- _ => apply negb_false_iff, bool_decide_eq_true in H end. done.
Qed.

Lemma sim_params k w w' m msg : abstracts w m -> params_small (Params msg) -> UpdateParams k msg w = (w', Ok tt) ->
  simulated k w w' m (MParams msg).
Proof.
  intros Ha Hsm H. pose proof (UpdateParams_authority _ _ _ _ H) as Hau.
  destruct (UpdateParams_effect k msg w w' Hsm H) as (bz & Hu & Hval & V & EX & _).
  pose proof (proj1 (RWAParams_Validate_spec _) Hval) as ((b & Hb & Hb0) & (d1 & Hd1 & Hr1) & (d2 & Hd2 & Hr2)).
  eexists _, _. split; [by econstructor|]. split; [cbn [exec]; by rewrite bool_decide_eq_true_2|].
  destruct Ha as [Has Hal Hde _ Hbo].
  constructor; cbn [assets allowed denied min_bond mint_rate settle_rate books]; [| | | |by rewrite EX].
  - intros id. specialize (Has id). unfold stored in *. rewrite V, lookup_insert_ne by done. exact Has.
  - intros id a Hid. unfold member. rewrite V, lookup_insert_ne by done. by apply Hal.
  - intros id a Hid. unfold member. rewrite V, lookup_insert_ne by done. by apply Hde.
  - exists (Params msg). rewrite rwa_GetParams_view, V, lookup_insert_eq. split; [done|]. by split_and!.
Qed.

Lemma rwa_simulates k w w' m msg : rwa_inv w -> abstracts w m -> deliverable msg -> handle k msg w = (w', Ok tt) ->
  simulated k w w' m msg.
Proof.
  intros Hi Ha Hd H. destruct msg as [msg|msg|msg|msg|msg|msg|msg|msg]; cbn [handle deliverable] in *.
  - destruct Hd as [Hd _]. apply sim_register; [done|].
    by apply (wlp_run _ _ _ _ _ _ (RegisterAsset_wlp perms prwa Hrwa msg w Hi Hd) H).
  - apply sim_attest; [done..|]. by apply (wlp_run _ _ _ _ _ _ (AttestAsset_wlp msg w Hi) H).
  - apply sim_mint; [done..|]. by apply (wlp_run _ _ _ _ _ _ (MintRWA_wlp perms prwa pcol Hrwa Hcol msg w Hi) H).
  - apply sim_transfer; [done..|]. by apply (wlp_run _ _ _ _ _ _ (TransferRWA_wlp perms msg w Hi) H).
  - destruct (UpdateRestrictions_admitted _ _ _ Hi H) as (r & aa & da & ad & dd & Had).
    destruct (UpdateRestrictions_run _ _ _ _ _ _ _ Hi Had) as (w1 & E & He & Hi1 & _).
    rewrite H in E. injection E as <-. by eapply sim_restrict.
  - apply sim_settle; [done..|]. by apply (wlp_run _ _ _ _ _ _ (SettleRWA_wlp perms prwa pcol Hrwa Hcol msg w Hi) H).
  - apply sim_slash; [done..|]. by apply (wlp_run _ _ _ _ _ _ (SlashBond_msg_wlp perms k msg w Hi) H).
  - by apply sim_params.
Qed.

(** ** Executions *)

(** A history: every delivered message with the state it was delivered in, and
    the activity of the rest of the chain. *)
Inductive runs (k : Keeper) : W -> list (W * option rwa_msg) -> W -> Prop :=
| runs_nil w : runs k w [] w
| runs_msg msg w1 w2 w3 h : deliverable msg -> handle k msg w1 = (w2, Ok tt) -> runs k w2 h w3 ->
    runs k w1 ((w1, Some msg) :: h) w3
| runs_other w1 w2 w3 h : view RwaKey w2 = view RwaKey w1 -> time_ok (w_time w2) ->
    (forall id, slugRegex id = true -> GetSupply (w_ext w2) (BuildDenom id) = GetSupply (w_ext w1) (BuildDenom id)) ->
    GetBalance (w_ext w1) ModuleAddress BondDenom <= GetBalance (w_ext w2) ModuleAddress BondDenom ->
    runs k w2 h w3 -> runs k w1 ((w1, None) :: h) w3.

(** The trace of the specification says what the history did. *)
Definition same_act (a : W * option rwa_msg) (o : option op) : Prop :=
  match a.2, o with
  | Some msg, Some o => denotes a.1 msg o
  | None, None => True
  | _, _ => False
  end.

Lemma handle_step k msg w w' : deliverable msg -> handle k msg w = (w', Ok tt) -> rwa_step k w w'.
Proof.
  intros Hd H. destruct msg as [msg|msg|msg|msg|msg|msg|msg|msg]; cbn [handle deliverable] in *.
  - destruct Hd. by eapply rstep_register.
  - by eapply rstep_attest.
  - by eapply rstep_mint.
  - by eapply rstep_transfer.
  - by eapply rstep_restrict.
  - by eapply rstep_settle.
  - by eapply rstep_slash.
  - by eapply rstep_params.
Qed.

Lemma outside_books w1 w2 m : abstracts w1 m -> view RwaKey w2 = view RwaKey w1 ->
  (forall id, slugRegex id = true -> GetSupply (w_ext w2) (BuildDenom id) = GetSupply (w_ext w1) (BuildDenom id)) ->
  GetBalance (w_ext w1) ModuleAddress BondDenom <= GetBalance (w_ext w2) ModuleAddress BondDenom ->
  exists m', outside ModuleAddress BuildDenom BondDenom slugRegex m m' /\ abstracts w2 m'.
Proof.
  intros Ha V Hs Hb. pose proof (ab_books _ _ Ha) as [Hb1 Hs1].
  exists (put_books (mkLedger (GetBalance (w_ext w2)) (GetSupply (w_ext w2))) m).
  split; [|by apply (abstracts_agree w1)]. split; [by eexists|]. cbn.
  split; [intros id Hid; by rewrite <- Hs1, Hs|by rewrite <- Hb1].
Qed.

Lemma runs_simulated k w1 h w m1 : runs k w1 h w -> rwa_inv w1 -> abstracts w1 m1 ->
  exists tr m, rwa_spec_runs k m1 tr m /\ Forall2 same_act h tr /\ abstracts w m /\ rwa_inv w.
Proof.
  intros Hr. revert m1. induction Hr as [w|msg w1 w2 w3 h Hd H _ IH|w1 w2 w3 h V Ht Hs Hb _ IH]; intros m1 Hi Ha.
  - exists [], m1. split_and!; [apply spec_nil|constructor|done|done].
  - destruct (rwa_simulates _ _ _ _ _ Hi Ha Hd H) as (o & m2 & Ho & He & Ha2).
    destruct (rwa_step_inv perms prwa pcol pdist Hrwa Hcol Hdist k w1 w2 Hi (handle_step _ _ _ _ Hd H)) as [Hi2 _].
    destruct (IH m2 Hi2 Ha2) as (tr & m & Hrun & Hf & ?). exists (Some o :: tr), m.
    split_and!; [by eapply spec_op|by constructor|naive_solver..].
  - destruct (outside_books w1 w2 m1 Ha V Hs Hb) as (m2 & Ho & Ha2).
    destruct (rwa_step_inv perms prwa pcol pdist Hrwa Hcol Hdist k w1 w2 Hi (rstep_other _ _ _ V Ht Hs Hb)) as [Hi2 _].
    destruct (IH m2 Hi2 Ha2) as (tr & m & Hrun & Hf & ?). exists (None :: tr), m.
    split_and!; [by eapply spec_outside|by constructor|naive_solver..].
Qed.

(** ** Genesis *)

Definition stage_of (status : Z) : stage :=
  if status =? ASSET_STATUS_DRAFT then Draft else if status =? ASSET_STATUS_ATTESTED then Attested else
  if status =? ASSET_STATUS_ACTIVE then Active else Settled.

Definition asset_from (r : AssetRecord) : asset :=
  mkAsset (match AccAddressFromBech32 (ar_Issuer r) with Ok a => a | _ => [] end) (ar_OraclePair r)
    (stage_of (ar_Status r)) (default 0 (NewIntFromString (ar_Bond r))) (default 0 (NewIntFromString (ar_NotionalMinted r)))
    (ar_AllowAll r) (ar_AttestedPrice r).

Definition listed (p : byte) (r : Restriction) : option (string * bytes) :=
  match AccAddressFromBech32 (rs_Address r) with
  | Ok a => if decide (list_of r = p) then Some (rs_AssetId r, a) else None
  | _ => None
  end.

Definition genesis_market (gs : GenesisState) (x : X) : market :=
  mkMarket (list_to_map ((fun r => (ar_AssetId r, asset_from r)) <$> gs_Assets gs))
    (list_to_set (omap (listed x03) (gs_Restrictions gs))) (list_to_set (omap (listed x04) (gs_Restrictions gs)))
    (default 0 (MinIssuerBondInt (gs_Params gs)))
    (match MintFeeRateDec (gs_Params gs) with Ok d => d | _ => 0 end)
    (match SettleFeeRateDec (gs_Params gs) with Ok d => d | _ => 0 end)
    (mkLedger (GetBalance x) (GetSupply x)).

Lemma asset_from_ok x r : asset_ok x r -> record_of r (asset_from r).
Proof.
  intros [_ _ Hs [i Hi] (b & Hb & _) (n & Hn & _) _ _]. constructor; cbn; rewrite ?Hi, ?Hb, ?Hn; try done.
  unfold stage_of, ASSET_STATUS_DRAFT, ASSET_STATUS_ATTESTED, ASSET_STATUS_ACTIVE, ASSET_STATUS_SETTLED in *.
  repeat case_match; cbn; unfold ASSET_STATUS_DRAFT, ASSET_STATUS_ATTESTED, ASSET_STATUS_ACTIVE, ASSET_STATUS_SETTLED; lia.
Qed.

Lemma listed_lists p l id a :
  (id, a) ∈ (list_to_set (omap (listed p) l) : gset (string * bytes)) <-> lists l p id a.
Proof.
  rewrite elem_of_list_to_set, list_elem_of_omap. unfold lists, listed. split.
  - intros (r & Hr & E). exists r. destruct (AccAddressFromBech32 (rs_Address r)); [|done..].
    case_decide; [|done]. by simplify_eq.
  - intros (r & Hr & Hp & <- & Ha). exists r. split; [done|]. by rewrite Ha, decide_True.
Qed.

Lemma genesis_abstracts gs (w0 : W) : genesis_sound gs w0 ->
  exists w1, InitGenesis gs w0 = (w1, Ok tt) /\ rwa_inv w1 /\ abstracts w1 (genesis_market gs (w_ext w0)).
Proof.
  intros Hg. destruct (genesis_inv gs w0 Hg) as (w1 & E & Hi & EX). exists w1. split_and!; [done..|].
  destruct Hg as [Hv Hsm Hok _ _ _ He].
  destruct (rwa_InitGenesis_run gs w0 Hv Hsm) as (w' & m & E' & (V & _) & [(bz & Hbz & Hu) [H1 H2 _] Hli]); [|done|].
  { eapply Forall_impl; [exact Hok|]. intros r Hr. apply rec_small_wf; apply Hr. }
  rewrite E in E'. injection E' as <-. destruct (genesis_restrictions_ok gs Hv) as (Hp & ND & _).
  pose proof (proj1 (RWAParams_Validate_spec _) Hp) as ((b & Hb & _) & (d1 & Hd1 & _) & (d2 & Hd2 & _)).
  rewrite Forall_forall in Hok.
  constructor; cbn [genesis_market assets allowed denied min_bond mint_rate settle_rate books].
  - intros id. destruct (list_to_map _ !! id) as [a|] eqn:El.
    + apply elem_of_list_to_map_2, list_elem_of_fmap in El as (r & [= -> ->] & Hr).
      exists r. split; [|by eapply asset_from_ok, Hok]. unfold stored. rewrite V. by apply H2.
    + intros r (bz' & Hv' & Hu'). rewrite V in Hv'. destruct (H1 _ _ Hv' (asset_key_AssetKey id)) as (r' & Hr' & _ & Ek).
      apply AssetKey_inj in Ek. apply not_elem_of_list_to_map in El. destruct El.
      rewrite <- list_fmap_compose, Ek. apply list_elem_of_fmap. by exists r'.
  - intros id a Hsl. rewrite listed_lists. unfold member. rewrite V. symmetry. apply Hli; [set_solver|done].
  - intros id a Hsl. rewrite listed_lists. unfold member. rewrite V. symmetry. apply Hli; [set_solver|done].
  - exists (gs_Params gs). rewrite rwa_GetParams_view, V, Hbz. unfold MustUnmarshal. rewrite Hu. split; [done|].
    unfold rates_of, genesis_market, MinIssuerBondInt, MintFeeRateDec, SettleFeeRateDec.
    cbn [min_bond mint_rate settle_rate]. by rewrite Hb, Hd1, Hd2.
  - rewrite EX. by constructor.
Qed.

(** C10: the module refines its abstract specification. From a sound genesis state,
    every history of delivered messages, interleaved with whatever else the chain
    does to the ledger, is a trace of the specification that starts in the
    market described by the genesis state: each message carried out is the
    operation it asks for, with its guards, its effect on assets and lists, and
    exactly its movements of coins; and in the state reached, a message whose
    operation the specification refuses does not succeed. *)
Theorem rwa_refines_spec k gs (w0 : W) : genesis_sound gs w0 ->
  exists w1, InitGenesis gs w0 = (w1, Ok tt) /\
    forall h w, runs k w1 h w ->
      exists tr m, rwa_spec_runs k (genesis_market gs (w_ext w0)) tr m /\ Forall2 same_act h tr /\ abstracts w m /\
        forall msg o, deliverable msg -> denotes w msg o -> rwa_exec k o m = None ->
          forall w', handle k msg w <> (w', Ok tt).
Proof.
  intros Hg. destruct (genesis_abstracts gs w0 Hg) as (w1 & E & Hi & Ha). exists w1. split; [done|].
  intros h w Hr. destruct (runs_simulated k w1 h w _ Hr Hi Ha) as (tr & m & Hs & Hf & Ha' & Hi').
  exists tr, m. split_and!; [done..|]. intros msg o Hd Ho Hn w' H.
  destruct (rwa_simulates k w w' m msg Hi' Ha' Hd H) as (o' & m' & Ho' & He & _).
  rewrite (denotes_fun _ _ _ _ Ho Ho') in Hn. congruence.
Qed.

End RwaRefine.
