(* ===== verification/RwaRef.v ===== *)
(** * x/rwa on a concrete chain

    [OraclePrice] is the interface that x/rwa asks of x/oracle ([PriceOracle]),
    implemented by the keeper of [OracleKeeper]; its law is discharged there. The
    rest of the file runs the life of an asset on the reference chain of [SdkRef]
    and evaluates the theorems of [RwaSpec] and [RwaSafety] on it. *)

From S2P Require Import Prelude Sdk World SdkRef Wire OracleTypes OracleAgg OracleKeeper.
From S2P Require Import RwaTypes RwaKeeper RwaMsg RwaInv RwaSpec RwaSafety RwaRefine.
Import RwaModel.

Open Scope Z_scope.

(** ** The oracle, as x/rwa sees it *)

Section OraclePrice.
Context {St X : Type} {KV : KVStore St} {SM : SdkMath} {SML : SdkMathLaws} {T : StdTime}.

#[global] Instance OraclePrice : PriceOracle (world St X) := {| RwaKeeper.GetPrice := OracleKeeper.GetPrice |}.

#[global] Instance OraclePrice_laws : PriceOracleLaws (world St X).
Proof.
  constructor. intros pair w d H. cbn in H. unfold OracleKeeper.GetPrice in H.
  apply res_bind_Ok in H as (ap & _ & H). by apply dec_parse_range in H.
Qed.

(** C27: the price recorded by an attestation is the oracle's own: it is read from a
    pair on the accept list, and is no older than the oracle's maximum age. *)
Theorem attestation_price_fresh {KVL : KVStoreLaws St} {CO : Coins} {COL : CoinsLaws} {BE : Bech32} {BEL : Bech32Laws}
  {TL : StdTimeLaws} {BK : BankKeeper X} msg (w w' : world St X) :
  rwa_inv w -> AttestAsset msg w = (w', Ok tt) ->
  exists r r' params ap price,
    stored w (aa_AssetId msg) r /\ stored w' (aa_AssetId msg) r' /\
    OracleKeeper.GetParams w = Ok params /\ PairAccepted params (ar_OraclePair r) = true /\
    GetAggregatedPrice (ar_OraclePair r) w = Ok ap /\
    time_sub (w_time w) (ap_BlockTime ap) <= seconds (MaxPriceAge params) /\
    LegacyNewDecFromStr (ap_Price ap) = Ok price /\ ar_AttestedPrice r' = DecString price /\
    ar_AttestedAt r' = w_time w /\ ar_Status r' = ASSET_STATUS_ATTESTED.
Proof.
  intros Hi H.
  destruct (wlp_run _ _ _ _ _ _ (AttestAsset_wlp msg w Hi) H) as [(r & issuer & price & Hst & _ & _ & _ & Hp & _ & Hset) _].
  apply record_set_stored in Hset. destruct (inv_stored _ _ _ Hi Hst) as [Hid _]. cbn in Hset. rewrite Hid in Hset.
  cbn in Hp. unfold OracleKeeper.GetPrice in Hp. apply res_bind_Ok in Hp as (ap & Hap & Hp).
  pose proof Hap as Hag. unfold GetAggregatedPrice in Hag.
  apply res_bind_Ok in Hag as (params & Hpar & Hag). destruct (PairAccepted params (ar_OraclePair r)) eqn:Hacc; [|done].
  cbn [negb] in Hag. apply res_bind_Ok in Hag as ([bz|] & _ & Hag); [|done].
  apply res_bind_Ok in Hag as (ap' & _ & Hag). cbv zeta in Hag.
  destruct (Z.ltb_spec (seconds (MaxPriceAge params)) (time_sub (w_time w) (ap_BlockTime ap'))); [done|].
  injection Hag as ->. exists r, (attested price (w_time w) r), params, ap, price. by split_and!.
Qed.

End OraclePrice.

(** ** The life of an asset on the reference chain *)

Definition ref_rwa_perms : list (string * list string) :=
  [(FeeCollectorName, []); (ModuleName, ["minter"%string; "burner"%string]); ("distribution"%string, [])].

#[local] Instance ref_rwa_bank : BankKeeper sdk_state := BK_ref ref_rwa_perms ["distribution"%string].
#[local] Instance ref_rwa_bank_laws : BankLaws sdk_state ref_rwa_perms := BKL_ref ref_rwa_perms ["distribution"%string].

Lemma ref_has_rwa : (ModuleName, ["minter"%string; "burner"%string]) ∈ ref_rwa_perms.
Proof. right; left. Qed.
Lemma ref_has_collector : (FeeCollectorName, []) ∈ ref_rwa_perms.
Proof. left. Qed.
Lemma ref_has_distribution : ("distribution"%string, []) ∈ ref_rwa_perms.
Proof. right; right; left. Qed.

Definition ref_rwa_genesis : GenesisState := mkGenesisState (mkRWAParams "1000" "0.001" "0.002") [] [].
Definition ref_w0 : world (gmap bytes bytes) sdk_state := at_time ref_priced 110.
Definition ref_w1 := (InitGenesis ref_rwa_genesis ref_w0).1.
Definition ref_register : MsgRegisterAsset :=
  mkMsgRegisterAsset "vtx1alice" "villa-1" "Villa" "A house" "VTX:USD" "5000".
Definition ref_w2 := (RegisterAsset ref_register ref_w1).1.
Definition ref_attest : MsgAttestAsset := mkMsgAttestAsset "vtx1alice" "villa-1".
Definition ref_w3 := (AttestAsset ref_attest ref_w2).1.
Definition ref_mint : MsgMintRWA := mkMsgMintRWA "vtx1alice" "villa-1" "250000".
Definition ref_w4 := (MintRWA ref_mint ref_w3).1.
Definition ref_transfer : MsgTransferRWA := mkMsgTransferRWA "vtx1alice" "vtx1bobby" "villa-1" "40".
Definition ref_w5 := (TransferRWA ref_transfer ref_w4).1.
Definition ref_settle : MsgSettleRWA := mkMsgSettleRWA "vtx1alice" "villa-1".
Definition ref_w6 := (SettleRWA ref_settle ref_w4).1.
Definition ref_slash : MsgSlashBond := mkMsgSlashBond "vtx1gov" "villa-1" "fraud".
Definition ref_w7 := (SlashBond (mkKeeper "vtx1gov") ref_slash ref_w5).1.
Definition ref_restrict : MsgUpdateRestrictions :=
  mkMsgUpdateRestrictions "vtx1alice" "villa-1" false ["vtx1alice"; "vtx1bobby"]%string ["vtx1bobby"%string] ["vtx1carol"%string] [].

(** Proves that a concrete run ends with the given result. *)
Ltac runs w := unfold w; apply run_result; vm_compute; reflexivity.

Lemma ref_genesis_sound : genesis_sound ref_rwa_genesis ref_w0.
Proof.
  constructor.
  - vm_compute; reflexivity.
  - repeat constructor; by vm_compute.
  - constructor.
  - by vm_compute.
  - intros id _ _. reflexivity.
  - split; by vm_compute.
  - reflexivity.
Qed.

Lemma ref_run1 : InitGenesis ref_rwa_genesis ref_w0 = (ref_w1, Ok tt).
Proof. runs ref_w1. Qed.
Lemma ref_run2 : RegisterAsset ref_register ref_w1 = (ref_w2, Ok tt).
Proof. runs ref_w2. Qed.
Lemma ref_run3 : AttestAsset ref_attest ref_w2 = (ref_w3, Ok tt).
Proof. runs ref_w3. Qed.
Lemma ref_run4 : MintRWA ref_mint ref_w3 = (ref_w4, Ok tt).
Proof. runs ref_w4. Qed.
Lemma ref_run5 : TransferRWA ref_transfer ref_w4 = (ref_w5, Ok tt).
Proof. runs ref_w5. Qed.
Lemma ref_run6 : SettleRWA ref_settle ref_w4 = (ref_w6, Ok tt).
Proof. runs ref_w6. Qed.
Lemma ref_run7 : SlashBond (mkKeeper "vtx1gov") ref_slash ref_w5 = (ref_w7, Ok tt).
Proof. runs ref_w7. Qed.

Lemma ref_small : register_small ref_register.
Proof. repeat constructor; by vm_compute. Qed.

Lemma ref_signer : signer_ok "vtx1alice".
Proof. by vm_compute. Qed.

Lemma ref_inv1 : rwa_inv ref_w1.
Proof.
  destruct (genesis_inv _ _ ref_genesis_sound) as (w & E & Hi & _).
  rewrite ref_run1 in E. apply (f_equal fst) in E. cbn [fst] in E. by rewrite E.
Qed.

(** The step lemma on this chain. *)
Lemma ref_step w w' : rwa_inv w -> rwa_step (mkKeeper "vtx1gov") w w' -> rwa_inv w'.
Proof.
  intros Hi Hs.
  apply (rwa_step_inv ref_rwa_perms _ _ _ ref_has_rwa ref_has_collector ref_has_distribution _ _ _ Hi Hs).
Qed.

Lemma ref_inv2 : rwa_inv ref_w2.
Proof. apply (ref_step _ _ ref_inv1). apply (rstep_register _ ref_register); [apply ref_small|apply ref_signer|apply ref_run2]. Qed.
Lemma ref_inv3 : rwa_inv ref_w3.
Proof. apply (ref_step _ _ ref_inv2). apply (rstep_attest _ ref_attest), ref_run3. Qed.
Lemma ref_inv4 : rwa_inv ref_w4.
Proof. apply (ref_step _ _ ref_inv3). apply (rstep_mint _ ref_mint); [apply ref_signer|apply ref_run4]. Qed.
Lemma ref_inv5 : rwa_inv ref_w5.
Proof. apply (ref_step _ _ ref_inv4). apply (rstep_transfer _ ref_transfer), ref_run5. Qed.

Lemma RegisterAsset_spec_witness :
  register_effect ref_register ref_w1 ref_w2 /\ exists w', RegisterAsset ref_register ref_w1 = (w', Ok tt).
Proof.
  destruct (RegisterAsset_spec ref_rwa_perms _ ref_has_rwa ref_register ref_w1 ref_inv1 ref_small) as [H1 H2].
  split; [apply H1, ref_run2|].
  apply H2. exists (bytes_of "alice"), 5000,
    (SendCoins (send_restriction ref_w1) (w_ext ref_w1) (bytes_of "alice") ModuleAddress [(BondDenom, 5000)]).1. split.
  - constructor.
    + vm_compute; reflexivity.
    + vm_compute; reflexivity.
    + discriminate.
    + vm_compute; reflexivity.
    + split; vm_compute; reflexivity.
    + apply GetAsset_None. vm_compute; reflexivity.
    + exists (mkRWAParams "1000" "0.001" "0.002"), 1000. split; [vm_compute; reflexivity|].
      split; [vm_compute; reflexivity|vm_compute; discriminate].
  - apply (run_result (fun x => SendCoins (send_restriction ref_w1) x (bytes_of "alice") ModuleAddress [(BondDenom, 5000)])).
    vm_compute; reflexivity.
Defined.

Lemma AttestAsset_spec_witness : attest_effect ref_attest ref_w2 ref_w3.
Proof. apply (proj1 (AttestAsset_spec ref_attest ref_w2 ref_inv2)), ref_run3. Defined.

Lemma attestation_price_fresh_witness :
  exists r r' params ap price,
    stored ref_w2 "villa-1" r /\ stored ref_w3 "villa-1" r' /\
    OracleKeeper.GetParams ref_w2 = Ok params /\ PairAccepted params (ar_OraclePair r) = true /\
    GetAggregatedPrice (ar_OraclePair r) ref_w2 = Ok ap /\
    time_sub (w_time ref_w2) (ap_BlockTime ap) <= seconds (MaxPriceAge params) /\
    LegacyNewDecFromStr (ap_Price ap) = Ok price /\ ar_AttestedPrice r' = DecString price /\
    ar_AttestedAt r' = w_time ref_w2 /\ ar_Status r' = ASSET_STATUS_ATTESTED.
Proof. apply (attestation_price_fresh ref_attest ref_w2 ref_w3 ref_inv2), ref_run3. Defined.

Lemma MintRWA_spec_witness : mint_effect ref_mint ref_w3 ref_w4.
Proof. apply (MintRWA_spec ref_rwa_perms _ _ ref_has_rwa ref_has_collector); [exact ref_inv3|exact ref_run4]. Defined.

Lemma TransferRWA_spec_witness : transfer_effect ref_transfer ref_w4 ref_w5.
Proof. apply (TransferRWA_spec ref_rwa_perms); [exact ref_inv4|exact ref_run5]. Defined.

Lemma SlashBond_spec_witness : slash_effect (mkKeeper "vtx1gov") ref_slash ref_w5 ref_w7.
Proof. apply (SlashBond_spec ref_rwa_perms); [exact ref_inv5|exact ref_run7]. Defined.

Lemma SettleRWA_spec_witness : settle_effect ref_settle ref_w4 ref_w6.
Proof. apply (SettleRWA_spec ref_rwa_perms _ _ ref_has_rwa ref_has_collector); [exact ref_inv4|exact ref_run6]. Defined.

(** The record of the asset in [ref_w4]. *)
Definition ref_rec4 : AssetRecord :=
  mkAssetRecord "villa-1" "vtx1alice" "Villa" "A house" 3 "VTX:USD" "rwa/villa-1" "5000" "250000" true
    "1.500000000000000000" (110 * Second) (110 * Second) zero_time.

Lemma ref_stored4 : stored ref_w4 "villa-1" ref_rec4.
Proof. apply GetAsset_stored. vm_compute; reflexivity. Qed.

Definition ref_pay1 : sdk_state := (SendCoins (send_restriction ref_w4) (w_ext ref_w4) (bytes_of "alice")
  (GetModuleAddress FeeCollectorName) [(BondDenom, 500)]).1.
Definition ref_pay2 : sdk_state := (SendCoins (send_restriction ref_w4) ref_pay1 (bytes_of "alice")
  ModuleAddress [("rwa/villa-1"%string, 250000)]).1.

Lemma SettleRWA_live_witness : exists w', SettleRWA ref_settle ref_w4 = (w', Ok tt).
Proof.
  apply (SettleRWA_live ref_rwa_perms _ _ ref_has_rwa ref_has_collector ref_settle ref_w4 ref_rec4
    (bytes_of "alice") 250000 ref_pay1 ref_pay2 ref_inv4).
  - right; left.
  - constructor; [exact ref_stored4|reflexivity|reflexivity|vm_compute; reflexivity| |vm_compute; reflexivity|].
    + split; [vm_compute; discriminate|vm_compute; reflexivity].
    + exists (mkRWAParams "1000" "0.001" "0.002"), 2000000000000000.
      split; [vm_compute; reflexivity|]. split; [vm_compute; reflexivity|]. split; [vm_compute; reflexivity|].
      split.
      * change (250000 * 2000000000000000 / dec_one) with 500. rewrite decide_False by discriminate.
        apply (run_result (fun x => SendCoins (send_restriction ref_w4) x (bytes_of "alice")
          (GetModuleAddress FeeCollectorName) [(BondDenom, 500)])). vm_compute; reflexivity.
      * rewrite decide_False by discriminate.
        apply (run_result (fun x => SendCoins (send_restriction ref_w4) x (bytes_of "alice")
          ModuleAddress [("rwa/villa-1"%string, 250000)])). vm_compute; reflexivity.
Defined.

Lemma UpdateRestrictions_spec_witness :
  exists w', UpdateRestrictions ref_restrict ref_w4 = (w', Ok tt) /\
    restrict_effect ref_restrict ref_w4 w' ref_rec4 [bytes_of "alice"; bytes_of "bobby"] [bytes_of "bobby"] [bytes_of "carol"] [].
Proof.
  apply (proj2 (UpdateRestrictions_spec ref_restrict ref_w4 ref_inv4)).
  constructor; [exact ref_stored4|reflexivity|discriminate|repeat constructor; vm_compute; discriminate|..];
    repeat constructor; vm_compute; reflexivity.
Defined.

Lemma ComputeFee_floor_witness : ComputeFee 1500 1000000000000000 = Ok 1.
Proof.
  destruct (ComputeFee_floor 1500 "0.001" 1000000000000000) as [E _];
    [split; vm_compute; congruence|vm_compute; reflexivity|vm_compute; reflexivity|].
  rewrite E. vm_compute; reflexivity.
Defined.

Lemma rwa_denom_roundtrip_witness : ParseRWADenom (BuildDenom "villa-1") = Some "villa-1"%string.
Proof. apply (rwa_denom_roundtrip "villa-1"). vm_compute; reflexivity. Defined.

Lemma bank_send_policy_witness :
  let w := (UpdateRestrictions ref_restrict ref_w4).1 in
  exists e, e ∈ [ErrAssetNotFound; ErrTransferRestricted] /\
    SendCoins (send_restriction w) (w_ext w) (bytes_of "alice") (bytes_of "bobby") [("rwa/villa-1"%string, 7)]
    = (w_ext w, Err e).
Proof.
  cbv zeta. set (w := (UpdateRestrictions ref_restrict ref_w4).1).
  assert (assets_decode w) as Hd.
  { apply inv_decode, (ref_step _ _ ref_inv4), (rstep_restrict _ ref_restrict). unfold w. apply run_result. vm_compute; reflexivity. }
  destruct (bank_send_policy ref_rwa_perms (bytes_of "alice") (bytes_of "bobby") [("rwa/villa-1"%string, 7)] (w_ext w) w Hd)
    as (H1 & H2 & _).
  apply H2. rewrite <- H1. unfold w. vm_compute. discriminate.
Defined.

Lemma rwa_lifecycle_witness :
  (exists r', stored ref_w6 "villa-1" r' /\ later ref_rec4 r') /\
  (forall w'', rwa_step (mkKeeper "vtx1gov") ref_w6 w'' -> registry_evolves ref_w6 w'').
Proof.
  apply (rwa_lifecycle ref_rwa_perms _ _ _ ref_has_rwa ref_has_collector ref_has_distribution
    (mkKeeper "vtx1gov") ref_w4 ref_w6 "villa-1" ref_rec4 ref_inv4); [|exact ref_stored4].
  apply rtc_once, (rstep_settle _ ref_settle); [exact ref_signer|exact ref_run6].
Defined.

(** The chain from its genesis to the first mint. *)
Lemma ref_path : rtc (rwa_step (mkKeeper "vtx1gov")) ref_w1 ref_w4.
Proof.
  eapply rtc_l; [apply (rstep_register _ ref_register); [apply ref_small|apply ref_signer|apply ref_run2]|].
  eapply rtc_l; [apply (rstep_attest _ ref_attest), ref_run3|].
  apply rtc_once, (rstep_mint _ ref_mint); [apply ref_signer|apply ref_run4].
Qed.

Lemma rwa_crisis_invariants_witness : BondInvariant ref_w4 = Ok false /\ DenomInvariant ref_w4 = Ok false.
Proof.
  destruct (rwa_crisis_invariants ref_rwa_perms _ _ _ ref_has_rwa ref_has_collector ref_has_distribution
    (mkKeeper "vtx1gov") ref_rwa_genesis ref_w0 ref_genesis_sound) as (w1 & E & H).
  rewrite ref_run1 in E. apply (f_equal fst) in E. cbn [fst] in E. rewrite <- E in H. apply H; [exact ref_path|vm_compute; reflexivity].
Defined.

Lemma rwa_supply_is_notional_witness : GetSupply (w_ext ref_w4) "rwa/villa-1" = 250000.
Proof.
  destruct (rwa_supply_is_notional ref_rwa_perms _ _ _ ref_has_rwa ref_has_collector ref_has_distribution
    (mkKeeper "vtx1gov") ref_rwa_genesis ref_w0 ref_genesis_sound) as (w1 & E & H).
  rewrite ref_run1 in E. apply (f_equal fst) in E. cbn [fst] in E. rewrite <- E in H. destruct (H ref_w4 ref_path) as [H1 _].
  destruct (H1 _ _ ref_stored4 ltac:(discriminate)) as (_ & Hn & _).
  change (NewIntFromString "250000" = Some (GetSupply (w_ext ref_w4) "rwa/villa-1")) in Hn.
  assert (NewIntFromString "250000" = Some 250000) as E2 by (vm_compute; reflexivity).
  rewrite E2 in Hn. apply (f_equal (default 0)) in Hn. symmetry. exact Hn.
Defined.

(** The same life as a history, and as the specification runs it: after the
    transfer the specification holds an active asset with its bond in escrow and
    its tokens shared between the two holders. *)
Definition ref_history : list (world (gmap bytes bytes) sdk_state * option rwa_msg) :=
  [(ref_w1, Some (MRegister ref_register)); (ref_w2, Some (MAttest ref_attest)); (ref_w3, Some (MMint ref_mint));
   (ref_w4, Some (MTransfer ref_transfer))].

Lemma ref_runs : runs (mkKeeper "vtx1gov") ref_w1 ref_history ref_w5.
Proof.
  eapply runs_msg; [split; [exact ref_small|exact ref_signer]|exact ref_run2|].
  eapply runs_msg; [exact I|exact ref_run3|]. eapply runs_msg; [exact ref_signer|exact ref_run4|].
  eapply runs_msg; [exact I|exact ref_run5|]. apply runs_nil.
Qed.

Definition ref_exec := exec ModuleAddress (GetModuleAddress FeeCollectorName) (GetModuleAddress "distribution")
  BuildDenom BondDenom "vtx1gov" dec_one int_limit.

Lemma ref_spec_life :
  match (m ← ref_exec (ORegister "villa-1" (bytes_of "alice") "VTX:USD" 5000) (genesis_market ref_rwa_genesis (w_ext ref_w0));
         m ← ref_exec (OAttest "villa-1" (bytes_of "alice") "1.5") m;
         m ← ref_exec (OMint "villa-1" (bytes_of "alice") 250000) m;
         ref_exec (OTransfer "villa-1" (bytes_of "alice") (bytes_of "bobby") 40) m) with
  | Some m => a_stage <$> assets m !! "villa-1"%string = Some Active /\ l_bal (books m) ModuleAddress BondDenom = GetBalance (w_ext ref_w0) ModuleAddress BondDenom + 5000 /\
      l_bal (books m) (bytes_of "alice") "rwa/villa-1" = 249960 /\ l_bal (books m) (bytes_of "bobby") "rwa/villa-1" = 40 /\
      ref_exec (OTransfer "villa-1" (bytes_of "bobby") (bytes_of "alice") 41) m = None
  | None => False
  end.
Proof. vm_compute. repeat split. Qed.

Lemma rwa_refines_spec_witness : exists tr m, Forall2 same_act ref_history tr /\ abstracts ref_w5 m /\
  length tr = 4%nat.
Proof.
  destruct (rwa_refines_spec ref_rwa_perms _ _ _ ref_has_rwa ref_has_collector ref_has_distribution
    (mkKeeper "vtx1gov") ref_rwa_genesis ref_w0 ref_genesis_sound) as (w1 & E & H).
  rewrite ref_run1 in E. apply (f_equal fst) in E. cbn [fst] in E. rewrite <- E in H.
  destruct (H ref_history ref_w5 ref_runs) as (tr & m & _ & Hf & Ha & _).
  exists tr, m. split; [exact Hf|]. split; [exact Ha|]. symmetry. exact (Forall2_length _ _ _ Hf).
Defined.
