(* ===== verification/Sim.v ===== *)
(** * Simulation: shared vocabulary

    What the simulation code of the modules (x/*/simulation, x/*/module/simulation.go)
    takes from the SDK, as a parameter, and the outcome of an operation. *)

From S2P Require Import Prelude Sdk.

Open Scope Z_scope.

(** cosmos-sdk/types/simulation. *)
Class SimTypes : Type := { FindAccount : list bytes -> bytes -> option bytes }.

Class SimTypesLaws {S : SimTypes} : Prop :=
  find_account accs a b : FindAccount accs a = Some b -> b = a /\ a ∈ accs.

(** [simtypes.OperationMsg]: nothing to do, or a message delivered in a transaction
    signed by an account. *)
Inductive operation (Msg : Type) : Type :=
| NoOpMsg (comment : string)
| DeliverTx (msg : Msg) (simAccount : bytes).
Arguments NoOpMsg {Msg}.
Arguments DeliverTx {Msg}.

(** [v, err := r; if err != nil { return noop }]. *)
Definition or_noop {A Msg} (r : res A) (comment : string) (k : A -> res (operation Msg)) : res (operation Msg) :=
  match r with Ok a => k a | Err _ => Ok (NoOpMsg comment) | Panic => Panic end.

(** [r.Intn(n)] is below [n]. *)
Definition draws (intn : Z -> Z) : Prop := forall n, 0 < n -> 0 <= intn n < n.
