(* ===== verification/FeesSim.v ===== *)
(** * x/fees: simulation

    The randomised genesis state of x/fees/module/simulation.go; the module has no
    simulated messages. *)

From S2P Require Import Prelude Sdk World SdkRef Wire FeesTypes Sim.

Open Scope Z_scope.

Section FeesSim.
Context {SM : SdkMath}.

Definition GenerateGenesisState (intn : Z -> Z) : res GenesisState :=
  let burn := LegacyNewDecWithPrec (intn 101) 2 in
  dist ← DecSub LegacyOneDec burn;
  Ok (mkGenesisState (mkFeesParams (DecString burn) (DecString dist))).

Context {SML : SdkMathLaws}.

(** Every generated genesis state is valid: the two ratios are percentages that add
    up to one. *)
Theorem fees_sim_genesis_valid intn : draws intn ->
  exists gs, GenerateGenesisState intn = Ok gs /\ GenesisState_Validate gs = Ok tt.
Proof.
  intros Hd. specialize (Hd 101 ltac:(lia)). unfold GenerateGenesisState, LegacyNewDecWithPrec, LegacyOneDec.
  change (10 ^ (18 - 2)) with 10000000000000000. set (burn := intn 101 * 10000000000000000).
  assert (0 <= burn <= dec_one) as Hb by (unfold burn, dec_one; lia).
  rewrite dec_sub, decide_True by (unfold dec_one, dec_limit in *; lia). cbn [mbind res_bind]. eexists. split; [done|].
  unfold GenesisState_Validate, Validate. cbn [gs_Params BurnRatio DistributionRatio].
  rewrite !dec_print by (unfold dec_one, dec_limit in *; lia). cbn [wrap_err mbind res_bind]. unfold LegacyOneDec.
  replace ((burn <? 0) || (dec_one <? burn)) with false by lia.
  replace ((dec_one - burn <? 0) || (dec_one <? dec_one - burn)) with false by lia.
  rewrite dec_add, decide_True by (unfold dec_one, dec_limit in *; lia). cbn [mbind res_bind].
  by replace (burn + (dec_one - burn) =? dec_one) with true by lia.
Qed.

End FeesSim.
