(* ===== verification/OracleSim.v ===== *)
(** * x/oracle: simulation

    The randomised operations and genesis state of x/oracle/simulation/operations.go
    and x/oracle/module/simulation.go. The random source appears as the values it
    draws ([intn] for [r.Intn], in the order of the calls), the helpers of the SDK's
    simulation package as a parameter. The messages that an operation delivers are
    accepted by the message server; for feeder delegations this holds exactly when
    the drawn account serves no other validator. *)

From S2P Require Import Prelude Sdk World SdkRef Wire OracleTypes OracleAgg OracleKeeper Sim.

Open Scope Z_scope.

Section OracleSim.
Context {St X : Type} {KV : KVStore St} {SM : SdkMath} {BE : Bech32} {T : StdTime} {SK : StakingKeeper X} {SIM : SimTypes}.
Local Abbreviation W := (world St X).

(** [randomDec] is [simtypes.RandomDecAmount(r, _)]. *)
Definition SimulateMsgSubmitFeed (k : Keeper) (accs : list bytes) (intn1 intn2 randomDec : Z -> Z) (w : W) :
    res (operation MsgSubmitFeed) :=
  or_noop (GetParams w) "no accept-listed pairs" (fun params =>
  if (length (AcceptList params) =? 0)%nat then Ok (NoOpMsg "no accept-listed pairs") else
  match BondedValidator k intn1 w with
  | None => Ok (NoOpMsg "no bonded validators")
  | Some val =>
      or_noop (ValAddressFromBech32 (OperatorAddress val)) "invalid validator address" (fun valAddr =>
      or_noop (ResolveAuthorizedFeeder valAddr w) "resolve feeder" (fun feederAddr =>
      match FindAccount accs feederAddr with
      | None => Ok (NoOpMsg "feeder sim account not found")
      | Some simAccount =>
          match AcceptList params !! Z.to_nat (intn2 (Z.of_nat (length (AcceptList params)))) with
          | None => Panic
          | Some pr =>
              price ← DecAdd (randomDec (1000 * dec_one)) LegacyOneDec;
              Ok (DeliverTx (mkMsgSubmitFeed (AccString feederAddr) (OperatorAddress val) pr (DecString price)) simAccount)
          end
      end))
  end).

(** [randomAcc] is [simtypes.RandomAcc(r, _)]. *)
Definition SimulateMsgSetFeeder (k : Keeper) (accs : list bytes) (intn : Z -> Z) (randomAcc : list bytes -> bytes) (w : W) :
    res (operation MsgSetFeeder) :=
  match BondedValidator k intn w with
  | None => Ok (NoOpMsg "no bonded validators")
  | Some val =>
      or_noop (ValAddressFromBech32 (OperatorAddress val)) "invalid validator address" (fun valAddr =>
      match FindAccount accs valAddr with
      | None => Ok (NoOpMsg "validator sim account not found")
      | Some valSimAccount =>
          Ok (DeliverTx (mkMsgSetFeeder (OperatorAddress val) (AccString (randomAcc accs))) valSimAccount)
      end)
  end.

(** module/simulation.go *)
Definition GenerateGenesisState (intn : Z -> Z) : GenesisState :=
  let pairs := ["VTX:USD"; "ATOM:USD"; "OSMO:USD"]%string in
  let n := 1 + intn 3 in
  let p := DefaultParams in
  mkGenesisState (mkOracleParams (VoteWindow p) (MissThreshold p) (MissSlashRate p) (OutlierSlashRate p)
    (OutlierThreshold p) (MissWindowSize p) (QuorumFraction p) (MaxPriceAge p) (take (Z.to_nat n) pairs)) [] [].

(** ** The delivered messages are accepted *)

Context {KVL : KVStoreLaws St} {SML : SdkMathLaws} {BEL : Bech32Laws} {TL : StdTimeLaws} {SIML : SimTypesLaws}.

(** The staking module in between blocks: each validator that it lists as bonded is
    found under its operator address, is bonded and has power. *)
Definition bonded_ok (x : X) : Prop := forall vals v a,
  GetBondedValidatorsByPower x = Ok vals -> v ∈ vals -> ValAddressFromBech32 (OperatorAddress v) = Ok a ->
  GetValidator x a = Ok v /\ VStatus v = Bonded /\ exists p, GetLastValidatorPower x a = Ok p /\ p <> 0.

Lemma BondedValidator_listed k intn (w : W) v : BondedValidator k intn w = Some v ->
  exists vals, GetBondedValidatorsByPower (w_ext w) = Ok vals /\ v ∈ vals.
Proof.
  unfold BondedValidator. destruct (negb _); [done|].
  destruct (GetBondedValidatorsByPower (w_ext w)) as [[|a l]| |]; [done| |done..].
  intros H%nth_error_In. eexists. split; [done|]. by apply list_elem_of_In.
Qed.

(** A feed that the simulator delivers is signed by one of its accounts and is
    accepted by the message server. *)
Theorem SimulateMsgSubmitFeed_accepted k accs intn1 intn2 randomDec (w : W) params msg acc :
  bonded_ok (w_ext w) -> Forall addr_ok accs -> GetParams w = Ok params -> Validate params = Ok tt ->
  0 <= randomDec (1000 * dec_one) <= 1000 * dec_one ->
  SimulateMsgSubmitFeed k accs intn1 intn2 randomDec w = Ok (DeliverTx msg acc) ->
  wf_msg (submitted_feed msg w) ->
  acc ∈ accs /\ AccAddressFromBech32 (ms_Feeder msg) = Ok acc /\ exists w', SubmitFeed k msg w = (w', Ok tt).
Proof.
  intros Hb Ha Hp Hv Hd. unfold SimulateMsgSubmitFeed, or_noop. rewrite Hp.
  destruct (_ =? 0)%nat; [done|]. destruct (BondedValidator k intn1 w) as [val|] eqn:Eb; [|done].
  destruct (ValAddressFromBech32 (OperatorAddress val)) as [valAddr| |] eqn:Ev; [|done..].
  destruct (ResolveAuthorizedFeeder valAddr w) as [feeder| |] eqn:Er; [|done..].
  destruct (FindAccount accs feeder) as [a|] eqn:Ef; [|done]. apply find_account in Ef as [-> Hin].
  destruct (AcceptList params !! _) as [pr|] eqn:Epair; [|done].
  apply list_elem_of_lookup_2 in Epair as Hpair.
  rewrite dec_add, decide_True by (unfold LegacyOneDec, dec_one, dec_limit in *; lia). cbn [mbind res_bind].
  intros [= <- <-] Hwf. cbn [ms_Feeder]. pose proof (proj1 (Forall_forall _ _) Ha _ Hin) as Hfa.
  split; [done|]. split; [by apply acc_print|].
  apply BondedValidator_listed in Eb as (vals & Evals & Hval). destruct (Hb _ _ _ Evals Hval Ev) as (Eg & Es & p & Ep & Hp0).
  apply OracleParams_Validate_spec in Hv as (_ & _ & _ & _ & _ & _ & _ & Hre).
  destruct (SubmitFeed_runs k _ w Hwf) as (w1 & vv & key & bz & E & _); [|by eexists].
  exists valAddr, feeder, params, (randomDec (1000 * dec_one) + LegacyOneDec). cbn [ms_Validator ms_Feeder ms_Pair ms_Price].
  split_and!; try done.
  - by apply acc_print.
  - intros ->. by pose proof (proj1 (Forall_forall _ _) Hre _ Hpair).
  - apply dec_print. unfold LegacyOneDec, dec_one, dec_limit in *. lia.
  - unfold LegacyOneDec, dec_one in *. lia.
  - intros _. by exists val, p.
Qed.

(** A delegation that the simulator delivers is accepted exactly when the drawn feeder
    serves no other validator; otherwise the transaction fails. *)
Theorem SimulateMsgSetFeeder_outcome k accs intn randomAcc (w : W) msg acc :
  bonded_ok (w_ext w) -> Forall addr_ok accs -> randomAcc accs ∈ accs ->
  SimulateMsgSetFeeder k accs intn randomAcc w = Ok (DeliverTx msg acc) ->
  let bound := view OracleKey w !! FeederToValoperKey (randomAcc accs) in
  (bound = None \/ bound = Some acc <-> exists w', SetFeeder k msg w = (w', Ok tt)) /\
  (forall val, bound = Some val -> val <> acc -> SetFeeder k msg w = (w, Err ErrFeederAlreadyBound)).
Proof.
  intros Hb Ha Hr. unfold SimulateMsgSetFeeder, or_noop.
  destruct (BondedValidator k intn w) as [val|] eqn:Eb; [|done].
  destruct (ValAddressFromBech32 (OperatorAddress val)) as [valAddr| |] eqn:Ev; [|done..].
  destruct (FindAccount accs valAddr) as [a|] eqn:Ef; [|done]. apply find_account in Ef as [-> Hin].
  intros [= <- <-]. set (feeder := randomAcc accs) in *. set (bound := view OracleKey w !! FeederToValoperKey feeder).
  pose proof (acc_print feeder (proj1 (Forall_forall _ _) Ha _ Hr)) as Ea.
  apply BondedValidator_listed in Eb as (vals & Evals & Hval). destruct (Hb _ _ _ Evals Hval Ev) as (Eg & Es & _).
  set (msg := mkMsgSetFeeder (OperatorAddress val) (AccString feeder)).
  assert (forall r, (SetFeederDelegation valAddr feeder ≫= fun _ =>
            emit EventTypeFeederSet [(AttributeKeyValidator, sf_Validator msg); (AttributeKeyFeeder, sf_Feeder msg)]) w = r ->
          SetFeeder k msg w = r) as Hrun.
  { intros r <-. unfold SetFeeder. erewrite bind_lift_run.
    2:{ unfold MsgSetFeeder_ValidateBasic. cbn [sf_Validator sf_Feeder msg]. by rewrite Ev, Ea. }
    erewrite bind_lift_run by exact Ev. erewrite bind_lift_run by exact Ea. erewrite bind_Ok_run; [done|].
    unfold check_bonded. destruct (stakingKeeper k); [|done]. erewrite bind_ask_run by exact Eg. by rewrite Es. }
  assert (forall val', bound = Some val' -> val' <> valAddr -> SetFeeder k msg w = (w, Err ErrFeederAlreadyBound)) as Hno.
  { intros val' Hval' Hne. apply Hrun. erewrite bind_Err_run; [done|]. unfold SetFeederDelegation.
    erewrite bind_ask_run by (by apply st_get_run). unfold bound in Hval'. rewrite Hval'.
    by rewrite bool_decide_eq_false_2 by done. }
  split; [|exact Hno]. split.
  - intros Hbound. destruct (st_set_run OracleKey (FeederToValoperKey feeder) valAddr w) as (w1 & E1 & _); [done|].
    destruct (st_set_run OracleKey (ValoperToFeederKey valAddr) feeder w1) as (w2 & E2 & _); [done|].
    eexists. apply Hrun. erewrite bind_Ok_run; [reflexivity|]. unfold SetFeederDelegation.
    erewrite bind_ask_run by (by apply st_get_run). fold bound. erewrite bind_guard_run.
    + by erewrite bind_Ok_run by exact E1.
    + destruct Hbound as [-> | ->]; [done|]. by rewrite bool_decide_eq_true_2.
  - intros [w' Hw]. destruct bound as [val'|] eqn:E; [right|by left].
    destruct (decide (val' = valAddr)) as [->|Hne]; [done|]. rewrite (Hno val') in Hw; done.
Qed.

(** Every generated genesis state is valid. *)
Theorem oracle_sim_genesis_valid intn : draws intn -> GenesisState_Validate (GenerateGenesisState intn) = Ok tt.
Proof.
  intros Hd. specialize (Hd 3 ltac:(lia)). unfold GenesisState_Validate.
  rewrite (proj2 (OracleParams_Validate_spec _)); [done|].
  set (accepted := AcceptList _).
  assert (accepted = ["VTX:USD"] \/ accepted = ["VTX:USD"; "ATOM:USD"] \/ accepted = ["VTX:USD"; "ATOM:USD"; "OSMO:USD"])%string as Hacc.
  { assert (intn 3 = 0 \/ intn 3 = 1 \/ intn 3 = 2) as [E | [E | E]] by lia;
      unfold accepted, GenerateGenesisState; rewrite E; cbn; auto. }
  split_and!; [done..| | | | |].
  - intros s. rewrite !elem_of_cons, elem_of_nil. intros [-> | [-> | [-> | []]]].
    + exists 50000000000000000. split; [by apply dec_parse; vm_compute|by vm_compute].
    + exists 50000000000000000. split; [by apply dec_parse; vm_compute|by vm_compute].
    + exists 667000000000000000. split; [by apply dec_parse; vm_compute|by vm_compute].
  - intros s. rewrite !elem_of_cons, elem_of_nil. intros [-> | [-> | []]].
    + exists 5000000000000000. split; [by apply dec_parse; vm_compute|by vm_compute].
    + exists 10000000000000000. split; [by apply dec_parse; vm_compute|by vm_compute].
  - by destruct Hacc as [-> | [-> | ->]].
  - destruct Hacc as [-> | [-> | ->]]; by apply (bool_decide_eq_true_1 (NoDup _)).
  - destruct Hacc as [-> | [-> | ->]]; by repeat constructor.
Qed.

End OracleSim.

(** ** Concrete runs *)

#[local] Instance ref_sim : SimTypes := {| FindAccount accs a := List.find (fun b => bool_decide (b = a)) accs |}.

#[local] Instance ref_sim_laws : SimTypesLaws.
Proof.
  intros accs a b H. cbn in H. apply find_some in H as [Hin E%bool_decide_eq_true]. subst.
  split; [done|]. by apply list_elem_of_In.
Qed.

Definition ref_accs : list bytes := [bytes_of "alice"; bytes_of "bobby"; bytes_of "carol"].

Lemma ref_bonded_ok : bonded_ok (w_ext (ref_chain ∅ 7 100)).
Proof.
  intros vals v a Ev Hin Ea. vm_compute in Ev. injection Ev as <-. rewrite !elem_of_cons, elem_of_nil in Hin.
  destruct Hin as [-> | [-> | []]]; vm_compute in Ea; injection Ea as <-;
    (split; [reflexivity|]); (split; [reflexivity|]); eexists; (split; [vm_compute; reflexivity|discriminate]).
Qed.

(** The simulator delivers a feed for the second bonded validator, which is accepted. *)
Lemma SimulateMsgSubmitFeed_accepted_witness :
  exists msg w', SimulateMsgSubmitFeed ref_keeper ref_accs (fun _ => 1) (fun _ => 2) (fun _ => 5 * 10 ^ 17) (ref_chain ∅ 7 100)
    = Ok (DeliverTx msg (bytes_of "bobby")) /\ SubmitFeed ref_keeper msg (ref_chain ∅ 7 100) = (w', Ok tt).
Proof.
  set (msg := mkMsgSubmitFeed "vtx1bobby" "vtxvaloper1bobby" "ETH:USD" (DecString (15 * 10 ^ 17))).
  assert (SimulateMsgSubmitFeed ref_keeper ref_accs (fun _ => 1) (fun _ => 2) (fun _ => 5 * 10 ^ 17) (ref_chain ∅ 7 100)
    = Ok (DeliverTx msg (bytes_of "bobby"))) as E by (vm_compute; reflexivity).
  destruct (SimulateMsgSubmitFeed_accepted ref_keeper ref_accs (fun _ => 1) (fun _ => 2) (fun _ => 5 * 10 ^ 17)
    (ref_chain ∅ 7 100) DefaultParams msg (bytes_of "bobby") ref_bonded_ok) as (_ & _ & w' & Ew).
  - repeat constructor; cbn; lia.
  - vm_compute; reflexivity.
  - vm_compute; reflexivity.
  - split; ref_eval.
  - exact E.
  - split; [ref_eval|split; ref_eval].
  - exists msg, w'. split; [exact E|exact Ew].
Defined.

(** After the first validator chose an account as its feeder, the simulator may draw
    the same account for the second: the transaction it delivers then fails, which
    ends a simulation run with an error. *)
Lemma simulated_delegation_fails :
  let w := (SetFeeder ref_keeper (mkMsgSetFeeder "vtxvaloper1alice" "vtx1carol") (ref_chain ∅ 7 100)).1 in
  exists msg, SimulateMsgSetFeeder ref_keeper ref_accs (fun _ => 1) (fun l => List.last l []) w
    = Ok (DeliverTx msg (bytes_of "bobby")) /\ (SetFeeder ref_keeper msg w).2 = Err ErrFeederAlreadyBound.
Proof. exists (mkMsgSetFeeder "vtxvaloper1bobby" "vtx1carol"). split; vm_compute; reflexivity. Qed.
