(* ===== verification/RwaSim.v ===== *)
(** * x/rwa: simulation

    The randomised registration of x/rwa/simulation/operations.go and the genesis
    state of x/rwa/module/simulation.go. Every registration that the simulator
    delivers is admissible, and succeeds when the bank takes the bond from the drawn
    account; every generated genesis state is valid. *)

From S2P Require Import Prelude Sdk World SdkRef Wire RwaTypes RwaKeeper RwaMsg RwaInv RwaSpec Sim.

Open Scope Z_scope.

Definition simOraclePairs : list string := ["VTX:USD"; "ATOM:USD"; "XAU:USD"].

(** [fmt.Sprintf("%09d", n)] for a number of at most nine digits. *)
Definition digits9 (n : Z) : list byte :=
  (fun k => byte_of_Z (48 + n / 10 ^ k mod 10)) <$> [8; 7; 6; 5; 4; 3; 2; 1; 0].
Definition sim_asset_id (n : Z) : string := string_of (bytes_of "sim" ++ digits9 n).

Section RwaSim.
Context {St X : Type} {KV : KVStore St} {SM : SdkMath} {CO : Coins} {BE : Bech32} {T : StdTime} {BK : BankKeeper X}.
Local Abbreviation W := (world St X).
Context {PO : PriceOracle W}.

(** [int63n] is [r.Int63n], [intn] the following [r.Intn]. *)
Definition SimulateMsgRegisterAsset (accs : list bytes) (randomAcc : list bytes -> bytes) (int63n intn : Z -> Z) (w : W) :
    res (operation MsgRegisterAsset) :=
  let issuer := randomAcc accs in
  or_noop (GetParams w) "params" (fun params =>
  match MinIssuerBondInt params with
  | None => Ok (NoOpMsg "min bond")
  | Some bond =>
      if negb (0 <? bond) then Ok (NoOpMsg "min bond") else
      let assetID := sim_asset_id (int63n 1000000000) in
      found ← GetAsset assetID w;
      match found with
      | Some _ => Ok (NoOpMsg "asset exists")
      | None =>
          match simOraclePairs !! Z.to_nat (intn 3) with
          | None => Panic
          | Some pr => Ok (DeliverTx (mkMsgRegisterAsset (AccString issuer) assetID "sim asset" "" pr (IntString bond)) issuer)
          end
      end
  end).

(** [intn1] chooses the case, [intn2] the factor; [randomDec] is
    [simtypes.RandomDecAmount(r, _)]. [MulRaw] and [QuoRaw] of the default bond by at
    most five are exact. *)
Definition GenerateGenesisState (intn1 intn2 randomDec : Z -> Z) : GenesisState :=
  let params := DefaultParams in
  let params :=
    match MinIssuerBondInt params with
    | Some bond =>
        if 0 <? bond then
          if intn1 3 =? 0 then mkRWAParams (IntString (bond * (1 + intn2 5))) (MintFeeRate params) (SettleFeeRate params)
          else if intn1 3 =? 1 then mkRWAParams (IntString (Z.quot bond (1 + intn2 5))) (MintFeeRate params) (SettleFeeRate params)
          else params
        else params
    | None => params
    end in
  let params :=
    match MintFeeRateDec params with
    | Ok mintRate =>
        let maxMintRate := LegacyNewDecWithPrec 1 2 in
        let maxMintRate := if maxMintRate <? mintRate then mintRate else maxMintRate in
        mkRWAParams (MinIssuerBond params) (DecString (randomDec maxMintRate)) (SettleFeeRate params)
    | _ => params
    end in
  mkGenesisState params [] [].

(** ** Lemmas *)

Lemma digit_char d : 0 <= d < 10 -> slug_char (byte_of_Z (48 + d)) = true.
Proof.
  intros Hd. assert (d = 0 \/ d = 1 \/ d = 2 \/ d = 3 \/ d = 4 \/ d = 5 \/ d = 6 \/ d = 7 \/ d = 8 \/ d = 9) as H by lia.
  by repeat (destruct H as [-> | H]; [vm_compute; reflexivity|]); subst.
Qed.

Lemma digits9_chars n : forallb (fun x => slug_char x || bool_decide (x = "-"%byte)) (digits9 n) = true.
Proof.
  unfold digits9. cbn [fmap list_fmap forallb]. rewrite !digit_char by (apply Z.mod_pos_bound; lia). done.
Qed.

(** The identifiers that the simulator makes up are valid. *)
Lemma sim_asset_id_valid n : slugRegex (sim_asset_id n) = true.
Proof.
  unfold slugRegex, sim_asset_id. rewrite bytes_of_string_of. change (bytes_of "sim") with ["s"; "i"; "m"]%byte. cbn [app].
  rewrite bool_decide_eq_true_2 by (unfold digits9; cbn; lia). cbn [forallb]. by rewrite digits9_chars.
Qed.

Context {POL : PriceOracleLaws W} {KVL : KVStoreLaws St} {SML : SdkMathLaws} {COL : CoinsLaws} {BEL : Bech32Laws} {TL : StdTimeLaws}.
Context (perms : list (string * list string)) {BKL : BankLaws X perms}.
Context (prwa : list string) (Hrwa : (ModuleName, prwa) ∈ perms).

(** A registration that the simulator delivers is signed by the drawn account, asks for
    exactly the minimum bond, and succeeds when the bank takes the bond. *)
Theorem SimulateMsgRegisterAsset_accepted accs randomAcc int63n intn (w : W) msg acc x :
  rwa_inv w -> Forall addr_ok accs -> randomAcc accs ∈ accs -> draws intn -> text_ok (AccString (randomAcc accs)) ->
  SimulateMsgRegisterAsset accs randomAcc int63n intn w = Ok (DeliverTx msg acc) ->
  acc ∈ accs /\ AccAddressFromBech32 (ra_Issuer msg) = Ok acc /\
  exists params bond, GetParams w = Ok params /\ MinIssuerBondInt params = Some bond /\
    NewIntFromString (ra_Bond msg) = Some bond /\
    (SendCoins (send_restriction w) (w_ext w) acc ModuleAddress [(BondDenom, bond)] = (x, Ok tt) ->
     exists w', RegisterAsset msg w = (w', Ok tt)).
Proof.
  intros Hi Ha Hr Hd Ht. unfold SimulateMsgRegisterAsset, or_noop. set (issuer := randomAcc accs) in *.
  destruct (GetParams w) as [params| |] eqn:Ep; [|done..]. destruct (MinIssuerBondInt params) as [bond|] eqn:Eb; [|done].
  destruct (Z.ltb_spec 0 bond) as [Hb0|]; [|done]. cbn [negb]. set (id := sim_asset_id _).
  destruct (GetAsset id w) as [[a|]| |] eqn:Eg; [done| |done..]. cbn [mbind res_bind].
  specialize (Hd 3 ltac:(lia)).
  assert (exists pr, simOraclePairs !! Z.to_nat (intn 3) = Some pr /\ pairRegex pr = true /\ text_ok pr) as (pr & -> & Hpr & Htp).
  { assert (intn 3 = 0 \/ intn 3 = 1 \/ intn 3 = 2) as [-> | [-> | ->]] by lia; eexists; (split; [reflexivity|]); by split. }
  intros [= <- <-]. cbn [ra_Issuer ra_Bond]. pose proof (acc_print issuer (proj1 (Forall_forall _ _) Ha _ Hr)) as Ea.
  assert (Z.abs bond < int_limit) as Hlim by (by eapply int_parse_range).
  split; [done|]. split; [done|]. exists params, bond. split_and!; [done|done|by apply int_print|]. intros HS.
  eapply (RegisterAsset_run perms prwa Hrwa _ _ issuer bond x Hi); [| |exact HS].
  - repeat constructor; try done; by vm_compute.
  - constructor; cbn [ra_Issuer ra_AssetId ra_Name ra_OraclePair ra_Bond]; try done.
    + apply sim_asset_id_valid.
    + split; [by apply int_print|done].
    + by apply GetAsset_None.
    + by exists params, bond.
Qed.

(** Every generated genesis state is valid. *)
Theorem rwa_sim_genesis_valid intn1 intn2 randomDec : draws intn2 ->
  (forall m, 0 <= m -> 0 <= randomDec m <= m) ->
  GenesisState_Validate (GenerateGenesisState intn1 intn2 randomDec) = Ok tt.
Proof.
  intros Hd Hr. specialize (Hd 5 ltac:(lia)). unfold GenerateGenesisState.
  assert (MinIssuerBondInt DefaultParams = Some 10000000000) as -> by (by apply int_print). cbn [Z.ltb Z.compare].
  set (p := if intn1 3 =? 0 then _ else _).
  assert (exists b, MinIssuerBond p = IntString b /\ 0 <= b < int_limit /\ MintFeeRate p = DecString (LegacyNewDecWithPrec 1 3) /\
    SettleFeeRate p = DecString (LegacyNewDecWithPrec 1 3)) as (b & Eb & Hb & Em & Es).
  { unfold p. destruct (_ =? 0); [|destruct (_ =? 1)]; eexists; (split; [reflexivity|]); split_and!; try done.
    - lia.
    - unfold int_limit. lia.
    - apply Z.quot_pos; lia.
    - apply Z.le_lt_trans with 10000000000; [apply Z.quot_le_upper_bound; nia|by vm_compute]. }
  assert (MintFeeRateDec p = Ok (LegacyNewDecWithPrec 1 3)) as -> by (unfold MintFeeRateDec; rewrite Em; by apply dec_print).
  change (LegacyNewDecWithPrec 1 2 <? LegacyNewDecWithPrec 1 3) with false. cbv iota.
  specialize (Hr (LegacyNewDecWithPrec 1 2) ltac:(done)). change (LegacyNewDecWithPrec 1 2) with 10000000000000000 in *.
  unfold GenesisState_Validate. cbn [gs_Params gs_Assets gs_Restrictions].
  rewrite (proj2 (RWAParams_Validate_spec _)); [done|]. cbn [MinIssuerBond MintFeeRate SettleFeeRate].
  rewrite Eb, Es. split_and!.
  - exists b. split; [apply int_print; lia|lia].
  - eexists. split; [apply dec_print|]; unfold dec_limit, dec_one in *; lia.
  - eexists. split; [by apply dec_print|by vm_compute].
Qed.

End RwaSim.
