(* ===== verification/SimDecode.v ===== *)
(** * Simulation: the store decoders

    [NewDecodeStore] of x/fees/simulation/decoder.go, x/oracle/simulation/decoder.go and
    x/rwa/simulation/decoder.go, which print the entries on which the stores of an
    exported and a re-imported chain differ. They decode with [MustUnmarshal]; on the
    entries of two stores that satisfy the invariants of the modules this does not
    panic. *)

From S2P Require Import Prelude Sdk World SdkRef Wire.
From S2P Require Import FeesTypes Fees OracleTypes OracleAgg OracleKeeper OracleEndBlock OracleSafety OracleInv.
From S2P Require Import RwaTypes RwaKeeper RwaMsg RwaInv.

Open Scope Z_scope.

(** A [kv.Pair]. *)
Record kv_Pair : Type := mkPair { kv_Key : bytes; kv_Value : bytes }.

Section Decoders.
Context {T : StdTime}.

(** The verbs [%v] and [%X] of [fmt.Sprintf]. *)
Context (fmt_v : forall A : Type, A -> string) (fmt_X : bytes -> string).

Definition newline : string := String (Ascii.ascii_of_nat 10) EmptyString.

(** [var a, b A; cdc.MustUnmarshal(kvA.Value, &a); cdc.MustUnmarshal(kvB.Value, &b);
    return fmt.Sprintf("%v\n%v", a, b)]. *)
Definition print_both (A : Type) {PM : ProtoMsg A} (kvA kvB : kv_Pair) : res string :=
  a ← MustUnmarshal (A := A) (kv_Value kvA);
  b ← MustUnmarshal (A := A) (kv_Value kvB);
  Ok (fmt_v _ a +:+ newline +:+ fmt_v _ b).

(** [fmt.Sprintf("<label> %X\n%X", a, b)]. *)
Definition print_hex (label : string) (a b : bytes) : res string :=
  Ok (label +:+ " " +:+ fmt_X a +:+ newline +:+ fmt_X b).

Definition fees_NewDecodeStore (kvA kvB : kv_Pair) : res string :=
  if bool_decide (kv_Key kvA = FeesTypes.KeyParams) then print_both FeesParams kvA kvB
  else if bool_decide (kv_Key kvA = FeesTypes.KeyGenesisSupply) || bool_decide (kv_Key kvA = FeesTypes.KeyCumulativeBurned)
  then print_hex "int" (kv_Value kvA) (kv_Value kvB)
  else print_hex "unrecognized fees key" (kv_Key kvA) (kv_Key kvB).

Definition oracle_NewDecodeStore (kvA kvB : kv_Pair) : res string :=
  if bool_decide (OracleTypes.KeyPrefixAggregatedPrice `prefix_of` kv_Key kvA) then print_both AggregatedPrice kvA kvB
  else if bool_decide (OracleTypes.KeyPrefixFeed `prefix_of` kv_Key kvA) then print_both OracleFeed kvA kvB
  else print_hex "unrecognized oracle key" (kv_Key kvA) (kv_Key kvB).

Definition rwa_NewDecodeStore (kvA kvB : kv_Pair) : res string :=
  if bool_decide (RwaTypes.KeyPrefixAsset `prefix_of` kv_Key kvA) then print_both AssetRecord kvA kvB
  else print_hex "unrecognized rwa key" (kv_Key kvA) (kv_Key kvB).

(** ** Both stores satisfy the invariants *)

Context {St X : Type} {KV : KVStore St} {SM : SdkMath} {CO : Coins} {BE : Bech32} {BK : BankKeeper X} {SK : StakingKeeper X}
        {KVL : KVStoreLaws St}.
Local Abbreviation W := (world St X).

Lemma print_both_ok (A : Type) {PM : ProtoMsg A} k a b :
  (exists x : A, MustUnmarshal a = Ok x) -> (exists y : A, MustUnmarshal b = Ok y) ->
  exists s, print_both A (mkPair k a) (mkPair k b) = Ok s.
Proof. intros [x Hx] [y Hy]. unfold print_both. cbn [kv_Value]. rewrite Hx. cbn. rewrite Hy. by eexists. Qed.

Lemma fees_decode_total k a b (wA wB : W) : (exists p, Fees.GetParams wA = Ok p) -> (exists p, Fees.GetParams wB = Ok p) ->
  view FeesKey wA !! k = Some a -> view FeesKey wB !! k = Some b ->
  exists s, fees_NewDecodeStore (mkPair k a) (mkPair k b) = Ok s.
Proof.
  intros [p Hp] [q Hq] Ha Hb. unfold fees_NewDecodeStore. cbn [kv_Key]. case_bool_decide as E; [|case_match; by eexists].
  subst k. unfold Fees.GetParams in Hp, Hq. rewrite st_get_run in Hp, Hq by done.
  rewrite Ha in Hp. rewrite Hb in Hq. apply print_both_ok; eauto.
Qed.

Lemma oracle_decode_total k a b (wA wB : W) : oracle_inv wA -> oracle_inv wB ->
  view OracleKey wA !! k = Some a -> view OracleKey wB !! k = Some b ->
  exists s, oracle_NewDecodeStore (mkPair k a) (mkPair k b) = Ok s.
Proof.
  intros IA IB Ha Hb. unfold oracle_NewDecodeStore. cbn [kv_Key].
  case_bool_decide as E1; [|case_bool_decide as E2; [|by eexists]]; apply print_both_ok.
  - destruct (oi_prices _ IA k a Ha E1) as (x & ? & _). eauto.
  - destruct (oi_prices _ IB k b Hb E1) as (x & ? & _). eauto.
  - destruct (oi_feeds _ IA k a Ha E2) as (val & pair & f & ? & ? & ?). eauto.
  - destruct (oi_feeds _ IB k b Hb E2) as (val & pair & f & ? & ? & ?). eauto.
Qed.

Lemma rwa_decode_total k a b (wA wB : W) : rwa_inv wA -> rwa_inv wB ->
  view RwaKey wA !! k = Some a -> view RwaKey wB !! k = Some b ->
  exists s, rwa_NewDecodeStore (mkPair k a) (mkPair k b) = Ok s.
Proof.
  intros IA IB Ha Hb. unfold rwa_NewDecodeStore. cbn [kv_Key]. case_bool_decide as E; [|by eexists]. apply print_both_ok.
  - destruct (inv_assets _ IA k a Ha E) as (x & Hx & _). exists x. unfold MustUnmarshal. by rewrite Hx.
  - destruct (inv_assets _ IB k b Hb E) as (x & Hx & _). exists x. unfold MustUnmarshal. by rewrite Hx.
Qed.

End Decoders.
