(* ===== verification/RwaGenesis.v ===== *)
(** * x/rwa: genesis round trip

    [InitGenesis] followed by [ExportGenesis] gives the state back: the same
    parameters, the same assets (in the order of their ids) and the same
    restrictions. *)

From S2P Require Import Prelude Sdk World SdkRef Wire OracleAgg RwaTypes RwaKeeper RwaMsg RwaInv RwaSpec RwaSafety.

Open Scope Z_scope.

Section RwaGenesis.
Context {St X : Type} {KV : KVStore St} {SM : SdkMath} {CO : Coins} {BE : Bech32} {T : StdTime}
        {BK : BankKeeper X}.
Local Abbreviation W := (world St X).
Context {KVL : KVStoreLaws St} {SML : SdkMathLaws} {COL : CoinsLaws} {BEL : Bech32Laws} {TL : StdTimeLaws}.

(** ** The assets *)

Lemma holds_decoded l m : holds l m -> NoDup (ar_AssetId <$> l) -> exists rs, decoded m rs /\ rs ≡ₚ l.
Proof.
  intros [H1 H2 _] ND.
  set (R v r := Unmarshal v = Ok r /\ r ∈ l).
  destruct (kv_decoded m KeyPrefixAsset R (fun r => AssetKey (ar_AssetId r))) as [rs HF].
  { intros k v Hv Hp. destruct (H1 k v Hv Hp) as (r & ? & ? & ?). exists r. done. }
  destruct (kv_decoded_spec m KeyPrefixAsset R _ _ HF) as (NDk & G1 & G2).
  exists rs. split; [by eapply Forall2_impl; [exact HF|]; intros ? ? [[? _] _]|].
  apply NoDup_Permutation.
  - by apply NoDup_fmap_1 in NDk.
  - by apply NoDup_fmap_1 in ND.
  - intros r. split; [by intros (_ & v & _ & _ & Hr)%G1|].
    intros Hr. destruct (H2 r Hr) as (v & Hv & Hu).
    destruct (G2 _ v Hv (asset_key_AssetKey _)) as (r' & Hr' & _ & Hu' & _).
    rewrite Hu in Hu'. by injection Hu' as <-.
Qed.

Lemma collect_assets (rs acc : list AssetRecord) : rfold rs acc (fun acc rec => Ok (acc ++ [rec])) = Ok (acc ++ rs).
Proof.
  revert acc. induction rs as [|r rs IH]; intros acc; cbn [rfold]; [by rewrite app_nil_r|].
  cbn [mbind res_bind]. by rewrite IH, <- app_assoc.
Qed.

#[local] Instance string_le_total {A} (f : A -> string) : Total (sort_le (string_less f)).
Proof.
  intros a b. unfold sort_le, string_less. destruct (bytes_ltb (bytes_of (f b)) (bytes_of (f a))) eqn:E; [right|by left].
  by apply bytes_ltb_asym.
Qed.
#[local] Instance string_le_trans {A} (f : A -> string) : Transitive (sort_le (string_less f)).
Proof.
  intros a b c H1 H2. unfold sort_le, string_less in *.
  pose proof (bytes_leb_trans (bytes_of (f a)) (bytes_of (f b)) (bytes_of (f c))) as H. unfold bytes_leb in H.
  rewrite !negb_true_iff in H. auto.
Qed.

(** ** The membership lists *)

Lemma member_of_membershipKey p id a : slugRegex id = true -> member_of_key (membershipKey [p] id a) = Some a.
Proof.
  intros Hs. unfold member_of_key, membershipKey. rewrite membershipPrefix_cons. cbn [app length].
  rewrite bool_decide_eq_false_2 by lia. 
  change (default x00 _) with (byte_of_Z (zlen (bytes_of id))). rewrite id_byte by done. unfold zlen. rewrite Nat2Z.id.
  rewrite bool_decide_eq_false_2 by (rewrite length_app; lia).
  change (2 + length (bytes_of id))%nat with (S (S (length (bytes_of id)))). cbn [drop]. by rewrite drop_app_length.
Qed.

Lemma members_of m p id : slugRegex id = true ->
  exists addrs, (forall A (g : bytes -> A) acc,
      iterate_members (fun acc a => (acc ++ [g a], true)) acc (kv_prefix m (membershipPrefix [p] id)) = acc ++ (g <$> addrs)) /\
    forall a, a ∈ addrs <-> is_Some (m !! membershipKey [p] id a).
Proof.
  intros Hs. set (kvs := kv_prefix m (membershipPrefix [p] id)).
  assert (forall kv, kv ∈ kvs -> exists a, kv.1 = membershipKey [p] id a) as H.
  { intros [k v] [_ [a Ha]]%elem_of_kv_prefix. exists a. exact Ha. }
  exists (omap (fun kv => member_of_key kv.1) kvs). split.
  - clear -H Hs. induction kvs as [|kv kvs IH]; intros A g acc; cbn [iterate_members]; [by rewrite app_nil_r|].
    destruct (H kv ltac:(left)) as [a Ha]. cbn [omap list_omap]. rewrite Ha, member_of_membershipKey by done.
    rewrite (IH ltac:(intros kv' Hk; apply H; by right)), fmap_cons, <- app_assoc. done.
  - intros a. rewrite list_elem_of_omap. split.
    + intros ([k v] & Hin & Hk). destruct (H _ Hin) as [b Hb]. rewrite Hb, member_of_membershipKey in Hk by done.
      injection Hk as <-. apply elem_of_kv_prefix in Hin as [Hv _].
      change (k = membershipKey [p] id b) in Hb. subst k. eauto.
    + intros [v Hv]. exists (membershipKey [p] id a, v). split; [|by apply member_of_membershipKey].
      apply elem_of_kv_prefix. split; [done|]. by eexists.
Qed.

Lemma export_members_run (w : W) m acc r : view RwaKey w = m -> slugRegex (ar_AssetId r) = true ->
  exists l, export_members w acc r = Ok (acc ++ l) /\
    forall id s deny, mkRestriction id s deny ∈ l <->
      id = ar_AssetId r /\ exists a, s = AccString a /\
        is_Some (m !! membershipKey [if deny : bool then x04 else x03] id a).
Proof.
  intros <- Hs. destruct (members_of (view RwaKey w) x03 _ Hs) as (al & Ha & Hal).
  destruct (members_of (view RwaKey w) x04 _ Hs) as (dl & Hd & Hdl).
  exists (((fun a => mkRestriction (ar_AssetId r) (AccString a) false) <$> al) ++
          ((fun a => mkRestriction (ar_AssetId r) (AccString a) true) <$> dl)). split.
  - unfold export_members, IterateMembers. rewrite !st_iterator_run by done. cbn [mbind res_bind drop_err].
    unfold AllowlistPrefix, KeyPrefixAllowlist. rewrite Ha. cbn [drop_err].
    unfold DenylistPrefix, KeyPrefixDenylist. by rewrite Hd, app_assoc.
  - intros id s deny. rewrite elem_of_app, !list_elem_of_fmap. split.
    + intros [(a & [= -> -> ->] & Hin)|(a & [= -> -> ->] & Hin)]; (split; [done|]); exists a; (split; [done|]);
        [by apply Hal|by apply Hdl].
    + intros [-> (a & -> & Hm)]. destruct deny; [right; apply Hdl in Hm|left; apply Hal in Hm]; eauto.
Qed.

Lemma export_all_run (w : W) m rs acc : view RwaKey w = m -> Forall (fun r => slugRegex (ar_AssetId r) = true) rs ->
  exists l, rfold rs acc (export_members w) = Ok (acc ++ l) /\
    forall id s deny, mkRestriction id s deny ∈ l <->
      id ∈ ar_AssetId <$> rs /\ exists a, s = AccString a /\
        is_Some (m !! membershipKey [if deny : bool then x04 else x03] id a).
Proof.
  intros Hm HF. revert acc. induction HF as [|r rs Hs HF IH]; intros acc; cbn [rfold].
  - exists []. split; [by rewrite app_nil_r|]. intros id s deny. set_solver.
  - destruct (export_members_run w m acc r Hm Hs) as (l1 & E1 & H1). rewrite E1. cbn [mbind res_bind].
    destruct (IH (acc ++ l1)) as (l2 & E2 & H2). exists (l1 ++ l2). split; [by rewrite E2, app_assoc|].
    intros id s deny. rewrite elem_of_app, H1, H2, fmap_cons, elem_of_cons. tauto.
Qed.

(** *** The whole export *)

Lemma rwa_ExportGenesis_run (w : W) p rs : GetParams w = Ok p -> decoded (view RwaKey w) rs ->
  Forall (fun r => slugRegex (ar_AssetId r) = true) rs ->
  exists l, ExportGenesis w = Ok (mkGenesisState p (sort_slice (string_less ar_AssetId) rs) l) /\
    forall id s deny, mkRestriction id s deny ∈ l <->
      id ∈ ar_AssetId <$> rs /\ exists a, s = AccString a /\ member (if deny : bool then x04 else x03) id a w.
Proof.
  intros Hp Hd Hs. set (rs' := sort_slice (string_less ar_AssetId) rs).
  assert (rs' ≡ₚ rs) as Hperm by apply sort_slice_perm.
  destruct (export_all_run w (view RwaKey w) rs' []) as (l & El & Hm); [done|by rewrite Hperm|].
  exists l. split.
  - unfold ExportGenesis. rewrite Hp. cbn [must_res mbind res_bind].
    rewrite (IterateAssets_run _ (fun acc rec => Ok (acc ++ [rec])) rs [] w) by done.
    rewrite collect_assets. cbn [app drop_err mbind res_bind]. fold rs'. by rewrite El.
  - intros id s deny. rewrite Hm, Hperm. done.
Qed.

(** ** The round trip *)

(** A valid genesis state survives import and export: on an empty store the
    import succeeds, and what is then exported has the same parameters, the same
    assets (a permutation of them, sorted by id) and, address by address, the
    same allowlists and denylists. *)
Theorem rwa_genesis_roundtrip gs (w : W) : GenesisState_Validate gs = Ok tt -> params_small (gs_Params gs) ->
  Forall (fun r => wf_msg r) (gs_Assets gs) -> view RwaKey w = ∅ ->
  exists w' gs', InitGenesis gs w = (w', Ok tt) /\ ExportGenesis w' = Ok gs' /\
    gs_Params gs' = gs_Params gs /\ gs_Assets gs' ≡ₚ gs_Assets gs /\
    StronglySorted (sort_le (string_less ar_AssetId)) (gs_Assets gs') /\
    forall id s deny, mkRestriction id s deny ∈ gs_Restrictions gs' <->
      exists s0 a, mkRestriction id s0 deny ∈ gs_Restrictions gs /\ AccAddressFromBech32 s0 = Ok a /\ s = AccString a.
Proof.
  intros Hv Hsm Hwf He.
  destruct (rwa_InitGenesis_run gs w Hv Hsm Hwf He) as (w' & m & E & (V & _) & [(bz & Hbz & Hu) Hh Hl]).
  destruct (genesis_restrictions_ok gs Hv) as (_ & ND & Hslug & Hrslug & Hrin).
  destruct (holds_decoded _ _ Hh ND) as (rs & Hd & Hp).
  destruct (rwa_ExportGenesis_run w' (gs_Params gs) rs) as (l & El & Hm).
  { rewrite rwa_GetParams_view, V, Hbz. unfold MustUnmarshal. by rewrite Hu. }
  { by rewrite V. }
  { rewrite Hp. eapply Forall_impl; [exact Hslug|]. by intros ? [? _]. }
  eexists w', _. split; [done|]. split; [exact El|]. split; [done|]. split; [by rewrite <- Hp; apply sort_slice_perm|].
  split; [apply StronglySorted_merge_sort; apply _|].
  intros id s deny. cbn [gs_Restrictions]. rewrite Hm, Hp. unfold member. rewrite V. split.
  - intros [Hid (a & -> & Hs)]. assert (slugRegex id = true) as Hsid.
    { apply list_elem_of_fmap in Hid as (r & -> & Hr). by eapply Forall_forall in Hslug as [? _]; [|exact Hr]. }
    apply Hl in Hs as (r & Hr & Hlist & Hrid & Hra); [|by destruct deny; set_solver|done].
    destruct r as [rid rs0 rd]. unfold list_of in Hlist. cbn in *. subst rid.
    assert (rd = deny) as -> by (by destruct rd, deny). eauto.
  - intros (s0 & a & Hin & Hparse & ->). rewrite Forall_forall in Hrin. split; [by apply (Hrin _ Hin)|].
    rewrite Forall_forall in Hrslug. destruct (Hrslug _ Hin) as [Hsid _]. cbn in Hsid.
    exists a. split; [done|]. apply Hl; [by destruct deny; set_solver|done|].
    exists (mkRestriction id s0 deny). unfold list_of. by destruct deny.
Qed.

End RwaGenesis.

(** ** The round trip of a concrete state *)

Definition ref_asset (id : string) : AssetRecord :=
  mkAssetRecord id "vtx1alice" "Villa" "" 1 "VTX:USD" (BuildDenom id) "5000" "0" true "" zero_time (100 * Second) zero_time.

Definition ref_rwa_gs : GenesisState :=
  mkGenesisState (mkRWAParams "1000" "0.001" "0.002") [ref_asset "villa-2"; ref_asset "villa-1"]
    [mkRestriction "villa-1" "vtx1bobby" true; mkRestriction "villa-2" "vtx1alice" false].

Definition ref_empty : world (gmap bytes bytes) sdk_state :=
  mkWorld ∅ ∅ ∅ (mkSdk (fun _ _ => 0) (fun _ => 0) [] (fun _ => 0) 0) 1 0 [].

Lemma rwa_genesis_roundtrip_witness :
  exists w' gs', InitGenesis ref_rwa_gs ref_empty = (w', Ok tt) /\ ExportGenesis w' = Ok gs' /\
    gs_Params gs' = gs_Params ref_rwa_gs /\ gs_Assets gs' ≡ₚ gs_Assets ref_rwa_gs /\
    StronglySorted (sort_le (string_less ar_AssetId)) (gs_Assets gs') /\
    forall id s deny, mkRestriction id s deny ∈ gs_Restrictions gs' <->
      exists s0 a, mkRestriction id s0 deny ∈ gs_Restrictions ref_rwa_gs /\ AccAddressFromBech32 s0 = Ok a /\ s = AccString a.
Proof.
  apply (rwa_genesis_roundtrip ref_rwa_gs ref_empty).
  - vm_compute; reflexivity.
  - repeat constructor; vm_compute; discriminate.
  - repeat (apply Forall_cons; split); [..|constructor];
      (apply rec_small_wf; [|split; vm_compute; discriminate]; split;
         [repeat constructor; vm_compute; discriminate|split_and!; split; vm_compute; congruence]).
  - reflexivity.
Defined.
