(* ===== verification/RwaRestart.v ===== *)
(** * x/rwa: export and import of a running chain

    Which reachable states can be exported and started from again: exactly those
    in which every attested or active asset still has the minimum bond. The last
    lemma runs the parameter update after which a chain cannot. *)

From S2P Require Import Prelude Sdk World SdkRef Wire OracleAgg RwaTypes RwaKeeper RwaMsg RwaInv RwaSpec RwaSafety.
From S2P Require Import RwaGenesis RwaRef.

Open Scope Z_scope.

Section RwaRestart.
Context {St X : Type} {KV : KVStore St} {SM : SdkMath} {CO : Coins} {BE : Bech32} {T : StdTime}
        {BK : BankKeeper X}.
Local Abbreviation W := (world St X).
Context {PO : PriceOracle W} {POL : PriceOracleLaws W}.
Context {KVL : KVStoreLaws St} {SML : SdkMathLaws} {COL : CoinsLaws} {BEL : Bech32Laws} {TL : StdTimeLaws}.
Context (perms : list (string * list string)) {BKL : BankLaws X perms}.
Context (prwa pcol pdist : list string) (Hrwa : (ModuleName, prwa) ∈ perms)
        (Hcol : (FeeCollectorName, pcol) ∈ perms) (Hdist : ("distribution"%string, pdist) ∈ perms).

(** ** What else holds of the entries of a reachable state *)

(** Restrictions are recorded for addresses, and the parameters stay small. *)
Record entries_ok (w : W) : Prop := {
  eo_members : forall p id a, p ∈ [x03; x04] -> slugRegex id = true -> member p id a w -> addr_ok a;
  eo_params : forall p, GetParams w = Ok p -> params_small p
}.

Lemma entries_agree (w w' : W) : entries_ok w ->
  (forall p id a, p ∈ [x03; x04] -> view RwaKey w' !! membershipKey [p] id a = view RwaKey w !! membershipKey [p] id a) ->
  view RwaKey w' !! KeyParams = view RwaKey w !! KeyParams -> entries_ok w'.
Proof.
  intros [H1 H2] Hm Hp. split.
  - intros p id a Hin Hs. unfold member. rewrite Hm by done. by apply H1.
  - intros p. rewrite rwa_GetParams_view, Hp, <- rwa_GetParams_view. apply H2.
Qed.

Lemma record_set_entries w w' issuer r : record_set w w' issuer r -> entries_ok w -> entries_ok w'.
Proof.
  intros (bz & _ & V & _) He. apply (entries_agree w); [done| |].
  - intros p id a Hin. rewrite V. unfold index_upd. rewrite !lookup_insert_ne; [done|..];
      assert (p = x03 \/ p = x04) as [-> | ->] by set_solver; done.
  - rewrite V. unfold index_upd. by rewrite !lookup_insert_ne.
Qed.

Lemma parsed_ok l as_ a : parsed l as_ -> a ∈ as_ -> addr_ok a.
Proof.
  intros HF [i Hi]%list_elem_of_lookup. destruct (Forall2_lookup_r _ _ _ _ _ HF Hi) as (s & _ & Hp).
  by apply acc_parse_ok in Hp.
Qed.

Lemma restrict_entries msg w w' r aa da ad dd : restrict_admissible msg w r aa da ad dd ->
  restrict_effect msg w w' r aa da ad dd -> entries_ok w -> entries_ok w'.
Proof.
  intros Ha (_ & H3 & H4 & Ho & Hp & _) [E1 E2]. split.
  - intros p id a Hin Hs. destruct (decide (id = ur_AssetId msg)) as [->|Hne].
    + assert (p = x03 \/ p = x04) as [-> | ->] by set_solver.
      * intros [[Hm|Hm] _]%H3; [by eapply E1|]. by eapply parsed_ok; [apply Ha|].
      * intros [[Hm|Hm] _]%H4; [by eapply E1|]. by eapply (parsed_ok (ur_AddDeny msg) ad); [apply Ha|].
    + intros Hm. apply (proj2 (Ho id Hs Hne)) in Hm; [|done]. by eapply E1.
  - intros p. rewrite Hp. apply E2.
Qed.

Lemma rwa_step_entries k w w' : rwa_inv w -> rwa_step k w w' -> entries_ok w -> entries_ok w'.
Proof.
  intros Hi Hs He. destruct Hs as [msg w w' H1 H2 H|msg w w' H|msg w w' H1 H|msg w w' H|msg w w' H|msg w w' H1 H|msg w w' H|msg w w' H1 H|w w' V H1 H2 H3].
  - destruct (wlp_run _ _ _ _ _ _ (RegisterAsset_wlp perms prwa Hrwa msg w Hi H1) H) as [Hx _].
    destruct Hx as (? & ? & ? & ? & _ & _ & _ & _ & _ & _ & _ & _ & _ & _ & _ & Hr). by eapply record_set_entries.
  - destruct (wlp_run _ _ _ _ _ _ (AttestAsset_wlp msg w Hi) H) as [Hx _].
    destruct Hx as (? & ? & ? & _ & _ & _ & _ & _ & _ & Hr). by eapply record_set_entries.
  - destruct (wlp_run _ _ _ _ _ _ (MintRWA_wlp perms prwa pcol Hrwa Hcol msg w Hi) H) as [Hx _].
    destruct Hx as (? & ? & ? & ? & ? & ? & _ & _ & _ & _ & _ & _ & _ & _ & _ & _ & _ & Hr). by eapply record_set_entries.
  - destruct (wlp_run _ _ _ _ _ _ (TransferRWA_wlp perms msg w Hi) H) as [Hx _].
    destruct Hx as (? & ? & ? & ? & _ & _ & _ & _ & _ & _ & _ & _ & O).
    assert (view RwaKey w' = view RwaKey w) as V by (unfold view; by rewrite O).
    apply (entries_agree w); [done|intros; by rewrite V|by rewrite V].
  - destruct (UpdateRestrictions_admitted _ _ _ Hi H) as (r & aa & da & ad & dd & Ha).
    destruct (UpdateRestrictions_run _ _ _ _ _ _ _ Hi Ha) as (w1 & E & He1 & _).
    rewrite H in E. injection E as <-. by eapply restrict_entries.
  - destruct (wlp_run _ _ _ _ _ _ (SettleRWA_wlp perms prwa pcol Hrwa Hcol msg w Hi) H) as [Hx _].
    destruct Hx as (? & ? & ? & ? & ? & ? & _ & _ & _ & _ & _ & _ & _ & _ & _ & Hr). by eapply record_set_entries.
  - destruct (wlp_run _ _ _ _ _ _ (SlashBond_msg_wlp perms k msg w Hi) H) as [Hx _].
    destruct Hx as (? & ? & ? & _ & _ & _ & _ & _ & _ & Hr). by eapply record_set_entries.
  - destruct (UpdateParams_effect k msg w w' H1 H) as (bz & Hu & _ & V & _). destruct He as [E1 _]. split.
    + intros p id a Hin Hs. unfold member. rewrite V, lookup_insert_ne; [by apply E1|].
      assert (p = x03 \/ p = x04) as [-> | ->] by set_solver; done.
    + intros p. rewrite rwa_GetParams_view, V, lookup_insert_eq, Hu. by intros [= <-].
  - apply (entries_agree w); [done|intros; by rewrite V|by rewrite V].
Qed.

(** ** The validation of an export *)

(** An attested or active asset needs the minimum bond. *)
Definition bonded (minBond : Z) (r : AssetRecord) : Prop :=
  ar_Status r = ASSET_STATUS_ATTESTED \/ ar_Status r = ASSET_STATUS_ACTIVE ->
  exists b, NewIntFromString (ar_Bond r) = Some b /\ minBond <= b.

Lemma validate_assets_iff x mb seen (l : list AssetRecord) : Forall (asset_ok x) l -> NoDup (ar_AssetId <$> l) ->
  (forall id, id ∈ ar_AssetId <$> l -> id ∉ seen) ->
  (exists seen', validate_assets (Some mb) seen l = Ok seen') <-> Forall (bonded mb) l.
Proof.
  intros HF. revert seen. induction HF as [|a l Hok _ IH]; intros seen ND Hs; cbn [validate_assets].
  { split; [by constructor|by eexists]. }
  cbn in ND. apply NoDup_cons in ND as [Hn ND]. destruct Hok as [H1 _ H3 [i Hi] (b & Hb & _) (n & Hn0 & _) _ H8].
  rewrite (proj2 (ValidateAssetID_Ok _) H1). cbn [wrap_err mbind res_bind].
  rewrite bool_decide_eq_false_2 by (apply Hs; cbn; by left). rewrite Hi. cbn [wrap_err mbind res_bind].
  replace ((ar_Status a <? ASSET_STATUS_DRAFT) || (ASSET_STATUS_SETTLED <? ar_Status a)) with false by lia.
  rewrite H8, Hb, Hn0. cbn [negb].
  assert ((exists seen', validate_assets (Some mb) ({[ar_AssetId a]} ∪ seen) l = Ok seen') <-> Forall (bonded mb) l) as IH'.
  { apply IH; [done|]. intros id Hid. apply not_elem_of_union. split; [set_solver|]. apply Hs. cbn. by right. }
  rewrite Forall_cons, <- IH'. unfold bonded at 1. rewrite Hb.
  destruct ((ar_Status a =? ASSET_STATUS_ATTESTED) || (ar_Status a =? ASSET_STATUS_ACTIVE)) eqn:Est; cbn [mbind res_bind].
  - assert (ar_Status a = ASSET_STATUS_ATTESTED \/ ar_Status a = ASSET_STATUS_ACTIVE) as Hst by lia.
    destruct (Z.ltb_spec b mb); cbn [mbind res_bind].
    + split; [intros [? [=]]|]. intros [Hx _]. destruct (Hx Hst) as (b' & [= <-] & ?). lia.
    + split; [|by intros [_ ?]]. intros H'. split; [intros _; by exists b|exact H'].
  - split; [|by intros [_ ?]]. intros H'. split; [|exact H']. intros [E|E]; rewrite E in Est; discriminate Est.
Qed.

Lemma validate_restrictions_Ok (seen : gset string) (l : list Restriction) :
  Forall (fun r => rs_AssetId r ∈ seen /\ exists a, AccAddressFromBech32 (rs_Address r) = Ok a) l ->
  rfold l tt (fun _ r =>
    if negb (bool_decide (rs_AssetId r ∈ seen)) then Err ErrGenesis else
    _ ← wrap_err ErrGenesis (AccAddressFromBech32 (rs_Address r)); Ok tt) = Ok tt.
Proof.
  induction 1 as [|r l [Hin [a Ha]] _ IH]; cbn [rfold]; [done|].
  rewrite bool_decide_eq_true_2 by done. cbn [negb]. rewrite Ha. cbn [wrap_err mbind res_bind]. exact IH.
Qed.

(** ** The restart *)

(** Every attested or active asset of the registry has the minimum bond. *)
Definition bonds_enough (w : W) : Prop := forall id r p mb,
  stored w id r -> GetParams w = Ok p -> MinIssuerBondInt p = Some mb -> bonded mb r.

Lemma bonds_enough_entries (w : W) p mb : GetParams w = Ok p -> MinIssuerBondInt p = Some mb ->
  Forall (fun kv => exists r, Unmarshal kv.2 = Ok r /\ bonded mb r) (kv_prefix (view RwaKey w) KeyPrefixAsset) ->
  bonds_enough w.
Proof.
  rewrite Forall_forall. intros Hp Hmb H id r p' mb' (v & Hk & Hu) Hp' Hmb'.
  rewrite Hp in Hp'. injection Hp' as <-. rewrite Hmb in Hmb'. injection Hmb' as <-.
  destruct (H (AssetKey id, v)) as (r' & Hu' & Hb); [apply elem_of_kv_prefix; split; [done|apply asset_key_AssetKey]|].
  cbn [snd] in Hu'. rewrite Hu in Hu'. by injection Hu' as <-.
Qed.

Lemma validate_export x p mb (rs : list AssetRecord) (l : list Restriction) :
  Validate p = Ok tt -> MinIssuerBondInt p = Some mb -> Forall (asset_ok x) rs -> NoDup (ar_AssetId <$> rs) ->
  Forall (fun r => rs_AssetId r ∈ ar_AssetId <$> rs /\ exists a, AccAddressFromBech32 (rs_Address r) = Ok a) l ->
  GenesisState_Validate (mkGenesisState p rs l) = Ok tt <-> Forall (bonded mb) rs.
Proof.
  intros Hv Hmb Hok ND Hl. rewrite <- (validate_assets_iff x mb ∅ rs) by (done || set_solver).
  unfold GenesisState_Validate. cbn [gs_Params gs_Assets gs_Restrictions]. rewrite Hv, Hmb. cbn [mbind res_bind].
  split.
  - destruct (validate_assets (Some mb) ∅ rs) as [seen| |]; [by exists seen|done..].
  - intros [seen E]. rewrite E. cbn [mbind res_bind]. apply validate_restrictions_Ok.
    apply validate_assets_NoDup in E as (_ & _ & Hs & _).
    eapply Forall_impl; [exact Hl|]. intros r [Hin Ha]. split; [|done]. apply Hs. by right.
Qed.

(** The export of a state where the invariant holds. *)
Lemma rwa_export_run (w : W) p : rwa_inv w -> entries_ok w -> GetParams w = Ok p ->
  exists rs l, ExportGenesis w = Ok (mkGenesisState p rs l) /\ NoDup (ar_AssetId <$> rs) /\
    Forall (asset_ok (w_ext w)) rs /\ (forall r, r ∈ rs <-> stored w (ar_AssetId r) r) /\
    locked_sum rs = kv_sum locked_of (view RwaKey w) KeyPrefixAsset /\
    Forall (fun r => rs_AssetId r ∈ ar_AssetId <$> rs /\ exists a, AccAddressFromBech32 (rs_Address r) = Ok a) l /\
    forall q id a, q ∈ [x03; x04] -> id ∈ ar_AssetId <$> rs -> lists l q id a <-> member q id a w.
Proof.
  intros Hi [Em _] Hp. set (R v r := Unmarshal v = Ok r /\ asset_ok (w_ext w) r).
  destruct (kv_decoded (view RwaKey w) KeyPrefixAsset R (fun r => AssetKey (ar_AssetId r))) as [rs HF].
  { intros k v Hv Hpre. destruct (inv_assets _ Hi k v Hv Hpre) as (r & ? & ? & ?). by exists r. }
  destruct (kv_decoded_spec _ _ R _ _ HF) as (ND & G1 & G2).
  assert (decoded (view RwaKey w) rs) as Hd by (by eapply Forall2_impl; [exact HF|]; intros ? ? [[? _] _]).
  assert (Forall (asset_ok (w_ext w)) rs) as Hok by (apply Forall_forall; by intros r (_ & v & _ & _ & Hr)%G1).
  assert (Forall (fun r => slugRegex (ar_AssetId r) = true) rs) as Hsl
    by (eapply Forall_impl; [exact Hok|]; intros r Hr; apply Hr).
  destruct (rwa_ExportGenesis_run w p rs Hp Hd Hsl) as (l & El & Hl).
  pose proof (sort_slice_perm (string_less ar_AssetId) rs) as Hperm.
  assert (forall id, id ∈ ar_AssetId <$> rs -> slugRegex id = true) as Hslug.
  { intros id (r & -> & Hr)%list_elem_of_fmap. rewrite Forall_forall in Hsl. by apply Hsl. }
  assert (forall q : byte, q ∈ [x03; x04] -> exists deny : bool, q = if deny then x04 else x03) as Hq.
  { intros q Hin. assert (q = x03 \/ q = x04) as [-> | ->] by set_solver; [by exists false|by exists true]. }
  exists (sort_slice (string_less ar_AssetId) rs), l. split_and!; [done|..].
  - rewrite Hperm. apply (NoDup_fmap_1 AssetKey). by rewrite <- list_fmap_compose.
  - by rewrite Hperm.
  - intros r. rewrite Hperm. split; [by intros (_ & v & ? & ? & _)%G1; exists v|].
    intros (v & Hv & Hu). destruct (G2 _ v Hv (asset_key_AssetKey _)) as (r' & Hr' & _ & Hu' & _).
    rewrite Hu in Hu'. by injection Hu' as <-.
  - rewrite (decoded_sum _ _ Hd). apply (foldr_sum_perm locked _ _ Hperm).
  - apply Forall_forall. intros [id s deny] [Hid (a & -> & Hm)]%Hl. cbn [rs_AssetId rs_Address]. rewrite Hperm.
    split; [done|]. exists a. apply acc_print, (Em (if deny then x04 else x03) id); [by destruct deny; set_solver|by apply Hslug|done].
  - intros q id a Hin Hid. rewrite Hperm in Hid. destruct (Hq q Hin) as [deny ->]. split.
    + intros ([id' s deny'] & Hr & Hd' & <- & Ha). cbn in *. apply Hl in Hr as [_ (a' & -> & Hm)].
      assert (deny' = deny) as -> by (by destruct deny', deny). rewrite acc_print in Ha; [by injection Ha as <-|].
      by apply (Em _ _ _ Hin (Hslug _ Hid) Hm).
    + intros Hm. exists (mkRestriction id (AccString a) deny). split_and!; [|done|done|].
      * apply Hl. split; [done|]. by exists a.
      * apply acc_print. by apply (Em _ _ _ Hin (Hslug _ Hid) Hm).
Qed.

Lemma genesis_entries gs (w w' : W) : genesis_sound gs w -> InitGenesis gs w = (w', Ok tt) -> entries_ok w'.
Proof.
  intros [Hv Hsm Hok _ _ _ He] E.
  destruct (rwa_InitGenesis_run gs w Hv Hsm) as (w1 & m & E1 & (V & _) & [(bz & Hbz & Hu) _ Hl]); [|done|].
  { eapply Forall_impl; [exact Hok|]. intros r Hr. apply rec_small_wf; apply Hr. }
  rewrite E in E1. injection E1 as <-. split.
  - intros p id a Hin Hs Hm. unfold member in Hm. rewrite V in Hm. apply Hl in Hm as (r & _ & _ & _ & Ha); [|done..].
    by apply acc_parse_ok in Ha.
  - intros p. rewrite rwa_GetParams_view, V, Hbz. unfold MustUnmarshal. rewrite Hu. by intros [= <-].
Qed.

Lemma rwa_reachable_entries k w w' : rwa_inv w -> entries_ok w -> rtc (rwa_step k) w w' -> entries_ok w'.
Proof.
  intros Hi He Hs. induction Hs as [|w1 w2 w3 H1 _ IH]; [done|].
  apply IH; [by eapply (rwa_step_inv perms prwa pcol pdist Hrwa Hcol Hdist)|by eapply rwa_step_entries].
Qed.

Lemma asset_ok_ledger x x' r : same_ledger x x' -> asset_ok x r -> asset_ok x' r.
Proof. intros [_ Hs] [H1 H2 H3 H4 H5 H6 H7 H8]. split; try done. by rewrite Hs. Qed.

(** The import of such an export, once it is valid. *)
Lemma rwa_import_run (w wn : W) p rs l : let gs := mkGenesisState p rs l in
  rwa_inv w -> entries_ok w -> GetParams w = Ok p ->
  Forall (asset_ok (w_ext w)) rs -> (forall r, r ∈ rs <-> stored w (ar_AssetId r) r) ->
  locked_sum rs = kv_sum locked_of (view RwaKey w) KeyPrefixAsset ->
  (forall q id a, q ∈ [x03; x04] -> id ∈ ar_AssetId <$> rs -> lists l q id a <-> member q id a w) ->
  GenesisState_Validate gs = Ok tt -> view RwaKey wn = ∅ -> same_ledger (w_ext w) (w_ext wn) -> time_ok (w_time wn) ->
  genesis_sound gs wn /\ exists w', InitGenesis gs wn = (w', Ok tt) /\ rwa_inv w' /\
    GetParams w' = GetParams w /\ (forall id r, stored w' id r <-> stored w id r) /\
    (forall id r q a, stored w id r -> q ∈ [x03; x04] -> member q id a w' <-> member q id a w).
Proof.
  intros gs Hi [_ Ep] Hp Hok Hst Hsum Hl Hv Hn Hx Ht.
  assert (genesis_sound gs wn) as Hg.
  { split; cbn [gs gs_Params gs_Assets]; try done.
    - by apply Ep.
    - eapply Forall_impl; [exact Hok|]. intros r. by apply asset_ok_ledger.
    - rewrite Hsum, (proj1 Hx). apply Hi.
    - intros id Hsl Hid. rewrite (proj2 Hx). apply (inv_unissued _ Hi); [done|].
      destruct (view RwaKey w !! AssetKey id) as [v|] eqn:Ev; [|done]. exfalso. apply Hid.
      destruct (inv_assets _ Hi _ _ Ev (asset_key_AssetKey id)) as (r & Hu & Hk & _). apply AssetKey_inj in Hk as ->.
      apply list_elem_of_fmap_2, Hst. by exists v. }
  split; [exact Hg|]. destruct (genesis_inv gs wn Hg) as (w' & E & Hi' & _). exists w'.
  destruct (rwa_InitGenesis_run gs wn Hv (gso_params _ _ Hg)) as (w2 & m & E2 & (V & _) & [(bz & Hbz & Hu) [I1 I2 _] I3]);
    [|done|].
  { eapply Forall_impl; [exact Hok|]. intros r Hr. apply rec_small_wf; apply Hr. }
  rewrite E in E2. injection E2 as <-. split_and!; [done|done|..].
  - rewrite Hp, rwa_GetParams_view, V, Hbz. unfold MustUnmarshal. by rewrite Hu.
  - intros id r. split.
    + intros (v & Hk & Hur). rewrite V in Hk. destruct (I1 _ v Hk (asset_key_AssetKey id)) as (r' & Hr' & Hur' & Ek).
      apply AssetKey_inj in Ek as ->. rewrite Hur in Hur'. injection Hur' as <-. by apply Hst.
    + intros Hs. destruct (inv_stored _ _ _ Hi Hs) as [<- _]. apply Hst, I2 in Hs as (v & ? & ?). exists v. by rewrite V.
  - intros id r q a Hs Hq. destruct (inv_stored _ _ _ Hi Hs) as [<- Hokr]. unfold member at 1. rewrite V, I3; [|done|apply Hokr].
    apply Hl; [done|]. by apply list_elem_of_fmap_2, Hst.
Qed.

(** What an export is, and what importing it gives. *)
Lemma rwa_inv_restart (w : W) : rwa_inv w -> entries_ok w ->
  exists gs, ExportGenesis w = Ok gs /\ (GenesisState_Validate gs = Ok tt <-> bonds_enough w) /\
    (bonds_enough w -> forall wn, view RwaKey wn = ∅ -> same_ledger (w_ext w) (w_ext wn) -> time_ok (w_time wn) ->
       genesis_sound gs wn /\ exists w', InitGenesis gs wn = (w', Ok tt) /\ rwa_inv w' /\
         GetParams w' = GetParams w /\ (forall id r, stored w' id r <-> stored w id r) /\
         (forall id r p a, stored w id r -> p ∈ [x03; x04] -> member p id a w' <-> member p id a w)).
Proof.
  intros Hi He. destruct (params_ok_get w (inv_params _ Hi)) as (p & Hp & Hv).
  destruct (proj1 (RWAParams_Validate_spec p) Hv) as ((mb & Hmb & _) & _).
  destruct (rwa_export_run w p Hi He Hp) as (rs & l & Ee & ND & Hok & Hst & Hsum & Hres & Hl).
  assert (GenesisState_Validate (mkGenesisState p rs l) = Ok tt <-> bonds_enough w) as Hiff.
  { rewrite (validate_export (w_ext w) p mb) by done. rewrite Forall_forall. split.
    - intros H id r p' mb' Hr Hp' Hmb'. rewrite Hp in Hp'. injection Hp' as <-.
      unfold MinIssuerBondInt in Hmb'. rewrite Hmb in Hmb'. injection Hmb' as <-.
      apply H, Hst. destruct (inv_stored _ _ _ Hi Hr) as [-> _]. done.
    - intros H r Hr%Hst. by apply (H _ r p mb Hr Hp). }
  exists (mkGenesisState p rs l). split; [done|]. split; [exact Hiff|].
  intros Hb%Hiff wn Hn Hx Ht. by apply (rwa_import_run w wn p rs l).
Qed.

(** C28: a chain can be restarted from its export, unless a bond fell below the
    minimum. Of every state reached from a sound genesis the export succeeds, and
    it is a valid genesis state exactly when every attested or active asset has
    the minimum bond; then the import (on an empty store, with the balances and
    supplies of the exported chain) succeeds and rebuilds the same parameters, the same records
    and the same allowlists and denylists of every asset, and the invariant of
    the registry holds again. *)
Theorem rwa_restart k gs0 (w0 : W) : genesis_sound gs0 w0 ->
  exists w1, InitGenesis gs0 w0 = (w1, Ok tt) /\
    forall w, rtc (rwa_step k) w1 w ->
      exists gs, ExportGenesis w = Ok gs /\
        (GenesisState_Validate gs = Ok tt <-> bonds_enough w) /\
        (bonds_enough w -> forall wn, view RwaKey wn = ∅ -> same_ledger (w_ext w) (w_ext wn) -> time_ok (w_time wn) ->
           exists w', InitGenesis gs wn = (w', Ok tt) /\ rwa_inv w' /\
             GetParams w' = GetParams w /\ (forall id r, stored w' id r <-> stored w id r) /\
             (forall id r p a, stored w id r -> p ∈ [x03; x04] -> member p id a w' <-> member p id a w)).
Proof.
  intros Hg. destruct (genesis_inv gs0 w0 Hg) as (w1 & E1 & Hi1 & _). exists w1. split; [done|]. intros w Hs.
  pose proof (rwa_reachable_inv perms prwa pcol pdist Hrwa Hcol Hdist k w1 w Hi1 Hs) as Hi.
  pose proof (rwa_reachable_entries k w1 w Hi1 (genesis_entries _ _ _ Hg E1) Hs) as He.
  destruct (rwa_inv_restart w Hi He) as (gs & Ee & Hv & H). exists gs. split_and!; [done|done|..].
  intros Hb wn Hn Hx Ht. by apply (H Hb wn).
Qed.

End RwaRestart.

(** ** Restarts of the reference chain *)

#[local] Instance ref_bank' : BankKeeper sdk_state := BK_ref ref_rwa_perms ["distribution"%string].
#[local] Instance ref_bank_laws' : BankLaws sdk_state ref_rwa_perms := BKL_ref ref_rwa_perms ["distribution"%string].

(** A new chain with the ledger of [ref_w4]. *)
Definition ref_new : world (gmap bytes bytes) sdk_state := mkWorld ∅ ∅ ∅ (w_ext ref_w4) 0 (200 * Second) [].

Lemma rwa_restart_witness :
  exists gs w', ExportGenesis ref_w4 = Ok gs /\ InitGenesis gs ref_new = (w', Ok tt) /\
    stored w' "villa-1" ref_rec4.
Proof.
  destruct (rwa_restart ref_rwa_perms _ _ _ ref_has_rwa ref_has_collector ref_has_distribution
    (mkKeeper "vtx1gov") ref_rwa_genesis ref_w0 ref_genesis_sound) as (w1 & E & H).
  rewrite ref_run1 in E. apply (f_equal fst) in E. cbn [fst] in E. rewrite <- E in H.
  destruct (H ref_w4 ref_path) as (gs & Eg & _ & Hr).
  assert (bonds_enough ref_w4) as Hb.
  { apply (bonds_enough_entries ref_w4 (mkRWAParams "1000" "0.001" "0.002") 1000).
    - vm_compute; reflexivity.
    - vm_compute; reflexivity.
    - set (l := kv_prefix _ _). vm_compute in l. subst l. constructor; [|constructor].
      exists ref_rec4. split; [vm_compute; reflexivity|]. intros _. exists 5000.
      split; [vm_compute; reflexivity|vm_compute; discriminate]. }
  destruct (Hr Hb ref_new) as (w' & E' & _ & _ & Hs & _); [reflexivity|by split|split; vm_compute; congruence|].
  exists gs, w'. split; [exact Eg|]. split; [exact E'|]. apply Hs, ref_stored4.
Defined.

(** Raising the minimum bond above the bond of an active asset is a valid parameter
    update, after which the export is not a valid genesis state: the chain cannot
    be started from it. *)
Lemma raised_bond_blocks_restart :
  let msg := mkMsgUpdateParams "vtx1gov" (mkRWAParams "6000" "0.001" "0.002") in
  let w := (UpdateParams (mkKeeper "vtx1gov") msg ref_w4).1 in
  (UpdateParams (mkKeeper "vtx1gov") msg ref_w4).2 = Ok tt /\
  exists gs, ExportGenesis w = Ok gs /\ GenesisState_Validate gs = Err ErrGenesis /\
    (InitGenesis gs ref_new).2 = Panic.
Proof.
  cbv zeta. split; [vm_compute; reflexivity|]. eexists. split; [vm_compute; reflexivity|]. split; vm_compute; reflexivity.
Qed.
