(* ===== verification/FeederAgg.v ===== *)
(** * vertix-feeder: aggregation and cache

    feeder/feeder/aggregate.go and cache.go: the price policy of the sidecar
    that feeds the oracle (a median over the sources, sources far from it
    dropped, a minimum number of sources before and after), and the store of the
    latest medians that its two loops share. *)

From S2P Require Import Prelude Sdk SdkRef OracleAgg.

Open Scope Z_scope.

(** [l[i]], which panics out of range. *)
Definition index {A} (l : list A) (i : nat) : res A :=
  match l !! i with Some x => Ok x | None => Panic end.

Definition ErrInsufficientSources : error := Errorf "insufficient healthy price sources".

(** ** aggregate.go *)

Section Aggregate.
Context {SM : SdkMath}.

Definition Median (prices : list Z) : res Z :=
  let n := length prices in
  if bool_decide (n = 0%nat) then Err (Errorf "median of empty set") else
  let sorted := sort_slice Z.ltb prices in
  if bool_decide (n mod 2 = 1)%nat then index sorted (n / 2) else
  lo ← index sorted (n / 2 - 1);
  hi ← index sorted (n / 2);
  s ← DecAdd lo hi;
  DecQuoInt64 s 2.

(** The loop of [DropDeviating]. *)
Fixpoint keep_close (mid band : Z) (prices : list Z) : res (list Z) :=
  match prices with
  | [] => Ok []
  | p :: prices =>
      d ← DecSub p mid;
      out ← keep_close mid band prices;
      Ok (if Z.abs d <=? band then p :: out else out)
  end.

Definition DropDeviating (prices : list Z) (maxDeviation : Z) : res (list Z) :=
  if bool_decide (length prices = 0%nat) then Ok prices else
  match Median prices with
  | Panic => Panic
  | Err _ => Ok prices
  | Ok mid =>
      if negb (0 <? mid) then Ok prices else
      band ← DecMul mid maxDeviation;
      keep_close mid band prices
  end.

Definition CrossSourceMedian (prices : list Z) (maxDeviation minProviders : Z) : res Z :=
  if Z.of_nat (length prices) <? minProviders then Err ErrInsufficientSources else
  filtered ← DropDeviating prices maxDeviation;
  if Z.of_nat (length filtered) <? minProviders then Err ErrInsufficientSources else
  Median filtered.

End Aggregate.

(** ** cache.go

    The price of an entry is [None] for the zero [LegacyDec{}], whose inner
    pointer is nil. *)

Record cacheEntry : Type := mkCacheEntry { price : option Z; at_ : Z; healthy : bool }.

Definition zero_cacheEntry : cacheEntry := mkCacheEntry None zero_time false.

Abbreviation Cache := (gmap string cacheEntry).

Definition NewCache : Cache := ∅.

Definition Cache_Set (pair : string) (p : Z) (t : Z) (c : Cache) : Cache :=
  <[pair := mkCacheEntry (Some p) t true]> c.

(** [e := c.m[pair]] is the zero entry when the pair is absent. *)
Definition MarkUnhealthy (pair : string) (c : Cache) : Cache :=
  let e := default zero_cacheEntry (c !! pair) in
  <[pair := mkCacheEntry (price e) (at_ e) false]> c.

Definition Fresh (pair : string) (maxAge now : Z) (c : Cache) : option (option Z) :=
  match c !! pair with
  | None => None
  | Some e =>
      if negb (healthy e) then None else
      if maxAge <? time_sub now (at_ e) then None else Some (price e)
  end.

(** ** Medians and counting *)

Definition within (lo hi p : Z) : bool := (lo <=? p) && (p <=? hi).

Lemma sort_ltb_sorted l : StronglySorted (fun a b => a <= b) (sort_slice Z.ltb l).
Proof.
  eapply StronglySorted_weaken; [|apply StronglySorted_merge_sort; apply _].
  intros a b. unfold sort_le. lia.
Qed.

Lemma count_split P l : (count P l + count (fun x => negb (P x)) l = length l)%nat.
Proof.
  unfold count. induction l as [|x l IH]; [done|]. rewrite !filter_cons.
  destruct (P x); cbn [negb]; repeat case_decide; cbn; done || lia.
Qed.

(** The element at a position at which neither the prices below [lo] nor those
    above [hi] can be lies within [lo, hi]. *)
Lemma sorted_index_within l lo hi k : (k < length l)%nat ->
  (count (fun p => p <? lo)%Z l <= k)%nat -> (count (fun p => hi <? p)%Z l <= length l - S k)%nat ->
  exists x, index (sort_slice Z.ltb l) k = Ok x /\ lo <= x <= hi.
Proof.
  intros Hk Hlo Hhi. pose proof (sort_slice_perm Z.ltb l) as Hp.
  assert (k < length (sort_slice Z.ltb l))%nat as Hk' by (by rewrite Hp).
  destruct (sorted_nth_count _ k 0 (sort_ltb_sorted l) Hk') as (_ & A & B).
  set (m := nth k (sort_slice Z.ltb l) 0) in *.
  exists m. split.
  { unfold index. destruct (lookup_lt_is_Some_2 _ _ Hk') as [x Ex].
    rewrite Ex. f_equal. subst m. symmetry. by apply nth_lookup_Some. }
  rewrite (count_perm _ _ _ Hp) in A. rewrite (count_perm _ _ _ Hp) in B.
  pose proof (count_split (fun p => p <=? hi) l) as Hs.
  assert (count (fun x => negb (x <=? hi)%Z) l = count (fun p => hi <? p)%Z l) as E.
  { unfold count. f_equal. apply list_filter_iff. intros x. lia. }
  split; apply Z.nlt_ge; intros Hlt.
  - assert (count (fun p => p <=? m)%Z l <= count (fun p => p <? lo)%Z l)%nat
      by (apply count_mono; intros x _; lia). lia.
  - assert (count (fun p => p <=? hi)%Z l <= count (fun p => p <? m)%Z l)%nat
      by (apply count_mono; intros x _; lia). lia.
Qed.

Section MedianLemmas.
Context {SM : SdkMath} {SML : SdkMathLaws}.

Lemma Median_empty : Median [] = Err (Errorf "median of empty set").
Proof. done. Qed.

(** The median lies within any range that holds more than half of the prices. *)
Lemma Median_majority l lo hi :
  (length l < 2 * count (within lo hi) l)%nat -> 2 * (Z.abs lo `max` Z.abs hi) < dec_limit ->
  exists m, Median l = Ok m /\ lo <= m <= hi.
Proof.
  intros Hmaj Hlim. set (n := length l).
  assert (0 < n)%nat as Hn by (pose proof (count_le (within lo hi) l); lia).
  pose proof (count_split (within lo hi) l) as Hs.
  assert (count (fun p => p <? lo)%Z l <= count (fun x => negb (within lo hi x)) l)%nat as H1
    by (apply count_mono; unfold within; intros x _; lia).
  assert (count (fun p => hi <? p)%Z l <= count (fun x => negb (within lo hi x)) l)%nat as H2
    by (apply count_mono; unfold within; intros x _; lia).
  fold n in Hs, Hmaj. pose proof (Nat.div_mod_eq n 2) as Hd.
  pose proof (Nat.mod_upper_bound n 2 ltac:(lia)) as Hm.
  unfold Median. fold n. rewrite bool_decide_eq_false_2 by lia. cbn zeta.
  case_bool_decide as Hodd.
  - apply sorted_index_within; fold n; lia.
  - destruct (sorted_index_within l lo hi (n / 2 - 1)) as (x & -> & Hx); [fold n; lia..|].
    destruct (sorted_index_within l lo hi (n / 2)) as (y & -> & Hy); [fold n; lia..|].
    cbn [mbind res_bind]. rewrite dec_add, decide_True by lia. cbn [mbind res_bind].
    rewrite dec_quo_int64 by lia. exists (Z.quot (x + y) 2). split; [done|].
    pose proof (Z.quot_rem' (x + y) 2). pose proof (Z.rem_bound_abs (x + y) 2 ltac:(lia)). lia.
Qed.

Lemma Median_total l : l <> [] -> Forall (fun p => 2 * Z.abs p < dec_limit) l ->
  exists m, Median l = Ok m.
Proof.
  intros Hne HF. set (b := foldr (fun p acc => Z.abs p `max` acc) 0 l).
  assert (0 <= 2 * b < dec_limit /\ forall p, p ∈ l -> Z.abs p <= b) as [Hb Hl].
  { subst b. clear Hne. induction HF as [|p l Hp HF IH]; cbn [foldr].
    - split; [unfold dec_limit; lia|]. by intros p ?%elem_of_nil.
    - destruct IH as [IH1 IH2]. split; [lia|]. intros q [->|Hq]%elem_of_cons; [lia|].
      specialize (IH2 q Hq). lia. }
  destruct (Median_majority l (- b) b) as (m & E & _); [|lia|by eauto].
  rewrite count_all; [destruct l; [done|cbn; lia]|].
  intros p Hp. specialize (Hl p Hp). unfold within. lia.
Qed.

Lemma Median_within l m lo hi : Median l = Ok m -> (forall p, p ∈ l -> lo <= p <= hi) ->
  lo <= m <= hi.
Proof.
  intros E HF. destruct (decide (l = [])) as [->|Hne]; [done|].
  assert (0 < length l)%nat as Hn by (destruct l; [done|cbn; lia]).
  pose proof (Nat.div_mod_eq (length l) 2) as Hd.
  pose proof (Nat.mod_upper_bound (length l) 2 ltac:(lia)) as Hm.
  assert (count (fun p => p <? lo)%Z l = 0)%nat as H1
    by (apply count_none; intros p Hp; specialize (HF p Hp); lia).
  assert (count (fun p => hi <? p)%Z l = 0)%nat as H2
    by (apply count_none; intros p Hp; specialize (HF p Hp); lia).
  unfold Median in E. rewrite bool_decide_eq_false_2 in E by lia. cbn zeta in E.
  case_bool_decide as Hodd.
  - destruct (sorted_index_within l lo hi (length l / 2)) as (x & Ex & Hx); [lia..|].
    rewrite Ex in E. by injection E as <-.
  - destruct (sorted_index_within l lo hi (length l / 2 - 1)) as (x & Ex & Hx); [lia..|].
    destruct (sorted_index_within l lo hi (length l / 2)) as (y & Ey & Hy); [lia..|].
    rewrite Ex, Ey in E. cbn [mbind res_bind] in E. rewrite dec_add in E. case_decide; [|done].
    cbn [mbind res_bind] in E. rewrite dec_quo_int64 in E by lia. injection E as <-.
    pose proof (Z.quot_rem' (x + y) 2). pose proof (Z.rem_bound_abs (x + y) 2 ltac:(lia)). lia.
Qed.

End MedianLemmas.

(** ** Dropping the deviating sources *)

Section DropLemmas.
Context {SM : SdkMath} {SML : SdkMathLaws}.

Lemma keep_close_filter mid band l out : keep_close mid band l = Ok out ->
  out = filter (fun p => Z.abs (p - mid) <= band) l.
Proof.
  revert out; induction l as [|p l IH]; cbn [keep_close]; intros out E; [by injection E as <-|].
  rewrite dec_sub in E. case_decide; [|done]. cbn [mbind res_bind] in E.
  destruct (keep_close mid band l) as [o| |]; try done. cbn [mbind res_bind] in E.
  injection E as <-. rewrite (IH o) by done. rewrite filter_cons.
  destruct (Z.leb_spec (Z.abs (p - mid)) band); case_decide; done || lia.
Qed.


(** What remains: everything when the provisional median is not positive, else
    the prices within [maxDeviation] of it. *)
Lemma DropDeviating_Ok l dev out : DropDeviating l dev = Ok out ->
  (out = l /\ (forall mid, Median l = Ok mid -> mid <= 0)) \/
  (exists mid band, Median l = Ok mid /\ 0 < mid /\ nearest band (mid * dev) dec_one /\
     out = filter (fun p => Z.abs (p - mid) <= band) l).
Proof.
  unfold DropDeviating. case_bool_decide as E0.
  - intros [= <-]. left. split; [done|]. destruct l; done.
  - destruct (Median l) as [mid| |] eqn:Em; try done; [|by intros [= <-]; left].
    destruct (Z.ltb_spec 0 mid); cbn [negb].
    + intros (band & Eb & Ek)%res_bind_Ok. right. exists mid, band.
      split_and!; [done|done|by apply dec_mul_nearest|by apply keep_close_filter].
    + intros [= <-]. left. split; [done|]. intros ? [= <-]. done.
Qed.

Lemma DropDeviating_subset l dev out : DropDeviating l dev = Ok out -> forall p, p ∈ out -> p ∈ l.
Proof.
  intros [[-> _]|(mid & band & _ & _ & _ & ->)]%DropDeviating_Ok; [done|].
  intros p [_ ?]%list_elem_of_filter. done.
Qed.

(** A median that is published is one of at least [minProviders] sources, drawn
    from those fetched, and lies between the lowest and the highest of them. *)
Lemma CrossSourceMedian_Ok l dev k m : CrossSourceMedian l dev k = Ok m ->
  exists kept, DropDeviating l dev = Ok kept /\ k <= Z.of_nat (length kept) /\ Median kept = Ok m.
Proof.
  unfold CrossSourceMedian. destruct (Z.ltb_spec (Z.of_nat (length l)) k); [done|].
  intros (kept & Ek & E)%res_bind_Ok. destruct (Z.ltb_spec (Z.of_nat (length kept)) k); [done|].
  eauto.
Qed.

Lemma CrossSourceMedian_within l dev k m lo hi : CrossSourceMedian l dev k = Ok m ->
  (forall p, p ∈ l -> lo <= p <= hi) -> lo <= m <= hi.
Proof.
  intros (kept & Ek & _ & Em)%CrossSourceMedian_Ok HF.
  eapply Median_within; [exact Em|]. intros p Hp. apply HF. by eapply DropDeviating_subset.
Qed.

Lemma CrossSourceMedian_few l dev k : Z.of_nat (length l) < k ->
  CrossSourceMedian l dev k = Err ErrInsufficientSources.
Proof. intros H. unfold CrossSourceMedian. by rewrite (proj2 (Z.ltb_lt _ _) H). Qed.




End DropLemmas.


(** The two boundary rules of the policy: the average of the middle prices for an
    even count, and the minimum that is required again after the filter. *)
Lemma aggregate_examples :
  Median [40; 10; 31; 20] = Ok 25 /\
  CrossSourceMedian [100; 200] (10 ^ 17) 2 = Err ErrInsufficientSources /\
  CrossSourceMedian [100; 104; 900] (10 ^ 17) 2 = Ok 102.
Proof. split_and!; vm_compute; reflexivity. Qed.

(** ** The cache *)

Lemma Fresh_Set pair p t maxAge now c :
  Fresh pair maxAge now (Cache_Set pair p t c) =
  if maxAge <? time_sub now t then None else Some (Some p).
Proof. unfold Fresh, Cache_Set. by rewrite lookup_insert_eq. Qed.

Lemma Fresh_MarkUnhealthy pair maxAge now c : Fresh pair maxAge now (MarkUnhealthy pair c) = None.
Proof. unfold Fresh, MarkUnhealthy. by rewrite lookup_insert_eq. Qed.

(** Marking keeps "any prior value". *)
Lemma MarkUnhealthy_keeps pair c e : c !! pair = Some e ->
  MarkUnhealthy pair c !! pair = Some (mkCacheEntry (price e) (at_ e) false).
Proof. intros E. unfold MarkUnhealthy. by rewrite E, lookup_insert_eq. Qed.

Lemma Fresh_other pair q p t maxAge now c : pair <> q ->
  Fresh pair maxAge now (Cache_Set q p t c) = Fresh pair maxAge now c /\
  Fresh pair maxAge now (MarkUnhealthy q c) = Fresh pair maxAge now c.
Proof. intros Hne. unfold Fresh, Cache_Set, MarkUnhealthy. by rewrite !lookup_insert_ne. Qed.

Lemma Fresh_Some pair maxAge now c v : Fresh pair maxAge now c = Some v ->
  exists e, c !! pair = Some e /\ healthy e = true /\ time_sub now (at_ e) <= maxAge /\ v = price e.
Proof.
  unfold Fresh. destruct (c !! pair) as [e|]; [|done].
  destruct (healthy e) eqn:Eh; cbn [negb]; [|done].
  destruct (Z.ltb_spec maxAge (time_sub now (at_ e))); [done|].
  intros [= <-]. eauto.
Qed.
