(* ===== verification/FeederConfig.v ===== *)
(** * vertix-feeder: price providers and configuration

    feeder/feeder/provider (the provider interface, its registry and the three
    adapters) and feeder/feeder/config.go. What the adapters call over the
    network is a parameter ([Http]); so are the parsers of third-party formats
    ([CoinParser]). A [float64] is a [spec_float]. *)

From Stdlib Require Import Floats.SpecFloat.
From S2P Require Import Prelude Sdk SdkRef.

Open Scope Z_scope.

(** ** The outside world of the adapters *)

(** [E] is the state of the network. [Do] answers a request with its status code
    and body; the decoders read the two JSON shapes the adapters expect. *)
Class Http (E : Type) : Type := {
  NewRequest : string -> res unit;
  Do : string -> M E (Z * bytes);
  DecodePrice : bytes -> res string;
  DecodePriceMap : bytes -> res (gmap string (gmap string spec_float));
  QueryEscape : string -> string;
  FormatFloat : spec_float -> string
}.

(** [sdk.ParseCoinsNormalized]. *)
Class CoinParser : Type := { ParseCoinsNormalized : string -> res coins }.

(** ** provider/provider.go *)

Record PriceProvider (E : Type) : Type := mkPriceProvider {
  Name : string;
  Fetch : string -> M E Z
}.
Arguments mkPriceProvider {_} _ _.
Arguments Name {_} _.
Arguments Fetch {_} _ _.

Record Options : Type := mkOptions { o_StaticPrices : gmap string string }.

Definition Constructor (E : Type) : Type := Options -> res (PriceProvider E).

Abbreviation Registry E := (gmap string (Constructor E)).

Definition Register {E} (name : string) (c : Constructor E) (registry : Registry E) : Registry E :=
  <[name := c]> registry.

Fixpoint Build {E} (registry : Registry E) (names : list string) (opts : Options) :
    res (list (PriceProvider E)) :=
  match names with
  | [] => Ok []
  | n :: names =>
      match registry !! n with
      | None => Err (Errorf "unknown provider")
      | Some c =>
          p ← wrap_err (Errorf "init provider") (c opts);
          out ← Build registry names opts;
          Ok (p :: out)
      end
  end.

Section Providers.
Context {SM : SdkMath} {E : Type} {HT : Http E}.

(** ** provider/static.go *)

Definition static_Fetch (prices : gmap string Z) (symbol : string) : M E Z :=
  match prices !! symbol with
  | None => throw (Errorf "static: no price for symbol")
  | Some d => mret d
  end.

Definition staticProvider (prices : gmap string Z) : PriceProvider E :=
  mkPriceProvider "static" (static_Fetch prices).

(** The constructor registered by [init]: the prices are parsed one by one (in
    the order of a Go map, on which only the error message depends). *)
Definition parse_static (prices : gmap string string) : res (gmap string Z) :=
  rfold (map_to_list prices) ∅ (fun parsed '(sym, s) =>
    d ← wrap_err (Errorf "static price") (LegacyNewDecFromStr s);
    Ok (<[sym := d]> parsed)).

Definition init_static (opts : Options) : res (PriceProvider E) :=
  parsed ← parse_static (o_StaticPrices opts);
  Ok (staticProvider parsed).

(** ** provider/binance.go *)

Definition binanceBase : string := "https://api.binance.com".

Definition binance_Fetch (base symbol : string) : M E Z :=
  let u := base +:+ "/api/v3/ticker/price?symbol=" +:+ QueryEscape symbol in
  _ ← lift (NewRequest u);
  resp ← Do u;
  if negb (resp.1 =? 200) then throw (Errorf "binance: status") else
  body ← lift (wrap_err (Errorf "binance: decode") (DecodePrice resp.2));
  if bool_decide (body = ""%string) then throw (Errorf "binance: empty price") else
  lift (LegacyNewDecFromStr body).

Definition newBinance (base : string) : PriceProvider E :=
  mkPriceProvider "binance" (binance_Fetch base).

Definition init_binance (_ : Options) : res (PriceProvider E) := Ok (newBinance binanceBase).

(** ** provider/coingecko.go *)

Definition coinGeckoBase : string := "https://api.coingecko.com".

Definition coinGecko_Fetch (base symbol : string) : M E Z :=
  let u := base +:+ "/api/v3/simple/price?ids=" +:+ QueryEscape symbol +:+ "&vs_currencies=usd" in
  _ ← lift (NewRequest u);
  resp ← Do u;
  if negb (resp.1 =? 200) then throw (Errorf "coingecko: status") else
  body ← lift (wrap_err (Errorf "coingecko: decode") (DecodePriceMap resp.2));
  match body !! symbol with
  | None => throw (Errorf "coingecko: no entry")
  | Some entry =>
      match entry !! "usd"%string with
      | None => throw (Errorf "coingecko: no usd price")
      | Some usd =>
          price ← lift (wrap_err (Errorf "coingecko: parse price")
                          (LegacyNewDecFromStr (FormatFloat usd)));
          if negb (0 <? price) then throw (Errorf "coingecko: non-positive usd price")
          else mret price
      end
  end.

Definition newCoinGecko (base : string) : PriceProvider E :=
  mkPriceProvider "coingecko" (coinGecko_Fetch base).

Definition init_coingecko (_ : Options) : res (PriceProvider E) := Ok (newCoinGecko coinGeckoBase).

(** The registry after the [init] functions of the package. *)
Definition registry : Registry E :=
  Register "static" init_static (Register "coingecko" init_coingecko (Register "binance" init_binance ∅)).

End Providers.

(** ** config.go *)

(** [pairRegex]: [^[A-Z0-9]+:[A-Z0-9]+$]. *)
Definition pairRegex (s : string) : bool :=
  match split_at ":"%byte (bytes_of s) with
  | (l, Some r) => pair_part l && pair_part r
  | (_, None) => false
  end.

Record PairConfig : Type := mkPairConfig { Pair : string; Symbols : gmap string string }.

Record QualityConfig : Type := mkQualityConfig {
  MinProviders : Z; MaxDeviation : string; MaxQuoteAge : Z
}.

(** The fields of the configuration that the modelled code reads. *)
Record Config : Type := mkConfig {
  ChainID : string;
  NodeGRPC : string;
  Validator : string;
  KeyName : string;
  KeyringBackend : string;
  KeyringDir : string;
  Fees : string;
  Gas : string;
  GasAdjustment : spec_float;
  FeedInterval : Z;
  SubmitPoll : Z;
  c_VoteWindow : Z;
  BroadcastRetry : Z;
  Quality : QualityConfig;
  Providers : list string;
  StaticPrices : gmap string string;
  Pairs : list PairConfig
}.

Definition providerEnabled (c : Config) (name : string) : bool :=
  existsb (fun p => bool_decide (p = name)) (Providers c).

(** The constant 1 as a [float64]. *)
Definition float_one : spec_float := S754_finite false 4503599627370496 (-52).

Definition ErrConfig (msg : string) : error := Errorf msg.

Section Validate.
Context {SM : SdkMath} {BE : Bech32} {CP : CoinParser}.

(** One iteration of the loop over the pairs. *)
Definition validate_pair (c : Config) (pc : PairConfig) : res unit :=
  if negb (pairRegex (Pair pc)) then Err (ErrConfig "pair must be BASE:QUOTE uppercase") else
  let hasEnabled := existsb (fun '(prov, _) => providerEnabled c prov) (map_to_list (Symbols pc)) in
  if negb hasEnabled then Err (ErrConfig "pair has no symbol for an enabled provider") else
  match Symbols pc !! "static"%string with
  | Some sym =>
      if providerEnabled c "static" then
        match StaticPrices c !! sym with
        | None => Err (ErrConfig "static provider enabled but no static_prices entry")
        | Some ps =>
            match LegacyNewDecFromStr ps with
            | Panic => Panic
            | Err _ => Err (ErrConfig "static_prices must be a positive decimal")
            | Ok p => if negb (0 <? p) then Err (ErrConfig "static_prices must be a positive decimal")
                      else Ok tt
            end
        end
      else Ok tt
  | None => Ok tt
  end.

Definition validate_gas (c : Config) : res unit :=
  if bool_decide (Gas c <> "auto"%string) then
    match NewIntFromString (Gas c) with
    | None => Err (ErrConfig "gas must be auto or a positive integer")
    | Some gas => if negb (0 <? gas) then Err (ErrConfig "gas must be auto or a positive integer") else Ok tt
    end
  else if SFleb (GasAdjustment c) float_one then Err (ErrConfig "gas_adjustment must be > 1 when gas is auto")
  else Ok tt.

Definition validate_deviation (c : Config) : res unit :=
  let e := ErrConfig "quality.max_deviation must be a decimal in (0, 1]" in
  match LegacyNewDecFromStr (MaxDeviation (Quality c)) with
  | Panic => Panic
  | Err _ => Err e
  | Ok dev => if negb (0 <? dev) || (LegacyOneDec <? dev) then Err e else Ok tt
  end.

Definition Config_Validate (c : Config) : res unit :=
  if bool_decide (ChainID c = ""%string) || bool_decide (NodeGRPC c = ""%string) || bool_decide (KeyName c = ""%string)
  then Err (ErrConfig "chain_id, node_grpc, and key_name are required") else
  _ ← wrap_err (ErrConfig "validator must be a vtxvaloper address") (ValAddressFromBech32 (Validator c));
  if (FeedInterval c <=? 0) || (SubmitPoll c <=? 0) || (MaxQuoteAge (Quality c) <=? 0)
  then Err (ErrConfig "intervals must be positive") else
  if MinProviders (Quality c) <? 1 then Err (ErrConfig "quality.min_providers must be >= 1") else
  _ ← validate_deviation c;
  _ ← wrap_err (ErrConfig "fees must be valid coins") (ParseCoinsNormalized (Fees c));
  _ ← validate_gas c;
  if bool_decide (length (Pairs c) = 0%nat) then Err (ErrConfig "at least one pair is required") else
  rfold (Pairs c) tt (fun _ pc => validate_pair c pc).

End Validate.

(** ** What a validated configuration guarantees *)

(** What config.go asks of a configuration. *)
Definition pair_ok {SM : SdkMath} (c : Config) (pc : PairConfig) : Prop :=
  pairRegex (Pair pc) = true /\
  (exists prov sym, Symbols pc !! prov = Some sym /\ prov ∈ Providers c) /\
  (forall sym, Symbols pc !! "static"%string = Some sym -> "static"%string ∈ Providers c ->
     exists ps p, StaticPrices c !! sym = Some ps /\ LegacyNewDecFromStr ps = Ok p /\ 0 < p).

Definition gas_ok {SM : SdkMath} (c : Config) : Prop :=
  (Gas c <> "auto"%string /\ exists g, NewIntFromString (Gas c) = Some g /\ 0 < g) \/
  (Gas c = "auto"%string /\ SFleb (GasAdjustment c) float_one = false).

Definition deviation_ok {SM : SdkMath} (c : Config) : Prop :=
  exists dev, LegacyNewDecFromStr (MaxDeviation (Quality c)) = Ok dev /\ 0 < dev <= dec_one.

Definition config_ok {SM : SdkMath} {BE : Bech32} {CP : CoinParser} (c : Config) : Prop :=
  (ChainID c <> ""%string /\ NodeGRPC c <> ""%string /\ KeyName c <> ""%string) /\
  is_ok (ValAddressFromBech32 (Validator c)) = true /\
  (0 < FeedInterval c /\ 0 < SubmitPoll c /\ 0 < MaxQuoteAge (Quality c)) /\
  1 <= MinProviders (Quality c) /\ deviation_ok c /\
  is_ok (ParseCoinsNormalized (Fees c)) = true /\ gas_ok c /\
  Pairs c <> [] /\ Forall (pair_ok c) (Pairs c).

Lemma providerEnabled_spec c n : providerEnabled c n = true <-> n ∈ Providers c.
Proof.
  unfold providerEnabled. rewrite existsb_exists. setoid_rewrite bool_decide_eq_true.
  setoid_rewrite <- list_elem_of_In. naive_solver.
Qed.

Lemma hasEnabled_spec c pc :
  existsb (fun '(prov, _) => providerEnabled c prov) (map_to_list (Symbols pc)) = true <->
  exists prov sym, Symbols pc !! prov = Some sym /\ prov ∈ Providers c.
Proof.
  rewrite existsb_exists. split.
  - intros ([prov sym] & Hin & Hp). exists prov, sym.
    by rewrite <- elem_of_map_to_list, list_elem_of_In, <- providerEnabled_spec.
  - intros (prov & sym & Hl & Hp). exists (prov, sym).
    by rewrite <- list_elem_of_In, elem_of_map_to_list, providerEnabled_spec.
Qed.

Lemma seq_Ok {A} (m : res A) (k : res unit) :
  (_ ← m; k) = Ok tt <-> is_ok m = true /\ k = Ok tt.
Proof. destruct m; cbn; naive_solver. Qed.

Lemma is_ok_wrap {A} e (r : res A) : is_ok (wrap_err e r) = is_ok r.
Proof. by destruct r. Qed.

Lemma is_ok_unit (r : res unit) : is_ok r = true <-> r = Ok tt.
Proof. destruct r as [[]| |]; cbn; naive_solver. Qed.

Lemma if_err_Ok {A} (b : bool) e (k : res A) a : (if b then Err e else k) = Ok a <-> b = false /\ k = Ok a.
Proof. destruct b; naive_solver. Qed.

Lemma rfold_unit_Ok {A} (l : list A) (f : A -> res unit) :
  rfold l tt (fun _ => f) = Ok tt <-> Forall (fun x => f x = Ok tt) l.
Proof.
  induction l as [|x l IH]; cbn [rfold]; [by rewrite Forall_nil|].
  rewrite Forall_cons, <- IH. destruct (f x) as [[]| |]; cbn; naive_solver.
Qed.

Section ConfigOk.
Context {SM : SdkMath} {BE : Bech32} {CP : CoinParser}.

Lemma validate_pair_Ok c pc : validate_pair c pc = Ok tt <-> pair_ok c pc.
Proof.
  unfold validate_pair, pair_ok. rewrite !if_err_Ok, !negb_false_iff, hasEnabled_spec.
  apply and_iff_compat_l, and_iff_compat_l.
  destruct (Symbols pc !! "static"%string) as [sym|]; [|split; [by intros _ ? [=]|done]].
  destruct (providerEnabled c "static") eqn:Ep.
  - apply providerEnabled_spec in Ep. split.
    + destruct (StaticPrices c !! sym) as [ps|] eqn:Es; [|done].
      destruct (LegacyNewDecFromStr ps) as [p| |] eqn:El; try done.
      rewrite if_err_Ok, negb_false_iff, Z.ltb_lt. intros [Hp _] ? [= <-] _. by exists ps, p.
    + intros H. destruct (H sym eq_refl Ep) as (ps & p & -> & -> & Hp).
      by rewrite if_err_Ok, negb_false_iff, Z.ltb_lt.
  - assert ("static"%string ∉ Providers c) by (rewrite <- providerEnabled_spec; congruence).
    split; [by intros _ ? ? ?|done].
Qed.

Lemma validate_gas_Ok c : validate_gas c = Ok tt <-> gas_ok c.
Proof.
  unfold validate_gas, gas_ok. case_bool_decide.
  - destruct (NewIntFromString (Gas c)) as [g|]; [|naive_solver].
    rewrite if_err_Ok, negb_false_iff, Z.ltb_lt. naive_solver.
  - rewrite if_err_Ok. naive_solver.
Qed.

Lemma validate_deviation_Ok c : validate_deviation c = Ok tt <-> deviation_ok c.
Proof.
  unfold validate_deviation, deviation_ok.
  destruct (LegacyNewDecFromStr _) as [d| |]; [|naive_solver..].
  rewrite if_err_Ok, orb_false_iff, negb_false_iff, Z.ltb_lt, Z.ltb_ge. unfold LegacyOneDec.
  naive_solver.
Qed.

Lemma Config_Validate_Ok c : Config_Validate c = Ok tt <-> config_ok c.
Proof.
  unfold Config_Validate, config_ok.
  rewrite !if_err_Ok, !seq_Ok, !if_err_Ok, !seq_Ok, !if_err_Ok, rfold_unit_Ok, !is_ok_wrap, !is_ok_unit.
  rewrite validate_gas_Ok, validate_deviation_Ok, !orb_false_iff, !Z.leb_gt, Z.ltb_ge,
    !bool_decide_eq_false, length_zero_iff_nil.
  setoid_rewrite validate_pair_Ok. tauto.
Qed.

End ConfigOk.

(** ** The providers of a configuration *)

Section Sources.
Context {SM : SdkMath} {SML : SdkMathLaws} {E : Type} {HT : Http E}.

Lemma parse_static_Ok prices parsed sym s d : parse_static prices = Ok parsed ->
  prices !! sym = Some s -> LegacyNewDecFromStr s = Ok d -> parsed !! sym = Some d.
Proof.
  unfold parse_static. intros Hr Hs Hd.
  pose proof (NoDup_fst_map_to_list prices) as Hnd.
  apply elem_of_map_to_list in Hs. revert Hnd Hs Hr. generalize (map_to_list prices) as l.
  intros l. set (body := fun parsed '(sym, s) => _).
  assert (forall l (acc out : gmap string Z), rfold l acc body = Ok out -> sym ∉ l.*1 -> out !! sym = acc !! sym) as Hk.
  { clear l. induction l as [|[y t] l IH]; cbn [rfold]; intros acc out Hr Hn; [by injection Hr as <-|].
    apply res_bind_Ok in Hr as (acc' & Hb & Hr). unfold body in Hb.
    apply res_bind_Ok in Hb as (dy & _ & [= <-]).
    rewrite (IH _ _ Hr) by set_solver. apply lookup_insert_ne. set_solver. }
  generalize (∅ : gmap string Z) as acc. induction l as [|[y t] l IH]; intros acc Hnd Hin Hr; [by apply elem_of_nil in Hin|].
  cbn [rfold] in Hr. apply res_bind_Ok in Hr as (acc' & Hb & Hr).
  apply NoDup_cons in Hnd as [Hy Hnd]. apply elem_of_cons in Hin as [[= <- <-]|Hin]; [|by eapply IH].
  rewrite (Hk _ _ _ Hr Hy). unfold body in Hb. rewrite Hd in Hb. cbn in Hb. injection Hb as <-.
  by rewrite lookup_insert_eq.
Qed.

(** The registered constructors give the provider of their name. *)
Lemma registry_Name n c opts (p : PriceProvider E) :
  registry !! n = Some c -> c opts = Ok p -> Name p = n.
Proof.
  unfold registry, Register. rewrite !lookup_insert_Some, lookup_empty.
  intros [[<- <-]|[_ [[<- <-]|[_ [[<- <-]|[_ [=]]]]]]]; intros Hc; [|by injection Hc as <-..].
  unfold init_static in Hc. apply res_bind_Ok in Hc as (? & _ & [= <-]). done.
Qed.

Lemma Build_In names opts (provs : list (PriceProvider E)) n :
  Build registry names opts = Ok provs -> n ∈ names ->
  exists c p, registry !! n = Some c /\ c opts = Ok p /\ p ∈ provs.
Proof.
  revert provs; induction names as [|m names IH]; cbn [Build]; intros provs Hb Hn; [by apply elem_of_nil in Hn|].
  destruct (registry !! m) as [c|] eqn:Ec; [|done].
  apply res_bind_Ok in Hb as (p & Hp & Hb). apply wrap_err_Ok in Hp.
  apply res_bind_Ok in Hb as (out & Ho & [= <-]).
  apply elem_of_cons in Hn as [->|Hn]; [exists c, p; set_solver|].
  destruct (IH _ Ho Hn) as (c' & p' & ? & ? & ?). exists c', p'. set_solver.
Qed.

(** A name that [Build] accepts: one of the registered providers, the static one
    with prices that all parse (those no pair uses, too). *)
Definition buildable (prices : gmap string string) (n : string) : Prop :=
  n = "binance"%string \/ n = "coingecko"%string \/
  (n = "static"%string /\ map_Forall (fun _ s => is_ok (LegacyNewDecFromStr s) = true) prices).

Lemma is_ok_spec {A} (r : res A) : is_ok r = true <-> exists a, r = Ok a.
Proof. destruct r; cbn; naive_solver. Qed.

Lemma parse_static_total prices : is_ok (parse_static prices) = true <->
  map_Forall (fun _ s => is_ok (LegacyNewDecFromStr s) = true) prices.
Proof.
  unfold parse_static. rewrite map_Forall_to_list. generalize (∅ : gmap string Z) as acc.
  induction (map_to_list prices) as [|[sym s] l IH]; intros acc; cbn [rfold]; [by rewrite Forall_nil|].
  rewrite Forall_cons. cbn [uncurry]. destruct (LegacyNewDecFromStr s) as [d| |]; cbn [wrap_err mbind res_bind].
  - rewrite IH. cbn [is_ok]. naive_solver.
  - cbn [is_ok]. by split; [|intros []].
  - cbn [is_ok]. by split; [|intros []].
Qed.

Lemma registry_buildable n prices :
  (exists (k : Constructor E) p, registry !! n = Some k /\ k (mkOptions prices) = Ok p) <-> buildable prices n.
Proof.
  unfold registry, Register, buildable. split.
  - intros (k & p & Hk & Hp). rewrite !lookup_insert_Some, lookup_empty in Hk.
    destruct Hk as [[<- <-]|[_ [[<- <-]|[_ [[<- <-]|[_ [=]]]]]]]; [|by auto..].
    right; right. split; [done|]. unfold init_static in Hp.
    apply res_bind_Ok in Hp as (m & Hm & _). apply parse_static_total. cbn [o_StaticPrices] in Hm.
    by rewrite Hm.
  - intros [->|[->|[-> Hs]]].
    + exists init_binance. eexists. split; [|reflexivity]. by rewrite 2!lookup_insert_ne, lookup_insert_eq.
    + exists init_coingecko. eexists. split; [|reflexivity]. by rewrite lookup_insert_ne, lookup_insert_eq.
    + apply parse_static_total, is_ok_spec in Hs as [m Hm]. exists init_static, (staticProvider m).
      split; [by rewrite lookup_insert_eq|]. unfold init_static. cbn [o_StaticPrices]. by rewrite Hm.
Qed.

Lemma Build_cons n names opts (k : Constructor E) : registry !! n = Some k ->
  Build registry (n :: names) opts =
  (p ← wrap_err (Errorf "init provider") (k opts); out ← Build registry names opts; Ok (p :: out)).
Proof. intros Hk. cbn [Build]. destruct (registry !! n); by simplify_eq. Qed.

Lemma Build_total names prices :
  (exists provs : list (PriceProvider E), Build registry names (mkOptions prices) = Ok provs) <->
  Forall (buildable prices) names.
Proof.
  split.
  - intros [provs Hb]. apply Forall_forall. intros n Hn. apply registry_buildable.
    destruct (Build_In _ _ _ _ Hb Hn) as (k & p & Hk & Hp & _). eauto.
  - induction 1 as [|n names Hn HF [provs IH]]; [by eexists|].
    apply registry_buildable in Hn as (k & p & Hk & Hp).
    rewrite (Build_cons _ _ _ _ Hk), Hp, IH. by eexists.
Qed.

(** C40: What a configuration that passes Validate gives: its providers are built
    exactly when each of them is one of the three registered names, the static one
    only if all the static prices parse (Validate checks neither); and when they
    are built every pair has a source: an instantiated provider for which the pair
    has a symbol, and if that provider is the static one, its Fetch of the symbol
    returns a positive price without touching the network. *)
Theorem Config_Validate_sources {BE : Bech32} {CP : CoinParser} c :
  Config_Validate c = Ok tt ->
  ((exists provs : list (PriceProvider E),
      Build registry (Providers c) (mkOptions (StaticPrices c)) = Ok provs) <->
    Forall (buildable (StaticPrices c)) (Providers c)) /\
  forall provs : list (PriceProvider E),
    Build registry (Providers c) (mkOptions (StaticPrices c)) = Ok provs ->
    Forall (fun pc => exists prov sym, prov ∈ provs /\ Symbols pc !! Name prov = Some sym /\
      (Name prov = "static"%string -> exists p, 0 < p /\ forall e, Fetch prov sym e = (e, Ok p))) (Pairs c).
Proof.
  intros (_ & _ & _ & _ & _ & _ & _ & _ & HF)%Config_Validate_Ok. split; [apply Build_total|].
  intros provs Hb. eapply Forall_impl; [exact HF|]. intros pc (_ & (n & sym & Hsym & Hen) & Hst).
  destruct (Build_In _ _ _ _ Hb Hen) as (k & prov & Hk & Hp & Hin).
  pose proof (registry_Name _ _ _ _ Hk Hp) as Hname. exists prov, sym. rewrite Hname.
  split_and!; [done..|]. intros ->.
  destruct (Hst sym Hsym Hen) as (ps & p & Hps & Hdec & Hpos). exists p. split; [done|]. intros e.
  unfold registry, Register in Hk. rewrite lookup_insert_eq in Hk. injection Hk as <-.
  unfold init_static in Hp. apply res_bind_Ok in Hp as (parsed & Hparsed & [= <-]).
  cbn [Fetch staticProvider]. unfold static_Fetch. cbn [o_StaticPrices] in Hparsed.
  by rewrite (parse_static_Ok _ _ _ _ _ Hparsed Hps Hdec).
Qed.

End Sources.
