(* ===== verification/FeederLoop.v ===== *)
(** * vertix-feeder: the loops and the broadcaster

    feeder/feeder/metrics.go, priceloop.go, submitloop.go, broadcaster.go and
    feeder.go. The two loops run concurrently and share the cache and the
    metrics, whose operations are atomic (a mutex, Prometheus' own atomics);
    [FeederSafety] interleaves them. The Broadcaster interface is a class; the
    gRPC broadcaster is one instance, over a parameter [NodeClient] for the
    node, the keyring and the transaction builder. *)

From Stdlib Require Import Floats.SpecFloat.
From S2P Require Import Prelude Sdk SdkRef OracleTypes FeederAgg FeederConfig.

Open Scope Z_scope.

(** A call whose error the caller inspects. *)
Definition attempt {S A} (m : M S A) : M S (A + error) := fun s =>
  match m s with
  | (s', Ok a) => (s', Ok (inl a))
  | (s', Err e) => (s', Ok (inr e))
  | (s', Panic) => (s', Panic)
  end.

(** ** metrics.go *)

(** The counters and gauges by label values; the latency histogram as the
    observations it was given, in milliseconds. *)
Record Metrics : Type := mkMetrics {
  FeedsSubmitted : gmap string Z;
  FeedsFailed : gmap (string * string) Z;
  ProviderLatency : list (string * string * Z);
  ProviderErrors : gmap string Z;
  LastSubmit : gmap string Z
}.

Definition NewMetrics : Metrics := mkMetrics ∅ ∅ [] ∅ ∅.

(** [CounterVec.WithLabelValues(l).Inc()]. *)
Definition Inc {K} `{Countable K} (l : K) (m : gmap K Z) : gmap K Z :=
  <[l := default 0 (m !! l) + 1]> m.

Definition Millisecond : Z := 1000000.

Definition ObserveLatency (provider pair : string) (d : Z) (m : Metrics) : Metrics :=
  mkMetrics (FeedsSubmitted m) (FeedsFailed m)
    (ProviderLatency m ++ [(provider, pair, Z.quot d Millisecond)]) (ProviderErrors m) (LastSubmit m).

Definition inc_FeedsSubmitted (pair : string) (m : Metrics) : Metrics :=
  mkMetrics (Inc pair (FeedsSubmitted m)) (FeedsFailed m) (ProviderLatency m) (ProviderErrors m) (LastSubmit m).

Definition inc_FeedsFailed (pair reason : string) (m : Metrics) : Metrics :=
  mkMetrics (FeedsSubmitted m) (Inc (pair, reason) (FeedsFailed m)) (ProviderLatency m) (ProviderErrors m) (LastSubmit m).

Definition inc_ProviderErrors (prov : string) (m : Metrics) : Metrics :=
  mkMetrics (FeedsSubmitted m) (FeedsFailed m) (ProviderLatency m) (Inc prov (ProviderErrors m)) (LastSubmit m).

Definition set_LastSubmit (pair : string) (t : Z) (m : Metrics) : Metrics :=
  mkMetrics (FeedsSubmitted m) (FeedsFailed m) (ProviderLatency m) (ProviderErrors m) (<[pair := t]> (LastSubmit m)).

(** ** broadcaster.go: the interface *)

(** [Price] is [None] for a [LegacyDec{}] with a nil inner pointer. *)
Record FeedSubmission : Type := mkFeedSubmission { fs_Pair : string; fs_Price : option Z }.

(** [B] is the state of the broadcaster and of what it talks to. *)
Class Broadcaster (B : Type) : Type := {
  SubmitFeeds : list FeedSubmission -> M B string
}.

(** [time.Now]. *)
Class Clock (E : Type) : Type := { Now : M E Z }.

(** ** The state of a running feeder *)

Record FeederState (E B : Type) : Type := mkFeederState {
  env : E;
  cache : Cache;
  metrics : Metrics;
  bc : B;
  lastWindow : Z
}.
Arguments mkFeederState {_ _} _ _ _ _ _.
Arguments env {_ _} _.
Arguments cache {_ _} _.
Arguments metrics {_ _} _.
Arguments bc {_ _} _.
Arguments lastWindow {_ _} _.

Section State.
Context {E B : Type}.
Implicit Types (s : FeederState E B).

Definition on_env {A} (m : M E A) : M (FeederState E B) A := fun s =>
  let '(e, r) := m (env s) in (mkFeederState e (cache s) (metrics s) (bc s) (lastWindow s), r).

Definition on_bc {A} (m : M B A) : M (FeederState E B) A := fun s =>
  let '(b, r) := m (bc s) in (mkFeederState (env s) (cache s) (metrics s) b (lastWindow s), r).

Definition on_cache (f : Cache -> Cache) : M (FeederState E B) unit :=
  modify (fun s => mkFeederState (env s) (f (cache s)) (metrics s) (bc s) (lastWindow s)).

Definition on_metrics (f : Metrics -> Metrics) : M (FeederState E B) unit :=
  modify (fun s => mkFeederState (env s) (cache s) (f (metrics s)) (bc s) (lastWindow s)).

Definition set_lastWindow (w : Z) : M (FeederState E B) unit :=
  modify (fun s => mkFeederState (env s) (cache s) (metrics s) (bc s) w).

End State.

(** ** priceloop.go *)

Record PriceLoop (E : Type) : Type := mkPriceLoop {
  pl_pairs : list PairConfig;
  pl_providers : list (PriceProvider E);
  pl_quality : QualityConfig;
  pl_maxDev : Z;
  pl_interval : Z
}.
Arguments mkPriceLoop {_} _ _ _ _ _.
Arguments pl_pairs {_} _.
Arguments pl_providers {_} _.
Arguments pl_quality {_} _.
Arguments pl_maxDev {_} _.
Arguments pl_interval {_} _.

Section PriceLoopOps.
Context {SM : SdkMath} {E B : Type} {CK : Clock E}.
Abbreviation FS := (FeederState E B).

Definition NewPriceLoop (pairs : list PairConfig) (providers : list (PriceProvider E)) (quality : QualityConfig) :
    res (PriceLoop E) :=
  match LegacyNewDecFromStr (MaxDeviation quality) with
  | Panic => Panic
  | Err _ => Ok (mkPriceLoop pairs providers quality (LegacyNewDecWithPrec 10 2) (MaxQuoteAge quality))
  | Ok dev => Ok (mkPriceLoop pairs providers quality dev (MaxQuoteAge quality))
  end.

Definition WithInterval (pl : PriceLoop E) (d : Z) : PriceLoop E :=
  mkPriceLoop (pl_pairs pl) (pl_providers pl) (pl_quality pl) (pl_maxDev pl) d.

(** The body of the loop over the providers. *)
Definition fetch_quote (pc : PairConfig) (quotes : list Z) (prov : PriceProvider E) : M FS (list Z) :=
  match Symbols pc !! Name prov with
  | None => mret quotes
  | Some symbol =>
      start ← on_env Now;
      price ← attempt (on_env (Fetch prov symbol));
      stop ← on_env Now;
      _ ← on_metrics (ObserveLatency (Name prov) (Pair pc) (time_sub stop start));
      match price with
      | inr _ =>
          _ ← on_metrics (inc_ProviderErrors (Name prov));
          mret quotes
      | inl price => mret (quotes ++ [price])
      end
  end.

(** The last part of the body of the loop over the pairs: the median of the
    quotes goes to the cache. *)
Definition record_median (pl : PriceLoop E) (now : Z) (pc : PairConfig) (quotes : list Z) : M FS unit :=
  match CrossSourceMedian quotes (pl_maxDev pl) (MinProviders (pl_quality pl)) with
  | Panic => lift Panic
  | Err _ =>
      _ ← on_cache (MarkUnhealthy (Pair pc));
      on_metrics (inc_FeedsFailed (Pair pc) "insufficient_sources")
  | Ok median => on_cache (Cache_Set (Pair pc) median now)
  end.

Definition tick_pair (pl : PriceLoop E) (now : Z) (pc : PairConfig) : M FS unit :=
  quotes ← mfold (pl_providers pl) [] (fetch_quote pc);
  record_median pl now pc quotes.

Definition tick (pl : PriceLoop E) (now : Z) : M FS unit :=
  mfor (pl_pairs pl) (tick_pair pl now).

(** [Run] until the context is cancelled: a tick at once, then one for each firing
    of the ticker; [times] are the times at which it fires. *)
Definition PriceLoop_Run (pl : PriceLoop E) (now : Z) (times : list Z) : M FS unit :=
  _ ← tick pl now;
  mfor times (tick pl).

End PriceLoopOps.

(** ** submitloop.go *)

Record SubmitLoop : Type := mkSubmitLoop {
  sl_pairs : list PairConfig;
  sl_voteWindow : Z;
  sl_maxQuoteAge : Z;
  sl_poll : Z;
  sl_retries : Z
}.

Definition NewSubmitLoop (pairs : list PairConfig) (voteWindow maxQuoteAge : Z) : SubmitLoop :=
  mkSubmitLoop pairs voteWindow maxQuoteAge Second 3.

(** The value [NewSubmitLoop] gives to [lastWindow]. *)
Definition initial_lastWindow : Z := -1.

Definition Configure (sl : SubmitLoop) (poll retries : Z) : SubmitLoop :=
  mkSubmitLoop (sl_pairs sl) (sl_voteWindow sl) (sl_maxQuoteAge sl) poll retries.

Section SubmitLoopOps.
Context {E B : Type} {BC : Broadcaster B}.
Abbreviation FS := (FeederState E B).

(** The body of the loop that collects the feeds. *)
Definition collect_one (sl : SubmitLoop) (now : Z) (feeds : list FeedSubmission) (pc : PairConfig) :
    M FS (list FeedSubmission) :=
  ask (fun s => Ok match Fresh (Pair pc) (sl_maxQuoteAge sl) now (cache s) with
                   | None => feeds
                   | Some price => feeds ++ [mkFeedSubmission (Pair pc) price]
                   end).

(** [for i := 0; i < attempts; i++] until a broadcast succeeds; the pause between
    two attempts has no effect on the state. [n] is [attempts - i], at least 1. *)
Fixpoint send_attempts (n : nat) (feeds : list FeedSubmission) : M FS (string + error) :=
  r ← attempt (on_bc (SubmitFeeds feeds));
  match r, n with
  | inr _, S (S _ as m) => send_attempts m feeds
  | _, _ => mret r
  end.

Definition attempts (sl : SubmitLoop) : nat :=
  Z.to_nat (if sl_retries sl <? 1 then 1 else sl_retries sl).

(** What follows the attempts. *)
Definition after_send (window now : Z) (feeds : list FeedSubmission) (r : string + error) : M FS unit :=
  match r with
  | inr _ => mfor feeds (fun f => on_metrics (inc_FeedsFailed (fs_Pair f) "broadcast_error"))
  | inl _ =>
      _ ← set_lastWindow window;
      let tsec := Z.div now Second in
      mfor feeds (fun f =>
        _ ← on_metrics (inc_FeedsSubmitted (fs_Pair f));
        on_metrics (set_LastSubmit (fs_Pair f) tsec))
  end.

(** [window := height / sl.voteWindow] when the window is new. *)
Definition due_window (sl : SubmitLoop) (last height : Z) : option Z :=
  if sl_voteWindow sl <=? 0 then None else
  let window := Z.quot height (sl_voteWindow sl) in
  if window =? last then None else Some window.

Definition maybeSubmit (sl : SubmitLoop) (now height : Z) : M FS unit := fun s =>
  match due_window sl (lastWindow s) height with
  | None => (s, Ok tt)
  | Some window =>
      (feeds ← mfold (sl_pairs sl) [] (collect_one sl now);
       if bool_decide (length feeds = 0%nat) then mret tt else
       r ← send_attempts (attempts sl) feeds;
       after_send window now feeds r) s
  end.

(** [Run] until the context is cancelled: a poll for each firing of the ticker,
    skipped when the height query fails; [times] are the times of the polls. *)
Definition poll (sl : SubmitLoop) (heightFn : M B Z) (now : Z) : M FS unit :=
  h ← attempt (on_bc heightFn);
  match h with
  | inr _ => mret tt
  | inl h => maybeSubmit sl now h
  end.

Definition SubmitLoop_Run (sl : SubmitLoop) (heightFn : M B Z) (times : list Z) : M FS unit :=
  mfor times (poll sl heightFn).

End SubmitLoopOps.

(** ** broadcaster.go: the gRPC broadcaster *)

(** [d.String()]: a nil decimal prints as a nil big integer. *)
Definition price_string {SM : SdkMath} (d : option Z) : string :=
  match d with Some d => DecString d | None => "<nil>" end.

Fixpoint buildMsgs {SM : SdkMath} {BE : Bech32} (feeder validator : string) (feeds : list FeedSubmission) :
    res (list MsgSubmitFeed) :=
  match feeds with
  | [] => Ok []
  | f :: feeds =>
      let m := mkMsgSubmitFeed feeder validator (fs_Pair f) (price_string (fs_Price f)) in
      _ ← wrap_err (Errorf "invalid MsgSubmitFeed") (MsgSubmitFeed_ValidateBasic m);
      msgs ← buildMsgs feeder validator feeds;
      Ok (m :: msgs)
  end.

(** The settings of a [clienttx.Factory] that the broadcaster makes. *)
Record Factory : Type := mkFactory {
  tf_ChainID : string;
  tf_AccountNumber : Z;
  tf_Sequence : Z;
  tf_Fees : coins;
  tf_SimulateAndExecute : bool;
  tf_GasAdjustment : option spec_float;
  tf_Gas : Z
}.

(** The response to a broadcast. *)
Record TxResponse : Type := mkTxResponse { Code : Z; TxHash : string }.

(** The node, the keyring and the transaction builder: [N] is their state, [A] an
    account packed as [Any], [T] a transaction under construction. *)
Class NodeClient (N A T : Type) : Type := {
  (** keyring.New, kr.Key, rec.GetAddress; grpc.NewClient; conn.Close *)
  KeyringAddress : string -> string -> string -> M N bytes;
  Dial : string -> M N unit;
  CloseConn : M N unit;
  (** authtypes.QueryClient.Account and UnpackAny: account number and sequence *)
  QueryAccount : string -> M N A;
  UnpackAny : A -> res (Z * Z);
  (** cmtservice: the height of the latest block, when the response has one *)
  GetLatestBlock : M N (option Z);
  (** oracletypes.QueryClient.Params *)
  QueryParams : M N OracleParams;
  (** clienttx *)
  WithFees : string -> res coins;
  BuildUnsignedTx : Factory -> list MsgSubmitFeed -> res T;
  Sign : Factory -> string -> T -> M N T;
  TxEncoder : T -> res bytes;
  (** coins.String() *)
  FeesString : coins -> string;
  (** txtypes.ServiceClient.BroadcastTx, mode SYNC *)
  BroadcastTx : bytes -> M N TxResponse
}.

Record GRPCBroadcaster : Type := mkGRPCBroadcaster {
  g_cfg : Config; feederAddr : string; accNum : Z; seq : Z
}.

(** [i.Uint64()] of a [math.Int]: panics out of range, and on the nil integer that
    a failed [NewIntFromString] returns. *)
Definition Uint64 (i : option Z) : res Z :=
  match i with
  | Some z => if (0 <=? z) && (z <? two64) then Ok z else Panic
  | None => Panic
  end.

Section GRPC.
Context {SM : SdkMath} {BE : Bech32} {CP : CoinParser} {N A T : Type} {NC : NodeClient N A T}.

(** The broadcaster and the node it talks to. *)
Abbreviation G := (GRPCBroadcaster * N)%type.

Definition on_node {R} (m : M N R) : M G R := fun '(b, n) =>
  let '(n', r) := m n in ((b, n'), r).

Definition set_account (num sq : Z) : M G unit := modify (fun '(b, n) =>
  (mkGRPCBroadcaster (g_cfg b) (feederAddr b) num sq, n)).

Definition refreshAccount : M G unit :=
  b ← ask (fun s => Ok s.1);
  res ← on_node (QueryAccount (feederAddr b));
  acc ← lift (UnpackAny res);
  set_account acc.1 acc.2.

Definition LatestHeight : M G Z :=
  res ← on_node GetLatestBlock;
  match res with
  | Some h => mret h
  | None => throw (Errorf "latest block response missing sdk block")
  end.

Definition VoteWindowQuery : M G Z :=
  p ← on_node QueryParams;
  mret (VoteWindow p).

(** The factory of the transaction. A gas limit is only read when the
    configuration is not "auto". *)
Definition tx_factory (cfg : Config) (num sq : Z) : res Factory :=
  let fees := match ParseCoinsNormalized (Fees cfg) with Ok c => Ok c | Err _ => Ok [] | Panic => Panic end in
  fees ← fees;
  let gas := NewIntFromString (Gas cfg) in
  fees ← WithFees (FeesString fees);
  if bool_decide (Gas cfg = "auto"%string)
  then Ok (mkFactory (ChainID cfg) num sq fees true (Some (GasAdjustment cfg)) 0)
  else g ← Uint64 gas; Ok (mkFactory (ChainID cfg) num sq fees false None g).

Definition GRPC_SubmitFeeds (feeds : list FeedSubmission) : M G string :=
  b ← ask (fun s => Ok s.1);
  msgs ← lift (buildMsgs (feederAddr b) (Validator (g_cfg b)) feeds);
  txf ← lift (tx_factory (g_cfg b) (accNum b) (seq b));
  txb ← lift (BuildUnsignedTx txf msgs);
  txb ← on_node (Sign txf (KeyName (g_cfg b)) txb);
  bz ← lift (TxEncoder txb);
  res ← on_node (BroadcastTx bz);
  if negb (Code res =? 0) then
    _ ← attempt refreshAccount;
    throw (Errorf "tx rejected")
  else
    _ ← set_account (accNum b) (u64 (seq b + 1));
    mret (TxHash res).

#[local] Instance GRPC_Broadcaster : Broadcaster G := {| SubmitFeeds := GRPC_SubmitFeeds |}.

(** [NewGRPCBroadcaster]: the result is the broadcaster; [n] the node. *)
Definition NewGRPCBroadcaster (cfg : Config) (n : N) : N * res GRPCBroadcaster :=
  match (addr ← KeyringAddress (KeyringBackend cfg) (KeyringDir cfg) (KeyName cfg);
         _ ← Dial (NodeGRPC cfg); mret addr) n with
  | (n, Ok addr) =>
      match refreshAccount (mkGRPCBroadcaster cfg (AccString addr) 0 0, n) with
      | ((b, n), Ok _) => (n, Ok b)
      | ((_, n), Err _) => (n, Err (Errorf "prime account"))
      | ((_, n), Panic) => (n, Panic)
      end
  | (n, Err e) => (n, Err e)
  | (n, Panic) => (n, Panic)
  end.

(** ** feeder.go *)

Record Feeder (E : Type) : Type := mkFeeder {
  f_cfg : Config; f_priceLoop : PriceLoop E; f_submit : SubmitLoop
}.

(** [NewWithDeps]: the feeder and the state in which its loops start. *)
Definition NewWithDeps {E B : Type} (cfg : Config) (providers : list (PriceProvider E)) (e : E) (b : B)
    (voteWindow : Z) : res (Feeder E * FeederState E B) :=
  pl ← NewPriceLoop (Pairs cfg) providers (Quality cfg);
  let sl := Configure (NewSubmitLoop (Pairs cfg) voteWindow (MaxQuoteAge (Quality cfg)))
              (SubmitPoll cfg) (BroadcastRetry cfg) in
  Ok (mkFeeder E cfg (WithInterval pl (FeedInterval cfg)) sl,
      mkFeederState e NewCache NewMetrics b initial_lastWindow).

(** The vote window: the configuration's, or else the chain's. *)
Definition resolve_voteWindow (cfg : Config) : M G Z :=
  if c_VoteWindow cfg <=? 0 then
    r ← attempt VoteWindowQuery;
    match r with
    | inl vw => mret vw
    | inr e => _ ← attempt (on_node CloseConn); throw e
    end
  else mret (c_VoteWindow cfg).

Definition New {E : Type} {HT : Http E} (cfg : Config) (e : E) (n : N) :
    N * res (Feeder E * FeederState E G) :=
  match Build registry (Providers cfg) (mkOptions (StaticPrices cfg)) with
  | Err err => (n, Err err)
  | Panic => (n, Panic)
  | Ok provs =>
      match NewGRPCBroadcaster cfg n with
      | (n, Err err) => (n, Err err)
      | (n, Panic) => (n, Panic)
      | (n, Ok b) =>
          match resolve_voteWindow cfg (b, n) with
          | ((_, n), Err err) => (n, Err err)
          | ((_, n), Panic) => (n, Panic)
          | ((b, n), Ok vw) => (n, NewWithDeps cfg provs e (b, n) vw)
          end
      end
  end.

End GRPC.
