(* ===== verification/FeederSafety.v ===== *)
(** * vertix-feeder: safety of the two concurrent loops

    The price loop and the submit loop as one transition system: a step is one
    access to what they share (the cache), one broadcast, or one poll, so every
    interleaving of the two goroutines is a sequence of steps. The pieces of the
    steps are those of [FeederLoop.tick] and [FeederLoop.maybeSubmit]
    ([tick_steps] and [maybeSubmit_steps] show that a run of either without
    interference is such a sequence). *)

From S2P Require Import Prelude Sdk SdkRef OracleTypes FeederAgg FeederConfig FeederLoop.

Open Scope Z_scope.

(** Where each goroutine stands. [seen] is the number of samples taken when the
    poll started (no variable of the code: the theorems refer to it). *)
Inductive price_pc : Type :=
| PIdle
| PTick (now : Z) (todo : list PairConfig).

Inductive submit_pc : Type :=
| SIdle
| SCollect (window now : Z) (seen : nat) (todo : list PairConfig) (feeds : list FeedSubmission)
| SSend (window now : Z) (seen : nat) (feeds : list FeedSubmission) (n : nat).

(** A broadcast of [feeds] for [window] by the poll at [now], and whether it
    succeeded. *)
Record broadcast : Type := mkBroadcast {
  b_window : Z; b_now : Z; b_seen : nat; b_feeds : list FeedSubmission; b_ok : bool
}.

(** The quotes the price loop gathered for a pair in the tick started at a time. *)
Record sample : Type := mkSample { s_pair : string; s_time : Z; s_quotes : list Z }.

Record system (E B : Type) : Type := mkSystem {
  st : FeederState E B;
  ppc : price_pc;
  spc : submit_pc;
  polled : list Z;             (* the heights the node reported, oldest first *)
  samples : list sample;       (* all samples so far, oldest first *)
  sent : list broadcast        (* all broadcasts so far, oldest first *)
}.
Arguments mkSystem {_ _} _ _ _ _ _ _.
Arguments st {_ _} _.
Arguments ppc {_ _} _.
Arguments spc {_ _} _.
Arguments polled {_ _} _.
Arguments samples {_ _} _.
Arguments sent {_ _} _.

(** An invariant of the steps holds in every state they reach. *)
Lemma rtc_preserves {A} {R : A -> A -> Prop} (P : A -> Prop) x y :
  (forall a b, R a b -> P a -> P b) -> P x -> rtc R x y -> P y.
Proof. intros Hs Hx Hr. revert Hx. induction Hr; eauto. Qed.

Section System.
Context {SM : SdkMath} {E B : Type} {CK : Clock E} {BC : Broadcaster B}.
Context (pl : PriceLoop E) (sl : SubmitLoop).
Abbreviation sys := (system E B).
Abbreviation FS := (FeederState E B).

Inductive fstep : sys -> sys -> Prop :=
(** The ticker of the price loop fires. *)
| step_tick s sp h H X now :
    fstep (mkSystem s PIdle sp h H X) (mkSystem s (PTick now (pl_pairs pl)) sp h H X)
(** The price loop fetches the quotes of a pair and updates its entry. *)
| step_pair (s s1 s' : FS) now pc todo sp h H X quotes :
    mfold (pl_providers pl) [] (fetch_quote pc) s = (s1, Ok quotes) ->
    record_median pl now pc quotes s1 = (s', Ok tt) ->
    fstep (mkSystem s (PTick now (pc :: todo)) sp h H X)
          (mkSystem s' (PTick now todo) sp h (H ++ [mkSample (Pair pc) now quotes]) X)
| step_ticked s now sp h H X :
    fstep (mkSystem s (PTick now []) sp h H X) (mkSystem s PIdle sp h H X)
(** The ticker of the submit loop fires and the node reports any height. *)
| step_poll_due s pp h h' H X now w :
    due_window sl (lastWindow s) h' = Some w ->
    fstep (mkSystem s pp SIdle h H X)
          (mkSystem s pp (SCollect w now (length H) (sl_pairs sl) []) (h ++ [h']) H X)
| step_poll_not_due s pp h h' H X :
    due_window sl (lastWindow s) h' = None ->
    fstep (mkSystem s pp SIdle h H X) (mkSystem s pp SIdle (h ++ [h']) H X)
(** The submit loop reads the entry of a pair. *)
| step_collect (s s' : FS) pp w now k pc todo feeds feeds' h H X :
    collect_one sl now feeds pc s = (s', Ok feeds') ->
    fstep (mkSystem s pp (SCollect w now k (pc :: todo) feeds) h H X)
          (mkSystem s' pp (SCollect w now k todo feeds') h H X)
| step_nothing s pp w now k h H X :
    fstep (mkSystem s pp (SCollect w now k [] []) h H X) (mkSystem s pp SIdle h H X)
| step_ready s pp w now k feeds h H X : feeds <> [] ->
    fstep (mkSystem s pp (SCollect w now k [] feeds) h H X)
          (mkSystem s pp (SSend w now k feeds (attempts sl)) h H X)
(** A broadcast: accepted; refused with attempts left; refused for good. *)
| step_sent (s s1 s' : FS) pp w now k feeds n h H X hash :
    on_bc (SubmitFeeds feeds) s = (s1, Ok hash) ->
    after_send w now feeds (inl hash) s1 = (s', Ok tt) ->
    fstep (mkSystem s pp (SSend w now k feeds n) h H X)
          (mkSystem s' pp SIdle h H (X ++ [mkBroadcast w now k feeds true]))
| step_retry (s s' : FS) pp w now k feeds n h H X e : (1 <= n)%nat ->
    on_bc (SubmitFeeds feeds) s = (s', Err e) ->
    fstep (mkSystem s pp (SSend w now k feeds (S n)) h H X)
          (mkSystem s' pp (SSend w now k feeds n) h H (X ++ [mkBroadcast w now k feeds false]))
| step_failed (s s1 s' : FS) pp w now k feeds n h H X e : (n <= 1)%nat ->
    on_bc (SubmitFeeds feeds) s = (s1, Err e) ->
    after_send w now feeds (inr e) s1 = (s', Ok tt) ->
    fstep (mkSystem s pp (SSend w now k feeds n) h H X)
          (mkSystem s' pp SIdle h H (X ++ [mkBroadcast w now k feeds false])).

(** The state in which [NewWithDeps] leaves the loops. *)
Definition start (e : E) (b : B) : sys :=
  mkSystem (mkFeederState e NewCache NewMetrics b initial_lastWindow) PIdle SIdle [] [] [].

(** ** What the steps leave alone *)

(** The part of the state the other theorems speak of. *)
Definition kept (s s' : FS) : Prop := cache s' = cache s /\ lastWindow s' = lastWindow s.

Lemma kept_refl s : kept s s.
Proof. done. Qed.

Lemma kept_trans s1 s2 s3 : kept s1 s2 -> kept s2 s3 -> kept s1 s3.
Proof. unfold kept. intuition congruence. Qed.

Lemma on_metrics_kept f s s' (r : res unit) : on_metrics f s = (s', r) -> kept s s' /\ r = Ok tt.
Proof. by intros [= <- <-]. Qed.

Lemma on_bc_kept {A} (m : M B A) (s s' : FS) r : on_bc m s = (s', r) -> kept s s'.
Proof. unfold on_bc. destruct (m (bc s)). by intros [= <- <-]. Qed.

Lemma on_env_kept {A} (m : M E A) (s s' : FS) r : on_env m s = (s', r) -> kept s s'.
Proof. unfold on_env. destruct (m (env s)). by intros [= <- <-]. Qed.

Lemma bind_kept {A C} (m : M FS A) (k : A -> M FS C) s s' r :
  (forall s s' r, m s = (s', r) -> kept s s') ->
  (forall a s s' r, k a s = (s', r) -> kept s s') ->
  (m ≫= k) s = (s', r) -> kept s s'.
Proof.
  intros Hm Hk. rewrite M_bind_run. destruct (m s) as [s1 [a| |]] eqn:E1; intros H.
  - eapply kept_trans; [by eapply Hm|by eapply Hk].
  - injection H as <- <-. by eapply Hm.
  - injection H as <- <-. by eapply Hm.
Qed.

Lemma mret_kept {A} (a : A) (s s' : FS) r : (mret a : M FS A) s = (s', r) -> kept s s'.
Proof. by intros [= <- <-]. Qed.

Lemma attempt_kept {A} (m : M FS A) (s s' : FS) r :
  (forall s s' r, m s = (s', r) -> kept s s') -> attempt m s = (s', r) -> kept s s'.
Proof. unfold attempt. intros Hm. destruct (m s) as [s1 []] eqn:E1; intros [= <- <-]; by eapply Hm. Qed.

Lemma fetch_quote_kept pc quotes prov (s s' : FS) r : fetch_quote pc quotes prov s = (s', r) -> kept s s'.
Proof.
  unfold fetch_quote. case_match; [|apply mret_kept]. revert s s' r. intros s s' r.
  repeat (apply bind_kept; [first [apply on_env_kept | intros ???; apply attempt_kept, on_env_kept
                                 | by intros ??? [= <- <-]]|intros ?; clear s s' r; intros s s' r]).
  case_match; [apply mret_kept|]. apply bind_kept; [by intros ??? [= <- <-]|]. intros ????. apply mret_kept.
Qed.

Lemma fetch_kept pc (s s' : FS) acc provs r : mfold provs acc (fetch_quote pc) s = (s', r) -> kept s s'.
Proof.
  revert acc s s' r; induction provs as [|p provs IH]; cbn [mfold]; intros acc s s' r; [apply mret_kept|].
  apply bind_kept; [apply fetch_quote_kept|]. intros ?. apply IH.
Qed.

Lemma mfor_kept {A} (l : list A) (f : A -> M FS unit) (s s' : FS) r :
  (forall x s s' r, f x s = (s', r) -> kept s s') -> mfor l f s = (s', r) -> kept s s'.
Proof.
  intros Hf. revert s s' r; induction l as [|x l IH]; cbn [mfor]; intros s s' r; [apply mret_kept|].
  apply bind_kept; [apply Hf|]. intros _. apply IH.
Qed.

Lemma after_send_err w now feeds e (s s' : FS) r :
  after_send w now feeds (inr e) s = (s', r) -> kept s s'.
Proof. apply mfor_kept. intros x ???. by intros [= <- <-]. Qed.

Lemma after_send_ok w now feeds hash (s s' : FS) r :
  after_send w now feeds (inl hash) s = (s', r) -> cache s' = cache s /\ lastWindow s' = w.
Proof.
  cbn [after_send]. rewrite M_bind_run. cbn [set_lastWindow modify]. intros H.
  apply mfor_kept in H; [exact H|]. intros x ???. apply bind_kept; [by intros ??? [= <- <-]|by intros ???? [= <- <-]].
Qed.

Lemma record_median_kept now pc quotes (s s' : FS) : record_median pl now pc quotes s = (s', Ok tt) ->
  lastWindow s' = lastWindow s /\
  ((exists p, CrossSourceMedian quotes (pl_maxDev pl) (MinProviders (pl_quality pl)) = Ok p /\
      cache s' = Cache_Set (Pair pc) p now (cache s)) \/
   cache s' = MarkUnhealthy (Pair pc) (cache s)).
Proof.
  unfold record_median. destruct (CrossSourceMedian _ _ _) as [p|e|]; [| |done].
  - intros [= <-]. naive_solver.
  - rewrite M_bind_run. cbn. intros [= <-]. naive_solver.
Qed.

(** ** At most one accepted batch per vote window *)

Definition ok_windows (X : list broadcast) : list Z :=
  b_window <$> filter (fun b => b_ok b = true) X.

Arguments ok_windows : simpl never.

Definition in_flight (sp : submit_pc) : option Z :=
  match sp with SIdle => None | SCollect w _ _ _ _ | SSend w _ _ _ _ => Some w end.

Lemma due_window_Some last h w : due_window sl last h = Some w ->
  0 < sl_voteWindow sl /\ w = Z.quot h (sl_voteWindow sl) /\ w <> last.
Proof.
  unfold due_window. destruct (Z.leb_spec (sl_voteWindow sl) 0); [done|].
  destruct (Z.eqb_spec (Z.quot h (sl_voteWindow sl)) last); [done|]. by intros [= <-].
Qed.

Lemma ok_windows_app X b : ok_windows (X ++ [b]) = ok_windows X ++ (if b_ok b then [b_window b] else []).
Proof.
  unfold ok_windows. rewrite filter_app, fmap_app. f_equal. rewrite filter_cons, filter_nil.
  by destruct (b_ok b).
Qed.

Lemma StronglySorted_snoc (R : Z -> Z -> Prop) (l : list Z) w :
  StronglySorted R (l ++ [w]) <-> StronglySorted R l /\ Forall (fun x => R x w) l.
Proof.
  induction l as [|x l IH]; cbn.
  - split; [by repeat constructor|by repeat constructor].
  - split.
    + intros [HS HF]%StronglySorted_inv. rewrite Forall_app, Forall_singleton in HF.
      destruct HF as [HF Hx]. apply IH in HS as [HS Hw]. split; by constructor.
    + intros [[HS HF]%StronglySorted_inv [Hx Hw]%Forall_cons]. constructor; [by apply IH|].
      apply Forall_app. split; [done|by apply Forall_singleton].
Qed.

Lemma Sorted_snoc (R : Z -> Z -> Prop) (l : list Z) w :
  Sorted R l -> (forall x, last l = Some x -> R x w) -> Sorted R (l ++ [w]).
Proof.
  induction 1 as [|x l HS IH Hd]; intros Hw; cbn; [by repeat constructor|].
  constructor; [apply IH; intros y Hy; apply Hw; destruct l; [done|exact Hy]|].
  destruct Hd; cbn; constructor; [by apply Hw|done].
Qed.

(** What the guard on [lastWindow] gives whatever heights the node reports: no
    window is accepted twice in a row. *)
Definition guard_inv (S : sys) : Prop :=
  Sorted (fun w w' => w <> w') (ok_windows (sent S)) /\
  (forall w, last (ok_windows (sent S)) = Some w -> w = lastWindow (st S)) /\
  (forall w, in_flight (spc S) = Some w -> w <> lastWindow (st S)).

(** What it gives with heights that do not decrease. *)
Definition height (S : sys) : Z := default 0 (last (polled S)).

Definition once_inv (S : sys) : Prop :=
  0 <= height S /\
  (0 < sl_voteWindow sl -> lastWindow (st S) <= Z.quot (height S) (sl_voteWindow sl)) /\
  StronglySorted Z.lt (ok_windows (sent S)) /\
  Forall (fun w => w <= lastWindow (st S)) (ok_windows (sent S)) /\
  (forall w, in_flight (spc S) = Some w ->
     0 < sl_voteWindow sl /\ w = Z.quot (height S) (sl_voteWindow sl) /\ lastWindow (st S) < w).

Definition monotone (heights : list Z) : Prop := StronglySorted Z.le (0 :: heights).

Lemma monotone_snoc l h : monotone (l ++ [h]) -> monotone l /\ default 0 (last l) <= h.
Proof.
  unfold monotone. change (0 :: l ++ [h]) with ((0 :: l) ++ [h]). intros [HS HF]%StronglySorted_snoc.
  split; [done|]. apply Forall_cons in HF as [H0 HF]. destruct (last l) as [x|] eqn:El; [|done].
  apply last_Some in El as [l' ->]. cbn. rewrite Forall_app, Forall_singleton in HF. apply HF.
Qed.

Definition windows_inv (S : sys) : Prop := guard_inv S /\ (monotone (polled S) -> once_inv S).

(** The invariant only depends on what [kept] keeps. *)
Lemma windows_inv_kept s s' pp pp' sp h H H' X : lastWindow s' = lastWindow s ->
  windows_inv (mkSystem s pp sp h H X) -> windows_inv (mkSystem s' pp' sp h H' X).
Proof. unfold windows_inv, guard_inv, once_inv, height. cbn. by intros ->. Qed.

(** The submit loop goes on with the same window, or gives up. *)
Lemma windows_inv_spc s pp sp sp' h H X :
  (forall w, in_flight sp' = Some w -> in_flight sp = Some w) ->
  windows_inv (mkSystem s pp sp h H X) -> windows_inv (mkSystem s pp sp' h H X).
Proof. unfold windows_inv, guard_inv, once_inv, height. cbn. intros Hf. naive_solver. Qed.

Lemma windows_inv_refused s pp sp h H X w now k feeds :
  windows_inv (mkSystem s pp sp h H X) ->
  windows_inv (mkSystem s pp sp h H (X ++ [mkBroadcast w now k feeds false])).
Proof.
  unfold windows_inv, guard_inv, once_inv, height. cbn. rewrite ok_windows_app. cbn. by rewrite app_nil_r.
Qed.

Lemma windows_inv_poll s pp sp h h' H X :
  (forall w, in_flight sp = Some w -> due_window sl (lastWindow s) h' = Some w) ->
  windows_inv (mkSystem s pp SIdle h H X) -> windows_inv (mkSystem s pp sp (h ++ [h']) H X).
Proof.
  intros Hw [(A & B' & _) Hm]. split.
  - split_and!; [done..|]. cbn. intros w [_ [_ Hne]]%Hw%due_window_Some. done.
  - cbn. intros [Hs Hh]%monotone_snoc. destruct (Hm Hs) as (P & Hq & C & D & _).
    unfold once_inv, height in *. cbn in *. rewrite last_snoc. cbn.
    assert (0 < sl_voteWindow sl ->
      Z.quot (default 0 (last h)) (sl_voteWindow sl) <= Z.quot h' (sl_voteWindow sl))
      by (intros ?; apply Z.quot_le_mono; lia).
    split_and!; [lia|intuition lia|done|done|].
    intros w (Hv & -> & Hne)%Hw%due_window_Some. intuition lia.
Qed.

Lemma windows_inv_accepted s s' pp w now k feeds n h H X :
  lastWindow s' = w -> windows_inv (mkSystem s pp (SSend w now k feeds n) h H X) ->
  windows_inv (mkSystem s' pp SIdle h H (X ++ [mkBroadcast w now k feeds true])).
Proof.
  intros Hl [(A & B' & F) Hm]. unfold windows_inv, guard_inv, once_inv, height in *. cbn in *.
  specialize (F w eq_refl). rewrite Hl, ok_windows_app. cbn. split.
  - split_and!; [|by rewrite last_snoc; intros ? [= <-]|done].
    apply Sorted_snoc; [done|]. intros x ->%B'. congruence.
  - intros Hs. destruct (Hm Hs) as (P & Hq & C & D & G). destruct (G w eq_refl) as (Hv & -> & Hlt).
    split_and!; [done|lia| | |done].
    + apply StronglySorted_snoc. split; [done|]. eapply Forall_impl; [exact D|]. cbn. intros; lia.
    + apply Forall_app. split; [|by repeat constructor]. eapply Forall_impl; [exact D|]. cbn. intros; lia.
Qed.

Lemma windows_inv_step S S' : fstep S S' -> windows_inv S -> windows_inv S'.
Proof.
  intros Hstep. destruct Hstep; intros Hinv.
  - by eapply windows_inv_kept.
  - apply fetch_kept in H0 as [_ Hl]. apply record_median_kept in H1 as [Hl' _].
    eapply windows_inv_kept; [|exact Hinv]. congruence.
  - by eapply windows_inv_kept.
  - eapply windows_inv_poll; [|exact Hinv]. by intros ? [= <-].
  - by eapply windows_inv_poll.
  - unfold collect_one in H0. apply ask_Ok in H0 as [-> _]. eapply windows_inv_spc; [|exact Hinv]. done.
  - eapply windows_inv_spc; [|exact Hinv]. done.
  - eapply windows_inv_spc; [|exact Hinv]. done.
  - apply after_send_ok in H1 as [_ Hl']. by eapply windows_inv_accepted.
  - apply on_bc_kept in H1 as [_ Hl]. apply windows_inv_refused.
    eapply windows_inv_kept; [exact Hl|]. eapply windows_inv_spc; [|exact Hinv]. done.
  - apply on_bc_kept in H1 as [_ Hl]. apply after_send_err in H2 as [_ Hl'].
    apply windows_inv_refused. eapply windows_inv_kept; [by rewrite Hl'|].
    eapply windows_inv_spc; [|exact Hinv]. done.
Qed.

Lemma windows_inv_start e b : windows_inv (start e b).
Proof.
  unfold windows_inv, guard_inv, once_inv, height, start, initial_lastWindow. cbn.
  split; [split_and!; [constructor|done|done]|]. intros _. split_and!; [done| |constructor|constructor|done].
  intros Hv. rewrite Z.quot_0_l by lia. lia.
Qed.

(** C36: Over every interleaving of the price loop and the submit loop, whatever
    heights the node reports, no two consecutive accepted batches are of the same
    vote window; and with a node whose reported height does not decrease, the
    windows of the accepted batches are strictly increasing: no window is
    submitted twice. *)
Theorem submits_once_per_window e b S : rtc fstep (start e b) S ->
  Sorted (fun w w' => w <> w') (ok_windows (sent S)) /\
  (monotone (polled S) -> StronglySorted Z.lt (ok_windows (sent S))).
Proof.
  intros Hr. enough (windows_inv S) as [(? & _ & _) Hm] by (split; [done|]; by intros (_ & _ & ? & _)%Hm).
  eapply (rtc_preserves windows_inv); [exact windows_inv_step|apply windows_inv_start|exact Hr].
Qed.

(** ** Every submitted price is fresh and comes from enough sources *)

(** The last result of the price loop for [pair]. *)
Definition latest (H : list sample) (pair : string) : option sample :=
  last (filter (fun x => s_pair x = pair) H).

(** After the samples [H] the pair is healthy: [p] is the cross-source median of
    the quotes last gathered for it, at time [t]. *)
Definition justified (H : list sample) (pair : string) (t p : Z) : Prop :=
  exists quotes, latest H pair = Some (mkSample pair t quotes) /\
    CrossSourceMedian quotes (pl_maxDev pl) (MinProviders (pl_quality pl)) = Ok p.

(** [f] carries such a median, no older than the maximal quote age at the time
    [now] of the poll, for one of the configured pairs; the pair was healthy at a
    moment [H1] after the start of the poll. *)
Definition feed_ok (H : list sample) (now : Z) (seen : nat) (f : FeedSubmission) : Prop :=
  fs_Pair f ∈ Pair <$> sl_pairs sl /\
  exists H1 H2 t p, H = H1 ++ H2 /\ (seen <= length H1)%nat /\
    fs_Price f = Some p /\ justified H1 (fs_Pair f) t p /\ time_sub now t <= sl_maxQuoteAge sl.

Definition flight_ok (H : list sample) (sp : submit_pc) : Prop :=
  match sp with
  | SIdle => True
  | SCollect _ now k todo feeds =>
      (k <= length H)%nat /\ todo ⊆ sl_pairs sl /\ Forall (feed_ok H now k) feeds
  | SSend _ now k feeds _ => Forall (feed_ok H now k) feeds
  end.

Definition cache_ok (H : list sample) (c : Cache) : Prop :=
  forall pair e, c !! pair = Some e -> healthy e = true ->
    exists p, price e = Some p /\ justified H pair (at_ e) p.

Definition fresh_inv (S : sys) : Prop :=
  cache_ok (samples S) (cache (st S)) /\ flight_ok (samples S) (spc S) /\
  Forall (fun b => Forall (feed_ok (samples S) (b_now b) (b_seen b)) (b_feeds b)) (sent S).

Lemma latest_snoc H x pair :
  latest (H ++ [x]) pair = if bool_decide (s_pair x = pair) then Some x else latest H pair.
Proof.
  unfold latest. rewrite filter_app, filter_cons, filter_nil. case_decide; case_bool_decide; try done.
  - apply last_snoc.
  - by rewrite app_nil_r.
Qed.

Lemma feed_ok_mono H x now k f : feed_ok H now k f -> feed_ok (H ++ [x]) now k f.
Proof.
  intros (Hp & H1 & H2 & t & p & -> & Hrest). split; [done|].
  exists H1, (H2 ++ [x]), t, p. by rewrite <- app_assoc.
Qed.

Lemma feeds_ok_mono H x now k l : Forall (feed_ok H now k) l -> Forall (feed_ok (H ++ [x]) now k) l.
Proof. intros HF. eapply Forall_impl; [exact HF|]. intros f. apply feed_ok_mono. Qed.

Lemma flight_ok_mono H x sp : flight_ok H sp -> flight_ok (H ++ [x]) sp.
Proof. destruct sp; cbn; rewrite ?length_app; intuition eauto using feeds_ok_mono with lia. Qed.

(** The two updates of the price loop. *)
Lemma cache_ok_other H x c pair e : s_pair x <> pair -> cache_ok H c ->
  c !! pair = Some e -> healthy e = true ->
  exists p, price e = Some p /\ justified (H ++ [x]) pair (at_ e) p.
Proof.
  intros Hne Hc Hl Hh. destruct (Hc pair e Hl Hh) as (p & E1 & q & El & Em). exists p. split; [done|].
  exists q. by rewrite latest_snoc, bool_decide_eq_false_2.
Qed.

Lemma cache_ok_set H pair t quotes p c :
  CrossSourceMedian quotes (pl_maxDev pl) (MinProviders (pl_quality pl)) = Ok p ->
  cache_ok H c -> cache_ok (H ++ [mkSample pair t quotes]) (Cache_Set pair p t c).
Proof.
  intros Hm Hc q e. unfold Cache_Set. rewrite lookup_insert_Some. intros [[<- <-]|[Hne Hl]] Hh.
  - exists p. split; [done|]. exists quotes. by rewrite latest_snoc, bool_decide_eq_true_2.
  - by eapply cache_ok_other.
Qed.

Lemma cache_ok_mark H t quotes pair c :
  cache_ok H c -> cache_ok (H ++ [mkSample pair t quotes]) (MarkUnhealthy pair c).
Proof.
  intros Hc q e. unfold MarkUnhealthy. rewrite lookup_insert_Some. intros [[<- <-]|[Hne Hl]] Hh; [done|].
  by eapply cache_ok_other.
Qed.

(** One read of the cache by the submit loop. *)
Lemma collect_ok H now k feeds pc (s s' : FS) feeds' :
  pc ∈ sl_pairs sl -> (k <= length H)%nat -> cache_ok H (cache s) ->
  Forall (feed_ok H now k) feeds -> collect_one sl now feeds pc s = (s', Ok feeds') ->
  s' = s /\ Forall (feed_ok H now k) feeds'.
Proof.
  unfold collect_one. intros Hpc Hk Hc HF [-> [= <-]]%ask_Ok. split; [done|].
  destruct (Fresh _ _ _ _) as [v|] eqn:Ef; [|done]. apply Forall_app. split; [done|].
  apply Forall_singleton. split; cbn [fs_Pair fs_Price]; [by apply list_elem_of_fmap_2|].
  apply Fresh_Some in Ef as (e & Hl & Hh & Ht & ->). destruct (Hc _ _ Hl Hh) as (p & -> & J).
  exists H, [], (at_ e), p. by rewrite app_nil_r.
Qed.

Lemma fresh_inv_kept s s' pp pp' sp h h' H X : cache s' = cache s ->
  fresh_inv (mkSystem s pp sp h H X) -> fresh_inv (mkSystem s' pp' sp h' H X).
Proof. unfold fresh_inv. cbn. by intros ->. Qed.

(** A broadcast of the feeds in flight. *)
Lemma fresh_inv_sent s s' pp w now k feeds n h H X ok sp : cache s' = cache s ->
  fresh_inv (mkSystem s pp (SSend w now k feeds n) h H X) -> flight_ok H sp ->
  fresh_inv (mkSystem s' pp sp h H (X ++ [mkBroadcast w now k feeds ok])).
Proof.
  unfold fresh_inv. cbn. intros -> (A & F & D) Hsp. split_and!; [done..|].
  apply Forall_app. split; [done|]. by repeat constructor.
Qed.

Lemma fresh_inv_step S S' : fstep S S' -> fresh_inv S -> fresh_inv S'.
Proof.
  intros Hstep. destruct Hstep; intros Hinv; try (by eapply fresh_inv_kept).
  - apply fetch_kept in H0 as [Hc _]. apply record_median_kept in H1 as [_ Hm].
    destruct Hinv as (A & F & D). unfold fresh_inv; cbn in *. rewrite Hc in Hm. split_and!.
    + destruct Hm as [(p & Hp & ->)| ->]; [by apply cache_ok_set|by apply cache_ok_mark].
    + by apply flight_ok_mono.
    + eapply Forall_impl; [exact D|]. intros b. cbn. apply feeds_ok_mono.
  - destruct Hinv as (A & F & D). by unfold fresh_inv; cbn in *.
  - destruct Hinv as (A & (Hk & Hs & F) & D). unfold fresh_inv; cbn in *.
    eapply collect_ok in H0 as [-> HF]; [|set_solver|exact Hk|done|done].
    split_and!; [done|done|set_solver|done|done].
  - destruct Hinv as (A & (Hk & Hs & F) & D). by unfold fresh_inv; cbn in *.
  - destruct Hinv as (A & (Hk & Hs & F) & D). by unfold fresh_inv; cbn in *.
  - apply on_bc_kept in H0 as [Hc _]. apply after_send_ok in H1 as [Hc' _].
    eapply fresh_inv_sent; [by rewrite Hc'|exact Hinv|done].
  - apply on_bc_kept in H1 as [Hc _]. eapply fresh_inv_sent; [done|exact Hinv|]. apply Hinv.
  - apply on_bc_kept in H1 as [Hc _]. apply after_send_err in H2 as [Hc' _].
    eapply fresh_inv_sent; [by rewrite Hc'|exact Hinv|done].
Qed.

Lemma fresh_inv_start e b : fresh_inv (start e b).
Proof. unfold fresh_inv, start. cbn. split_and!; [by intros ?? ?|done|constructor]. Qed.

(** C37: Over every interleaving of the two loops, every price that is broadcast
    (accepted or not, retries included) belongs to a configured pair that was
    healthy at a moment after the poll started: the last attempt of the price
    loop on the pair had succeeded, and the price is its result, the cross-source
    median, under the configured deviation and minimum of sources, of the quotes
    gathered then, no longer than the maximal quote age before the poll. *)
Theorem submits_only_fresh e b S : rtc fstep (start e b) S ->
  Forall (fun x => Forall (feed_ok (samples S) (b_now x) (b_seen x)) (b_feeds x)) (sent S).
Proof.
  intros Hr. enough (fresh_inv S) as (_ & _ & ?) by done.
  eapply (rtc_preserves fresh_inv); [exact fresh_inv_step|apply fresh_inv_start|exact Hr].
Qed.

(** ** The steps cover the code

    A run of [tick] or of [maybeSubmit] with no interference is a sequence of
    steps. *)

Lemma tick_pairs_steps now sp h X todo (s s' : FS) H :
  mfor todo (tick_pair pl now) s = (s', Ok tt) ->
  exists H', rtc fstep (mkSystem s (PTick now todo) sp h H X) (mkSystem s' (PTick now []) sp h H' X).
Proof.
  revert s H; induction todo as [|pc todo IH]; cbn [mfor]; intros s H Hr.
  - apply mret_Ok in Hr as [-> _]. by exists H.
  - apply M_bind_Ok in Hr as (s2 & [] & Hp & Hr). unfold tick_pair in Hp.
    apply M_bind_Ok in Hp as (s1 & quotes & Hf & Hm).
    destruct (IH s2 (H ++ [mkSample (Pair pc) now quotes]) Hr) as (H' & Hs).
    exists H'. eapply rtc_l; [by eapply step_pair|exact Hs].
Qed.

Lemma tick_steps now sp h H X (s s' : FS) : tick pl now s = (s', Ok tt) ->
  exists H', rtc fstep (mkSystem s PIdle sp h H X) (mkSystem s' PIdle sp h H' X).
Proof.
  intros Hr. destruct (tick_pairs_steps now sp h X (pl_pairs pl) s s' H Hr) as (H' & Hs).
  exists H'. eapply rtc_l; [apply step_tick|]. eapply rtc_r; [exact Hs|apply step_ticked].
Qed.

Lemma PriceLoop_Run_steps now times sp h H X (s s' : FS) : PriceLoop_Run pl now times s = (s', Ok tt) ->
  exists H', rtc fstep (mkSystem s PIdle sp h H X) (mkSystem s' PIdle sp h H' X).
Proof.
  unfold PriceLoop_Run. intros (s1 & [] & Ht & Hr)%M_bind_Ok.
  destruct (tick_steps now sp h H X s s1 Ht) as (H1 & Hs1). clear Ht. revert s1 H1 Hr Hs1.
  induction times as [|t times IH]; cbn [mfor]; intros s1 H1 Hr Hs1.
  - apply mret_Ok in Hr as [-> _]. by exists H1.
  - apply M_bind_Ok in Hr as (s2 & [] & Ht2 & Hr).
    destruct (tick_steps t sp h H1 X s1 s2 Ht2) as (H2 & Hs2).
    apply (IH s2 H2 Hr). by etrans.
Qed.

Lemma collect_steps pp w now k h H X todo feeds feeds' (s s' : FS) :
  mfold todo feeds (collect_one sl now) s = (s', Ok feeds') ->
  rtc fstep (mkSystem s pp (SCollect w now k todo feeds) h H X) (mkSystem s' pp (SCollect w now k [] feeds') h H X).
Proof.
  revert s feeds; induction todo as [|pc todo IH]; cbn [mfold]; intros s feeds Hr.
  - by apply mret_Ok in Hr as [-> ->].
  - apply M_bind_Ok in Hr as (s1 & f1 & Hc & Hr). eapply rtc_l; [by apply step_collect|by apply IH].
Qed.

Lemma attempt_Ok {A} (m : M FS A) (s s' : FS) r : attempt m s = (s', Ok r) ->
  m s = (s', match r with inl a => Ok a | inr e => Err e end).
Proof. unfold attempt. destruct (m s) as [s1 [a|e|]]; by intros [= <- <-]. Qed.

Lemma send_steps pp w now k h H feeds n X (s s1 s' : FS) r :
  send_attempts n feeds s = (s1, Ok r) -> after_send w now feeds r s1 = (s', Ok tt) ->
  exists X', rtc fstep (mkSystem s pp (SSend w now k feeds n) h H X) (mkSystem s' pp SIdle h H X') /\
    (length X' <= length X + max 1 n)%nat.
Proof.
  revert X s; induction n as [|n IH]; intros X s Hr Ha;
    cbn [send_attempts] in Hr; apply M_bind_Ok in Hr as (s2 & r2 & Ht & Hr); apply attempt_Ok in Ht;
    (destruct r2 as [hash|e];
      [apply mret_Ok in Hr as [-> ->]; eexists; split;
        [apply rtc_once; by eapply step_sent|rewrite length_app; cbn [length]; lia]|]).
  - apply mret_Ok in Hr as [-> ->]. eexists. split; [apply rtc_once; eapply step_failed; [lia|done..]|].
    rewrite length_app; cbn [length]; lia.
  - destruct n as [|n].
    + apply mret_Ok in Hr as [-> ->]. eexists. split; [apply rtc_once; eapply step_failed; [lia|done..]|].
      rewrite length_app; cbn [length]; lia.
    + destruct (IH (X ++ [mkBroadcast w now k feeds false]) s2 Hr Ha) as (X' & Hs & Hl).
      exists X'. split; [|rewrite length_app in Hl; cbn [length] in Hl; lia].
      eapply rtc_l; [eapply step_retry; [lia|done]|exact Hs].
Qed.

(** A poll broadcasts at most [attempts] times, and a poll that ends in an error
    leaves the window open for the next one. *)
Lemma maybeSubmit_steps pp now h h' H X (s s' : FS) :
  maybeSubmit sl now h' s = (s', Ok tt) ->
  exists X', rtc fstep (mkSystem s pp SIdle h H X) (mkSystem s' pp SIdle (h ++ [h']) H X') /\
    (length X' <= length X + attempts sl)%nat.
Proof.
  unfold maybeSubmit. destruct (due_window sl (lastWindow s) h') as [w|] eqn:Ed.
  - intros (s1 & feeds & Hc & Hr)%M_bind_Ok. pose proof (collect_steps pp w now (length H) (h ++ [h']) H X _ _ _ _ _ Hc) as Hs.
    case_bool_decide as El.
    + apply mret_Ok in Hr as [-> _]. apply nil_length_inv in El as ->. exists X. split; [|lia].
      eapply rtc_l; [by eapply step_poll_due|]. eapply rtc_r; [exact Hs|apply step_nothing].
    + apply M_bind_Ok in Hr as (s2 & r & Hsend & Ha).
      destruct (send_steps pp w now (length H) (h ++ [h']) H feeds _ X _ _ _ _ Hsend Ha) as (X' & Hs' & Hl).
      exists X'. split.
      * eapply rtc_l; [by eapply step_poll_due|]. etrans; [exact Hs|].
        eapply rtc_l; [apply step_ready; by destruct feeds|exact Hs'].
      * unfold attempts in *. destruct (Z.ltb_spec (sl_retries sl) 1); lia.
  - intros [= <-]. exists X. split; [|lia]. apply rtc_once. by apply step_poll_not_due.
Qed.

End System.
