(* ===== verification/FeederNode.v ===== *)
(** * vertix-feeder: batches and account sequence

    What the broadcaster makes of a batch (every message of it is one the chain's
    ValidateBasic accepts, and one bad feed refuses the batch), and how it keeps
    the account sequence. Then the reference instances of the feeder's parameters
    and the witnesses of the feeder's theorems. *)

From Stdlib Require Import Floats.SpecFloat.
From S2P Require Import Prelude Sdk SdkRef OracleTypes FeederAgg FeederConfig FeederLoop FeederSafety.

Open Scope Z_scope.

(** ** buildMsgs *)

Section Batch.
Context {SM : SdkMath} {SML : SdkMathLaws} {BE : Bech32}.

(** A feed that the chain accepts, and its message. *)
Definition feed_valid (f : FeedSubmission) : Prop :=
  fs_Pair f <> ""%string /\ exists p, fs_Price f = Some p /\ 0 < p.

Definition carries (feeder validator : string) (f : FeedSubmission) (m : MsgSubmitFeed) : Prop :=
  ms_Feeder m = feeder /\ ms_Validator m = validator /\ ms_Pair m = fs_Pair f /\
  (exists p, fs_Price f = Some p /\ LegacyNewDecFromStr (ms_Price m) = Ok p) /\
  MsgSubmitFeed_ValidateBasic m = Ok tt.

(** The prices the loops handle: decimals of at most 315 bits. *)
Definition price_in_range (f : FeedSubmission) : Prop :=
  exists p, fs_Price f = Some p /\ Z.abs p < dec_limit.

Context (feeder validator : string) (fa va : bytes).
Context (Hfa : AccAddressFromBech32 feeder = Ok fa) (Hva : ValAddressFromBech32 validator = Ok va).

Lemma feed_ValidateBasic pair p : Z.abs p < dec_limit ->
  MsgSubmitFeed_ValidateBasic (mkMsgSubmitFeed feeder validator pair (DecString p)) =
  if bool_decide (pair = ""%string) then Err ErrInvalidPairFormat else
  if 0 <? p then Ok tt else Err ErrInvalidPrice.
Proof.
  intros Hp. unfold MsgSubmitFeed_ValidateBasic.
  cbn [ms_Feeder ms_Validator ms_Pair ms_Price]. rewrite Hfa, Hva. cbn [wrap_err mbind res_bind].
  case_bool_decide; [done|]. rewrite dec_print by done. cbn [wrap_err mbind res_bind].
  by destruct (0 <? p).
Qed.

Lemma feed_message f : price_in_range f -> feed_valid f ->
  carries feeder validator f (mkMsgSubmitFeed feeder validator (fs_Pair f) (price_string (fs_Price f))).
Proof.
  intros (p & Ep & Hp) (Hne & p' & Ep' & Hpos). rewrite Ep in Ep'. injection Ep' as <-.
  unfold carries. rewrite Ep. cbn [price_string ms_Feeder ms_Validator ms_Pair ms_Price].
  rewrite feed_ValidateBasic, bool_decide_eq_false_2 by done. rewrite (proj2 (Z.ltb_lt _ _) Hpos).
  split_and!; [done..| |done]. exists p. split; [done|]. by apply dec_print.
Qed.

Lemma feed_message_refused f : price_in_range f -> ~ feed_valid f ->
  exists e, MsgSubmitFeed_ValidateBasic
    (mkMsgSubmitFeed feeder validator (fs_Pair f) (price_string (fs_Price f))) = Err e.
Proof.
  intros (p & Ep & Hp) Hn. rewrite Ep. cbn [price_string]. rewrite feed_ValidateBasic by done.
  case_bool_decide as Epair; [by eexists|]. destruct (Z.ltb_spec 0 p) as [Hpos|]; [|by eexists].
  destruct Hn. split; [done|]. eauto.
Qed.

(** C38: A batch whose prices are all positive and whose pairs are all named becomes
    one message per feed, in order, each of which the chain's ValidateBasic
    accepts and whose price parses back to exactly the cached median; a single
    feed that is not so refuses the whole batch with an error, so nothing of it
    is broadcast. *)
Theorem buildMsgs_spec feeds : Forall price_in_range feeds ->
  (Forall feed_valid feeds ->
     exists msgs, buildMsgs feeder validator feeds = Ok msgs /\ Forall2 (carries feeder validator) feeds msgs) /\
  (Exists (fun f => ~ feed_valid f) feeds ->
     buildMsgs feeder validator feeds = Err (Errorf "invalid MsgSubmitFeed")).
Proof.
  induction 1 as [|f feeds Hf HF [IH1 IH2]]; cbn [buildMsgs].
  - split; [intros _; exists []; done|by intros ?%Exists_nil].
  - assert (feed_valid f \/ ~ feed_valid f) as Hdec.
    { destruct Hf as (p & Ep & _). unfold feed_valid. rewrite Ep.
      destruct (decide (fs_Pair f = ""%string)); [naive_solver|].
      destruct (decide (0 < p)); [left; eauto|right; naive_solver]. }
    split.
    + intros [Hv (msgs & -> & H2)%IH1]%Forall_cons. pose proof (feed_message f Hf Hv) as Hm.
      rewrite (proj2 (proj2 (proj2 (proj2 Hm)))). cbn [wrap_err mbind res_bind].
      eexists. split; [done|]. by constructor.
    + intros Hex. destruct Hdec as [Hv|Hv].
      * pose proof (feed_message f Hf Hv) as Hm. rewrite (proj2 (proj2 (proj2 (proj2 Hm)))).
        cbn [wrap_err mbind res_bind]. rewrite IH2; [done|]. by apply Exists_cons in Hex as [|].
      * destruct (feed_message_refused f Hf Hv) as (e & ->). done.
Qed.

End Batch.

(** ** The account sequence *)

Section Sequence.
Context {SM : SdkMath} {BE : Bech32} {CP : CoinParser} {N A T : Type} {NC : NodeClient N A T}.
Abbreviation G := (GRPCBroadcaster * N)%type.

(** The broadcaster before and after, when its account is now [(num, sq)]. *)
Definition account_is (b b' : GRPCBroadcaster) (num sq : Z) : Prop :=
  b' = mkGRPCBroadcaster (g_cfg b) (feederAddr b) num sq.

(** [(num, sq)] is what the node answered to a query for the feeder's account. *)
Definition reported (b : GRPCBroadcaster) (num sq : Z) : Prop :=
  exists n n' a, QueryAccount (feederAddr b) n = (n', Ok a) /\ UnpackAny a = Ok (num, sq).

Lemma on_node_keeps {R} (m : M N R) b n b' n' r : on_node m (b, n) = ((b', n'), r) ->
  b' = b /\ m n = (n', r).
Proof. unfold on_node. destruct (m n) as [n1 r1]. by intros [= <- <- <-]. Qed.

Lemma refreshAccount_cases b n b' n' r : refreshAccount (b, n) = ((b', n'), r) ->
  b' = b \/ exists num sq, account_is b b' num sq /\ reported b num sq.
Proof.
  unfold refreshAccount. rewrite M_bind_run. cbn [ask fst]. rewrite M_bind_run.
  destruct (on_node _ _) as [[b1 n1] r1] eqn:E1. apply on_node_keeps in E1 as [-> E1].
  destruct r1 as [a| |]; [|intros [= <- <- <-]; by left..].
  rewrite M_bind_run. unfold lift. destruct (UnpackAny a) as [[num sq]| |] eqn:E2;
    [|intros [= <- <- <-]; by left..].
  intros [= <- <- <-]. right. exists num, sq. split; [done|]. by exists n, n1, a.
Qed.

(** One accepted broadcast of [feeds] by [b]: the transaction is built from the
    messages of the feeds with the account number and sequence of [b], signed,
    and answered with code 0. *)
Definition accepted (b : GRPCBroadcaster) (feeds : list FeedSubmission) (hash : string) : Prop :=
  exists msgs txf txb txb' bz n1 n2 n3 n4,
    buildMsgs (feederAddr b) (Validator (g_cfg b)) feeds = Ok msgs /\
    tx_factory (g_cfg b) (accNum b) (seq b) = Ok txf /\
    tf_AccountNumber txf = accNum b /\ tf_Sequence txf = seq b /\
    BuildUnsignedTx txf msgs = Ok txb /\ Sign txf (KeyName (g_cfg b)) txb n1 = (n2, Ok txb') /\
    TxEncoder txb' = Ok bz /\ BroadcastTx bz n3 = (n4, Ok (mkTxResponse 0 hash)).

Lemma tx_factory_account cfg num sq txf : tx_factory cfg num sq = Ok txf ->
  tf_AccountNumber txf = num /\ tf_Sequence txf = sq.
Proof.
  unfold tx_factory. destruct (ParseCoinsNormalized (Fees cfg)); cbn [mbind res_bind]; try done;
    (destruct (WithFees _); cbn [mbind res_bind]; try done; case_bool_decide;
       [by intros [= <-]|by intros (g & _ & [= <-])%res_bind_Ok]).
Qed.

(** C39: The broadcaster's sequence number: an accepted transaction was built and
    signed with the current account number and sequence, and advances the
    sequence by one (as a uint64); a failed submission leaves the account as it
    was, or resynchronises it to what the node reports for the feeder; the
    configuration and the feeder address never change. *)
Theorem GRPC_SubmitFeeds_sequence feeds b (n : N) b' n' r :
  GRPC_SubmitFeeds feeds (b, n) = ((b', n'), r) ->
  match r with
  | Ok hash => account_is b b' (accNum b) (u64 (seq b + 1)) /\ accepted b feeds hash
  | _ => b' = b \/ exists num sq, account_is b b' num sq /\ reported b num sq
  end.
Proof.
  unfold GRPC_SubmitFeeds. rewrite M_bind_run. cbn [ask fst].
  rewrite M_bind_run. unfold lift at 1. destruct (buildMsgs _ _ _) as [msgs| |] eqn:E1;
    [|intros [= <- <- <-]; by left..].
  rewrite M_bind_run. unfold lift at 1. destruct (tx_factory _ _ _) as [txf| |] eqn:E2;
    [|intros [= <- <- <-]; by left..].
  rewrite M_bind_run. unfold lift at 1. destruct (BuildUnsignedTx _ _) as [txb| |] eqn:E3;
    [|intros [= <- <- <-]; by left..].
  rewrite M_bind_run. destruct (on_node _ _) as [[b4 n4] r4] eqn:E4. apply on_node_keeps in E4 as [-> E4].
  destruct r4 as [txb'| |]; [|intros [= <- <- <-]; by left..].
  rewrite M_bind_run. unfold lift at 1. destruct (TxEncoder _) as [bz| |] eqn:E5;
    [|intros [= <- <- <-]; by left..].
  rewrite M_bind_run. destruct (on_node _ _) as [[b6 n6] r6] eqn:E6. apply on_node_keeps in E6 as [-> E6].
  destruct r6 as [[code hash]| |]; [|intros [= <- <- <-]; by left..]. cbn [Code TxHash].
  destruct (Z.eqb_spec code 0) as [->|Hc]; cbn [negb].
  - rewrite M_bind_run. cbn. intros [= <- <- <-]. split; [done|].
    destruct (tx_factory_account _ _ _ _ E2). by exists msgs, txf, txb, txb', bz, n, n4, n4, n6.
  - rewrite M_bind_run. unfold attempt. destruct (refreshAccount (b, n6)) as [[b7 n7] r7] eqn:E7.
    pose proof (refreshAccount_cases _ _ _ _ _ E7) as Hcases.
    destruct r7; intros [= <- <- <-]; exact Hcases.
Qed.

End Sequence.

(** ** Reference instances and witnesses *)

(** A clock that advances by a millisecond per reading, as the world of the
    providers; the network answers every request with the text "2.0". *)
#[global] Instance CK_ref : Clock Z := {| Now := fun t => (t + Millisecond, Ok t) |}.

#[global] Instance HT_ref : Http Z := {|
  NewRequest _ := Ok tt;
  Do _ := mret (200, bytes_of "2.0");
  DecodePrice b := Ok (string_of b);
  DecodePriceMap _ := Err (Errorf "invalid character");
  QueryEscape s := s;
  FormatFloat _ := "2.0"%string
|}.

#[global] Instance CP_ref : CoinParser := {| ParseCoinsNormalized _ := Ok [] |}.

(** A broadcaster that answers as scheduled. *)
#[global] Instance BC_ref : Broadcaster (list bool) := {|
  SubmitFeeds _ := fun l => match l with
                            | true :: l => (l, Ok "hash"%string)
                            | false :: l => (l, Err (Errorf "unavailable"))
                            | [] => ([], Err (Errorf "unavailable"))
                            end
|}.

Definition ref_pair : PairConfig :=
  mkPairConfig "VTX:USD" {[ "static"%string := "vtx"%string; "binance"%string := "VTXUSDT"%string ]}.

Definition ref_config : Config := {|
  ChainID := "vertix-1"; NodeGRPC := "localhost:9090"; Validator := "vtxvaloper1alice";
  KeyName := "feeder"; KeyringBackend := "test"; KeyringDir := ""; Fees := ""; Gas := "200000";
  GasAdjustment := float_one; FeedInterval := 5 * Second; SubmitPoll := Second; c_VoteWindow := 10;
  BroadcastRetry := 3; Quality := mkQualityConfig 2 "0.50" (30 * Second);
  Providers := ["static"%string; "binance"%string];
  StaticPrices := {[ "vtx"%string := "1.5"%string ]}; Pairs := [ref_pair]
|}.

Definition ref_providers : list (PriceProvider Z) :=
  match Build registry (Providers ref_config) (mkOptions (StaticPrices ref_config)) with
  | Ok l => l
  | _ => []
  end.

Lemma Config_Validate_sources_witness :
  Forall (fun pc => exists prov sym, prov ∈ ref_providers /\ Symbols pc !! Name prov = Some sym /\
    (Name prov = "static"%string -> exists p, 0 < p /\ forall e, Fetch prov sym e = (e, Ok p))) (Pairs ref_config).
Proof.
  apply (Config_Validate_sources ref_config); [vm_compute; reflexivity|].
  reflexivity.
Defined.

(** Validate does not look at the names of the providers: this configuration
    passes it, and the providers are refused only when they are built. *)
Definition unknown_config : Config := {|
  ChainID := "vertix-1"; NodeGRPC := "localhost:9090"; Validator := "vtxvaloper1alice";
  KeyName := "feeder"; KeyringBackend := "test"; KeyringDir := ""; Fees := ""; Gas := "200000";
  GasAdjustment := float_one; FeedInterval := 5 * Second; SubmitPoll := Second; c_VoteWindow := 10;
  BroadcastRetry := 3; Quality := mkQualityConfig 2 "0.50" (30 * Second);
  Providers := ["foo"%string]; StaticPrices := ∅;
  Pairs := [mkPairConfig "VTX:USD" {[ "foo"%string := "vtx"%string ]}]
|}.

Lemma unknown_provider_passes_Validate :
  Config_Validate unknown_config = Ok tt /\
  Build (registry (E := Z)) (Providers unknown_config) (mkOptions (StaticPrices unknown_config)) =
    Err (Errorf "unknown provider").
Proof. split; vm_compute; reflexivity. Qed.

(** A run: a tick caches the median of the two sources, a poll at height 10 sends
    it, the first broadcast fails and the second is accepted. *)
Definition ref_pl : PriceLoop Z :=
  mkPriceLoop [ref_pair] ref_providers (Quality ref_config) (5 * 10 ^ 17) (5 * Second).
Definition ref_sl : SubmitLoop :=
  Configure (NewSubmitLoop [ref_pair] 10 (30 * Second)) Second 3.

Definition ref_s0 : FeederState Z (list bool) :=
  mkFeederState 0 NewCache NewMetrics [false; true] initial_lastWindow.
Definition ref_s1 := (mfold (pl_providers ref_pl) [] (fetch_quote ref_pair) ref_s0).1.
Definition ref_quotes : list Z := [15 * 10 ^ 17; 20 * 10 ^ 17].
Definition ref_s2 := (record_median ref_pl 0 ref_pair ref_quotes ref_s1).1.
Definition ref_feeds : list FeedSubmission := [mkFeedSubmission "VTX:USD" (Some (175 * 10 ^ 16))].
Definition ref_s3 := (on_bc (SubmitFeeds ref_feeds) ref_s2).1.
Definition ref_s4 := (on_bc (SubmitFeeds ref_feeds) ref_s3).1.
Definition ref_s5 := (after_send 1 Second ref_feeds (inl "hash"%string) ref_s4).1.

Definition ref_end : system Z (list bool) :=
  mkSystem ref_s5 PIdle SIdle [10] [mkSample "VTX:USD" 0 ref_quotes]
    [mkBroadcast 1 Second 1 ref_feeds false; mkBroadcast 1 Second 1 ref_feeds true].

Lemma ref_feeder_run : rtc (fstep ref_pl ref_sl) (start 0 [false; true]) ref_end.
Proof.
  eapply rtc_l; [apply (step_tick _ _ ref_s0 _ _ _ _ 0)|].
  eapply rtc_l; [eapply (step_pair _ _ ref_s0 ref_s1 ref_s2); apply run_result; vm_compute; reflexivity|].
  eapply rtc_l; [apply step_ticked|].
  eapply rtc_l; [apply (step_poll_due _ _ ref_s2 _ [] 10 _ _ Second 1); vm_compute; reflexivity|].
  eapply rtc_l; [apply (step_collect _ _ ref_s2 ref_s2 _ _ _ _ _ _ [] ref_feeds)|].
  { vm_compute; reflexivity. }
  eapply rtc_l; [by apply step_ready|].
  eapply rtc_l; [apply (step_retry _ _ ref_s2 ref_s3 _ _ _ _ _ 2 _ _ _ (Errorf "unavailable")); [lia|]|].
  { apply run_result. vm_compute; reflexivity. }
  eapply rtc_l; [apply (step_sent _ _ ref_s3 ref_s4 ref_s5 _ _ _ _ _ _ _ _ _ "hash"%string)|].
  1-2: apply run_result; vm_compute; reflexivity.
  apply rtc_refl.
Qed.

Lemma submits_once_per_window_witness :
  ok_windows (sent ref_end) = [1] /\ StronglySorted Z.lt (ok_windows (sent ref_end)).
Proof.
  split; [vm_compute; reflexivity|].
  apply (submits_once_per_window ref_pl ref_sl 0 [false; true] ref_end ref_feeder_run).
  unfold monotone. cbn [polled ref_end]. repeat constructor; lia.
Defined.

Lemma submits_only_fresh_witness :
  Forall (fun x => Forall (feed_ok ref_pl ref_sl (samples ref_end) (b_now x) (b_seen x)) (b_feeds x)) (sent ref_end).
Proof. exact (submits_only_fresh ref_pl ref_sl 0 [false; true] ref_end ref_feeder_run). Defined.

Lemma buildMsgs_spec_witness :
  (exists msgs, buildMsgs "vtx1carol" "vtxvaloper1alice" ref_feeds = Ok msgs /\
     Forall2 (carries "vtx1carol" "vtxvaloper1alice") ref_feeds msgs) /\
  buildMsgs "vtx1carol" "vtxvaloper1alice" (ref_feeds ++ [mkFeedSubmission "BTC:USD" (Some 0)])
  = Err (Errorf "invalid MsgSubmitFeed").
Proof.
  assert (Hf : AccAddressFromBech32 "vtx1carol" = Ok (bytes_of "carol")) by (vm_compute; reflexivity).
  assert (Hv : ValAddressFromBech32 "vtxvaloper1alice" = Ok (bytes_of "alice")) by (vm_compute; reflexivity).
  split.
  - destruct (buildMsgs_spec "vtx1carol" "vtxvaloper1alice" _ _ Hf Hv ref_feeds) as [H _].
    + repeat constructor. exists (175 * 10 ^ 16). split; [reflexivity|vm_compute; reflexivity].
    + apply H. repeat constructor; [discriminate|]. exists (175 * 10 ^ 16). split; [reflexivity|lia].
  - destruct (buildMsgs_spec "vtx1carol" "vtxvaloper1alice" _ _ Hf Hv
      (ref_feeds ++ [mkFeedSubmission "BTC:USD" (Some 0)])) as [_ H].
    + apply Forall_cons; split; [exists (175 * 10 ^ 16)|apply Forall_cons; split; [exists 0|constructor]];
        (split; [reflexivity|vm_compute; reflexivity]).
    + apply H, Exists_cons_tl, Exists_cons_hd. intros (_ & p & Ep & Hp). injection Ep as <-. lia.
Defined.

(** A node that holds the sequence of account number 7 and accepts a transaction
    exactly when it carries that sequence. *)
#[global] Instance NC_ref : NodeClient Z (Z * Z) (Factory * list MsgSubmitFeed) := {|
  KeyringAddress _ _ _ := mret (bytes_of "carol");
  Dial _ := mret tt;
  CloseConn := mret tt;
  QueryAccount _ := fun n => (n, Ok (7, n));
  UnpackAny a := Ok a;
  GetLatestBlock := mret (Some 100);
  QueryParams := mret DefaultParams;
  WithFees _ := Ok [];
  BuildUnsignedTx txf msgs := Ok (txf, msgs);
  Sign _ _ t := mret t;
  TxEncoder t := Ok (be64 (tf_Sequence t.1));
  FeesString _ := ""%string;
  BroadcastTx bz := fun n => if be_fold bz =? n then (n + 1, Ok (mkTxResponse 0 "hash"))
                             else (n, Ok (mkTxResponse 32 ""))
|}.

Definition ref_broadcaster : GRPCBroadcaster := mkGRPCBroadcaster ref_config "vtx1carol" 7 41.

(** In step with the node the submission is accepted; behind it, it fails and
    resynchronises. *)
Lemma GRPC_SubmitFeeds_sequence_witness :
  accepted ref_broadcaster ref_feeds "hash" /\
  exists b' n' e, GRPC_SubmitFeeds ref_feeds (ref_broadcaster, 45) = ((b', n'), Err e) /\ seq b' = 45.
Proof.
  assert (H : GRPC_SubmitFeeds ref_feeds (ref_broadcaster, 41) =
    ((mkGRPCBroadcaster ref_config "vtx1carol" 7 42, 42), Ok "hash"%string)) by (vm_compute; reflexivity).
  split.
  - apply GRPC_SubmitFeeds_sequence in H. exact (proj2 H).
  - exists (mkGRPCBroadcaster ref_config "vtx1carol" 7 45), 45, (Errorf "tx rejected").
    split; [vm_compute; reflexivity|reflexivity].
Defined.

(** A gas limit above the range of uint64 passes Validate, and the submit loop
    panics when it builds the first transaction. *)
Lemma gas_out_of_range_panics :
  let cfg := {|
    ChainID := "vertix-1"; NodeGRPC := "localhost:9090"; Validator := "vtxvaloper1alice";
    KeyName := "feeder"; KeyringBackend := "test"; KeyringDir := ""; Fees := "";
    Gas := "18446744073709551616"; GasAdjustment := float_one; FeedInterval := 5 * Second;
    SubmitPoll := Second; c_VoteWindow := 10; BroadcastRetry := 3;
    Quality := mkQualityConfig 2 "0.50" (30 * Second);
    Providers := ["static"%string; "binance"%string];
    StaticPrices := {[ "vtx"%string := "1.5"%string ]}; Pairs := [ref_pair] |} in
  Config_Validate cfg = Ok tt /\
  (GRPC_SubmitFeeds ref_feeds (mkGRPCBroadcaster cfg "vtx1carol" 7 41, 41)).2 = Panic.
Proof. split; vm_compute; reflexivity. Qed.

(** The feeder of the reference configuration starts: the vote window is the
    configured one, the deviation the parsed one. *)
Lemma ref_New :
  match New ref_config 0 41 with
  | (_, Ok (f, s)) => sl_voteWindow (f_submit Z f) = 10 /\ pl_maxDev (f_priceLoop Z f) = 5 * 10 ^ 17 /\
                      seq (bc s).1 = 41 /\ lastWindow s = -1
  | _ => False
  end.
Proof. vm_compute. split_and!; reflexivity. Qed.
