(* ===== verification/TxFlood.v ===== *)
(** * The load-test client

    infra/loadtest/clients/txflood/main.go floods a node with transactions from many
    goroutines that share counters, latencies and one account state per key. A
    goroutine is a sequence of atomic actions (an [atomic.AddInt64], or a critical
    section); the network and the random source decide the outcomes. Over every
    interleaving the counters of a finished ramp add up. Signing, transport, the
    clock and the floating-point summary are left out. *)

From S2P Require Import Prelude Sdk.

Open Scope Z_scope.

(** ** Configuration *)

(** The fields that the code modelled here reads. *)
Record mixConfig : Type := mkMixConfig {
  DurationSec : Z;
  RampRates : list Z;
  BankKeys : list string;
  OracleKeys : list string;
  RwaKeys : list string;
  FeederValidators : list (string * string);
  DefaultPair : string;
  DefaultPrice : string;
  OraclePair : string;
  RwaBond : string;
  NamePrefix : string
}.

Definition or_default (s d : string) : string := if String.eqb s "" then d else s.

(** The defaults of [loadConfig], after reading the file. *)
Definition loadConfig (cfg : mixConfig) : mixConfig := mkMixConfig
  (if DurationSec cfg <=? 0 then 600 else DurationSec cfg)
  (if (length (RampRates cfg) =? 0)%nat then [50; 100; 150] else RampRates cfg)
  (BankKeys cfg) (OracleKeys cfg) (RwaKeys cfg) (FeederValidators cfg)
  (or_default (DefaultPair cfg) "BTC:USD") (or_default (DefaultPrice cfg) "65000.00")
  (or_default (OraclePair cfg) "BTC:USD") (or_default (RwaBond cfg) "10000000000")
  (or_default (NamePrefix cfg) "loadtest").

(** The closure [add] of [uniqueKeys]: the keys seen so far, in order. *)
Definition add_key (keys : list string) (k : string) : list string :=
  if String.eqb k "" then keys else if bool_decide (k ∈ keys) then keys else keys ++ [k].

Definition uniqueKeys (cfg : mixConfig) : list string :=
  foldl add_key [] (BankKeys cfg ++ OracleKeys cfg ++ RwaKeys cfg ++ (FeederValidators cfg).*2).

(** The seconds of one ramp; [main] divides by the number of rates. *)
Definition segDur (totalDur : Z) (rates : list Z) : res Z :=
  if (length rates =? 0)%nat then Panic else
  let d := Z.quot totalDur (Z.of_nat (length rates)) in
  Ok (if d <? 1 then 1 else d).

(** [from] and [to] of a bank message: the loop draws [to] again while it is [from];
    [None] when the draws run out. *)
Fixpoint draw_other (from : string) (draws : list string) : option string :=
  match draws with
  | [] => None
  | to :: draws => if String.eqb to from then draw_other from draws else Some to
  end.

(** ** Sending *)

(** [accountState] and [floodStats]. *)
Record accountState : Type := mkAccountState { accNum : Z; seq : Z }.

Record flood : Type := mkFlood {
  Submitted : Z;
  Success : Z;
  Failed : Z;
  MixCounts : string -> Z;
  latencies : list Z;
  accounts : string -> accountState;
  (** What the node accepted: key and sequence, the last one first. *)
  accepted : list (string * Z)
}.

(** Where a goroutine is in [sendOne]. *)
Inductive pc : Type :=
| Start
| Counting (kind : string)
| Building (kind : string)
| Reading (key : string)
| Broadcasting (key : string) (seq : Z)
| Bumping (key : string)
| Waiting
| Failing
| Succeeding
| Recording
| Done.

Definition bump {A} (f : string -> A) (k : string) (v : A) : string -> A :=
  fun k' => if String.eqb k' k then v else f k'.

(** One atomic action. *)
Inductive act : flood -> pc -> flood -> pc -> Prop :=
| act_submit s kind :
    act s Start (mkFlood (Submitted s + 1) (Success s) (Failed s) (MixCounts s) (latencies s) (accounts s) (accepted s)) (Counting kind)
| act_count s kind :
    act s (Counting kind)
      (mkFlood (Submitted s) (Success s) (Failed s) (bump (MixCounts s) kind (MixCounts s kind + 1)) (latencies s) (accounts s) (accepted s))
      (Building kind)
| act_build_fails s kind : act s (Building kind) s Failing
| act_build s kind key : act s (Building kind) s (Reading key)
| act_read s key : act s (Reading key) s (Broadcasting key (seq (accounts s key)))
| act_broadcast_fails s key n : act s (Broadcasting key n) s Failing
| act_broadcast s key n :
    act s (Broadcasting key n)
      (mkFlood (Submitted s) (Success s) (Failed s) (MixCounts s) (latencies s) (accounts s) ((key, n) :: accepted s)) (Bumping key)
| act_bump s key :
    act s (Bumping key)
      (mkFlood (Submitted s) (Success s) (Failed s) (MixCounts s) (latencies s)
        (bump (accounts s) key (mkAccountState (accNum (accounts s key)) (seq (accounts s key) + 1))) (accepted s)) Waiting
| act_wait_fails s : act s Waiting s Failing
| act_wait s : act s Waiting s Succeeding
| act_fail s :
    act s Failing (mkFlood (Submitted s) (Success s) (Failed s + 1) (MixCounts s) (latencies s) (accounts s) (accepted s)) Done
| act_succeed s :
    act s Succeeding (mkFlood (Submitted s) (Success s + 1) (Failed s) (MixCounts s) (latencies s) (accounts s) (accepted s)) Recording
| act_record s ms :
    act s Recording (mkFlood (Submitted s) (Success s) (Failed s) (MixCounts s) (latencies s ++ [ms]) (accounts s) (accepted s)) Done.

(** A ramp: the ticker spawns goroutines, and any of them may act. *)
Inductive ramp_step : flood * list pc -> flood * list pc -> Prop :=
| ramp_spawn s g : ramp_step (s, g) (s, g ++ [Start])
| ramp_act s g i p s' p' : g !! i = Some p -> act s p s' p' -> ramp_step (s, g) (s', <[i := p']> g).

Definition ramp_start (accs : string -> accountState) : flood * list pc :=
  (mkFlood 0 0 0 (fun _ => 0) [] accs [], []).

(** ** The counters *)

Definition total (f : pc -> Z) (g : list pc) : Z := foldr (fun p n => f p + n) 0 g.

Lemma total_app f g p : total f (g ++ [p]) = total f g + f p.
Proof. unfold total. induction g as [|q g IH]; cbn [foldr app]; lia. Qed.

Lemma total_insert f g i p p' : g !! i = Some p -> total f (<[i := p']> g) = total f g - f p + f p'.
Proof.
  unfold total. revert i. induction g as [|q g IH]; intros [|i] H; try done; cbn [lookup list_lookup] in H.
  - injection H as ->. cbn [insert list_insert foldr]. lia.
  - change (<[S i := p']> (q :: g)) with (q :: <[i := p']> g). cbn [foldr]. specialize (IH i H). lia.
Qed.

Definition started (p : pc) : Z := match p with Start => 0 | _ => 1 end.
Definition pending (p : pc) : Z := match p with Start | Recording | Done => 0 | _ => 1 end.
Definition recording (p : pc) : Z := match p with Recording => 1 | _ => 0 end.
Definition bumping (key : string) (p : pc) : Z := match p with Bumping k => if String.eqb k key then 1 else 0 | _ => 0 end.
Definition accepted_of (key : string) (l : list (string * Z)) : Z :=
  foldr (fun kn n => (if String.eqb kn.1 key then 1 else 0) + n) 0 l.

Record counters (accs : string -> accountState) (c : flood * list pc) : Prop := {
  c_submitted : Submitted c.1 = total started c.2;
  c_outcomes : Success c.1 + Failed c.1 + total pending c.2 = Submitted c.1;
  c_latencies : Z.of_nat (length (latencies c.1)) + total recording c.2 = Success c.1;
  c_sequences key : seq (accounts c.1 key) + total (bumping key) c.2 = seq (accs key) + accepted_of key (accepted c.1);
  c_numbers key : accNum (accounts c.1 key) = accNum (accs key)
}.

Lemma bump_at {A} (f : string -> A) k v : bump f k v k = v.
Proof. unfold bump. by rewrite String.eqb_refl. Qed.

Lemma accepted_of_cons key k n l : accepted_of key ((k, n) :: l) = (if String.eqb k key then 1 else 0) + accepted_of key l.
Proof. done. Qed.

Lemma counters_act accs s g i p s' p' : counters accs (s, g) -> g !! i = Some p -> act s p s' p' ->
  counters accs (s', <[i := p']> g).
Proof.
  intros [H1 H2 H3 H4 H5] Hi Ha. cbn [fst snd] in *.
  destruct Ha; (constructor; cbn [fst snd Submitted Success Failed MixCounts latencies accounts accepted];
    [..|intros key'; specialize (H4 key'); specialize (H5 key')|intros key'; specialize (H5 key')];
    rewrite ?(total_insert _ _ _ _ _ Hi), ?length_app, ?accepted_of_cons;
    cbn [started pending recording bumping length]; unfold bump;
    try destruct (String.eqb_spec key' key) as [->|]; rewrite ?String.eqb_refl; cbn [seq accNum]; try lia;
    destruct (String.eqb_spec key key') as [->|]; done || lia).
Qed.

Lemma counters_invariant accs c : rtc ramp_step (ramp_start accs) c -> counters accs c.
Proof.
  apply (rtc_ind_r (counters accs)).
  - constructor; cbn; try done; intros; lia.
  - intros ? ? _ Hs IH. destruct Hs as [s g|s g i p s' p' Hi Ha]; [|by eapply counters_act].
    destruct IH as [H1 H2 H3 H4 H5]. cbn [fst snd] in *.
    constructor; cbn [fst snd]; intros; rewrite ?total_app; cbn [started pending recording bumping]; rewrite ?Z.add_0_r; auto.
Qed.

(** When every goroutine of a ramp has returned, each submission is counted exactly
    once as a success or a failure, each success has a latency, and the sequence of
    each account advanced by the number of its transactions that the node accepted;
    and this over every interleaving of the goroutines. *)
Theorem flood_counters_add_up accs s g : rtc ramp_step (ramp_start accs) (s, g) -> Forall (fun p => p = Done) g ->
  Submitted s = Z.of_nat (length g) /\ Success s + Failed s = Submitted s /\
  Z.of_nat (length (latencies s)) = Success s /\
  forall key, seq (accounts s key) = seq (accs key) + accepted_of key (accepted s).
Proof.
  intros Hr Hd. destruct (counters_invariant _ _ Hr) as [H1 H2 H3 H4 _]. cbn [fst snd] in *.
  assert (forall f, total f g = f Done * Z.of_nat (length g)) as Ht.
  { intros f. clear -Hd. unfold total. induction Hd as [|p g -> _ IH]; [cbn; lia|]. cbn [foldr length]. lia. }
  rewrite !Ht in *. cbn [started pending recording] in *. split_and!; try lia.
  intros key. specialize (H4 key). rewrite Ht in H4. cbn [bumping] in H4. lia.
Qed.

(** ** What the client does not ensure *)

Tactic Notation "act_at" constr(i) uconstr(a) := eapply rtc_l; [eapply (ramp_act _ _ i); [reflexivity|apply a]|cbn [insert list_insert]].

(** The lock is given up between reading the sequence and advancing it: two goroutines
    of one account can hold the same sequence, of which the node accepts one. *)
Lemma same_sequence_twice accs key : exists s,
  rtc ramp_step (ramp_start accs) (s, [Broadcasting key (seq (accs key)); Broadcasting key (seq (accs key))]).
Proof.
  eexists. eapply rtc_l; [apply ramp_spawn|]. eapply rtc_l; [apply ramp_spawn|]. cbn [app].
  act_at 0%nat (act_submit _ "bank_send"). act_at 0%nat act_count. act_at 0%nat (act_build _ _ key). act_at 0%nat act_read.
  act_at 1%nat (act_submit _ "bank_send"). act_at 1%nat act_count. act_at 1%nat (act_build _ _ key). act_at 1%nat act_read.
  apply rtc_refl.
Qed.

(** With two bank keys of the same name the check for two keys passes, and the loop
    that looks for another recipient never ends. *)
Lemma equal_bank_keys_loop k draws : Forall (fun x => x ∈ [k; k]) draws -> draw_other k draws = None.
Proof.
  induction 1 as [|x l Hx _ IH]; [done|]. rewrite !elem_of_cons, elem_of_nil in Hx. cbn [draw_other].
  destruct Hx as [-> | [-> | []]]; by rewrite String.eqb_refl.
Qed.

(** ** Configuration *)

Lemma add_key_spec keys k : NoDup keys -> "" ∉ keys -> NoDup (add_key keys k) /\ ("" ∉ add_key keys k) /\
  forall x, x ∈ add_key keys k <-> x ∈ keys \/ x = k /\ k <> "".
Proof.
  intros Hn He. unfold add_key. destruct (String.eqb_spec k "") as [->|Hk]; [split_and!; [done..|naive_solver]|].
  case_bool_decide; [split_and!; [done..|naive_solver]|]. split_and!.
  - apply NoDup_app. split_and!; [done|set_solver|apply NoDup_singleton].
  - set_solver.
  - set_solver.
Qed.

(** The accounts to prime: every configured key, once. *)
Theorem uniqueKeys_spec cfg : NoDup (uniqueKeys cfg) /\
  forall k, k ∈ uniqueKeys cfg <->
    k <> "" /\ (k ∈ BankKeys cfg \/ k ∈ OracleKeys cfg \/ k ∈ RwaKeys cfg \/ k ∈ (FeederValidators cfg).*2).
Proof.
  assert (forall l keys, NoDup keys -> "" ∉ keys -> NoDup (foldl add_key keys l) /\
    forall x, x ∈ foldl add_key keys l <-> x ∈ keys \/ x <> "" /\ x ∈ l) as H.
  { induction l as [|k l IH]; intros keys Hn He; [cbn; split; [done|set_solver]|]. cbn [foldl].
    destruct (add_key_spec keys k Hn He) as (Hn' & He' & Hx). destruct (IH _ Hn' He') as [H1 H2].
    split; [done|]. intros x. rewrite H2, Hx, elem_of_cons. naive_solver. }
  destruct (H (BankKeys cfg ++ OracleKeys cfg ++ RwaKeys cfg ++ (FeederValidators cfg).*2) [] (NoDup_nil_2) (not_elem_of_nil _)) as [H1 H2].
  split; [exact H1|]. intros k. unfold uniqueKeys. rewrite H2, !elem_of_app, elem_of_nil. naive_solver.
Qed.

(** After [loadConfig] a ramp lasts at least a second, whatever the file says. *)
Theorem segDur_positive cfg : exists d, segDur (DurationSec (loadConfig cfg)) (RampRates (loadConfig cfg)) = Ok d /\ 1 <= d.
Proof.
  unfold segDur. assert (length (RampRates (loadConfig cfg)) <> 0)%nat as Hl.
  { unfold loadConfig. cbn [RampRates]. destruct (RampRates cfg); done. }
  destruct (Nat.eqb_spec (length (RampRates (loadConfig cfg))) 0); [done|]. eexists. split; [done|].
  destruct (Z.ltb_spec (Z.quot (DurationSec (loadConfig cfg)) (Z.of_nat (length (RampRates (loadConfig cfg))))) 1); lia.
Qed.
