(* ===== verification/App.v ===== *)
(** * app: the application

    app/app_config.go, the parts of app/app.go that decide behaviour, the upgrade
    handler and the wiring of the three modules (x/*/module/module.go): the module
    accounts and their permissions, the blocked addresses, the orders in which
    modules run, the delivery of messages to their handlers, the end of a block
    and the import of a genesis state. The SDK and IBC modules between the three
    are parameters ([SdkModules]). *)

From S2P Require Import Prelude Sdk World SdkRef Wire.
From S2P Require Import FeesTypes Fees OracleTypes OracleAgg OracleKeeper OracleEndBlock.
From S2P Require Import RwaTypes RwaKeeper RwaMsg RwaInv RwaSafety RwaRef.

Open Scope Z_scope.

(** ** app_config.go *)

Definition Burner : string := "burner".
Definition Minter : string := "minter".

Definition genesisModuleOrder : list string :=
  ["capability"; "auth"; "bank"; "distribution"; "staking"; OracleTypes.ModuleName; RwaTypes.ModuleName;
   "slashing"; "gov"; "crisis"; "ibc"; "genutil"; "evidence"; "authz"; "transfer"; "interchainaccounts";
   "feeibc"; "feegrant"; "params"; "upgrade"; "vesting"; "consensus"; FeesTypes.ModuleName]%string.

Definition beginBlockers : list string :=
  ["distribution"; "slashing"; "evidence"; "staking"; "authz"; "genutil"; "capability"; "ibc"; "transfer";
   "interchainaccounts"; "feeibc"]%string.

Definition endBlockers : list string :=
  ["crisis"; "gov"; "staking"; "feegrant"; "genutil"; "ibc"; "transfer"; "capability"; "interchainaccounts";
   "feeibc"; OracleTypes.ModuleName; RwaTypes.ModuleName; FeesTypes.ModuleName]%string.

Definition preBlockers : list string := ["upgrade"%string].

Definition moduleAccPerms : list (string * list string) :=
  [(FeesTypes.FeeCollectorName, []);
   ("distribution", []);
   ("bonded_tokens_pool", [Burner; "staking"]);
   ("not_bonded_tokens_pool", [Burner; "staking"]);
   ("gov", [Burner]);
   ("transfer", [Minter; Burner]);
   ("feeibc", []);
   ("interchainaccounts", []);
   (FeesTypes.ModuleName, [Burner]);
   (RwaTypes.ModuleName, [Minter; Burner])]%string.

Definition blockAccAddrs : list string :=
  [FeesTypes.FeeCollectorName; "distribution"; "bonded_tokens_pool"; "not_bonded_tokens_pool"]%string.

(** ** app.go *)

Definition Name : string := "vertix".
Definition AccountAddressPrefix : string := "vtx".

Definition GetMaccPerms : gmap string (list string) :=
  foldl (fun dup p => <[p.1 := p.2]> dup) ∅ moduleAccPerms.

Definition BlockedAddresses : gmap string bool :=
  match blockAccAddrs with
  | [] => foldl (fun result kv => <[kv.1 := true]> result) ∅ (map_to_list GetMaccPerms)
  | l => foldl (fun result addr => <[addr := true]> result) ∅ l
  end.

(** ** upgrades/v020/upgrade.go *)

Definition UpgradeName : string := "v0.2.0-testnet".

(** The registered handler; [RunMigrations] is the module manager's. *)
Definition upgrade_handler {W VM : Type} (RunMigrations : VM -> M W VM) (plan : string) (fromVM : VM) : M W VM :=
  if bool_decide (plan <> UpgradeName) then throw (Errorf "unexpected upgrade plan")
  else RunMigrations fromVM.

(** ** The modules of the SDK, by name *)

Class SdkModules (W : Type) : Type := {
  sdk_EndBlock : string -> M W unit;
  sdk_InitGenesis : string -> M W unit
}.

(** The genesis states of the three modules. *)
Record ChainGenesis : Type := mkChainGenesis {
  cg_oracle : OracleTypes.GenesisState;
  cg_rwa : RwaTypes.GenesisState;
  cg_fees : FeesTypes.GenesisState
}.

(** The messages of the three modules. *)
Inductive chain_msg : Type :=
| FeesUpdateParams (m : FeesTypes.MsgUpdateParams)
| OracleSetFeeder (m : MsgSetFeeder)
| OracleSubmitFeed (m : MsgSubmitFeed)
| OracleUpdateParams (m : OracleTypes.MsgUpdateParams)
| RwaRegisterAsset (m : MsgRegisterAsset)
| RwaAttestAsset (m : MsgAttestAsset)
| RwaMintRWA (m : MsgMintRWA)
| RwaTransferRWA (m : MsgTransferRWA)
| RwaUpdateRestrictions (m : MsgUpdateRestrictions)
| RwaSettleRWA (m : MsgSettleRWA)
| RwaSlashBond (m : MsgSlashBond)
| RwaUpdateParams (m : RwaTypes.MsgUpdateParams).

Section App.
Context {St X : Type} {KV : KVStore St} {SM : SdkMath} {CO : Coins} {BE : Bech32} {T : StdTime}
        {BK : BankKeeper X} {SK : StakingKeeper X} {SL : SlashingKeeper X}.
Local Abbreviation W := (world St X).
Context {SDK : SdkModules W}.

(** [ProvideModule] of the three modules: the authority is the governance
    account, as app_config.go sets none. *)
Definition gov_authority : string := AccString (GetModuleAddress "gov").
Definition fees_keeper : Fees.Keeper := Fees.mkKeeper gov_authority.
Definition oracle_keeper : OracleKeeper.Keeper := OracleKeeper.mkKeeper gov_authority true.
Definition rwa_keeper : RwaKeeper.Keeper := RwaKeeper.mkKeeper gov_authority.

(** The restriction that [New] appends to the bank keeper. *)
Definition app_send_restriction : W -> restr := send_restriction.

(** [AppModule.EndBlock] of x/oracle, x/rwa (a no-op) and x/fees. *)
Definition oracle_EndBlock : M W unit := OracleEndBlock.EndBlocker.
Definition rwa_EndBlock : M W unit := mret tt.
Definition fees_EndBlock : M W unit := Fees.EndBlocker app_send_restriction.

Definition module_EndBlock (name : string) : M W unit :=
  if bool_decide (name = OracleTypes.ModuleName) then oracle_EndBlock
  else if bool_decide (name = RwaTypes.ModuleName) then rwa_EndBlock
  else if bool_decide (name = FeesTypes.ModuleName) then fees_EndBlock
  else sdk_EndBlock name.

(** The end of a block: the end-blockers in their order, up to the first error. *)
Definition EndBlock : M W unit := mfor endBlockers module_EndBlock.

(** [AppModule.InitGenesis]. *)
Definition module_InitGenesis (gs : ChainGenesis) (name : string) : M W unit :=
  if bool_decide (name = OracleTypes.ModuleName) then OracleKeeper.InitGenesis oracle_keeper (cg_oracle gs)
  else if bool_decide (name = RwaTypes.ModuleName) then RwaKeeper.InitGenesis (cg_rwa gs)
  else if bool_decide (name = FeesTypes.ModuleName) then Fees.InitGenesis (cg_fees gs)
  else sdk_InitGenesis name.

Definition InitGenesis (gs : ChainGenesis) : M W unit := mfor genesisModuleOrder (module_InitGenesis gs).

(** The message router of baseapp, which is the SDK's: a message goes to the method of
    the message server that its module registered (the registrations themselves are
    translated in [GrpcServices], where [messages_routed] relates the two). *)
Definition deliver (m : chain_msg) : M W unit :=
  match m with
  | FeesUpdateParams m => Fees.UpdateParams fees_keeper m
  | OracleSetFeeder m => OracleKeeper.SetFeeder oracle_keeper m
  | OracleSubmitFeed m => OracleKeeper.SubmitFeed oracle_keeper m
  | OracleUpdateParams m => OracleKeeper.UpdateParams oracle_keeper m
  | RwaRegisterAsset m => RwaMsg.RegisterAsset m
  | RwaAttestAsset m => RwaMsg.AttestAsset m
  | RwaMintRWA m => RwaMsg.MintRWA m
  | RwaTransferRWA m => RwaMsg.TransferRWA m
  | RwaUpdateRestrictions m => RwaMsg.UpdateRestrictions m
  | RwaSettleRWA m => RwaMsg.SettleRWA m
  | RwaSlashBond m => RwaMsg.SlashBond rwa_keeper m
  | RwaUpdateParams m => RwaMsg.UpdateParams rwa_keeper m
  end.

End App.

(** ** The configuration itself *)

Lemma GetMaccPerms_lookup m ps : GetMaccPerms !! m = Some ps <-> (m, ps) ∈ moduleAccPerms.
Proof.
  split.
  - intros H. apply elem_of_map_to_list in H. revert H. generalize (m, ps). apply Forall_forall.
    assert (Forall (fun kv => kv ∈ moduleAccPerms) (map_to_list GetMaccPerms)) as H; [|exact H].
    vm_compute. repeat (apply Forall_cons; split; [by repeat constructor|]). constructor.
  - revert m ps. assert (Forall (fun p => GetMaccPerms !! p.1 = Some p.2) moduleAccPerms) as H.
    { repeat (apply Forall_cons; split; [vm_compute; reflexivity|]). constructor. }
    rewrite Forall_forall in H. intros m ps. apply (H (m, ps)).
Qed.

(** The only accounts that may mint are those of IBC transfer and x/rwa. *)
Lemma minters m ps : (m, ps) ∈ moduleAccPerms -> Minter ∈ ps ->
  m = "transfer"%string \/ m = RwaTypes.ModuleName.
Proof.
  intros Hin Hm. unfold moduleAccPerms in Hin.
  repeat (apply elem_of_cons in Hin as [Hin|Hin];
    [injection Hin as -> ->; first [by left|by right|exfalso; clear -Hm; set_solver]|]).
  by apply elem_of_nil in Hin.
Qed.
