(* ===== verification/GrpcServices.v ===== *)
(** * The services of the node

    The keepers behind the generated gRPC code: the query servers (keeper/grpc_query.go)
    and the message servers (keeper/msg_server.go) as [RegisterServices] of the three
    modules registers them. A query that a client of the library under api/vertix/ sends
    over a connection to the node is answered with the client's view of what the
    keeper answers, through two codecs and the handler; a message that the router of
    transactions gives to the handler of its method is delivered ([App.deliver]); the two
    registrations of the gateway answer alike. *)

From S2P Require Import Prelude Sdk World SdkRef Wire FeesTypes OracleTypes RwaTypes Codec Foreign.
From S2P Require Import WireMsg FeesCodec OracleCodec RwaCodec TwapCodec Pulsar Reflect.
From S2P Require Import ApiFees ApiOracle ApiRwa Interop Grpc GrpcFees GrpcOracle GrpcRwa ApiGrpcFees ApiGrpcOracle ApiGrpcRwa.
From S2P Require Import Fees OracleAgg OracleKeeper OracleEndBlock RwaKeeper RwaMsg RwaInv RwaSafety RwaRef App.

Open Scope Z_scope.

Section Services.
Context {St X : Type} {KV : KVStore St} {SM : SdkMath} {CO : Coins} {BE : Bech32}
        {BK : BankKeeper X} {SK : StakingKeeper X} {SL : SlashingKeeper X}.
Local Abbreviation W := (world St X).
Context {T : StdTime} {TL : StdTimeLaws} {TT : StdTimeTotal} {P : ProtoRuntime} {PL : ProtoRuntimeLaws}
  {SI : SdkImports} {SIL : SdkImportsLaws} {I : ApiImports} {IL : ApiImportsLaws}
  {SH : SharedImports} {SHL : SharedImportsLaws} {D : DecWire} {DL : DecWireLaws}.

(** [query.Paginate], on requests and responses that may be nil. *)
Context (paginate : list (bytes * bytes) -> option WireMsg.PageRequest ->
  res (list (bytes * bytes) * option WireMsg.PageResponse)).

#[local] Instance page_keeper : Pagination := {|
  RwaKeeper.PageRequest := option WireMsg.PageRequest;
  RwaKeeper.PageResponse := option WireMsg.PageResponse;
  Paginate := paginate
|}.

(** ** The servers *)

Definition fees_QueryServer : GrpcFees.QueryServer (W := W) := GrpcFees.mkQueryServer
  (fun _ => params ← ask (fun w : W => Fees.QueryParams (Some tt) w); mret (FeesCodec.mkQueryParamsResponse params)).

Definition oracle_QueryServer : GrpcOracle.QueryServer (W := W) := GrpcOracle.mkQueryServer
  (fun req => ap ← ask (fun w : W => QueryPrice (Some (OracleCodec.qp_req_Pair req)) w); mret (OracleCodec.mkQueryPriceResponse ap))
  (fun req => price ← ask (fun w : W => QueryTwap (Some (OracleCodec.qt_req_Pair req, OracleCodec.qt_req_WindowSeconds req)) w);
              mret (TwapCodec.mkQueryTwapResponse (Some price)))
  (fun _ => params ← ask (fun w : W => OracleKeeper.QueryParams (Some tt) w); mret (OracleCodec.mkQueryParamsResponse params))
  (fun req => '(misses, total) ← ask (fun w : W => QueryMissCounter (Some (OracleCodec.qmc_req_Validator req)) w);
              mret (OracleCodec.mkQueryMissCounterResponse misses total))
  (fun req => feeder ← ask (fun w : W => QueryFeeder (Some (OracleCodec.qf_req_Validator req)) w); mret (OracleCodec.mkQueryFeederResponse feeder)).

Definition rwa_QueryServer : GrpcRwa.QueryServer (W := W) := GrpcRwa.mkQueryServer
  (fun req => rec ← ask (fun w : W => QueryAsset (Some (RwaCodec.qa_req_AssetId req)) w); mret (RwaCodec.mkQueryAssetResponse rec))
  (fun req => '(assets, pageRes) ← ask (fun w : W => QueryAssetsByIssuer (KV := KV) (Some (RwaCodec.qabi_req_Issuer req, RwaCodec.qabi_req_Pagination req)) w);
              mret (RwaCodec.mkQueryAssetsByIssuerResponse assets pageRes))
  (fun req => '(allowAll, allow, deny) ← ask (fun w : W => QueryRestrictions (Some (RwaCodec.qr_req_AssetId req)) w);
              mret (RwaCodec.mkQueryRestrictionsResponse allowAll allow deny))
  (fun _ => params ← ask (fun w : W => RwaKeeper.QueryParams (Some tt) w); mret (RwaCodec.mkQueryParamsResponse params)).

Definition fees_MsgServer : GrpcFees.MsgServer (W := W) := GrpcFees.mkMsgServer
  (fun m => _ ← Fees.UpdateParams fees_keeper m; mret FeesCodec.mkMsgUpdateParamsResponse).

Definition oracle_MsgServer : GrpcOracle.MsgServer (W := W) := GrpcOracle.mkMsgServer
  (fun m => _ ← SetFeeder oracle_keeper m; mret OracleCodec.mkMsgSetFeederResponse)
  (fun m => _ ← SubmitFeed oracle_keeper m; mret OracleCodec.mkMsgSubmitFeedResponse)
  (fun m => _ ← OracleKeeper.UpdateParams oracle_keeper m; mret OracleCodec.mkMsgUpdateParamsResponse).

Definition rwa_MsgServer : GrpcRwa.MsgServer (W := W) := GrpcRwa.mkMsgServer
  (fun m => _ ← RegisterAsset m; mret RwaCodec.mkMsgRegisterAssetResponse)
  (fun m => _ ← AttestAsset m; mret RwaCodec.mkMsgAttestAssetResponse)
  (fun m => _ ← MintRWA m; mret RwaCodec.mkMsgMintRWAResponse)
  (fun m => _ ← TransferRWA m; mret RwaCodec.mkMsgTransferRWAResponse)
  (fun m => _ ← SettleRWA m; mret RwaCodec.mkMsgSettleRWAResponse)
  (fun m => _ ← UpdateRestrictions m; mret RwaCodec.mkMsgUpdateRestrictionsResponse)
  (fun m => _ ← SlashBond rwa_keeper m; mret RwaCodec.mkMsgSlashBondResponse)
  (fun m => _ ← RwaMsg.UpdateParams rwa_keeper m; mret RwaCodec.mkMsgUpdateParamsResponse).

(** ** Queries *)

(** How the gRPC runtime turns an error of a handler into a status. *)
Context (status : error -> error).

(** A query: the types of the request and the response in the two bindings, the method of
    the keeper, the stubs of the two clients, and a connection to the service. *)
Record rpc : Type := mkRpc {
  rp_req : Type; rp_resp : Type; rp_api_req : Type; rp_api_resp : Type;
  rp_reqM :: GoMsg rp_req; rp_respM :: GoMsg rp_resp;
  rp_req_wf : rp_req -> Prop; rp_resp_wf : rp_resp -> Prop;
  rp_req_view :: ToApi rp_req rp_api_req; rp_resp_view :: ToApi rp_resp rp_api_resp;
  rp_keeper : rp_req -> M W rp_resp;
  rp_client : ClientConn (W := W) -> rp_req -> M W rp_resp;
  rp_api_client : ClientConn (W := W) -> rp_api_req -> M W rp_api_resp;
  rp_connected : ClientConn (W := W) -> Prop
}.

(** The connection reaches the service with the given server behind it. *)
Definition connected {any Srv} (encode : any -> res bytes) (desc : ServiceDesc any Srv) (srv : Srv) (cc : ClientConn (W := W)) : Prop :=
  exists o, transparent o /\ serves encode status cc desc srv o.

Definition rpc_of (A B A' B' : Type) {GA : GoMsg A} {SA : Schema A} {LA : GoMsgLaws A} {GB : GoMsg B} {SB : Schema B} {LB : GoMsgLaws B}
    {VA : ToApi A A'} {VB : ToApi B B'} (keeper : A -> M W B) (client : ClientConn -> A -> M W B)
    (api_client : ClientConn -> A' -> M W B') (conn : ClientConn -> Prop) : rpc :=
  mkRpc A B A' B' GA GB msg_wf msg_wf VA VB keeper client api_client conn.

Definition fees_connected := connected GrpcFees.any_Marshal GrpcFees.Query_serviceDesc fees_QueryServer.
Definition oracle_connected := connected GrpcOracle.any_Marshal GrpcOracle.Query_serviceDesc oracle_QueryServer.
Definition rwa_connected := connected GrpcRwa.any_Marshal GrpcRwa.Query_serviceDesc rwa_QueryServer.

Definition queries : list rpc :=
  [rpc_of FeesCodec.QueryParamsRequest FeesCodec.QueryParamsResponse ApiFees.QueryParamsRequest ApiFees.QueryParamsResponse
     (GrpcFees.QueryServer_Params fees_QueryServer) GrpcFees.queryClient_call_Params ApiGrpcFees.queryClient_call_Params fees_connected;
   rpc_of OracleCodec.QueryPriceRequest OracleCodec.QueryPriceResponse ApiOracle.QueryPriceRequest ApiOracle.QueryPriceResponse
     (GrpcOracle.QueryServer_Price oracle_QueryServer) GrpcOracle.queryClient_call_Price ApiGrpcOracle.queryClient_call_Price oracle_connected;
   rpc_of OracleCodec.QueryTwapRequest TwapCodec.QueryTwapResponse ApiOracle.QueryTwapRequest ApiOracle.QueryTwapResponse
     (GrpcOracle.QueryServer_Twap oracle_QueryServer) GrpcOracle.queryClient_call_Twap ApiGrpcOracle.queryClient_call_Twap oracle_connected;
   rpc_of OracleCodec.QueryParamsRequest OracleCodec.QueryParamsResponse ApiOracle.QueryParamsRequest ApiOracle.QueryParamsResponse
     (GrpcOracle.QueryServer_Params oracle_QueryServer) GrpcOracle.queryClient_call_Params ApiGrpcOracle.queryClient_call_Params oracle_connected;
   rpc_of OracleCodec.QueryMissCounterRequest OracleCodec.QueryMissCounterResponse ApiOracle.QueryMissCounterRequest ApiOracle.QueryMissCounterResponse
     (GrpcOracle.QueryServer_MissCounter oracle_QueryServer) GrpcOracle.queryClient_call_MissCounter ApiGrpcOracle.queryClient_call_MissCounter oracle_connected;
   rpc_of OracleCodec.QueryFeederRequest OracleCodec.QueryFeederResponse ApiOracle.QueryFeederRequest ApiOracle.QueryFeederResponse
     (GrpcOracle.QueryServer_Feeder oracle_QueryServer) GrpcOracle.queryClient_call_Feeder ApiGrpcOracle.queryClient_call_Feeder oracle_connected;
   rpc_of RwaCodec.QueryAssetRequest RwaCodec.QueryAssetResponse ApiRwa.QueryAssetRequest ApiRwa.QueryAssetResponse
     (GrpcRwa.QueryServer_Asset rwa_QueryServer) GrpcRwa.queryClient_call_Asset ApiGrpcRwa.queryClient_call_Asset rwa_connected;
   rpc_of RwaCodec.QueryAssetsByIssuerRequest RwaCodec.QueryAssetsByIssuerResponse ApiRwa.QueryAssetsByIssuerRequest ApiRwa.QueryAssetsByIssuerResponse
     (GrpcRwa.QueryServer_AssetsByIssuer rwa_QueryServer) GrpcRwa.queryClient_call_AssetsByIssuer ApiGrpcRwa.queryClient_call_AssetsByIssuer rwa_connected;
   rpc_of RwaCodec.QueryRestrictionsRequest RwaCodec.QueryRestrictionsResponse ApiRwa.QueryRestrictionsRequest ApiRwa.QueryRestrictionsResponse
     (GrpcRwa.QueryServer_Restrictions rwa_QueryServer) GrpcRwa.queryClient_call_Restrictions ApiGrpcRwa.queryClient_call_Restrictions rwa_connected;
   rpc_of RwaCodec.QueryParamsRequest RwaCodec.QueryParamsResponse ApiRwa.QueryParamsRequest ApiRwa.QueryParamsResponse
     (GrpcRwa.QueryServer_Params rwa_QueryServer) GrpcRwa.queryClient_call_Params ApiGrpcRwa.queryClient_call_Params rwa_connected].

(** The answer of the keeper, through a connection to its service. *)
Definition answered (t : rpc) (cc : ClientConn) (m : rp_req t) (w : W) : Prop :=
  match rp_keeper t m w with
  | (w', Ok r) => rp_resp_wf t r -> msg_Size r < two63 ->
      rp_api_client t cc (to_api m) w = (w', Ok (to_api r)) /\ rp_client t cc m w = (w', Ok r)
  | (w', Err e) =>
      rp_api_client t cc (to_api m) w = (w', Err (status e)) /\ rp_client t cc m w = (w', Err (status e))
  | (_, Panic) => True
  end.

(** One query, from the laws of its types. *)
Section OneQuery.
Context (A B A' B' : Type) {GA : GoMsg A} {SA : Schema A} {LA : GoMsgLaws A} {GB : GoMsg B} {SB : Schema B} {LB : GoMsgLaws B}
  {MA' : PulsarMsg A'} {SA' : Schema A'} {FA' : PulsarStrip A'} {LA' : PulsarLaws A'} {MB' : PulsarMsg B'} {SB' : Schema B'} {FB' : PulsarStrip B'} {LB' : PulsarLaws B'}
  {VA : ToApi A A'} {VAL : ToApiLaws A A'} {VB : ToApi B B'} {VBL : ToApiLaws B B'}.

Lemma one_query {any Srv} (encode : any -> res bytes) (desc : ServiceDesc any Srv) srv name full (call : Srv -> A -> M W B) ofA asA ofB
    cc (m : A) w :
  connected encode desc srv cc -> (name, unary_handler full call ofA asA ofB) ∈ Methods desc ->
  (forall x, asA (ofA x) = Ok x) -> (forall x, encode (ofB x) = g_Marshal x) -> msg_wf m -> msg_Size m < two63 ->
  answered (rpc_of A B A' B' (call srv)
    (fun cc => client_call cc ("/" +:+ ServiceName desc +:+ "/" +:+ name))
    (fun cc => client_call cc ("/" +:+ ServiceName desc +:+ "/" +:+ name)) (connected encode desc srv)) cc m w.
Proof.
  intros (o & Ht & Hs) Hin Has Hen Hm Hsz.
  destruct (codecs_agree A A' m Hm Hsz) as (b & E1 & E2 & _ & E4).
  assert (g_Marshal (to_api m) = Ok b) as Em by apply (E2 []).
  pose proof (served_call encode status cc desc srv o name full call ofA asA ofB to_api (to_api (A := B) (B := B')) m b w Hs Ht Has Hin Em E4) as H1.
  pose proof (served_call encode status cc desc srv o name full call ofA asA ofB id (@id B) m b w Hs Ht Has Hin E1 E4) as H2.
  unfold answered. cbn [rp_keeper rp_client rp_api_client rp_resp_wf rp_resp rp_respM rpc_of] in *.
  destruct (call srv m w) as [w' [r|e|]]; [| |done].
  - intros Hr Hsr. destruct (codecs_agree B B' r Hr Hsr) as (rb & F1 & _ & F3 & F4).
    assert (encode (ofB r) = Ok rb) as F by (rewrite Hen; exact F1). split.
    + apply (H1 rb F). unfold g_Unmarshal, pulsar_grpc. by rewrite F3.
    + apply (H2 rb F), F4.
  - done.
Qed.

End OneQuery.

(** The query of the given name, at its position in the service. *)
Ltac query_case mar desc srv name call i := intros cc m w Hc Hm Hs;
  eapply (one_query _ _ _ _ mar desc srv name _ call _ _ _ cc m w Hc);
  [apply (list_elem_of_lookup_2 _ i); reflexivity|reflexivity|reflexivity|exact Hm|exact Hs].
Ltac fees_case := query_case GrpcFees.any_Marshal (GrpcFees.Query_serviceDesc (W := W)) fees_QueryServer.
Ltac oracle_case := query_case (GrpcOracle.any_Marshal (D := D)) (GrpcOracle.Query_serviceDesc (W := W)) oracle_QueryServer.
Ltac rwa_case := query_case (GrpcRwa.any_Marshal (I := SI)) (GrpcRwa.Query_serviceDesc (W := W)) rwa_QueryServer.

(** C9: a query over gRPC is answered by the keeper. For each of the ten queries, over a
    connection to the service that the module registered: the stub of the client
    library, given the client's view of a request, returns the client's view of what
    the keeper answers, and the stub of the node's own binding returns the answer
    itself; an error of the keeper comes back as its status. On the way the request is
    encoded by one codec and decoded by the other, dispatched to the generated handler
    by the name of its method, and the answer goes the way back. *)
Theorem queries_end_to_end :
  Forall (fun t => forall cc (m : rp_req t) w, rp_connected t cc -> rp_req_wf t m -> msg_Size m < two63 ->
    answered t cc m w) queries.
Proof.
  repeat (apply Forall_cons; split); [..|by apply Forall_nil].
  - fees_case "Params"%string (GrpcFees.QueryServer_Params (W := W)) 0%nat.
  - oracle_case "Price"%string (GrpcOracle.QueryServer_Price (W := W)) 0%nat.
  - oracle_case "Twap"%string (GrpcOracle.QueryServer_Twap (W := W)) 1%nat.
  - oracle_case "Params"%string (GrpcOracle.QueryServer_Params (W := W)) 2%nat.
  - oracle_case "MissCounter"%string (GrpcOracle.QueryServer_MissCounter (W := W)) 3%nat.
  - oracle_case "Feeder"%string (GrpcOracle.QueryServer_Feeder (W := W)) 4%nat.
  - rwa_case "Asset"%string (GrpcRwa.QueryServer_Asset (W := W)) 0%nat.
  - rwa_case "AssetsByIssuer"%string (GrpcRwa.QueryServer_AssetsByIssuer (W := W)) 1%nat.
  - rwa_case "Restrictions"%string (GrpcRwa.QueryServer_Restrictions (W := W)) 2%nat.
  - rwa_case "Params"%string (GrpcRwa.QueryServer_Params (W := W)) 3%nat.
Qed.

(** ** Messages *)

(** What the router of transactions gives to a handler: a decoder that changes nothing but
    the new request, and an interceptor that hands the handler the message of the
    transaction. *)
Definition routes_to {any Srv} (msg : any) (dec : Decoder (W := W)) (ic : Interceptor (W := W) any Srv) : Prop :=
  (forall A (G : GrpcMsg A) x w, exists x', dec A G x w = (w, Ok x')) /\
  (forall x info handler w, ic x info handler w = handler msg w).

Lemma handler_routed {any Srv A B} {GA : GrpcMsg A} full (call : Srv -> A -> M W B) ofA asA (ofB : B -> any) srv dec ic (d : M W unit) resp m w :
  routes_to (ofA m) dec ic -> (forall x, asA (ofA x) = Ok x) -> (call srv m = (_ ← d; mret resp)) ->
  unary_handler full call ofA asA ofB srv dec (Some ic) w = (_ ← d; mret (ofB resp)) w.
Proof.
  intros [Hd Hi] Has Hc. unfold unary_handler. destruct (Hd A GA g_new w) as [x' E].
  erewrite bind_Ok_run by exact E. rewrite Hi. erewrite bind_lift_run by apply Has. rewrite Hc, !M_bind_run.
  by destruct (d w) as [w' [[]|e|]].
Qed.

(** The service registers, under the name of the method, a handler that does with a
    message what [deliver] does, with the same error or panic, and then gives the
    answer. *)
Definition reaches {any Srv A} (desc : ServiceDesc (W := W) any Srv) (srv : Srv) (name : string) (ofA : A -> any) (answer : any)
    (chain : A -> chain_msg) : Prop :=
  exists handler, (name, handler) ∈ Methods desc /\
    forall m dec ic w, routes_to (ofA m) dec ic ->
      handler srv dec (Some ic) w = (_ ← deliver (chain m); mret answer) w.

Ltac method_at i := eexists; split; [apply (list_elem_of_lookup_2 _ i); reflexivity|];
  intros m dec ic w Hr; by eapply handler_routed.

(** Every message of a transaction reaches its handler. For each of the twelve messages
    of the three modules, the handler that the message service registers under the name
    of its method, run by the router of transactions, does exactly what [deliver] does
    with the message, with the same error or panic, and answers with the empty
    response. *)
Theorem messages_routed :
  reaches (GrpcFees.Msg_serviceDesc (W := W)) fees_MsgServer "UpdateParams" GrpcFees.Any_MsgUpdateParams
    (GrpcFees.Any_MsgUpdateParamsResponse FeesCodec.mkMsgUpdateParamsResponse) FeesUpdateParams /\
  reaches (GrpcOracle.Msg_serviceDesc (W := W)) oracle_MsgServer "SetFeeder" GrpcOracle.Any_MsgSetFeeder
    (GrpcOracle.Any_MsgSetFeederResponse OracleCodec.mkMsgSetFeederResponse) OracleSetFeeder /\
  reaches (GrpcOracle.Msg_serviceDesc (W := W)) oracle_MsgServer "SubmitFeed" GrpcOracle.Any_MsgSubmitFeed
    (GrpcOracle.Any_MsgSubmitFeedResponse OracleCodec.mkMsgSubmitFeedResponse) OracleSubmitFeed /\
  reaches (GrpcOracle.Msg_serviceDesc (W := W)) oracle_MsgServer "UpdateParams" GrpcOracle.Any_MsgUpdateParams
    (GrpcOracle.Any_MsgUpdateParamsResponse OracleCodec.mkMsgUpdateParamsResponse) OracleUpdateParams /\
  reaches (GrpcRwa.Msg_serviceDesc (W := W)) rwa_MsgServer "RegisterAsset" GrpcRwa.Any_MsgRegisterAsset
    (GrpcRwa.Any_MsgRegisterAssetResponse RwaCodec.mkMsgRegisterAssetResponse) RwaRegisterAsset /\
  reaches (GrpcRwa.Msg_serviceDesc (W := W)) rwa_MsgServer "AttestAsset" GrpcRwa.Any_MsgAttestAsset
    (GrpcRwa.Any_MsgAttestAssetResponse RwaCodec.mkMsgAttestAssetResponse) RwaAttestAsset /\
  reaches (GrpcRwa.Msg_serviceDesc (W := W)) rwa_MsgServer "MintRWA" GrpcRwa.Any_MsgMintRWA
    (GrpcRwa.Any_MsgMintRWAResponse RwaCodec.mkMsgMintRWAResponse) RwaMintRWA /\
  reaches (GrpcRwa.Msg_serviceDesc (W := W)) rwa_MsgServer "TransferRWA" GrpcRwa.Any_MsgTransferRWA
    (GrpcRwa.Any_MsgTransferRWAResponse RwaCodec.mkMsgTransferRWAResponse) RwaTransferRWA /\
  reaches (GrpcRwa.Msg_serviceDesc (W := W)) rwa_MsgServer "SettleRWA" GrpcRwa.Any_MsgSettleRWA
    (GrpcRwa.Any_MsgSettleRWAResponse RwaCodec.mkMsgSettleRWAResponse) RwaSettleRWA /\
  reaches (GrpcRwa.Msg_serviceDesc (W := W)) rwa_MsgServer "UpdateRestrictions" GrpcRwa.Any_MsgUpdateRestrictions
    (GrpcRwa.Any_MsgUpdateRestrictionsResponse RwaCodec.mkMsgUpdateRestrictionsResponse) RwaUpdateRestrictions /\
  reaches (GrpcRwa.Msg_serviceDesc (W := W)) rwa_MsgServer "SlashBond" GrpcRwa.Any_MsgSlashBond
    (GrpcRwa.Any_MsgSlashBondResponse RwaCodec.mkMsgSlashBondResponse) RwaSlashBond /\
  reaches (GrpcRwa.Msg_serviceDesc (W := W)) rwa_MsgServer "UpdateParams" GrpcRwa.Any_MsgUpdateParams
    (GrpcRwa.Any_MsgUpdateParamsResponse RwaCodec.mkMsgUpdateParamsResponse) RwaUpdateParams.
Proof.
  split_and!.
  - method_at 0%nat.
  - method_at 0%nat.
  - method_at 1%nat.
  - method_at 2%nat.
  - method_at 0%nat.
  - method_at 1%nat.
  - method_at 2%nat.
  - method_at 3%nat.
  - method_at 4%nat.
  - method_at 5%nat.
  - method_at 6%nat.
  - method_at 7%nat.
Qed.

(** ** The gateway *)

Context {RT : GatewayRuntime (W := W)}.

(** The gateway runtime as documented: [runtime.String] is the identity, [runtime.Uint64]
    parses a [uint64], and a form fills a request that can be sent. *)
Class GatewayLaws : Prop := {
  gl_String s : rt_String s = Ok s;
  gl_Uint64 s z : rt_Uint64 s = Ok z -> 0 <= z < two64;
  gl_form (m m' : RwaCodec.QueryAssetsByIssuerRequest) form filter :
    PopulateQueryParameters m form filter = Ok m' -> msg_wf m' /\ msg_Size m' < two63
}.
Context {GL : GatewayLaws} (status_status : forall c, status (Status c) = Status c).

(** The segments of a path that a server accepts. *)
Definition short_params (pathParams : gmap string string) : Prop :=
  forall name val, pathParams !! name = Some val -> zlen (bytes_of val) < 2 ^ 32.

(** The remote call ends as the local one: with the same answer, when it can be encoded,
    or with the status of its error. *)
Definition ends_alike {B} {GB : GoMsg B} {SB : Schema B} {LB : GoMsgLaws B} (local remote : M W B) (w : W) : Prop :=
  match local w with
  | (w', Ok r) => msg_wf r -> msg_Size r < two63 -> remote w = (w', Ok r)
  | (w', Err e) => remote w = (w', Err (status e))
  | (_, Panic) => True
  end.

Definition same_gateway {B} {GB : GoMsg B} {SB : Schema B} {LB : GoMsgLaws B} (conn : ClientConn (W := W) -> Prop)
    (local : HttpRequest -> gmap string string -> M W B) (remote : ClientConn -> HttpRequest -> gmap string string -> M W B) : Prop :=
  forall cc req pathParams w, conn cc -> short_params pathParams -> ends_alike (local req pathParams) (remote cc req pathParams) w.

Lemma alike_lift {A B} {GB : GoMsg B} {SB : Schema B} {LB : GoMsgLaws B} (r : res A) (local remote : A -> M W B) w :
  (forall a, r = Ok a -> ends_alike (local a) (remote a) w) ->
  ends_alike (a ← lift (wrap_err BadRequest r); local a) (a ← lift (wrap_err BadRequest r); remote a) w.
Proof.
  intros H. unfold ends_alike. rewrite !M_bind_run. unfold lift.
  destruct r as [a|e|]; cbn [wrap_err]; [by apply H| |done]. unfold BadRequest. by rewrite status_status.
Qed.

Lemma alike_param {A B} {GB : GoMsg B} {SB : Schema B} {LB : GoMsgLaws B} name (parse : string -> res A) pathParams (local remote : A -> M W B) w :
  (forall val a, pathParams !! name = Some val -> parse val = Ok a -> ends_alike (local a) (remote a) w) ->
  ends_alike (a ← path_param name parse pathParams; local a) (a ← path_param name parse pathParams; remote a) w.
Proof.
  intros H. unfold path_param. destruct (pathParams !! name) as [val|]; [apply alike_lift; eauto|].
  unfold ends_alike. rewrite !M_bind_run. unfold throw, BadRequest. by rewrite status_status.
Qed.

Lemma alike_form {B} {GB : GoMsg B} {SB : Schema B} {LB : GoMsgLaws B} (m : RwaCodec.QueryAssetsByIssuerRequest) req filter (local remote : _ -> M W B) w :
  (forall m', msg_wf m' -> msg_Size m' < two63 -> ends_alike (local m') (remote m') w) ->
  ends_alike (m ← query_params m req filter; local m) (m ← query_params m req filter; remote m) w.
Proof.
  intros H. unfold query_params.
  assert (forall k : _ -> M W B, (m ← (form ← lift (wrap_err BadRequest (ParseForm req));
      lift (wrap_err BadRequest (PopulateQueryParameters m form filter))); k m) w =
    (form ← lift (wrap_err BadRequest (ParseForm req));
      m ← lift (wrap_err BadRequest (PopulateQueryParameters m form filter)); k m) w) as E.
  { intros k. rewrite !M_bind_run. by destruct (lift (wrap_err BadRequest (ParseForm req)) w) as [w' [f|e|]]. }
  unfold ends_alike. rewrite !E. apply alike_lift. intros form _. apply alike_lift. intros m' Hm'.
  apply gl_form in Hm' as [? ?]. by apply H.
Qed.

(** The last step of a gateway function: the query itself. *)
Lemma alike_query (t : rpc) {SB : Schema (rp_resp t)} {LB : GoMsgLaws (rp_resp t)} cc m w : rp_resp_wf t = msg_wf -> answered t cc m w ->
  ends_alike (rp_keeper t m) (rp_client t cc m) w.
Proof.
  intros Hwf H. unfold answered, ends_alike in *. destruct (rp_keeper t m w) as [w' [r|e|]]; [|by apply H|done].
  rewrite Hwf in H. intros Hr Hs. by apply H.
Qed.

(** One query through the gateway. *)
Section OneRoute.
Context (A B A' B' : Type) {GA : GoMsg A} {SA : Schema A} {LA : GoMsgLaws A} {GB : GoMsg B} {SB : Schema B} {LB : GoMsgLaws B}
  {MA' : PulsarMsg A'} {SA' : Schema A'} {FA' : PulsarStrip A'} {LA' : PulsarLaws A'} {MB' : PulsarMsg B'} {SB' : Schema B'} {FB' : PulsarStrip B'} {LB' : PulsarLaws B'}
  {VA : ToApi A A'} {VAL : ToApiLaws A A'} {VB : ToApi B B'} {VBL : ToApiLaws B B'}.

Lemma one_route {any Srv} (encode : any -> res bytes) (desc : ServiceDesc any Srv) srv name full (call : Srv -> A -> M W B) ofA asA ofB
    cc (m : A) w :
  connected encode desc srv cc -> (name, unary_handler full call ofA asA ofB) ∈ Methods desc ->
  (forall x, asA (ofA x) = Ok x) -> (forall x, encode (ofB x) = g_Marshal x) -> msg_wf m -> msg_Size m < two63 ->
  ends_alike (call srv m) (client_call cc ("/" +:+ ServiceName desc +:+ "/" +:+ name) m) w.
Proof.
  intros Hc Hin Has Hen Hm Hs.
  apply (alike_query (rpc_of A B A' B' (call srv) (fun cc => client_call cc ("/" +:+ ServiceName desc +:+ "/" +:+ name))
    (fun cc => client_call cc ("/" +:+ ServiceName desc +:+ "/" +:+ name)) (connected encode desc srv))); [done|].
  by eapply one_query.
Qed.

End OneRoute.

Lemma short_string name pathParams val v : short_params pathParams -> pathParams !! name = Some val -> rt_String val = Ok v ->
  size_string v < 2 ^ 33.
Proof.
  intros Hp Hv. rewrite gl_String. intros [= <-]. specialize (Hp _ _ Hv).
  pose proof (size_string_le val). unfold two64 in *. lia.
Qed.

Ltac route_case A' B' mar desc srv name call i :=
  eapply (one_route _ _ A' B' mar desc srv name _ call);
  [eassumption|apply (list_elem_of_lookup_2 _ i); reflexivity|reflexivity|reflexivity| |].
Ltac oracle_route A' B' := route_case A' B' (GrpcOracle.any_Marshal (D := D)) (GrpcOracle.Query_serviceDesc (W := W)) oracle_QueryServer.

Ltac fees_route A' B' := route_case A' B' GrpcFees.any_Marshal (GrpcFees.Query_serviceDesc (W := W)) fees_QueryServer.
Ltac rwa_route A' B' := route_case A' B' (GrpcRwa.any_Marshal (I := SI)) (GrpcRwa.Query_serviceDesc (W := W)) rwa_QueryServer.
Ltac route_param v := apply alike_param; let val := fresh "val" in let Hv := fresh "Hv" in let H := fresh "Hs" in
  intros val v Hv H; match goal with Hp : short_params _ |- _ => pose proof (short_string _ _ _ _ Hp Hv H) end.
Ltac short_request v := first [exact Logic.I|change (size_string v < two63); unfold two63; lia].

(** The two registrations of the gateway answer alike: for each of the ten queries, the
    function that calls the server in the process and the one that calls it over a
    connection end with the same answer, or the second with the status of the error of
    the first. *)
Theorem gateways_agree :
  same_gateway fees_connected (GrpcFees.local_request_Query_Params_0 fees_QueryServer)
    (fun cc => GrpcFees.request_Query_Params_0 (GrpcFees.NewQueryClient cc)) /\
  same_gateway oracle_connected (GrpcOracle.local_request_Query_Price_0 oracle_QueryServer)
    (fun cc => GrpcOracle.request_Query_Price_0 (GrpcOracle.NewQueryClient cc)) /\
  same_gateway oracle_connected (GrpcOracle.local_request_Query_Twap_0 oracle_QueryServer)
    (fun cc => GrpcOracle.request_Query_Twap_0 (GrpcOracle.NewQueryClient cc)) /\
  same_gateway oracle_connected (GrpcOracle.local_request_Query_Params_0 oracle_QueryServer)
    (fun cc => GrpcOracle.request_Query_Params_0 (GrpcOracle.NewQueryClient cc)) /\
  same_gateway oracle_connected (GrpcOracle.local_request_Query_MissCounter_0 oracle_QueryServer)
    (fun cc => GrpcOracle.request_Query_MissCounter_0 (GrpcOracle.NewQueryClient cc)) /\
  same_gateway oracle_connected (GrpcOracle.local_request_Query_Feeder_0 oracle_QueryServer)
    (fun cc => GrpcOracle.request_Query_Feeder_0 (GrpcOracle.NewQueryClient cc)) /\
  same_gateway rwa_connected (GrpcRwa.local_request_Query_Asset_0 rwa_QueryServer)
    (fun cc => GrpcRwa.request_Query_Asset_0 (GrpcRwa.NewQueryClient cc)) /\
  same_gateway rwa_connected (GrpcRwa.local_request_Query_AssetsByIssuer_0 rwa_QueryServer)
    (fun cc => GrpcRwa.request_Query_AssetsByIssuer_0 (GrpcRwa.NewQueryClient cc)) /\
  same_gateway rwa_connected (GrpcRwa.local_request_Query_Restrictions_0 rwa_QueryServer)
    (fun cc => GrpcRwa.request_Query_Restrictions_0 (GrpcRwa.NewQueryClient cc)) /\
  same_gateway rwa_connected (GrpcRwa.local_request_Query_Params_0 rwa_QueryServer)
    (fun cc => GrpcRwa.request_Query_Params_0 (GrpcRwa.NewQueryClient cc)).
Proof.
  split_and!; intros cc req pathParams w Hc Hp.
  - fees_route ApiFees.QueryParamsRequest ApiFees.QueryParamsResponse "Params"%string (GrpcFees.QueryServer_Params (W := W)) 0%nat; done.
  - route_param v. oracle_route ApiOracle.QueryPriceRequest ApiOracle.QueryPriceResponse "Price"%string (GrpcOracle.QueryServer_Price (W := W)) 0%nat;
      short_request v.
  - route_param v. apply alike_param. intros val2 z Hz Hz2. apply gl_Uint64 in Hz2. pose proof (size_int_le z).
    oracle_route ApiOracle.QueryTwapRequest ApiOracle.QueryTwapResponse "Twap"%string (GrpcOracle.QueryServer_Twap (W := W)) 1%nat;
      [exact Hz2|]. change (size_string v + size_int z < two63). unfold two63. lia.
  - oracle_route ApiOracle.QueryParamsRequest ApiOracle.QueryParamsResponse "Params"%string (GrpcOracle.QueryServer_Params (W := W)) 2%nat; done.
  - route_param v. oracle_route ApiOracle.QueryMissCounterRequest ApiOracle.QueryMissCounterResponse "MissCounter"%string
      (GrpcOracle.QueryServer_MissCounter (W := W)) 3%nat; short_request v.
  - route_param v. oracle_route ApiOracle.QueryFeederRequest ApiOracle.QueryFeederResponse "Feeder"%string
      (GrpcOracle.QueryServer_Feeder (W := W)) 4%nat; short_request v.
  - route_param v. rwa_route ApiRwa.QueryAssetRequest ApiRwa.QueryAssetResponse "Asset"%string (GrpcRwa.QueryServer_Asset (W := W)) 0%nat;
      short_request v.
  - route_param v. apply alike_form. intros m Hm Hsz.
    rwa_route ApiRwa.QueryAssetsByIssuerRequest ApiRwa.QueryAssetsByIssuerResponse "AssetsByIssuer"%string
      (GrpcRwa.QueryServer_AssetsByIssuer (W := W)) 1%nat; done.
  - route_param v. rwa_route ApiRwa.QueryRestrictionsRequest ApiRwa.QueryRestrictionsResponse "Restrictions"%string
      (GrpcRwa.QueryServer_Restrictions (W := W)) 2%nat; short_request v.
  - rwa_route ApiRwa.QueryParamsRequest ApiRwa.QueryParamsResponse "Params"%string (GrpcRwa.QueryServer_Params (W := W)) 3%nat; done.
Qed.

End Services.
