(* ===== verification/GrpcRef.v ===== *)
(** * The services: a reference instance

    A connection to a server in the same process: it looks the method up in the service,
    runs the handler on the encoded request and decodes the answer. It satisfies
    [serves]; the witnesses query the oracle of a chain through it and deliver a feed. *)

From S2P Require Import Prelude Sdk World SdkRef Wire FeesTypes OracleTypes RwaTypes Codec Foreign.
From S2P Require Import WireMsg FeesCodec OracleCodec RwaCodec TwapCodec Pulsar Reflect.
From S2P Require Import ApiFees ApiOracle ApiRwa Interop ApiRef Grpc GrpcFees GrpcOracle GrpcRwa ApiGrpcFees ApiGrpcOracle ApiGrpcRwa.
From S2P Require Import Fees OracleAgg OracleKeeper OracleEndBlock RwaKeeper RwaMsg RwaInv RwaSafety RwaRef App GrpcServices.

Open Scope Z_scope.

(** ** A connection *)

Section LocalConn.
Context {W any Srv : Type} (encode : any -> res bytes) (status : error -> error)
  (desc : ServiceDesc (W := W) any Srv) (srv : Srv).

Definition full_name (name : string) : string := "/" +:+ ServiceName desc +:+ "/" +:+ name.

Definition find_method (method : string) : option (string * MethodHandler (W := W) any Srv) :=
  List.find (fun m => bool_decide (full_name m.1 = method)) (Methods desc).

Definition local_conn : ClientConn (W := W) := mkClientConn (fun A B GA GB method req out w =>
  match find_method method, g_Marshal req with
  | Some (_, handler), Ok b =>
      match handler srv (fun _ _ _ => lift (g_Unmarshal b)) None w with
      | (w, Ok resp) => (w, rb ← encode resp; g_Unmarshal rb)
      | (w, Err e) => (w, Err (status e))
      | (w, Panic) => (w, Panic)
      end
  | None, _ => (w, Err Unimplemented)
  | _, _ => (w, Err (Status 13))
  end).

Lemma find_method_name name handler : NoDup (Methods desc).*1 -> (name, handler) ∈ Methods desc ->
  find_method (full_name name) = Some (name, handler).
Proof.
  unfold find_method. induction (Methods desc) as [|[n h] ms IH]; [by rewrite elem_of_nil|].
  rewrite fmap_cons, NoDup_cons, elem_of_cons. cbn [fst]. intros [Hn Hd] [[= <- <-]|Hin]; cbn [List.find fst].
  - by rewrite bool_decide_eq_true_2.
  - rewrite bool_decide_eq_false_2; [by apply IH|]. unfold full_name. intros E. assert (n = name) as -> by by simplify_eq.
    apply Hn, list_elem_of_fmap. by exists (name, handler).
Qed.

Lemma local_conn_serves : NoDup (Methods desc).*1 -> serves encode status local_conn desc srv None.
Proof.
  intros Hd A B GA GB name handler req b w w' r Hin Hm Hh.
  assert (forall out : B, Invoke local_conn (full_name name) req out w =
    match r with Ok resp => (w', rb ← encode resp; g_Unmarshal rb) | Err e => (w', Err (status e)) | Panic => (w', Panic) end) as E.
  { intros out. cbn [Invoke local_conn]. rewrite (find_method_name _ _ Hd Hin), Hm, Hh. by destruct r. }
  destruct r as [resp|e|]; [|apply E|done]. intros rb Hr. unfold full_name in E. rewrite E. by rewrite Hr.
Qed.

Lemma local_conn_connected : NoDup (Methods desc).*1 ->
  exists o : option (Interceptor (W := W) any Srv), transparent o /\ serves encode status local_conn desc srv o.
Proof. exists None. split; [done|by apply local_conn_serves]. Qed.

End LocalConn.

(** ** Witnesses *)

#[local] Existing Instances ref_runtime ref_runtime_laws timestamp_pulsar timestamp_schema timestamp_laws ref_std ref_std_laws
  ref_std_total ApiRef.ref_sdk ref_sdk_laws ref_api ref_api_laws ref_shared ref_shared_laws.
#[local] Instance ref_app_bank : BankKeeper sdk_state := BK_ref moduleAccPerms blockAccAddrs.

Definition ref_paginate (kvs : list (bytes * bytes)) (_ : option WireMsg.PageRequest) :
  res (list (bytes * bytes) * option WireMsg.PageResponse) := Ok (kvs, None).

(** The chain of the oracle with a price, stored with the encoding of times of [ref_std]. *)
Definition ref_quoted : world (gmap bytes bytes) sdk_state :=
  (SetAggregatedPrice ref_price (ref_chain ∅ 10 100)).1.

Definition ref_node : ClientConn (W := world (gmap bytes bytes) sdk_state) :=
  local_conn GrpcOracle.any_Marshal id GrpcOracle.Query_serviceDesc oracle_QueryServer.

(** The client library reads the price, and the error of a pair without one. *)
Lemma queries_end_to_end_witness :
  ApiGrpcOracle.queryClient_call_Price ref_node (ApiOracle.mkQueryPriceRequest "VTX:USD" []) ref_quoted
    = (ref_quoted, Ok (to_api (OracleCodec.mkQueryPriceResponse ref_price))) /\
  ApiGrpcOracle.queryClient_call_Price ref_node (ApiOracle.mkQueryPriceRequest "ETH:USD" []) ref_quoted = (ref_quoted, Err NotFound).
Proof.
  pose proof (Forall_lookup_1 _ _ 1 _ (queries_end_to_end (X := sdk_state) ref_paginate id) eq_refl ref_node) as H.
  assert (oracle_connected (X := sdk_state) id ref_node) as Hc.
  { apply local_conn_connected. by apply (bool_decide_unpack _). }
  assert (QueryPrice (Some "VTX:USD"%string) ref_quoted = Ok ref_price) as E1 by (vm_compute; reflexivity).
  assert (QueryPrice (Some "ETH:USD"%string) ref_quoted = Err NotFound) as E2 by (vm_compute; reflexivity).
  split.
  - specialize (H (OracleCodec.mkQueryPriceRequest "VTX:USD") ref_quoted Hc Logic.I eq_refl).
    unfold answered in H. cbn -[QueryPrice to_api ref_quoted queryClient_call_Price] in H. unfold ask in H. rewrite !M_bind_run, E1 in H.
    apply H; [vm_compute; repeat split; discriminate|reflexivity].
  - specialize (H (OracleCodec.mkQueryPriceRequest "ETH:USD") ref_quoted Hc Logic.I eq_refl).
    unfold answered in H. cbn -[QueryPrice to_api ref_quoted queryClient_call_Price] in H. unfold ask in H. rewrite !M_bind_run, E2 in H.
    apply H.
Defined.

(** A router that decodes nothing and hands the message to the handler: the feed of a
    transaction is delivered. *)
Definition ref_dec : Decoder (W := world (gmap bytes bytes) sdk_state) := fun _ _ x => mret x.
Definition ref_ic {any Srv} (msg : any) : Interceptor (W := world (gmap bytes bytes) sdk_state) any Srv :=
  fun _ _ handler => handler msg.

Lemma ref_routes {any Srv} (msg : any) : routes_to (Srv := Srv) msg ref_dec (ref_ic msg).
Proof. split; [intros A G x w; by exists x|done]. Qed.

Lemma messages_routed_witness :
  exists handler, ("SubmitFeed"%string, handler) ∈ Methods (GrpcOracle.Msg_serviceDesc (W := world (gmap bytes bytes) sdk_state)) /\
    handler oracle_MsgServer ref_dec (Some (ref_ic (GrpcOracle.Any_MsgSubmitFeed ref_msg))) (ref_chain ∅ 7 100)
    = ((deliver (OracleSubmitFeed ref_msg) (ref_chain ∅ 7 100)).1,
       Ok (GrpcOracle.Any_MsgSubmitFeedResponse OracleCodec.mkMsgSubmitFeedResponse)).
Proof.
  destruct (messages_routed (St := gmap bytes bytes) (X := sdk_state)) as (_ & _ & (h & Hin & Hh) & _).
  exists h. split; [exact Hin|]. rewrite (Hh ref_msg _ _ _ (ref_routes _)).
  assert (deliver (OracleSubmitFeed ref_msg) (ref_chain ∅ 7 100)
    = ((deliver (OracleSubmitFeed ref_msg) (ref_chain ∅ 7 100)).1, Ok tt)) as E by (apply run_result; vm_compute; reflexivity).
  erewrite bind_Ok_run by exact E. done.
Defined.
