(* ===== verification/MultiNode.v ===== *)
(** * vertixd: files of a local testnet

    cmd/vertixd/cmd/testnet_multi_node.go: the command multi-node, which prepares the
    directories of several validators that run on one machine. The flags become
    [initArgs]; [initTestnetFiles] makes a directory, a key and a genesis transaction per
    node, copies the genesis transactions to all nodes and writes the genesis and the
    configuration files. The configurations are shared objects that the loops change
    ([tn_config], [tn_app]). Files are modelled ([fs]); of package filepath what the code
    uses, on absolute clean paths as lists of names. The calls into the SDK are a
    parameter ([NodeTools]).

    The ports that the nodes of one machine listen on are distinct, the copying loop
    gives every node the genesis transactions of all, and two flags do not do what their
    descriptions say. *)

From S2P Require Import Prelude Sdk World SdkRef OracleAgg.
From stdpp Require Import pretty.

Open Scope Z_scope.

(** ** Strings and paths *)

Definition Itoa (z : Z) : string := pretty z.

(** [strings.Split(s, sep)] for a separator of one character. *)
Fixpoint Split (sep : ascii) (s : string) : list string :=
  match s with
  | EmptyString => [EmptyString]
  | String c s =>
      if decide (c = sep) then EmptyString :: Split sep s
      else match Split sep s with [] => [String c EmptyString] | h :: t => String c h :: t end
  end.

Definition comma : ascii := Ascii.ascii_of_nat 44.
Definition slash : ascii := Ascii.ascii_of_nat 47.

Abbreviation path := (list string).

(** [filepath.Join(p, elem)]: [elem] is split at its slashes and cleaned. *)
Definition push_name (p : path) (name : string) : path :=
  if bool_decide (name = ""%string) || bool_decide (name = "."%string) then p
  else if bool_decide (name = ".."%string) then removelast p
  else p ++ [name].

Definition Join (p : path) (elems : list string) : path := foldl push_name p (elems ≫= Split slash).

(** [filepath.Rel(base, targ)], as names. *)
Fixpoint rel_names (base targ : path) : path :=
  match base, targ with
  | b :: base', t :: targ' => if decide (b = t) then rel_names base' targ' else ((fun _ => "..") <$> base)%string ++ targ
  | _, _ => ((fun _ => "..") <$> base)%string ++ targ
  end.

Definition Rel (base targ : path) : string :=
  match rel_names base targ with [] => "." | names => String.concat "/" names end%string.

(** Whether [dstDir] is a parent directory of [src]. *)
Definition isSubDir (src dstDir : path) : bool := negb (String.prefix ".." (Rel dstDir src)).

(** [filepath.Base]. *)
Definition Base (p : path) : string := default "/"%string (last p).

(** ** Files *)

Record fs : Type := mkFs { fs_dirs : gset path; fs_files : gmap path bytes }.

Definition no_such_file : error := Errorf "no such file or directory".

(** The directories from the root to [p]. *)
Definition ancestors (p : path) : list path := (fun k => take k p) <$> seq 0 (S (length p)).

Definition MkdirAll (p : path) (s : fs) : fs * res unit :=
  if existsb (fun d => bool_decide (is_Some (fs_files s !! d))) (ancestors p) then (s, Err (Errorf "not a directory"))
  else (mkFs (list_to_set (ancestors p) ∪ fs_dirs s) (fs_files s), Ok tt).

(** [os.WriteFile], and [os.Create] with no content. *)
Definition WriteFile (p : path) (b : bytes) (s : fs) : fs * res unit :=
  if bool_decide (p ∈ fs_dirs s) then (s, Err (Errorf "is a directory"))
  else if bool_decide (removelast p ∈ fs_dirs s) then (mkFs (fs_dirs s) (<[p := b]> (fs_files s)), Ok tt)
  else (s, Err no_such_file).

Definition ReadFile (p : path) (s : fs) : res bytes :=
  match fs_files s !! p with Some b => Ok b | None => Err no_such_file end.

Definition RemoveAll (p : path) (s : fs) : fs :=
  mkFs (filter (fun d => ~ p `prefix_of` d) (fs_dirs s)) (filter (fun kv => ~ p `prefix_of` kv.1) (fs_files s)).

(** ** Flags *)

Record initArgs : Type := mkInitArgs {
  algo : string;
  chainID : string;
  keyringBackend : string;
  minGasPrices : string;
  nodeDirPrefix : string;
  numValidators : Z;
  outputDir : path;
  startingIPAddress : string;
  validatorsStakesAmount : gmap Z coin;
  ports : gmap Z string
}.

Definition DefaultBondDenom : string := "stake".

(** [sdk.TokensFromConsensusPower(power, sdk.DefaultPowerReduction)]. *)
Definition TokensFromConsensusPower (power : Z) : Z := power * 1000000.

Section Flags.
Context {SM : SdkMath} {CO : Coins}.

(** The flag validators-stake-amount: an amount that does not parse is passed over. *)
Definition stake_amounts (s : string) : res (gmap Z coin) :=
  '(amounts, _) ← rfold (Split comma s) (∅, 0) (fun '(amounts, top) amount =>
    match NewIntFromString amount with
    | None => Ok (amounts, top)
    | Some a => c ← NewCoin DefaultBondDenom a; Ok (<[top := c]> amounts, top + 1)
    end);
  Ok amounts.

(** The flag list-ports. *)
Definition port_list (s : string) (n : Z) : gmap Z string :=
  if bool_decide (s = ""%string)
  then foldl (fun ports i => <[i := Itoa (26657 - 3 * i)]> ports) ∅ (seqZ 0 n)
  else (foldl (fun '(ports, top) port => (<[top := port]> ports, top + 1)) (∅, 0) (Split comma s)).1.

(** The amounts of the flag are those that parse, in their order: after one that does
    not, the later ones move up by one validator. *)
Lemma stake_amounts_parsed {COL : CoinsLaws} s : denom_ok DefaultBondDenom = true ->
  Forall (fun a => 0 <= a) (omap NewIntFromString (Split comma s)) ->
  exists m, stake_amounts s = Ok m /\
    forall i : nat, m !! Z.of_nat i = (fun a => (DefaultBondDenom, a)) <$> omap NewIntFromString (Split comma s) !! i.
Proof.
  intros Hd. unfold stake_amounts. set (body := fun '(amounts, top) amount => _).
  assert (forall l m (k : nat), Forall (fun a => 0 <= a) (omap NewIntFromString l) ->
    (forall i : nat, (k <= i)%nat -> m !! Z.of_nat i = None) ->
    exists m' t, rfold l (m, Z.of_nat k) body = Ok (m', t) /\
      forall i : nat, m' !! Z.of_nat i = if decide (i < k)%nat then m !! Z.of_nat i
        else (fun a => (DefaultBondDenom, a)) <$> omap NewIntFromString l !! (i - k)%nat) as Hloop.
  { induction l as [|x l IH]; intros m k Hl Hm.
    - exists m, (Z.of_nat k). split; [done|]. intros i. case_decide; [done|]. rewrite Hm by lia. done.
    - cbn [rfold body]. cbn [omap list_omap] in *. destruct (NewIntFromString x) as [a|]; [|by apply IH].
      apply Forall_cons in Hl as [Ha Hl]. rewrite new_coin_ok by done. cbn [mbind res_bind].
      replace (Z.of_nat k + 1) with (Z.of_nat (S k)) by lia.
      destruct (IH (<[Z.of_nat k := (DefaultBondDenom, a)]> m) (S k) Hl) as (m' & t & E & Hm').
      { intros i Hi. rewrite lookup_insert_ne by lia. apply Hm. lia. }
      exists m', t. split; [done|]. intros i. rewrite Hm'. destruct (decide (i = k)) as [->|Hi].
      + rewrite decide_True by lia. rewrite decide_False by lia. by rewrite lookup_insert_eq, Nat.sub_diag.
      + destruct (decide (i < k)%nat) as [Hlt|Hlt].
        * rewrite decide_True by lia. by rewrite lookup_insert_ne by lia.
        * rewrite decide_False by lia. by replace (i - k)%nat with (S (i - S k))%nat by lia. }
  intros Hl. destruct (Hloop (Split comma s) ∅ 0%nat Hl) as (m & t & E & Hm); [done|].
  exists m. split; [change 0 with (Z.of_nat 0) at 1; by rewrite E|]. intros i. rewrite Hm, decide_False by lia. by rewrite Nat.sub_0_r.
Qed.

End Flags.

(** "If the flag string is invalid, the amount will default to 100000000": the third
    amount goes to the second validator. *)
Example stake_amounts_shifted :
  exists m, stake_amounts "100000000,many,300000000" = Ok m /\ m !! 1 = Some (DefaultBondDenom, 300000000) /\ m !! 2 = None.
Proof. eexists. split; [vm_compute; reflexivity|]. split; vm_compute; reflexivity. Qed.

(** [charset[seededRand.Intn(len(charset))]], [length] times; [intn] draws. *)
Definition charset : string := "abcdefghijklmnopqrstuvwxyz0123456789".

Definition generateRandomString (intn : nat -> Z -> Z) (length : nat) : string :=
  foldr (fun i s => match String.get (Z.to_nat (intn i (Z.of_nat (String.length charset)))) charset with
                    | Some c => String c s | None => s end) EmptyString (seq 0 length).

(** ** Configurations *)

(** The fields of the configuration of CometBFT that the code sets, and the rest. *)
Record CometConfig (R : Type) : Type := mkCometConfig {
  RootDir : path;
  Moniker : string;
  RPC_ListenAddress : string;
  P2P_PersistentPeers : string;
  P2P_AllowDuplicateIP : bool;
  P2P_ListenAddress : string;
  ProxyApp : string;
  PrometheusListenAddr : string;
  Prometheus : bool;
  comet_rest : R
}.
Arguments RootDir {_}.
Arguments Moniker {_}.
Arguments RPC_ListenAddress {_}.
Arguments P2P_PersistentPeers {_}.
Arguments P2P_AllowDuplicateIP {_}.
Arguments P2P_ListenAddress {_}.
Arguments ProxyApp {_}.
Arguments PrometheusListenAddr {_}.
Arguments Prometheus {_}.
Arguments comet_rest {_}.
Arguments mkCometConfig {_}.

(** The configuration of the application. [srvconfig.Config] embeds [BaseConfig], so
    that [appConfig.MinGasPrices] and [appConfig.BaseConfig.MinGasPrices] are one field. *)
Record AppConfig (R : Type) : Type := mkAppConfig {
  MinGasPrices : string;
  API_Enable : bool;
  API_Address : string;
  GRPC_Address : string;
  Telemetry_EnableHostnameLabel : bool;
  Telemetry_Enabled : bool;
  Telemetry_PrometheusRetentionTime : Z;
  app_rest : R
}.
Arguments MinGasPrices {_}.
Arguments API_Enable {_}.
Arguments API_Address {_}.
Arguments GRPC_Address {_}.
Arguments Telemetry_EnableHostnameLabel {_}.
Arguments Telemetry_Enabled {_}.
Arguments Telemetry_PrometheusRetentionTime {_}.
Arguments app_rest {_}.
Arguments mkAppConfig {_}.

(** The genesis state of the application: what the code sets of the parts of x/auth and
    x/bank, and the rest. *)
Record AppGenState (A R : Type) : Type := mkAppGenState {
  ag_Accounts : list A;
  ag_Balances : list (string * coins);
  ag_Supply : coins;
  ag_rest : R
}.
Arguments ag_Accounts {_ _}.
Arguments ag_Balances {_ _}.
Arguments ag_Supply {_ _}.
Arguments ag_rest {_ _}.
Arguments mkAppGenState {_ _}.

(** ** The tools of the SDK *)

(** The calls into genutil, keyring, tx and the codecs, on the files and what else there
    is ([X]: entropy, the clock). The genesis file of a node is RootDir/config/genesis.json. *)
Class NodeTools (X R : Type) : Type := {
  PubKey : Type;
  Keyring : Type;
  SigningAlgo : Type;
  Msg : Type;
  Tx : Type;
  Account : Type;
  AppGenesis : Type;
  DefaultConfig : AppConfig R;
  InitializeNodeValidatorFiles : CometConfig R -> fs * X -> (fs * X) * res (string * PubKey);
  keyring_New : string -> path -> fs * X -> (fs * X) * res Keyring;
  NewSigningAlgoFromString : string -> Keyring -> res SigningAlgo;
  GenerateSaveCoinKey : Keyring -> string -> SigningAlgo -> fs * X -> (fs * X) * res (bytes * string);
  secret_JSON : string -> res bytes;
  NewMsgCreateValidator : string -> PubKey -> coin -> string -> res Msg;
  (** a builder with the message and the memo, signed for the chain *)
  tx_Sign : string -> string -> Keyring -> string -> Msg -> fs * X -> (fs * X) * res Tx;
  TxJSONEncoder : Tx -> res bytes;
  app_toml : AppConfig R -> bytes;
  config_toml : CometConfig R -> bytes;
  DefaultGenesis : AppGenState Account R;
  PackAccounts : list bytes -> res (list Account);
  SanitizeGenesisBalances : list (string * coins) -> list (string * coins);
  Coins_Add : coins -> coins -> coins;
  (** the genesis document of a chain with a state, without and with a time *)
  GenesisDoc_JSON : string -> AppGenState Account R -> res bytes;
  AppGenesis_JSON : string -> bytes -> Z -> res bytes;
  AppGenesis_Parse : bytes -> res AppGenesis;
  (** with [NewInitConfig(chainID, gentxsDir, nodeID, valPubKey)]; it may change the
      configuration *)
  GenAppStateFromConfig : CometConfig R -> string -> path -> string -> PubKey -> AppGenesis ->
    fs * X -> (fs * X) * res (CometConfig R * bytes);
  tmtime_Now : X -> Z
}.

Section MultiNode.
Context {X R : Type} {SM : SdkMath} {CO : Coins} {BE : Bech32} {NT : NodeTools X R}.

(** ** The command *)

Record tnet : Type := mkTnet { tn_fs : fs; tn_ext : X; tn_config : CometConfig R; tn_app : AppConfig R }.

(** A call on the files, a call into the SDK. *)
Definition on_fs {A} (f : fs -> fs * res A) : M tnet A := fun s =>
  let '(d, r) := f (tn_fs s) in (mkTnet d (tn_ext s) (tn_config s) (tn_app s), r).
Definition tool {A} (f : fs * X -> (fs * X) * res A) : M tnet A := fun s =>
  let '((d, x), r) := f (tn_fs s, tn_ext s) in (mkTnet d x (tn_config s) (tn_app s), r).
(** A call that reads the shared configurations. *)
Definition reading {A} (f : tnet -> M tnet A) : M tnet A := fun s => f s s.

Definition set_config (f : CometConfig R -> CometConfig R) : M tnet unit :=
  modify (fun s => mkTnet (tn_fs s) (tn_ext s) (f (tn_config s)) (tn_app s)).
Definition set_app (f : AppConfig R -> AppConfig R) : M tnet unit :=
  modify (fun s => mkTnet (tn_fs s) (tn_ext s) (tn_config s) (f (tn_app s))).

(** [if err != nil { _ = os.RemoveAll(dir); return err }]. *)
Definition or_remove {A} (dir : path) (m : M tnet A) : M tnet A := fun s =>
  match m s with
  | (s, Err e) => ((on_fs (fun d => (RemoveAll dir d, Ok tt)) s).1, Err e)
  | r => r
  end.

Definition writeFile (file dir : path) (contents : bytes) : M tnet unit :=
  _ ← on_fs (MkdirAll dir);
  on_fs (WriteFile file contents).

(** [os.Open], [os.Create], [io.Copy]; the count of bytes that it also returns is not
    used. *)
Definition copyFile (src dstDir : path) : M tnet unit :=
  let fileName := Base src in
  let dst := Join dstDir [fileName] in
  _ ← ask (fun s => ReadFile src (tn_fs s));
  _ ← on_fs (WriteFile dst []);
  content ← ask (fun s => ReadFile src (tn_fs s));
  on_fs (WriteFile dst content).

Definition nodeDirName (args : initArgs) (i : Z) : string := nodeDirPrefix args +:+ Itoa i.
Definition nodeDir (args : initArgs) (i : Z) : path := Join (outputDir args) [nodeDirName args i].
Definition gentxsDir (args : initArgs) (i : Z) : path := Join (outputDir args) [nodeDirName args i; "config"; "gentx"]%string.

(** [nodeConfig.GenesisFile()]. *)
Definition GenesisFile (c : CometConfig R) : path := Join (RootDir c) ["config"; "genesis.json"]%string.

(** What the loop over the nodes collects; the slices [nodeIDs] and [valPubKeys] are
    filled in the order of their indices. *)
Record collected : Type := mkCollected {
  nodeIDs : list string;
  valPubKeys : list PubKey;
  genAccounts : list bytes;
  genBalances : list (string * coins);
  genFiles : list path;
  persistentPeers : string;
  gentxsFiles : list path
}.

Definition memo_of (id ip : string) (i : Z) : string := id +:+ "@" +:+ ip +:+ ":" +:+ Itoa (26656 - 3 * i).

Definition add_peer (peers memo : string) : string :=
  if bool_decide (peers = ""%string) then memo else peers +:+ "," +:+ memo.

(** The coins of a new account, and [coins.Sort()]. *)
Definition account_coins : res coins :=
  c1 ← NewCoin "testtoken" (TokensFromConsensusPower 1000);
  c2 ← NewCoin DefaultBondDenom (TokensFromConsensusPower 500);
  Ok (sort_slice (string_less fst) [c1; c2]).

(** One turn of the loop of [initTestnetFiles]. *)
Definition init_node (args : initArgs) (acc : collected) (i : Z) : M tnet collected :=
  let name := nodeDirName args i in
  let dir := nodeDir args i in
  _ ← set_config (fun c => mkCometConfig dir name ("tcp://0.0.0.0:" +:+ default ""%string (ports args !! i)) (P2P_PersistentPeers c)
        (P2P_AllowDuplicateIP c) (P2P_ListenAddress c) (ProxyApp c) (PrometheusListenAddr c) (Prometheus c) (comet_rest c));
  _ ← or_remove (outputDir args) (on_fs (MkdirAll (Join dir ["config"%string])));
  '(id, key) ← or_remove (outputDir args) (reading (fun s => tool (InitializeNodeValidatorFiles (tn_config s))));
  let memo := memo_of id (startingIPAddress args) i in
  genFile ← ask (fun s => Ok (GenesisFile (tn_config s)));
  kb ← tool (keyring_New (keyringBackend args) dir);
  signing ← lift (NewSigningAlgoFromString (algo args) kb);
  '(addr, secret) ← or_remove (outputDir args) (tool (GenerateSaveCoinKey kb name signing));
  cliPrint ← lift (secret_JSON secret);
  _ ← writeFile (Join dir ["key_seed.json"%string]) dir cliPrint;
  cs ← lift account_coins;
  valTokens ← lift (match validatorsStakesAmount args !! i with
    | Some c => Ok c
    | None => NewCoin DefaultBondDenom (TokensFromConsensusPower 100)
    end);
  createValMsg ← lift (NewMsgCreateValidator (ValString addr) key valTokens name);
  tx ← tool (tx_Sign (chainID args) memo kb name createValMsg);
  txBz ← lift (TxJSONEncoder tx);
  let file := Join (gentxsDir args i) ["gentx-" +:+ id +:+ ".json"] in
  _ ← writeFile file (gentxsDir args i) txBz;
  _ ← set_app (fun c => mkAppConfig (MinGasPrices c) (API_Enable c) ("tcp://localhost:" +:+ Itoa (1317 - i))
        (startingIPAddress args +:+ ":" +:+ Itoa (9090 - 2 * i)) (Telemetry_EnableHostnameLabel c) (Telemetry_Enabled c)
        (Telemetry_PrometheusRetentionTime c) (app_rest c));
  _ ← must (reading (fun s => on_fs (WriteFile (Join dir ["config"; "app.toml"]%string) (app_toml (tn_app s)))));
  mret (mkCollected (nodeIDs acc ++ [id]) (valPubKeys acc ++ [key]) (genAccounts acc ++ [addr])
    (genBalances acc ++ [(AccString addr, cs)]) (genFiles acc ++ [genFile]) (add_peer (persistentPeers acc) memo)
    (gentxsFiles acc ++ [file])).

Definition initGenFiles (chain : string) (accounts : list bytes) (balances : list (string * coins)) (files : list path) (n : Z) : M tnet unit :=
  accs ← lift (PackAccounts accounts);
  let sanitized := SanitizeGenesisBalances balances in
  let supply := foldl (fun supply bal => Coins_Add supply bal.2) (ag_Supply DefaultGenesis) sanitized in
  let appGenState := mkAppGenState accs sanitized supply (ag_rest DefaultGenesis) in
  genDoc ← lift (GenesisDoc_JSON chain appGenState);
  mfor (seqZ 0 n) (fun i =>
    match files !! Z.to_nat i with
    | Some f => on_fs (WriteFile f genDoc)
    | None => lift Panic
    end).

(** The loop that gives every node the genesis transactions of the others. *)
Definition copy_gentxs (args : initArgs) (files : list path) : M tnet unit :=
  mfor (seqZ 0 (numValidators args)) (fun i =>
    let dir := Join (nodeDir args i) ["config"; "gentx"]%string in
    mfor files (fun file => if isSubDir file dir then mret tt else copyFile file dir)).

(** One turn of the loop of [collectGenFiles]; [appState] is the state of the first
    node. *)
Definition collect_node (args : initArgs) (acc : collected) (genTime : Z) (appState : option bytes) (i : Z) : M tnet (option bytes) :=
  let name := nodeDirName args i in
  let dir := nodeDir args i in
  let txs := Join dir ["config"; "gentx"]%string in
  _ ← set_config (fun c => mkCometConfig dir name (RPC_ListenAddress c) (P2P_PersistentPeers c)
        (P2P_AllowDuplicateIP c) (P2P_ListenAddress c) (ProxyApp c) (PrometheusListenAddr c) (Prometheus c) (comet_rest c));
  match nodeIDs acc !! Z.to_nat i, valPubKeys acc !! Z.to_nat i with
  | Some id, Some key =>
      appGenesis ← ask (fun s => b ← ReadFile (GenesisFile (tn_config s)) (tn_fs s); AppGenesis_Parse b);
      '(config, nodeAppState) ← reading (fun s => tool (GenAppStateFromConfig (tn_config s) (chainID args) txs id key appGenesis));
      _ ← set_config (fun _ => mkCometConfig (RootDir config) (Moniker config) ("tcp://127.0.0.1:" +:+ default ""%string (ports args !! i))
            (persistentPeers acc) true ("tcp://0.0.0.0:" +:+ Itoa (26656 - 3 * i)) ("tcp://127.0.0.1:" +:+ Itoa (26658 - 3 * i))
            (":" +:+ Itoa (26660 + i)) true (comet_rest config));
      _ ← must (reading (fun s => on_fs (WriteFile (Join (RootDir (tn_config s)) ["config"; "config.toml"]%string) (config_toml (tn_config s)))));
      let appState := match appState with None => nodeAppState | Some st => st end in
      doc ← lift (AppGenesis_JSON (chainID args) appState genTime);
      _ ← reading (fun s => on_fs (WriteFile (GenesisFile (tn_config s)) doc));
      mret (Some appState)
  | _, _ => lift Panic
  end.

Definition collectGenFiles (args : initArgs) (acc : collected) : M tnet unit :=
  genTime ← ask (fun s => Ok (tmtime_Now (tn_ext s)));
  _ ← mfold (seqZ 0 (numValidators args)) None (collect_node args acc genTime);
  mret tt.

(** [rand] is the name that is made up for a chain without one. *)
Definition initTestnetFiles (rand : string) (args : initArgs) : M tnet unit :=
  let args := if bool_decide (chainID args = ""%string)
    then mkInitArgs (algo args) ("chain-" +:+ rand) (keyringBackend args) (minGasPrices args) (nodeDirPrefix args) (numValidators args)
           (outputDir args) (startingIPAddress args) (validatorsStakesAmount args) (ports args)
    else args in
  (* make([]string, n) *)
  if numValidators args <? 0 then lift Panic else
  let c := DefaultConfig in
  _ ← set_app (fun _ => mkAppConfig (minGasPrices args) (API_Enable c) (API_Address c) (GRPC_Address c)
        (Telemetry_EnableHostnameLabel c) (Telemetry_Enabled c) (Telemetry_PrometheusRetentionTime c) (app_rest c));
  _ ← set_app (fun c => mkAppConfig ("0.0001" +:+ DefaultBondDenom) false (API_Address c) (GRPC_Address c) false false 0 (app_rest c));
  acc ← mfold (seqZ 0 (numValidators args)) (mkCollected [] [] [] [] [] "" []) (init_node args);
  _ ← initGenFiles (chainID args) (genAccounts acc) (genBalances acc) (genFiles acc) (numValidators args);
  _ ← copy_gentxs args (gentxsFiles acc);
  collectGenFiles args acc.

(** ** Flags *)

(** The flag minimum-gas-prices has no effect: the value is stored in the field that the
    code overwrites a few lines later. *)
Definition with_min_gas_prices (p : string) (args : initArgs) : initArgs :=
  mkInitArgs (algo args) (chainID args) (keyringBackend args) p (nodeDirPrefix args) (numValidators args)
    (outputDir args) (startingIPAddress args) (validatorsStakesAmount args) (ports args).

Lemma min_gas_prices_ignored rand p args s :
  initTestnetFiles rand (with_min_gas_prices p args) s = initTestnetFiles rand args s.
Proof. destruct args. unfold initTestnetFiles, with_min_gas_prices. cbn. by case_bool_decide. Qed.

(** ** Ports *)

(** The ports of node [i] when the flag list-ports is empty: RPC, P2P, ABCI, metrics,
    gRPC and API. *)
Definition node_ports (i : Z) : list Z := [26657 - 3 * i; 26656 - 3 * i; 26658 - 3 * i; 26660 + i; 9090 - 2 * i; 1317 - i].

Lemma port_list_default n i : 0 <= i < n -> port_list "" n !! i = Some (Itoa (26657 - 3 * i)).
Proof.
  intros Hi. unfold port_list. cbn [bool_decide decide_rel]. rewrite bool_decide_eq_true_2 by done.
  assert (i ∈ seqZ 0 n) as Hin by (apply elem_of_seqZ; lia).
  revert Hin. induction (seqZ 0 n) as [|j l IH] using rev_ind; [by rewrite elem_of_nil|].
  rewrite foldl_app, elem_of_app, list_elem_of_singleton. cbn. destruct (decide (i = j)) as [->|Hj].
  - by rewrite lookup_insert_eq.
  - intros [H|H]; [|done]. rewrite lookup_insert_ne by done. by apply IH.
Qed.

(** No two listeners of up to 1317 nodes share a port, and every port is a TCP port. *)
Lemma ports_distinct n i j x : n <= 1317 -> 0 <= i < n -> 0 <= j < n ->
  x ∈ node_ports i -> NoDup (node_ports i) /\ 0 < x < 65536 /\ (x ∈ node_ports j -> i = j).
Proof.
  intros Hn Hi Hj Hx. unfold node_ports in *. split; [|split].
  - repeat (apply NoDup_cons; split; [rewrite ?elem_of_cons, elem_of_nil; lia|]). apply NoDup_nil_2.
  - rewrite !elem_of_cons, elem_of_nil in Hx. lia.
  - rewrite !elem_of_cons, elem_of_nil in *. lia.
Qed.

(** ** The genesis transactions *)

(** A name that [Join] adds as it is. *)
Definition plain (name : string) : Prop := Split slash name = [name] /\ name ∉ [""; "."; ".."]%string.

#[local] Instance plain_dec name : Decision (plain name).
Proof. unfold plain. apply _. Defined.

Lemma Join_plain p names : Forall plain names -> Join p names = p ++ names.
Proof.
  unfold Join. revert p. induction names as [|n names IH]; intros p Hp; [by rewrite app_nil_r|].
  apply Forall_cons in Hp as [[Hs Hn] Hp]. rewrite bind_cons, Hs. cbn [app foldl].
  rewrite !not_elem_of_cons in Hn. unfold push_name at 2. rewrite !bool_decide_eq_false_2 by naive_solver. cbn [orb].
  rewrite IH by done. by rewrite <- app_assoc.
Qed.

Lemma rel_names_app p a b : rel_names (p ++ a) (p ++ b) = rel_names a b.
Proof. induction p as [|x p IH]; [done|]. cbn. by rewrite decide_True by done. Qed.

(** The file [nm] of node [j], and the place for it at node [i]. *)
Definition at_node (args : initArgs) (i : Z) (nm : string) : path :=
  outputDir args ++ [nodeDirName args i; "config"; "gentx"; nm]%string.

Section Copy.
Context (args : initArgs) (nm : Z -> string) (b : Z -> bytes) (n : Z).
Hypothesis Hdir : forall i, 0 <= i < n -> plain (nodeDirName args i).
Hypothesis Hnm : forall j, 0 <= j < n -> plain (nm j) /\ String.prefix ".." (nm j) = false.
Hypothesis Hinj : forall i j, 0 <= i < n -> 0 <= j < n -> nm i = nm j -> i = j.

Definition node_gentxs (i : Z) : path := Join (nodeDir args i) ["config"; "gentx"]%string.

(** The directories are there, and no file name is one of a directory. *)
Definition dirs_ready (d : gset path) : Prop :=
  (forall i, 0 <= i < n -> node_gentxs i ∈ d) /\ (forall i j, 0 <= i < n -> 0 <= j < n -> at_node args i (nm j) ∉ d).

Definition has_gentx (s : tnet) (i j : Z) : Prop := fs_files (tn_fs s) !! at_node args i (nm j) = Some (b j).

Lemma node_gentxs_eq i : 0 <= i < n -> node_gentxs i = outputDir args ++ [nodeDirName args i; "config"; "gentx"]%string.
Proof.
  intros Hi. unfold node_gentxs, nodeDir. rewrite !Join_plain; [by rewrite <- app_assoc| |].
  - by repeat constructor; apply Hdir.
  - repeat constructor; by apply (bool_decide_unpack _).
Qed.

Lemma nodeDirName_inj i j : nodeDirName args i = nodeDirName args j -> i = j.
Proof. unfold nodeDirName, Itoa. intros H. by simplify_eq. Qed.

Lemma at_node_inj i j k l : 0 <= i < n -> 0 <= j < n -> 0 <= k < n -> 0 <= l < n ->
  at_node args i (nm j) = at_node args k (nm l) -> i = k /\ j = l.
Proof.
  intros Hi Hj Hk Hl H. unfold at_node in H. apply (inj (app (outputDir args))) in H. injection H as H1 H2.
  split; [by apply nodeDirName_inj|by apply Hinj].
Qed.

Lemma isSubDir_own i j : 0 <= i < n -> 0 <= j < n -> isSubDir (at_node args j (nm j)) (node_gentxs i) = bool_decide (i = j).
Proof.
  intros Hi Hj. rewrite node_gentxs_eq by done. unfold isSubDir, Rel, at_node. rewrite rel_names_app. cbn [rel_names].
  case_bool_decide as E.
  - subst j. rewrite decide_True by done. rewrite !decide_True by done. cbn. by rewrite (proj2 (Hnm i Hi)).
  - rewrite decide_False; [done|]. intros H. by apply E, nodeDirName_inj.
Qed.

(** What a copy keeps: the directories and the genesis transactions already there. *)
Definition copies (s s' : tnet) : Prop :=
  fs_dirs (tn_fs s') = fs_dirs (tn_fs s) /\
  forall i j, 0 <= i < n -> 0 <= j < n -> has_gentx s i j -> has_gentx s' i j.

#[local] Instance copies_preorder : PreOrder copies.
Proof. split; [done|]. intros s1 s2 s3 [? ?] [? ?]. split; [congruence|auto]. Qed.

Lemma copyFile_gentx i j s : 0 <= i < n -> 0 <= j < n -> i <> j -> dirs_ready (fs_dirs (tn_fs s)) -> has_gentx s j j ->
  exists s', copyFile (at_node args j (nm j)) (node_gentxs i) s = (s', Ok tt) /\ copies s s' /\ has_gentx s' i j.
Proof.
  intros Hi Hj Hij [Hd Hf] Hs. unfold copyFile.
  assert (Base (at_node args j (nm j)) = nm j) as -> by (unfold Base, at_node; by rewrite last_app).
  assert (Join (node_gentxs i) [nm j] = at_node args i (nm j)) as ->.
  { rewrite Join_plain by (constructor; [apply Hnm|]; done). rewrite node_gentxs_eq by done. by rewrite <- app_assoc. }
  assert (removelast (at_node args i (nm j)) = node_gentxs i) as Hr.
  { rewrite node_gentxs_eq by done. unfold at_node. by rewrite removelast_app. }
  assert (at_node args i (nm j) <> at_node args j (nm j)) as Hne by (intros H; by apply at_node_inj in H as [? _]).
  assert (forall c d, WriteFile (at_node args i (nm j)) c (mkFs (fs_dirs (tn_fs s)) d) =
    (mkFs (fs_dirs (tn_fs s)) (<[at_node args i (nm j) := c]> d), Ok tt)) as Hw.
  { intros c d. unfold WriteFile. cbn. rewrite bool_decide_eq_false_2 by auto.
    rewrite Hr, bool_decide_eq_true_2 by auto. done. }
  assert (ReadFile (at_node args j (nm j)) (tn_fs s) = Ok (b j)) as E1 by (unfold ReadFile; by rewrite Hs).
  destruct s as [[d fl] x c a]. cbn in *. change (fl !! at_node args j (nm j) = Some (b j)) in Hs. rewrite M_bind_run. unfold ask at 1. cbn. rewrite E1.
  rewrite M_bind_run. unfold on_fs at 1. cbn [tn_fs]. rewrite Hw.
  rewrite M_bind_run. unfold ask. cbn [tn_fs]. unfold ReadFile in *. cbn [fs_files] in *. rewrite lookup_insert_ne by done.
  rewrite Hs. unfold on_fs. cbn [tn_fs]. rewrite Hw.
  eexists. split; [done|]. split; [split; [done|]|].
  - intros k l Hk Hl Hkl. unfold has_gentx in *. cbn in *.
    destruct (decide (at_node args k (nm l) = at_node args i (nm j))) as [E|E].
    + apply at_node_inj in E as E'; [|done..]. destruct E' as [-> ->]. by rewrite lookup_insert_eq.
    + by rewrite !lookup_insert_ne.
  - unfold has_gentx. cbn. by rewrite lookup_insert_eq.
Qed.

(** The loop over the files, for one node. *)
Lemma copy_to_node i l s : 0 <= i < n -> Forall (fun j => 0 <= j < n) l -> dirs_ready (fs_dirs (tn_fs s)) ->
  (forall j, 0 <= j < n -> has_gentx s j j) ->
  exists s', mfor ((fun j => at_node args j (nm j)) <$> l)
      (fun file => if isSubDir file (node_gentxs i) then mret tt else copyFile file (node_gentxs i)) s = (s', Ok tt) /\
    copies s s' /\ Forall (has_gentx s' i) l.
Proof.
  intros Hi. revert s. induction l as [|j l IH]; intros s Hl Hd Hs; [by exists s|].
  apply Forall_cons in Hl as [Hj Hl]. cbn [fmap list_fmap mfor]. rewrite isSubDir_own by done.
  assert (exists s1, (if bool_decide (i = j) then mret tt else copyFile (at_node args j (nm j)) (node_gentxs i)) s = (s1, Ok tt) /\
    copies s s1 /\ has_gentx s1 i j) as (s1 & E1 & C1 & G1).
  { case_bool_decide as E; [subst j; exists s; split; [done|split; [reflexivity|auto]]|apply copyFile_gentx; auto]. }
  destruct (IH s1 Hl) as (s2 & E2 & C2 & G2).
  - by rewrite (proj1 C1).
  - intros k Hk. apply C1; auto.
  - exists s2. split; [by rewrite M_bind_run, E1|]. split; [by etrans|]. constructor; [|done]. by apply C2.
Qed.

(** Every node gets the genesis transactions of all: after the loop over the nodes has
    written the transaction of each to its own directory, the copying loop succeeds, and
    leaves in the directory of every node the transaction of every node, unchanged; a
    node's own file is recognised by its path and not copied onto itself. *)
Theorem gentxs_distributed s : n = numValidators args -> dirs_ready (fs_dirs (tn_fs s)) ->
  (forall j, 0 <= j < n -> has_gentx s j j) ->
  exists s', copy_gentxs args ((fun j => at_node args j (nm j)) <$> seqZ 0 n) s = (s', Ok tt) /\
    forall i j, 0 <= i < n -> 0 <= j < n -> has_gentx s' i j.
Proof.
  intros Hn Hd Hs. unfold copy_gentxs. rewrite <- Hn.
  assert (Forall (fun j => 0 <= j < n) (seqZ 0 n)) as Hall by (apply Forall_forall; intros j Hj%elem_of_seqZ; lia).
  assert (forall l s, Forall (fun j => 0 <= j < n) l -> dirs_ready (fs_dirs (tn_fs s)) -> (forall j, 0 <= j < n -> has_gentx s j j) ->
    exists s', mfor l (fun i => mfor ((fun j => at_node args j (nm j)) <$> seqZ 0 n)
        (fun file => if isSubDir file (node_gentxs i) then mret tt else copyFile file (node_gentxs i))) s = (s', Ok tt) /\
      copies s s' /\ Forall (fun i => Forall (has_gentx s' i) (seqZ 0 n)) l) as Hloop.
  { clear s Hd Hs. induction l as [|i l IH]; intros s Hl Hd Hs; [by exists s|]. apply Forall_cons in Hl as [Hi Hl].
    destruct (copy_to_node i (seqZ 0 n) s Hi Hall Hd Hs) as (s1 & E1 & C1 & G1).
    destruct (IH s1 Hl) as (s2 & E2 & C2 & G2); [by rewrite (proj1 C1)|intros k Hk; apply C1; auto|].
    exists s2. cbn [mfor]. split; [by rewrite M_bind_run, E1|]. split; [by etrans|]. constructor; [|done].
    apply Forall_forall. intros j Hj. apply C2; [done|by apply elem_of_seqZ in Hj; lia|by apply (proj1 (Forall_forall _ _) G1)]. }
  destruct (Hloop (seqZ 0 n) s Hall Hd Hs) as (s' & E & _ & G). exists s'. split; [done|].
  intros i j Hi Hj. apply (proj1 (Forall_forall _ _) (proj1 (Forall_forall _ _) G i ltac:(apply elem_of_seqZ; lia))), elem_of_seqZ. lia.
Qed.

End Copy.

End MultiNode.
