(* ===== verification/Testnet.v ===== *)
(** * vertixd: a testnet in place

    cmd/vertixd/cmd/testnet.go: the command in-place-testnet, which turns the state of a
    node into that of a testnet with one validator of its own. [initAppForTestnet] clears
    the validators from the store of x/staking, enters the new one there and in
    x/distribution and x/slashing, and funds accounts with newly minted coins;
    [getCommandArgs] reads its options. The keepers of the SDK are a parameter
    ([TestnetKeepers]); [tmos.Exit(err)] ends the program, like an error of the model.

    The new validator is the only one left, and nothing else of the chain changes; but
    the application has no x/mint, whose account the funding mints from, and so the
    command panics as soon as there is an account to fund. *)

From S2P Require Import Prelude Sdk World SdkRef Wire.
From S2P Require Import FeesTypes Fees OracleTypes OracleAgg OracleKeeper OracleEndBlock RwaTypes RwaKeeper App MultiNode.

Open Scope Z_scope.

(** ** Arguments *)

Record valArgs (PK : Type) : Type := mkValArgs {
  newValAddr : bytes;
  newOperatorAddress : string;
  newValPubKey : PK;
  accountsToFund : list bytes;
  upgradeToTrigger : string;
  homeDir : string
}.
Arguments newValAddr {_}.
Arguments newOperatorAddress {_}.
Arguments newValPubKey {_}.
Arguments accountsToFund {_}.
Arguments upgradeToTrigger {_}.
Arguments homeDir {_}.
Arguments mkValArgs {_}.

(** What [appOpts.Get] returns: an [interface{}]. *)
Inductive option_value (PK : Type) : Type :=
| HexBytes (b : bytes)
| CryptoPubKey (k : PK)
| Text (s : string)
| Nil.
Arguments HexBytes {_}.
Arguments CryptoPubKey {_}.
Arguments Text {_}.
Arguments Nil {_}.

Section Options.
Context {PK : Type} {BE : Bech32}.

(** [cast.ToString]: a string is itself, nil is empty; of other values unknown. *)
Context (cast_other : option_value PK -> string).
Definition ToString (v : option_value PK) : string :=
  match v with Text s => s | Nil => ""%string | v => cast_other v end.

(** The names of the options that the SDK defines. *)
Context (KeyNewValAddr KeyUserPubKey KeyNewOpAddr KeyTriggerTestnetUpgrade FlagHome : string).
Definition flagAccountsToFund : string := "accounts-to-fund".

Definition parse_accounts (s : string) : res (list bytes) :=
  rfold (Split comma s) [] (fun accs account =>
    if bool_decide (account = ""%string) then Ok accs
    else addr ← wrap_err (Errorf "invalid bech32 address format") (AccAddressFromBech32 account); Ok (accs ++ [addr])).

Definition getCommandArgs (Get : string -> option_value PK) : res (valArgs PK) :=
  addr ← match Get KeyNewValAddr with HexBytes b => Ok b | _ => Panic end;
  key ← match Get KeyUserPubKey with CryptoPubKey k => Ok k | _ => Panic end;
  op ← match Get KeyNewOpAddr with Text s => Ok s | _ => Panic end;
  upgrade ← match Get KeyTriggerTestnetUpgrade with Text s => Ok s | _ => Panic end;
  accs ← parse_accounts (ToString (Get flagAccountsToFund));
  let home := ToString (Get FlagHome) in
  if bool_decide (home = ""%string) then Err (Errorf "invalid home dir")
  else Ok (mkValArgs addr op key accs upgrade home).

(** The accounts are what the non-empty parts between the commas parse to, in order. *)
Lemma parse_accounts_Ok s accs : parse_accounts s = Ok accs <->
  Forall2 (fun part addr => AccAddressFromBech32 part = Ok addr) (filter (fun part => part <> ""%string) (Split comma s)) accs.
Proof.
  unfold parse_accounts. set (body := fun accs account => _).
  assert (forall l acc, rfold l acc body = Ok accs <-> exists rest, accs = acc ++ rest /\
    Forall2 (fun part addr => AccAddressFromBech32 part = Ok addr) (filter (fun part => part <> ""%string) l) rest) as H.
  { induction l as [|x l IH]; intros acc.
    - cbn. split; [intros [= ->]; exists []; rewrite app_nil_r; split; [done|constructor]|].
      intros (rest & -> & H). apply Forall2_nil_inv_l in H as ->. by rewrite app_nil_r.
    - cbn [rfold]. rewrite filter_cons.
      change (body acc x) with (if bool_decide (x = ""%string) then Ok acc else
        addr ← wrap_err (Errorf "invalid bech32 address format") (AccAddressFromBech32 x); Ok (acc ++ [addr])).
      destruct (bool_decide (x = ""%string)) eqn:E; [apply bool_decide_eq_true in E|apply bool_decide_eq_false in E].
      + rewrite decide_False by (intros H; by apply H). apply IH.
      + rewrite decide_True by done. destruct (AccAddressFromBech32 x) as [a|e|] eqn:Ea; cbn [wrap_err mbind res_bind].
        * rewrite IH. split.
          -- intros (rest & -> & Hr). exists (a :: rest). split; [by rewrite <- app_assoc|by constructor].
          -- intros (rest & -> & Hr). apply Forall2_cons_inv_l in Hr as (a' & rest' & Ha & Hr & ->).
             assert (a' = a) as -> by congruence. exists rest'. by rewrite <- app_assoc.
        * split; [done|]. intros (rest & _ & Hr). apply Forall2_cons_inv_l in Hr as (a' & _ & Ha & _). congruence.
        * split; [done|]. intros (rest & _ & Hr). apply Forall2_cons_inv_l in Hr as (a' & _ & Ha & _). congruence. }
  rewrite H. split; [by intros (rest & -> & Hr)|intros Hr; by exists accs].
Qed.

End Options.

(** ** The keepers *)

(** The fields of [stakingtypes.Validator] and of [slashingtypes.ValidatorSigningInfo] that
    the code sets. *)
Record NewValidator (PKA : Type) : Type := mkNewValidator {
  nv_OperatorAddress : string;
  nv_ConsensusPubkey : PKA;
  nv_Jailed : bool;
  nv_Status : Z;
  nv_Tokens : Z;
  nv_DelegatorShares : Z;
  nv_Moniker : string;
  nv_Rate : Z;
  nv_MaxRate : Z;
  nv_MaxChangeRate : Z;
  nv_MinSelfDelegation : Z
}.
Arguments nv_OperatorAddress {_}.
Arguments nv_ConsensusPubkey {_}.
Arguments nv_Jailed {_}.
Arguments nv_Status {_}.
Arguments nv_Tokens {_}.
Arguments mkNewValidator {_}.

Record NewSigningInfo : Type := mkNewSigningInfo { si_Address : string; si_StartHeight : Z; si_Tombstoned : bool }.

Definition Bonded : Z := 3.
Definition valVotingPower : Z := 900000000000000.

(** The keepers of x/staking, x/distribution and x/slashing, on the state [X] of the SDK
    modules; [staking_store] is the store under the key of x/staking. Rewards are empty
    and their numbers (of the period, of references) arguments. *)
Class TestnetKeepers (St X PK PKA : Type) : Type := {
  staking_store : X -> St;
  set_staking_store : St -> X -> X;
  NewAnyWithValue : PK -> res PKA;
  ConsString : bytes -> string;
  ValidatorsKey : bytes;
  ValidatorQueueKey : bytes;
  ValidatorsPowerStoreIterator : X -> res (list (bytes * bytes));
  LastValidatorsIterator : X -> res (list (bytes * bytes));
  SetNewValidator : NewValidator PKA -> X -> X * res unit;
  SetValidatorByConsAddr : NewValidator PKA -> X -> X * res unit;
  SetValidatorByPowerIndex : NewValidator PKA -> X -> X * res unit;
  SetLastValidatorPower : bytes -> Z -> X -> X * res unit;
  Hooks_AfterValidatorCreated : bytes -> X -> X * res unit;
  SetValidatorHistoricalRewards : bytes -> Z -> Z -> X -> X * res unit;
  SetValidatorCurrentRewards : bytes -> Z -> X -> X * res unit;
  SetValidatorAccumulatedCommission : bytes -> X -> X * res unit;
  SetValidatorOutstandingRewards : bytes -> X -> X * res unit;
  SetNewSigningInfo : bytes -> NewSigningInfo -> X -> X * res unit;
  staking_BondDenom : X -> res string
}.

Section Testnet.
Context {St X PK PKA : Type} {KV : KVStore St} {SM : SdkMath} {CO : Coins} {BE : Bech32} {T : StdTime}
        {BK : BankKeeper X} {TK : TestnetKeepers St X PK PKA}.
Local Abbreviation W := (world St X).

(** [stakingStore.Delete(k)], for each entry of an iterator, which shows the entries that
    were there when it was opened. *)
Definition staking_delete (k : bytes) : M X unit := fun x =>
  match kv_delete (staking_store x) k with
  | Ok s => (set_staking_store s x, Ok tt)
  | _ => (x, Panic)
  end.

Definition delete_all (entries : list (bytes * bytes)) : M X unit := mfor entries (fun kv => staking_delete kv.1).

Definition new_validator (args : valArgs PK) (pubkeyAny : PKA) : res (NewValidator PKA) :=
  shares ← must_res (LegacyNewDecFromStr "10000000");
  rate ← must_res (LegacyNewDecFromStr "0.05");
  maxRate ← must_res (LegacyNewDecFromStr "0.1");
  maxChangeRate ← must_res (LegacyNewDecFromStr "0.05");
  Ok (mkNewValidator (newOperatorAddress args) pubkeyAny false Bonded valVotingPower shares "Testnet Validator"
        rate maxRate maxChangeRate 1).

(** The four loops over the store of x/staking. *)
Definition clear_validators : M X unit :=
  power ← ask ValidatorsPowerStoreIterator;
  _ ← delete_all power;
  last ← ask LastValidatorsIterator;
  _ ← delete_all last;
  vals ← ask (fun x => must_res (kv_iterator (staking_store (TestnetKeepers := TK) x) ValidatorsKey (PrefixEndBytes ValidatorsKey)));
  _ ← delete_all vals;
  queue ← ask (fun x => must_res (kv_iterator (staking_store (TestnetKeepers := TK) x) ValidatorQueueKey (PrefixEndBytes ValidatorQueueKey)));
  delete_all queue.

Definition enter_validator (newVal : NewValidator PKA) (validator : bytes) : M X unit :=
  _ ← SetNewValidator newVal;
  _ ← SetValidatorByConsAddr newVal;
  _ ← SetValidatorByPowerIndex newVal;
  _ ← SetLastValidatorPower validator 0;
  _ ← Hooks_AfterValidatorCreated validator;
  _ ← SetValidatorHistoricalRewards validator 0 1;
  _ ← SetValidatorCurrentRewards validator 1;
  _ ← SetValidatorAccumulatedCommission validator;
  SetValidatorOutstandingRewards validator.

(** [LastBlockHeight()] is the height of the world. *)
Definition initAppForTestnet (args : valArgs PK) : M W unit :=
  pubkeyAny ← lift (NewAnyWithValue (newValPubKey args));
  newVal ← lift (new_validator args pubkeyAny);
  validator ← lift (ValAddressFromBech32 (nv_OperatorAddress newVal));
  _ ← ext clear_validators;
  _ ← ext (enter_validator newVal validator);
  height ← ask (fun w => Ok (w_height w));
  _ ← ext (SetNewSigningInfo (newValAddr args) (mkNewSigningInfo (ConsString (newValAddr args)) (height - 1) false));
  bondDenom ← ask (fun w => staking_BondDenom (w_ext w));
  defaultCoins ← lift (one_coin bondDenom 1000000000);
  mfor (accountsToFund args) (fun account =>
    _ ← ext (fun x => MintCoins x "mint" defaultCoins);
    ext_send app_send_restriction (fun r x => SendCoinsFromModuleToAccount r x "mint" account defaultCoins)).

(** An error in the options ends the program. *)
Definition newTestnetApp (args : res (valArgs PK)) : M W unit :=
  args ← lift (must_res args);
  initAppForTestnet args.

(** ** What the keepers do *)

Local Abbreviation vals x := (kv_view (staking_store (TestnetKeepers := TK) x)).

(** A call that writes one entry of x/staking, one that leaves its store alone; neither
    moves coins. *)
Definition writes (f : X -> X * res unit) (k v : bytes) : Prop := forall x,
  exists x', f x = (x', Ok tt) /\ vals x' = <[k := v]> (vals x) /\ same_ledger x x'.
Definition quiet_at (f : X -> X * res unit) (x : X) : Prop :=
  exists x', f x = (x', Ok tt) /\ vals x' = vals x /\ same_ledger x x'.
Definition quiet (f : X -> X * res unit) : Prop := forall x, quiet_at f x.

(** The prefixes, keys and values of x/staking: the record of a validator under its
    operator address; the operator address under the consensus address and under the
    power index; the last power under the operator address; the parameters. *)
Context (power_prefix last_prefix params_key : bytes) (val_key last_key : bytes -> bytes) (cons_key : PKA -> bytes)
        (power_key val_bytes : NewValidator PKA -> bytes) (power_bytes : Z -> bytes).

(** The keys that have a consensus address (an ed25519 key of 32 bytes). *)
Context (pubkey_ok : PK -> Prop).

Definition areas : list bytes := [power_prefix; last_prefix; ValidatorsKey; ValidatorQueueKey].
Definition in_area (k : bytes) : Prop := Exists (fun p => p `prefix_of` k) areas.

(** The consensus key of a validator is a packed key that has an address. *)
Definition packed (p : PKA) : Prop := exists k, pubkey_ok k /\ NewAnyWithValue k = Ok p.

(** The keepers as documented. [SetValidator] and [SetValidatorByConsAddr] need the
    operator address (and the consensus key) of the validator, [SetValidatorByPowerIndex]
    does not index a jailed validator ("jailed validators are not kept in the power
    index"), the hooks of x/distribution and x/slashing look the validator up and fail
    when it is not stored, the denom of the bond is a parameter of x/staking; "MintCoins
    [...] panics if the module account does not exist or is unauthorized". *)
Class TestnetLaws : Prop := {
  tl_store s x : staking_store (set_staking_store s x) = s;
  tl_ledger s x : same_ledger x (set_staking_store s x);
  tl_any k : pubkey_ok k -> exists a, NewAnyWithValue k = Ok a;
  tl_areas : Forall (fun p => p <> []) areas;
  tl_power x : ValidatorsPowerStoreIterator x = Ok (reverse (kv_prefix (vals x) power_prefix));
  tl_last x : LastValidatorsIterator x = Ok (kv_prefix (vals x) last_prefix);
  tl_in_areas v a : in_area (val_key a) /\ in_area (power_key v) /\ in_area (last_key a);
  tl_others p : ~ in_area (cons_key p) /\ ~ in_area params_key /\ params_key <> cons_key p;
  tl_distinct v a : val_key a <> power_key v /\ val_key a <> last_key a;
  tl_SetValidator v a : ValAddressFromBech32 (nv_OperatorAddress v) = Ok a ->
    writes (SetNewValidator v) (val_key a) (val_bytes v);
  tl_SetValidatorByConsAddr v a : ValAddressFromBech32 (nv_OperatorAddress v) = Ok a ->
    packed (nv_ConsensusPubkey v) -> writes (SetValidatorByConsAddr v) (cons_key (nv_ConsensusPubkey v)) a;
  tl_SetValidatorByPowerIndex v a : ValAddressFromBech32 (nv_OperatorAddress v) = Ok a ->
    if nv_Jailed v then quiet (SetValidatorByPowerIndex v) else writes (SetValidatorByPowerIndex v) (power_key v) a;
  tl_SetLastValidatorPower a p : writes (SetLastValidatorPower a p) (last_key a) (power_bytes p);
  tl_Hooks a v x : vals x !! val_key a = Some (val_bytes v) -> packed (nv_ConsensusPubkey v) ->
    quiet_at (Hooks_AfterValidatorCreated a) x;
  tl_Historical a p n : quiet (SetValidatorHistoricalRewards a p n);
  tl_Current a p : quiet (SetValidatorCurrentRewards a p);
  tl_Commission a : quiet (SetValidatorAccumulatedCommission a);
  tl_Outstanding a : quiet (SetValidatorOutstandingRewards a);
  tl_SigningInfo a i : quiet (SetNewSigningInfo a i);
  tl_BondDenom x y : vals x !! params_key = vals y !! params_key -> staking_BondDenom x = staking_BondDenom y;
  tl_mint m : m ∉ moduleAccPerms.*1 -> forall x c, exists x', MintCoins x m c = (x', Panic)
}.

Context {KVL : KVStoreLaws St} {SML : SdkMathLaws} {COL : CoinsLaws} {TL : TestnetLaws}.

#[local] Instance same_ledger_preorder : PreOrder (same_ledger (X := X)).
Proof. split; [done|]. intros x y z [H1 H2] [H3 H4]. split; intros; [by rewrite H3, H1|by rewrite H4, H2]. Qed.

(** ** Clearing *)

Lemma delete_all_run entries x : Forall (fun kv => kv.1 <> []) entries ->
  exists x', delete_all entries x = (x', Ok tt) /\ same_ledger x x' /\
    forall k, vals x' !! k = if decide (k ∈ entries.*1) then None else vals x !! k.
Proof.
  unfold delete_all. revert x. induction entries as [|[k v] entries IH]; intros x Hk.
  - exists x. split; [done|]. split; [done|]. intros k. by rewrite decide_False by apply not_elem_of_nil.
  - apply Forall_cons in Hk as [Hk Hks]. cbn [mfor fst] in *.
    destruct (kv_delete_law (staking_store x) k Hk) as (s & Es & Hs).
    destruct (IH (set_staking_store s x) Hks) as (x' & E & L & H). exists x'. split; [|split].
    + rewrite M_bind_run. unfold staking_delete at 1. by rewrite Es.
    + etrans; [apply tl_ledger|done].
    + intros k'. rewrite H, tl_store, Hs. cbn [fmap list_fmap fst]. destruct (decide (k' = k)) as [->|Hne].
      * rewrite lookup_delete_eq. rewrite (decide_True _ _ (list_elem_of_here _ _)). by case_decide.
      * rewrite lookup_delete_ne by done. apply decide_ext. rewrite elem_of_cons. naive_solver.
Qed.

(** After a loop over the entries under a prefix there is none left. *)
Definition cleared (ps : list bytes) (x x' : X) : Prop := same_ledger x x' /\
  forall k, vals x' !! k = if decide (Exists (fun p => p `prefix_of` k) ps) then None else vals x !! k.

Lemma clear_prefix p entries x : p <> [] -> (forall kv, kv ∈ entries <-> kv ∈ kv_prefix (vals x) p) ->
  exists x', delete_all entries x = (x', Ok tt) /\ cleared [p] x x'.
Proof.
  intros Hp He. destruct (delete_all_run entries x) as (x' & E & L & H).
  { apply Forall_forall. intros [k v] [_ Hk]%He%elem_of_kv_prefix [=]. cbn in Hk. subst. by apply prefix_nil_inv in Hk. }
  exists x'. split; [done|]. split; [done|]. intros k. rewrite H.
  destruct (decide (Exists (fun p => p `prefix_of` k) [p])) as [Hx|Hx].
  - case_decide as Hin; [done|]. destruct (vals x !! k) as [v|] eqn:Ev; [|done]. exfalso. apply Hin.
    apply list_elem_of_fmap. exists (k, v). split; [done|]. apply He, elem_of_kv_prefix. split; [done|].
    by apply Exists_cons in Hx as [?|?%Exists_nil].
  - case_decide as Hin; [|done]. exfalso. apply Hx. apply list_elem_of_fmap in Hin as ([k' v] & -> & [_ Hk]%He%elem_of_kv_prefix).
    by constructor.
Qed.

Lemma cleared_app ps qs x y z : cleared ps x y -> cleared qs y z -> cleared (ps ++ qs) x z.
Proof.
  intros [L1 H1] [L2 H2]. split; [by etrans|]. intros k. rewrite H2, H1.
  destruct (decide (Exists _ qs)) as [Hq|Hq].
  - rewrite decide_True; [done|]. apply Exists_app. by right.
  - apply decide_ext. rewrite Exists_app. naive_solver.
Qed.

Lemma clear_validators_run x : exists x', clear_validators x = (x', Ok tt) /\ cleared areas x x'.
Proof.
  pose proof tl_areas as Ha. unfold areas in Ha. rewrite !Forall_cons in Ha. destruct Ha as (Hp & Hl & Hv & Hq & _).
  unfold clear_validators.
  destruct (clear_prefix power_prefix (reverse (kv_prefix (vals x) power_prefix)) x Hp) as (x1 & E1 & C1).
  { intros kv. apply elem_of_reverse. }
  destruct (clear_prefix last_prefix (kv_prefix (vals x1) last_prefix) x1 Hl) as (x2 & E2 & C2); [done|].
  destruct (clear_prefix ValidatorsKey (kv_prefix (vals x2) ValidatorsKey) x2 Hv) as (x3 & E3 & C3); [done|].
  destruct (clear_prefix ValidatorQueueKey (kv_prefix (vals x3) ValidatorQueueKey) x3 Hq) as (x4 & E4 & C4); [done|].
  exists x4. split.
  - rewrite M_bind_run. unfold ask at 1. rewrite tl_power, M_bind_run, E1, M_bind_run. unfold ask at 1.
    rewrite tl_last, M_bind_run, E2, M_bind_run. unfold ask at 1. rewrite kv_iterator_law, kv_range_prefix by done. cbn [must_res].
    rewrite M_bind_run, E3, M_bind_run. unfold ask. rewrite kv_iterator_law, kv_range_prefix by done. exact E4.
  - apply (cleared_app [power_prefix] _ _ _ _ C1), (cleared_app [last_prefix] _ _ _ _ C2), (cleared_app [ValidatorsKey] _ _ _ _ C3 C4).
Qed.

(** ** Entering the new validator *)

(** [z] is [x] with the entries [m] of x/staking. *)
Definition holds (m : gmap bytes bytes) (x z : X) : Prop := same_ledger x z /\ vals z = m.

Lemma write_step f k v m x y : writes f k v -> holds m x y -> exists z, f y = (z, Ok tt) /\ holds (<[k := v]> m) x z.
Proof.
  intros Hf [L H]. destruct (Hf y) as (z & E & Hz & L'). exists z. split; [done|]. split; [by etrans|]. by rewrite Hz, H.
Qed.

Lemma quiet_step f m x y : quiet_at f y -> holds m x y -> exists z, f y = (z, Ok tt) /\ holds m x z.
Proof.
  intros (z & E & Hz & L') [L H]. exists z. split; [done|]. split; [by etrans|]. by rewrite Hz.
Qed.

(** The entries of a validator that is not jailed, the last three in the cleared areas. *)
Definition with_validator (v : NewValidator PKA) (a : bytes) (m : gmap bytes bytes) : gmap bytes bytes :=
  <[last_key a := power_bytes 0]> (<[power_key v := a]> (<[cons_key (nv_ConsensusPubkey v) := a]> (<[val_key a := val_bytes v]> m))).

Lemma with_validator_record v a m : with_validator v a m !! val_key a = Some (val_bytes v).
Proof.
  destruct (tl_distinct v a) as [D1 D2]. destruct (tl_in_areas v a) as [I1 _].
  destruct (tl_others (nv_ConsensusPubkey v)) as [O1 _]. unfold with_validator.
  rewrite !lookup_insert_ne by congruence. by rewrite lookup_insert_eq.
Qed.

Lemma enter_validator_run v a x : ValAddressFromBech32 (nv_OperatorAddress v) = Ok a -> nv_Jailed v = false ->
  packed (nv_ConsensusPubkey v) ->
  exists x', enter_validator v a x = (x', Ok tt) /\ holds (with_validator v a (vals x)) x x'.
Proof.
  intros Ha Hj Hp. pose proof (tl_SetValidatorByPowerIndex v a Ha) as Hi. rewrite Hj in Hi.
  destruct (write_step _ _ _ (vals x) x x (tl_SetValidator v a Ha)) as (x1 & E1 & H1); [by split|].
  destruct (write_step _ _ _ _ _ _ (tl_SetValidatorByConsAddr v a Ha Hp) H1) as (x2 & E2 & H2).
  destruct (write_step _ _ _ _ _ _ Hi H2) as (x3 & E3 & H3).
  destruct (write_step _ _ _ _ _ _ (tl_SetLastValidatorPower a 0) H3) as (x4 & E4 & H4). fold (with_validator v a (vals x)) in H4.
  assert (quiet_at (Hooks_AfterValidatorCreated a) x4) as Hh.
  { apply (tl_Hooks a v); [|done]. destruct H4 as [_ ->]. apply with_validator_record. }
  destruct (quiet_step _ _ _ _ Hh H4) as (x5 & E5 & H5).
  destruct (quiet_step _ _ _ _ (tl_Historical a 0 1 x5) H5) as (x6 & E6 & H6).
  destruct (quiet_step _ _ _ _ (tl_Current a 1 x6) H6) as (x7 & E7 & H7).
  destruct (quiet_step _ _ _ _ (tl_Commission a x7) H7) as (x8 & E8 & H8).
  destruct (quiet_step _ _ _ _ (tl_Outstanding a x8) H8) as (x9 & E9 & H9).
  exists x9. split; [|done]. unfold enter_validator.
  by rewrite M_bind_run, E1, M_bind_run, E2, M_bind_run, E3, M_bind_run, E4, M_bind_run, E5, M_bind_run, E6, M_bind_run, E7, M_bind_run, E8.
Qed.

Lemma new_validator_run args a : exists v, new_validator args a = Ok v /\ nv_OperatorAddress v = newOperatorAddress args /\
  nv_ConsensusPubkey v = a /\ nv_Jailed v = false /\ nv_Status v = Bonded /\ nv_Tokens v = valVotingPower.
Proof.
  unfold new_validator. rewrite (dec_parse "10000000" 10000000000000000000000000), (dec_parse "0.05" 50000000000000000),
    (dec_parse "0.1" 100000000000000000) by (vm_compute; reflexivity).
  by eexists.
Qed.

(** ** The command *)

(** The validators of the store after the command: in the four areas there are exactly
    the record of the new one, its power index and its last power; the entry of its
    consensus address is added, and every other entry is as before. *)
Definition only_validator (v : NewValidator PKA) (a : bytes) (x x' : X) : Prop :=
  (forall k, in_area k -> vals x' !! k =
     (<[last_key a := power_bytes 0]> (<[power_key v := a]> {[val_key a := val_bytes v]}) : gmap bytes bytes) !! k) /\
  vals x' !! cons_key (nv_ConsensusPubkey v) = Some a /\
  (forall k, ~ in_area k -> k <> cons_key (nv_ConsensusPubkey v) -> vals x' !! k = vals x !! k).

Lemma replaced v a x y z : cleared areas x y -> vals z = with_validator v a (vals y) -> only_validator v a x z.
Proof.
  intros [_ Hc] Hz. destruct (tl_in_areas v a) as (I1 & I2 & I3). destruct (tl_others (nv_ConsensusPubkey v)) as [O1 _].
  unfold only_validator. rewrite Hz. unfold with_validator. split_and!.
  - intros k Hk. destruct (decide (k = last_key a)) as [->|Hl]; [by rewrite !lookup_insert_eq|].
    rewrite !(lookup_insert_ne _ (last_key a)) by done.
    destruct (decide (k = power_key v)) as [->|Hp]; [by rewrite !lookup_insert_eq|].
    rewrite !(lookup_insert_ne _ (power_key v)), (lookup_insert_ne _ (cons_key _)) by (done || by intros <-).
    destruct (decide (k = val_key a)) as [->|Hv]; [by rewrite lookup_insert_eq, lookup_singleton_eq|].
    rewrite lookup_insert_ne, lookup_singleton_ne, Hc by done. by rewrite decide_True.
  - rewrite !(lookup_insert_ne _ (last_key a)), !(lookup_insert_ne _ (power_key v)) by congruence. by rewrite lookup_insert_eq.
  - intros k Hk Hn. rewrite !lookup_insert_ne by congruence. rewrite Hc. by rewrite decide_False.
Qed.

(** Up to the funding, the command succeeds. *)
Lemma initAppForTestnet_run args val w d : ValAddressFromBech32 (newOperatorAddress args) = Ok val ->
  pubkey_ok (newValPubKey args) -> staking_BondDenom (w_ext w) = Ok d -> denom_ok d = true ->
  exists w' v, initAppForTestnet args w = mfor (accountsToFund args) (fun account =>
      _ ← ext (fun x => MintCoins x "mint" [(d, 1000000000)]);
      ext_send app_send_restriction (fun r x => SendCoinsFromModuleToAccount r x "mint" account [(d, 1000000000)])) w' /\
    (exists x', w' = set_ext x' w) /\
    (nv_OperatorAddress v = newOperatorAddress args /\ NewAnyWithValue (newValPubKey args) = Ok (nv_ConsensusPubkey v) /\
     nv_Jailed v = false /\ nv_Status v = Bonded /\ nv_Tokens v = valVotingPower) /\
    same_ledger (w_ext w) (w_ext w') /\ only_validator v val (w_ext w) (w_ext w').
Proof.
  intros Hval Hk Hd Hok. destruct (tl_any (newValPubKey args) Hk) as [a Ea].
  destruct (new_validator_run args a) as (v & Ev & Hop & Hpk & Hj & Hs & Ht).
  destruct (clear_validators_run (w_ext w)) as (x1 & E1 & C1).
  destruct (enter_validator_run v val x1) as (x2 & E2 & C2); [by rewrite Hop|done|rewrite Hpk; by exists (newValPubKey args)|].
  destruct (quiet_step _ _ _ _ (tl_SigningInfo (newValAddr args) (mkNewSigningInfo (ConsString (newValAddr args)) (w_height w - 1) false) x2) C2)
    as (x3 & E3 & L3 & V3).
  pose proof (replaced v val _ _ x3 C1 V3) as O.
  assert (staking_BondDenom x3 = Ok d) as Ed.
  { rewrite <- Hd. apply tl_BondDenom. destruct (tl_others (nv_ConsensusPubkey v)) as (_ & P1 & P2). by apply O. }
  exists (set_ext x3 w), v. split_and!; try done; [|by exists x3|by rewrite Hpk|cbn [set_ext w_ext]; etrans; [apply C1|exact L3]..].
  unfold initAppForTestnet. erewrite bind_lift_run by exact Ea. erewrite bind_lift_run by exact Ev.
  erewrite bind_lift_run by (rewrite Hop; exact Hval). rewrite M_bind_run. unfold ext at 1. rewrite E1.
  rewrite M_bind_run. unfold ext at 1. cbn [set_ext w_ext]. rewrite E2. rewrite M_bind_run. unfold ask at 1. rewrite M_bind_run.
  unfold ext at 1. cbn [set_ext w_ext w_height]. rewrite E3. rewrite M_bind_run. unfold ask at 1. cbn [set_ext w_ext]. rewrite Ed.
  by erewrite bind_lift_run by (by apply one_coin_pos).
Qed.

(** C34: the testnet in place. Given the address of an operator, a consensus key that has
    an address and a chain whose bond denom is valid, the command succeeds if it
    has no account to fund: the entries of validators in the store of x/staking are then
    exactly the record, the power index and the last power of one bonded validator that
    is not jailed, of the operator and key given; its consensus address is entered, every
    other entry of x/staking, the stores of the three modules, and all balances and
    supplies are as before. With any account to fund it panics: the coins are minted by
    x/mint, which the application does not have. *)
Theorem in_place_testnet args val w d : ValAddressFromBech32 (newOperatorAddress args) = Ok val ->
  pubkey_ok (newValPubKey args) -> staking_BondDenom (w_ext w) = Ok d -> denom_ok d = true ->
  (accountsToFund args = [] -> exists w' v, initAppForTestnet args w = (w', Ok tt) /\
     (nv_OperatorAddress v = newOperatorAddress args /\ NewAnyWithValue (newValPubKey args) = Ok (nv_ConsensusPubkey v) /\
      nv_Jailed v = false /\ nv_Status v = Bonded /\ nv_Tokens v = valVotingPower) /\
     only_validator v val (w_ext w) (w_ext w') /\ same_ledger (w_ext w) (w_ext w') /\
     forall sk, get_store sk w' = get_store sk w) /\
  (accountsToFund args <> [] -> exists w', initAppForTestnet args w = (w', Panic)).
Proof.
  intros Hval Hk Hd Hok. destruct (initAppForTestnet_run args val w d Hval Hk Hd Hok) as (w' & v & E & (x' & Hw) & Hv & L & O).
  rewrite E. split.
  - intros ->. exists w', v. do 4 (split; [done|]). intros sk. subst w'. by destruct sk.
  - destruct (accountsToFund args) as [|acc accs]; [done|]. intros _. cbn [mfor].
    destruct (tl_mint "mint"%string ltac:(by apply (bool_decide_unpack _)) (w_ext w') [(d, 1000000000)]) as [x'' Em].
    exists (set_ext x'' w'). rewrite !M_bind_run. unfold ext at 1. by rewrite Em.
Qed.

End Testnet.

(** ** A reference instance *)

(** The SDK of the reference chain beside a store of x/staking. *)
Definition staked : Type := sdk_state * gmap bytes bytes.

Definition on_sdk {A} (f : sdk_state -> sdk_state * res A) (x : staked) : staked * res A :=
  let '(s, r) := f x.1 in ((s, x.2), r).
Definition put (k v : bytes) (x : staked) : staked * res unit := ((x.1, <[k := v]> x.2), Ok tt).

#[local] Instance ref_testnet_bank : BankKeeper staked :=
  let B := BK_ref moduleAccPerms blockAccAddrs in {|
  GetModuleAddress := @GetModuleAddress _ B;
  BlockedAddr := @BlockedAddr _ B;
  GetBalance x := @GetBalance _ B x.1;
  GetSupply x := @GetSupply _ B x.1;
  SendCoins r x f t c := on_sdk (fun s => @SendCoins _ B r s f t c) x;
  SendCoinsFromModuleToModule r x m n c := on_sdk (fun s => @SendCoinsFromModuleToModule _ B r s m n c) x;
  SendCoinsFromAccountToModule r x f n c := on_sdk (fun s => @SendCoinsFromAccountToModule _ B r s f n c) x;
  SendCoinsFromModuleToAccount r x m t c := on_sdk (fun s => @SendCoinsFromModuleToAccount _ B r s m t c) x;
  MintCoins x m c := on_sdk (fun s => @MintCoins _ B s m c) x;
  BurnCoins x m c := on_sdk (fun s => @BurnCoins _ B s m c) x;
  FundCommunityPool r x c f := on_sdk (fun s => @FundCommunityPool _ B r s c f) x
|}.

(** The keys of x/staking; a consensus key is a text, its address. *)
Definition ref_val_key (a : bytes) : bytes := x21 :: a.
Definition ref_cons_key (p : string) : bytes := x22 :: bytes_of p.
Definition ref_power_key (v : NewValidator string) : bytes := x23 :: bytes_of (IntString (nv_Tokens v)) ++ bytes_of (nv_OperatorAddress v).
Definition ref_last_key (a : bytes) : bytes := x11 :: a.
Definition ref_val_bytes (v : NewValidator string) : bytes :=
  (if nv_Jailed v then x01 else x00) :: bytes_of (nv_ConsensusPubkey v) ++ bytes_of (nv_OperatorAddress v).

(** The writes of a keeper that needs the operator address. *)
Definition put_operator (v : NewValidator string) (kv : bytes -> bytes * bytes) (x : staked) : staked * res unit :=
  match ValAddressFromBech32 (nv_OperatorAddress v) with
  | Ok a => put (kv a).1 (kv a).2 x
  | Err e => (x, Err e)
  | Panic => (x, Panic)
  end.

#[local] Instance ref_testnet_keepers : TestnetKeepers (gmap bytes bytes) staked string string := {|
  staking_store x := x.2;
  set_staking_store s x := (x.1, s);
  NewAnyWithValue k := if bool_decide (k = ""%string) then Err (Errorf "no key") else Ok k;
  ConsString := ValString;
  ValidatorsKey := [x21];
  ValidatorQueueKey := [x43];
  ValidatorsPowerStoreIterator x := Ok (reverse (kv_prefix x.2 [x23]));
  LastValidatorsIterator x := Ok (kv_prefix x.2 [x11]);
  SetNewValidator v := put_operator v (fun a => (ref_val_key a, ref_val_bytes v));
  SetValidatorByConsAddr v := put_operator v (fun a => (ref_cons_key (nv_ConsensusPubkey v), a));
  SetValidatorByPowerIndex v x := if nv_Jailed v then (x, Ok tt) else put_operator v (fun a => (ref_power_key v, a)) x;
  SetLastValidatorPower a p := put (ref_last_key a) (bytes_of (IntString p));
  Hooks_AfterValidatorCreated a x :=
    match x.2 !! ref_val_key a with Some _ => (x, Ok tt) | None => (x, Err (Errorf "validator does not exist")) end;
  SetValidatorHistoricalRewards _ _ _ x := (x, Ok tt);
  SetValidatorCurrentRewards _ _ x := (x, Ok tt);
  SetValidatorAccumulatedCommission _ x := (x, Ok tt);
  SetValidatorOutstandingRewards _ x := (x, Ok tt);
  SetNewSigningInfo _ _ x := (x, Ok tt);
  staking_BondDenom x := match x.2 !! [x51] with Some d => Ok (string_of d) | None => Err (Errorf "no parameters") end
|}.

Lemma put_operator_writes v kv a : ValAddressFromBech32 (nv_OperatorAddress v) = Ok a ->
  writes (X := staked) (TK := ref_testnet_keepers) (put_operator v kv) (kv a).1 (kv a).2.
Proof. intros Ha x. unfold put_operator. rewrite Ha. by eexists. Qed.

Ltac not_in_area := let H := fresh in intros H; repeat (apply Exists_cons in H as [[? H]|H]; [done|]); by apply Exists_nil in H.

#[local] Instance ref_testnet_laws : TestnetLaws (X := staked) [x23] [x11] [x51] ref_val_key ref_last_key ref_cons_key ref_power_key
  ref_val_bytes (fun p => bytes_of (IntString p)) (fun k => k <> ""%string).
Proof.
  assert (quiet (X := staked) (TK := ref_testnet_keepers) (fun x => (x, Ok tt))) as Hq by (intros x; by eexists).
  split; try done.
  - intros k Hk. exists k. cbn. by rewrite bool_decide_eq_false_2.
  - repeat constructor; done.
  - intros v a. split_and!; [do 2 right; left|left|right; left]; by eexists.
  - intros p. split_and!; [not_in_area|not_in_area|done].
  - intros v a Ha. by apply (put_operator_writes v (fun a => (ref_val_key a, ref_val_bytes v))).
  - intros v a Ha _. by apply (put_operator_writes v (fun a => (ref_cons_key (nv_ConsensusPubkey v), a))).
  - intros v a Ha. cbn [SetValidatorByPowerIndex ref_testnet_keepers]. destruct (nv_Jailed v); [done|].
    by apply (put_operator_writes v (fun a => (ref_power_key v, a))).
  - intros a p x. by eexists.
  - intros a v x Hx _. unfold quiet_at. cbn in Hx |- *. rewrite Hx. by eexists.
  - intros x y E. cbn in E |- *. by rewrite E.
  - intros m Hm x c. exists x. assert (has_perm moduleAccPerms m "minter" = false) as E.
    { apply not_true_is_false. intros H. apply existsb_exists in H as ([n ps] & Hin & [Hn _]%andb_true_iff).
      apply bool_decide_eq_true in Hn. apply Hm, list_elem_of_fmap. exists (n, ps). by apply list_elem_of_In in Hin. }
    cbn -[has_perm moduleAccPerms]. unfold on_sdk. cbn -[has_perm moduleAccPerms]. rewrite E, andb_false_r. by destruct x.
Qed.

(** A chain with two validators, whose bond denom is uvtx. *)
Definition ref_two_validators : world (gmap bytes bytes) staked :=
  mkWorld ∅ ∅ ∅ (w_ext (ref_chain ∅ 10 100),
    list_to_map [([x21; x01], [x01]); ([x23; x01], [x01]); ([x11; x01], [x01]); ([x21; x02], [x01]); ([x51], bytes_of "uvtx")])
    10 (100 * Second) [].

Definition ref_testnet_args (accs : list bytes) : valArgs string := mkValArgs [x01] "vtxvaloper1alice" "key" accs "" "/root/.vertix".

Lemma ref_operator : ValAddressFromBech32 "vtxvaloper1alice" = Ok (bytes_of "alice").
Proof. vm_compute. reflexivity. Qed.

Lemma in_place_testnet_witness :
  (exists w', initAppForTestnet (ref_testnet_args []) ref_two_validators = (w', Ok tt) /\
     (w_ext w').2 !! [x21; x01] = None /\ (w_ext w').2 !! [x51] = Some (bytes_of "uvtx") /\
     is_Some ((w_ext w').2 !! ref_val_key (bytes_of "alice"))) /\
  (exists w', initAppForTestnet (ref_testnet_args [bytes_of "alice"]) ref_two_validators = (w', Panic)).
Proof.
  pose proof (fun accs => in_place_testnet [x23] [x11] [x51] ref_val_key ref_last_key ref_cons_key ref_power_key ref_val_bytes
    (fun p => bytes_of (IntString p)) (fun k => k <> ""%string) (ref_testnet_args accs) (bytes_of "alice")
    ref_two_validators "uvtx" ref_operator ltac:(discriminate) ltac:(vm_compute; reflexivity) ltac:(vm_compute; reflexivity)) as H.
  split.
  - destruct (H []) as [H1 _]. destruct H1 as (w' & v & E & (Hv & _) & (A1 & _ & A2) & _); [done|]. exists w'. split; [exact E|].
    change (kv_view (staking_store (w_ext w'))) with (w_ext w').2 in A1, A2. split_and!.
    + rewrite A1; [|do 2 right; left; by exists [x01]].
      unfold ref_power_key. rewrite !lookup_insert_ne by done. by rewrite lookup_singleton_ne.
    + etrans; [apply A2|reflexivity]; [not_in_area|done].
    + rewrite A1; [|do 2 right; left; by eexists]. unfold ref_power_key. rewrite !lookup_insert_ne by done.
      rewrite lookup_singleton_eq. by eexists.
  - apply (H [bytes_of "alice"]). done.
Defined.
