(* ===== verification/Chain.v ===== *)
(** * The composition of the three modules

    [App.deliver], [App.EndBlock] and the SDK's own activity as one transition
    system. Each module was verified against an environment that keeps off its
    store and its accounts (the [*_other] steps of [Fees], [OracleSafety] and
    [RwaSafety]); here the other two modules, and the SDK modules under
    [SdkModulesLaws], are shown to be such environments, so that the invariants
    hold of the whole application. The bank laws are those of the account
    permissions in app_config.go. *)

From S2P Require Import Prelude Sdk World SdkRef Wire.
From S2P Require Import FeesTypes Fees OracleTypes OracleAgg OracleKeeper OracleEndBlock OracleSafety OracleInv.
From S2P Require Import RwaTypes RwaKeeper RwaMsg RwaInv RwaSpec RwaSafety RwaRef App.

Open Scope Z_scope.

(** ** Programs local to one module *)

Section Local.
Context {St X : Type} {KV : KVStore St} {KVL : KVStoreLaws St}.
Local Abbreviation W := (world St X).
Context (sk : option store_key) (Rx : X -> X -> Prop) {PRx : PreOrder Rx}.

(** Only the store [sk] changes, the SDK state changes as [Rx] allows, and the
    block header does not. *)
Definition local (w w' : W) : Prop :=
  (forall sk', Some sk' <> sk -> get_store sk' w' = get_store sk' w) /\
  Rx (w_ext w) (w_ext w') /\ w_height w' = w_height w /\ w_time w' = w_time w.

#[global] Instance local_preorder : PreOrder local.
Proof.
  split; [by intros w|]. intros w1 w2 w3 (A1 & A2 & A3 & A4) (B1 & B2 & B3 & B4). split_and!.
  - intros sk' H. by rewrite B1, A1.
  - by transitivity (w_ext w2).
  - congruence.
  - congruence.
Qed.

Context (E : W -> W -> Prop) {ER : ErrRel local E}.

Lemma local_emit ty attrs : guarantees local E (emit ty attrs).
Proof. intros w. apply wlp_emit. split; [|done]. intros sk' _. by destruct sk'. Qed.

Lemma local_ext {A} (f : X -> X * res A) :
  (forall x x' r, f x = (x', r) -> r <> Panic -> Rx x x') -> guarantees local E (ext f).
Proof.
  intros Hf w. apply wlp_ext. intros x r Hr.
  assert (r <> Panic -> local w (set_ext x w)) as H.
  { intros Hp. split; [intros sk' _; by destruct sk'|]. split; [by eapply Hf|done]. }
  destruct r; [by apply H|apply err_of; by apply H|done].
Qed.

Lemma local_ext_send {A} (R : W -> restr) (f : restr -> X -> X * res A) :
  (forall rs x x' r, f rs x = (x', r) -> r <> Panic -> Rx x x') -> guarantees local E (ext_send R f).
Proof.
  intros Hf w. apply wlp_ext_send. intros x r Hr.
  assert (r <> Panic -> local w (set_ext x w)) as H.
  { intros Hp. split; [intros sk' _; by destruct sk'|]. split; [by eapply Hf|done]. }
  destruct r; [by apply H|apply err_of; by apply H|done].
Qed.

Lemma local_write k0 s (w : W) : sk = Some k0 -> local w (set_store k0 s w).
Proof.
  intros Hsk. split; [|by destruct k0]. intros sk' H. apply get_set_store_ne. intros ->. by apply H.
Qed.

Lemma local_set k0 k v : sk = Some k0 -> guarantees local E (st_set k0 k v).
Proof.
  intros Hsk w. unfold wlp, st_set, st_write.
  destruct (kv_set _ k v) as [s|e|]; [by apply local_write|exact (err_of _ _ (reflexivity _))|done].
Qed.

Lemma local_delete k0 k : sk = Some k0 -> guarantees local E (st_delete k0 k).
Proof.
  intros Hsk w. unfold wlp, st_delete, st_write.
  destruct (kv_delete _ k) as [s|e|]; [by apply local_write|exact (err_of _ _ (reflexivity _))|done].
Qed.

End Local.

(** Splits a guarantee along the program. *)
Ltac local_step :=
  lazymatch goal with
  | |- guarantees _ _ (mret _) => apply guar_mret; apply _
  | |- guarantees _ _ (throw _) => apply guar_throw; apply _
  | |- guarantees _ _ (ask _) => apply guar_ask; apply _
  | |- guarantees _ _ (lift _) => apply guar_lift; apply _
  | |- guarantees _ _ (guard_err _ _) => apply guar_guard; apply _
  | |- guarantees _ _ (must _) => apply guar_must
  | |- guarantees _ _ (emit _ _) => apply local_emit; apply _
  | |- guarantees _ _ (st_set _ _ _) => apply local_set; [apply _|apply _|reflexivity]
  | |- guarantees _ _ (st_delete _ _) => apply local_delete; [apply _|apply _|reflexivity]
  | |- guarantees _ _ (or_return _ _) => apply guar_or_return; [apply _|apply _| |intros ?]
  | |- guarantees _ _ (mfor _ _) => apply guar_mfor; [apply _|apply _|intros ? ?]
  | |- guarantees _ _ (mfold _ _ _) => apply guar_mfold; [apply _|apply _|intros ? ?]
  | |- guarantees _ _ (let _ := _ in _) => cbv zeta
  | |- guarantees _ _ (match ?x with _ => _ end) => destruct x
  | |- guarantees _ _ (mbind _ (lift _)) => apply guar_bind_lift; [apply _|apply _|intros ? ?]
  | |- guarantees _ _ (mbind _ _) => apply guar_bind; [apply _|apply _| |intros ?]
  end.
Ltac local_steps := repeat (local_step; cbv beta).

(** ** What the modules do to the world *)

(** The ledger as the other modules rely on it: the factory denoms keep their
    supply, nothing leaves the account of x/rwa, and no uvtx is created. *)
Definition quiet {X} {BK : BankKeeper X} (x x' : X) : Prop :=
  (forall id, slugRegex id = true -> GetSupply x' (BuildDenom id) = GetSupply x (BuildDenom id)) /\
  GetBalance x ModuleAddress BondDenom <= GetBalance x' ModuleAddress BondDenom /\
  GetSupply x' BondDenom <= GetSupply x BondDenom.

#[global] Instance quiet_preorder {X} {BK : BankKeeper X} : PreOrder (@quiet X BK).
Proof.
  split; [intros x; split_and!; [done|lia|lia]|].
  intros x1 x2 x3 (A1 & A2 & A3) (B1 & B2 & B3). split_and!; [|lia|lia]. intros id H. by rewrite B1, A1.
Qed.

(** Slashing burns bonded or unbonding tokens: only the supply of the bond denom
    and the balances of the two staking pools change, and only downwards. *)
Class SlashLaws (X : Type) {BK : BankKeeper X} {SL : SlashingKeeper X} : Prop := {
  slash_burns (x x' : X) c f p h r : Slash x c f p h = (x', r) ->
    (forall d, d <> BondDenom -> GetSupply x' d = GetSupply x d) /\
    GetSupply x' BondDenom <= GetSupply x BondDenom /\
    (forall a d, a <> GetModuleAddress "bonded_tokens_pool" -> a <> GetModuleAddress "not_bonded_tokens_pool" ->
       GetBalance x' a d = GetBalance x a d)
}.

(** The messages whose signatures and sizes the ante handlers let through: no key
    signs for the account of x/rwa, and a transaction has bounded texts. *)
Definition admissible {X} {BE : Bech32} {BK : BankKeeper X} (m : chain_msg) : Prop :=
  match m with
  | RwaRegisterAsset m => register_small m /\ signer_ok (ra_Issuer m)
  | RwaMintRWA m => signer_ok (mr_Issuer m)
  | RwaSettleRWA m => signer_ok (sr_Issuer m)
  | RwaUpdateParams m => params_small (RwaTypes.Params m)
  | _ => True
  end.

(** The texts of a message fit a transaction. *)
Definition fits {St X} {SM : SdkMath} (m : chain_msg) (w : world St X) : Prop :=
  match m with
  | FeesUpdateParams m => wf_msg (FeesTypes.Params m)
  | OracleSubmitFeed m => feed_fits m w
  | OracleUpdateParams m => params_fit (OracleTypes.Params m)
  | _ => True
  end.

Section Governance.
Context {St X : Type} {KV : KVStore St} {SM : SdkMath} {CO : Coins} {BE : Bech32} {T : StdTime}
        {BK : BankKeeper X} {SK : StakingKeeper X} {SL : SlashingKeeper X}.
Local Abbreviation W := (world St X).

(** What the end-blocker of x/gov is made of: its own work on deposits, votes and
    proposals, and the messages of the proposals that passed, among them the parameter
    updates and the bond slashes of the three modules. The messages run in a cached
    state that is written only when all of them succeed, so a failed proposal leaves
    no trace of its messages. *)
Inductive gov_action : W -> W -> Prop :=
| gov_own w w' : local None quiet w w' -> gov_action w w'
| gov_message m w w' : admissible m -> fits m w -> deliver m w = (w', Ok tt) -> gov_action w w'.

End Governance.

(** The SDK and IBC modules have their own stores; no account of theirs mints uvtx
    or factory denoms (the only minter among them is IBC transfer, of vouchers),
    and none can spend from the account of x/rwa. The end-blocker of x/gov, though,
    executes the proposals that passed, and these reach the three modules through
    their messages. *)
Class SdkModulesLaws (St X : Type) {KV : KVStore St} {SM : SdkMath} {CO : Coins} {BE : Bech32} {T : StdTime}
    {BK : BankKeeper X} {SK : StakingKeeper X} {SL : SlashingKeeper X} {SDK : SdkModules (world St X)} : Prop := {
  sdk_EndBlock_quiet n : n <> "gov"%string -> guarantees (local None quiet) any_state (sdk_EndBlock n);
  sdk_EndBlock_gov (w w' : world St X) : sdk_EndBlock "gov" w = (w', Ok tt) -> rtc gov_action w w';
  (** The modules that are initialised after staking, too, work on the accounts
      and tokens that x/bank created. *)
  sdk_InitGenesis_quiet n : n ∈ drop 5 genesisModuleOrder ->
    guarantees (local None quiet) any_state (sdk_InitGenesis n)
}.

Section Frame.
Context {St X : Type} {KV : KVStore St} {SM : SdkMath} {CO : Coins} {BE : Bech32} {T : StdTime}
        {BK : BankKeeper X} {SK : StakingKeeper X} {SL : SlashingKeeper X}.
Local Abbreviation W := (world St X).
Context {KVL : KVStoreLaws St} {SML : SdkMathLaws} {COL : CoinsLaws} {BEL : Bech32Laws} {TL : StdTimeLaws}.
Context {BKL : BankLaws X moduleAccPerms} {SLB : SlashLaws X}.

Lemma perm_rwa : (RwaTypes.ModuleName, [Minter; Burner]) ∈ moduleAccPerms.
Proof. unfold moduleAccPerms. set_solver. Qed.
Lemma perm_fees : (FeesTypes.ModuleName, [Burner]) ∈ moduleAccPerms.
Proof. unfold moduleAccPerms. set_solver. Qed.
Lemma perm_collector : (FeesTypes.FeeCollectorName, []) ∈ moduleAccPerms.
Proof. left. Qed.
Lemma perm_distribution : ("distribution"%string, []) ∈ moduleAccPerms.
Proof. right; left. Qed.
Lemma perm_bonded : ("bonded_tokens_pool"%string, [Burner; "staking"%string]) ∈ moduleAccPerms.
Proof. unfold moduleAccPerms. set_solver. Qed.
Lemma perm_not_bonded : ("not_bonded_tokens_pool"%string, [Burner; "staking"%string]) ∈ moduleAccPerms.
Proof. unfold moduleAccPerms. set_solver. Qed.

(** The account of x/rwa is not that of another entry of app_config.go. *)
Lemma rwa_account_distinct m ps : (m, ps) ∈ moduleAccPerms -> m <> RwaTypes.ModuleName ->
  ModuleAddress <> GetModuleAddress m.
Proof. intros Hm Hne E. apply Hne. symmetry. exact (module_address_inj _ _ _ _ perm_rwa Hm E). Qed.

Lemma slash_quiet x x' c f p h r : Slash x c f p h = (x', r) -> quiet x x'.
Proof.
  intros H. apply slash_burns in H as (A & B & C). split_and!; [|rewrite C; [lia| |]|done].
  - intros id _. apply A, BuildDenom_not_bond.
  - exact (rwa_account_distinct _ _ perm_bonded ltac:(done)).
  - exact (rwa_account_distinct _ _ perm_not_bonded ltac:(done)).
Qed.

(** x/oracle writes its own store, and touches the ledger by slashing only. *)
Definition oracle_local : W -> W -> Prop := local (Some OracleKey) quiet.

#[local] Instance oracle_local_preorder : PreOrder oracle_local := local_preorder _ _.

Lemma slashValidator_local v rate reason : guarantees oracle_local oracle_local (slashValidator v rate reason).
Proof.
  unfold slashValidator, oracle_local. local_steps. apply local_ext; [apply _|].
  intros x x' r H _. by eapply slash_quiet.
Qed.

Lemma oracle_EndBlocker_local : guarantees oracle_local oracle_local OracleEndBlock.EndBlocker.
Proof.
  unfold OracleEndBlock.EndBlocker, pair_step, miss_step, outlier_check, SetAggregatedPrice, AppendTWAPEntry,
    PruneTWAPOlderThan, IncTotalWindows, IncMissCounter, ResetValidatorWindows, DeleteAllFeeds, oracle_local.
  local_steps; apply slashValidator_local.
Qed.

Lemma oracle_deliver_local m :
  match m with
  | OracleSetFeeder _ | OracleSubmitFeed _ | OracleUpdateParams _ => guarantees oracle_local oracle_local (deliver m)
  | _ => True
  end.
Proof.
  destruct m; try done; cbn [deliver];
    unfold SetFeeder, SubmitFeed, OracleKeeper.UpdateParams, check_bonded, SetFeederDelegation, SetFeed,
      ResetMissCounters, deleteAllWithPrefix, OracleKeeper.SetParams, oracle_local; local_steps.
Qed.

Lemma oracle_InitGenesis_local k gs : guarantees (local (Some OracleKey) eq) any_state (OracleKeeper.InitGenesis k gs : M W unit).
Proof.
  unfold OracleKeeper.InitGenesis, OracleKeeper.SetParams, SetAggregatedPrice, SetFeederDelegation. local_steps.
Qed.

(** x/fees burns from its own account what it took from the fee collector. *)
Lemma same_ledger_quiet x x' : same_ledger x x' -> quiet x x'.
Proof. intros [A B]. split_and!; [intros id _; apply B|rewrite A; lia|rewrite B; lia]. Qed.

Lemma transferred_quiet x x' f t c : transferred x x' f t c -> 0 <= coin_amt c BondDenom ->
  ModuleAddress <> f -> quiet x x'.
Proof.
  intros [A B] Hc Hf. split_and!; [intros id _; apply B| |rewrite B; lia].
  rewrite A. rewrite (decide_False (P := ModuleAddress = f)) by done. case_decide; lia.
Qed.

Definition fees_local : W -> W -> Prop := local (Some FeesKey) quiet.

#[local] Instance fees_local_preorder : PreOrder fees_local := local_preorder _ _.

Lemma fees_EndBlock_local : guarantees fees_local fees_local fees_EndBlock.
Proof.
  unfold fees_EndBlock, Fees.EndBlocker, AddCumulativeBurned, fees_local. local_steps.
  - match goal with H : one_coin _ _ = Ok _ |- _ => rename H into Hone end.
    pose proof (one_coin_length _ _ _ Hone) as Hlen. pose proof (one_coin_inv _ _ _ Hone) as [Hpos _].
    apply local_ext_send; [apply _|]. intros rs x x' r Hrun Hp.
    rewrite (send_m2m _ _ _ _ _ _ _ perm_collector perm_fees) in Hrun. destruct r; [| |done].
    + apply send_ok in Hrun as (t' & _ & Tr & _). apply (transferred_quiet _ _ _ _ _ Tr).
      * rewrite (one_coin_amt _ _ _ _ Hone). case_decide; lia.
      * exact (rwa_account_distinct _ _ perm_collector ltac:(done)).
    + apply same_ledger_quiet. by eapply send_fail.
  - match goal with H : one_coin _ _ = Ok _ |- _ => rename H into Hone end.
    pose proof (one_coin_length _ _ _ Hone) as Hlen. pose proof (one_coin_inv _ _ _ Hone) as [Hpos _].
    apply local_ext; [apply _|]. intros x x' r Hrun Hp. destruct r; [| |done].
    + apply burn_ok in Hrun as [A B]. split_and!.
      * intros id _. rewrite B, (one_coin_amt _ _ _ _ Hone), decide_False; [lia|].
        intros E. by apply (BuildDenom_not_bond id).
      * rewrite A, decide_False; [lia|]. exact (rwa_account_distinct _ _ perm_fees ltac:(done)).
      * rewrite B, (one_coin_amt _ _ _ _ Hone). case_decide; lia.
    + apply same_ledger_quiet. by eapply burn_fail.
Qed.

Lemma fees_deliver_local m : guarantees (local (Some FeesKey) eq) any_state (deliver (FeesUpdateParams m) : M W unit).
Proof. cbn [deliver]. unfold Fees.UpdateParams, Fees.SetParams. local_steps. Qed.

Lemma fees_InitGenesis_local gs : guarantees (local (Some FeesKey) eq) any_state (Fees.InitGenesis gs : M W unit).
Proof. unfold Fees.InitGenesis, Fees.SetParams, SetGenesisSupply. local_steps. Qed.

Lemma rwa_InitGenesis_local gs : guarantees (local (Some RwaKey) eq) any_state (RwaKeeper.InitGenesis gs : M W unit).
Proof.
  unfold RwaKeeper.InitGenesis, RwaKeeper.SetParams, SetAsset, AddDenylist, AddAllowlist. local_steps.
Qed.

Lemma rwa_params_local m : guarantees (local (Some RwaKey) eq) any_state (deliver (RwaUpdateParams m) : M W unit).
Proof. cbn [deliver]. unfold RwaMsg.UpdateParams, RwaKeeper.SetParams. local_steps. Qed.

Lemma rwa_restrict_local m :
  guarantees (local (Some RwaKey) eq) any_state (deliver (RwaUpdateRestrictions m) : M W unit).
Proof.
  cbn [deliver]. unfold RwaMsg.UpdateRestrictions, apply_list, AddAllowlist, DelAllowlist, AddDenylist, DelDenylist,
    SetAsset. local_steps.
Qed.

End Frame.

(** ** The chain *)

Definition is_rwa (m : chain_msg) : bool :=
  match m with
  | FeesUpdateParams _ | OracleSetFeeder _ | OracleSubmitFeed _ | OracleUpdateParams _ => false
  | _ => true
  end.

Lemma mfor_Ok_ind {S A} (P : S -> Prop) (l : list A) (body : A -> M S unit) s s' :
  (forall x s s', x ∈ l -> P s -> body x s = (s', Ok tt) -> P s') ->
  P s -> mfor l body s = (s', Ok tt) -> P s'.
Proof.
  revert s; induction l as [|x l IH]; cbn [mfor]; intros s Hb HP Hr; [by apply mret_Ok in Hr as [-> _]|].
  apply M_bind_Ok in Hr as (s1 & [] & H1 & Hr). eapply IH; [|by eapply Hb; [left|..]|exact Hr].
  intros y t t' Hy. apply Hb. by right.
Qed.

Lemma mfor_app_Ok {S A} (l l' : list A) (body : A -> M S unit) s s' :
  mfor (l ++ l') body s = (s', Ok tt) <-> exists s1, mfor l body s = (s1, Ok tt) /\ mfor l' body s1 = (s', Ok tt).
Proof.
  revert s; induction l as [|x l IH]; intros s; cbn [mfor app].
  - split; [intros H; by exists s|]. by intros (s1 & [-> _]%mret_Ok & H).
  - rewrite M_bind_Ok. split.
    + intros (s1 & [] & H1 & (s2 & H2 & H3)%IH). exists s2. split; [|done]. apply M_bind_Ok. eauto.
    + intros (s2 & (s1 & [] & H1 & H2)%M_bind_Ok & H3). exists s1, tt. split; [done|]. apply IH. eauto.
Qed.

Section Chain.
Context {St X : Type} {KV : KVStore St} {SM : SdkMath} {CO : Coins} {BE : Bech32} {T : StdTime}
        {BK : BankKeeper X} {SK : StakingKeeper X} {SL : SlashingKeeper X}.
Local Abbreviation W := (world St X).
Context {KVL : KVStoreLaws St} {SML : SdkMathLaws} {COL : CoinsLaws} {BEL : Bech32Laws} {TL : StdTimeLaws}.
Context {BKL : BankLaws X moduleAccPerms} {SLL : StakingLaws X} {SLB : SlashLaws X}.
Context {SDK : SdkModules W} {SDL : SdkModulesLaws St X}.

(** One step: a message that succeeds or fails (and is rolled back), the end of a
    block, or something of the SDK's between (another transaction, the beginning
    of a block). *)
Inductive chain_step : W -> W -> Prop :=
| chain_tx m w w' : admissible m -> deliver m w = (w', Ok tt) -> chain_step w w'
| chain_tx_failed m w w' e : deliver m w = (w', Err e) -> chain_step w w
| chain_end_block w w' : EndBlock w = (w', Ok tt) -> chain_step w w'
| chain_sdk w w' : (forall sk, get_store sk w' = get_store sk w) -> quiet (w_ext w) (w_ext w') ->
    time_ok (w_time w') -> chain_step w w'.

(** What every state satisfies: the invariant of x/rwa, the feeder bindings of
    x/oracle, and the books of x/fees up to what was burned elsewhere. *)
Record chain_inv (w : W) : Prop := mkChainInv {
  ci_rwa : rwa_inv w;
  ci_oracle : bindings_ok (view OracleKey w);
  ci_fees : exists δ, 0 <= δ /\ reconciled δ w
}.

(** ** Each module against the others *)

Lemma others_rwa (w w' : W) : get_store RwaKey w' = get_store RwaKey w -> quiet (w_ext w) (w_ext w') ->
  time_ok (w_time w') -> rwa_inv w -> rwa_inv w'.
Proof.
  intros Hs (Q1 & Q2 & _) Ht Hi.
  apply (rwa_step_inv moduleAccPerms _ _ _ perm_rwa perm_collector perm_distribution rwa_keeper w w' Hi).
  apply rstep_other; [unfold view; by rewrite Hs|done..].
Qed.

Lemma others_oracle (w w' : W) : get_store OracleKey w' = get_store OracleKey w ->
  bindings_ok (view OracleKey w) -> bindings_ok (view OracleKey w').
Proof. intros Hs. unfold view. by rewrite Hs. Qed.

Lemma others_fees (w w' : W) : get_store FeesKey w' = get_store FeesKey w ->
  GetSupply (w_ext w') BondDenom <= GetSupply (w_ext w) BondDenom ->
  (exists δ, 0 <= δ /\ reconciled δ w) -> exists δ, 0 <= δ /\ reconciled δ w'.
Proof.
  intros Hs Hle (δ & Hδ & Hr). eexists. split; [|apply (reconciled_shift δ w); [unfold view; by rewrite Hs|done]].
  change FeeDenom with BondDenom. lia.
Qed.

(** A quiet step that writes at most the store [sk] keeps the rest. *)
Lemma local_inv sk (w w' : W) : local sk quiet w w' -> chain_inv w ->
  (sk = Some RwaKey -> rwa_inv w') ->
  (sk = Some OracleKey -> bindings_ok (view OracleKey w')) ->
  (sk = Some FeesKey -> exists δ, 0 <= δ /\ reconciled δ w') -> chain_inv w'.
Proof.
  intros (Hs & Hq & _ & Ht) [H1 H2 H3] K1 K2 K3. constructor.
  - destruct (decide (sk = Some RwaKey)); [by apply K1|].
    apply (others_rwa w); [by apply Hs|done|rewrite Ht; apply H1|done].
  - destruct (decide (sk = Some OracleKey)); [by apply K2|]. apply (others_oracle w); [by apply Hs|done].
  - destruct (decide (sk = Some FeesKey)); [by apply K3|].
    apply (others_fees w); [by apply Hs|apply Hq|done].
Qed.

Lemma local_eq_quiet sk (w w' : W) : local sk eq w w' -> local sk quiet w w'.
Proof. intros (A & B & C). split; [done|]. split; [by rewrite B|done]. Qed.

(** The messages of x/rwa leave the other stores and the supply of uvtx alone. *)
Lemma rwa_deliver_frame m (w w' : W) : is_rwa m = true -> admissible m -> rwa_inv w -> deliver m w = (w', Ok tt) ->
  (forall sk, sk <> RwaKey -> get_store sk w' = get_store sk w) /\
  GetSupply (w_ext w') BondDenom = GetSupply (w_ext w) BondDenom.
Proof.
  intros Hm Ha Hi H. destruct m; try discriminate Hm; cbn [deliver admissible] in *.
  - destruct (wlp_run _ _ _ _ _ _ (RegisterAsset_wlp _ _ perm_rwa m w Hi (proj1 Ha)) H)
      as [(? & ? & ? & ? & _ & _ & _ & _ & _ & _ & _ & _ & _ & _ & [_ Ts] & (bz & _ & _ & O)) _]. by rewrite Ts.
  - destruct (wlp_run _ _ _ _ _ _ (AttestAsset_wlp m w Hi) H)
      as [(? & ? & ? & _ & _ & _ & _ & _ & EX & (bz & _ & _ & O)) _]. by rewrite EX.
  - destruct (wlp_run _ _ _ _ _ _ (MintRWA_wlp _ _ _ perm_rwa perm_collector m w Hi) H)
      as [(r & ? & ? & ? & ? & ? & Hst & _ & _ & _ & _ & _ & _ & _ & _ & _ & [_ Ts] & (bz & _ & _ & O)) _].
    destruct (inv_stored _ _ _ Hi Hst) as [_ Hok]. rewrite Ts, (ao_denom _ _ Hok), decide_False; [split; [done|lia]|].
    intros E. by apply (BuildDenom_not_bond (ar_AssetId r)).
  - destruct (wlp_run _ _ _ _ _ _ (TransferRWA_wlp _ m w Hi) H)
      as [(? & ? & ? & ? & _ & _ & _ & _ & _ & _ & _ & [_ Ts] & O) _]. rewrite Ts. split; [by intros|done].
  - destruct (guar_Ok _ _ _ _ _ _ (rwa_restrict_local m) H) as (O & EX & _). rewrite EX.
    split; [|done]. intros sk Hsk. apply O. congruence.
  - destruct (wlp_run _ _ _ _ _ _ (SettleRWA_wlp _ _ _ perm_rwa perm_collector m w Hi) H)
      as [(r & ? & ? & ? & ? & ? & Hst & _ & _ & _ & _ & _ & _ & _ & [_ Ts] & (bz & _ & _ & O)) _].
    destruct (inv_stored _ _ _ Hi Hst) as [_ Hok]. rewrite Ts, (ao_denom _ _ Hok), decide_False; [split; [done|lia]|].
    intros E. by apply (BuildDenom_not_bond (ar_AssetId r)).
  - destruct (wlp_run _ _ _ _ _ _ (SlashBond_msg_wlp _ rwa_keeper m w Hi) H)
      as [(? & ? & ? & _ & _ & _ & _ & _ & [_ Ts] & (bz & _ & _ & O)) _]. by rewrite Ts.
  - destruct (guar_Ok _ _ _ _ _ _ (rwa_params_local m) H) as (O & EX & _). rewrite EX.
    split; [|done]. intros sk Hsk. apply O. congruence.
Qed.

Lemma rwa_deliver_step m (w w' : W) : is_rwa m = true -> admissible m -> deliver m w = (w', Ok tt) ->
  rwa_step rwa_keeper w w'.
Proof.
  intros Hm Ha H. destruct m; try discriminate Hm; cbn [deliver admissible] in *.
  - destruct Ha. by eapply rstep_register.
  - by eapply rstep_attest.
  - by eapply rstep_mint.
  - by eapply rstep_transfer.
  - by eapply rstep_restrict.
  - by eapply rstep_settle.
  - by eapply rstep_slash.
  - by eapply rstep_params.
Qed.

Lemma deliver_inv m (w w' : W) : admissible m -> deliver m w = (w', Ok tt) -> chain_inv w -> chain_inv w'.
Proof.
  intros Ha H Hc. destruct (is_rwa m) eqn:Hm.
  { destruct (rwa_deliver_frame m w w' Hm Ha (ci_rwa _ Hc) H) as [O Ts]. constructor.
    - eapply (rwa_step_inv moduleAccPerms _ _ _ perm_rwa perm_collector perm_distribution rwa_keeper w w');
        [apply Hc|by eapply rwa_deliver_step].
    - apply (others_oracle w); [by apply O|apply Hc].
    - apply (others_fees w); [by apply O|lia|apply Hc]. }
  pose proof (oracle_deliver_local m) as Ho.
  destruct m as [m|m|m|m|?|?|?|?|?|?|?|?]; try discriminate Hm.
  - apply (local_inv (Some FeesKey) w); [|done|done|done|].
    + apply local_eq_quiet. exact (guar_Ok _ _ _ _ _ _ (fees_deliver_local m) H).
    + intros _. destruct (ci_fees _ Hc) as (δ & Hδ & Hr). exists δ. split; [done|].
      by apply (wlp_run _ _ _ _ _ _ (fees_UpdateParams_reconciled fees_keeper δ m w Hr) H).
  - apply (local_inv (Some OracleKey) w); [exact (guar_Ok _ _ _ _ _ _ Ho H)|done|done| |done].
    intros _. by eapply (oracle_step_bindings oracle_keeper); [eapply ostep_set_feeder|apply Hc].
  - apply (local_inv (Some OracleKey) w); [exact (guar_Ok _ _ _ _ _ _ Ho H)|done|done| |done].
    intros _. by eapply (oracle_step_bindings oracle_keeper); [eapply ostep_submit_feed|apply Hc].
  - apply (local_inv (Some OracleKey) w); [exact (guar_Ok _ _ _ _ _ _ Ho H)|done|done| |done].
    intros _. by eapply (oracle_step_bindings oracle_keeper); [eapply ostep_update_params|apply Hc].
Qed.

Lemma gov_action_inv (w w' : W) : gov_action w w' -> chain_inv w -> chain_inv w'.
Proof. intros [s s' L|m s s' Ha _ H] Hc; [by apply (local_inv None s)|by eapply deliver_inv]. Qed.

Lemma gov_actions_inv (w w' : W) : rtc gov_action w w' -> chain_inv w -> chain_inv w'.
Proof. induction 1 as [|w1 w2 w3 H _ IH]; [done|]. intros Hc. by apply IH, (gov_action_inv w1). Qed.

Lemma module_EndBlock_inv n w w' : module_EndBlock n w = (w', Ok tt) -> chain_inv w -> chain_inv w'.
Proof.
  unfold module_EndBlock. intros H Hc. repeat case_bool_decide.
  - apply (local_inv (Some OracleKey) w); [exact (guar_Ok _ _ _ _ _ _ oracle_EndBlocker_local H)|done|done| |done].
    intros _. by eapply (oracle_step_bindings oracle_keeper); [eapply ostep_end_block|apply Hc].
  - by apply mret_Ok in H as [-> _].
  - apply (local_inv (Some FeesKey) w); [exact (guar_Ok _ _ _ _ _ _ fees_EndBlock_local H)|done|done|done|].
    intros _. destruct (ci_fees _ Hc) as (δ & Hδ & Hr). exists δ. split; [done|].
    by apply (wlp_run _ _ _ _ _ _
      (fees_EndBlocker_reconciled app_send_restriction moduleAccPerms _ perm_collector perm_fees δ w Hr) H).
  - destruct (decide (n = "gov"%string)) as [->|Hn]; [by eapply gov_actions_inv; [apply sdk_EndBlock_gov|]|].
    apply (local_inv None w); [exact (guar_Ok _ _ _ _ _ _ (sdk_EndBlock_quiet n Hn) H)|done..].
Qed.

Lemma chain_step_inv w w' : chain_step w w' -> chain_inv w -> chain_inv w'.
Proof.
  intros Hs Hc. destruct Hs as [m w w' Ha H|m w w' e H|w w' H|w w' O Hq Ht].
  - by eapply deliver_inv.
  - done.
  - eapply (mfor_Ok_ind chain_inv); [|exact Hc|exact H]. intros n s s' _ Hs Hb. by eapply module_EndBlock_inv.
  - constructor.
    + apply (others_rwa w); [apply O|done|done|apply Hc].
    + apply (others_oracle w); [apply O|apply Hc].
    + apply (others_fees w); [apply O|apply Hq|apply Hc].
Qed.

(** ** Genesis *)

(** The modules initialised before ours, and those between x/rwa and x/fees. *)
Definition early_modules : list string := take 5 genesisModuleOrder.
Definition late_modules : list string := take 15 (drop 7 genesisModuleOrder).

Lemma genesisModuleOrder_split : genesisModuleOrder =
  early_modules ++ [OracleTypes.ModuleName; RwaTypes.ModuleName] ++ late_modules ++ [FeesTypes.ModuleName].
Proof. reflexivity. Qed.

Lemma mfor_single {S A} (x : A) (body : A -> M S unit) s s' :
  mfor [x] body s = (s', Ok tt) <-> body x s = (s', Ok tt).
Proof.
  cbn [mfor]. rewrite M_bind_Ok. split.
  - by intros (s1 & [] & H & [-> _]%mret_Ok).
  - intros H. exists s', tt. split; [done|]. by apply mret_Ok.
Qed.

Lemma our_InitGenesis gs :
  module_InitGenesis gs OracleTypes.ModuleName = OracleKeeper.InitGenesis oracle_keeper (cg_oracle gs) /\
  module_InitGenesis gs RwaTypes.ModuleName = RwaKeeper.InitGenesis (cg_rwa gs) /\
  module_InitGenesis gs FeesTypes.ModuleName = Fees.InitGenesis (cg_fees gs).
Proof. unfold module_InitGenesis. split_and!; repeat case_bool_decide; done. Qed.

Lemma late_module_init gs n (w w' : W) : n ∈ late_modules -> module_InitGenesis gs n w = (w', Ok tt) ->
  local None quiet w w'.
Proof.
  intros Hn. unfold module_InitGenesis. rewrite !bool_decide_eq_false_2; cycle 1.
  1-3: intros ->; vm_compute in Hn; set_solver.
  intros H. refine (guar_Ok _ _ _ _ _ _ (sdk_InitGenesis_quiet n _) H).
  revert Hn. unfold late_modules. vm_compute. set_solver.
Qed.

Lemma late_modules_init gs (w w' : W) : mfor late_modules (module_InitGenesis gs) w = (w', Ok tt) ->
  local None quiet w w'.
Proof.
  apply (mfor_Ok_ind (local None quiet w)); [|done].
  intros n s s' Hn Hs H. etrans; [exact Hs|]. by eapply late_module_init.
Qed.

Lemma bindings_none (m : gmap bytes bytes) : m = ∅ -> bindings_ok m.
Proof. intros ->. by intros ?? [=]. Qed.

Lemma genesis_sound_others gs (w w' : W) : local (Some OracleKey) eq w w' ->
  genesis_sound gs w -> genesis_sound gs w'.
Proof.
  intros (O & EX & _ & ET) [H1 H2 H3 H4 H5 H6 H7].
  constructor; try done; rewrite <- ?EX, ?ET; try done.
  unfold view. rewrite O by done. exact H7.
Qed.

(** The state the SDK modules hand to ours: their stores are empty, the genesis
    state of x/rwa fits the balances. *)
Record chain_genesis (gs : ChainGenesis) (w : W) : Prop := mkChainGenesisOk {
  cgo_rwa : genesis_sound (cg_rwa gs) w;
  cgo_oracle : view OracleKey w = ∅;
  cgo_fees : view FeesKey w = ∅
}.

Lemma InitGenesis_inv gs (w w0 w1 : W) :
  mfor early_modules (module_InitGenesis gs) w = (w0, Ok tt) -> chain_genesis gs w0 ->
  App.InitGenesis gs w = (w1, Ok tt) -> Z.abs (GetSupply (w_ext w1) BondDenom) < int_limit -> chain_inv w1.
Proof.
  intros Hearly [G1 G2 G3] H Hlim. unfold App.InitGenesis in H. rewrite genesisModuleOrder_split in H.
  apply mfor_app_Ok in H as (w0' & H0 & H). rewrite Hearly in H0. injection H0 as <-.
  apply mfor_app_Ok in H as (w3 & H & Hrest). change [?a; ?b] with ([a] ++ [b]) in H.
  apply mfor_app_Ok in H as (w2 & Ho & Hr). apply (proj1 (mfor_single _ _ _ _)) in Ho, Hr.
  apply mfor_app_Ok in Hrest as (w4 & Hl & Hf). apply (proj1 (mfor_single _ _ _ _)) in Hf.
  destruct (our_InitGenesis gs) as (Eo & Er & Ef). rewrite Eo in Ho. rewrite Er in Hr. rewrite Ef in Hf.
  pose proof (guar_Ok _ _ _ _ _ _ (oracle_InitGenesis_local _ _) Ho) as Lo.
  pose proof (guar_Ok _ _ _ _ _ _ (rwa_InitGenesis_local _) Hr) as Lr.
  pose proof (late_modules_init _ _ _ Hl) as Ll.
  pose proof (guar_Ok _ _ _ _ _ _ (fees_InitGenesis_local _) Hf) as Lf.
  pose proof (genesis_sound_others _ _ _ Lo G1) as G1'.
  destruct (genesis_inv _ _ G1') as (w3' & E3 & Hi & _). rewrite Hr in E3. injection E3 as <-.
  pose proof (wlp_run _ _ _ _ _ _ (InitGenesis_bindings oracle_keeper (cg_oracle gs) w0 (bindings_none _ G2)) Ho) as Hb.
  cbn beta iota in Hb. constructor.
  - destruct Ll as (Ol & Ql & _ & Tl), Lf as (Of & Qf & _ & Tf).
    apply (others_rwa w3); [by rewrite Of, Ol| |rewrite Tf, Tl; apply Hi|done]. by rewrite <- Qf.
  - unfold view in *. rewrite (proj1 Lf), (proj1 Ll), (proj1 Lr) by done. exact Hb.
  - exists 0. split; [done|]. refine (wlp_run _ _ _ _ _ _ (fees_InitGenesis_reconciled (cg_fees gs) w4 _ _) Hf).
    + unfold view in *. rewrite (proj1 Ll), (proj1 Lr), (proj1 Lo), G3 by done. done.
    + change FeeDenom with BondDenom. by rewrite (proj1 (proj2 Lf)).
Qed.

(** C6: The application as a whole. From a genesis state that fits the balances,
    over every sequence of transactions of the three modules, failed ones
    included, of block ends that run all end-blockers in the order of
    app_config.go, that of x/gov executing the messages of passed proposals on the
    three modules, and of activity of the SDK modules: the crisis invariants of
    x/rwa hold, no feeder account serves two validators, and x/fees never
    over-reports: what it counts as burned is at most what is missing from the
    genesis supply (the rest was burned by slashing or governance). *)
Theorem chain_invariants gs (w w0 w1 w2 : W) :
  mfor early_modules (module_InitGenesis gs) w = (w0, Ok tt) -> chain_genesis gs w0 ->
  App.InitGenesis gs w = (w1, Ok tt) -> Z.abs (GetSupply (w_ext w1) BondDenom) < int_limit ->
  rtc chain_step w1 w2 ->
  (GetBalance (w_ext w2) ModuleAddress BondDenom < int_limit ->
     BondInvariant w2 = Ok false /\ DenomInvariant w2 = Ok false) /\
  (forall v1 v2 f, GetFeederForValidator v1 w2 = Ok (Some f) -> GetFeederForValidator v2 w2 = Ok (Some f) -> v1 = v2) /\
  (exists g b, GetGenesisSupply w2 = Ok g /\ GetCumulativeBurned w2 = Ok b /\
     b <= g - GetSupply (w_ext w2) FeeDenom).
Proof.
  intros H0 Hg H1 Hlim Hs. pose proof (InitGenesis_inv _ _ _ _ H0 Hg H1 Hlim) as Hc.
  assert (chain_inv w2) as [Hi Hb (δ & Hδ & g & b & E1 & E2 & E3 & _)].
  { clear -Hs Hc KVL SML COL BEL TL BKL SLL SLB SDL. induction Hs as [|w1 w2 w3 H1 _ IH]; [done|].
    apply IH. by eapply chain_step_inv. }
  split_and!.
  - intros Hl. split; [by apply inv_BondInvariant|by apply inv_DenomInvariant].
  - intros v1 v2 f. rewrite !GetFeederForValidator_view. intros [= F1] [= F2].
    apply Hb in F1, F2. rewrite F1 in F2. by injection F2.
  - exists g, b. split_and!; [done|done|lia].
Qed.

End Chain.
