(* ===== verification/ChainRef.v ===== *)
(** * A run of the whole application

    The reference chain of [SdkRef] under the account permissions of
    app_config.go, with an x/gov that executes a passed proposal at the end of the block
    10 and other SDK modules that do nothing of their own: genesis, two price feeds of
    which one is an outlier, and the end of the block, in which governance raises the
    burn ratio and the issuers' bond, the oracle slashes and x/fees burns at the new
    ratio. *)

From S2P Require Import Prelude Sdk World SdkRef Wire.
From S2P Require Import FeesTypes Fees OracleTypes OracleAgg OracleKeeper OracleEndBlock OracleSafety OracleInv.
From S2P Require Import RwaTypes RwaKeeper RwaMsg RwaInv RwaSpec RwaSafety RwaRef App Chain.

Open Scope Z_scope.

#[local] Instance ref_app_bank : BankKeeper sdk_state := BK_ref moduleAccPerms blockAccAddrs.
#[local] Instance ref_app_bank_laws : BankLaws sdk_state moduleAccPerms := BKL_ref moduleAccPerms blockAccAddrs.

(** The proposal: both messages name the account of x/gov as their authority. *)
Definition ref_proposal : list chain_msg :=
  [FeesUpdateParams (FeesTypes.mkMsgUpdateParams gov_authority (mkFeesParams "0.5" "0.5"));
   RwaUpdateParams (RwaTypes.mkMsgUpdateParams gov_authority (mkRWAParams "2000" "0.001" "0.002"))].

(** The end-blocker of x/gov: the messages of the proposal, kept only when all succeed. *)
Definition ref_gov : M (world (gmap bytes bytes) sdk_state) unit := fun w =>
  if negb (w_height w =? 10) then (w, Ok tt) else
  match mfor ref_proposal deliver w with
  | (w', Ok _) => (w', Ok tt)
  | _ => (w, Ok tt)
  end.

#[local] Instance ref_modules : SdkModules (world (gmap bytes bytes) sdk_state) := {|
  sdk_EndBlock n := if bool_decide (n = "gov"%string) then ref_gov else mret tt;
  sdk_InitGenesis _ := mret tt
|}.

Lemma ref_proposal_ok (m : chain_msg) (w : world (gmap bytes bytes) sdk_state) : m ∈ ref_proposal -> admissible m /\ fits m w.
Proof.
  unfold ref_proposal. rewrite !elem_of_cons, elem_of_nil. intros [->|[->|[]]].
  - split; [exact I|]. split; vm_compute; reflexivity.
  - split; [|exact I]. repeat constructor; vm_compute; congruence.
Qed.

#[local] Instance ref_modules_laws : SdkModulesLaws (gmap bytes bytes) sdk_state.
Proof.
  split.
  - intros n Hn. cbn [sdk_EndBlock ref_modules]. rewrite bool_decide_eq_false_2 by done. apply guar_mret; apply _.
  - intros w w'. cbn [sdk_EndBlock ref_modules]. rewrite bool_decide_eq_true_2 by done. unfold ref_gov.
    destruct (negb _); [by intros [= <-]|]. destruct (mfor ref_proposal deliver w) as [w1 [[]| |]] eqn:E;
      intros [= <-]; [|done|done].
    eapply (mfor_Ok_ind (rtc gov_action w)); [|reflexivity|exact E].
    intros m s s' Hm Hs H. eapply rtc_r; [exact Hs|]. destruct (ref_proposal_ok m s Hm). by eapply gov_message.
  - intros. apply guar_mret; apply _.
Qed.

#[local] Instance ref_slash_laws : SlashLaws sdk_state.
Proof.
  constructor. intros x x' c f p h r. cbn -[create get_bal].
  set (a := Z.quot _ _). destruct (_ && _) eqn:E; intros [= <- _].
  - apply andb_true_iff in E as [E1%Z.leb_le E2%Z.leb_le]. split_and!.
    + intros d Hd. cbn. rewrite decide_False by (intros <-; by apply Hd). lia.
    + cbn. unfold BondDenom. rewrite decide_True by done. lia.
    + intros b d Hb _. unfold create, get_bal at 1. cbn [bal set_bal]. rewrite decide_False by done.
      unfold get_bal. lia.
  - split_and!; [done|lia|done].
Qed.

Definition ref_gs : ChainGenesis :=
  mkChainGenesis OracleTypes.DefaultGenesis ref_rwa_genesis (FeesTypes.mkGenesisState (mkFeesParams "0.4" "0.6")).

Definition ref_c0 : world (gmap bytes bytes) sdk_state := ref_chain ∅ 10 100.
Definition ref_c1 := (App.InitGenesis ref_gs ref_c0).1.
Definition ref_feed1 : chain_msg := OracleSubmitFeed (mkMsgSubmitFeed "vtx1alice" "vtxvaloper1alice" "VTX:USD" "1.5").
Definition ref_feed2 : chain_msg := OracleSubmitFeed (mkMsgSubmitFeed "vtx1bobby" "vtxvaloper1bobby" "VTX:USD" "3").
Definition ref_c2 := (deliver ref_feed1 ref_c1).1.
Definition ref_c3 := (deliver ref_feed2 ref_c2).1.
Definition ref_c4 := (EndBlock ref_c3).1.

Lemma ref_genesis_run : App.InitGenesis ref_gs ref_c0 = (ref_c1, Ok tt).
Proof. runs ref_c1. Qed.

Lemma ref_chain_genesis : chain_genesis ref_gs ref_c0.
Proof.
  constructor; [|reflexivity..]. constructor.
  - vm_compute; reflexivity.
  - repeat constructor; by vm_compute.
  - constructor.
  - by vm_compute.
  - intros id _ _. reflexivity.
  - split; by vm_compute.
  - reflexivity.
Qed.

Lemma ref_chain_run : rtc chain_step ref_c1 ref_c4.
Proof.
  eapply rtc_l; [apply (chain_tx ref_feed1 _ ref_c2); [exact I|runs ref_c2]|].
  eapply rtc_l; [apply (chain_tx ref_feed2 _ ref_c3); [exact I|runs ref_c3]|].
  apply rtc_once, chain_end_block. runs ref_c4.
Qed.

(** The proposal was executed, and both burns happened: the oracle's slash and the fee
    burn, of 50 percent instead of the 40 percent of genesis. *)
Lemma ref_burns : Fees.GetParams ref_c4 = Ok (mkFeesParams "0.5" "0.5") /\
  GetCumulativeBurned ref_c4 = Ok 500000000 /\
  GetSupply (w_ext ref_c1) FeeDenom - GetSupply (w_ext ref_c4) FeeDenom = 500200000.
Proof. split_and!; vm_compute; reflexivity. Qed.

Lemma chain_invariants_witness :
  BondInvariant ref_c4 = Ok false /\ DenomInvariant ref_c4 = Ok false /\
  exists g b, GetGenesisSupply ref_c4 = Ok g /\ GetCumulativeBurned ref_c4 = Ok b /\
    b <= g - GetSupply (w_ext ref_c4) FeeDenom.
Proof.
  destruct (chain_invariants ref_gs ref_c0 ref_c0 ref_c1 ref_c4) as (H1 & _ & H3).
  - reflexivity.
  - exact ref_chain_genesis.
  - exact ref_genesis_run.
  - vm_compute; reflexivity.
  - exact ref_chain_run.
  - destruct H1 as [B D]; [vm_compute; reflexivity|]. split; [exact B|]. split; [exact D|exact H3].
Defined.

(** The accounts of x/fees and x/rwa are not among the blocked ones: a plain
    transfer of uvtx to the account of x/fees is possible, and leaves its crisis
    invariant broken for good, since x/fees only burns what it moves itself. *)
Definition ref_donor : world (gmap bytes bytes) sdk_state :=
  mkWorld ∅ ∅ ∅ (mkSdk (fun a d => if decide (a = bytes_of "alice" /\ d = FeeDenom) then 100 else 0)
                       (fun d => if decide (d = FeeDenom) then 100 else 0) [] (fun _ => 0) 0) 1 (100 * Second) [].

Lemma fees_account_receives :
  BlockedAddresses !! FeesTypes.ModuleName = None /\
  BlockedAddr (GetModuleAddress FeesTypes.ModuleName) = false /\
  ModuleBalanceInvariant ref_donor = Ok false /\
  let '(x, r) := SendCoins (app_send_restriction ref_donor) (w_ext ref_donor) (bytes_of "alice")
                   (GetModuleAddress FeesTypes.ModuleName) [(FeeDenom, 1)] in
  r = Ok tt /\ ModuleBalanceInvariant (set_ext x ref_donor) = Ok true.
Proof. split_and!; vm_compute; try reflexivity. split; reflexivity. Qed.
