(* ===== verification/ChainLive.v ===== *)
(** * The application: no block end halts it

    The invariants of the three modules taken together ([app_inv]), over the moves
    of the whole chain: messages that fit a transaction, block ends under a sane
    validator set and with feeds below 2^255 units, proposals that x/gov executes, the
    activity of the SDK. In every reachable state the
    end-blockers of the three modules succeed, in their order, on whatever state the
    end-blockers of the SDK leave. *)

From S2P Require Import Prelude Sdk World SdkRef Wire.
From S2P Require Import FeesTypes Fees OracleTypes OracleAgg OracleKeeper OracleEndBlock OracleSafety OracleInv.
From S2P Require Import RwaTypes RwaKeeper RwaMsg RwaInv RwaSpec RwaSafety RwaRestart RwaRef App Chain ChainRef.

Open Scope Z_scope.

(** The end-blockers before that of x/oracle, and those before that of x/fees. *)
Definition before_oracle : list string := take 10 endBlockers.
Definition before_fees : list string := take 12 endBlockers.

Lemma endBlockers_split : endBlockers = before_oracle ++ [OracleTypes.ModuleName; RwaTypes.ModuleName; FeesTypes.ModuleName].
Proof. reflexivity. Qed.

Section ChainLive.
Context {St X : Type} {KV : KVStore St} {SM : SdkMath} {CO : Coins} {BE : Bech32} {T : StdTime}
        {BK : BankKeeper X} {SK : StakingKeeper X} {SL : SlashingKeeper X}.
Local Abbreviation W := (world St X).
Context {KVL : KVStoreLaws St} {SML : SdkMathLaws} {COL : CoinsLaws} {BEL : Bech32Laws} {TL : StdTimeLaws}.
Context {BKL : BankLaws X moduleAccPerms} {SLL : StakingLaws X} {SLB : SlashLaws X}.
Context {SDK : SdkModules W} {SDL : SdkModulesLaws St X}.

(** ** The invariant *)

Definition fees_params_ok (w : W) : Prop :=
  exists p, Fees.GetParams w = Ok p /\ FeesTypes.Validate p = Ok tt /\ wf_msg p.

Record app_inv (w : W) : Prop := mkAppInv {
  ai_chain : chain_inv w;
  ai_oracle : oracle_inv w;
  ai_entries : entries_ok w;
  ai_fees : fees_params_ok w
}.

(** ** The moves *)

(** The state in which the end-blocker of x/oracle runs has a sane header and
    validator set and, when it closes a vote window, feeds below 2^255 units. *)
Definition block_sane (w : W) : Prop :=
  forall w1, mfor before_oracle module_EndBlock w = (w1, Ok tt) -> block_env w1.

Inductive chain_move : W -> W -> Prop :=
| move_tx m w w' : admissible m -> fits m w -> deliver m w = (w', Ok tt) -> chain_move w w'
| move_tx_failed m w w' e : deliver m w = (w', Err e) -> chain_move w w
| move_end_block w w' : block_sane w -> EndBlock w = (w', Ok tt) -> chain_move w w'
| move_sdk w w' : (forall sk, get_store sk w' = get_store sk w) -> quiet (w_ext w) (w_ext w') ->
    time_ok (w_time w') -> chain_move w w'.

(** A move is a step of [Chain]. *)
Lemma chain_move_step w w' : chain_move w w' -> chain_step w w'.
Proof.
  intros [m s s' Ha _ E|m s s' e E|s s' _ E|s s' O Hq Ht];
    [by eapply chain_tx|by eapply chain_tx_failed|by apply chain_end_block|by apply chain_sdk].
Qed.

(** ** A module that keeps off a store keeps what is known of it *)

Lemma others_oracle_inv (w w' : W) : get_store OracleKey w' = get_store OracleKey w -> oracle_inv w -> oracle_inv w'.
Proof. intros Hs. apply oracle_inv_view. unfold view. by rewrite Hs. Qed.

Lemma others_entries (w w' : W) : get_store RwaKey w' = get_store RwaKey w -> entries_ok w -> entries_ok w'.
Proof.
  intros Hs He. assert (view RwaKey w' = view RwaKey w) as V by (unfold view; by rewrite Hs).
  apply (entries_agree w); [done|intros; by rewrite V|by rewrite V].
Qed.

Lemma others_fees_params (w w' : W) : get_store FeesKey w' = get_store FeesKey w -> fees_params_ok w -> fees_params_ok w'.
Proof.
  intros Hs (p & Hp & ?). exists p. split; [|done]. rewrite <- Hp. apply fees_state_ext. unfold view. by rewrite Hs.
Qed.

(** The facts of [app_inv] beside [chain_inv], over a change of at most one store. *)
Lemma one_store_inv sk (w w' : W) : (forall sk', Some sk' <> sk -> get_store sk' w' = get_store sk' w) ->
  app_inv w -> chain_inv w' ->
  (sk = Some OracleKey -> oracle_inv w') -> (sk = Some RwaKey -> entries_ok w') ->
  (sk = Some FeesKey -> fees_params_ok w') -> app_inv w'.
Proof.
  intros O [H1 H2 H3 H4] Hc K1 K2 K3. split; [done|..].
  - destruct (decide (sk = Some OracleKey)); [by apply K1|]. apply (others_oracle_inv w); [by apply O|done].
  - destruct (decide (sk = Some RwaKey)); [by apply K2|]. apply (others_entries w); [by apply O|done].
  - destruct (decide (sk = Some FeesKey)); [by apply K3|]. apply (others_fees_params w); [by apply O|done].
Qed.

(** ** Messages *)

Lemma fees_UpdateParams_ok k msg (w w' : W) : wf_msg (FeesTypes.Params msg) ->
  Fees.UpdateParams k msg w = (w', Ok tt) -> fees_params_ok w'.
Proof.
  intros Hwf E. unfold Fees.UpdateParams in E.
  apply M_bind_Ok in E as (w1 & [] & [-> Hv]%lift_Ok & E). unfold FeesTypes.ValidateBasic in Hv.
  apply M_bind_Ok in E as (w2 & [] & [-> _]%guard_err_Ok & E). apply M_bind_Ok in E as (w3 & [] & E3 & E).
  assert (FeesTypes.Validate (FeesTypes.Params msg) = Ok tt) as Hp.
  { unfold Fees.SetParams in E3. by apply M_bind_Ok in E3 as (? & [] & [_ ?]%lift_Ok & _). }
  destruct (fees_SetParams_run (FeesTypes.Params msg) w Hp Hwf) as (w4 & bz & E4 & Hu & (V & _)).
  rewrite E4 in E3. injection E3 as ->. injection E as <-. exists (FeesTypes.Params msg). split; [|done].
  rewrite fees_GetParams_view, view_add_event, V, lookup_insert_eq. done.
Qed.

Lemma deliver_app_inv m (w w' : W) : admissible m -> fits m w -> deliver m w = (w', Ok tt) -> app_inv w -> app_inv w'.
Proof.
  intros Ha Hf H Hi. pose proof (deliver_inv m w w' Ha H (ai_chain _ Hi)) as Hc.
  destruct (is_rwa m) eqn:Hm.
  { destruct (rwa_deliver_frame m w w' Hm Ha (ci_rwa _ (ai_chain _ Hi)) H) as [O _].
    apply (one_store_inv (Some RwaKey) w); [intros sk' Hs; apply O; congruence|done..| |done].
    intros _. eapply (rwa_step_entries moduleAccPerms _ _ _ perm_rwa perm_collector perm_distribution rwa_keeper w);
      [apply Hi|by eapply rwa_deliver_step|apply Hi]. }
  pose proof (oracle_deliver_local m) as Ho.
  destruct m as [m|m|m|m|?|?|?|?|?|?|?|?]; try discriminate Hm; cbn [fits] in Hf.
  - pose proof (guar_Ok _ _ _ _ _ _ (fees_deliver_local m) H) as (O & _).
    apply (one_store_inv (Some FeesKey) w); [done..|]. intros _. by eapply fees_UpdateParams_ok.
  - destruct (guar_Ok _ _ _ _ _ _ Ho H) as (O & _). apply (one_store_inv (Some OracleKey) w); [done..| |done|done].
    intros _. by eapply (oracle_move_inv oracle_keeper w); [eapply omove_set_feeder|apply Hi].
  - destruct (guar_Ok _ _ _ _ _ _ Ho H) as (O & _). apply (one_store_inv (Some OracleKey) w); [done..| |done|done].
    intros _. by eapply (oracle_move_inv oracle_keeper w); [eapply omove_submit_feed|apply Hi].
  - destruct (guar_Ok _ _ _ _ _ _ Ho H) as (O & _). apply (one_store_inv (Some OracleKey) w); [done..| |done|done].
    intros _. by eapply (oracle_move_inv oracle_keeper w); [eapply omove_update_params|apply Hi].
Qed.

(** ** Block ends *)

Lemma our_EndBlock :
  module_EndBlock OracleTypes.ModuleName = OracleEndBlock.EndBlocker /\
  module_EndBlock RwaTypes.ModuleName = (mret tt : M W unit) /\
  module_EndBlock FeesTypes.ModuleName = fees_EndBlock.
Proof. unfold module_EndBlock. split_and!; repeat case_bool_decide; done. Qed.

Lemma gov_action_app_inv (w w' : W) : gov_action w w' -> app_inv w -> app_inv w'.
Proof.
  intros Hg Hi. pose proof (gov_action_inv w w' Hg (ai_chain _ Hi)) as Hc.
  destruct Hg as [s s' (O & _)|m s s' Ha Hf H]; [by apply (one_store_inv None s)|by eapply deliver_app_inv].
Qed.

(** An end-blocker of the SDK is a sequence of such actions: that of x/gov by the law,
    those of the other modules as one quiet action. *)
Lemma sdk_end_blocker n (w w' : W) : n ∈ before_oracle -> module_EndBlock n w = (w', Ok tt) -> rtc gov_action w w'.
Proof.
  intros Hn. unfold module_EndBlock. rewrite !bool_decide_eq_false_2; cycle 1.
  1-3: intros ->; vm_compute in Hn; set_solver.
  intros H. destruct (decide (n = "gov"%string)) as [->|Hg]; [by apply sdk_EndBlock_gov|].
  apply rtc_once, gov_own. exact (guar_Ok _ _ _ _ _ _ (sdk_EndBlock_quiet n Hg) H).
Qed.

(** The end-blockers of the SDK, before ours. *)
Lemma before_oracle_inv (w w' : W) : mfor before_oracle module_EndBlock w = (w', Ok tt) -> app_inv w -> app_inv w'.
Proof.
  intros H Hi. eapply (mfor_Ok_ind app_inv); [|exact Hi|exact H]. intros n s s' Hn Hs E.
  apply (sdk_end_blocker n s s' Hn) in E. clear -E Hs KVL SML COL BEL TL BKL SLL SLB SDL.
  induction E as [|w1 w2 w3 Hg _ IH]; [done|]. by apply IH, (gov_action_app_inv w1).
Qed.

Lemma oracle_end_inv (w w' : W) : block_env w -> OracleEndBlock.EndBlocker w = (w', Ok tt) -> app_inv w -> app_inv w'.
Proof.
  intros He H Hi. destruct (guar_Ok _ _ _ _ _ _ oracle_EndBlocker_local H) as (O & _).
  apply (one_store_inv (Some OracleKey) w); [done|done| | |done|done].
  - eapply (module_EndBlock_inv OracleTypes.ModuleName w); [|apply Hi]. by rewrite (proj1 our_EndBlock).
  - intros _. by eapply EndBlocker_inv; [..|apply Hi].
Qed.

Lemma fees_end_inv (w w' : W) : fees_EndBlock w = (w', Ok tt) -> app_inv w -> app_inv w'.
Proof.
  intros H Hi. destruct (guar_Ok _ _ _ _ _ _ fees_EndBlock_local H) as (O & _).
  apply (one_store_inv (Some FeesKey) w); [done|done| |done|done|].
  - eapply (module_EndBlock_inv FeesTypes.ModuleName w); [|apply Hi]. by rewrite (proj2 (proj2 our_EndBlock)).
  - intros _. destruct (ai_fees _ Hi) as (p & Hp & ?). exists p.
    by rewrite (fees_EndBlocker_params app_send_restriction w w' (Ok tt) H).
Qed.

(** A block end is the end-blockers of the SDK, then those of x/oracle and x/fees. *)
Lemma EndBlock_parts (w w' : W) : EndBlock w = (w', Ok tt) <->
  exists w1 w2, mfor before_oracle module_EndBlock w = (w1, Ok tt) /\ OracleEndBlock.EndBlocker w1 = (w2, Ok tt) /\
    fees_EndBlock w2 = (w', Ok tt).
Proof.
  unfold EndBlock. rewrite endBlockers_split, mfor_app_Ok. destruct our_EndBlock as (Eo & Er & Ef).
  cbn [mfor]. rewrite Eo, Er, Ef. split.
  - intros (w1 & H1 & H). apply M_bind_Ok in H as (w2 & [] & H2 & H). apply M_bind_Ok in H as (w3 & [] & [-> _]%mret_Ok & H).
    apply M_bind_Ok in H as (w4 & [] & H4 & [-> _]%mret_Ok). eauto.
  - intros (w1 & w2 & H1 & H2 & H3). exists w1. split; [done|]. erewrite bind_Ok_run by exact H2.
    erewrite bind_Ok_run by reflexivity. by erewrite bind_Ok_run by exact H3.
Qed.

Lemma chain_move_inv (w w' : W) : chain_move w w' -> app_inv w -> app_inv w'.
Proof.
  intros Hs Hi. pose proof (chain_step_inv w w' (chain_move_step _ _ Hs) (ai_chain _ Hi)) as Hc.
  destruct Hs as [m w w' Ha Hf H|m w w' e H|w w' Hb H|w w' O Hq Ht].
  - by eapply deliver_app_inv.
  - done.
  - apply EndBlock_parts in H as (w1 & w2 & H1 & H2 & H3). eapply fees_end_inv, oracle_end_inv; [exact H3|..|exact H2|].
    + by apply Hb.
    + by eapply before_oracle_inv.
  - by apply (one_store_inv None w).
Qed.

(** ** Genesis *)

(** A genesis state that fits the balances and the sizes of a file. *)
Record app_genesis (gs : ChainGenesis) (w : W) : Prop := mkAppGenesis {
  ag_chain : chain_genesis gs w;
  ag_oracle : genesis_fits (cg_oracle gs);
  ag_fees : wf_msg (FeesTypes.gs_Params (cg_fees gs))
}.

Lemma fees_InitGenesis_params gs (w w' : W) : wf_msg (FeesTypes.gs_Params gs) ->
  Fees.InitGenesis gs w = (w', Ok tt) -> fees_params_ok w'.
Proof.
  intros Hwf E. unfold Fees.InitGenesis in E.
  apply M_bind_Ok in E as (w1 & [] & [-> Hv]%must_Ok%lift_Ok & E). unfold FeesTypes.GenesisState_Validate in Hv.
  destruct (fees_SetParams_run (FeesTypes.gs_Params gs) w Hv Hwf) as (w2 & bz & E2 & Hu & (V & _)).
  apply M_bind_Ok in E as (w3 & [] & E3 & E). apply (proj1 (must_Ok _ _ _ _)) in E3. rewrite E2 in E3. injection E3 as ->.
  apply M_bind_Ok in E as (w4 & n & [-> _]%ask_Ok & E). apply (proj1 (must_Ok _ _ _ _)) in E. unfold SetGenesisSupply in E.
  apply M_bind_Ok in E as (w5 & b & [-> Hm]%lift_Ok & E).
  destruct (st_set_run FeesKey FeesTypes.KeyGenesisSupply b w3) as (w6 & E6 & U6); [done|].
  rewrite E in E6. injection E6 as <-. destruct (fees_entries_insert _ _ _ _ U6) as (K & _).
  exists (FeesTypes.gs_Params gs). split; [|done]. rewrite K by done. by rewrite fees_GetParams_view, V, lookup_insert_eq.
Qed.

(** The runs of the three modules inside the import of a genesis state. *)
Lemma InitGenesis_parts gs (w w0 w1 : W) : mfor early_modules (module_InitGenesis gs) w = (w0, Ok tt) ->
  App.InitGenesis gs w = (w1, Ok tt) <->
  exists w2 w3 w4, OracleKeeper.InitGenesis oracle_keeper (cg_oracle gs) w0 = (w2, Ok tt) /\
    RwaKeeper.InitGenesis (cg_rwa gs) w2 = (w3, Ok tt) /\
    mfor late_modules (module_InitGenesis gs) w3 = (w4, Ok tt) /\ Fees.InitGenesis (cg_fees gs) w4 = (w1, Ok tt).
Proof.
  intros He. unfold App.InitGenesis. rewrite genesisModuleOrder_split, mfor_app_Ok.
  destruct (our_InitGenesis gs) as (Eo & Er & Ef). split.
  - intros (w0' & H0 & H). rewrite He in H0. injection H0 as <-. apply mfor_app_Ok in H as (w3 & H & Hrest).
    change [?a; ?b] with ([a] ++ [b]) in H. apply mfor_app_Ok in H as (w2 & Ho & Hr).
    apply (proj1 (mfor_single _ _ _ _)) in Ho, Hr. apply mfor_app_Ok in Hrest as (w4 & Hl & Hf).
    apply (proj1 (mfor_single _ _ _ _)) in Hf. rewrite Eo in Ho. rewrite Er in Hr. rewrite Ef in Hf. eauto 10.
  - intros (w2 & w3 & w4 & Ho & Hr & Hl & Hf). exists w0. split; [done|]. apply mfor_app_Ok. exists w3. split.
    + change [?a; ?b] with ([a] ++ [b]). apply mfor_app_Ok. exists w2. split; apply mfor_single; [by rewrite Eo|by rewrite Er].
    + apply mfor_app_Ok. exists w4. split; [done|]. apply mfor_single. by rewrite Ef.
Qed.

Lemma InitGenesis_app_inv gs (w w0 w1 : W) :
  mfor early_modules (module_InitGenesis gs) w = (w0, Ok tt) -> app_genesis gs w0 ->
  App.InitGenesis gs w = (w1, Ok tt) -> Z.abs (GetSupply (w_ext w1) BondDenom) < int_limit -> app_inv w1.
Proof.
  intros He [G1 G2 G3] H Hlim. pose proof (InitGenesis_inv gs w w0 w1 He G1 H Hlim) as Hc.
  apply (InitGenesis_parts gs w w0 w1 He) in H as (w2 & w3 & w4 & Ho & Hr & Hl & Hf).
  pose proof (guar_Ok _ _ _ _ _ _ (oracle_InitGenesis_local _ _) Ho) as Lo.
  pose proof (guar_Ok _ _ _ _ _ _ (rwa_InitGenesis_local _) Hr) as Lr.
  pose proof (late_modules_init _ _ _ Hl) as Ll.
  pose proof (guar_Ok _ _ _ _ _ _ (fees_InitGenesis_local _) Hf) as Lf.
  pose proof (wlp_run _ _ _ _ _ _ (InitGenesis_oracle_inv oracle_keeper _ w0 (cgo_oracle _ _ G1) G2) Ho) as Hi. cbn beta iota in Hi.
  pose proof (genesis_entries _ _ _ (genesis_sound_others _ _ _ Lo (cgo_rwa _ _ G1)) Hr) as Hen.
  split; [done|..].
  - apply (others_oracle_inv w2); [|done]. by rewrite (proj1 Lf), (proj1 Ll), (proj1 Lr) by done.
  - apply (others_entries w3); [|done]. by rewrite (proj1 Lf), (proj1 Ll) by done.
  - by eapply fees_InitGenesis_params.
Qed.

Lemma app_reachable_inv (w w' : W) : app_inv w -> rtc chain_move w w' -> app_inv w'.
Proof. intros Hi Hs. induction Hs as [|w1 w2 w3 H _ IH]; [done|]. by apply IH, (chain_move_inv w1). Qed.

(** ** Blocks end *)

(** The fee collector holds a part of the supply, which is below 2^255 uvtx. *)
Definition collector_ok (w : W) : Prop :=
  GetBalance (w_ext w) (GetModuleAddress FeesTypes.FeeCollectorName) FeeDenom <= GetSupply (w_ext w) FeeDenom < 2 ^ 255.

Lemma fees_EndBlock_runs (w : W) : app_inv w -> collector_ok w ->
  exists w' p ratio, fees_EndBlock w = (w', Ok tt) /\ Fees.GetParams w = Ok p /\ BurnRatioDec p = Ok ratio /\
    burned_state (GetBalance (w_ext w) (GetModuleAddress FeesTypes.FeeCollectorName) FeeDenom * ratio / dec_one) w w'.
Proof.
  intros Hi [Hc1 Hc2]. destruct (ai_fees _ Hi) as (p & Hp & Hv & _).
  destruct (ci_fees _ (ai_chain _ Hi)) as (δ & Hδ & g & b & _ & Hb & E & Hlb & Hlg).
  destruct (proj1 (FeesParams_Validate_spec p) Hv) as (ratio & d & Hr & _ & H0 & H1 & Hs).
  set (bal := GetBalance (w_ext w) (GetModuleAddress FeesTypes.FeeCollectorName) FeeDenom) in *.
  pose proof (balance_nonneg (w_ext w) (GetModuleAddress FeesTypes.FeeCollectorName) FeeDenom) as Hb0. fold bal in Hb0.
  assert (0 <= bal * ratio / dec_one <= bal) as Hburn.
  { split; [apply Z.div_pos; unfold dec_one; nia|apply Z.div_le_upper_bound; unfold dec_one in *; nia]. }
  destruct (fees_EndBlocker_run app_send_restriction moduleAccPerms _ perm_collector perm_fees w p ratio b)
    as (w' & Er & Hst & _); fold bal; try done; [lia|lia|].
  by exists w', p, ratio.
Qed.

(** C7: no block end halts the chain, as long as feeds stay below 2^255 units. In every
    state reached from a genesis state that fits the balances, by messages that
    transactions can carry, failed ones included, by block ends and by the activity of
    the SDK: once the end-blockers of the SDK have succeeded, that of x/gov with the
    messages of its passed proposals, leaving a sane header and validator set and, at a
    window boundary, no stored feed of 2^255 units or more (a condition on every block
    end of the run, [block_env]; [SubmitFeed] does not check it, and
    [EndBlocker_outlier_overflow] shows a larger feed that does halt the chain), the
    end-blockers of x/oracle, x/rwa and x/fees succeed in their order. After a
    window boundary no feed is left; the fee burn of the block is exact on the ledger
    and in the counter, and all the invariants of the three modules hold in the next
    block. *)
Theorem chain_never_halts gs (w w0 w1 w2 w3 : W) :
  mfor early_modules (module_InitGenesis gs) w = (w0, Ok tt) -> app_genesis gs w0 ->
  App.InitGenesis gs w = (w1, Ok tt) -> Z.abs (GetSupply (w_ext w1) BondDenom) < int_limit ->
  rtc chain_move w1 w2 ->
  mfor before_oracle module_EndBlock w2 = (w3, Ok tt) -> block_env w3 ->
  (forall w4, mfor before_fees module_EndBlock w2 = (w4, Ok tt) -> collector_ok w4) ->
  exists po w4 w5 p ratio, OracleKeeper.GetParams w3 = Ok po /\
    OracleEndBlock.EndBlocker w3 = (w4, Ok tt) /\ EndBlock w2 = (w5, Ok tt) /\
    (Z.rem (w_height w3) (VoteWindow po) = 0 -> forall val pair, addr_ok val -> GetFeed val pair w5 = Ok None) /\
    Fees.GetParams w4 = Ok p /\ BurnRatioDec p = Ok ratio /\
    burned_state (GetBalance (w_ext w4) (GetModuleAddress FeesTypes.FeeCollectorName) FeeDenom * ratio / dec_one) w4 w5 /\
    app_inv w5.
Proof.
  intros He Hg H1 Hlim Hs H3 Henv Hcol.
  pose proof (app_reachable_inv w1 w2 (InitGenesis_app_inv _ _ _ _ He Hg H1 Hlim) Hs) as Hi2.
  pose proof (before_oracle_inv w2 w3 H3 Hi2) as Hi3.
  destruct (oi_params _ (ai_oracle _ Hi3)) as (po & Hpo & _).
  destruct (EndBlocker_runs w3 po (ai_oracle _ Hi3) Henv Hpo) as (w4 & H4 & Hfeeds).
  pose proof (oracle_end_inv w3 w4 Henv H4 Hi3) as Hi4.
  destruct (fees_EndBlock_runs w4 Hi4) as (w5 & p & ratio & H5 & Hp & Hr & Hb).
  { apply Hcol. change before_fees with (before_oracle ++ [OracleTypes.ModuleName; RwaTypes.ModuleName]).
    apply mfor_app_Ok. exists w3. split; [done|]. cbn [mfor]. destruct our_EndBlock as (Eo & Er & _). rewrite Eo, Er.
    erewrite bind_Ok_run by exact H4. done. }
  destruct (guar_Ok _ _ _ _ _ _ fees_EndBlock_local H5) as (O5 & _).
  exists po, w4, w5, p, ratio. split_and!; try done; [apply EndBlock_parts; eauto| |by eapply fees_end_inv].
  intros Hb0 val pair Ha. rewrite <- (Hfeeds Hb0 val pair Ha). unfold GetFeed, st_get. by rewrite O5.
Qed.

End ChainLive.

(** ** The run of [ChainRef] *)

#[local] Existing Instance ref_app_bank.
#[local] Existing Instance ref_app_bank_laws.
#[local] Existing Instance ref_modules.
#[local] Existing Instance ref_modules_laws.
#[local] Existing Instance ref_slash_laws.

Lemma ref_app_genesis : app_genesis ref_gs ref_c0.
Proof. split; [exact ref_chain_genesis|exact ref_genesis_fits|split; vm_compute; reflexivity]. Qed.

Lemma ref_moves_run : rtc chain_move ref_c1 ref_c3.
Proof.
  eapply rtc_l; [apply (move_tx ref_feed1 _ ref_c2); [exact I| |runs ref_c2]|].
  { by apply (ref_feed_fits "alice" "1.5"); vm_compute. }
  apply rtc_once, (move_tx ref_feed2 _ ref_c3); [exact I| |runs ref_c3].
  by apply (ref_feed_fits "bobby" "3"); vm_compute.
Qed.

(** What the end-blocker of x/oracle runs on: the proposal has been executed. *)
Definition ref_c3g := (mfor before_oracle module_EndBlock ref_c3).1.

Lemma ref_gov_run : mfor before_oracle module_EndBlock ref_c3 = (ref_c3g, Ok tt).
Proof. runs ref_c3g. Qed.

Lemma ref_c3g_env : block_env ref_c3g.
Proof. apply ref_block_env; [vm_compute; reflexivity..|]. apply feeds_small_check. vm_compute; reflexivity. Qed.

Lemma chain_never_halts_witness : exists w4 w5, OracleEndBlock.EndBlocker ref_c3g = (w4, Ok tt) /\
  EndBlock ref_c3 = (w5, Ok tt) /\ GetCumulativeBurned w5 = Ok 500000000.
Proof.
  destruct (chain_never_halts ref_gs ref_c0 ref_c0 ref_c1 ref_c3 ref_c3g) as (po & w4 & w5 & p & ratio & _ & H4 & H5 & _).
  - reflexivity.
  - exact ref_app_genesis.
  - exact ref_genesis_run.
  - vm_compute; reflexivity.
  - exact ref_moves_run.
  - exact ref_gov_run.
  - exact ref_c3g_env.
  - intros w4 E. assert (w4 = (mfor before_fees module_EndBlock ref_c3).1) as -> by (by rewrite E).
    split; vm_compute; congruence.
  - exists w4, w5. split; [exact H4|]. split; [exact H5|].
    assert (w5 = ref_c4) as -> by (unfold ref_c4; by rewrite H5). exact (proj1 (proj2 ref_burns)).
Defined.
