(* ===== verification/AppExport.v ===== *)
(** * app: export of the application state

    app/export.go: the preparation of a zero-height genesis, which runs every crisis
    invariant and then resets, through the keepers of the SDK, what depends on
    the height, jailing the validators that are not on a given list; and
    app/genesis_account.go. The keepers are a parameter ([ExportKeepers]); of
    their records only the fields that the code touches are known. *)

From S2P Require Import Prelude Sdk World SdkRef Wire.
From S2P Require Import FeesTypes Fees OracleTypes OracleAgg OracleKeeper OracleEndBlock OracleSafety.
From S2P Require Import RwaTypes RwaKeeper App.

Open Scope Z_scope.

(** ** The records of x/staking and x/slashing, with an unknown rest [R] *)

Section Records.
Context (R : Type).

Record XValidator : Type := mkXValidator {
  xv_Operator : string;
  xv_UnbondingHeight : Z;
  xv_Jailed : bool;
  xv_rest : R
}.

Record XDelegation : Type := mkXDelegation { xd_DelegatorAddress : string; xd_ValidatorAddress : string }.

Record XEntry : Type := mkXEntry { xe_CreationHeight : Z; xe_rest : R }.

(** A [Redelegation] or an [UnbondingDelegation]. *)
Record XEntries : Type := mkXEntries { xs_Entries : list XEntry; xs_rest : R }.

Record XSigningInfo : Type := mkXSigningInfo { xi_StartHeight : Z; xi_rest : R }.
End Records.
Arguments xv_Operator {_}.
Arguments xv_UnbondingHeight {_}.
Arguments xv_Jailed {_}.
Arguments xv_rest {_}.
Arguments mkXValidator {_}.
Arguments xe_rest {_}.
Arguments xe_CreationHeight {_}.
Arguments mkXEntry {_}.
Arguments xs_Entries {_}.
Arguments xs_rest {_}.
Arguments mkXEntries {_}.
Arguments xi_StartHeight {_}.
Arguments xi_rest {_}.
Arguments mkXSigningInfo {_}.

(** The keepers, on the state [X] of the SDK modules; the first argument of the
    calls that depend on it is the height of the context. An iteration is the list
    of what it visits; a validator is keyed by its address. [D] is the type of
    decimal coins. *)
Class ExportKeepers (X R D : Type) : Type := {
  sdk_AssertInvariants : X -> res unit;
  IterateValidators : X -> res (list (XValidator R));
  WithdrawValidatorCommission : Z -> X -> bytes -> X * res unit;
  GetAllDelegations : X -> res (list XDelegation);
  WithdrawDelegationRewards : Z -> X -> bytes -> bytes -> X * res unit;
  DeleteAllValidatorSlashEvents : X -> X;
  DeleteAllValidatorHistoricalRewards : X -> X;
  GetValidatorOutstandingRewardsCoins : X -> bytes -> res D;
  FeePool_Get : X -> res D;
  FeePool_Set : X -> D -> X * res unit;
  DecCoins_Add : D -> D -> D;
  AfterValidatorCreated : Z -> X -> bytes -> X * res unit;
  BeforeDelegationCreated : Z -> X -> bytes -> bytes -> X * res unit;
  AfterDelegationModified : Z -> X -> bytes -> bytes -> X * res unit;
  IterateRedelegations : X -> res (list (XEntries R));
  SetRedelegation : X -> XEntries R -> X * res unit;
  IterateUnbondingDelegations : X -> res (list (XEntries R));
  SetUnbondingDelegation : X -> XEntries R -> X * res unit;
  (** [AddressFromValidatorsKey] of the keys under [ValidatorsKey], in reverse
      order *)
  ValidatorsReverse : X -> list bytes;
  XGetValidator : X -> bytes -> res (XValidator R);
  SetValidator : X -> XValidator R -> X * res unit;
  ApplyAndReturnValidatorSetUpdates : Z -> X -> X * res unit;
  IterateValidatorSigningInfos : X -> res (list (bytes * XSigningInfo R));
  SetValidatorSigningInfo : X -> bytes -> XSigningInfo R -> X * res unit
}.

Section ZeroHeight.
Context {St X R D : Type} {KV : KVStore St} {SM : SdkMath} {CO : Coins} {BE : Bech32} {T : StdTime}
        {BK : BankKeeper X} {SK : StakingKeeper X} {XK : ExportKeepers X R D}.
Local Abbreviation W := (world St X).

(** [ctx.WithBlockHeight(h)]. *)
Definition with_height (h : Z) : M W unit := modify (fun w =>
  mkWorld (w_fees w) (w_oracle w) (w_rwa w) (w_ext w) h (w_time w) (w_events w)).

(** A call that gets the height of its context. *)
Definition ext_at {A} (f : Z -> X -> X * res A) : M W A := fun w => ext (f (w_height w)) w.

(** [_, _ = f(...)]: the error is dropped, a panic is not. *)
Definition ignore {A} (m : M W A) : M W unit := fun w =>
  match m w with
  | (w', Panic) => (w', Panic)
  | (w', _) => (w', Ok tt)
  end.

(** The invariants that [RegisterInvariants] of the three modules register, in the
    order of the routes; a broken one makes [AssertInvariants] panic. *)
Definition registered_invariants : list (W -> res bool) :=
  [Fees.ReconcileInvariant; Fees.ModuleBalanceInvariant; OracleKeeper.PricesInvariant;
   RwaKeeper.BondInvariant; RwaKeeper.DenomInvariant].

Definition AssertInvariants : M W unit :=
  _ ← must (ask (fun w => sdk_AssertInvariants (w_ext w)));
  mfor registered_invariants (fun inv => ask (fun w =>
    match inv w with Ok false => Ok tt | _ => Panic end)).

(** [validator.UnbondingHeight = 0], and jailed unless allowed. *)
Definition reset_validator (applyAllowedAddrs : bool) (allowedAddrsMap : gmap string bool) (addr : bytes) : M W unit :=
  validator ← must (ask (fun w => XGetValidator (w_ext w) addr));
  let jailed := if applyAllowedAddrs && negb (default false (allowedAddrsMap !! ValString addr))
                then true else xv_Jailed validator in
  must (ext (fun x => SetValidator x (mkXValidator (xv_Operator validator) 0 jailed (xv_rest validator)))).

Definition reset_entries (e : XEntries R) : XEntries R :=
  mkXEntries ((fun en => mkXEntry 0 (xe_rest en)) <$> xs_Entries e) (xs_rest e).

Definition parse_allowed (jailAllowedAddrs : list string) : res (gmap string bool) :=
  rfold jailAllowedAddrs (∅ : gmap string bool) (fun m addr =>
    _ ← must_res (ValAddressFromBech32 addr); Ok (<[addr := true]> m)).

(** [sdk.ValAddressFromBech32] and [sdk.MustAccAddressFromBech32] of a delegation. *)
Definition delegation_addrs (d : XDelegation) : M W (bytes * bytes) :=
  valAddr ← must (lift (ValAddressFromBech32 (xd_ValidatorAddress d)));
  delAddr ← must (lift (AccAddressFromBech32 (xd_DelegatorAddress d)));
  mret (valAddr, delAddr).

Definition reinit_validator (val : XValidator R) : M W unit :=
  valBz ← must (lift (ValAddressFromBech32 (xv_Operator val)));
  scraps ← must (ask (fun w => GetValidatorOutstandingRewardsCoins (w_ext w) valBz));
  feePool ← must (ask (fun w => FeePool_Get (w_ext w)));
  _ ← must (ext (fun x => FeePool_Set x (DecCoins_Add feePool scraps)));
  must (ext_at (fun h x => AfterValidatorCreated h x valBz)).

(** [log.Fatal] ends the process, as a panic does. *)
Definition prepForZeroHeightGenesis (jailAllowedAddrs : list string) : M W unit :=
  let applyAllowedAddrs := 0 <? Z.of_nat (length jailAllowedAddrs) in
  allowedAddrsMap ← lift (parse_allowed jailAllowedAddrs);
  _ ← AssertInvariants;
  vals ← must (ask (fun w => IterateValidators (w_ext w)));
  _ ← mfor vals (fun val =>
        valBz ← must (lift (ValAddressFromBech32 (xv_Operator val)));
        ignore (ext_at (fun h x => WithdrawValidatorCommission h x valBz)));
  dels ← must (ask (fun w => GetAllDelegations (w_ext w)));
  _ ← mfor dels (fun d => '(valAddr, delAddr) ← delegation_addrs d;
        ignore (ext_at (fun h x => WithdrawDelegationRewards h x delAddr valAddr)));
  _ ← modify (fun w => set_ext (DeleteAllValidatorSlashEvents (w_ext w)) w);
  _ ← modify (fun w => set_ext (DeleteAllValidatorHistoricalRewards (w_ext w)) w);
  height ← ask (fun w => Ok (w_height w));
  _ ← with_height 0;
  (* the error of this iteration is not looked at *)
  _ ← ignore (vals ← ask (fun w => IterateValidators (w_ext w)); mfor vals reinit_validator);
  _ ← mfor dels (fun d => '(valAddr, delAddr) ← delegation_addrs d;
        _ ← must (ext_at (fun h x => BeforeDelegationCreated h x delAddr valAddr));
        must (ext_at (fun h x => AfterDelegationModified h x delAddr valAddr)));
  _ ← with_height height;
  reds ← must (ask (fun w => IterateRedelegations (w_ext w)));
  _ ← mfor reds (fun red => must (ext (fun x => SetRedelegation x (reset_entries red))));
  ubds ← must (ask (fun w => IterateUnbondingDelegations (w_ext w)));
  _ ← mfor ubds (fun ubd => must (ext (fun x => SetUnbondingDelegation x (reset_entries ubd))));
  addrs ← ask (fun w => Ok (ValidatorsReverse (w_ext w)));
  _ ← mfor addrs (reset_validator applyAllowedAddrs allowedAddrsMap);
  _ ← must (ext_at ApplyAndReturnValidatorSetUpdates);
  infos ← must (ask (fun w => IterateValidatorSigningInfos (w_ext w)));
  mfor infos (fun ai => ignore (ext (fun x =>
    SetValidatorSigningInfo x ai.1 (mkXSigningInfo 0 (xi_rest ai.2))))).

(** What is exported of the three modules; the height at which the new chain
    starts. *)
Definition ExportAppStateAndValidators (forZeroHeight : bool) (jailAllowedAddrs : list string) : M W (ChainGenesis * Z) :=
  h ← ask (fun w => Ok (w_height w));
  _ ← (if forZeroHeight then prepForZeroHeightGenesis jailAllowedAddrs else mret tt);
  go ← ask OracleKeeper.ExportGenesis;
  gr ← ask RwaKeeper.ExportGenesis;
  gf ← ask Fees.ExportGenesis;
  mret (mkChainGenesis go gr gf, if forZeroHeight then 0 else wrap64 (h + 1)).

(** ** The stores of the three modules are only read *)

Definition same_stores (w w' : W) : Prop := forall sk, get_store sk w' = get_store sk w.

#[local] Instance same_stores_pre : PreOrder same_stores.
Proof. split; [done|]. intros w1 w2 w3 H1 H2 sk. by rewrite H2, H1. Qed.

Local Abbreviation reads := (guarantees same_stores same_stores).

Lemma reads_ext {A} (f : X -> X * res A) : reads (ext f).
Proof.
  intros w. unfold wlp, ext. destruct (f (w_ext w)) as [x [a|e|]]; [| |done]; intros sk; by destruct sk.
Qed.

Lemma reads_ext_at {A} (f : Z -> X -> X * res A) : reads (ext_at f).
Proof. intros w. exact (reads_ext (f (w_height w)) w). Qed.

Lemma reads_height h : reads (with_height h).
Proof. intros w. apply wlp_modify. intros sk. by destruct sk. Qed.

Lemma reads_modify_ext (g : X -> X) : reads (modify (fun w => set_ext (g (w_ext w)) w)).
Proof. intros w. apply wlp_modify. intros sk. by destruct sk. Qed.

Lemma reads_ignore {A} (m : M W A) : reads m -> reads (ignore m).
Proof. intros Hm w. specialize (Hm w). unfold wlp, ignore in *. by destruct (m w) as [w' [a|e|]]. Qed.

(** Follows the structure of a program whose steps only read the stores. *)
Ltac read_steps := repeat first
  [ apply reads_ext | apply reads_ext_at | apply reads_height | apply reads_modify_ext
  | apply guar_ask; apply _ | apply guar_lift; apply _ | apply guar_mret; apply _
  | apply reads_ignore | apply guar_must; [apply _..|]
  | apply guar_mfor; [apply _..|]; intros ? ?
  | apply guar_bind; [apply _|apply _| |intros ?]
  | case_match ].

Lemma prepForZeroHeight_reads l : reads (prepForZeroHeightGenesis l).
Proof.
  unfold prepForZeroHeightGenesis, AssertInvariants, delegation_addrs, reinit_validator, reset_validator.
  read_steps.
Qed.

Lemma exports_agree (w w' : W) : same_stores w w' ->
  OracleKeeper.ExportGenesis w' = OracleKeeper.ExportGenesis w /\
  RwaKeeper.ExportGenesis w' = RwaKeeper.ExportGenesis w /\
  Fees.ExportGenesis w' = Fees.ExportGenesis w.
Proof.
  intros H. split_and!.
  - unfold OracleKeeper.ExportGenesis, OracleKeeper.GetParams, st_get, st_iterator. by rewrite !H.
  - unfold RwaKeeper.ExportGenesis, RwaKeeper.GetParams, IterateAssets, st_get, st_iterator. rewrite !H.
    assert (forall acc a, RwaKeeper.export_members w' acc a = RwaKeeper.export_members w acc a) as Hm.
    { intros acc a. unfold export_members, IterateMembers, st_iterator. by rewrite !H. }
    assert (forall l acc, rfold l acc (export_members w') = rfold l acc (export_members w)) as Hf.
    { induction l as [|a l IH]; intros acc; cbn [rfold]; [done|]. rewrite Hm.
      destruct (export_members w acc a); cbn [mbind res_bind]; auto. }
    destruct (must_res _); cbn [mbind res_bind]; [|done..]. destruct (drop_err _ _); cbn [mbind res_bind]; [|done..].
    by rewrite Hf.
  - unfold Fees.ExportGenesis, Fees.GetParams, st_get. by rewrite !H.
Qed.

(** ** Crisis invariants *)

Lemma AssertInvariants_Ok (w w' : W) : AssertInvariants w = (w', Ok tt) ->
  w' = w /\ Forall (fun inv : W -> res bool => inv w = Ok false) registered_invariants.
Proof.
  unfold AssertInvariants. rewrite M_bind_run. unfold must, ask at 1.
  destruct (sdk_AssertInvariants (w_ext w)) as [[]| |]; [|done..]. generalize registered_invariants as l.
  induction l as [|inv l IH]; cbn [mfor]; [by intros [= <-]|].
  rewrite M_bind_run. unfold ask at 1. destruct (inv w) as [[]| |] eqn:E; [done| |done..].
  intros H. destruct (IH H) as [-> HF]. by split; [|constructor].
Qed.

Lemma broken_invariant_panics l (w : W) inv : inv ∈ registered_invariants -> inv w <> Ok false ->
  (prepForZeroHeightGenesis l w).2 <> Ok tt.
Proof.
  intros Hin Hb. destruct (prepForZeroHeightGenesis l w) as [w' r] eqn:E. intros Hr. cbn [snd] in Hr. subst r.
  unfold prepForZeroHeightGenesis in E. apply M_bind_Ok in E as (w1 & m & E1 & E). injection E1 as <- _.
  apply M_bind_Ok in E as (w2 & [] & [_ HF]%AssertInvariants_Ok & _).
  rewrite Forall_forall in HF. by apply Hb, HF.
Qed.

(** A zero-height export is the plain export of the three modules: it succeeds only
    in a state where every registered invariant holds, starts at height 0, and the
    states it contains are those that an export without the reset would contain. *)
Theorem zero_height_export l (w w' : W) gs h :
  ExportAppStateAndValidators true l w = (w', Ok (gs, h)) ->
  h = 0 /\ Forall (fun inv : W -> res bool => inv w = Ok false) registered_invariants /\
  ExportAppStateAndValidators false [] w = (w, Ok (gs, wrap64 (w_height w + 1))).
Proof.
  intros E. unfold ExportAppStateAndValidators in E.
  apply M_bind_Ok in E as (? & h0 & [= <- <-] & E). apply M_bind_Ok in E as (w1 & [] & Ep & E).
  apply M_bind_Ok in E as (? & go & [= <- Eo] & E). apply M_bind_Ok in E as (? & gr & [= <- Er] & E).
  apply M_bind_Ok in E as (? & gf & [= <- Ef] & E). injection E as <- <- <-. split; [done|].
  destruct (exports_agree w w1 (guar_Ok _ _ _ _ _ _ (prepForZeroHeight_reads l) Ep)) as (X1 & X2 & X3). split.
  - apply Forall_forall. intros inv Hin. destruct (decide (inv w = Ok false)) as [|Hn]; [done|].
    apply (broken_invariant_panics l) in Hn; [|done]. by rewrite Ep in Hn.
  - unfold ExportAppStateAndValidators. erewrite bind_ask_run by reflexivity. erewrite bind_Ok_run by reflexivity.
    erewrite bind_ask_run by (rewrite <- X1; exact Eo). erewrite bind_ask_run by (rewrite <- X2; exact Er).
    by erewrite bind_ask_run by (rewrite <- X3; exact Ef).
Qed.

(** ** Jailing *)

(** The validator store of x/staking: [SetValidator] writes the record under the
    address of its operator, which is the address it is read from. *)
Class ExportLaws : Prop := {
  validator_key (x : X) a (v : XValidator R) : XGetValidator x a = Ok v -> ValAddressFromBech32 (xv_Operator v) = Ok a;
  set_validator_get (x x' : X) (v : XValidator R) a : SetValidator x v = (x', Ok tt) ->
    ValAddressFromBech32 (xv_Operator v) = Ok a ->
    forall b, XGetValidator x' b = if decide (b = a) then Ok v else XGetValidator x b
}.

Context {XL : ExportLaws}.

(** What the loop over the validators makes of a record. *)
Definition released (apply_ : bool) (allowed : gmap string bool) (a : bytes) (v : XValidator R) : XValidator R :=
  mkXValidator (xv_Operator v) 0
    (xv_Jailed v || (apply_ && negb (default false (allowed !! ValString a)))) (xv_rest v).

Lemma reset_validator_Ok apply_ allowed a (w w' : W) : reset_validator apply_ allowed a w = (w', Ok tt) ->
  exists v, XGetValidator (w_ext w) a = Ok v /\
    forall b, XGetValidator (w_ext w') b = if decide (b = a) then Ok (released apply_ allowed a v)
                                           else XGetValidator (w_ext w) b.
Proof.
  intros E. unfold reset_validator in E. apply M_bind_Ok in E as (w1 & v & [-> Ev]%must_Ok%ask_Ok & E).
  apply must_Ok, ext_Ok in E as (x & Es & ->). exists v. split; [done|]. intros b. cbn [w_ext set_ext].
  rewrite (set_validator_get _ _ _ a Es) by (apply (validator_key _ _ _ Ev)).
  unfold released. by destruct apply_, (default false (allowed !! ValString a)), (xv_Jailed v).
Qed.

Lemma reset_validators_Ok apply_ allowed addrs (w w' : W) : NoDup addrs ->
  mfor addrs (reset_validator apply_ allowed) w = (w', Ok tt) ->
  forall a, (a ∈ addrs -> exists v, XGetValidator (w_ext w) a = Ok v /\
              XGetValidator (w_ext w') a = Ok (released apply_ allowed a v)) /\
            (a ∉ addrs -> XGetValidator (w_ext w') a = XGetValidator (w_ext w) a).
Proof.
  intros ND. revert w. induction ND as [|a0 l Hn _ IH]; intros w E a; cbn [mfor] in E.
  { injection E as <-. split; [by intros ?%not_elem_of_nil|done]. }
  apply M_bind_Ok in E as (w1 & [] & (v & Ev & H1)%reset_validator_Ok & E). destruct (IH w1 E a) as [I1 I2].
  split.
  - intros [->|Hin]%elem_of_cons.
    + exists v. split; [done|]. rewrite I2 by done. by rewrite H1, decide_True.
    + destruct (I1 Hin) as (v' & Ev' & Er). rewrite H1, decide_False in Ev' by (by intros ->). by exists v'.
  - intros [Hne Hnin]%not_elem_of_cons. by rewrite I2, H1, decide_False.
Qed.

Lemma parse_allowed_Ok l m : parse_allowed l = Ok m -> forall s, default false (m !! s) = bool_decide (s ∈ l).
Proof.
  intros E s. unfold parse_allowed in E. assert (forall m0, rfold l m0 (fun m addr =>
    _ ← must_res (ValAddressFromBech32 addr); Ok (<[addr := true]> m)) = Ok m ->
    default false (m !! s) = default false (m0 !! s) || bool_decide (s ∈ l)) as H.
  2: { apply (H ∅ E). }
  clear E.
  induction l as [|t l IH]; intros m0 E; cbn [rfold] in E.
  { injection E as <-. rewrite (bool_decide_eq_false_2 (s ∈ [])) by apply not_elem_of_nil. by rewrite orb_false_r. }
  destruct (must_res (ValAddressFromBech32 t)); cbn [mbind res_bind] in E; [|done..].
  rewrite (IH _ E). destruct (decide (s = t)) as [->|Hne].
  - rewrite lookup_insert_eq, (bool_decide_eq_true_2 (t ∈ t :: l)) by (by left). cbn. by rewrite orb_true_r.
  - rewrite lookup_insert_ne by done. f_equal. apply bool_decide_ext. set_solver.
Qed.

(** The allow list jails exactly the others: when the loop of
    [prepForZeroHeightGenesis] over the validators ends, every validator it visited
    has unbonding height 0 and is jailed exactly when it was or, if a list was
    given, when it is not on it; nothing else of it and no other validator has
    changed. *)
Theorem jails_all_but_allowed l m addrs (w w' : W) : parse_allowed l = Ok m -> NoDup addrs ->
  mfor addrs (reset_validator (0 <? Z.of_nat (length l)) m) w = (w', Ok tt) ->
  forall a, (a ∈ addrs -> exists v v', XGetValidator (w_ext w) a = Ok v /\ XGetValidator (w_ext w') a = Ok v' /\
               xv_UnbondingHeight v' = 0 /\ xv_Operator v' = xv_Operator v /\ xv_rest v' = xv_rest v /\
               (xv_Jailed v' = true <-> xv_Jailed v = true \/ (l <> [] /\ ValString a ∉ l))) /\
            (a ∉ addrs -> XGetValidator (w_ext w') a = XGetValidator (w_ext w) a).
Proof.
  intros Hp ND E a. destruct (reset_validators_Ok _ _ _ _ _ ND E a) as [H1 H2]. split; [|done].
  intros Hin. destruct (H1 Hin) as (v & Ev & Er). eexists v, _. split; [exact Ev|]. split; [exact Er|].
  cbn [released xv_UnbondingHeight xv_Operator xv_rest xv_Jailed]. split_and!; try done.
  rewrite (parse_allowed_Ok _ _ Hp), orb_true_iff, andb_true_iff, negb_true_iff, bool_decide_eq_false.
  destruct l as [|s l]; cbn; split; intros [?|[? ?]]; try tauto; try (by destruct H); right; split; done || lia.
Qed.

End ZeroHeight.

(** ** A chain that cannot be exported at height zero *)

(** Once the oracle has slashed, the reconcile invariant of x/fees is broken, and the
    preparation of a zero-height genesis stops at the crisis invariants, whatever
    the keepers of the SDK do. *)
Lemma slash_blocks_zero_height_export {R D : Type} {XK : ExportKeepers sdk_state R D} l :
  let w := (Fees.InitGenesis (BK := BK_ref ref_burners []) (FeesTypes.mkGenesisState (mkFeesParams "0.4" "0.6"))
              (ref_block_of "1.5" "3")).1 in
  (prepForZeroHeightGenesis (BK := BK_ref ref_burners []) l (OracleEndBlock.EndBlocker w).1).2 <> Ok tt.
Proof.
  intros w. apply (broken_invariant_panics (BK := BK_ref ref_burners []) l _ (Fees.ReconcileInvariant (BK := BK_ref ref_burners [])));
    [left|].
  pose proof slashing_breaks_reconcile as H. cbv zeta in H. destruct H as (_ & _ & H). fold w in H. rewrite H. discriminate.
Qed.

(** ** genesis_account.go *)

(** x/auth's accounts; [B] is a [*BaseAccount]. *)
Class AuthAccounts (B : Type) : Type := {
  BaseAccount_Validate : B -> res unit;
  ModuleAccount_Validate : B -> string -> list string -> res unit
}.

Record GenesisAccount (B : Type) : Type := mkGenesisAccount {
  ga_BaseAccount : B;
  ga_OriginalVesting : coins;
  ga_DelegatedFree : coins;
  ga_DelegatedVesting : coins;
  ga_StartTime : Z;
  ga_EndTime : Z;
  ga_ModuleName : string;
  ga_ModulePermissions : list string
}.
Arguments ga_BaseAccount {_}.
Arguments ga_OriginalVesting {_}.
Arguments ga_StartTime {_}.
Arguments ga_EndTime {_}.
Arguments ga_ModuleName {_}.
Arguments ga_ModulePermissions {_}.

(** [sdk.Coins.IsZero]: no coin has a non-zero amount. *)
Definition Coins_IsZero (c : coins) : bool := forallb (fun dc => dc.2 =? 0) c.

Definition GenesisAccount_Validate {B} {AA : AuthAccounts B} (sga : GenesisAccount B) : res unit :=
  _ ← (if negb (Coins_IsZero (ga_OriginalVesting sga)) then
         if ga_EndTime sga <=? ga_StartTime sga
         then Err (Errorf "vesting start-time cannot be before end-time") else Ok tt
       else Ok tt);
  _ ← (if negb (bool_decide (ga_ModuleName sga = ""%string))
       then ModuleAccount_Validate (ga_BaseAccount sga) (ga_ModuleName sga) (ga_ModulePermissions sga)
       else Ok tt);
  BaseAccount_Validate (ga_BaseAccount sga).

(** An accepted account that vests anything vests over a period that is not empty. *)
Lemma GenesisAccount_vesting {B} {AA : AuthAccounts B} (sga : GenesisAccount B) d z :
  GenesisAccount_Validate sga = Ok tt -> (d, z) ∈ ga_OriginalVesting sga -> z <> 0 ->
  ga_StartTime sga < ga_EndTime sga.
Proof.
  intros [H _]%seq_unit_Ok Hin Hz. destruct (Coins_IsZero (ga_OriginalVesting sga)) eqn:E; cbn [negb] in H.
  - unfold Coins_IsZero in E. rewrite forallb_forall in E. apply list_elem_of_In in Hin. apply E in Hin. cbn in Hin. lia.
  - destruct (Z.leb_spec (ga_EndTime sga) (ga_StartTime sga)); [done|lia].
Qed.
