(* ===== verification/ChainRestart.v ===== *)
(** * The application: export and restart

    app/export.go on a running chain: of every reachable state the export of the
    three modules succeeds, and when the two conditions of its validation hold, the
    import of the export rebuilds what the modules export, on the ledger and the
    validators that the SDK modules import before them. *)

From S2P Require Import Prelude Sdk World SdkRef Wire.
From S2P Require Import FeesTypes Fees OracleTypes OracleAgg OracleKeeper OracleEndBlock OracleSafety OracleInv OracleGenesis.
From S2P Require Import RwaTypes RwaKeeper RwaMsg RwaInv RwaSpec RwaSafety RwaRestart RwaRef App Chain ChainRef ChainLive AppExport.

Open Scope Z_scope.

Section ChainRestart.
Context {St X R D : Type} {KV : KVStore St} {SM : SdkMath} {CO : Coins} {BE : Bech32} {T : StdTime}
        {BK : BankKeeper X} {SK : StakingKeeper X} {SL : SlashingKeeper X} {XK : ExportKeepers X R D}.
Local Abbreviation W := (world St X).
Context {KVL : KVStoreLaws St} {SML : SdkMathLaws} {COL : CoinsLaws} {BEL : Bech32Laws} {TL : StdTimeLaws}.
Context {BKL : BankLaws X moduleAccPerms} {SLL : StakingLaws X} {SLB : SlashLaws X}.
Context {SDK : SdkModules W} {SDL : SdkModulesLaws St X}.

(** ** x/fees *)


(** ** The export *)


(** ** The new chain *)







End ChainRestart.

(** ** A restart of the reference chain *)

#[local] Existing Instance ref_app_bank.
#[local] Existing Instance ref_app_bank_laws.
#[local] Existing Instance ref_modules.
#[local] Existing Instance ref_modules_laws.
#[local] Existing Instance ref_slash_laws.




#[local] Instance ref_export_keepers : ExportKeepers sdk_state unit unit := {|
  sdk_AssertInvariants _ := Ok tt; IterateValidators _ := Ok []; WithdrawValidatorCommission _ x _ := (x, Ok tt);
  GetAllDelegations _ := Ok []; WithdrawDelegationRewards _ x _ _ := (x, Ok tt);
  DeleteAllValidatorSlashEvents x := x; DeleteAllValidatorHistoricalRewards x := x;
  GetValidatorOutstandingRewardsCoins _ _ := Ok tt; FeePool_Get _ := Ok tt; FeePool_Set x _ := (x, Ok tt);
  DecCoins_Add _ _ := tt; AfterValidatorCreated _ x _ := (x, Ok tt); BeforeDelegationCreated _ x _ _ := (x, Ok tt);
  AfterDelegationModified _ x _ _ := (x, Ok tt); IterateRedelegations _ := Ok []; SetRedelegation x _ := (x, Ok tt);
  IterateUnbondingDelegations _ := Ok []; SetUnbondingDelegation x _ := (x, Ok tt); ValidatorsReverse _ := [];
  XGetValidator _ _ := Err (Errorf "no validator"); SetValidator x _ := (x, Ok tt);
  ApplyAndReturnValidatorSetUpdates _ x := (x, Ok tt); IterateValidatorSigningInfos _ := Ok [];
  SetValidatorSigningInfo x _ _ := (x, Ok tt)
|}.



